(* ===== verification/_CoqProject ===== *)
-Q . S2P
Prelude.v
Text.v
Geometry.v
Enums.v
Models.v
Identity.v
IdentityTypes.v
DesignResult.v
BookcaseParts.v
JointGeometry.v
BookcaseJoints.v
BookcaseRetention.v
AssemblyGraph.v
Examples.v
ManufacturingModel.v
Nesting.v
LayoutCheck.v
Adapter.v
AdapterDesign.v
AdapterExamples.v
GCode.v
GCodeTotal.v
Machining.v
JsonText.v
JsonRead.v
JsonFields.v
Grain.v
Dfm.v
DfmSafety.v
DesignSafety.v
DesignExamples.v
Operations.v
OperationsOrder.v
CamValidation.v
GCodeText.v
DryRun.v
Envelopes.v
CamExamples.v
Rules.v
RulesSafety.v
RulesExamples.v
ProductionModel.v
ToolpathGeometry.v
CapsuleGeometry.v
ToolpathContracts.v
Toolpaths.v
ToolpathSafety.v
ToolpathPrograms.v
PocketCoverage.v
ToolpathExamples.v
VerificationModel.v
VerificationGeometry.v
VerificationBindings.v
VerificationPrograms.v
VerificationMotion.v
VerificationCoverage.v
Verification.v
VerificationFacts.v
VerificationSafety.v
VerificationCleared.v
VerificationTotal.v
VerificationAgreement.v
VerificationBackplot.v
VerificationExamples.v
ProductionProfile.v
ProductionParser.v
ProductionPost.v
ProductionMachine.v
ProductionSafety.v
ProductionText.v
ProductionLines.v
ProductionAccepted.v
ProductionShop.v
ProductionPosted.v
ProductionReader.v
ProductionExamples.v
MachineProfile.v
MachineProfileText.v
MachineProfileSound.v
MachineProfileExamples.v
