(* ===== verification/Prelude.v ===== *)
(** * Custombuild: a verification library

    Custombuild turns a furniture specification into parts, joints, a nesting
    layout, an operations document for a router, and machine programs.  The
    library models that pipeline, from the Python sources under [src/], and
    proves what each stage promises to the next.

    ** The program and the files that model it

    - Design.  [packages/domain]: [units.py] and [geometry.py] (bay and shelf
      allocation) in [Geometry]; [enums.py] and [support.py] in [Enums];
      [models.py] (Pydantic models with their validators) in [Models] and, for
      the compiled result and its integrity checks, [DesignResult];
      [identity.py] in [Identity] (with SHA-1, SHA-256, version-5 UUIDs and
      canonical JSON of the standard library) and [IdentityTypes].
      [engine.py], the bookcase compiler, in [BookcaseParts] ([_build_parts]),
      [JointGeometry] (the static helpers of joints), [BookcaseJoints]
      ([_build_joints], [_validate_dado_interlocks]), [BookcaseRetention] (what a
      retention contract covers) and [AssemblyGraph] ([_build_assembly_graph]).
      [Examples] applies it to a concrete bookcase, with and without a contract.
    - Manufacturing.  [packages/manufacturing]: [model.py] in
      [ManufacturingModel] (features, parts, stock) and [Machining] (tools,
      machines, setups, operations; with [profiles.py]); [nesting.py] in
      [Nesting] and [LayoutCheck]; [adapters.py] in [Adapter], with its theorems in
      [AdapterDesign] and a bookcase in [AdapterExamples]; [grain.py] in [Grain]; [dfm.py] in [Machining]
      (tool choice, machine coordinates), [Dfm] and [DfmSafety]; from a
      specification to the sheet in [DesignSafety], with a carcass in
      [DesignExamples]; [operations.py] in [Operations] and [OperationsOrder].
    - CAM and programs.  [cam]: [validation.py] and [model.py] in [CamValidation]
      and [Envelopes].  [postprocessors]: [linuxcnc_validation.py] in [DryRun],
      [parser.py] in [GCode], [GCodeTotal] and [GCodeText].  [CamExamples]
      takes concrete panels through the whole chain.
    - Screening rules.  [packages/rule-engine]: [models.py] and [engine.py] in
      [Rules]; its theorems are in [RulesSafety], a concrete design in
      [RulesExamples].
    - Production toolpaths.  [cam]: [production_model.py] in [ProductionModel];
      [toolpaths.py] in [ToolpathGeometry] (rasters, contours, the integer
      geometry of a swept cutter), [ToolpathContracts] (the binding of the source
      document and the contracts of operations) and [Toolpaths] (the program
      builder and [generate_production_toolpaths]).  [CapsuleGeometry],
      [ToolpathSafety], [ToolpathPrograms] and [PocketCoverage] hold the
      theorems, [ToolpathExamples] a document that is cut.
    - Toolpath verification.  [cam]: [production_verification.py], the independent
      check of a document against its source operations, in [VerificationModel]
      (issues, envelopes, reports), [VerificationGeometry] (what it rebuilds from an
      operation), [VerificationBindings] (machine, catalogues, setups, outlines),
      [VerificationPrograms] (order, partition, contracts), [VerificationMotion]
      (envelopes, collisions, segments), [VerificationCoverage] (passes, tabs, areas,
      contours), [Verification] ([verify_production_toolpaths]) and
      [VerificationBackplot] (the SVG).  [VerificationFacts], [VerificationSafety],
      [VerificationCleared], [VerificationTotal] and [VerificationAgreement] hold the
      theorems, [VerificationExamples] the report of the trays.
    - Production programs.  [postprocessors]: [production_model.py] and
      [runtime_contract.py] in [ProductionProfile]; [production_parser.py] in
      [ProductionParser]; [linuxcnc_production.py] in [ProductionPost].
      [ProductionMachine] is the specification: a LinuxCNC controller with its
      registers, and the events a program causes.  [ProductionSafety] has what an
      accepted text does on it.  [ProductionText] (numerals and lines),
      [ProductionLines] (the lines of a program) and [ProductionAccepted] show
      that a written program is accepted; [ProductionShop] and [ProductionPosted]
      that every document of a shop can be written.  [ProductionReader] has the
      readers [from_json] and [from_mapping].  [ProductionExamples] drills one hole
      on a bench, posts the trays and reads the profile of their machine.
    - The machine profile of a deployment.  [packages/manufacturing]:
      [production_machine_profile.py] in [MachineProfile], from the bytes of the
      document to the context of toolpath generation and the profile of the
      postprocessor; [MachineProfileText] and [MachineProfileSound] hold the
      theorems, [MachineProfileExamples] loads the profile of the shop.
    - [Prelude] (this file): errors, maps, sorting and tactics.  [Text]: string
      methods and identifiers built from parts.  [JsonText]: what the canonical
      JSON of a value determines.  [JsonRead] is [json.loads] of the standard
      library, with its hooks, over UTF-8 bytes, and the fact that reading undoes
      writing; [JsonFields] the strict decoder, closed objects and sizes of texts.

    A feature flows through the pipeline as follows.  [build_parts] and
    [build_joints] give parts with features; [adapt_design_result]
    flattens them to [PartSpec]s; [nest] places their instances on
    sheets; [dfm_validate] accepts or blocks the placed parts for a machine;
    [generate_operations_document] lowers the features to operations in machine
    coordinates; [validate_operations_document] checks the document against the
    trusted machine; [generate] writes one dry-run program per setup and has
    [validate_validation_program] check its text.  For cutting,
    [generate_production_toolpaths] turns the document, in the context of a shop,
    into programs of moves, [verify_production_toolpaths] checks them on its own,
    and [generate_production] writes each as text and has
    [validate_production_program] read it back.  The context and the profile of the
    postprocessor come from one document, [load_production_machine_profile].

    ** How the code is modelled

    Every length is a [Z] of micrometres, as in the source; no modelled code
    uses floating point.  A raised exception is [Err] of [py_error], with the
    text of the message where the code formats one; a function that may raise
    returns a [result] and is written in its error monad.  Dictionaries keyed by
    strings are [gmap]s where only lookups matter and association lists where
    iteration order or duplicates do.  Python's sort is [sort_by] of a
    comparison, lexicographic keys are [cmp_then] of [cmp_on]s.  A frozen
    dataclass or Pydantic model is a record, and its constructor with the
    checks is [new_<Model>].  Closures and loops that update local state
    (the compiler's [join] and [add_step], the nester, the parser, the safety
    validator) are folds over a record of that state.  Strings are their UTF-8
    bytes.

    Recursion is structural except in three places, where the model takes fuel:
    the word loop of the parser ([parse_words_from], with the length of the line,
    which [parse_words_terminates] shows to be enough), the splitting of a
    padded message into the blocks of a hash ([blocks], with its length), and the
    loops over the elements of a JSON array or object ([scan_elements] and
    [scan_members], with the length of the text, which [loops_fuel] shows to be
    enough).  These bounds are computed from the input, and the theorems speak of
    the results without assuming that fuel remains.  How deep JSON values may nest
    is the recursion limit of the interpreter, a parameter ([limit]) of the readers
    that raise [RecursionError] beyond it.  Loops of the source that run until
    nothing changes are folds whose number of rounds the source itself fixes.

    ** What is proved

    - Design: bay widths and shelf openings are exact and fair partitions
      ([allocate_bay_widths_partition], [allocate_bay_widths_fair],
      [equal_shelf_openings], [custom_shelf_centre]); grooves interlock with their
      mates and stay inside their panels ([fit_interval_contains],
      [dado_geometry_interlocks], [feature_origin_inside_panel]); what the
      compiler builds passes the checks that the result and the graph validators
      make ([build_joints_interlocks_agree], [build_joints_references_complete],
      [assembly_sequence_complete], [build_assembly_graph_valid]), a retention
      contract included; canonical JSON is injective ([canonical_json_injective]).
    - Manufacturing: every design of the compiler adapts to flat parts that the
      nester takes ([compiled_design_adapts]), and their cuts may cross only at
      corners of three joined panels ([overlaps_only_at_corners]); the nester places every part it places correctly, never
      raises on its own layouts, minimises its score and ignores input order
      ([nest_layout_sound], [nest_never_raises], [nest_choice_minimal],
      [nest_order_independent], [nest_utilization_bounded]), and the validator is
      exact ([validate_layout_exact]); grain issues are complete; an accepted
      design keeps every cut in its place and every wall standing
      ([accepted_cuts_stay_clear], [accepted_wall_remains]), while a panel larger
      than its blank, which no compiled design has, would not
      ([undersized_blank_accepted]); lowering covers every
      feature, in a safe order ([operations_cover_features],
      [operations_in_cutting_order]), by rigid motions ([transform_rect_rigid],
      [machining_bounds_cover]).
    - Programs: an accepted program is safe on a controller in any state
      ([validated_program_safe]); the postprocessor's programs are accepted and
      parse back ([generate_accepted]); the lowering's cutter envelopes are the
      validator's ([dogbone_envelope_agrees]); the parser ends and fails only
      with its own errors ([parse_words_terminates], [validator_errors]).

    - Rules: a design the rules do not block keeps its shelves within deflection
      and stress limits and stands with the stated factor against tipping
      ([report_screens_shelves], [tip_pass_stable]); automatic correction is a
      bounded chain of recorded improvements ([auto_correct_history]).
    - Production toolpaths: every move of a generated program stays within the
      machine, the stock and the outline of its own part, off keep-out zones and
      every other part ([production_toolpaths_safe], over the exact geometry of
      [segment_radius_touches_rect_exact]); pockets are cleared
      ([areas_are_cleared]); every operation is cut once, cuts that free a part
      last ([programs_cut_every_operation_once]).
    - Toolpath verification: a report that passes means, for any document and however
      it was made, that every move is safe ([verified_toolpaths_safe]) and every
      pocket is cleared ([verified_areas_cleared]); the geometry the verifier rebuilds
      is the generator's ([reconstructed_geometry_agrees]); it returns a report
      whenever areas and contours have sizes ([verification_returns]), and raises
      where they have none ([unsized_area_raises]); what it draws cannot break out of
      the SVG and is not confused ([backplot_metadata_inert]).
    - Production programs: a text the validator accepts makes a controller, in any
      starting state and whatever a tool change leaves behind, do exactly the
      orders of the plan ([accepted_program_executes_plan]); and what the toolpath
      generator returns for a shop the postprocessor posts, every text accepted as
      the moves it was written from ([every_document_is_posted]).
    - Machine profiles: the reader of a LinuxCNC profile returns exactly what was
      written, and nothing else is read ([from_json_exact]); no member of a
      deployment profile is ignored, the records determine its bytes
      ([loaded_document_exact]); what loads is consistent, accepted by its
      constructors and, in production, accepted by the workshop and free of
      placeholder words outside the fields that name the source of validation data
      ([loaded_profile_trusted]); and it is fit to be posted to
      ([loaded_profile_posts]).

    ** What is not modelled

    - I/O around this core: the CAD kernel bridge ([cad]), drawings, documents
      and archives ([exporters.py], [package.py], [documents.py],
      [part_drawings.py]), the HTTP service, its database, storage and
      migrations ([services/api]), the worker's queue ([services/worker]), the
      web client ([apps/web]), operator scripts and infrastructure.
    - The reader of operations documents ([parse_operations_json]), and the
      further furniture families ([furniture*.py]).
    - Within the core, messages in Swedish for displays where no decision reads
      them, and serialisers nothing modelled reads.  SHA-256 is executable but
      its collision resistance is not a theorem: statements about hashes say that
      equal hashes come from equal canonical texts, or that a collision exists. *)

From Stdlib Require Export Ascii.
From stdpp Require Export base tactics option list list_numbers strings pretty gmap sorting.
From Stdlib Require Export ZArith Lia.


#[global] Open Scope Z_scope.

(** ** Python exceptions and the error monad *)

(** The exceptions the modelled code raises.  [ValidationError] is what a
    Pydantic model raises for a field constraint; it names the field. *)
Inductive py_error :=
  | ValueError (msg : string)
  | ValidationError (field : string)
  | KeyError (key : string)
  | IndexError (msg : string)
  | TypeError (msg : string)
  | NestingError (msg : string)
  | GCodeParseError (msg : string)
  | GCodeSafetyError (msg : string)
  | CAMValidationError (msg : string)
  | ProductionBlockedError (msg : string)
  | UnicodeEncodeError
  | ZeroDivisionError
  | ProductionCAMError (msg : string)
  | AssertionError
  | UnicodeDecodeError
  | JSONDecodeError
  | RecursionError
  | ProductionMachineProfileError (msg : string).

#[export] Instance py_error_eq_dec : EqDecision py_error.
Proof. solve_decision. Defined.

Inductive result (A : Type) : Type :=
  | Ok (a : A)
  | Err (e : py_error).
Arguments Ok {A} a.
Arguments Err {A} e.

#[export] Instance result_eq_dec `{EqDecision A} : EqDecision (result A).
Proof. solve_decision. Defined.

#[export] Instance result_ret : MRet result := fun A a => Ok a.
#[export] Instance result_bind : MBind result := fun A B f m =>
  match m with Ok a => f a | Err e => Err e end.
#[export] Instance result_fmap : FMap result := fun A B f m =>
  match m with Ok a => Ok (f a) | Err e => Err e end.

Definition is_ok {A} (m : result A) : bool := if m is Ok _ then true else false.

(** [if cond: raise ValueError(msg)] *)
Definition raise_if (cond : bool) (e : py_error) : result unit :=
  if cond then Err e else Ok ().

(** A field constraint of a Pydantic model. *)
Definition field (ok : bool) (name : string) : result unit :=
  raise_if (negb ok) (ValidationError name).

Definition of_option {A} (o : option A) (e : py_error) : result A :=
  match o with Some a => Ok a | None => Err e end.

(** [for x in l: out.append(f(x))] *)
Fixpoint traverse {A B} (f : A -> result B) (l : list A) : result (list B) :=
  match l with
  | [] => Ok []
  | x :: l' => y ← f x; ys ← traverse f l'; Ok (y :: ys)
  end.

(** [for x in l: st = f(st, x)] *)
Fixpoint foldM {S A} (f : S -> A -> result S) (s : S) (l : list A) : result S :=
  match l with
  | [] => Ok s
  | x :: l' => s' ← f s x; foldM f s' l'
  end.

(** [(x for x in l if f(x))], where evaluating the condition may raise. *)
Fixpoint filterM {A} (f : A -> result bool) (l : list A) : result (list A) :=
  match l with
  | [] => Ok []
  | x :: l' => b ← f x; ys ← filterM f l'; Ok (if (b : bool) then x :: ys else ys)
  end.

(** [any(f(x) for x in l)]: stops at the first success. *)
Fixpoint anyM {A} (f : A -> result bool) (l : list A) : result bool :=
  match l with
  | [] => Ok false
  | x :: l' => b ← f x; if (b : bool) then Ok true else anyM f l'
  end.

(** [x and y], with [y] evaluated only when [x] holds. *)
Definition andM (x y : result bool) : result bool := b ← x; if (b : bool) then y else Ok false.

(** [for x in l: f(x)] for a check that only raises. *)
Fixpoint check_all {A} (f : A -> result unit) (l : list A) : result unit :=
  match l with
  | [] => Ok ()
  | x :: l' => f x;; check_all f l'
  end.

(** A dictionary without duplicates, in the order it was written, and [d[key]]. *)
Definition dict_get {A} (entries : list (string * A)) (key : string) : option A :=
  snd <$> head (filter (fun e => fst e = key) entries).
Definition at_key {A} (entries : list (string * A)) (key : string) : result A :=
  of_option (dict_get entries key) (KeyError key).

Lemma bind_Ok {A B} (m : result A) (f : A -> result B) b :
  m ≫= f = Ok b <-> exists a, m = Ok a /\ f a = Ok b.
Proof. destruct m; cbn; split; [eauto | intros (? & [= ->] & ?); done | done | intros (? & [=] & ?)]. Qed.

Section ResultLemmas.
Context {A B S : Type}.

Lemma raise_if_Ok c e u : raise_if c e = Ok u <-> c = false.
Proof. destruct c, u; cbn; intuition congruence. Qed.

Lemma raise_if_false e : raise_if false e = Ok ().
Proof. reflexivity. Qed.

Lemma field_Ok c n u : field c n = Ok u <-> c = true.
Proof. unfold field. rewrite raise_if_Ok. apply negb_false_iff. Qed.

Lemma of_option_Ok (o : option A) e a : of_option o e = Ok a <-> o = Some a.
Proof. destruct o; cbn; split; congruence. Qed.

Lemma traverse_Ok (f : A -> result B) l ys :
  traverse f l = Ok ys <-> Forall2 (fun x y => f x = Ok y) l ys.
Proof.
  revert ys; induction l as [|x l IH]; intros ys; cbn.
  - split; [intros [= <-]; constructor | intros H; by inversion H].
  - rewrite bind_Ok. split.
    + intros (y & Hy & H). apply bind_Ok in H as (ys' & H & [= <-]).
      constructor; [done | by apply IH].
    + intros H; inversion H; subst. eexists; split; [done|].
      apply bind_Ok. eexists; split; [by apply IH | done].
Qed.

Lemma traverse_length (f : A -> result B) l ys :
  traverse f l = Ok ys -> length ys = length l.
Proof. intros ?%traverse_Ok. symmetry; by eapply Forall2_length. Qed.

Lemma check_all_Ok (f : A -> result unit) l u :
  check_all f l = Ok u <-> Forall (fun x => f x = Ok ()) l.
Proof.
  destruct u. induction l as [|x l IH]; cbn; [by split; [constructor|]|].
  rewrite bind_Ok, Forall_cons. split.
  - intros ([] & ? & ?%IH). done.
  - intros [? ?]. exists tt. split; [done | by apply IH].
Qed.

Lemma filterM_elem (f : A -> result bool) l l' x :
  filterM f l = Ok l' -> (x ∈ l' <-> x ∈ l /\ f x = Ok true).
Proof.
  revert l'; induction l as [|y l IH]; intros l'; cbn.
  { intros [= <-]. split; [by intros ?%not_elem_of_nil | by intros [?%not_elem_of_nil _]]. }
  intros H. apply bind_Ok in H as (c & Hc & H). apply bind_Ok in H as (ys & Hys & H).
  injection H as <-. specialize (IH _ Hys).
  destruct c; rewrite ?elem_of_cons, IH; split; [| | |].
  - intros [->|[? ?]]; auto.
  - intros [[->|?] ?]; auto.
  - intros [? ?]; auto.
  - intros [[->|?] ?]; [congruence | auto].
Qed.

Lemma filterM_sublist (f : A -> result bool) l l' : filterM f l = Ok l' -> l' `sublist_of` l.
Proof.
  revert l'; induction l as [|y l IH]; intros l'; cbn; [by intros [= <-]|].
  intros H. apply bind_Ok in H as (c & Hc & H). apply bind_Ok in H as (ys & Hys & H).
  injection H as <-. destruct c; constructor; auto.
Qed.

(** An invariant of the loop body is an invariant of the loop. *)
Lemma foldM_inv (P : S -> Prop) (f : S -> A -> result S) l s s' :
  (forall s x s', x ∈ l -> P s -> f s x = Ok s' -> P s') ->
  P s -> foldM f s l = Ok s' -> P s'.
Proof.
  revert s; induction l as [|x l IH]; cbn; intros s Hstep HP H.
  - by injection H as <-.
  - apply bind_Ok in H as (s1 & H1 & H2).
    eapply (IH s1); [|by eapply Hstep; [left| |]|done].
    intros. eapply Hstep; [by right| |]; done.
Qed.

(** A loop whose body never raises does not raise. *)
Lemma foldM_total (f : S -> A -> result S) l s :
  (forall s x, x ∈ l -> exists s', f s x = Ok s') -> exists s', foldM f s l = Ok s'.
Proof.
  revert s; induction l as [|x l IH]; intros s H; cbn; [eauto|].
  destruct (H s x) as [s1 ->]; [left|]. cbn. apply IH. intros. apply H. by right.
Qed.

Lemma traverse_total (f : A -> result B) l :
  (forall x, x ∈ l -> exists y, f x = Ok y) -> exists ys, traverse f l = Ok ys.
Proof.
  induction l as [|x l IH]; intros H; cbn; [eauto|].
  destruct (H x) as [y ->]; [left|]. destruct IH as [ys ->]; [intros; apply H; by right|]. eauto.
Qed.

Lemma foldM_app (f : S -> A -> result S) s l1 l2 :
  foldM f s (l1 ++ l2) = foldM f s l1 ≫= (fun s' => foldM f s' l2).
Proof.
  revert s; induction l1 as [|x l1 IH]; intros s; cbn; [done|].
  destruct (f s x); cbn; [apply IH | done].
Qed.
End ResultLemmas.

Lemma dict_get_elem {A} (entries : list (string * A)) key a : dict_get entries key = Some a -> a ∈ map snd entries.
Proof.
  unfold dict_get. destruct (head _) as [[k b]|] eqn:E; [|done]. intros [= <-].
  apply head_Some_elem_of, list_elem_of_filter in E as [_ E]. by apply (list_elem_of_fmap_2 snd) in E.
Qed.

Lemma Forall2_elem {A B} (R Q : A -> B -> Prop) l1 l2 :
  (forall x y, x ∈ l1 -> R x y -> Q x y) -> Forall2 R l1 l2 -> Forall2 Q l1 l2.
Proof.
  intros H F. induction F as [|x y l1 l2 Hxy _ IH]; constructor.
  - by apply H; [left|].
  - apply IH. intros x' y' Hx'. apply H. by right.
Qed.

Lemma Forall2_elem_l {A B} (R : A -> B -> Prop) l1 l2 x : Forall2 R l1 l2 -> x ∈ l1 -> exists y, y ∈ l2 /\ R x y.
Proof.
  induction 1 as [|a b l1 l2 Hab _ IH]; [by intros ?%not_elem_of_nil|].
  intros [->|Hx]%elem_of_cons; [exists b; by split; [left|]|]. destruct (IH Hx) as (y & ? & ?). exists y. by split; [right|].
Qed.

Lemma Forall2_elem_r {A B} (R : A -> B -> Prop) l1 l2 y : Forall2 R l1 l2 -> y ∈ l2 -> exists x, x ∈ l1 /\ R x y.
Proof. intros F%Forall2_flip. by apply (Forall2_elem_l (flip R) l2 l1). Qed.

Lemma sublist_map {A B} (f : A -> B) l1 l2 : l1 `sublist_of` l2 -> map f l1 `sublist_of` map f l2.
Proof. induction 1; cbn; by constructor. Qed.

(** Splits every successful step of a monadic computation in the context. *)
Ltac inv_ok :=
  repeat match goal with
  | H : Err _ = Ok _ |- _ => discriminate H
  | H : Ok _ = Err _ |- _ => discriminate H
  | H : Ok _ = Ok _ |- _ => injection H as H
  | H : mret _ = Ok _ |- _ => injection H as H
  | H : raise_if _ _ = Ok _ |- _ => apply raise_if_Ok in H
  | H : field _ _ = Ok _ |- _ => apply field_Ok in H
  | H : of_option _ _ = Ok _ |- _ => apply of_option_Ok in H
  | H : check_all _ _ = Ok _ |- _ => apply check_all_Ok in H
  | H : mbind _ _ = Ok _ |- _ => apply bind_Ok in H as (? & ? & H)
  end; subst.

(** Turns boolean guards in the context into propositions [lia] can use. *)
Ltac bprop :=
  repeat match goal with
  | H : negb _ = true |- _ => apply negb_true_iff in H
  | H : negb _ = false |- _ => apply negb_false_iff in H
  | H : (_ && _) = true |- _ => apply andb_true_iff in H as [? ?]
  | H : (_ || _) = false |- _ => apply orb_false_iff in H as [? ?]
  | H : (_ <? _) = true |- _ => apply Z.ltb_lt in H
  | H : (_ <? _) = false |- _ => apply Z.ltb_ge in H
  | H : (_ <=? _) = true |- _ => apply Z.leb_le in H
  | H : (_ <=? _) = false |- _ => apply Z.leb_gt in H
  | H : (_ =? _) = true |- _ => apply Z.eqb_eq in H
  | H : (_ =? _) = false |- _ => apply Z.eqb_neq in H
  | H : bool_decide _ = true |- _ => apply bool_decide_eq_true in H
  | H : bool_decide _ = false |- _ => apply bool_decide_eq_false in H
  | H : _ /\ _ |- _ => destruct H
  end.

(** ** Orderings and Python's stable [sorted] *)

(** A three-way comparison that is a total preorder: what [sorted] needs of a
    key.  Keys are compared as Python compares tuples, by [cmp_then]. *)
Class TotalCmp {A} (cmp : A -> A -> comparison) : Prop := {
  cmp_antisym x y : cmp y x = CompOpp (cmp x y);
  cmp_trans x y z : cmp x y <> Gt -> cmp y z <> Gt -> cmp x z <> Gt;
}.

Definition cmp_on {A B} (f : A -> B) (cmp : B -> B -> comparison) (x y : A) : comparison :=
  cmp (f x) (f y).

Definition cmp_then {A} (c1 c2 : A -> A -> comparison) (x y : A) : comparison :=
  match c1 x y with Eq => c2 x y | r => r end.

Definition cmp_bool (x y : bool) : comparison :=
  match x, y with
  | false, true => Lt
  | true, false => Gt
  | _, _ => Eq
  end.

(** [cmp_le cmp x y]: [x] does not come strictly after [y]. *)
Definition cmp_le {A} (cmp : A -> A -> comparison) (x y : A) : bool :=
  match cmp x y with Gt => false | _ => true end.

Lemma cmp_le_spec {A} (cmp : A -> A -> comparison) x y :
  cmp_le cmp x y = true <-> cmp x y <> Gt.
Proof. unfold cmp_le. destruct (cmp x y); naive_solver. Qed.

Section Cmp.
Context {A : Type} (cmp : A -> A -> comparison) `{!TotalCmp cmp}.

Lemma cmp_refl x : cmp x x = Eq.
Proof. pose proof (cmp_antisym x x). destruct (cmp x x); done. Qed.

Lemma cmp_le_total x y : cmp_le cmp x y = true \/ cmp_le cmp y x = true.
Proof. unfold cmp_le. rewrite (cmp_antisym x y). destruct (cmp x y); auto. Qed.

Lemma cmp_le_trans x y z :
  cmp_le cmp x y = true -> cmp_le cmp y z = true -> cmp_le cmp x z = true.
Proof. rewrite !cmp_le_spec. apply cmp_trans. Qed.

Lemma cmp_le_antisym x y :
  cmp_le cmp x y = true -> cmp_le cmp y x = true -> cmp x y = Eq.
Proof. unfold cmp_le. rewrite (cmp_antisym x y). destruct (cmp x y); done. Qed.

(** Elements that compare equal are interchangeable in a comparison. *)
Lemma cmp_Eq_l x y z : cmp x y = Eq -> cmp x z = cmp y z.
Proof.
  intros Hxy. pose proof (cmp_antisym x y) as Hyx. rewrite Hxy in Hyx.
  pose proof (cmp_trans x y z). pose proof (cmp_trans y x z).
  pose proof (cmp_trans z x y). pose proof (cmp_trans z y x).
  pose proof (cmp_antisym x z) as Hzx. pose proof (cmp_antisym y z) as Hzy.
  destruct (cmp x z), (cmp y z); cbn in *; intuition congruence.
Qed.
End Cmp.

#[export] Instance Z_cmp_total : TotalCmp Z.compare.
Proof.
  split.
  - intros x y. apply Z.compare_antisym.
  - intros x y z. change (x <= y -> y <= z -> x <= z). lia.
Qed.

#[export] Instance bool_cmp_total : TotalCmp cmp_bool.
Proof. split; [by intros [] [] | intros [] [] []; cbn; congruence]. Qed.

#[export] Instance cmp_on_total {A B} (f : A -> B) cmp :
  TotalCmp cmp -> TotalCmp (cmp_on f cmp).
Proof.
  intros H. split; unfold cmp_on.
  - intros. apply cmp_antisym.
  - intros ???. apply cmp_trans.
Qed.

#[export] Instance cmp_then_total {A} (c1 c2 : A -> A -> comparison) :
  TotalCmp c1 -> TotalCmp c2 -> TotalCmp (cmp_then c1 c2).
Proof.
  intros H1 H2. split; unfold cmp_then.
  - intros x y. rewrite (cmp_antisym (cmp := c1) x y).
    destruct (c1 x y); cbn; auto using cmp_antisym.
  - intros x y z. destruct (c1 x y) eqn:Hxy; [..|done]; intros Hl.
    + rewrite (cmp_Eq_l c1 _ _ z Hxy). destruct (c1 y z); auto.
      by apply cmp_trans.
    + intros Hr. pose proof (cmp_trans (cmp := c1) x y z) as Ht.
      destruct (c1 x z) eqn:Hxz; [|done|].
      * exfalso. pose proof (cmp_Eq_l c1 _ _ y Hxz) as He.
        rewrite (cmp_antisym (cmp := c1) y z) in He.
        destruct (c1 y z); cbn in *; congruence.
      * exfalso. apply Ht; [congruence | | done].
        destruct (c1 y z); congruence.
Qed.

#[export] Instance string_cmp_total : TotalCmp String.compare.
Proof.
  split.
  - intros x y. apply String.compare_antisym.
  - intros x y z Hx Hy.
    assert (String.le x z) as Hz.
    { transitivity y; unfold String.le, String.leb.
      - destruct (x ?= y)%string; done.
      - destruct (y ?= z)%string; done. }
    unfold String.le, String.leb in Hz. destruct (x ?= z)%string; done.
Qed.

Lemma string_cmp_Eq x y : String.compare x y = Eq <-> x = y.
Proof.
  split; [apply String.compare_eq_iff|]. intros ->. apply (cmp_refl String.compare).
Qed.

Section Sorting.
Context {A : Type} (cmp : A -> A -> comparison).

(** Insertion before the first element that does not come strictly before
    it: ties keep the order of the input, as [sorted] guarantees. *)
Fixpoint insert_sorted (x : A) (l : list A) : list A :=
  match l with
  | [] => [x]
  | y :: l' => if cmp_le cmp x y then x :: l else y :: insert_sorted x l'
  end.

Fixpoint sort_by (l : list A) : list A :=
  match l with
  | [] => []
  | x :: l' => insert_sorted x (sort_by l')
  end.

Definition sorted_by : list A -> Prop := StronglySorted (fun x y => cmp_le cmp x y = true).

Lemma insert_sorted_perm x l : insert_sorted x l ≡ₚ x :: l.
Proof.
  induction l as [|y l IH]; cbn; [done|].
  destruct (cmp_le cmp x y); [done|]. rewrite IH. apply Permutation_swap.
Qed.

Lemma sort_by_perm l : sort_by l ≡ₚ l.
Proof.
  induction l as [|x l IH]; cbn; [done|]. by rewrite insert_sorted_perm, IH.
Qed.

Lemma elem_of_sort_by x l : x ∈ sort_by l <-> x ∈ l.
Proof. by rewrite sort_by_perm. Qed.

Lemma length_sort_by l : length (sort_by l) = length l.
Proof. by rewrite sort_by_perm. Qed.

(** A list already in order is left as it is. *)
Lemma sort_by_id l : sorted_by l -> sort_by l = l.
Proof.
  induction 1 as [|x l Hl IH Hx]; cbn; [done|]. rewrite IH.
  destruct l as [|y l]; cbn; [done|].
  inversion Hx as [|? ? Hxy]; subst. by rewrite Hxy.
Qed.

Context `{!TotalCmp cmp}.

Lemma insert_sorted_sorted x l : sorted_by l -> sorted_by (insert_sorted x l).
Proof.
  induction 1 as [|y l Hl IH Hy]; cbn; [by repeat constructor|].
  destruct (cmp_le cmp x y) eqn:Hxy.
  - constructor; [by constructor|]. constructor; [done|].
    eapply Forall_impl; [exact Hy|]. intros z Hz. by eapply cmp_le_trans.
  - constructor; [done|]. rewrite insert_sorted_perm. constructor; [|done].
    destruct (cmp_le_total cmp x y); congruence.
Qed.

Lemma sort_by_sorted l : sorted_by (sort_by l).
Proof. induction l; cbn; [constructor | by apply insert_sorted_sorted]. Qed.

(** When only equal elements compare equal, the sorted list depends on the
    elements alone and not on the order they came in. *)
Lemma sort_by_unique l1 l2 :
  (forall x y, x ∈ l1 -> y ∈ l1 -> cmp x y = Eq -> x = y) ->
  l1 ≡ₚ l2 -> sort_by l1 = sort_by l2.
Proof.
  intros Heq Hp.
  eapply (StronglySorted_unique_strong (fun x y => cmp_le cmp x y = true)).
  - intros x y Hx Hy Hxy Hyx. apply Heq.
    + by rewrite elem_of_sort_by in Hx.
    + by rewrite elem_of_sort_by, <- Hp in Hy.
    + by apply cmp_le_antisym.
  - apply sort_by_sorted.
  - apply sort_by_sorted.
  - by rewrite !sort_by_perm.
Qed.
End Sorting.

Definition sort_strings : list string -> list string := sort_by String.compare.

(** ** Sums, Python sets and dictionaries *)

Fixpoint sumZ (l : list Z) : Z :=
  match l with [] => 0 | x :: l' => x + sumZ l' end.

Lemma sumZ_app l1 l2 : sumZ (l1 ++ l2) = sumZ l1 + sumZ l2.
Proof. induction l1; cbn in *; lia. Qed.

Lemma sumZ_cons x l : sumZ (x :: l) = x + sumZ l.
Proof. reflexivity. Qed.

Lemma sumZ_replicate n x : sumZ (replicate n x) = Z.of_nat n * x.
Proof. induction n as [|n IH]; [done|]. cbn [replicate]. rewrite sumZ_cons, IH. nia. Qed.

#[export] Instance sumZ_perm : Proper ((≡ₚ) ==> (=)) sumZ.
Proof. induction 1; cbn in *; lia. Qed.

Lemma sumZ_nonneg l : Forall (fun x => 0 <= x) l -> 0 <= sumZ l.
Proof. induction 1; cbn in *; lia. Qed.

Lemma sumZ_map_add {A} (f g : A -> Z) l :
  sumZ (map (fun x => f x + g x) l) = sumZ (map f l) + sumZ (map g l).
Proof. induction l; cbn in *; lia. Qed.

Lemma sumZ_map_mul {A} (c : Z) (f : A -> Z) l :
  sumZ (map (fun x => c * f x) l) = c * sumZ (map f l).
Proof. induction l; cbn in *; lia. Qed.

Lemma sumZ_bounds (lo hi : Z) l :
  Forall (fun x => lo <= x <= hi) l ->
  Z.of_nat (length l) * lo <= sumZ l <= Z.of_nat (length l) * hi.
Proof. induction 1; cbn [length sumZ] in *; lia. Qed.

(** [max(l, default=d)] and [min(l, default=d)]. *)
Definition maxZ (d : Z) (l : list Z) : Z :=
  match l with [] => d | x :: l' => foldl Z.max x l' end.
Definition minZ (d : Z) (l : list Z) : Z :=
  match l with [] => d | x :: l' => foldl Z.min x l' end.

Lemma foldl_max_ge x l : x <= foldl Z.max x l.
Proof.
  revert x; induction l as [|z l IH]; intros x; cbn; [lia|].
  specialize (IH (Z.max x z)). lia.
Qed.

Lemma maxZ_le d l y : y ∈ l -> y <= maxZ d l.
Proof.
  destruct l as [|x l]; cbn; [set_solver|].
  revert x; induction l as [|z l IH]; intros x Hy; cbn.
  - apply list_elem_of_singleton in Hy. lia.
  - pose proof (foldl_max_ge (Z.max x z) l).
    apply elem_of_cons in Hy as [->|[->|Hy]%elem_of_cons]; [lia..|].
    apply IH. by right.
Qed.

Lemma foldl_max_in x l : foldl Z.max x l ∈ x :: l.
Proof.
  revert x; induction l as [|y l IH]; cbn; intros x; [left|].
  specialize (IH (Z.max x y)). destruct (Z.max_spec x y) as [[_ E]|[_ E]];
    rewrite E in *; set_solver.
Qed.

Lemma maxZ_in d l : l <> [] -> maxZ d l ∈ l.
Proof. destruct l; [done|]. intros _. apply foldl_max_in. Qed.

Lemma foldl_min_in x l : foldl Z.min x l ∈ x :: l.
Proof.
  revert x; induction l as [|y l IH]; cbn; intros x; [left|].
  specialize (IH (Z.min x y)). destruct (Z.min_spec x y) as [[_ E]|[_ E]];
    rewrite E in *; set_solver.
Qed.

Lemma minZ_in d l : l <> [] -> minZ d l ∈ l.
Proof. destruct l; [done|]. intros _. apply foldl_min_in. Qed.

Lemma foldl_min_le x l : foldl Z.min x l <= x.
Proof.
  revert x; induction l as [|z l IH]; intros x; cbn; [lia|].
  specialize (IH (Z.min x z)). lia.
Qed.

Lemma minZ_le d l y : y ∈ l -> minZ d l <= y.
Proof.
  destruct l as [|x l]; cbn; [set_solver|].
  revert x; induction l as [|z l IH]; intros x Hy; cbn.
  - apply list_elem_of_singleton in Hy. lia.
  - pose proof (foldl_min_le (Z.min x z) l).
    apply elem_of_cons in Hy as [->|[->|Hy]%elem_of_cons]; [lia..|].
    apply IH. by right.
Qed.

Section PySets.
Context `{EqDecision A}.

(** [len(set(l)) == len(l)] *)
Definition distinct (l : list A) : bool :=
  bool_decide (length (remove_dups l) = length l).

(** [set(l1) <= set(l2)] and [set(l1) == set(l2)] *)
Definition py_subset (l1 l2 : list A) : bool := forallb (fun x => bool_decide (x ∈ l2)) l1.
Definition py_set_eq (l1 l2 : list A) : bool := py_subset l1 l2 && py_subset l2 l1.

Lemma length_remove_dups_le (l : list A) : (length (remove_dups l) <= length l)%nat.
Proof. induction l; cbn; [done|]. case_decide; cbn; lia. Qed.

Lemma distinct_spec (l : list A) : distinct l = true <-> NoDup l.
Proof.
  unfold distinct. rewrite bool_decide_eq_true. induction l as [|x l IH]; cbn.
  - split; [constructor | done].
  - pose proof (length_remove_dups_le l). rewrite NoDup_cons. case_decide; cbn.
    + split; [lia | naive_solver].
    + rewrite Nat.succ_inj_wd, IH. naive_solver.
Qed.

Lemma py_subset_spec (l1 l2 : list A) : py_subset l1 l2 = true <-> l1 ⊆ l2.
Proof.
  unfold py_subset. rewrite forallb_forall. split.
  - intros H x Hx%list_elem_of_In. by apply H, bool_decide_eq_true in Hx.
  - intros H x Hx%list_elem_of_In. apply bool_decide_eq_true. by apply H.
Qed.

Lemma py_set_eq_spec (l1 l2 : list A) :
  py_set_eq l1 l2 = true <-> (forall x, x ∈ l1 <-> x ∈ l2).
Proof.
  unfold py_set_eq. rewrite andb_true_iff, !py_subset_spec. set_solver.
Qed.
End PySets.

Section Dict.
Context {A : Type} (key : A -> string).

(** [{key(x): x for x in l}]: a later element replaces an earlier one. *)
Definition dict_of (l : list A) : gmap string A :=
  foldl (fun m x => <[key x := x]> m) ∅ l.

Lemma dict_of_snoc l x : dict_of (l ++ [x]) = <[key x := x]> (dict_of l).
Proof. unfold dict_of. by rewrite foldl_app. Qed.

Lemma dict_of_Some l k x : dict_of l !! k = Some x -> x ∈ l /\ key x = k.
Proof.
  induction l as [|y l IH] using rev_ind; [done|].
  rewrite dict_of_snoc. destruct (decide (key y = k)) as [<-|Hne].
  - rewrite lookup_insert_eq. intros [= <-]. set_solver.
  - rewrite lookup_insert_ne by done. set_solver.
Qed.

Lemma dict_of_is_Some l k : is_Some (dict_of l !! k) <-> k ∈ map key l.
Proof.
  induction l as [|y l IH] using rev_ind; cbn.
  - rewrite lookup_empty. split; [by intros [? ?] | by intros ?%not_elem_of_nil].
  - rewrite dict_of_snoc, map_app, elem_of_app, lookup_insert_is_Some, IH.
    cbn. rewrite list_elem_of_singleton. destruct (decide (key y = k)); naive_solver.
Qed.

Lemma dict_of_None l k : dict_of l !! k = None <-> k ∉ map key l.
Proof. rewrite eq_None_not_Some. by rewrite dict_of_is_Some. Qed.

Lemma dict_of_elem l x : NoDup (map key l) -> x ∈ l -> dict_of l !! key x = Some x.
Proof.
  intros Hnd Hx. assert (key x ∈ map key l) as Hk by (by apply list_elem_of_fmap_2).
  apply dict_of_is_Some in Hk as [y Hy]. rewrite Hy. f_equal.
  apply dict_of_Some in Hy as [Hy Hk].
  clear -Hnd Hx Hy Hk. induction l as [|z l IH]; [set_solver|].
  cbn in Hnd. apply NoDup_cons in Hnd as [Hz Hnd].
  apply elem_of_cons in Hx as [->|Hx], Hy as [->|Hy]; auto;
    exfalso; apply Hz; [rewrite <- Hk | rewrite Hk]; by apply list_elem_of_fmap_2.
Qed.
End Dict.

(** Decimal rendering of an integer, as [str] does. *)
Definition str_of_Z (z : Z) : string := pretty z.

(** [sep.join(l)] *)
Definition str_join (sep : string) (l : list string) : string := String.concat sep l.

(** ** Pairs of a list *)

(** [R] relates every element to every later one. *)
Fixpoint pairwise {A} (R : A -> A -> Prop) (l : list A) : Prop :=
  match l with
  | [] => True
  | x :: l' => Forall (R x) l' /\ pairwise R l'
  end.

Section Pairwise.
Context {A : Type} (R : A -> A -> Prop).

Lemma pairwise_app l1 l2 :
  pairwise R (l1 ++ l2) <->
  pairwise R l1 /\ pairwise R l2 /\ forall x y, x ∈ l1 -> y ∈ l2 -> R x y.
Proof.
  induction l1 as [|x l1 IH]; cbn.
  - split; [intros H; split_and!; [done|done|by intros ? ? ?%not_elem_of_nil] | by intros (_ & ? & _)].
  - rewrite Forall_app, IH. rewrite !Forall_forall. split.
    + intros ([H1 H2] & H3 & H4 & H5). split_and!; try done. set_solver.
    + intros ((H1 & H2) & H3 & H4). split_and!; try done; set_solver.
Qed.

Lemma pairwise_sublist l1 l2 : l1 `sublist_of` l2 -> pairwise R l2 -> pairwise R l1.
Proof.
  induction 1 as [|x l1 l2 H IH|x l1 l2 H IH]; cbn; [done| |tauto].
  intros [Hx Hl]. split; [|by apply IH]. rewrite Forall_forall in *. intros y Hy. apply Hx.
  by eapply sublist_subseteq.
Qed.

Lemma pairwise_perm l1 l2 :
  (forall x y, R x y -> R y x) -> l1 ≡ₚ l2 -> pairwise R l1 -> pairwise R l2.
Proof.
  intros Sym. induction 1 as [|x l1 l2 H IH|x y l|l1 l2 l3 H1 IH1 H2 IH2]; cbn; [done| | |by auto].
  - rewrite !Forall_forall. intros [Hx Hl]. split; [|by apply IH]. intros y Hy. apply Hx. by rewrite H.
  - rewrite !Forall_cons. intros ((? & ?) & ? & ?). split_and!; auto.
Qed.

Lemma pairwise_elem l x y :
  (forall x y, R x y -> R y x) -> pairwise R l -> x ∈ l -> y ∈ l -> x <> y -> R x y.
Proof.
  intros Sym. induction l as [|z l IH]; cbn; [by intros _ ?%not_elem_of_nil|].
  rewrite Forall_forall. intros [Hz Hl] [->|Hx]%elem_of_cons [->|Hy]%elem_of_cons N; auto. done.
Qed.
End Pairwise.

(** ** Folds *)

(** Skipping elements of a fold is folding over the filtered list. *)
Lemma foldl_skip {A B C} (skip : C -> bool) (g : A -> B -> A) (h : C -> B) (l : list C) a :
  foldl (fun a c => if skip c then a else g a (h c)) a l =
  foldl g a (map h (filter (fun c => skip c = false) l)).
Proof.
  revert a; induction l as [|c l IH]; intros a; [done|]. cbn [foldl]. rewrite IH.
  destruct (skip c) eqn:E; [by rewrite filter_cons_False by congruence | by rewrite filter_cons_True].
Qed.

(** Folding equal steps over a list. *)
Lemma foldl_ext_in {A B} (f g : A -> B -> A) (l : list B) a :
  (forall a b, b ∈ l -> f a b = g a b) -> foldl f a l = foldl g a l.
Proof.
  revert a; induction l as [|b l IH]; intros a H; [done|]. cbn. rewrite H by (left).
  apply IH. intros ? ? ?. apply H. by right.
Qed.

Lemma filter_none {A} (P : A -> Prop) `{!forall x, Decision (P x)} l : Forall (fun x => ~ P x) l -> filter P l = [].
Proof. induction 1 as [|x l Hx _ IH]; [done|]. by rewrite filter_cons, decide_False. Qed.

(** ** Hints *)

(** Facts about sorting and lookups that close side conditions. *)
Create HintDb custombuild.
#[export] Hint Resolve sort_by_perm sort_by_sorted cmp_refl : custombuild.
#[export] Hint Rewrite @length_sort_by @elem_of_sort_by @sumZ_app @sumZ_cons @sumZ_replicate : custombuild.

(** Boolean checks as the conditions they decide. *)
Create HintDb conditions.
#[export] Hint Rewrite negb_true_iff negb_false_iff andb_true_iff orb_false_iff bool_decide_eq_true
  bool_decide_eq_false Z.ltb_lt Z.ltb_ge Z.leb_le Z.leb_gt Z.eqb_eq Z.eqb_neq @app_nil : conditions.
