(* ===== verification/Text.v ===== *)
(** * Text

    Character classes, the string methods of Python the code uses ([strip],
    [upper], zero-padded integers) on ASCII text, and what it takes to see that
    an identifier built from a prefix, a colon and a number determines both. *)

From S2P Require Import Prelude.

(** ** Character classes *)

Definition ascii_in (lo hi c : ascii) : bool :=
  (N.leb (N_of_ascii lo) (N_of_ascii c)) && (N.leb (N_of_ascii c) (N_of_ascii hi)).
Arguments ascii_in (lo hi c)%_char_scope.
Definition is_alnum (c : ascii) : bool :=
  ascii_in "a" "z" c || ascii_in "A" "Z" c || ascii_in "0" "9" c.
Definition is_key_char (c : ascii) : bool :=
  is_alnum c || bool_decide (c ∈ ["."; "_"; ":"; "-"]%char).

(** [[a-zA-Z0-9][a-zA-Z0-9._:-]{0,127}], matched against the whole string. *)
Definition identity_pattern (s : string) : bool :=
  match String.list_ascii_of_string s with
  | [] => false
  | c :: rest => is_alnum c && forallb is_key_char rest && bool_decide (length rest <= 127)%nat
  end.

Definition is_digit (c : ascii) : bool := ascii_in "0" "9" c.

(** [str.isspace] on ASCII characters: 9-13, 28-31 and the space. *)
Definition is_space (c : ascii) : bool :=
  let n := N_of_ascii c in
  ((9 <=? n) && (n <=? 13) || (28 <=? n) && (n <=? 32))%N.

(** ** Python's string methods *)

Definition chars : string -> list ascii := String.list_ascii_of_string.
Definition of_chars : list ascii -> string := String.string_of_list_ascii.

(** [len(s)]: the bytes of UTF-8 that are not continuation bytes. *)
Definition is_continuation (c : ascii) : bool :=
  let n := N_of_ascii c in (128 <=? n)%N && (n <? 192)%N.
Definition char_count (s : string) : nat :=
  length (List.filter (fun c => negb (is_continuation c)) (chars s)).

(** [s.split(sep)] for a one-character separator. *)
Fixpoint split_char (sep : ascii) (l : list ascii) : list (list ascii) :=
  match l with
  | [] => [[]]
  | c :: l' =>
      if bool_decide (c = sep) then [] :: split_char sep l'
      else
        match split_char sep l' with
        | first :: rest => (c :: first) :: rest
        | [] => [[c]]
        end
  end.

(** What follows the prefix [p], if [l] starts with it. *)
Fixpoint after_prefix (p l : list ascii) : option (list ascii) :=
  match p, l with
  | [], _ => Some l
  | c :: p', d :: l' => if bool_decide (c = d) then after_prefix p' l' else None
  | _ :: _, [] => None
  end.

Fixpoint drop_spaces (l : list ascii) : list ascii :=
  match l with
  | c :: l' => if is_space c then drop_spaces l' else l
  | [] => []
  end.

(** [s.strip()] *)
Definition strip (s : string) : string := of_chars (rev (drop_spaces (rev (drop_spaces (chars s))))).

Definition upper_char (c : ascii) : ascii :=
  if ascii_in "a" "z" c then ascii_of_N (N_of_ascii c - 32) else c.

(** [s.upper()] *)
Definition upper (s : string) : string := of_chars (map upper_char (chars s)).

(** [s.lower()] *)
Definition lower_char (c : ascii) : ascii :=
  if ascii_in "A" "Z" c then ascii_of_N (N_of_ascii c + 32) else c.
Definition lower (s : string) : string := of_chars (map lower_char (chars s)).

Fixpoint zeros (n : nat) (s : string) : string :=
  match n with O => s | S n' => String "0" (zeros n' s) end.

(** [f"{n:0{width}d}"] for a non-negative [n]. *)
Definition zero_padded (width : nat) (n : N) : string :=
  zeros (width - String.length (pretty n)) (pretty n).

(** [f"{z:0{width}d}"]: the sign counts towards the width. *)
Definition zero_padded_Z (width : nat) (z : Z) : string :=
  if z <? 0 then "-" +:+ zero_padded (width - 1) (Z.to_N (- z)) else zero_padded width (Z.to_N z).

(** ** Decimal values *)

Definition digit_value (c : ascii) : N := N_of_ascii c - 48.

Definition dec_value (l : list ascii) : N := foldl (fun acc c => 10 * acc + digit_value c)%N 0%N l.

Lemma dec_value_app l1 l2 :
  dec_value (l1 ++ l2) = (dec_value l1 * 10 ^ N.of_nat (length l2) + dec_value l2)%N.
Proof.
  induction l2 as [|c l2 IH] using rev_ind; cbn [length].
  - rewrite app_nil_r. change (dec_value []) with 0%N. change (N.of_nat 0) with 0%N.
    rewrite N.pow_0_r. lia.
  - unfold dec_value in *. rewrite app_assoc, (foldl_app _ (l1 ++ l2)), (foldl_app _ l2). cbn [foldl].
    rewrite IH, length_app. cbn [length]. rewrite Nat2N.inj_add, N.pow_add_r. cbn. lia.
Qed.

Lemma pretty_N_go_eq x s : (0 < x)%N ->
  pretty_N_go x s = pretty_N_go (x / 10) (String (pretty_N_char (x mod 10)) s).
Proof. apply pretty_N_go_step. Qed.

Lemma pretty_char_digit x :
  is_digit (pretty_N_char (x mod 10)) = true /\ digit_value (pretty_N_char (x mod 10)) = (x mod 10)%N.
Proof.
  pose proof (N.mod_lt x 10 ltac:(lia)) as H. revert H. generalize (x mod 10)%N as r. intros r H.
  assert (r = 0 \/ r = 1 \/ r = 2 \/ r = 3 \/ r = 4 \/ r = 5 \/ r = 6 \/ r = 7 \/ r = 8 \/ r = 9)%N as C by lia.
  by repeat destruct C as [->|C]; [..|rewrite C].
Qed.

(** The digits [pretty_N_go] puts in front of [s] spell [x]. *)
Lemma pretty_N_go_digits x s :
  exists ds, chars (pretty_N_go x s) = ds ++ chars s /\ Forall (fun c => is_digit c = true) ds /\
             dec_value ds = x.
Proof.
  revert s; induction (N.lt_wf_0 x) as [x _ IH]; intros s.
  destruct (decide (x = 0%N)) as [->|Hx].
  - exists []. rewrite pretty_N_go_0. done.
  - rewrite pretty_N_go_eq by lia.
    destruct (IH (x / 10)%N ltac:(apply N.div_lt; lia) (String (pretty_N_char (x mod 10)) s))
      as (ds & E & D & V).
    destruct (pretty_char_digit x) as [Cd Cv].
    exists (ds ++ [pretty_N_char (x mod 10)]). split_and!.
    + rewrite E. cbn. by rewrite <- app_assoc.
    + apply Forall_app. by rewrite Forall_singleton.
    + rewrite dec_value_app, V. unfold dec_value at 1. cbn [foldl length]. rewrite Cv.
      pose proof (N.div_mod x 10 ltac:(lia)). change (10 ^ N.of_nat 1)%N with 10%N. lia.
Qed.

Lemma pretty_N_digits n :
  Forall (fun c => is_digit c = true) (chars (pretty n)) /\ dec_value (chars (pretty n)) = n.
Proof.
  unfold pretty, pretty_N. destruct (decide (n = 0%N)) as [->|Hn]; [repeat constructor|].
  destruct (pretty_N_go_digits n "") as (ds & E & D & V). rewrite E. cbn. rewrite app_nil_r. done.
Qed.

Lemma chars_zeros n s : chars (zeros n s) = replicate n "0"%char ++ chars s.
Proof. unfold chars. induction n as [|n IH]; cbn; [done|]. by rewrite IH. Qed.

Lemma dec_value_zeros n l : dec_value (replicate n "0"%char ++ l) = dec_value l.
Proof.
  rewrite dec_value_app. assert (dec_value (replicate n "0"%char) = 0%N) as ->; [|lia].
  unfold dec_value. induction n as [|n IH]; cbn; [done|]. exact IH.
Qed.

Lemma zero_padded_digits w n : Forall (fun c => is_digit c = true) (chars (zero_padded w n)).
Proof.
  unfold zero_padded. rewrite chars_zeros. apply Forall_app. split; [|apply pretty_N_digits].
  by apply Forall_replicate.
Qed.

Lemma chars_app s t : chars (s +:+ t) = chars s ++ chars t.
Proof. unfold chars. induction s as [|c s IH]; [done|]. exact (f_equal (cons c) IH). Qed.

Lemma chars_of_chars l : chars (of_chars l) = l.
Proof. apply String.list_ascii_of_string_of_list_ascii. Qed.

Lemma length_chars s : length (chars s) = String.length s.
Proof. unfold chars. induction s; cbn; [done | by f_equal]. Qed.

Lemma pretty_N_go_length x s k :
  (x < 10 ^ N.of_nat k)%N -> (String.length (pretty_N_go x s) <= k + String.length s)%nat.
Proof.
  revert x s; induction k as [|k IH]; intros x s Hx.
  - assert (x = 0%N) as -> by (change (10 ^ N.of_nat 0)%N with 1%N in Hx; lia). by rewrite pretty_N_go_0.
  - destruct (decide (x = 0%N)) as [->|Hne]; [rewrite pretty_N_go_0; lia|].
    rewrite pretty_N_go_eq by lia. etransitivity; [apply IH|cbn; lia].
    rewrite Nat2N.inj_succ, N.pow_succ_r' in Hx. apply N.Div0.div_lt_upper_bound; lia.
Qed.

(** A number that fits is padded to the width exactly. *)
Lemma zero_padded_length w n :
  (0 < w)%nat -> (n < 10 ^ N.of_nat w)%N -> length (chars (zero_padded w n)) = w.
Proof.
  intros Hw Hn. unfold zero_padded. rewrite chars_zeros, length_app, length_replicate, length_chars.
  assert (String.length (pretty n) <= w)%nat; [|lia]. unfold pretty, pretty_N.
  destruct (decide (n = 0%N)); [cbn; lia|]. pose proof (pretty_N_go_length n "" w Hn). cbn in *. lia.
Qed.

(** Padding loses nothing. *)
Lemma zero_padded_inj w n m : zero_padded w n = zero_padded w m -> n = m.
Proof.
  intros E. rewrite <- (proj2 (pretty_N_digits n)), <- (proj2 (pretty_N_digits m)).
  unfold zero_padded in E. apply (f_equal chars) in E. rewrite !chars_zeros in E.
  apply (f_equal dec_value) in E. by rewrite !dec_value_zeros in E.
Qed.

(** A string cut at its last colon. *)
Lemma cut_at_last_colon a b d e :
  ":"%char ∉ chars d -> ":"%char ∉ chars e ->
  a +:+ String ":" d = b +:+ String ":" e -> a = b /\ d = e.
Proof.
  intros Hd He. revert b; induction a as [|c a IH]; intros [|c' b]; cbn.
  - by intros [= ->].
  - intros [= <- ->]. exfalso. apply Hd. clear. unfold chars. induction b; cbn; set_solver.
  - intros [= -> <-]. exfalso. apply He. clear. unfold chars. induction a; cbn; set_solver.
  - intros [= <- E]. destruct (IH b E) as [<- <-]. done.
Qed.

Lemma digits_no_colon l : Forall (fun c => is_digit c = true) l -> ":"%char ∉ l.
Proof. rewrite Forall_forall. intros H Hc. by apply H in Hc. Qed.
