(* ===== verification/Geometry.v ===== *)
(** * Units and the shared bay and shelf allocation

    [packages/domain/src/custombuild_domain/units.py] and [geometry.py]: exact
    conversion of millimetres to whole micrometres, and the integer arithmetic
    that divides a carcass into bays and shelf rows.  Every length is a [Z] of
    micrometres, as in the source, which never uses floating point. *)

From S2P Require Import Prelude.

(** ** Units *)

Module Units.
Definition UM_PER_MM : Z := 1000.
Definition UM_PER_M : Z := 1000000.

(** Python's [Decimal]: the number [coeff * 10 ^ exp]. *)
Record Decimal := Dec { dec_coeff : Z; dec_exp : Z }.

Definition decimal_of_int (n : Z) : Decimal := Dec n 0.

(** Numerator and positive denominator of a decimal. *)
Definition dec_num (d : Decimal) : Z := dec_coeff d * 10 ^ Z.max 0 (dec_exp d).
Definition dec_den (d : Decimal) : Z := 10 ^ Z.max 0 (- dec_exp d).

(** [mm]: whole micrometres or a [ValueError], never a rounded value. *)
Definition mm (value : Decimal) : result Z :=
  let num := dec_num value * UM_PER_MM in
  if num mod dec_den value =? 0 then Ok (num / dec_den value)
  else Err (ValueError "mm is not representable as whole micrometres").

(** The constants [mm(12)], [mm("0.5")], ... of the compiler. *)
Definition mm_int (n : Z) : Z := n * UM_PER_MM.
Definition mm_hundredths (n : Z) : Z := n * 10.

Definition to_mm (value_um : Z) : Decimal := Dec value_um (-3).
Definition metres (value_um : Z) : Decimal := Dec value_um (-6).

Lemma dec_den_pos d : 0 < dec_den d.
Proof. unfold dec_den. apply Z.pow_pos_nonneg; lia. Qed.

Lemma mm_of_int n : mm (decimal_of_int n) = Ok (mm_int n).
Proof.
  unfold mm, dec_num, dec_den, mm_int; cbn. rewrite Z.mul_1_r, Z.mod_1_r, Z.div_1_r.
  reflexivity.
Qed.

Lemma mm_hundredths_spec n : mm (Dec n (-2)) = Ok (mm_hundredths n).
Proof.
  unfold mm. change (dec_den (Dec n (-2))) with 100.
  replace (dec_num (Dec n (-2)) * UM_PER_MM) with (mm_hundredths n * 100)
    by (change (dec_num _) with (n * 1); unfold mm_hundredths, UM_PER_MM; lia).
  by rewrite Z.mod_mul, Z.div_mul.
Qed.
End Units.
Export Units.

(** ** Allocation of bays and shelf rows *)

(** The order in which custom bays receive the rounding remainder:
    [(-(available_um * ratios_ppm[index] % total), index)]. *)
Definition bay_remainder_cmp (available_um total : Z) (ratios_ppm : list Z) : Z -> Z -> comparison :=
  cmp_then
    (cmp_on (fun index => - ((available_um * nth (Z.to_nat index) ratios_ppm 0) mod total)) Z.compare)
    (cmp_on (fun index => index) Z.compare).

(** [widths[index] += 1] *)
Definition bump (widths : list Z) (index : Z) : list Z :=
  alter (fun w => w + 1) (Z.to_nat index) widths.

Definition allocate_bay_widths_um
    (carcass_inner_width_um thickness_um divider_count : Z) (ratios_ppm : list Z) : list Z :=
  let bay_count := divider_count + 1 in
  let available_um := carcass_inner_width_um - divider_count * thickness_um in
  if negb (bool_decide (ratios_ppm = [])) && (Z.of_nat (length ratios_ppm) =? bay_count) then
    let total := sumZ ratios_ppm in
    let widths := map (fun ratio => (available_um * ratio) / total) ratios_ppm in
    let remainder := available_um - sumZ widths in
    let order := sort_by (bay_remainder_cmp available_um total ratios_ppm) (seqZ 0 bay_count) in
    foldl bump widths (take (Z.to_nat remainder) order)
  else
    let base := available_um / bay_count in
    let remainder := available_um mod bay_count in
    map (fun index => base + (if index <? remainder then 1 else 0)) (seqZ 0 bay_count).

(** The loop of the equal allocation: [cursor_um] is the top of the last
    shelf, [row] the next row. *)
Fixpoint shelf_rows (cursor_um opening_um remainder thickness_um row : Z) (rows : nat) : list Z :=
  match rows with
  | O => []
  | S rows' =>
      let position := cursor_um + (opening_um + (if row <? remainder then 1 else 0)) in
      position :: shelf_rows (position + thickness_um) opening_um remainder thickness_um (row + 1) rows'
  end.

Definition allocate_shelf_positions_um
    (bottom_surface_z_um inner_height_um thickness_um shelf_count : Z) (ratios_ppm : list Z) : list Z :=
  if shelf_count =? 0 then []
  else if negb (bool_decide (ratios_ppm = [])) && (Z.of_nat (length ratios_ppm) =? shelf_count) then
    map (fun ratio =>
           bottom_surface_z_um + (inner_height_um * ratio + 500000) / 1000000 - thickness_um / 2)
        ratios_ppm
  else
    let clear_total_um := inner_height_um - shelf_count * thickness_um in
    let opening_um := clear_total_um / (shelf_count + 1) in
    let remainder := clear_total_um mod (shelf_count + 1) in
    shelf_rows bottom_surface_z_um opening_um remainder thickness_um 0 (Z.to_nat shelf_count).

Fixpoint opening_rows (cursor_um thickness_um ceiling_um : Z) (positions : list Z) : list Z :=
  match positions with
  | [] => [ceiling_um - cursor_um]
  | position_um :: rest =>
      position_um - cursor_um :: opening_rows (position_um + thickness_um) thickness_um ceiling_um rest
  end.

Definition shelf_opening_heights_um
    (bottom_surface_z_um inner_height_um thickness_um : Z) (shelf_positions_um : list Z) : list Z :=
  opening_rows bottom_surface_z_um thickness_um (bottom_surface_z_um + inner_height_um) shelf_positions_um.

(** ** Bay widths *)

Lemma seqZ_snoc m : 0 <= m -> seqZ 0 (m + 1) = seqZ 0 m ++ [m].
Proof.
  intros Hm. rewrite <- (Z2Nat.id m) by done.
  replace (Z.of_nat (Z.to_nat m) + 1) with (Z.of_nat (S (Z.to_nat m))) by lia.
  by rewrite seqZ_S.
Qed.

Lemma sumZ_div_mod a d l :
  d <> 0 ->
  d * sumZ (map (fun x => (a * x) / d) l) + sumZ (map (fun x => (a * x) mod d) l) = a * sumZ l.
Proof.
  intros Hd. induction l as [|x l IH]; cbn [map sumZ]; [lia|].
  pose proof (Z.div_mod (a * x) d Hd). lia.
Qed.

Section BayWidths.
Context (inner t n : Z) (ratios : list Z).
Local Notation available := (inner - n * t).
Local Notation total := (sumZ ratios).
Local Notation floors := (map (fun ratio => (available * ratio) / total) ratios).
Local Notation fracs := (map (fun ratio => (available * ratio) mod total) ratios).
Local Notation order :=
  (sort_by (bay_remainder_cmp available total ratios) (seqZ 0 (n + 1))).

Lemma bump_length ws i : length (bump ws i) = length ws.
Proof. apply length_alter. Qed.

Lemma bumps_length l ws : length (foldl bump ws l) = length ws.
Proof. revert ws; induction l; intros ws; cbn; [done|]. by rewrite IHl, bump_length. Qed.

Lemma sumZ_bump ws i : 0 <= i < Z.of_nat (length ws) -> sumZ (bump ws i) = sumZ ws + 1.
Proof.
  intros Hi. unfold bump.
  destruct (lookup_lt_is_Some_2 ws (Z.to_nat i)) as [w Hw]; [lia|].
  rewrite <- (take_drop_middle ws _ _ Hw).
  rewrite alter_app_r_alt by (rewrite length_take; lia).
  rewrite length_take, Nat.min_l by lia. rewrite Nat.sub_diag; cbn.
  rewrite !sumZ_app, !sumZ_cons. lia.
Qed.

Lemma sumZ_bumps l ws :
  Forall (fun i => 0 <= i < Z.of_nat (length ws)) l ->
  sumZ (foldl bump ws l) = sumZ ws + Z.of_nat (length l).
Proof.
  intros Hl. revert ws Hl; induction l as [|i l IH]; intros ws Hl; cbn [foldl length]; [lia|].
  apply Forall_cons in Hl as [Hi Hl]. rewrite IH by (by rewrite bump_length).
  rewrite sumZ_bump by done. lia.
Qed.

Lemma bumps_lookup l ws k w :
  NoDup l -> Forall (fun i => 0 <= i) l -> ws !! k = Some w ->
  foldl bump ws l !! k = Some (w + (if decide (Z.of_nat k ∈ l) then 1 else 0)).
Proof.
  intros Hnd Hpos. revert ws w; induction l as [|i l IH]; intros ws w Hk; cbn [foldl].
  - rewrite decide_False by set_solver. by rewrite Z.add_0_r.
  - apply NoDup_cons in Hnd as [Hi Hnd]. apply Forall_cons in Hpos as [Hi0 Hpos].
    destruct (decide (Z.of_nat k = i)) as [<-|Hne].
    + rewrite (IH Hnd Hpos _ (w + 1)).
      * rewrite decide_False, decide_True by set_solver. f_equal. lia.
      * unfold bump. rewrite Nat2Z.id, list_lookup_alter_eq, Hk. done.
    + rewrite (IH Hnd Hpos _ w).
      * f_equal. f_equal. repeat case_decide; set_solver.
      * unfold bump. rewrite list_lookup_alter_ne; [done | lia].
Qed.

(** The remainder left by the floors is the number of fractional units lost,
    hence less than the number of bays. *)
Lemma floor_remainder_range :
  Forall (fun r => 0 < r) ratios -> ratios <> [] ->
  0 <= available - sumZ floors < Z.of_nat (length ratios).
Proof.
  intros Hpos Hne.
  assert (0 < total) as Ht.
  { destruct ratios as [|r rs]; [done|]. apply Forall_cons in Hpos as [Hr Hrs].
    assert (0 <= sumZ rs); [|rewrite sumZ_cons; lia].
    apply sumZ_nonneg, (Forall_impl _ _ _ Hrs). intros; lia. }
  assert (total * (available - sumZ floors) = sumZ fracs) as Hfr.
  { pose proof (sumZ_div_mod available total ratios). lia. }
  assert (Forall (fun x => 0 <= x <= total - 1) fracs) as Hb.
  { apply Forall_map, Forall_forall. intros r _; cbn.
    pose proof (Z.mod_pos_bound (available * r) total Ht). lia. }
  apply sumZ_bounds in Hb. rewrite length_map in Hb.
  assert (0 < length ratios)%nat by (destruct ratios; cbn; [done | lia]).
  nia.
Qed.

Lemma order_perm : order ≡ₚ seqZ 0 (n + 1).
Proof. apply sort_by_perm. Qed.

Lemma order_prefix_range k :
  Forall (fun i => 0 <= i < n + 1) (take k order).
Proof.
  apply Forall_take. rewrite order_perm. apply Forall_forall.
  intros i Hi%elem_of_seqZ. lia.
Qed.

Lemma order_prefix_NoDup k : NoDup (take k order).
Proof.
  apply (sublist_NoDup _ order); [|apply sublist_take].
  rewrite order_perm. apply NoDup_seqZ.
Qed.

(** The custom allocation: floor plus one unit for the first [remainder]
    bays of the order. *)
Lemma custom_widths_eq :
  ratios <> [] -> Z.of_nat (length ratios) = n + 1 ->
  allocate_bay_widths_um inner t n ratios =
  foldl bump floors (take (Z.to_nat (available - sumZ floors)) order).
Proof.
  intros Hne Hlen. unfold allocate_bay_widths_um.
  rewrite bool_decide_eq_false_2 by done. cbn [negb andb].
  by rewrite (proj2 (Z.eqb_eq _ _) Hlen).
Qed.

Lemma custom_widths_lookup k r w :
  Z.of_nat (length ratios) = n + 1 -> ratios !! k = Some r ->
  allocate_bay_widths_um inner t n ratios !! k = Some w ->
  let rounded_up := take (Z.to_nat (available - sumZ floors)) order in
  (Z.of_nat k ∈ rounded_up /\ w = available * r / total + 1) \/
  (Z.of_nat k ∉ rounded_up /\ w = available * r / total).
Proof.
  intros Hlen Hk. assert (ratios <> []) as Hne by (by intros ->).
  rewrite custom_widths_eq by done.
  rewrite (bumps_lookup _ _ _ (available * r / total)).
  - intros [= <-]; cbv zeta. destruct (decide _); [auto | right; split; [done | lia]].
  - apply order_prefix_NoDup.
  - eapply Forall_impl; [apply order_prefix_range|]. cbn; intros; lia.
  - rewrite list_lookup_fmap, Hk. done.
Qed.

(** Every bay in the order that is not rounded up comes after every bay that
    is. *)
Lemma order_split i j k :
  Z.of_nat i ∈ take k order -> Z.of_nat j ∉ take k order -> 0 <= Z.of_nat j < n + 1 ->
  cmp_le (bay_remainder_cmp available total ratios) (Z.of_nat i) (Z.of_nat j) = true.
Proof.
  intros Hi Hj Hjn.
  assert (Z.of_nat j ∈ drop k order) as Hdrop.
  { assert (Z.of_nat j ∈ order) as Hjo by (rewrite order_perm; apply elem_of_seqZ; lia).
    rewrite <- (take_drop k) in Hjo. apply elem_of_app in Hjo as [?|?]; done. }
  pose proof (sort_by_sorted (bay_remainder_cmp available total ratios) (seqZ 0 (n + 1))) as Hs.
  unfold sorted_by in Hs. rewrite <- (take_drop k) in Hs.
  by eapply StronglySorted_app_1_elem_of in Hs.
Qed.
End BayWidths.

Lemma equal_widths_sum b r m :
  0 <= r -> sumZ (map (fun index => b + (if index <? r then 1 else 0)) (seqZ 0 (Z.of_nat m))) =
  Z.of_nat m * b + Z.min r (Z.of_nat m).
Proof.
  intros Hr. induction m as [|m IH]; [change (0 = 0 * b + Z.min r 0); lia|].
  rewrite seqZ_S, map_app, sumZ_app, IH. cbn [map sumZ].
  rewrite Nat2Z.inj_succ. destruct (Z.ltb_spec (0 + Z.of_nat m) r); nia.
Qed.

Lemma equal_widths_eq inner t n ratios :
  ratios = [] \/ Z.of_nat (length ratios) <> n + 1 ->
  allocate_bay_widths_um inner t n ratios =
  map (fun index => (inner - n * t) / (n + 1) +
                    (if index <? (inner - n * t) mod (n + 1) then 1 else 0)) (seqZ 0 (n + 1)).
Proof.
  intros H. unfold allocate_bay_widths_um.
  destruct (bool_decide_reflect (ratios = [])) as [|Hne]; cbn [negb andb]; [done|].
  destruct H as [?|H]; [done|]. by rewrite (proj2 (Z.eqb_neq _ _) H).
Qed.

(** Case analysis on which branch of the allocation runs. *)
Lemma bay_branch (ratios : list Z) n :
  (ratios = [] \/ Z.of_nat (length ratios) <> n + 1) \/
  (ratios <> [] /\ Z.of_nat (length ratios) = n + 1).
Proof.
  destruct ratios; [auto|].
  destruct (decide (Z.of_nat (length (z :: ratios)) = n + 1)); auto.
Qed.

(** the clear bay widths partition the carcass.  For any number of dividers
    and positive ratios the allocation returns one width per bay, and widths
    and divider thicknesses add up to the inner width exactly. *)
Theorem allocate_bay_widths_partition inner t n ratios :
  0 <= n -> Forall (fun r => 0 < r) ratios ->
  Z.of_nat (length (allocate_bay_widths_um inner t n ratios)) = n + 1 /\
  sumZ (allocate_bay_widths_um inner t n ratios) + n * t = inner.
Proof.
  intros Hn Hpos. destruct (bay_branch ratios n) as [H|[Hne Hlen]].
  - rewrite equal_widths_eq by done. rewrite length_map, length_seqZ. split; [lia|].
    pose proof (Z.mod_pos_bound (inner - n * t) (n + 1)) as Hm.
    pose proof (equal_widths_sum ((inner - n * t) / (n + 1)) _ (Z.to_nat (n + 1))
                  (proj1 (Hm ltac:(lia)))) as Hs.
    rewrite Z2Nat.id in Hs by lia. rewrite Hs.
    pose proof (Z.div_mod (inner - n * t) (n + 1)). lia.
  - rewrite custom_widths_eq by done.
    pose proof (floor_remainder_range inner t n ratios Hpos Hne) as Hr.
    rewrite bumps_length, length_map, sumZ_bumps.
    + rewrite length_take, Nat.min_l.
      * split; [done|]. rewrite Z2Nat.id by lia. lia.
      * rewrite order_perm, length_seqZ. lia.
    + rewrite length_map, Hlen. apply order_prefix_range.
Qed.

(** custom bays follow the largest-remainder method.  Every width is within
    one micrometre of its exact share of the available width, and a bay that is
    rounded up lost at least as large a fraction as any bay that is not; equal
    fractions are settled in favour of the leftmost bay. *)
Theorem allocate_bay_widths_fair inner t n ratios i j ri rj wi wj :
  Z.of_nat (length ratios) = n + 1 ->
  ratios !! i = Some ri -> ratios !! j = Some rj ->
  allocate_bay_widths_um inner t n ratios !! i = Some wi ->
  allocate_bay_widths_um inner t n ratios !! j = Some wj ->
  let available := inner - n * t in
  let total := sumZ ratios in
  (wi = available * ri / total \/ wi = available * ri / total + 1) /\
  (wi = available * ri / total + 1 -> wj = available * rj / total ->
   available * rj mod total < available * ri mod total \/
   (available * rj mod total = available * ri mod total /\ (i < j)%nat)).
Proof.
  intros Hlen Hi Hj Hwi Hwj available total.
  apply (custom_widths_lookup _ _ _ _ _ ri) in Hwi; [|done..].
  apply (custom_widths_lookup _ _ _ _ _ rj) in Hwj; [|done..].
  cbv zeta in Hwi, Hwj. fold available total in Hwi, Hwj.
  split; [naive_solver|]. intros Hup Hdown.
  destruct Hwi as [[Hin _]|[_ Hwi]]; [|rewrite Hup in Hwi; clear -Hwi; lia].
  destruct Hwj as [[_ Hwj]|[Hout _]]; [rewrite Hdown in Hwj; clear -Hwj; lia|].
  assert (0 <= Z.of_nat j < n + 1) as Hjn by (apply lookup_lt_Some in Hj; lia).
  pose proof (order_split _ _ _ _ _ _ _ Hin Hout Hjn) as Hs.
  apply cmp_le_spec in Hs. unfold bay_remainder_cmp, cmp_then, cmp_on in Hs.
  rewrite !Nat2Z.id, (nth_lookup_Some _ _ _ _ Hi), (nth_lookup_Some _ _ _ _ Hj) in Hs.
  fold available total in Hs.
  destruct (Z.compare_spec (- ((available * ri) mod total)) (- ((available * rj) mod total)))
    as [E|E|E]; [right|left|done].
  - split; [clear -E; lia|].
    destruct (Z.compare_spec (Z.of_nat i) (Z.of_nat j)) as [E'|E'|E']; [|clear -E'; lia|done].
    apply Nat2Z.inj in E' as ->. done.
  - clear -E. lia.
Qed.

(** ** Shelf rows *)

Lemma opening_rows_length c t ceiling ps :
  length (opening_rows c t ceiling ps) = S (length ps).
Proof. revert c; induction ps; intros c; cbn; auto. Qed.

(** Whatever the shelf positions, openings and shelves fill the interior. *)
Lemma opening_rows_sum c t ceiling ps :
  sumZ (opening_rows c t ceiling ps) + Z.of_nat (length ps) * t = ceiling - c.
Proof.
  revert c; induction ps as [|p ps IH]; intros c; cbn [opening_rows sumZ length]; [lia|].
  specialize (IH (p + t)). lia.
Qed.

Lemma shelf_openings_sum bottom inner t ps :
  sumZ (shelf_opening_heights_um bottom inner t ps) + Z.of_nat (length ps) * t = inner.
Proof. unfold shelf_opening_heights_um. rewrite opening_rows_sum. lia. Qed.

Lemma shelf_rows_length c o r t row k : length (shelf_rows c o r t row k) = k.
Proof. revert c row; induction k; intros c row; cbn; auto. Qed.

(** The openings of the loop are what the loop added, followed by whatever is
    left below the ceiling. *)
Lemma shelf_rows_openings c o r t row k ceiling :
  0 <= r -> 0 <= row ->
  opening_rows c t ceiling (shelf_rows c o r t row k) =
  map (fun index => o + (if index <? r then 1 else 0)) (seqZ row (Z.of_nat k)) ++
  [ceiling - c - Z.of_nat k * t -
   sumZ (map (fun index => o + (if index <? r then 1 else 0)) (seqZ row (Z.of_nat k)))].
Proof.
  intros Hr. revert c row; induction k as [|k IH]; intros c row Hrow; cbn [shelf_rows opening_rows].
  - change (seqZ row (Z.of_nat 0)) with (@nil Z). cbn [map app sumZ]. f_equal. lia.
  - rewrite IH by lia. rewrite (seqZ_cons row (Z.of_nat (S k))) by lia.
    replace (Z.pred (Z.of_nat (S k))) with (Z.of_nat k) by lia.
    replace (Z.succ row) with (row + 1) by lia.
    cbn [map app]. cbn [sumZ]. f_equal; [lia|]. f_equal. f_equal.
    rewrite Nat2Z.inj_succ. lia.
Qed.

(** equal shelf rows divide the interior exactly as equal bays divide the
    width.  Measuring the openings around the positions the compiler allocates
    gives back the equal allocation of the clear height: openings differ by at
    most one micrometre and, with the shelves, fill the interior. *)
Theorem equal_shelf_openings bottom inner t count :
  0 <= count ->
  shelf_opening_heights_um bottom inner t (allocate_shelf_positions_um bottom inner t count []) =
  allocate_bay_widths_um inner t count [].
Proof.
  intros Hc. rewrite equal_widths_eq by auto. unfold allocate_shelf_positions_um.
  destruct (Z.eqb_spec count 0) as [->|Hne].
  - unfold shelf_opening_heights_um; cbn [opening_rows].
    change (0 + 1) with 1. rewrite Z.mod_1_r, Z.div_1_r.
    change (seqZ 0 1) with [0]. cbn [map]. change (0 <? 0) with false. f_equal. lia.
  - cbn [negb andb bool_decide]. rewrite bool_decide_eq_true_2 by done. cbn [negb andb].
    unfold shelf_opening_heights_um.
    set (clear := inner - count * t).
    pose proof (Z.mod_pos_bound clear (count + 1) ltac:(lia)) as Hm.
    rewrite shelf_rows_openings by lia. rewrite Z2Nat.id by lia.
    rewrite seqZ_snoc, map_app by lia. f_equal. cbn [map]. f_equal.
    pose proof (equal_widths_sum (clear / (count + 1)) (clear mod (count + 1))
                  (Z.to_nat count) ltac:(lia)) as Hs.
    rewrite Z2Nat.id in Hs by lia. rewrite Hs.
    pose proof (Z.div_mod clear (count + 1) ltac:(lia)).
    destruct (Z.ltb_spec count (clear mod (count + 1))); lia.
Qed.

(** A custom shelf row is centred on its ratio.  The centre line of the
    shelf (half a thickness above its bottom, rounded down as the compiler
    does) is the requested fraction of the interior to the nearest
    micrometre. *)
Theorem custom_shelf_centre bottom inner t count ratios k r p :
  Z.of_nat (length ratios) = count -> ratios !! k = Some r ->
  allocate_shelf_positions_um bottom inner t count ratios !! k = Some p ->
  -500000 <= inner * r - (p + t / 2 - bottom) * 1000000 < 500000.
Proof.
  intros Hlen Hk. assert (ratios <> []) as Hne by (by intros ->).
  assert (count <> 0) as Hc by (apply lookup_lt_Some in Hk; lia).
  unfold allocate_shelf_positions_um. rewrite (proj2 (Z.eqb_neq _ _) Hc).
  rewrite bool_decide_eq_false_2 by done. cbn [negb andb].
  rewrite (proj2 (Z.eqb_eq _ _) Hlen), list_lookup_fmap, Hk. intros [= <-].
  pose proof (Z.div_mod (inner * r + 500000) 1000000 ltac:(lia)).
  pose proof (Z.mod_pos_bound (inner * r + 500000) 1000000 ltac:(lia)). lia.
Qed.

(** ** Concrete instances *)

Lemma allocate_bay_widths_partition_witness :
  0 <= 2 /\ sumZ (allocate_bay_widths_um 864000 18000 2 [1; 2; 1]) + 2 * 18000 = 864000.
Proof.
  split; [lia|]. apply (allocate_bay_widths_partition 864000 18000 2 [1; 2; 1]); [lia|].
  repeat constructor.
Defined.

(** Three equal ratios of 100 µm: two micrometres cannot be split evenly, and
    the first bay receives the extra one. *)
Lemma allocate_bay_widths_fair_witness :
  allocate_bay_widths_um 100 0 2 [1; 1; 1] !! 0%nat = Some 34 /\
  (34 = 100 * 1 / 3 \/ 34 = 100 * 1 / 3 + 1).
Proof.
  split; [reflexivity|].
  exact (proj1 (allocate_bay_widths_fair 100 0 2 [1; 1; 1] 0 2 1 1 34 33 eq_refl eq_refl eq_refl
                  eq_refl eq_refl)).
Defined.

Lemma equal_shelf_openings_witness :
  0 <= 2 /\
  shelf_opening_heights_um 98000 1084001 18000 (allocate_shelf_positions_um 98000 1084001 18000 2 [])
  = [349334; 349334; 349333].
Proof.
  split; [lia|].
  rewrite (equal_shelf_openings 98000 1084001 18000 2); [vm_compute; reflexivity | lia].
Defined.

Lemma custom_shelf_centre_witness :
  allocate_shelf_positions_um 98000 1084000 18000 2 [333333; 700000] !! 0%nat = Some 450333 /\
  -500000 <= 1084000 * 333333 - (450333 + 18000 / 2 - 98000) * 1000000 < 500000.
Proof.
  split; [vm_compute; reflexivity|].
  apply (custom_shelf_centre 98000 1084000 18000 2 [333333; 700000] 0 333333 450333); vm_compute; reflexivity.
Defined.
