(* ===== verification/Enums.v ===== *)
(** * The domain vocabulary

    The enumerations of [packages/domain/src/custombuild_domain/enums.py], with
    the string value each member has as a [StrEnum], and the joint support
    matrix of [support.py]. *)

From S2P Require Import Prelude.

Inductive PartRole :=
  | LEFT_SIDE | RIGHT_SIDE | TOP | BOTTOM | SHELF | BACK | PLINTH | DIVIDER
  | BASE_SIDE | BASE_BOTTOM | BASE_TOP | CABINET_FRONT | TABLE_END
  | TABLE_STRETCHER | DRAWER_SIDE | DRAWER_FRONT | DRAWER_BACK | DRAWER_BOTTOM.

Definition PartRole_value (r : PartRole) : string :=
  match r with
  | LEFT_SIDE => "left_side" | RIGHT_SIDE => "right_side" | TOP => "top"
  | BOTTOM => "bottom" | SHELF => "shelf" | BACK => "back" | PLINTH => "plinth"
  | DIVIDER => "divider" | BASE_SIDE => "base_side" | BASE_BOTTOM => "base_bottom"
  | BASE_TOP => "base_top" | CABINET_FRONT => "cabinet_front" | TABLE_END => "table_end"
  | TABLE_STRETCHER => "table_stretcher" | DRAWER_SIDE => "drawer_side"
  | DRAWER_FRONT => "drawer_front" | DRAWER_BACK => "drawer_back"
  | DRAWER_BOTTOM => "drawer_bottom"
  end.

Inductive FeatureKind :=
  | DRILL | SERIES_DRILL | COUNTERSINK | POCKET | GROOVE | F_RABBET | F_TENON
  | EDGE_RELIEF | OUTER_CONTOUR | MARK.

Definition FeatureKind_value (k : FeatureKind) : string :=
  match k with
  | DRILL => "drill" | SERIES_DRILL => "drill_pattern" | COUNTERSINK => "countersink"
  | POCKET => "pocket" | GROOVE => "groove" | F_RABBET => "rabbet" | F_TENON => "tenon"
  | EDGE_RELIEF => "edge_relief" | OUTER_CONTOUR => "outer_contour" | MARK => "mark"
  end.

(** A cutter exit that is open at a nominal feature boundary. *)
Inductive OpenEndRelief := U_MIN | U_MAX | V_MIN | V_MAX.

Definition OpenEndRelief_value (r : OpenEndRelief) : string :=
  match r with U_MIN => "u_min" | U_MAX => "u_max" | V_MIN => "v_min" | V_MAX => "v_max" end.

Inductive JointType :=
  | DOWEL | CONFIRMAT | CAM_DOWEL | SHELF_PIN | RABBET | DADO | TENON.

Definition JointType_value (j : JointType) : string :=
  match j with
  | DOWEL => "dowel" | CONFIRMAT => "confirmat" | CAM_DOWEL => "cam_dowel"
  | SHELF_PIN => "shelf_pin" | RABBET => "rabbet" | DADO => "dado" | TENON => "tenon"
  end.

(** Adhesive-free ways a joint may be retained, whether they need extra CNC
    geometry, and the load modes an evidence-backed capacity covers. *)
Inductive JointRetentionMethod := DRY_SELF_LOCKING | MECHANICAL.
Inductive JointRetentionMachiningScope := NO_ADDITIONAL_CNC | FEATURES_BOUND_TO_JOINT.
Inductive JointRetentionLoadMode := SHEAR | WITHDRAWAL.

Definition JointRetentionMethod_value (m : JointRetentionMethod) : string :=
  match m with DRY_SELF_LOCKING => "dry_self_locking" | MECHANICAL => "mechanical" end.
Definition JointRetentionMachiningScope_value (m : JointRetentionMachiningScope) : string :=
  match m with
  | NO_ADDITIONAL_CNC => "no_additional_cnc"
  | FEATURES_BOUND_TO_JOINT => "features_bound_to_joint"
  end.
Definition JointRetentionLoadMode_value (m : JointRetentionLoadMode) : string :=
  match m with SHEAR => "shear" | WITHDRAWAL => "withdrawal" end.

(** [A] and [B] are the panel-relative broad faces, the rest are physical. *)
Inductive FaceName :=
  | FACE_A | FACE_B | FACE_FRONT | FACE_BACK | FACE_LEFT | FACE_RIGHT | FACE_TOP | FACE_BOTTOM.

Definition FaceName_value (f : FaceName) : string :=
  match f with
  | FACE_A => "a" | FACE_B => "b" | FACE_FRONT => "front" | FACE_BACK => "back"
  | FACE_LEFT => "left" | FACE_RIGHT => "right" | FACE_TOP => "top" | FACE_BOTTOM => "bottom"
  end.

Inductive GrainDirection := GRAIN_X | GRAIN_Y | GRAIN_Z | GRAIN_NONE.
Inductive ShelfMount := FIXED | ADJUSTABLE.
Inductive BackPanelType := BACK_NONE | SURFACE_MOUNTED | INSET_GROOVE.
Inductive ReinforcementMode := MANUAL | AUTO.
Inductive MaterialType := SHEET_GOOD | SOLID_WOOD.
Inductive AssemblyDirection := POS_X | NEG_X | POS_Y | NEG_Y | POS_Z | NEG_Z.
Inductive DesignStatus :=
  | CONCEPT | DRAFT | DESIGN_VALIDATED | CAM_VALIDATED | APPROVED | RELEASED
  | SUPERSEDED | ARCHIVED.

Definition GrainDirection_value (g : GrainDirection) : string :=
  match g with GRAIN_X => "x" | GRAIN_Y => "y" | GRAIN_Z => "z" | GRAIN_NONE => "none" end.
Definition ShelfMount_value (m : ShelfMount) : string :=
  match m with FIXED => "fixed" | ADJUSTABLE => "adjustable" end.
Definition BackPanelType_value (b : BackPanelType) : string :=
  match b with
  | BACK_NONE => "none" | SURFACE_MOUNTED => "surface_mounted" | INSET_GROOVE => "inset_groove"
  end.
Definition ReinforcementMode_value (m : ReinforcementMode) : string :=
  match m with MANUAL => "manual" | AUTO => "auto" end.
Definition MaterialType_value (m : MaterialType) : string :=
  match m with SHEET_GOOD => "sheet_good" | SOLID_WOOD => "solid_wood" end.
Definition AssemblyDirection_value (d : AssemblyDirection) : string :=
  match d with
  | POS_X => "+x" | NEG_X => "-x" | POS_Y => "+y" | NEG_Y => "-y" | POS_Z => "+z" | NEG_Z => "-z"
  end.
Definition DesignStatus_value (s : DesignStatus) : string :=
  match s with
  | CONCEPT => "concept" | DRAFT => "draft" | DESIGN_VALIDATED => "design_validated"
  | CAM_VALIDATED => "cam_validated" | APPROVED => "approved" | RELEASED => "released"
  | SUPERSEDED => "superseded" | ARCHIVED => "archived"
  end.

(** The two applications of a DADO: the retained carcass joint and the groove
    that captures a back panel ([models.JointRetentionApplicationClass]). *)
Inductive JointRetentionApplicationClass :=
  | LOAD_BEARING_CARCASS_DADO | CAPTIVE_INSET_BACK_GROOVE.

Definition JointRetentionApplicationClass_value (c : JointRetentionApplicationClass) : string :=
  match c with
  | LOAD_BEARING_CARCASS_DADO => "load_bearing_carcass_dado"
  | CAPTIVE_INSET_BACK_GROOVE => "captive_inset_back_groove"
  end.

#[export] Instance PartRole_eq_dec : EqDecision PartRole.
Proof. solve_decision. Defined.
#[export] Instance FeatureKind_eq_dec : EqDecision FeatureKind.
Proof. solve_decision. Defined.
#[export] Instance OpenEndRelief_eq_dec : EqDecision OpenEndRelief.
Proof. solve_decision. Defined.
#[export] Instance JointType_eq_dec : EqDecision JointType.
Proof. solve_decision. Defined.
#[export] Instance JointRetentionMethod_eq_dec : EqDecision JointRetentionMethod.
Proof. solve_decision. Defined.
#[export] Instance JointRetentionMachiningScope_eq_dec : EqDecision JointRetentionMachiningScope.
Proof. solve_decision. Defined.
#[export] Instance JointRetentionLoadMode_eq_dec : EqDecision JointRetentionLoadMode.
Proof. solve_decision. Defined.
#[export] Instance FaceName_eq_dec : EqDecision FaceName.
Proof. solve_decision. Defined.
#[export] Instance GrainDirection_eq_dec : EqDecision GrainDirection.
Proof. solve_decision. Defined.
#[export] Instance ShelfMount_eq_dec : EqDecision ShelfMount.
Proof. solve_decision. Defined.
#[export] Instance BackPanelType_eq_dec : EqDecision BackPanelType.
Proof. solve_decision. Defined.
#[export] Instance ReinforcementMode_eq_dec : EqDecision ReinforcementMode.
Proof. solve_decision. Defined.
#[export] Instance MaterialType_eq_dec : EqDecision MaterialType.
Proof. solve_decision. Defined.
#[export] Instance AssemblyDirection_eq_dec : EqDecision AssemblyDirection.
Proof. solve_decision. Defined.
#[export] Instance DesignStatus_eq_dec : EqDecision DesignStatus.
Proof. solve_decision. Defined.
#[export] Instance JointRetentionApplicationClass_eq_dec : EqDecision JointRetentionApplicationClass.
Proof. solve_decision. Defined.

(** The faces of a physical box, the axes they are normal to and their sign:
    the table of [BookcaseEngine._physical_face]. *)
Inductive axis := AX | AY | AZ.
#[export] Instance axis_eq_dec : EqDecision axis.
Proof. solve_decision. Defined.

(** [BOOKCASE_JOINT_SUPPORT_MATRIX]: status, scope and reason per joint. *)
Record JointSupport := mkJointSupport {
  support_status : string; support_scope : string; support_reason : string }.

Definition BOOKCASE_JOINT_SUPPORT_MATRIX (j : JointType) : JointSupport :=
  match j with
  | DOWEL => mkJointSupport "blocked" "primary-carcass"
      "Matching edge-boring setups and assembly access are not verified."
  | CONFIRMAT => mkJointSupport "blocked" "primary-carcass"
      "Edge drilling requires a documented setup unavailable in the MVP."
  | CAM_DOWEL => mkJointSupport "blocked" "primary-carcass"
      "The supplier-specific boring pattern is not versioned and verified."
  | SHELF_PIN => mkJointSupport "conditional" "adjustable-shelves-only"
      "Supported only when shelf_mount=adjustable; not a carcass joint."
  | RABBET => mkJointSupport "blocked" "primary-carcass"
      "Mating geometry and fastening capacity are not production-verified."
  | DADO => mkJointSupport "supported" "bookcase-production-mvp"
      "Deterministic mating geometry, DFM, CAM and assembly sequence exist."
  | TENON => mkJointSupport "blocked" "primary-carcass"
      "Authoritative CAD and toolpath generation are not implemented."
  end.

Definition SUPPORTED_BOOKCASE_PRIMARY_JOINTS : list JointType := [DADO].
