(* ===== verification/Models.v ===== *)
(** * The domain models

    [packages/domain/src/custombuild_domain/models.py]: the frozen Pydantic
    models as records, and for each of them the function that accepts or
    rejects a record as the model's constructor does: the field constraints in
    declaration order (the first violated one is reported), then the
    [model_validator].  Constructing a model is [new_<Model> (mk<Model> ...)]. *)

From S2P Require Import Prelude Text Geometry Enums.

(** ** Constrained field types *)

Definition PositiveUm (z : Z) : bool := 0 <? z.
Definition NonNegativeUm (z : Z) : bool := 0 <=? z.
Definition in_range (lo hi z : Z) : bool := (lo <=? z) && (z <=? hi).
Definition RatioPpm (z : Z) : bool := (0 <? z) && (z <=? 1000000).
Definition optional {A} (p : A -> bool) (o : option A) : bool :=
  match o with Some a => p a | None => true end.

(** [^[a-zA-Z0-9][a-zA-Z0-9._:-]{0,127}$] *)
Definition StableKey (s : string) : bool := identity_pattern s.

(** [^[a-f0-9]{64}$] *)
Definition Sha256Hex (s : string) : bool :=
  forallb (fun c => ascii_in "a" "f" c || ascii_in "0" "9" c) (String.list_ascii_of_string s)
  && bool_decide (String.length s = 64%nat).

(** [Field(min_length=lo, max_length=hi)], which counts characters. *)
Definition str_len (lo hi : nat) (s : string) : bool :=
  bool_decide (lo <= char_count s)%nat && bool_decide (char_count s <= hi)%nat.
#[global] Arguments str_len : simpl never.
#[global] Opaque str_len.

Definition BOOKCASE_ENGINE_VERSION : string := "0.9.0".
Definition BOOKCASE_TEMPLATE_VERSION : string := "2.2.0".

(** ** Catalogue models *)

Record PropertySource := mkPropertySource {
  src_source_id : string; src_title : string; src_revision : string;
  src_uri : option string; src_valid_from : option string; src_note : option string }.

Definition new_PropertySource (s : PropertySource) : result PropertySource :=
  field (StableKey (src_source_id s)) "source_id";;
  field (str_len 1 240 (src_title s)) "title";;
  field (str_len 1 64 (src_revision s)) "revision";;
  Ok s.

Record MaterialVersion := mkMaterialVersion {
  mat_material_id : string;
  mat_version : string;
  mat_name : string;
  mat_material_type : MaterialType;
  mat_nominal_thickness_um : Z;
  mat_density_kg_m3 : Z;
  mat_elastic_modulus_mpa : Z;
  mat_bending_strength_mpa : Z;
  mat_shear_strength_mpa : Z;
  mat_creep_factor_permille : Z;
  mat_property_uncertainty_permille : Z;
  mat_min_supported_thickness_um : Z;
  mat_max_supported_thickness_um : Z;
  mat_grain_direction : GrainDirection;
  mat_machining_allowance_um : Z;
  mat_source : PropertySource }.

Definition validate_thickness_range (m : MaterialVersion) : result unit :=
  raise_if (mat_max_supported_thickness_um m <? mat_min_supported_thickness_um m)
    (ValueError "material thickness range is inverted");;
  raise_if (negb (in_range (mat_min_supported_thickness_um m) (mat_max_supported_thickness_um m)
                    (mat_nominal_thickness_um m)))
    (ValueError "nominal thickness is outside the material version's supported range");;
  raise_if (900 <? mat_property_uncertainty_permille m)
    (ValueError "material property uncertainty must be at most 900 permille").

Definition new_MaterialVersion (m : MaterialVersion) : result MaterialVersion :=
  field (StableKey (mat_material_id m)) "material_id";;
  field (StableKey (mat_version m)) "version";;
  field (str_len 1 160 (mat_name m)) "name";;
  field (PositiveUm (mat_nominal_thickness_um m)) "nominal_thickness_um";;
  field (PositiveUm (mat_density_kg_m3 m)) "density_kg_m3";;
  field (PositiveUm (mat_elastic_modulus_mpa m)) "elastic_modulus_mpa";;
  field (PositiveUm (mat_bending_strength_mpa m)) "bending_strength_mpa";;
  field (PositiveUm (mat_shear_strength_mpa m)) "shear_strength_mpa";;
  field (NonNegativeUm (mat_creep_factor_permille m)) "creep_factor_permille";;
  field (NonNegativeUm (mat_property_uncertainty_permille m)) "property_uncertainty_permille";;
  field (PositiveUm (mat_min_supported_thickness_um m)) "min_supported_thickness_um";;
  field (PositiveUm (mat_max_supported_thickness_um m)) "max_supported_thickness_um";;
  field (NonNegativeUm (mat_machining_allowance_um m)) "machining_allowance_um";;
  new_PropertySource (mat_source m);;
  validate_thickness_range m;;
  Ok m.

Record WallAnchorSpec := mkWallAnchorSpec {
  wa_required : bool;
  wa_wall_substrate : option string;
  wa_anchor_system_id : option string;
  wa_evidence_id : option string;
  wa_verified : bool }.

(** Python truthiness of an optional string. *)
Definition truthy (o : option string) : bool :=
  match o with Some s => negb (bool_decide (s = "")) | None => false end.

Definition verified_needs_evidence (w : WallAnchorSpec) : result unit :=
  raise_if (wa_verified w &&
            negb (wa_required w && truthy (wa_wall_substrate w) &&
                  truthy (wa_anchor_system_id w) && truthy (wa_evidence_id w)))
    (ValueError "a verified wall anchor requires substrate, approved system and evidence ID").

Definition new_WallAnchorSpec (w : WallAnchorSpec) : result WallAnchorSpec :=
  field (optional StableKey (wa_anchor_system_id w)) "anchor_system_id";;
  field (optional StableKey (wa_evidence_id w)) "evidence_id";;
  verified_needs_evidence w;;
  Ok w.

(** ** Joint retention *)

Record JointRetentionMaterialIdentity := mkRetentionMaterial {
  rm_material_id : string; rm_material_version : string }.

Record JointRetentionLoadCase := mkLoadCase {
  lc_mode : JointRetentionLoadMode; lc_rated_design_load_n : Z; lc_verified_capacity_n : Z }.

Record JointRetentionContract := mkRetentionContract {
  rc_system_id : string;
  rc_system_version : string;
  rc_joint_type : JointType;
  rc_application_class : JointRetentionApplicationClass;
  rc_method : JointRetentionMethod;
  rc_catalog_entry_sha256 : string;
  rc_evidence_id : string;
  rc_evidence_sha256 : string;
  rc_installation_instruction_id : string;
  rc_installation_instruction_version : string;
  rc_installation_instruction_sha256 : string;
  rc_machining_scope : JointRetentionMachiningScope;
  rc_hardware_sku : string;
  rc_hardware_count_per_joint : Z;
  rc_applicable_materials : list JointRetentionMaterialIdentity;
  rc_joint_geometry_sha256 : string;
  rc_minimum_applicable_thickness_um : Z;
  rc_maximum_applicable_thickness_um : Z;
  rc_load_cases : list JointRetentionLoadCase;
  rc_safety_factor_permille : Z;
  rc_bound_feature_ids : list string }.

#[export] Instance JointRetentionMaterialIdentity_eq_dec : EqDecision JointRetentionMaterialIdentity.
Proof. solve_decision. Defined.
#[export] Instance JointRetentionLoadCase_eq_dec : EqDecision JointRetentionLoadCase.
Proof. solve_decision. Defined.
#[export] Instance JointRetentionContract_eq_dec : EqDecision JointRetentionContract.
Proof. solve_decision. Defined.

Definition material_key (i : JointRetentionMaterialIdentity) : string * string :=
  (rm_material_id i, rm_material_version i).

Definition material_key_cmp : string * string -> string * string -> comparison :=
  cmp_then (cmp_on fst String.compare) (cmp_on snd String.compare).

(** [verified_capacity * 1000 < rated_load * safety_factor] *)
Definition load_case_short (safety_factor_permille : Z) (c : JointRetentionLoadCase) : bool :=
  lc_verified_capacity_n c * 1000 <? lc_rated_design_load_n c * safety_factor_permille.

Definition validate_machining_scope (c : JointRetentionContract) : result unit :=
  raise_if (negb (bool_decide (rc_application_class c = LOAD_BEARING_CARCASS_DADO)))
    (ValueError "the current retention contract only covers load-bearing carcass DADOs");;
  let material_keys := map material_key (rc_applicable_materials c) in
  raise_if (negb (bool_decide (material_keys = sort_by material_key_cmp (remove_dups material_keys))))
    (ValueError "joint-retention applicable materials must be sorted and unique");;
  raise_if (rc_maximum_applicable_thickness_um c <? rc_minimum_applicable_thickness_um c)
    (ValueError "joint-retention thickness range is inverted");;
  raise_if (negb (bool_decide (map lc_mode (rc_load_cases c) = [SHEAR; WITHDRAWAL])))
    (ValueError "joint-retention load cases must contain canonical shear and withdrawal modes");;
  raise_if (existsb (load_case_short (rc_safety_factor_permille c)) (rc_load_cases c))
    (ValueError "verified joint-retention capacity does not meet the declared design load and safety factor");;
  let feature_ids := rc_bound_feature_ids c in
  raise_if (negb (distinct feature_ids) || existsb (fun item => bool_decide (item = "")) feature_ids)
    (ValueError "joint-retention feature IDs must be unique and non-blank");;
  (if bool_decide (rc_machining_scope c = FEATURES_BOUND_TO_JOINT)
   then raise_if (bool_decide (feature_ids = []))
     (ValueError "feature-bound joint retention requires at least one manufacturing feature ID")
   else raise_if (negb (bool_decide (feature_ids = [])))
     (ValueError "joint-retention feature IDs require the features-bound machining scope"));;
  raise_if (bool_decide (rc_method c = DRY_SELF_LOCKING) &&
            negb (bool_decide (rc_machining_scope c = FEATURES_BOUND_TO_JOINT)))
    (ValueError "dry self-locking retention requires explicit joint-bound manufacturing features").

Definition new_JointRetentionMaterialIdentity (i : JointRetentionMaterialIdentity)
    : result JointRetentionMaterialIdentity :=
  field (StableKey (rm_material_id i)) "material_id";;
  field (StableKey (rm_material_version i)) "material_version";; Ok i.

Definition new_JointRetentionLoadCase (l : JointRetentionLoadCase) : result JointRetentionLoadCase :=
  field (PositiveUm (lc_rated_design_load_n l)) "rated_design_load_n";;
  field (PositiveUm (lc_verified_capacity_n l)) "verified_capacity_n";; Ok l.

Definition new_JointRetentionContract (c : JointRetentionContract) : result JointRetentionContract :=
  field (StableKey (rc_system_id c)) "system_id";;
  field (StableKey (rc_system_version c)) "system_version";;
  field (Sha256Hex (rc_catalog_entry_sha256 c)) "catalog_entry_sha256";;
  field (StableKey (rc_evidence_id c)) "evidence_id";;
  field (Sha256Hex (rc_evidence_sha256 c)) "evidence_sha256";;
  field (StableKey (rc_installation_instruction_id c)) "installation_instruction_id";;
  field (StableKey (rc_installation_instruction_version c)) "installation_instruction_version";;
  field (Sha256Hex (rc_installation_instruction_sha256 c)) "installation_instruction_sha256";;
  field (StableKey (rc_hardware_sku c)) "hardware_sku";;
  field (PositiveUm (rc_hardware_count_per_joint c)) "hardware_count_per_joint";;
  field (bool_decide (1 <= length (rc_applicable_materials c))%nat) "applicable_materials";;
  check_all (fun i => new_JointRetentionMaterialIdentity i;; Ok ()) (rc_applicable_materials c);;
  field (Sha256Hex (rc_joint_geometry_sha256 c)) "joint_geometry_sha256";;
  field (PositiveUm (rc_minimum_applicable_thickness_um c)) "minimum_applicable_thickness_um";;
  field (PositiveUm (rc_maximum_applicable_thickness_um c)) "maximum_applicable_thickness_um";;
  field (bool_decide (length (rc_load_cases c) = 2%nat)) "load_cases";;
  check_all (fun l => new_JointRetentionLoadCase l;; Ok ()) (rc_load_cases c);;
  field (in_range 1000 100000 (rc_safety_factor_permille c)) "safety_factor_permille";;
  validate_machining_scope c;;
  Ok c.

(** ** The parametric specification *)

Record BookcaseParameters := mkBookcaseParameters {
  p_width_um : Z;
  p_height_um : Z;
  p_depth_um : Z;
  p_nominal_thickness_um : Z;
  p_actual_thickness_um : Z;
  p_shelf_count : Z;
  p_shelf_mount : ShelfMount;
  p_shelf_load_n : Z;
  p_vertical_divider_count : Z;
  p_bay_width_ratios_ppm : list Z;
  p_shelf_height_ratios_ppm : list Z;
  p_base_cabinet_height_um : Z;
  p_base_cabinet_depth_um : Z;
  p_base_cabinet_count : Z;
  p_back_panel : BackPanelType;
  p_back_thickness_um : Z;
  p_plinth_height_um : Z;
  p_shelf_side_clearance_um : Z;
  p_edge_band_thickness_um : Z;
  p_joint_system : JointType;
  p_reinforcement_mode : ReinforcementMode;
  p_max_deflection_um : Z;
  p_deflection_span_ratio : Z;
  p_structural_safety_factor_permille : Z;
  p_assumed_horizontal_force_n : Z;
  p_wall_anchor : WallAnchorSpec }.

Definition default_wall_anchor : WallAnchorSpec := mkWallAnchorSpec false None None None false.

(** [BookcaseParameters()]: every field at its declared default. *)
Definition default_parameters : BookcaseParameters :=
  mkBookcaseParameters (mm_int 900) (mm_int 2000) (mm_int 320) (mm_int 18) (mm_int 18)
    5 FIXED 300 0 [] [] 0 0 0 INSET_GROOVE (mm_int 6) (mm_int 80) (mm_int 1) 0 DADO MANUAL
    (mm_int 3) 200 1800 50 default_wall_anchor.

(** [shelf_zone_bottom]: the upper face of the panel the shelves stand over. *)
Definition shelf_zone_bottom (p : BookcaseParameters) : Z :=
  if negb (p_base_cabinet_count p =? 0)
  then p_plinth_height_um p + p_base_cabinet_height_um p
  else p_plinth_height_um p + p_actual_thickness_um p.

(** Rows out of order, or closer than 5 percent, or too close to an end. *)
Fixpoint shelf_ratios_bad (previous : option Z) (ratios : list Z) : bool :=
  match ratios with
  | [] => false
  | value :: rest =>
      (value <? 50000) || (950000 <? value) ||
      match previous with Some v => value - v <? 50000 | None => false end ||
      shelf_ratios_bad (Some value) rest
  end.

Definition check_bay_ratios (p : BookcaseParameters) : result unit :=
  let ratios := p_bay_width_ratios_ppm p in
  if bool_decide (ratios = []) then Ok ()
  else
    raise_if (negb (Z.of_nat (length ratios) =? p_vertical_divider_count p + 1))
      (ValueError "bay width ratios must match the number of bays");;
    raise_if (existsb (fun value => value * 100 <? sumZ ratios * 8) ratios)
      (ValueError "every custom bay must be at least 8 percent of the inner width").

Definition check_shelf_ratios (p : BookcaseParameters) : result unit :=
  let ratios := p_shelf_height_ratios_ppm p in
  if bool_decide (ratios = []) then Ok ()
  else
    raise_if (negb (Z.of_nat (length ratios) =? p_shelf_count p))
      (ValueError "shelf height ratios must match the shelf count");;
    raise_if (shelf_ratios_bad None ratios)
      (ValueError "custom shelf centres must be ordered and separated by at least 5 percent").

Definition param_bay_widths (p : BookcaseParameters) : list Z :=
  allocate_bay_widths_um (p_width_um p - 2 * p_actual_thickness_um p) (p_actual_thickness_um p)
    (p_vertical_divider_count p) (p_bay_width_ratios_ppm p).

Definition param_base_openings (p : BookcaseParameters) : list Z :=
  if p_base_cabinet_count p =? p_vertical_divider_count p + 1
  then param_bay_widths p
  else allocate_bay_widths_um (p_width_um p - 2 * p_actual_thickness_um p)
         (p_actual_thickness_um p) (p_base_cabinet_count p - 1) [].

Definition check_base_cabinets (p : BookcaseParameters) : result unit :=
  let t := p_actual_thickness_um p in
  if negb (p_base_cabinet_count p =? 0) then
    raise_if (p_base_cabinet_height_um p <? mm_int 300)
      (ValueError "base cabinet height must be at least 300 mm");;
    raise_if (negb (p_base_cabinet_depth_um p =? p_depth_um p))
      (ValueError "base cabinet depth must equal the furniture depth");;
    raise_if (p_height_um p - t - mm_int 200 <=? p_base_cabinet_height_um p)
      (ValueError "base cabinet leaves no usable upper shelving zone");;
    raise_if (existsb (fun opening => opening <? mm_int 200) (param_base_openings p))
      (ValueError "base cabinet layout leaves an unmanufacturable module width")
  else
    raise_if (negb (p_base_cabinet_height_um p =? 0) || negb (p_base_cabinet_depth_um p =? 0))
      (ValueError "base cabinet dimensions require at least one cabinet module").

Definition param_shelf_positions (p : BookcaseParameters) : list Z :=
  allocate_shelf_positions_um (shelf_zone_bottom p)
    (p_height_um p - p_actual_thickness_um p - shelf_zone_bottom p)
    (p_actual_thickness_um p) (p_shelf_count p) (p_shelf_height_ratios_ppm p).

Definition param_shelf_openings (p : BookcaseParameters) : list Z :=
  shelf_opening_heights_um (shelf_zone_bottom p)
    (p_height_um p - p_actual_thickness_um p - shelf_zone_bottom p)
    (p_actual_thickness_um p) (param_shelf_positions p).

Definition validate_geometry (p : BookcaseParameters) : result unit :=
  raise_if (negb (bool_decide (p_joint_system p ∈ SUPPORTED_BOOKCASE_PRIMARY_JOINTS)))
    (ValueError "joint system is not supported end-to-end by the production MVP");;
  let t := p_actual_thickness_um p in
  raise_if ((p_width_um p <? mm_int 250) || (p_height_um p <? mm_int 300) ||
            (p_depth_um p <? mm_int 100))
    (ValueError "bookcase dimensions are below the supported template minimum");;
  raise_if (p_width_um p <=? 2 * t) (ValueError "width must exceed two side thicknesses");;
  raise_if (p_height_um p <=? p_plinth_height_um p + 2 * t)
    (ValueError "height leaves no usable internal opening");;
  raise_if (p_depth_um p <=? t) (ValueError "depth must exceed material thickness");;
  raise_if (p_width_um p - 2 * t - p_vertical_divider_count p * t <=? 0)
    (ValueError "vertical dividers consume all internal width");;
  check_bay_ratios p;;
  check_shelf_ratios p;;
  raise_if (existsb (fun width => width <? 2 * p_shelf_side_clearance_um p + mm_int 40)
              (param_bay_widths p))
    (ValueError "divider layout leaves an unmanufacturable shelf width");;
  raise_if (existsb (fun opening => opening <? mm_int 40) (param_shelf_openings p))
    (ValueError "shelf layout leaves an unmanufacturable opening height");;
  check_base_cabinets p;;
  raise_if (bool_decide (p_back_panel p = INSET_GROOVE) &&
            (p_depth_um p <=? p_back_thickness_um p + mm_int 12))
    (ValueError "depth is insufficient for the inset back-panel groove");;
  raise_if (bool_decide (p_back_panel p = BACK_NONE) && (p_back_thickness_um p <=? 0))
    (ValueError "back thickness must remain a positive catalogue value");;
  raise_if (negb (in_range 1000 5000 (p_structural_safety_factor_permille p)))
    (ValueError "structural safety factor must be between 1.0 and 5.0").

Definition new_BookcaseParameters (p : BookcaseParameters) : result BookcaseParameters :=
  field (in_range (mm_int 250) (mm_int 6000) (p_width_um p)) "width_um";;
  field (in_range (mm_int 300) (mm_int 4000) (p_height_um p)) "height_um";;
  field (in_range (mm_int 100) (mm_int 1200) (p_depth_um p)) "depth_um";;
  field (PositiveUm (p_nominal_thickness_um p)) "nominal_thickness_um";;
  field (PositiveUm (p_actual_thickness_um p)) "actual_thickness_um";;
  field (in_range 0 40 (p_shelf_count p)) "shelf_count";;
  field (in_range 0 5000 (p_shelf_load_n p)) "shelf_load_n";;
  field (in_range 0 16 (p_vertical_divider_count p)) "vertical_divider_count";;
  field (forallb RatioPpm (p_bay_width_ratios_ppm p)) "bay_width_ratios_ppm";;
  field (forallb RatioPpm (p_shelf_height_ratios_ppm p)) "shelf_height_ratios_ppm";;
  field (in_range 0 (mm_int 2000) (p_base_cabinet_height_um p)) "base_cabinet_height_um";;
  field (in_range 0 (mm_int 1200) (p_base_cabinet_depth_um p)) "base_cabinet_depth_um";;
  field (in_range 0 17 (p_base_cabinet_count p)) "base_cabinet_count";;
  field (PositiveUm (p_back_thickness_um p)) "back_thickness_um";;
  field (NonNegativeUm (p_plinth_height_um p)) "plinth_height_um";;
  field (NonNegativeUm (p_shelf_side_clearance_um p)) "shelf_side_clearance_um";;
  field (NonNegativeUm (p_edge_band_thickness_um p)) "edge_band_thickness_um";;
  field (PositiveUm (p_max_deflection_um p)) "max_deflection_um";;
  field (PositiveUm (p_deflection_span_ratio p)) "deflection_span_ratio";;
  field (PositiveUm (p_structural_safety_factor_permille p)) "structural_safety_factor_permille";;
  field (PositiveUm (p_assumed_horizontal_force_n p)) "assumed_horizontal_force_n";;
  new_WallAnchorSpec (p_wall_anchor p);;
  validate_geometry p;;
  Ok p.

Definition assert_furniture_family (p : BookcaseParameters) (furniture_type : string)
    : result BookcaseParameters :=
  if bool_decide (furniture_type = "bookcase") then
    raise_if (negb (p_base_cabinet_count p =? 0) || negb (p_base_cabinet_height_um p =? 0) ||
              negb (p_base_cabinet_depth_um p =? 0))
      (ValueError "bookcase furniture cannot contain base cabinets");;
    Ok p
  else if bool_decide (furniture_type = "wall_library") then
    raise_if (p_base_cabinet_count p <? 1)
      (ValueError "wall-library furniture requires at least one base cabinet");;
    raise_if (p_base_cabinet_height_um p <? mm_int 300)
      (ValueError "wall-library base cabinet height must be at least 300 mm");;
    raise_if (negb (p_base_cabinet_depth_um p =? p_depth_um p))
      (ValueError "wall-library base cabinet depth must equal furniture depth");;
    raise_if (p_height_um p - p_actual_thickness_um p - mm_int 200 <=? p_base_cabinet_height_um p)
      (ValueError "wall-library base cabinet leaves no usable upper shelving zone");;
    Ok p
  else Err (ValueError "unsupported furniture family").

Record BookcaseDesignSpec := mkBookcaseDesignSpec {
  spec_design_id : string;
  spec_revision : Z;
  spec_template_id : string;
  spec_template_version : string;
  spec_engine_version : string;
  spec_status : DesignStatus;
  spec_parameters : BookcaseParameters;
  spec_material : MaterialVersion;
  spec_back_material : option MaterialVersion;
  spec_joint_retention : option JointRetentionContract }.

Definition reject_retired_compiler_versions (s : BookcaseDesignSpec) : result unit :=
  raise_if (negb (bool_decide (spec_engine_version s = BOOKCASE_ENGINE_VERSION)) ||
            negb (bool_decide (spec_template_version s = BOOKCASE_TEMPLATE_VERSION)))
    (ValueError "the requested engine/template version is retired; create new revision").

Definition validate_material (s : BookcaseDesignSpec) : result unit :=
  let p := spec_parameters s in
  let m := spec_material s in
  raise_if (negb (p_nominal_thickness_um p =? mat_nominal_thickness_um m))
    (ValueError "design nominal thickness must match material catalogue version");;
  raise_if (negb (in_range (mat_min_supported_thickness_um m) (mat_max_supported_thickness_um m)
                    (p_actual_thickness_um p)))
    (ValueError "measured thickness is outside the material version's supported range");;
  if negb (bool_decide (p_back_panel p = BACK_NONE)) then
    match spec_back_material s with
    | None => Err (ValueError "a versioned back material is required when a back panel is present")
    | Some b =>
        raise_if (negb (in_range (mat_min_supported_thickness_um b)
                          (mat_max_supported_thickness_um b) (p_back_thickness_um p)))
          (ValueError "measured back thickness is outside the back material version's supported range")
    end
  else raise_if (match spec_back_material s with Some _ => true | None => false end)
         (ValueError "back material is forbidden when the design has no back panel").

(** [{item.mode: item for item in load_cases}[mode]] after the contract's own
    validator has established that both modes are present. *)
Definition load_case_of (c : JointRetentionContract) (mode : JointRetentionLoadMode)
    : result JointRetentionLoadCase :=
  of_option (last (filter (fun l => lc_mode l = mode) (rc_load_cases c))) (KeyError "load case").

Definition validate_joint_retention (s : BookcaseDesignSpec) : result unit :=
  match spec_joint_retention s with
  | None => Ok ()
  | Some retention =>
      let parameters := spec_parameters s in
      raise_if (negb (bool_decide (rc_joint_type retention = DADO)))
        (ValueError "the current bookcase retention contract applies only to DADO joints");;
      raise_if (negb (bool_decide (rc_application_class retention = LOAD_BEARING_CARCASS_DADO)))
        (ValueError "the bookcase retention contract must target load-bearing carcass DADOs");;
      raise_if (negb (bool_decide (p_joint_system parameters = DADO)) &&
                negb (bool_decide (p_back_panel parameters = INSET_GROOVE)))
        (ValueError "the design contains no DADO joint requiring retention");;
      raise_if (negb (bool_decide (rc_method retention = MECHANICAL)) ||
                negb (bool_decide (rc_machining_scope retention = NO_ADDITIONAL_CNC)))
        (ValueError "the current bookcase template accepts only mechanical joint retention that requires no additional CNC features");;
      raise_if (negb (bool_decide ((mat_material_id (spec_material s), mat_version (spec_material s))
                                   ∈ map material_key (rc_applicable_materials retention))))
        (ValueError "joint-retention contract does not cover every DADO member material version");;
      raise_if (negb (in_range (rc_minimum_applicable_thickness_um retention)
                        (rc_maximum_applicable_thickness_um retention)
                        (p_actual_thickness_um parameters)))
        (ValueError "joint-retention contract does not cover every retained member thickness");;
      shear ← load_case_of retention SHEAR;
      withdrawal ← load_case_of retention WITHDRAWAL;
      raise_if ((lc_rated_design_load_n shear <? Z.max (p_shelf_load_n parameters) 1) ||
                (lc_rated_design_load_n withdrawal <? p_assumed_horizontal_force_n parameters))
        (ValueError "joint-retention load case is below the bookcase design load");;
      raise_if (rc_safety_factor_permille retention <? p_structural_safety_factor_permille parameters)
        (ValueError "joint-retention safety factor is below the bookcase design requirement")
  end.

Definition new_BookcaseDesignSpec (s : BookcaseDesignSpec) : result BookcaseDesignSpec :=
  field (StableKey (spec_design_id s)) "design_id";;
  field (PositiveUm (spec_revision s)) "revision";;
  field (StableKey (spec_template_id s)) "template_id";;
  field (StableKey (spec_template_version s)) "template_version";;
  field (StableKey (spec_engine_version s)) "engine_version";;
  new_BookcaseParameters (spec_parameters s);;
  new_MaterialVersion (spec_material s);;
  match spec_back_material s with Some b => new_MaterialVersion b;; Ok () | None => Ok () end;;
  match spec_joint_retention s with Some c => new_JointRetentionContract c;; Ok () | None => Ok () end;;
  reject_retired_compiler_versions s;;
  validate_material s;;
  validate_joint_retention s;;
  Ok s.

(** ** Geometry, features and parts *)

Record Dimensions3D := mkDimensions3D { d_width_um : Z; d_depth_um : Z; d_height_um : Z }.

Definition new_Dimensions3D (d : Dimensions3D) : result Dimensions3D :=
  field (PositiveUm (d_width_um d)) "width_um";;
  field (PositiveUm (d_depth_um d)) "depth_um";;
  field (PositiveUm (d_height_um d)) "height_um";;
  Ok d.

Record Point3D := mkPoint3D { pt_x_um : Z; pt_y_um : Z; pt_z_um : Z }.

Definition new_Point3D (p : Point3D) : result Point3D :=
  field (NonNegativeUm (pt_x_um p)) "x_um";;
  field (NonNegativeUm (pt_y_um p)) "y_um";;
  field (NonNegativeUm (pt_z_um p)) "z_um";;
  Ok p.

Record Placement := mkPlacement {
  pl_x_um : Z; pl_y_um : Z; pl_z_um : Z;
  pl_rotation_x_mdeg : Z; pl_rotation_y_mdeg : Z; pl_rotation_z_mdeg : Z }.

(** [Placement(x_um=x, y_um=y, z_um=z)]: the rotations default to zero. *)
Definition place (x y z : Z) : Placement := mkPlacement x y z 0 0 0.

Definition new_Placement (p : Placement) : result Placement :=
  field (NonNegativeUm (pl_x_um p)) "x_um";;
  field (NonNegativeUm (pl_y_um p)) "y_um";;
  field (NonNegativeUm (pl_z_um p)) "z_um";;
  field (in_range (-360000) 360000 (pl_rotation_x_mdeg p)) "rotation_x_mdeg";;
  field (in_range (-360000) 360000 (pl_rotation_y_mdeg p)) "rotation_y_mdeg";;
  field (in_range (-360000) 360000 (pl_rotation_z_mdeg p)) "rotation_z_mdeg";;
  Ok p.

Record FeatureDimensions := mkFeatureDimensions {
  fd_diameter_um : option Z;
  fd_depth_um : option Z;
  fd_width_um : option Z;
  fd_length_um : option Z;
  fd_radius_um : option Z }.

Definition at_least_one_dimension (d : FeatureDimensions) : result unit :=
  match d with
  | mkFeatureDimensions None None None None None =>
      Err (ValueError "a manufacturing feature must have a dimension")
  | _ => Ok ()
  end.

Definition new_FeatureDimensions (d : FeatureDimensions) : result FeatureDimensions :=
  field (optional PositiveUm (fd_diameter_um d)) "diameter_um";;
  field (optional PositiveUm (fd_depth_um d)) "depth_um";;
  field (optional PositiveUm (fd_width_um d)) "width_um";;
  field (optional PositiveUm (fd_length_um d)) "length_um";;
  field (optional PositiveUm (fd_radius_um d)) "radius_um";;
  at_least_one_dimension d;;
  Ok d.

Record ManufacturingFeature := mkManufacturingFeature {
  f_feature_id : string;
  f_part_id : string;
  f_joint_id : option string;
  f_kind : FeatureKind;
  f_face : FaceName;
  f_origin : Point3D;
  f_dimensions : FeatureDimensions;
  f_pattern_count : Z;
  f_pitch_um : option Z;
  f_through : bool;
  f_tolerance_um : Z;
  f_fit_clearance_um : Z;
  f_corner_strategy : option string;
  f_requires_square_corners : bool;
  f_open_end_reliefs : list OpenEndRelief }.

Definition supported_dogbone (o : option string) : bool :=
  match o with
  | Some s => bool_decide (s = "dogbone-v1") || bool_decide (s = "dogbone-v2")
  | None => false
  end.

Definition validate_pattern (f : ManufacturingFeature) : result unit :=
  raise_if ((1 <? f_pattern_count f) && bool_decide (f_pitch_um f = None))
    (ValueError "a feature pattern with multiple items needs a pitch");;
  raise_if (negb (distinct (f_open_end_reliefs f)))
    (ValueError "open-end relief declarations must be unique");;
  raise_if (negb (bool_decide (f_open_end_reliefs f = [])) && negb (supported_dogbone (f_corner_strategy f)))
    (ValueError "open-end reliefs require a supported versioned dogbone strategy").

Definition new_ManufacturingFeature (f : ManufacturingFeature) : result ManufacturingFeature :=
  field (str_len 8 64 (f_feature_id f)) "feature_id";;
  field (str_len 8 64 (f_part_id f)) "part_id";;
  field (optional (str_len 8 64) (f_joint_id f)) "joint_id";;
  field (PositiveUm (f_pattern_count f)) "pattern_count";;
  field (optional PositiveUm (f_pitch_um f)) "pitch_um";;
  field (NonNegativeUm (f_tolerance_um f)) "tolerance_um";;
  field (NonNegativeUm (f_fit_clearance_um f)) "fit_clearance_um";;
  field (optional StableKey (f_corner_strategy f)) "corner_strategy";;
  validate_pattern f;;
  Ok f.

Record EdgeBand := mkEdgeBand { eb_edge : FaceName; eb_thickness_um : Z }.

Definition new_EdgeBand (b : EdgeBand) : result EdgeBand :=
  field (PositiveUm (eb_thickness_um b)) "thickness_um";; Ok b.

Record PartInstance := mkPartInstance {
  part_id : string;
  part_semantic_key : string;
  part_role : PartRole;
  part_instance_index : Z;
  part_revision : Z;
  part_finished_size : Dimensions3D;
  part_raw_size : Dimensions3D;
  part_placement : Placement;
  part_material_id : string;
  part_material_version : string;
  part_actual_thickness_um : Z;
  part_grain_direction : GrainDirection;
  part_a_side : FaceName;
  part_b_side : FaceName;
  part_named_edges : list FaceName;
  part_visible_faces : list FaceName;
  part_edge_bands : list EdgeBand;
  part_features : list ManufacturingFeature;
  part_weight_g : Z }.

(** The declared default of [named_edges], which no compiler overrides. *)
Definition default_named_edges : list FaceName := [FACE_FRONT; FACE_BACK; FACE_LEFT; FACE_RIGHT].

Definition feature_ownership (p : PartInstance) : result unit :=
  raise_if (existsb (fun f => negb (bool_decide (f_part_id f = part_id p))) (part_features p))
    (ValueError "part contains a feature belonging to another part");;
  raise_if (negb (distinct (map f_feature_id (part_features p))))
    (ValueError "part contains duplicate feature IDs").

Definition new_PartInstance (p : PartInstance) : result PartInstance :=
  field (str_len 8 64 (part_id p)) "part_id";;
  field (StableKey (part_semantic_key p)) "semantic_key";;
  field (NonNegativeUm (part_instance_index p)) "instance_index";;
  field (PositiveUm (part_revision p)) "revision";;
  field (StableKey (part_material_id p)) "material_id";;
  field (StableKey (part_material_version p)) "material_version";;
  field (PositiveUm (part_actual_thickness_um p)) "actual_thickness_um";;
  field (PositiveUm (part_weight_g p)) "weight_g";;
  feature_ownership p;;
  Ok p.

(** [part.model_copy(update={"features": ...})]: a copy, not re-validated. *)
Definition with_features (p : PartInstance) (fs : list ManufacturingFeature) : PartInstance :=
  mkPartInstance (part_id p) (part_semantic_key p) (part_role p) (part_instance_index p)
    (part_revision p) (part_finished_size p) (part_raw_size p) (part_placement p)
    (part_material_id p) (part_material_version p) (part_actual_thickness_um p)
    (part_grain_direction p) (part_a_side p) (part_b_side p) (part_named_edges p)
    (part_visible_faces p)
    (part_edge_bands p) fs (part_weight_g p).

(** ** Joints *)

Record JointMember := mkJointMember {
  jm_part_id : string; jm_mating_face : FaceName; jm_feature_ids : list string }.

Definition new_JointMember (m : JointMember) : result JointMember :=
  field (str_len 8 64 (jm_part_id m)) "part_id";; Ok m.

(** [members] has exactly two elements: [Field(min_length=2, max_length=2)]. *)
Record Joint := mkJoint {
  j_joint_id : string;
  j_joint_type : JointType;
  j_first : JointMember;
  j_second : JointMember;
  j_mating_origin : Point3D;
  j_assembly_direction : AssemblyDirection;
  j_hardware_sku : option string;
  j_hardware_count : Z;
  j_tolerance_um : Z;
  j_retention_application_class : option JointRetentionApplicationClass;
  j_retention : option JointRetentionContract }.

Definition j_members (j : Joint) : list JointMember := [j_first j; j_second j].
Definition j_part_ids (j : Joint) : list string := map jm_part_id (j_members j).

Definition distinct_members (j : Joint) : result unit :=
  raise_if (bool_decide (jm_part_id (j_first j) = jm_part_id (j_second j)))
    (ValueError "a joint must connect two distinct part instances");;
  (if bool_decide (j_joint_type j = DADO)
   then raise_if (bool_decide (j_retention_application_class j = None))
     (ValueError "every DADO must declare its retention application class")
   else raise_if (negb (bool_decide (j_retention_application_class j = None)))
     (ValueError "only DADO joints may declare a retention application class"));;
  (match j_retention j with
   | None => Ok ()
   | Some r =>
       raise_if (negb (bool_decide (rc_joint_type r = j_joint_type j)))
         (ValueError "joint retention must match its joint type");;
       raise_if (negb (bool_decide (j_hardware_sku j = Some (rc_hardware_sku r))))
         (ValueError "joint hardware SKU must match its retention contract");;
       raise_if (negb (j_hardware_count j =? rc_hardware_count_per_joint r))
         (ValueError "joint hardware count must match its retention contract");;
       raise_if (negb (bool_decide (j_retention_application_class j = Some (rc_application_class r))))
         (ValueError "joint retention must match its application class");;
       raise_if (negb (py_subset (rc_bound_feature_ids r)
                         (jm_feature_ids (j_first j) ++ jm_feature_ids (j_second j))))
         (ValueError "joint retention references manufacturing features outside the joint")
   end);;
  raise_if (bool_decide (j_retention_application_class j = Some CAPTIVE_INSET_BACK_GROOVE) &&
            (negb (bool_decide (j_retention j = None)) || negb (bool_decide (j_hardware_sku j = None)) ||
             negb (j_hardware_count j =? 0)))
    (ValueError "a captive inset-back groove cannot inherit carcass retention hardware").

Definition new_Joint (j : Joint) : result Joint :=
  field (str_len 8 64 (j_joint_id j)) "joint_id";;
  field (optional StableKey (j_hardware_sku j)) "hardware_sku";;
  field (NonNegativeUm (j_hardware_count j)) "hardware_count";;
  field (NonNegativeUm (j_tolerance_um j)) "tolerance_um";;
  distinct_members j;;
  Ok j.

(** ** Assembly *)

Record AssemblyNode := mkAssemblyNode { node_part_id : string; node_semantic_key : string }.

Record AssemblyEdge := mkAssemblyEdge {
  edge_joint_id : string; edge_from_part_id : string; edge_to_part_id : string }.

Record AssemblyStep := mkAssemblyStep {
  step_number : Z;
  step_id : string;
  step_part_ids : list string;
  step_moving_part_ids : list string;
  step_joint_ids : list string;
  step_direction : AssemblyDirection;
  step_motion_path : list AssemblyDirection;
  step_tool_ids : list string;
  step_checkpoint : string }.

Definition moving_group_belongs_to_step (s : AssemblyStep) : result unit :=
  raise_if (negb (distinct (step_moving_part_ids s)))
    (ValueError "assembly moving group contains duplicate parts");;
  raise_if (negb (py_subset (step_moving_part_ids s) (step_part_ids s)))
    (ValueError "assembly moving group must be contained in the step parts");;
  raise_if (negb (bool_decide (last (step_motion_path s) = Some (step_direction s))))
    (ValueError "assembly direction must equal the final motion-path segment").

Definition new_AssemblyStep (s : AssemblyStep) : result AssemblyStep :=
  field (PositiveUm (step_number s)) "step_number";;
  field (negb (bool_decide (step_moving_part_ids s = []))) "moving_part_ids";;
  field (negb (bool_decide (step_motion_path s = []))) "motion_path";;
  field (forallb StableKey (step_tool_ids s)) "tool_ids";;
  moving_group_belongs_to_step s;;
  Ok s.

Record AssemblyGraph := mkAssemblyGraph {
  graph_nodes : list AssemblyNode;
  graph_edges : list AssemblyEdge;
  graph_steps : list AssemblyStep }.

Definition graph_references_exist (g : AssemblyGraph) : result unit :=
  let node_ids := map node_part_id (graph_nodes g) in
  let edge_ids := map edge_joint_id (graph_edges g) in
  let steps := graph_steps g in
  raise_if (negb (distinct node_ids)) (ValueError "assembly graph has duplicate nodes");;
  raise_if (negb (distinct edge_ids)) (ValueError "assembly graph has duplicate joint edges");;
  check_all (fun e =>
    raise_if (negb (bool_decide (edge_from_part_id e ∈ node_ids)) ||
              negb (bool_decide (edge_to_part_id e ∈ node_ids)))
      (ValueError "assembly edge references a missing part")) (graph_edges g);;
  raise_if (negb (bool_decide (map step_number steps = seqZ 1 (Z.of_nat (length steps)))))
    (ValueError "assembly steps must be sequential and one-based");;
  raise_if (negb (py_subset (concat (map step_part_ids steps)) node_ids))
    (ValueError "assembly step references a missing part");;
  raise_if (negb (py_subset (concat (map step_joint_ids steps)) edge_ids))
    (ValueError "assembly step references a missing joint");;
  let step_joints := concat (map step_joint_ids steps) in
  raise_if (negb (distinct step_joints))
    (ValueError "each assembly joint must be installed exactly once");;
  raise_if (negb (py_set_eq step_joints edge_ids))
    (ValueError "assembly steps must install every joint");;
  raise_if (negb (py_set_eq (concat (map step_part_ids steps)) node_ids))
    (ValueError "assembly steps must use every part exactly as a BOM item").

Definition new_AssemblyNode (n : AssemblyNode) : result AssemblyNode :=
  field (StableKey (node_semantic_key n)) "semantic_key";; Ok n.

Definition new_AssemblyGraph (g : AssemblyGraph) : result AssemblyGraph :=
  graph_references_exist g;;
  Ok g.

#[export] Instance Dimensions3D_eq_dec : EqDecision Dimensions3D.
Proof. solve_decision. Defined.
#[export] Instance Point3D_eq_dec : EqDecision Point3D.
Proof. solve_decision. Defined.
#[export] Instance Placement_eq_dec : EqDecision Placement.
Proof. solve_decision. Defined.
#[export] Instance FeatureDimensions_eq_dec : EqDecision FeatureDimensions.
Proof. solve_decision. Defined.
#[export] Instance ManufacturingFeature_eq_dec : EqDecision ManufacturingFeature.
Proof. solve_decision. Defined.
#[export] Instance EdgeBand_eq_dec : EqDecision EdgeBand.
Proof. solve_decision. Defined.
#[export] Instance PartInstance_eq_dec : EqDecision PartInstance.
Proof. solve_decision. Defined.
#[export] Instance JointMember_eq_dec : EqDecision JointMember.
Proof. solve_decision. Defined.
#[export] Instance Joint_eq_dec : EqDecision Joint.
Proof. solve_decision. Defined.
#[export] Instance AssemblyStep_eq_dec : EqDecision AssemblyStep.
Proof. solve_decision. Defined.
