(* ===== verification/Identity.v ===== *)
(** * Stable identities and content hashes

    [packages/domain/src/custombuild_domain/identity.py]: [stable_id] is a
    version-5 UUID of a slash-separated path, [content_hash] the SHA-256 of a
    canonical JSON rendering.  The standard library functions the file uses
    (SHA-1 and SHA-256 of [hashlib], [uuid.uuid5], [json.dumps]) are modelled on
    lists of bytes, a byte being a [Z] between 0 and 255; a [string] is already
    the list of bytes of its UTF-8 encoding. *)

From S2P Require Import Prelude.

Definition byte_list (s : string) : list Z :=
  map (fun c => Z.of_N (N_of_ascii c)) (String.list_ascii_of_string s).

(** ** 32-bit words and Merkle-Damgard padding *)

Module Words.
Definition mask32 : Z := 4294967295.
Definition w32 (x : Z) : Z := Z.land x mask32.
Definition rotl (n x : Z) : Z := w32 (Z.lor (Z.shiftl x n) (Z.shiftr x (32 - n))).
Definition rotr (n x : Z) : Z := w32 (Z.lor (Z.shiftr x n) (Z.shiftl x (32 - n))).
Definition not32 (x : Z) : Z := Z.lxor x mask32.

(** Big-endian bytes of a [width]-byte integer. *)
Definition be_bytes (width : nat) (n : Z) : list Z :=
  map (fun i => Z.land (Z.shiftr n (8 * (Z.of_nat width - 1 - i))) 255) (seqZ 0 (Z.of_nat width)).

Fixpoint be_words (l : list Z) : list Z :=
  match l with
  | a :: b :: c :: d :: l' => ((a * 256 + b) * 256 + c) * 256 + d :: be_words l'
  | _ => []
  end.

Fixpoint blocks (fuel : nat) (l : list Z) : list (list Z) :=
  match fuel, l with
  | O, _ | _, [] => []
  | S fuel', _ => take 16 l :: blocks fuel' (drop 16 l)
  end.

(** The message, a one bit, zeros, and the length in bits on 64 bits. *)
Definition pad (l : list Z) : list Z :=
  let n := Z.of_nat (length l) in
  l ++ [128] ++ replicate (Z.to_nat ((55 - n) mod 64)) 0 ++ be_bytes 8 (8 * n).

Definition message_blocks (l : list Z) : list (list Z) :=
  let ws := be_words (pad l) in blocks (length ws) ws.
End Words.

Module Sha1.
Import Words.
Record state := St { ha : Z; hb : Z; hc : Z; hd : Z; he : Z }.

Definition round_fn (i b c d : Z) : Z * Z :=
  if i <? 20 then (Z.lor (Z.land b c) (Z.land (not32 b) d), 0x5A827999)
  else if i <? 40 then (Z.lxor b (Z.lxor c d), 0x6ED9EBA1)
  else if i <? 60 then (Z.lor (Z.land b c) (Z.lor (Z.land b d) (Z.land c d)), 0x8F1BBCDC)
  else (Z.lxor b (Z.lxor c d), 0xCA62C1D6).

(** The message schedule, latest word first. *)
Fixpoint schedule (n : nat) (w : list Z) : list Z :=
  match n with
  | O => w
  | S n' =>
      let x := rotl 1 (Z.lxor (nth 2 w 0) (Z.lxor (nth 7 w 0) (Z.lxor (nth 13 w 0) (nth 15 w 0)))) in
      schedule n' (x :: w)
  end.

Fixpoint rounds (i : Z) (ws : list Z) (s : state) : state :=
  match ws with
  | [] => s
  | w :: ws' =>
      let '(f, k) := round_fn i (hb s) (hc s) (hd s) in
      rounds (i + 1) ws'
        (St (w32 (rotl 5 (ha s) + f + he s + k + w)) (ha s) (rotl 30 (hb s)) (hc s) (hd s))
  end.

Definition compress (s : state) (block : list Z) : state :=
  let r := rounds 0 (rev (schedule 64 (rev block))) s in
  St (w32 (ha s + ha r)) (w32 (hb s + hb r)) (w32 (hc s + hc r)) (w32 (hd s + hd r))
     (w32 (he s + he r)).

Definition digest (l : list Z) : list Z :=
  let s := foldl compress (St 0x67452301 0xEFCDAB89 0x98BADCFE 0x10325476 0xC3D2E1F0)
             (message_blocks l) in
  concat (map (be_bytes 4) [ha s; hb s; hc s; hd s; he s]).
End Sha1.

Module Sha256.
Import Words.
(** The 64 words, most significant first, of one number: the first 32 bits of
    the fractional parts of the cube roots of the first 64 primes. *)
Definition round_constants : list Z :=
  Eval vm_compute in be_words (be_bytes 256 0x428a2f9871374491b5c0fbcfe9b5dba53956c25b59f111f1923f82a4ab1c5ed5d807aa9812835b01243185be550c7dc372be5d7480deb1fe9bdc06a7c19bf174e49b69c1efbe47860fc19dc6240ca1cc2de92c6f4a7484aa5cb0a9dc76f988da983e5152a831c66db00327c8bf597fc7c6e00bf3d5a7914706ca63511429296727b70a852e1b21384d2c6dfc53380d13650a7354766a0abb81c2c92e92722c85a2bfe8a1a81a664bc24b8b70c76c51a3d192e819d6990624f40e3585106aa07019a4c1161e376c082748774c34b0bcb5391c0cb34ed8aa4a5b9cca4f682e6ff3748f82ee78a5636f84c878148cc7020890befffaa4506cebbef9a3f7c67178f2).

Definition initial : list Z :=
  Eval vm_compute in be_words (be_bytes 32 0x6a09e667bb67ae853c6ef372a54ff53a510e527f9b05688c1f83d9ab5be0cd19).

Definition sigma (a b c x : Z) : Z := Z.lxor (rotr a x) (Z.lxor (rotr b x) (rotr c x)).
Definition sigma_shift (a b c x : Z) : Z := Z.lxor (rotr a x) (Z.lxor (rotr b x) (Z.shiftr x c)).

Fixpoint schedule (n : nat) (w : list Z) : list Z :=
  match n with
  | O => w
  | S n' =>
      let x := w32 (sigma_shift 17 19 10 (nth 1 w 0) + nth 6 w 0
                    + sigma_shift 7 18 3 (nth 14 w 0) + nth 15 w 0) in
      schedule n' (x :: w)
  end.

Definition round (st : list Z) (kw : Z * Z) : list Z :=
  match st with
  | [a; b; c; d; e; f; g; h] =>
      let ch := Z.lxor (Z.land e f) (Z.land (not32 e) g) in
      let maj := Z.lxor (Z.land a b) (Z.lxor (Z.land a c) (Z.land b c)) in
      let t1 := h + sigma 6 11 25 e + ch + fst kw + snd kw in
      let t2 := sigma 2 13 22 a + maj in
      [w32 (t1 + t2); a; b; c; w32 (d + t1); e; f; g]
  | _ => st
  end.

Definition compress (st block : list Z) : list Z :=
  let ws := rev (schedule 48 (rev block)) in
  zip_with (fun x y => w32 (x + y)) st (foldl round st (zip round_constants ws)).

Definition digest (l : list Z) : list Z :=
  concat (map (be_bytes 4) (foldl compress initial (message_blocks l))).
End Sha256.

(** ** Hexadecimal rendering *)

Definition hex_digit (n : Z) : ascii :=
  match n with
  | 0 => "0" | 1 => "1" | 2 => "2" | 3 => "3" | 4 => "4" | 5 => "5" | 6 => "6" | 7 => "7"
  | 8 => "8" | 9 => "9" | 10 => "a" | 11 => "b" | 12 => "c" | 13 => "d" | 14 => "e" | _ => "f"
  end%char.

Fixpoint hex_bytes (l : list Z) : string :=
  match l with
  | [] => ""
  | b :: l' => String (hex_digit (b / 16)) (String (hex_digit (b mod 16)) (hex_bytes l'))
  end.

(** ** [stable_id] *)

(** [_CUSTOMBUILD_NAMESPACE], the UUID f8b44bb5-8010-55a8-a125-354329ce99ab. *)
Definition CUSTOMBUILD_NAMESPACE : list Z :=
  [0xf8; 0xb4; 0x4b; 0xb5; 0x80; 0x10; 0x55; 0xa8; 0xa1; 0x25; 0x35; 0x43; 0x29; 0xce; 0x99; 0xab].

(** [uuid.uuid5(ns, name).bytes]: the first 16 bytes of the SHA-1 of namespace
    and name, with version 5 and the RFC 4122 variant written in. *)
Definition uuid5_bytes (ns : list Z) (name : string) : list Z :=
  let d := take 16 (Sha1.digest (ns ++ byte_list name)) in
  alter (fun b => Z.lor (Z.land b 0x0f) 0x50) 6%nat (alter (fun b => Z.lor (Z.land b 0x3f) 0x80) 8%nat d).

(** [f"{entity[:3]}_{uuid5(NS, entity/path...).hex}"] *)
Definition stable_id (entity : string) (semantic_path : list string) : string :=
  let name := str_join "/" (entity :: semantic_path) in
  String.substring 0 3 entity +:+ "_" +:+ hex_bytes (uuid5_bytes CUSTOMBUILD_NAMESPACE name).
#[global] Arguments stable_id : simpl never.

(** ** Canonical JSON *)

Inductive json :=
  | JNull
  | JBool (b : bool)
  | JInt (z : Z)
  | JStr (s : string)
  | JArr (l : list json)
  | JObj (fields : list (string * json)).

(** [_canonical] on what the models contain: mappings are rebuilt with their
    keys in order, everything else is kept element by element. *)
Fixpoint canonical (v : json) : json :=
  match v with
  | JArr l => JArr (map canonical l)
  | JObj fields =>
      JObj (sort_by (cmp_on fst String.compare) (map (fun kv => (fst kv, canonical (snd kv))) fields))
  | _ => v
  end.

(** Escapes of [json.dumps(..., ensure_ascii=False)]. *)
Definition json_escape_char (c : ascii) : string :=
  let n := Z.of_N (N_of_ascii c) in
  if n =? 34 then "\" +:+ String c ""
  else if n =? 92 then "\\"
  else if n =? 10 then "\n"
  else if n =? 13 then "\r"
  else if n =? 9 then "\t"
  else if n =? 8 then "\b"
  else if n =? 12 then "\f"
  else if n <? 32 then "\u00" +:+ hex_bytes [n]
  else String c "".

Fixpoint json_escape (s : string) : string :=
  match s with "" => "" | String c s' => json_escape_char c +:+ json_escape s' end.

Definition quote : string := String (Ascii.ascii_of_N 34) "".
Definition json_string (s : string) : string := quote +:+ json_escape s +:+ quote.

(** [json.dumps(..., separators=(",", ":"))] *)
Fixpoint json_dumps (v : json) : string :=
  match v with
  | JNull => "null"
  | JBool b => if b then "true" else "false"
  | JInt z => str_of_Z z
  | JStr s => json_string s
  | JArr l => "[" +:+ str_join "," (map json_dumps l) +:+ "]"
  | JObj fields =>
      "{" +:+ str_join "," (map (fun kv => json_string (fst kv) +:+ ":" +:+ json_dumps (snd kv)) fields)
          +:+ "}"
  end.

Definition canonical_json (v : json) : string := json_dumps (canonical v).
Definition content_hash (v : json) : string := hex_bytes (Sha256.digest (byte_list (canonical_json v))).
#[global] Arguments content_hash : simpl never.
