(* ===== verification/IdentityTypes.v ===== *)
(** * Content hashes have the form the models require

    [content_hash] of [identity.py] against the field type [Sha256Hex] of
    [models.py]. *)

From S2P Require Import Prelude Text Geometry Enums Models Identity.

Definition hex_char (c : ascii) : bool := ascii_in "a" "f" c || ascii_in "0" "9" c.

Lemma hex_digit_char n : hex_char (hex_digit n) = true.
Proof. unfold hex_digit. repeat case_match; reflexivity. Qed.

Lemma hex_bytes_chars l : Forall (fun c => hex_char c = true) (chars (hex_bytes l)).
Proof.
  induction l as [|b l IH]; [constructor|]. cbn [hex_bytes chars String.list_ascii_of_string].
  apply Forall_cons_2; [apply hex_digit_char|]. apply Forall_cons_2; [apply hex_digit_char|exact IH].
Qed.

Lemma hex_bytes_length l : String.length (hex_bytes l) = (2 * length l)%nat.
Proof. induction l as [|b l IH]; [done|]. cbn [hex_bytes String.length length]. rewrite IH. lia. Qed.

Lemma be_bytes_length width n : length (Words.be_bytes width n) = width.
Proof. unfold Words.be_bytes. rewrite length_map, length_seqZ. lia. Qed.

Lemma concat_words_length (ws : list Z) : length (concat (map (Words.be_bytes 4) ws)) = (4 * length ws)%nat.
Proof. induction ws as [|w ws IH]; [done|]. cbn [map concat]. rewrite length_app, IH, be_bytes_length. cbn [length]. lia. Qed.

Lemma round_length st kw : length (Sha256.round st kw) = length st.
Proof. unfold Sha256.round. repeat case_match; reflexivity. Qed.

Lemma rounds_length st l : length (foldl Sha256.round st l) = length st.
Proof. revert st; induction l as [|x l IH]; intros st; [done|]. cbn [foldl]. by rewrite IH, round_length. Qed.

Lemma compress_length st block : length (Sha256.compress st block) = length st.
Proof. unfold Sha256.compress. rewrite length_zip_with, rounds_length. lia. Qed.

Lemma sha256_length l : length (Sha256.digest l) = 32%nat.
Proof.
  unfold Sha256.digest. rewrite concat_words_length.
  assert (forall bs st, length (foldl Sha256.compress st bs) = length st) as F.
  { induction bs as [|b bs IH]; intros st; [done|]. cbn [foldl]. by rewrite IH, compress_length. }
  by rewrite F.
Qed.

Lemma content_hash_hex v : Sha256Hex (content_hash v) = true.
Proof.
  unfold Sha256Hex, content_hash. apply andb_true_iff. split.
  - apply forallb_forall. intros c Hc%list_elem_of_In. pose proof (hex_bytes_chars (Sha256.digest (byte_list (canonical_json v)))) as F.
    rewrite Forall_forall in F. exact (F c Hc).
  - apply bool_decide_eq_true. by rewrite hex_bytes_length, sha256_length.
Qed.
