(* ===== verification/DesignResult.v ===== *)
(** * The compiled design and its integrity checks

    The rest of [models.py]: the JSON form of the models as [model_dump] gives
    it, the fingerprint of the retained DADO geometry, the proof obligation that
    every inset back is captive on four boundaries, and [DesignResult] with its
    integrity validator. *)

From S2P Require Import Prelude Geometry Enums Models Identity.

(** ** [model_dump] as JSON values *)

Definition jopt {A} (f : A -> json) (o : option A) : json :=
  match o with Some a => f a | None => JNull end.
Definition jlist {A} (f : A -> json) (l : list A) : json := JArr (map f l).

Definition json_Point3D (p : Point3D) : json :=
  JObj [("x_um", JInt (pt_x_um p)); ("y_um", JInt (pt_y_um p)); ("z_um", JInt (pt_z_um p))].

Definition json_Dimensions3D (d : Dimensions3D) : json :=
  JObj [("width_um", JInt (d_width_um d)); ("depth_um", JInt (d_depth_um d));
        ("height_um", JInt (d_height_um d))].

Definition json_Placement (p : Placement) : json :=
  JObj [("x_um", JInt (pl_x_um p)); ("y_um", JInt (pl_y_um p)); ("z_um", JInt (pl_z_um p));
        ("rotation_x_mdeg", JInt (pl_rotation_x_mdeg p));
        ("rotation_y_mdeg", JInt (pl_rotation_y_mdeg p));
        ("rotation_z_mdeg", JInt (pl_rotation_z_mdeg p))].

Definition json_FeatureDimensions (d : FeatureDimensions) : json :=
  JObj [("diameter_um", jopt JInt (fd_diameter_um d)); ("depth_um", jopt JInt (fd_depth_um d));
        ("width_um", jopt JInt (fd_width_um d)); ("length_um", jopt JInt (fd_length_um d));
        ("radius_um", jopt JInt (fd_radius_um d))].

Definition json_ManufacturingFeature (f : ManufacturingFeature) : json :=
  JObj [("feature_id", JStr (f_feature_id f)); ("part_id", JStr (f_part_id f));
        ("joint_id", jopt JStr (f_joint_id f)); ("kind", JStr (FeatureKind_value (f_kind f)));
        ("face", JStr (FaceName_value (f_face f))); ("origin", json_Point3D (f_origin f));
        ("dimensions", json_FeatureDimensions (f_dimensions f));
        ("pattern_count", JInt (f_pattern_count f)); ("pitch_um", jopt JInt (f_pitch_um f));
        ("through", JBool (f_through f)); ("tolerance_um", JInt (f_tolerance_um f));
        ("fit_clearance_um", JInt (f_fit_clearance_um f));
        ("corner_strategy", jopt JStr (f_corner_strategy f));
        ("requires_square_corners", JBool (f_requires_square_corners f));
        ("open_end_reliefs", jlist (fun r => JStr (OpenEndRelief_value r)) (f_open_end_reliefs f))].

Definition json_EdgeBand (b : EdgeBand) : json :=
  JObj [("edge", JStr (FaceName_value (eb_edge b))); ("thickness_um", JInt (eb_thickness_um b))].

Definition json_face (f : FaceName) : json := JStr (FaceName_value f).

(** [part.model_dump(mode="python", exclude={"revision"})] *)
Definition json_PartInstance_sans_revision (p : PartInstance) : json :=
  JObj [("part_id", JStr (part_id p)); ("semantic_key", JStr (part_semantic_key p));
        ("role", JStr (PartRole_value (part_role p)));
        ("instance_index", JInt (part_instance_index p));
        ("finished_size", json_Dimensions3D (part_finished_size p));
        ("raw_size", json_Dimensions3D (part_raw_size p));
        ("placement", json_Placement (part_placement p));
        ("material_id", JStr (part_material_id p));
        ("material_version", JStr (part_material_version p));
        ("actual_thickness_um", JInt (part_actual_thickness_um p));
        ("grain_direction", JStr (GrainDirection_value (part_grain_direction p)));
        ("a_side", json_face (part_a_side p)); ("b_side", json_face (part_b_side p));
        ("named_edges", jlist json_face (part_named_edges p));
        ("visible_faces", jlist json_face (part_visible_faces p));
        ("edge_bands", jlist json_EdgeBand (part_edge_bands p));
        ("features", jlist json_ManufacturingFeature (part_features p));
        ("weight_g", JInt (part_weight_g p))].

Definition json_retention (c : JointRetentionContract) : json :=
  JObj [("system_id", JStr (rc_system_id c)); ("system_version", JStr (rc_system_version c));
        ("joint_type", JStr (JointType_value (rc_joint_type c)));
        ("application_class", JStr (JointRetentionApplicationClass_value (rc_application_class c)));
        ("method", JStr (JointRetentionMethod_value (rc_method c)));
        ("catalog_entry_sha256", JStr (rc_catalog_entry_sha256 c));
        ("evidence_id", JStr (rc_evidence_id c)); ("evidence_sha256", JStr (rc_evidence_sha256 c));
        ("installation_instruction_id", JStr (rc_installation_instruction_id c));
        ("installation_instruction_version", JStr (rc_installation_instruction_version c));
        ("installation_instruction_sha256", JStr (rc_installation_instruction_sha256 c));
        ("machining_scope", JStr (JointRetentionMachiningScope_value (rc_machining_scope c)));
        ("hardware_sku", JStr (rc_hardware_sku c));
        ("hardware_count_per_joint", JInt (rc_hardware_count_per_joint c));
        ("applicable_materials", jlist (fun i => JObj [("material_id", JStr (rm_material_id i));
            ("material_version", JStr (rm_material_version i))]) (rc_applicable_materials c));
        ("joint_geometry_sha256", JStr (rc_joint_geometry_sha256 c));
        ("minimum_applicable_thickness_um", JInt (rc_minimum_applicable_thickness_um c));
        ("maximum_applicable_thickness_um", JInt (rc_maximum_applicable_thickness_um c));
        ("load_cases", jlist (fun l => JObj [("mode", JStr (JointRetentionLoadMode_value (lc_mode l)));
            ("rated_design_load_n", JInt (lc_rated_design_load_n l));
            ("verified_capacity_n", JInt (lc_verified_capacity_n l))]) (rc_load_cases c));
        ("safety_factor_permille", JInt (rc_safety_factor_permille c));
        ("bound_feature_ids", jlist JStr (rc_bound_feature_ids c))].

Definition json_member (m : JointMember) : json :=
  JObj [("part_id", JStr (jm_part_id m)); ("mating_face", json_face (jm_mating_face m));
        ("feature_ids", jlist JStr (jm_feature_ids m))].

(** [exclude_if] drops an absent retention from the dump. *)
Definition json_retention_field (name : string) (o : option JointRetentionContract)
    : list (string * json) :=
  match o with Some c => [(name, json_retention c)] | None => [] end.

Definition json_Joint (j : Joint) : json :=
  JObj ([("joint_id", JStr (j_joint_id j)); ("joint_type", JStr (JointType_value (j_joint_type j)));
         ("members", jlist json_member (j_members j));
         ("mating_origin", json_Point3D (j_mating_origin j));
         ("assembly_direction", JStr (AssemblyDirection_value (j_assembly_direction j)));
         ("hardware_sku", jopt JStr (j_hardware_sku j));
         ("hardware_count", JInt (j_hardware_count j)); ("tolerance_um", JInt (j_tolerance_um j));
         ("retention_application_class",
          jopt (fun c => JStr (JointRetentionApplicationClass_value c)) (j_retention_application_class j))]
        ++ json_retention_field "retention" (j_retention j)).

Definition json_AssemblyStep (s : AssemblyStep) : json :=
  JObj [("step_number", JInt (step_number s)); ("step_id", JStr (step_id s));
        ("part_ids", jlist JStr (step_part_ids s));
        ("moving_part_ids", jlist JStr (step_moving_part_ids s));
        ("joint_ids", jlist JStr (step_joint_ids s));
        ("direction", JStr (AssemblyDirection_value (step_direction s)));
        ("motion_path", jlist (fun d => JStr (AssemblyDirection_value d)) (step_motion_path s));
        ("tool_ids", jlist JStr (step_tool_ids s)); ("checkpoint", JStr (step_checkpoint s))].

Definition json_AssemblyGraph (g : AssemblyGraph) : json :=
  JObj [("nodes", jlist (fun n => JObj [("part_id", JStr (node_part_id n));
             ("semantic_key", JStr (node_semantic_key n))]) (graph_nodes g));
        ("edges", jlist (fun e => JObj [("joint_id", JStr (edge_joint_id e));
             ("from_part_id", JStr (edge_from_part_id e)); ("to_part_id", JStr (edge_to_part_id e))])
             (graph_edges g));
        ("steps", jlist json_AssemblyStep (graph_steps g))].

Definition json_source (s : PropertySource) : json :=
  JObj [("source_id", JStr (src_source_id s)); ("title", JStr (src_title s));
        ("revision", JStr (src_revision s)); ("uri", jopt JStr (src_uri s));
        ("valid_from", jopt JStr (src_valid_from s)); ("note", jopt JStr (src_note s))].

Definition json_material (m : MaterialVersion) : json :=
  JObj [("material_id", JStr (mat_material_id m)); ("version", JStr (mat_version m));
        ("name", JStr (mat_name m)); ("material_type", JStr (MaterialType_value (mat_material_type m)));
        ("nominal_thickness_um", JInt (mat_nominal_thickness_um m));
        ("density_kg_m3", JInt (mat_density_kg_m3 m));
        ("elastic_modulus_mpa", JInt (mat_elastic_modulus_mpa m));
        ("bending_strength_mpa", JInt (mat_bending_strength_mpa m));
        ("shear_strength_mpa", JInt (mat_shear_strength_mpa m));
        ("creep_factor_permille", JInt (mat_creep_factor_permille m));
        ("property_uncertainty_permille", JInt (mat_property_uncertainty_permille m));
        ("min_supported_thickness_um", JInt (mat_min_supported_thickness_um m));
        ("max_supported_thickness_um", JInt (mat_max_supported_thickness_um m));
        ("grain_direction", JStr (GrainDirection_value (mat_grain_direction m)));
        ("machining_allowance_um", JInt (mat_machining_allowance_um m));
        ("source", json_source (mat_source m))].

Definition json_wall_anchor (w : WallAnchorSpec) : json :=
  JObj [("required", JBool (wa_required w)); ("wall_substrate", jopt JStr (wa_wall_substrate w));
        ("anchor_system_id", jopt JStr (wa_anchor_system_id w));
        ("evidence_id", jopt JStr (wa_evidence_id w)); ("verified", JBool (wa_verified w))].

Definition json_parameters (p : BookcaseParameters) : json :=
  JObj [("width_um", JInt (p_width_um p)); ("height_um", JInt (p_height_um p));
        ("depth_um", JInt (p_depth_um p)); ("nominal_thickness_um", JInt (p_nominal_thickness_um p));
        ("actual_thickness_um", JInt (p_actual_thickness_um p));
        ("shelf_count", JInt (p_shelf_count p));
        ("shelf_mount", JStr (ShelfMount_value (p_shelf_mount p)));
        ("shelf_load_n", JInt (p_shelf_load_n p));
        ("vertical_divider_count", JInt (p_vertical_divider_count p));
        ("bay_width_ratios_ppm", jlist JInt (p_bay_width_ratios_ppm p));
        ("shelf_height_ratios_ppm", jlist JInt (p_shelf_height_ratios_ppm p));
        ("base_cabinet_height_um", JInt (p_base_cabinet_height_um p));
        ("base_cabinet_depth_um", JInt (p_base_cabinet_depth_um p));
        ("base_cabinet_count", JInt (p_base_cabinet_count p));
        ("back_panel", JStr (BackPanelType_value (p_back_panel p)));
        ("back_thickness_um", JInt (p_back_thickness_um p));
        ("plinth_height_um", JInt (p_plinth_height_um p));
        ("shelf_side_clearance_um", JInt (p_shelf_side_clearance_um p));
        ("edge_band_thickness_um", JInt (p_edge_band_thickness_um p));
        ("joint_system", JStr (JointType_value (p_joint_system p)));
        ("reinforcement_mode", JStr (ReinforcementMode_value (p_reinforcement_mode p)));
        ("max_deflection_um", JInt (p_max_deflection_um p));
        ("deflection_span_ratio", JInt (p_deflection_span_ratio p));
        ("structural_safety_factor_permille", JInt (p_structural_safety_factor_permille p));
        ("assumed_horizontal_force_n", JInt (p_assumed_horizontal_force_n p));
        ("wall_anchor", json_wall_anchor (p_wall_anchor p))].

(** [spec.model_dump(mode="json", exclude={"revision", "status"})] *)
Definition json_spec (s : BookcaseDesignSpec) : json :=
  JObj ([("design_id", JStr (spec_design_id s)); ("template_id", JStr (spec_template_id s));
         ("template_version", JStr (spec_template_version s));
         ("engine_version", JStr (spec_engine_version s));
         ("parameters", json_parameters (spec_parameters s));
         ("material", json_material (spec_material s));
         ("back_material", jopt json_material (spec_back_material s))]
        ++ json_retention_field "joint_retention" (spec_joint_retention s)).

(** ** The fingerprint of the retained carcass DADOs *)

Definition is_retained_dado (j : Joint) : bool :=
  bool_decide (j_joint_type j = DADO) &&
  bool_decide (j_retention_application_class j = Some LOAD_BEARING_CARCASS_DADO).

Definition all_features (parts : list PartInstance) : list ManufacturingFeature :=
  concat (map part_features parts).

Section Fingerprint.
Context (part_by_id : gmap string PartInstance) (feature_by_id : gmap string ManufacturingFeature).

Definition fingerprint_member (m : JointMember) : result json :=
  part ← of_option (part_by_id !! jm_part_id m) (KeyError (jm_part_id m));
  features ← traverse (fun i => of_option (feature_by_id !! i) (KeyError i)) (jm_feature_ids m);
  Ok (JObj [("part_id", JStr (jm_part_id m)); ("material_id", JStr (part_material_id part));
            ("material_version", JStr (part_material_version part));
            ("actual_thickness_um", JInt (part_actual_thickness_um part));
            ("mating_face", json_face (jm_mating_face m));
            ("feature_ids", jlist JStr (jm_feature_ids m));
            ("features", jlist json_ManufacturingFeature features)]).

Definition fingerprint_joint (j : Joint) : result json :=
  members ← traverse fingerprint_member (j_members j);
  Ok (JObj [("joint_id", JStr (j_joint_id j)); ("joint_type", JStr (JointType_value (j_joint_type j)));
            ("retention_application_class",
             jopt (fun c => JStr (JointRetentionApplicationClass_value c))
               (j_retention_application_class j));
            ("members", JArr members); ("mating_origin", json_Point3D (j_mating_origin j));
            ("assembly_direction", JStr (AssemblyDirection_value (j_assembly_direction j)));
            ("tolerance_um", JInt (j_tolerance_um j))]).
End Fingerprint.

Definition joint_id_cmp : Joint -> Joint -> comparison := cmp_on j_joint_id String.compare.

Definition dado_joint_geometry_fingerprint (parts : list PartInstance) (joints : list Joint)
    : result string :=
  let part_by_id := dict_of part_id parts in
  let feature_by_id := dict_of f_feature_id (all_features parts) in
  payload ← traverse (fingerprint_joint part_by_id feature_by_id)
              (sort_by joint_id_cmp (filter (fun j => is_retained_dado j = true) joints));
  Ok (content_hash (JArr payload)).

(** ** Captive inset backs *)

(** [{joint_id: step for step in steps for joint_id in step.joint_ids}] *)
Definition step_by_joint_id (g : AssemblyGraph) : gmap string AssemblyStep :=
  foldl (fun m s => foldl (fun m' jid => <[jid := s]> m') m (step_joint_ids s)) ∅ (graph_steps g).

(** What the loop over the joints of one back accumulates. *)
Record back_capture := mkBackCapture {
  bc_faces : list FaceName;
  bc_roles : list PartRole;
  bc_groups : list (list string);
  bc_insertion : list Z;
  bc_closure : list Z }.

Definition bad_back_joint (j : Joint) : bool :=
  negb (bool_decide (j_joint_type j = DADO)) ||
  negb (bool_decide (j_retention_application_class j = Some CAPTIVE_INSET_BACK_GROOVE)) ||
  negb (bool_decide (j_retention j = None)) || negb (bool_decide (j_hardware_sku j = None)) ||
  negb (j_hardware_count j =? 0).

Section Topology.
Context (part_by_id : gmap string PartInstance) (feature_by_id : gmap string ManufacturingFeature)
        (step_of : gmap string AssemblyStep) (back : PartInstance).

Definition bad_groove (groove : ManufacturingFeature) (boundary : JointMember) (j : Joint) : bool :=
  negb (bool_decide (f_kind groove = GROOVE)) ||
  negb (bool_decide (f_part_id groove = jm_part_id boundary)) ||
  negb (bool_decide (f_joint_id groove = Some (j_joint_id j))) ||
  match fd_depth_um (f_dimensions groove) with Some d => d <=? 0 | None => true end ||
  negb (f_fit_clearance_um groove =? j_tolerance_um j) ||
  negb (bool_decide (Some (part_actual_thickness_um back + j_tolerance_um j)
                     ∈ [fd_width_um (f_dimensions groove); fd_length_um (f_dimensions groove)])).

(** One pass of the loop body; [None] is its [return False]. *)
Definition capture_joint (c : back_capture) (j : Joint) : option back_capture :=
  back_member ← List.find (fun m => bool_decide (jm_part_id m = part_id back)) (j_members j);
  boundary_member ← List.find (fun m => negb (bool_decide (jm_part_id m = part_id back))) (j_members j);
  step ← step_of !! j_joint_id j;
  boundary_part ← part_by_id !! jm_part_id boundary_member;
  match jm_feature_ids back_member, jm_feature_ids boundary_member with
  | [], [groove_id] =>
      groove ← feature_by_id !! groove_id;
      if bad_groove groove boundary_member j then None
      else
        let inserted := bool_decide (part_id back ∈ step_moving_part_ids step) in
        Some (mkBackCapture (jm_mating_face back_member :: bc_faces c)
                (part_role boundary_part :: bc_roles c)
                (step_moving_part_ids step :: bc_groups c)
                (if inserted then step_number step :: bc_insertion c else bc_insertion c)
                (if inserted then bc_closure c else step_number step :: bc_closure c))
  | _, _ => None
  end.

Fixpoint capture_all (c : back_capture) (js : list Joint) : option back_capture :=
  match js with
  | [] => Some c
  | j :: js' => c' ← capture_joint c j; capture_all c' js'
  end.

Definition back_is_captive (joints : list Joint) : bool :=
  let back_joints := filter (fun j => part_id back ∈ j_part_ids j) joints in
  if negb (bool_decide (length back_joints = 4%nat)) || existsb bad_back_joint back_joints then false
  else
    match capture_all (mkBackCapture [] [] [] [] []) back_joints with
    | None => false
    | Some c =>
        py_set_eq (bc_faces c) [FACE_LEFT; FACE_RIGHT; FACE_TOP; FACE_BOTTOM] &&
        py_subset [TOP; BOTTOM] (bc_roles c) &&
        py_subset (bc_roles c) [LEFT_SIDE; RIGHT_SIDE; DIVIDER; TOP; BOTTOM] &&
        negb (bool_decide (length (remove_dups (bc_groups c)) < 2)%nat) &&
        negb (bool_decide (bc_insertion c = [])) && negb (bool_decide (bc_closure c = [])) &&
        (maxZ 0 (bc_insertion c) <? minZ 0 (bc_closure c))
    end.
End Topology.

Definition captive_inset_back_topology_is_complete
    (parts : list PartInstance) (joints : list Joint) (g : AssemblyGraph) : bool :=
  let backs := filter (fun p => part_role p = BACK) parts in
  negb (bool_decide (backs = [])) &&
  forallb (fun back => back_is_captive (dict_of part_id parts)
                         (dict_of f_feature_id (all_features parts)) (step_by_joint_id g) back joints)
    backs.

(** ** [DesignResult] *)

Record DesignResult := mkDesignResult {
  dr_design_hash : string;
  dr_engine_version : string;
  dr_template_version : string;
  dr_spec : BookcaseDesignSpec;
  dr_parts : list PartInstance;
  dr_joints : list Joint;
  dr_assembly_graph : AssemblyGraph;
  dr_total_weight_g : Z }.

Definition minimum_retention_shear_load_n (r : DesignResult) : Z :=
  let own_weight_n := (dr_total_weight_g r * 981 + 99999) / 100000 in
  let p := spec_parameters (dr_spec r) in
  own_weight_n + p_shelf_count p * p_shelf_load_n p.

Section Integrity.
Context (r : DesignResult).
Definition dr_part_by_id : gmap string PartInstance := dict_of part_id (dr_parts r).
Definition dr_feature_by_id : gmap string ManufacturingFeature :=
  dict_of f_feature_id (all_features (dr_parts r)).

Definition check_joint_retention (j : Joint) : result unit :=
  (if bool_decide (j_joint_type j = DADO) then
     raise_if (bool_decide (j_retention_application_class j = Some LOAD_BEARING_CARCASS_DADO) &&
               negb (bool_decide (j_retention j = spec_joint_retention (dr_spec r))))
       (ValueError "every load-bearing carcass DADO must carry the frozen retention contract");;
     raise_if (bool_decide (j_retention_application_class j = Some CAPTIVE_INSET_BACK_GROOVE) &&
               negb (bool_decide (j_retention j = None)))
       (ValueError "captive inset-back grooves cannot carry carcass retention")
   else raise_if (negb (bool_decide (j_retention j = None)))
     (ValueError "joint retention is bound to a non-DADO joint"));;
  match j_retention j with
  | None => Ok ()
  | Some c =>
      check_all (fun m =>
        part ← of_option (dr_part_by_id !! jm_part_id m) (ValueError "joint references a missing part");
        raise_if (negb (in_range (rc_minimum_applicable_thickness_um c)
                          (rc_maximum_applicable_thickness_um c) (part_actual_thickness_um part)))
          (ValueError "joint retention does not cover a joint member's actual thickness");;
        raise_if (negb (bool_decide ((part_material_id part, part_material_version part)
                                     ∈ map material_key (rc_applicable_materials c))))
          (ValueError "joint retention does not cover a joint member's material version"))
        (j_members j)
  end.

(** The loop over a member's features, threading [referenced_features]. *)
Definition reference_feature (j : Joint) (m : JointMember) (referenced : gmap string string)
    (feature_id : string) : result (gmap string string) :=
  feature ← of_option (dr_feature_by_id !! feature_id)
              (ValueError "joint references a missing manufacturing feature");
  raise_if (negb (bool_decide (f_part_id feature = jm_part_id m)))
    (ValueError "joint member references another part's feature");;
  raise_if (negb (bool_decide (f_joint_id feature = Some (j_joint_id j))))
    (ValueError "joint member references a feature owned by another joint");;
  match referenced !! feature_id with
  | None => Ok (<[feature_id := j_joint_id j]> referenced)
  | Some previous =>
      raise_if (negb (bool_decide (previous = j_joint_id j)))
        (ValueError "manufacturing feature is referenced by multiple joints");;
      Ok referenced
  end.

Definition check_member (j : Joint) (referenced : gmap string string) (m : JointMember)
    : result (gmap string string) :=
  raise_if (negb (bool_decide (jm_part_id m ∈ map part_id (dr_parts r))))
    (ValueError "joint references a missing part");;
  foldM (reference_feature j m) referenced (jm_feature_ids m).

Definition check_joint (referenced : gmap string string) (j : Joint)
    : result (gmap string string) :=
  check_joint_retention j;;
  foldM (check_member j) referenced (j_members j).

Definition check_feature_owner (referenced : gmap string string) (f : ManufacturingFeature)
    : result unit :=
  match f_joint_id f with
  | None => Ok ()
  | Some jid =>
      raise_if (negb (bool_decide (jid ∈ map j_joint_id (dr_joints r))))
        (ValueError "manufacturing feature references a missing joint");;
      raise_if (negb (bool_decide (referenced !! f_feature_id f = Some jid)))
        (ValueError "joint-owned manufacturing feature is absent from its joint")
  end.

Definition check_identities : result unit :=
  let part_ids := map part_id (dr_parts r) in
  let joint_ids := map j_joint_id (dr_joints r) in
  let g := dr_assembly_graph r in
  raise_if (negb (distinct part_ids)) (ValueError "design result has duplicate part IDs");;
  raise_if (negb (distinct joint_ids)) (ValueError "design result has duplicate joint IDs");;
  raise_if (negb (py_set_eq (map node_part_id (graph_nodes g)) part_ids))
    (ValueError "assembly graph and part collection differ");;
  raise_if (negb (py_set_eq (map edge_joint_id (graph_edges g)) joint_ids))
    (ValueError "assembly graph and joint collection differ");;
  raise_if (negb (distinct (map f_feature_id (all_features (dr_parts r)))))
    (ValueError "design result has duplicate manufacturing feature IDs").

Definition check_retention_geometry : result unit :=
  match spec_joint_retention (dr_spec r) with
  | None => Ok ()
  | Some c =>
      fp ← dado_joint_geometry_fingerprint (dr_parts r) (dr_joints r);
      raise_if (negb (bool_decide (rc_joint_geometry_sha256 c = fp)))
        (ValueError "joint-retention contract does not match the exact DADO geometry fingerprint")
  end.

Definition check_back_topology : result unit :=
  if bool_decide (p_back_panel (spec_parameters (dr_spec r)) = INSET_GROOVE) then
    raise_if (negb (captive_inset_back_topology_is_complete (dr_parts r) (dr_joints r)
                      (dr_assembly_graph r)))
      (ValueError "inset back panel is not proven captive on four independent boundaries")
  else
    raise_if (existsb (fun j => bool_decide (j_retention_application_class j
                                             = Some CAPTIVE_INSET_BACK_GROOVE)) (dr_joints r))
      (ValueError "captive inset-back grooves require an inset back panel").

Definition check_retention_capacity : result unit :=
  match spec_joint_retention (dr_spec r) with
  | None => Ok ()
  | Some c =>
      shear ← of_option (List.find (fun l => bool_decide (lc_mode l = SHEAR)) (rc_load_cases c))
                (ValueError "StopIteration");
      raise_if (lc_rated_design_load_n shear <? minimum_retention_shear_load_n r)
        (ValueError "joint-retention shear capacity must cover accumulated row loads and the entire structure's own weight")
  end.

Definition validate_result_integrity : result unit :=
  check_identities;;
  referenced ← foldM check_joint ∅ (dr_joints r);
  check_all (check_feature_owner referenced) (all_features (dr_parts r));;
  check_retention_geometry;;
  check_back_topology;;
  raise_if (negb (sumZ (map part_weight_g (dr_parts r)) =? dr_total_weight_g r))
    (ValueError "total design weight does not equal the part weights");;
  check_retention_capacity.
End Integrity.

Definition new_DesignResult (r : DesignResult) : result DesignResult :=
  field (Sha256Hex (dr_design_hash r)) "design_hash";;
  field (StableKey (dr_engine_version r)) "engine_version";;
  field (StableKey (dr_template_version r)) "template_version";;
  field (PositiveUm (dr_total_weight_g r)) "total_weight_g";;
  validate_result_integrity r;;
  Ok r.

(** ** References between joints and features

    What the loops of [validate_result_integrity] over joints, members and
    features check, stated without the dictionary [referenced_features]. *)

Section References.
Context (r : DesignResult).

Definition member_references (j : Joint) (m : JointMember) : Prop :=
  jm_part_id m ∈ map part_id (dr_parts r) /\
  forall i, i ∈ jm_feature_ids m ->
    exists f, dr_feature_by_id r !! i = Some f /\ f_part_id f = jm_part_id m /\
              f_joint_id f = Some (j_joint_id j).

Definition feature_referenced (f : ManufacturingFeature) : Prop :=
  f_joint_id f = None \/
  exists j m, j ∈ dr_joints r /\ m ∈ j_members j /\ f_joint_id f = Some (j_joint_id j) /\
              f_feature_id f ∈ jm_feature_ids m.

(** Every entry of the dictionary names the joint its feature belongs to. *)
Definition referenced_sound (referenced : gmap string string) : Prop :=
  forall i jid, referenced !! i = Some jid ->
    exists f, dr_feature_by_id r !! i = Some f /\ f_joint_id f = Some jid.

Lemma reference_features_ok j m ids referenced :
  referenced_sound referenced ->
  (forall i, i ∈ ids -> exists f, dr_feature_by_id r !! i = Some f /\ f_part_id f = jm_part_id m /\
                                  f_joint_id f = Some (j_joint_id j)) ->
  exists referenced', foldM (reference_feature r j m) referenced ids = Ok referenced' /\
    referenced_sound referenced' /\ referenced ⊆ referenced' /\
    (forall i, i ∈ ids -> referenced' !! i = Some (j_joint_id j)).
Proof.
  revert referenced; induction ids as [|i ids IH]; intros referenced Hs Hi; cbn.
  { exists referenced. split_and!; [done..|]. by intros i ?%not_elem_of_nil. }
  destruct (Hi i) as (f & Hf & Hp & Hj); [by left|].
  assert (exists r1, reference_feature r j m referenced i = Ok r1 /\ referenced_sound r1 /\
                     referenced ⊆ r1 /\ r1 !! i = Some (j_joint_id j)) as (r1 & E1 & S1 & L1 & I1).
  { unfold reference_feature. rewrite Hf. cbn [of_option mbind result_bind].
    rewrite !bool_decide_true by done. cbn [negb raise_if mbind result_bind].
    destruct (referenced !! i) as [prev|] eqn:E.
    - destruct (Hs _ _ E) as (f' & Hf' & Hj'). rewrite Hf in Hf'. injection Hf' as <-.
      rewrite Hj in Hj'. injection Hj' as <-. rewrite bool_decide_true by done. by exists referenced.
    - eexists. split_and!; [done| |by apply insert_subseteq|apply lookup_insert_eq].
      intros i' jid. destruct (decide (i' = i)) as [->|N].
      + rewrite lookup_insert_eq. intros [= <-]. by exists f.
      + rewrite lookup_insert_ne by done. apply Hs. }
  rewrite E1. cbn [mbind result_bind].
  destruct (IH r1 S1) as (r2 & E2 & S2 & L2 & I2); [intros; apply Hi; by right|].
  exists r2. split_and!; [done|done|by etrans|].
  intros i' [->|?]%elem_of_cons; [by eapply lookup_weaken | by apply I2].
Qed.

Lemma check_members_ok j ms referenced :
  referenced_sound referenced -> (forall m, m ∈ ms -> member_references j m) ->
  exists referenced', foldM (check_member r j) referenced ms = Ok referenced' /\
    referenced_sound referenced' /\ referenced ⊆ referenced' /\
    (forall m i, m ∈ ms -> i ∈ jm_feature_ids m -> referenced' !! i = Some (j_joint_id j)).
Proof.
  revert referenced; induction ms as [|m ms IH]; intros referenced Hs Hm; cbn.
  { exists referenced. split_and!; [done..|]. by intros m i ?%not_elem_of_nil. }
  destruct (Hm m) as [Hp Hi]; [by left|].
  destruct (reference_features_ok j m (jm_feature_ids m) referenced Hs Hi) as (r1 & E1 & S1 & L1 & I1).
  assert (check_member r j referenced m = Ok r1) as ->
    by (unfold check_member; by rewrite bool_decide_true).
  cbn [mbind result_bind].
  destruct (IH r1 S1) as (r2 & E2 & S2 & L2 & I2); [intros; apply Hm; by right|].
  exists r2. split_and!; [done|done|by etrans|].
  intros m' i [->|?]%elem_of_cons ?; [by eapply lookup_weaken; [apply I1|] | by eapply I2].
Qed.

Lemma check_joints_ok js referenced :
  referenced_sound referenced ->
  (forall j, j ∈ js -> check_joint_retention r j = Ok () /\
                       forall m, m ∈ j_members j -> member_references j m) ->
  exists referenced', foldM (check_joint r) referenced js = Ok referenced' /\
    referenced ⊆ referenced' /\
    (forall j m i, j ∈ js -> m ∈ j_members j -> i ∈ jm_feature_ids m ->
       referenced' !! i = Some (j_joint_id j)).
Proof.
  revert referenced; induction js as [|j js IH]; intros referenced Hs Hj; cbn [foldM].
  { exists referenced. split_and!; [done..|]. by intros j m i ?%not_elem_of_nil. }
  destruct (Hj j) as [Hr Hm]; [by left|].
  destruct (check_members_ok j (j_members j) referenced Hs Hm) as (r1 & E1 & S1 & L1 & I1).
  assert (check_joint r referenced j = Ok r1) as -> by (unfold check_joint; by rewrite Hr).
  cbn [mbind result_bind].
  destruct (IH r1 S1) as (r2 & E2 & L2 & I2); [intros; apply Hj; by right|].
  exists r2. split_and!; [done|by etrans|].
  intros j' m i [->|?]%elem_of_cons ? ?; [by eapply lookup_weaken; [eapply I1|] | by eapply I2].
Qed.

(** Complete cross references pass every check of the three loops. *)
Lemma references_pass :
  (forall j, j ∈ dr_joints r -> check_joint_retention r j = Ok () /\
             forall m, m ∈ j_members j -> member_references j m) ->
  (forall f, f ∈ all_features (dr_parts r) -> feature_referenced f) ->
  exists referenced, foldM (check_joint r) ∅ (dr_joints r) = Ok referenced /\
    check_all (check_feature_owner r referenced) (all_features (dr_parts r)) = Ok ().
Proof.
  intros Hj Hf. destruct (check_joints_ok (dr_joints r) ∅) as (refd & E & _ & I);
    [intros i jid; by rewrite lookup_empty | done|].
  exists refd. split; [done|]. apply check_all_Ok, Forall_forall. intros f F.
  unfold check_feature_owner.
  destruct (Hf f F) as [->|(j & m & ? & ? & -> & ?)]; [done|]. cbv iota.
  rewrite (bool_decide_true (j_joint_id j ∈ _)) by (by apply list_elem_of_fmap_2).
  cbn [negb raise_if mbind result_bind].
  rewrite bool_decide_true; [done|]. by eapply I.
Qed.
End References.
