(* ===== verification/BookcaseParts.v ===== *)
(** * The compiler's parts

    [BookcaseEngine._build_parts] of
    [packages/domain/src/custombuild_domain/engine.py] and the small functions
    it uses.  The constants every part is computed from are gathered in a
    [Layout]; each group of [add(...)] calls of the source is a list of
    [part_request]s, and [add_part] is the closure [add]. *)

From S2P Require Import Prelude Geometry Enums Models Identity DesignResult.

(** ** Versioned constants *)

Definition DADO_FIT_CLEARANCE_UM : Z := mm_hundredths 50.
Definition DADO_FEATURE_TOLERANCE_UM : Z := mm_hundredths 5.
Definition DADO_MAX_DEPTH_UM : Z := mm_int 12.
Definition DADO_CORNER_RELIEF_RADIUS_UM : Z := mm_int 3.
Definition DADO_MIN_ADJACENT_RELIEF_SPACING_UM : Z :=
  2 * DADO_CORNER_RELIEF_RADIUS_UM + 2 * DADO_FEATURE_TOLERANCE_UM.
Definition DADO_REAR_RELIEF_CLEARANCE_UM : Z := mm_int 4.

Definition ROLE_BROAD_FACES (role : PartRole) : option (FaceName * FaceName) :=
  match role with
  | LEFT_SIDE | RIGHT_SIDE | DIVIDER | BASE_SIDE => Some (FACE_LEFT, FACE_RIGHT)
  | TOP | BOTTOM | SHELF | BASE_BOTTOM | BASE_TOP => Some (FACE_BOTTOM, FACE_TOP)
  | BACK | PLINTH | CABINET_FRONT => Some (FACE_FRONT, FACE_BACK)
  | _ => None
  end.

(** One third of the stock, between 1 mm and 12 mm. *)
Definition dado_depth_of (thickness_um : Z) : Z :=
  Z.max (mm_int 1) (Z.min DADO_MAX_DEPTH_UM (thickness_um / 3)).

(** Side capture of an inset back in a divider, limited so that the relief
    envelopes of two opposing grooves stay apart. *)
Definition inset_back_side_capture_depth (thickness_um : Z) : result Z :=
  let maximum_capture := (thickness_um - DADO_MIN_ADJACENT_RELIEF_SPACING_UM) / 2 in
  raise_if (maximum_capture <? mm_int 1)
    (ValueError "stock is too thin for multi-bay inset-back side capture with the versioned dogbone cutter envelope");;
  Ok (Z.min (dado_depth_of thickness_um) maximum_capture).

Definition expanded (thickness_um allowance_um dimension : Z) : Z :=
  if dimension =? thickness_um then dimension else dimension + 2 * allowance_um.

Definition raw_size_of (size : Dimensions3D) (thickness_um allowance_um : Z) : result Dimensions3D :=
  if allowance_um =? 0 then Ok size
  else new_Dimensions3D
    (mkDimensions3D (expanded thickness_um allowance_um (d_width_um size))
                    (expanded thickness_um allowance_um (d_depth_um size))
                    (expanded thickness_um allowance_um (d_height_um size))).

(** Finished volume times density, rounded up to whole grams, at least one. *)
Definition weight_g_of (size : Dimensions3D) (density_kg_m3 : Z) : Z :=
  let numerator := d_width_um size * d_depth_um size * d_height_um size * density_kg_m3 * 1000 in
  let denominator := 1000000 ^ 3 in
  Z.max 1 ((numerator + denominator - 1) / denominator).

(** ** Derived measures *)

Record Layout := mkLayout {
  l_t : Z;
  l_case_depth : Z;
  l_inner_width : Z;
  l_shelf_zone_bottom : Z;
  l_bottom_z : Z;
  l_inner_height : Z;
  l_dado_depth : Z;
  l_inset_back_divider_capture : Z;
  l_carcass_side_inset : Z;
  l_fixed_shelf_inset : Z;
  l_shelf_depth : Z;
  l_divider_depth : Z }.

Definition layout_with (p : BookcaseParameters) (capture : Z) : Layout :=
  let t := p_actual_thickness_um p in
  let case_depth :=
    p_depth_um p - (if bool_decide (p_back_panel p = SURFACE_MOUNTED) then p_back_thickness_um p else 0) in
  let zone_bottom := shelf_zone_bottom p in
  let dado_depth := dado_depth_of t in
  let shelf_depth :=
    match p_back_panel p with
    | INSET_GROOVE =>
        p_depth_um p - mm_int 12 - p_back_thickness_um p - DADO_REAR_RELIEF_CLEARANCE_UM
    | SURFACE_MOUNTED => case_depth - p_back_thickness_um p - DADO_REAR_RELIEF_CLEARANCE_UM
    | BACK_NONE => case_depth - DADO_REAR_RELIEF_CLEARANCE_UM
    end in
  mkLayout t case_depth (p_width_um p - 2 * t) zone_bottom (zone_bottom - t)
    (p_height_um p - zone_bottom - t) dado_depth capture
    (if bool_decide (p_joint_system p = DADO) then dado_depth else 0)
    (if bool_decide (p_shelf_mount p = FIXED) && bool_decide (p_joint_system p = DADO)
     then dado_depth else 0)
    shelf_depth
    (if bool_decide (p_back_panel p = INSET_GROOVE) then p_depth_um p - mm_int 12 else shelf_depth).

Definition layout_of (p : BookcaseParameters) : result Layout :=
  capture ←
    (if bool_decide (p_back_panel p = INSET_GROOVE) && negb (p_vertical_divider_count p =? 0)
     then inset_back_side_capture_depth (p_actual_thickness_um p)
     else Ok (dado_depth_of (p_actual_thickness_um p)));
  Ok (layout_with p capture).

(** ** Part requests *)

Record part_request := mkRequest {
  rq_key : string;
  rq_role : PartRole;
  rq_index : Z;
  rq_size : Dimensions3D;
  rq_placement : Placement;
  rq_grain : GrainDirection;
  rq_visible : list FaceName;
  rq_band_front : bool }.

Definition add_part (spec : BookcaseDesignSpec) (rq : part_request) : result PartInstance :=
  let p := spec_parameters spec in
  let t := p_actual_thickness_um p in
  let role := rq_role rq in
  size ← new_Dimensions3D (rq_size rq);
  placement ← new_Placement (rq_placement rq);
  let part_material :=
    match spec_back_material spec with
    | Some back => if bool_decide (role = BACK) then back else spec_material spec
    | None => spec_material spec
    end in
  let effective_grain :=
    if bool_decide (mat_grain_direction part_material = GRAIN_NONE) then GRAIN_NONE else rq_grain rq in
  let part_thickness := if bool_decide (role = BACK) then p_back_thickness_um p else t in
  raw ← raw_size_of size part_thickness (mat_machining_allowance_um part_material);
  sides ← of_option (ROLE_BROAD_FACES role)
            (ValueError ("no physical broad-face mapping for part role " +:+ PartRole_value role));
  bands ←
    (if rq_band_front rq && negb (p_edge_band_thickness_um p =? 0)
     then b ← new_EdgeBand (mkEdgeBand FACE_FRONT (p_edge_band_thickness_um p)); Ok [b]
     else Ok []);
  new_PartInstance
    (mkPartInstance (stable_id "part" [spec_design_id spec; rq_key rq]) (rq_key rq) role (rq_index rq)
       (spec_revision spec) size raw placement (mat_material_id part_material)
       (mat_version part_material)
       (if negb (bool_decide (role = BACK)) then t else p_back_thickness_um p)
       effective_grain (fst sides) (snd sides) default_named_edges (rq_visible rq) bands []
       (weight_g_of size (mat_density_kg_m3 part_material))).

Section Requests.
Context (p : BookcaseParameters) (l : Layout).

Definition carcass_requests : list part_request :=
  let t := l_t l in
  [ mkRequest "left-side" LEFT_SIDE 0 (mkDimensions3D t (l_case_depth l) (p_height_um p))
      (place 0 0 0) GRAIN_Z [FACE_LEFT; FACE_FRONT] true;
    mkRequest "right-side" RIGHT_SIDE 0 (mkDimensions3D t (l_case_depth l) (p_height_um p))
      (place (p_width_um p - t) 0 0) GRAIN_Z [FACE_RIGHT; FACE_FRONT] true;
    mkRequest "bottom" BOTTOM 0
      (mkDimensions3D (l_inner_width l + 2 * l_carcass_side_inset l) (l_case_depth l) t)
      (place (t - l_carcass_side_inset l) 0 (l_bottom_z l)) GRAIN_X [FACE_FRONT] true;
    mkRequest "top" TOP 0
      (mkDimensions3D (l_inner_width l + 2 * l_carcass_side_inset l) (l_case_depth l) t)
      (place (t - l_carcass_side_inset l) 0 (p_height_um p - t)) GRAIN_X
      [FACE_TOP; FACE_FRONT] true ].

Definition engine_bay_widths : list Z :=
  allocate_bay_widths_um (l_inner_width l) (l_t l) (p_vertical_divider_count p)
    (p_bay_width_ratios_ppm p).

Definition divider_request (divider_index cursor : Z) : part_request :=
  mkRequest ("divider-" +:+ str_of_Z divider_index) DIVIDER divider_index
    (mkDimensions3D (l_t l) (l_divider_depth l) (l_inner_height l + 2 * l_dado_depth l))
    (place cursor 0 (l_shelf_zone_bottom l - l_dado_depth l)) GRAIN_Z [FACE_FRONT] true.

(** The loop over the bays: bay starts, and a divider after every bay but the
    last. *)
Fixpoint walk_bays (cursor bay_index : Z) (widths : list Z) : list Z * list part_request :=
  match widths with
  | [] => ([], [])
  | width :: rest =>
      let right := cursor + width in
      if bay_index <? p_vertical_divider_count p then
        let '(starts, dividers) := walk_bays (right + l_t l) (bay_index + 1) rest in
        (cursor :: starts, divider_request bay_index right :: dividers)
      else
        let '(starts, dividers) := walk_bays right (bay_index + 1) rest in
        (cursor :: starts, dividers)
  end.

Definition bay_starts : list Z := fst (walk_bays (l_t l) 0 engine_bay_widths).
Definition divider_requests : list part_request := snd (walk_bays (l_t l) 0 engine_bay_widths).

Definition engine_shelf_positions : list Z :=
  allocate_shelf_positions_um (l_shelf_zone_bottom l) (l_inner_height l) (l_t l) (p_shelf_count p)
    (p_shelf_height_ratios_ppm p).

(** [shelf_instance_index] counts rows first, then bays. *)
Definition shelf_request (index row z_um bay bay_start bay_width : Z) : part_request :=
  let clearance := if bool_decide (p_shelf_mount p = ADJUSTABLE) then p_shelf_side_clearance_um p else 0 in
  mkRequest ("shelf-r" +:+ str_of_Z row +:+ "-b" +:+ str_of_Z bay) SHELF index
    (mkDimensions3D (bay_width - 2 * clearance + 2 * l_fixed_shelf_inset l) (l_shelf_depth l) (l_t l))
    (place (bay_start + clearance - l_fixed_shelf_inset l) 0 z_um) GRAIN_X [FACE_A; FACE_FRONT] true.

Fixpoint shelf_row_requests (index row z_um bay : Z) (bays : list (Z * Z)) : list part_request :=
  match bays with
  | [] => []
  | (start, width) :: rest =>
      shelf_request index row z_um bay start width
        :: shelf_row_requests (index + 1) row z_um (bay + 1) rest
  end.

Fixpoint shelf_requests_from (index row : Z) (zs : list Z) (bays : list (Z * Z)) : list part_request :=
  match zs with
  | [] => []
  | z_um :: rest =>
      shelf_row_requests index row z_um 0 bays
        ++ shelf_requests_from (index + Z.of_nat (length bays)) (row + 1) rest bays
  end.

Definition bays : list (Z * Z) := zip bay_starts engine_bay_widths.
Definition shelf_requests : list part_request := shelf_requests_from 0 0 engine_shelf_positions bays.

(** *** Base cabinets *)

Definition base_openings : list Z :=
  if p_base_cabinet_count p =? Z.of_nat (length engine_bay_widths) then engine_bay_widths
  else allocate_bay_widths_um (p_width_um p - 2 * l_t l) (l_t l) (p_base_cabinet_count p - 1) [].

(** [base_boundary_positions] after its leading 0. *)
Fixpoint boundaries_from (cursor : Z) (openings : list Z) : list Z :=
  match openings with
  | [] => []
  | opening :: rest =>
      let cursor' := cursor + (l_t l + opening) in cursor' :: boundaries_from cursor' rest
  end.
Definition base_boundary_positions : list Z := 0 :: boundaries_from 0 base_openings.

Definition base_side_request (side_index x_um : Z) : part_request :=
  mkRequest ("base-side-" +:+ str_of_Z side_index) BASE_SIDE side_index
    (mkDimensions3D (l_t l) (p_base_cabinet_depth_um p)
       (p_base_cabinet_height_um p - l_t l + l_dado_depth l))
    (place x_um 0 (p_plinth_height_um p)) GRAIN_Z [FACE_FRONT] true.

(** [enumerate(base_boundary_positions[1:-1], start=1)] *)
Definition base_side_requests : list part_request :=
  let inner := take (length base_openings - 1) (boundaries_from 0 base_openings) in
  zip_with base_side_request (seqZ 1 (Z.of_nat (length inner))) inner.

Definition front_gap : Z := mm_int 2.

Definition cabinet_requests (cabinet_index boundary opening_width : Z) : list part_request :=
  let t := l_t l in
  let dado_depth := l_dado_depth l in
  let opening_x := boundary + t in
  [ mkRequest ("base-bottom-" +:+ str_of_Z cabinet_index) BASE_BOTTOM cabinet_index
      (mkDimensions3D (opening_width + 2 * dado_depth) (p_base_cabinet_depth_um p - t) t)
      (place (opening_x - dado_depth) t (p_plinth_height_um p)) GRAIN_X [FACE_A; FACE_FRONT] true;
    mkRequest ("cabinet-front-" +:+ str_of_Z cabinet_index) CABINET_FRONT cabinet_index
      (mkDimensions3D (opening_width - 2 * front_gap) t
         (p_base_cabinet_height_um p - 2 * t - 2 * front_gap))
      (place (opening_x + front_gap) 0 (p_plinth_height_um p + t + front_gap)) GRAIN_Z
      [FACE_FRONT] false ].

Definition base_requests : list part_request :=
  if p_base_cabinet_count p =? 0 then []
  else
    base_side_requests ++
    concat (zip_with (fun i bo => cabinet_requests i (fst bo) (snd bo))
              (seqZ 0 (Z.of_nat (length base_openings)))
              (zip base_boundary_positions base_openings)).

(** *** Backs and plinth *)

Definition inset_back_request (bay_count bay_index bay_start bay_width : Z) : part_request :=
  let left_capture := if bay_index =? 0 then l_dado_depth l else l_inset_back_divider_capture l in
  let right_capture :=
    if bay_index =? bay_count - 1 then l_dado_depth l else l_inset_back_divider_capture l in
  mkRequest (if bay_count =? 1 then "back" else "back-b" +:+ str_of_Z bay_index) BACK bay_index
    (mkDimensions3D (bay_width + left_capture + right_capture) (p_back_thickness_um p)
       (l_inner_height l + 2 * l_dado_depth l))
    (place (bay_start - left_capture) (p_depth_um p - mm_int 12 - p_back_thickness_um p)
       (l_shelf_zone_bottom l - l_dado_depth l)) GRAIN_Z [FACE_BACK] false.

Definition back_requests : list part_request :=
  match p_back_panel p with
  | SURFACE_MOUNTED =>
      [ mkRequest "back" BACK 0 (mkDimensions3D (p_width_um p) (p_back_thickness_um p) (p_height_um p))
          (place 0 (p_depth_um p - p_back_thickness_um p) 0) GRAIN_Z [FACE_BACK] false ]
  | INSET_GROOVE =>
      let bay_count := Z.of_nat (length engine_bay_widths) in
      zip_with (fun i b => inset_back_request bay_count i (fst b) (snd b)) (seqZ 0 bay_count) bays
  | BACK_NONE => []
  end.

Definition plinth_requests : list part_request :=
  if p_plinth_height_um p =? 0 then []
  else
    [ mkRequest "plinth" PLINTH 0
        (mkDimensions3D (l_inner_width l) (l_t l)
           (if negb (p_base_cabinet_count p =? 0) then p_plinth_height_um p
            else p_plinth_height_um p + l_dado_depth l))
        (place (l_t l) 0 0) GRAIN_X [FACE_FRONT] false ].

Definition all_requests : list part_request :=
  carcass_requests ++ divider_requests ++ shelf_requests ++ base_requests ++ back_requests
    ++ plinth_requests.
End Requests.

Definition build_parts (spec : BookcaseDesignSpec) : result (list PartInstance) :=
  let p := spec_parameters spec in
  l ← layout_of p;
  traverse (add_part spec) (all_requests p l).
