(* ===== verification/JointGeometry.v ===== *)
(** * Geometry of a joint: panels, dado interlocks and feature pairs

    The static helpers of [BookcaseEngine] in
    [packages/domain/src/custombuild_domain/engine.py] that turn a joint of two
    parts into machining features: [_panel_axes], [_axis_dimensions],
    [_physical_face], [_global_interval], [_fit_interval],
    [_dado_feature_geometry], [_open_end_reliefs], [_feature_origin],
    [_feature_pair] and [_hardware].  The dictionaries keyed by "x", "y", "z"
    of the source are functions on [axis]. *)

From S2P Require Import Prelude Geometry Enums Models Identity BookcaseParts.

(** ** Axes of a part *)

Definition axis_name (a : axis) : string :=
  match a with AX => "x" | AY => "y" | AZ => "z" end.

(** [d[a] = v] on a dictionary with the three axes as keys. *)
Definition set_axis (d : axis -> Z) (a : axis) (v : Z) : axis -> Z :=
  fun b => if bool_decide (b = a) then v else d b.

Definition axis_dimensions (part : PartInstance) (a : axis) : Z :=
  match a with
  | AX => d_width_um (part_finished_size part)
  | AY => d_depth_um (part_finished_size part)
  | AZ => d_height_um (part_finished_size part)
  end.

Definition panel_axes (part : PartInstance) : axis * axis :=
  match part_role part with
  | LEFT_SIDE | RIGHT_SIDE | DIVIDER | BASE_SIDE => (AY, AZ)
  | BACK | PLINTH | CABINET_FRONT => (AX, AZ)
  | _ => (AX, AY)
  end.

(** [({"x", "y", "z"} - set(axes)).pop()], for the pairs [panel_axes] returns. *)
Definition remaining_axis (axes : axis * axis) : axis :=
  match axes with
  | (AY, AZ) | (AZ, AY) => AX
  | (AX, AZ) | (AZ, AX) => AY
  | _ => AZ
  end.

Definition in_axes (a : axis) (axes : axis * axis) : bool :=
  bool_decide (a = fst axes) || bool_decide (a = snd axes).

Definition placement_axis (part : PartInstance) (a : axis) : Z :=
  match a with
  | AX => pl_x_um (part_placement part)
  | AY => pl_y_um (part_placement part)
  | AZ => pl_z_um (part_placement part)
  end.

Definition global_interval (part : PartInstance) (a : axis) : Z * Z :=
  let start := placement_axis part a in (start, start + axis_dimensions part a).

(** The canonical sides A and B of a part name one of its physical faces. *)
Definition canonical_face (part : PartInstance) (face : FaceName) : FaceName :=
  match face with
  | FACE_A =>
      match part_role part with
      | LEFT_SIDE | RIGHT_SIDE | DIVIDER | BASE_SIDE => FACE_LEFT
      | TOP | BOTTOM | SHELF | BASE_BOTTOM | BASE_TOP => FACE_BOTTOM
      | BACK | PLINTH | CABINET_FRONT => FACE_FRONT
      | _ => FACE_A
      end
  | FACE_B =>
      match part_role part with
      | LEFT_SIDE | RIGHT_SIDE | DIVIDER | BASE_SIDE => FACE_RIGHT
      | TOP | BOTTOM | SHELF | BASE_BOTTOM | BASE_TOP => FACE_TOP
      | BACK | PLINTH | CABINET_FRONT => FACE_BACK
      | _ => FACE_B
      end
  | other => other
  end.

Definition physical_face (part : PartInstance) (face : FaceName) : result (axis * Z) :=
  match canonical_face part face with
  | FACE_LEFT => Ok (AX, -1)
  | FACE_RIGHT => Ok (AX, 1)
  | FACE_FRONT => Ok (AY, -1)
  | FACE_BACK => Ok (AY, 1)
  | FACE_BOTTOM => Ok (AZ, -1)
  | FACE_TOP => Ok (AZ, 1)
  | other => Err (ValueError ("cannot resolve physical face " +:+ FaceName_value other))
  end.

(** ** Dado interlocks *)

(** Nominal fit clearance, shifted inward at stock edges. *)
Definition fit_interval (owner_interval mate_interval : Z * Z) (clearance_um : Z) : result (Z * Z) :=
  let '(owner_start, owner_end) := owner_interval in
  let '(mate_start, mate_end) := mate_interval in
  raise_if ((mate_start <? owner_start) || (owner_end <? mate_end) || (mate_end <=? mate_start))
    (ValueError "dado mating thickness lies outside the grooved panel face");;
  let target_width := mate_end - mate_start + clearance_um in
  raise_if (owner_end - owner_start <? target_width)
    (ValueError "dado fit clearance does not fit the grooved panel face");;
  let start := mate_start - clearance_um / 2 in
  let end_ := start + target_width in
  let '(start, end_) :=
    if start <? owner_start then (owner_start, end_ + (owner_start - start)) else (start, end_) in
  let '(start, end_) :=
    if owner_end <? end_ then (start - (end_ - owner_end), owner_end) else (start, end_) in
  raise_if ((start <? owner_start) || (owner_end <? end_))
    (ValueError "dado fit interval could not be contained in the grooved panel");;
  Ok (start, end_).

Definition rotated (part : PartInstance) : bool :=
  let pl := part_placement part in
  negb (pl_rotation_x_mdeg pl =? 0) || negb (pl_rotation_y_mdeg pl =? 0) ||
  negb (pl_rotation_z_mdeg pl =? 0).

Section Dado.
Context (owner mate : PartInstance).

(** One pass of the loop over the owner's panel axes: start and length of the
    groove along [a]. *)
Definition dado_extent (mate_thickness_axis : axis) (fit_clearance_um : Z) (a : axis)
    : result (Z * Z) :=
  let owner_interval := global_interval owner a in
  let mate_interval := global_interval mate a in
  if bool_decide (a = mate_thickness_axis) then
    '(start, end_) ← fit_interval owner_interval mate_interval fit_clearance_um;
    Ok (start, end_ - start)
  else
    let start := Z.max (fst owner_interval) (fst mate_interval) in
    let end_ := Z.min (snd owner_interval) (snd mate_interval) in
    raise_if (end_ <=? start)
      (ValueError ("dado members " +:+ part_semantic_key owner +:+ "/" +:+ part_semantic_key mate
                   +:+ " do not overlap on " +:+ axis_name a));;
    Ok (start, end_ - start).

Definition dado_feature_geometry (owner_face : FaceName) (depth_um fit_clearance_um : Z)
    : result (FeatureDimensions * Point3D) :=
  raise_if (rotated owner || rotated mate)
    (ValueError "dado geometry currently requires axis-aligned part placements");;
  '(normal_axis, face_sign) ← physical_face owner owner_face;
  let axes := panel_axes owner in
  raise_if (in_axes normal_axis axes)
    (ValueError ("dado face " +:+ FaceName_value owner_face +:+ " is not a broad face of "
                 +:+ part_semantic_key owner));;
  let mate_thickness_axis := remaining_axis (panel_axes mate) in
  raise_if (negb (in_axes mate_thickness_axis axes))
    (ValueError ("mating thickness of " +:+ part_semantic_key mate +:+ " is not in the groove plane"));;
  let owner_normal := global_interval owner normal_axis in
  let mate_normal := global_interval mate normal_axis in
  let expected_normal :=
    if face_sign <? 0 then (fst owner_normal, fst owner_normal + depth_um)
    else (snd owner_normal - depth_um, snd owner_normal) in
  let actual_normal :=
    (Z.max (fst owner_normal) (fst mate_normal), Z.min (snd owner_normal) (snd mate_normal)) in
  raise_if (negb (bool_decide (actual_normal = expected_normal)))
    (ValueError ("dado " +:+ part_semantic_key owner +:+ "/" +:+ part_semantic_key mate
                 +:+ " interlock is " +:+ str_of_Z (Z.max 0 (snd actual_normal - fst actual_normal))
                 +:+ " µm; expected " +:+ str_of_Z depth_um +:+ " µm"));;
  '(start0, length0) ← dado_extent mate_thickness_axis fit_clearance_um (fst axes);
  '(start1, length1) ← dado_extent mate_thickness_axis fit_clearance_um (snd axes);
  let local := set_axis (set_axis (fun _ => 0) (fst axes) (start0 - placement_axis owner (fst axes)))
                 (snd axes) (start1 - placement_axis owner (snd axes)) in
  dims ← new_FeatureDimensions
           (mkFeatureDimensions None (Some depth_um) (Some length0) (Some length1)
              (Some DADO_CORNER_RELIEF_RADIUS_UM));
  origin ← new_Point3D (mkPoint3D (local AX) (local AY) (local AZ));
  Ok (dims, origin).
End Dado.

Definition point_axis (p : Point3D) (a : axis) : Z :=
  match a with AX => pt_x_um p | AY => pt_y_um p | AZ => pt_z_um p end.

(** The ends of a groove that are flush with an edge of its panel. *)
Definition open_ends_on (owner : PartInstance) (origin : Point3D) (a : axis) (extent : Z)
    (low high : OpenEndRelief) : list OpenEndRelief :=
  let start := point_axis origin a in
  (if start =? 0 then [low] else []) ++
  (if start + extent =? axis_dimensions owner a then [high] else []).

Definition open_end_reliefs (owner : PartInstance) (dimensions : FeatureDimensions) (origin : Point3D)
    : result (list OpenEndRelief) :=
  let axes := panel_axes owner in
  match fd_width_um dimensions, fd_length_um dimensions with
  | Some width, Some length_ =>
      Ok (open_ends_on owner origin (fst axes) width U_MIN U_MAX ++
          open_ends_on owner origin (snd axes) length_ V_MIN V_MAX)
  | _, _ => Err (ValueError "open-end relief declaration requires rectangular dado dimensions")
  end.

(** ** Feature origins *)

Definition is_hole (kind : FeatureKind) : bool :=
  match kind with DRILL | SERIES_DRILL | COUNTERSINK => true | _ => false end.

(** [v or d] on an optional integer: zero is falsy. *)
Definition or_else (o : option Z) (d : Z) : Z :=
  match o with Some v => if v =? 0 then d else v | None => d end.

(** Extents along the two panel axes, and the common lower bound. *)
Definition origin_extents (kind : FeatureKind) (dimensions : FeatureDimensions)
    (pattern_count : Z) (pitch_um : option Z) : (Z * Z) * Z :=
  if is_hole kind then
    let margin := or_else (fd_diameter_um dimensions) 0 / 2 + mm_int 2 in
    ((margin + (pattern_count - 1) * or_else pitch_um 0, margin), margin)
  else
    let width := or_else (fd_width_um dimensions) (or_else (fd_diameter_um dimensions) (mm_int 1)) in
    ((width, or_else (fd_length_um dimensions) width), 0).

Definition clamp_axis (part : PartInstance) (kind : FeatureKind) (lower extent : Z) (a : axis)
    (coordinates : axis -> Z) : result (axis -> Z) :=
  let upper := axis_dimensions part a - extent in
  raise_if (upper <? lower)
    (ValueError ("feature " +:+ FeatureKind_value kind +:+ " does not fit part "
                 +:+ part_semantic_key part +:+ " on " +:+ axis_name a +:+ "-axis"));;
  Ok (set_axis coordinates a (Z.min (Z.max (coordinates a) lower) upper)).

Definition feature_origin (part : PartInstance) (kind : FeatureKind) (dimensions : FeatureDimensions)
    (mating : Point3D) (pattern_count : Z) (pitch_um : option Z) : result Point3D :=
  let coordinates := fun a => point_axis mating a - placement_axis part a in
  let axes := panel_axes part in
  let '(extents, lower) := origin_extents kind dimensions pattern_count pitch_um in
  coordinates ← clamp_axis part kind lower (fst extents) (fst axes) coordinates;
  coordinates ← clamp_axis part kind lower (snd extents) (snd axes) coordinates;
  let coordinates := set_axis coordinates (remaining_axis axes) 0 in
  new_Point3D (mkPoint3D (coordinates AX) (coordinates AY) (coordinates AZ)).

(** ** Feature pairs *)

(** The declared default of [ManufacturingFeature.tolerance_um]. *)
Definition default_tolerance_um : Z := mm_hundredths 15.

Definition feature_kinds (kind : JointType) : FeatureKind * option FeatureKind :=
  match kind with
  | DOWEL => (DRILL, Some DRILL)
  | CONFIRMAT => (COUNTERSINK, Some DRILL)
  | CAM_DOWEL => (POCKET, Some DRILL)
  | SHELF_PIN => (SERIES_DRILL, None)
  | RABBET => (F_RABBET, None)
  | DADO => (GROOVE, None)
  | TENON => (POCKET, Some OUTER_CONTOUR)
  end.

Definition hardware (kind : JointType) : option string * Z :=
  match kind with
  | DOWEL => (Some "dowel-8x30", 2)
  | CONFIRMAT => (Some "confirmat-7x50", 2)
  | CAM_DOWEL => (Some "cam-15-with-dowel", 2)
  | SHELF_PIN => (Some "shelf-pin-5", 2)
  | RABBET | DADO | TENON => (None, 0)
  end.

(** The closure [dimensions(feature, owner, mate)]. *)
Definition pair_dimensions (kind : JointType) (depth : Z) (feature : FeatureKind)
    (owner mate : PartInstance) : result FeatureDimensions :=
  match feature with
  | DRILL | SERIES_DRILL | COUNTERSINK | POCKET =>
      let diameter :=
        if bool_decide (feature = POCKET) && bool_decide (kind = CAM_DOWEL) then mm_int 15
        else mm_int (if bool_decide (kind = SHELF_PIN) then 5 else 8) in
      new_FeatureDimensions (mkFeatureDimensions (Some diameter) (Some depth) None None None)
  | _ =>
      let axes := panel_axes owner in
      new_FeatureDimensions
        (mkFeatureDimensions None (Some depth)
           (Some (Z.min (axis_dimensions owner (fst axes)) (axis_dimensions mate (fst axes))))
           (Some (Z.min (axis_dimensions owner (snd axes)) (axis_dimensions mate (snd axes))))
           None)
  end.

Definition pair_depth (kind : JointType) (thickness_um : Z) (dado_depth_override : option Z) : result Z :=
  match dado_depth_override with
  | None => Ok (Z.max (mm_int 1) (Z.min (mm_int 12) (thickness_um / 3)))
  | Some depth =>
      raise_if (negb (bool_decide (kind = DADO)))
        (ValueError "a dado depth override may only be used for a DADO joint");;
      raise_if (negb ((0 <? depth) && (depth <=? DADO_MAX_DEPTH_UM)))
        (ValueError "a dado depth override must be within the versioned depth range");;
      Ok depth
  end.

Section Pair.
Context (joint_id : string) (first second : PartInstance) (kind : JointType)
        (first_face second_face : FaceName) (mating : Point3D).

Definition first_kind : FeatureKind := fst (feature_kinds kind).
Definition first_pattern : Z :=
  if bool_decide (first_kind = SERIES_DRILL) || bool_decide (kind = DOWEL) then 2 else 1.
Definition second_pattern : Z := if bool_decide (kind = DOWEL) then 2 else 1.
Definition pitch_for (pattern : Z) : option Z := if 1 <? pattern then Some (mm_int 32) else None.

(** Dimensions, origin and open ends of the first feature: from the dado
    intersection for a dado, from the joint type otherwise. *)
Definition first_geometry (depth : Z) (first_dimensions_override : option FeatureDimensions)
    : result (FeatureDimensions * Point3D * list OpenEndRelief) :=
  if bool_decide (kind = DADO) then
    '(dims, origin) ← dado_feature_geometry first second first_face depth DADO_FIT_CLEARANCE_UM;
    reliefs ← open_end_reliefs first dims origin;
    Ok (dims, origin, reliefs)
  else
    dims ← (match first_dimensions_override with
            | Some d => Ok d
            | None => pair_dimensions kind depth first_kind first second
            end);
    origin ← feature_origin first first_kind dims mating first_pattern (pitch_for first_pattern);
    Ok (dims, origin, []).

Definition second_feature (depth : Z) (second_dimensions : option (FeatureKind * FeatureDimensions))
    : result (option ManufacturingFeature) :=
  match second_dimensions with
  | None => Ok None
  | Some (k, dims) =>
      origin ← feature_origin second k dims mating second_pattern (pitch_for second_pattern);
      f ← new_ManufacturingFeature
            (mkManufacturingFeature (stable_id "feature" [joint_id; part_id second]) (part_id second)
               (Some joint_id) k second_face origin dims second_pattern (pitch_for second_pattern)
               false default_tolerance_um 0 None false []);
      Ok (Some f)
  end.

Definition feature_pair (thickness_um : Z) (first_dimensions_override : option FeatureDimensions)
    (dado_depth_override : option Z)
    : result (ManufacturingFeature * option ManufacturingFeature) :=
  depth ← pair_depth kind thickness_um dado_depth_override;
  '(dims, origin, reliefs) ← first_geometry depth first_dimensions_override;
  second_dimensions ←
    (match snd (feature_kinds kind) with
     | None => Ok None
     | Some k => d ← pair_dimensions kind depth k second first; Ok (Some (k, d))
     end);
  let is_dado := bool_decide (kind = DADO) in
  f ← new_ManufacturingFeature
        (mkManufacturingFeature (stable_id "feature" [joint_id; part_id first]) (part_id first)
           (Some joint_id) first_kind first_face origin dims first_pattern (pitch_for first_pattern)
           false (if is_dado then DADO_FEATURE_TOLERANCE_UM else mm_hundredths 15)
           (if is_dado then DADO_FIT_CLEARANCE_UM else 0)
           (if is_dado then Some "dogbone-v2" else None) is_dado reliefs);
  g ← second_feature depth second_dimensions;
  Ok (f, g).
End Pair.

(** ** Properties *)

Lemma set_axis_eq d a v : set_axis d a v a = v.
Proof. unfold set_axis. by rewrite bool_decide_true. Qed.

Lemma set_axis_ne d a b v : b <> a -> set_axis d a v b = d b.
Proof. intros. unfold set_axis. by rewrite bool_decide_false. Qed.

Lemma panel_axes_cases part :
  panel_axes part = (AY, AZ) \/ panel_axes part = (AX, AZ) \/ panel_axes part = (AX, AY).
Proof. unfold panel_axes. destruct (part_role part); auto. Qed.

Lemma panel_axes_distinct part : fst (panel_axes part) <> snd (panel_axes part).
Proof. destruct (panel_axes_cases part) as [-> | [-> | ->]]; done. Qed.

(** The two panel axes and the remaining one are the three axes. *)
Lemma panel_axes_cover part a :
  a = fst (panel_axes part) \/ a = snd (panel_axes part) \/ a = remaining_axis (panel_axes part).
Proof. destruct (panel_axes_cases part) as [-> | [-> | ->]], a; cbn; auto. Qed.

Lemma in_axes_spec a part :
  in_axes a (panel_axes part) = true <-> a <> remaining_axis (panel_axes part).
Proof.
  unfold in_axes. destruct (panel_axes_cases part) as [-> | [-> | ->]], a; cbn; split; done.
Qed.

(** [fit_interval] is a clamp: the ideal start, pushed inside the owner. *)
Lemma fit_interval_eq os oe ms me c :
  0 <= c -> os <= ms -> me <= oe -> ms < me -> me - ms + c <= oe - os ->
  fit_interval (os, oe) (ms, me) c =
  Ok (Z.max os (Z.min (ms - c / 2) (oe - (me - ms + c))),
      Z.max os (Z.min (ms - c / 2) (oe - (me - ms + c))) + (me - ms + c)).
Proof.
  intros. unfold fit_interval.
  pose proof (Z.div_mod c 2). pose proof (Z.mod_pos_bound c 2).
  rewrite (proj2 (Z.ltb_ge ms os)), (proj2 (Z.ltb_ge oe me)), (proj2 (Z.leb_gt me ms)) by lia.
  cbn [orb raise_if mbind result_bind]. cbv zeta.
  rewrite (proj2 (Z.ltb_ge (oe - os) (me - ms + c))) by lia.
  cbn [raise_if mbind result_bind].
  set (target := me - ms + c) in *.
  destruct (Z.ltb_spec (ms - c / 2) os).
  - rewrite (proj2 (Z.ltb_ge oe _)) by lia. rewrite Z.ltb_irrefl, (proj2 (Z.ltb_ge oe _)) by lia.
    cbn [orb raise_if mbind result_bind]. f_equal. f_equal; lia.
  - destruct (Z.ltb_spec oe (ms - c / 2 + target)).
    + rewrite (proj2 (Z.ltb_ge _ os)), Z.ltb_irrefl by lia.
      cbn [orb raise_if mbind result_bind]. f_equal. f_equal; lia.
    + rewrite (proj2 (Z.ltb_ge _ os)), (proj2 (Z.ltb_ge oe _)) by lia.
      cbn [orb raise_if mbind result_bind]. f_equal. f_equal; lia.
Qed.

Lemma fit_interval_guard os oe ms me c :
  ~ (os <= ms /\ me <= oe /\ ms < me /\ me - ms + c <= oe - os) ->
  is_ok (fit_interval (os, oe) (ms, me) c) = false.
Proof.
  intros H. unfold fit_interval.
  destruct (Z.ltb_spec ms os), (Z.ltb_spec oe me), (Z.leb_spec me ms); try done.
  cbn [orb raise_if mbind result_bind].
  destruct (Z.ltb_spec (oe - os) (me - ms + c)); [done | lia].
Qed.

Lemma fit_interval_Ok os oe ms me c s e :
  0 <= c -> fit_interval (os, oe) (ms, me) c = Ok (s, e) ->
  (os <= ms /\ me <= oe /\ ms < me /\ me - ms + c <= oe - os) /\
  s = Z.max os (Z.min (ms - c / 2) (oe - (me - ms + c))) /\ e = s + (me - ms + c).
Proof.
  intros Hc H.
  assert (os <= ms /\ me <= oe /\ ms < me /\ me - ms + c <= oe - os) as G.
  { destruct (decide (os <= ms /\ me <= oe /\ ms < me /\ me - ms + c <= oe - os)) as [G|G]; [done|].
    apply fit_interval_guard in G. rewrite H in G. done. }
  split; [done|]. destruct G as (? & ? & ? & ?).
  rewrite fit_interval_eq in H by done. injection H as <- <-. done.
Qed.

(** the slot of a dado.  [_fit_interval] succeeds exactly when the mate
    lies inside the grooved panel with room for the clearance; the slot it
    returns then lies inside the panel, contains the whole thickness of the
    mate, is wider than it by exactly the clearance, and is centred on the mate
    whenever the panel has room on both sides (so the final containment guard
    of the code never fires). *)
Theorem fit_interval_contains (os oe ms me c : Z) :
  0 <= c ->
  (is_ok (fit_interval (os, oe) (ms, me) c) = true <->
   os <= ms /\ me <= oe /\ ms < me /\ me - ms + c <= oe - os) /\
  (forall s e, fit_interval (os, oe) (ms, me) c = Ok (s, e) ->
     os <= s <= ms /\ me <= e <= oe /\ e - s = me - ms + c /\
     (os + c / 2 <= ms -> me + (c - c / 2) <= oe -> s = ms - c / 2)).
Proof.
  intros Hc. split.
  - split.
    + intros H. destruct (fit_interval (os, oe) (ms, me) c) as [[s e]|] eqn:E; [|done].
      by apply fit_interval_Ok in E as [G _].
    + intros (? & ? & ? & ?). by rewrite fit_interval_eq.
  - intros s e H. pose proof (Z.div_mod c 2). pose proof (Z.mod_pos_bound c 2).
    apply fit_interval_Ok in H as [? [-> ->]]; [|done]. lia.
Qed.

Lemma fit_interval_contains_witness :
  0 <= 500 /\ fit_interval (0, 18000) (0, 6000) 500 = Ok (0, 6500).
Proof.
  split; [lia|].
  destruct (fit_interval_contains 0 18000 0 6000 500 ltac:(lia)) as [_ H].
  destruct (fit_interval (0, 18000) (0, 6000) 500) as [[s e]|] eqn:E;
    [by vm_compute in E; injection E as <- <- | by vm_compute in E].
Defined.

(** *** Dado geometry *)

(** The groove's extent along a panel axis of its owner. *)
Definition groove_extent (owner : PartInstance) (dims : FeatureDimensions) (a : axis) : Z :=
  default 0 (if bool_decide (a = fst (panel_axes owner)) then fd_width_um dims
             else fd_length_um dims).

(** Everything [dado_feature_geometry] computes, on success. *)
Lemma dado_feature_geometry_Ok owner mate face d c dims origin :
  dado_feature_geometry owner mate face d c = Ok (dims, origin) ->
  exists sign s0 l0 s1 l1,
    let axes := panel_axes owner in
    let n := remaining_axis axes in
    physical_face owner face = Ok (n, sign) /\
    rotated owner = false /\ rotated mate = false /\
    in_axes (remaining_axis (panel_axes mate)) axes = true /\
    (Z.max (fst (global_interval owner n)) (fst (global_interval mate n)),
     Z.min (snd (global_interval owner n)) (snd (global_interval mate n))) =
    (if sign <? 0 then (fst (global_interval owner n), fst (global_interval owner n) + d)
     else (snd (global_interval owner n) - d, snd (global_interval owner n))) /\
    dado_extent owner mate (remaining_axis (panel_axes mate)) c (fst axes) = Ok (s0, l0) /\
    dado_extent owner mate (remaining_axis (panel_axes mate)) c (snd axes) = Ok (s1, l1) /\
    dims = mkFeatureDimensions None (Some d) (Some l0) (Some l1) (Some DADO_CORNER_RELIEF_RADIUS_UM) /\
    0 < d /\
    point_axis origin (fst axes) = s0 - placement_axis owner (fst axes) /\
    point_axis origin (snd axes) = s1 - placement_axis owner (snd axes) /\
    point_axis origin n = 0.
Proof.
  unfold dado_feature_geometry. intros H.
  apply bind_Ok in H as ([] & Hrot & H). apply raise_if_Ok in Hrot. bprop.
  apply bind_Ok in H as ([n sg] & Hn & H). apply bind_Ok in H as ([] & Hb & H).
  apply raise_if_Ok in Hb.
  assert (n = remaining_axis (panel_axes owner)) as ->.
  { destruct (decide (n = remaining_axis (panel_axes owner))) as [E|E]; [done|].
    apply in_axes_spec in E. congruence. }
  apply bind_Ok in H as ([] & Hm & H). apply bind_Ok in H as ([] & Hi & H).
  apply bind_Ok in H as ([s0 l0] & Hs0 & H). apply bind_Ok in H as ([s1 l1] & Hs1 & H).
  apply bind_Ok in H as (dm & Hd & H). apply bind_Ok in H as (o & Ho & H).
  injection H as -> ->.
  unfold new_FeatureDimensions in Hd. unfold new_Point3D in Ho. inv_ok. bprop.
  cbn in *. exists sg, s0, l0, s1, l1. unfold PositiveUm in *. bprop.
  split_and!; try done.
  - by destruct (panel_axes_cases owner) as [-> | [-> | ->]].
  - by destruct (panel_axes_cases owner) as [-> | [-> | ->]].
  - by destruct (panel_axes_cases owner) as [-> | [-> | ->]].
Qed.

Lemma dado_extent_Ok owner mate m c a s l :
  0 <= c -> dado_extent owner mate m c a = Ok (s, l) ->
  fst (global_interval owner a) <= s /\ s + l <= snd (global_interval owner a) /\ 0 < l /\
  s <= Z.max (fst (global_interval owner a)) (fst (global_interval mate a)) /\
  Z.min (snd (global_interval owner a)) (snd (global_interval mate a)) <= s + l /\
  (a = m -> l = axis_dimensions mate a + c) /\
  (a <> m -> s = Z.max (fst (global_interval owner a)) (fst (global_interval mate a)) /\
             s + l = Z.min (snd (global_interval owner a)) (snd (global_interval mate a))).
Proof.
  intros Hc H. unfold dado_extent in H.
  destruct (decide (a = m)) as [->|E];
    [rewrite bool_decide_true in H by done | rewrite bool_decide_false in H by done].
  - apply bind_Ok in H as ([s' e'] & H & E). injection E as -> <-.
    unfold global_interval in *. cbn [fst snd] in *.
    pose proof (Z.div_mod c 2). pose proof (Z.mod_pos_bound c 2).
    apply fit_interval_Ok in H as [? [-> ->]]; [|done].
    split_and!; try lia. intros ?; done.
  - inv_ok. bprop. unfold global_interval in *. cbn [fst snd] in *. split_and!; try lia. intros ?; done.
Qed.

(** C23: a dado is the true interlock of its two members.  Whenever
    [_dado_feature_geometry] returns a groove, the two parts overlap by exactly
    the groove's depth, counted inwards from the face it is cut into; on both
    axes of that face the groove lies inside the finished panel, covers all of
    the mate's intersection with it, and across the mate's thickness it is wider
    than the mate by exactly the fit clearance. *)
Theorem dado_geometry_interlocks (owner mate : PartInstance) (face : FaceName) (depth clearance : Z)
    (dims : FeatureDimensions) (origin : Point3D) :
  0 <= clearance ->
  dado_feature_geometry owner mate face depth clearance = Ok (dims, origin) ->
  exists n sign,
    physical_face owner face = Ok (n, sign) /\ in_axes n (panel_axes owner) = false /\
    fd_depth_um dims = Some depth /\ 0 < depth /\ point_axis origin n = 0 /\
    (let lo := Z.max (placement_axis owner n) (placement_axis mate n) in
     let hi := Z.min (placement_axis owner n + axis_dimensions owner n)
                     (placement_axis mate n + axis_dimensions mate n) in
     hi - lo = depth /\
     (if sign <? 0 then lo = placement_axis owner n
      else hi = placement_axis owner n + axis_dimensions owner n)) /\
    forall a, in_axes a (panel_axes owner) = true ->
      let start := placement_axis owner a + point_axis origin a in
      let stop := start + groove_extent owner dims a in
      0 <= point_axis origin a /\
      point_axis origin a + groove_extent owner dims a <= axis_dimensions owner a /\
      0 < groove_extent owner dims a /\
      start <= Z.max (placement_axis owner a) (placement_axis mate a) /\
      Z.min (placement_axis owner a + axis_dimensions owner a)
            (placement_axis mate a + axis_dimensions mate a) <= stop /\
      (a = remaining_axis (panel_axes mate) ->
       groove_extent owner dims a = axis_dimensions mate a + clearance).
Proof.
  intros Hc H. apply dado_feature_geometry_Ok in H
    as (sg & s0 & l0 & s1 & l1 & Hf & _ & _ & _ & Hi & H0 & H1 & -> & Hd & P0 & P1 & Pn).
  exists (remaining_axis (panel_axes owner)), sg.
  apply dado_extent_Ok in H0, H1; [|done..]. unfold global_interval in *. cbn [fst snd] in *.
  split_and!; try done.
  - destruct (in_axes _ _) eqn:E; [|done]. by apply in_axes_spec in E.
  - destruct (sg <? 0); injection Hi as Ha Hb; lia.
  - destruct (sg <? 0); injection Hi as Ha Hb; lia.
  - intros a Ha. pose proof (panel_axes_distinct owner) as D. unfold groove_extent.
    apply in_axes_spec in Ha. destruct (panel_axes_cover owner a) as [-> | [-> | ?]]; [| |done].
    + rewrite bool_decide_true by done. cbn [fd_width_um]. change (default 0 (Some l0)) with l0. split_and!; try lia.
      intros E. apply H0 in E. done.
    + rewrite bool_decide_false by done. cbn [fd_length_um]. change (default 0 (Some l1)) with l1. split_and!; try lia.
      intros E. apply H1 in E. done.
Qed.

(** *** Feature origins *)

Lemma clamp_axis_Ok part kind lower extent a co co' :
  clamp_axis part kind lower extent a co = Ok co' ->
  lower <= axis_dimensions part a - extent /\ lower <= co' a <= axis_dimensions part a - extent /\
  (forall b, b <> a -> co' b = co b).
Proof.
  unfold clamp_axis. intros H. inv_ok. bprop. rewrite set_axis_eq.
  split_and!; try lia. intros b Hb. by apply set_axis_ne.
Qed.

(** a machining origin is safe.  Whatever the joint's reference point,
    [_feature_origin] either raises or returns an origin at which the whole
    pattern of features lies inside the finished panel: rectangles stay inside
    their edges, and every hole keeps its radius plus 2 mm away from all four
    edges.  The coordinate along the thickness is 0. *)
Theorem feature_origin_inside_panel (part : PartInstance) (kind : FeatureKind)
    (dims : FeatureDimensions) (mating : Point3D) (pattern : Z) (pitch : option Z) (origin : Point3D) :
  feature_origin part kind dims mating pattern pitch = Ok origin ->
  let '(u, v) := panel_axes part in
  let '((extent_u, extent_v), lower) := origin_extents kind dims pattern pitch in
  lower <= point_axis origin u /\ point_axis origin u + extent_u <= axis_dimensions part u /\
  lower <= point_axis origin v /\ point_axis origin v + extent_v <= axis_dimensions part v /\
  0 <= point_axis origin u /\ 0 <= point_axis origin v /\
  point_axis origin (remaining_axis (panel_axes part)) = 0.
Proof.
  unfold feature_origin. destruct (origin_extents kind dims pattern pitch) as [[eu ev] lower].
  pose proof (panel_axes_distinct part) as D.
  destruct (panel_axes part) as [u v] eqn:E. intros H. cbn [fst snd] in *.
  apply bind_Ok in H as (c1 & H1%clamp_axis_Ok & H). apply bind_Ok in H as (c2 & H2%clamp_axis_Ok & H).
  destruct H1 as (? & ? & _), H2 as (? & ? & F). specialize (F u D).
  unfold new_Point3D in H. inv_ok. unfold NonNegativeUm in *. bprop. cbn in *.
  assert (forall a, point_axis {| pt_x_um := set_axis c2 (remaining_axis (u, v)) 0 AX;
                             pt_y_um := set_axis c2 (remaining_axis (u, v)) 0 AY;
                             pt_z_um := set_axis c2 (remaining_axis (u, v)) 0 AZ |} a
               = set_axis c2 (remaining_axis (u, v)) 0 a) as R by by intros [].
  rewrite !R, set_axis_eq.
  pose proof (R u). pose proof (R v).
  destruct (panel_axes_cases part) as [E' | [E' | E']]; rewrite E in E'; injection E' as -> ->;
    cbn [remaining_axis] in *; rewrite !set_axis_ne in * by done; lia.
Qed.
