(* ===== verification/BookcaseJoints.v ===== *)
(** * The compiler's joints

    [BookcaseEngine._build_joints] and [_validate_dado_interlocks] of
    [packages/domain/src/custombuild_domain/engine.py].  The closure [join] is a
    function on a [Builder] (the dictionary [feature_map] and the list
    [joints]); each section of the source that calls it is one definition, run
    in the source's order by [build_joints]. *)

From S2P Require Import Prelude Geometry Enums Models Identity DesignResult BookcaseParts JointGeometry.

Record Builder := mkBuilder {
  b_features : gmap string (list ManufacturingFeature);
  b_joints : list Joint }.

Definition empty_builder : Builder := mkBuilder ∅ [].

(** [feature_map[part_id].append(feature)] on a [defaultdict(list)]. *)
Definition append_feature (m : gmap string (list ManufacturingFeature)) (f : ManufacturingFeature)
    : gmap string (list ManufacturingFeature) :=
  <[f_part_id f := default [] (m !! f_part_id f) ++ [f]]> m.

(** The arguments of one call of [join]. *)
Record join_args := mkJoin {
  a_key : string;
  a_first_key : string;
  a_second_key : string;
  a_kind : JointType;
  a_first_face : FaceName;
  a_second_face : FaceName;
  a_direction : AssemblyDirection;
  a_mating : Point3D;
  a_class : option JointRetentionApplicationClass;
  a_first_feature_face : option FaceName;
  a_second_feature_face : option FaceName;
  a_first_feature_dimensions : option FeatureDimensions;
  a_dado_depth_um : option Z }.

(** A call that leaves the feature arguments at their default. *)
Definition plain_join (key first second : string) (kind : JointType) (f1 f2 : FaceName)
    (d : AssemblyDirection) (mating : Point3D) (c : option JointRetentionApplicationClass) : join_args :=
  mkJoin key first second kind f1 f2 d mating c None None None None.

Definition default_joint_tolerance_um : Z := mm_hundredths 20.

Section Joins.
Context (spec : BookcaseDesignSpec) (parts : list PartInstance).
Let p := spec_parameters spec.

Definition by_key : gmap string PartInstance := dict_of part_semantic_key parts.
Definition part_at (key : string) : result PartInstance := of_option (by_key !! key) (KeyError key).

Definition join_hardware (kind : JointType) (retention : option JointRetentionContract)
    : option string * Z :=
  match retention with
  | Some r => (Some (rc_hardware_sku r), rc_hardware_count_per_joint r)
  | None => hardware kind
  end.

Definition join (b : Builder) (a : join_args) : result Builder :=
  mating ← new_Point3D (a_mating a);
  let kind := a_kind a in
  raise_if (bool_decide (kind = DADO) && bool_decide (a_class a = None))
    (ValueError "every DADO call site must declare its retention application");;
  raise_if (negb (bool_decide (kind = DADO)) && negb (bool_decide (a_class a = None)))
    (ValueError "only DADO joints may declare a retention application");;
  first ← part_at (a_first_key a);
  second ← part_at (a_second_key a);
  let joint_id := stable_id "joint" [spec_design_id spec; a_key a] in
  '(first_feature, second_feature) ←
    feature_pair joint_id first second kind
      (default (a_first_face a) (a_first_feature_face a))
      (default (a_second_face a) (a_second_feature_face a)) mating
      (p_actual_thickness_um p) (a_first_feature_dimensions a) (a_dado_depth_um a);
  let features := append_feature (b_features b) first_feature in
  let features := match second_feature with Some g => append_feature features g | None => features end in
  let retention :=
    if bool_decide (a_class a = Some LOAD_BEARING_CARCASS_DADO) then spec_joint_retention spec
    else None in
  let '(sku, count) := join_hardware kind retention in
  m1 ← new_JointMember (mkJointMember (part_id first) (a_first_face a) [f_feature_id first_feature]);
  m2 ← new_JointMember (mkJointMember (part_id second) (a_second_face a)
                          (match second_feature with Some g => [f_feature_id g] | None => [] end));
  j ← new_Joint (mkJoint joint_id kind m1 m2 mating (a_direction a) sku count
                   (if bool_decide (kind = DADO) then DADO_FIT_CLEARANCE_UM
                    else default_joint_tolerance_um)
                   (a_class a) retention);
  Ok (mkBuilder features (b_joints b ++ [j])).

Definition joins (b : Builder) (l : list join_args) : result Builder := foldM join b l.

(** [LOAD_BEARING_CARCASS_DADO if kind == DADO else None] *)
Definition carcass_class (kind : JointType) : option JointRetentionApplicationClass :=
  if bool_decide (kind = DADO) then Some LOAD_BEARING_CARCASS_DADO else None.

Definition load_bearing : option JointRetentionApplicationClass := Some LOAD_BEARING_CARCASS_DADO.

Definition carcass_joins (bottom : PartInstance) : list join_args :=
  let t := p_actual_thickness_um p in
  let bottom_z := pl_z_um (part_placement bottom) in
  let k := p_joint_system p in
  [ plain_join "bottom-left" "left-side" "bottom" k FACE_RIGHT FACE_LEFT POS_X
      (mkPoint3D t 0 bottom_z) (carcass_class k);
    plain_join "bottom-right" "right-side" "bottom" k FACE_LEFT FACE_RIGHT NEG_X
      (mkPoint3D (p_width_um p - t) 0 bottom_z) (carcass_class k);
    plain_join "top-left" "left-side" "top" k FACE_RIGHT FACE_LEFT POS_X
      (mkPoint3D t 0 (p_height_um p - t)) (carcass_class k);
    plain_join "top-right" "right-side" "top" k FACE_LEFT FACE_RIGHT NEG_X
      (mkPoint3D (p_width_um p - t) 0 (p_height_um p - t)) (carcass_class k) ].

(** [sorted((part for part in parts if part.role == role), key=instance_index)] *)
Definition by_role (role : PartRole) : list PartInstance :=
  sort_by (cmp_on part_instance_index Z.compare) (filter (fun q => part_role q = role) parts).

Definition top_of_part (q : PartInstance) : Z :=
  pl_z_um (part_placement q) + d_height_um (part_finished_size q).
Definition right_of_part (q : PartInstance) : Z :=
  pl_x_um (part_placement q) + d_width_um (part_finished_size q).

Definition divider_joins (bottom top divider : PartInstance) : list join_args :=
  let index := str_of_Z (part_instance_index divider) in
  let x := pl_x_um (part_placement divider) in
  [ plain_join ("divider-" +:+ index +:+ "-bottom") "bottom" (part_semantic_key divider) DADO
      FACE_TOP FACE_BOTTOM POS_Z (mkPoint3D x 0 (top_of_part bottom)) load_bearing;
    plain_join ("divider-" +:+ index +:+ "-top") "top" (part_semantic_key divider) DADO
      FACE_BOTTOM FACE_TOP NEG_Z (mkPoint3D x 0 (pl_z_um (part_placement top))) load_bearing ].

(** [l[i]] on a list indexed by a computed position. *)
Definition index_at (l : list PartInstance) (i : Z) : result PartInstance :=
  of_option (if i <? 0 then None else l !! Z.to_nat i) (IndexError "list index out of range").

Definition shelf_joins (supports : list PartInstance) (shelf : PartInstance)
    : result (list join_args) :=
  let bay_count := p_vertical_divider_count p + 1 in
  let row := part_instance_index shelf / bay_count in
  let bay := part_instance_index shelf mod bay_count in
  let k := if bool_decide (p_shelf_mount p = ADJUSTABLE) then SHELF_PIN else p_joint_system p in
  let inset := if bool_decide (k = DADO) then dado_depth_of (p_actual_thickness_um p) else 0 in
  let name := "shelf-r" +:+ str_of_Z row +:+ "-b" +:+ str_of_Z bay in
  let z := pl_z_um (part_placement shelf) in
  left_support ← index_at supports bay;
  right_support ← index_at supports (bay + 1);
  Ok [ plain_join (name +:+ "-left") (part_semantic_key left_support) (part_semantic_key shelf) k
         FACE_RIGHT FACE_LEFT POS_X (mkPoint3D (pl_x_um (part_placement shelf) + inset) 0 z)
         (carcass_class k);
       plain_join (name +:+ "-right") (part_semantic_key right_support) (part_semantic_key shelf) k
         FACE_LEFT FACE_RIGHT NEG_X (mkPoint3D (right_of_part shelf - inset) 0 z)
         (carcass_class k) ].

Definition base_bottom_joins (left right : PartInstance) (count : Z) (cabinet_index : Z)
    (base_bottom : PartInstance) : result (list join_args) :=
  left_support ← (if cabinet_index =? 0 then Ok left
                  else part_at ("base-side-" +:+ str_of_Z cabinet_index));
  right_support ← (if cabinet_index =? count - 1 then Ok right
                   else part_at ("base-side-" +:+ str_of_Z (cabinet_index + 1)));
  let name := "base-bottom-" +:+ str_of_Z cabinet_index in
  let z := pl_z_um (part_placement base_bottom) in
  Ok [ plain_join (name +:+ "-left-support") (part_semantic_key left_support)
         (part_semantic_key base_bottom) DADO FACE_RIGHT FACE_LEFT POS_X
         (mkPoint3D (right_of_part left_support) 0 z) load_bearing;
       plain_join (name +:+ "-right-support") (part_semantic_key right_support)
         (part_semantic_key base_bottom) DADO FACE_LEFT FACE_RIGHT NEG_X
         (mkPoint3D (pl_x_um (part_placement right_support)) 0 z) load_bearing ].

Definition base_side_join (bottom base_side : PartInstance) : join_args :=
  plain_join (part_semantic_key base_side +:+ "-upper-bottom") "bottom" (part_semantic_key base_side)
    DADO FACE_BOTTOM FACE_TOP POS_Z
    (mkPoint3D (pl_x_um (part_placement base_side)) 0 (pl_z_um (part_placement bottom))) load_bearing.

Definition base_section (left right bottom : PartInstance) (b : Builder) : result Builder :=
  let base_bottoms := by_role BASE_BOTTOM in
  match base_bottoms with
  | [] => Ok b
  | _ =>
      let count := Z.of_nat (length base_bottoms) in
      b ← foldM (fun b ib => l ← base_bottom_joins left right count (fst ib) (snd ib); joins b l)
            b (zip (seqZ 0 count) base_bottoms);
      joins b (map (base_side_join bottom) (by_role BASE_SIDE))
  end.

(** *** Backs *)

Record boundary := mkBoundary {
  bd_name : string; bd_support : PartInstance; bd_support_face : FaceName;
  bd_back_face : FaceName; bd_origin : Point3D }.

Definition inset_boundaries (left_support right_support top bottom back : PartInstance)
    : result (list boundary) :=
  let bx := pl_x_um (part_placement back) in
  let y := pl_y_um (part_placement back) in
  let z := pl_z_um (part_placement back) in
  traverse (fun d => o ← new_Point3D (bd_origin d); Ok d)
    [ mkBoundary "left-side" left_support FACE_B FACE_LEFT (mkPoint3D (right_of_part left_support) y z);
      mkBoundary "right-side" right_support FACE_A FACE_RIGHT
        (mkPoint3D (pl_x_um (part_placement right_support)) y z);
      mkBoundary "top" top FACE_A FACE_TOP
        (mkPoint3D (Z.max (pl_x_um (part_placement top)) bx) y (pl_z_um (part_placement top)));
      mkBoundary "bottom" bottom FACE_B FACE_BOTTOM
        (mkPoint3D (Z.max (pl_x_um (part_placement bottom)) bx) y (top_of_part bottom)) ].

Definition boundary_join (capture : Z) (back : PartInstance) (d : boundary) : join_args :=
  mkJoin (part_semantic_key back +:+ "-" +:+ bd_name d) (part_semantic_key (bd_support d))
    (part_semantic_key back) DADO (bd_support_face d) (bd_back_face d) NEG_Y (bd_origin d)
    (Some CAPTIVE_INSET_BACK_GROOVE) (Some (bd_support_face d)) None None
    (if bool_decide (bd_name d ∈ ["left-side"; "right-side"]) &&
        bool_decide (part_role (bd_support d) = DIVIDER)
     then Some capture else None).

Definition inset_back_section (supports backs : list PartInstance) (top bottom : PartInstance)
    (b : Builder) : result Builder :=
  raise_if (negb (Z.of_nat (length backs) =? Z.of_nat (length supports) - 1))
    (ValueError "inset back fields must match the carcass bay count");;
  capture ← (if negb (p_vertical_divider_count p =? 0)
             then inset_back_side_capture_depth (p_actual_thickness_um p)
             else Ok (dado_depth_of (p_actual_thickness_um p)));
  foldM (fun b ib =>
           left_support ← index_at supports (fst ib);
           right_support ← index_at supports (fst ib + 1);
           ds ← inset_boundaries left_support right_support top bottom (snd ib);
           joins b (map (boundary_join capture (snd ib)) ds))
    b (zip (seqZ 0 (Z.of_nat (length backs))) backs).

(** Feature face, dimensions and reference point of one RABBET of a
    surface-mounted back. *)
Definition surface_join (name : string) (face : FaceName) (dims : FeatureDimensions) (origin : Point3D)
    : join_args :=
  mkJoin ("back-" +:+ name) name "back" RABBET FACE_BACK FACE_A NEG_Y origin None (Some face) None
    (Some dims) None.

Definition surface_back_section (backs : list PartInstance) (top bottom : PartInstance) (b : Builder)
    : result Builder :=
  match backs with
  | [back] =>
      raise_if (negb (bool_decide (part_semantic_key back = "back")))
        (ValueError "surface-mounted back must remain one canonical panel");;
      let t := p_actual_thickness_um p in
      let inner_width := p_width_um p - 2 * t in
      let inner_height := p_height_um p - shelf_zone_bottom p - t in
      let groove_depth := Z.max (mm_int 1) (Z.min (mm_int 12) (t / 3)) in
      let back_t := p_back_thickness_um p in
      let y := pl_y_um (part_placement back) in
      let dims w l := mkFeatureDimensions None (Some groove_depth) (Some w) (Some l) None in
      let upright := dims back_t inner_height in
      let level := dims inner_width back_t in
      traverse new_FeatureDimensions [upright; upright; level; level];;
      let js :=
        [ surface_join "left-side" FACE_B upright (mkPoint3D t y (top_of_part bottom));
          surface_join "right-side" FACE_A upright (mkPoint3D (p_width_um p - t) y (top_of_part bottom));
          surface_join "top" FACE_A level (mkPoint3D t y (pl_z_um (part_placement top)));
          surface_join "bottom" FACE_B level (mkPoint3D t y (pl_z_um (part_placement bottom))) ] in
      traverse (fun a => new_Point3D (a_mating a)) js;;
      joins b js
  | _ => Err (ValueError "surface-mounted back must remain one canonical panel")
  end.

Definition plinth_join : join_args :=
  mkJoin "plinth-bottom" "bottom" "plinth" DADO FACE_BOTTOM FACE_TOP NEG_Z
    (mkPoint3D (p_actual_thickness_um p) 0 (p_plinth_height_um p)) load_bearing (Some FACE_A) None None
    None.

(** The sections of [_build_joints], in order. *)
Definition run_joins : result Builder :=
  left ← part_at "left-side";
  right ← part_at "right-side";
  bottom ← part_at "bottom";
  top ← part_at "top";
  b ← joins empty_builder (carcass_joins bottom);
  let dividers := by_role DIVIDER in
  b ← joins b (concat (map (divider_joins bottom top) dividers));
  let supports := left :: dividers ++ [right] in
  b ← foldM (fun b shelf => l ← shelf_joins supports shelf; joins b l) b (by_role SHELF);
  b ← base_section left right bottom b;
  b ← (match p_back_panel p with
       | INSET_GROOVE => inset_back_section supports (by_role BACK) top bottom b
       | SURFACE_MOUNTED => surface_back_section (by_role BACK) top bottom b
       | BACK_NONE => Ok b
       end);
  if bool_decide (is_Some (by_key !! "plinth")) && (p_base_cabinet_count p =? 0)
  then join b plinth_join else Ok b.

Definition updated_parts (b : Builder) : list PartInstance :=
  map (fun q => with_features q (default [] (b_features b !! part_id q))) parts.
End Joins.

(** ** [_validate_dado_interlocks] *)

Section Validate.
Context (by_id : gmap string PartInstance) (feature_by_id : gmap string ManufacturingFeature).

Definition id_at {A} (m : gmap string A) (k : string) : result A := of_option (m !! k) (KeyError k).

Definition validate_dado (j : Joint) : result unit :=
  if negb (bool_decide (j_joint_type j = DADO)) then Ok ()
  else
    match jm_feature_ids (j_first j), jm_feature_ids (j_second j) with
    | [groove_id], [] =>
        feature ← id_at feature_by_id groove_id;
        match f_kind feature, fd_depth_um (f_dimensions feature) with
        | GROOVE, Some depth =>
            owner ← id_at by_id (jm_part_id (j_first j));
            mate ← id_at by_id (jm_part_id (j_second j));
            '(dims, origin) ← dado_feature_geometry owner mate (f_face feature) depth (j_tolerance_um j);
            raise_if (negb (bool_decide (f_dimensions feature = dims)) ||
                      negb (bool_decide (f_origin feature = origin)))
              (ValueError ("dado feature geometry diverges for joint " +:+ j_joint_id j));;
            reliefs ← open_end_reliefs owner dims origin;
            raise_if (negb (bool_decide (f_open_end_reliefs feature = reliefs)))
              (ValueError ("dado open-end relief declaration diverges for joint " +:+ j_joint_id j));;
            raise_if (j_tolerance_um j <=? f_tolerance_um feature * 2)
              (ValueError ("dado machining tolerance consumes fit for joint " +:+ j_joint_id j))
        | _, _ => Err (ValueError "a dado cut member must reference one depth-defined groove")
        end
    | _, _ => Err (ValueError "a dado must have one groove and one uncut mating edge")
    end.
End Validate.

Definition validate_dado_interlocks (parts : list PartInstance) (joints : list Joint) : result unit :=
  check_all (validate_dado (dict_of part_id parts) (dict_of f_feature_id (all_features parts))) joints.

Definition build_joints (spec : BookcaseDesignSpec) (parts : list PartInstance)
    : result (list PartInstance * list Joint) :=
  b ← run_joins spec parts;
  let updated := updated_parts parts b in
  validate_dado_interlocks updated (b_joints b);;
  Ok (updated, b_joints b).

(** ** Properties *)

Lemma feature_pair_Ok jid first second kind ff sf mating t ov dd f g :
  feature_pair jid first second kind ff sf mating t ov dd = Ok (f, g) ->
  f_part_id f = part_id first /\ f_joint_id f = Some jid /\
  (forall g', g = Some g' -> f_part_id g' = part_id second /\ f_joint_id g' = Some jid) /\
  (kind = DADO ->
   g = None /\ f_kind f = GROOVE /\ f_tolerance_um f = DADO_FEATURE_TOLERANCE_UM /\
   exists depth, fd_depth_um (f_dimensions f) = Some depth /\
     dado_feature_geometry first second (f_face f) depth DADO_FIT_CLEARANCE_UM
       = Ok (f_dimensions f, f_origin f) /\
     open_end_reliefs first (f_dimensions f) (f_origin f) = Ok (f_open_end_reliefs f)).
Proof.
  unfold feature_pair. intros H.
  apply bind_Ok in H as (depth & Hdepth & H).
  apply bind_Ok in H as ([[dims origin] reliefs] & Hg & H).
  apply bind_Ok in H as (sd & Hsd & H). cbv zeta in H.
  apply bind_Ok in H as (f1 & Hf & H). apply bind_Ok in H as (g1 & Hg1 & H). injection H as -> ->.
  unfold new_ManufacturingFeature in Hf. inv_ok. cbn [f_part_id f_joint_id].
  split_and!; [done | done | |].
  - intros g' ->. unfold second_feature in Hg1. destruct sd as [[k ds]|]; [|done].
    apply bind_Ok in Hg1 as (o & _ & Hg1). apply bind_Ok in Hg1 as (f2 & Hf2 & Hg1).
    injection Hg1 as <-. unfold new_ManufacturingFeature in Hf2. inv_ok. done.
  - intros ->. cbn in Hsd. injection Hsd as <-. injection Hg1 as <-.
    unfold first_geometry in Hg. rewrite bool_decide_true in Hg by done.
    apply bind_Ok in Hg as ([d o] & Hd & Hg). apply bind_Ok in Hg as (r & Hr & Hg).
    injection Hg as -> -> ->. cbn [f_kind f_tolerance_um f_dimensions f_origin f_face f_open_end_reliefs].
    split_and!; try done. exists depth.
    split_and!; [|done..].
    by apply dado_feature_geometry_Ok in Hd as (? & ? & ? & ? & ? & _ & _ & _ & _ & _ & _ & _ & -> & _).
Qed.

(** Adding features changes none of the geometry. *)
Lemma dado_feature_geometry_with_features o m fo fm face d c :
  dado_feature_geometry (with_features o fo) (with_features m fm) face d c =
  dado_feature_geometry o m face d c.
Proof. reflexivity. Qed.

Lemma open_end_reliefs_with_features o fo dims origin :
  open_end_reliefs (with_features o fo) dims origin = open_end_reliefs o dims origin.
Proof. reflexivity. Qed.

Section Invariant.
Context (spec : BookcaseDesignSpec) (parts : list PartInstance).

Definition feats (b : Builder) (k : string) : list ManufacturingFeature :=
  default [] (b_features b !! k).

(** [m] is a member of the joint named [jid] standing for the part [q]. *)
Definition member_ok (b : Builder) (jid : string) (m : JointMember) (q : PartInstance) : Prop :=
  q ∈ parts /\ jm_part_id m = part_id q /\
  Forall (fun i => exists f, f ∈ feats b (part_id q) /\ f_feature_id f = i /\ f_joint_id f = Some jid)
    (jm_feature_ids m).

Definition dado_ok (b : Builder) (j : Joint) (first second : PartInstance) : Prop :=
  j_tolerance_um j = DADO_FIT_CLEARANCE_UM /\ jm_feature_ids (j_second j) = [] /\
  exists f depth, f ∈ feats b (part_id first) /\ jm_feature_ids (j_first j) = [f_feature_id f] /\
    f_kind f = GROOVE /\ f_tolerance_um f = DADO_FEATURE_TOLERANCE_UM /\
    fd_depth_um (f_dimensions f) = Some depth /\
    dado_feature_geometry first second (f_face f) depth DADO_FIT_CLEARANCE_UM
      = Ok (f_dimensions f, f_origin f) /\
    open_end_reliefs first (f_dimensions f) (f_origin f) = Ok (f_open_end_reliefs f).

Definition joint_ok (b : Builder) (j : Joint) : Prop :=
  distinct_members j = Ok () /\
  j_retention j = (if bool_decide (j_retention_application_class j = Some LOAD_BEARING_CARCASS_DADO)
                   then spec_joint_retention spec else None) /\
  exists first second, member_ok b (j_joint_id j) (j_first j) first /\
    member_ok b (j_joint_id j) (j_second j) second /\
    (j_joint_type j = DADO -> dado_ok b j first second).

(** The feature [f] stored under [k] is the feature a joint lists for [k]. *)
Definition feature_ok (b : Builder) (k : string) (f : ManufacturingFeature) : Prop :=
  f_part_id f = k /\
  exists j m, j ∈ b_joints b /\ f_joint_id f = Some (j_joint_id j) /\ m ∈ j_members j /\
    jm_part_id m = k /\ f_feature_id f ∈ jm_feature_ids m.

Definition builder_ok (b : Builder) : Prop :=
  Forall (joint_ok b) (b_joints b) /\ (forall k f, f ∈ feats b k -> feature_ok b k f).

Definition extends (b b' : Builder) : Prop :=
  (forall k f, f ∈ feats b k -> f ∈ feats b' k) /\ (forall j, j ∈ b_joints b -> j ∈ b_joints b').

Lemma member_ok_extends b b' jid m q : extends b b' -> member_ok b jid m q -> member_ok b' jid m q.
Proof.
  intros [E _] (? & ? & H). split_and!; [done..|]. eapply Forall_impl; [done|].
  cbn. intros i (f & ? & ?). exists f. auto.
Qed.

Lemma joint_ok_extends b b' j : extends b b' -> joint_ok b j -> joint_ok b' j.
Proof.
  intros E (? & ? & q1 & q2 & ? & ? & D). split_and!; [done..|]. exists q1, q2.
  split_and!; [by eapply member_ok_extends..|].
  intros (? & ? & f & d & ? & ?)%D. split_and!; [done..|]. exists f, d. split; [by apply E | done].
Qed.

Lemma feature_ok_extends b b' k f : extends b b' -> feature_ok b k f -> feature_ok b' k f.
Proof. intros E (? & j & m & ? & ?). split; [done|]. exists j, m. split; [by apply E | done]. Qed.

Lemma part_at_Ok key q : part_at parts key = Ok q -> q ∈ parts.
Proof. intros H%of_option_Ok. by apply dict_of_Some in H as [? _]. Qed.

Lemma feats_append m js f k g :
  g ∈ feats (mkBuilder (append_feature m f) js) k <->
  g ∈ default [] (m !! k) \/ (k = f_part_id f /\ g = f).
Proof.
  unfold feats, append_feature. cbn [b_features].
  destruct (decide (k = f_part_id f)) as [->|N].
  - rewrite lookup_insert_eq. cbn [default id]. rewrite elem_of_app, list_elem_of_singleton. naive_solver.
  - rewrite lookup_insert_ne by done. naive_solver.
Qed.

(** What one successful call of [join] adds. *)
Lemma join_Ok b a b' :
  join spec parts b a = Ok b' ->
  exists first second f g j,
    first ∈ parts /\ second ∈ parts /\
    b_joints b' = b_joints b ++ [j] /\
    (forall k h, h ∈ feats b' k <->
       h ∈ feats b k \/ (k = f_part_id f /\ h = f) \/ (Some h = g /\ k = f_part_id h)) /\
    f_part_id f = part_id first /\ f_joint_id f = Some (j_joint_id j) /\
    (forall g', g = Some g' -> f_part_id g' = part_id second /\ f_joint_id g' = Some (j_joint_id j)) /\
    jm_part_id (j_first j) = part_id first /\ jm_feature_ids (j_first j) = [f_feature_id f] /\
    jm_part_id (j_second j) = part_id second /\
    jm_feature_ids (j_second j) = (match g with Some g' => [f_feature_id g'] | None => [] end) /\
    distinct_members j = Ok () /\
    j_retention j = (if bool_decide (j_retention_application_class j = Some LOAD_BEARING_CARCASS_DADO)
                     then spec_joint_retention spec else None) /\
    (j_joint_type j = DADO ->
     j_tolerance_um j = DADO_FIT_CLEARANCE_UM /\ g = None /\ f_kind f = GROOVE /\
     f_tolerance_um f = DADO_FEATURE_TOLERANCE_UM /\
     exists depth, fd_depth_um (f_dimensions f) = Some depth /\
       dado_feature_geometry first second (f_face f) depth DADO_FIT_CLEARANCE_UM
         = Ok (f_dimensions f, f_origin f) /\
       open_end_reliefs first (f_dimensions f) (f_origin f) = Ok (f_open_end_reliefs f)).
Proof.
  unfold join. intros H.
  apply bind_Ok in H as (mating & _ & H). cbv zeta in H.
  apply bind_Ok in H as ([] & _ & H). apply bind_Ok in H as ([] & _ & H).
  apply bind_Ok in H as (first & H1%part_at_Ok & H). apply bind_Ok in H as (second & H2%part_at_Ok & H).
  apply bind_Ok in H as ([f g] & (F1 & F2 & F3 & F4)%feature_pair_Ok & H).
  destruct (join_hardware _ _) as [sku count].
  apply bind_Ok in H as (m1 & M1 & H). apply bind_Ok in H as (m2 & M2 & H).
  apply bind_Ok in H as (j & J & H). injection H as <-.
  unfold new_JointMember in M1, M2. unfold new_Joint in J. inv_ok.
  exists first, second, f, g. eexists.
  repeat match goal with |- _ /\ _ => split end; try done.
  2:{ by repeat match goal with u : () |- _ => destruct u end. }
  2:{ cbn [j_joint_type j_tolerance_um]. intros K. rewrite bool_decide_true by done.
    destruct (F4 K) as (? & ? & ? & ?). done. }
  - intros k h. destruct g as [g'|].
    + rewrite feats_append. unfold append_feature at 1.
      destruct (F3 g' eq_refl) as [? _].
      destruct (decide (k = f_part_id f)) as [->|N].
      * rewrite lookup_insert_eq. cbn [default id]. unfold feats.
        rewrite elem_of_app, list_elem_of_singleton. naive_solver.
      * rewrite lookup_insert_ne by done. unfold feats. naive_solver.
    + rewrite feats_append. unfold feats. naive_solver.
Qed.

Lemma join_extends b a b' : join spec parts b a = Ok b' -> extends b b'.
Proof.
  intros (? & ? & f & g & j & _ & _ & J & F & _)%join_Ok. split.
  - intros k h Hh. apply F. by left.
  - intros j' Hj. rewrite J. apply elem_of_app. by left.
Qed.

Lemma join_ok b a b' : builder_ok b -> join spec parts b a = Ok b' -> builder_ok b'.
Proof.
  intros [Hj Hf] H. pose proof (join_extends _ _ _ H) as E.
  apply join_Ok in H
    as (first & second & f & g & j & P1 & P2 & J & F & F1 & F2 & F3 & M1 & M1' & M2 & M2' & D & R & DD).
  assert (f ∈ feats b' (part_id first)) as Ff by (apply F; auto).
  split.
  - rewrite J. apply Forall_app. split.
    { eapply Forall_impl; [done|]. intros j'. by apply joint_ok_extends. }
    apply Forall_singleton. split_and!; [done..|]. exists first, second.
    unfold member_ok, dado_ok. repeat match goal with |- _ /\ _ => split end; try done.
    + rewrite M1'. apply Forall_singleton. eauto.
    + rewrite M2'. destruct g as [g'|]; [|done]. destruct (F3 g' eq_refl).
      apply Forall_singleton. exists g'. split; [|done]. apply F. naive_solver.
    + intros (T & -> & K & KT & depth & ?)%DD. split_and!; [done..|]. by exists f, depth.
  - intros k h Hh. apply F in Hh as [Hh|[[-> ->]|[Hg ->]]].
    + by eapply feature_ok_extends, Hf.
    + split; [done|]. exists j, (j_first j). rewrite J, M1', M1.
      split_and!; [set_solver | done | by left | done | by left].
    + subst g. destruct (F3 h eq_refl). split; [done|]. exists j, (j_second j). rewrite J, M2', M2.
      split_and!; [set_solver | done | right; by left | done | by left].
Qed.

End Invariant.

(** *** What every join keeps, the compiler keeps *)

Lemma new_FeatureDimensions_Ok d d' : new_FeatureDimensions d = Ok d' -> d' = d.
Proof. unfold new_FeatureDimensions. intros H. inv_ok. done. Qed.

Lemma checked_dimensions l ds :
  traverse new_FeatureDimensions l = Ok ds -> Forall (fun d => new_FeatureDimensions d = Ok d) l.
Proof.
  intros H%traverse_Ok. induction H as [|d d' l ds E _ IH]; constructor; [|done].
  pose proof (new_FeatureDimensions_Ok _ _ E). by subst.
Qed.

(** The keys of backs start with their name, and no other key does. *)
Definition back_key (key : string) : bool := String.prefix "back" key.
Definition keys_tell (parts : list PartInstance) : Prop :=
  forall q, q ∈ parts -> part_role q = BACK <-> back_key (part_semantic_key q) = true.

(** A key that names no back. *)
Definition carcass_end (parts : list PartInstance) (key : string) : Prop := keys_tell parts -> back_key key = false.

Lemma carcass_end_role parts q : q ∈ parts -> part_role q <> BACK -> carcass_end parts (part_semantic_key q).
Proof. intros Hq N K. apply not_true_iff_false. by rewrite <- (K q Hq). Qed.

Lemma by_role_elem parts role q : q ∈ by_role parts role -> q ∈ parts /\ part_role q = role.
Proof. unfold by_role. rewrite elem_of_sort_by, list_elem_of_filter. tauto. Qed.

Lemma carcass_end_by_role parts role q : q ∈ by_role parts role -> role <> BACK -> carcass_end parts (part_semantic_key q).
Proof. intros [Hq <-]%by_role_elem. by apply carcass_end_role. Qed.

Lemma part_at_key parts key q : part_at parts key = Ok q -> part_semantic_key q = key.
Proof. intros H%of_option_Ok. by apply dict_of_Some in H as [_ ?]. Qed.

Lemma carcass_end_at parts key q : part_at parts key = Ok q -> back_key key = false -> carcass_end parts (part_semantic_key q).
Proof. intros ->%part_at_key E _. exact E. Qed.

(** Dimensions given to a join are checked and name a depth, and load-bearing
    joints are given no back. *)
Definition arguments_ok (parts : list PartInstance) (a : join_args) : Prop :=
  match a_first_feature_dimensions a with
  | Some d => new_FeatureDimensions d = Ok d /\ is_Some (fd_depth_um d)
  | None => True
  end /\
  (a_class a = Some LOAD_BEARING_CARCASS_DADO ->
   carcass_end parts (a_first_key a) /\ carcass_end parts (a_second_key a)).

Ltac carcass_key := first [assumption | by intros _ | by eapply carcass_end_by_role].
Ltac plain_argument := split; [exact I|intros _; split; cbn [a_first_key a_second_key plain_join]; carcass_key].
Ltac plain_arguments := repeat (apply Forall_cons; split; [plain_argument|]); constructor.

Section Runs.
Context (spec : BookcaseDesignSpec) (parts : list PartInstance) (P : Builder -> Prop).
Hypothesis Hjoin : forall b a b', arguments_ok parts a -> P b -> join spec parts b a = Ok b' -> P b'.

Lemma joins_inv b l b' : Forall (arguments_ok parts) l -> P b -> joins spec parts b l = Ok b' -> P b'.
Proof. rewrite Forall_forall. intros Hl Hb. apply foldM_inv; [|done]. intros s a s' Ha. by apply Hjoin, Hl. Qed.

(** Supports of shelves: the sides and the dividers. *)
Definition carcass_ends (qs : list PartInstance) : Prop := Forall (fun q => carcass_end parts (part_semantic_key q)) qs.

Lemma index_at_end supports i q : carcass_ends supports -> index_at supports i = Ok q -> carcass_end parts (part_semantic_key q).
Proof.
  intros S H%of_option_Ok. destruct (_ <? _); [done|]. apply list_elem_of_lookup_2 in H.
  unfold carcass_ends in S. rewrite Forall_forall in S. by apply S.
Qed.

Lemma shelf_joins_arguments supports shelf l : carcass_ends supports -> shelf ∈ by_role parts SHELF ->
  shelf_joins spec supports shelf = Ok l -> Forall (arguments_ok parts) l.
Proof.
  intros S Hs. unfold shelf_joins. cbv zeta. intros (q1 & Q1%(index_at_end _ _ _ S) & H)%bind_Ok.
  apply bind_Ok in H as (q2 & Q2%(index_at_end _ _ _ S) & H). injection H as <-. plain_arguments.
Qed.

Lemma base_side_key i : back_key ("base-side-" +:+ i) = false.
Proof. reflexivity. Qed.

Lemma base_bottom_arguments left right count i q l :
  carcass_end parts (part_semantic_key left) -> carcass_end parts (part_semantic_key right) -> q ∈ by_role parts BASE_BOTTOM ->
  base_bottom_joins parts left right count i q = Ok l -> Forall (arguments_ok parts) l.
Proof.
  intros L R Q. unfold base_bottom_joins. cbv zeta. intros (q1 & Q1 & H)%bind_Ok. apply bind_Ok in H as (q2 & Q2 & H).
  injection H as <-.
  assert (carcass_end parts (part_semantic_key q1)) as E1
    by (destruct (_ =? _) in Q1; [by injection Q1 as <-|by eapply carcass_end_at, base_side_key]).
  assert (carcass_end parts (part_semantic_key q2)) as E2
    by (destruct (_ =? _) in Q2; [by injection Q2 as <-|by eapply carcass_end_at, base_side_key]).
  plain_arguments.
Qed.

Lemma map_arguments {A} (f : A -> join_args) l :
  (forall x, x ∈ l -> arguments_ok parts (f x)) -> Forall (arguments_ok parts) (map f l).
Proof. intros H. by apply Forall_fmap, Forall_forall. Qed.

Lemma zip_elem {A B} (l : list A) (k : list B) a b : (a, b) ∈ zip l k -> b ∈ k.
Proof. intros H%list_elem_of_lookup. destruct H as [i H]. apply lookup_zip_with_Some in H as (? & ? & [= -> ->] & _ & H). by eapply list_elem_of_lookup_2. Qed.

Lemma base_section_inv left right bottom b b' :
  carcass_end parts (part_semantic_key left) -> carcass_end parts (part_semantic_key right) ->
  P b -> base_section spec parts left right bottom b = Ok b' -> P b'.
Proof.
  intros L R Hb H. unfold base_section in H. destruct (by_role parts BASE_BOTTOM) eqn:E; [by injection H as <-|]. rewrite <- E in H.
  cbv zeta in H. apply bind_Ok in H as (b1 & H1 & H).
  eapply joins_inv, H; [apply map_arguments; intros x Hx; plain_argument|].
  revert H1. apply foldM_inv; [|done]. intros s [i x] s' Hin Hs Hx.
  apply zip_elem in Hin. apply bind_Ok in Hx as (js & Hl%base_bottom_arguments & Hx); [|done..]. by eapply joins_inv.
Qed.

Lemma inset_back_section_inv supports backs top bottom b b' :
  P b -> inset_back_section spec parts supports backs top bottom b = Ok b' -> P b'.
Proof.
  intros Hb H. unfold inset_back_section in H. apply bind_Ok in H as ([] & _ & H).
  apply bind_Ok in H as (capture & _ & H). revert H. apply foldM_inv; [|done].
  intros s x s' _ Hs Hx. apply bind_Ok in Hx as (? & _ & Hx). apply bind_Ok in Hx as (? & _ & Hx).
  apply bind_Ok in Hx as (? & _ & Hx). eapply joins_inv, Hx; [by apply map_arguments|done].
Qed.

Lemma surface_back_section_inv backs top bottom b b' :
  P b -> surface_back_section spec parts backs top bottom b = Ok b' -> P b'.
Proof.
  intros Hb H. unfold surface_back_section in H. destruct backs as [|back [|? ?]]; [done| |done].
  apply bind_Ok in H as ([] & _ & H). cbv zeta in H. apply bind_Ok in H as (ds & Hd & H).
  apply bind_Ok in H as (? & _ & H). eapply joins_inv, H; [|done].
  apply checked_dimensions in Hd. rewrite !Forall_cons in Hd. destruct Hd as (U & _ & V & _).
  repeat (apply Forall_cons; split; [split; [split; [first [exact U | exact V] | by eexists]|done]|]). constructor.
Qed.

Lemma run_joins_inv b : P empty_builder -> run_joins spec parts = Ok b -> P b.
Proof.
  unfold run_joins. intros H0 H.
  apply bind_Ok in H as (left & L & H). apply bind_Ok in H as (right & R & H).
  apply carcass_end_at in L; [|reflexivity]. apply carcass_end_at in R; [|reflexivity].
  apply bind_Ok in H as (bottom & _ & H). apply bind_Ok in H as (top & _ & H).
  apply bind_Ok in H as (b1 & H1%joins_inv & H); [|plain_arguments|done].
  cbv zeta in H. apply bind_Ok in H as (b2 & H2%joins_inv & H); [| |done].
  2:{ apply Forall_concat, Forall_fmap, Forall_forall. intros x Hx. plain_arguments. }
  apply bind_Ok in H as (b3 & H3 & H).
  assert (P b3) as H3'.
  { revert H3. apply foldM_inv; [|done]. intros s x s' Hin Hs Hx.
    apply bind_Ok in Hx as (l & Hl%shelf_joins_arguments & Hx); [by eapply joins_inv| |done].
    apply Forall_cons. split; [exact L|]. apply Forall_app. split; [|by repeat constructor].
    apply Forall_forall. intros q Hq. by eapply carcass_end_by_role. }
  apply bind_Ok in H as (b4 & H4 & H). apply base_section_inv in H4; [|done..].
  apply bind_Ok in H as (b5 & H5 & H).
  assert (P b5) as H5'.
  { destruct (p_back_panel _); [by injection H5 as <- | |].
    - by apply surface_back_section_inv in H5.
    - by apply inset_back_section_inv in H5. }
  destruct (_ && _); [eapply Hjoin, H; [plain_argument | done] | by injection H as <-].
Qed.
End Runs.

Lemma run_joins_ok spec parts b : run_joins spec parts = Ok b -> builder_ok spec parts b.
Proof.
  apply run_joins_inv; [intros; by eapply join_ok|]. split; [constructor | by intros k f ?%not_elem_of_nil].
Qed.

(** *** The compiled parts and joints *)

Section Compiled.
Context (spec : BookcaseDesignSpec) (parts : list PartInstance) (b : Builder).
Hypothesis Hrun : run_joins spec parts = Ok b.
Hypothesis Hparts : NoDup (map part_id parts).
Hypothesis Hfeatures : NoDup (map f_feature_id (all_features (updated_parts parts b))).

Lemma updated_part_ids : map part_id (updated_parts parts b) = map part_id parts.
Proof. unfold updated_parts. rewrite map_map. by apply map_ext. Qed.

Lemma updated_features q f :
  q ∈ parts -> f ∈ feats b (part_id q) -> f ∈ all_features (updated_parts parts b).
Proof.
  intros Hq Hf. unfold all_features, updated_parts. rewrite map_map. cbn.
  apply list_elem_of_In, in_concat. exists (feats b (part_id q)).
  split; apply list_elem_of_In; [|done]. by apply (list_elem_of_fmap_2 (fun q => feats b (part_id q))).
Qed.

Lemma updated_feature_inv f :
  f ∈ all_features (updated_parts parts b) -> exists q, q ∈ parts /\ f ∈ feats b (part_id q).
Proof.
  unfold all_features, updated_parts. rewrite map_map. intros Hf.
  apply list_elem_of_In, in_concat in Hf as (l & Hl & Hf). apply list_elem_of_In in Hl, Hf.
  apply list_elem_of_fmap in Hl as (q & -> & Hq). by exists q.
Qed.

Lemma feature_lookup q f :
  q ∈ parts -> f ∈ feats b (part_id q) ->
  dict_of f_feature_id (all_features (updated_parts parts b)) !! f_feature_id f = Some f.
Proof. intros. apply dict_of_elem; [done|]. by eapply updated_features. Qed.

Lemma part_lookup q :
  q ∈ parts ->
  dict_of part_id (updated_parts parts b) !! part_id q = Some (with_features q (feats b (part_id q))).
Proof.
  intros Hq. change (part_id q) with (part_id (with_features q (feats b (part_id q)))) at 1.
  apply dict_of_elem; [by rewrite updated_part_ids|].
  by apply (list_elem_of_fmap_2 (fun q => with_features q (feats b (part_id q)))).
Qed.

Lemma joint_validates j : joint_ok spec parts b j ->
  validate_dado (dict_of part_id (updated_parts parts b))
    (dict_of f_feature_id (all_features (updated_parts parts b))) j = Ok ().
Proof.
  intros (_ & _ & q1 & q2 & (P1 & M1 & _) & (P2 & M2 & _) & D). unfold validate_dado.
  destruct (decide (j_joint_type j = DADO)) as [K|K];
    [rewrite bool_decide_true by done | by rewrite bool_decide_false].
  destruct (D K) as (T & E2 & f & depth & Hf & E1 & Kf & Tf & Df & G & R).
  cbn [negb]. rewrite E1, E2. unfold id_at. rewrite (feature_lookup q1) by done.
  cbn [of_option mbind result_bind]. rewrite Kf, Df. rewrite M1, M2, !part_lookup by done.
  cbn [of_option mbind result_bind]. rewrite dado_feature_geometry_with_features, T, G.
  cbn [mbind result_bind]. rewrite !bool_decide_true by done. cbn [negb orb raise_if mbind result_bind].
  rewrite open_end_reliefs_with_features, R. cbn [mbind result_bind]. rewrite bool_decide_true by done.
  by rewrite Tf.
Qed.
End Compiled.

(** C30: the compiler's last check never rejects what the compiler built.  When
    the sections of [_build_joints] succeed and part and feature identifiers are
    distinct, the final recomputation of every dado (geometry, origin, open
    ends, tolerance against fit) agrees with the features that were emitted, so
    [_build_joints] returns them. *)
Theorem build_joints_interlocks_agree (spec : BookcaseDesignSpec) (parts : list PartInstance)
    (b : Builder) :
  run_joins spec parts = Ok b ->
  NoDup (map part_id parts) ->
  NoDup (map f_feature_id (all_features (updated_parts parts b))) ->
  build_joints spec parts = Ok (updated_parts parts b, b_joints b).
Proof.
  intros Hrun Hp Hf. unfold build_joints. rewrite Hrun. cbn [mbind result_bind].
  assert (validate_dado_interlocks (updated_parts parts b) (b_joints b) = Ok ()) as ->; [|done].
  apply check_all_Ok, Forall_forall. intros j Hj. apply (joint_validates spec); [done..|].
  destruct (run_joins_ok _ _ _ Hrun) as [Hjs _]. by eapply Forall_forall in Hjs.
Qed.

Lemma build_joints_Ok spec parts parts' js :
  build_joints spec parts = Ok (parts', js) ->
  exists b, run_joins spec parts = Ok b /\ parts' = updated_parts parts b /\ js = b_joints b.
Proof.
  unfold build_joints. intros H. apply bind_Ok in H as (b & Hb & H). cbv zeta in H.
  apply bind_Ok in H as (? & _ & H). injection H as <- <-. by exists b.
Qed.
