(* ===== verification/BookcaseRetention.v ===== *)
(** * The references and the retention of a compiled design

    The compiler hands its joints to [DesignResult.validate_result_integrity].
    Every reference in them is good, and the frozen retention contract, where
    the specification has one, covers every panel that it is put on: the
    validator of the specification compares it with the carcass material, and
    load-bearing dados join panels of that material only. *)

From S2P Require Import Prelude Geometry Enums Models Identity DesignResult BookcaseParts JointGeometry BookcaseJoints.

(** ** Parts of the carcass and backs *)

(** Backs, and only they, have the keys of backs. *)
Definition request_named (rq : part_request) : Prop := rq_role rq = BACK <-> back_key (rq_key rq) = true.

Ltac named := unfold request_named; split; [intros E; first [discriminate E|reflexivity]|intros E; first [discriminate E|reflexivity]].

Section Requests.
Context (p : BookcaseParameters) (l : Layout).

Lemma dividers_named widths cursor i : Forall request_named (snd (walk_bays p l cursor i widths)).
Proof.
  revert cursor i. induction widths as [|w widths IH]; intros cursor i; cbn [walk_bays snd]; [constructor|].
  destruct (i <? _).
  - specialize (IH (cursor + w + l_t l) (i + 1)). destruct (walk_bays _ _ _ _ _) as [starts ds]. cbn [snd] in *.
    constructor; [named|done].
  - specialize (IH (cursor + w) (i + 1)). by destruct (walk_bays _ _ _ _ _) as [starts ds].
Qed.

Lemma shelves_named zs bays index row : Forall request_named (shelf_requests_from p l index row zs bays).
Proof.
  revert index row. induction zs as [|z zs IH]; intros index row; cbn [shelf_requests_from]; [constructor|].
  apply Forall_app. split; [|apply IH]. clear IH. generalize 0 as bay. revert index.
  induction bays as [|[start width] bays IH]; intros index bay; cbn [shelf_row_requests]; constructor; [named|apply IH].
Qed.

Lemma zip_with_all {A B C} (P : C -> Prop) (f : A -> B -> C) l1 l2 :
  (forall a b, P (f a b)) -> Forall P (zip_with f l1 l2).
Proof. intros H. revert l2. induction l1 as [|a l1 IH]; intros [|b l2]; cbn; constructor; auto. Qed.

Lemma requests_named : Forall request_named (all_requests p l).
Proof.
  unfold all_requests. rewrite !Forall_app. split_and!.
  - repeat (apply Forall_cons; split; [named|]). constructor.
  - apply dividers_named.
  - apply shelves_named.
  - unfold base_requests. destruct (_ =? 0); [constructor|]. apply Forall_app. split.
    + apply zip_with_all. intros a b. named.
    + apply Forall_concat, zip_with_all. intros i [b o]. repeat (apply Forall_cons; split; [named|]). constructor.
  - unfold back_requests. destruct (p_back_panel p); [constructor| |].
    + apply Forall_singleton. named.
    + apply zip_with_all. intros i [s w]. unfold inset_back_request. destruct (_ =? 1); named.
  - unfold plinth_requests. destruct (_ =? 0); [constructor|]. apply Forall_singleton. named.
Qed.
End Requests.

(** A panel that is no back is cut from the carcass material. *)
Definition of_carcass_material (spec : BookcaseDesignSpec) (q : PartInstance) : Prop :=
  part_actual_thickness_um q = p_actual_thickness_um (spec_parameters spec) /\
  (part_material_id q, part_material_version q) = (mat_material_id (spec_material spec), mat_version (spec_material spec)).

Lemma new_PartInstance_Ok q q' : new_PartInstance q = Ok q' -> q' = q.
Proof. unfold new_PartInstance. intros H. inv_ok. done. Qed.

Lemma add_part_material spec rq q : add_part spec rq = Ok q ->
  part_semantic_key q = rq_key rq /\ part_role q = rq_role rq /\ (part_role q <> BACK -> of_carcass_material spec q).
Proof.
  unfold add_part. cbv zeta. intros H. do 5 (apply bind_Ok in H as (? & _ & H)). apply new_PartInstance_Ok in H as ->.
  cbn [part_semantic_key part_role]. split_and!; [done|done|]. intros N. unfold of_carcass_material. cbn [part_actual_thickness_um
    part_material_id part_material_version]. rewrite (bool_decide_false (rq_role rq = BACK)) by done. cbn [negb].
  by destruct (spec_back_material spec).
Qed.

Lemma build_parts_material spec parts : build_parts spec = Ok parts ->
  keys_tell parts /\ forall q, q ∈ parts -> part_role q <> BACK -> of_carcass_material spec q.
Proof.
  unfold build_parts. intros (l & _ & H%traverse_Ok)%bind_Ok. pose proof (requests_named (spec_parameters spec) l) as N.
  assert (forall q, q ∈ parts -> exists rq, request_named rq /\ add_part spec rq = Ok q) as Made.
  { intros q [i Hi]%list_elem_of_lookup. destruct (Forall2_lookup_r _ _ _ _ _ H Hi) as (rq & Hrq & E). exists rq. split; [|exact E].
    by apply (Forall_lookup_1 _ _ _ _ N Hrq). }
  split.
  - intros q Hq. destruct (Made q Hq) as (rq & Nq & (-> & -> & _)%add_part_material). exact Nq.
  - intros q Hq. destruct (Made q Hq) as (rq & _ & (_ & _ & M)%add_part_material). exact M.
Qed.

(** The contract that the validator of a specification lets pass covers the
    carcass material. *)
Lemma valid_contract_covers spec c q : new_BookcaseDesignSpec spec = Ok spec -> spec_joint_retention spec = Some c ->
  of_carcass_material spec q ->
  in_range (rc_minimum_applicable_thickness_um c) (rc_maximum_applicable_thickness_um c) (part_actual_thickness_um q) = true /\
  (part_material_id q, part_material_version q) ∈ map material_key (rc_applicable_materials c).
Proof.
  intros V E [-> ->]. unfold new_BookcaseDesignSpec in V. do 11 (apply bind_Ok in V as (? & _ & V)).
  apply bind_Ok in V as (? & R & _). unfold validate_joint_retention in R. rewrite E in R. inv_ok. bprop. split; done.
Qed.

(** ** Load-bearing dados join panels of the carcass *)

Definition carcass_members (parts : list PartInstance) (j : Joint) : Prop :=
  j_retention_application_class j = Some LOAD_BEARING_CARCASS_DADO ->
  forall m, m ∈ j_members j -> exists q, q ∈ parts /\ jm_part_id m = part_id q /\ part_role q <> BACK.

Lemma join_members spec parts b a b' : keys_tell parts -> arguments_ok parts a ->
  Forall (carcass_members parts) (b_joints b) -> join spec parts b a = Ok b' -> Forall (carcass_members parts) (b_joints b').
Proof.
  intros K [_ A] Hb H. unfold join in H. apply bind_Ok in H as (mating & _ & H). cbv zeta in H.
  do 2 (apply bind_Ok in H as ([] & _ & H)).
  apply bind_Ok in H as (first & P1 & H). apply bind_Ok in H as (second & P2 & H).
  apply bind_Ok in H as ([f g] & _ & H). destruct (join_hardware _ _) as [sku count].
  apply bind_Ok in H as (m1 & M1 & H). apply bind_Ok in H as (m2 & M2 & H). apply bind_Ok in H as (j & J & H). injection H as <-.
  unfold new_JointMember in M1, M2. unfold new_Joint in J. inv_ok. cbn [b_joints]. apply Forall_app. split; [exact Hb|].
  apply Forall_singleton. intros C m Hm. cbn [j_retention_application_class] in C. destruct (A C) as [A1 A2].
  assert (forall key q, part_at parts key = Ok q -> carcass_end parts key -> q ∈ parts /\ part_role q <> BACK) as In.
  { intros key q Pq E. pose proof (part_at_Ok _ _ _ Pq) as Hq. split; [exact Hq|]. intros R%(K q Hq).
    rewrite (part_at_key _ _ _ Pq), (E K) in R. discriminate R. }
  unfold j_members in Hm. cbn [j_first j_second] in Hm.
  apply elem_of_cons in Hm as [-> | ->%list_elem_of_singleton].
  - destruct (In _ _ P1 A1). by exists first.
  - destruct (In _ _ P2 A2). by exists second.
Qed.

Lemma run_joins_members spec parts b : keys_tell parts -> run_joins spec parts = Ok b -> Forall (carcass_members parts) (b_joints b).
Proof.
  intros K. apply (run_joins_inv spec parts (fun b => Forall (carcass_members parts) (b_joints b))); [|constructor].
  intros b0 a b' Ha Hb. by apply join_members.
Qed.

(** ** The checks of the result *)

Section Passing.
Context (spec : BookcaseDesignSpec) (parts : list PartInstance) (b : Builder) (r : DesignResult).
Hypothesis Ep : dr_parts r = updated_parts parts b.
Hypothesis Es : dr_spec r = spec.
Hypothesis Hp : NoDup (map part_id parts).
Hypothesis Hf : NoDup (map f_feature_id (all_features (updated_parts parts b))).
Hypothesis Hv : new_BookcaseDesignSpec spec = Ok spec.
Hypothesis Hm : forall q, q ∈ parts -> part_role q <> BACK -> of_carcass_material spec q.

Lemma member_references_pass j m q : member_ok parts b (j_joint_id j) m q ->
  (forall f, f ∈ feats b (part_id q) -> f_part_id f = part_id q) -> member_references r j m.
Proof.
  intros (Hq & Em & Hi) Own. unfold member_references, dr_feature_by_id. rewrite Ep, Em, updated_part_ids.
  split; [by apply list_elem_of_fmap_2|]. intros i Hin.
  rewrite Forall_forall in Hi. destruct (Hi i Hin) as (f & Hin' & <- & Hj).
  exists f. split_and!; [by eapply feature_lookup | by apply Own | done].
Qed.

Lemma retention_class_passes j :
  distinct_members j = Ok () ->
  j_retention j = (if bool_decide (j_retention_application_class j = Some LOAD_BEARING_CARCASS_DADO)
                   then spec_joint_retention spec else None) ->
  (if bool_decide (j_joint_type j = DADO) then
     raise_if (bool_decide (j_retention_application_class j = Some LOAD_BEARING_CARCASS_DADO) &&
               negb (bool_decide (j_retention j = spec_joint_retention spec)))
       (ValueError "every load-bearing carcass DADO must carry the frozen retention contract");;
     raise_if (bool_decide (j_retention_application_class j = Some CAPTIVE_INSET_BACK_GROOVE) &&
               negb (bool_decide (j_retention j = None)))
       (ValueError "captive inset-back grooves cannot carry carcass retention")
   else raise_if (negb (bool_decide (j_retention j = None)))
     (ValueError "joint retention is bound to a non-DADO joint")) = Ok ().
Proof.
  intros D R. unfold distinct_members in D. apply bind_Ok in D as ([] & _ & D).
  apply bind_Ok in D as ([] & D & _).
  destruct (bool_decide (j_joint_type j = DADO)).
  - destruct (j_retention_application_class j) as [[]|]; rewrite R; try done.
    rewrite (bool_decide_true (Some LOAD_BEARING_CARCASS_DADO = Some LOAD_BEARING_CARCASS_DADO)) by done.
    by rewrite (bool_decide_true (spec_joint_retention spec = spec_joint_retention spec)).
  - apply raise_if_Ok, negb_false_iff, bool_decide_eq_true in D. rewrite R, D. done.
Qed.

(** A joint without a contract, or a load-bearing dado with the one of the
    specification. *)
Lemma retention_cases j : joint_ok spec parts b j ->
  j_retention j = None \/
  exists c, j_retention j = Some c /\ spec_joint_retention spec = Some c /\
    j_retention_application_class j = Some LOAD_BEARING_CARCASS_DADO.
Proof.
  intros (_ & R & _). rewrite R. case_bool_decide; [|by left]. destruct (spec_joint_retention spec) as [c|]; [right; by exists c|by left].
Qed.

Lemma joint_retention_passes j : joint_ok spec parts b j -> carcass_members parts j -> check_joint_retention r j = Ok ().
Proof.
  intros Jok Cm. pose proof (retention_cases j Jok) as Cases. destruct Jok as (D & R & _).
  pose proof (retention_class_passes j D R) as Class. unfold check_joint_retention. rewrite Es, Class. cbn [mbind result_bind].
  destruct Cases as [->|(c & -> & Ec & Cl)]; [done|]. apply check_all_Ok, Forall_forall. intros m Hmem.
  destruct (Cm Cl m Hmem) as (q & Hq & -> & N). unfold dr_part_by_id. rewrite Ep, part_lookup by done.
  cbn [of_option mbind result_bind with_features part_actual_thickness_um part_material_id part_material_version].
  destruct (valid_contract_covers spec c q Hv Ec (Hm q Hq N)) as [-> M]. by rewrite bool_decide_true.
Qed.
End Passing.

(** C24: the cross references of a compiled design are complete.  For a valid
    specification, with or without a retention contract, and the parts and joints
    that [_build_parts] and [_build_joints] return with distinct identifiers, every
    loop of [DesignResult.validate_result_integrity] over joints, members and
    features succeeds: members name existing parts and features of their own part
    and joint, no feature is claimed by two joints, every feature is claimed by its
    joint, and the retention contract sits on exactly the load-bearing dados and
    covers the thickness and the material of both their members. *)
Theorem build_joints_references_complete (spec : BookcaseDesignSpec) (parts parts' : list PartInstance)
    (js : list Joint) (r : DesignResult) :
  new_BookcaseDesignSpec spec = Ok spec -> build_parts spec = Ok parts -> build_joints spec parts = Ok (parts', js) ->
  dr_parts r = parts' -> dr_joints r = js -> dr_spec r = spec ->
  NoDup (map part_id parts') -> NoDup (map f_feature_id (all_features parts')) ->
  exists referenced, foldM (check_joint r) ∅ (dr_joints r) = Ok referenced /\
    check_all (check_feature_owner r referenced) (all_features (dr_parts r)) = Ok ().
Proof.
  intros V B (b & Hrun & -> & ->)%build_joints_Ok Ep Ej Es Hp Hf. rewrite updated_part_ids in Hp.
  destruct (build_parts_material _ _ B) as [K M]. pose proof (run_joins_members _ _ _ K Hrun) as Cm.
  destruct (run_joins_ok _ _ _ Hrun) as [Hjs Hfs].
  apply references_pass.
  - rewrite Ej. intros j Hj. rewrite Forall_forall in Hjs, Cm. pose proof (Hjs j Hj) as Jok.
    split; [eapply joint_retention_passes; eauto|]. destruct Jok as (_ & _ & q1 & q2 & M1 & M2 & _).
    assert (forall q f, f ∈ feats b (part_id q) -> f_part_id f = part_id q) as Own
      by (intros q f Hqf; by destruct (Hfs _ _ Hqf)).
    intros m [->|[->|?%not_elem_of_nil]%elem_of_cons]%elem_of_cons;
      [eapply member_references_pass; eauto | eapply member_references_pass; eauto | done].
  - rewrite Ep. intros f (q & Hq & Hin)%updated_feature_inv.
    destruct (Hfs _ _ Hin) as (_ & j & m & ? & ? & ? & ? & ?). right. exists j, m. by rewrite Ej.
Qed.
