(* ===== verification/AssemblyGraph.v ===== *)
(** * The compiler's assembly sequence

    [BookcaseEngine._build_assembly_graph] of
    [packages/domain/src/custombuild_domain/engine.py].  The closure [add_step]
    is a function on a [Sequence] (the list [steps_list] and the set [used]);
    each group of steps of the source is one definition, run in the source's
    order by [assembly_steps]. *)

From S2P Require Import Prelude Geometry Enums Models Identity DesignResult BookcaseParts JointGeometry BookcaseJoints.

Record Sequence := mkSequence {
  sq_steps : list AssemblyStep;
  sq_used : gset string }.

Definition empty_sequence : Sequence := mkSequence [] ∅.

Definition tool_for (k : JointType) : result (list string) :=
  match k with
  | DOWEL => Ok ["mallet"]
  | CONFIRMAT => Ok ["hex-key-4mm"]
  | SHELF_PIN | RABBET | DADO => Ok []
  | TENON => Ok ["mallet"]
  | CAM_DOWEL => Err (KeyError "cam_dowel")
  end.

(** [tuple(sorted(set))] of a set of strings. *)
Definition sorted_set (l : list string) : list string := sort_strings (remove_dups l).

Section Assembly.
Context (parts : list PartInstance) (joints : list Joint).

Definition graph_by_id : gmap string PartInstance := dict_of part_id parts.
Definition part_of_id (i : string) : result PartInstance := of_option (graph_by_id !! i) (KeyError i).

Definition joint_names (j : Joint) : result (list string) :=
  traverse (fun m => q ← part_of_id (jm_part_id m); Ok (part_semantic_key q)) (j_members j).

Definition names_are (j : Joint) (keys : list string) : result bool :=
  ns ← joint_names j; Ok (py_set_eq ns keys).
Definition name_in (key : string) (j : Joint) : result bool :=
  ns ← joint_names j; Ok (bool_decide (key ∈ ns)).

(** [any(by_id[member.part_id].role in roles for member in joint.members)] *)
Definition any_role (roles : list PartRole) (j : Joint) : result bool :=
  anyM (fun m => q ← part_of_id (jm_part_id m); Ok (bool_decide (part_role q ∈ roles))) (j_members j).

Definition is_kind (k : JointType) (j : Joint) : bool := bool_decide (j_joint_type j = k).
Definition touches (q : PartInstance) (j : Joint) : bool := bool_decide (part_id q ∈ j_part_ids j).

Definition select (f : Joint -> result bool) : result (list Joint) := filterM f joints.

Definition add_step (s : Sequence) (selected : list Joint) (direction : AssemblyDirection)
    (checkpoint : string) (moving_parts : list PartInstance)
    (motion_path : option (list AssemblyDirection)) (required_tools : list string)
    : result Sequence :=
  let current :=
    sort_by joint_id_cmp (filter (fun j => j_joint_id j ∉ sq_used s) selected) in
  match current with
  | [] => Ok s
  | _ =>
      let joint_ids := map j_joint_id current in
      let moving_part_ids := sorted_set (map part_id moving_parts) in
      let joint_part_ids := concat (map j_part_ids current) in
      raise_if (bool_decide (moving_part_ids = []) || negb (py_subset moving_part_ids (map part_id parts)))
        (ValueError "assembly step moving group must belong to the design");;
      let part_ids := sorted_set (joint_part_ids ++ moving_part_ids) in
      tools ← traverse (fun j => tool_for (j_joint_type j)) current;
      step ← new_AssemblyStep
        (mkAssemblyStep (Z.of_nat (length (sq_steps s)) + 1) (stable_id "assembly-step" joint_ids)
           part_ids moving_part_ids joint_ids direction (default [direction] motion_path)
           (sorted_set (required_tools ++ concat tools)) checkpoint);
      Ok (mkSequence (sq_steps s ++ [step]) (sq_used s ∪ list_to_set joint_ids))
  end.

Definition step_for (s : Sequence) (cond : Joint -> result bool) (direction : AssemblyDirection)
    (checkpoint : string) (moving_parts : list PartInstance) : result Sequence :=
  selected ← select cond;
  add_step s selected direction checkpoint moving_parts None [].

(** *** Lower cabinets *)

Definition base_side_steps (s : Sequence) (base_side : PartInstance) : result Sequence :=
  let side_index := part_instance_index base_side in
  left_bottom ← part_at parts ("base-bottom-" +:+ str_of_Z (side_index - 1));
  right_bottom ← part_at parts ("base-bottom-" +:+ str_of_Z side_index);
  s ← step_for s (fun j => names_are j [part_semantic_key base_side; part_semantic_key left_bottom])
        NEG_X
        "För underskåpssidan från höger över vänster bottenkant och kontrollera fullt spårinstick."
        [base_side];
  step_for s (fun j => names_are j [part_semantic_key base_side; part_semantic_key right_bottom]) NEG_X
    "För nästa underskåpsbotten från höger in i sidans öppna spår." [right_bottom].

Definition bottom_steps (s : Sequence) : result Sequence :=
  selected ← select (fun j => andM (name_in "bottom" j) (any_role [BASE_SIDE] j));
  bottom ← part_at parts "bottom";
  s ← add_step s selected NEG_Z
        "Sänk överdelens botten över samtliga interna underskåpssidor och kontrollera den sammanhängande lodräta lastvägen."
        [bottom] None [];
  step_for s (fun j => b ← names_are j ["bottom"; "plinth"]; Ok (b && is_kind DADO j)) NEG_Z
    "Sänk botten över sockelns övre tappkant och kontrollera full anliggning." [bottom].

(** *** Dividers and shelves *)

Definition divider_shelf_joints (divider : PartInstance) : result (list Joint) :=
  select (fun j => if is_kind DADO j && touches divider j then any_role [SHELF] j else Ok false).

Definition on_face (divider : PartInstance) (face : FaceName) (j : Joint) : bool :=
  existsb (fun m => bool_decide (jm_part_id m = part_id divider) && bool_decide (jm_mating_face m = face))
    (j_members j).

(** [member.part_id for ... if by_id[member.part_id].role == SHELF] *)
Definition shelf_member_ids (selected : list Joint) : result (list string) :=
  ms ← filterM (fun m => q ← part_of_id (jm_part_id m); Ok (bool_decide (part_role q = SHELF)))
         (concat (map j_members selected));
  Ok (map jm_part_id ms).

Definition shelves_for (selected : list Joint) : result (list PartInstance) :=
  ids ← shelf_member_ids selected;
  traverse part_of_id (sorted_set ids).

Definition divider_steps (s : Sequence) (di : Z * PartInstance) : result Sequence :=
  let divider := snd di in
  shelf_joints ← divider_shelf_joints divider;
  let left_joints := filter (fun j => on_face divider FACE_LEFT j = true) shelf_joints in
  let right_joints := filter (fun j => on_face divider FACE_RIGHT j = true) shelf_joints in
  s ← (if fst di =? 0 then
         moving ← shelves_for left_joints;
         add_step s left_joints POS_X
           "För in vänsterfackets hyllkanter i avdelarens öppna spår; kontrollera spårbotten och del-ID före nästa grupp."
           moving None []
       else
         add_step s left_joints NEG_X
           "För in avdelaren från höger över föregående facks exponerade hylländar." [divider] None []);
  moving ← shelves_for right_joints;
  add_step s right_joints NEG_X
    "För in nästa facks hyllkanter från höger i avdelarens öppna spår; kontrollera spårbotten och del-ID före nästa avdelare."
    moving None [].

Definition divider_module_ids (s : Sequence) (dividers : list PartInstance) : result (list string) :=
  installed ← select (fun j =>
    if bool_decide (j_joint_id j ∈ sq_used s) && is_kind DADO j then any_role [DIVIDER] j else Ok false);
  shelves ← shelf_member_ids installed;
  Ok (map part_id dividers ++ shelves).

Definition divider_section (s : Sequence) : result Sequence :=
  match by_role parts DIVIDER with
  | [] => Ok s
  | dividers =>
      s ← foldM divider_steps s (zip (seqZ 0 (Z.of_nat (length dividers))) dividers);
      module_ids ← divider_module_ids s dividers;
      selected ← select (fun j =>
        if is_kind DADO j then andM (name_in "bottom" j) (any_role [DIVIDER] j) else Ok false);
      moving ← traverse part_of_id (sorted_set module_ids);
      add_step s selected NEG_Z "Sänk avdelar-/hyllmodulen i bottens samtliga spår samtidigt." moving
        None []
  end.

(** *** Backs, top and sides *)

Definition backs : list PartInstance := by_role parts BACK.
Definition back_joints : list Joint :=
  filter (fun j => existsb (fun i => bool_decide (i ∈ map part_id backs)) (j_part_ids j) = true) joints.
Definition captured_back_joints : list Joint := filter (fun j => j_joint_type j = DADO) back_joints.
Definition surface_back_joints : list Joint := filter (fun j => j_joint_type j = RABBET) back_joints.

Definition back_step (s : Sequence) (back : PartInstance) : result Sequence :=
  insertion ← filterM (fun j => if touches back j then any_role [BOTTOM; DIVIDER] j else Ok false)
                captured_back_joints;
  add_step s insertion NEG_Z
    (if bool_decide (length backs = 1%nat)
     then "Sänk ryggens nederkant i bottenspåret innan topp eller gavlar monteras."
     else "Sänk ryggfältets nederkant i bottenspåret och dess sidokant(er) i öppna avdelarspår innan topp eller gavlar monteras.")
    [back] None [].

Definition top_step (s : Sequence) : result Sequence :=
  selected ← select (fun j =>
    andM (name_in "top" j)
      (if bool_decide (j ∈ captured_back_joints) then Ok true else any_role [DIVIDER] j));
  top ← part_at parts "top";
  add_step s selected NEG_Z
    "Sänk toppen över rygg och avdelare och kontrollera alla samtidiga instick." [top] None [].

Definition side_step (side_key : string) (direction : AssemblyDirection) (checkpoint : string)
    (tools : list string) (s : Sequence) : result Sequence :=
  selected ← select (fun j => b ← name_in side_key j; Ok (b && is_kind DADO j));
  side ← part_at parts side_key;
  add_step s selected direction checkpoint [side] None tools.

Definition right_side_step : Sequence -> result Sequence :=
  side_step "right-side" NEG_X
    "Säkra samtliga FIX-delar i panelpositioneringsjiggen och för därefter in höger gavel från höger över alla exponerade tappkanter samtidigt."
    ["panel-positioning-jig"].

Definition left_side_step : Sequence -> result Sequence :=
  side_step "left-side" POS_X
    "Stäng stommen med vänster gavel och kontrollera varje spåranslutning visuellt. Kontroll av instick verifierar inte permanent hållning."
    [].

Definition surface_back_step (s : Sequence) : result Sequence :=
  add_step s surface_back_joints NEG_Y
    "För ryggstycket från baksidan mot den slutna stommen och kontrollera full anliggning längs samtliga fyra kanter."
    backs None [].

Definition shelf_step (s : Sequence) (shelf : PartInstance) : result Sequence :=
  selected ← select (fun j => Ok (is_kind SHELF_PIN j && touches shelf j));
  add_step s selected NEG_Z
    "Montera rätt hyllbärare, för in den märkta hyllan från framkanten ovanför bärarna och sänk den därefter på samtliga bärare."
    [shelf] (Some [POS_Y; NEG_Z]) [].

(** *** Parts no joint installs *)

Definition pending_step (steps : list AssemblyStep) (part : PartInstance) : result (list AssemblyStep) :=
  let is_front := bool_decide (part_role part = CABINET_FRONT) in
  let direction := if is_front then NEG_Y else NEG_Z in
  step ← new_AssemblyStep
    (mkAssemblyStep (Z.of_nat (length steps) + 1)
       (stable_id "assembly-step" [part_id part; "hardware-pending"])
       [part_id part] [part_id part] [] direction [direction] []
       (if is_front
        then "FRONT EJ MONTERINGSBAR: montera inte förrän mekaniskt beslag, spel och borrbild har verifierats."
        else "Placera moduldelen enligt ritning; infästningen inväntar verifierat beslagssystem."));
  Ok (steps ++ [step]).

Definition covered_part_ids (steps : list AssemblyStep) : list string := concat (map step_part_ids steps).

(** The final loop: parts in the order of their keys, those already covered
    skipped.  [covered] is computed before the loop, as in the source. *)
Definition pending_steps (steps : list AssemblyStep) : result (list AssemblyStep) :=
  let covered := covered_part_ids steps in
  foldM (fun acc part => if bool_decide (part_id part ∈ covered) then Ok acc else pending_step acc part)
    steps (sort_by (cmp_on part_semantic_key String.compare) parts).

(** Every [add_step] of the source, in order. *)
Definition joint_steps : result Sequence :=
  s ← foldM base_side_steps empty_sequence (by_role parts BASE_SIDE);
  s ← bottom_steps s;
  s ← divider_section s;
  s ← foldM back_step s backs;
  s ← top_step s;
  s ← right_side_step s;
  s ← left_side_step s;
  s ← surface_back_step s;
  foldM shelf_step s (by_role parts SHELF).

Definition unused_joint_ids (s : Sequence) : list string :=
  filter (fun i => i ∉ sq_used s) (map j_joint_id joints).

Definition assembly_steps : result (list AssemblyStep) :=
  s ← joint_steps;
  let unused := unused_joint_ids s in
  raise_if (negb (bool_decide (unused = [])))
    (ValueError ("no verified assembly sequence exists for joints: "
                 +:+ str_join ", " (sorted_set unused)));;
  pending_steps (sq_steps s).

Definition graph_node (q : PartInstance) : AssemblyNode :=
  mkAssemblyNode (part_id q) (part_semantic_key q).
Definition graph_edge (j : Joint) : AssemblyEdge :=
  mkAssemblyEdge (j_joint_id j) (jm_part_id (j_first j)) (jm_part_id (j_second j)).

Definition build_assembly_graph : result AssemblyGraph :=
  nodes ← traverse (fun q => new_AssemblyNode (graph_node q)) parts;
  steps ← assembly_steps;
  new_AssemblyGraph (mkAssemblyGraph nodes (map graph_edge joints) steps).
End Assembly.

(** ** [BookcaseEngine.build] *)

Definition hash_payload (spec : BookcaseDesignSpec) (parts : list PartInstance) (joints : list Joint)
    (g : AssemblyGraph) : json :=
  JObj [("spec", json_spec spec);
        ("parts", jlist json_PartInstance_sans_revision parts);
        ("joints", jlist json_Joint joints);
        ("assembly_graph", json_AssemblyGraph g)].

Definition build (spec : BookcaseDesignSpec) : result DesignResult :=
  parts ← build_parts spec;
  '(parts, joints) ← build_joints spec parts;
  g ← build_assembly_graph parts joints;
  new_DesignResult
    (mkDesignResult (content_hash (hash_payload spec parts joints g)) (spec_engine_version spec)
       (spec_template_version spec) spec parts joints g (sumZ (map part_weight_g parts))).

Definition build_bookcase (spec : BookcaseDesignSpec) : result DesignResult := build spec.

(** ** Properties *)

Lemma elem_of_sorted_set x l : x ∈ sorted_set l <-> x ∈ l.
Proof. unfold sorted_set, sort_strings. by rewrite elem_of_sort_by, elem_of_remove_dups. Qed.

Lemma NoDup_sorted_set l : NoDup (sorted_set l).
Proof. unfold sorted_set, sort_strings. rewrite sort_by_perm. apply NoDup_remove_dups. Qed.

Lemma new_AssemblyStep_Ok s s' : new_AssemblyStep s = Ok s' -> s' = s.
Proof. unfold new_AssemblyStep. intros H. inv_ok. done. Qed.

Section Sequencing.
Context (parts : list PartInstance) (joints : list Joint).
Hypothesis Hjoints : NoDup (map j_joint_id joints).
Hypothesis Hmembers : forall j i, j ∈ joints -> i ∈ j_part_ids j -> i ∈ map part_id parts.

(** What one step of the sequence may say. *)
Record step_ok (s : AssemblyStep) : Prop := {
  st_joints : exists js, js ⊆ joints /\ step_joint_ids s = map j_joint_id js /\
                         forall j i, j ∈ js -> i ∈ j_part_ids j -> i ∈ step_part_ids s;
  st_parts : step_part_ids s ⊆ map part_id parts;
  st_moving : step_moving_part_ids s ⊆ step_part_ids s }.

Definition installed (steps : list AssemblyStep) : list string := concat (map step_joint_ids steps).

Record steps_ok (steps : list AssemblyStep) : Prop := {
  so_once : NoDup (installed steps);
  so_numbers : map step_number steps = seqZ 1 (Z.of_nat (length steps));
  so_steps : Forall step_ok steps }.

Definition sequence_ok (s : Sequence) : Prop :=
  steps_ok (sq_steps s) /\ forall i, i ∈ sq_used s <-> i ∈ installed (sq_steps s).

Lemma installed_snoc steps s : installed (steps ++ [s]) = installed steps ++ step_joint_ids s.
Proof. unfold installed. rewrite map_app, concat_app. cbn. by rewrite app_nil_r. Qed.

Lemma steps_ok_snoc steps s :
  steps_ok steps -> step_ok s -> NoDup (step_joint_ids s) ->
  (forall i, i ∈ step_joint_ids s -> i ∉ installed steps) ->
  step_number s = Z.of_nat (length steps) + 1 -> steps_ok (steps ++ [s]).
Proof.
  intros [O N F] Ss Nd D E. split.
  - rewrite installed_snoc. apply NoDup_app. split_and!; [done| |done].
    intros i Hi Hs. by apply (D i).
  - rewrite map_app, N, length_app. cbn [length map].
    replace (Z.of_nat (length steps + 1)) with (Z.of_nat (S (length steps))) by lia.
    rewrite seqZ_S, E. do 2 f_equal. lia.
  - apply Forall_app. by rewrite Forall_singleton.
Qed.

Lemma add_step_ok s selected d c moving path tools s' :
  sequence_ok s -> selected `sublist_of` joints ->
  add_step parts s selected d c moving path tools = Ok s' -> sequence_ok s'.
Proof.
  intros [So U] Sub H. unfold add_step in H. cbv zeta in H.
  set (current := sort_by joint_id_cmp _) in H.
  assert (forall j, j ∈ current -> j ∈ joints /\ j_joint_id j ∉ sq_used s) as Hc.
  { intros j Hj. apply elem_of_sort_by, list_elem_of_filter in Hj as [? Hj].
    split; [|done]. by eapply sublist_subseteq. }
  assert (NoDup (map j_joint_id current)) as Nc.
  { unfold current. rewrite sort_by_perm. eapply sublist_NoDup; [exact Hjoints|].
    apply sublist_map. etrans; [apply sublist_filter | exact Sub]. }
  destruct current as [|j0 js0] eqn:Ec; [by injection H as <-|]. rewrite <- Ec in *. clear Ec j0 js0.
  apply bind_Ok in H as ([] & Hm & H). apply bind_Ok in H as (ts & _ & H).
  apply bind_Ok in H as (step & Hstep%new_AssemblyStep_Ok & H). injection H as <-.
  apply raise_if_Ok, orb_false_iff in Hm as [_ Hm%negb_false_iff%py_subset_spec].
  assert (step_joint_ids step = map j_joint_id current) as Ej by by rewrite Hstep.
  split.
  - apply steps_ok_snoc; [done| | by rewrite Ej| |by rewrite Hstep].
    + rewrite Hstep. split; cbn [step_joint_ids step_part_ids step_moving_part_ids].
      * exists current. split_and!; [by intros j [? _]%Hc | done |].
        intros j i Hj Hi. apply elem_of_sorted_set, elem_of_app. left.
        apply list_elem_of_In, in_concat. exists (j_part_ids j).
        split; apply list_elem_of_In; [by apply list_elem_of_fmap_2 | done].
      * intros i [Hi|Hi]%elem_of_sorted_set%elem_of_app; [|by apply Hm].
        apply list_elem_of_In, in_concat in Hi as (l & Hl & Hi). apply list_elem_of_In in Hl, Hi.
        apply list_elem_of_fmap in Hl as (j & -> & Hj). eapply Hmembers; [by apply Hc | done].
      * intros i Hi. apply elem_of_sorted_set, elem_of_app. by right.
    + rewrite Ej. intros i (j & -> & Hj)%list_elem_of_fmap Hi. apply U in Hi. by apply Hc in Hj as [_ ?].
  - intros i. cbn [sq_used sq_steps]. rewrite installed_snoc, Ej, elem_of_union, elem_of_list_to_set, U.
    by rewrite elem_of_app.
Qed.

Lemma select_sub f l : select joints f = Ok l -> l `sublist_of` joints.
Proof. apply filterM_sublist. Qed.

Lemma step_for_ok s cond d c moving s' :
  sequence_ok s -> step_for parts joints s cond d c moving = Ok s' -> sequence_ok s'.
Proof. intros Hs H. apply bind_Ok in H as (l & Hl%select_sub & H). by eapply add_step_ok. Qed.

Lemma base_side_steps_ok s q s' :
  sequence_ok s -> base_side_steps parts joints s q = Ok s' -> sequence_ok s'.
Proof.
  intros Hs H. unfold base_side_steps in H. apply bind_Ok in H as (? & _ & H).
  apply bind_Ok in H as (? & _ & H). apply bind_Ok in H as (s1 & H1%step_for_ok & H); [|done].
  by apply step_for_ok in H.
Qed.

Lemma bottom_steps_ok s s' : sequence_ok s -> bottom_steps parts joints s = Ok s' -> sequence_ok s'.
Proof.
  intros Hs H. unfold bottom_steps in H. apply bind_Ok in H as (l & Hl%select_sub & H).
  apply bind_Ok in H as (? & _ & H). apply bind_Ok in H as (s1 & H1 & H).
  eapply step_for_ok, H. by eapply add_step_ok.
Qed.

Lemma divider_steps_ok s di s' :
  sequence_ok s -> divider_steps parts joints s di = Ok s' -> sequence_ok s'.
Proof.
  intros Hs H. unfold divider_steps in H. apply bind_Ok in H as (l & Hl%select_sub & H).
  cbv zeta in H. apply bind_Ok in H as (s1 & H1 & H). apply bind_Ok in H as (m & _ & H).
  assert (forall face, filter (fun j => on_face di.2 face j = true) l `sublist_of` joints) as Sub
    by (intros face; etrans; [apply sublist_filter | exact Hl]).
  eapply add_step_ok; [|apply Sub|exact H].
  destruct (di.1 =? 0); [apply bind_Ok in H1 as (m1 & _ & H1)|];
    (eapply add_step_ok; [done | apply Sub | exact H1]).
Qed.

Lemma divider_section_ok s s' :
  sequence_ok s -> divider_section parts joints s = Ok s' -> sequence_ok s'.
Proof.
  intros Hs H. unfold divider_section in H. destruct (by_role parts DIVIDER) as [|d ds]; [by injection H as <-|].
  apply bind_Ok in H as (s1 & H1 & H). apply bind_Ok in H as (ids & _ & H).
  apply bind_Ok in H as (l & Hl%select_sub & H). apply bind_Ok in H as (m & _ & H).
  eapply add_step_ok; [|exact Hl|exact H].
  revert H1. apply foldM_inv; [|done]. intros; by eapply divider_steps_ok.
Qed.

Lemma captured_sub : captured_back_joints parts joints `sublist_of` joints.
Proof. etrans; apply sublist_filter. Qed.

Lemma back_step_ok s q s' : sequence_ok s -> back_step parts joints s q = Ok s' -> sequence_ok s'.
Proof.
  intros Hs H. unfold back_step in H. apply bind_Ok in H as (l & Hl%filterM_sublist & H).
  eapply add_step_ok; [done| |exact H]. etrans; [exact Hl | apply captured_sub].
Qed.

Lemma side_step_ok key d c tools s s' :
  sequence_ok s -> side_step parts joints key d c tools s = Ok s' -> sequence_ok s'.
Proof.
  intros Hs H. unfold side_step in H. apply bind_Ok in H as (l & Hl%select_sub & H).
  apply bind_Ok in H as (q & _ & H). by eapply add_step_ok.
Qed.

Lemma top_step_ok s s' : sequence_ok s -> top_step parts joints s = Ok s' -> sequence_ok s'.
Proof.
  intros Hs H. unfold top_step in H. apply bind_Ok in H as (l & Hl%select_sub & H).
  apply bind_Ok in H as (q & _ & H). by eapply add_step_ok.
Qed.

Lemma shelf_step_ok s q s' : sequence_ok s -> shelf_step parts joints s q = Ok s' -> sequence_ok s'.
Proof.
  intros Hs H. unfold shelf_step in H. apply bind_Ok in H as (l & Hl%select_sub & H).
  by eapply add_step_ok.
Qed.

Lemma empty_sequence_ok : sequence_ok empty_sequence.
Proof.
  split; [split; [apply NoDup_nil_2 | done | by apply Forall_nil]|].
  intros i. cbn. by rewrite elem_of_empty, elem_of_nil.
Qed.

Lemma joint_steps_ok s : joint_steps parts joints = Ok s -> sequence_ok s.
Proof.
  unfold joint_steps. intros H.
  apply bind_Ok in H as (s1 & H1 & H). apply foldM_inv with (P := sequence_ok) in H1;
    [|intros; by eapply base_side_steps_ok
     |apply empty_sequence_ok].
  apply bind_Ok in H as (s2 & H2%bottom_steps_ok & H); [|done].
  apply bind_Ok in H as (s3 & H3%divider_section_ok & H); [|done].
  apply bind_Ok in H as (s4 & H4 & H). apply foldM_inv with (P := sequence_ok) in H4;
    [|intros; by eapply back_step_ok | done].
  apply bind_Ok in H as (s5 & H5%top_step_ok & H); [|done].
  apply bind_Ok in H as (s6 & H6%side_step_ok & H); [|done].
  apply bind_Ok in H as (s7 & H7%side_step_ok & H); [|done].
  apply bind_Ok in H as (s8 & H8 & H). apply add_step_ok in H8;
    [|done|etrans; apply sublist_filter].
  eapply foldM_inv; [|exact H8|exact H]. intros; by eapply shelf_step_ok.
Qed.

(** *** The parts no joint installs *)

Lemma pending_step_ok steps q steps' :
  steps_ok steps -> q ∈ parts -> pending_step steps q = Ok steps' ->
  steps_ok steps' /\ installed steps' = installed steps /\
  covered_part_ids steps' = covered_part_ids steps ++ [part_id q].
Proof.
  unfold pending_step. intros So Hq H.
  apply bind_Ok in H as (step & Hs%new_AssemblyStep_Ok & H). injection H as <-.
  split_and!.
  - rewrite Hs. apply steps_ok_snoc; [done| |apply NoDup_nil_2|by intros i ?%not_elem_of_nil|done].
    assert (part_id q ∈ map part_id parts) by by apply list_elem_of_fmap_2.
    split; cbn.
    + exists []. split_and!; [by intros ? ?%not_elem_of_nil | done | by intros ? ? ?%not_elem_of_nil].
    + by intros i ->%list_elem_of_singleton.
    + done.
  - rewrite installed_snoc, Hs. apply app_nil_r.
  - rewrite Hs. unfold covered_part_ids. rewrite map_app, concat_app. done.
Qed.

Lemma pending_loop_ok covered qs steps steps' :
  steps_ok steps -> qs ⊆ parts -> covered ⊆ covered_part_ids steps ->
  foldM (fun acc part => if bool_decide (part_id part ∈ covered) then Ok acc else pending_step acc part)
    steps qs = Ok steps' ->
  steps_ok steps' /\ installed steps' = installed steps /\
  covered_part_ids steps ⊆ covered_part_ids steps' /\
  forall q, q ∈ qs -> part_id q ∈ covered_part_ids steps'.
Proof.
  revert steps; induction qs as [|q qs IH]; intros steps So Sub Cov H; cbn in H.
  { injection H as <-. split_and!; [done..|]. by intros q ?%not_elem_of_nil. }
  apply bind_Ok in H as (s1 & H1 & H).
  assert (steps_ok s1 /\ installed s1 = installed steps /\ covered_part_ids steps ⊆ covered_part_ids s1 /\
          part_id q ∈ covered_part_ids s1) as (S1 & I1 & C1 & Q1).
  { destruct (bool_decide (part_id q ∈ covered)) eqn:E; [injection H1 as <-|]; bprop.
    - split_and!; [done..|]. by apply Cov.
    - apply pending_step_ok in H1 as (? & ? & ->); [|done|apply Sub; by left].
      split_and!; [done..|set_solver|set_solver]. }
  destruct (IH s1 S1) as (S2 & I2 & C2 & Q2); [set_solver|set_solver|done|].
  split_and!; [done|congruence|by etrans|].
  intros q' [->|?]%elem_of_cons; [by apply C2 | by apply Q2].
Qed.

Lemma unused_nil s i :
  unused_joint_ids joints s = [] -> i ∈ map j_joint_id joints -> i ∈ sq_used s.
Proof.
  unfold unused_joint_ids. intros E Hi. destruct (decide (i ∈ sq_used s)) as [?|N]; [done|].
  assert (i ∈ filter (fun i => i ∉ sq_used s) (map j_joint_id joints)) as Hf
    by by apply list_elem_of_filter.
  rewrite E in Hf. by apply not_elem_of_nil in Hf.
Qed.

Lemma installed_sub steps : steps_ok steps -> installed steps ⊆ map j_joint_id joints.
Proof.
  intros [_ _ F] i Hi. apply list_elem_of_In, in_concat in Hi as (l & Hl & Hi).
  apply list_elem_of_In in Hl, Hi. apply list_elem_of_fmap in Hl as (s & -> & Hs).
  rewrite Forall_forall in F. destruct (F s Hs) as [(js & Hjs & E & _) _ _]. rewrite E in Hi.
  apply list_elem_of_fmap in Hi as (j & -> & Hj). apply list_elem_of_fmap_2. by apply Hjs.
Qed.

Lemma assembly_steps_ok steps :
  assembly_steps parts joints = Ok steps ->
  steps_ok steps /\ installed steps ≡ₚ map j_joint_id joints /\
  forall q, q ∈ parts -> part_id q ∈ covered_part_ids steps.
Proof.
  unfold assembly_steps. intros H. apply bind_Ok in H as (s & Hs & H). cbv zeta in H.
  apply bind_Ok in H as ([] & Hu & H). apply raise_if_Ok in Hu. bprop.
  destruct (joint_steps_ok s Hs) as [So U]. unfold pending_steps in H. cbv zeta in H.
  apply pending_loop_ok in H as (S' & I' & _ & Q); [|done| |done].
  - split_and!; [done| |].
    + apply NoDup_Permutation; [by destruct S' | done |].
      intros i. split; [by apply installed_sub|].
      intros Hi. rewrite I'. apply U. by apply unused_nil.
    + intros q Hq. apply Q. by apply elem_of_sort_by.
  - by intros q ?%elem_of_sort_by.
Qed.
End Sequencing.

Lemma covered_parts_exact parts joints steps :
  Forall (step_ok parts joints) steps ->
  (forall q, q ∈ parts -> part_id q ∈ covered_part_ids steps) ->
  forall i, i ∈ covered_part_ids steps <-> i ∈ map part_id parts.
Proof.
  intros F C i. split.
  - intros (l & Hl & Hi)%list_elem_of_In%in_concat. apply list_elem_of_In in Hl, Hi.
    apply list_elem_of_fmap in Hl as (s & -> & Hs). rewrite Forall_forall in F.
    by apply (st_parts _ _ _ (F s Hs)).
  - intros (q & -> & Hq)%list_elem_of_fmap. by apply C.
Qed.

(** The validator of [AssemblyGraph], from what the sequence guarantees. *)
Lemma graph_references_pass parts joints steps :
  NoDup (map j_joint_id joints) -> NoDup (map part_id parts) ->
  (forall j i, j ∈ joints -> i ∈ j_part_ids j -> i ∈ map part_id parts) ->
  map step_number steps = seqZ 1 (Z.of_nat (length steps)) ->
  installed steps ≡ₚ map j_joint_id joints ->
  (forall i, i ∈ covered_part_ids steps <-> i ∈ map part_id parts) ->
  graph_references_exist (mkAssemblyGraph (map graph_node parts) (map graph_edge joints) steps) = Ok ().
Proof.
  intros Hj Hp Hm N P C. unfold graph_references_exist. cbn [graph_nodes graph_edges graph_steps].
  assert (map node_part_id (map graph_node parts) = map part_id parts) as -> by by rewrite map_map.
  assert (map edge_joint_id (map graph_edge joints) = map j_joint_id joints) as -> by by rewrite map_map.
  fold (installed steps). fold (covered_part_ids steps). cbv zeta.
  rewrite (proj2 (distinct_spec (map part_id parts))) by done.
  rewrite (proj2 (distinct_spec (map j_joint_id joints))) by done.
  cbn [negb raise_if mbind result_bind].
  assert (check_all (fun e => raise_if (negb (bool_decide (edge_from_part_id e ∈ map part_id parts)) ||
              negb (bool_decide (edge_to_part_id e ∈ map part_id parts)))
      (ValueError "assembly edge references a missing part")) (map graph_edge joints) = Ok ()) as ->.
  { apply check_all_Ok, Forall_forall. intros e (j & -> & Hin)%list_elem_of_fmap. cbn.
    rewrite !bool_decide_true; [done|apply (Hm j); [done|]..]; [right; by left | by left]. }
  rewrite bool_decide_true by done.
  rewrite (proj2 (py_subset_spec (covered_part_ids steps) _)) by (by intros i ?%C).
  rewrite (proj2 (py_subset_spec (installed steps) _)) by (intros i; by rewrite P).
  rewrite (proj2 (distinct_spec (installed steps))) by (by rewrite P).
  rewrite (proj2 (py_set_eq_spec (installed steps) _)) by (intros i; by rewrite P).
  by rewrite (proj2 (py_set_eq_spec (covered_part_ids steps) _)).
Qed.

(** C28: the assembly sequence is complete and consistent.  For joints with
    distinct identifiers between parts of the design, whenever
    [_build_assembly_graph] finds a sequence: every joint is installed by exactly
    one step, steps are numbered 1, 2, ... in order, every part appears in some
    step, and each step lists all members of the joints it installs, names only
    parts of the design and moves only parts it lists. *)
Theorem assembly_sequence_complete (parts : list PartInstance) (joints : list Joint)
    (steps : list AssemblyStep) :
  NoDup (map j_joint_id joints) ->
  (forall j i, j ∈ joints -> i ∈ j_part_ids j -> i ∈ map part_id parts) ->
  assembly_steps parts joints = Ok steps ->
  installed steps ≡ₚ map j_joint_id joints /\
  map step_number steps = seqZ 1 (Z.of_nat (length steps)) /\
  (forall q, q ∈ parts -> part_id q ∈ covered_part_ids steps) /\
  Forall (step_ok parts joints) steps.
Proof.
  intros Hj Hm H. destruct (assembly_steps_ok parts joints Hj Hm steps H) as ([_ N F] & P & C). done.
Qed.

(** C29: the compiler's sequence is accepted by the graph validator.  Under the
    same hypotheses, with distinct part identifiers and valid semantic keys, the
    checks of [AssemblyGraph.graph_references_exist] all pass, so
    [_build_assembly_graph] returns the graph instead of raising. *)
Theorem build_assembly_graph_valid (parts : list PartInstance) (joints : list Joint)
    (steps : list AssemblyStep) :
  NoDup (map j_joint_id joints) -> NoDup (map part_id parts) ->
  Forall (fun q => StableKey (part_semantic_key q) = true) parts ->
  (forall j i, j ∈ joints -> i ∈ j_part_ids j -> i ∈ map part_id parts) ->
  assembly_steps parts joints = Ok steps ->
  build_assembly_graph parts joints =
    Ok (mkAssemblyGraph (map graph_node parts) (map graph_edge joints) steps).
Proof.
  intros Hj Hp Hk Hm H.
  destruct (assembly_steps_ok parts joints Hj Hm steps H) as ([_ N F] & P & C).
  unfold build_assembly_graph.
  assert (traverse (fun q => new_AssemblyNode (graph_node q)) parts = Ok (map graph_node parts)) as ->.
  { apply traverse_Ok. clear -Hk. induction Hk as [|q l Hq _ IH]; cbn; constructor; [|done].
    unfold new_AssemblyNode, field. cbn. by rewrite Hq. }
  cbn [mbind result_bind]. rewrite H. cbn [mbind result_bind].
  unfold new_AssemblyGraph. rewrite graph_references_pass; [done|done|done|done|done|done|].
  by eapply covered_parts_exact.
Qed.
