(* ===== verification/Examples.v ===== *)
(** * A concrete design

    A validated bookcase specification with one divider and one shelf row, its
    parts, joints and assembly steps, at which the theorems about the compiler
    are applied. *)

From S2P Require Import Prelude Geometry Enums Models Identity DesignResult BookcaseParts JointGeometry BookcaseJoints BookcaseRetention AssemblyGraph.

Definition example_source : PropertySource :=
  mkPropertySource "supplier-datasheet" "Plywood datasheet" "r1" None None None.

Definition example_material : MaterialVersion :=
  mkMaterialVersion "birch-ply-18" "1.0.0" "Birch plywood 18" SHEET_GOOD (mm_int 18) 680 9000 40 4 600 150
    (mm_int 17) (mm_int 19) GRAIN_X 0 example_source.

Definition example_back_material : MaterialVersion :=
  mkMaterialVersion "birch-ply-6" "1.0.0" "Birch plywood 6" SHEET_GOOD (mm_int 6) 680 9000 40 4 600 150
    (mm_int 5) (mm_int 7) GRAIN_X 0 example_source.

Definition example_parameters : BookcaseParameters :=
  mkBookcaseParameters (mm_int 900) (mm_int 1200) (mm_int 320) (mm_int 18) (mm_int 18)
    1 FIXED 300 1 [] [] 0 0 0 INSET_GROOVE (mm_int 6) (mm_int 80) (mm_int 1) 0 DADO MANUAL
    (mm_int 3) 200 1800 50 default_wall_anchor.

Definition example_spec : BookcaseDesignSpec :=
  mkBookcaseDesignSpec "demo-design" 1 "bookcase" BOOKCASE_TEMPLATE_VERSION BOOKCASE_ENGINE_VERSION DRAFT
    example_parameters example_material (Some example_back_material) None.

Example example_spec_validates : is_ok (new_BookcaseDesignSpec example_spec) = true.
Proof. vm_compute. reflexivity. Qed.

Definition ok_or {A} (d : A) (m : result A) : A := match m with Ok a => a | Err _ => d end.

Definition example_parts : list PartInstance := Eval vm_compute in ok_or [] (build_parts example_spec).
Definition example_builder : Builder :=
  Eval vm_compute in ok_or empty_builder (run_joins example_spec example_parts).
Definition example_updated : list PartInstance :=
  Eval vm_compute in updated_parts example_parts example_builder.
Definition example_joints : list Joint := Eval vm_compute in b_joints example_builder.
Definition example_steps : list AssemblyStep :=
  Eval vm_compute in ok_or [] (assembly_steps example_updated example_joints).

(** ** The joint theorems at this design *)

Definition example_at (key : string) : PartInstance :=
  default (List.hd (mkPartInstance "" "" SHELF 0 0 (mkDimensions3D 0 0 0) (mkDimensions3D 0 0 0)
                      (place 0 0 0) "" "" 0 GRAIN_X FACE_A FACE_A [] [] [] [] 0) example_parts)
    (List.find (fun q => String.eqb (part_semantic_key q) key) example_parts).

Definition example_left : PartInstance := Eval vm_compute in example_at "left-side".
Definition example_bottom : PartInstance := Eval vm_compute in example_at "bottom".

Lemma dado_geometry_interlocks_witness :
  dado_feature_geometry example_left example_bottom FACE_RIGHT 6000 500 =
    Ok (mkFeatureDimensions None (Some 6000) (Some 320000) (Some 18500) (Some 3000),
        mkPoint3D 0 0 79750) /\
  exists n sign, physical_face example_left FACE_RIGHT = Ok (n, sign).
Proof.
  assert (dado_feature_geometry example_left example_bottom FACE_RIGHT 6000 500 =
    Ok (mkFeatureDimensions None (Some 6000) (Some 320000) (Some 18500) (Some 3000),
        mkPoint3D 0 0 79750)) as H by (vm_compute; reflexivity).
  split; [exact H|].
  destruct (dado_geometry_interlocks example_left example_bottom FACE_RIGHT 6000 500 _ _ ltac:(lia) H)
    as (n & sign & Hf & _).
  exists n, sign. exact Hf.
Defined.

Lemma feature_origin_inside_panel_witness :
  feature_origin example_left SERIES_DRILL (mkFeatureDimensions (Some 5000) (Some 6000) None None None)
    (mkPoint3D 18000 0 400000) 2 (Some 32000) = Ok (mkPoint3D 0 4500 400000) /\
  4500 <= 4500.
Proof.
  assert (feature_origin example_left SERIES_DRILL
            (mkFeatureDimensions (Some 5000) (Some 6000) None None None)
            (mkPoint3D 18000 0 400000) 2 (Some 32000) = Ok (mkPoint3D 0 4500 400000)) as H
    by (vm_compute; reflexivity).
  split; [exact H|]. exact (proj1 (feature_origin_inside_panel _ _ _ _ _ _ _ H)).
Defined.

Lemma example_run : run_joins example_spec example_parts = Ok example_builder.
Proof. vm_compute. reflexivity. Qed.

Lemma example_part_ids : NoDup (map part_id example_parts).
Proof. apply distinct_spec. vm_compute. reflexivity. Qed.

Lemma example_feature_ids :
  NoDup (map f_feature_id (all_features (updated_parts example_parts example_builder))).
Proof. apply distinct_spec. vm_compute. reflexivity. Qed.

Lemma build_joints_interlocks_agree_witness :
  build_joints example_spec example_parts = Ok (example_updated, example_joints).
Proof.
  exact (build_joints_interlocks_agree example_spec example_parts example_builder example_run
           example_part_ids example_feature_ids).
Defined.

Definition example_graph : AssemblyGraph :=
  mkAssemblyGraph (map graph_node example_updated) (map graph_edge example_joints) example_steps.

Definition example_result : DesignResult :=
  mkDesignResult "" BOOKCASE_ENGINE_VERSION BOOKCASE_TEMPLATE_VERSION example_spec example_updated
    example_joints example_graph (sumZ (map part_weight_g example_updated)).

Lemma example_build_joints : build_joints example_spec example_parts = Ok (example_updated, example_joints).
Proof. unfold build_joints. rewrite example_run. vm_compute. reflexivity. Qed.

(** ** The same bookcase with a retention contract

    Cam fittings for birch panels of 17 to 19 mm; the backs are six millimetres
    of another material, and the contract does not cover them. *)

Definition example_hash : string := "0123456789abcdef0123456789abcdef0123456789abcdef0123456789abcdef".

Definition cam_fitting : JointRetentionContract :=
  mkRetentionContract "cam-fitting" "1.0.0" DADO LOAD_BEARING_CARCASS_DADO MECHANICAL example_hash "evidence-1" example_hash
    "assembly-1" "1.0.0" example_hash NO_ADDITIONAL_CNC "cam-15" 2 [mkRetentionMaterial "birch-ply-18" "1.0.0"] example_hash
    (mm_int 17) (mm_int 19) [mkLoadCase SHEAR 2000 6000; mkLoadCase WITHDRAWAL 1000 4000] 3000 [].

Definition retained_spec : BookcaseDesignSpec :=
  mkBookcaseDesignSpec "demo-design" 1 "bookcase" BOOKCASE_TEMPLATE_VERSION BOOKCASE_ENGINE_VERSION DRAFT
    example_parameters example_material (Some example_back_material) (Some cam_fitting).

Lemma retained_spec_valid : new_BookcaseDesignSpec retained_spec = Ok retained_spec.
Proof. vm_compute. reflexivity. Qed.

Lemma retained_parts : build_parts retained_spec = Ok example_parts.
Proof. vm_compute. reflexivity. Qed.

Definition retained_joints : list Joint :=
  Eval vm_compute in match build_joints retained_spec example_parts with Ok r => snd r | Err _ => [] end.

Lemma retained_build_joints : build_joints retained_spec example_parts = Ok (example_updated, retained_joints).
Proof. vm_compute. reflexivity. Qed.

Definition retained_result : DesignResult :=
  mkDesignResult "" BOOKCASE_ENGINE_VERSION BOOKCASE_TEMPLATE_VERSION retained_spec example_updated
    retained_joints (mkAssemblyGraph [] [] []) (sumZ (map part_weight_g example_updated)).

(** Eleven of its joints carry the contract, the eight of the backs do not. *)
Lemma build_joints_references_complete_witness :
  length (filter (fun j => j_retention j = Some cam_fitting) retained_joints) = 11%nat /\
  length (filter (fun j => j_retention j = None) retained_joints) = 8%nat /\
  exists referenced, foldM (check_joint retained_result) ∅ (dr_joints retained_result) = Ok referenced.
Proof.
  split; [vm_compute; reflexivity|]. split; [vm_compute; reflexivity|].
  destruct (build_joints_references_complete retained_spec example_parts example_updated retained_joints
              retained_result retained_spec_valid retained_parts retained_build_joints eq_refl eq_refl eq_refl) as (referenced & H & _).
  - apply distinct_spec. vm_compute. reflexivity.
  - apply distinct_spec. vm_compute. reflexivity.
  - exists referenced. exact H.
Defined.

Lemma example_assembly : assembly_steps example_updated example_joints = Ok example_steps.
Proof. vm_compute. reflexivity. Qed.

Lemma example_joint_ids : NoDup (map j_joint_id example_joints).
Proof. apply distinct_spec. vm_compute. reflexivity. Qed.

Lemma example_members j i :
  j ∈ example_joints -> i ∈ j_part_ids j -> i ∈ map part_id example_updated.
Proof.
  intros Hj Hi.
  assert (Forall (fun j => Forall (fun i => i ∈ map part_id example_updated) (j_part_ids j)) example_joints)
    as F by (apply (bool_decide_unpack _); vm_compute; exact I).
  rewrite Forall_forall in F. pose proof (F j Hj) as G. rewrite Forall_forall in G. by apply G.
Qed.

Lemma assembly_sequence_complete_witness : map step_number example_steps = seqZ 1 9.
Proof.
  exact (proj1 (proj2 (assembly_sequence_complete example_updated example_joints example_steps
                         example_joint_ids example_members example_assembly))).
Defined.

Lemma build_assembly_graph_valid_witness :
  build_assembly_graph example_updated example_joints = Ok example_graph.
Proof.
  apply (build_assembly_graph_valid example_updated example_joints example_steps example_joint_ids).
  - apply distinct_spec. vm_compute. reflexivity.
  - apply (bool_decide_unpack _). vm_compute. exact I.
  - exact example_members.
  - exact example_assembly.
Defined.
