(* ===== verification/ManufacturingModel.v ===== *)
(** * Manufacturing types

    [packages/manufacturing/src/custombuild_manufacturing/model.py]: rectangles,
    features and their machining envelopes, flat parts, stock sheets, nesting
    placements and the expansion of part specifications into instances.
    Dimensions are integers in micrometres.  The [metadata] mapping of a feature
    is a record of the keys that the manufacturing code reads or writes, each
    with the type it is converted to and [None] for an absent key; the metadata
    of a part is a record of what the design adapter writes, or [None]. *)

From S2P Require Import Prelude Text.

(** ** Enumerations *)

Inductive Side := SIDE_A | SIDE_B | SIDE_EDGE.

Inductive FeatureKind :=
  | DRILL | DRILL_PATTERN | COUNTERSINK | POCKET | GROOVE | RABBET | INNER_CONTOUR | OUTER_CONTOUR
  | ENGRAVE | LABEL.

Inductive Severity := PASS | WARNING | BLOCK.

#[export] Instance Side_eq_dec : EqDecision Side.
Proof. solve_decision. Defined.
#[export] Instance MFeatureKind_eq_dec : EqDecision FeatureKind.
Proof. solve_decision. Defined.
#[export] Instance Severity_eq_dec : EqDecision Severity.
Proof. solve_decision. Defined.

(** ** Rectangles *)

Record Point2D := mkPoint2D { p2_x_um : Z; p2_y_um : Z }.

Record Rect := mkRect { r_x_um : Z; r_y_um : Z; r_width_um : Z; r_height_um : Z }.

#[export] Instance Point2D_eq_dec : EqDecision Point2D.
Proof. solve_decision. Defined.
#[export] Instance Rect_eq_dec : EqDecision Rect.
Proof. solve_decision. Defined.

Definition right_um (r : Rect) : Z := r_x_um r + r_width_um r.
Definition top_um (r : Rect) : Z := r_y_um r + r_height_um r.
Definition area_um2 (r : Rect) : Z := r_width_um r * r_height_um r.

Definition intersects (a b : Rect) (clearance_um : Z) : bool :=
  negb ((right_um a + clearance_um <=? r_x_um b) || (right_um b + clearance_um <=? r_x_um a) ||
        (top_um a + clearance_um <=? r_y_um b) || (top_um b + clearance_um <=? r_y_um a)).

Definition contains (a b : Rect) : bool :=
  (r_x_um a <=? r_x_um b) && (r_y_um a <=? r_y_um b) &&
  (right_um b <=? right_um a) && (top_um b <=? top_um a).

(** ** Panel axes and edge protection *)

Record PanelAxisMapping := mkPanelAxisMapping {
  pam_u_axis : string; pam_v_axis : string; pam_thickness_axis : string }.

Definition default_axis_mapping : PanelAxisMapping := mkPanelAxisMapping "x" "y" "z".

Definition new_PanelAxisMapping (m : PanelAxisMapping) : result PanelAxisMapping :=
  raise_if (negb (py_set_eq [pam_u_axis m; pam_v_axis m; pam_thickness_axis m] ["x"; "y"; "z"]))
    (ValueError "panel axes must be a permutation of x, y and z");;
  Ok m.

Record EdgeBandSpec := mkEdgeBandSpec {
  ebs_edge : string;
  ebs_thickness_um : Z;
  ebs_source_face : string;
  ebs_catalog_id : option string;
  ebs_catalog_version : option string;
  ebs_attachment_method : string }.

Definition catalog_field_ok (name : string) (v : option string) : result unit :=
  match v with
  | Some s => raise_if (negb (identity_pattern s))
                (ValueError ("edge-protection " +:+ name +:+ " must be a canonical non-blank identity"))
  | None => Ok ()
  end.

Definition is_some {A} (o : option A) : bool := if o is Some _ then true else false.

Definition new_EdgeBandSpec (e : EdgeBandSpec) : result EdgeBandSpec :=
  raise_if (negb (bool_decide (ebs_edge e ∈ ["U_MIN"; "U_MAX"; "V_MIN"; "V_MAX"])))
    (ValueError ("unsupported local edge-band boundary: " +:+ ebs_edge e));;
  raise_if (ebs_thickness_um e <=? 0) (ValueError "edge-band thickness must be positive");;
  raise_if (negb (bool_decide (ebs_attachment_method e ∈ ["UNRESOLVED"; "MECHANICAL"])))
    (ValueError "edge protection must be unresolved or use dry mechanical attachment; adhesives are prohibited");;
  catalog_field_ok "catalog_id" (ebs_catalog_id e);;
  catalog_field_ok "catalog_version" (ebs_catalog_version e);;
  let has_catalog_identity := is_some (ebs_catalog_id e) && is_some (ebs_catalog_version e) in
  let mechanical := bool_decide (ebs_attachment_method e = "MECHANICAL") in
  raise_if ((is_some (ebs_catalog_id e) || is_some (ebs_catalog_version e)) && negb has_catalog_identity)
    (ValueError "edge-protection catalog ID and version must be supplied together");;
  raise_if (has_catalog_identity && negb mechanical)
    (ValueError "catalog-identified edge protection must declare dry mechanical attachment");;
  raise_if (mechanical && negb has_catalog_identity)
    (ValueError "dry mechanical edge protection requires a canonical catalog ID and version");;
  Ok e.

Definition procurement_status (e : EdgeBandSpec) : string :=
  if bool_decide (ebs_attachment_method e = "MECHANICAL") then "CATALOG_IDENTIFIED"
  else "EXTERNAL_SELECTION_REQUIRED".

(** ** Features and machining envelopes *)

(** The keys of a feature's [metadata]. *)
Record FeatureMetadata := mkMetadata {
  md_maximum_overcut_um : option Z;
  md_minimum_remaining_wall_um : option Z;
  md_diameter_tolerance_um : option Z;
  md_minimum_edge_distance_um : option Z;
  md_requires_square_corners : bool;
  md_allow_overlap_with : list string;
  md_compensation : option string;
  md_holding_strategy : option string;
  md_is_part_outline : bool;
  md_domain_face : option string;
  md_joint_id : option string;
  md_derived : bool }.

Definition no_metadata : FeatureMetadata :=
  mkMetadata None None None None false [] None None false None None false.

(** [metadata.get(key, default)] *)
Definition md_or {A} (o : option A) (default : A) : A := match o with Some v => v | None => default end.

Record ManufacturingFeature := mkMFeature {
  mf_feature_id : string;
  mf_part_id : string;
  mf_kind : FeatureKind;
  mf_side : Side;
  mf_x_um : Z;
  mf_y_um : Z;
  mf_depth_um : Z;
  mf_diameter_um : option Z;
  mf_width_um : option Z;
  mf_length_um : option Z;
  mf_radius_um : option Z;
  mf_pattern_count : Z;
  mf_pitch_um : option Z;
  mf_through : bool;
  mf_corner_strategy : option string;
  mf_corner_relief_radius_um : option Z;
  mf_open_end_reliefs : list string;
  mf_tolerance_um : Z;
  mf_fit_clearance_um : Z;
  mf_metadata : FeatureMetadata }.

Definition positive_or_none (o : option Z) : bool :=
  match o with Some v => 0 <? v | None => true end.

Definition dogbone_strategy (s : option string) : bool :=
  match s with Some s => bool_decide (s ∈ ["dogbone-v1"; "dogbone-v2"]) | None => false end.

Definition new_ManufacturingFeature (f : ManufacturingFeature) : result ManufacturingFeature :=
  raise_if (bool_decide (mf_feature_id f = "") || bool_decide (mf_part_id f = ""))
    (ValueError "feature_id and part_id are required");;
  raise_if (mf_depth_um f <=? 0) (ValueError "feature depth must be positive");;
  raise_if (mf_pattern_count f <? 1) (ValueError "pattern_count must be at least one");;
  raise_if ((1 <? mf_pattern_count f) &&
            match mf_pitch_um f with Some p => p <=? 0 | None => true end)
    (ValueError "a drill pattern requires a positive pitch");;
  raise_if (negb (forallb positive_or_none
                    [mf_diameter_um f; mf_width_um f; mf_length_um f; mf_radius_um f]))
    (ValueError "feature dimensions must be positive");;
  raise_if (negb (positive_or_none (mf_corner_relief_radius_um f)))
    (ValueError "corner relief radius must be positive");;
  raise_if (negb (distinct (mf_open_end_reliefs f)))
    (ValueError "open-end relief declarations must be unique");;
  raise_if (negb (py_subset (mf_open_end_reliefs f) ["u_min"; "u_max"; "v_min"; "v_max"]))
    (ValueError "open-end relief declaration is unsupported");;
  raise_if (negb (bool_decide (mf_open_end_reliefs f = [])) && negb (dogbone_strategy (mf_corner_strategy f)))
    (ValueError "open-end reliefs require a supported versioned dogbone strategy");;
  raise_if ((mf_tolerance_um f <? 0) || (mf_fit_clearance_um f <? 0))
    (ValueError "feature tolerance and fit clearance cannot be negative");;
  Ok f.

(** [v or d] on an optional integer: zero is falsy. *)
Definition int_or (o : option Z) (d : Z) : Z :=
  match o with Some v => if v =? 0 then d else v | None => d end.

Definition points (f : ManufacturingFeature) : list Point2D :=
  if mf_pattern_count f =? 1 then [mkPoint2D (mf_x_um f) (mf_y_um f)]
  else map (fun index => mkPoint2D (mf_x_um f + index * default 0 (mf_pitch_um f)) (mf_y_um f))
         (seqZ 0 (mf_pattern_count f)).

Definition is_round (k : FeatureKind) : bool :=
  match k with DRILL | DRILL_PATTERN | COUNTERSINK => true | _ => false end.

Definition bounds (f : ManufacturingFeature) : Rect :=
  if is_round (mf_kind f) then
    let diameter := int_or (mf_diameter_um f) (2 * int_or (mf_radius_um f) 0) in
    let radius := diameter / 2 in
    let xs := map p2_x_um (points f) in
    let ys := map p2_y_um (points f) in
    let lo_x := minZ 0 xs - radius in
    let hi_x := maxZ 0 xs + radius in
    let lo_y := minZ 0 ys - radius in
    let hi_y := maxZ 0 ys + radius in
    mkRect lo_x lo_y (hi_x - lo_x) (hi_y - lo_y)
  else
    let width := int_or (mf_width_um f) (int_or (mf_diameter_um f) 0) in
    let length_ := int_or (mf_length_um f) width in
    mkRect (mf_x_um f) (mf_y_um f) width length_.

(** The circles a cutter leaves in the corners that are not open. *)
Definition corner_points : list (string * string) :=
  [("u_min", "v_min"); ("u_max", "v_min"); ("u_min", "v_max"); ("u_max", "v_max")].

Definition relief_circles (f : ManufacturingFeature) : list (Point2D * Z) :=
  match mf_corner_relief_radius_um f with
  | Some radius =>
      if dogbone_strategy (mf_corner_strategy f) then
        let nominal := bounds f in
        let declared := mf_open_end_reliefs f in
        let open (uv : string * string) :=
          if bool_decide (mf_corner_strategy f = Some "dogbone-v1")
          then bool_decide (fst uv ∈ declared) && bool_decide (snd uv ∈ declared)
          else bool_decide (fst uv ∈ declared) || bool_decide (snd uv ∈ declared) in
        map (fun uv => (mkPoint2D (if bool_decide (fst uv = "u_min") then r_x_um nominal else right_um nominal)
                                  (if bool_decide (snd uv = "v_min") then r_y_um nominal else top_um nominal),
                        radius))
          (filter (fun uv => open uv = false) corner_points)
      else []
  | None => []
  end.

(** The four sides of the envelope, grown by one relief circle. *)
Definition grow (box : (Z * Z) * (Z * Z)) (circle : Point2D * Z) : (Z * Z) * (Z * Z) :=
  let '((lo_x, hi_x), (lo_y, hi_y)) := box in
  let '(point, r) := circle in
  ((Z.min lo_x (p2_x_um point - r), Z.max hi_x (p2_x_um point + r)),
   (Z.min lo_y (p2_y_um point - r), Z.max hi_y (p2_y_um point + r))).

Definition cutter_radius (f : ManufacturingFeature) : Z :=
  if dogbone_strategy (mf_corner_strategy f) then int_or (mf_corner_relief_radius_um f) 0 else 0.

(** How far the cutter runs over an end of the nominal rectangle. *)
Definition overhang (f : ManufacturingFeature) (s : string) : Z :=
  if bool_decide (s ∈ mf_open_end_reliefs f) then cutter_radius f else 0.

Definition open_box (f : ManufacturingFeature) : (Z * Z) * (Z * Z) :=
  let nominal := bounds f in
  ((r_x_um nominal - overhang f "u_min", right_um nominal + overhang f "u_max"),
   (r_y_um nominal - overhang f "v_min", top_um nominal + overhang f "v_max")).

Definition machining_bounds (f : ManufacturingFeature) : Rect :=
  let '((lo_x, hi_x), (lo_y, hi_y)) := foldl grow (open_box f) (relief_circles f) in
  mkRect lo_x lo_y (hi_x - lo_x) (hi_y - lo_y).

(** ** Flat parts *)

(** The [metadata] of a part that comes from a design; sizes along x, y and z. *)
Record PartMetadata := mkPartMetadata {
  pm_domain_instance_index : Z;
  pm_domain_a_side : string;
  pm_domain_b_side : string;
  pm_finished_xyz_um : list (string * Z);
  pm_raw_xyz_um : list (string * Z);
  pm_weight_basis : string }.

Record PartSpec := mkPartSpec {
  ps_part_id : string;
  ps_name : string;
  ps_width_um : Z;
  ps_height_um : Z;
  ps_thickness_um : Z;
  ps_material_id : string;
  ps_material_version : string;
  ps_features : list ManufacturingFeature;
  ps_grain_direction : string;
  ps_allow_rotation : bool;
  ps_quantity : Z;
  ps_weight_g : Z;
  ps_raw_width_um : option Z;
  ps_raw_height_um : option Z;
  ps_axis_mapping : PanelAxisMapping;
  ps_edge_bands : list string;
  ps_edge_band_details : list EdgeBandSpec;
  ps_metadata : option PartMetadata }.

Definition new_PartSpec (p : PartSpec) : result PartSpec :=
  raise_if (bool_decide (ps_part_id p = "")) (ValueError "part_id is required");;
  raise_if (Z.min (Z.min (ps_width_um p) (ps_height_um p)) (ps_thickness_um p) <=? 0)
    (ValueError "part dimensions must be positive");;
  raise_if (ps_quantity p <? 1) (ValueError "quantity must be positive");;
  raise_if (existsb (fun f => negb (bool_decide (mf_part_id f = ps_part_id p))) (ps_features p))
    (ValueError "all features must belong to the part");;
  raise_if (negb (distinct (ps_edge_bands p))) (ValueError "edge-band boundaries must be unique");;
  raise_if (negb (bool_decide (ps_edge_bands p = map ebs_edge (ps_edge_band_details p))))
    (ValueError "edge-band summary and detailed applications must match exactly");;
  Ok p.

Definition blank_width_um (p : PartSpec) : Z := int_or (ps_raw_width_um p) (ps_width_um p).
Definition blank_height_um (p : PartSpec) : Z := int_or (ps_raw_height_um p) (ps_height_um p).

Record PartInstance := mkPartInstance { pi_instance_id : string; pi_part : PartSpec }.

(** ** Stock and layouts *)

Record StockSheet := mkStockSheet {
  ss_stock_id : string;
  ss_material_id : string;
  ss_material_version : string;
  ss_width_um : Z;
  ss_height_um : Z;
  ss_thickness_um : Z;
  ss_quantity : Z;
  ss_margin_um : Z;
  ss_kerf_um : Z;
  ss_grain_direction : string;
  ss_allow_rotation : bool;
  ss_defect_zones : list Rect;
  ss_clamp_zones : list Rect;
  ss_declaration_authority : string }.

Definition new_StockSheet (s : StockSheet) : result StockSheet :=
  raise_if (Z.min (Z.min (Z.min (ss_width_um s) (ss_height_um s)) (ss_thickness_um s)) (ss_quantity s) <=? 0)
    (ValueError "stock dimensions and quantity must be positive");;
  raise_if ((ss_margin_um s <? 0) || (ss_kerf_um s <? 0))
    (ValueError "stock margin and kerf cannot be negative");;
  raise_if (bool_decide (ss_declaration_authority s = "") ||
            negb (bool_decide (ss_declaration_authority s = strip (ss_declaration_authority s))))
    (ValueError "stock declaration authority must be a canonical non-blank string");;
  raise_if (Z.min (ss_width_um s) (ss_height_um s) <=? ss_margin_um s * 2)
    (ValueError "stock margin consumes the usable sheet");;
  Ok s.

Definition usable_rect (s : StockSheet) : Rect :=
  mkRect (ss_margin_um s) (ss_margin_um s)
    (ss_width_um s - 2 * ss_margin_um s) (ss_height_um s - 2 * ss_margin_um s).

Record Placement := mkPlacement {
  np_instance_id : string;
  np_part_id : string;
  np_stock_id : string;
  np_sheet_index : Z;
  np_x_um : Z;
  np_y_um : Z;
  np_width_um : Z;
  np_height_um : Z;
  np_rotated_90 : bool }.

#[export] Instance NestPlacement_eq_dec : EqDecision Placement.
Proof. solve_decision. Defined.

Definition np_rect (p : Placement) : Rect :=
  mkRect (np_x_um p) (np_y_um p) (np_width_um p) (np_height_um p).

Record NestingLayout := mkNestingLayout {
  nl_stock : StockSheet;
  nl_placements : list Placement;
  nl_unplaced_instance_ids : list string;
  nl_used_sheet_count : Z;
  nl_utilization_ppm : Z;
  nl_algorithm : string }.

Definition is_complete (l : NestingLayout) : bool := bool_decide (nl_unplaced_instance_ids l = []).

(** ** Issues *)

(** The values an issue reports. *)
Inductive issue_value :=
  | VNone | VInt (n : Z) | VStr (s : string) | VBool (b : bool) | VRect (r : Rect) | VPair (a b : Z)
  | VStrs (l : list string).

#[export] Instance issue_value_eq_dec : EqDecision issue_value.
Proof. solve_decision. Defined.

Record DFMIssue := mkDFMIssue {
  is_code : string;
  is_severity : Severity;
  is_message : string;
  is_part_id : option string;
  is_feature_id : option string;
  is_setup_id : option string;
  is_inputs : list (string * issue_value);
  is_suggestion : option string }.

#[export] Instance DFMIssue_eq_dec : EqDecision DFMIssue.
Proof. solve_decision. Defined.

Definition report_status (issues : list DFMIssue) : Severity :=
  if existsb (fun i => bool_decide (is_severity i = BLOCK)) issues then BLOCK
  else if existsb (fun i => bool_decide (is_severity i = WARNING)) issues then WARNING
  else PASS.

Definition blocking_issues (issues : list DFMIssue) : list DFMIssue :=
  filter (fun i => is_severity i = BLOCK) issues.

(** ** Instances *)

Definition instance_id_of (part_id : string) (index : Z) : string :=
  part_id +:+ ":" +:+ zero_padded 3 (Z.to_N (index + 1)).

Definition instances_of (p : PartSpec) : list PartInstance :=
  map (fun index => mkPartInstance (instance_id_of (ps_part_id p) index) p) (seqZ 0 (ps_quantity p)).

Definition expand_part_instances (parts : list PartSpec) : list PartInstance :=
  concat (map instances_of (sort_by (cmp_on ps_part_id String.compare) parts)).

(** What [nest] accepts: specifications or instances, not a mixture. *)
Definition part_input : Type := PartSpec + PartInstance.

Definition as_spec (v : part_input) : option PartSpec := match v with inl p => Some p | inr _ => None end.
Definition as_instance (v : part_input) : option PartInstance :=
  match v with inl _ => None | inr i => Some i end.

Definition coerce_part_instances (values : list part_input) : result (list PartInstance) :=
  match mapM as_spec values with
  | Some specs => Ok (expand_part_instances specs)
  | None => of_option (mapM as_instance values)
              (TypeError "parts must contain only PartSpec or only PartInstance values")
  end.

(** ** Millimetre text *)

(** Trailing zeros removed, as [rstrip("0")]. *)
Fixpoint rstrip_zeros (l : list ascii) : list ascii :=
  match l with
  | [] => []
  | c :: l' =>
      match rstrip_zeros l' with
      | [] => if bool_decide (c = "0"%char) then [] else [c]
      | l'' => c :: l''
      end
  end.

Definition um_to_mm (value : Z) : string :=
  let absolute := Z.abs value in
  let whole := absolute / 1000 in
  let remainder := absolute mod 1000 in
  let rendered :=
    if remainder =? 0 then str_of_Z whole
    else of_chars (rstrip_zeros (chars (str_of_Z whole +:+ "." +:+ zero_padded 3 (Z.to_N remainder)))) in
  if value <? 0 then "-" +:+ rendered else rendered.

(** ** The machining envelope *)

Definition circle_box (c : Point2D * Z) : Rect :=
  mkRect (p2_x_um (fst c) - snd c) (p2_y_um (fst c) - snd c) (2 * snd c) (2 * snd c).

Definition box_within (b b' : (Z * Z) * (Z * Z)) : Prop :=
  fst (fst b') <= fst (fst b) /\ snd (fst b) <= snd (fst b') /\
  fst (snd b') <= fst (snd b) /\ snd (snd b) <= snd (snd b').

Lemma grow_within b c : box_within b (grow b c).
Proof. destruct b as [[? ?] [? ?]], c as [[? ?] ?]. unfold box_within, grow. cbn. lia. Qed.

Lemma grow_all b cs :
  box_within b (foldl grow b cs) /\
  forall c, c ∈ cs ->
    fst (fst (foldl grow b cs)) <= p2_x_um (fst c) - snd c /\
    p2_x_um (fst c) + snd c <= snd (fst (foldl grow b cs)) /\
    fst (snd (foldl grow b cs)) <= p2_y_um (fst c) - snd c /\
    p2_y_um (fst c) + snd c <= snd (snd (foldl grow b cs)).
Proof.
  revert b; induction cs as [|c cs IH]; intros b.
  - split; [unfold box_within; cbn; lia | by intros ? ?%not_elem_of_nil].
  - cbn [foldl]. destruct (IH (grow b c)) as [W C]. pose proof (grow_within b c) as G.
    unfold box_within in *. split; [lia|].
    intros c' [E|Hc]%elem_of_cons; [subst c'|by apply C].
    destruct b as [[? ?] [? ?]], c as [[? ?] ?]. cbn in *. lia.
Qed.

(** C35: the machining envelope leaves nothing of the cut outside.  For a valid
    feature, [machining_bounds] contains the nominal bounds and the whole of
    every corner-relief circle, and across each declared open end it extends at
    least one relief radius beyond the nominal boundary. *)
Theorem machining_bounds_cover (f : ManufacturingFeature) :
  new_ManufacturingFeature f = Ok f ->
  contains (machining_bounds f) (bounds f) = true /\
  (forall c, c ∈ relief_circles f -> contains (machining_bounds f) (circle_box c) = true) /\
  (dogbone_strategy (mf_corner_strategy f) = true ->
   let radius := int_or (mf_corner_relief_radius_um f) 0 in
   ("u_min" ∈ mf_open_end_reliefs f -> r_x_um (machining_bounds f) <= r_x_um (bounds f) - radius) /\
   ("u_max" ∈ mf_open_end_reliefs f -> right_um (bounds f) + radius <= right_um (machining_bounds f)) /\
   ("v_min" ∈ mf_open_end_reliefs f -> r_y_um (machining_bounds f) <= r_y_um (bounds f) - radius) /\
   ("v_max" ∈ mf_open_end_reliefs f -> top_um (bounds f) + radius <= top_um (machining_bounds f))).
Proof.
  intros H. assert (0 <= int_or (mf_corner_relief_radius_um f) 0) as Hr.
  { unfold new_ManufacturingFeature in H. inv_ok. bprop. unfold int_or.
    destruct (mf_corner_relief_radius_um f) as [r|]; [|lia]. cbn in *. destruct (r =? 0); lia. }
  assert (0 <= cutter_radius f) as Hradius by (unfold cutter_radius; destruct (dogbone_strategy _); lia).
  assert (forall s, 0 <= overhang f s) as Hover by (intros s; unfold overhang; destruct (bool_decide _); lia).
  unfold machining_bounds.
  destruct (grow_all (open_box f) (relief_circles f)) as [W C].
  destruct (foldl grow (open_box f) (relief_circles f)) as [[lx hx] [ly hy]].
  unfold box_within, open_box in W. cbn [fst snd] in *.
  pose proof (Hover "u_min"). pose proof (Hover "u_max"). pose proof (Hover "v_min"). pose proof (Hover "v_max").
  split_and!.
  - unfold contains, right_um, top_um in *. cbn [r_x_um r_y_um r_width_um r_height_um].
    rewrite !andb_true_iff, !Z.leb_le. lia.
  - intros c Hc. specialize (C c Hc). unfold contains, right_um, top_um, circle_box in *.
    cbn [r_x_um r_y_um r_width_um r_height_um]. rewrite !andb_true_iff, !Z.leb_le. lia.
  - intros D. assert (cutter_radius f = int_or (mf_corner_relief_radius_um f) 0) as Er
      by (unfold cutter_radius; by rewrite D).
    assert (forall s, s ∈ mf_open_end_reliefs f -> overhang f s = cutter_radius f) as Eo
      by (intros s Hin; unfold overhang; by rewrite bool_decide_true).
    unfold right_um, top_um in *. cbn [r_x_um r_y_um r_width_um r_height_um].
    split_and!; intros Hin; apply Eo in Hin; lia.
Qed.

(** A groove open at its left end. *)
Definition example_groove : ManufacturingFeature :=
  mkMFeature "feature-1" "part-1" GROOVE SIDE_A 0 50000 6000 None (Some 300000) (Some 18500) (Some 3000) 1
    None false (Some "dogbone-v2") (Some 3000) ["u_min"] 50 500 no_metadata.

Lemma machining_bounds_cover_witness :
  new_ManufacturingFeature example_groove = Ok example_groove /\
  contains (machining_bounds example_groove) (bounds example_groove) = true /\
  machining_bounds example_groove = mkRect (-3000) 47000 306000 24500.
Proof.
  assert (new_ManufacturingFeature example_groove = Ok example_groove) as H by (vm_compute; reflexivity).
  split; [exact H|]. split; [exact (proj1 (machining_bounds_cover example_groove H)) | vm_compute; reflexivity].
Defined.

(** ** Instances of a list of specifications *)

Lemma instance_id_inj p q i j : 0 <= i -> 0 <= j ->
  instance_id_of p i = instance_id_of q j -> p = q /\ i = j.
Proof.
  intros Hi Hj E. unfold instance_id_of in E. cbn in E.
  apply cut_at_last_colon in E as [-> E];
    [|apply digits_no_colon, zero_padded_digits|apply digits_no_colon, zero_padded_digits].
  apply zero_padded_inj in E. split; [done | lia].
Qed.

Lemma elem_of_instances p i :
  i ∈ instances_of p -> exists k, 0 <= k /\ pi_instance_id i = instance_id_of (ps_part_id p) k.
Proof.
  intros (k & -> & Hk)%list_elem_of_fmap. exists k. split; [|done].
  apply list_elem_of_lookup in Hk as (n & Hn). apply lookup_seqZ in Hn. lia.
Qed.

Lemma instances_NoDup p : NoDup (map pi_instance_id (instances_of p)).
Proof.
  unfold instances_of. rewrite map_map. apply NoDup_fmap_2_strong; [|apply NoDup_seqZ].
  intros x y Hx Hy E. cbn in E.
  apply list_elem_of_lookup in Hx as (n & [? ?]%lookup_seqZ), Hy as (m & [? ?]%lookup_seqZ).
  apply instance_id_inj in E as [_ E]; lia.
Qed.

Lemma concat_instances_NoDup specs :
  NoDup (map ps_part_id specs) -> NoDup (map pi_instance_id (concat (map instances_of specs))).
Proof.
  induction specs as [|p specs IH]; cbn; [intros; apply NoDup_nil_2|].
  intros [Hp Hs]%NoDup_cons. rewrite map_app. apply NoDup_app. split_and!; [apply instances_NoDup| |by apply IH].
  intros x (i & -> & Hi)%list_elem_of_fmap (i' & E & Hi')%list_elem_of_fmap.
  apply elem_of_instances in Hi as (k & Hk & Ek).
  apply list_elem_of_In, in_concat in Hi' as (l & Hl & Hi'). apply list_elem_of_In in Hl, Hi'.
  apply list_elem_of_fmap in Hl as (q & -> & Hq). apply elem_of_instances in Hi' as (k' & Hk' & Ek').
  rewrite Ek, Ek' in E. apply instance_id_inj in E as [E _]; [|done|done].
  apply Hp. rewrite E. by apply list_elem_of_fmap_2.
Qed.

Lemma expand_NoDup specs :
  NoDup (map ps_part_id specs) -> NoDup (map pi_instance_id (expand_part_instances specs)).
Proof. intros H. apply concat_instances_NoDup. by rewrite sort_by_perm. Qed.

(** expanding specifications gives every physical part its own identity.
    For specifications with distinct part identifiers and non-negative
    quantities, [expand_part_instances] produces one instance per unit of
    quantity, and no two instances share an identifier, whatever characters the
    part identifiers contain. *)
Theorem expand_instances_unique (specs : list PartSpec) :
  NoDup (map ps_part_id specs) -> Forall (fun p => 0 <= ps_quantity p) specs ->
  NoDup (map pi_instance_id (expand_part_instances specs)) /\
  Z.of_nat (length (expand_part_instances specs)) = sumZ (map ps_quantity specs).
Proof.
  intros Hids Hq. split; [by apply expand_NoDup|]. unfold expand_part_instances.
  set (cmp := cmp_on ps_part_id String.compare).
  assert (sumZ (map ps_quantity specs) = sumZ (map ps_quantity (sort_by cmp specs))) as ->
    by by rewrite sort_by_perm.
  assert (Forall (fun p => 0 <= ps_quantity p) (sort_by cmp specs)) as F by by rewrite sort_by_perm.
  induction F as [|p l Hp F IH]; [done|].
  cbn [map concat sumZ]. rewrite length_app, Nat2Z.inj_add, IH. unfold instances_of.
  rewrite length_map, length_seqZ. lia.
Qed.

(** Two sides and a shelf. *)
Definition two_sides_and_shelf : list PartSpec :=
  [mkPartSpec "side" "side" 300000 800000 18000 "ply" "1" [] "NONE" true 2 0 None None default_axis_mapping [] [] None;
   mkPartSpec "shelf" "shelf" 300000 700000 18000 "ply" "1" [] "NONE" true 1 0 None None default_axis_mapping [] [] None].

Lemma expand_instances_unique_witness :
  map pi_instance_id (expand_part_instances two_sides_and_shelf) = ["shelf:001"; "side:001"; "side:002"] /\
  Z.of_nat (length (expand_part_instances two_sides_and_shelf)) = 3.
Proof.
  split; [vm_compute; reflexivity|].
  exact (proj2 (expand_instances_unique two_sides_and_shelf
    ltac:(apply distinct_spec; vm_compute; reflexivity)
    ltac:(apply (bool_decide_unpack _); vm_compute; exact I))).
Defined.
