(* ===== verification/Nesting.v ===== *)
(** * Deterministic bottom-left nesting

    [packages/manufacturing/src/custombuild_manufacturing/nesting.py]: the
    nester, the predicates it selects candidates with, and the validator it
    runs on its own layouts. *)

From S2P Require Import Prelude Text ManufacturingModel.

Definition NESTING_ALGORITHM_VERSION : string := "deterministic-bottom-left-v2".

(** ** Compatibility, grain and orientation *)

Definition compatible (part : PartSpec) (stock : StockSheet) : bool :=
  bool_decide (ps_material_id part = ss_material_id stock) &&
  bool_decide (ps_material_version part = ss_material_version stock) &&
  (ps_thickness_um part =? ss_thickness_um stock).

Definition normalise_grain (value : string) : string :=
  let up := upper (strip value) in
  if bool_decide (up ∈ ["NONE"; "NO_GRAIN"]) then "NONE" else up.

Definition grain_allows (part : PartSpec) (stock : StockSheet) (rotated : bool) : bool :=
  let part_grain := normalise_grain (ps_grain_direction part) in
  let stock_grain := normalise_grain (ss_grain_direction stock) in
  if bool_decide (part_grain = "NONE") then true
  else if negb (bool_decide (part_grain ∈ ["X"; "Y"])) || negb (bool_decide (stock_grain ∈ ["X"; "Y"]))
  then false
  else
    let effective := if bool_decide (part_grain = "X") && rotated then "Y" else part_grain in
    let effective := if bool_decide (part_grain = "Y") && rotated then "X" else effective in
    bool_decide (effective = stock_grain).

(** Rotated, width, height. *)
Definition orientations (part : PartSpec) (stock : StockSheet) : list (bool * Z * Z) :=
  let upright := (false, blank_width_um part, blank_height_um part) in
  let turned := (true, blank_height_um part, blank_width_um part) in
  let candidates :=
    if ps_allow_rotation part && ss_allow_rotation stock then [upright; turned] else [upright] in
  filter (fun o => grain_allows part stock (fst (fst o)) = true) candidates.

(** ** Candidate origins *)

Definition origin_cmp : Z * Z -> Z * Z -> comparison :=
  cmp_then (cmp_on snd Z.compare) (cmp_on fst Z.compare).

Definition obstacles (stock : StockSheet) (placements : list Placement) : list Rect :=
  map np_rect placements ++ ss_defect_zones stock ++ ss_clamp_zones stock.

Definition candidate_origins (stock : StockSheet) (placements : list Placement) : list (Z * Z) :=
  let usable := usable_rect stock in
  let obs := obstacles stock placements in
  let xs := remove_dups (r_x_um usable :: map (fun o => right_um o + ss_kerf_um stock) obs) in
  let ys := remove_dups (r_y_um usable :: map (fun o => top_um o + ss_kerf_um stock) obs) in
  sort_by origin_cmp
    (filter (fun p => (fst p <? right_um usable) && (snd p <? top_um usable) = true)
       (concat (map (fun x => map (fun y => (x, y)) ys) xs))).

Definition fits (candidate : Placement) (occupied : list Placement) (stock : StockSheet) : bool :=
  let rect := np_rect candidate in
  contains (usable_rect stock) rect &&
  negb (existsb (fun zone => intersects rect zone (ss_kerf_um stock)) (ss_defect_zones stock)) &&
  negb (existsb (fun zone => intersects rect zone (ss_kerf_um stock)) (ss_clamp_zones stock)) &&
  negb (existsb (fun other => intersects rect (np_rect other) (ss_kerf_um stock)) occupied).

(** ** Choosing a placement *)

(** The score: sheet, y, x, top, rotated. *)
Definition score_cmp : Placement -> Placement -> comparison :=
  cmp_then (cmp_on np_sheet_index Z.compare)
    (cmp_then (cmp_on np_y_um Z.compare)
      (cmp_then (cmp_on np_x_um Z.compare)
        (cmp_then (cmp_on (fun p => top_um (np_rect p)) Z.compare)
                  (cmp_on np_rotated_90 cmp_bool)))).

Section Choose.
Context (stock : StockSheet) (instance : PartInstance).

Definition candidate_at (sheet_index : Z) (o : bool * Z * Z) (xy : Z * Z) : Placement :=
  let '(rotated, width_um, height_um) := o in
  mkPlacement (pi_instance_id instance) (ps_part_id (pi_part instance)) (ss_stock_id stock) sheet_index
    (fst xy) (snd xy) width_um height_um rotated.

(** The candidates of one sheet, in the order of the two inner loops. *)
Definition sheet_candidates (sheet_index : Z) (occupied : list Placement) : list Placement :=
  concat (map (fun o => map (candidate_at sheet_index o) (candidate_origins stock occupied))
            (orientations (pi_part instance) stock)).

Definition consider (occupied : list Placement) (choice : option Placement) (candidate : Placement)
    : option Placement :=
  if negb (fits candidate occupied stock) then choice
  else
    match choice with
    | None => Some candidate
    | Some best => if bool_decide (score_cmp candidate best = Lt) then Some candidate else choice
    end.

Definition consider_sheet (choice : option Placement) (sheet : Z * list Placement) : option Placement :=
  foldl (consider (snd sheet)) choice (sheet_candidates (fst sheet) (snd sheet)).

(** [per_sheet] lists the placements of sheet 0, 1, ... *)
Definition choose (per_sheet : list (list Placement)) : option Placement :=
  foldl consider_sheet None (zip (seqZ 0 (Z.of_nat (length per_sheet))) per_sheet).
End Choose.

(** ** The nester *)

Definition instance_cmp : PartInstance -> PartInstance -> comparison :=
  let w i := blank_width_um (pi_part i) in
  let h i := blank_height_um (pi_part i) in
  cmp_then (cmp_on (fun i => - (w i * h i)) Z.compare)
    (cmp_then (cmp_on (fun i => - Z.max (w i) (h i)) Z.compare)
      (cmp_then (cmp_on (fun i => - Z.min (w i) (h i)) Z.compare)
        (cmp_then (cmp_on (fun i => ps_part_id (pi_part i)) String.compare)
                  (cmp_on pi_instance_id String.compare)))).

Record nest_state := mkNestState {
  ns_per_sheet : list (list Placement);
  ns_placements : list Placement;
  ns_unplaced : list string }.

Definition append_to_sheet (per_sheet : list (list Placement)) (p : Placement) : list (list Placement) :=
  alter (fun l => l ++ [p]) (Z.to_nat (np_sheet_index p)) per_sheet.

(** One pass of the main loop. *)
Definition place_instance (stock : StockSheet) (s : nest_state) (instance : PartInstance) : nest_state :=
  if negb (compatible (pi_part instance) stock)
  then mkNestState (ns_per_sheet s) (ns_placements s) (ns_unplaced s ++ [pi_instance_id instance])
  else
    match choose stock instance (ns_per_sheet s) with
    | None => mkNestState (ns_per_sheet s) (ns_placements s) (ns_unplaced s ++ [pi_instance_id instance])
    | Some p =>
        mkNestState (append_to_sheet (ns_per_sheet s) p) (ns_placements s ++ [p]) (ns_unplaced s)
    end.

Definition start_state (stock : StockSheet) : nest_state :=
  mkNestState (replicate (Z.to_nat (ss_quantity stock)) []) [] [].

Definition place_all (stock : StockSheet) (instances : list PartInstance) : nest_state :=
  foldl (place_instance stock) (start_state stock) (sort_by instance_cmp instances).

Definition layout_cmp : Placement -> Placement -> comparison :=
  cmp_then (cmp_on np_sheet_index Z.compare)
    (cmp_then (cmp_on np_y_um Z.compare)
      (cmp_then (cmp_on np_x_um Z.compare) (cmp_on np_instance_id String.compare))).

Definition part_area (placements : list Placement) : Z :=
  sumZ (map (fun p => np_width_um p * np_height_um p) placements).

Definition layout_of_state (stock : StockSheet) (s : nest_state) : NestingLayout :=
  let placements := sort_by layout_cmp (ns_placements s) in
  let used_sheets := 1 + maxZ (-1) (map np_sheet_index placements) in
  let used_area := ss_width_um stock * ss_height_um stock * used_sheets in
  let utilization_ppm :=
    if used_area =? 0 then 0 else part_area placements * 1000000 / used_area in
  mkNestingLayout stock placements (sort_strings (ns_unplaced s)) used_sheets utilization_ppm
    NESTING_ALGORITHM_VERSION.

(** ** The validator *)

Definition block (code message : string) (part_id : option string)
    (inputs : list (string * issue_value)) (suggestion : option string) : DFMIssue :=
  mkDFMIssue code BLOCK message part_id None None inputs suggestion.

Section Validate.
Context (stock : StockSheet) (by_id : gmap string PartInstance).

Definition issue_if (b : bool) (i : DFMIssue) : list DFMIssue := if b then [i] else [].

Definition zone_issues (p : Placement) (kind lower_kind : string) (zones : list Rect) : list DFMIssue :=
  issue_if (existsb (fun zone => intersects (np_rect p) zone (ss_kerf_um stock)) zones)
    (block ("NESTING_" +:+ kind +:+ "_COLLISION")
       ("A part intersects a " +:+ lower_kind +:+ " or its machining clearance.")
       (Some (np_part_id p)) [] None).

Definition expected_size (part : PartSpec) (rotated : bool) : Z * Z :=
  if rotated then (blank_height_um part, blank_width_um part)
  else (blank_width_um part, blank_height_um part).

(** The checks of one known placement, after its stock binding. *)
Definition known_issues (seen : gset string) (p : Placement) (instance : PartInstance) : list DFMIssue :=
  let part := pi_part instance in
  let expected := expected_size part (np_rotated_90 p) in
  issue_if (negb (bool_decide (np_part_id p = ps_part_id part)))
    (block "NESTING_PART_BINDING_MISMATCH"
       "Placement part identity does not match the referenced part instance."
       (Some (ps_part_id part))
       [("instance_id", VStr (np_instance_id p)); ("expected_part_id", VStr (ps_part_id part));
        ("actual_part_id", VStr (np_part_id p))] None) ++
  issue_if (bool_decide (np_instance_id p ∈ seen))
    (block "NESTING_DUPLICATE_INSTANCE" "A part instance is placed more than once."
       (Some (np_part_id p)) [("instance_id", VStr (np_instance_id p))] None) ++
  issue_if (negb (bool_decide ((np_width_um p, np_height_um p) = expected)))
    (block "NESTING_DIMENSION_MISMATCH" "Placed dimensions do not match the source part and rotation."
       (Some (np_part_id p))
       [("expected_um", VPair (fst expected) (snd expected));
        ("actual_um", VPair (np_width_um p) (np_height_um p))] None) ++
  issue_if (negb (grain_allows part stock (np_rotated_90 p)))
    (block "NESTING_GRAIN_MISMATCH" "The placement violates the required grain direction."
       (Some (np_part_id p)) [("rotated_90", VBool (np_rotated_90 p))]
       (Some "Rotate the part or select compatible stock grain.")) ++
  issue_if ((np_sheet_index p <? 0) || (ss_quantity stock <=? np_sheet_index p))
    (block "NESTING_INVALID_SHEET" "Placement references a sheet outside the selected stock quantity."
       (Some (np_part_id p)) [] None) ++
  issue_if (negb (contains (usable_rect stock) (np_rect p)))
    (block "NESTING_OUT_OF_BOUNDS" "A placed part is outside the trimmed usable stock area."
       (Some (np_part_id p)) [("placement", VRect (np_rect p))] None) ++
  zone_issues p "DEFECT" "defect" (ss_defect_zones stock) ++
  zone_issues p "CLAMP" "clamp" (ss_clamp_zones stock).

Definition stock_binding_issue (p : Placement) : list DFMIssue :=
  issue_if (negb (bool_decide (np_stock_id p = ss_stock_id stock)))
    (block "NESTING_STOCK_BINDING_MISMATCH"
       "Placement stock identity does not match the nesting layout stock."
       ((fun i => ps_part_id (pi_part i)) <$> by_id !! np_instance_id p)
       [("instance_id", VStr (np_instance_id p)); ("expected_stock_id", VStr (ss_stock_id stock));
        ("actual_stock_id", VStr (np_stock_id p))] None).

(** One pass of the loop over the placements, threading [seen]. *)
Definition placement_issues (st : gset string * list DFMIssue) (p : Placement)
    : gset string * list DFMIssue :=
  let '(seen, issues) := st in
  let issues := issues ++ stock_binding_issue p in
  match by_id !! np_instance_id p with
  | None =>
      (seen, issues ++ [block "NESTING_UNKNOWN_INSTANCE" "Placement references an unknown part instance."
                          (Some (np_part_id p)) [("instance_id", VStr (np_instance_id p))] None])
  | Some instance => ({[np_instance_id p]} ∪ seen, issues ++ known_issues seen p instance)
  end.

(** [by_sheet.setdefault(index, []).append(placement)] on an ordered dictionary. *)
Fixpoint add_to_group (groups : list (Z * list Placement)) (p : Placement) : list (Z * list Placement) :=
  match groups with
  | [] => [(np_sheet_index p, [p])]
  | (i, l) :: rest =>
      if i =? np_sheet_index p then (i, l ++ [p]) :: rest else (i, l) :: add_to_group rest p
  end.

Fixpoint overlap_issues (ordered : list Placement) : list DFMIssue :=
  match ordered with
  | [] => []
  | first :: rest =>
      concat (map (fun second =>
        issue_if (intersects (np_rect first) (np_rect second) (ss_kerf_um stock))
          (block "NESTING_OVERLAP" "Nested parts overlap or violate kerf clearance."
             (Some (np_part_id first))
             [("first_instance", VStr (np_instance_id first));
              ("second_instance", VStr (np_instance_id second));
              ("kerf_um", VInt (ss_kerf_um stock))] None)) rest)
      ++ overlap_issues rest
  end.

Definition all_overlap_issues (placements : list Placement) : list DFMIssue :=
  concat (map (fun g => overlap_issues (sort_by (cmp_on np_instance_id String.compare) (snd g)))
            (foldl add_to_group [] placements)).

Definition unplaced_issue (instance_id : string) : DFMIssue :=
  block "NESTING_UNPLACED" "Part could not be placed on the selected stock."
    ((fun i => ps_part_id (pi_part i)) <$> by_id !! instance_id) [("instance_id", VStr instance_id)]
    (Some "Add stock, change raw format, or revise the part dimensions.").
End Validate.

Definition issue_cmp : DFMIssue -> DFMIssue -> comparison :=
  cmp_then (cmp_on is_code String.compare)
    (cmp_then (cmp_on (fun i => default "" (is_part_id i)) String.compare)
              (cmp_on (fun i => default "" (is_feature_id i)) String.compare)).

Definition sheet_count_issue (layout : NestingLayout) : list DFMIssue :=
  let stock := nl_stock layout in
  issue_if (ss_quantity stock <? nl_used_sheet_count layout)
    (block "NESTING_SHEET_COUNT" "Layout uses more sheets than the selected stock quantity." None
       [("used", VInt (nl_used_sheet_count layout)); ("available", VInt (ss_quantity stock))] None).

Definition accounting_issue (expected_ids : list string) (seen : gset string) (unplaced : list string)
    : list DFMIssue :=
  let missing := filter (fun i => i ∉ seen) (remove_dups expected_ids) in
  issue_if (negb (py_set_eq missing unplaced))
    (block "NESTING_ACCOUNTING" "Placed and unplaced instance accounting is inconsistent." None
       [("missing", VStrs (sort_strings missing));
        ("declared_unplaced", VStrs (sort_strings (remove_dups unplaced)))] None).

Definition validate_layout (layout : NestingLayout) (instances : list PartInstance) : list DFMIssue :=
  let stock := nl_stock layout in
  let by_id := dict_of pi_instance_id instances in
  let '(seen, issues) :=
    foldl (placement_issues stock by_id) (∅, sheet_count_issue layout) (nl_placements layout) in
  let unplaced := remove_dups (nl_unplaced_instance_ids layout) in
  sort_by issue_cmp
    (issues ++ all_overlap_issues stock (nl_placements layout)
       ++ accounting_issue (map pi_instance_id instances) seen unplaced
       ++ map (unplaced_issue by_id) (sort_strings unplaced)).

(** ** [DeterministicNester.nest] *)

Definition unexpected_issues (issues : list DFMIssue) : list DFMIssue :=
  filter (fun i => is_severity i = BLOCK /\ is_code i <> "NESTING_UNPLACED") issues.

Definition nest_instances (stock : StockSheet) (instances : list PartInstance) : result NestingLayout :=
  match instances with
  | [] => Ok (mkNestingLayout stock [] [] 0 0 NESTING_ALGORITHM_VERSION)
  | _ =>
      let layout := layout_of_state stock (place_all stock instances) in
      let unexpected := unexpected_issues (validate_layout layout instances) in
      raise_if (negb (bool_decide (map is_code unexpected = [])))
        (NestingError ("nester produced an invalid layout: " +:+ str_join ", " (map is_code unexpected)));;
      Ok layout
  end.

Definition nest (parts : list part_input) (stock : StockSheet) : result NestingLayout :=
  instances ← coerce_part_instances parts;
  nest_instances stock instances.

(** ** The selection is minimal *)

#[export] Instance score_cmp_total : TotalCmp score_cmp.
Proof. unfold score_cmp. apply _. Qed.

Section Selection.
Context (stock : StockSheet) (instance : PartInstance).

(** [choice] is the least of the placements satisfying [G]. *)
Definition least_of (G : Placement -> Prop) (choice : option Placement) : Prop :=
  (forall p, choice = Some p -> G p) /\
  (forall q, G q -> exists p, choice = Some p /\ score_cmp p q <> Gt).

Lemma least_of_proper G G' choice : (forall q, G q <-> G' q) -> least_of G choice -> least_of G' choice.
Proof. intros E [H1 H2]. split; [intros; by apply E, H1 | intros q Hq%E; auto]. Qed.

Lemma consider_least G occupied choice q :
  least_of G choice ->
  least_of (fun p => G p \/ (p = q /\ fits q occupied stock = true)) (consider stock occupied choice q).
Proof.
  intros [H1 H2]. unfold consider. destruct (fits q occupied stock) eqn:F; cbn [negb].
  - destruct choice as [best|].
    + case_bool_decide as C.
      * split; [intros p [= <-]; auto|]. intros p [Hp|[-> _]].
        -- destruct (H2 p Hp) as (b & [= <-] & Hb). exists q. split; [done|].
           eapply cmp_trans; [|exact Hb]. by rewrite C.
        -- exists q. split; [done|]. by rewrite (cmp_refl score_cmp).
      * split; [intros p [= <-]; left; by apply H1|]. intros p [Hp|[-> _]]; [by apply H2|].
        exists best. split; [done|]. rewrite cmp_antisym. revert C. destruct (score_cmp q best); cbn; congruence.
    + split; [intros p [= <-]; auto|]. intros p [Hp|[-> _]].
      * by destruct (H2 p Hp) as (b & ? & _).
      * exists q. split; [done|]. by rewrite (cmp_refl score_cmp).
  - split; [intros p Hp; left; by apply H1|]. intros p [Hp|[_ ?]]; [by apply H2 | done].
Qed.

Lemma consider_all_least G occupied choice l :
  least_of G choice ->
  least_of (fun p => G p \/ (p ∈ l /\ fits p occupied stock = true)) (foldl (consider stock occupied) choice l).
Proof.
  revert G choice; induction l as [|q l IH]; intros G choice H; cbn [foldl].
  - eapply least_of_proper; [|exact H]. intros p. rewrite elem_of_nil. tauto.
  - eapply least_of_proper; [|apply IH, consider_least, H]. intros p. cbn. rewrite elem_of_cons.
    naive_solver.
Qed.

Lemma consider_sheets_least G choice sheets :
  least_of G choice ->
  least_of (fun p => G p \/ exists sheet, sheet ∈ sheets /\
              p ∈ sheet_candidates stock instance (fst sheet) (snd sheet) /\ fits p (snd sheet) stock = true)
    (foldl (consider_sheet stock instance) choice sheets).
Proof.
  revert G choice; induction sheets as [|sheet sheets IH]; intros G choice H; cbn [foldl].
  - eapply least_of_proper; [|exact H]. intros p. split; [auto|].
    intros [?|(s & ?%not_elem_of_nil & _)]; done.
  - eapply least_of_proper; [|apply IH; unfold consider_sheet; apply consider_all_least, H].
    intros p. cbn. setoid_rewrite elem_of_cons. naive_solver.
Qed.

(** A placement the nester may choose for the instance: on some sheet, at a
    candidate origin, in an allowed orientation, where it fits. *)
Definition feasible (per_sheet : list (list Placement)) (p : Placement) : Prop :=
  exists i occupied, per_sheet !! i = Some occupied /\
    p ∈ sheet_candidates stock instance (Z.of_nat i) occupied /\ fits p occupied stock = true.

Lemma choose_least per_sheet :
  least_of (feasible per_sheet) (choose stock instance per_sheet).
Proof.
  eapply least_of_proper; [|apply (consider_sheets_least (fun _ => False))].
  - intros p. split.
    + intros [[]|([i occ] & Hin & Hp & Hf)]. cbn in *.
      apply list_elem_of_lookup in Hin as (k & Hk).
      apply lookup_zip_with_Some in Hk as (i' & occ' & [= -> ->] & Hi & Ho).
      apply lookup_seqZ in Hi as [-> ?]. exists k, occ'. split_and!; [done| |done].
      by rewrite Z.add_0_l in Hp.
    + intros (i & occ & Hl & Hp & Hf). right. exists (Z.of_nat i, occ). split_and!; [|done|done].
      apply list_elem_of_lookup. exists i. apply lookup_zip_with_Some. exists (Z.of_nat i), occ.
      split_and!; [done| |done]. apply lookup_seqZ. split; [lia|].
      apply lookup_lt_Some in Hl. lia.
  - split; [done | by intros q []].
Qed.
End Selection.

(** the nester's choice is bottom-left minimal.  For every part and every
    state of the sheets, [choose] returns a placement exactly when some
    candidate (sheet, candidate origin, allowed orientation) fits, what it
    returns is such a candidate, and no feasible candidate has a smaller score
    (sheet, y, x, top edge, rotation). *)
Theorem nest_choice_minimal (stock : StockSheet) (instance : PartInstance)
    (per_sheet : list (list Placement)) :
  (forall p, choose stock instance per_sheet = Some p -> feasible stock instance per_sheet p) /\
  (forall q, feasible stock instance per_sheet q ->
     exists p, choose stock instance per_sheet = Some p /\ score_cmp p q <> Gt).
Proof. exact (choose_least stock instance per_sheet). Qed.

(** ** The invariant of the main loop *)

Lemma intersects_sym a b c : intersects a b c = intersects b a c.
Proof.
  unfold intersects. destruct (right_um a + c <=? r_x_um b), (right_um b + c <=? r_x_um a),
    (top_um a + c <=? r_y_um b), (top_um b + c <=? r_y_um a); done.
Qed.

Section Loop.
Context (stock : StockSheet).

(** The placement of an instance: identity, size, grain, sheet, usable area and
    zones. *)
Record placed_for (instance : PartInstance) (p : Placement) : Prop := {
  pf_compatible : compatible (pi_part instance) stock = true;
  pf_id : np_instance_id p = pi_instance_id instance;
  pf_part : np_part_id p = ps_part_id (pi_part instance);
  pf_stock : np_stock_id p = ss_stock_id stock;
  pf_size : (np_width_um p, np_height_um p) = expected_size (pi_part instance) (np_rotated_90 p);
  pf_grain : grain_allows (pi_part instance) stock (np_rotated_90 p) = true;
  pf_sheet : 0 <= np_sheet_index p < ss_quantity stock;
  pf_usable : contains (usable_rect stock) (np_rect p) = true;
  pf_defects : existsb (fun z => intersects (np_rect p) z (ss_kerf_um stock)) (ss_defect_zones stock) = false;
  pf_clamps : existsb (fun z => intersects (np_rect p) z (ss_kerf_um stock)) (ss_clamp_zones stock) = false }.

(** Two placements on one sheet keep the kerf between them. *)
Definition apart (p q : Placement) : Prop :=
  np_sheet_index p = np_sheet_index q ->
  intersects (np_rect p) (np_rect q) (ss_kerf_um stock) = false.

Lemma apart_sym p q : apart p q -> apart q p.
Proof. unfold apart. intros H E. rewrite intersects_sym. by apply H. Qed.

Record nest_ok (instances : list PartInstance) (s : nest_state) : Prop := {
  no_length : length (ns_per_sheet s) = Z.to_nat (ss_quantity stock);
  no_sheets : forall p, p ∈ ns_placements s ->
    exists l, ns_per_sheet s !! Z.to_nat (np_sheet_index p) = Some l /\ p ∈ l;
  no_placed : forall p, p ∈ ns_placements s -> exists i, i ∈ instances /\ placed_for i p;
  no_apart : pairwise apart (ns_placements s);
  no_ids : map np_instance_id (ns_placements s) ++ ns_unplaced s ≡ₚ map pi_instance_id instances }.

Lemma sheet_candidate_inv instance i occupied p :
  p ∈ sheet_candidates stock instance i occupied ->
  np_instance_id p = pi_instance_id instance /\ np_part_id p = ps_part_id (pi_part instance) /\
  np_stock_id p = ss_stock_id stock /\ np_sheet_index p = i /\
  (np_width_um p, np_height_um p) = expected_size (pi_part instance) (np_rotated_90 p) /\
  grain_allows (pi_part instance) stock (np_rotated_90 p) = true.
Proof.
  intros (l & Hl & Hp)%list_elem_of_In%in_concat. apply list_elem_of_In in Hl, Hp.
  apply list_elem_of_fmap in Hl as ([[rot w] h] & -> & Ho).
  apply list_elem_of_fmap in Hp as (xy & -> & _). cbn.
  unfold orientations in Ho. apply list_elem_of_filter in Ho as [Hg Ho]. cbn in Hg.
  assert ((rot, w, h) ∈ [(false, blank_width_um (pi_part instance), blank_height_um (pi_part instance));
                          (true, blank_height_um (pi_part instance), blank_width_um (pi_part instance))])
    as Ho' by (destruct (_ && _); set_solver).
  split_and!; try done.
  apply elem_of_cons in Ho' as [E|Ho']; [by injection E as -> -> ->|].
  apply list_elem_of_singleton in Ho'. by injection Ho' as -> -> ->.
Qed.

Lemma choose_placed per_sheet instance p :
  length per_sheet = Z.to_nat (ss_quantity stock) -> compatible (pi_part instance) stock = true ->
  choose stock instance per_sheet = Some p ->
  placed_for instance p /\
  exists occupied, per_sheet !! Z.to_nat (np_sheet_index p) = Some occupied /\
    forall q, q ∈ occupied -> intersects (np_rect p) (np_rect q) (ss_kerf_um stock) = false.
Proof.
  intros Hlen Hc H. destruct (choose_least stock instance per_sheet) as [Hs _].
  destruct (Hs p H) as (i & occ & Hi & Hp & Hf).
  apply sheet_candidate_inv in Hp as (? & ? & ? & Es & ? & ?).
  pose proof (lookup_lt_Some _ _ _ Hi) as Hlt. rewrite Hlen in Hlt.
  unfold fits in Hf. apply andb_true_iff in Hf as [Hf Ho]. apply andb_true_iff in Hf as [Hf Hcl].
  apply andb_true_iff in Hf as [Hu Hd]. bprop.
  split; [split; try done; lia|].
  exists occ. rewrite Es, Nat2Z.id. split; [done|]. intros q Hq.
  destruct (intersects _ _ _) eqn:E; [|done].
  assert (existsb (fun other => intersects (np_rect p) (np_rect other) (ss_kerf_um stock)) occ = true); [|congruence].
  apply existsb_exists. exists q. split; [by apply list_elem_of_In | done].
Qed.

Lemma place_instance_ok instances s instance :
  nest_ok instances s -> nest_ok (instance :: instances) (place_instance stock s instance).
Proof.
  intros [L Sh P Ap Ids].
  assert (nest_ok (instance :: instances)
            (mkNestState (ns_per_sheet s) (ns_placements s) (ns_unplaced s ++ [pi_instance_id instance])))
    as Skip.
  { split; cbn; [done|done| |done|].
    - intros p Hp. destruct (P p Hp) as (i & ? & ?). exists i. split; [by right | done].
    - rewrite app_assoc, Ids. by rewrite Permutation_app_comm. }
  unfold place_instance. destruct (compatible _ _) eqn:C; cbn [negb]; [|done].
  destruct (choose stock instance (ns_per_sheet s)) as [p|] eqn:E; [|done].
  apply choose_placed in E as [Pl (occ & Ho & Far)]; [|done|done].
  split; cbn.
  - unfold append_to_sheet. by rewrite length_alter.
  - intros q [Hq|Hq]%elem_of_app.
    + destruct (Sh q Hq) as (l & Hl & Hin). unfold append_to_sheet.
      destruct (decide (Z.to_nat (np_sheet_index q) = Z.to_nat (np_sheet_index p))) as [D|D].
      * exists (l ++ [p]). rewrite D in *. rewrite list_lookup_alter_eq, Hl. split; [done|]. set_solver.
      * exists l. rewrite list_lookup_alter_ne by done. done.
    + apply list_elem_of_singleton in Hq as ->. exists (occ ++ [p]). unfold append_to_sheet.
      rewrite list_lookup_alter_eq, Ho. split; [done|]. set_solver.
  - intros q [Hq|Hq]%elem_of_app.
    + destruct (P q Hq) as (i & ? & ?). exists i. split; [by right | done].
    + apply list_elem_of_singleton in Hq as ->. exists instance. split; [by left | done].
  - apply pairwise_app. split_and!; [done|done|]. intros q p' Hq ->%list_elem_of_singleton Hs.
    rewrite intersects_sym. apply Far. destruct (Sh q Hq) as (l & Hl & Hin).
    rewrite Hs, Ho in Hl. by injection Hl as <-.
  - rewrite map_app. cbn. rewrite <- app_assoc. cbn.
    rewrite <- Permutation_middle. rewrite (pf_id _ _ Pl). by rewrite Ids.
Qed.

Lemma place_all_ok instances : nest_ok instances (place_all stock instances).
Proof.
  unfold place_all.
  assert (forall l done_ s, nest_ok done_ s ->
    nest_ok (rev l ++ done_) (foldl (place_instance stock) s l)) as Loop.
  { intros l. induction l as [|i l IH]; intros done_ s Hs; cbn; [done|].
    rewrite <- app_assoc. cbn. by apply IH, place_instance_ok. }
  destruct (Loop (sort_by instance_cmp instances) [] (start_state stock)) as [L Sh P Ap Ids].
  - split; cbn; [by rewrite length_replicate | by intros p ?%not_elem_of_nil
      | by intros p ?%not_elem_of_nil | done | done].
  - split; [done|done| |done|].
    + intros p Hp. destruct (P p Hp) as (i & Hi & ?). exists i. split; [|done].
      rewrite app_nil_r, <- Permutation_rev, elem_of_sort_by in Hi. done.
    + rewrite Ids, app_nil_r, <- Permutation_rev. by rewrite sort_by_perm.
Qed.
End Loop.

(** ** What the layout guarantees *)

Lemma nest_instances_layout stock instances layout :
  nest_instances stock instances = Ok layout ->
  nl_stock layout = stock /\
  exists s, nest_ok stock instances s /\ nl_placements layout ≡ₚ ns_placements s /\
    nl_unplaced_instance_ids layout ≡ₚ ns_unplaced s.
Proof.
  destruct instances as [|i l]; unfold nest_instances.
  - intros [= <-]. split; [done|]. exists (start_state stock).
    split_and!; [exact (place_all_ok stock []) | done | done].
  - intros H. cbv zeta in H. apply bind_Ok in H as (? & _ & H). injection H as <-. split; [done|].
    eexists. split_and!; [apply place_all_ok | apply sort_by_perm | apply sort_by_perm].
Qed.

(** C14: every layout the nester returns can be cut.  Each placement belongs to
    one of the requested instances, is on an existing sheet of the matching
    stock, has the size of its part in the chosen rotation, respects the grain,
    stays inside the trimmed area and clear of defects and clamps by the kerf;
    two different instances on one sheet are always a kerf apart; and every
    instance is either placed or reported unplaced, exactly once. *)
Theorem nest_layout_sound (stock : StockSheet) (instances : list PartInstance) (layout : NestingLayout) :
  nest_instances stock instances = Ok layout ->
  (forall p, p ∈ nl_placements layout -> exists i, i ∈ instances /\ placed_for stock i p) /\
  (forall p q, p ∈ nl_placements layout -> q ∈ nl_placements layout ->
     np_instance_id p <> np_instance_id q -> np_sheet_index p = np_sheet_index q ->
     intersects (np_rect p) (np_rect q) (ss_kerf_um stock) = false) /\
  map np_instance_id (nl_placements layout) ++ nl_unplaced_instance_ids layout
    ≡ₚ map pi_instance_id instances.
Proof.
  intros (_ & s & [_ _ P Ap Ids] & E & U)%nest_instances_layout. split_and!.
  - intros p Hp. apply P. by rewrite <- E.
  - intros p q Hp Hq N Hs. rewrite E in Hp, Hq.
    eapply (pairwise_elem (apart stock)); [intros ? ?; apply apart_sym|done|done|done| |done].
    congruence.
  - by rewrite E, U, Ids.
Qed.

(** *** The internal check *)

Section Check.
Context (stock : StockSheet) (instances : list PartInstance).
Hypothesis Hids : NoDup (map pi_instance_id instances).

Lemma known_issues_nil seen p i :
  placed_for stock i p -> np_instance_id p ∉ seen -> known_issues stock seen p i = [].
Proof.
  intros [_ _ Pp _ Sz Gr Sh Us De Cl] Hseen. unfold known_issues, zone_issues.
  rewrite Sz, Pp, Gr, Us, De, Cl. rewrite (bool_decide_false (np_instance_id p ∈ seen)) by done.
  rewrite (bool_decide_true (ps_part_id _ = ps_part_id _)), (bool_decide_true (expected_size _ _ = expected_size _ _)) by done.
  rewrite (proj2 (Z.ltb_ge _ _)), (proj2 (Z.leb_gt _ _)) by lia. done.
Qed.

Lemma placements_clean ps seen issues :
  (forall p, p ∈ ps -> exists i, i ∈ instances /\ placed_for stock i p) ->
  NoDup (map np_instance_id ps) -> (forall p, p ∈ ps -> np_instance_id p ∉ seen) ->
  foldl (placement_issues stock (dict_of pi_instance_id instances)) (seen, issues) ps
  = (list_to_set (rev (map np_instance_id ps)) ∪ seen, issues).
Proof.
  revert seen; induction ps as [|p ps IH]; intros seen P Nd Hseen; cbn.
  - f_equal. by rewrite (left_id_L ∅ (∪)).
  - destruct (P p) as (i & Hi & Pl); [by left|]. cbn in Nd. apply NoDup_cons in Nd as [Hp Nd].
    unfold stock_binding_issue. rewrite (bool_decide_true _ (pf_stock _ _ _ Pl)).
    rewrite (pf_id _ _ _ Pl), dict_of_elem by done. cbn [negb issue_if].
    rewrite known_issues_nil by (done || by apply Hseen; left). rewrite !app_nil_r, IH.
    + f_equal. rewrite list_to_set_app_L. cbn. rewrite <- ?(pf_id _ _ _ Pl). set_solver.
    + intros; apply P; by right.
    + done.
    + intros q Hq. rewrite not_elem_of_union, not_elem_of_singleton. split; [|apply Hseen; by right].
      intros E. apply Hp. rewrite (pf_id _ _ _ Pl), <- E. by apply list_elem_of_fmap_2.
Qed.

Lemma overlap_issues_nil ps i :
  pairwise (apart stock) ps -> (forall p, p ∈ ps -> np_sheet_index p = i) -> overlap_issues stock ps = [].
Proof.
  induction ps as [|p ps IH]; cbn; [done|]. intros [Hp Hps] Hi. rewrite IH; [|done|set_solver].
  rewrite app_nil_r. apply concat_nil_Forall, Forall_forall. intros l (q & -> & Hq)%list_elem_of_fmap.
  rewrite Forall_forall in Hp. unfold issue_if. rewrite (Hp q Hq); [done|].
  rewrite (Hi p), (Hi q); [done|by right|by left].
Qed.

(** Every group of [by_sheet] is a part of the placements, all on its sheet. *)
Definition groups_ok (ps : list Placement) (groups : list (Z * list Placement)) : Prop :=
  forall i l, (i, l) ∈ groups -> l `sublist_of` ps /\ forall p, p ∈ l -> np_sheet_index p = i.

Lemma add_to_group_ok ps groups p :
  groups_ok ps groups -> groups_ok (ps ++ [p]) (add_to_group groups p).
Proof.
  induction groups as [|[i l] groups IH]; intros H; cbn.
  - intros i l [= -> ->]%list_elem_of_singleton.
    split; [by apply sublist_inserts_l | by intros q ->%list_elem_of_singleton].
  - assert (groups_ok (ps ++ [p]) ((i, l) :: groups)) as H'.
    { intros i' l' Hin. destruct (H i' l' Hin) as [? ?]. split; [|done]. by apply sublist_inserts_r. }
    assert (groups_ok ps groups) as Hg by (intros i' l' ?; apply H; by right).
    destruct (Z.eqb_spec i (np_sheet_index p)) as [->|N].
    + intros i' l' [[= -> ->]|Hin]%elem_of_cons; [|apply H'; by right].
      destruct (H (np_sheet_index p) l) as [? ?]; [by left|].
      split; [by apply sublist_app|]. intros q [?| ->%list_elem_of_singleton]%elem_of_app; auto.
    + intros i' l' [[= -> ->]|Hin]%elem_of_cons; [apply H'; by left | by apply IH].
Qed.

Lemma all_overlap_nil ps : pairwise (apart stock) ps -> all_overlap_issues stock ps = [].
Proof.
  intros Hp. unfold all_overlap_issues.
  assert (groups_ok ps (foldl add_to_group [] ps)) as G.
  { clear Hp. induction ps as [|p ps IH] using rev_ind; [by intros i l ?%not_elem_of_nil|].
    rewrite foldl_app. by apply add_to_group_ok. }
  apply concat_nil_Forall, Forall_forall. intros l ([i g] & -> & Hin)%list_elem_of_fmap. cbn.
  destruct (G i g Hin) as [Sub Hi]. apply overlap_issues_nil with (i := i).
  - eapply pairwise_perm; [intros ? ?; apply apart_sym|symmetry; apply sort_by_perm|].
    by eapply pairwise_sublist.
  - intros p Hpp%elem_of_sort_by. by apply Hi.
Qed.

Lemma layout_issues_unplaced s :
  nest_ok stock instances s -> 0 <= ss_quantity stock ->
  Forall (fun i => is_code i = "NESTING_UNPLACED")
    (validate_layout (layout_of_state stock s) instances).
Proof.
  intros [_ _ P Ap Ids] Hq. unfold validate_layout.
  set (placements := sort_by layout_cmp (ns_placements s)).
  change (nl_stock (layout_of_state stock s)) with stock.
  change (nl_placements (layout_of_state stock s)) with placements.
  change (nl_unplaced_instance_ids (layout_of_state stock s)) with (sort_strings (ns_unplaced s)).
  assert (placements ≡ₚ ns_placements s) as E by apply sort_by_perm.
  assert (NoDup (map np_instance_id placements)) as Np.
  { rewrite E. rewrite <- Ids in Hids. by apply NoDup_app in Hids as (? & _ & _). }
  assert (sheet_count_issue (layout_of_state stock s) = []) as ->.
  { unfold sheet_count_issue. cbn [nl_stock nl_used_sheet_count]. fold placements.
    assert (1 + maxZ (-1) (map np_sheet_index placements) <= ss_quantity stock) as B.
    { destruct (decide (map np_sheet_index placements = [])) as [->|N]; [cbn; lia|].
      pose proof (maxZ_in (-1) _ N) as (p & -> & Hp)%list_elem_of_fmap. rewrite E in Hp.
      destruct (P p Hp) as (i & _ & Pl). pose proof (pf_sheet _ _ _ Pl). lia. }
    unfold issue_if. by rewrite (proj2 (Z.ltb_ge _ _)). }
  rewrite placements_clean; [|intros p Hp; rewrite E in Hp; by apply P|done|intros; apply not_elem_of_empty].
  rewrite all_overlap_nil by (eapply pairwise_perm;
    [intros ? ?; apply apart_sym | symmetry; apply sort_by_perm | done]).
  assert (accounting_issue (map pi_instance_id instances)
    (list_to_set (rev (map np_instance_id placements)) ∪ ∅) (remove_dups (sort_strings (ns_unplaced s))) = [])
    as ->.
  { unfold accounting_issue, issue_if.
    rewrite (proj2 (py_set_eq_spec _ _)); [done|]. intros x.
    rewrite list_elem_of_filter, !elem_of_remove_dups. unfold sort_strings.
    rewrite elem_of_sort_by, <- Ids, elem_of_app, <- E, elem_of_union, elem_of_list_to_set.
    rewrite <- Permutation_rev. rewrite <- Ids, <- E in Hids. apply NoDup_app in Hids as (_ & D & _).
    pose proof (not_elem_of_empty (C := gset string) x). naive_solver. }
  rewrite !app_nil_l. apply Forall_forall. intros i Hi%elem_of_sort_by.
  by apply list_elem_of_fmap in Hi as (x & -> & _).
Qed.
End Check.

Lemma nest_instances_total (stock : StockSheet) (instances : list PartInstance) :
  new_StockSheet stock = Ok stock -> NoDup (map pi_instance_id instances) ->
  nest_instances stock instances = Ok (match instances with
    | [] => mkNestingLayout stock [] [] 0 0 NESTING_ALGORITHM_VERSION
    | _ => layout_of_state stock (place_all stock instances) end).
Proof.
  intros Hs Hids. destruct instances as [|i l]; [done|]. unfold nest_instances. cbv zeta.
  assert (0 <= ss_quantity stock) as Hq by (unfold new_StockSheet in Hs; inv_ok; bprop; lia).
  pose proof (layout_issues_unplaced stock _ Hids _ (place_all_ok stock (i :: l)) Hq) as F.
  assert (unexpected_issues (validate_layout (layout_of_state stock (place_all stock (i :: l))) (i :: l)) = [])
    as ->; [|done].
  unfold unexpected_issues. clear -F. induction F as [|x xs Hx F IH]; [done|].
  rewrite filter_cons_False by tauto. done.
Qed.

(** C31: the nester never trips its own check.  For a valid stock sheet and
    instances with distinct identifiers [nest] always returns a layout; it never
    raises [NestingError]. *)
Theorem nest_never_raises (stock : StockSheet) (instances : list PartInstance) :
  new_StockSheet stock = Ok stock -> NoDup (map pi_instance_id instances) ->
  nest_instances stock instances = Ok (match instances with
    | [] => mkNestingLayout stock [] [] 0 0 NESTING_ALGORITHM_VERSION
    | _ => layout_of_state stock (place_all stock instances) end).
Proof. exact (nest_instances_total stock instances). Qed.

(** ** Instances and the order of the input *)

Lemma expand_perm l1 l2 :
  NoDup (map ps_part_id l1) -> l1 ≡ₚ l2 -> expand_part_instances l1 = expand_part_instances l2.
Proof.
  intros Hids E. unfold expand_part_instances. do 2 f_equal.
  apply sort_by_unique; [apply _| |done]. intros x y Hx Hy Hc. apply string_cmp_Eq in Hc.
  pose proof (dict_of_elem ps_part_id l1 x Hids Hx) as Ex.
  pose proof (dict_of_elem ps_part_id l1 y Hids Hy) as Ey. rewrite Hc in Ex. congruence.
Qed.

Lemma coerce_specs specs : coerce_part_instances (map inl specs) = Ok (expand_part_instances specs).
Proof.
  unfold coerce_part_instances.
  assert (mapM as_spec (map inl specs) = Some specs) as ->; [|done].
  apply mapM_Some. induction specs; constructor; auto.
Qed.

#[export] Instance instance_cmp_total : TotalCmp instance_cmp.
Proof. unfold instance_cmp. apply _. Qed.

Lemma instance_cmp_Eq i j : instance_cmp i j = Eq -> pi_instance_id i = pi_instance_id j.
Proof.
  unfold instance_cmp, cmp_then, cmp_on.
  repeat (destruct (_ ?= _) || destruct (String.compare (ps_part_id _) _); try done).
  by intros ?%string_cmp_Eq.
Qed.

Lemma place_all_perm stock l1 l2 :
  NoDup (map pi_instance_id l1) -> l1 ≡ₚ l2 -> place_all stock l1 = place_all stock l2.
Proof.
  intros Hids E. unfold place_all. f_equal. apply sort_by_unique; [apply _| |done].
  intros x y Hx Hy Hc%instance_cmp_Eq.
  pose proof (dict_of_elem pi_instance_id l1 x Hids Hx) as Ex.
  pose proof (dict_of_elem pi_instance_id l1 y Hids Hy) as Ey. rewrite Hc in Ex. congruence.
Qed.

(** C40: nesting is reproducible.  The layout depends on which parts are
    requested and not on the order they are listed in, for instances with
    distinct identifiers and for specifications with distinct part
    identifiers. *)
Theorem nest_order_independent (stock : StockSheet) :
  new_StockSheet stock = Ok stock ->
  (forall l1 l2, NoDup (map pi_instance_id l1) -> l1 ≡ₚ l2 ->
     nest_instances stock l1 = nest_instances stock l2) /\
  (forall s1 s2, NoDup (map ps_part_id s1) -> s1 ≡ₚ s2 ->
     nest (map inl s1) stock = nest (map inl s2) stock).
Proof.
  intros Hs. split.
  - intros l1 l2 Hids E. rewrite !nest_instances_total by (done || by rewrite <- E).
    rewrite (place_all_perm stock l1 l2) by done.
    destruct l1, l2; [done|by apply Permutation_nil in E|by symmetry in E; apply Permutation_nil in E|done].
  - intros s1 s2 Hids E. unfold nest. by rewrite !coerce_specs, (expand_perm s1 s2).
Qed.

(** ** Material used

    Areas are counted in square micrometre cells: the cells of placements that
    are apart are disjoint, and all lie on the sheets used. *)

Section Area.

Definition grid (sheet : Z) (xs ys : list Z) : list (Z * (Z * Z)) :=
  concat (map (fun x => map (fun y => (sheet, (x, y))) ys) xs).

Lemma elem_of_grid sheet xs ys s x y :
  (s, (x, y)) ∈ grid sheet xs ys <-> s = sheet /\ x ∈ xs /\ y ∈ ys.
Proof.
  unfold grid. rewrite list_elem_of_In, in_concat. split.
  - intros (l & Hl & Hin). apply list_elem_of_In in Hl, Hin.
    apply list_elem_of_fmap in Hl as (x' & -> & Hx). apply list_elem_of_fmap in Hin as (y' & E & Hy).
    by injection E as -> -> ->.
  - intros (-> & Hx & Hy). exists (map (fun y => (sheet, (x, y))) ys).
    split; apply list_elem_of_In; [by apply (list_elem_of_fmap_2 (fun x => map (fun y => (sheet, (x, y))) ys))
      | by apply (list_elem_of_fmap_2 (fun y => (sheet, (x, y))))].
Qed.

Lemma length_grid sheet xs ys : length (grid sheet xs ys) = (length xs * length ys)%nat.
Proof. unfold grid. induction xs as [|x xs IH]; cbn; [done|]. by rewrite length_app, length_map, IH. Qed.

Lemma NoDup_grid sheet xs ys : NoDup xs -> NoDup ys -> NoDup (grid sheet xs ys).
Proof.
  intros Hx Hy. induction Hx as [|x xs Hnx Hx IH]; [apply NoDup_nil_2|].
  change (grid sheet (x :: xs) ys) with (map (fun y => (sheet, (x, y))) ys ++ grid sheet xs ys).
  apply NoDup_app. split_and!; [|intros [s [x' y']] Hin Hin'|done].
  - apply NoDup_fmap_2_strong; [|done]. by intros ? ? ? ? [= ->].
  - apply list_elem_of_fmap in Hin as (y0 & E & _). injection E as -> -> ->.
    by apply elem_of_grid in Hin' as (_ & ? & _).
Qed.

Definition cells (p : Placement) : list (Z * (Z * Z)) :=
  grid (np_sheet_index p) (seqZ (np_x_um p) (np_width_um p)) (seqZ (np_y_um p) (np_height_um p)).

Lemma elem_of_seqZ' m n x : x ∈ seqZ m n <-> m <= x < m + n.
Proof.
  rewrite list_elem_of_lookup. split.
  - intros (i & H). apply lookup_seqZ in H. lia.
  - intros H. exists (Z.to_nat (x - m)). apply lookup_seqZ. lia.
Qed.

Lemma cells_disjoint stock p q c :
  0 <= ss_kerf_um stock -> apart stock p q -> c ∈ cells p -> c ∈ cells q -> False.
Proof.
  intros Hk A. destruct c as [s [x y]]. unfold cells. rewrite !elem_of_grid, !elem_of_seqZ'.
  intros (-> & Hx & Hy) (E & Hx' & Hy'). specialize (A E).
  unfold intersects, right_um, top_um in A. apply negb_false_iff in A. cbn in A.
  rewrite !orb_true_iff, !Z.leb_le in A. lia.
Qed.

Lemma cells_NoDup stock ps :
  0 <= ss_kerf_um stock -> pairwise (apart stock) ps -> NoDup (concat (map cells ps)).
Proof.
  intros Hk. induction ps as [|p ps IH]; cbn; [intros; apply NoDup_nil_2|].
  intros [Hp Hps]. apply NoDup_app. split_and!; [apply NoDup_grid; apply NoDup_seqZ| |by apply IH].
  intros c Hc (l & Hl & Hc')%list_elem_of_In%in_concat. apply list_elem_of_In in Hl, Hc'.
  apply list_elem_of_fmap in Hl as (q & -> & Hq). rewrite Forall_forall in Hp.
  by eapply (cells_disjoint stock p q c); [|apply Hp| |].
Qed.

Lemma cells_area ps :
  (forall p, p ∈ ps -> 0 <= np_width_um p /\ 0 <= np_height_um p) ->
  Z.of_nat (length (concat (map cells ps))) = part_area ps.
Proof.
  unfold part_area. induction ps as [|p ps IH]; intros H; [done|].
  cbn [map concat sumZ]. rewrite length_app, Nat2Z.inj_add, IH by (intros; apply H; by right).
  unfold cells at 1. rewrite length_grid, !length_seqZ. destruct (H p); [by left|]. lia.
Qed.

(** The cells of the first [n] sheets of a stock. *)
Definition stock_cells (stock : StockSheet) (n : Z) : list (Z * (Z * Z)) :=
  concat (map (fun s => grid s (seqZ 0 (ss_width_um stock)) (seqZ 0 (ss_height_um stock))) (seqZ 0 n)).

Lemma stock_cells_area stock n :
  0 <= n -> 0 <= ss_width_um stock -> 0 <= ss_height_um stock ->
  Z.of_nat (length (stock_cells stock n)) = ss_width_um stock * ss_height_um stock * n.
Proof.
  intros Hn Hw Hh. unfold stock_cells.
  assert (forall l, Z.of_nat (length (concat (map (fun s => grid s (seqZ 0 (ss_width_um stock))
    (seqZ 0 (ss_height_um stock))) l))) = ss_width_um stock * ss_height_um stock * Z.of_nat (length l)) as E.
  { induction l as [|s l IH]; cbn [map concat]; [cbn; lia|].
    rewrite length_app, Nat2Z.inj_add, IH, length_grid, !length_seqZ. cbn [length]. nia. }
  rewrite E, length_seqZ. by rewrite Z2Nat.id.
Qed.

Lemma placed_area_bound stock (instances : list PartInstance) ps n :
  new_StockSheet stock = Ok stock ->
  (forall p, p ∈ ps -> exists i, i ∈ instances /\ placed_for stock i p) ->
  (forall p, p ∈ ps -> 0 <= np_width_um p /\ 0 <= np_height_um p) ->
  (forall p, p ∈ ps -> np_sheet_index p < n) -> 0 <= n ->
  pairwise (apart stock) ps -> part_area ps <= ss_width_um stock * ss_height_um stock * n.
Proof.
  intros Hs P Sz Hn H0 Ap. unfold new_StockSheet in Hs. inv_ok. bprop.
  rewrite <- cells_area, <- stock_cells_area by (done || lia).
  apply inj_le, submseteq_length, NoDup_submseteq; [by eapply cells_NoDup|].
  intros [s [cx cy]] (l & Hl & Hc)%list_elem_of_In%in_concat. apply list_elem_of_In in Hl, Hc.
  apply list_elem_of_fmap in Hl as (p & -> & Hp).
  apply elem_of_grid in Hc as (-> & Hx%elem_of_seqZ' & Hy%elem_of_seqZ').
  destruct (P p Hp) as (i & _ & [_ _ _ _ _ _ Sh Us _ _]).
  unfold contains, right_um, top_um, usable_rect in Us. cbn in Us. bprop.
  apply list_elem_of_In, in_concat.
  exists (grid (np_sheet_index p) (seqZ 0 (ss_width_um stock)) (seqZ 0 (ss_height_um stock))).
  specialize (Hn p Hp).
  split; apply list_elem_of_In.
  - apply (list_elem_of_fmap_2 (fun s => grid s _ _)), elem_of_seqZ'. lia.
  - apply elem_of_grid. rewrite !elem_of_seqZ'. split; [done|]. lia.
Qed.
End Area.

Lemma used_sheets_bounds stock (instances : list PartInstance) ps :
  (forall p, p ∈ ps -> exists i : PartInstance, i ∈ instances /\ placed_for stock i p) ->
  0 <= 1 + maxZ (-1) (map np_sheet_index ps) /\
  forall p, p ∈ ps -> np_sheet_index p < 1 + maxZ (-1) (map np_sheet_index ps).
Proof.
  intros P. split.
  - destruct (decide (map np_sheet_index ps = [])) as [->|N]; [cbn; lia|].
    pose proof (maxZ_in (-1) _ N) as (p & -> & Hp)%list_elem_of_fmap.
    destruct (P p Hp) as (i & _ & Pl). pose proof (pf_sheet _ _ _ Pl). lia.
  - intros p Hp. pose proof (maxZ_le (-1) (map np_sheet_index ps) (np_sheet_index p)
      ltac:(by apply list_elem_of_fmap_2)). lia.
Qed.

Lemma placed_sizes stock (instances : list PartInstance) (ps : list Placement) :
  (forall i, i ∈ instances -> 0 < blank_width_um (pi_part i) /\ 0 < blank_height_um (pi_part i)) ->
  (forall p, p ∈ ps -> exists i, i ∈ instances /\ placed_for stock i p) ->
  forall p, p ∈ ps -> 0 <= np_width_um p /\ 0 <= np_height_um p.
Proof.
  intros Hpos P p Hp. destruct (P p Hp) as (i & Hi & Pl). pose proof (pf_size _ _ _ Pl) as E.
  destruct (Hpos i Hi). unfold expected_size in E. destruct (np_rotated_90 p); injection E as -> ->; lia.
Qed.

(** the reported utilisation is a true share of the stock.  For a valid
    sheet and parts with positive blanks, the placed areas add up to no more
    than the area of the sheets used, and the utilisation lies between 0 and
    one million parts per million. *)
Theorem nest_utilization_bounded (stock : StockSheet) (instances : list PartInstance)
    (layout : NestingLayout) :
  new_StockSheet stock = Ok stock ->
  (forall i, i ∈ instances -> 0 < blank_width_um (pi_part i) /\ 0 < blank_height_um (pi_part i)) ->
  nest_instances stock instances = Ok layout ->
  part_area (nl_placements layout)
    <= ss_width_um stock * ss_height_um stock * nl_used_sheet_count layout /\
  0 <= nl_utilization_ppm layout <= 1000000.
Proof.
  intros Hs Hpos H. destruct instances as [|i0 l]; [injection H as <-; cbn; lia|].
  unfold nest_instances in H. cbv zeta in H. apply bind_Ok in H as (? & _ & H). injection H as <-.
  destruct (place_all_ok stock (i0 :: l)) as [_ _ P Ap _].
  set (s := place_all stock (i0 :: l)) in *.
  set (placements := sort_by layout_cmp (ns_placements s)).
  assert (placements ≡ₚ ns_placements s) as E by apply sort_by_perm.
  assert (forall p, p ∈ placements -> exists i, i ∈ i0 :: l /\ placed_for stock i p) as P'
    by (intros p Hp; rewrite E in Hp; by apply P).
  pose proof (placed_sizes stock _ placements Hpos P') as Sz.
  destruct (used_sheets_bounds stock _ placements P') as [Hu Hlt].
  set (used := 1 + maxZ (-1) (map np_sheet_index placements)) in *.
  assert (part_area placements <= ss_width_um stock * ss_height_um stock * used) as A.
  { eapply (placed_area_bound stock (i0 :: l)); try done.
    eapply pairwise_perm; [intros ? ?; apply apart_sym | symmetry; exact E | done]. }
  change (nl_placements (layout_of_state stock s)) with placements.
  change (nl_used_sheet_count (layout_of_state stock s)) with used. split; [done|].
  assert (0 <= part_area placements) as A0.
  { apply sumZ_nonneg, Forall_forall. intros a (p & -> & Hp)%list_elem_of_fmap.
    destruct (Sz p Hp). nia. }
  change (nl_utilization_ppm (layout_of_state stock s)) with
    (if ss_width_um stock * ss_height_um stock * used =? 0 then 0
     else part_area placements * 1000000 / (ss_width_um stock * ss_height_um stock * used)).
  destruct (Z.eqb_spec (ss_width_um stock * ss_height_um stock * used) 0) as [_|N]; [lia|].
  split; [apply Z.div_pos; nia|]. apply Z.div_le_upper_bound; nia.
Qed.

(** ** A concrete nesting *)

Definition example_part (id : string) (w h q : Z) : PartSpec :=
  mkPartSpec id id w h 18000 "birch-ply-18" "1.0.0" [] "X" true q 1000 None None default_axis_mapping [] [] None.

Definition example_stock : StockSheet :=
  mkStockSheet "sheet-1" "birch-ply-18" "1.0.0" 1000000 600000 18000 2 10000 6000 "X" true
    [mkRect 400000 0 20000 30000] [] "operator".

Definition example_specs : list PartSpec :=
  [example_part "side" 500000 300000 2; example_part "shelf" 400000 250000 1].
Definition example_instances : list PartInstance := expand_part_instances example_specs.

Lemma example_stock_ok : new_StockSheet example_stock = Ok example_stock.
Proof. vm_compute. reflexivity. Qed.

Lemma example_instance_ids : NoDup (map pi_instance_id example_instances).
Proof. apply distinct_spec. vm_compute. reflexivity. Qed.

Definition example_layout : NestingLayout := layout_of_state example_stock (place_all example_stock example_instances).

Lemma example_nest : nest_instances example_stock example_instances = Ok example_layout.
Proof. vm_compute. reflexivity. Qed.

Lemma nest_layout_sound_witness :
  map np_instance_id (nl_placements example_layout) ++ nl_unplaced_instance_ids example_layout
    ≡ₚ map pi_instance_id example_instances.
Proof. exact (proj2 (proj2 (nest_layout_sound example_stock example_instances example_layout example_nest))). Defined.

Lemma nest_never_raises_witness : is_ok (nest_instances example_stock example_instances) = true.
Proof. rewrite (nest_never_raises example_stock example_instances example_stock_ok example_instance_ids). reflexivity. Defined.

Lemma nest_order_independent_witness :
  nest (map inl example_specs) example_stock = nest (map inl (rev example_specs)) example_stock.
Proof.
  apply (proj2 (nest_order_independent example_stock example_stock_ok)).
  - apply distinct_spec. vm_compute. reflexivity.
  - apply Permutation_rev.
Defined.

Lemma nest_utilization_bounded_witness :
  nl_utilization_ppm example_layout = 333333 /\ 0 <= nl_utilization_ppm example_layout <= 1000000.
Proof.
  split; [vm_compute; reflexivity|].
  apply (nest_utilization_bounded example_stock example_instances example_layout example_stock_ok);
    [|exact example_nest].
  assert (Forall (fun i => 0 < blank_width_um (pi_part i) /\ 0 < blank_height_um (pi_part i)) example_instances)
    as F by (apply (bool_decide_unpack _); vm_compute; exact I).
  rewrite Forall_forall in F. exact F.
Defined.
