(* ===== verification/LayoutCheck.v ===== *)
(** * The layout validator is exact

    [validate_layout] ([nesting.py]) reports nothing exactly for the layouts in
    which every placement is right, no two placements on a sheet come closer
    than the kerf, and every instance is placed once. *)

From S2P Require Import Prelude Text ManufacturingModel Nesting.

(** ** Correct layouts *)

(** What the validator demands of one placement of an instance. *)
Record placed_at (stock : StockSheet) (instance : PartInstance) (p : Placement) : Prop := {
  pa_part : np_part_id p = ps_part_id (pi_part instance);
  pa_stock : np_stock_id p = ss_stock_id stock;
  pa_size : (np_width_um p, np_height_um p) = expected_size (pi_part instance) (np_rotated_90 p);
  pa_grain : grain_allows (pi_part instance) stock (np_rotated_90 p) = true;
  pa_sheet : 0 <= np_sheet_index p < ss_quantity stock;
  pa_usable : contains (usable_rect stock) (np_rect p) = true;
  pa_defects : existsb (fun z => intersects (np_rect p) z (ss_kerf_um stock)) (ss_defect_zones stock) = false;
  pa_clamps : existsb (fun z => intersects (np_rect p) z (ss_kerf_um stock)) (ss_clamp_zones stock) = false }.

Record layout_ok (layout : NestingLayout) (instances : list PartInstance) : Prop := {
  ok_sheets : nl_used_sheet_count layout <= ss_quantity (nl_stock layout);
  ok_placed : forall p, p ∈ nl_placements layout ->
    exists i, dict_of pi_instance_id instances !! np_instance_id p = Some i /\ placed_at (nl_stock layout) i p;
  ok_once : NoDup (map np_instance_id (nl_placements layout));
  ok_apart : pairwise (apart (nl_stock layout)) (nl_placements layout);
  ok_all : forall i, i ∈ map pi_instance_id instances -> i ∈ map np_instance_id (nl_placements layout);
  ok_unplaced : nl_unplaced_instance_ids layout = [] }.

(** ** Issues as conditions *)

Lemma issue_if_nil b i : issue_if b i = [] <-> b = false.
Proof. by destruct b. Qed.

Lemma sort_by_nil {A} (cmp : A -> A -> comparison) l : sort_by cmp l = [] <-> l = [].
Proof.
  split; [|by intros ->]. intros E. apply Permutation_nil. rewrite <- E. apply sort_by_perm.
Qed.

Section Exact.
Context (stock : StockSheet) (instances : list PartInstance).
Let by_id := dict_of pi_instance_id instances.

Lemma known_issues_exact seen p i :
  stock_binding_issue stock by_id p = [] /\ known_issues stock seen p i = [] <->
  placed_at stock i p /\ np_instance_id p ∉ seen.
Proof.
  unfold stock_binding_issue, known_issues, zone_issues.
  rewrite !app_nil, !issue_if_nil, !negb_false_iff, orb_false_iff, !bool_decide_eq_true, !bool_decide_eq_false,
    Z.ltb_ge, Z.leb_gt.
  split; [intros; destruct_and!; split; [by split|done] | intros [[] ?]; tauto].
Qed.

Lemma placement_issues_exact ps seen issues :
  snd (foldl (placement_issues stock by_id) (seen, issues) ps) = [] <->
  issues = [] /\ (forall p, p ∈ ps -> exists i, by_id !! np_instance_id p = Some i /\ placed_at stock i p) /\
  NoDup (map np_instance_id ps) /\ (forall p, p ∈ ps -> np_instance_id p ∉ seen).
Proof.
  revert seen issues; induction ps as [|p ps IH]; intros seen issues; cbn.
  - split; [|by intros [-> _]]. intros ->. split_and!; [done| | constructor |]; by intros ? ?%not_elem_of_nil.
  - rewrite NoDup_cons, list_elem_of_fmap. destruct (by_id !! np_instance_id p) as [i|] eqn:E; rewrite IH, !app_nil.
    + pose proof (known_issues_exact seen p i) as K. split.
      * intros (((? & B) & N) & P & Nd & Fresh). destruct (proj1 K (conj B N)) as [Hp Hs].
        split_and!; [done| | |done|].
        -- intros q [->|Hq]%elem_of_cons; eauto.
        -- intros (q & Eq & Hq). apply (Fresh q Hq). set_solver.
        -- intros q [->|Hq]%elem_of_cons; [done|]. specialize (Fresh q Hq). set_solver.
      * intros (-> & P & (Hnew & Nd) & Fresh). destruct (P p) as (i' & E' & Hp); [by left|].
        assert (i' = i) as -> by congruence. destruct (proj2 K (conj Hp (Fresh p ltac:(by left)))) as [-> ->].
        split_and!; [done|done|done| |done|].
        -- intros q Hq. apply P. by right.
        -- intros q Hq. rewrite not_elem_of_union, not_elem_of_singleton. split; [|apply Fresh; by right].
           intros Eq. apply Hnew. by exists q.
    + split; [by intros ((_ & [=]) & _)|].
      intros (_ & P & _). destruct (P p) as (i & E' & _); [by left|]. congruence.
Qed.

End Exact.

(** ** Overlaps *)

Section Overlaps.
Context (stock : StockSheet).

Lemma overlap_issues_exact ps i : (forall p, p ∈ ps -> np_sheet_index p = i) ->
  overlap_issues stock ps = [] <-> pairwise (apart stock) ps.
Proof.
  induction ps as [|p ps IH]; intros Hi; cbn; [done|]. rewrite app_nil, IH by (intros; apply Hi; by right).
  rewrite concat_nil_Forall, Forall_map. apply and_iff_compat_r. rewrite !Forall_forall.
  apply forall_proper. intros q. split; intros H Hq; specialize (H Hq); unfold apart, compose in *.
  - intros _. by apply issue_if_nil in H.
  - apply issue_if_nil, H. rewrite (Hi p), (Hi q); [done|by right|by left].
Qed.

(** The groups are the sheets in use, each with its placements in order. *)
Record sheet_groups (ps : list Placement) (groups : list (Z * list Placement)) : Prop := {
  sg_keys : NoDup (map fst groups);
  sg_used : forall p, p ∈ ps -> np_sheet_index p ∈ map fst groups;
  sg_group : forall i l, (i, l) ∈ groups -> l = filter (fun p => np_sheet_index p = i) ps }.

Lemma add_to_group_keys groups p :
  map fst (add_to_group groups p) =
  if bool_decide (np_sheet_index p ∈ map fst groups) then map fst groups else map fst groups ++ [np_sheet_index p].
Proof.
  induction groups as [|[i l] groups IH]; [done|]. cbn.
  destruct (Z.eqb_spec i (np_sheet_index p)) as [->|N]; cbn; [by rewrite bool_decide_true by (by left)|].
  rewrite IH. assert (np_sheet_index p ∈ i :: map fst groups <-> np_sheet_index p ∈ map fst groups) as E by set_solver.
  rewrite (bool_decide_ext _ _ E). by destruct (bool_decide _).
Qed.

Lemma add_to_group_elem groups p i l : NoDup (map fst groups) ->
  (i, l) ∈ add_to_group groups p ->
  if i =? np_sheet_index p
  then (exists l', (i, l') ∈ groups /\ l = l' ++ [p]) \/ (l = [p] /\ i ∉ map fst groups)
  else (i, l) ∈ groups.
Proof.
  induction groups as [|[j m] groups IH]; cbn; intros Nd.
  - intros [= -> ->]%list_elem_of_singleton. rewrite Z.eqb_refl. right. split; [done|]. apply not_elem_of_nil.
  - apply NoDup_cons in Nd as [Nj Nd]. destruct (Z.eqb_spec j (np_sheet_index p)) as [->|N].
    + intros [[= -> ->]|H]%elem_of_cons; [rewrite Z.eqb_refl; left; exists m; split; [by left|done]|].
      destruct (Z.eqb_spec i (np_sheet_index p)) as [->|]; [|by right].
      exfalso. apply Nj. by apply list_elem_of_fmap_2 with (f := fst) in H.
    + intros [[= -> ->]|H]%elem_of_cons; [rewrite (proj2 (Z.eqb_neq _ _) N); by left|].
      specialize (IH Nd H). destruct (Z.eqb_spec i (np_sheet_index p)) as [->|]; [|by right].
      destruct IH as [(l' & ? & ?)|[? ?]]; [left; exists l'; split; [by right|done]|right; split; [done|]].
      set_solver.
Qed.

Lemma sheet_groups_of ps : sheet_groups ps (foldl add_to_group [] ps).
Proof.
  induction ps as [|p ps [K U G]] using rev_ind.
  - split; [constructor| |]; intros * ?%not_elem_of_nil; done.
  - rewrite foldl_app. cbn [foldl]. set (groups := foldl add_to_group [] ps) in *. split.
    + rewrite add_to_group_keys. case_bool_decide; [done|]. apply NoDup_app.
      split_and!; [done|set_solver|apply NoDup_singleton].
    + intros q [Hq| ->%list_elem_of_singleton]%elem_of_app; rewrite add_to_group_keys; case_bool_decide; [by apply U| |done|];
        apply elem_of_app; [left; by apply U|right; by left].
    + intros i l H%add_to_group_elem; [|done]. rewrite filter_app.
      destruct (Z.eqb_spec i (np_sheet_index p)) as [->|N].
      * rewrite (filter_cons_True _ p) by done. destruct H as [(l' & H & ->)|[-> Hn]]; [by rewrite (G _ _ H)|].
        rewrite filter_none; [done|]. apply Forall_forall. intros q Hq E. apply Hn. rewrite <- E. by apply U.
      * rewrite (filter_cons_False _ p) by done. rewrite (G _ _ H). by rewrite app_nil_r.
Qed.

Lemma pairwise_of_sheets ps :
  (forall i, pairwise (apart stock) (filter (fun p => np_sheet_index p = i) ps)) -> pairwise (apart stock) ps.
Proof.
  induction ps as [|p ps IH]; [done|]. intros H. split.
  - apply Forall_forall. intros q Hq E. specialize (H (np_sheet_index p)). rewrite filter_cons_True in H by done.
    destruct H as [F _]. rewrite Forall_forall in F. apply (F q); [|done]. apply list_elem_of_filter. done.
  - apply IH. intros i. specialize (H i). destruct (decide (np_sheet_index p = i)).
    + rewrite filter_cons_True in H by done. by destruct H.
    + by rewrite filter_cons_False in H.
Qed.

Lemma all_overlap_exact ps : all_overlap_issues stock ps = [] <-> pairwise (apart stock) ps.
Proof.
  split; [|exact (all_overlap_nil stock [] (NoDup_nil_2 : NoDup (map pi_instance_id [])) ps)]. unfold all_overlap_issues. rewrite concat_nil_Forall, Forall_map, Forall_forall.
  destruct (sheet_groups_of ps) as [_ U G]. intros H. apply pairwise_of_sheets. intros i.
  destruct (decide (filter (fun p => np_sheet_index p = i) ps = [])) as [->|N]; [done|].
  destruct (filter (fun p => np_sheet_index p = i) ps) as [|p l] eqn:E; [done|].
  assert (p ∈ p :: l) as Hp by (by left). rewrite <- E in Hp. apply list_elem_of_filter in Hp as [Ei Hp].
  apply U in Hp as ([i' m] & Ei' & Hm)%list_elem_of_fmap. cbn in Ei'.
  assert (i' = i) as -> by congruence. pose proof (G _ _ Hm) as Em. specialize (H _ Hm). cbn in H.
  rewrite <- E, <- Em. eapply pairwise_perm; [intros ? ?; apply apart_sym|apply (sort_by_perm (cmp_on np_instance_id String.compare))|].
  apply (overlap_issues_exact _ i); [|done]. intros q Hq%elem_of_sort_by. rewrite Em in Hq.
  by apply list_elem_of_filter in Hq as [? _].
Qed.
End Overlaps.

(** ** The whole report *)

Lemma accounting_exact expected (seen : gset string) unplaced :
  accounting_issue expected seen unplaced = [] <-> (forall i, i ∈ expected /\ i ∉ seen <-> i ∈ unplaced).
Proof.
  unfold accounting_issue. rewrite issue_if_nil, negb_false_iff, py_set_eq_spec.
  apply forall_proper. intros i. rewrite list_elem_of_filter, elem_of_remove_dups. tauto.
Qed.

Lemma placement_issues_seen stock instances ps seen issues :
  (forall p, p ∈ ps -> is_Some (dict_of pi_instance_id instances !! np_instance_id p)) ->
  fst (foldl (placement_issues stock (dict_of pi_instance_id instances)) (seen, issues) ps)
  = seen ∪ list_to_set (map np_instance_id ps).
Proof.
  revert seen issues; induction ps as [|p ps IH]; intros seen issues H; cbn; [set_solver|].
  destruct (H p) as [i Ei]; [by left|]. rewrite Ei, IH by (intros; apply H; by right). set_solver.
Qed.

Lemma validate_layout_ok (layout : NestingLayout) (instances : list PartInstance) :
  validate_layout layout instances = [] <-> layout_ok layout instances.
Proof.
  unfold validate_layout. set (stock := nl_stock layout). set (ps := nl_placements layout).
  pose proof (placement_issues_exact stock instances ps ∅ (sheet_count_issue layout)) as P.
  pose proof (placement_issues_seen stock instances ps ∅ (sheet_count_issue layout)) as S.
  destruct (foldl _ _ ps) as [seen issues]. cbn [fst snd] in P, S.
  rewrite sort_by_nil, !app_nil, P, all_overlap_exact, accounting_exact.
  unfold sheet_count_issue. rewrite issue_if_nil, Z.ltb_ge. split.
  - intros ((Hc & Hp & Hn & _) & Ha & Hacc & Hu).
    assert (nl_unplaced_instance_ids layout = []) as U.
    { apply map_eq_nil in Hu. unfold sort_strings in Hu. apply sort_by_nil in Hu.
      destruct (nl_unplaced_instance_ids layout) as [|x l]; [done|].
      exfalso. assert (x ∈ remove_dups (x :: l)) as Hx by (apply elem_of_remove_dups; by left).
      rewrite Hu in Hx. by apply not_elem_of_nil in Hx. }
    split; try done. intros i Hi. rewrite S in Hacc by (intros p Hpp; destruct (Hp p Hpp) as (? & -> & _); by eexists).
    destruct (decide (i ∈ map np_instance_id ps)) as [|N]; [done|]. exfalso.
    specialize (Hacc i). rewrite U in Hacc. apply (not_elem_of_nil (A := string) i), Hacc. split; [done|]. set_solver.
  - intros [Hc Hp Hn Ha Hall Hu]. rewrite S by (intros p Hpp; destruct (Hp p Hpp) as (? & -> & _); by eexists).
    rewrite Hu. split_and!; try done.
    intros i. split; [|by intros ?%not_elem_of_nil]. intros [Hi N]. exfalso. apply N. apply Hall in Hi. set_solver.
Qed.

(** C26: the layout validator is exact.  [validate_layout] reports no issue for a
    layout if and only if no more sheets are used than the stock has, every
    placement is that of a known instance with its part, stock, size and grain,
    inside the usable area of a sheet and clear of defects and clamps, no
    instance is placed twice, any two placements on a sheet keep the kerf
    between them, and all instances are placed. *)
Theorem validate_layout_exact (layout : NestingLayout) (instances : list PartInstance) :
  validate_layout layout instances = [] <-> layout_ok layout instances.
Proof. exact (validate_layout_ok layout instances). Qed.

Lemma validate_layout_exact_witness :
  layout_ok example_layout example_instances /\ validate_layout example_layout example_instances = [].
Proof.
  split; [apply (proj1 (validate_layout_exact example_layout example_instances)); vm_compute; reflexivity|vm_compute; reflexivity].
Defined.
