(* ===== verification/Adapter.v ===== *)
(** * From a design to flat parts

    [packages/manufacturing/src/custombuild_manufacturing/adapters.py] on the
    records of the domain: every part of a design becomes a [PartSpec] in the
    plane of its panel, with its features, an outline and its edge bands, and
    grooves that cross at a corner of three joined panels may overlap. *)

From S2P Require Import Prelude Text Enums Models DesignResult ManufacturingModel.

#[export] Instance PanelAxisMapping_eq_dec : EqDecision PanelAxisMapping.
Proof. solve_decision. Defined.

Definition ROLE_AXES : list (string * PanelAxisMapping) :=
  [("LEFT_SIDE", mkPanelAxisMapping "y" "z" "x"); ("RIGHT_SIDE", mkPanelAxisMapping "y" "z" "x");
   ("SIDE_LEFT", mkPanelAxisMapping "y" "z" "x"); ("SIDE_RIGHT", mkPanelAxisMapping "y" "z" "x");
   ("VERTICAL_DIVIDER", mkPanelAxisMapping "y" "z" "x"); ("DIVIDER", mkPanelAxisMapping "y" "z" "x");
   ("BASE_SIDE", mkPanelAxisMapping "y" "z" "x"); ("TOP", mkPanelAxisMapping "x" "y" "z");
   ("BOTTOM", mkPanelAxisMapping "x" "y" "z"); ("SHELF", mkPanelAxisMapping "x" "y" "z");
   ("BASE_BOTTOM", mkPanelAxisMapping "x" "y" "z"); ("BASE_TOP", mkPanelAxisMapping "x" "y" "z");
   ("PLINTH", mkPanelAxisMapping "x" "z" "y"); ("BASE", mkPanelAxisMapping "x" "y" "z");
   ("BACK", mkPanelAxisMapping "x" "z" "y"); ("BACK_PANEL", mkPanelAxisMapping "x" "z" "y");
   ("CABINET_FRONT", mkPanelAxisMapping "x" "z" "y"); ("TABLE_END", mkPanelAxisMapping "y" "z" "x");
   ("TABLE_STRETCHER", mkPanelAxisMapping "x" "z" "y"); ("DRAWER_SIDE", mkPanelAxisMapping "y" "z" "x");
   ("DRAWER_FRONT", mkPanelAxisMapping "x" "z" "y"); ("DRAWER_BACK", mkPanelAxisMapping "x" "z" "y");
   ("DRAWER_BOTTOM", mkPanelAxisMapping "x" "y" "z")].

Definition FEATURE_ALIASES : list (string * FeatureKind) :=
  [("DRILL", DRILL); ("BORE", DRILL); ("DRILL_PATTERN", DRILL_PATTERN); ("SERIES_DRILL", DRILL_PATTERN);
   ("LINE_BORE", DRILL_PATTERN); ("COUNTERSINK", COUNTERSINK); ("POCKET", POCKET); ("GROOVE", GROOVE);
   ("DADO", GROOVE); ("SLOT", GROOVE); ("RABBET", RABBET); ("REBATE", RABBET);
   ("INNER_CONTOUR", INNER_CONTOUR); ("OUTER_CONTOUR", OUTER_CONTOUR); ("TENON", OUTER_CONTOUR);
   ("EDGE_RELIEF", RABBET); ("CONTOUR", OUTER_CONTOUR); ("ENGRAVE", ENGRAVE); ("LABEL", LABEL); ("MARK", LABEL)].

(** ** Axes *)

(** [_dimensions] *)
Definition dimensions (d : Dimensions3D) : list (string * Z) :=
  [("x", d_width_um d); ("y", d_depth_um d); ("z", d_height_um d)].

Definition thickness_tolerance_um (thickness_um : Z) : Z := Z.max 500 (thickness_um / 20).

Definition AXIS_RANK : list (string * Z) := [("z", 0); ("y", 1); ("x", 2)].

(** The axes by how far their dimension is from the thickness: [(|value -
    thickness|, rank, axis)], sorted. *)
Definition axis_differences (dims : list (string * Z)) (thickness_um : Z) : list (Z * Z * string) :=
  sort_by (cmp_then (cmp_on (fun d : Z * Z * string => fst (fst d)) Z.compare)
             (cmp_then (cmp_on (fun d : Z * Z * string => snd (fst d)) Z.compare) (cmp_on snd String.compare)))
    (map (fun axis_value : string * Z =>
            (Z.abs (snd axis_value - thickness_um), default 0 (dict_get AXIS_RANK (fst axis_value)), fst axis_value)) dims).

Definition infer_axis_mapping (part_id : string) (dims : list (string * Z)) (thickness_um : Z)
    : result PanelAxisMapping :=
  '(difference, _, thickness_axis) ← of_option (head (axis_differences dims thickness_um)) (IndexError "list index out of range");
  raise_if (thickness_tolerance_um thickness_um <? difference)
    (ValueError ("cannot infer panel thickness axis for part " +:+ part_id +:+ ": no dimension matches actual thickness "
                 +:+ str_of_Z thickness_um +:+ " µm"));;
  match filter (fun axis => axis <> thickness_axis) ["x"; "y"; "z"] with
  | u_axis :: v_axis :: _ => new_PanelAxisMapping (mkPanelAxisMapping u_axis v_axis thickness_axis)
  | _ => Err (IndexError "list index out of range")
  end.

(** [_axis_mapping]: by the role, if the thickness agrees. *)
Definition axis_mapping (part : Models.PartInstance) (dims : list (string * Z)) (thickness_um : Z)
    : result PanelAxisMapping :=
  match dict_get ROLE_AXES (upper (PartRole_value (part_role part))) with
  | Some mapping =>
      axis_dimension ← at_key dims (pam_thickness_axis mapping);
      if Z.abs (axis_dimension - thickness_um) <=? thickness_tolerance_um thickness_um then Ok mapping
      else infer_axis_mapping (part_id part) dims thickness_um
  | None => infer_axis_mapping (part_id part) dims thickness_um
  end.

(** [_side_from_face] *)
Definition NORMAL_FACES : list (string * list (string * Side)) :=
  [("x", [("LEFT", SIDE_A); ("X_NEGATIVE", SIDE_A); ("RIGHT", SIDE_B); ("X_POSITIVE", SIDE_B)]);
   ("y", [("FRONT", SIDE_A); ("Y_NEGATIVE", SIDE_A); ("BACK", SIDE_B); ("Y_POSITIVE", SIDE_B)]);
   ("z", [("BOTTOM", SIDE_A); ("Z_NEGATIVE", SIDE_A); ("TOP", SIDE_B); ("Z_POSITIVE", SIDE_B)])].

Definition side_from_face (face : string) (mapping : PanelAxisMapping) : result Side :=
  faces ← at_key NORMAL_FACES (pam_thickness_axis mapping);
  Ok (default SIDE_EDGE (dict_get faces face)).

(** [_panel_grain_direction] *)
Definition panel_grain_direction (value : string) (mapping : PanelAxisMapping) : result string :=
  let normalised := lower value in
  if bool_decide (normalised ∈ ["none"; "no_grain"; "any"; "unspecified"]) then Ok "NONE"
  else if bool_decide (normalised = pam_u_axis mapping) then Ok "X"
  else if bool_decide (normalised = pam_v_axis mapping) then Ok "Y"
  else if bool_decide (normalised = pam_thickness_axis mapping)
  then Err (ValueError "grain direction cannot run through panel thickness")
  else Err (ValueError ("unsupported domain grain direction: " +:+ value)).

(** ** Features *)

Definition face_name (f : FaceName) : string := upper (FaceName_value f).

Definition feature_side (face a_side b_side : string) (mapping : PanelAxisMapping) : result Side :=
  if bool_decide (face ∈ ["A"; a_side]) then Ok SIDE_A
  else if bool_decide (face ∈ ["B"; b_side]) then Ok SIDE_B
  else side_from_face face mapping.

Definition coordinates (q : Point3D) : list (string * Z) := [("x", pt_x_um q); ("y", pt_y_um q); ("z", pt_z_um q)].

(** A feature in the plane of its panel. *)
Definition panel_feature (f : Models.ManufacturingFeature) (kind : FeatureKind) (side : Side) (x_um y_um depth_um : Z)
    : ManufacturingFeature :=
  let d := f_dimensions f in
  mkMFeature (f_feature_id f) (f_part_id f) kind side x_um y_um depth_um (fd_diameter_um d) (fd_width_um d)
    (fd_length_um d) (fd_radius_um d) (f_pattern_count f) (f_pitch_um f) (f_through f) (f_corner_strategy f)
    (if truthy (f_corner_strategy f) then fd_radius_um d else None)
    (map (fun r => lower (upper (OpenEndRelief_value r))) (f_open_end_reliefs f))
    (f_tolerance_um f) (f_fit_clearance_um f)
    (mkMetadata None None None None (f_requires_square_corners f) [] None None false (Some (face_name (f_face f)))
       (f_joint_id f) false).

(** [adapt_domain_feature] *)
Definition adapt_domain_feature (mapping : PanelAxisMapping) (a_side b_side : string) (f : Models.ManufacturingFeature)
    : result ManufacturingFeature :=
  let kind_name := upper (FeatureKind_value (f_kind f)) in
  kind ← of_option (dict_get FEATURE_ALIASES kind_name) (ValueError ("unsupported domain feature kind: " +:+ kind_name));
  side ← feature_side (face_name (f_face f)) a_side b_side mapping;
  x_um ← at_key (coordinates (f_origin f)) (pam_u_axis mapping);
  y_um ← at_key (coordinates (f_origin f)) (pam_v_axis mapping);
  depth_um ← of_option (fd_depth_um (f_dimensions f)) (ValueError "domain feature is missing required depth_um");
  new_ManufacturingFeature (panel_feature f kind side x_um y_um depth_um).

(** ** Edge bands *)

Definition EDGE_FACES : list (string * (string * string)) :=
  [("LEFT", ("x", "MIN")); ("RIGHT", ("x", "MAX")); ("FRONT", ("y", "MIN")); ("BACK", ("y", "MAX"));
   ("BOTTOM", ("z", "MIN")); ("TOP", ("z", "MAX"))].

(** [_adapt_edge_band] *)
Definition adapt_edge_band (mapping : PanelAxisMapping) (part_id : string) (band : EdgeBand) : result EdgeBandSpec :=
  let source_face := face_name (eb_edge band) in
  let about text := ValueError ("part " +:+ part_id +:+ text) in
  '(source_axis, boundary) ←
    of_option (dict_get EDGE_FACES source_face) (about (" has unsupported edge-band face " +:+ source_face));
  raise_if (bool_decide (source_axis = pam_thickness_axis mapping))
    (about (" edge-band face " +:+ source_face +:+ " is normal to panel thickness"));;
  local_edge ←
    (if bool_decide (source_axis = pam_u_axis mapping) then Ok ("U_" +:+ boundary)
     else if bool_decide (source_axis = pam_v_axis mapping) then Ok ("V_" +:+ boundary)
     else Err (about (" edge-band face " +:+ source_face +:+ " does not map to a panel boundary")));
  new_EdgeBandSpec (mkEdgeBandSpec local_edge (eb_thickness_um band) source_face None None "UNRESOLVED").

(** ** Parts *)

Definition HOLDING_STRATEGY : string := "TABS_OR_ONION_SKIN_REQUIRES_SETUP_APPROVAL".

(** The finished outline of a part, cut through from side A. *)
Definition part_outline (part_id : string) (width_um height_um thickness_um : Z) : ManufacturingFeature :=
  mkMFeature ("outline:" +:+ part_id) part_id OUTER_CONTOUR SIDE_A 0 0 thickness_um None (Some width_um) (Some height_um)
    None 1 None true None None [] 0 0
    (mkMetadata None None None None false [] (Some "OUTSIDE") (Some HOLDING_STRATEGY) true None None true).

(** [adapt_domain_part] *)
Definition adapt_domain_part (part : Models.PartInstance) : result PartSpec :=
  let finished := dimensions (part_finished_size part) in
  let raw := dimensions (part_raw_size part) in
  let thickness_um := part_actual_thickness_um part in
  let id := part_id part in
  mapping ← axis_mapping part finished thickness_um;
  width_um ← at_key finished (pam_u_axis mapping);
  height_um ← at_key finished (pam_v_axis mapping);
  raw_width_um ← at_key raw (pam_u_axis mapping);
  raw_height_um ← at_key raw (pam_v_axis mapping);
  let a_side := face_name (part_a_side part) in
  let b_side := face_name (part_b_side part) in
  source_features ← traverse (adapt_domain_feature mapping a_side b_side)
    (filter (fun f => upper (FeatureKind_value (f_kind f)) <> "MARK") (part_features part));
  outline ← new_ManufacturingFeature (part_outline id width_um height_um thickness_um);
  raise_if (existsb (fun f => bool_decide (mf_feature_id f = mf_feature_id outline)) source_features)
    (ValueError ("domain feature collides with derived outline ID for " +:+ id));;
  bands ← traverse (adapt_edge_band mapping id) (part_edge_bands part);
  let edge_band_details := sort_by (cmp_on ebs_edge String.compare) bands in
  grain ← panel_grain_direction (upper (GrainDirection_value (part_grain_direction part))) mapping;
  new_PartSpec
    (mkPartSpec id (upper (PartRole_value (part_role part))) width_um height_um thickness_um (part_material_id part)
       (part_material_version part) (source_features ++ [outline]) grain true 1 (part_weight_g part) (Some raw_width_um)
       (Some raw_height_um) mapping (map ebs_edge edge_band_details) edge_band_details
       (Some (mkPartMetadata (part_instance_index part) a_side b_side finished raw
                "conservative-finished-blank-before-machining-v1"))).

(** ** Corners of three panels *)

(** The two panels of every dado that has a name, and the set of these pairs. *)
Definition dado_members (joints : list Joint) : list (string * list string) :=
  omap (fun j =>
    let members := remove_dups (j_part_ids j) in
    if bool_decide (upper (JointType_value (j_joint_type j)) = "DADO") && negb (bool_decide (j_joint_id j = "")) &&
       bool_decide (length members = 2%nat)
    then Some (j_joint_id j, members) else None) joints.

(** [joint_members.get(joint_id, frozenset())]: a later joint replaces an earlier. *)
Definition members_of (joint_members : list (string * list string)) (joint_id : string) : list string :=
  default [] (snd <$> last (filter (fun e => fst e = joint_id) joint_members)).

Definition are_joined (connections : list (list string)) (first second : string) : bool :=
  negb (bool_decide (first = second)) && existsb (py_set_eq [first; second]) connections.

Section Corners.
Context (joint_members : list (string * list string)) (part_id : string).

(** [str(feature.metadata.get("joint_id") or "")] *)
Definition joint_of (f : ManufacturingFeature) : string := default "" (md_joint_id (mf_metadata f)).
Definition mates_of (f : ManufacturingFeature) : list string :=
  filter (fun member => member <> part_id) (members_of joint_members (joint_of f)).

Definition is_cut_kind (k : FeatureKind) : bool := bool_decide (k ∈ [GROOVE; RABBET]).

(** Whether two crossing cuts of the part belong to one corner. *)
Definition may_cross (first second : ManufacturingFeature) : bool :=
  bool_decide (mf_side first = mf_side second) && is_cut_kind (mf_kind first) && is_cut_kind (mf_kind second) &&
  intersects (bounds first) (bounds second) 0 &&
  match mates_of first, mates_of second with
  | [first_mate], [second_mate] => are_joined (map snd joint_members) first_mate second_mate
  | _, _ => false
  end.

(** The crossings of a list, each way. *)
Fixpoint crossings (features : list ManufacturingFeature) : list (string * string) :=
  match features with
  | [] => []
  | first :: rest =>
      concat (map (fun second =>
        if may_cross first second
        then [(mf_feature_id first, mf_feature_id second); (mf_feature_id second, mf_feature_id first)] else []) rest) ++
      crossings rest
  end.

Definition allowed_with (pairs : list (string * string)) (feature_id : string) : list string :=
  sort_strings (remove_dups (map snd (filter (fun pair => fst pair = feature_id) pairs))).

(** [replace(feature, metadata={..., "allow_overlap_with": ...})] *)
Definition with_overlaps (f : ManufacturingFeature) (allowed : list string) : ManufacturingFeature :=
  let md := mf_metadata f in
  mkMFeature (mf_feature_id f) (mf_part_id f) (mf_kind f) (mf_side f) (mf_x_um f) (mf_y_um f) (mf_depth_um f)
    (mf_diameter_um f) (mf_width_um f) (mf_length_um f) (mf_radius_um f) (mf_pattern_count f) (mf_pitch_um f)
    (mf_through f) (mf_corner_strategy f) (mf_corner_relief_radius_um f) (mf_open_end_reliefs f) (mf_tolerance_um f)
    (mf_fit_clearance_um f)
    (mkMetadata (md_maximum_overcut_um md) (md_minimum_remaining_wall_um md) (md_diameter_tolerance_um md)
       (md_minimum_edge_distance_um md) (md_requires_square_corners md) allowed (md_compensation md)
       (md_holding_strategy md) (md_is_part_outline md) (md_domain_face md) (md_joint_id md) (md_derived md)).

Definition annotate_feature (pairs : list (string * string)) (f : ManufacturingFeature) : result ManufacturingFeature :=
  match allowed_with pairs (mf_feature_id f) with
  | [] => Ok f
  | allowed => new_ManufacturingFeature (with_overlaps f allowed)
  end.
End Corners.

Definition with_part_features (p : PartSpec) (features : list ManufacturingFeature) : PartSpec :=
  mkPartSpec (ps_part_id p) (ps_name p) (ps_width_um p) (ps_height_um p) (ps_thickness_um p) (ps_material_id p)
    (ps_material_version p) features (ps_grain_direction p) (ps_allow_rotation p) (ps_quantity p) (ps_weight_g p)
    (ps_raw_width_um p) (ps_raw_height_um p) (ps_axis_mapping p) (ps_edge_bands p) (ps_edge_band_details p)
    (ps_metadata p).

Definition annotate_part (joint_members : list (string * list string)) (p : PartSpec) : result PartSpec :=
  let ordered := sort_by (cmp_on mf_feature_id String.compare) (ps_features p) in
  let pairs := crossings joint_members (ps_part_id p) ordered in
  features ← traverse (annotate_feature pairs) (ps_features p);
  new_PartSpec (with_part_features p features).

(** [_annotate_compatible_corner_overlaps] *)
Definition annotate_compatible_corner_overlaps (parts : list PartSpec) (joints : list Joint) : result (list PartSpec) :=
  match dado_members joints with
  | [] => Ok parts
  | joint_members => traverse (annotate_part joint_members) parts
  end.

(** ** Designs *)

Record AdaptedDesign := mkAdapted {
  ad_design_hash : string;
  ad_engine_version : string;
  ad_template_version : string;
  ad_parts : list PartSpec }.

(** [adapt_design_result] *)
Definition adapt_design_result (design : DesignResult) : result AdaptedDesign :=
  parts ← traverse adapt_domain_part (dr_parts design);
  parts ← annotate_compatible_corner_overlaps parts (dr_joints design);
  raise_if (negb (distinct (map ps_part_id parts))) (ValueError "domain DesignResult contains duplicate part_id values");;
  Ok (mkAdapted (dr_design_hash design) (dr_engine_version design) (dr_template_version design) parts).
