(* ===== verification/AdapterDesign.v ===== *)
(** * Every compiled design can be adapted

    What [_build_parts] and [_build_joints] return, [adapt_design_result] takes:
    the roles of the compiler's parts name the axis their thickness lies along,
    and its features have the dimensions a [ManufacturingFeature] needs. *)

From S2P Require Import Prelude Text Geometry Enums Models Identity DesignResult BookcaseParts JointGeometry BookcaseJoints ManufacturingModel Nesting Adapter.

(** ** Parts lie flat *)

(** A role with a size, a grain and a front band that the adapter accepts for a
    panel of a thickness. *)
Definition lies_flat (role : PartRole) (size : Dimensions3D) (grain : GrainDirection) (front : bool) (t : Z) : Prop :=
  exists m, dict_get ROLE_AXES (upper (PartRole_value role)) = Some m /\
    at_key (dimensions size) (pam_thickness_axis m) = Ok t /\
    GrainDirection_value grain ∈ [pam_u_axis m; pam_v_axis m] /\
    (front = true -> "y" ∈ [pam_u_axis m; pam_v_axis m]).

Definition request_thickness (p : BookcaseParameters) (rq : part_request) : Z :=
  if bool_decide (rq_role rq = BACK) then p_back_thickness_um p else p_actual_thickness_um p.

Definition request_flat (p : BookcaseParameters) (rq : part_request) : Prop :=
  lies_flat (rq_role rq) (rq_size rq) (rq_grain rq) (rq_band_front rq) (request_thickness p rq).

Ltac flat := eexists; split; [vm_compute; reflexivity|]; split; [reflexivity|]; split;
  [apply (bool_decide_unpack _); vm_compute; exact I
  | intros E; first [discriminate E | apply (bool_decide_unpack _); vm_compute; exact I]].

Section Requests.
Context (p : BookcaseParameters) (l : Layout).
Hypothesis Hl : l_t l = p_actual_thickness_um p.

Lemma dividers_flat widths cursor i : Forall (request_flat p) (snd (walk_bays p l cursor i widths)).
Proof.
  revert cursor i. induction widths as [|w widths IH]; intros cursor i; cbn [walk_bays snd]; [constructor|].
  destruct (i <? _).
  - specialize (IH (cursor + w + l_t l) (i + 1)). destruct (walk_bays _ _ _ _ _) as [starts ds]. cbn [snd] in *.
    constructor; [|done]. unfold request_flat, request_thickness, divider_request. cbn. rewrite Hl. flat.
  - specialize (IH (cursor + w) (i + 1)). by destruct (walk_bays _ _ _ _ _) as [starts ds].
Qed.

Lemma shelf_row_flat bays index row z bay : Forall (request_flat p) (shelf_row_requests p l index row z bay bays).
Proof.
  revert index bay. induction bays as [|[start width] bays IH]; intros index bay; cbn [shelf_row_requests]; constructor; [|apply IH].
  unfold request_flat, request_thickness, shelf_request. cbn. rewrite Hl. flat.
Qed.

Lemma shelves_flat zs bays index row : Forall (request_flat p) (shelf_requests_from p l index row zs bays).
Proof.
  revert index row. induction zs as [|z zs IH]; intros index row; cbn [shelf_requests_from]; [constructor|].
  apply Forall_app. split; [apply shelf_row_flat|apply IH].
Qed.

Lemma zip_with_Forall {A B C} (P : C -> Prop) (f : A -> B -> C) l1 l2 :
  (forall a b, P (f a b)) -> Forall P (zip_with f l1 l2).
Proof. intros H. revert l2. induction l1 as [|a l1 IH]; intros [|b l2]; cbn; constructor; auto. Qed.

Lemma base_flat : Forall (request_flat p) (base_requests p l).
Proof.
  unfold base_requests. destruct (_ =? 0); [constructor|]. apply Forall_app. split.
  - apply zip_with_Forall. intros a b. unfold request_flat, request_thickness, base_side_request. cbn. rewrite Hl. flat.
  - apply Forall_concat, zip_with_Forall. intros i [b o].
    repeat (apply Forall_cons; split); [..|constructor]; unfold request_flat, request_thickness; cbn; rewrite Hl; flat.
Qed.

Lemma backs_flat : Forall (request_flat p) (back_requests p l).
Proof.
  unfold back_requests. destruct (p_back_panel p); [constructor| |].
  - apply Forall_singleton. flat.
  - apply zip_with_Forall. intros i [s w]. flat.
Qed.

Lemma requests_flat : Forall (request_flat p) (all_requests p l).
Proof.
  unfold all_requests. rewrite !Forall_app. split_and!.
  - repeat (apply Forall_cons; split); [..|constructor]; unfold request_flat, request_thickness; cbn; rewrite Hl; flat.
  - apply dividers_flat.
  - apply shelves_flat.
  - apply base_flat.
  - apply backs_flat.
  - unfold plinth_requests. destruct (_ =? 0); [constructor|]. apply Forall_singleton.
    unfold request_flat, request_thickness. cbn. rewrite Hl. flat.
Qed.
End Requests.

(** What the adapter needs of a part, whatever its features. *)
Record part_flat (q : Models.PartInstance) : Prop := {
  pf_flat : exists grain front, lies_flat (part_role q) (part_finished_size q) grain front (part_actual_thickness_um q) /\
              part_grain_direction q ∈ [GRAIN_NONE; grain] /\ (front = false -> part_edge_bands q = []);
  pf_size : new_Dimensions3D (part_finished_size q) = Ok (part_finished_size q);
  pf_thickness : 0 < part_actual_thickness_um q;
  pf_bands : part_edge_bands q = [] \/ exists t, 0 < t /\ part_edge_bands q = [mkEdgeBand FACE_FRONT t];
  pf_id : exists path, part_id q = stable_id "part" path }.

Lemma new_Dimensions3D_Ok d d' : new_Dimensions3D d = Ok d' -> d' = d.
Proof. unfold new_Dimensions3D. intros H. inv_ok. done. Qed.

Lemma add_part_flat spec rq q :
  request_flat (spec_parameters spec) rq -> add_part spec rq = Ok q -> part_flat q.
Proof.
  intros F H. unfold add_part in H. cbv zeta in H. apply bind_Ok in H as (size & Hs & H).
  pose proof (new_Dimensions3D_Ok _ _ Hs). subst size. apply bind_Ok in H as (place & _ & H).
  apply bind_Ok in H as (raw & _ & H). apply bind_Ok in H as (sides & _ & H). apply bind_Ok in H as (bands & Hb & H).
  unfold Models.new_PartInstance in H. cbn [part_actual_thickness_um] in H. inv_ok. unfold PositiveUm in *. bprop.
  assert (bands = [] \/ rq_band_front rq = true /\ exists t, 0 < t /\ bands = [mkEdgeBand FACE_FRONT t]) as B.
  { destruct (rq_band_front rq && _) eqn:E; [|injection Hb as <-; by left]. right. apply andb_true_iff in E as [-> _].
    split; [done|]. unfold new_EdgeBand in Hb. inv_ok. unfold PositiveUm in *. cbn in *. bprop. eauto. }
  assert ((if negb (bool_decide (rq_role rq = BACK)) then p_actual_thickness_um (spec_parameters spec)
           else p_back_thickness_um (spec_parameters spec)) = request_thickness (spec_parameters spec) rq) as ET
    by (unfold request_thickness; by destruct (bool_decide _)).
  constructor; cbn [part_role part_finished_size part_actual_thickness_um part_grain_direction part_edge_bands part_id].
  - exists (rq_grain rq), (rq_band_front rq). rewrite ET. split; [exact F|]. split.
    + destruct (bool_decide (mat_grain_direction _ = _)); set_solver.
    + intros E. destruct B as [->|[B _]]; [done|]. by rewrite E in B.
  - exact Hs.
  - done.
  - destruct B as [->|[_ (t & ? & ->)]]; eauto.
  - eauto.
Qed.

Lemma build_parts_flat spec parts : build_parts spec = Ok parts -> Forall part_flat parts.
Proof.
  unfold build_parts. intros (l & Hl & H)%bind_Ok.
  assert (l_t l = p_actual_thickness_um (spec_parameters spec)) as El
    by (unfold layout_of in Hl; apply bind_Ok in Hl as (? & _ & [= <-]); done).
  pose proof (requests_flat (spec_parameters spec) l El) as F. apply traverse_Ok in H.
  induction H as [|rq q rqs qs E _ IH]; [constructor|]. apply Forall_cons in F as [F1 F2].
  constructor; [by eapply add_part_flat|by apply IH].
Qed.

Lemma with_features_flat q fs : part_flat q -> part_flat (with_features q fs).
Proof. by intros []; constructor. Qed.

(** ** Features have their dimensions *)

Record feature_sound (f : Models.ManufacturingFeature) : Prop := {
  fs_valid : Models.new_ManufacturingFeature f = Ok f;
  fs_dimensions : new_FeatureDimensions (f_dimensions f) = Ok (f_dimensions f);
  fs_depth : is_Some (fd_depth_um (f_dimensions f));
  fs_kind : f_kind f <> MARK;
  fs_id : exists path, f_feature_id f = stable_id "feature" path }.

Lemma new_feature_Ok f f' : Models.new_ManufacturingFeature f = Ok f' -> f' = f.
Proof. unfold Models.new_ManufacturingFeature. intros H. inv_ok. done. Qed.

Lemma pair_dimensions_Ok kind depth k owner mate d :
  pair_dimensions kind depth k owner mate = Ok d -> new_FeatureDimensions d = Ok d /\ is_Some (fd_depth_um d).
Proof.
  intros H. unfold pair_dimensions in H.
  assert (exists c, fd_depth_um c = Some depth /\ new_FeatureDimensions c = Ok d) as (c & Ec & Hc)
    by (destruct k; eexists; (split; [|exact H]; reflexivity)).
  pose proof (new_FeatureDimensions_Ok _ _ Hc). subst. split; [done|]. rewrite Ec. eauto.
Qed.

Lemma dado_dimensions_Ok owner mate face depth c d o :
  dado_feature_geometry owner mate face depth c = Ok (d, o) -> new_FeatureDimensions d = Ok d /\ is_Some (fd_depth_um d).
Proof.
  unfold dado_feature_geometry. intros H. apply bind_Ok in H as ([] & _ & H). apply bind_Ok in H as ([n s] & _ & H).
  cbv zeta in H. apply bind_Ok in H as ([] & _ & H). apply bind_Ok in H as ([] & _ & H). apply bind_Ok in H as ([] & _ & H).
  apply bind_Ok in H as ([s0 l0] & _ & H). apply bind_Ok in H as ([s1 l1] & _ & H).
  apply bind_Ok in H as (d' & Hd & H). apply bind_Ok in H as (o' & _ & H). injection H as -> ->.
  pose proof (new_FeatureDimensions_Ok _ _ Hd). subst. eauto.
Qed.

Lemma feature_pair_sound jid first second kind ff sf mating t ov dd f g :
  (match ov with Some d => new_FeatureDimensions d = Ok d /\ is_Some (fd_depth_um d) | None => True end) ->
  feature_pair jid first second kind ff sf mating t ov dd = Ok (f, g) ->
  feature_sound f /\ forall g', g = Some g' -> feature_sound g'.
Proof.
  intros Hov H. unfold feature_pair in H. apply bind_Ok in H as (depth & _ & H).
  apply bind_Ok in H as ([[dims origin] reliefs] & Hg & H). apply bind_Ok in H as (sd & Hsd & H). cbv zeta in H.
  apply bind_Ok in H as (f1 & Hf & H). apply bind_Ok in H as (g1 & Hg1 & H). injection H as -> ->.
  assert (new_FeatureDimensions dims = Ok dims /\ is_Some (fd_depth_um dims)) as [D1 D2].
  { unfold first_geometry in Hg. destruct (bool_decide (kind = DADO)).
    - apply bind_Ok in Hg as ([d o] & Hd%dado_dimensions_Ok & Hg). apply bind_Ok in Hg as (r & _ & [= -> _ _]). done.
    - apply bind_Ok in Hg as (d & Hd & Hg). apply bind_Ok in Hg as (o & _ & [= -> _ _]).
      destruct ov as [d'|]; [by injection Hd as ->|by apply pair_dimensions_Ok in Hd]. }
  split.
  - pose proof (new_feature_Ok _ _ Hf). subst. constructor; [done|done|done| |by eexists]. by destruct kind.
  - intros g' ->. unfold second_feature in Hg1. destruct sd as [[k ds]|]; [|done].
    apply bind_Ok in Hg1 as (o & _ & Hg1). apply bind_Ok in Hg1 as (f2 & Hf2 & Hg1). injection Hg1 as <-.
    destruct (snd (feature_kinds kind)) as [k'|] eqn:Ek; [|done]. apply bind_Ok in Hsd as (d & Hd%pair_dimensions_Ok & [= <- <-]).
    pose proof (new_feature_Ok _ _ Hf2). subst. destruct Hd. constructor; [done|done|done| |by eexists].
    by destruct kind; inversion Ek.
Qed.

Definition features_sound (b : Builder) : Prop := forall k f, f ∈ feats b k -> feature_sound f.

Lemma join_sound spec parts b a b' :
  arguments_ok parts a -> features_sound b -> join spec parts b a = Ok b' -> features_sound b'.
Proof.
  intros Ha Hb H. unfold join in H. apply bind_Ok in H as (mating & _ & H). cbv zeta in H.
  apply bind_Ok in H as ([] & _ & H). apply bind_Ok in H as ([] & _ & H).
  apply bind_Ok in H as (first & _ & H). apply bind_Ok in H as (second & _ & H).
  apply bind_Ok in H as ([f g] & Hf & H). apply feature_pair_sound in Hf as [Sf Sg]; [|exact (proj1 Ha)].
  destruct (join_hardware _ _) as [sku count]. apply bind_Ok in H as (m1 & _ & H). apply bind_Ok in H as (m2 & _ & H).
  apply bind_Ok in H as (j & _ & H). injection H as <-. intros k h Hh.
  assert (forall m js x, (forall k f, f ∈ default [] (m !! k) -> feature_sound f) -> feature_sound x ->
            forall k f, f ∈ feats (mkBuilder (append_feature m x) js) k -> feature_sound f) as Step.
  { intros m js x Hm Hx k' f' Hin%feats_append. destruct Hin as [Hin|[_ ->]]; [by eapply Hm|done]. }
  destruct g as [g|]; [|by eapply Step in Hh]. revert k h Hh. apply Step; [|by apply Sg].
  intros k h. apply (Step (b_features b) [] f Hb Sf).
Qed.

Lemma run_joins_sound spec parts b : run_joins spec parts = Ok b -> features_sound b.
Proof.
  apply run_joins_inv; [intros; by eapply join_sound|]. by intros k f ?%not_elem_of_nil.
Qed.

(** ** Panels in their plane *)

Definition PANEL_MAPPINGS : list PanelAxisMapping :=
  [mkPanelAxisMapping "y" "z" "x"; mkPanelAxisMapping "x" "y" "z"; mkPanelAxisMapping "x" "z" "y"].

Lemma role_mapping role m : dict_get ROLE_AXES role = Some m -> m ∈ PANEL_MAPPINGS.
Proof.
  intros H%dict_get_elem. assert (Forall (fun m => m ∈ PANEL_MAPPINGS) (map snd ROLE_AXES)) as F
    by (apply (bool_decide_unpack _); vm_compute; exact I). rewrite Forall_forall in F. by apply F.
Qed.

Ltac panel_cases H := unfold PANEL_MAPPINGS in H;
  repeat (apply elem_of_cons in H as [-> |H]); [..|by apply not_elem_of_nil in H].

Lemma at_axis m d : m ∈ PANEL_MAPPINGS -> new_Dimensions3D d = Ok d ->
  exists w h, at_key (dimensions d) (pam_u_axis m) = Ok w /\ at_key (dimensions d) (pam_v_axis m) = Ok h /\ 0 < w /\ 0 < h.
Proof.
  intros H D. unfold new_Dimensions3D, PositiveUm in D. inv_ok. bprop. panel_cases H; by eexists _, _.
Qed.

Lemma axis_read m d : m ∈ PANEL_MAPPINGS ->
  exists w h, at_key (dimensions d) (pam_u_axis m) = Ok w /\ at_key (dimensions d) (pam_v_axis m) = Ok h.
Proof. intros H. panel_cases H; by eexists _, _. Qed.

(** The feature [g] of a panel is the feature [f] of its part. *)
Record adapted_feature (m : PanelAxisMapping) (f : Models.ManufacturingFeature) (g : ManufacturingFeature) : Prop := {
  af_id : mf_feature_id g = f_feature_id f;
  af_part : mf_part_id g = f_part_id f;
  af_kind : dict_get FEATURE_ALIASES (upper (FeatureKind_value (f_kind f))) = Some (mf_kind g);
  af_x : at_key (coordinates (f_origin f)) (pam_u_axis m) = Ok (mf_x_um g);
  af_y : at_key (coordinates (f_origin f)) (pam_v_axis m) = Ok (mf_y_um g);
  af_depth : fd_depth_um (f_dimensions f) = Some (mf_depth_um g);
  af_sizes : [mf_diameter_um g; mf_width_um g; mf_length_um g] =
             [fd_diameter_um (f_dimensions f); fd_width_um (f_dimensions f); fd_length_um (f_dimensions f)];
  af_pattern : (mf_pattern_count g, mf_pitch_um g, mf_through g) = (f_pattern_count f, f_pitch_um f, f_through f);
  af_fit : (mf_tolerance_um g, mf_fit_clearance_um g) = (f_tolerance_um f, f_fit_clearance_um f);
  af_joint : md_joint_id (mf_metadata g) = f_joint_id f;
  af_valid : new_ManufacturingFeature g = Ok g }.

Lemma kind_alias k : exists k', dict_get FEATURE_ALIASES (upper (FeatureKind_value k)) = Some k'.
Proof. destruct k; eexists; vm_compute; reflexivity. Qed.

Lemma side_total face a_side b_side m : m ∈ PANEL_MAPPINGS -> exists s, feature_side face a_side b_side m = Ok s.
Proof.
  intros H. unfold feature_side. repeat case_bool_decide; eauto. panel_cases H; eexists; reflexivity.
Qed.

Lemma open_ends_supported l : distinct l = true ->
  distinct (map (fun r => lower (upper (OpenEndRelief_value r))) l) = true /\
  py_subset (map (fun r => lower (upper (OpenEndRelief_value r))) l) ["u_min"; "u_max"; "v_min"; "v_max"] = true.
Proof.
  intros H. assert (forall r, lower (upper (OpenEndRelief_value r)) = OpenEndRelief_value r) as E
    by (intros []; vm_compute; reflexivity). rewrite (map_ext _ _ E). split.
  - apply distinct_spec. apply distinct_spec in H. apply NoDup_fmap_2; [|done]. by intros [] [].
  - apply py_subset_spec. intros s Hs. apply list_elem_of_fmap in Hs as ([] & -> & _); set_solver.
Qed.

Lemma stable_id_head entity path c rest :
  chars (String.substring 0 3 entity) = c :: rest -> exists rest', chars (stable_id entity path) = c :: rest'.
Proof. intros E. unfold stable_id. cbv zeta. rewrite chars_app, E. by eexists. Qed.

Lemma optional_positive o : optional PositiveUm o = true -> positive_or_none o = true.
Proof. by destruct o. Qed.

Lemma open_ends_nil f :
  bool_decide (map (fun r => lower (upper (OpenEndRelief_value r))) (f_open_end_reliefs f) = []) =
  bool_decide (f_open_end_reliefs f = []).
Proof. by destruct (f_open_end_reliefs f). Qed.

Lemma panel_feature_valid f kind side x y depth :
  feature_sound f -> f_part_id f <> "" -> fd_depth_um (f_dimensions f) = Some depth ->
  new_ManufacturingFeature (panel_feature f kind side x y depth) = Ok (panel_feature f kind side x y depth).
Proof.
  intros [V D _ _ [path Hid]] Hpart Hdepth.
  assert (f_feature_id f <> "") as Hname.
  { rewrite Hid. intros E. destruct (stable_id_head "feature" path "f"%char ["e"; "a"]%char eq_refl) as [rest R]. by rewrite E in R. }
  unfold Models.new_ManufacturingFeature, validate_pattern in V. unfold new_FeatureDimensions in D.
  inv_ok. rewrite Hdepth in *. cbn [optional] in *.
  match goal with H : negb (distinct _) = false |- _ => apply negb_false_iff, open_ends_supported in H as [O1 O2] end.
  match goal with H : (1 <? f_pattern_count f) && _ = false |- _ => rename H into Hpitch end.
  match goal with H : negb (bool_decide (f_open_end_reliefs f = [])) && _ = false |- _ => rename H into Hopen end.
  unfold new_ManufacturingFeature. cbn [panel_feature mf_feature_id mf_part_id mf_depth_um mf_pattern_count mf_pitch_um
    mf_diameter_um mf_width_um mf_length_um mf_radius_um mf_corner_relief_radius_um mf_open_end_reliefs
    mf_corner_strategy mf_tolerance_um mf_fit_clearance_um forallb].
  rewrite (bool_decide_eq_false_2 _ Hname), (bool_decide_eq_false_2 _ Hpart), O1, O2.
  rewrite (optional_positive (fd_diameter_um (f_dimensions f))), (optional_positive (fd_width_um (f_dimensions f))),
    (optional_positive (fd_length_um (f_dimensions f))), (optional_positive (fd_radius_um (f_dimensions f))) by done.
  assert (positive_or_none (if truthy (f_corner_strategy f) then fd_radius_um (f_dimensions f) else None) = true) as ->
    by (destruct (truthy _); [by apply optional_positive|done]).
  unfold PositiveUm, NonNegativeUm in *. bprop.
  rewrite (proj2 (Z.leb_gt _ _)), (proj2 (Z.ltb_ge (f_pattern_count f) 1)), (proj2 (Z.ltb_ge (f_tolerance_um f) 0)),
    (proj2 (Z.ltb_ge (f_fit_clearance_um f) 0)) by lia.
  cbn [orb andb negb raise_if mbind result_bind].
  assert ((1 <? f_pattern_count f) && match f_pitch_um f with Some p => p <=? 0 | None => true end = false) as ->.
  { destruct (1 <? f_pattern_count f); [|done]. cbn [andb] in *. bprop.
    destruct (f_pitch_um f) as [pitch|]; [|done]. cbn [optional] in *. bprop. by apply Z.leb_gt. }
  cbn [raise_if mbind result_bind]. rewrite open_ends_nil.
  assert (supported_dogbone (f_corner_strategy f) = dogbone_strategy (f_corner_strategy f)) as <-; [|by rewrite Hopen].
  destruct (f_corner_strategy f) as [c|]; [|done]. cbn [supported_dogbone dogbone_strategy].
  repeat case_bool_decide; subst; set_solver.
Qed.

Lemma feature_adapted m a_side b_side f :
  m ∈ PANEL_MAPPINGS -> feature_sound f -> f_part_id f <> "" ->
  exists g, adapt_domain_feature m a_side b_side f = Ok g /\ adapted_feature m f g.
Proof.
  intros Hm S Hpart. unfold adapt_domain_feature. cbv zeta. destruct (fs_depth _ S) as [depth Hdepth].
  destruct (kind_alias (f_kind f)) as [kind Hk]. rewrite Hk. cbn [of_option mbind result_bind].
  destruct (side_total (face_name (f_face f)) a_side b_side m Hm) as [side ->]. cbn [mbind result_bind].
  assert (exists x y, at_key (coordinates (f_origin f)) (pam_u_axis m) = Ok x /\
                      at_key (coordinates (f_origin f)) (pam_v_axis m) = Ok y) as (x & y & Hx & Hy)
    by (clear -Hm; panel_cases Hm; by eexists _, _).
  rewrite Hx, Hy, Hdepth. cbn [of_option mbind result_bind].
  pose proof (panel_feature_valid f kind side x y depth S Hpart Hdepth) as G. eexists. split; [exact G|]. by constructor.
Qed.

(** ** Parts *)

(** The panel [s] is the part [q], flattened along its axes. *)
Record adapted_part (q : Models.PartInstance) (s : PartSpec) : Prop := {
  ap_id : ps_part_id s = part_id q;
  ap_axes : [pam_u_axis (ps_axis_mapping s); pam_v_axis (ps_axis_mapping s); pam_thickness_axis (ps_axis_mapping s)]
            ≡ₚ ["x"; "y"; "z"];
  ap_width : at_key (dimensions (part_finished_size q)) (pam_u_axis (ps_axis_mapping s)) = Ok (ps_width_um s);
  ap_height : at_key (dimensions (part_finished_size q)) (pam_v_axis (ps_axis_mapping s)) = Ok (ps_height_um s);
  ap_thickness : at_key (dimensions (part_finished_size q)) (pam_thickness_axis (ps_axis_mapping s)) = Ok (ps_thickness_um s);
  ap_actual : ps_thickness_um s = part_actual_thickness_um q;
  ap_material : (ps_material_id s, ps_material_version s) = (part_material_id q, part_material_version q);
  ap_quantity : ps_quantity s = 1;
  ap_features : exists fs outline, ps_features s = fs ++ [outline] /\
    Forall2 (adapted_feature (ps_axis_mapping s)) (part_features q) fs /\
    mf_kind outline = OUTER_CONTOUR /\ mf_through outline = true /\ mf_depth_um outline = ps_thickness_um s /\
    bounds outline = mkRect 0 0 (ps_width_um s) (ps_height_um s) /\
    mf_part_id outline = part_id q /\ new_ManufacturingFeature outline = Ok outline;
  ap_valid : new_PartSpec s = Ok s }.

(** A part whose features are its own and sound. *)
Record part_sound (q : Models.PartInstance) : Prop := {
  pq_flat : part_flat q;
  pq_features : forall f, f ∈ part_features q -> feature_sound f /\ f_part_id f = part_id q }.

Lemma part_id_named q : part_flat q -> part_id q <> "".
Proof.
  intros [_ _ _ _ [path E]] H. destruct (stable_id_head "part" path "p"%char ["a"; "r"]%char eq_refl) as [rest R].
  by rewrite <- E, H in R.
Qed.

Lemma features_adapted m a_side b_side fs :
  m ∈ PANEL_MAPPINGS -> (forall f, f ∈ fs -> feature_sound f /\ f_part_id f <> "") ->
  exists gs, traverse (adapt_domain_feature m a_side b_side) fs = Ok gs /\ Forall2 (adapted_feature m) fs gs.
Proof.
  intros Hm H. induction fs as [|f fs IH]; [by exists []|]. destruct (H f) as [S N]; [by left|].
  destruct (feature_adapted m a_side b_side f Hm S N) as (g & Hg & A). destruct IH as (gs & Hgs & B).
  { intros f' Hf'. apply H. by right. }
  exists (g :: gs). cbn [traverse]. rewrite Hg, Hgs. split; [done|by constructor].
Qed.

Lemma no_marks (fs : list Models.ManufacturingFeature) : (forall f, f ∈ fs -> feature_sound f) ->
  filter (fun f => upper (FeatureKind_value (f_kind f)) <> "MARK") fs = fs.
Proof.
  induction fs as [|f fs IH]; intros H; [done|]. rewrite filter_cons_True; [f_equal; apply IH; intros; apply H; by right|].
  pose proof (fs_kind f (H f ltac:(by left))) as K. by destruct (f_kind f).
Qed.

Lemma bands_adapted q m : part_flat q -> m ∈ PANEL_MAPPINGS ->
  (part_edge_bands q = [] \/ "y" ∈ [pam_u_axis m; pam_v_axis m]) ->
  exists bands, traverse (adapt_edge_band m (part_id q)) (part_edge_bands q) = Ok bands /\ (length bands <= 1)%nat.
Proof.
  intros F Hm Hy. destruct (pf_bands q F) as [->|(t & Ht & E)]; [exists []; split; [done|cbn; lia]|]. rewrite E in *.
  destruct Hy as [Hy|Hy]; [done|]. cbn [traverse].
  assert (exists spec, adapt_edge_band m (part_id q) (mkEdgeBand FACE_FRONT t) = Ok spec) as [spec ->].
  { destruct t as [|t|t]; [lia| |lia]. panel_cases Hm; [| |exfalso; apply (bool_decide_pack _) in Hy; exact Hy]; eexists; reflexivity. }
  cbn [mbind result_bind]. exists [spec]. split; [done|]. cbn. lia.
Qed.

Lemma grain_adapted q m grain : part_grain_direction q ∈ [GRAIN_NONE; grain] -> m ∈ PANEL_MAPPINGS ->
  GrainDirection_value grain ∈ [pam_u_axis m; pam_v_axis m] ->
  exists g, panel_grain_direction (upper (GrainDirection_value (part_grain_direction q))) m = Ok g.
Proof.
  intros Hg Hm Hgrain. apply elem_of_cons in Hg as [-> |Hg].
  { eexists. vm_compute. reflexivity. }
  apply list_elem_of_singleton in Hg as ->. panel_cases Hm; destruct grain; cbn in Hgrain;
    first [exfalso; apply (bool_decide_pack _) in Hgrain; exact Hgrain | eexists; vm_compute; reflexivity].
Qed.

Lemma flat_axes q m : part_flat q -> dict_get ROLE_AXES (upper (PartRole_value (part_role q))) = Some m ->
  at_key (dimensions (part_finished_size q)) (pam_thickness_axis m) = Ok (part_actual_thickness_um q) ->
  axis_mapping q (dimensions (part_finished_size q)) (part_actual_thickness_um q) = Ok m.
Proof.
  intros F Em Et. unfold axis_mapping. rewrite Em, Et. cbn [mbind result_bind].
  rewrite (proj2 (Z.leb_le _ _)); [done|]. unfold thickness_tolerance_um. lia.
Qed.

Lemma outline_valid q w h : part_flat q -> 0 < w -> 0 < h ->
  new_ManufacturingFeature (part_outline (part_id q) w h (part_actual_thickness_um q)) =
  Ok (part_outline (part_id q) w h (part_actual_thickness_um q)).
Proof.
  intros F Hw Hh. unfold new_ManufacturingFeature. cbn [part_outline mf_feature_id mf_part_id mf_depth_um mf_pattern_count
    mf_diameter_um mf_width_um mf_length_um mf_radius_um mf_corner_relief_radius_um mf_open_end_reliefs mf_tolerance_um
    mf_fit_clearance_um forallb positive_or_none]. pose proof (pf_thickness q F).
  rewrite (bool_decide_eq_false_2 (part_id q = "")) by (by apply part_id_named).
  rewrite (proj2 (Z.leb_gt (part_actual_thickness_um q) 0)), (proj2 (Z.ltb_lt 0 w)), (proj2 (Z.ltb_lt 0 h)) by lia.
  by rewrite (bool_decide_eq_false_2 ("outline:" +:+ part_id q = "")).
Qed.

Lemma existsb_none {A} (f : A -> bool) l : (forall x, x ∈ l -> f x = false) -> existsb f l = false.
Proof. induction l as [|x l IH]; intros H; cbn; [done|]. rewrite H by left. apply IH. intros y Hy. apply H. by right. Qed.

Lemma new_PartSpec_intro s :
  ps_part_id s <> "" -> 0 < ps_width_um s -> 0 < ps_height_um s -> 0 < ps_thickness_um s -> 1 <= ps_quantity s ->
  (forall f, f ∈ ps_features s -> mf_part_id f = ps_part_id s) -> distinct (ps_edge_bands s) = true ->
  ps_edge_bands s = map ebs_edge (ps_edge_band_details s) -> new_PartSpec s = Ok s.
Proof.
  intros N Hw Hh Ht Hq Hf Hd He. unfold new_PartSpec. rewrite (bool_decide_eq_false_2 _ N), (proj2 (Z.leb_gt _ _)) by lia.
  rewrite (proj2 (Z.ltb_ge _ _)) by lia. cbn [raise_if mbind result_bind].
  rewrite existsb_none; [|intros f Hin; by rewrite (bool_decide_eq_true_2 _ (Hf f Hin))].
  rewrite Hd, He, bool_decide_eq_true_2 by done. done.
Qed.

(** The checks of a [PartSpec] read no more of its features than their owner. *)
Lemma new_PartSpec_features s gs : new_PartSpec s = Ok s ->
  (forall g, g ∈ gs -> exists f, f ∈ ps_features s /\ mf_part_id g = mf_part_id f) ->
  new_PartSpec (with_part_features s gs) = Ok (with_part_features s gs).
Proof.
  intros V H. unfold new_PartSpec in V. inv_ok. bprop.
  match goal with H : existsb _ _ = false |- _ => rename H into Hown end.
  apply new_PartSpec_intro; cbn [with_part_features ps_part_id ps_width_um ps_height_um ps_thickness_um ps_quantity ps_features
    ps_edge_bands ps_edge_band_details]; try done; try lia.
  intros g Hg. destruct (H g Hg) as (f & Hf & ->).
  destruct (decide (mf_part_id f = ps_part_id s)) as [E|E]; [done|]. exfalso. apply not_true_iff_false in Hown. apply Hown.
  apply existsb_exists. exists f. split; [by apply list_elem_of_In|]. by rewrite (bool_decide_eq_false_2 _ E).
Qed.

Lemma short_distinct bands : (length bands <= 1)%nat ->
  distinct (map ebs_edge (sort_by (cmp_on ebs_edge String.compare) bands)) = true.
Proof.
  intros H. destruct bands as [|b [|b' bands]]; [done| |cbn in H; lia]. apply distinct_spec, NoDup_singleton.
Qed.

Lemma part_adapted q : part_sound q -> exists s, adapt_domain_part q = Ok s /\ adapted_part q s.
Proof.
  intros [F H]. destruct (pf_flat q F) as (grain & front & (m & Em & Et & Eg & Ef) & Hg & Hf).
  pose proof (role_mapping _ _ Em) as Hm. pose proof (part_id_named q F) as N.
  destruct (at_axis m _ Hm (pf_size q F)) as (w & h & Ew & Eh & Pw & Ph).
  destruct (axis_read m (part_raw_size q) Hm) as (rw & rh & Erw & Erh).
  destruct (features_adapted m (face_name (part_a_side q)) (face_name (part_b_side q)) (part_features q) Hm)
    as (gs & Egs & A). { intros f Hin. destruct (H f Hin) as [S ->]. done. }
  destruct (bands_adapted q m F Hm) as (bands & Eb & Lb).
  { destruct front; [right; by apply Ef|left; by apply Hf]. }
  destruct (grain_adapted q m grain Hg Hm Eg) as [g Egr]. unfold adapt_domain_part. cbv zeta.
  rewrite (flat_axes q m F Em Et). cbn [mbind result_bind]. rewrite Ew, Eh, Erw, Erh. cbn [mbind result_bind].
  rewrite (no_marks (part_features q)) by (intros f Hin; by destruct (H f Hin)).
  rewrite Egs, (outline_valid q w h F Pw Ph), Eb, Egr. cbn [mbind result_bind].
  assert (existsb (fun f => bool_decide (mf_feature_id f = mf_feature_id (part_outline (part_id q) w h (part_actual_thickness_um q)))) gs
          = false) as ->.
  { apply not_true_is_false. intros (g' & Hin & E)%existsb_exists. apply list_elem_of_In in Hin. bprop.
    apply list_elem_of_lookup in Hin as [i Hi]. destruct (Forall2_lookup_r _ _ _ _ _ A Hi) as (f & Hfi & Af).
    apply list_elem_of_lookup_2, H in Hfi as [S _]. destruct (fs_id f S) as [path Ep].
    destruct (stable_id_head "feature" path "f"%char ["e"; "a"]%char eq_refl) as [rest R].
    rewrite <- Ep, <- (af_id _ _ _ Af), E in R. cbn in R. discriminate R. }
  cbn [raise_if mbind result_bind].
  match goal with |- exists s, new_PartSpec ?s' = _ /\ _ => assert (new_PartSpec s' = Ok s') as V end.
  { apply new_PartSpec_intro; cbn [ps_part_id ps_width_um ps_height_um ps_thickness_um ps_quantity ps_features ps_edge_bands
      ps_edge_band_details]; [done|done|done|by apply pf_thickness|done| |by apply short_distinct|done].
    intros f [Hin| ->%list_elem_of_singleton]%elem_of_app; [|done].
    apply list_elem_of_lookup in Hin as [i Hi]. destruct (Forall2_lookup_r _ _ _ _ _ A Hi) as (f' & Hfi & Af).
    rewrite (af_part _ _ _ Af). exact (proj2 (H f' (list_elem_of_lookup_2 _ i f' Hfi))). }
  eexists. split; [exact V|]. constructor; cbn [ps_part_id ps_axis_mapping ps_width_um ps_height_um ps_thickness_um ps_material_id
    ps_material_version ps_quantity ps_features]; try done.
  - clear -Hm. panel_cases Hm; cbn [pam_u_axis pam_v_axis pam_thickness_axis]; solve_Permutation.
  - exists gs, (part_outline (part_id q) w h (part_actual_thickness_um q)). split_and!; try done; [|by apply outline_valid].
    unfold bounds. cbn [part_outline mf_kind is_round mf_width_um mf_length_um mf_x_um mf_y_um int_or].
    by rewrite (proj2 (Z.eqb_neq w 0)), (proj2 (Z.eqb_neq h 0)) by lia.
Qed.

(** ** Corners *)

Lemma with_overlaps_valid f allowed :
  new_ManufacturingFeature f = Ok f -> new_ManufacturingFeature (with_overlaps f allowed) = Ok (with_overlaps f allowed).
Proof.
  intros H. unfold new_ManufacturingFeature in *. cbn [with_overlaps mf_feature_id mf_part_id mf_depth_um mf_pattern_count mf_pitch_um
    mf_diameter_um mf_width_um mf_length_um mf_radius_um mf_corner_relief_radius_um mf_open_end_reliefs
    mf_corner_strategy mf_tolerance_um mf_fit_clearance_um].
  repeat (let E := fresh in apply bind_Ok in H as ([] & E & H); rewrite E; clear E; cbn [mbind result_bind]). done.
Qed.

(** What overlaps leave of a feature. *)
Definition same_feature (f g : ManufacturingFeature) : Prop := exists allowed, g = with_overlaps f allowed.

Lemma annotate_feature_total pairs f : new_ManufacturingFeature f = Ok f ->
  exists g, annotate_feature pairs f = Ok g /\ same_feature f g /\ new_ManufacturingFeature g = Ok g.
Proof.
  intros H. unfold annotate_feature. destruct (allowed_with pairs (mf_feature_id f)) as [|id ids].
  - exists f. split_and!; [done| |done]. exists (md_allow_overlap_with (mf_metadata f)). by destruct f as [? ? ? ? ? ? ? ? ? ? ? ? ? ? ? ? ? ? ? []].
  - pose proof (with_overlaps_valid f (id :: ids) H) as V. rewrite V. eexists. split_and!; [done|by eexists|done].
Qed.

Lemma same_adapted m f g g' : same_feature g g' -> adapted_feature m f g -> adapted_feature m f g'.
Proof.
  intros [allowed ->] []. constructor; try done. by apply with_overlaps_valid.
Qed.

Lemma features_valid q s f : adapted_part q s -> f ∈ ps_features s -> new_ManufacturingFeature f = Ok f.
Proof.
  intros A Hf. destruct (ap_features q s A) as (fs & outline & E & F & _ & _ & _ & _ & _ & V). rewrite E in Hf.
  apply elem_of_app in Hf as [Hf| ->%list_elem_of_singleton]; [|done].
  apply list_elem_of_lookup in Hf as [i Hi]. destruct (Forall2_lookup_r _ _ _ _ _ F Hi) as (f' & _ & Af). apply Af.
Qed.

Lemma features_annotated pairs fs : (forall f, f ∈ fs -> new_ManufacturingFeature f = Ok f) ->
  exists gs, traverse (annotate_feature pairs) fs = Ok gs /\ Forall2 same_feature fs gs.
Proof.
  induction fs as [|f fs IH]; intros H; [by exists []|]. destruct (annotate_feature_total pairs f) as (g & Eg & S & _); [apply H; by left|].
  destruct IH as (gs & Egs & F); [intros; apply H; by right|]. exists (g :: gs). cbn [traverse]. rewrite Eg, Egs. split; [done|by constructor].
Qed.

Lemma part_annotated joint_members q s : adapted_part q s ->
  exists s', annotate_part joint_members s = Ok s' /\ adapted_part q s'.
Proof.
  intros A. unfold annotate_part. cbv zeta.
  destruct (features_annotated (crossings joint_members (ps_part_id s) (sort_by (cmp_on mf_feature_id String.compare) (ps_features s)))
    (ps_features s)) as (gs & -> & F); [intros f; by apply (features_valid q)|]. cbn [mbind result_bind].
  pose proof (ap_features q s A) as (fs & outline & E & A' & K1 & K2 & K3 & K4 & K5 & K6).
  assert (new_PartSpec (with_part_features s gs) = Ok (with_part_features s gs)) as V.
  { apply (new_PartSpec_features s gs (ap_valid q s A)). intros g Hg. apply list_elem_of_lookup in Hg as [i Hi].
    destruct (Forall2_lookup_r _ _ _ _ _ F Hi) as (f & Hf & allowed & ->). exists f. split; [by eapply list_elem_of_lookup_2|done]. }
  rewrite V. eexists. split; [done|]. destruct A. constructor; try done. cbn [with_part_features ps_features ps_axis_mapping ps_thickness_um
    ps_width_um ps_height_um]. rewrite E in F. apply Forall2_app_inv_l in F as (fs' & outlines & F1 & F2 & ->).
  apply Forall2_cons_inv_l in F2 as (outline' & rest & [allowed ->] & F2 & ->). apply Forall2_nil_inv_l in F2 as ->.
  exists fs', (with_overlaps outline allowed). split_and!; try done; [|by apply with_overlaps_valid].
  clear -A' F1. revert fs' F1. induction A' as [|f g qs gs Af A' IH]; intros fs' F1.
  - by apply Forall2_nil_inv_l in F1 as ->.
  - apply Forall2_cons_inv_l in F1 as (g' & gs' & S & F1 & ->). constructor; [by eapply same_adapted|by apply IH].
Qed.

(** What the compiler made: sound parts with distinct identifiers. *)
Lemma compiled_sound spec parts0 parts joints :
  build_parts spec = Ok parts0 -> build_joints spec parts0 = Ok (parts, joints) -> Forall part_sound parts.
Proof.
  intros H0%build_parts_flat (b & Hb & -> & _)%build_joints_Ok. pose proof (run_joins_sound _ _ _ Hb) as S.
  destruct (run_joins_ok _ _ _ Hb) as [_ Own]. unfold updated_parts. apply Forall_fmap. eapply Forall_impl; [exact H0|].
  intros q F. constructor; [by apply with_features_flat|]. cbn [with_features part_features part_id]. intros f Hf.
  split; [by eapply S|]. by destruct (Own _ _ Hf).
Qed.

Lemma parts_adapted joint_members parts : Forall part_sound parts ->
  exists ss ss', traverse adapt_domain_part parts = Ok ss /\ Forall2 adapted_part parts ss /\
    traverse (annotate_part joint_members) ss = Ok ss' /\ Forall2 adapted_part parts ss'.
Proof.
  induction 1 as [|q parts S _ IH]; [by exists [], []|]. destruct IH as (ss & ss' & E1 & A1 & E2 & A2).
  destruct (part_adapted q S) as (s & E & A). destruct (part_annotated joint_members q s A) as (s' & E' & A').
  exists (s :: ss), (s' :: ss'). cbn [traverse]. rewrite E, E1. cbn [mbind result_bind]. rewrite E', E2. split_and!; [done|by constructor|done|by constructor].
Qed.

Lemma adapted_ids parts ss : Forall2 adapted_part parts ss -> map ps_part_id ss = map part_id parts.
Proof. induction 1 as [|q s parts ss A _ IH]; [done|]. cbn. by rewrite (ap_id _ _ A), IH. Qed.

(** C15: Every design the bookcase compiler makes can be manufactured as flat parts, for
    any specification: [adapt_design_result] does not raise on its parts and joints.
    Each part becomes the panel that lies along the two axes its thickness leaves, with
    the finished sizes of the part; each of its features keeps its identity, place,
    depth and sizes, and the last one is the through contour of the whole panel.
    And the nester takes the parts on any valid stock sheet. *)
Theorem compiled_design_adapts spec parts0 parts joints d :
  build_parts spec = Ok parts0 -> build_joints spec parts0 = Ok (parts, joints) -> NoDup (map part_id parts) ->
  dr_parts d = parts -> dr_joints d = joints ->
  exists a, adapt_design_result d = Ok a /\ Forall2 adapted_part parts (ad_parts a) /\
    forall stock, new_StockSheet stock = Ok stock -> exists layout, nest (map inl (ad_parts a)) stock = Ok layout.
Proof.
  intros H0 H1 N <- <-. pose proof (compiled_sound _ _ _ _ H0 H1) as S.
  destruct (parts_adapted (dado_members (dr_joints d)) _ S) as (ss & ss' & E1 & A1 & E2 & A2).
  assert (exists final, annotate_compatible_corner_overlaps ss (dr_joints d) = Ok final /\ Forall2 adapted_part (dr_parts d) final)
    as (final & E & A).
  { unfold annotate_compatible_corner_overlaps. destruct (dado_members (dr_joints d)) as [|m ms] eqn:Em; [eauto|]. eauto. }
  unfold adapt_design_result. rewrite E1. cbn [mbind result_bind]. rewrite E. cbn [mbind result_bind].
  pose proof (adapted_ids _ _ A) as I. rewrite I, (proj2 (distinct_spec _) N). cbn [negb raise_if mbind result_bind].
  eexists. split; [done|]. split; [exact A|]. cbn [ad_parts]. intros stock Hs. unfold nest, coerce_part_instances.
  assert (mapM as_spec (map inl final) = Some final) as ->.
  { clear. induction final as [|s final IH]; [done|]. cbn. by rewrite IH. }
  cbn [mbind result_bind]. rewrite nest_instances_total; [by eexists|done|]. apply expand_NoDup. by rewrite I.
Qed.

(** ** Which cuts may cross *)

(** A dado named [joint_id] that joins two panels and no other. *)
Definition dado_between (joints : list Joint) (joint_id first second : string) : Prop :=
  exists j, j ∈ joints /\ j_joint_type j = DADO /\ j_joint_id j = joint_id /\
    forall i, i ∈ j_part_ids j <-> i = first \/ i = second.

Lemma dado_members_elem joints e : e ∈ dado_members joints ->
  exists j, j ∈ joints /\ j_joint_type j = DADO /\ j_joint_id j = fst e /\ snd e = remove_dups (j_part_ids j) /\ length (snd e) = 2%nat.
Proof.
  unfold dado_members. intros H. apply list_elem_of_omap in H as (j & Hj & E). cbv zeta in E.
  destruct (_ && _) eqn:B in E; [|done]. injection E as <-. bprop. exists j. split_and!; try done.
  by destruct (j_joint_type j).
Qed.

Lemma joined_dado joints first second : are_joined (map snd (dado_members joints)) first second = true ->
  first <> second /\ exists id, dado_between joints id first second.
Proof.
  unfold are_joined. intros H. bprop. split; [done|].
  match goal with H : existsb _ _ = true |- _ => apply existsb_exists in H as (l & Hl & E) end.
  apply list_elem_of_In, list_elem_of_fmap in Hl as (e & -> & He). apply dado_members_elem in He as (j & Hj & T & I & S & _).
  exists (j_joint_id j), j. split_and!; try done. intros i. pose proof (proj1 (py_set_eq_spec _ _) E i) as Ei. clear E. rename Ei into E.
  rewrite S, elem_of_remove_dups in E. rewrite <- E. set_solver.
Qed.

Lemma mates_dado joints part_id f mate : mates_of (dado_members joints) part_id f = [mate] ->
  dado_between joints (joint_of f) part_id mate.
Proof.
  unfold mates_of, members_of. intros H. destruct (last _) as [e|] eqn:E; [|done]. cbn [fmap option_fmap option_map default id] in H.
  apply last_Some_elem_of, list_elem_of_filter in E as [Ei He]. apply dado_members_elem in He as (j & Hj & T & I & S & L).
  exists j. split_and!; [done|done|congruence|]. rewrite S in H, L. intros i. rewrite <- elem_of_remove_dups.
  pose proof (NoDup_remove_dups (j_part_ids j)) as N. destruct (remove_dups (j_part_ids j)) as [|a [|b [|? ?]]]; try done.
  apply NoDup_cons in N as [N _]. rewrite list_elem_of_singleton in N.
  rewrite !elem_of_cons, elem_of_nil. rewrite !filter_cons, filter_nil in H.
  destruct (decide (a = part_id)) as [->|Na], (decide (b = part_id)) as [->|Nb].
  - by destruct N.
  - rewrite decide_False, decide_True in H by tauto. injection H as ->. naive_solver.
  - rewrite decide_True, decide_False in H by tauto. injection H as ->. naive_solver.
  - by rewrite !decide_True in H by done.
Qed.

(** Two cuts of a panel that cross where it meets two other panels that meet. *)
Definition corner_crossing (joints : list Joint) (part_id : string) (first second : ManufacturingFeature) : Prop :=
  mf_side first = mf_side second /\ is_cut_kind (mf_kind first) = true /\ is_cut_kind (mf_kind second) = true /\
  intersects (bounds first) (bounds second) 0 = true /\
  exists first_mate second_mate, first_mate <> second_mate /\
    dado_between joints (joint_of first) part_id first_mate /\ dado_between joints (joint_of second) part_id second_mate /\
    exists joint_id, dado_between joints joint_id first_mate second_mate.

Lemma dado_between_sym joints id a b : dado_between joints id a b -> dado_between joints id b a.
Proof. intros (j & ? & ? & ? & H). exists j. split_and!; [done..|]. intros i. rewrite H. tauto. Qed.

Lemma corner_crossing_sym joints part_id f g : corner_crossing joints part_id f g -> corner_crossing joints part_id g f.
Proof.
  intros (? & ? & ? & I & a & b & N & A & B & id & C). split_and!; [done..|by rewrite intersects_sym|].
  exists b, a. split_and!; [done..|]. exists id. by apply dado_between_sym.
Qed.

Lemma may_cross_corner joints part_id f g : may_cross (dado_members joints) part_id f g = true -> corner_crossing joints part_id f g.
Proof.
  unfold may_cross. intros H. apply andb_true_iff in H as [H M]. bprop. split_and!; try done.
  destruct (mates_of _ _ f) as [|a [|? ?]] eqn:Ea; [done| |done]. destruct (mates_of _ _ g) as [|b [|? ?]] eqn:Eb; [done| |done].
  apply joined_dado in M as (N & id & J). exists a, b. split_and!; [done|by apply mates_dado|by apply mates_dado|eauto].
Qed.

Lemma crossings_corner joints part_id features pair : pair ∈ crossings (dado_members joints) part_id features ->
  exists f g, f ∈ features /\ g ∈ features /\ pair = (mf_feature_id f, mf_feature_id g) /\ corner_crossing joints part_id f g.
Proof.
  induction features as [|first rest IH]; cbn [crossings]; [by intros ?%not_elem_of_nil|].
  intros [H|H]%elem_of_app.
  - apply list_elem_of_In, in_concat in H as (l & Hl & H). apply list_elem_of_In in Hl, H.
    apply list_elem_of_fmap in Hl as (second & -> & Hs). destruct (may_cross _ _ first second) eqn:E; [|by apply not_elem_of_nil in H].
    apply may_cross_corner in E. apply elem_of_cons in H as [-> | ->%list_elem_of_singleton].
    + exists first, second. split_and!; [by left|by right|done|done].
    + exists second, first. split_and!; [by right|by left|done|by apply corner_crossing_sym].
  - destruct (IH H) as (f & g & ? & ? & ? & ?). exists f, g. split_and!; [by right|by right|done|done].
Qed.

Lemma new_mfeature_Ok f g : new_ManufacturingFeature f = Ok g -> g = f.
Proof. unfold new_ManufacturingFeature. intros H. inv_ok. done. Qed.

Lemma new_PartSpec_Ok s s' : new_PartSpec s = Ok s' -> s' = s.
Proof. unfold new_PartSpec. intros H. inv_ok. done. Qed.

Lemma adapted_no_overlaps q s f : adapt_domain_part q = Ok s -> f ∈ ps_features s -> md_allow_overlap_with (mf_metadata f) = [].
Proof.
  unfold adapt_domain_part. cbv zeta. intros H Hf. do 5 (apply bind_Ok in H as (? & _ & H)).
  apply bind_Ok in H as (fs & Hfs & H). apply bind_Ok in H as (outline & Ho%new_mfeature_Ok & H).
  apply bind_Ok in H as ([] & _ & H). apply bind_Ok in H as (bands & _ & H). apply bind_Ok in H as (g & _ & H).
  apply new_PartSpec_Ok in H as ->. cbn [ps_features] in Hf. apply elem_of_app in Hf as [Hf| ->%list_elem_of_singleton]; [|by subst].
  apply traverse_Ok in Hfs. apply list_elem_of_lookup in Hf as [i Hi]. destruct (Forall2_lookup_r _ _ _ _ _ Hfs Hi) as (f0 & _ & E).
  unfold adapt_domain_feature in E. cbv zeta in E. do 5 (apply bind_Ok in E as (? & _ & E)). by apply new_mfeature_Ok in E as ->.
Qed.

Lemma annotated_overlap pairs f g id : annotate_feature pairs f = Ok g -> md_allow_overlap_with (mf_metadata f) = [] ->
  same_feature f g /\ (id ∈ md_allow_overlap_with (mf_metadata g) -> (mf_feature_id g, id) ∈ pairs).
Proof.
  unfold annotate_feature. intros H E. destruct (allowed_with pairs (mf_feature_id f)) as [|a l] eqn:Ea.
  - injection H as <-. split; [|by rewrite E; intros ?%not_elem_of_nil]. exists [].
    destruct f as [? ? ? ? ? ? ? ? ? ? ? ? ? ? ? ? ? ? ? []]. cbn in *. by subst.
  - apply new_mfeature_Ok in H as ->. split; [by eexists|]. cbn [with_overlaps mf_metadata md_allow_overlap_with mf_feature_id].
    rewrite <- Ea. unfold allowed_with, sort_strings. rewrite elem_of_sort_by, elem_of_remove_dups.
    intros ([x y] & -> & [Hx Hp]%list_elem_of_filter)%list_elem_of_fmap. cbn in *. by subst.
Qed.

(** C38: The adapter lets cuts of a panel overlap only at corners: for any design it takes,
    when a feature of a panel is allowed to overlap with another, both are grooves or
    rabbets of one face of that panel whose rectangles meet, each belongs to a dado
    that joins the panel to one other panel, and a third dado joins these two. *)
Theorem overlaps_only_at_corners design a s f id :
  adapt_design_result design = Ok a -> s ∈ ad_parts a -> f ∈ ps_features s ->
  id ∈ md_allow_overlap_with (mf_metadata f) ->
  exists f1 f2, f1 ∈ ps_features s /\ mf_feature_id f1 = mf_feature_id f /\ f2 ∈ ps_features s /\ mf_feature_id f2 = id /\
    corner_crossing (dr_joints design) (ps_part_id s) f1 f2.
Proof.
  unfold adapt_design_result. intros H Hs Hf Hid. apply bind_Ok in H as (ss & H1 & H). apply bind_Ok in H as (final & H2 & H).
  apply bind_Ok in H as ([] & _ & [= <-]). cbn [ad_parts] in Hs. apply traverse_Ok in H1. apply list_elem_of_lookup in Hs as [i Hi].
  assert (forall s0, s0 ∈ ss -> forall g, g ∈ ps_features s0 -> md_allow_overlap_with (mf_metadata g) = []) as Z0.
  { intros s0 [k Hk]%list_elem_of_lookup g Hg. destruct (Forall2_lookup_r _ _ _ _ _ H1 Hk) as (q & _ & E). by eapply adapted_no_overlaps. }
  unfold annotate_compatible_corner_overlaps in H2. destruct (dado_members (dr_joints design)) as [|m ms] eqn:Em.
  { injection H2 as ->. rewrite (Z0 s (list_elem_of_lookup_2 _ _ _ Hi) f Hf) in Hid. by apply not_elem_of_nil in Hid. }
  rewrite <- Em in H2. clear Em m ms. apply traverse_Ok in H2. destruct (Forall2_lookup_r _ _ _ _ _ H2 Hi) as (s0 & Hs0 & E).
  apply list_elem_of_lookup_2 in Hs0. unfold annotate_part in E. cbv zeta in E. apply bind_Ok in E as (gs & Hgs & E).
  apply new_PartSpec_Ok in E as ->. cbn [with_part_features ps_features ps_part_id] in *. apply traverse_Ok in Hgs.
  set (pairs := crossings _ _ _) in *.
  assert (forall g0, g0 ∈ ps_features s0 -> exists g, g ∈ gs /\ same_feature g0 g) as Same.
  { intros g0 Hg0. pose proof (Z0 s0 Hs0 g0 Hg0) as E0. apply list_elem_of_lookup in Hg0 as [k Hk].
    destruct (Forall2_lookup_l _ _ _ _ _ Hgs Hk) as (g & Hg & E). exists g. split; [by eapply list_elem_of_lookup_2|].
    by apply (annotated_overlap pairs g0 g ""). }
  apply list_elem_of_lookup in Hf as [k Hk]. destruct (Forall2_lookup_r _ _ _ _ _ Hgs Hk) as (f0 & Hf0 & E).
  apply list_elem_of_lookup_2 in Hf0. apply (annotated_overlap pairs f0 f id) in E as [_ P]; [|by eapply Z0].
  apply P, crossings_corner in Hid as (x & y & Hx & Hy & Exy & C). injection Exy as Ex Ey.
  rewrite elem_of_sort_by in Hx, Hy. destruct (Same x Hx) as (x' & Hx' & ax & ->). destruct (Same y Hy) as (y' & Hy' & ay & ->).
  exists (with_overlaps x ax), (with_overlaps y ay). split_and!; try done.
Qed.
