(* ===== verification/AdapterExamples.v ===== *)
(** * The bookcase as flat parts

    The design of [Examples] through the adapter: its ten panels, the nester that
    takes them, and the grooves that cross where a side meets the back. *)

From S2P Require Import Prelude Text Geometry Enums Models Identity DesignResult BookcaseParts JointGeometry BookcaseJoints AssemblyGraph Examples ManufacturingModel Nesting Adapter AdapterDesign.

Lemma example_build_parts : build_parts example_spec = Ok example_parts.
Proof. vm_compute. reflexivity. Qed.

Lemma example_updated_ids : NoDup (map part_id example_updated).
Proof. apply distinct_spec. vm_compute. reflexivity. Qed.

Definition example_adapted : AdaptedDesign :=
  Eval vm_compute in ok_or (mkAdapted "" "" "" []) (adapt_design_result example_result).

Lemma compiled_design_adapts_witness :
  exists a, adapt_design_result example_result = Ok a /\ Forall2 adapted_part example_updated (ad_parts a) /\
    length example_updated = 10%nat.
Proof.
  destruct (compiled_design_adapts example_spec example_parts example_updated example_joints example_result
    example_build_parts example_build_joints example_updated_ids eq_refl eq_refl) as (a & H & A & _).
  exists a. split; [exact H|]. split; [exact A|]. vm_compute. reflexivity.
Defined.

Lemma example_adapts : adapt_design_result example_result = Ok example_adapted.
Proof. vm_compute. reflexivity. Qed.

(** The left side, the feature of it that overlaps and what it overlaps with. *)
Definition crossing_cut : option (PartSpec * ManufacturingFeature * string) :=
  head (concat (map (fun s => concat (map (fun f => map (fun id => (s, f, id)) (md_allow_overlap_with (mf_metadata f)))
    (ps_features s))) (ad_parts example_adapted))).
Definition crossing_example : PartSpec * ManufacturingFeature * string :=
  Eval vm_compute in default (List.hd (mkPartSpec "" "" 0 0 0 "" "" [] "" true 1 0 None None default_axis_mapping [] [] None)
    (ad_parts example_adapted), part_outline "" 0 0 0, "") crossing_cut.

Definition crossing_panel : PartSpec := fst (fst crossing_example).
Definition crossing_feature : ManufacturingFeature := snd (fst crossing_example).

Lemma overlaps_only_at_corners_witness :
  ps_name crossing_panel = "LEFT_SIDE" /\ md_allow_overlap_with (mf_metadata crossing_feature) = [snd crossing_example] /\
  exists f1 f2, f1 ∈ ps_features crossing_panel /\ f2 ∈ ps_features crossing_panel /\ mf_feature_id f2 = snd crossing_example /\
    corner_crossing (dr_joints example_result) (ps_part_id crossing_panel) f1 f2.
Proof.
  assert (md_allow_overlap_with (mf_metadata crossing_feature) = [snd crossing_example]) as E by (vm_compute; reflexivity).
  split; [vm_compute; reflexivity|]. split; [exact E|].
  destruct (overlaps_only_at_corners example_result example_adapted crossing_panel crossing_feature (snd crossing_example) example_adapts)
    as (f1 & f2 & H1 & _ & H2 & E2 & C).
  - vm_compute. left.
  - vm_compute. left.
  - rewrite E. left.
  - exists f1, f2. split; [exact H1|]. split; [exact H2|]. split; [exact E2|exact C].
Defined.
