(* ===== verification/GCode.v ===== *)
(** * Dry-run machine programs: parser and safety validator

    [postprocessors/src/custombuild_postprocessors/parser.py] and the records of
    [model.py] beside it.  A payload is a string of bytes.  Numbers are Python's
    [Decimal]: a sign, a coefficient and a number of decimal places, compared by
    value. *)

From S2P Require Import Prelude Text.

(** ** Decimal numbers *)

Record Decimal := mkDecimal { dec_negative : bool; dec_coefficient : N; dec_places : nat }.

#[export] Instance Decimal_eq_dec : EqDecision Decimal.
Proof. solve_decision. Defined.

Definition dec_signed (d : Decimal) : Z :=
  if dec_negative d then - Z.of_N (dec_coefficient d) else Z.of_N (dec_coefficient d).
Definition dec_scale (d : Decimal) : Z := 10 ^ Z.of_nat (dec_places d).

Definition dec_leb (a b : Decimal) : bool := dec_signed a * dec_scale b <=? dec_signed b * dec_scale a.
Definition dec_ltb (a b : Decimal) : bool := dec_signed a * dec_scale b <? dec_signed b * dec_scale a.
Definition dec_eqb (a b : Decimal) : bool := dec_signed a * dec_scale b =? dec_signed b * dec_scale a.

(** [Decimal(n)] of an integer, and [Decimal("i.f")] with one decimal. *)
Definition dec_int (n : Z) : Decimal := mkDecimal (n <? 0) (Z.to_N (Z.abs n)) 0.
Definition dec_tenths (n : N) : Decimal := mkDecimal false n 1.

(** [int(d)]: truncation towards zero. *)
Definition dec_trunc (d : Decimal) : Z := Z.quot (dec_signed d) (dec_scale d).

(** [str(d)] *)
Definition dec_str (d : Decimal) : string :=
  let digits := pretty (dec_coefficient d) in
  let n := Z.of_nat (String.length digits) in
  let leftdigits := n - Z.of_nat (dec_places d) in
  let dotplace := if -6 <? leftdigits then leftdigits else 1 in
  let body :=
    if dotplace <=? 0 then "0." +:+ zeros (Z.to_nat (- dotplace)) digits
    else if n <=? dotplace then digits
    else String.substring 0 (Z.to_nat dotplace) digits +:+ "."
           +:+ String.substring (Z.to_nat dotplace) (Z.to_nat (n - dotplace)) digits in
  let exponent :=
    if leftdigits =? dotplace then ""
    else "E" +:+ (if 0 <=? leftdigits - dotplace then "+" else "") +:+ str_of_Z (leftdigits - dotplace) in
  (if dec_negative d then "-" else "") +:+ body +:+ exponent.

(** ** Parsed programs *)

Record GCodeWord := mkWord { w_letter : ascii; w_value : Decimal }.
Record ParsedLine := mkLine { ln_number : Z; ln_words : list GCodeWord }.
Record ParsedProgram := mkProgram {
  pp_lines : list ParsedLine;
  pp_units : string;
  pp_absolute : bool;
  pp_spindle_start_seen : bool;
  pp_minimum_z : option Decimal }.

Definition is_word (letter : ascii) (n : Z) (w : GCodeWord) : bool :=
  bool_decide (w_letter w = letter) && dec_eqb (w_value w) (dec_int n).
Arguments is_word (letter)%_char_scope n w.

(** ** Lexing *)

Definition newline : ascii := ascii_of_N 10.

(** [text.split("\n")] *)
Definition split_lines : list ascii -> list (list ascii) := split_char newline.

Definition is_ascii (c : ascii) : bool := (N_of_ascii c <? 128)%N.
Definition printable (c : ascii) : bool := ascii_in " " "~" c.

Definition at_line (msg : string) (line_number : Z) : string := msg +:+ str_of_Z line_number.

(** The loop of [_strip_comments]: [depth] is whether a comment is open. *)
Fixpoint strip_comments_from (line_number : Z) (depth : bool) (raw : list ascii) : result (list ascii) :=
  match raw with
  | [] => if depth then Err (GCodeParseError (at_line "unclosed comment at line " line_number)) else Ok []
  | c :: rest =>
      if bool_decide (c = "("%char) then
        if depth then Err (GCodeParseError (at_line "nested comment at line " line_number))
        else strip_comments_from line_number true rest
      else if bool_decide (c = ")"%char) then
        if depth then strip_comments_from line_number false rest
        else Err (GCodeParseError (at_line "unmatched comment close at line " line_number))
      else if bool_decide (c = ";"%char) && negb depth then Ok []
      else
        out ← strip_comments_from line_number depth rest;
        Ok (if depth then out else c :: out)
  end.

Definition strip_comments (raw : list ascii) (line_number : Z) : result (list ascii) :=
  strip_comments_from line_number false raw.

(** [l.strip()] on characters. *)
Definition strip_chars (l : list ascii) : list ascii := rev (drop_spaces (rev (drop_spaces l))).

Fixpoint span_digits (l : list ascii) : list ascii * list ascii :=
  match l with
  | c :: l' => if is_digit c then let '(ds, rest) := span_digits l' in (c :: ds, rest) else ([], l)
  | [] => ([], [])
  end.

(** The number of [_WORD]: an optional sign, then digits with an optional
    fraction, or a point followed by digits. *)
Definition match_number (l : list ascii) : option (Decimal * list ascii) :=
  let '(negative, l) :=
    match l with
    | c :: l' => if bool_decide (c = "-"%char) then (true, l')
                 else if bool_decide (c = "+"%char) then (false, l') else (false, l)
    | [] => (false, l)
    end in
  let '(whole, rest) := span_digits l in
  match rest with
  | c :: rest' =>
      if bool_decide (c = "."%char) then
        let '(fraction, rest'') := span_digits rest' in
        if bool_decide (whole = []) && bool_decide (fraction = []) then None
        else Some (mkDecimal negative (dec_value (whole ++ fraction)) (length fraction), rest'')
      else if bool_decide (whole = []) then None
      else Some (mkDecimal negative (dec_value whole) 0, rest)
  | [] => if bool_decide (whole = []) then None else Some (mkDecimal negative (dec_value whole) 0, [])
  end.

Definition is_letter (c : ascii) : bool := ascii_in "a" "z" c || ascii_in "A" "Z" c.

Definition match_word (l : list ascii) : option (GCodeWord * list ascii) :=
  match l with
  | c :: l' =>
      if is_letter c then
        match match_number l' with
        | Some (value, rest) => Some (mkWord (upper_char c) value, rest)
        | None => None
        end
      else None
  | [] => None
  end.

(** [repr] of a string of printable characters. *)
Definition py_repr (l : list ascii) : string :=
  let quote := if bool_decide ("'"%char ∈ l) && negb (bool_decide (ascii_of_N 34 ∈ l))
               then ascii_of_N 34 else "'"%char in
  let escape c := if bool_decide (c = "\"%char) || bool_decide (c = quote) then ["\"%char; c] else [c] in
  of_chars (quote :: concat (map escape l) ++ [quote]).

(** The loop of [_parse_words]; each pass consumes at least one character. *)
Fixpoint parse_words_from (fuel : nat) (line_number : Z) (code : list ascii) : result (list GCodeWord) :=
  match fuel with
  | O => Err (GCodeParseError "out of fuel")
  | S fuel' =>
      match drop_spaces code with
      | [] => Ok []
      | rest =>
          match match_word rest with
          | None =>
              Err (GCodeParseError (at_line "unsupported token at line " line_number +:+ ": " +:+ py_repr rest))
          | Some (w, rest') => ws ← parse_words_from fuel' line_number rest'; Ok (w :: ws)
          end
      end
  end.

Definition parse_words (code : list ascii) (line_number : Z) : result (list GCodeWord) :=
  words ← parse_words_from (S (length code)) line_number code;
  raise_if (bool_decide (length words = 0%nat))
    (GCodeParseError (at_line "empty executable line at " line_number));;
  Ok words.

(** ** [parse_gcode] *)

Definition empty_program : ParsedProgram := mkProgram [] "UNKNOWN" false false None.

(** What the loop over the words of a line records. *)
Definition note_word (p : ParsedProgram) (w : GCodeWord) : ParsedProgram :=
  let '(mkProgram lines units absolute spindle minimum) := p in
  if is_word "G" 21 w then mkProgram lines "MM" absolute spindle minimum
  else if is_word "G" 20 w then mkProgram lines "INCH" absolute spindle minimum
  else if is_word "G" 90 w then mkProgram lines units true spindle minimum
  else if is_word "G" 91 w then mkProgram lines units false spindle minimum
  else if is_word "M" 3 w || is_word "M" 4 w then mkProgram lines units absolute true minimum
  else if bool_decide (w_letter w = "Z"%char) then
    mkProgram lines units absolute spindle
      (match minimum with
       | None => Some (w_value w)
       | Some m => Some (if dec_ltb (w_value w) m then w_value w else m)
       end)
  else p.

Definition add_line (p : ParsedProgram) (l : ParsedLine) : ParsedProgram :=
  mkProgram (pp_lines p ++ [l]) (pp_units p) (pp_absolute p) (pp_spindle_start_seen p) (pp_minimum_z p).

Definition parse_line (p : ParsedProgram) (numbered : Z * list ascii) : result ParsedProgram :=
  let '(line_number, raw) := numbered in
  stripped ← strip_comments raw line_number;
  let code := strip_chars stripped in
  if bool_decide (code = []) || bool_decide (code = ["%"%char]) then Ok p
  else
    words ← parse_words code line_number;
    Ok (add_line (foldl note_word p words) (mkLine line_number words)).

Definition numbered {A} (l : list A) : list (Z * A) := zip (seqZ 1 (Z.of_nat (length l))) l.

Definition decode (payload : string) : result (list ascii) :=
  let text := chars payload in
  raise_if (negb (forallb is_ascii text)) (GCodeParseError "machine program must be ASCII");;
  Ok text.

Definition parse_gcode (payload : string) : result ParsedProgram :=
  text ← decode payload;
  raise_if (existsb (fun c => negb (bool_decide (c = newline)) && negb (printable c)) text)
    (GCodeParseError "machine program requires printable ASCII and LF separators");;
  foldM parse_line empty_program (numbered (split_lines text)).

(** ** The safety validator *)

Definition EXECUTION_POLICY_MARKER : string :=
  "(CUSTOMBUILD_EXECUTION_POLICY=PROHIBITED_UNTIL_EXACT_WCS_AND_CONTROLLER_STATE_ATTESTED)".

Definition ALLOWED_G : list Decimal :=
  map dec_int [0; 17; 21; 40; 49; 54; 55; 56; 57; 58; 59; 80; 90] ++ [dec_tenths 922; dec_tenths 923; dec_int 94].
Definition ALLOWED_M : list Decimal := map dec_int [2; 5; 9].
Definition ALLOWED_LETTERS : list ascii := ["G"; "M"; "N"; "X"; "Y"; "Z"]%char.

Definition dec_in (d : Decimal) (l : list Decimal) : bool := existsb (dec_eqb d) l.

Definition validate_bounds (axis : string) (bounds : Decimal * Decimal) : result unit :=
  raise_if (dec_ltb (snd bounds) (fst bounds)) (GCodeSafetyError (axis +:+ " bounds are reversed")).

(** [re.fullmatch(r"G(5[4-9])", required_wcs)] *)
Definition parse_required_wcs (required_wcs : string) : result Z :=
  match chars required_wcs with
  | [g; five; d] =>
      if bool_decide (g = "G"%char) && bool_decide (five = "5"%char) && ascii_in "4" "9" d
      then Ok (50 + Z.of_N (digit_value d))
      else Err (GCodeSafetyError ("unsupported required WCS: " +:+ required_wcs))
  | _ => Err (GCodeSafetyError ("unsupported required WCS: " +:+ required_wcs))
  end.

(** [str.splitlines] on text whose only line break is LF: no empty last line. *)
Definition splitlines (text : list ascii) : list (list ascii) :=
  let ls := split_lines text in
  match last ls with Some [] => take (length ls - 1) ls | _ => ls end.

Definition require_canonical_program_envelope (payload : string) (parsed : ParsedProgram) : result unit :=
  text ← decode payload;
  let nonblank := filter (fun il => snd il <> [])
                    (map (fun il => (fst il, strip_chars (snd il))) (numbered (splitlines text))) in
  let percent_lines := map fst (filter (fun il => snd il = ["%"%char]) nonblank) in
  raise_if
    (match nonblank, last nonblank with
     | (i0, l0) :: _ :: _, Some (i1, l1) =>
         negb (bool_decide (l0 = ["%"%char])) || negb (bool_decide (l1 = ["%"%char])) ||
         negb (bool_decide (percent_lines = [i0; i1]))
     | _, _ => true
     end)
    (GCodeSafetyError "validation program requires one canonical percent envelope");;
  let marker_lines := map fst (filter (fun il => snd il = chars EXECUTION_POLICY_MARKER) nonblank) in
  let first_executable_line := match pp_lines parsed with l :: _ => ln_number l | [] => 0 end in
  raise_if (match marker_lines with [m] => first_executable_line <=? m | _ => true end)
    (GCodeSafetyError "validation program requires one preamble execution-prohibition marker").

(** The variables of the main loop. *)
Record vstate := mkVState {
  v_current_z : option Decimal;
  v_seen_m5 : bool;
  v_seen_m2 : bool;
  v_seen_g21 : bool;
  v_seen_g90 : bool;
  v_active_wcs : option Z;
  v_m2_count : Z;
  v_offsets_suspended : bool;
  v_offsets_restored : bool }.

Definition start_vstate : vstate := mkVState None false false false false None 0 false false.

(** [letters.get(letter, [])] *)
Definition values_of (letter : ascii) (words : list GCodeWord) : list Decimal :=
  map w_value (filter (fun w => w_letter w = letter) words).
Arguments values_of (letter)%_char_scope words.

Section Validator.
Context (required_safe_z_mm maximum_z_mm : Decimal) (x_bounds_mm y_bounds_mm : Decimal * Decimal)
        (required_wcs : string) (required_wcs_number : Z).

(** One G word. *)
Definition check_g (n : Z) (s : vstate) (value : Decimal) : result vstate :=
  raise_if (negb (dec_in value ALLOWED_G))
    (GCodeSafetyError (at_line ("G" +:+ dec_str value +:+ " is forbidden in validation output at line ") n));;
  let seen_g21 := v_seen_g21 s || dec_eqb value (dec_int 21) in
  let seen_g90 := v_seen_g90 s || dec_eqb value (dec_int 90) in
  wcs ←
    (if dec_leb (dec_int 54) value && dec_leb value (dec_int 59) then
       let number := dec_trunc value in
       raise_if (match v_active_wcs s with Some w => negb (w =? number) | None => false end)
         (GCodeSafetyError (at_line "WCS changes are forbidden in validation output at line " n));;
       raise_if (negb (number =? required_wcs_number))
         (GCodeSafetyError (at_line ("unexpected WCS G" +:+ str_of_Z number +:+ " at line ") n));;
       Ok (Some number)
     else Ok (v_active_wcs s));
  let suspends := dec_eqb value (dec_tenths 922) in
  raise_if (suspends && (v_offsets_suspended s || v_offsets_restored s))
    (GCodeSafetyError "G92.2 offset suspension must occur exactly once");;
  let suspended := v_offsets_suspended s || suspends in
  let restores := dec_eqb value (dec_tenths 923) in
  raise_if (restores && (negb suspended || v_offsets_restored s))
    (GCodeSafetyError "G92.3 must restore one suspended offset state");;
  Ok (mkVState (v_current_z s) (v_seen_m5 s) (v_seen_m2 s) seen_g21 seen_g90 wcs (v_m2_count s)
        suspended (v_offsets_restored s || restores)).

(** One M word. *)
Definition check_m (n : Z) (s : vstate) (value : Decimal) : result vstate :=
  raise_if (negb (dec_in value ALLOWED_M))
    (GCodeSafetyError (at_line ("M" +:+ dec_str value +:+ " is forbidden in validation output at line ") n));;
  let is_m2 := dec_eqb value (dec_int 2) in
  Ok (mkVState (v_current_z s) (v_seen_m5 s || dec_eqb value (dec_int 5)) (v_seen_m2 s || is_m2)
        (v_seen_g21 s) (v_seen_g90 s) (v_active_wcs s)
        (if is_m2 then v_m2_count s + 1 else v_m2_count s) (v_offsets_suspended s) (v_offsets_restored s)).

Definition with_z (s : vstate) (z : option Decimal) : vstate :=
  mkVState z (v_seen_m5 s) (v_seen_m2 s) (v_seen_g21 s) (v_seen_g90 s) (v_active_wcs s) (v_m2_count s)
    (v_offsets_suspended s) (v_offsets_restored s).

Definition check_z (n : Z) (s : vstate) (zs : list Decimal) : result vstate :=
  match zs with
  | [] => Ok s
  | [z] =>
      raise_if (dec_ltb z required_safe_z_mm)
        (GCodeSafetyError (at_line "Z below required safe height at line " n +:+ ": " +:+ dec_str z));;
      raise_if (dec_ltb maximum_z_mm z)
        (GCodeSafetyError (at_line "Z exceeds setup maximum at line " n +:+ ": " +:+ dec_str z));;
      Ok (with_z s (Some z))
  | _ => Err (GCodeSafetyError (at_line "duplicate Z word at line " n))
  end.

Definition validate_axis_words (axis : string) (values : list Decimal) (bounds : Decimal * Decimal) (n : Z)
    : result unit :=
  match values with
  | [] => Ok ()
  | value :: _ =>
      raise_if (dec_ltb value (fst bounds) || dec_ltb (snd bounds) value)
        (GCodeSafetyError (at_line (axis +:+ " exceeds setup bounds at line ") n +:+ ": " +:+ dec_str value))
  end.

Definition nonempty {A} (l : list A) : bool := match l with [] => false | _ => true end.

(** The checks of a line with axis words. *)
Definition check_motion (n : Z) (words : list GCodeWord) (s : vstate) : result vstate :=
  let xs := values_of "X" words in
  let ys := values_of "Y" words in
  let zs := values_of "Z" words in
  raise_if (negb (v_seen_g21 s) || negb (v_seen_g90 s) || negb (v_seen_m5 s))
    (GCodeSafetyError (at_line "motion before G21/G90/M5 safety preamble at line " n));;
  raise_if (negb (bool_decide (v_active_wcs s = Some required_wcs_number)))
    (GCodeSafetyError (at_line ("motion before required WCS " +:+ required_wcs +:+ " at line ") n));;
  raise_if (negb (v_offsets_suspended s) || v_offsets_restored s)
    (GCodeSafetyError (at_line "motion outside the suspended G52/G92 window at line " n));;
  s ← check_z n s zs;
  raise_if (negb (dec_in (dec_int 0) (values_of "G" words)))
    (GCodeSafetyError (at_line "axis motion without an explicit G0 at line " n));;
  raise_if (1 <? Z.of_nat (length xs)) (GCodeSafetyError (at_line "duplicate X word at line " n));;
  raise_if (1 <? Z.of_nat (length ys)) (GCodeSafetyError (at_line "duplicate Y word at line " n));;
  validate_axis_words "X" xs x_bounds_mm n;;
  validate_axis_words "Y" ys y_bounds_mm n;;
  raise_if ((nonempty xs || nonempty ys) &&
            match v_current_z s with Some z => dec_ltb z required_safe_z_mm | None => true end)
    (GCodeSafetyError (at_line "XY move without established safe Z at line " n));;
  Ok s.

Definition has_axis (words : list GCodeWord) : bool :=
  nonempty (values_of "X" words) || nonempty (values_of "Y" words) || nonempty (values_of "Z" words).

Definition unknown_letters (words : list GCodeWord) : list ascii :=
  remove_dups (filter (fun c => c ∉ ALLOWED_LETTERS) (map w_letter words)).

Definition char_cmp (a b : ascii) : comparison := N.compare (N_of_ascii a) (N_of_ascii b).

(** One pass of the main loop. *)
Definition check_line (s : vstate) (line : ParsedLine) : result vstate :=
  let n := ln_number line in
  let words := ln_words line in
  raise_if (v_seen_m2 s) (GCodeSafetyError "M2 must be the final executable line");;
  let unknown := unknown_letters words in
  raise_if (nonempty unknown)
    (GCodeSafetyError (at_line ("word(s) " +:+
       str_join ", " (map (fun c => of_chars [c]) (sort_by char_cmp unknown))
       +:+ " are forbidden in validation output at line ") n));;
  s ← foldM (check_g n) s (values_of "G" words);
  s ← foldM (check_m n) s (values_of "M" words);
  raise_if (v_seen_m2 s &&
            (negb (v_m2_count s =? 1) ||
             negb (match values_of "M" words with [m] => dec_eqb m (dec_int 2) | _ => false end) ||
             existsb (fun c => bool_decide (c ∉ ["N"; "M"]%char)) (map w_letter words)))
    (GCodeSafetyError (at_line "M2 must be the only executable word at line " n));;
  if has_axis words then check_motion n words s else Ok s.

(** ** The canonical structure *)

Definition signature (line : ParsedLine) : list (ascii * Decimal) :=
  map (fun w => (w_letter w, w_value w)) (ln_words line).

Definition word_eqb (a b : ascii * Decimal) : bool :=
  bool_decide (fst a = fst b) && dec_eqb (snd a) (snd b).

(** Equality of tuples, element by element. *)
Fixpoint list_eqb {A} (eqb : A -> A -> bool) (l1 l2 : list A) : bool :=
  match l1, l2 with
  | [], [] => true
  | x :: l1', y :: l2' => eqb x y && list_eqb eqb l1' l2'
  | _, _ => false
  end.

Definition signatures_eqb : list (list (ascii * Decimal)) -> list (list (ascii * Decimal)) -> bool :=
  list_eqb (list_eqb word_eqb).

Definition g (n : Z) : ascii * Decimal := ("G"%char, dec_int n).
Definition m (n : Z) : ascii * Decimal := ("M"%char, dec_int n).

Definition CANONICAL_MODAL_PREAMBLE : list (list (ascii * Decimal)) :=
  [[g 21]; [g 17; g 40; g 49; g 80; g 90; g 94]; [m 5]; [m 9]; [("G"%char, dec_tenths 922)]].

Definition safe_z_move : list (ascii * Decimal) := [g 0; ("Z"%char, required_safe_z_mm)].

Definition expected_preamble : list (list (ascii * Decimal)) :=
  CANONICAL_MODAL_PREAMBLE ++ [[g required_wcs_number]; safe_z_move].

Definition expected_trailer : list (list (ascii * Decimal)) :=
  [safe_z_move; [m 5]; [m 9]; [("G"%char, dec_tenths 923)]; [m 2]].

Definition bad_body_signature (sig : list (ascii * Decimal)) : bool :=
  let letters := map fst sig in
  match sig with
  | [] => true
  | first :: _ =>
      negb (word_eqb first (g 0)) ||
      existsb (fun c => bool_decide (c ∉ ["G"; "X"; "Y"; "Z"]%char)) letters ||
      negb (bool_decide (length (filter (fun c => c = "G"%char) letters) = 1%nat)) ||
      negb (existsb (fun c => bool_decide (c ∈ ["X"; "Y"; "Z"]%char)) letters)
  end.

Definition require_canonical_safety_structure (parsed : ParsedProgram) : result unit :=
  let signatures := map signature (pp_lines parsed) in
  let np := length expected_preamble in
  let nt := length expected_trailer in
  let n := length signatures in
  raise_if (bool_decide (n < np + nt)%nat)
    (GCodeSafetyError "validation program is missing its canonical safety structure");;
  raise_if (negb (signatures_eqb (take np signatures) expected_preamble))
    (GCodeSafetyError "validation program safety preamble is not canonical");;
  raise_if (negb (signatures_eqb (drop (n - nt) signatures) expected_trailer))
    (GCodeSafetyError "validation program safety trailer is not canonical");;
  check_all (fun sig =>
    raise_if (bad_body_signature sig)
      (GCodeSafetyError "validation program body may contain only explicit G0 axis moves"))
    (take (n - nt - np) (drop np signatures)).

(** The checks made on a parsed program. *)
Definition validate_parsed (parsed : ParsedProgram) : result unit :=
  raise_if (negb (bool_decide (pp_units parsed = "MM")))
    (GCodeSafetyError "validation program must explicitly select G21 millimetres");;
  raise_if (negb (pp_absolute parsed))
    (GCodeSafetyError "validation program must explicitly remain in G90 absolute mode");;
  raise_if (pp_spindle_start_seen parsed)
    (GCodeSafetyError "spindle start M3/M4 is forbidden in validation output");;
  raise_if (match pp_minimum_z parsed with Some z => dec_ltb z (dec_int 0) | None => false end)
    (GCodeSafetyError "negative Z is forbidden in validation output");;
  s ← foldM check_line start_vstate (pp_lines parsed);
  raise_if (negb (v_m2_count s =? 1)) (GCodeSafetyError "validation program requires M2 terminator");;
  raise_if (negb (v_offsets_suspended s) || negb (v_offsets_restored s))
    (GCodeSafetyError "validation program must suspend and restore G52/G92 offsets");;
  require_canonical_safety_structure parsed.
End Validator.

Definition validate_validation_program (payload : string) (required_safe_z_mm maximum_z_mm : Decimal)
    (x_bounds_mm y_bounds_mm : Decimal * Decimal) (required_wcs : string) : result ParsedProgram :=
  validate_bounds "X" x_bounds_mm;;
  validate_bounds "Y" y_bounds_mm;;
  raise_if (dec_ltb maximum_z_mm required_safe_z_mm)
    (GCodeSafetyError "maximum Z cannot be below the required safe Z");;
  required_wcs_number ← parse_required_wcs required_wcs;
  parsed ← parse_gcode payload;
  require_canonical_program_envelope payload parsed;;
  validate_parsed required_safe_z_mm maximum_z_mm x_bounds_mm y_bounds_mm required_wcs
    required_wcs_number parsed;;
  Ok parsed.

(** ** What a controller does with a program

    An abstract controller, from which the safety of an accepted program is
    stated.  It executes a line word by word for the modal words, then the axis
    motion, as the reference controller does; [None] is an unknown register. *)

Record controller := mkController {
  c_x : option Decimal;
  c_y : option Decimal;
  c_z : option Decimal;
  c_spindle_off : bool;
  c_millimetres : bool;
  c_absolute : bool;
  c_wcs : option Z;
  c_offsets_suspended : bool;
  c_halted : bool }.

(** One G word: units, distance mode, work coordinates, offsets. *)
Definition exec_g (c : controller) (v : Decimal) : controller :=
  mkController (c_x c) (c_y c) (c_z c) (c_spindle_off c)
    (if dec_eqb v (dec_int 21) then true else if dec_eqb v (dec_int 20) then false else c_millimetres c)
    (if dec_eqb v (dec_int 90) then true else if dec_eqb v (dec_int 91) then false else c_absolute c)
    (if dec_leb (dec_int 54) v && dec_leb v (dec_int 59) then Some (dec_trunc v) else c_wcs c)
    (if dec_eqb v (dec_tenths 922) then true
     else if dec_eqb v (dec_tenths 923) then false else c_offsets_suspended c)
    (c_halted c).

(** One M word: spindle start and stop, program end. *)
Definition exec_m (c : controller) (v : Decimal) : controller :=
  mkController (c_x c) (c_y c) (c_z c)
    (if dec_eqb v (dec_int 3) || dec_eqb v (dec_int 4) then false
     else if dec_eqb v (dec_int 5) then true else c_spindle_off c)
    (c_millimetres c) (c_absolute c) (c_wcs c) (c_offsets_suspended c)
    (c_halted c || dec_eqb v (dec_int 2)).

Definition exec_word (c : controller) (w : GCodeWord) : controller :=
  if bool_decide (w_letter w = "G"%char) then exec_g c (w_value w)
  else if bool_decide (w_letter w = "M"%char) then exec_m c (w_value w)
  else c.

(** The commanded end point: the last word of an axis wins. *)
Definition axis_target (letter : ascii) (words : list GCodeWord) (old : option Decimal) : option Decimal :=
  match last (values_of letter words) with Some v => Some v | None => old end.
Arguments axis_target (letter)%_char_scope words old.

Definition exec_motion (c : controller) (words : list GCodeWord) : controller :=
  mkController (axis_target "X" words (c_x c)) (axis_target "Y" words (c_y c))
    (axis_target "Z" words (c_z c)) (c_spindle_off c) (c_millimetres c) (c_absolute c) (c_wcs c)
    (c_offsets_suspended c) (c_halted c).

Definition exec_line (c : controller) (line : ParsedLine) : controller :=
  exec_motion (foldl exec_word c (ln_words line)) (ln_words line).

(** The states reached at the end of each motion, and the final state. *)
Fixpoint run (c : controller) (lines : list ParsedLine) : list controller * controller :=
  match lines with
  | [] => ([], c)
  | line :: rest =>
      let c' := exec_line c line in
      let '(stops, final) := run c' rest in
      (if has_axis (ln_words line) then c' :: stops else stops, final)
  end.

Definition within (bounds : Decimal * Decimal) (o : option Decimal) : Prop :=
  match o with Some v => dec_leb (fst bounds) v = true /\ dec_leb v (snd bounds) = true | None => True end.

(** A safe stop: spindle off, millimetres, absolute, the required WCS, offsets
    suspended, Z known and between the safe height and the maximum, and every
    commanded X and Y inside the setup. *)
Record safe_stop (safe_z max_z : Decimal) (xb yb : Decimal * Decimal) (wcs : Z) (c : controller) : Prop := {
  sf_spindle : c_spindle_off c = true;
  sf_units : c_millimetres c = true;
  sf_absolute : c_absolute c = true;
  sf_wcs : c_wcs c = Some wcs;
  sf_offsets : c_offsets_suspended c = true;
  sf_running : c_halted c = false;
  sf_z : exists z, c_z c = Some z /\ dec_leb safe_z z = true /\ dec_leb z max_z = true;
  sf_x : within xb (c_x c);
  sf_y : within yb (c_y c) }.

(** ** Safety of accepted programs *)

Lemma dec_scale_pos d : 0 < dec_scale d.
Proof. unfold dec_scale. apply Z.pow_pos_nonneg; lia. Qed.

Lemma dec_eqb_cong a b c : dec_eqb a b = true -> dec_eqb a c = dec_eqb b c.
Proof.
  unfold dec_eqb. rewrite Z.eqb_eq. intros E. apply eq_true_iff_eq. rewrite !Z.eqb_eq.
  pose proof (dec_scale_pos a). pose proof (dec_scale_pos b). pose proof (dec_scale_pos c).
  split; intros H'; nia.
Qed.

Lemma dec_in_cong a b l : dec_eqb a b = true -> dec_in a l = dec_in b l.
Proof.
  intros E. unfold dec_in. induction l as [|d l IH]; cbn; [done|]. by rewrite IH, (dec_eqb_cong a b d).
Qed.

(** A value outside a list differs from every value that is in it. *)
Lemma dec_in_ne v d l : dec_in v l = true -> dec_in d l = false -> dec_eqb v d = false.
Proof.
  intros H1 H2. destruct (dec_eqb v d) eqn:E; [|done]. rewrite (dec_in_cong v d l E) in H1. congruence.
Qed.

Lemma dec_ltb_leb a b : dec_ltb a b = false -> dec_leb b a = true.
Proof. unfold dec_ltb, dec_leb. rewrite Z.ltb_ge, Z.leb_le. lia. Qed.

(** The modal words of a line act as its G words followed by its M words. *)
Lemma exec_words_split ws c :
  foldl exec_word c ws = foldl exec_m (foldl exec_g c (values_of "G" ws)) (values_of "M" ws).
Proof.
  assert (forall vs c v, foldl exec_m (exec_g c v) vs = exec_g (foldl exec_m c vs) v) as Gm
    by (intros vs; induction vs as [|u vs IH]; intros c0 v; cbn; [done|]; exact (IH (exec_m c0 u) v)).
  assert (forall vs c v, foldl exec_g (exec_m c v) vs = exec_m (foldl exec_g c vs) v) as Mg
    by (intros vs; induction vs as [|u vs IH]; intros c0 v; cbn; [done|]; exact (IH (exec_g c0 u) v)).
  revert c; induction ws as [|w ws IH]; intros c; [done|]. cbn [foldl]. rewrite IH.
  unfold values_of, exec_word.
  destruct (decide (w_letter w = "G"%char)) as [E|N].
  - rewrite bool_decide_true by done. rewrite filter_cons_True by done.
    rewrite filter_cons_False by (by rewrite E). done.
  - rewrite bool_decide_false by done. rewrite (filter_cons_False _ w ws) by done.
    destruct (decide (w_letter w = "M"%char)) as [E|N'].
    + rewrite bool_decide_true by done. rewrite filter_cons_True by done. cbn [map foldl]. by rewrite Mg.
    + rewrite bool_decide_false by done. by rewrite filter_cons_False.
Qed.

Section Safety.
Context (safe_z max_z : Decimal) (xb yb : Decimal * Decimal) (required_wcs : string) (wcs : Z).

(** The validator's variables describe the controller. *)
Record tracks (s : vstate) (c : controller) : Prop := {
  tr_m5 : v_seen_m5 s = true -> c_spindle_off c = true;
  tr_g21 : v_seen_g21 s = true -> c_millimetres c = true;
  tr_g90 : v_seen_g90 s = true -> c_absolute c = true;
  tr_wcs : forall w, v_active_wcs s = Some w -> c_wcs c = Some w;
  tr_offsets : v_offsets_suspended s = true -> c_offsets_suspended c = negb (v_offsets_restored s);
  tr_m2 : v_seen_m2 s = c_halted c;
  tr_count : v_seen_m2 s = false -> v_m2_count s = 0;
  tr_z : forall z, v_current_z s = Some z ->
    c_z c = Some z /\ dec_leb safe_z z = true /\ dec_leb z max_z = true;
  tr_x : within xb (c_x c);
  tr_y : within yb (c_y c) }.

Lemma check_g_tracks n s v s' c :
  tracks s c -> check_g wcs n s v = Ok s' -> tracks s' (exec_g c v).
Proof.
  intros [T5 T21 T90 Tw To T2 Tn Tz Tx Ty] H. unfold check_g in H. cbv zeta in H.
  apply bind_Ok in H as ([] & Hin & H). apply raise_if_Ok, negb_false_iff in Hin.
  apply bind_Ok in H as (w & Hw & H). apply bind_Ok in H as ([] & Hs & H).
  apply bind_Ok in H as ([] & Hr & H). injection H as <-. apply raise_if_Ok in Hs, Hr.
  pose proof (dec_in_ne v (dec_int 20) ALLOWED_G Hin eq_refl) as N20.
  pose proof (dec_in_ne v (dec_int 91) ALLOWED_G Hin eq_refl) as N91.
  split; cbn; rewrite ?N20, ?N91; try done.
  - destruct (dec_eqb v (dec_int 21)); [done|]. rewrite orb_false_r. auto.
  - destruct (dec_eqb v (dec_int 90)); [done|]. rewrite orb_false_r. auto.
  - destruct (_ && _); [|injection Hw as <-; auto].
    apply bind_Ok in Hw as ([] & _ & Hw). apply bind_Ok in Hw as ([] & _ & Hw). by injection Hw as <-.
  - destruct (dec_eqb v (dec_tenths 922)) eqn:E2.
    + rewrite (dec_eqb_cong v (dec_tenths 922) (dec_tenths 923) E2). rewrite orb_false_r.
      cbn in Hs. apply orb_false_iff in Hs as [_ ->]. done.
    + rewrite orb_false_r in *. destruct (dec_eqb v (dec_tenths 923)) eqn:E3.
      * intros _. by rewrite orb_true_r.
      * rewrite orb_false_r. auto.
Qed.

Lemma check_m_tracks n s v s' c :
  tracks s c -> check_m n s v = Ok s' -> tracks s' (exec_m c v).
Proof.
  intros [T5 T21 T90 Tw To T2 Tn Tz Tx Ty] H. unfold check_m in H. cbv zeta in H.
  apply bind_Ok in H as ([] & Hin & H). apply raise_if_Ok, negb_false_iff in Hin. injection H as <-.
  pose proof (dec_in_ne v (dec_int 3) ALLOWED_M Hin eq_refl) as N3.
  pose proof (dec_in_ne v (dec_int 4) ALLOWED_M Hin eq_refl) as N4.
  split; cbn; rewrite ?N3, ?N4; try done; [|by rewrite T2|].
  - cbn. destruct (dec_eqb v (dec_int 5)); [done|]. rewrite orb_false_r. auto.
  - destruct (dec_eqb v (dec_int 2)); rewrite ?orb_true_r, ?orb_false_r; [done | exact Tn].
Qed.

Lemma foldM_tracks {A} (check : vstate -> A -> result vstate) (exec : controller -> A -> controller) vs :
  (forall s v s' c, tracks s c -> check s v = Ok s' -> tracks s' (exec c v)) ->
  forall s s' c, tracks s c -> foldM check s vs = Ok s' -> tracks s' (foldl exec c vs).
Proof.
  intros Step. induction vs as [|v vs IH]; intros s s' c T H; cbn in *; [by injection H as <-|].
  apply bind_Ok in H as (s1 & H1 & H). eapply IH; [|exact H]. by eapply Step.
Qed.

Lemma axis_single letter words old v :
  values_of letter words = [v] -> axis_target letter words old = Some v.
Proof. unfold axis_target. by intros ->. Qed.

Lemma axis_within letter words old bounds n name :
  within bounds old -> Z.of_nat (length (values_of letter words)) <= 1 ->
  validate_axis_words name (values_of letter words) bounds n = Ok () ->
  within bounds (axis_target letter words old).
Proof.
  unfold axis_target. intros W L H.
  destruct (values_of letter words) as [|v [|v' l]]; [done| |cbn [length] in L; lia].
  cbn in *. apply raise_if_Ok, orb_false_iff in H as [H1%dec_ltb_leb H2%dec_ltb_leb]. done.
Qed.

Lemma check_motion_safe n words s s' c :
  tracks s c -> v_seen_m2 s = false ->
  has_axis words = true -> check_motion safe_z max_z xb yb required_wcs wcs n words s = Ok s' ->
  tracks s' (exec_motion c words) /\ safe_stop safe_z max_z xb yb wcs (exec_motion c words).
Proof.
  intros [T5 T21 T90 Tw To T2 Tn Tz Tx Ty] M2 Hax H. unfold check_motion in H. cbv zeta in H.
  apply bind_Ok in H as ([] & Hp & H). apply bind_Ok in H as ([] & Hwcs & H).
  apply bind_Ok in H as ([] & Hoff & H). apply bind_Ok in H as (s1 & Hz & H).
  apply bind_Ok in H as ([] & _ & H). apply bind_Ok in H as ([] & Lx & H).
  apply bind_Ok in H as ([] & Ly & H). apply bind_Ok in H as ([] & Vx & H).
  apply bind_Ok in H as ([] & Vy & H). apply bind_Ok in H as ([] & Sz & H). injection H as <-.
  apply raise_if_Ok in Hp, Hwcs, Hoff, Lx, Ly, Sz. bprop.
  assert (within xb (axis_target "X" words (c_x c))) as Wx by exact (axis_within _ _ _ _ _ _ Tx Lx Vx).
  assert (within yb (axis_target "Y" words (c_y c))) as Wy by exact (axis_within _ _ _ _ _ _ Ty Ly Vy).
  assert (exists z, axis_target "Z" words (c_z c) = Some z /\ dec_leb safe_z z = true /\
            dec_leb z max_z = true /\ v_current_z s1 = Some z /\ s1 = with_z s (Some z)) as
    (z & Ez & Z1 & Z2 & Ec & Es).
  { unfold check_z in Hz. destruct (values_of "Z" words) as [|z [|z' l]] eqn:E; [|inv_ok|done].
    - injection Hz as <-. unfold has_axis in Hax. rewrite E in Hax. rewrite orb_false_r in Hax.
      rewrite Hax in Sz. cbn in Sz. destruct (v_current_z s) as [z|] eqn:Ez; [|done].
      destruct (Tz z eq_refl) as (? & ? & ?). exists z. unfold axis_target. rewrite E.
      split_and!; try done. clear -Ez. destruct s. cbn in *. by subst.
    - exists z. split_and!; try done; [by apply axis_single | by apply dec_ltb_leb | by apply dec_ltb_leb]. }
  assert (v_offsets_suspended s = true /\ v_offsets_restored s = false) as [Ho1 Ho2] by done.
  subst s1. split.
  - split; cbn; auto. intros z' [= <-]. done.
  - split; cbn; auto; [by rewrite To, Ho2 | by rewrite <- T2, M2 | by exists z].
Qed.

Lemma no_axis_motion words c :
  has_axis words = false -> exec_motion c words = c.
Proof.
  unfold has_axis, exec_motion, axis_target. intros H. bprop.
  destruct (values_of "X" words), (values_of "Y" words), (values_of "Z" words); try done. by destruct c.
Qed.

Lemma values_of_nonempty letter words :
  nonempty (values_of letter words) = true -> exists w, w ∈ words /\ w_letter w = letter.
Proof.
  unfold values_of. destruct (filter (fun w => w_letter w = letter) words) as [|w l] eqn:E; [done|].
  intros _. exists w. assert (w ∈ w :: l) as Hin by left. rewrite <- E in Hin.
  apply list_elem_of_filter in Hin. tauto.
Qed.

Lemma has_axis_word words :
  has_axis words = true -> exists w, w ∈ words /\ w_letter w ∈ ["X"; "Y"; "Z"]%char.
Proof.
  unfold has_axis. rewrite !orb_true_iff.
  intros [[H|H]|H]; apply values_of_nonempty in H as (w & ? & E); exists w; rewrite E; (split; [done | set_solver]).
Qed.

Lemma check_line_safe s line s' c :
  tracks s c -> check_line safe_z max_z xb yb required_wcs wcs s line = Ok s' ->
  tracks s' (exec_line c line) /\
  (has_axis (ln_words line) = true -> safe_stop safe_z max_z xb yb wcs (exec_line c line)).
Proof.
  intros T H. unfold check_line in H. cbv zeta in H.
  apply bind_Ok in H as ([] & _ & H). apply bind_Ok in H as ([] & _ & H).
  apply bind_Ok in H as (s1 & H1 & H). apply bind_Ok in H as (s2 & H2 & H).
  apply bind_Ok in H as ([] & Hm2 & H). apply raise_if_Ok in Hm2.
  assert (tracks s2 (foldl exec_word c (ln_words line))) as T2.
  { rewrite exec_words_split. eapply (foldM_tracks _ exec_m); [|eapply (foldM_tracks _ exec_g)|]; [| |done|exact H1|exact H2].
    - intros. by eapply check_m_tracks.
    - intros. by eapply check_g_tracks. }
  unfold exec_line. destruct (has_axis (ln_words line)) eqn:Hax.
  - eapply check_motion_safe in H; [|exact T2| |exact Hax]; [tauto|].
    destruct (v_seen_m2 s2) eqn:E2; [|done]. exfalso. cbn in Hm2. apply orb_false_iff in Hm2 as [_ Hm2].
    apply has_axis_word in Hax as (w & Hw & Hl).
    assert (existsb (fun c => bool_decide (c ∉ ["N"; "M"]%char)) (map w_letter (ln_words line)) = true); [|congruence].
    apply existsb_exists. exists (w_letter w). split; [by apply list_elem_of_In, list_elem_of_fmap_2|].
    apply bool_decide_eq_true. intros Hn. set_unfold. intuition congruence.
  - rewrite no_axis_motion by done. injection H as <-. done.
Qed.

Lemma run_safe lines s s' c :
  tracks s c -> foldM (check_line safe_z max_z xb yb required_wcs wcs) s lines = Ok s' ->
  Forall (safe_stop safe_z max_z xb yb wcs) (fst (run c lines)) /\ tracks s' (snd (run c lines)).
Proof.
  revert s c; induction lines as [|line lines IH]; intros s c T H; cbn in *; [injection H as <-; done|].
  apply bind_Ok in H as (s1 & H1 & H). destruct (check_line_safe _ _ _ _ T H1) as [T1 S1].
  destruct (IH s1 _ T1 H) as [F T']. destruct (run (exec_line c line) lines) as [stops final]. cbn in *.
  destruct (has_axis (ln_words line)); cbn; [|done]. split; [|done]. constructor; [by apply S1 | done].
Qed.
End Safety.

(** *** The end of the program *)

Lemma check_g_m5 wcs n s v s' : check_g wcs n s v = Ok s' -> v_seen_m5 s' = v_seen_m5 s.
Proof.
  unfold check_g. cbv zeta. intros H. apply bind_Ok in H as ([] & _ & H).
  apply bind_Ok in H as (w & _ & H). apply bind_Ok in H as ([] & _ & H).
  apply bind_Ok in H as ([] & _ & H). by injection H as <-.
Qed.

Lemma check_m_m5 n s v s' : check_m n s v = Ok s' -> v_seen_m5 s = true -> v_seen_m5 s' = true.
Proof.
  unfold check_m. cbv zeta. intros H E. apply bind_Ok in H as ([] & _ & H). injection H as <-.
  cbn. by rewrite E.
Qed.

Lemma check_z_m5 safe_z max_z n s zs s' : check_z safe_z max_z n s zs = Ok s' -> v_seen_m5 s' = v_seen_m5 s.
Proof.
  unfold check_z. destruct zs as [|z [|? ?]]; [by intros [= <-]| |done]. intros H.
  apply bind_Ok in H as ([] & _ & H). apply bind_Ok in H as ([] & _ & H). by injection H as <-.
Qed.

Section End_of_program.
Context (safe_z max_z : Decimal) (xb yb : Decimal * Decimal) (required_wcs : string) (wcs : Z).

Lemma check_motion_m5 n words s s' :
  check_motion safe_z max_z xb yb required_wcs wcs n words s = Ok s' -> v_seen_m5 s' = true.
Proof.
  unfold check_motion. cbv zeta. intros H. apply bind_Ok in H as ([] & Hp & H).
  apply raise_if_Ok in Hp. bprop.
  apply bind_Ok in H as ([] & _ & H). apply bind_Ok in H as ([] & _ & H).
  apply bind_Ok in H as (s1 & Hz%check_z_m5 & H).
  do 6 (apply bind_Ok in H as ([] & _ & H)). injection H as <-. congruence.
Qed.

Lemma check_line_m5 s line s' :
  check_line safe_z max_z xb yb required_wcs wcs s line = Ok s' ->
  (v_seen_m5 s = true \/ has_axis (ln_words line) = true) -> v_seen_m5 s' = true.
Proof.
  unfold check_line. cbv zeta. intros H Or. apply bind_Ok in H as ([] & _ & H).
  apply bind_Ok in H as ([] & _ & H). apply bind_Ok in H as (s1 & H1 & H).
  apply bind_Ok in H as (s2 & H2 & H). apply bind_Ok in H as ([] & _ & H).
  destruct (has_axis (ln_words line)); [by eapply check_motion_m5|]. injection H as <-.
  destruct Or as [E|E]; [|done].
  apply (foldM_inv (fun s => v_seen_m5 s = true)) in H1; [|intros ? ? ? _ ? ->%check_g_m5; done|done].
  apply (foldM_inv (fun s => v_seen_m5 s = true)) in H2; [done|intros; by eapply check_m_m5|done].
Qed.

Lemma motion_needs_m5 lines s s' :
  foldM (check_line safe_z max_z xb yb required_wcs wcs) s lines = Ok s' ->
  (v_seen_m5 s = true \/ exists l, l ∈ lines /\ has_axis (ln_words l) = true) -> v_seen_m5 s' = true.
Proof.
  revert s; induction lines as [|line lines IH]; intros s H Or; cbn in H.
  - injection H as <-. destruct Or as [?|(l & ?%not_elem_of_nil & _)]; done.
  - apply bind_Ok in H as (s1 & H1 & H). apply (IH s1 H).
    destruct Or as [E|(l & [->|Hl]%elem_of_cons & Hax)].
    + left. eapply check_line_m5; eauto.
    + left. eapply check_line_m5; eauto.
    + right. by exists l.
Qed.

Lemma list_eqb_lookup {A} (eqb : A -> A -> bool) l1 l2 i y :
  list_eqb eqb l1 l2 = true -> l2 !! i = Some y -> exists x, l1 !! i = Some x /\ eqb x y = true.
Proof.
  revert l2 i; induction l1 as [|x l1 IH]; intros [|y' l2] i; cbn; try done.
  intros [E H]%andb_true_iff. destruct i as [|i]; cbn; [intros [= <-]; by exists x | by apply IH].
Qed.

(** The preamble of a canonical program moves to the safe height. *)
Lemma canonical_has_motion parsed :
  require_canonical_safety_structure safe_z wcs parsed = Ok () ->
  exists l, l ∈ pp_lines parsed /\ has_axis (ln_words l) = true.
Proof.
  unfold require_canonical_safety_structure. cbv zeta. intros H.
  apply bind_Ok in H as ([] & _ & H). apply bind_Ok in H as ([] & Hp & _).
  apply raise_if_Ok, negb_false_iff in Hp.
  destruct (list_eqb_lookup _ _ _ 6%nat (safe_z_move safe_z) Hp eq_refl) as (sig & Hl & E).
  apply lookup_take_Some in Hl as [Hl _]. apply list_elem_of_lookup_2, list_elem_of_fmap in Hl as (l & -> & Hl).
  exists l. split; [done|].
  destruct (list_eqb_lookup _ _ _ 1%nat ("Z"%char, safe_z) E eq_refl) as (w & Hw & Ew).
  apply andb_true_iff in Ew as [Ew _]. apply bool_decide_eq_true in Ew.
  apply list_elem_of_lookup_2, list_elem_of_fmap in Hw as (w' & -> & Hw). cbn in Ew.
  unfold has_axis. rewrite !orb_true_iff. right. unfold values_of.
  assert (w' ∈ filter (fun w => w_letter w = "Z"%char) (ln_words l)) as Hin by by apply list_elem_of_filter.
  destruct (filter _ _); [by apply not_elem_of_nil in Hin | done].
Qed.
End End_of_program.

(** C11: an accepted dry-run program is safe on any controller.  Start a
    controller in any state of spindle, units, distance mode, coordinate system,
    offsets and Z, with X and Y unknown and the program not ended.  If the
    validator accepts the payload, then at the end of every motion the spindle
    is off, coordinates are absolute millimetres in the required work coordinate
    system with offsets suspended, Z is between the safe height and the maximum,
    and X and Y are inside the setup; when the program ends it has halted with
    the spindle off and the offsets restored. *)
Theorem validated_program_safe (payload : string) (safe_z max_z : Decimal) (xb yb : Decimal * Decimal)
    (required_wcs : string) (parsed : ParsedProgram) (wcs : Z) (c : controller) :
  validate_validation_program payload safe_z max_z xb yb required_wcs = Ok parsed ->
  parse_required_wcs required_wcs = Ok wcs ->
  c_x c = None -> c_y c = None -> c_halted c = false ->
  let '(stops, final) := run c (pp_lines parsed) in
  Forall (safe_stop safe_z max_z xb yb wcs) stops /\
  c_halted final = true /\ c_offsets_suspended final = false /\ c_spindle_off final = true.
Proof.
  unfold validate_validation_program. intros H Hw Hx Hy Hh.
  apply bind_Ok in H as ([] & _ & H). apply bind_Ok in H as ([] & _ & H). apply bind_Ok in H as ([] & _ & H).
  apply bind_Ok in H as (wcs' & Hw' & H). rewrite Hw in Hw'. injection Hw' as <-.
  apply bind_Ok in H as (parsed' & _ & H). apply bind_Ok in H as ([] & _ & H).
  apply bind_Ok in H as ([] & H & E). injection E as ->.
  unfold validate_parsed in H. do 4 (apply bind_Ok in H as ([] & _ & H)).
  apply bind_Ok in H as (s & Hs & H). apply bind_Ok in H as ([] & Hn & H).
  apply bind_Ok in H as ([] & Ho & H). apply raise_if_Ok in Hn, Ho. bprop.
  pose proof (motion_needs_m5 _ _ _ _ _ _ _ _ _ Hs (or_intror (canonical_has_motion _ _ _ H))) as M5.
  assert (tracks safe_z max_z xb yb start_vstate c) as T0
    by (split; cbn; try done; [by rewrite Hx | by rewrite Hy]).
  destruct (run_safe _ _ _ _ _ _ _ _ _ _ T0 Hs) as [F T].
  destruct (run c (pp_lines parsed)) as [stops final]. cbn in *. split; [done|].
  destruct T as [T5 _ _ _ To T2 Tn _ _ _]. split_and!.
  - rewrite <- T2. destruct (v_seen_m2 s); [done|]. specialize (Tn eq_refl). lia.
  - rewrite To by done. by destruct (v_offsets_restored s).
  - by apply T5.
Qed.

(** A dry run over one point of a sheet, as the postprocessor writes it. *)
Definition example_payload : string :=
  of_chars (concat (map (fun l => chars l ++ [newline])
    ["%"; EXECUTION_POLICY_MARKER; "G21"; "G17 G40 G49 G80 G90 G94"; "M5"; "M9"; "G92.2"; "G54";
     "G0 Z15.000"; "(OPERATION groove)"; "G0 X10.500 Y20.000"; "G0 Z15.000"; "M5"; "M9"; "G92.3"; "M2"; "%"])).

Definition example_controller : controller :=
  mkController None None None false false false None false false.

Definition example_parsed : ParsedProgram :=
  Eval vm_compute in match parse_gcode example_payload with Ok p => p | Err _ => empty_program end.

(** The controller starts with the spindle on and in inches; the run halts it
    safely after three moves. *)
Lemma validated_program_safe_witness :
  validate_validation_program example_payload (dec_int 15) (dec_int 15) (dec_int 0, dec_int 1000)
    (dec_int 0, dec_int 1000) "G54" = Ok example_parsed /\
  let '(stops, final) := run example_controller (pp_lines example_parsed) in
  Forall (safe_stop (dec_int 15) (dec_int 15) (dec_int 0, dec_int 1000) (dec_int 0, dec_int 1000) 54) stops /\
  c_halted final = true /\ c_offsets_suspended final = false /\ c_spindle_off final = true.
Proof.
  assert (validate_validation_program example_payload (dec_int 15) (dec_int 15) (dec_int 0, dec_int 1000)
            (dec_int 0, dec_int 1000) "G54" = Ok example_parsed) as H by (vm_compute; reflexivity).
  split; [exact H|].
  refine (validated_program_safe _ _ _ _ _ _ _ 54 example_controller H _ _ _ _); reflexivity.
Defined.
