(* ===== verification/GCodeTotal.v ===== *)
(** * The dry-run parser ends, and fails only with its own errors

    The loop of [_parse_words] ([parser.py]) consumes a character on every pass,
    so it ends on every line; and whatever bytes it is given, the validator
    either accepts them or raises one of its two exceptions. *)

From S2P Require Import Prelude Text GCode.

(** ** Termination *)

(** The loop without fuel, as the code writes it. *)
Inductive lexes (line_number : Z) : list ascii -> result (list GCodeWord) -> Prop :=
  | lexes_end code : drop_spaces code = [] -> lexes line_number code (Ok [])
  | lexes_bad code : drop_spaces code <> [] -> match_word (drop_spaces code) = None ->
      lexes line_number code
        (Err (GCodeParseError (at_line "unsupported token at line " line_number +:+ ": " +:+ py_repr (drop_spaces code))))
  | lexes_word code w rest r : match_word (drop_spaces code) = Some (w, rest) -> lexes line_number rest r ->
      lexes line_number code (ws ← r; Ok (w :: ws)).

Lemma drop_spaces_length l : (length (drop_spaces l) <= length l)%nat.
Proof. induction l as [|c l IH]; cbn; [done|]. destruct (is_space c); cbn; lia. Qed.

Lemma span_digits_length l : (length (snd (span_digits l)) <= length l)%nat.
Proof.
  induction l as [|c l IH]; cbn; [done|]. destruct (is_digit c); cbn; [|lia].
  destruct (span_digits l); cbn in *. lia.
Qed.

Lemma match_number_length l d rest : match_number l = Some (d, rest) -> (length rest <= length l)%nat.
Proof.
  unfold match_number. set (signed := match l with [] => _ | _ => _ end).
  assert (length (snd signed) <= length l)%nat as Hs.
  { unfold signed. destruct l as [|c l]; [done|]. repeat case_bool_decide; cbn; lia. }
  destruct signed as [negative l']. cbn in Hs. pose proof (span_digits_length l') as H1.
  destruct (span_digits l') as [whole r]. cbn in H1. destruct r as [|c r].
  - destruct (bool_decide _); [discriminate|]. intros [= _ <-]. cbn. lia.
  - destruct (bool_decide (c = _)).
    + pose proof (span_digits_length r) as H2. destruct (span_digits r) as [fraction r']. cbn in *.
      destruct (_ && _); [discriminate|]. intros [= _ <-]. lia.
    + destruct (bool_decide _); [discriminate|]. intros [= _ <-]. lia.
Qed.

(** A word takes at least its letter. *)
Lemma match_word_length l w rest : match_word l = Some (w, rest) -> (length rest < length l)%nat.
Proof.
  destruct l as [|c l]; [discriminate|]. cbn. destruct (is_letter c); [|discriminate].
  destruct (match_number l) as [[d r]|] eqn:E; [|discriminate]. intros [= _ <-].
  apply match_number_length in E. lia.
Qed.

Lemma lexes_fuel line_number fuel code : (length code < fuel)%nat ->
  lexes line_number code (parse_words_from fuel line_number code).
Proof.
  revert code; induction fuel as [|fuel IH]; intros code H; [lia|]. cbn [parse_words_from].
  pose proof (drop_spaces_length code) as D.
  destruct (drop_spaces code) as [|c rest] eqn:E; [by apply lexes_end|].
  destruct (match_word (c :: rest)) as [[w rest']|] eqn:M; rewrite <- E in *.
  - pose proof (match_word_length _ _ _ M). apply (lexes_word _ _ w rest'); [done|]. apply IH. lia.
  - apply lexes_bad; [by rewrite E|done].
Qed.

Lemma lexes_unique line_number code r s : lexes line_number code r -> lexes line_number code s -> r = s.
Proof.
  intros H. revert s. induction H as [code E|code N M|code w rest r M H IH]; intros s Hs.
  - inversion Hs as [|? N|? ? ? ? M]; subst; [done|done|]. rewrite E in M. discriminate M.
  - inversion Hs as [|?|? ? ? ? M']; subst; [done|done|congruence].
  - inversion Hs as [? E|? ? M'|? w' rest' r' M']; subst; [rewrite E in M; discriminate M|congruence|].
    rewrite M in M'. injection M' as <- <-. by rewrite (IH r').
Qed.

(** C36: reading a line ends.  The loop that reads the words of a line, written
    without fuel as a relation, has exactly one result for every line, and the
    function computes it with the fuel it takes and with any more: the bound on
    the number of passes is never reached. *)
Theorem parse_words_terminates (code : list ascii) (line_number : Z) :
  lexes line_number code (parse_words_from (S (length code)) line_number code) /\
  (forall r, lexes line_number code r -> r = parse_words_from (S (length code)) line_number code) /\
  (forall fuel, (length code < fuel)%nat ->
     parse_words_from fuel line_number code = parse_words_from (S (length code)) line_number code).
Proof.
  assert (length code < S (length code))%nat as H by lia. split; [by apply lexes_fuel|]. split.
  - intros r Hr. exact (lexes_unique _ _ _ _ Hr (lexes_fuel _ _ _ H)).
  - intros fuel Hf. exact (lexes_unique _ _ _ _ (lexes_fuel _ _ _ Hf) (lexes_fuel _ _ _ H)).
Qed.

Lemma parse_words_terminates_witness :
  parse_words_from 100 1 (chars "G0 X12.5 Y-3") =
    Ok [mkWord "G" (dec_int 0); mkWord "X" (mkDecimal false 125 1); mkWord "Y" (dec_int (-3))].
Proof.
  rewrite (proj2 (proj2 (parse_words_terminates (chars "G0 X12.5 Y-3") 1)) 100%nat ltac:(vm_compute; lia)).
  vm_compute. reflexivity.
Defined.

(** ** Errors *)

(** Every exception of the computation satisfies [P]. *)
Definition raises {A} (P : py_error -> Prop) (r : result A) : Prop :=
  match r with Ok _ => True | Err e => P e end.

Section Raises.
Context (P : py_error -> Prop).

Lemma raises_bind {A B} (r : result A) (f : A -> result B) :
  raises P r -> (forall a, raises P (f a)) -> raises P (r ≫= f).
Proof. destruct r; cbn; auto. Qed.

Lemma raises_if b e : P e -> raises P (raise_if b e).
Proof. by destruct b. Qed.

Lemma raises_foldM {S A} (f : S -> A -> result S) s l :
  (forall s x, raises P (f s x)) -> raises P (foldM f s l).
Proof. intros H. revert s; induction l as [|x l IH]; intros s; [done|]. cbn. by apply raises_bind. Qed.

Lemma raises_check_all {A} (f : A -> result unit) l : (forall x, raises P (f x)) -> raises P (check_all f l).
Proof. intros H. induction l as [|x l IH]; [done|]. cbn. by apply raises_bind. Qed.
End Raises.

(** Goes through the checks of a computation. *)
Ltac raising :=
  repeat first [apply raises_bind; [|intros ?] | apply raises_if; exact I | apply raises_foldM; intros ? ?
    | apply raises_check_all; intros ? | exact I | progress case_match].

Definition parse_error (e : py_error) : Prop := match e with GCodeParseError _ => True | _ => False end.
Definition safety_error (e : py_error) : Prop := match e with GCodeSafetyError _ => True | _ => False end.

Lemma strip_comments_raises n depth raw : raises parse_error (strip_comments_from n depth raw).
Proof.
  revert depth; induction raw as [|c raw IH]; intros depth; cbn; [by destruct depth|].
  repeat case_bool_decide; destruct depth; cbn; auto; apply raises_bind; auto; done.
Qed.

Lemma parse_words_raises fuel n code : raises parse_error (parse_words_from fuel n code).
Proof.
  revert code; induction fuel as [|fuel IH]; intros code; [done|]. cbn [parse_words_from].
  destruct (drop_spaces code) as [|c l]; [done|]. destruct (match_word (c :: l)) as [[w rest]|]; [|done].
  by apply raises_bind.
Qed.

Lemma parse_gcode_raises payload : raises parse_error (parse_gcode payload).
Proof.
  unfold parse_gcode, decode. apply raises_bind; [apply raises_bind; [by apply raises_if|done]|]. intros text.
  apply raises_bind; [by apply raises_if|]. intros _. apply raises_foldM. intros p [n raw]. unfold parse_line.
  apply raises_bind; [apply strip_comments_raises|]. intros s. cbv zeta. destruct (_ || _); [done|].
  apply raises_bind; [|done]. unfold parse_words. apply raises_bind; [apply parse_words_raises|]. intros ws.
  apply raises_bind; [by apply raises_if|done].
Qed.

Lemma check_line_raises required_z max_z xb yb wcs number s line :
  raises safety_error (check_line required_z max_z xb yb wcs number s line).
Proof.
  unfold check_line, check_g, check_m, check_motion, check_z, validate_axis_words. cbv zeta.
  raising.
Qed.

Lemma validate_parsed_raises required_z max_z xb yb wcs number parsed :
  raises safety_error (validate_parsed required_z max_z xb yb wcs number parsed).
Proof.
  unfold validate_parsed, require_canonical_safety_structure. cbv zeta.
  do 4 (apply raises_bind; [by apply raises_if|]; intros _).
  apply raises_bind; [apply raises_foldM; intros; apply check_line_raises|]. intros s. raising.
Qed.

(** the validator fails only in its own two ways.  Whatever bytes, heights,
    bounds and coordinate system it is given, validation accepts, raises
    [GCodeSafetyError], or raises [GCodeParseError]; and it raises
    [GCodeParseError] only with the error of the parser on that very text. *)
Theorem validator_errors (payload : string) (required_z max_z : Decimal) (xb yb : Decimal * Decimal) (wcs : string) :
  match validate_validation_program payload required_z max_z xb yb wcs with
  | Ok parsed => parse_gcode payload = Ok parsed
  | Err (GCodeParseError msg) => parse_gcode payload = Err (GCodeParseError msg)
  | Err (GCodeSafetyError _) => True
  | Err _ => False
  end.
Proof.
  unfold validate_validation_program, validate_bounds.
  destruct (dec_ltb (snd xb) (fst xb)); [exact I|]. destruct (dec_ltb (snd yb) (fst yb)); [exact I|].
  destruct (dec_ltb max_z required_z); [exact I|]. cbn [raise_if mbind result_bind].
  destruct (parse_required_wcs wcs) as [number|e] eqn:W; cbn [mbind result_bind].
  - pose proof (parse_gcode_raises payload) as Rp. destruct (parse_gcode payload) as [parsed|e] eqn:Ep;
      cbn [mbind result_bind]; [|by destruct e].
    assert (raises safety_error (require_canonical_program_envelope payload parsed)) as Re.
    { unfold parse_gcode in Ep. apply bind_Ok in Ep as (text & Et & _). unfold require_canonical_program_envelope.
      rewrite Et. cbn [mbind result_bind]. cbv zeta. apply raises_bind; [by apply raises_if|]. intros _. by apply raises_if. }
    destruct (require_canonical_program_envelope payload parsed) as [u|e]; cbn [mbind result_bind]; [|by destruct e].
    pose proof (validate_parsed_raises required_z max_z xb yb wcs number parsed) as Rv.
    destruct (validate_parsed _ _ _ _ _ _ _) as [v|e]; cbn [mbind result_bind]; [done|by destruct e].
  - assert (raises safety_error (parse_required_wcs wcs)) as R by (unfold parse_required_wcs; raising).
    rewrite W in R. by destruct e.
Qed.
