(* ===== verification/Machining.v ===== *)
(** * Machines, tools and operations

    The rest of [packages/manufacturing/src/custombuild_manufacturing/model.py]
    (tools, machine profiles, setups, operations and operations documents, with
    their constructor checks), the reference machines of [profiles.py], the
    two-sided registrations of [operations.py], and from [dfm.py] the choice of
    a tool and the transformation of part coordinates to machine coordinates. *)

From S2P Require Import Prelude Text Identity ManufacturingModel.

(** ** Operations and tools *)

Inductive OperationKind := OP_DRILL | OP_COUNTERSINK | OP_POCKET | OP_GROOVE | OP_CONTOUR | OP_ENGRAVE.

#[export] Instance OperationKind_eq_dec : EqDecision OperationKind.
Proof. solve_decision. Defined.

Definition operation_kind_value (k : OperationKind) : string :=
  match k with
  | OP_DRILL => "DRILL" | OP_COUNTERSINK => "COUNTERSINK" | OP_POCKET => "POCKET"
  | OP_GROOVE => "GROOVE" | OP_CONTOUR => "CONTOUR" | OP_ENGRAVE => "ENGRAVE"
  end.

Definition side_value (s : Side) : string :=
  match s with SIDE_A => "A" | SIDE_B => "B" | SIDE_EDGE => "EDGE" end.

Record ToolSpec := mkTool {
  tl_tool_id : string;
  tl_name : string;
  tl_diameter_um : Z;
  tl_cutting_length_um : Z;
  tl_supported_operations : list OperationKind;
  tl_spindle_rpm : Z;
  tl_feed_um_min : Z;
  tl_plunge_um_min : Z;
  tl_measured_diameter_um : option Z;
  tl_runout_um : Z;
  tl_version : string }.

#[export] Instance ToolSpec_eq_dec : EqDecision ToolSpec.
Proof. solve_decision. Defined.

Definition effective_diameter_um (t : ToolSpec) : Z := int_or (tl_measured_diameter_um t) (tl_diameter_um t).

(** [not s or s != s.strip()] *)
Definition blank_or_padded (s : string) : bool :=
  bool_decide (s = "") || negb (bool_decide (s = strip s)).

Definition new_ToolSpec (t : ToolSpec) : result ToolSpec :=
  raise_if (Z.min (Z.min (tl_diameter_um t) (tl_cutting_length_um t)) (tl_spindle_rpm t) <=? 0)
    (ValueError "invalid tool dimensions or spindle speed");;
  raise_if (Z.min (tl_feed_um_min t) (tl_plunge_um_min t) <=? 0)
    (ValueError "tool feeds must be positive");;
  raise_if (blank_or_padded (tl_tool_id t)) (ValueError "tool_id must be a canonical non-blank string");;
  raise_if (blank_or_padded (tl_name t)) (ValueError "tool name must be a canonical non-blank string");;
  raise_if (blank_or_padded (tl_version t)) (ValueError "tool version must be a canonical non-blank string");;
  raise_if (bool_decide (tl_supported_operations t = []) || negb (distinct (tl_supported_operations t)))
    (ValueError "tool supported operations must be non-empty and unique");;
  raise_if (match tl_measured_diameter_um t with Some d => d <=? 0 | None => false end)
    (ValueError "measured tool diameter must be a positive integer");;
  raise_if (tl_runout_um t <? 0) (ValueError "tool runout must be a non-negative integer");;
  raise_if (effective_diameter_um t <=? 2 * tl_runout_um t)
    (ValueError "tool runout must be smaller than the cutter radius");;
  Ok t.

(** ** Machine profiles *)

Record MachineProfile := mkMachine {
  mp_profile_id : string;
  mp_name : string;
  mp_version : string;
  mp_controller : string;
  mp_work_width_um : Z;
  mp_work_height_um : Z;
  mp_work_z_um : Z;
  mp_safe_z_um : Z;
  mp_max_spindle_rpm : Z;
  mp_supported_operations : list OperationKind;
  mp_tools : list ToolSpec;
  mp_tool_library_version : string;
  mp_supported_sides : list Side;
  mp_can_flip_stock : bool;
  mp_edge_aggregate : bool;
  mp_wcs_codes : list string;
  mp_keep_out_zones : list Rect;
  mp_accuracy_um : Z }.

#[export] Instance MachineProfile_eq_dec : EqDecision MachineProfile.
Proof. solve_decision. Defined.

(** [len(code) == 3 and code.startswith("G5") and code[-1] in "456789"] *)
Definition wcs_code_ok (code : string) : bool :=
  match chars code with
  | [g; five; d] => bool_decide (g = "G"%char) && bool_decide (five = "5"%char) && ascii_in "4" "9" d
  | _ => false
  end.

Definition new_MachineProfile (p : MachineProfile) : result MachineProfile :=
  raise_if (Z.min (Z.min (mp_work_width_um p) (mp_work_height_um p)) (mp_work_z_um p) <=? 0)
    (ValueError "machine work envelope must be positive");;
  raise_if ((mp_safe_z_um p <=? 0) || (mp_max_spindle_rpm p <=? 0))
    (ValueError "safe Z and spindle limit must be positive");;
  raise_if (mp_work_z_um p <? mp_safe_z_um p) (ValueError "safe Z exceeds machine Z travel");;
  check_all (fun lv => raise_if (blank_or_padded (snd lv))
                         (ValueError (fst lv +:+ " must be a canonical non-blank string")))
    [("profile_id", mp_profile_id p); ("machine name", mp_name p);
     ("machine version", mp_version p); ("controller", mp_controller p)];;
  raise_if (mp_accuracy_um p <=? 0) (ValueError "machine accuracy must be a positive integer");;
  raise_if (negb (distinct (map tl_tool_id (mp_tools p)))) (ValueError "machine tool IDs must be unique");;
  raise_if (bool_decide (mp_wcs_codes p = []) || negb (distinct (mp_wcs_codes p)))
    (ValueError "machine WCS codes must be non-empty and unique");;
  raise_if (existsb (fun code => negb (wcs_code_ok code)) (mp_wcs_codes p))
    (ValueError "machine WCS codes must be canonical G54-G59 values");;
  Ok p.

(** ** Setups, operations and documents *)

Record Setup := mkSetup {
  su_setup_id : string;
  su_stock_id : string;
  su_material_id : string;
  su_material_version : string;
  su_sheet_index : Z;
  su_side : Side;
  su_wcs : string;
  su_origin : Point2D;
  su_stock_width_um : Z;
  su_stock_height_um : Z;
  su_stock_thickness_um : Z;
  su_safe_z_um : Z;
  su_reference_surface : string;
  su_orientation : string;
  su_fixture : string;
  su_keep_out_zones : list Rect;
  su_tool_ids : list string;
  su_probe_method : string;
  su_operator_steps : list string }.

Record CAMOperation := mkCAMOperation {
  op_operation_id : string;
  op_setup_id : string;
  op_part_id : string;
  op_instance_id : string;
  op_feature_id : string;
  op_kind : OperationKind;
  op_side : Side;
  op_tool_id : string;
  op_x_um : Z;
  op_y_um : Z;
  op_depth_um : Z;
  op_diameter_um : option Z;
  op_width_um : option Z;
  op_length_um : option Z;
  op_cutter_envelope_x_um : option Z;
  op_cutter_envelope_y_um : option Z;
  op_cutter_envelope_width_um : option Z;
  op_cutter_envelope_length_um : option Z;
  op_stepdown_um : option Z;
  op_stepover_ppm : option Z;
  op_through : bool;
  op_source_rotation_90 : bool;
  op_compensation : option string;
  op_holding_strategy : option string;
  op_corner_strategy : option string;
  op_corner_relief_radius_um : option Z;
  op_open_end_reliefs : list string;
  op_tolerance_um : Z;
  op_fit_clearance_um : Z }.

Record OperationsDocument := mkOperationsDocument {
  od_schema_version : string;
  od_design_hash : string;
  od_machine_profile_id : string;
  od_machine_profile_version : string;
  od_setups : list Setup;
  od_operations : list CAMOperation;
  od_mode : string;
  od_tool_catalog_version : string;
  od_tool_catalog_fingerprint : string;
  od_tools : list ToolSpec }.

(** ** The tool catalogue fingerprint *)

Definition json_opt (o : option Z) : json := match o with Some z => JInt z | None => JNull end.

(** [asdict(tool)], with enumeration members as their values. *)
Definition tool_json (t : ToolSpec) : json :=
  JObj [("tool_id", JStr (tl_tool_id t)); ("name", JStr (tl_name t));
        ("diameter_um", JInt (tl_diameter_um t)); ("cutting_length_um", JInt (tl_cutting_length_um t));
        ("supported_operations",
          JArr (map (fun k => JStr (operation_kind_value k)) (tl_supported_operations t)));
        ("spindle_rpm", JInt (tl_spindle_rpm t)); ("feed_um_min", JInt (tl_feed_um_min t));
        ("plunge_um_min", JInt (tl_plunge_um_min t));
        ("measured_diameter_um", json_opt (tl_measured_diameter_um t));
        ("runout_um", JInt (tl_runout_um t)); ("version", JStr (tl_version t))].

Definition by_tool_id : ToolSpec -> ToolSpec -> comparison := cmp_on tl_tool_id String.compare.

Definition tool_catalog_fingerprint (tools : list ToolSpec) : string :=
  content_hash (JArr (map tool_json (sort_by by_tool_id tools))).

Definition new_OperationsDocument (d : OperationsDocument) : result OperationsDocument :=
  raise_if (negb (bool_decide (od_mode d = "VALIDATION")))
    (ValueError "the MVP only supports machine-neutral VALIDATION output");;
  raise_if (negb (bool_decide (length (od_operations d) = 0%nat)) && bool_decide (od_tools d = []))
    (ValueError "operations document requires an exact selected-tool snapshot");;
  raise_if (bool_decide (od_tool_catalog_version d = "unversioned") ||
            negb (bool_decide (char_count (od_tool_catalog_fingerprint d) = 64%nat)))
    (ValueError "operations document requires a versioned tool-catalog fingerprint");;
  raise_if (negb (distinct (map tl_tool_id (od_tools d))))
    (ValueError "operations document contains duplicate selected tool IDs");;
  raise_if (negb (bool_decide (od_tool_catalog_fingerprint d = tool_catalog_fingerprint (od_tools d))))
    (ValueError "operations document tool snapshot fingerprint does not match");;
  Ok d.

(** ** Reference machines *)

Definition REFERENCE_MACHINE_PROFILE_ID : string := "custombuild-router-1325-linuxcnc".
Definition LARGE_FORMAT_MACHINE_PROFILE_ID : string := "custombuild-router-5125-linuxcnc".
Definition REFERENCE_TOOL_VERSION : string := "1.0.0-validation".

Definition router_operations : list OperationKind := [OP_POCKET; OP_GROOVE; OP_CONTOUR; OP_ENGRAVE].

Definition reference_tools : list ToolSpec :=
  [mkTool "T05" "5 mm brad-point reference drill" 5000 30000 [OP_DRILL] 12000 1500000 500000
     None 0 REFERENCE_TOOL_VERSION;
   mkTool "T08D" "8 mm reference drill/countersink" 8000 35000 [OP_DRILL; OP_COUNTERSINK] 12000 1500000 500000
     None 0 REFERENCE_TOOL_VERSION;
   mkTool "T06R" "6 mm two-flute reference router" 6000 30000 router_operations 18000 3000000 800000
     None 0 REFERENCE_TOOL_VERSION;
   mkTool "T08R" "8 mm two-flute reference router" 8000 35000 router_operations 18000 4000000 1000000
     None 0 REFERENCE_TOOL_VERSION].

Definition linuxcnc_reference_router_1325 : MachineProfile :=
  mkMachine REFERENCE_MACHINE_PROFILE_ID "Custombuild Reference Router 1325 / LinuxCNC" "1.0.0-validation"
    "LinuxCNC" 2500000 1300000 150000 15000 24000
    [OP_DRILL; OP_COUNTERSINK; OP_POCKET; OP_GROOVE; OP_CONTOUR; OP_ENGRAVE] reference_tools
    "reference-tools-1.0.0-validation" [SIDE_A] true false ["G54"; "G55"] [] 100.

(** [replace(linuxcnc_reference_router_1325(), ...)] *)
Definition linuxcnc_reference_router_5125 : MachineProfile :=
  let p := linuxcnc_reference_router_1325 in
  mkMachine LARGE_FORMAT_MACHINE_PROFILE_ID "Custombuild Reference Router 5125 / LinuxCNC" "1.0.0-validation"
    (mp_controller p) 5100000 2600000 (mp_work_z_um p) (mp_safe_z_um p) (mp_max_spindle_rpm p)
    (mp_supported_operations p) (mp_tools p) (mp_tool_library_version p) (mp_supported_sides p)
    (mp_can_flip_stock p) (mp_edge_aggregate p) (mp_wcs_codes p) (mp_keep_out_zones p) (mp_accuracy_um p).

(** [_resolve_reference_machine] of the validator and of the postprocessor. *)
Definition resolve_reference_machine (profile_id : string) : option MachineProfile :=
  if bool_decide (profile_id = REFERENCE_MACHINE_PROFILE_ID) then Some linuxcnc_reference_router_1325
  else if bool_decide (profile_id = LARGE_FORMAT_MACHINE_PROFILE_ID) then Some linuxcnc_reference_router_5125
  else None.

(** ** Two-sided registration *)

Record TwoSidedRegistration := mkRegistration {
  tr_declaration_authority : string;
  tr_method_id : string;
  tr_fixture_method_version : string;
  tr_pin_diameter_um : Z;
  tr_position_tolerance_um : Z;
  tr_points : list Point2D }.

Definition CLIENT_DECLARED_AUTHORITY : string := "CLIENT_DECLARED".
Definition MIN_REGISTRATION_PIN_DIAMETER_UM : Z := 1000.
Definition MAX_REGISTRATION_PIN_DIAMETER_UM : Z := 50000.
Definition MIN_REGISTRATION_POSITION_TOLERANCE_UM : Z := 1.
Definition MAX_REGISTRATION_POSITION_TOLERANCE_UM : Z := 10000.
Definition MIN_REGISTRATION_USABLE_BASELINE_UM : Z := 100000.

Definition registration_character (c : ascii) : bool :=
  is_alnum c || bool_decide (c ∈ ["-"; "_"; "."; ":"]%char).

Definition registration_identity_ok (value : string) : bool :=
  negb (bool_decide (value = "")) && bool_decide (String.length value <= 64)%nat &&
  bool_decide (value = strip value) && forallb registration_character (chars value).

Definition registration_pin_keep_out_radius_um (plan : TwoSidedRegistration) : Z :=
  (tr_pin_diameter_um plan + 1) / 2 + tr_position_tolerance_um plan.

Definition registration_pin_keep_out_rectangles (plan : TwoSidedRegistration) : list Rect :=
  let radius := registration_pin_keep_out_radius_um plan in
  map (fun p => mkRect (p2_x_um p - radius) (p2_y_um p - radius) (2 * radius) (2 * radius)) (tr_points plan).

Definition distance_squared (p q : Point2D) : Z :=
  (p2_x_um p - p2_x_um q) ^ 2 + (p2_y_um p - p2_y_um q) ^ 2.

(** Some pair of points is nearer than [minimum]. *)
Fixpoint any_pair_nearer (minimum : Z) (points : list Point2D) : bool :=
  match points with
  | [] => false
  | first :: rest =>
      existsb (fun second => distance_squared first second <? minimum ^ 2) rest || any_pair_nearer minimum rest
  end.

Definition new_TwoSidedRegistration (r : TwoSidedRegistration) : result TwoSidedRegistration :=
  raise_if (negb (bool_decide (tr_declaration_authority r = CLIENT_DECLARED_AUTHORITY)))
    (ValueError "registration authority must be CLIENT_DECLARED");;
  raise_if (negb (registration_identity_ok (tr_method_id r))) (ValueError "registration method ID is invalid");;
  raise_if (negb (registration_identity_ok (tr_fixture_method_version r)))
    (ValueError "registration method version is invalid");;
  raise_if (negb ((MIN_REGISTRATION_PIN_DIAMETER_UM <=? tr_pin_diameter_um r) &&
                  (tr_pin_diameter_um r <=? MAX_REGISTRATION_PIN_DIAMETER_UM)))
    (ValueError "registration pin diameter is outside the validation envelope");;
  raise_if (negb ((MIN_REGISTRATION_POSITION_TOLERANCE_UM <=? tr_position_tolerance_um r) &&
                  (tr_position_tolerance_um r <=? MAX_REGISTRATION_POSITION_TOLERANCE_UM)) ||
            (tr_pin_diameter_um r <=? tr_position_tolerance_um r * 2))
    (ValueError "registration position tolerance must be less than the pin radius");;
  raise_if (negb (bool_decide (2 <= length (tr_points r) <= 16)%nat))
    (ValueError "registration requires two to sixteen points");;
  raise_if (negb (distinct (tr_points r))) (ValueError "registration points must be unique");;
  raise_if (any_pair_nearer (MIN_REGISTRATION_USABLE_BASELINE_UM + 2 * registration_pin_keep_out_radius_um r)
              (tr_points r))
    (ValueError "every registration pin pair must retain a 100000 um usable baseline");;
  Ok r.

(** ** From part to machine coordinates ([dfm.py]) *)

Definition transform_point_to_machine (x_um y_um : Z) (p : Placement) (stock_height_um : Z) (side : Side)
    : Z * Z :=
  let '(nested_x, nested_y) :=
    if np_rotated_90 p then (np_x_um p + (np_width_um p - y_um), np_y_um p + x_um)
    else (np_x_um p + x_um, np_y_um p + y_um) in
  (nested_x, if bool_decide (side = SIDE_B) then stock_height_um - nested_y else nested_y).

Definition transform_rect_to_machine (r : Rect) (p : Placement) (stock_height_um : Z) (side : Side) : Rect :=
  let corners := [(r_x_um r, r_y_um r); (right_um r, r_y_um r); (r_x_um r, top_um r); (right_um r, top_um r)] in
  let transformed := map (fun xy => transform_point_to_machine (fst xy) (snd xy) p stock_height_um side) corners in
  let xs := map fst transformed in
  let ys := map snd transformed in
  mkRect (minZ 0 xs) (minZ 0 ys) (maxZ 0 xs - minZ 0 xs) (maxZ 0 ys - minZ 0 ys).

Definition placement_rect_to_machine (p : Placement) (stock_height_um : Z) (side : Side) : Rect :=
  if bool_decide (side = SIDE_B)
  then mkRect (np_x_um p) (stock_height_um - top_um (np_rect p)) (np_width_um p) (np_height_um p)
  else np_rect p.

(** ** Choosing a tool ([dfm.py]) *)

Definition FEATURE_TO_OPERATION (k : FeatureKind) : OperationKind :=
  match k with
  | DRILL | DRILL_PATTERN => OP_DRILL
  | COUNTERSINK => OP_COUNTERSINK
  | POCKET => OP_POCKET
  | GROOVE | RABBET => OP_GROOVE
  | INNER_CONTOUR | OUTER_CONTOUR => OP_CONTOUR
  | ENGRAVE | LABEL => OP_ENGRAVE
  end.

Definition tool_fits (f : ManufacturingFeature) (machine : MachineProfile) (t : ToolSpec) : bool :=
  bool_decide (FEATURE_TO_OPERATION (mf_kind f) ∈ tl_supported_operations t) &&
  (mf_depth_um f <=? tl_cutting_length_um t) &&
  (if is_round (mf_kind f) then
     match mf_diameter_um f with
     | None => false
     | Some diameter =>
         Z.abs (effective_diameter_um t - diameter)
           <=? Z.max (mp_accuracy_um machine) (md_or (md_diameter_tolerance_um (mf_metadata f)) 100)
     end
   else match mf_width_um f with Some width => effective_diameter_um t <=? width | None => true end).

Definition tool_cmp : ToolSpec -> ToolSpec -> comparison :=
  cmp_then (cmp_on effective_diameter_um Z.compare)
    (cmp_then (cmp_on tl_tool_id String.compare) (cmp_on tl_version String.compare)).

(** [min(candidates, key=tool_cmp)]: the first of the least. *)
Definition select_tool (f : ManufacturingFeature) (machine : MachineProfile) : option ToolSpec :=
  head (sort_by tool_cmp (filter (fun t => tool_fits f machine t = true) (mp_tools machine))).

(** ** The transformation is rigid *)

(** A rectangle that is not inside out. *)
Definition proper_rect (r : Rect) : Prop := 0 <= r_width_um r /\ 0 <= r_height_um r.

(** The corners' minimum and maximum, in closed form. *)
Lemma transform_rect_eq r p h side : proper_rect r ->
  transform_rect_to_machine r p h side =
    let nested :=
      if np_rotated_90 p
      then mkRect (np_x_um p + (np_width_um p - top_um r)) (np_y_um p + r_x_um r) (r_height_um r) (r_width_um r)
      else mkRect (np_x_um p + r_x_um r) (np_y_um p + r_y_um r) (r_width_um r) (r_height_um r) in
    if bool_decide (side = SIDE_B)
    then mkRect (r_x_um nested) (h - top_um nested) (r_width_um nested) (r_height_um nested)
    else nested.
Proof.
  intros [Hw Hh]. unfold transform_rect_to_machine, transform_point_to_machine.
  destruct (np_rotated_90 p), (bool_decide (side = SIDE_B)); cbn; unfold right_um, top_um; cbn; f_equal; lia.
Qed.

Lemma transform_rect_proper r p h side : proper_rect r -> proper_rect (transform_rect_to_machine r p h side).
Proof.
  intros H. rewrite transform_rect_eq by done. destruct H.
  destruct (np_rotated_90 p), (bool_decide (side = SIDE_B)); done.
Qed.

(** The finished panel of a placed part. *)
Definition panel_rect (p : Placement) : Rect :=
  if np_rotated_90 p then mkRect 0 0 (np_height_um p) (np_width_um p) else mkRect 0 0 (np_width_um p) (np_height_um p).

(** C34: moving geometry from a part to the machine is rigid.  For a placement,
    rotated or not, and either side of the sheet, the transformation keeps the
    area of a rectangle, keeps which rectangles contain each other and which
    intersect at any clearance, and takes the panel of the part to the place of
    the part on the sheet; so a feature inside its panel stays inside its part
    after nesting and flipping. *)
Theorem transform_rect_rigid (p : Placement) (stock_height_um : Z) (side : Side) (r1 r2 : Rect) (clearance_um : Z) :
  proper_rect r1 -> proper_rect r2 -> proper_rect (np_rect p) ->
  let t r := transform_rect_to_machine r p stock_height_um side in
  area_um2 (t r1) = area_um2 r1 /\
  contains (t r1) (t r2) = contains r1 r2 /\
  intersects (t r1) (t r2) clearance_um = intersects r1 r2 clearance_um /\
  t (panel_rect p) = placement_rect_to_machine p stock_height_um side.
Proof.
  intros H1 H2 Hp. cbv beta zeta.
  rewrite !transform_rect_eq by (done || (unfold panel_rect; by destruct (np_rotated_90 p), Hp)).
  unfold placement_rect_to_machine, panel_rect, contains, intersects, area_um2, np_rect, right_um, top_um.
  destruct (np_rotated_90 p), (bool_decide (side = SIDE_B)); cbn;
    (split; [lia|]; split; [|split]; [apply eq_true_iff_eq; rewrite !andb_true_iff, !Z.leb_le; lia
      | f_equal; apply eq_true_iff_eq; rewrite !orb_true_iff, !Z.leb_le; lia | f_equal; lia]).
Qed.

Lemma transform_rect_rigid_witness :
  let p := mkPlacement "side:001" "side" "sheet" 0 10000 20000 300000 800000 true in
  contains (transform_rect_to_machine (mkRect 0 0 800000 300000) p 1250000 SIDE_B)
           (transform_rect_to_machine (mkRect 100000 20000 50000 18000) p 1250000 SIDE_B) = true /\
  transform_rect_to_machine (mkRect 100000 20000 50000 18000) p 1250000 SIDE_B = mkRect 272000 1080000 18000 50000.
Proof.
  intros p. split; [|vm_compute; reflexivity].
  refine (eq_trans (proj1 (proj2 (transform_rect_rigid p 1250000 SIDE_B (mkRect 0 0 800000 300000)
    (mkRect 100000 20000 50000 18000) 0 _ _ _))) _); [..|vm_compute; reflexivity];
    split; cbn; lia.
Defined.
