(* ===== verification/JsonText.v ===== *)
(** * Canonical JSON determines its value

    [canonical_json] ([identity.py], and [canonical_json_bytes] of the
    manufacturing model) writes a value in one way only, so two values with the
    same text, or with the same fingerprint unless SHA-256 collides, are the same
    canonical value. *)

From S2P Require Import Prelude Text Identity.

(** ** Texts that end where a value may end *)

(** What may follow a value: nothing, or the next delimiter. *)
Definition ender (l : list ascii) : Prop :=
  match l with [] => True | c :: _ => c ∈ [","; "]"; "}"]%char end.

(** A printer whose texts can be told apart whatever delimiter follows. *)
Definition prefix_free {A} (pr : A -> list ascii) (x : A) : Prop :=
  forall y r s, ender r -> ender s -> pr x ++ r = pr y ++ s -> x = y /\ r = s.

(** ** Strings *)

(** Reads one character of a string body back. *)
Definition hex_value (c : ascii) : Z :=
  let n := Z.of_N (N_of_ascii c) in if n <? 58 then n - 48 else n - 87.

Definition unescape (l : list ascii) : option (ascii * list ascii) :=
  match l with
  | "\"%char :: "u"%char :: _ :: _ :: h :: k :: rest =>
      Some (ascii_of_N (Z.to_N (16 * hex_value h + hex_value k)), rest)
  | "\"%char :: c :: rest =>
      Some (match c with
            | "n"%char => ascii_of_N 10 | "r"%char => ascii_of_N 13 | "t"%char => ascii_of_N 9
            | "b"%char => ascii_of_N 8 | "f"%char => ascii_of_N 12 | _ => c
            end, rest)
  | c :: rest => if bool_decide (c = ascii_of_N 34) then None else Some (c, rest)
  | [] => None
  end.

Lemma unescape_char c rest : unescape (chars (json_escape_char c) ++ rest) = Some (c, rest).
Proof. destruct c as [[] [] [] [] [] [] [] []]; reflexivity. Qed.

Lemma string_body s t r r' :
  chars (json_escape s) ++ ascii_of_N 34 :: r = chars (json_escape t) ++ ascii_of_N 34 :: r' -> s = t /\ r = r'.
Proof.
  revert t; induction s as [|c s IH]; intros [|d t]; cbn [json_escape]; rewrite ?chars_app, <- ?app_assoc; intros E.
  - by injection E.
  - apply (f_equal unescape) in E. rewrite unescape_char in E. discriminate E.
  - apply (f_equal unescape) in E. rewrite unescape_char in E. discriminate E.
  - apply (f_equal unescape) in E. rewrite !unescape_char in E. injection E as -> E.
    by destruct (IH _ E) as [-> ->].
Qed.

Definition string_text (s : string) : list ascii := chars (json_string s).

Lemma string_text_eq s r : string_text s ++ r = ascii_of_N 34 :: chars (json_escape s) ++ ascii_of_N 34 :: r.
Proof. unfold string_text, json_string. rewrite !chars_app, <- !app_assoc. reflexivity. Qed.

Lemma string_prefix s t r r' : string_text s ++ r = string_text t ++ r' -> s = t /\ r = r'.
Proof. rewrite !string_text_eq. intros [= E]. by apply string_body. Qed.

(** ** Integers *)

Lemma digits_prefix ds es r s :
  Forall (fun c => is_digit c = true) ds -> Forall (fun c => is_digit c = true) es ->
  match r with c :: _ => is_digit c = false | [] => True end ->
  match s with c :: _ => is_digit c = false | [] => True end ->
  ds ++ r = es ++ s -> ds = es /\ r = s.
Proof.
  intros Hd. revert es; induction Hd as [|d ds Hd _ IH]; intros es He Hr Hs E.
  - destruct He as [|e es He _]; [done|]. cbn in E. subst r. congruence.
  - destruct He as [|e es He Hes]; cbn in E; [subst s; congruence|]. injection E as -> E.
    by destruct (IH es Hes Hr Hs E) as [-> ->].
Qed.

Lemma int_text z : exists ds, Forall (fun c => is_digit c = true) ds /\
  (chars (str_of_Z z) = ds \/ chars (str_of_Z z) = "-"%char :: ds) /\ ds <> [].
Proof.
  destruct z as [|p|p].
  - exists ["0"%char]. split; [by repeat constructor|]. split; [by left|done].
  - destruct (pretty_N_digits (Npos p)) as [D V]. exists (chars (pretty (Npos p))).
    split_and!; [done|by left|]. intros E. by rewrite E in V.
  - destruct (pretty_N_digits (Npos p)) as [D V]. exists (chars (pretty (Npos p))).
    split_and!; [done|by right|]. intros E. by rewrite E in V.
Qed.

Lemma chars_inj s t : chars s = chars t -> s = t.
Proof. intros E. rewrite <- (String.string_of_list_ascii_of_string s), <- (String.string_of_list_ascii_of_string t). exact (f_equal _ E). Qed.

Lemma ender_not_digit l : ender l -> match l with c :: _ => is_digit c = false | [] => True end.
Proof. destruct l as [|c l]; [done|]. cbn. intros H. repeat (apply elem_of_cons in H as [->|H]; [reflexivity|]). by apply not_elem_of_nil in H. Qed.

Lemma int_prefix z w r s : ender r -> ender s -> chars (str_of_Z z) ++ r = chars (str_of_Z w) ++ s -> z = w /\ r = s.
Proof.
  intros Hr%ender_not_digit Hs%ender_not_digit E.
  destruct (int_text z) as (ds & Hd & Ez & Nd), (int_text w) as (es & He & Ew & Ne).
  assert (chars (str_of_Z z) = chars (str_of_Z w) /\ r = s) as [E' ->].
  { destruct Ez as [Ez|Ez], Ew as [Ew|Ew]; rewrite Ez, Ew in *.
    - by apply digits_prefix.
    - destruct Hd as [|d ds Hd _]; [done|]. injection E as -> _. discriminate Hd.
    - destruct He as [|e es He _]; [done|]. injection E as <- _. discriminate He.
    - injection E as E. destruct (digits_prefix ds es r s Hd He Hr Hs E) as [-> ->]. done. }
  split; [|done]. apply chars_inj in E'. by apply (inj pretty).
Qed.

(** ** Lists *)

(** The texts of a list, separated by commas. *)
Fixpoint joined {A} (pr : A -> list ascii) (l : list A) : list ascii :=
  match l with
  | [] => []
  | [x] => pr x
  | x :: rest => pr x ++ ","%char :: joined pr rest
  end.

Lemma chars_join {A} (pr : A -> string) l : chars (str_join "," (map pr l)) = joined (fun x => chars (pr x)) l.
Proof.
  induction l as [|x [|y l] IH]; [done|done|]. change (str_join "," (map pr (x :: y :: l))) with (pr x +:+ "," +:+ str_join "," (map pr (y :: l))).
  rewrite !chars_app, IH. reflexivity.
Qed.

(** A value starts with a character that ends no value. *)
Definition starts {A} (pr : A -> list ascii) (x : A) : Prop :=
  exists c l, pr x = c :: l /\ c ∉ [","; "]"; "}"]%char.

Lemma joined_prefix {A} (pr : A -> list ascii) (close : ascii) (l m : list A) r s :
  close ∈ ["]"; "}"]%char -> (forall x, starts pr x) -> Forall (prefix_free pr) l ->
  joined pr l ++ close :: r = joined pr m ++ close :: s -> l = m /\ r = s.
Proof.
  intros Hc St F. assert (ender (close :: r) /\ ender (close :: s)) as [Er Es] by (cbn; set_solver).
  assert (forall x t, pr x ++ t <> close :: r /\ pr x ++ t <> close :: s) as Ne.
  { intros x t. destruct (St x) as (c & k & -> & N). split; intros E; injection E as -> _; set_solver. }
  revert m; induction F as [|x l Hx F IH]; intros m E.
  - destruct m as [|y [|z m]]; cbn in E; [by injection E| |];
      symmetry in E; [|rewrite <- app_assoc in E]; by apply Ne in E.
  - destruct m as [|y m]; [destruct l; cbn in E; [|rewrite <- app_assoc in E]; by apply Ne in E|].
    destruct l as [|x' l], m as [|y' m]; cbn [joined] in E; rewrite <- ?app_assoc in E.
    + apply Hx in E as [-> Eq]; [by injection Eq as ->|exact Er|exact Es].
    + apply Hx in E as [_ Eq]; [injection Eq as Eq _; set_solver|exact Er|by left].
    + apply Hx in E as [_ Eq]; [injection Eq as Eq _; set_solver|by left|exact Es].
    + apply Hx in E as [-> Eq]; [|by left|by left]. injection Eq as Eq. by destruct (IH (y' :: m) Eq) as [-> ->].
Qed.

(** ** Values *)

(** Induction over values and the values inside them. *)
Lemma json_nested_ind (P : json -> Prop) :
  P JNull -> (forall b, P (JBool b)) -> (forall z, P (JInt z)) -> (forall s, P (JStr s)) ->
  (forall l, Forall P l -> P (JArr l)) -> (forall l, Forall (fun kv => P (snd kv)) l -> P (JObj l)) ->
  forall v, P v.
Proof.
  intros HN HB HI HS HA HO. fix IH 1. intros [| | | |l|l]; [done..| |].
  - apply HA. induction l as [|x l IHl]; constructor; [apply IH|exact IHl].
  - apply HO. induction l as [|[k x] l IHl]; constructor; [apply IH|exact IHl].
Qed.

Definition value_text (v : json) : list ascii := chars (json_dumps v).

Definition member_text (kv : string * json) : list ascii := string_text (fst kv) ++ ":"%char :: value_text (snd kv).

Lemma array_text l : value_text (JArr l) = "["%char :: joined value_text l ++ ["]"%char].
Proof. unfold value_text. cbn [json_dumps]. rewrite !chars_app, chars_join. reflexivity. Qed.

Lemma object_text l : value_text (JObj l) = "{"%char :: joined member_text l ++ ["}"%char].
Proof.
  unfold value_text at 1. cbn [json_dumps]. rewrite !chars_app, chars_join. cbn. do 2 f_equal.
  induction l as [|[k v] l IH]; [done|]. cbn [joined]. rewrite IH. unfold member_text. cbn [fst snd].
  by rewrite !chars_app.
Qed.

(** The first character tells the form of a value. *)
Definition form (v : json) : nat :=
  match v with JNull => 0 | JBool _ => 1 | JInt _ => 2 | JStr _ => 3 | JArr _ => 4 | JObj _ => 5 end.

Definition form_char (c : ascii) : nat :=
  if bool_decide (c = "n"%char) then 0 else if bool_decide (c ∈ ["t"; "f"]%char) then 1
  else if bool_decide (c = ascii_of_N 34) then 3 else if bool_decide (c = "["%char) then 4
  else if bool_decide (c = "{"%char) then 5 else 2.

Lemma digit_form c : is_digit c = true -> form_char c = 2%nat /\ c ∉ [","; "]"; "}"]%char.
Proof.
  intros D. assert (forall d, is_digit d = false -> c <> d) as N by (intros d Hd ->; congruence).
  unfold form_char. rewrite !bool_decide_false; [split; [done|]|..];
    first [apply N; reflexivity | intros H;
      repeat (apply elem_of_cons in H as [H|H]; [revert H; apply N; reflexivity|]); by apply not_elem_of_nil in H].
Qed.

Lemma value_head v : exists c l, value_text v = c :: l /\ form_char c = form v /\ c ∉ [","; "]"; "}"]%char.
Proof.
  destruct v as [|b|z|s|l|l].
  - exists "n"%char, (chars "ull"). split_and!; [done|done|set_solver].
  - destruct b; [exists "t"%char, (chars "rue")|exists "f"%char, (chars "alse")]; (split_and!; [done|done|set_solver]).
  - destruct (int_text z) as (ds & D & [E|E] & N); unfold value_text; cbn [json_dumps]; rewrite E.
    + destruct D as [|d ds D _]; [done|]. exists d, ds. by apply digit_form in D as [? ?].
    + exists "-"%char, ds. split_and!; [done|done|set_solver].
  - exists (ascii_of_N 34), (chars (json_escape s) ++ [ascii_of_N 34]).
    split_and!; [|done|set_solver]. unfold value_text. cbn [json_dumps].
    rewrite <- (app_nil_r (chars _)). apply (string_text_eq s []).
  - rewrite array_text. eexists _, _. split_and!; [done|done|set_solver].
  - rewrite object_text. eexists _, _. split_and!; [done|done|set_solver].
Qed.

Lemma value_starts v : starts value_text v.
Proof. destruct (value_head v) as (c & l & E & _ & N). by exists c, l. Qed.

Lemma same_form v w r s : value_text v ++ r = value_text w ++ s -> form v = form w.
Proof.
  destruct (value_head v) as (c & l & -> & <- & _), (value_head w) as (d & m & -> & <- & _).
  intros E. by injection E as -> _.
Qed.

Lemma member_starts kv : starts member_text kv.
Proof.
  exists (ascii_of_N 34), (chars (json_escape (fst kv)) ++ ascii_of_N 34 :: ":"%char :: value_text (snd kv)).
  split; [apply string_text_eq|set_solver].
Qed.

Lemma member_prefix_free kv : prefix_free value_text (snd kv) -> prefix_free member_text kv.
Proof.
  destruct kv as [k x]. cbn [snd]. intros Hx [k' y] r s Hr Hs E. unfold member_text in E. cbn [fst snd] in E.
  rewrite <- !app_assoc in E. apply string_prefix in E as [-> E]. injection E as E.
  by destruct (Hx y r s Hr Hs E) as [-> ->].
Qed.

Lemma value_prefix_free v : prefix_free value_text v.
Proof.
  induction v as [|b|z|s|l IH|l IH] using json_nested_ind; intros w r t Hr Ht E; pose proof (same_form _ _ _ _ E) as F;
    destruct w as [|b'|z'|s'|m|m]; try discriminate F.
  - split; [done|]. by injection E.
  - destruct b, b'; try discriminate E; (split; [done|]; by injection E).
  - destruct (int_prefix z z' r t Hr Ht E) as [-> ->]. done.
  - destruct (string_prefix s s' r t E) as [-> ->]. done.
  - rewrite !array_text in E. cbn [app] in E. rewrite <- !app_assoc in E. injection E as E.
    destruct (joined_prefix value_text "]" l m r t ltac:(by left) value_starts IH E) as [-> ->]. done.
  - rewrite !object_text in E. cbn [app] in E. rewrite <- !app_assoc in E. injection E as E.
    assert (Forall (prefix_free member_text) l) as IH'.
    { eapply Forall_impl; [exact IH|]. intros kv. apply member_prefix_free. }
    destruct (joined_prefix member_text "}" l m r t ltac:(by right; left) member_starts IH' E) as [-> ->]. done.
Qed.

Lemma json_dumps_inj v w : json_dumps v = json_dumps w -> v = w.
Proof.
  intros E. apply (value_prefix_free v w [] []); [done|done|]. unfold value_text. by rewrite E.
Qed.

(** The order of the members of a mapping does not matter. *)
Lemma canonical_permuted l m :
  NoDup (map fst l) -> l ≡ₚ m -> canonical (JObj l) = canonical (JObj m).
Proof.
  intros Nd P. cbn [canonical]. f_equal. set (c := fun kv : string * json => (fst kv, canonical (snd kv))).
  apply sort_by_unique; [typeclasses eauto| |by apply Permutation_map].
  intros x y (kv & -> & Hx)%list_elem_of_fmap (kw & -> & Hy)%list_elem_of_fmap E.
  assert (kv = kw) as ->; [|done]. unfold cmp_on, c in E. cbn [fst] in E. apply string_cmp_Eq in E.
  pose proof (dict_of_elem fst l kv Nd Hx) as D. rewrite E, (dict_of_elem fst l kw Nd Hy) in D. by injection D.
Qed.

(** C32: canonical JSON determines its value.  Two values have the same canonical
    text exactly if they have the same canonical form, whatever strings, numbers
    and nesting they contain: no escape, separator or sign can make two different
    values read alike.  And mappings with the same members have the same text,
    whatever the order the members were given in. *)
Theorem canonical_json_injective :
  (forall v w, canonical_json v = canonical_json w <-> canonical v = canonical w) /\
  (forall l m, NoDup (map fst l) -> l ≡ₚ m -> canonical_json (JObj l) = canonical_json (JObj m)).
Proof.
  unfold canonical_json. split.
  - intros v w. split; [apply json_dumps_inj | by intros ->].
  - intros l m Nd P. by rewrite (canonical_permuted l m Nd P).
Qed.

Lemma canonical_json_injective_witness :
  let a := JObj [("width_um", JInt 1200000); ("name", JStr "side, left")] in
  let b := JObj [("name", JStr "side, left")  ; ("width_um", JInt 1200000)] in
  canonical_json a = canonical_json b /\ canonical_json a <> canonical_json (JStr (canonical_json a)).
Proof.
  intros a b. split.
  - apply (proj2 canonical_json_injective); [apply distinct_spec; vm_compute; reflexivity|apply Permutation_swap].
  - intros E%(proj1 canonical_json_injective). discriminate E.
Defined.
