(* ===== verification/JsonRead.v ===== *)
(** * Reading JSON

    [json.loads] of the standard library on the UTF-8 bytes of a text: strict
    strings with their escapes and surrogate pairs, exact integers, the hooks
    that build what the caller wants of floats, constants and objects, and the
    limits of the interpreter on digits and nesting.  [loads_dumps] is what the
    readers rely on: the text of a value reads as that value. *)

From S2P Require Import Prelude Text Identity JsonText.

(** ** UTF-8 *)

Definition byte_in (lo hi : N) (c : ascii) : bool := (lo <=? N_of_ascii c)%N && (N_of_ascii c <=? hi)%N.
Definition continuation : ascii -> bool := byte_in 128 191.

(** [raw.decode("utf-8")] accepts exactly the shortest encodings of the code
    points that are not surrogates. *)
Fixpoint utf8_valid (l : list ascii) : bool :=
  match l with
  | [] => true
  | a :: l1 =>
      if byte_in 0 127 a then utf8_valid l1
      else match l1 with
      | [] => false
      | b :: l2 =>
          if byte_in 194 223 a then continuation b && utf8_valid l2
          else match l2 with
          | [] => false
          | c :: l3 =>
              if byte_in 224 239 a then
                byte_in (if bool_decide (N_of_ascii a = 224%N) then 160 else 128)
                        (if bool_decide (N_of_ascii a = 237%N) then 159 else 191) b &&
                continuation c && utf8_valid l3
              else match l3 with
              | [] => false
              | d :: l4 =>
                  byte_in 240 244 a &&
                  byte_in (if bool_decide (N_of_ascii a = 240%N) then 144 else 128)
                          (if bool_decide (N_of_ascii a = 244%N) then 143 else 191) b &&
                  continuation c && continuation d && utf8_valid l4
              end
          end
      end
  end.

Definition decode_utf8 (raw : string) : result string :=
  raise_if (negb (utf8_valid (chars raw))) UnicodeDecodeError;; Ok raw.

(** The bytes of a code point.  A lone surrogate, which a [str] may hold and no
    bytes encode, gets the three bytes it would have. *)
Definition utf8_bytes (code : N) : list ascii :=
  let tail k := ascii_of_N (128 + N.land (N.shiftr code k) 63) in
  (if code <? 128 then [ascii_of_N code]
   else if code <? 2048 then [ascii_of_N (192 + N.shiftr code 6); tail 0]
   else if code <? 65536 then [ascii_of_N (224 + N.shiftr code 12); tail 6; tail 0]
   else [ascii_of_N (240 + N.shiftr code 18); tail 12; tail 6; tail 0])%N.

(** ** Strings *)

Definition is_blank (c : ascii) : bool := bool_decide (N_of_ascii c ∈ [32; 9; 10; 13]%N).
Fixpoint skip_blanks (l : list ascii) : list ascii :=
  match l with c :: rest => if is_blank c then skip_blanks rest else l | [] => [] end.

Definition quote_char : ascii := ascii_of_N 34.

Definition hex_digit (c : ascii) : option N :=
  (let n := N_of_ascii c in
   if is_digit c then Some (n - 48) else if ascii_in "a" "f" c then Some (n - 87)
   else if ascii_in "A" "F" c then Some (n - 55) else None)%N.

Definition hex4 (a b c d : ascii) : option N :=
  a ← hex_digit a; b ← hex_digit b; c ← hex_digit c; d ← hex_digit d;
  Some (4096 * a + 256 * b + 16 * c + d)%N.

Definition high_surrogate (code : N) : bool := ((55296 <=? code) && (code <=? 56319))%N.
Definition low_surrogate (code : N) : bool := ((56320 <=? code) && (code <=? 57343))%N.
Definition join_surrogates (high low : N) : N := (65536 + 1024 * (high - 55296) + (low - 56320))%N.

Definition simple_escape (c : ascii) : option ascii :=
  if bool_decide (c ∈ [quote_char; "\"; "/"]%char) then Some c
  else if bool_decide (c = "b"%char) then Some (ascii_of_N 8) else if bool_decide (c = "f"%char) then Some (ascii_of_N 12)
  else if bool_decide (c = "n"%char) then Some (ascii_of_N 10) else if bool_decide (c = "r"%char) then Some (ascii_of_N 13)
  else if bool_decide (c = "t"%char) then Some (ascii_of_N 9) else None.

Definition put (prefix : list ascii) (read : result (list ascii * list ascii)) : result (list ascii * list ascii) :=
  '(s, rest) ← read; Ok (prefix ++ s, rest).

(** The second half of a pair: [Some low] after a high surrogate that another
    escape follows. *)
Definition following_escape (l : list ascii) : bool :=
  match l with b :: u :: _ :: _ :: _ :: _ :: _ => bool_decide (b = "\"%char) && bool_decide (u = "u"%char) | _ => false end.

(** What follows the opening quote: the string and the rest after the closing one. *)
Fixpoint scan_string (l : list ascii) : result (list ascii * list ascii) :=
  match l with
  | [] => Err JSONDecodeError
  | c :: rest =>
      if bool_decide (c = quote_char) then Ok ([], rest)
      else if bool_decide (c = "\"%char) then
        match rest with
        | [] => Err JSONDecodeError
        | e :: rest =>
            if bool_decide (e = "u"%char) then
              match rest with
              | h1 :: h2 :: h3 :: h4 :: rest =>
                  match hex4 h1 h2 h3 h4 with
                  | None => Err JSONDecodeError
                  | Some code =>
                      if high_surrogate code && following_escape rest then
                        match rest with
                        | _ :: _ :: k1 :: k2 :: k3 :: k4 :: rest2 =>
                            match hex4 k1 k2 k3 k4 with
                            | None => Err JSONDecodeError
                            | Some low =>
                                if low_surrogate low then put (utf8_bytes (join_surrogates code low)) (scan_string rest2)
                                else put (utf8_bytes code) (scan_string rest)
                            end
                        | _ => put (utf8_bytes code) (scan_string rest)
                        end
                      else put (utf8_bytes code) (scan_string rest)
                  end
              | _ => Err JSONDecodeError
              end
            else match simple_escape e with
                 | Some d => put [d] (scan_string rest)
                 | None => Err JSONDecodeError
                 end
        end
      else if (N_of_ascii c <? 32)%N then Err JSONDecodeError
      else put [c] (scan_string rest)
  end.

(** ** Numbers *)

Definition MAX_STR_DIGITS : Z := 4300.

Definition too_many_digits (count : Z) : py_error :=
  ValueError ("Exceeds the limit (4300 digits) for integer string conversion: value has " +:+ str_of_Z count +:+
              " digits; use sys.set_int_max_str_digits() to increase the limit").

Fixpoint take_digits (l : list ascii) : list ascii * list ascii :=
  match l with
  | c :: rest => if is_digit c then (c :: fst (take_digits rest), snd (take_digits rest)) else ([], l)
  | [] => ([], [])
  end.

(** [(\.[0-9]+)?] *)
Definition match_fraction (l : list ascii) : list ascii * list ascii :=
  match l with
  | c :: rest => if bool_decide (c = "."%char) && negb (bool_decide (fst (take_digits rest) = []))
                 then (c :: fst (take_digits rest), snd (take_digits rest)) else ([], l)
  | [] => ([], [])
  end.

(** [([eE][-+]?[0-9]+)?] *)
Definition match_exponent (l : list ascii) : list ascii * list ascii :=
  match l with
  | c :: rest =>
      let '(sign, digits) := match rest with
                             | s :: more => if bool_decide (s ∈ ["-"; "+"]%char) then ([s], more) else ([], rest)
                             | [] => ([], [])
                             end in
      if bool_decide (c ∈ ["e"; "E"]%char) && negb (bool_decide (fst (take_digits digits) = []))
      then (c :: sign ++ fst (take_digits digits), snd (take_digits digits)) else ([], l)
  | [] => ([], [])
  end.

(** The sign, the digits, the text after the digits and the rest. *)
Definition json_number (l : list ascii) : option (bool * list ascii * list ascii * list ascii) :=
  let '(negative, l) := match l with
                        | c :: rest => if bool_decide (c = "-"%char) then (true, rest) else (false, l)
                        | [] => (false, [])
                        end in
  let '(digits, rest) := match l with
                         | c :: rest => if bool_decide (c = "0"%char) then ([c], rest) else take_digits l
                         | [] => ([], [])
                         end in
  if bool_decide (digits = []) then None
  else
    let '(fraction, rest) := match_fraction rest in
    let '(exponent, rest) := match_exponent rest in
    Some (negative, digits, fraction ++ exponent, rest).

(** [int(text)] *)
Definition read_int (negative : bool) (digits : list ascii) : result Z :=
  raise_if (MAX_STR_DIGITS <? Z.of_nat (length digits)) (too_many_digits (Z.of_nat (length digits)));;
  Ok (if negative then - Z.of_N (dec_value digits) else Z.of_N (dec_value digits)).

(** ** Values *)

(** What a decoder makes of what it reads: [parse_float], [parse_constant] and
    [object_pairs_hook] of [json.loads], and the values of the other forms. *)
Record JSONDecoder (V : Type) := mkDecoder {
  jd_null : V;
  jd_bool : bool -> V;
  jd_int : Z -> V;
  jd_str : string -> V;
  jd_array : list V -> V;
  jd_float : string -> result V;
  jd_constant : string -> result V;
  jd_object : list (string * V) -> result V }.
Arguments jd_null {V} _.
Arguments jd_bool {V} _ _.
Arguments jd_int {V} _ _.
Arguments jd_str {V} _ _.
Arguments jd_array {V} _ _.
Arguments jd_float {V} _ _.
Arguments jd_constant {V} _ _.
Arguments jd_object {V} _ _.

Section Decoder.
Context {V : Type} (decoder : JSONDecoder V).

(** The loops over the elements of an array and the members of an object, from
    the first on, with the scanner of values one level down.  The fuel is the
    length of the text: each round reads at least one character. *)
Section Loops.
Context (scan : list ascii -> result (V * list ascii)).

Fixpoint scan_elements (fuel : nat) (l : list ascii) : result (list V * list ascii) :=
  '(v, rest) ← scan l;
  match skip_blanks rest with
  | c :: rest =>
      if bool_decide (c = "]"%char) then Ok ([v], rest)
      else if bool_decide (c = ","%char) then
        match fuel with
        | O => Err JSONDecodeError
        | S fuel => '(vs, rest) ← scan_elements fuel (skip_blanks rest); Ok (v :: vs, rest)
        end
      else Err JSONDecodeError
  | [] => Err JSONDecodeError
  end.

Fixpoint scan_members (fuel : nat) (l : list ascii) : result (list (string * V) * list ascii) :=
  match l with
  | c :: rest =>
      raise_if (negb (bool_decide (c = quote_char))) JSONDecodeError;;
      '(key, rest) ← scan_string rest;
      match skip_blanks rest with
      | colon :: rest =>
          raise_if (negb (bool_decide (colon = ":"%char))) JSONDecodeError;;
          '(v, rest) ← scan (skip_blanks rest);
          match skip_blanks rest with
          | c :: rest =>
              if bool_decide (c = "}"%char) then Ok ([(of_chars key, v)], rest)
              else if bool_decide (c = ","%char) then
                match fuel with
                | O => Err JSONDecodeError
                | S fuel => '(members, rest) ← scan_members fuel (skip_blanks rest); Ok ((of_chars key, v) :: members, rest)
                end
              else Err JSONDecodeError
          | [] => Err JSONDecodeError
          end
      | [] => Err JSONDecodeError
      end
  | [] => Err JSONDecodeError
  end.

Definition scan_array (l : list ascii) : result (V * list ascii) :=
  match after_prefix (chars "]") (skip_blanks l) with
  | Some rest => Ok (jd_array decoder [], rest)
  | None => '(vs, rest) ← scan_elements (length l) (skip_blanks l); Ok (jd_array decoder vs, rest)
  end.

Definition scan_object (l : list ascii) : result (V * list ascii) :=
  '(members, rest) ←
    match after_prefix (chars "}") (skip_blanks l) with
    | Some rest => Ok ([], rest)
    | None => scan_members (length l) (skip_blanks l)
    end;
  v ← jd_object decoder members;
  Ok (v, rest).
End Loops.

(** A word of the language, if the text starts with it. *)
Definition scan_word (l : list ascii) : option (result (V * list ascii)) :=
  match after_prefix (chars "null") l with
  | Some rest => Some (Ok (jd_null decoder, rest))
  | None => match after_prefix (chars "true") l with
  | Some rest => Some (Ok (jd_bool decoder true, rest))
  | None => match after_prefix (chars "false") l with
  | Some rest => Some (Ok (jd_bool decoder false, rest))
  | None => match after_prefix (chars "NaN") l with
  | Some rest => Some (v ← jd_constant decoder "NaN"; Ok (v, rest))
  | None => match after_prefix (chars "Infinity") l with
  | Some rest => Some (v ← jd_constant decoder "Infinity"; Ok (v, rest))
  | None => match after_prefix (chars "-Infinity") l with
  | Some rest => Some (v ← jd_constant decoder "-Infinity"; Ok (v, rest))
  | None => None
  end end end end end end.

Definition scan_number (l : list ascii) : result (V * list ascii) :=
  '(negative, digits, float_tail, rest) ← of_option (json_number l) JSONDecodeError;
  if bool_decide (float_tail = []) then z ← read_int negative digits; Ok (jd_int decoder z, rest)
  else v ← jd_float decoder (of_chars ((if negative then ["-"%char] else []) ++ digits ++ float_tail)); Ok (v, rest).

(** [scan_once], where [depth] containers may still be opened. *)
Fixpoint scan_value (depth : nat) (l : list ascii) : result (V * list ascii) :=
  match l with
  | [] => Err JSONDecodeError
  | c :: rest =>
      if bool_decide (c = quote_char) then '(s, rest) ← scan_string rest; Ok (jd_str decoder (of_chars s), rest)
      else if bool_decide (c = "{"%char) then
        match depth with O => Err RecursionError | S depth => scan_object (scan_value depth) rest end
      else if bool_decide (c = "["%char) then
        match depth with O => Err RecursionError | S depth => scan_array (scan_value depth) rest end
      else match scan_word l with
           | Some read => read
           | None => scan_number l
           end
  end.

(** [json.loads(text)], where the interpreter lets [limit] containers nest. *)
Definition loads (limit : nat) (text : string) : result V :=
  '(v, rest) ← scan_value limit (skip_blanks (chars text));
  raise_if (negb (bool_decide (skip_blanks rest = []))) JSONDecodeError;;
  Ok v.

End Decoder.

(** ** What the text of a value reads as *)

Definition int_digits (z : Z) : Z := Z.of_nat (length (chars (pretty (Z.abs_N z)))).

Fixpoint nesting (v : json) : nat :=
  match v with
  | JArr l => S (max_list (map nesting l))
  | JObj members => S (max_list (map (fun kv => nesting (snd kv)) members))
  | _ => 0
  end.

Fixpoint decoded {V} (decoder : JSONDecoder V) (v : json) : result V :=
  match v with
  | JNull => Ok (jd_null decoder)
  | JBool b => Ok (jd_bool decoder b)
  | JInt z => raise_if (MAX_STR_DIGITS <? int_digits z) (too_many_digits (int_digits z));; Ok (jd_int decoder z)
  | JStr s => Ok (jd_str decoder s)
  | JArr l => vs ← traverse (decoded decoder) l; Ok (jd_array decoder vs)
  | JObj members =>
      ms ← traverse (fun kv => x ← decoded decoder (snd kv); Ok (fst kv, x)) members; jd_object decoder ms
  end.

(** *** Strings *)

Lemma scan_string_char c rest : scan_string (chars (json_escape_char c) ++ rest) = put [c] (scan_string rest).
Proof. destruct c as [[] [] [] [] [] [] [] []]; reflexivity. Qed.

Lemma scan_string_text s rest : scan_string (chars (json_escape s) ++ quote_char :: rest) = Ok (chars s, rest).
Proof.
  induction s as [|c s IH]; [done|]. cbn [json_escape]. rewrite chars_app, <- app_assoc, scan_string_char, IH. done.
Qed.

(** *** Numbers *)

Lemma take_digits_app ds rest : Forall (fun c => is_digit c = true) ds ->
  match rest with c :: _ => is_digit c = false | [] => True end -> take_digits (ds ++ rest) = (ds, rest).
Proof.
  intros F N. induction F as [|d ds Hd _ IH]; cbn [app take_digits].
  - destruct rest as [|c rest]; [done|]. cbn. by rewrite N.
  - by rewrite Hd, IH.
Qed.

(** Decimal numerals have no leading zero. *)
Lemma pretty_N_go_head x s : (0 < x)%N -> exists d l, chars (pretty_N_go x s) = d :: l /\ d <> "0"%char.
Proof.
  revert s. induction (N.lt_wf_0 x) as [x _ IH]. intros s Hx. rewrite pretty_N_go_eq by done.
  destruct (decide (x / 10 = 0)%N) as [E|E].
  - rewrite E, pretty_N_go_0. exists (pretty_N_char (x mod 10)), (chars s). split; [done|].
    apply N.div_small_iff in E; [|done]. rewrite N.mod_small by done.
    assert (x = 1 \/ x = 2 \/ x = 3 \/ x = 4 \/ x = 5 \/ x = 6 \/ x = 7 \/ x = 8 \/ x = 9)%N as C by lia.
    by repeat destruct C as [->|C]; [..|rewrite C].
  - apply IH; [apply N.div_lt; lia|]. by apply N.neq_0_lt_0.
Qed.

Lemma pretty_head n : n = 0%N \/ exists d l, chars (pretty n) = d :: l /\ d <> "0"%char.
Proof.
  destruct (decide (n = 0%N)) as [->|N]; [by left|right]. unfold pretty, pretty_N. rewrite decide_False by done.
  apply pretty_N_go_head. lia.
Qed.

Lemma number_tail rest : ender rest -> match_fraction rest = ([], rest) /\ match_exponent rest = ([], rest).
Proof.
  destruct rest as [|c rest]; [done|]. cbn [ender]. intros H.
  repeat (apply elem_of_cons in H as [->|H]; [split; [done|]|]); [..|by apply not_elem_of_nil in H].
  all: unfold match_exponent; destruct rest as [|s rest]; [done|]; by destruct (bool_decide (s ∈ _)).
Qed.

Lemma json_number_text z rest : ender rest ->
  json_number (chars (str_of_Z z) ++ rest) = Some (z <? 0, chars (pretty (Z.abs_N z)), [], rest).
Proof.
  intros Hr. destruct (number_tail rest Hr) as [HF HE].
  assert (forall l, (l = ["0"%char] \/ exists d m, l = d :: m /\ d <> "0"%char /\ Forall (fun c => is_digit c = true) l) ->
    match l ++ rest with
    | c :: tail => if bool_decide (c = "0"%char) then ([c], tail) else take_digits (l ++ rest)
    | [] => ([], [])
    end = (l, rest)) as D.
  { intros l [->|(d & m & -> & N & F)]; [done|]. cbn [app]. rewrite bool_decide_false by done.
    change (d :: m ++ rest) with ((d :: m) ++ rest). apply take_digits_app; [done|]. by apply ender_not_digit. }
  assert (forall n : N, chars (pretty n) = ["0"%char] \/ exists d m, chars (pretty n) = d :: m /\ d <> "0"%char /\
    Forall (fun c => is_digit c = true) (chars (pretty n))) as P.
  { intros n. destruct (pretty_head n) as [->|(d & l & E & N)]; [by left|right]. exists d, l. split_and!; [done..|].
    apply pretty_N_digits. }
  assert (forall n : N, chars (pretty n) <> []) as NE by (intros n E; destruct (P n) as [E'|(? & ? & E' & _)]; congruence).
  destruct (decide (z < 0)) as [L|L].
  - destruct z as [|p|p]; [lia|lia|]. change (chars (str_of_Z (Zneg p))) with ("-"%char :: chars (pretty (Npos p))).
    cbn [app]. unfold json_number. rewrite bool_decide_true by done. cbv beta iota zeta. rewrite D by apply P.
    rewrite bool_decide_false by apply NE. by rewrite HF, HE.
  - rewrite (proj2 (Z.ltb_ge z 0)) by lia.
    assert (chars (str_of_Z z) = chars (pretty (Z.abs_N z))) as -> by (by destruct z).
    unfold json_number. pose proof (P (Z.abs_N z)) as Pz. pose proof (D _ Pz) as Dz. pose proof (NE (Z.abs_N z)) as Nz.
    pose proof (proj1 (pretty_N_digits (Z.abs_N z))) as Fz.
    destruct (chars (pretty (Z.abs_N z))) as [|c l]; [done|]. apply Forall_cons in Fz as [Hc _].
    cbn [app] in *. rewrite (bool_decide_false (c = "-"%char)) by (by intros ->). cbv beta iota zeta. rewrite Dz.
    rewrite bool_decide_false by done. by rewrite HF, HE.
Qed.

Section Reading.
Context {V : Type} (decoder : JSONDecoder V).

Lemma scan_number_text z rest : ender rest ->
  scan_number decoder (chars (str_of_Z z) ++ rest) = (x ← decoded decoder (JInt z); Ok (x, rest)).
Proof.
  intros Hr. unfold scan_number. rewrite json_number_text by done. cbn [of_option mbind result_bind].
  rewrite bool_decide_true by done. cbn [decoded]. unfold read_int, int_digits. destruct (MAX_STR_DIGITS <? _); [done|].
  cbn [raise_if mbind result_bind]. rewrite (proj2 (pretty_N_digits _)). 
  assert ((if z <? 0 then - Z.of_N (Z.abs_N z) else Z.of_N (Z.abs_N z)) = z) as -> by (destruct (Z.ltb_spec z 0); lia). done.
Qed.
(** *** Values *)

Lemma value_not_blank v rest : skip_blanks (value_text v ++ rest) = value_text v ++ rest.
Proof.
  assert (exists c l, value_text v = c :: l /\ is_blank c = false) as (c & l & -> & H); [|cbn; by rewrite H].
  destruct v as [|[]|z|s|l|l]; [by eexists _, _..| | |rewrite array_text; by eexists _, _|rewrite object_text; by eexists _, _].
  - destruct (int_text z) as (ds & D & [E|E] & N); unfold value_text; cbn [json_dumps]; rewrite E.
    + destruct D as [|d ds D _]; [done|]. exists d, ds. split; [done|]. clear -D.
      destruct (is_blank d) eqn:B; [|done]. destruct d as [[] [] [] [] [] [] [] []]; vm_compute in D, B; congruence.
    + by eexists _, _.
  - exists quote_char, (chars (json_escape s) ++ [quote_char]). split; [|done]. unfold value_text. cbn [json_dumps].
    rewrite <- (app_nil_r (chars _)). apply (string_text_eq s []).
Qed.

Lemma ender_blank rest : ender rest -> skip_blanks rest = rest.
Proof.
  destruct rest as [|c rest]; [done|]. cbn [ender]. intros H.
  repeat (apply elem_of_cons in H as [->|H]; [done|]). by apply not_elem_of_nil in H.
Qed.

(** The scanner reads the text of a value as the value. *)
Definition reads (scan : list ascii -> result (V * list ascii)) (v : json) : Prop :=
  forall rest, ender rest -> scan (value_text v ++ rest) = (x ← decoded decoder v; Ok (x, rest)).

Lemma elements_text scan l rest fuel : Forall (reads scan) l -> l <> [] -> (length l <= S fuel)%nat ->
  scan_elements scan fuel (joined value_text l ++ "]"%char :: rest) =
    (vs ← traverse (decoded decoder) l; Ok (vs, rest)).
Proof.
  intros F. revert fuel; induction F as [|v l Hv F IH]; intros fuel N HL; [done|]. clear N.
  destruct l as [|w l].
  - cbn [joined traverse]. destruct fuel; cbn [scan_elements]; rewrite Hv by (cbn; set_solver);
      destruct (decoded decoder v); done.
  - destruct fuel as [|fuel]; [cbn in HL; lia|]. specialize (IH fuel ltac:(done) ltac:(cbn in *; lia)).
    change (joined value_text (v :: w :: l)) with (value_text v ++ ","%char :: joined value_text (w :: l)).
    rewrite <- app_assoc. cbn [scan_elements app]. rewrite Hv by (cbn; set_solver).
    change (traverse (decoded decoder) (v :: w :: l)) with
      (y ← decoded decoder v; ys ← traverse (decoded decoder) (w :: l); Ok (y :: ys)).
    destruct (decoded decoder v) as [x|e]; [|done]. cbn [mbind result_bind skip_blanks].
    change (is_blank ",") with false. cbv iota. rewrite bool_decide_false, bool_decide_true by done.
    assert (exists r, joined value_text (w :: l) ++ "]"%char :: rest = value_text w ++ r) as [r Er].
    { destruct l; cbn [joined]; [by eexists|]. rewrite <- app_assoc. by eexists. }
    rewrite Er, value_not_blank, <- Er, IH. by destruct (traverse _ _).
Qed.

Lemma members_text scan l rest fuel : Forall (fun kv => reads scan (snd kv)) l -> l <> [] -> (length l <= S fuel)%nat ->
  scan_members scan fuel (joined member_text l ++ "}"%char :: rest) =
    (ms ← traverse (fun kv => x ← decoded decoder (snd kv); Ok (fst kv, x)) l; Ok (ms, rest)).
Proof.
  intros F. revert fuel; induction F as [|[k v] l Hv F IH]; intros fuel N HL; [done|]. clear N. cbn [snd] in Hv.
  assert (forall fuel tail, (ender tail \/ exists t, tail = ","%char :: t) -> scan_members scan fuel (member_text (k, v) ++ tail) =
    ('(v, rest) ← (x ← decoded decoder v; Ok (x, tail));
     match skip_blanks rest with
     | c :: rest =>
         if bool_decide (c = "}"%char) then Ok ([(k, v)], rest)
         else if bool_decide (c = ","%char) then
           match fuel with
           | O => Err JSONDecodeError
           | S fuel => '(members, rest) ← scan_members scan fuel (skip_blanks rest); Ok ((k, v) :: members, rest)
           end
         else Err JSONDecodeError
     | [] => Err JSONDecodeError
     end)) as Step.
  { clear fuel HL. intros fuel tail Ht. assert (ender tail) by (destruct Ht as [?|[t ->]]; [done|by left]).
    unfold member_text. cbn [fst snd]. rewrite <- app_assoc, string_text_eq.
    assert (of_chars (chars k) = k) as Ek by apply String.string_of_list_ascii_of_string.
    destruct fuel; cbn [scan_members]; rewrite bool_decide_true by done; cbn [negb raise_if mbind result_bind];
      change (ascii_of_N 34) with quote_char; rewrite scan_string_text; cbn [mbind result_bind app skip_blanks];
      change (is_blank ":") with false; cbv iota; rewrite bool_decide_true by done; cbn [negb raise_if mbind result_bind];
      rewrite value_not_blank, Hv by done; by rewrite ?Ek. }
  destruct l as [|w l].
  - cbn [joined traverse fst snd]. rewrite Step by (left; cbn; set_solver). by destruct (decoded decoder v).
  - destruct fuel as [|fuel]; [cbn in HL; lia|]. specialize (IH fuel ltac:(done) ltac:(cbn in *; lia)).
    change (joined member_text ((k, v) :: w :: l)) with (member_text (k, v) ++ ","%char :: joined member_text (w :: l)).
    rewrite <- app_assoc. cbn [app]. rewrite Step by (right; by eexists).
    set (f := fun kv : string * json => x ← decoded decoder (snd kv); Ok (fst kv, x)) in *.
    change (traverse f ((k, v) :: w :: l)) with (y ← (x ← decoded decoder v; Ok (k, x)); ys ← traverse f (w :: l); Ok (y :: ys)).
    destruct (decoded decoder v) as [x|e]; [|done]. cbn [mbind result_bind skip_blanks].
    change (is_blank ",") with false. cbv iota. rewrite bool_decide_false, bool_decide_true by done.
    assert (exists r, joined member_text (w :: l) ++ "}"%char :: rest = quote_char :: r) as [r Er].
    { unfold member_text. destruct l; cbn [joined]; rewrite <- ?app_assoc; rewrite string_text_eq; by eexists. }
    rewrite Er. change (skip_blanks (quote_char :: r)) with (quote_char :: r). rewrite <- Er, IH. by destruct (traverse _ _).
Qed.

Lemma joined_length {A} (pr : A -> list ascii) l : (forall x, starts pr x) -> (length l <= length (joined pr l))%nat.
Proof.
  intros St. induction l as [|x [|y l] IH]; [done| |].
  - destruct (St x) as (c & m & E & _). cbn [joined]. rewrite E. cbn. lia.
  - destruct (St x) as (c & m & E & _). change (joined pr (x :: y :: l)) with (pr x ++ ","%char :: joined pr (y :: l)).
    rewrite length_app, E. cbn [length] in *. lia.
Qed.

Lemma max_list_elem n l : n ∈ l -> (n <= max_list l)%nat.
Proof. induction 1; cbn; lia. Qed.

(** The scanner reads every text that [json.dumps] writes. *)
Lemma scan_value_text v depth : (nesting v <= depth)%nat -> reads (scan_value decoder depth) v.
Proof.
  revert depth. induction v as [|b|z|s|l IH|l IH] using json_nested_ind; intros depth Hd rest Hr.
  - by destruct depth.
  - by destruct b, depth.
  - destruct (value_head (JInt z)) as (c & t & E & Fc & _). rewrite <- scan_number_text by done.
    unfold value_text in *. cbn [json_dumps] in *. rewrite E. cbn [app].
    assert (scan_word decoder (c :: t ++ rest) = None /\ c <> quote_char /\ c <> "{"%char /\ c <> "["%char) as (W & N1 & N2 & N3).
    { rewrite app_comm_cons, <- E. clear Fc. destruct (int_text z) as (ds & D & [E'|E'] & Nd).
      - rewrite E' in *. subst ds. apply Forall_cons in D as [D _]. clear Nd E'.
        split_and!; [|by intros ->..]. destruct c as [[] [] [] [] [] [] [] []]; try discriminate D; reflexivity.
      - rewrite E' in *. injection E as <- ->. split_and!; [|done..]. destruct D as [|d ds D _]; [done|].
        destruct d as [[] [] [] [] [] [] [] []]; try discriminate D; reflexivity. }
    destruct depth; cbn [scan_value]; rewrite !bool_decide_false by done; by rewrite W.
  - assert (value_text (JStr s) ++ rest = quote_char :: chars (json_escape s) ++ quote_char :: rest) as ->
      by exact (string_text_eq s rest).
    destruct depth; cbn [scan_value]; rewrite bool_decide_true by done; 
      rewrite scan_string_text; cbn [mbind result_bind decoded]; unfold of_chars, chars;
      by rewrite String.string_of_list_ascii_of_string.
  - rewrite array_text. destruct depth as [|depth]; [cbn in Hd; lia|]. cbn [app scan_value]. rewrite !bool_decide_false, bool_decide_true by done.
    rewrite <- app_assoc. cbn [app]. unfold scan_array. destruct l as [|v l]; [done|].
    assert (Forall (reads (scan_value decoder depth)) (v :: l)) as F.
    { rewrite Forall_forall in IH |- *. intros x Hx. apply IH; [done|]. cbn [nesting] in Hd.
      pose proof (max_list_elem (nesting x) (map nesting (v :: l)) ltac:(by apply list_elem_of_fmap_2)). lia. }
    assert (exists r, joined value_text (v :: l) ++ "]"%char :: rest = value_text v ++ r) as [r Er].
    { destruct l; cbn [joined]; [by eexists|]. rewrite <- app_assoc. by eexists. }
    assert (skip_blanks (joined value_text (v :: l) ++ "]"%char :: rest) = joined value_text (v :: l) ++ "]"%char :: rest) as ->
      by (by rewrite Er, value_not_blank).
    assert (after_prefix (chars "]") (joined value_text (v :: l) ++ "]"%char :: rest) = None) as ->.
    { rewrite Er. destruct (value_head v) as (c & t & E & _ & N). rewrite E. cbn. rewrite bool_decide_false; [done|]. set_solver. }
    rewrite elements_text; [|done..|].
    + cbn [decoded]. by destruct (traverse _ _).
    + pose proof (joined_length value_text (v :: l) value_starts). rewrite length_app. cbn [length] in *. lia.
  - rewrite object_text. destruct depth as [|depth]; [cbn in Hd; lia|]. cbn [app scan_value]. rewrite bool_decide_false, bool_decide_true by done.
    rewrite <- app_assoc. cbn [app]. unfold scan_object. destruct l as [|kv l].
    { change (after_prefix (chars "}") (skip_blanks (joined member_text [] ++ "}"%char :: rest))) with (Some rest). reflexivity. }
    assert (Forall (fun kv => reads (scan_value decoder depth) (snd kv)) (kv :: l)) as F.
    { rewrite Forall_forall in IH |- *. intros x Hx. apply IH; [done|]. cbn [nesting] in Hd.
      pose proof (max_list_elem (nesting (snd x)) (map (fun kv => nesting (snd kv)) (kv :: l))
        ltac:(by apply (list_elem_of_fmap_2 (fun kv => nesting (snd kv))))). lia. }
    assert (exists r, joined member_text (kv :: l) ++ "}"%char :: rest = quote_char :: r) as [r Er].
    { unfold member_text. destruct l; cbn [joined]; rewrite <- ?app_assoc; rewrite string_text_eq; by eexists. }
    rewrite Er. change (skip_blanks (quote_char :: r)) with (quote_char :: r). change (after_prefix (chars "}") (quote_char :: r)) with (@None (list ascii)).
    cbv iota. rewrite <- Er. rewrite members_text; [|done..|].
    + cbn [decoded]. by destruct (traverse _ _).
    + pose proof (joined_length member_text (kv :: l) member_starts). rewrite length_app. cbn [length] in *. lia.
Qed.

(** What [json.dumps] writes, [json.loads] reads back. *)
Lemma loads_dumps v limit : (nesting v <= limit)%nat -> loads decoder limit (json_dumps v) = decoded decoder v.
Proof.
  intros H. unfold loads. fold (value_text v). rewrite <- (app_nil_r (value_text v)), value_not_blank, scan_value_text by done.
  by destruct (decoded decoder v).
Qed.
End Reading.

(** ** The fuel of the loops is enough *)

Definition shrinks {A B} (scan : list A -> result (B * list A)) : Prop :=
  forall l v rest, scan l = Ok (v, rest) -> (length rest < length l)%nat.

Lemma skip_blanks_length l : (length (skip_blanks l) <= length l)%nat.
Proof. induction l as [|c l IH]; [done|]. cbn. destruct (is_blank c); cbn; lia. Qed.

Lemma put_Ok prefix read s rest : put prefix read = Ok (s, rest) -> exists t, read = Ok (t, rest).
Proof. unfold put. destruct read as [[t r]|e]; [|done]. intros [= <- <-]. by exists t. Qed.

Lemma scan_string_shrinks : shrinks scan_string.
Proof.
  intros l. induction l as [l IH] using (induction_ltof1 _ (@length ascii)). unfold ltof in IH. intros s rest H.
  assert (forall p k, (length k < length l)%nat -> put p (scan_string k) = Ok (s, rest) -> (length rest < length l)%nat) as P.
  { intros p k Hk [t E]%put_Ok. apply IH in E; lia. }
  destruct l as [|c l]; [done|]. cbn [scan_string] in H. case_bool_decide; [injection H as _ ->; cbn; lia|].
  case_bool_decide; [|by destruct (N_of_ascii c <? 32)%N; [done|]; apply P in H; [|cbn; lia]].
  destruct l as [|e l]; [done|]. case_bool_decide.
  - destruct l as [|h1 [|h2 [|h3 [|h4 l]]]]; [done..|]. destruct (hex4 h1 h2 h3 h4) as [code|]; [|done].
    destruct (high_surrogate code && _); [|apply P in H; [done|cbn; lia]].
    destruct l as [|b [|u [|k1 [|k2 [|k3 [|k4 l]]]]]]; try (apply P in H; [done|cbn; lia]).
    destruct (hex4 k1 k2 k3 k4) as [low|]; [|done]. destruct (low_surrogate low); apply P in H; done || (cbn; lia).
  - destruct (simple_escape e); [|done]. apply P in H; [done|cbn; lia].
Qed.

Lemma take_digits_length l : (length (snd (take_digits l)) <= length l)%nat /\
  (fst (take_digits l) <> [] -> (length (snd (take_digits l)) < length l)%nat).
Proof. induction l as [|c l [IH _]]; [done|]. cbn. destruct (is_digit c); cbn; [lia|]. by split; [lia|]. Qed.

Lemma fraction_length l : (length (snd (match_fraction l)) <= length l)%nat.
Proof. destruct l as [|c l]; [done|]. cbn. pose proof (take_digits_length l) as [? _]. destruct (_ && _); cbn; lia. Qed.

Lemma exponent_length l : (length (snd (match_exponent l)) <= length l)%nat.
Proof.
  destruct l as [|c l]; [done|]. unfold match_exponent.
  assert (forall sign digits, (length digits <= length l)%nat ->
    (length (snd (if bool_decide (c ∈ ["e"; "E"]%char) && negb (bool_decide (fst (take_digits digits) = []))
      then (c :: sign ++ fst (take_digits digits), snd (take_digits digits)) else ([], c :: l))) <= length (c :: l))%nat) as P.
  { intros sign digits H. pose proof (take_digits_length digits) as [? _]. destruct (_ && _); cbn [snd length]; lia. }
  destruct l as [|s l]; [by apply P|]. destruct (bool_decide (s ∈ _)); apply P; cbn; lia.
Qed.

Lemma json_number_length l negative digits tail rest :
  json_number l = Some (negative, digits, tail, rest) -> (length rest < length l)%nat.
Proof.
  unfold json_number. intros H.
  assert (exists m : list ascii, (length m <= length l)%nat /\ exists p, (match m with
      | c :: tail => if bool_decide (c = "0"%char) then ([c], tail) else take_digits m | [] => ([], []) end) = p /\
      exists neg, (let '(digits, rest) := p in if bool_decide (digits = []) then None else
        let '(fraction, rest) := match_fraction rest in let '(exponent, rest) := match_exponent rest in
        Some (neg, digits, fraction ++ exponent, rest)) = Some (negative, digits, tail, rest)) as (m & Hm & [ds r] & E & neg & F).
  { destruct l as [|c l]; [by exists []; split; [done|]; eexists; split; [done|]; eexists|].
    destruct (bool_decide (c = "-"%char)); [exists l|exists (c :: l)]; (split; [cbn; lia|]); eexists; (split; [reflexivity|]); eexists; exact H. }
  clear H. case_bool_decide as N; [done|]. assert (length r < length m)%nat as Hr.
  { destruct m as [|c m]; [by injection E as <-|]. destruct (bool_decide (c = "0"%char)); [injection E as <- <-; cbn; lia|].
    pose proof (take_digits_length (c :: m)) as [_ D]. rewrite E in D. by apply D. }
  pose proof (fraction_length r). destruct (match_fraction r) as [fr r1]. pose proof (exponent_length r1).
  destruct (match_exponent r1) as [ex r2]. injection F as _ _ _ <-. cbn in *. lia.
Qed.

Lemma after_prefix_length p l rest : after_prefix p l = Some rest -> (length rest + length p = length l)%nat.
Proof.
  revert l; induction p as [|c p IH]; intros [|d l] H; cbn in *; try done; try (injection H as <-; cbn; lia).
  case_bool_decide; [|done]. apply IH in H. lia.
Qed.

Section Fuel.
Context {V : Type} (decoder : JSONDecoder V).

Lemma scan_elements_shrinks scan fuel : shrinks scan -> shrinks (scan_elements (V:=V) scan fuel).
Proof.
  intros S. induction fuel as [|fuel IH]; intros l vs rest H; cbn [scan_elements] in H;
    apply bind_Ok in H as ([v r] & Hv%S & H); pose proof (skip_blanks_length r);
    destruct (skip_blanks r) as [|c r1]; try done; cbn [length] in *;
    (destruct (bool_decide (c = "]"%char)); [injection H as _ <-; lia|]);
    (destruct (bool_decide (c = ","%char)); [|done]); [done|].
  apply bind_Ok in H as ([ws r2] & Hw%IH & [= _ <-]). pose proof (skip_blanks_length r1). lia.
Qed.

Lemma scan_members_shrinks scan fuel : shrinks scan -> shrinks (scan_members (V:=V) scan fuel).
Proof.
  intros S. induction fuel as [|fuel IH]; intros [|q l] ms rest H; try done; cbn [scan_members] in H;
    apply bind_Ok in H as (? & _ & H); apply bind_Ok in H as ([k r0] & Hk%scan_string_shrinks & H);
    pose proof (skip_blanks_length r0); destruct (skip_blanks r0) as [|colon r1]; try done;
    apply bind_Ok in H as (? & _ & H); apply bind_Ok in H as ([v r] & Hv%S & H);
    pose proof (skip_blanks_length r1); pose proof (skip_blanks_length r);
    destruct (skip_blanks r) as [|c r2]; try done; cbn [length] in *;
    (destruct (bool_decide (c = "}"%char)); [injection H as _ <-; lia|]);
    (destruct (bool_decide (c = ","%char)); [|done]); [done|].
  apply bind_Ok in H as ([ws r3] & Hw%IH & [= _ <-]). pose proof (skip_blanks_length r2). lia.
Qed.

Lemma scan_value_shrinks depth : shrinks (scan_value decoder depth).
Proof.
  induction depth as [|depth IH]; intros [|c l] v rest H; try done; cbn [scan_value] in H.
  all: case_bool_decide; [apply bind_Ok in H as ([s r] & Hs%scan_string_shrinks & [= _ <-]); cbn; lia|].
  all: case_bool_decide; [try done|].
  2: { unfold scan_object in H. pose proof (skip_blanks_length l). apply bind_Ok in H as ([ms r] & Hm & H).
       apply bind_Ok in H as (x & _ & [= _ <-]). destruct (after_prefix _ _) as [r'|] eqn:E; [injection Hm as _ <-; apply after_prefix_length in E; cbn in *; lia|].
       apply scan_members_shrinks in Hm; [cbn; lia|done]. }
  all: case_bool_decide; [try done|].
  2: { unfold scan_array in H. pose proof (skip_blanks_length l).
       destruct (after_prefix _ _) as [r'|] eqn:E; [injection H as _ <-; apply after_prefix_length in E; cbn in *; lia|].
       apply bind_Ok in H as ([ms r] & Hm & [= _ <-]). apply scan_elements_shrinks in Hm; [cbn; lia|done]. }
  all: destruct (scan_word decoder (c :: l)) as [read|] eqn:W.
  all: try (unfold scan_word in W;
    repeat (destruct (after_prefix _ (c :: l)) as [r|] eqn:E; [injection W as <-; apply after_prefix_length in E;
      try (apply bind_Ok in H as (? & _ & H)); injection H as _ <-; cbn in *; lia|clear E]); done).
  all: unfold scan_number in H; apply bind_Ok in H as ([[[neg ds] tail] r] & E & H);
    destruct (json_number (c :: l)) as [q|] eqn:N; [injection E as ->|done]; apply json_number_length in N;
    destruct (bool_decide (tail = [])); apply bind_Ok in H as (? & _ & [= _ <-]); lia.
Qed.

(** More fuel than the text has characters changes nothing. *)
Lemma loops_fuel scan fuel fuel' l : shrinks scan -> (length l <= fuel)%nat -> (length l <= fuel')%nat ->
  scan_elements (V:=V) scan fuel l = scan_elements scan fuel' l /\ scan_members (V:=V) scan fuel l = scan_members scan fuel' l.
Proof.
  intros S. revert fuel' l. induction fuel as [|fuel IH]; intros fuel' l H H'.
  - destruct l; [|cbn in H; lia]. split; [|by destruct fuel'].
    assert (scan [] = scan [] ->  exists e, scan [] = Err e) as (e & E); [|done|].
    { intros _. destruct (scan []) as [[v r]|e] eqn:E; [apply S in E; cbn in E; lia|by exists e]. }
    destruct fuel'; cbn [scan_elements]; by rewrite E.
  - destruct fuel' as [|fuel'].
    { destruct l; [|cbn in H'; lia]. destruct (IH 0%nat [] ltac:(cbn; lia) ltac:(done)) as [E1 E2]. split; [|done].
      destruct (scan []) as [[v r]|e] eqn:E; [apply S in E; cbn in E; lia|]. cbn [scan_elements]. by rewrite E. }
    split.
    + cbn [scan_elements]. destruct (scan l) as [[v r]|e] eqn:E; [|done]. apply S in E. cbn [mbind result_bind].
      pose proof (skip_blanks_length r). destruct (skip_blanks r) as [|c r1]; [done|]. cbn [length] in *.
      pose proof (skip_blanks_length r1). destruct (IH fuel' (skip_blanks r1) ltac:(lia) ltac:(lia)) as [-> _]. done.
    + destruct l as [|q l]; [done|]. cbn [scan_members]. destruct (raise_if _ _); [|done]. cbn [mbind result_bind].
      destruct (scan_string l) as [[k r0]|e] eqn:E0; [|done]. apply scan_string_shrinks in E0. cbn [mbind result_bind].
      pose proof (skip_blanks_length r0). destruct (skip_blanks r0) as [|colon r1]; [done|]. cbn [length] in *.
      destruct (raise_if _ _); [|done]. cbn [mbind result_bind]. pose proof (skip_blanks_length r1).
      destruct (scan (skip_blanks r1)) as [[v r]|e] eqn:E; [|done]. apply S in E. cbn [mbind result_bind].
      pose proof (skip_blanks_length r). destruct (skip_blanks r) as [|c r2]; [done|]. cbn [length] in *.
      pose proof (skip_blanks_length r2). destruct (IH fuel' (skip_blanks r2) ltac:(lia) ltac:(lia)) as [_ ->]. done.
Qed.
End Fuel.
