(* ===== verification/JsonFields.v ===== *)
(** * Objects of a strict JSON document

    The readers of this code accept only objects without repeated members and
    only exact integers.  Such a value reads back from its canonical text
    unchanged, and its members are found under their names whatever the order
    the text has them in. *)

From S2P Require Import Prelude Text Identity JsonText JsonRead.

(** ** Strict decoding *)

(** The first key that occurs again, in the order a loop over the pairs meets it. *)
Fixpoint repeated_key (seen : list string) (keys : list string) : option string :=
  match keys with
  | [] => None
  | key :: rest => if bool_decide (key ∈ seen) then Some key else repeated_key (key :: seen) rest
  end.

Definition strict_decoder (repeated number : string -> py_error) : JSONDecoder json :=
  mkDecoder json JNull JBool JInt JStr JArr (fun text => Err (number text)) (fun text => Err (number text))
    (fun pairs => match repeated_key [] (map fst pairs) with
                  | Some key => Err (repeated key)
                  | None => Ok (JObj pairs)
                  end).

(** [json.dumps(...)] of a canonical value: integers beyond the interpreter's
    limit have no text. *)
Fixpoint ints_of (v : json) : list Z :=
  match v with
  | JInt z => [z]
  | JArr l => concat (map ints_of l)
  | JObj members => concat (map (fun kv => ints_of (snd kv)) members)
  | _ => []
  end.

Definition ints_fit (v : json) : bool := forallb (fun z => int_digits z <=? MAX_STR_DIGITS) (ints_of v).

Definition int_too_long : py_error :=
  ValueError ("Exceeds the limit (4300 digits) for integer string conversion; " +:+
              "use sys.set_int_max_str_digits() to increase the limit").

Definition canonical_json_bytes (v : json) : result string :=
  raise_if (negb (ints_fit v)) int_too_long;; Ok (canonical_json v).

Lemma canonical_json_bytes_Ok v text : canonical_json_bytes v = Ok text <-> ints_fit v = true /\ text = canonical_json v.
Proof.
  unfold canonical_json_bytes. destruct (ints_fit v); cbn [negb raise_if mbind result_bind]; split; try done.
  - intros [= E]. done.
  - by intros [_ ->].
  - by intros [? _].
Qed.

(** Every object has distinct keys. *)
Fixpoint distinct_keys (v : json) : bool :=
  match v with
  | JArr l => forallb distinct_keys l
  | JObj members => distinct (map fst members) && forallb (fun kv => distinct_keys (snd kv)) members
  | _ => true
  end.

Lemma repeated_key_None keys : forall seen, repeated_key seen keys = None <-> NoDup keys /\ (forall k, k ∈ keys -> k ∉ seen).
Proof.
  induction keys as [|k keys IH]; intros seen; cbn.
  - split; [split; [constructor|set_solver]|done].
  - case_bool_decide as D; [split; [done|]; intros [_ N]; by destruct (N k ltac:(left))|].
    rewrite IH, NoDup_cons. split.
    + intros [N H]. split_and!; [|done|]; set_solver.
    + intros [[Nk N] H]. split; [done|]. set_solver.
Qed.

Section Strict.
Context (repeated number : string -> py_error).
Local Notation strict := (strict_decoder repeated number).

Lemma decoded_members (l ms : list (string * json)) :
  Forall (fun kv => forall w, decoded strict (snd kv) = Ok w <->
    w = snd kv /\ distinct_keys (snd kv) = true /\ ints_fit (snd kv) = true) l ->
  traverse (fun kv => x ← decoded strict (snd kv); Ok (fst kv, x)) l = Ok ms <->
    ms = l /\ forallb (fun kv => distinct_keys (snd kv)) l = true /\ forallb (fun kv => ints_fit (snd kv)) l = true.
Proof.
  intros F. revert ms; induction F as [|[k v] l Hv F IH]; intros ms; cbn [traverse forallb fst snd] in *.
  - split; [by intros [= <-]|by intros [-> _]].
  - rewrite bind_Ok. split.
    + intros (y & Hy & H). apply bind_Ok in Hy as (w & (-> & D & I)%Hv & [= <-]). apply bind_Ok in H as (ws & (-> & D' & I')%IH & [= <-]).
      by rewrite D, I, D', I'.
    + intros (-> & [D D']%andb_true_iff & [I I']%andb_true_iff). exists (k, v). split.
      * apply bind_Ok. exists v. split; [|done]. by apply Hv.
      * apply bind_Ok. exists l. split; [|done]. by apply IH.
Qed.

Lemma ints_fit_concat l : ints_fit (JArr l) = forallb ints_fit l.
Proof. unfold ints_fit. cbn. induction l as [|v l IH]; cbn; [done|]. by rewrite forallb_app, IH. Qed.
Lemma ints_fit_members l : ints_fit (JObj l) = forallb (fun kv => ints_fit (snd kv)) l.
Proof. unfold ints_fit. cbn. induction l as [|v l IH]; cbn; [done|]. by rewrite forallb_app, IH. Qed.

(** A strict decoder returns the value itself, if its keys are distinct and its
    integers have texts, and nothing otherwise. *)
Lemma decoded_strict v w :
  decoded strict v = Ok w <-> w = v /\ distinct_keys v = true /\ ints_fit v = true.
Proof.
  revert w; induction v as [|b|z|s|l IH|l IH] using json_nested_ind; intros w; cbn [decoded].
  1, 2, 4: cbn; split; [by intros [= <-]|by intros [-> _]].
  - unfold ints_fit. cbn. rewrite andb_true_r, Z.ltb_antisym. destruct (_ <=? _); cbn; split; try done; [by intros [= <-]|by intros (-> & _)|by intros (_ & _ & ?)].
  - rewrite ints_fit_concat. cbn [distinct_keys].
    assert (forall ms, traverse (decoded strict) l = Ok ms <-> ms = l /\ forallb distinct_keys l = true /\ forallb ints_fit l = true) as T.
    { induction IH as [|v l Hv F IHl]; intros ms; cbn [traverse forallb]; [split; [by intros [= <-]|by intros [-> _]]|].
      rewrite bind_Ok. split.
      - intros (y & (-> & D & I)%Hv & H). apply bind_Ok in H as (ws & (-> & D' & I')%IHl & [= <-]). by rewrite D, I, D', I'.
      - intros (-> & [D D']%andb_true_iff & [I I']%andb_true_iff). exists v. split; [by apply Hv|]. apply bind_Ok.
        exists l. split; [by apply IHl|done]. }
    rewrite bind_Ok. split; [intros (ms & (-> & D & I)%T & [= <-]); done|intros (-> & D & I); exists l; split; [by apply T|done]].
  - rewrite ints_fit_members. cbn [distinct_keys jd_object strict_decoder]. rewrite bind_Ok. setoid_rewrite decoded_members; [|done].
    split.
    + intros (ms & (-> & D & I) & H). destruct (repeated_key [] _) eqn:E; [done|]. injection H as <-.
      apply repeated_key_None in E as [E _]. by rewrite (proj2 (distinct_spec _) E), D, I.
    + intros (-> & [N D]%andb_true_iff & I). exists l. split; [done|]. apply distinct_spec in N.
      assert (repeated_key [] (map fst l) = None) as ->; [|done]. apply repeated_key_None. split; [done|]. intros ? _. apply not_elem_of_nil.
Qed.
End Strict.

(** ** Canonical values *)

Definition canonical_member (kv : string * json) : string * json := (fst kv, canonical (snd kv)).

Lemma canonical_fields l : exists fields, canonical (JObj l) = JObj fields /\ fields ≡ₚ map canonical_member l.
Proof. eexists. split; [reflexivity|]. apply sort_by_perm. Qed.

Lemma fields_keys (fields l : list (string * json)) : fields ≡ₚ map canonical_member l -> map fst fields ≡ₚ map fst l.
Proof. intros ->. rewrite map_map. cbn. done. Qed.

Lemma distinct_perm (l k : list string) : l ≡ₚ k -> distinct l = distinct k.
Proof. intros P. apply eq_true_iff_eq. by rewrite !distinct_spec, P. Qed.

Lemma forallb_perm {A} (f : A -> bool) l k : l ≡ₚ k -> forallb f l = forallb f k.
Proof. induction 1; cbn; try congruence. destruct (f x), (f y); done. Qed.

Lemma forallb_map {A B} (f : B -> bool) (g : A -> B) l : forallb f (map g l) = forallb (fun x => f (g x)) l.
Proof. induction l as [|x l IH]; cbn; [done|]. by rewrite IH. Qed.

Lemma forallb_map_same {A} (f : A -> bool) (g : A -> A) l :
  Forall (fun x => f (g x) = f x) l -> forallb f (map g l) = forallb f l.
Proof. induction 1 as [|x l H _ IH]; cbn; [done|]. by rewrite H, IH. Qed.

Lemma canonical_distinct v : distinct_keys (canonical v) = distinct_keys v.
Proof.
  induction v as [|b|z|s|l IH|l IH] using json_nested_ind; try done; [by apply forallb_map_same|].
  destruct (canonical_fields l) as (fields & -> & P). cbn [distinct_keys]. rewrite (distinct_perm _ _ (fields_keys _ _ P)).
  f_equal. rewrite (forallb_perm _ _ _ P). by apply forallb_map_same.
Qed.

Lemma canonical_ints v : ints_fit (canonical v) = ints_fit v.
Proof.
  induction v as [|b|z|s|l IH|l IH] using json_nested_ind; try done.
  - cbn [canonical]. rewrite !ints_fit_concat. by apply forallb_map_same.
  - destruct (canonical_fields l) as (fields & -> & P). rewrite !ints_fit_members, (forallb_perm _ _ _ P). by apply forallb_map_same.
Qed.

Lemma max_list_perm l k : l ≡ₚ k -> max_list l = max_list k.
Proof. induction 1; cbn in *; lia. Qed.

Lemma max_list_le n l : Forall (fun k => (k <= n)%nat) l -> (max_list l <= n)%nat.
Proof. induction 1; cbn in *; lia. Qed.

Lemma max_list_map_same {A} (f : A -> nat) (g : A -> A) l :
  Forall (fun x => f (g x) = f x) l -> max_list (map f (map g l)) = max_list (map f l).
Proof. induction 1 as [|x l H _ IH]; cbn; [done|]. by rewrite H, IH. Qed.

Lemma canonical_nesting v : nesting (canonical v) = nesting v.
Proof.
  induction v as [|b|z|s|l IH|l IH] using json_nested_ind; try done; [cbn; f_equal; by apply max_list_map_same|].
  destruct (canonical_fields l) as (fields & -> & P). cbn [nesting]. f_equal.
  rewrite (max_list_perm _ (map (fun kv => nesting (snd kv)) (map canonical_member l))) by (by apply Permutation_map).
  by apply max_list_map_same.
Qed.

(** The canonical text of a value reads as its canonical form. *)
Lemma loads_canonical repeated number v w limit : (nesting v <= limit)%nat ->
  loads (strict_decoder repeated number) limit (canonical_json v) = Ok w <->
    w = canonical v /\ distinct_keys v = true /\ ints_fit v = true.
Proof.
  intros H. unfold canonical_json. rewrite loads_dumps by (by rewrite canonical_nesting).
  rewrite decoded_strict. by rewrite canonical_distinct, canonical_ints.
Qed.

(** ** Members by name *)

Lemma dict_get_Some {A} (l : list (string * A)) k a : NoDup (map fst l) -> dict_get l k = Some a <-> (k, a) ∈ l.
Proof.
  intros N. unfold dict_get. split.
  - destruct (head _) as [[j b]|] eqn:E; [|done]. intros [= <-]. destruct (filter _ l) eqn:F; [done|]. injection E as ->.
    assert ((j, b) ∈ filter (fun e => fst e = k) l) as H by (rewrite F; left). apply list_elem_of_filter in H as [<- H]. done.
  - intros H. assert (filter (fun e => fst e = k) l = [(k, a)]) as ->; [|done].
    induction l as [|[j b] l IH]; [by apply not_elem_of_nil in H|]. cbn in N. apply NoDup_cons in N as [Nj N]. rewrite filter_cons.
    cbn [fst]. apply elem_of_cons in H as [[= <- <-]|H].
    + rewrite decide_True by done. f_equal. destruct (filter _ l) as [|e r] eqn:F; [done|].
      assert (e ∈ filter (fun e => fst e = k) l) as He by (rewrite F; left). apply list_elem_of_filter in He as [Ek He].
      destruct Nj. rewrite <- Ek. by apply list_elem_of_fmap_2.
    + rewrite decide_False; [by apply IH|]. intros ->. destruct Nj. by apply (list_elem_of_fmap_2 fst _ (k, a)).
Qed.

Lemma at_key_Ok {A} (l : list (string * A)) k a : at_key l k = Ok a <-> dict_get l k = Some a.
Proof. unfold at_key. apply of_option_Ok. Qed.

(** Members of a canonical object are those of the object. *)
Lemma canonical_member_at fields l k v : NoDup (map fst l) -> fields ≡ₚ map canonical_member l ->
  dict_get l k = Some v -> at_key fields k = Ok (canonical v).
Proof.
  intros N P H. apply at_key_Ok, dict_get_Some; [by rewrite (fields_keys _ _ P)|]. rewrite P.
  apply dict_get_Some in H; [|done]. by apply (list_elem_of_fmap_2 canonical_member _ (k, v)).
Qed.

Lemma canonical_keys fields l expected : fields ≡ₚ map canonical_member l ->
  py_set_eq (map fst fields) expected = py_set_eq (map fst l) expected.
Proof.
  intros P. apply eq_true_iff_eq. rewrite !py_set_eq_spec. by setoid_rewrite (fields_keys _ _ P).
Qed.

(** ** Plain text *)

Definition is_plain (c : ascii) : bool := (N_of_ascii c <? 128)%N.
Definition plain (s : string) : bool := forallb is_plain (chars s).

Fixpoint plain_json (v : json) : bool :=
  match v with
  | JStr s => plain s
  | JArr l => forallb plain_json l
  | JObj members => forallb (fun kv => plain (fst kv) && plain_json (snd kv)) members
  | _ => true
  end.

Lemma plain_utf8 l : forallb is_plain l = true -> utf8_valid l = true.
Proof.
  induction l as [|c l IH]; [done|]. cbn [forallb]. intros [H F]%andb_true_iff. unfold is_plain in H. apply N.ltb_lt in H.
  cbn [utf8_valid]. unfold byte_in. rewrite (proj2 (N.leb_le 0 _)), (proj2 (N.leb_le _ 127)) by lia. cbn [andb]. by apply IH.
Qed.

Lemma plain_app a b : plain (a +:+ b) = plain a && plain b.
Proof. unfold plain. by rewrite chars_app, forallb_app. Qed.

Lemma plain_string s : plain (json_string s) = plain s.
Proof.
  unfold json_string. rewrite !plain_app. change (plain quote) with true. rewrite andb_true_r. cbn [andb].
  induction s as [|c s IH]; [done|]. cbn [json_escape]. rewrite plain_app, IH.
  change (plain (String c s)) with (is_plain c && plain s). f_equal. by destruct c as [[] [] [] [] [] [] [] []].
Qed.

Lemma plain_join l : plain (str_join "," l) = forallb plain l.
Proof. induction l as [|a [|b l] IH]; [done|cbn; by rewrite andb_true_r|]. change (str_join "," (a :: b :: l)) with (a +:+ "," +:+ str_join "," (b :: l)). by rewrite !plain_app, IH. Qed.

Lemma plain_int z : plain (str_of_Z z) = true.
Proof.
  destruct (int_text z) as (ds & D & E & _).
  assert (forallb is_plain ds = true) as P.
  { apply forallb_forall. intros c Hc%list_elem_of_In. rewrite Forall_forall in D. specialize (D c Hc).
    by destruct c as [[] [] [] [] [] [] [] []]. }
  unfold plain. destruct E as [->| ->]; [done|]. exact P.
Qed.

Lemma plain_dumps v : plain (json_dumps v) = plain_json v.
Proof.
  induction v as [|b|z|s|l IH|l IH] using json_nested_ind; cbn [json_dumps plain_json].
  - done.
  - by destruct b.
  - apply plain_int.
  - apply plain_string.
  - rewrite !plain_app, plain_join, forallb_map. cbn [plain]. change (plain "[") with true. change (plain "]") with true.
    rewrite andb_true_r. cbn [andb]. induction IH as [|v l Hv _ IHl]; cbn; [done|]. by rewrite Hv, IHl.
  - rewrite !plain_app, plain_join, forallb_map. change (plain "{") with true. change (plain "}") with true.
    rewrite andb_true_r. cbn [andb]. induction IH as [|v l Hv _ IHl]; cbn; [done|].
    by rewrite !plain_app, plain_string, Hv, IHl.
Qed.

Lemma canonical_plain v : plain_json (canonical v) = plain_json v.
Proof.
  induction v as [|b|z|s|l IH|l IH] using json_nested_ind; try done; [by apply forallb_map_same|].
  destruct (canonical_fields l) as (fields & -> & P). cbn [plain_json]. rewrite (forallb_perm _ _ _ P).
  apply forallb_map_same. eapply Forall_impl; [exact IH|]. intros [k v] E. cbn in *. by rewrite E.
Qed.

Lemma plain_decodes v : plain_json v = true -> decode_utf8 (canonical_json v) = Ok (canonical_json v).
Proof.
  intros H. unfold decode_utf8. rewrite plain_utf8; [done|]. unfold canonical_json.
  change (plain (json_dumps (canonical v)) = true). by rewrite plain_dumps, canonical_plain.
Qed.

(** ** Sizes *)

Definition text_size (s : string) : Z := 6 * Z.of_nat (String.length s) + 2.
Definition sum_of {A} (f : A -> Z) : list A -> Z := fix go l := match l with [] => 0 | x :: l => f x + go l end.

Lemma length_append a b : String.length (a +:+ b) = (String.length a + String.length b)%nat.
Proof. rewrite <- !length_chars, chars_app. apply length_app. Qed.

(** A bound for the length of the text of a value. *)
Fixpoint text_bound (v : json) : Z :=
  match v with
  | JNull => 4
  | JBool _ => 5
  | JInt z => 1 + int_digits z
  | JStr s => text_size s
  | JArr l => 2 + sum_of (fun x => text_bound x + 1) l
  | JObj members => 2 + sum_of (fun kv => text_size (fst kv) + text_bound (snd kv) + 2) members
  end.

Lemma json_string_length s : Z.of_nat (String.length (json_string s)) <= text_size s.
Proof.
  unfold json_string, text_size. rewrite !length_append.
  change (String.length quote) with 1%nat. assert (String.length (json_escape s) <= 6 * String.length s)%nat; [|lia].
  induction s as [|c s IH]; [done|]. cbn [json_escape]. rewrite length_append. cbn [String.length].
  assert (String.length (json_escape_char c) <= 6)%nat; [|lia].
  apply Nat.leb_le. by destruct c as [[] [] [] [] [] [] [] []].
Qed.

Lemma join_length l : Z.of_nat (String.length (str_join "," l)) <= sum_of (fun s => Z.of_nat (String.length s) + 1) l.
Proof.
  induction l as [|a [|b l] IH]; [done|cbn; lia|].
  change (str_join "," (a :: b :: l)) with (a +:+ "," +:+ str_join "," (b :: l)). rewrite !length_append.
  change (sum_of ?f (a :: ?r)) with (f a + sum_of f r). cbv beta. change (String.length ",") with 1%nat. lia.
Qed.

Lemma sum_of_le {A} (f g : A -> Z) l : Forall (fun x => f x <= g x) l -> sum_of f l <= sum_of g l.
Proof. induction 1; cbn in *; lia. Qed.
Lemma sum_of_map {A B} (f : B -> Z) (g : A -> B) l : sum_of f (map g l) = sum_of (fun x => f (g x)) l.
Proof. induction l as [|x l IH]; cbn; [done|]. by rewrite IH. Qed.
Lemma sum_of_perm {A} (f : A -> Z) l k : l ≡ₚ k -> sum_of f l = sum_of f k.
Proof. induction 1; cbn in *; lia. Qed.

Lemma dumps_length v : Z.of_nat (String.length (json_dumps v)) <= text_bound v.
Proof.
  induction v as [|b|z|s|l IH|l IH] using json_nested_ind.
  - done.
  - by destruct b.
  - cbn [json_dumps text_bound]. unfold int_digits. rewrite length_chars. destruct z as [|p|p]; [done| |].
    + change (str_of_Z (Zpos p)) with (pretty (Npos p)). change (Z.abs_N (Zpos p)) with (Npos p). lia.
    + change (str_of_Z (Zneg p)) with (String "-" (pretty (Npos p))). change (Z.abs_N (Zneg p)) with (Npos p). cbn [String.length]. lia.
  - apply json_string_length.
  - cbn [json_dumps text_bound]. rewrite !length_append. pose proof (join_length (map json_dumps l)) as J.
    rewrite sum_of_map in J. assert (sum_of (fun x => Z.of_nat (String.length (json_dumps x)) + 1) l <= sum_of (fun x => text_bound x + 1) l).
    { apply sum_of_le. eapply Forall_impl; [exact IH|]. intros x. cbn. lia. }
    change (String.length "[") with 1%nat. change (String.length "]") with 1%nat. lia.
  - cbn [json_dumps text_bound]. rewrite !length_append. pose proof (join_length (map (fun kv => json_string (fst kv) +:+ ":" +:+ json_dumps (snd kv)) l)) as J.
    rewrite sum_of_map in J. assert (sum_of (fun kv => Z.of_nat (String.length (json_string (fst kv) +:+ ":" +:+ json_dumps (snd kv))) + 1) l
      <= sum_of (fun kv => text_size (fst kv) + text_bound (snd kv) + 2) l).
    { apply sum_of_le. eapply Forall_impl; [exact IH|]. intros [k x]. cbn [fst snd]. rewrite !length_append.
      pose proof (json_string_length k). change (String.length ":") with 1%nat. lia. }
    change (String.length "{") with 1%nat. change (String.length "}") with 1%nat. lia.
Qed.

Lemma sum_of_split {A} (f : A -> Z) l i x : l !! i = Some x -> sum_of f l = sum_of f (take i l) + f x + sum_of f (drop (S i) l).
Proof.
  revert i; induction l as [|y l IH]; intros [|i] H; [done|done|by injection H as ->|].
  cbn in *. rewrite (IH i H). lia.
Qed.
Lemma sum_of_map_same {A} (f : A -> Z) (g : A -> A) l : Forall (fun x => f (g x) = f x) l -> sum_of f (map g l) = sum_of f l.
Proof. induction 1 as [|x l H _ IH]; cbn; [done|]. by rewrite H, IH. Qed.

Lemma canonical_bound v : text_bound (canonical v) = text_bound v.
Proof.
  induction v as [|b|z|s|l IH|l IH] using json_nested_ind; try done.
  - cbn [canonical text_bound]. f_equal. apply sum_of_map_same. eapply Forall_impl; [exact IH|]. intros x. cbn. by intros ->.
  - destruct (canonical_fields l) as (fields & -> & P). cbn [text_bound]. f_equal. rewrite (sum_of_perm _ _ _ P).
    apply sum_of_map_same. eapply Forall_impl; [exact IH|]. intros x. cbn. by intros ->.
Qed.

Lemma canonical_length v : Z.of_nat (String.length (canonical_json v)) <= text_bound v.
Proof. rewrite <- canonical_bound. apply dumps_length. Qed.
