(* ===== verification/Grain.v ===== *)
(** * The stock-grain policy

    [packages/manufacturing/src/custombuild_manufacturing/grain.py]: parts whose
    grain has a direction need a stock sheet whose axis is known.  The policy
    reports one canonical issue for each group of affected parts, and checks the
    form of such an issue. *)

From S2P Require Import Prelude Text ManufacturingModel Nesting.

(** ** The rule *)

Record GrainRuleDefinition := mkGrainRule {
  gr_rule_id : string;
  gr_rule_version : string;
  gr_title : string;
  gr_message : string;
  gr_required_action : string }.

Definition DFM_GRAIN_RULE : GrainRuleDefinition :=
  mkGrainRule "DFM-GRAIN-001" "1.0.0"
    "Fiberriktning för skivmaterial"
    ("Directional sheet-material parts require an exact X or Y stock-grain axis before " +:+
     "nesting or CAM validation.")
    ("Bind an exact, structured X or Y stock-grain axis for every directional material " +:+
     "stock profile; opaque evidence or acknowledgement cannot resolve this blocker.").

Definition DFM_GRAIN_STOCK_MATCHED_PHASE : string := "STOCK_MATCHED".
Definition DFM_GRAIN_STOCK_SELECTION_INCOMPLETE_PHASE : string := "STOCK_SELECTION_INCOMPLETE".

Definition DFM_GRAIN_INPUT_KEYS : list string :=
  ["affected_part_ids"; "assessment_phase"; "binding_status"; "material_id"; "material_version";
   "required_part_grain_directions"; "stock_grain_direction"; "stock_id"].

(** ** Axes *)

Definition canonical_panel_grain (value : string) : string :=
  let up := upper (strip value) in
  if bool_decide (up ∈ ["NONE"; "NO_GRAIN"]) then "NONE"
  else if bool_decide (up ∈ ["X"; "Y"]) then up else "UNKNOWN".

Definition bound_stock_axis (value : string) : option string :=
  let up := upper (strip value) in if bool_decide (up ∈ ["X"; "Y"]) then Some up else None.

Definition directional (p : PartSpec) : bool := negb (bool_decide (canonical_panel_grain (ps_grain_direction p) = "NONE")).

Definition stock_grain_binding_required (parts : list part_input) : result bool :=
  instances ← coerce_part_instances parts; Ok (existsb (fun i => directional (pi_part i)) instances).

(** ** The form of an issue *)

(** [isinstance(value, str) and value and value == value.strip()] *)
Definition trimmed_text (v : option issue_value) : bool :=
  match v with Some (VStr s) => negb (bool_decide (s = "")) && bool_decide (s = strip s) | _ => false end.

Definition invalid (what : string) : py_error := ValueError ("canonical grain issue " +:+ what).

Definition strict_sorted_unique_strings (value : option issue_value) (label : string)
    (allowed : option (list string)) : result unit :=
  strings ← of_option (match value with Some (VStrs l) => Some l | _ => None end)
              (invalid (label +:+ " must be non-empty strings"));
  raise_if (bool_decide (strings = []) || negb (forallb (fun s => trimmed_text (Some (VStr s))) strings))
    (invalid (label +:+ " must be non-empty strings"));;
  raise_if (negb (bool_decide (strings = sort_strings (remove_dups strings))))
    (invalid (label +:+ " must be sorted and unique"));;
  match allowed with
  | Some allowed => raise_if (negb (py_subset strings allowed)) (invalid (label +:+ " contains an unsupported axis"))
  | None => Ok ()
  end.

(** [inputs.get(key)] *)
Definition input_of (i : DFMIssue) (key : string) : option issue_value :=
  snd <$> head (filter (fun kv => fst kv = key) (is_inputs i)).

Definition validate_stock_grain_binding_issue (i : DFMIssue) (expected_severity : option Severity)
    (expected_phase : option string) : result unit :=
  raise_if (negb (bool_decide (is_code i = gr_rule_id DFM_GRAIN_RULE))) (invalid "code is invalid");;
  raise_if (bool_decide (is_severity i ∉ [BLOCK; WARNING])) (invalid "severity must be BLOCK or WARNING");;
  raise_if (match expected_severity with Some s => negb (bool_decide (is_severity i = s)) | None => false end)
    (invalid "severity does not match its package phase");;
  raise_if (negb (bool_decide (is_message i = gr_message DFM_GRAIN_RULE))) (invalid "message is invalid");;
  raise_if (negb (bool_decide (is_suggestion i = Some (gr_required_action DFM_GRAIN_RULE))))
    (invalid "required action is invalid");;
  raise_if (existsb is_some [is_part_id i; is_feature_id i; is_setup_id i])
    (invalid "must use only its grouped affected-part input");;
  raise_if (negb (py_set_eq (map fst (is_inputs i)) DFM_GRAIN_INPUT_KEYS))
    (invalid "inputs have an unexpected structure");;
  raise_if (negb (bool_decide (input_of i "binding_status" = Some (VStr "MISSING_INFORMATION"))))
    (invalid "binding status is invalid");;
  let matched := bool_decide (input_of i "assessment_phase" = Some (VStr DFM_GRAIN_STOCK_MATCHED_PHASE)) in
  let incomplete :=
    bool_decide (input_of i "assessment_phase" = Some (VStr DFM_GRAIN_STOCK_SELECTION_INCOMPLETE_PHASE)) in
  raise_if (negb (matched || incomplete)) (invalid "assessment phase is invalid");;
  raise_if (match expected_phase with
            | Some phase => negb (bool_decide (input_of i "assessment_phase" = Some (VStr phase)))
            | None => false end)
    (invalid "assessment phase does not match package status");;
  check_all (fun field => raise_if (negb (trimmed_text (input_of i field))) (invalid (field +:+ " is invalid")))
    ["material_id"; "material_version"];;
  (if incomplete then
     raise_if (negb (bool_decide (is_severity i = WARNING)))
       (ValueError "stock-selection grain information must be a warning");;
     raise_if (negb (bool_decide (input_of i "stock_id" = Some VNone)) ||
               negb (bool_decide (input_of i "stock_grain_direction" = Some (VStr "UNAVAILABLE"))))
       (ValueError "stock-selection grain warning cannot claim a matched stock")
   else
     raise_if (negb (trimmed_text (input_of i "stock_id")))
       (ValueError "matched-stock grain issue requires a canonical stock ID");;
     raise_if (negb (bool_decide (input_of i "stock_grain_direction" = Some (VStr "UNBOUND"))))
       (ValueError "matched-stock grain issue requires the canonical unbound axis"));;
  strict_sorted_unique_strings (input_of i "required_part_grain_directions") "required part axes"
    (Some ["X"; "Y"; "UNKNOWN"]);;
  strict_sorted_unique_strings (input_of i "affected_part_ids") "affected part IDs" None.

(** ** The issues *)

(** The directional parts, the last of those that share an identifier. *)
Definition directional_parts (instances : list PartInstance) : list PartSpec :=
  sort_by (cmp_on ps_part_id String.compare)
    (map snd (map_to_list (dict_of ps_part_id (filter (fun p => directional p = true) (map pi_part instances))))).

Definition material_of (p : PartSpec) : string * string := (ps_material_id p, ps_material_version p).

Definition material_cmp : string * string -> string * string -> comparison :=
  cmp_then (cmp_on fst String.compare) (cmp_on snd String.compare).

(** Without a stock sheet the parts are grouped by material. *)
Definition material_groups (parts : list PartSpec) : list ((string * string) * list PartSpec) :=
  map (fun m => (m, filter (fun p => material_of p = m) parts))
    (sort_by material_cmp (remove_dups (map material_of parts))).

Definition grain_issue (severity : Severity) (stock : option StockSheet)
    (group : (string * string) * list PartSpec) : DFMIssue :=
  let '((material_id, material_version), parts) := group in
  mkDFMIssue (gr_rule_id DFM_GRAIN_RULE) severity (gr_message DFM_GRAIN_RULE) None None None
    [("binding_status", VStr "MISSING_INFORMATION");
     ("assessment_phase",
       VStr (if stock then DFM_GRAIN_STOCK_MATCHED_PHASE else DFM_GRAIN_STOCK_SELECTION_INCOMPLETE_PHASE));
     ("stock_id", match stock with Some s => VStr (ss_stock_id s) | None => VNone end);
     ("material_id", VStr material_id); ("material_version", VStr material_version);
     ("stock_grain_direction", VStr (if stock then "UNBOUND" else "UNAVAILABLE"));
     ("required_part_grain_directions",
       VStrs (sort_strings (remove_dups (map (fun p => canonical_panel_grain (ps_grain_direction p)) parts))));
     ("affected_part_ids", VStrs (map ps_part_id parts))]
    (Some (gr_required_action DFM_GRAIN_RULE)).

Definition grain_groups (stock : option StockSheet) (parts : list PartSpec)
    : list ((string * string) * list PartSpec) :=
  match parts, stock with
  | [], _ => []
  | _, Some s =>
      if is_some (bound_stock_axis (ss_grain_direction s)) then []
      else [((ss_material_id s, ss_material_version s), parts)]
  | _, None => material_groups parts
  end.

Definition stock_grain_binding_issues (parts : list part_input) (stock : option StockSheet)
    (severity : Severity) : result (list DFMIssue) :=
  raise_if (bool_decide (severity ∉ [BLOCK; WARNING]))
    (ValueError "stock-grain assessment severity must be BLOCK or WARNING");;
  instances ← coerce_part_instances parts;
  traverse (fun group =>
      let i := grain_issue severity stock group in
      validate_stock_grain_binding_issue i None None;; Ok i)
    (grain_groups stock (directional_parts instances)).

(** ** The projection for controls *)

Record GrainControl := mkGrainControl {
  gc_rule : GrainRuleDefinition;
  gc_status : Severity;
  gc_affected_part_ids : list string;
  gc_issues : list (list (string * issue_value)) }.

Definition affected_ids (i : DFMIssue) : list string :=
  match input_of i "affected_part_ids" with Some (VStrs l) => l | _ => [] end.

Definition grain_control_projection (issues : list DFMIssue) : result (option GrainControl) :=
  let grain_issues := filter (fun i => is_code i = gr_rule_id DFM_GRAIN_RULE) issues in
  if bool_decide (grain_issues = []) then Ok None else
  check_all (fun i => validate_stock_grain_binding_issue i None None) grain_issues;;
  Ok (Some (mkGrainControl DFM_GRAIN_RULE
       (if existsb (fun i => bool_decide (is_severity i = BLOCK)) grain_issues then BLOCK else WARNING)
       (sort_strings (remove_dups (concat (map affected_ids grain_issues))))
       (map is_inputs grain_issues))).

(** ** The policy is complete *)

Definition trimmed (s : string) : Prop := trimmed_text (Some (VStr s)) = true.

Definition unbound (stock : option StockSheet) : Prop :=
  match stock with Some s => bound_stock_axis (ss_grain_direction s) = None | None => True end.

Definition phase_of (stock : option StockSheet) : string :=
  if stock then DFM_GRAIN_STOCK_MATCHED_PHASE else DFM_GRAIN_STOCK_SELECTION_INCOMPLETE_PHASE.

Definition strictly_sorted (l : list string) : Prop := l = sort_strings (remove_dups l).

Lemma remove_dups_NoDup {A} `{EqDecision A} (l : list A) : NoDup l -> remove_dups l = l.
Proof. induction 1 as [|x l Hx _ IH]; cbn; [done|]. case_decide; [done|]. by rewrite IH. Qed.

Lemma strictly_sorted_intro l : NoDup l -> sorted_by String.compare l -> strictly_sorted l.
Proof. intros Nd S. unfold strictly_sorted, sort_strings. by rewrite remove_dups_NoDup, sort_by_id. Qed.

Lemma strict_ok l label allowed :
  l <> [] -> Forall trimmed l -> strictly_sorted l -> match allowed with Some a => l ⊆ a | None => True end ->
  strict_sorted_unique_strings (Some (VStrs l)) label allowed = Ok ().
Proof.
  intros N T S A. unfold strict_sorted_unique_strings. cbn [of_option mbind result_bind].
  rewrite (bool_decide_false (l = [])) by done.
  rewrite (proj2 (forallb_forall _ l)) by (intros x Hx; rewrite Forall_forall in T; apply T; by apply list_elem_of_In).
  cbn [orb negb raise_if mbind result_bind]. rewrite (bool_decide_true (l = _)) by exact S. cbn [negb raise_if mbind result_bind].
  destruct allowed as [a|]; [|done]. by rewrite (proj2 (py_subset_spec l a)).
Qed.

Lemma sorted_by_map {A B} (f : A -> B) (cmp : B -> B -> comparison) l :
  sorted_by (cmp_on f cmp) l -> sorted_by cmp (map f l).
Proof. induction 1 as [|x l _ IH Hx]; cbn [map]; constructor; [done|]. by apply Forall_map. Qed.

Lemma sorted_by_filter {A} (P : A -> Prop) `{!forall x, Decision (P x)} (cmp : A -> A -> comparison) l :
  sorted_by cmp l -> sorted_by cmp (filter P l).
Proof.
  induction 1 as [|x l _ IH Hx]; [constructor|]. rewrite filter_cons. destruct (decide (P x)) as [Hp|Hp]; [|assumption].
  constructor; [exact IH|]. rewrite Forall_forall in *. intros y [_ Hy]%list_elem_of_filter. by apply Hx.
Qed.

Section Issues.
Context (instances : list PartInstance).

Lemma elem_of_directional p :
  p ∈ directional_parts instances -> p ∈ map pi_part instances /\ directional p = true.
Proof.
  unfold directional_parts. rewrite elem_of_sort_by, list_elem_of_fmap.
  intros ([k q] & -> & [H _]%elem_of_map_to_list%dict_of_Some).
  apply list_elem_of_filter in H. tauto.
Qed.

Lemma directional_ids id :
  id ∈ map ps_part_id (directional_parts instances) <->
  exists i, i ∈ instances /\ ps_part_id (pi_part i) = id /\ directional (pi_part i) = true.
Proof.
  split.
  - intros (p & -> & [Hp D]%elem_of_directional)%list_elem_of_fmap. apply list_elem_of_fmap in Hp as (i & -> & Hi). eauto.
  - intros (i & Hi & <- & D). unfold directional_parts. set (fs := filter _ _).
    assert (ps_part_id (pi_part i) ∈ map ps_part_id fs) as H.
    { apply list_elem_of_fmap_2, list_elem_of_filter. split; [done|]. by apply list_elem_of_fmap_2. }
    apply dict_of_is_Some in H as [q Hq]. apply list_elem_of_fmap. exists q.
    split; [by apply dict_of_Some in Hq as [_ ->]|]. rewrite elem_of_sort_by. apply list_elem_of_fmap.
    exists (ps_part_id (pi_part i), q). split; [done|]. by apply elem_of_map_to_list.
Qed.

Lemma directional_NoDup : NoDup (map ps_part_id (directional_parts instances)).
Proof.
  unfold directional_parts. rewrite (sort_by_perm _ _). set (m := dict_of _ _).
  assert (map ps_part_id (map snd (map_to_list m)) = map fst (map_to_list m)) as ->; [|apply NoDup_fst_map_to_list].
  rewrite map_map. apply map_ext_in. intros [k q] H%list_elem_of_In%elem_of_map_to_list%dict_of_Some. by destruct H.
Qed.

Lemma directional_sorted : sorted_by (cmp_on ps_part_id String.compare) (directional_parts instances).
Proof. exact (sort_by_sorted (cmp_on ps_part_id String.compare) _). Qed.

(** The parts of a group of parts in order are in order. *)
Lemma group_ids_sorted (P : PartSpec -> Prop) `{!forall x, Decision (P x)} :
  strictly_sorted (map ps_part_id (filter P (directional_parts instances))).
Proof.
  apply strictly_sorted_intro.
  - eapply sublist_NoDup; [apply directional_NoDup|]. apply sublist_map, sublist_filter.
  - apply sorted_by_map, sorted_by_filter, directional_sorted.
Qed.
End Issues.

Lemma sorted_set_strict l : strictly_sorted (sort_strings (remove_dups l)).
Proof.
  apply strictly_sorted_intro; unfold sort_strings.
  - rewrite (sort_by_perm _ _). apply NoDup_remove_dups.
  - exact (sort_by_sorted String.compare _).
Qed.

Lemma directional_axis p : directional p = true ->
  canonical_panel_grain (ps_grain_direction p) ∈ ["X"; "Y"; "UNKNOWN"].
Proof.
  unfold directional, canonical_panel_grain.
  destruct (bool_decide (_ ∈ ["NONE"; _])); [by vm_compute|].
  destruct (bool_decide (_ ∈ ["X"; "Y"])) eqn:E; intros _; [|by right; right; left].
  apply bool_decide_eq_true in E. set_solver.
Qed.

Lemma required_axes_ok instances (P : PartSpec -> Prop) `{!forall x, Decision (P x)} :
  let group := filter P (directional_parts instances) in group <> [] ->
  strict_sorted_unique_strings
    (Some (VStrs (sort_strings (remove_dups (map (fun p => canonical_panel_grain (ps_grain_direction p)) group)))))
    "required part axes" (Some ["X"; "Y"; "UNKNOWN"]) = Ok ().
Proof.
  intros group N. set (axes := map _ group).
  assert (forall s, s ∈ sort_strings (remove_dups axes) -> s ∈ ["X"; "Y"; "UNKNOWN"]) as A.
  { intros s Hs. unfold sort_strings in Hs. rewrite elem_of_sort_by, elem_of_remove_dups in Hs.
    apply list_elem_of_fmap in Hs as (p & -> & [_ Hp]%list_elem_of_filter). apply directional_axis.
    by apply elem_of_directional in Hp as [_ ?]. }
  apply strict_ok; [| |apply sorted_set_strict|exact A].
  - destruct group as [|p group]; [done|]. intros E.
    assert (canonical_panel_grain (ps_grain_direction p) ∈ sort_strings (remove_dups axes)) as Hin.
    { unfold sort_strings. rewrite elem_of_sort_by, elem_of_remove_dups. by left. }
    rewrite E in Hin. by apply not_elem_of_nil in Hin.
  - apply Forall_forall. intros s Hs%A.
    repeat (apply elem_of_cons in Hs as [->|Hs]; [reflexivity|]). by apply not_elem_of_nil in Hs.
Qed.

(** One check of a sequence, known to pass. *)
Ltac pass := apply bind_Ok; exists (); split; [try apply raise_if_Ok|].

(** A group of directional parts, of proper material, on a sheet or without
    one, makes a canonical issue. *)
Lemma grain_issue_valid instances stock severity m expected_severity expected_phase (P : PartSpec -> Prop) `{!forall x, Decision (P x)} :
  let group := filter P (directional_parts instances) in
  match stock with
  | Some s => severity ∈ [BLOCK; WARNING] /\ trimmed (ss_stock_id s)
  | None => severity = WARNING
  end ->
  trimmed (fst m) -> trimmed (snd m) -> group <> [] -> Forall (fun p => trimmed (ps_part_id p)) group ->
  expected_severity ∈ [None; Some severity] -> expected_phase ∈ [None; Some (phase_of stock)] ->
  validate_stock_grain_binding_issue (grain_issue severity stock (m, group)) expected_severity expected_phase = Ok ().
Proof.
  intros group Hs Hm Hv N T Hes Hep. destruct m as [mid mver]. cbn [fst snd] in *.
  assert (severity ∈ [BLOCK; WARNING]) as Hsev by (destruct stock; [by destruct Hs|subst; by right; left]).
  assert (strictly_sorted (map ps_part_id group)) as Sorted by apply group_ids_sorted.
  set (axes := map (fun p => canonical_panel_grain (ps_grain_direction p)) group).
  assert (strict_sorted_unique_strings (Some (VStrs (sort_strings (remove_dups axes)))) "required part axes"
            (Some ["X"; "Y"; "UNKNOWN"]) = Ok ()) as Axes by (by apply required_axes_ok).
  assert (strict_sorted_unique_strings (Some (VStrs (map ps_part_id group))) "affected part IDs" None = Ok ()) as Ids.
  { apply strict_ok; [by destruct group|by apply Forall_map|done|done]. }
  set (i := grain_issue severity stock (mid, mver, group)).
  assert (input_of i "assessment_phase" = Some (VStr (phase_of stock))) as Ephase by reflexivity.
  assert (input_of i "stock_id" = Some (match stock with Some s => VStr (ss_stock_id s) | None => VNone end)) as Eid by reflexivity.
  assert (input_of i "stock_grain_direction" = Some (VStr (if stock then "UNBOUND" else "UNAVAILABLE"))) as Eaxis by reflexivity.
  assert (input_of i "material_id" = Some (VStr mid)) as Emid by reflexivity.
  assert (input_of i "material_version" = Some (VStr mver)) as Ever by reflexivity.
  unfold validate_stock_grain_binding_issue.
  do 7 (pass; [first [reflexivity | by rewrite bool_decide_false by (intros Nin; by apply Nin) |
                      by repeat (apply elem_of_cons in Hes as [->|Hes]; [by rewrite ?bool_decide_true|]); apply not_elem_of_nil in Hes]|]).
  pass; [reflexivity|]. cbv zeta. rewrite !Ephase, Eid, Eaxis.
  pass; [by destruct stock|].
  pass; [by repeat (apply elem_of_cons in Hep as [->|Hep]; [by rewrite ?bool_decide_true|]); apply not_elem_of_nil in Hep|].
  pass; [cbn [check_all]; rewrite Emid, Ever; by rewrite Hm, Hv|].
  pass; [|pass; [exact Axes|exact Ids]].
  destruct stock as [s|]; cbn.
  - destruct Hs as [_ Hs]. unfold trimmed in Hs. cbn in Hs. by rewrite Hs.
  - subst. reflexivity.
Qed.

(** The groups are filtered from the directional parts. *)
Lemma grain_groups_spec stock instances g : g ∈ grain_groups stock (directional_parts instances) ->
  exists (P : PartSpec -> Prop) (D : forall x, Decision (P x)),
    snd g = filter P (directional_parts instances) /\ filter P (directional_parts instances) <> [] /\
    match stock with
    | Some s => fst g = (ss_material_id s, ss_material_version s)
    | None => exists p, p ∈ directional_parts instances /\ fst g = material_of p
    end.
Proof.
  set (ps := directional_parts instances). unfold grain_groups.
  destruct ps as [|p ps'] eqn:E; [by intros ?%not_elem_of_nil|]. rewrite <- E. destruct stock as [s|].
  - destruct (is_some _); [by intros ?%not_elem_of_nil|]. intros ->%list_elem_of_singleton.
    exists (fun _ => True), _. cbn [fst snd].
    assert (filter (fun _ => True) ps = ps) as -> by (clear; induction ps as [|q l IH]; [done|]; by rewrite filter_cons_True, IH).
    split_and!; [done|by rewrite E|done].
  - unfold material_groups. intros (m & -> & Hm)%list_elem_of_fmap. rewrite elem_of_sort_by, elem_of_remove_dups in Hm.
    exists (fun q => material_of q = m), _. cbn [fst snd]. split; [done|].
    apply list_elem_of_fmap in Hm as (q & -> & Hq). split; [|by exists q].
    intros En. assert (q ∈ filter (fun q' => material_of q' = material_of q) ps) as H by (by apply list_elem_of_filter).
    rewrite En in H. by apply not_elem_of_nil in H.
Qed.

Lemma grain_groups_ids stock ps id :
  id ∈ concat (map (fun g => map ps_part_id (snd g)) (grain_groups stock ps)) <->
  unbound stock /\ id ∈ map ps_part_id ps.
Proof.
  unfold grain_groups, unbound. destruct ps as [|p ps']; [cbn; set_solver|]. set (ps := p :: ps').
  destruct stock as [s|].
  - destruct (bound_stock_axis _); cbn [is_some]; [cbn; set_solver|]. cbn [map concat snd]. rewrite app_nil_r. tauto.
  - rewrite list_elem_of_In, in_concat. split.
    + intros (l & (g & <- & Hg%list_elem_of_In)%in_map_iff & Hid%list_elem_of_In). split; [done|].
      unfold material_groups in Hg. apply list_elem_of_fmap in Hg as (m & -> & _). cbn [snd] in Hid.
      apply list_elem_of_fmap in Hid as (q & -> & [_ Hq]%list_elem_of_filter). by apply list_elem_of_fmap_2.
    + intros [_ (q & -> & Hq)%list_elem_of_fmap].
      exists (map ps_part_id (filter (fun q' => material_of q' = material_of q) ps)). split.
      * apply in_map_iff. exists (material_of q, filter (fun q' => material_of q' = material_of q) ps). split; [done|].
        apply list_elem_of_In. unfold material_groups. apply list_elem_of_fmap. exists (material_of q). split; [done|].
        rewrite elem_of_sort_by, elem_of_remove_dups. by apply list_elem_of_fmap_2.
      * apply list_elem_of_In, list_elem_of_fmap_2, list_elem_of_filter. done.
Qed.

Lemma traverse_map {A B} (f : A -> result B) (g : A -> B) l :
  (forall x, x ∈ l -> f x = Ok (g x)) -> traverse f l = Ok (map g l).
Proof.
  induction l as [|x l IH]; intros H; cbn; [done|]. rewrite H by (by left). cbn. by rewrite IH by (intros; apply H; by right).
Qed.

(** C33: the grain policy reports exactly the parts that need a bound axis.  For
    parts, materials and a stock sheet with proper identifiers the policy never
    raises: every issue it builds passes its own canonical check, with the given
    severity and the phase of the assessment, and the parts the issues name are
    the parts with a grain direction, unless the stock sheet has an X or Y axis,
    when there are none. *)
Theorem grain_issues_complete (parts : list part_input) (instances : list PartInstance)
    (stock : option StockSheet) (severity : Severity) :
  coerce_part_instances parts = Ok instances ->
  match stock with
  | Some s => severity ∈ [BLOCK; WARNING] /\ trimmed (ss_stock_id s) /\ trimmed (ss_material_id s) /\
      trimmed (ss_material_version s)
  | None => severity = WARNING
  end ->
  (forall i, i ∈ instances -> trimmed (ps_part_id (pi_part i)) /\ trimmed (ps_material_id (pi_part i)) /\
     trimmed (ps_material_version (pi_part i))) ->
  exists issues, stock_grain_binding_issues parts stock severity = Ok issues /\
    (forall i, i ∈ issues ->
       validate_stock_grain_binding_issue i (Some severity) (Some (phase_of stock)) = Ok ()) /\
    (forall id, id ∈ concat (map affected_ids issues) <->
       unbound stock /\ exists i, i ∈ instances /\ ps_part_id (pi_part i) = id /\ directional (pi_part i) = true).
Proof.
  intros Hc Hs Hi. set (ps := directional_parts instances).
  assert (severity ∈ [BLOCK; WARNING]) as Hsev by (destruct stock; [by destruct Hs|subst; by right; left]).
  assert (forall g es ep, g ∈ grain_groups stock ps -> es ∈ [None; Some severity] -> ep ∈ [None; Some (phase_of stock)] ->
    validate_stock_grain_binding_issue (grain_issue severity stock g) es ep = Ok ()) as V.
  { intros [m l] es ep Hg Hes Hep. destruct (grain_groups_spec stock instances (m, l) Hg) as (P & D & El & N & Hm).
    cbn [snd] in El. subst l.
    assert (Forall (fun p => trimmed (ps_part_id p)) (filter P ps)) as T.
    { apply Forall_forall. intros p [_ [Hp _]%elem_of_directional]%list_elem_of_filter.
      apply list_elem_of_fmap in Hp as (i & -> & Hin). by apply Hi. }
    assert (trimmed (fst m) /\ trimmed (snd m)) as [Tm Tv].
    { destruct stock as [s|]; [cbn [fst] in Hm; subst; tauto|]. destruct Hm as (p & Hp & Em).
      cbn [fst] in Em. subst m. apply elem_of_directional in Hp as [(i & -> & Hin)%list_elem_of_fmap _]. by apply Hi. }
    apply grain_issue_valid; try done. destruct stock; [tauto|done]. }
  exists (map (grain_issue severity stock) (grain_groups stock ps)). split_and!.
  - unfold stock_grain_binding_issues. rewrite bool_decide_false by (intros Nin; by apply Nin).
    rewrite Hc. cbn [raise_if mbind result_bind]. apply traverse_map. intros g Hg. cbv zeta.
    rewrite V; [done|done|by left|by left].
  - intros i (g & -> & Hg)%list_elem_of_fmap. apply V; [done|by right; left|by right; left].
  - intros id. rewrite <- (directional_ids instances). fold ps. rewrite map_map.
    rewrite (map_ext _ (fun g => map ps_part_id (snd g))) by (by intros [[] ]). apply grain_groups_ids.
Qed.

(** Panels with grain on a sheet whose axis is not known. *)
Definition ungrained_stock : StockSheet :=
  mkStockSheet "sheet-1" "birch-ply-18" "1.0.0" 1000000 600000 18000 2 10000 6000 "ANY" true [] [] "operator".

Lemma grain_issues_complete_witness :
  coerce_part_instances (map inl example_specs) = Ok example_instances /\
  exists issues, stock_grain_binding_issues (map inl example_specs) (Some ungrained_stock) BLOCK = Ok issues /\
    "shelf" ∈ concat (map affected_ids issues) /\ "side" ∈ concat (map affected_ids issues).
Proof.
  split; [vm_compute; reflexivity|].
  destruct (grain_issues_complete (map inl example_specs) example_instances (Some ungrained_stock) BLOCK)
    as (issues & E & _ & Ids).
  - vm_compute. reflexivity.
  - split; [by left|]. split; [vm_compute; reflexivity|]. split; vm_compute; reflexivity.
  - intros i Hi. unfold example_instances, example_specs in Hi. vm_compute in Hi.
    repeat (apply elem_of_cons in Hi as [->|Hi]; [split; [|split]; vm_compute; reflexivity|]).
    by apply not_elem_of_nil in Hi.
  - exists issues. split; [exact E|].
    split; apply Ids; (split; [vm_compute; reflexivity|]).
    + exists (mkPartInstance "shelf:001" (example_part "shelf" 400000 250000 1)).
      split; [vm_compute; left|]. split; vm_compute; reflexivity.
    + exists (mkPartInstance "side:001" (example_part "side" 500000 300000 2)).
      split; [vm_compute; right; left|]. split; vm_compute; reflexivity.
Defined.
