(* ===== verification/Dfm.v ===== *)
(** * Design for manufacturing

    [packages/manufacturing/src/custombuild_manufacturing/dfm.py]: the validator
    that a nested design passes before operations are generated for a machine.
    Each check reports issues; the report is the issues without duplicates,
    blocking ones first. *)

From S2P Require Import Prelude Text Identity ManufacturingModel Nesting Machining Grain.

(** ** Issues *)

Definition feature_issue (code message part_id feature_id : string) (inputs : list (string * issue_value))
    (suggestion : option string) : DFMIssue :=
  mkDFMIssue code BLOCK message (Some part_id) (Some feature_id) None inputs suggestion.

Definition issue_value_json (v : issue_value) : json :=
  match v with
  | VNone => JNull
  | VInt n => JInt n
  | VStr s => JStr s
  | VBool b => JBool b
  | VRect r =>
      JObj [("x_um", JInt (r_x_um r)); ("y_um", JInt (r_y_um r)); ("width_um", JInt (r_width_um r));
            ("height_um", JInt (r_height_um r))]
  | VPair a b => JArr [JInt a; JInt b]
  | VStrs l => JArr (map JStr l)
  end.

Definition severity_value (s : Severity) : string :=
  match s with PASS => "PASS" | WARNING => "WARNING" | BLOCK => "BLOCK" end.

Definition text_opt (o : option string) : json := match o with Some s => JStr s | None => JNull end.

(** [asdict(issue)] *)
Definition issue_json (i : DFMIssue) : json :=
  JObj [("code", JStr (is_code i)); ("severity", JStr (severity_value (is_severity i)));
        ("message", JStr (is_message i)); ("part_id", text_opt (is_part_id i));
        ("feature_id", text_opt (is_feature_id i)); ("setup_id", text_opt (is_setup_id i));
        ("inputs", JObj (map (fun kv => (fst kv, issue_value_json (snd kv))) (is_inputs i)));
        ("suggestion", text_opt (is_suggestion i))].

(** The first issue with each canonical form, in order. *)
Fixpoint deduplicate_from (seen : list string) (issues : list DFMIssue) : list DFMIssue :=
  match issues with
  | [] => []
  | i :: rest =>
      let key := canonical_json (issue_json i) in
      if bool_decide (key ∈ seen) then deduplicate_from seen rest else i :: deduplicate_from (key :: seen) rest
  end.

Definition deduplicate (issues : list DFMIssue) : list DFMIssue := deduplicate_from [] issues.

Definition severity_rank (s : Severity) : Z := match s with BLOCK => 0 | WARNING => 1 | PASS => 2 end.

Definition report_cmp : DFMIssue -> DFMIssue -> comparison :=
  cmp_then (cmp_on (fun i => severity_rank (is_severity i)) Z.compare)
    (cmp_then (cmp_on is_code String.compare)
      (cmp_then (cmp_on (fun i => default "" (is_part_id i)) String.compare)
        (cmp_on (fun i => default "" (is_feature_id i)) String.compare))).

(** ** Shapes *)

Definition circle_intersects_rect (p : Point2D) (radius_um : Z) (r : Rect) : bool :=
  let nearest_x := Z.min (Z.max (p2_x_um p) (r_x_um r)) (right_um r) in
  let nearest_y := Z.min (Z.max (p2_y_um p) (r_y_um r)) (top_um r) in
  (p2_x_um p - nearest_x) ^ 2 + (p2_y_um p - nearest_y) ^ 2 <? radius_um ^ 2.

Definition circles_intersect (p : Point2D) (r : Z) (q : Point2D) (s : Z) : bool :=
  distance_squared p q <? (r + s) ^ 2.

Definition machining_features_intersect (first second : ManufacturingFeature) : bool :=
  intersects (bounds first) (bounds second) 0 ||
  existsb (fun c => circle_intersects_rect (fst c) (snd c) (bounds second)) (relief_circles first) ||
  existsb (fun c => circle_intersects_rect (fst c) (snd c) (bounds first)) (relief_circles second) ||
  existsb (fun c => existsb (fun d => circles_intersect (fst c) (snd c) (fst d) (snd d)) (relief_circles second))
    (relief_circles first).

(** Which nominal ends of a feature lie exactly on the panel's edges. *)
Definition flush_end (nominal panel : Rect) (edge : string) : bool :=
  if bool_decide (edge = "u_min") then r_x_um nominal =? r_x_um panel
  else if bool_decide (edge = "u_max") then right_um nominal =? right_um panel
  else if bool_decide (edge = "v_min") then r_y_um nominal =? r_y_um panel
  else if bool_decide (edge = "v_max") then top_um nominal =? top_um panel
  else false.

Definition feature_envelope_is_declared (f : ManufacturingFeature) (panel : Rect) : bool :=
  let declared := mf_open_end_reliefs f in
  let actual := machining_bounds f in
  let open_ edge := bool_decide (edge ∈ declared) in
  forallb (flush_end (bounds f) panel) declared &&
  ((r_x_um panel <=? r_x_um actual) || open_ "u_min") &&
  ((right_um actual <=? right_um panel) || open_ "u_max") &&
  ((r_y_um panel <=? r_y_um actual) || open_ "v_min") &&
  ((top_um actual <=? top_um panel) || open_ "v_max").

(** ** One feature *)

Section Machine.
Context (machine : MachineProfile).

Definition panel_of (p : PartSpec) : Rect := mkRect 0 0 (ps_width_um p) (ps_height_um p).

Definition geometry_issues (p : PartSpec) (f : ManufacturingFeature) : list DFMIssue :=
  let b := machining_bounds f in
  if (r_width_um b <=? 0) || (r_height_um b <=? 0) then
    [feature_issue "FEATURE_INVALID_GEOMETRY" "Feature does not define a positive 2D machining extent."
       (ps_part_id p) (mf_feature_id f) [] None]
  else issue_if (negb (feature_envelope_is_declared f (panel_of p)))
    (feature_issue "FEATURE_OUTSIDE_PART" "Feature extends beyond the finished part boundary."
       (ps_part_id p) (mf_feature_id f)
       [("feature_bounds", VRect b); ("nominal_bounds", VRect (bounds f));
        ("open_end_reliefs", VStrs (mf_open_end_reliefs f));
        ("part_um", VPair (ps_width_um p) (ps_height_um p))]
       (Some ("Move the relief inside the part, or declare only an exact edge-flush " +:+
              "open cutter exit."))).

Definition access_issues (p : PartSpec) (f : ManufacturingFeature) : list DFMIssue :=
  if bool_decide (mf_side f = SIDE_EDGE) && negb (mp_edge_aggregate machine) then
    [feature_issue "EDGE_ACCESS_UNAVAILABLE" "The selected 3-axis machine has no edge-machining aggregate."
       (ps_part_id p) (mf_feature_id f) []
       (Some "Document a separate setup or choose a machine with an edge aggregate.")]
  else if bool_decide (mf_side f = SIDE_B) &&
          negb (bool_decide (SIDE_B ∈ mp_supported_sides machine) || mp_can_flip_stock machine) then
    [feature_issue "B_SIDE_ACCESS_UNAVAILABLE"
       ("B-side feature requires a documented flip setup that the machine " +:+ "profile lacks.")
       (ps_part_id p) (mf_feature_id f) [] None]
  else issue_if (bool_decide (mf_side f ∉ mp_supported_sides machine) && negb (bool_decide (mf_side f = SIDE_B)))
    (feature_issue "FEATURE_SIDE_UNSUPPORTED" "Feature side is not supported by the selected machine profile."
       (ps_part_id p) (mf_feature_id f) [("side", VStr (side_value (mf_side f)))] None).

Definition operation_issues (p : PartSpec) (f : ManufacturingFeature) : list DFMIssue :=
  let kind := FEATURE_TO_OPERATION (mf_kind f) in
  issue_if (bool_decide (kind ∉ mp_supported_operations machine))
    (feature_issue "OPERATION_UNSUPPORTED" "The selected machine profile does not support this operation."
       (ps_part_id p) (mf_feature_id f) [("operation", VStr (operation_kind_value kind))] None).

Definition DEFAULT_MINIMUM_WALL_UM : Z := 3000.

Definition minimum_wall (f : ManufacturingFeature) : Z :=
  md_or (md_minimum_remaining_wall_um (mf_metadata f)) DEFAULT_MINIMUM_WALL_UM.

Definition depth_issues (p : PartSpec) (f : ManufacturingFeature) : list DFMIssue :=
  let maximum_overcut_um := md_or (md_maximum_overcut_um (mf_metadata f)) 500 in
  let depths := [("depth_um", VInt (mf_depth_um f)); ("thickness_um", VInt (ps_thickness_um p))] in
  if mf_through f then
    issue_if (mf_depth_um f <? ps_thickness_um p)
      (feature_issue "THROUGH_DEPTH_INCOMPLETE"
         "Through feature does not reach through the measured material thickness."
         (ps_part_id p) (mf_feature_id f) depths None) ++
    issue_if (ps_thickness_um p + maximum_overcut_um <? mf_depth_um f)
      (feature_issue "THROUGH_DEPTH_EXCESSIVE"
         "Through-cut overtravel exceeds the declared spoilboard allowance."
         (ps_part_id p) (mf_feature_id f) [("maximum_overcut_um", VInt maximum_overcut_um)] None)
  else if ps_thickness_um p <=? mf_depth_um f then
    [feature_issue "NONTHROUGH_DEPTH" "Non-through feature reaches or exceeds measured material thickness."
       (ps_part_id p) (mf_feature_id f) depths None]
  else
    let remaining_um := ps_thickness_um p - mf_depth_um f in
    issue_if (remaining_um <? minimum_wall f)
      (feature_issue "REMAINING_WALL_TOO_THIN" "Feature leaves less material than the declared minimum wall."
         (ps_part_id p) (mf_feature_id f)
         [("remaining_um", VInt remaining_um); ("minimum_um", VInt (minimum_wall f))] None).

Definition corner_issues (p : PartSpec) (f : ManufacturingFeature) : list DFMIssue :=
  issue_if (is_round (mf_kind f) && negb (is_some (mf_diameter_um f)))
    (feature_issue "DRILL_DIAMETER_MISSING" "Drilling feature has no declared diameter."
       (ps_part_id p) (mf_feature_id f) [] None) ++
  (if md_requires_square_corners (mf_metadata f) then
     if bool_decide (mf_corner_strategy f ∈ [None; Some ""]) then
       [feature_issue "INNER_CORNER_STRATEGY_MISSING"
          ("Square internal corners require an explicit dogbone, T-bone or " +:+ "equivalent strategy.")
          (ps_part_id p) (mf_feature_id f) []
          (Some "Select and validate an internal-corner relief strategy.")]
     else issue_if (negb (dogbone_strategy (mf_corner_strategy f)) || negb (is_some (mf_corner_relief_radius_um f)))
       (feature_issue "INNER_CORNER_STRATEGY_UNSUPPORTED"
          "The declared internal-corner strategy is incomplete or unsupported."
          (ps_part_id p) (mf_feature_id f)
          [("corner_strategy", match mf_corner_strategy f with Some s => VStr s | None => VNone end)] None)
   else []).

Definition tool_issues (p : PartSpec) (f : ManufacturingFeature) : list DFMIssue :=
  match select_tool f machine with
  | None =>
      [feature_issue "COMPATIBLE_TOOL_MISSING"
         ("No selected tool can perform the feature with the required diameter " +:+ "and cutting length.")
         (ps_part_id p) (mf_feature_id f)
         [("operation", VStr (operation_kind_value (FEATURE_TO_OPERATION (mf_kind f))));
          ("depth_um", VInt (mf_depth_um f))]
         (Some "Add a verified tool or revise the operation.")]
  | Some tool =>
      if mp_max_spindle_rpm machine <? tl_spindle_rpm tool then
        [feature_issue "TOOL_SPINDLE_LIMIT" "Tool recipe exceeds the machine spindle speed limit."
           (ps_part_id p) (mf_feature_id f)
           [("tool_rpm", VInt (tl_spindle_rpm tool)); ("machine_max_rpm", VInt (mp_max_spindle_rpm machine))] None]
      else match mf_corner_relief_radius_um f with
           | Some radius =>
               issue_if (dogbone_strategy (mf_corner_strategy f) && (2 * radius <? effective_diameter_um tool))
                 (feature_issue "CORNER_RELIEF_TOO_SMALL"
                    "Dogbone relief is smaller than the selected tool diameter."
                    (ps_part_id p) (mf_feature_id f)
                    [("relief_diameter_um", VInt (2 * radius));
                     ("tool_diameter_um", VInt (effective_diameter_um tool))] None)
           | None => []
           end
  end.

Definition fit_issues (p : PartSpec) (f : ManufacturingFeature) : list DFMIssue :=
  match select_tool f machine with
  | None => []
  | Some tool =>
      let consumed_um := 2 * mf_tolerance_um f + 2 * mp_accuracy_um machine + 2 * tl_runout_um tool in
      let margin_um := mf_fit_clearance_um f - consumed_um in
      issue_if (negb (mf_fit_clearance_um f =? 0) && (margin_um <=? 0))
        (feature_issue "FIT_TOLERANCE_BUDGET_EXHAUSTED"
           "Machine, feature and tool uncertainty consume the declared fit clearance."
           (ps_part_id p) (mf_feature_id f)
           [("fit_clearance_um", VInt (mf_fit_clearance_um f)); ("feature_tolerance_um", VInt (mf_tolerance_um f));
            ("machine_accuracy_um", VInt (mp_accuracy_um machine)); ("tool_runout_um", VInt (tl_runout_um tool));
            ("remaining_margin_um", VInt margin_um)]
           (Some "Use a calibrated machine/tool stack or revise the versioned fit."))
  end.

(** The distance of a hole's centre to the nearest edge of the panel. *)
Definition edge_distance (p : PartSpec) (q : Point2D) : Z :=
  Z.min (Z.min (p2_x_um q) (p2_y_um q)) (Z.min (ps_width_um p - p2_x_um q) (ps_height_um p - p2_y_um q)).

(** The first hole that is too close is reported. *)
Definition edge_distance_issues (p : PartSpec) (f : ManufacturingFeature) : list DFMIssue :=
  let minimum_edge_um := md_or (md_minimum_edge_distance_um (mf_metadata f)) 2000 in
  if is_round (mf_kind f) && negb (int_or (mf_diameter_um f) 0 =? 0) then
    let required := int_or (mf_diameter_um f) 0 / 2 + minimum_edge_um in
    match filter (fun q => edge_distance p q < required) (points f) with
    | [] => []
    | q :: _ =>
        [feature_issue "HOLE_EDGE_DISTANCE" "Hole centre is too close to a finished part edge."
           (ps_part_id p) (mf_feature_id f)
           [("actual_um", VInt (edge_distance p q)); ("required_um", VInt required)] None]
    end
  else [].

Definition validate_feature (p : PartSpec) (f : ManufacturingFeature) : list DFMIssue :=
  geometry_issues p f ++ access_issues p f ++ operation_issues p f ++ depth_issues p f ++ corner_issues p f ++
  tool_issues p f ++ fit_issues p f ++ edge_distance_issues p f.

(** ** One part *)

Definition by_feature_id : ManufacturingFeature -> ManufacturingFeature -> comparison :=
  cmp_on mf_feature_id String.compare.

Definition blind_features (side : Side) (p : PartSpec) : list ManufacturingFeature :=
  sort_by by_feature_id (filter (fun f => mf_side f = side /\ mf_through f = false) (ps_features p)).

Definition opposing_issue (p : PartSpec) (first second : ManufacturingFeature) : list DFMIssue :=
  if intersects (machining_bounds first) (machining_bounds second) 0 then
    let remaining_um := ps_thickness_um p - mf_depth_um first - mf_depth_um second in
    let minimum_um := Z.max (minimum_wall first) (minimum_wall second) in
    issue_if (remaining_um <? minimum_um)
      (feature_issue "OPPOSING_FEATURE_WALL_TOO_THIN"
         "Opposing A/B operations leave less than the minimum shared wall."
         (ps_part_id p) (mf_feature_id first)
         [("other_feature_id", VStr (mf_feature_id second)); ("remaining_um", VInt remaining_um);
          ("minimum_um", VInt minimum_um)]
         (Some "Reduce depths, increase thickness or move a feature."))
  else [].

Definition validate_opposing_wall (p : PartSpec) : list DFMIssue :=
  concat (map (fun first => concat (map (opposing_issue p first) (blind_features SIDE_B p)))
            (blind_features SIDE_A p)).

Definition validate_part (p : PartSpec) : list DFMIssue :=
  if Z.min (Z.min (ps_width_um p) (ps_height_um p)) (ps_thickness_um p) <=? 0 then
    [mkDFMIssue "PART_INVALID_DIMENSIONS" BLOCK "Part dimensions must be positive." (Some (ps_part_id p)) None
       None [] None]
  else
    concat (map (validate_feature p) (sort_by by_feature_id (ps_features p))) ++ validate_opposing_wall p.

(** Pairs of features of one side, in the order of their identifiers. *)
Fixpoint pairs_issues (check : ManufacturingFeature -> ManufacturingFeature -> list DFMIssue)
    (ordered : list ManufacturingFeature) : list DFMIssue :=
  match ordered with
  | [] => []
  | first :: rest => concat (map (check first) rest) ++ pairs_issues check rest
  end.

(** [per_side.values()]: the sides in the order their features appear. *)
Definition sides_in_order (fs : list ManufacturingFeature) : list Side :=
  foldl (fun sides f => if bool_decide (mf_side f ∈ sides) then sides else sides ++ [mf_side f]) [] fs.

Definition side_pairs (check : ManufacturingFeature -> ManufacturingFeature -> list DFMIssue) (p : PartSpec)
    : list DFMIssue :=
  concat (map (fun side =>
            pairs_issues check (sort_by by_feature_id (filter (fun f => mf_side f = side) (ps_features p))))
          (sides_in_order (ps_features p))).

(** Pairs whose overlap is not a concern: the outline, and declared overlaps. *)
Definition overlap_allowed (first second : ManufacturingFeature) : bool :=
  bool_decide (OUTER_CONTOUR ∈ [mf_kind first; mf_kind second]) ||
  bool_decide (mf_feature_id second ∈ md_allow_overlap_with (mf_metadata first)) ||
  bool_decide (mf_feature_id first ∈ md_allow_overlap_with (mf_metadata second)).

Definition collision_issue (p : PartSpec) (first second : ManufacturingFeature) : list DFMIssue :=
  issue_if (negb (overlap_allowed first second) && machining_features_intersect first second)
    (feature_issue "FEATURE_COLLISION"
       ("Machining features overlap without an explicit " +:+ "compatible-feature rule.")
       (ps_part_id p) (mf_feature_id first) [("other_feature_id", VStr (mf_feature_id second))] None).

(** The first instance of each part. *)
Definition first_of_each_part (instances : list PartInstance) : list PartSpec :=
  foldl (fun parts i => if bool_decide (ps_part_id (pi_part i) ∈ map ps_part_id parts) then parts
                        else parts ++ [pi_part i]) [] instances.

Definition validate_feature_collisions (instances : list PartInstance) : list DFMIssue :=
  concat (map (fun p => side_pairs (collision_issue p) p) (first_of_each_part instances)).

(** ** Clearance between reliefs *)

Definition relief_pair : Type := Z * ((Point2D * Z) * (Point2D * Z)).

Definition relief_clearance (c d : Point2D * Z) : Z :=
  Z.sqrt (distance_squared (fst c) (fst d)) - snd c - snd d.

(** Tuples are compared component by component. *)
Definition relief_pair_cmp : relief_pair -> relief_pair -> comparison :=
  cmp_then (cmp_on fst Z.compare)
    (cmp_then (cmp_on (fun c => p2_x_um (fst (fst (snd c)))) Z.compare)
      (cmp_then (cmp_on (fun c => p2_y_um (fst (fst (snd c)))) Z.compare)
        (cmp_then (cmp_on (fun c => snd (fst (snd c))) Z.compare)
          (cmp_then (cmp_on (fun c => p2_x_um (fst (snd (snd c)))) Z.compare)
            (cmp_then (cmp_on (fun c => p2_y_um (fst (snd (snd c)))) Z.compare)
              (cmp_on (fun c => snd (snd (snd c))) Z.compare)))))).

Definition closest_reliefs (first second : ManufacturingFeature) : option relief_pair :=
  head (sort_by relief_pair_cmp
    (concat (map (fun c => map (fun d => (relief_clearance c d, (c, d))) (relief_circles second))
              (relief_circles first)))).

Definition ADJACENT_RELIEF_CLEARANCE_WARNING_CODE : string :=
  "ADJACENT_RELIEF_CLEARANCE_REQUIRES_SHOP_VALIDATION".
Definition ADJACENT_RELIEF_CLEARANCE_WARNING_MESSAGE : string :=
  "Adjacent cutter reliefs have no conservative clearance after the declared feature, " +:+
  "machine and tool uncertainty allowances.".
Definition ADJACENT_RELIEF_CLEARANCE_WARNING_REQUIRED_ACTION : string :=
  "Require the CNC supplier to review actual cutter diameter/runout and calibrated machine " +:+
  "accuracy, then prove the remaining web with a coupon and measured first article before " +:+
  "any physical release.".

Definition relief_issue (p : PartSpec) (first second : ManufacturingFeature) : list DFMIssue :=
  if overlap_allowed first second || machining_features_intersect first second then [] else
  match select_tool first machine, select_tool second machine, closest_reliefs first second with
  | Some first_tool, Some second_tool, Some (nominal_um, (c, d)) =>
      let tolerance_um := mf_tolerance_um first + mf_tolerance_um second in
      let accuracy_um := 2 * mp_accuracy_um machine in
      let runout_um := tl_runout_um first_tool + tl_runout_um second_tool in
      let margin_um := nominal_um - (tolerance_um + accuracy_um + runout_um) in
      issue_if (margin_um <=? 0)
        (mkDFMIssue ADJACENT_RELIEF_CLEARANCE_WARNING_CODE WARNING ADJACENT_RELIEF_CLEARANCE_WARNING_MESSAGE
           (Some (ps_part_id p)) (Some (mf_feature_id first)) None
           [("other_feature_id", VStr (mf_feature_id second));
            ("first_relief_center_um", VPair (p2_x_um (fst c)) (p2_y_um (fst c)));
            ("other_relief_center_um", VPair (p2_x_um (fst d)) (p2_y_um (fst d)));
            ("first_relief_radius_um", VInt (snd c)); ("other_relief_radius_um", VInt (snd d));
            ("nominal_relief_clearance_um", VInt nominal_um);
            ("first_feature_tolerance_um", VInt (mf_tolerance_um first));
            ("other_feature_tolerance_um", VInt (mf_tolerance_um second));
            ("combined_feature_tolerance_um", VInt tolerance_um);
            ("machine_profile_id", VStr (mp_profile_id machine));
            ("machine_profile_version", VStr (mp_version machine));
            ("machine_accuracy_um", VInt (mp_accuracy_um machine));
            ("combined_machine_accuracy_allowance_um", VInt accuracy_um);
            ("first_tool_id", VStr (tl_tool_id first_tool)); ("first_tool_version", VStr (tl_version first_tool));
            ("first_tool_effective_diameter_um", VInt (effective_diameter_um first_tool));
            ("first_tool_runout_um", VInt (tl_runout_um first_tool));
            ("other_tool_id", VStr (tl_tool_id second_tool)); ("other_tool_version", VStr (tl_version second_tool));
            ("other_tool_effective_diameter_um", VInt (effective_diameter_um second_tool));
            ("other_tool_runout_um", VInt (tl_runout_um second_tool));
            ("combined_tool_runout_um", VInt runout_um);
            ("remaining_conservative_margin_um", VInt margin_um);
            ("physical_validation_required", VBool true)]
           (Some ADJACENT_RELIEF_CLEARANCE_WARNING_REQUIRED_ACTION))
  | _, _, _ => []
  end.

Definition validate_adjacent_relief_clearance (instances : list PartInstance) : list DFMIssue :=
  concat (map (fun p => side_pairs (relief_issue p) p) (first_of_each_part instances)).

(** ** Placement *)

Definition validate_machine_envelope (layout : NestingLayout) : list DFMIssue :=
  let stock := nl_stock layout in
  issue_if ((mp_work_width_um machine <? ss_width_um stock) || (mp_work_height_um machine <? ss_height_um stock))
    (mkDFMIssue "MACHINE_STOCK_ENVELOPE" BLOCK "Selected stock exceeds the machine XY work envelope." None None None
       [("stock_um", VPair (ss_width_um stock) (ss_height_um stock));
        ("machine_um", VPair (mp_work_width_um machine) (mp_work_height_um machine))]
       (Some "Select smaller stock or another machine profile.")) ++
  issue_if (mp_work_z_um machine <? ss_thickness_um stock + mp_safe_z_um machine)
    (mkDFMIssue "MACHINE_Z_ENVELOPE" BLOCK "Stock thickness plus safe clearance exceeds machine Z travel."
       None None None
       [("stock_thickness_um", VInt (ss_thickness_um stock)); ("safe_z_um", VInt (mp_safe_z_um machine));
        ("work_z_um", VInt (mp_work_z_um machine))] None).

Definition zones_of (layout : NestingLayout) : list Rect :=
  mp_keep_out_zones machine ++ ss_clamp_zones (nl_stock layout).

Definition sheet_rect (layout : NestingLayout) : Rect :=
  mkRect 0 0 (ss_width_um (nl_stock layout)) (ss_height_um (nl_stock layout)).

(** Where a feature's cutter goes on the machine. *)
Definition machined_rect (layout : NestingLayout) (placement : Placement) (f : ManufacturingFeature) : Rect :=
  transform_rect_to_machine (machining_bounds f) placement (ss_height_um (nl_stock layout)) (mf_side f).

Definition other_part_hit (layout : NestingLayout) (placement : Placement) (f : ManufacturingFeature)
    (other : Placement) : bool :=
  negb (bool_decide (np_instance_id other = np_instance_id placement)) &&
  (np_sheet_index other =? np_sheet_index placement) &&
  intersects (machined_rect layout placement f)
    (placement_rect_to_machine other (ss_height_um (nl_stock layout)) (mf_side f)) 0.

Definition feature_keepout_issues (layout : NestingLayout) (p : PartSpec) (placement : Placement)
    (f : ManufacturingFeature) : list DFMIssue :=
  if bool_decide (mf_side f = SIDE_EDGE) then [] else
  let transformed := machined_rect layout placement f in
  issue_if (existsb (fun zone => intersects transformed zone 0) (zones_of layout))
    (feature_issue "FEATURE_KEEPOUT_COLLISION" "Machining feature intersects a clamp or machine keep-out zone."
       (ps_part_id p) (mf_feature_id f) [("machine_bounds", VRect transformed)]
       (Some "Re-nest the part or revise the fixture plan.")) ++
  (if bool_decide (mf_open_end_reliefs f = []) then [] else
   issue_if (negb (contains (sheet_rect layout) transformed))
     (feature_issue "OPEN_END_RELIEF_STOCK_CLEARANCE"
        "Declared open-end cutter exit leaves the physical stock boundary."
        (ps_part_id p) (mf_feature_id f)
        [("machine_bounds", VRect transformed); ("stock_bounds", VRect (sheet_rect layout))]
        (Some "Re-nest the part farther from the sheet edge.")) ++
   match filter (fun other => other_part_hit layout placement f other = true) (nl_placements layout) with
   | [] => []
   | colliding :: _ =>
       [feature_issue "OPEN_END_RELIEF_PART_CLEARANCE"
          "Declared open-end cutter exit intersects another nested part."
          (ps_part_id p) (mf_feature_id f)
          [("machine_bounds", VRect transformed); ("other_instance_id", VStr (np_instance_id colliding))]
          (Some "Increase nesting spacing or move one of the parts.")]
   end).

Definition validate_keepouts (layout : NestingLayout) (p : PartSpec) (placement : Placement) : list DFMIssue :=
  concat (map (feature_keepout_issues layout p placement) (ps_features p)).

(** ** The report *)

Definition instance_issues (layout : NestingLayout) (placement_by_instance : gmap string Placement)
    (i : PartInstance) : list DFMIssue :=
  validate_part (pi_part i) ++
  match placement_by_instance !! pi_instance_id i with
  | Some placement => validate_keepouts layout (pi_part i) placement
  | None => []
  end.

Definition dfm_issues (layout : NestingLayout) (instances : list PartInstance) (grain : list DFMIssue)
    : list DFMIssue :=
  grain ++ validate_layout layout instances ++ validate_machine_envelope layout ++
  concat (map (instance_issues layout (dict_of np_instance_id (nl_placements layout)))
            (sort_by (cmp_on pi_instance_id String.compare) instances)) ++
  validate_feature_collisions instances ++ validate_adjacent_relief_clearance instances.

(** [DFMValidator().validate]: the issues of the report. *)
Definition dfm_validate (parts : list part_input) (layout : NestingLayout) : result (list DFMIssue) :=
  instances ← coerce_part_instances parts;
  grain ← stock_grain_binding_issues (map inr instances) (Some (nl_stock layout)) BLOCK;
  Ok (sort_by report_cmp (deduplicate (dfm_issues layout instances grain))).
End Machine.
