(* ===== verification/DfmSafety.v ===== *)
(** * What an accepted design guarantees

    A report without blocking issues means that every cut stays where it may
    go: inside its own part and the sheet, clear of clamps and of the other
    parts, with a wall left between cuts from opposite faces. *)

From S2P Require Import Prelude Text Identity JsonText ManufacturingModel Nesting LayoutCheck Machining Grain Dfm.

(** ** The report *)

Lemma deduplicate_covers issues seen i :
  i ∈ issues -> canonical_json (issue_json i) ∈ seen \/
  exists j, j ∈ deduplicate_from seen issues /\ canonical_json (issue_json j) = canonical_json (issue_json i).
Proof.
  revert seen; induction issues as [|k issues IH]; intros seen Hi; [by apply not_elem_of_nil in Hi|].
  cbn [deduplicate_from]. cbv zeta. case_bool_decide as D.
  - apply elem_of_cons in Hi as [->|Hi]; [by left|]. by apply IH.
  - apply elem_of_cons in Hi as [->|Hi]; [right; exists k; split; [by left|done]|].
    destruct (IH (canonical_json (issue_json k) :: seen) Hi) as [H|(j & Hj & E)].
    + apply elem_of_cons in H as [E|H]; [right; exists k; split; [by left|done]|by left].
    + right. exists j. split; [by right|done].
Qed.

(** The canonical form of an issue shows its severity. *)
Lemma issue_json_severity i j :
  canonical_json (issue_json i) = canonical_json (issue_json j) -> is_severity i = is_severity j.
Proof.
  intros E%json_dumps_inj.
  assert (forall k, exists a b c d e f g, canonical (issue_json k) =
    JObj [("code", a); ("feature_id", b); ("inputs", c); ("message", d); ("part_id", e); ("setup_id", f);
          ("severity", JStr (severity_value (is_severity k))); ("suggestion", g)]) as F.
  { intros k. do 7 eexists. reflexivity. }
  destruct (F i) as (? & ? & ? & ? & ? & ? & ? & Ei), (F j) as (? & ? & ? & ? & ? & ? & ? & Ej).
  rewrite Ei, Ej in E. injection E as _ _ _ _ _ _ Es _. by destruct (is_severity i), (is_severity j).
Qed.

(** Whatever order and duplicates, the report blocks when some check does. *)
Lemma no_blocking machine parts layout report instances :
  coerce_part_instances parts = Ok instances ->
  dfm_validate machine parts layout = Ok report -> blocking_issues report = [] ->
  exists grain, forall i, i ∈ dfm_issues machine layout instances grain -> is_severity i <> BLOCK.
Proof.
  intros Hc H B. unfold dfm_validate in H. rewrite Hc in H. cbn [mbind result_bind] in H.
  apply bind_Ok in H as (grain & _ & Hr). injection Hr as <-. exists grain. intros i Hi Si.
  destruct (deduplicate_covers _ [] i Hi) as [?%not_elem_of_nil|(j & Hj & E)]; [done|].
  apply issue_json_severity in E.
  assert (j ∈ blocking_issues (sort_by report_cmp (deduplicate (dfm_issues machine layout instances grain)))) as Hb.
  { unfold blocking_issues. apply list_elem_of_filter. rewrite elem_of_sort_by. split; [congruence|exact Hj]. }
  rewrite B in Hb. by apply not_elem_of_nil in Hb.
Qed.

(** ** Checks that only block *)

Definition only_blocking (l : list DFMIssue) : Prop := Forall (fun i => is_severity i = BLOCK) l.

Lemma only_blocking_nil l : only_blocking l -> (forall i, i ∈ l -> is_severity i <> BLOCK) -> l = [].
Proof. destruct 1 as [|i l Hi _]; [done|]. intros H. exfalso. by apply (H i); [left|]. Qed.

Lemma only_blocking_concat {A} (f : A -> list DFMIssue) l :
  (forall x, x ∈ l -> only_blocking (f x)) -> only_blocking (concat (map f l)).
Proof.
  intros H. apply Forall_forall. intros i Hi. apply list_elem_of_In, in_concat in Hi as (m & Hm & Him).
  apply in_map_iff in Hm as (x & <- & Hx). specialize (H x ltac:(by apply list_elem_of_In)).
  unfold only_blocking in H. rewrite Forall_forall in H. apply H. by apply list_elem_of_In.
Qed.

(** Splits a list of issues into its checks. *)
Ltac blocking :=
  repeat first
    [ apply Forall_nil_2 | apply Forall_app_2 | apply only_blocking_concat; intros
    | apply Forall_cons_2; [reflexivity|]
    | match goal with
      | |- context [issue_if ?b _] => destruct b; cbn [issue_if]
      | |- context [if ?b then _ else _] => destruct b
      | |- context [match ?o with _ => _ end] => destruct o
      end ].

Lemma feature_blocking machine p f : only_blocking (validate_feature machine p f).
Proof.
  unfold validate_feature, geometry_issues, access_issues, operation_issues, depth_issues, corner_issues, tool_issues,
    fit_issues, edge_distance_issues. unfold only_blocking. blocking.
Qed.

Lemma part_blocking machine p : only_blocking (validate_part machine p).
Proof.
  unfold validate_part, validate_opposing_wall, opposing_issue. destruct (_ <=? 0); [by repeat constructor|].
  apply Forall_app_2; [apply only_blocking_concat; intros; apply feature_blocking|]. unfold only_blocking. blocking.
Qed.

Lemma keepouts_blocking machine layout p placement : only_blocking (validate_keepouts machine layout p placement).
Proof. unfold validate_keepouts, feature_keepout_issues. unfold only_blocking. blocking. Qed.

Lemma placement_issues_blocking stock by_id ps st :
  only_blocking (snd st) -> only_blocking (snd (foldl (placement_issues stock by_id) st ps)).
Proof.
  revert st; induction ps as [|p ps IH]; intros st H; [done|]. apply IH. destruct st as [seen issues].
  unfold placement_issues, stock_binding_issue, known_issues, zone_issues. cbn [snd] in H.
  destruct (by_id !! _); cbn [snd]; apply Forall_app_2;
    first [apply Forall_app_2; [exact H|blocking] | blocking].
Qed.

Lemma overlap_blocking stock ps : only_blocking (overlap_issues stock ps).
Proof.
  induction ps as [|p ps IH]; [constructor|]. cbn [overlap_issues]. apply Forall_app_2; [|exact IH].
  apply only_blocking_concat. intros q _. unfold only_blocking. blocking.
Qed.

Lemma layout_blocking layout instances : only_blocking (validate_layout layout instances).
Proof.
  unfold validate_layout.
  pose proof (placement_issues_blocking (nl_stock layout) (dict_of pi_instance_id instances) (nl_placements layout)
    (∅, sheet_count_issue layout)) as P.
  destruct (foldl _ _ _) as [seen issues]. cbn [snd] in P.
  unfold only_blocking. rewrite (sort_by_perm _ _). apply Forall_app_2; [|apply Forall_app_2; [|apply Forall_app_2]].
  - apply P. unfold sheet_count_issue. unfold only_blocking. blocking.
  - apply only_blocking_concat. intros g _. apply overlap_blocking.
  - unfold accounting_issue. blocking.
  - apply Forall_map, Forall_forall. intros x _. reflexivity.
Qed.

Lemma pairs_blocking check fs : (forall f g, only_blocking (check f g)) -> only_blocking (pairs_issues check fs).
Proof.
  intros H. induction fs as [|f fs IH]; [constructor|]. cbn [pairs_issues].
  apply Forall_app_2; [|exact IH]. by apply only_blocking_concat.
Qed.

(** ** What a clean report says *)

Record dfm_clean (machine : MachineProfile) (layout : NestingLayout) (instances : list PartInstance) : Prop := {
  dc_layout : layout_ok layout instances;
  dc_envelope : validate_machine_envelope machine layout = [];
  dc_part : forall i, i ∈ instances -> validate_part machine (pi_part i) = [];
  dc_keepouts : forall i p, i ∈ instances -> p ∈ nl_placements layout -> np_instance_id p = pi_instance_id i ->
    validate_keepouts machine layout (pi_part i) p = [];
  dc_collisions : validate_feature_collisions instances = [] }.

Lemma accepted_clean machine parts layout report instances :
  coerce_part_instances parts = Ok instances ->
  dfm_validate machine parts layout = Ok report -> blocking_issues report = [] ->
  dfm_clean machine layout instances.
Proof.
  intros Hc H B. destruct (no_blocking _ _ _ _ _ Hc H B) as [grain N].
  assert (forall l, l ⊆ dfm_issues machine layout instances grain -> only_blocking l -> l = []) as Nil.
  { intros l Sub Hl. apply only_blocking_nil; [done|]. intros i Hi. apply N. by apply Sub. }
  unfold dfm_issues in Nil. set (placed := dict_of np_instance_id (nl_placements layout)) in *.
  assert (validate_layout layout instances = []) as L by (apply Nil; [set_solver|apply layout_blocking]).
  apply validate_layout_ok in L.
  assert (forall i, i ∈ instances -> instance_issues machine layout placed i = []) as Inst.
  { intros i Hi. apply Nil.
    - intros x Hx. rewrite !elem_of_app. right. right. right. left.
      apply list_elem_of_In, in_concat. exists (instance_issues machine layout placed i).
      split; [|by apply list_elem_of_In]. apply in_map, list_elem_of_In. by rewrite elem_of_sort_by.
    - apply Forall_app_2; [apply part_blocking|]. destruct (placed !! _); [apply keepouts_blocking|constructor]. }
  split.
  - exact L.
  - apply Nil; [set_solver|]. unfold validate_machine_envelope, only_blocking. blocking.
  - intros i Hi. specialize (Inst i Hi). by apply app_nil in Inst as [? _].
  - intros i p Hi Hp E. specialize (Inst i Hi). apply app_nil in Inst as [_ Inst].
    unfold placed in Inst. rewrite <- E, (dict_of_elem np_instance_id _ p) in Inst; [done|exact (ok_once _ _ L)|exact Hp].
  - apply Nil; [set_solver|]. apply only_blocking_concat. intros p _. unfold side_pairs. apply only_blocking_concat.
    intros side _. apply pairs_blocking. intros f g. unfold collision_issue, only_blocking. blocking.
Qed.

(** ** Cuts on the sheet *)

Lemma intersects_subset a a' b : contains a a' = true -> intersects a b 0 = false -> intersects a' b 0 = false.
Proof.
  unfold contains, intersects. intros C I. bprop. apply negb_false_iff. apply negb_false_iff in I.
  rewrite !orb_true_iff, !Z.leb_le in *. lia.
Qed.

Lemma contains_trans a b c : contains a b = true -> contains b c = true -> contains a c = true.
Proof. unfold contains. intros. bprop. rewrite !andb_true_iff, !Z.leb_le. lia. Qed.

Section Accepted.
Context (machine : MachineProfile) (layout : NestingLayout) (instances : list PartInstance).
Context (Stock : new_StockSheet (nl_stock layout) = Ok (nl_stock layout)) (Clean : dfm_clean machine layout instances).
Context (i : PartInstance) (p : Placement) (f : ManufacturingFeature).
Context (Hi : i ∈ instances) (Hp : p ∈ nl_placements layout) (Id : np_instance_id p = pi_instance_id i)
  (Hf : f ∈ ps_features (pi_part i)) (Flat : mf_side f <> SIDE_EDGE).

Let h := ss_height_um (nl_stock layout).

(** The finished panel is no larger than its blank.  Neither [PartSpec] nor a
    design-for-manufacturing check asks for it; the adapter makes panels that have
    it ([DesignSafety]). *)
Definition finished_within_blank (q : PartSpec) : Prop :=
  ps_width_um q <= blank_width_um q /\ ps_height_um q <= blank_height_um q.

Lemma placed_correctly : NoDup (map pi_instance_id instances) -> placed_at (nl_stock layout) i p.
Proof.
  intros Nd. destruct (ok_placed _ _ (dc_layout _ _ _ Clean) p Hp) as (j & Hj & P).
  rewrite Id, (dict_of_elem pi_instance_id _ i Nd Hi) in Hj. by injection Hj as <-.
Qed.

Lemma feature_checked : validate_feature machine (pi_part i) f = [].
Proof.
  pose proof (dc_part _ _ _ Clean i Hi) as H. unfold validate_part in H.
  destruct (_ <=? 0); [discriminate H|]. apply app_nil in H as [H _]. rewrite concat_nil_Forall, Forall_map, Forall_forall in H.
  apply H. by rewrite elem_of_sort_by.
Qed.

Lemma keepouts_checked : feature_keepout_issues machine layout (pi_part i) p f = [].
Proof.
  pose proof (dc_keepouts _ _ _ Clean i p Hi Hp Id) as H. unfold validate_keepouts in H.
  rewrite concat_nil_Forall, Forall_map, Forall_forall in H. by apply H.
Qed.

(** A cut with no open end stays in the finished panel. *)
Lemma cut_in_panel : mf_open_end_reliefs f = [] ->
  contains (panel_of (pi_part i)) (machining_bounds f) = true /\ proper_rect (machining_bounds f).
Proof.
  intros O. pose proof feature_checked as H. unfold validate_feature in H. apply app_nil in H as [H _].
  unfold geometry_issues in H. destruct (_ || _) eqn:E; [discriminate H|]. bprop.
  apply issue_if_nil, negb_false_iff in H. unfold feature_envelope_is_declared in H. rewrite O in H.
  rewrite !bool_decide_false, !orb_false_r in H by apply not_elem_of_nil. bprop.
  unfold contains. split; [|split; lia]. rewrite !andb_true_iff, !Z.leb_le. lia.
Qed.
(** On the sheet it stays in the place of its part. *)
Lemma cut_in_place : NoDup (map pi_instance_id instances) -> finished_within_blank (pi_part i) ->
  mf_open_end_reliefs f = [] -> contains (placement_rect_to_machine p h (mf_side f)) (machined_rect layout p f) = true.
Proof.
  intros Nd [Bw Bh] O. destruct (cut_in_panel O) as [C Pr]. pose proof (pa_size _ _ _ (placed_correctly Nd)) as Sz.
  unfold machined_rect. fold h. rewrite transform_rect_eq by done. destruct Pr as [Pw Ph].
  unfold expected_size in Sz. unfold contains, panel_of, right_um, top_um in C. cbn in C. bprop.
  unfold placement_rect_to_machine, contains, np_rect, right_um, top_um.
  destruct (np_rotated_90 p); injection Sz as Ew Eh; destruct (bool_decide (mf_side f = SIDE_B)); cbn;
    rewrite !andb_true_iff, !Z.leb_le; lia.
Qed.

Lemma place_in_sheet : NoDup (map pi_instance_id instances) ->
  contains (sheet_rect layout) (placement_rect_to_machine p h (mf_side f)) = true.
Proof.
  intros Nd. pose proof (pa_usable _ _ _ (placed_correctly Nd)) as U. pose proof Stock as S.
  unfold new_StockSheet in S. inv_ok. bprop.
  unfold contains, usable_rect, np_rect, right_um, top_um in U. cbn in U. bprop.
  unfold contains, sheet_rect, placement_rect_to_machine, np_rect, right_um, top_um, h.
  destruct (bool_decide _); cbn; rewrite !andb_true_iff, !Z.leb_le; lia.
Qed.

Lemma places_disjoint q : q ∈ nl_placements layout -> np_instance_id q <> np_instance_id p ->
  np_sheet_index q = np_sheet_index p ->
  intersects (placement_rect_to_machine p h (mf_side f)) (placement_rect_to_machine q h (mf_side f)) 0 = false.
Proof.
  intros Hq N Sh. assert (apart (nl_stock layout) p q) as A.
  { eapply (pairwise_elem (apart (nl_stock layout))); [intros ? ?; apply apart_sym|exact (ok_apart _ _ (dc_layout _ _ _ Clean))|done|done|].
    congruence. }
  specialize (A (eq_sym Sh)). pose proof Stock as S. unfold new_StockSheet in S. inv_ok. bprop.
  unfold intersects in *. apply negb_false_iff. apply negb_false_iff in A. rewrite !orb_true_iff, !Z.leb_le in *.
  unfold placement_rect_to_machine, np_rect, right_um, top_um in *.
  destruct (bool_decide _); cbn in *; lia.
Qed.

(** No cut touches a clamp or a keep-out zone. *)
Lemma cut_off_zones zone : zone ∈ zones_of machine layout -> intersects (machined_rect layout p f) zone 0 = false.
Proof.
  intros Hz. pose proof keepouts_checked as K. unfold feature_keepout_issues in K.
  rewrite (bool_decide_false (mf_side f = SIDE_EDGE)) in K by done. apply app_nil in K as [Kz _]. apply issue_if_nil in Kz.
  apply not_true_iff_false. intros E. apply not_true_iff_false in Kz. apply Kz.
  apply existsb_exists. exists zone. split; [by apply list_elem_of_In|exact E].
Qed.

(** A cut that runs out over an open end is checked against the sheet and the
    other parts; one that does not stays in the place of its part. *)
Lemma cut_clear : NoDup (map pi_instance_id instances) ->
  mf_open_end_reliefs f <> [] \/ finished_within_blank (pi_part i) ->
  contains (sheet_rect layout) (machined_rect layout p f) = true /\
  (forall q, q ∈ nl_placements layout -> np_instance_id q <> np_instance_id p ->
     np_sheet_index q = np_sheet_index p ->
     intersects (machined_rect layout p f) (placement_rect_to_machine q h (mf_side f)) 0 = false).
Proof.
  intros Nd B. destruct (decide (mf_open_end_reliefs f = [])) as [O|O].
  - assert (finished_within_blank (pi_part i)) as Blank by (by destruct B). split.
    + exact (contains_trans _ _ _ (place_in_sheet Nd) (cut_in_place Nd Blank O)).
    + intros q Hq N Sh. exact (intersects_subset _ _ _ (cut_in_place Nd Blank O) (places_disjoint q Hq N Sh)).
  - pose proof keepouts_checked as K. unfold feature_keepout_issues in K.
    rewrite (bool_decide_false (mf_side f = SIDE_EDGE)) in K by done. apply app_nil in K as [_ Ko].
    rewrite bool_decide_false in Ko by done. apply app_nil in Ko as [Ks Ko]. split; [by apply issue_if_nil, negb_false_iff in Ks|].
    intros q Hq N Sh. destruct (filter _ _) as [|q' l] eqn:F; [|discriminate Ko]. apply not_true_iff_false. intros E.
    assert (q ∈ filter (fun other => other_part_hit layout p f other = true) (nl_placements layout)) as H.
    { apply list_elem_of_filter. split; [|done]. unfold other_part_hit.
      rewrite bool_decide_false by done. rewrite Sh, Z.eqb_refl. exact E. }
    rewrite F in H. by apply not_elem_of_nil in H.
Qed.
End Accepted.

(** ** The wall between opposite faces *)

(** A contour is cut along its outline; every other feature is cut as an area. *)
Definition is_contour (f : ManufacturingFeature) : bool :=
  match mf_kind f with OUTER_CONTOUR | INNER_CONTOUR => true | _ => false end.

(** The micrometre cell at [(x, y)] is inside the cutter envelope of an area. *)
Definition covers (f : ManufacturingFeature) (x y : Z) : Prop :=
  is_contour f = false /\
  let b := machining_bounds f in
  r_x_um b <= x < right_um b /\ r_y_um b <= y < top_um b.

#[export] Instance covers_dec f x y : Decision (covers f x y).
Proof. unfold covers. apply _. Defined.

(** The micrometre cube at height [z] over the A face is cut away. *)
Definition removes (p : PartSpec) (f : ManufacturingFeature) (x y z : Z) : Prop :=
  covers f x y /\
  match mf_side f with
  | SIDE_A => z < mf_depth_um f
  | SIDE_B => ps_thickness_um p - mf_depth_um f <= z
  | SIDE_EDGE => True
  end.

(** The deepest cut of one side at [(x, y)]. *)
Definition deepest (p : PartSpec) (side : Side) (x y : Z) : Z :=
  foldr Z.max 0 (map mf_depth_um (filter (fun f => mf_side f = side /\ covers f x y) (ps_features p))).

Lemma deepest_spec p side x y :
  0 <= deepest p side x y /\
  (forall f, f ∈ ps_features p -> mf_side f = side -> covers f x y -> mf_depth_um f <= deepest p side x y) /\
  (deepest p side x y = 0 \/
   exists f, f ∈ ps_features p /\ mf_side f = side /\ covers f x y /\ mf_depth_um f = deepest p side x y).
Proof.
  unfold deepest. set (fs := filter _ (ps_features p)).
  assert (forall l : list Z, 0 <= foldr Z.max 0 l /\ (forall d, d ∈ l -> d <= foldr Z.max 0 l) /\
            (foldr Z.max 0 l = 0 \/ foldr Z.max 0 l ∈ l)) as M.
  { induction l as [|d l (H0 & Hl & Hm)]; cbn; [split_and!; [done|by intros ? ?%not_elem_of_nil|by left]|].
    split_and!; [lia|intros e [->|He]%elem_of_cons; [lia|specialize (Hl e He); lia]|].
    destruct (Z.max_spec d (foldr Z.max 0 l)) as [[? ->]|[? ->]]; [|right; by left].
    destruct Hm as [->|]; [by left|right; by right]. }
  destruct (M (map mf_depth_um fs)) as (H0 & Hl & Hm). split_and!; [done| |].
  - intros f Hf Hs Hc. apply Hl, list_elem_of_fmap_2, list_elem_of_filter. done.
  - destruct Hm as [|(f & E & [[Hs Hc] Hf]%list_elem_of_filter)%list_elem_of_fmap]; [by left|right]. exists f. done.
Qed.

Lemma covers_intersect f g x y : covers f x y -> covers g x y ->
  intersects (machining_bounds f) (machining_bounds g) 0 = true.
Proof.
  unfold covers, intersects. intros Hf Hg. rewrite negb_true_iff, !orb_false_iff, !Z.leb_gt. lia.
Qed.

Lemma blind_depth machine p f : validate_feature machine p f = [] -> mf_through f = false ->
  minimum_wall f <= ps_thickness_um p - mf_depth_um f.
Proof.
  intros H T. unfold validate_feature in H. rewrite !app_nil in H. destruct H as (_ & _ & _ & D & _).
  unfold depth_issues in D. rewrite T in D. destruct (_ <=? _); [discriminate D|].
  apply issue_if_nil in D. bprop. lia.
Qed.

Lemma opposing_depth machine p f g : validate_part machine p = [] ->
  f ∈ ps_features p -> g ∈ ps_features p -> mf_side f = SIDE_A -> mf_side g = SIDE_B ->
  mf_through f = false -> mf_through g = false ->
  intersects (machining_bounds f) (machining_bounds g) 0 = true ->
  Z.max (minimum_wall f) (minimum_wall g) <= ps_thickness_um p - mf_depth_um f - mf_depth_um g.
Proof.
  intros H Hf Hg Sf Sg Tf Tg I. unfold validate_part in H. destruct (_ <=? 0); [discriminate H|].
  apply app_nil in H as [_ H]. unfold validate_opposing_wall in H.
  rewrite concat_nil_Forall, Forall_map, Forall_forall in H.
  specialize (H f ltac:(unfold blind_features; rewrite elem_of_sort_by; by apply list_elem_of_filter)).
  rewrite concat_nil_Forall, Forall_map, Forall_forall in H.
  specialize (H g ltac:(unfold blind_features; rewrite elem_of_sort_by; by apply list_elem_of_filter)).
  unfold opposing_issue in H. rewrite I in H. cbv zeta in H. apply issue_if_nil in H. bprop. lia.
Qed.

(** What an area that is cut at [(x, y)] keeps of a layer between [low] and [high]:
    its floor is outside the layer, and between its floor and the other end of the
    layer there is its own minimum wall. *)
Definition keeps_wall (p : PartSpec) (low high : Z) (f : ManufacturingFeature) : Prop :=
  match mf_side f with
  | SIDE_A => mf_depth_um f <= low /\ minimum_wall f <= high - mf_depth_um f
  | SIDE_B => high <= ps_thickness_um p - mf_depth_um f /\ minimum_wall f <= ps_thickness_um p - mf_depth_um f - low
  | SIDE_EDGE => True
  end.

(** C13: opposite cuts never meet.  In a part of an accepted design, wherever no area is
    cut through or from an edge, a layer is left that no area cuts.  It reaches from the
    deepest cut of the A face, or that face, to the deepest cut of the B face, or that
    face; and every area cut there has at least the minimum wall that it declares (three
    millimetres when it declares none) between its own floor and the deepest cut from
    the other face, so the layer is at least as thick as the walls of both the cuts that
    bound it.  Contours, which cut along a line, are not areas. *)
Theorem accepted_wall_remains (machine : MachineProfile) (parts : list part_input) (layout : NestingLayout)
    (instances : list PartInstance) (report : list DFMIssue) (i : PartInstance) (x y : Z) :
  coerce_part_instances parts = Ok instances ->
  dfm_validate machine parts layout = Ok report -> blocking_issues report = [] -> i ∈ instances ->
  let p := pi_part i in
  (forall f, f ∈ ps_features p -> covers f x y -> mf_through f = false /\ mf_side f <> SIDE_EDGE) ->
  exists low high,
    (low = 0 \/ exists f, f ∈ ps_features p /\ mf_side f = SIDE_A /\ covers f x y /\ mf_depth_um f = low) /\
    (high = ps_thickness_um p \/
     exists g, g ∈ ps_features p /\ mf_side g = SIDE_B /\ covers g x y /\ ps_thickness_um p - mf_depth_um g = high) /\
    (forall f, f ∈ ps_features p -> covers f x y -> keeps_wall p low high f) /\
    forall f z, f ∈ ps_features p -> low <= z < high -> ~ removes p f x y z.
Proof.
  intros Hc H B Hi p Hcov.
  pose proof (dc_part _ _ _ (accepted_clean _ _ _ _ _ Hc H B) i Hi) as V. fold p in V.
  assert (forall f, f ∈ ps_features p -> validate_feature machine p f = []) as Vf.
  { intros f Hf. pose proof V as V'. unfold validate_part in V'. destruct (_ <=? 0); [discriminate V'|].
    apply app_nil in V' as [V' _]. rewrite concat_nil_Forall, Forall_map, Forall_forall in V'.
    apply V'. by rewrite elem_of_sort_by. }
  destruct (deepest_spec p SIDE_A x y) as (A0 & Ale & Amax), (deepest_spec p SIDE_B x y) as (B0 & Ble & Bmax).
  exists (deepest p SIDE_A x y), (ps_thickness_um p - deepest p SIDE_B x y). split_and!.
  - destruct Amax as [|(f & ? & ? & ? & ?)]; [by left|right; by exists f].
  - destruct Bmax as [E|(g & ? & ? & ? & E)]; [left; lia|right; exists g; split_and!; [done..|lia]].
  - intros f Hf Cf. destruct (Hcov f Hf Cf) as [Tf Ef]. pose proof (blind_depth _ _ _ (Vf f Hf) Tf) as D. unfold keeps_wall.
    destruct (mf_side f) eqn:Sf; [| |done]; split.
    + by apply Ale.
    + destruct Bmax as [->|(g & Hg & Sg & Cg & <-)]; [lia|]. destruct (Hcov g Hg Cg) as [Tg _].
      pose proof (opposing_depth _ _ _ _ V Hf Hg Sf Sg Tf Tg (covers_intersect _ _ _ _ Cf Cg)). lia.
    + specialize (Ble f Hf Sf Cf). lia.
    + destruct Amax as [->|(g & Hg & Sg & Cg & <-)]; [lia|]. destruct (Hcov g Hg Cg) as [Tg _].
      pose proof (opposing_depth _ _ _ _ V Hg Hf Sg Sf Tg Tf (covers_intersect _ _ _ _ Cg Cf)). lia.
  - intros f z Hf Hz [Cf R]. destruct (Hcov f Hf Cf) as [_ E].
    destruct (mf_side f) eqn:S; [specialize (Ale f Hf S Cf); lia|specialize (Ble f Hf S Cf); lia|done].
Qed.
