(* ===== verification/DesignSafety.v ===== *)
(** * Accepted designs are cut where they may be

    From a specification to the sheet: the panels the adapter makes of a compiled
    bookcase fit their blanks, so a report without blocking issues keeps every cut
    of them inside the sheet, off its clamps and away from every other panel. *)

From S2P Require Import Prelude Text Geometry Enums Models Identity DesignResult BookcaseParts JointGeometry BookcaseJoints BookcaseRetention ManufacturingModel Nesting LayoutCheck Adapter AdapterDesign Machining Grain Dfm DfmSafety.

(** ** Blanks *)

(** The raw size of a part is at least its finished size. *)
Definition raw_covers (q : Models.PartInstance) : Prop :=
  forall axis w raw, at_key (dimensions (part_finished_size q)) axis = Ok w ->
    at_key (dimensions (part_raw_size q)) axis = Ok raw -> 0 < w <= raw.

Lemma dimensions_cover size raw : new_Dimensions3D size = Ok size ->
  d_width_um size <= d_width_um raw -> d_depth_um size <= d_depth_um raw -> d_height_um size <= d_height_um raw ->
  forall axis w r, at_key (dimensions size) axis = Ok w -> at_key (dimensions raw) axis = Ok r -> 0 < w <= r.
Proof.
  intros S W D H axis w r Ew Er. unfold new_Dimensions3D, PositiveUm in S. inv_ok. bprop.
  unfold at_key, dict_get, dimensions in Ew, Er. apply of_option_Ok in Ew, Er. rewrite !filter_cons, filter_nil in Ew, Er. cbn [fst] in Ew, Er.
  repeat match goal with E : context [decide ?P] |- _ => destruct (decide P) end; try discriminate Ew;
    injection Ew as <-; injection Er as <-; split; assumption.
Qed.

Lemma raw_size_covers size t allowance raw : 0 <= allowance -> new_Dimensions3D size = Ok size ->
  raw_size_of size t allowance = Ok raw ->
  d_width_um size <= d_width_um raw /\ d_depth_um size <= d_depth_um raw /\ d_height_um size <= d_height_um raw.
Proof.
  intros A S H. unfold raw_size_of in H. destruct (allowance =? 0); [injection H as <-; lia|].
  apply new_Dimensions3D_Ok in H as ->. cbn. unfold expanded. repeat destruct (_ =? t); lia.
Qed.

Lemma valid_allowances spec : new_BookcaseDesignSpec spec = Ok spec ->
  0 <= mat_machining_allowance_um (spec_material spec) /\
  forall back, spec_back_material spec = Some back -> 0 <= mat_machining_allowance_um back.
Proof.
  intros V. unfold new_BookcaseDesignSpec in V. do 6 (apply bind_Ok in V as (? & _ & V)).
  apply bind_Ok in V as (? & M & V). apply bind_Ok in V as (? & B & _).
  assert (forall m m', new_MaterialVersion m = Ok m' -> 0 <= mat_machining_allowance_um m) as New.
  { intros m m' H. unfold new_MaterialVersion in H. inv_ok. unfold NonNegativeUm in *. bprop. done. }
  split; [by eapply New|]. intros back E. rewrite E in B. apply bind_Ok in B as (? & B & _). by eapply New.
Qed.

Lemma build_parts_raw spec parts : new_BookcaseDesignSpec spec = Ok spec -> build_parts spec = Ok parts -> Forall raw_covers parts.
Proof.
  intros [A1 A2]%valid_allowances. unfold build_parts. intros (l & _ & H%traverse_Ok)%bind_Ok.
  apply Forall_forall. intros q [i Hi]%list_elem_of_lookup. destruct (Forall2_lookup_r _ _ _ _ _ H Hi) as (rq & _ & E). clear H Hi.
  unfold add_part in E. cbv zeta in E. apply bind_Ok in E as (size & Hs & E). pose proof (new_Dimensions3D_Ok _ _ Hs). subst size.
  apply bind_Ok in E as (? & _ & E). apply bind_Ok in E as (raw & Hr & E). do 2 (apply bind_Ok in E as (? & _ & E)).
  apply new_PartInstance_Ok in E as ->. unfold raw_covers. cbn [part_finished_size part_raw_size].
  apply raw_size_covers in Hr as (W & D & Hh); [|destruct (spec_back_material spec) as [back|]; [case_bool_decide|]; auto|done].
  by apply dimensions_cover.
Qed.

(** ** Panels of a compiled design *)

Lemma adapted_fits_blank q s : raw_covers q -> adapt_domain_part q = Ok s -> finished_within_blank s.
Proof.
  intros R H. unfold adapt_domain_part in H. cbv zeta in H. apply bind_Ok in H as (m & _ & H).
  apply bind_Ok in H as (w & W & H). apply bind_Ok in H as (h & Hh & H). apply bind_Ok in H as (rw & RW & H).
  apply bind_Ok in H as (rh & RH & H). do 5 (apply bind_Ok in H as (? & _ & H)). apply new_PartSpec_Ok in H as ->.
  pose proof (R _ _ _ W RW). pose proof (R _ _ _ Hh RH).
  unfold finished_within_blank, blank_width_um, blank_height_um. cbn. destruct (rw =? 0), (rh =? 0); lia.
Qed.

Lemma annotated_sizes joint_members s s' : annotate_part joint_members s = Ok s' ->
  finished_within_blank s -> finished_within_blank s'.
Proof. unfold annotate_part. cbv zeta. intros (gs & _ & ->%new_PartSpec_Ok)%bind_Ok. done. Qed.

Lemma design_fits_blanks d a : Forall raw_covers (dr_parts d) -> adapt_design_result d = Ok a ->
  Forall finished_within_blank (ad_parts a) /\ NoDup (map ps_part_id (ad_parts a)).
Proof.
  intros R H. unfold adapt_design_result in H. apply bind_Ok in H as (ss & H1%traverse_Ok & H).
  apply bind_Ok in H as (final & H2 & H). apply bind_Ok in H as ([] & D%raise_if_Ok%negb_false_iff%distinct_spec & [= <-]).
  cbn [ad_parts]. split; [|exact D].
  assert (Forall finished_within_blank ss) as F.
  { clear H2. revert R. induction H1 as [|q s qs ss E _ IH]; intros R; [constructor|]. apply Forall_cons in R as [R1 R2].
    constructor; [by eapply adapted_fits_blank|by apply IH]. }
  unfold annotate_compatible_corner_overlaps in H2. destruct (dado_members _); [by injection H2 as <-|]. apply traverse_Ok in H2.
  clear D H1. induction H2 as [|s s' ss' final E _ IH]; [constructor|]. apply Forall_cons in F as [F1 F2].
  constructor; [by eapply annotated_sizes|by apply IH].
Qed.

(** C12: an accepted design is cut only where it may be.  Take any valid
    specification, compile it, adapt it, and nest any of its panels on any sheets: if
    the design-for-manufacturing report has no blocking issue, then the cutter
    envelope of every feature of every placed panel, rotated and flipped to the
    machine, stays inside the sheet, touches no clamp or keep-out zone, and touches
    no other panel on its sheet, whether the feature is closed or runs out over an
    open end. *)
Theorem accepted_cuts_stay_clear spec parts0 parts joints d a specs machine layout report :
  new_BookcaseDesignSpec spec = Ok spec -> build_parts spec = Ok parts0 -> build_joints spec parts0 = Ok (parts, joints) ->
  dr_parts d = parts -> adapt_design_result d = Ok a -> specs ⊆+ ad_parts a ->
  new_StockSheet (nl_stock layout) = Ok (nl_stock layout) ->
  dfm_validate machine (map inl specs) layout = Ok report -> blocking_issues report = [] ->
  forall i p f, i ∈ expand_part_instances specs -> p ∈ nl_placements layout -> np_instance_id p = pi_instance_id i ->
    f ∈ ps_features (pi_part i) -> mf_side f <> SIDE_EDGE ->
    contains (sheet_rect layout) (machined_rect layout p f) = true /\
    (forall zone, zone ∈ zones_of machine layout -> intersects (machined_rect layout p f) zone 0 = false) /\
    (forall q, q ∈ nl_placements layout -> np_instance_id q <> np_instance_id p ->
       np_sheet_index q = np_sheet_index p ->
       intersects (machined_rect layout p f)
         (placement_rect_to_machine q (ss_height_um (nl_stock layout)) (mf_side f)) 0 = false).
Proof.
  intros V B J <- A Sub St H Bl i p f Hi Hp Id Hf Flat.
  assert (Forall raw_covers (dr_parts d)) as R.
  { apply build_joints_Ok in J as (b & _ & -> & _). unfold updated_parts. apply Forall_fmap. exact (build_parts_raw _ _ V B). }
  destruct (design_fits_blanks d a R A) as [F D].
  assert (coerce_part_instances (map inl specs) = Ok (expand_part_instances specs)) as C.
  { unfold coerce_part_instances. assert (mapM as_spec (map inl specs) = Some specs) as ->; [|done].
    clear. induction specs as [|s specs IH]; [done|]. cbn. by rewrite IH. }
  assert (NoDup (map pi_instance_id (expand_part_instances specs))) as Nd.
  { apply expand_NoDup. apply (fmap_submseteq ps_part_id), submseteq_Permutation in Sub as [k P].
    change (NoDup (ps_part_id <$> ad_parts a)) in D. rewrite P in D. by apply NoDup_app in D as [? _]. }
  pose proof (accepted_clean _ _ _ _ _ C H Bl) as Clean.
  assert (finished_within_blank (pi_part i)) as Blank.
  { apply list_elem_of_In, in_concat in Hi as (l & Hl & Hi). apply list_elem_of_In in Hl, Hi.
    apply list_elem_of_fmap in Hl as (s & -> & Hs). rewrite elem_of_sort_by in Hs.
    apply list_elem_of_fmap in Hi as (k & -> & _). cbn [pi_part]. rewrite Forall_forall in F. apply F. by eapply elem_of_submseteq. }
  destruct (cut_clear machine layout _ St Clean i p f Hi Hp Id Hf Flat Nd (or_intror Blank)) as [S O].
  split; [exact S|]. split; [|exact O]. intros zone. exact (cut_off_zones machine layout _ Clean i p f Hi Hp Id Hf Flat zone).
Qed.
