(* ===== verification/DesignExamples.v ===== *)
(** * The bookcase on a sheet

    The eight carcass panels of the bookcase of [Examples], nested and accepted; and
    a panel larger than its blank, which the report accepts as well. *)

From S2P Require Import Prelude Text Geometry Enums Models Identity DesignResult BookcaseParts JointGeometry BookcaseJoints AssemblyGraph Examples ManufacturingModel Nesting LayoutCheck Adapter AdapterDesign AdapterExamples Machining Grain Dfm DfmSafety DesignSafety.

Definition carcass_specs : list PartSpec := filter (fun s => ps_thickness_um s = 18000) (ad_parts example_adapted).

Definition birch_sheet : StockSheet :=
  mkStockSheet "sheet-1" "birch-ply-18" "1.0.0" 2500000 1250000 18000 2 10000 6000 "X" true [] [] "operator".

Definition carcass_layout : NestingLayout :=
  Eval vm_compute in match nest (map inl carcass_specs) birch_sheet with Ok l => l | Err _ => layout_of_state birch_sheet (place_all birch_sheet []) end.

Definition carcass_report : list DFMIssue :=
  Eval vm_compute in match dfm_validate linuxcnc_reference_router_1325 (map inl carcass_specs) carcass_layout with Ok r => r | Err _ => [] end.

Lemma carcass_validated : dfm_validate linuxcnc_reference_router_1325 (map inl carcass_specs) carcass_layout = Ok carcass_report.
Proof. vm_compute. reflexivity. Qed.

Lemma example_spec_valid : new_BookcaseDesignSpec example_spec = Ok example_spec.
Proof. vm_compute. reflexivity. Qed.

(** The divider, its place, and a groove of it. *)
Definition is_divider (i : PartInstance) : bool := bool_decide (ps_name (pi_part i) = "DIVIDER").
Definition divider : PartInstance :=
  Eval vm_compute in default (mkPartInstance "" crossing_panel) (List.find is_divider (expand_part_instances carcass_specs)).
Definition is_place (p : Placement) : bool := bool_decide (np_instance_id p = pi_instance_id divider).
Definition divider_place : Placement :=
  Eval vm_compute in default (mkPlacement "" "" "" 0 0 0 0 0 false) (List.find is_place (nl_placements carcass_layout)).
Definition divider_groove : ManufacturingFeature := Eval vm_compute in default crossing_feature (head (ps_features (pi_part divider))).

Lemma found {A} (f : A -> bool) l x : List.find f l = Some x -> x ∈ l.
Proof. intros H. apply List.find_some in H as [H _]. by apply list_elem_of_In. Qed.

(** It is cut clear of the seven other panels on the sheet. *)
Lemma accepted_cuts_stay_clear_witness :
  blocking_issues carcass_report = [] /\ length (nl_placements carcass_layout) = 8%nat /\ mf_kind divider_groove = GROOVE /\
  contains (sheet_rect carcass_layout) (machined_rect carcass_layout divider_place divider_groove) = true /\
  forall q, q ∈ nl_placements carcass_layout -> np_instance_id q <> np_instance_id divider_place ->
    np_sheet_index q = np_sheet_index divider_place ->
    intersects (machined_rect carcass_layout divider_place divider_groove)
      (placement_rect_to_machine q (ss_height_um (nl_stock carcass_layout)) (mf_side divider_groove)) 0 = false.
Proof.
  split; [reflexivity|]. split; [reflexivity|]. split; [reflexivity|].
  assert (divider ∈ expand_part_instances carcass_specs) as Hi by (apply (found is_divider); vm_compute; reflexivity).
  assert (divider_place ∈ nl_placements carcass_layout) as Hp by (apply (found is_place); vm_compute; reflexivity).
  assert (divider_groove ∈ ps_features (pi_part divider)) as Hf by (apply head_Some_elem_of; reflexivity).
  destruct (accepted_cuts_stay_clear example_spec example_parts example_updated example_joints example_result example_adapted
    carcass_specs linuxcnc_reference_router_1325 carcass_layout carcass_report example_spec_valid example_build_parts
    example_build_joints eq_refl example_adapts (sublist_submseteq _ _ (sublist_filter _ _)) eq_refl carcass_validated eq_refl
    divider divider_place divider_groove Hi Hp eq_refl Hf ltac:(discriminate)) as (C & _ & O).
  split; [exact C|exact O].
Defined.

(** ** A panel larger than its blank

    Nothing in [PartSpec] or in the report compares a panel with its blank.  The
    groove of the larger panel is accepted and crosses the panel nested beside it. *)

Definition long_groove : ManufacturingFeature :=
  mkMFeature "groove" "shelf" GROOVE SIDE_A 20000 60000 6000 None (Some 200000) (Some 18500) None 1 None
    false (Some "dogbone-v2") (Some 3000) [] 50 500 no_metadata.
Definition short_blank : PartSpec :=
  mkPartSpec "shelf" "shelf" 400000 250000 18000 "birch-ply-18" "1.0.0" [long_groove] "X" true 2 1000 (Some 100000) None
    default_axis_mapping [] [] None.
Definition short_layout : NestingLayout := layout_of_state birch_sheet (place_all birch_sheet (expand_part_instances [short_blank])).

Lemma undersized_blank_accepted :
  new_PartSpec short_blank = Ok short_blank /\
  dfm_validate linuxcnc_reference_router_1325 [inl short_blank] short_layout = Ok [] /\
  exists p q, nl_placements short_layout = [p; q] /\ np_sheet_index p = np_sheet_index q /\
    intersects (machined_rect short_layout p long_groove)
      (placement_rect_to_machine q (ss_height_um (nl_stock short_layout)) SIDE_A) 0 = true.
Proof.
  split; [vm_compute; reflexivity|]. split; [vm_compute; reflexivity|]. do 2 eexists. split; [vm_compute; reflexivity|].
  split; vm_compute; reflexivity.
Qed.
