(* ===== verification/Operations.v ===== *)
(** * Operations documents

    [packages/manufacturing/src/custombuild_manufacturing/operations.py]: the
    features of the placed parts become operations in machine coordinates,
    grouped in one setup per sheet and side and ordered for cutting.
    [lower_document] is the function after its optional design-for-manufacturing
    validation, which [generate_operations_document] adds. *)

From S2P Require Import Prelude Text Identity ManufacturingModel Nesting Machining Grain Dfm.

Definition OPERATIONS_SCHEMA_VERSION : string := "custombuild.operations.v2".

Definition setup_id_of (stock_id : string) (sheet_index : Z) (side : Side) : string :=
  "setup:" +:+ stock_id +:+ ":" +:+ zero_padded_Z 3 (sheet_index + 1) +:+ ":" +:+ side_value side.

(** The flip side comes before the final A-side setup. *)
Definition side_sequence (s : Side) : Z := match s with SIDE_B => 0 | SIDE_A => 1 | SIDE_EDGE => 2 end.

(** ** One feature *)

Section Lowering.
Context (layout : NestingLayout) (machine : MachineProfile).

(** What every operation of a feature shares. *)
Definition operation_with (p : Placement) (i : PartInstance) (f : ManufacturingFeature) (tool : ToolSpec)
    (suffix : string) (x_um y_um : Z) (width_um length_um : option Z) (envelope : option Rect)
    (stepover_ppm : option Z) (compensation holding_strategy : option string) : CAMOperation :=
  mkCAMOperation
    ("op:" +:+ np_instance_id p +:+ ":" +:+ mf_feature_id f +:+ suffix)
    (setup_id_of (ss_stock_id (nl_stock layout)) (np_sheet_index p) (mf_side f))
    (ps_part_id (pi_part i)) (np_instance_id p) (mf_feature_id f)
    (FEATURE_TO_OPERATION (mf_kind f)) (mf_side f) (tl_tool_id tool) x_um y_um (mf_depth_um f) (mf_diameter_um f)
    width_um length_um
    (r_x_um <$> envelope) (r_y_um <$> envelope) (r_width_um <$> envelope) (r_height_um <$> envelope)
    (Some (Z.min (mf_depth_um f) (Z.max 500 (effective_diameter_um tool / 2))))
    stepover_ppm (mf_through f) (np_rotated_90 p) compensation holding_strategy
    (mf_corner_strategy f) (mf_corner_relief_radius_um f) (mf_open_end_reliefs f)
    (mf_tolerance_um f) (mf_fit_clearance_um f).

Definition stock_height_um : Z := ss_height_um (nl_stock layout).

(** The drilled points of a round feature, numbered from one. *)
Definition drill_operation (p : Placement) (i : PartInstance) (f : ManufacturingFeature) (tool : ToolSpec)
    (indexed : Z * Point2D) : CAMOperation :=
  let '(point_index, source) := indexed in
  let '(x_um, y_um) :=
    transform_point_to_machine (p2_x_um source) (p2_y_um source) p stock_height_um (mf_side f) in
  let suffix := if 1 <? Z.of_nat (length (points f)) then ":" +:+ zero_padded_Z 3 point_index else "" in
  operation_with p i f tool suffix x_um y_um None None None None None None.

(** [str(value) if value else None] *)
Definition non_blank (o : option string) : option string :=
  match o with Some "" => None | _ => o end.

Definition area_operation (p : Placement) (i : PartInstance) (f : ManufacturingFeature) (tool : ToolSpec)
    : CAMOperation :=
  let transformed := transform_rect_to_machine (bounds f) p stock_height_um (mf_side f) in
  let cutter_envelope := transform_rect_to_machine (machining_bounds f) p stock_height_um (mf_side f) in
  let kind := FEATURE_TO_OPERATION (mf_kind f) in
  operation_with p i f tool "" (r_x_um transformed) (r_y_um transformed)
    (Some (r_width_um transformed)) (Some (r_height_um transformed)) (Some cutter_envelope)
    (if bool_decide (kind = OP_POCKET \/ kind = OP_GROOVE) then Some 400000 else None)
    (non_blank (md_compensation (mf_metadata f))) (non_blank (md_holding_strategy (mf_metadata f))).

(** An operation with the sheet and side it is set up on, and whether it frees
    the part from the sheet. *)
Record lowered := mkLowered { lo_sheet : Z; lo_operation : CAMOperation; lo_release : bool }.

Definition lower_feature (p : Placement) (i : PartInstance) (f : ManufacturingFeature) : result (list lowered) :=
  raise_if (bool_decide (mf_side f = SIDE_EDGE))
    (ProductionBlockedError ("edge feature " +:+ mf_feature_id f +:+
       " cannot be emitted for the reference 3-axis setup"));;
  tool ← of_option (select_tool f machine)
           (ProductionBlockedError ("feature " +:+ mf_feature_id f +:+ " has no compatible verified tool"));
  Ok (if is_round (mf_kind f) then
        map (fun ip => mkLowered (np_sheet_index p) (drill_operation p i f tool ip) false)
          (zip (seqZ 1 (Z.of_nat (length (points f)))) (points f))
      else
        [mkLowered (np_sheet_index p) (area_operation p i f tool)
           (bool_decide (mf_kind f = OUTER_CONTOUR) && mf_through f)]).

Definition lower_placement (by_id : gmap string PartInstance) (p : Placement) : result (list lowered) :=
  instance ← of_option (by_id !! np_instance_id p) (KeyError (np_instance_id p));
  lists ← traverse (lower_feature p instance)
            (sort_by (cmp_on mf_feature_id String.compare) (ps_features (pi_part instance)));
  Ok (concat lists).

(** ** Setup plans *)

Definition blocked_plan (code : string) : py_error :=
  ProductionBlockedError ("CAM generation blocked by setup plan: " +:+ code).

Definition require_two_sided_registration (plan : option TwoSidedRegistration) : result TwoSidedRegistration :=
  plan ← of_option plan (blocked_plan "TWO_SIDED_REGISTRATION_MISSING");
  let footprints := registration_pin_keep_out_rectangles plan in
  let stock := nl_stock layout in
  let sheet_bounds := mkRect 0 0 (ss_width_um stock) (ss_height_um stock) in
  raise_if (existsb (fun footprint => negb (contains sheet_bounds footprint)) footprints ||
            existsb (fun footprint => bool_decide (footprint ∉ ss_clamp_zones stock)) footprints)
    (blocked_plan "TWO_SIDED_REGISTRATION_INVALID");;
  Ok plan.

Definition coordinates_text (r : TwoSidedRegistration) : string :=
  str_join "|" (map (fun p => str_of_Z (p2_x_um p) +:+ "," +:+ str_of_Z (p2_y_um p)) (tr_points r)).

Definition probe_method_text (r : TwoSidedRegistration) : string :=
  "DECLARED_COORDINATE_REGISTRATION;" +:+
  "DECLARATION_AUTHORITY=" +:+ tr_declaration_authority r +:+ ";" +:+
  "METHOD=" +:+ tr_method_id r +:+ ";" +:+
  "METHOD_VERSION=" +:+ tr_fixture_method_version r +:+ ";" +:+
  "PIN_DIAMETER_UM=" +:+ str_of_Z (tr_pin_diameter_um r) +:+ ";" +:+
  "POSITION_TOLERANCE_UM=" +:+ str_of_Z (tr_position_tolerance_um r) +:+ ";" +:+
  "STOCK_XY_UM=" +:+ coordinates_text r +:+ ";" +:+
  "EXTERNAL_SETUP_VERIFICATION_REQUIRED".

Definition registration_instruction (registration : option TwoSidedRegistration) : string :=
  match registration with
  | None => "Bind an external coordinate registration before setup."
  | Some r =>
      "Use the unverified client-declared registration only as validation input: " +:+
      tr_method_id r +:+ "@" +:+ tr_fixture_method_version r +:+
      ", pin diameter " +:+ str_of_Z (tr_pin_diameter_um r) +:+ " um, position tolerance " +:+
      str_of_Z (tr_position_tolerance_um r) +:+ " um. Verify the physical fixture, pins and " +:+
      "coordinates independently during external work preparation."
  end.

Definition probe_method_of (registration : option TwoSidedRegistration) : string :=
  match registration with
  | None => "EXTERNAL_COORDINATE_REGISTRATION_REQUIRED"
  | Some r => probe_method_text r
  end.

Definition operator_steps_of (side : Side) (registration : option TwoSidedRegistration) : list string :=
  if bool_decide (side = SIDE_B) then
    ["Stop the machine and verify that the spindle is off.";
     "Flip the complete sheet about the X axis as defined by the validation transform.";
     registration_instruction registration;
     "Bind an external fixture plan, safe Z and keep-out verification before use."]
  else
    ["Place Side A up using the declared stock-coordinate convention.";
     registration_instruction registration;
     "Bind an external fixture plan and verify every keep-out zone.";
     "Measure stock thickness and verify safe Z before validation."].

Definition make_setup (sheet_index : Z) (side : Side) (tool_ids : list string)
    (registration : option TwoSidedRegistration) : result Setup :=
  let stock := nl_stock layout in
  let wcs_index := if bool_decide (side = SIDE_B) then 1%nat else 0%nat in
  wcs ← of_option (mp_wcs_codes machine !! Nat.min wcs_index (length (mp_wcs_codes machine) - 1))
          (IndexError "tuple index out of range");
  Ok (mkSetup (setup_id_of (ss_stock_id stock) sheet_index side) (ss_stock_id stock) (ss_material_id stock)
        (ss_material_version stock) sheet_index side wcs (mkPoint2D 0 0) (ss_width_um stock) (ss_height_um stock)
        (ss_thickness_um stock) (mp_safe_z_um machine) "EXTERNAL_STOCK_TOP_MEASUREMENT_REQUIRED"
        (if bool_decide (side = SIDE_B)
         then "FLIP_STOCK_ABOUT_X_AXIS; MACHINE_Y=STOCK_HEIGHT-DESIGN_Y"
         else "A_SIDE_UP; STOCK_ORIGIN_AT_LOWER_LEFT")
        "EXTERNAL_FIXTURE_PLAN_REQUIRED; DECLARED_KEEP_OUT_ZONES_ONLY"
        (ss_clamp_zones stock ++ mp_keep_out_zones machine) tool_ids (probe_method_of registration)
        (operator_steps_of side registration)).

(** ** Ordering *)

(** [sorted(set(l))] *)
Definition sorted_ids (l : list string) : list string := sort_strings (remove_dups l).

Definition setup_key : Type := Z * Side.

Definition setup_key_cmp : setup_key -> setup_key -> comparison :=
  cmp_then (cmp_on fst Z.compare) (cmp_on (fun k => side_sequence (snd k)) Z.compare).

Definition key_of (l : lowered) : setup_key := (lo_sheet l, op_side (lo_operation l)).

(** [setup_operations[key]], in the order they were lowered. *)
Definition operations_of_key (all : list lowered) (key : setup_key) : list CAMOperation :=
  map lo_operation (filter (fun l => key_of l = key) all).

Definition setup_keys (all : list lowered) : list setup_key := sort_by setup_key_cmp (remove_dups (map key_of all)).

Definition release_ids (all : list lowered) : list string :=
  map (fun l => op_operation_id (lo_operation l)) (filter (fun l => lo_release l = true) all).

Definition is_release (releases : list string) (o : CAMOperation) : bool :=
  bool_decide (op_operation_id o ∈ releases).

(** The order of the operations of a sheet. *)
Definition operation_cmp (releases : list string) : CAMOperation -> CAMOperation -> comparison :=
  cmp_then (cmp_on (is_release releases) cmp_bool)
    (cmp_then (cmp_on (fun o => side_sequence (op_side o)) Z.compare)
      (cmp_then (cmp_on (fun o => bool_decide (op_kind o = OP_CONTOUR)) cmp_bool)
        (cmp_then (cmp_on op_tool_id String.compare)
          (cmp_then (cmp_on (fun o => operation_kind_value (op_kind o)) String.compare)
            (cmp_on op_operation_id String.compare))))).

Definition require_compatible_global_order (releases : list string) (operations : list CAMOperation) : result unit :=
  raise_if (existsb (fun o => bool_decide (op_side o = SIDE_B) && is_release releases o) operations &&
            existsb (fun o => bool_decide (op_side o = SIDE_A) && negb (is_release releases o)) operations)
    (blocked_plan "SETUP_SEQUENCE_CONFLICT").

Definition sheet_operations (all : list lowered) (sheet_index : Z) : list CAMOperation :=
  concat (map (operations_of_key all) (filter (fun key => fst key = sheet_index) (setup_keys all))).

Definition ordered_sheet (all : list lowered) (sheet_index : Z) : result (list CAMOperation) :=
  require_compatible_global_order (release_ids all) (sheet_operations all sheet_index);;
  Ok (sort_by (operation_cmp (release_ids all)) (sheet_operations all sheet_index)).

Definition sheet_indices (all : list lowered) : list Z := sort_by Z.compare (remove_dups (map fst (setup_keys all))).

(** ** The document *)

(** The sides of the features placed on a sheet. *)
Definition sides_of_placement (by_id : gmap string PartInstance) (p : Placement) : result (list Side) :=
  instance ← of_option (by_id !! np_instance_id p)
               (ProductionBlockedError ("placement references unknown instance " +:+ np_instance_id p));
  Ok (filter (fun s => s <> SIDE_EDGE) (map mf_side (ps_features (pi_part instance)))).

Definition sides_on_sheet (sides : list (Z * list Side)) (sheet_index : Z) : list Side :=
  concat (map snd (filter (fun ks => fst ks = sheet_index) sides)).

(** The registrations of the sheets that are machined on both sides. *)
Definition registrations_of (sides : list (Z * list Side)) (declared : gmap Z TwoSidedRegistration)
    : result (gmap Z TwoSidedRegistration) :=
  foldM (fun registrations sheet_index =>
      let on_sheet := sides_on_sheet sides sheet_index in
      if bool_decide (SIDE_A ∈ on_sheet) && bool_decide (SIDE_B ∈ on_sheet) then
        plan ← require_two_sided_registration (declared !! sheet_index);
        Ok (<[sheet_index := plan]> registrations)
      else Ok registrations)
    ∅ (sort_by Z.compare (remove_dups (map fst sides))).

Definition setup_of_key (all : list lowered) (registrations : gmap Z TwoSidedRegistration) (key : setup_key)
    : result Setup :=
  make_setup (fst key) (snd key) (sorted_ids (map op_tool_id (operations_of_key all key)))
    (registrations !! fst key).

Definition lower_document (design_hash : string) (instances : list PartInstance)
    (two_sided_registration_by_sheet : gmap Z TwoSidedRegistration) : result OperationsDocument :=
  let by_id := dict_of pi_instance_id instances in
  sides ← traverse (fun p => s ← sides_of_placement by_id p; Ok (np_sheet_index p, s)) (nl_placements layout);
  registrations ← registrations_of sides two_sided_registration_by_sheet;
  lists ← traverse (lower_placement by_id) (sort_by layout_cmp (nl_placements layout));
  let all := concat lists in
  setups ← traverse (setup_of_key all registrations) (setup_keys all);
  sheets ← traverse (ordered_sheet all) (sheet_indices all);
  let operations := concat sheets in
  let selected_tools :=
    sort_by by_tool_id (filter (fun t => tl_tool_id t ∈ map op_tool_id operations) (mp_tools machine)) in
  new_OperationsDocument
    (mkOperationsDocument OPERATIONS_SCHEMA_VERSION design_hash (mp_profile_id machine) (mp_version machine)
       setups operations "VALIDATION" (mp_tool_library_version machine)
       (tool_catalog_fingerprint selected_tools) selected_tools).

(** [DFMValidator().validate(...)] and the error for its blocking issues. *)
Definition require_manufacturable (instances : list PartInstance) : result unit :=
  report ← dfm_validate machine (map inr instances) layout;
  raise_if (negb (bool_decide (blocking_issues report = [])))
    (ProductionBlockedError ("CAM generation blocked by DFM: " +:+
       str_join ", " (sort_strings (remove_dups (map is_code (blocking_issues report)))))).

Definition generate_operations_document (design_hash : string) (parts : list part_input) (validate : bool)
    (two_sided_registration_by_sheet : gmap Z TwoSidedRegistration) : result OperationsDocument :=
  instances ← coerce_part_instances parts;
  (if validate then require_manufacturable instances else Ok ());;
  lower_document design_hash instances two_sided_registration_by_sheet.
End Lowering.
