(* ===== verification/OperationsOrder.v ===== *)
(** * The order of the operations

    Lowering keeps every operation, each feature of a placed part has its
    operations, and the order of a document is a safe order to cut in: sheet by
    sheet, the flip side first, and the cuts that free parts last.  Which cuts
    free a part is told from the layout and the features ([frees_part]), not
    from the record the code keeps of them. *)

From S2P Require Import Prelude Text Identity ManufacturingModel Nesting Machining Grain Dfm Operations.

(** ** Grouping by key *)

Section Grouping.
Context {A K : Type} `{EqDecision K} (key : A -> K).

Lemma group_insert x (g : K -> list A) (ks : list K) :
  NoDup ks -> key x ∈ ks ->
  concat (map (fun k => if decide (key x = k) then x :: g k else g k) ks) ≡ₚ x :: concat (map g ks).
Proof.
  induction 1 as [|k ks Nk Nd IH]; intros Hx; [by apply not_elem_of_nil in Hx|]. cbn [map concat].
  destruct (decide (key x = k)) as [<-|N].
  - cbn [app]. constructor. apply Permutation_app_head.
    assert (map (fun k => if decide (key x = k) then x :: g k else g k) ks = map g ks) as ->; [|done].
    apply map_ext_in. intros k Hk%list_elem_of_In. rewrite decide_False; [done|]. intros E. apply Nk. by rewrite E.
  - apply elem_of_cons in Hx as [?|Hx]; [done|]. rewrite IH by done. by rewrite Permutation_middle.
Qed.

(** Grouping a list by keys that occur once each loses nothing. *)
Lemma partition_by_key (ks : list K) (l : list A) :
  NoDup ks -> (forall x, x ∈ l -> key x ∈ ks) ->
  concat (map (fun k => filter (fun x => key x = k) l) ks) ≡ₚ l.
Proof.
  intros Nd. induction l as [|x l IH]; intros Hk.
  - clear. induction ks; [done|]. done.
  - transitivity (x :: concat (map (fun k => filter (fun y => key y = k) l) ks));
      [|constructor; apply IH; intros; apply Hk; by right].
    rewrite <- group_insert by (done || apply Hk; by left).
    erewrite map_ext; [done|]. intros k. cbn beta. by rewrite filter_cons.
Qed.
End Grouping.

Lemma concat_map_perm {A B} (f g : A -> list B) l :
  (forall x, x ∈ l -> f x ≡ₚ g x) -> concat (map f l) ≡ₚ concat (map g l).
Proof.
  induction l as [|x l IH]; intros H; [done|]. cbn [map concat].
  rewrite (H x) by (by left). by rewrite IH by (intros; apply H; by right).
Qed.

(** ** Sheets and setups *)

Section Lowered.
Context (all : list lowered).

Lemma setup_keys_NoDup : NoDup (setup_keys all).
Proof. unfold setup_keys. rewrite (sort_by_perm _ _). apply NoDup_remove_dups. Qed.

Lemma elem_of_setup_keys key : key ∈ setup_keys all <-> exists l, l ∈ all /\ key_of l = key.
Proof.
  unfold setup_keys. rewrite elem_of_sort_by, elem_of_remove_dups, list_elem_of_fmap. naive_solver.
Qed.

Lemma sheet_operations_perm s :
  sheet_operations all s ≡ₚ map lo_operation (filter (fun l => lo_sheet l = s) all).
Proof.
  unfold sheet_operations, operations_of_key.
  rewrite <- (partition_by_key key_of (filter (fun key => fst key = s) (setup_keys all)) (filter (fun l => lo_sheet l = s) all)).
  - rewrite concat_map, map_map. apply concat_map_perm. intros key [Hs _]%list_elem_of_filter.
    apply Permutation_map. assert (forall l, key_of l = key -> lo_sheet l = s) as H by (by intros l <-).
    clear -H. induction all as [|l rest IH]; [done|]. rewrite !filter_cons.
    destruct (decide (key_of l = key)) as [E|N].
    + rewrite decide_True by (by apply H). by rewrite filter_cons_True, IH.
    + destruct (decide (lo_sheet l = s)); [by rewrite filter_cons_False|done].
  - apply NoDup_filter, setup_keys_NoDup.
  - intros l [Hs Hl]%list_elem_of_filter. apply list_elem_of_filter. split; [done|]. apply elem_of_setup_keys. by exists l.
Qed.

Lemma sheet_indices_NoDup : NoDup (sheet_indices all).
Proof. unfold sheet_indices. rewrite (sort_by_perm _ _). apply NoDup_remove_dups. Qed.

Lemma elem_of_sheet_indices s : s ∈ sheet_indices all <-> exists l, l ∈ all /\ lo_sheet l = s.
Proof.
  unfold sheet_indices. rewrite elem_of_sort_by, elem_of_remove_dups, list_elem_of_fmap. split.
  - intros (key & -> & (l & Hl & <-)%elem_of_setup_keys). by exists l.
  - intros (l & Hl & <-). exists (key_of l). split; [done|]. apply elem_of_setup_keys. by exists l.
Qed.

(** All the sheets hold all the operations. *)
Lemma sheets_perm :
  concat (map (sheet_operations all) (sheet_indices all)) ≡ₚ map lo_operation all.
Proof.
  etransitivity; [|apply Permutation_map, (partition_by_key lo_sheet (sheet_indices all) all)].
  - rewrite concat_map, map_map. apply concat_map_perm. intros s _. apply sheet_operations_perm.
  - apply sheet_indices_NoDup.
  - intros l Hl. apply elem_of_sheet_indices. by exists l.
Qed.
End Lowered.

(** ** The order on a sheet *)

(** [first] may be cut before [second]: a cut that frees a part comes after all
    the others, and the B side before the A side. *)
Definition may_precede (frees : CAMOperation -> Prop) (first second : CAMOperation) : Prop :=
  (frees first -> frees second) /\ side_sequence (op_side first) <= side_sequence (op_side second).

Lemma may_precede_sorted (frees frees' : CAMOperation -> Prop) ops :
  (forall o, frees o <-> frees' o) -> StronglySorted (may_precede frees) ops -> StronglySorted (may_precede frees') ops.
Proof.
  intros E. induction 1 as [|o rest S IH F]; constructor; [done|]. eapply Forall_impl; [exact F|].
  intros o' [R Side]. split; [|exact Side]. rewrite <- !E. exact R.
Qed.

Lemma operation_cmp_release releases o1 o2 :
  cmp_le (operation_cmp releases) o1 o2 = true ->
  (is_release releases o1 = true -> is_release releases o2 = true) /\
  (is_release releases o1 = is_release releases o2 -> side_sequence (op_side o1) <= side_sequence (op_side o2)).
Proof.
  rewrite cmp_le_spec. unfold operation_cmp, cmp_then, cmp_on, cmp_bool.
  destruct (is_release releases o1), (is_release releases o2); cbn; intros H; (split; [done|]); try done; intros _;
    destruct (Z.compare_spec (side_sequence (op_side o1)) (side_sequence (op_side o2))); lia || done.
Qed.

Lemma ordered_sheet_spec all s ops :
  ordered_sheet all s = Ok ops -> (forall l, l ∈ all -> op_side (lo_operation l) <> SIDE_EDGE) ->
  ops ≡ₚ map lo_operation (filter (fun l => lo_sheet l = s) all) /\
  StronglySorted (may_precede (fun o => is_release (release_ids all) o = true)) ops.
Proof.
  intros H Flat. unfold ordered_sheet in H. apply bind_Ok in H as (u & H & Hr). injection Hr as <-.
  apply raise_if_Ok, andb_false_iff in H.
  set (releases := release_ids all) in *. set (unsorted := sheet_operations all s) in *.
  split; [rewrite (sort_by_perm _ _); apply sheet_operations_perm|].
  assert (forall o, o ∈ unsorted -> op_side o = SIDE_A \/ op_side o = SIDE_B) as Side.
  { intros o Ho. unfold unsorted in Ho. rewrite sheet_operations_perm in Ho.
    apply list_elem_of_fmap in Ho as (l & -> & [_ Hl]%list_elem_of_filter). specialize (Flat l Hl).
    destruct (op_side (lo_operation l)); auto. done. }
  pose proof (sort_by_sorted (operation_cmp releases) unsorted) as S.
  assert (Forall (fun o => o ∈ unsorted) (sort_by (operation_cmp releases) unsorted)) as In
    by (apply Forall_forall; intros o; apply elem_of_sort_by).
  induction S as [|o1 rest S IH F]; [constructor|].
  apply Forall_cons in In as [H1 In]. constructor; [by apply IH|].
  rewrite Forall_forall in F, In |- *. intros o2 H2. specialize (F o2 H2).
  destruct (operation_cmp_release _ _ _ F) as [R Eq]. split; [exact R|].
  specialize (In o2 H2). destruct (Side o1 H1) as [E1|E1], (Side o2 In) as [E2|E2]; rewrite E1, E2; cbn; try lia.
  exfalso. rewrite E1, E2 in Eq. cbn in Eq.
  destruct (is_release releases o1) eqn:R1; [specialize (R eq_refl); rewrite R in Eq; specialize (Eq eq_refl); lia|].
  destruct (is_release releases o2) eqn:R2; [|specialize (Eq eq_refl); lia].
  destruct H as [H|H]; apply not_true_iff_false in H; apply H, existsb_exists.
  - exists o2. split; [by apply list_elem_of_In|]. by rewrite R2, bool_decide_true.
  - exists o1. split; [by apply list_elem_of_In|]. by rewrite R1, bool_decide_true.
Qed.

(** ** What lowering produces *)

Section Document.
Context (layout : NestingLayout) (machine : MachineProfile).

(** An operation of a feature of a placed part. *)
Record operation_of (p : Placement) (i : PartInstance) (f : ManufacturingFeature) (l : lowered) : Prop := {
  oo_sheet : lo_sheet l = np_sheet_index p;
  oo_instance : op_instance_id (lo_operation l) = np_instance_id p;
  oo_part : op_part_id (lo_operation l) = ps_part_id (pi_part i);
  oo_feature : op_feature_id (lo_operation l) = mf_feature_id f;
  oo_kind : op_kind (lo_operation l) = FEATURE_TO_OPERATION (mf_kind f);
  oo_side : op_side (lo_operation l) = mf_side f;
  oo_depth : op_depth_um (lo_operation l) = mf_depth_um f;
  oo_flat : mf_side f <> SIDE_EDGE;
  oo_tool : exists tool, select_tool f machine = Some tool /\ op_tool_id (lo_operation l) = tl_tool_id tool;
  oo_setup : op_setup_id (lo_operation l) =
    setup_id_of (ss_stock_id (nl_stock layout)) (np_sheet_index p) (mf_side f) }.

Lemma lower_feature_spec p i f ls :
  lower_feature layout machine p i f = Ok ls ->
  (forall l, l ∈ ls -> operation_of p i f l) /\
  (new_ManufacturingFeature f = Ok f -> exists l, l ∈ ls).
Proof.
  intros H. unfold lower_feature in H. apply bind_Ok in H as (u & Hs & H). apply raise_if_Ok, bool_decide_eq_false in Hs.
  apply bind_Ok in H as (tool & Ht & H). apply of_option_Ok in Ht.
  assert (ls = if is_round (mf_kind f) then
      map (fun ip => mkLowered (np_sheet_index p) (drill_operation layout p i f tool ip) false)
        (zip (seqZ 1 (Z.of_nat (length (points f)))) (points f))
    else [mkLowered (np_sheet_index p) (area_operation layout p i f tool)
            (bool_decide (mf_kind f = OUTER_CONTOUR) && mf_through f)]) as -> by (by injection H).
  clear H. destruct (is_round (mf_kind f)).
  - split.
    + intros l ([n q] & -> & _)%list_elem_of_fmap. unfold drill_operation.
      destruct (transform_point_to_machine _ _ _ _ _). split; try done. by exists tool.
    + intros V. unfold new_ManufacturingFeature in V. inv_ok. bprop.
      assert (exists q qs, points f = q :: qs) as (q & qs & E).
      { unfold points. destruct (Z.eqb_spec (mf_pattern_count f) 1); [eauto|].
        rewrite seqZ_cons by lia. cbn. eauto. }
      rewrite E. rewrite seqZ_cons by (cbn; lia). cbn. eexists. by left.
  - split.
    + intros l ->%list_elem_of_singleton. split; try done. by exists tool.
    + intros _. eexists. by left.
Qed.

Lemma lower_placement_features by_id p ls :
  lower_placement layout machine by_id p = Ok ls ->
  exists i lists, by_id !! np_instance_id p = Some i /\ ls = concat lists /\
    Forall2 (fun f m => lower_feature layout machine p i f = Ok m)
      (sort_by (cmp_on mf_feature_id String.compare) (ps_features (pi_part i))) lists.
Proof.
  intros H. unfold lower_placement in H. apply bind_Ok in H as (i & Hi & H). apply of_option_Ok in Hi.
  apply bind_Ok in H as (lists & Hl & H). injection H as <-. apply traverse_Ok in Hl. by exists i, lists.
Qed.

Lemma lower_placement_spec by_id p ls :
  lower_placement layout machine by_id p = Ok ls ->
  exists i, by_id !! np_instance_id p = Some i /\
    (forall l, l ∈ ls -> exists f, f ∈ ps_features (pi_part i) /\ operation_of p i f l) /\
    (forall f, f ∈ ps_features (pi_part i) -> new_ManufacturingFeature f = Ok f ->
       exists l, l ∈ ls /\ operation_of p i f l).
Proof.
  intros H. unfold lower_placement in H. apply bind_Ok in H as (i & Hi & H). apply of_option_Ok in Hi.
  apply bind_Ok in H as (lists & Hl & H). injection H as <-. exists i. split; [done|].
  apply traverse_Ok in Hl. split.
  - intros l Hin. apply list_elem_of_In, in_concat in Hin as (m & Hm & Hin).
    apply list_elem_of_In, list_elem_of_lookup in Hm as [k Hk].
    destruct (Forall2_lookup_r _ _ _ _ _ Hl Hk) as (f & Hf & E). exists f.
    apply list_elem_of_lookup_2 in Hf. rewrite elem_of_sort_by in Hf. split; [done|].
    apply (proj1 (lower_feature_spec p i f m E)). by apply list_elem_of_In.
  - intros f Hf V. assert (f ∈ sort_by (cmp_on mf_feature_id String.compare) (ps_features (pi_part i))) as Hs
      by (by rewrite elem_of_sort_by).
    apply list_elem_of_lookup in Hs as [k Hk]. destruct (Forall2_lookup_l _ _ _ _ _ Hl Hk) as (m & Hm & E).
    destruct (lower_feature_spec p i f m E) as [S Ex]. destruct (Ex V) as [l Hlm]. exists l. split; [|by apply S].
    apply list_elem_of_In, in_concat. exists m. split; [|by apply list_elem_of_In].
    apply list_elem_of_In. by eapply list_elem_of_lookup_2.
Qed.

(** The cut-outs a feature is recorded with are its own, when it is a through
    outer contour, and none otherwise. *)
Lemma lower_feature_releases p i f ls :
  lower_feature layout machine p i f = Ok ls ->
  (forall l, l ∈ ls -> lo_release l = true -> mf_kind f = OUTER_CONTOUR /\ mf_through f = true /\
     op_operation_id (lo_operation l) = "op:" +:+ np_instance_id p +:+ ":" +:+ mf_feature_id f) /\
  (mf_kind f = OUTER_CONTOUR -> mf_through f = true -> exists l, l ∈ ls /\ lo_release l = true /\
     op_operation_id (lo_operation l) = "op:" +:+ np_instance_id p +:+ ":" +:+ mf_feature_id f).
Proof.
  intros H. unfold lower_feature in H. apply bind_Ok in H as (u & _ & H). apply bind_Ok in H as (tool & _ & H).
  injection H as <-.
  assert (forall a : string, a +:+ "" = a) as Right.
  { induction a as [|c a IH]; [done|]. change (String c (a +:+ "") = String c a). by rewrite IH. }
  split.
  - intros l Hl Hr. destruct (is_round (mf_kind f)).
    + apply list_elem_of_fmap in Hl as (? & -> & _). done.
    + apply list_elem_of_singleton in Hl as ->. cbn [lo_release] in Hr. bprop. cbn [lo_operation].
      unfold area_operation, operation_with. cbn [op_operation_id]. by rewrite Right.
  - intros K T. rewrite K, T. cbn [is_round]. eexists. split; [by apply list_elem_of_singleton|]. split; [done|].
    unfold area_operation, operation_with. cbn [lo_operation op_operation_id]. by rewrite Right.
Qed.

(** The operation frees a part: it is the operation of a through outer contour
    of a placed part.  Operations are told apart by their identifiers, as the
    code does. *)
Definition frees_part (instances : list PartInstance) (o : CAMOperation) : Prop :=
  exists p i f, p ∈ nl_placements layout /\ dict_of pi_instance_id instances !! np_instance_id p = Some i /\
    f ∈ ps_features (pi_part i) /\ mf_kind f = OUTER_CONTOUR /\ mf_through f = true /\
    op_operation_id o = "op:" +:+ np_instance_id p +:+ ":" +:+ mf_feature_id f.

(** The steps of a successful lowering. *)
Record lowering (design_hash : string) (instances : list PartInstance) (regs : gmap Z TwoSidedRegistration)
    (d : OperationsDocument) (all : list lowered) (sheets : list (list CAMOperation)) : Prop := {
  lw_all : exists lists, all = concat lists /\
    traverse (lower_placement layout machine (dict_of pi_instance_id instances))
      (sort_by layout_cmp (nl_placements layout)) = Ok lists;
  lw_sheets : Forall2 (fun s ops => ordered_sheet all s = Ok ops) (sheet_indices all) sheets;
  lw_setups : exists registrations,
    Forall2 (fun key s => setup_of_key layout machine all registrations key = Ok s) (setup_keys all) (od_setups d);
  lw_operations : od_operations d = concat sheets;
  lw_tools : od_tools d = sort_by by_tool_id
    (filter (fun t => tl_tool_id t ∈ map op_tool_id (concat sheets)) (mp_tools machine)) }.

Lemma new_document_id d d' : new_OperationsDocument d = Ok d' -> d' = d.
Proof. unfold new_OperationsDocument. intros H. inv_ok. done. Qed.

Lemma lower_document_steps design_hash instances regs d :
  lower_document layout machine design_hash instances regs = Ok d ->
  exists all sheets, lowering design_hash instances regs d all sheets.
Proof.
  intros H. unfold lower_document in H. cbv zeta in H.
  apply bind_Ok in H as (sides & _ & H). apply bind_Ok in H as (registrations & _ & H).
  apply bind_Ok in H as (lists & Hl & H). apply bind_Ok in H as (setups & Hs & H).
  apply bind_Ok in H as (sheets & Hsh & H). apply new_document_id in H as ->.
  exists (concat lists), sheets. split; try done.
  - by exists lists.
  - by apply traverse_Ok.
  - exists registrations. by apply traverse_Ok.
Qed.

Lemma lowering_placements design_hash instances regs d all sheets :
  lowering design_hash instances regs d all sheets ->
  (forall l, l ∈ all -> exists p i f, p ∈ nl_placements layout /\
     dict_of pi_instance_id instances !! np_instance_id p = Some i /\ f ∈ ps_features (pi_part i) /\
     operation_of p i f l) /\
  (forall p, p ∈ nl_placements layout -> exists i,
     dict_of pi_instance_id instances !! np_instance_id p = Some i /\
     forall f, f ∈ ps_features (pi_part i) -> new_ManufacturingFeature f = Ok f ->
       exists l, l ∈ all /\ operation_of p i f l).
Proof.
  intros [(lists & -> & Hl%traverse_Ok) _ _ _ _]. split.
  - intros l (m & Hm & Hin)%list_elem_of_In%in_concat. apply list_elem_of_In, list_elem_of_lookup in Hm as [k Hk].
    destruct (Forall2_lookup_r _ _ _ _ _ Hl Hk) as (p & Hp & E). apply list_elem_of_lookup_2 in Hp.
    rewrite elem_of_sort_by in Hp. destruct (lower_placement_spec _ _ _ E) as (i & Hi & S & _).
    destruct (S l ltac:(by apply list_elem_of_In)) as (f & Hf & O). by exists p, i, f.
  - intros p Hp. rewrite <- (elem_of_sort_by layout_cmp) in Hp. apply list_elem_of_lookup in Hp as [k Hk].
    destruct (Forall2_lookup_l _ _ _ _ _ Hl Hk) as (m & Hm & E). destruct (lower_placement_spec _ _ _ E) as (i & Hi & _ & S).
    exists i. split; [done|]. intros f Hf V. destruct (S f Hf V) as (l & Hlm & O). exists l. split; [|done].
    apply list_elem_of_In, in_concat. exists m. split; apply list_elem_of_In; [by eapply list_elem_of_lookup_2|done].
Qed.

(** The release record holds the operations that free parts. *)
Lemma lowering_releases design_hash instances regs d all sheets :
  lowering design_hash instances regs d all sheets ->
  forall o, is_release (release_ids all) o = true <-> frees_part instances o.
Proof.
  intros [(lists & -> & Hl%traverse_Ok) _ _ _ _] o. unfold is_release, release_ids. rewrite bool_decide_eq_true.
  rewrite list_elem_of_fmap. setoid_rewrite list_elem_of_filter. split.
  - intros (l & Eq & R & (m & Hm & Hin)%list_elem_of_In%in_concat).
    apply list_elem_of_In in Hm, Hin. destruct (Forall2_elem_r _ _ _ _ Hl Hm) as (p & Hp & E).
    rewrite elem_of_sort_by in Hp. apply lower_placement_features in E as (i & lists' & Hi & -> & F).
    apply list_elem_of_In, in_concat in Hin as (m' & Hm' & Hin). apply list_elem_of_In in Hm', Hin.
    destruct (Forall2_elem_r _ _ _ _ F Hm') as (f & Hf & E). rewrite elem_of_sort_by in Hf.
    destruct (proj1 (lower_feature_releases _ _ _ _ E) l Hin R) as (K & T & Id). rewrite Id in Eq. by exists p, i, f.
  - intros (p & i & f & Hp & Hi & Hf & K & T & Id). rewrite <- (elem_of_sort_by layout_cmp) in Hp.
    destruct (Forall2_elem_l _ _ _ _ Hl Hp) as (m & Hm & E).
    apply lower_placement_features in E as (i' & lists' & Hi' & -> & F).
    rewrite Hi in Hi'. injection Hi' as <-. rewrite <- (elem_of_sort_by (cmp_on mf_feature_id String.compare)) in Hf.
    destruct (Forall2_elem_l _ _ _ _ F Hf) as (m' & Hm' & E).
    destruct (proj2 (lower_feature_releases _ _ _ _ E) K T) as (l & Hin & R & Id'). exists l.
    split; [congruence|]. split; [done|].
    apply list_elem_of_In, in_concat. exists (concat lists'). split; apply list_elem_of_In; [done|].
    apply list_elem_of_In, in_concat. exists m'. split; by apply list_elem_of_In.
Qed.

Lemma lowering_flat design_hash instances regs d all sheets :
  lowering design_hash instances regs d all sheets -> forall l, l ∈ all -> op_side (lo_operation l) <> SIDE_EDGE.
Proof.
  intros L l Hl. destruct (proj1 (lowering_placements _ _ _ _ _ _ L) l Hl) as (p & i & f & _ & _ & _ & O).
  rewrite (oo_side _ _ _ _ O). exact (oo_flat _ _ _ _ O).
Qed.

Lemma lowering_perm design_hash instances regs d all sheets :
  lowering design_hash instances regs d all sheets -> od_operations d ≡ₚ map lo_operation all.
Proof.
  intros L. rewrite (lw_operations _ _ _ _ _ _ L), <- sheets_perm. pose proof (lw_sheets _ _ _ _ _ _ L) as F.
  pose proof (lowering_flat _ _ _ _ _ _ L) as Flat. clear L. revert F. generalize (sheet_indices all) as ss.
  induction 1 as [|s ops ss sheets H F IH]; [done|]. cbn [map concat].
  destruct (ordered_sheet_spec _ _ _ H Flat) as [P _]. by rewrite P, <- sheet_operations_perm, IH.
Qed.
End Document.

(** C22: documents are cut in a safe order.  The operations of a document are
    all the lowered operations and no others, sheet after sheet; and on each
    sheet no operation comes after one it must precede: every operation that
    frees a part, which is the operation of a through outer contour of a placed
    part, comes after every operation that does not, and every operation of the
    flip side comes before every operation of the other side, so the sheet is
    turned once and no part is loose while other work remains. *)
Theorem operations_in_cutting_order (layout : NestingLayout) (machine : MachineProfile) (design_hash : string)
    (instances : list PartInstance) (regs : gmap Z TwoSidedRegistration) (d : OperationsDocument) :
  lower_document layout machine design_hash instances regs = Ok d ->
  exists all sheets, lowering layout machine design_hash instances regs d all sheets /\
    od_operations d = concat sheets /\ od_operations d ≡ₚ map lo_operation all /\
    Forall2 (fun s ops => ops ≡ₚ map lo_operation (filter (fun l => lo_sheet l = s) all) /\
                          StronglySorted (may_precede (frees_part layout instances)) ops) (sheet_indices all) sheets.
Proof.
  intros (all & sheets & L)%lower_document_steps. exists all, sheets. split; [exact L|].
  split; [exact (lw_operations _ _ _ _ _ _ _ _ L)|]. split; [exact (lowering_perm _ _ _ _ _ _ _ _ L)|].
  eapply Forall2_impl; [exact (lw_sheets _ _ _ _ _ _ _ _ L)|]. intros s ops H. cbn in H.
  destruct (ordered_sheet_spec all s ops H (lowering_flat _ _ _ _ _ _ _ _ L)) as [P S]. split; [exact P|].
  exact (may_precede_sorted _ _ _ (lowering_releases _ _ _ _ _ _ _ _ L) S).
Qed.

(** C25: lowering loses no feature.  Every feature of every placed part has an
    operation in the document, of the right kind, side, depth and setup and with
    the tool chosen for it; the setup and the tool are in the document; and
    every operation comes from such a feature. *)
Theorem operations_cover_features (layout : NestingLayout) (machine : MachineProfile) (design_hash : string)
    (instances : list PartInstance) (regs : gmap Z TwoSidedRegistration) (d : OperationsDocument) :
  lower_document layout machine design_hash instances regs = Ok d ->
  (forall o, o ∈ od_operations d ->
     op_setup_id o ∈ map su_setup_id (od_setups d) /\ op_tool_id o ∈ map tl_tool_id (od_tools d)) /\
  (forall o, o ∈ od_operations d -> exists p i f l, p ∈ nl_placements layout /\
     dict_of pi_instance_id instances !! np_instance_id p = Some i /\ f ∈ ps_features (pi_part i) /\
     lo_operation l = o /\ operation_of layout machine p i f l) /\
  (forall p, p ∈ nl_placements layout -> exists i,
     dict_of pi_instance_id instances !! np_instance_id p = Some i /\
     forall f, f ∈ ps_features (pi_part i) -> new_ManufacturingFeature f = Ok f ->
       exists l, lo_operation l ∈ od_operations d /\ operation_of layout machine p i f l).
Proof.
  intros (all & sheets & L)%lower_document_steps. pose proof (lowering_perm _ _ _ _ _ _ _ _ L) as P.
  destruct (lowering_placements _ _ _ _ _ _ _ _ L) as [From To].
  assert (forall o, o ∈ od_operations d -> exists l, l ∈ all /\ lo_operation l = o) as Of.
  { intros o Ho. rewrite P in Ho. apply list_elem_of_fmap in Ho as (l & -> & Hl). by exists l. }
  split; [|split].
  - intros o Ho. pose proof Ho as Ho'. destruct (Of o Ho) as (l & Hl & <-). destruct (From l Hl) as (p & i & f & Hp & Hi & Hf & O).
    split.
    + destruct (lw_setups _ _ _ _ _ _ _ _ L) as [registrations F].
      assert (key_of l ∈ setup_keys all) as Hk by (apply elem_of_setup_keys; by exists l).
      apply list_elem_of_lookup in Hk as [k Hk]. destruct (Forall2_lookup_l _ _ _ _ _ F Hk) as (s & Hs & E).
      apply list_elem_of_fmap. exists s. split; [|by eapply list_elem_of_lookup_2].
      unfold setup_of_key, make_setup in E. inv_ok. cbn [su_setup_id]. rewrite (oo_setup _ _ _ _ _ _ O).
      unfold key_of. cbn [fst snd]. by rewrite (oo_sheet _ _ _ _ _ _ O), (oo_side _ _ _ _ _ _ O).
    + rewrite (lw_tools _ _ _ _ _ _ _ _ L). destruct (oo_tool _ _ _ _ _ _ O) as (tool & Ht & Et).
      apply list_elem_of_fmap. exists tool. split; [done|]. rewrite elem_of_sort_by. apply list_elem_of_filter. split.
      * rewrite <- Et, <- (lw_operations _ _ _ _ _ _ _ _ L). by apply list_elem_of_fmap_2.
      * unfold select_tool in Ht. apply head_Some_elem_of in Ht. rewrite elem_of_sort_by in Ht.
        by apply list_elem_of_filter in Ht as [_ ?].
  - intros o Ho. destruct (Of o Ho) as (l & Hl & <-). destruct (From l Hl) as (p & i & f & Hp & Hi & Hf & O).
    by exists p, i, f, l.
  - intros p Hp. destruct (To p Hp) as (i & Hi & H). exists i. split; [done|]. intros f Hf V.
    destruct (H f Hf V) as (l & Hl & O). exists l. split; [|done]. rewrite P. by apply list_elem_of_fmap_2.
Qed.
