(* ===== verification/CamValidation.v ===== *)
(** * Validation of operations documents

    [cam/src/custombuild_cam/validation.py] and [model.py]: the fail-closed
    check of an operations document against the trusted machine profile it
    names, the safe-height backplot of an accepted document and the removal
    envelopes of its operations.  Errors are collected as the code collects
    them, in a list of messages that is sorted without duplicates at the end. *)

From S2P Require Import Prelude Text ManufacturingModel Machining.

Definition OPERATIONS_SCHEMA_VERSION : string := "custombuild.operations.v2".
Definition DEFAULT_THROUGH_OVERTRAVEL_UM : Z := 500.
Definition EXTERNAL_REFERENCE_SURFACE : string := "EXTERNAL_STOCK_TOP_MEASUREMENT_REQUIRED".
Definition EXTERNAL_FIXTURE : string := "EXTERNAL_FIXTURE_PLAN_REQUIRED; DECLARED_KEEP_OUT_ZONES_ONLY".
Definition EXTERNAL_PROBE : string := "EXTERNAL_COORDINATE_REGISTRATION_REQUIRED".
Definition SIDE_A_ORIENTATION : string := "A_SIDE_UP; STOCK_ORIGIN_AT_LOWER_LEFT".
Definition SIDE_B_ORIENTATION : string := "FLIP_STOCK_ABOUT_X_AXIS; MACHINE_Y=STOCK_HEIGHT-DESIGN_Y".
Definition RELEASE_HOLDING_STRATEGY : string := "TABS_OR_ONION_SKIN_REQUIRES_SETUP_APPROVAL".
Definition ALLOWED_OPEN_END_RELIEFS : list string := ["u_min"; "u_max"; "v_min"; "v_max"].

(** [errors.append(message)] under a condition. *)
Definition error_if (b : bool) (message : string) : list string := if b then [message] else [].
Definition about (message id : string) : string := message +:+ ": " +:+ id.

(** [[0-9a-f]{64}] *)
Definition design_hash_ok (s : string) : bool :=
  bool_decide (String.length s = 64%nat) &&
  forallb (fun c => is_digit c || ascii_in "a" "f" c) (chars s).

(** [[A-Za-z0-9][A-Za-z0-9._:-]{0,n}] *)
Definition identity_up_to (n : nat) (l : list ascii) : bool :=
  match l with
  | [] => false
  | c :: rest => is_alnum c && forallb is_key_char rest && bool_decide (length rest <= n)%nat
  end.

Definition is_canonical_id (s : string) : bool := identity_up_to 255 (chars s).

(** ** Tools and machine *)

Definition validate_tool_snapshot (t : ToolSpec) : list string :=
  let id := tl_tool_id t in
  error_if (negb (is_canonical_id id)) "selected tool has a blank or non-canonical ID" ++
  error_if (blank_or_padded (tl_name t)) (about "selected tool has a blank name" id) ++
  error_if (negb (is_canonical_id (tl_version t)))
    (about "selected tool has a blank or non-canonical version" id) ++
  error_if (minZ 0 [tl_diameter_um t; tl_cutting_length_um t; tl_spindle_rpm t; tl_feed_um_min t;
                    tl_plunge_um_min t] <=? 0)
    (about "selected tool has invalid dimensions or cutting parameters" id) ++
  error_if (bool_decide (tl_supported_operations t = []) || negb (distinct (tl_supported_operations t)))
    (about "selected tool operations are empty or duplicated" id) ++
  error_if (match tl_measured_diameter_um t with Some d => d <=? 0 | None => false end)
    (about "selected tool has an invalid measured diameter" id) ++
  if tl_runout_um t <? 0 then [about "selected tool has invalid runout" id]
  else error_if (effective_diameter_um t <=? 2 * tl_runout_um t)
         (about "selected tool runout reaches the cutter radius" id).

Definition validate_machine_tool (machine : MachineProfile) (t : ToolSpec) : list string :=
  match dict_of tl_tool_id (mp_tools machine) !! tl_tool_id t with
  | None => [about "selected tool is absent from machine profile" (tl_tool_id t)]
  | Some machine_tool =>
      error_if (negb (bool_decide (machine_tool = t)))
        (about "selected tool differs from machine profile" (tl_tool_id t))
  end ++
  error_if (mp_max_spindle_rpm machine <? tl_spindle_rpm t)
    (about "selected tool exceeds machine spindle limit" (tl_tool_id t)).

Definition validate_machine_binding (d : OperationsDocument) (machine : MachineProfile) : list string :=
  error_if (negb (bool_decide (od_machine_profile_id d = mp_profile_id machine)))
    "operations document machine profile ID mismatch" ++
  error_if (negb (bool_decide (od_machine_profile_version d = mp_version machine)))
    "operations document machine profile version mismatch" ++
  error_if (negb (bool_decide (od_tool_catalog_version d = mp_tool_library_version machine)))
    "selected-tool snapshot catalogue version differs from machine profile" ++
  error_if (negb (distinct (map tl_tool_id (mp_tools machine))))
    "machine profile contains duplicate tool IDs" ++
  concat (map (validate_machine_tool machine) (od_tools d)).

(** ** Setups *)

(** [int(text)] of decimal digits: longer texts than 4300 digits are refused. *)
Definition int_of_digits (l : list ascii) : option Z :=
  if negb (bool_decide (l = [])) && forallb is_digit l then
    if bool_decide (length l <= 4300)%nat then Some (Z.of_N (dec_value l)) else None
  else None.

Definition digits_text (l : list ascii) : bool := negb (bool_decide (l = [])) && forallb is_digit l.

(** [[0-9]+,[0-9]+] *)
Definition point_text (l : list ascii) : option (list ascii * list ascii) :=
  match split_char "," l with
  | [x; y] => if digits_text x && digits_text y then Some (x, y) else None
  | _ => None
  end.

(** The groups of [_DECLARED_PROBE_PATTERN]: no group contains a semicolon. *)
Definition match_declared_probe (s : string)
    : option (list ascii * list ascii * list ascii * list ascii * list (list ascii * list ascii)) :=
  match split_char ";" (chars s) with
  | [f0; f1; f2; f3; f4; f5; f6; f7] =>
      method ← after_prefix (chars "METHOD=") f2;
      version ← after_prefix (chars "METHOD_VERSION=") f3;
      pin ← after_prefix (chars "PIN_DIAMETER_UM=") f4;
      tolerance ← after_prefix (chars "POSITION_TOLERANCE_UM=") f5;
      coordinates ← after_prefix (chars "STOCK_XY_UM=") f6;
      points ← mapM point_text (split_char "|" coordinates);
      if bool_decide (f0 = chars "DECLARED_COORDINATE_REGISTRATION") &&
         bool_decide (f1 = chars "DECLARATION_AUTHORITY=CLIENT_DECLARED") &&
         bool_decide (f7 = chars "EXTERNAL_SETUP_VERIFICATION_REQUIRED") &&
         identity_up_to 63 method && identity_up_to 63 version && digits_text pin && digits_text tolerance &&
         bool_decide (2 <= length points)%nat
      then Some (method, version, pin, tolerance, points) else None
  | _ => None
  end.

(** The registration the groups describe; a number that [int] refuses and a
    registration that the constructor refuses both raise [ValueError]. *)
Definition registration_of_probe
    (groups : list ascii * list ascii * list ascii * list ascii * list (list ascii * list ascii))
    : result TwoSidedRegistration :=
  let '(method, version, pin, tolerance, points) := groups in
  let number l := of_option (int_of_digits l) (ValueError "Exceeds the limit for integer string conversion") in
  points ← traverse (fun xy => x ← number (fst xy); y ← number (snd xy); Ok (mkPoint2D x y)) points;
  pin ← number pin;
  tolerance ← number tolerance;
  new_TwoSidedRegistration
    (mkRegistration CLIENT_DECLARED_AUTHORITY (of_chars method) (of_chars version) pin tolerance points).

Definition stock_bounds (s : Setup) : Rect := mkRect 0 0 (su_stock_width_um s) (su_stock_height_um s).

Definition validate_probe_method (s : Setup) : list string :=
  if bool_decide (su_probe_method s = EXTERNAL_PROBE) then [] else
  match match_declared_probe (su_probe_method s) with
  | None => [about "setup probe method is unsupported or blank" (su_setup_id s)]
  | Some groups =>
      match registration_of_probe groups with
      | Err _ => [about "setup probe registration contract is invalid" (su_setup_id s)]
      | Ok registration =>
          let footprints := registration_pin_keep_out_rectangles registration in
          if negb (bool_decide (tr_declaration_authority registration = CLIENT_DECLARED_AUTHORITY))
          then [about "setup probe registration authority is invalid" (su_setup_id s)]
          else if existsb (fun footprint => negb (contains (stock_bounds s) footprint)) footprints
          then [about "setup probe coordinates are outside stock" (su_setup_id s)]
          else if existsb (fun footprint => bool_decide (footprint ∉ su_keep_out_zones s)) footprints
          then [about "setup probe registration keep-out is missing" (su_setup_id s)]
          else []
      end
  end.

Definition operator_step_bad (step : string) : bool :=
  blank_or_padded step || bool_decide (500 < char_count step)%nat ||
  existsb (fun c => (N_of_ascii c <? 32)%N) (chars step).

Definition expected_setup_id (s : Setup) : string :=
  "setup:" +:+ su_stock_id s +:+ ":" +:+ zero_padded_Z 3 (su_sheet_index s + 1) +:+ ":" +:+ side_value (su_side s).

Definition validate_setup_machine (s : Setup) (machine : MachineProfile) : list string :=
  let id := su_setup_id s in
  error_if (mp_work_width_um machine <? su_stock_width_um s) (about "setup stock exceeds machine X travel" id) ++
  error_if (mp_work_height_um machine <? su_stock_height_um s) (about "setup stock exceeds machine Y travel" id) ++
  error_if (mp_work_z_um machine <? su_stock_thickness_um s + su_safe_z_um s)
    (about "setup stock and safe Z exceed machine Z travel" id) ++
  error_if (negb (su_safe_z_um s =? mp_safe_z_um machine))
    (about "setup safe Z does not match machine profile" id) ++
  error_if (bool_decide (su_wcs s ∉ mp_wcs_codes machine)) (about "setup WCS is absent from machine profile" id) ++
  error_if (bool_decide (su_side s ∉ mp_supported_sides machine) &&
            negb (bool_decide (su_side s = SIDE_B) && mp_can_flip_stock machine))
    (about "setup side is unsupported by machine profile" id) ++
  error_if (existsb (fun zone => bool_decide (zone ∉ su_keep_out_zones s)) (mp_keep_out_zones machine))
    (about "setup omits a machine keep-out zone" id).

Definition validate_setup (machine : option MachineProfile) (s : Setup) : list string :=
  let id := su_setup_id s in
  error_if (negb (is_canonical_id id) || negb (is_canonical_id (su_stock_id s)))
    "setup and stock identity are required" ++
  error_if (negb (is_canonical_id (su_material_id s)) || negb (is_canonical_id (su_material_version s)))
    (about "setup material identity is required" id) ++
  error_if (su_sheet_index s <? 0) (about "negative setup sheet index" id) ++
  error_if (negb (bool_decide (id = expected_setup_id s)))
    (about "setup identity is not traceable to stock, sheet and side" id) ++
  error_if (Z.min (Z.min (su_stock_width_um s) (su_stock_height_um s)) (su_stock_thickness_um s) <=? 0)
    (about "non-positive setup stock dimensions" id) ++
  error_if (su_safe_z_um s <=? 0) (about "non-positive setup safe Z" id) ++
  error_if (negb (p2_x_um (su_origin s) =? 0) || negb (p2_y_um (su_origin s) =? 0))
    (about "setup origin must match the stock-frame origin" id) ++
  error_if (negb (wcs_code_ok (su_wcs s))) (about "unsupported setup WCS" id) ++
  error_if (bool_decide (su_side s = SIDE_EDGE))
    (about "edge setup is unsupported by the 3-axis CAM boundary" id) ++
  error_if (negb (distinct (su_tool_ids s))) (about "duplicate tool ID in setup" id) ++
  error_if (existsb (fun tool_id => negb (is_canonical_id tool_id)) (su_tool_ids s))
    (about "setup contains a non-canonical tool ID" id) ++
  error_if (negb (bool_decide (su_reference_surface s = EXTERNAL_REFERENCE_SURFACE)))
    (about "setup has an unsupported reference surface" id) ++
  error_if (negb (bool_decide (su_fixture s = EXTERNAL_FIXTURE)))
    (about "setup has an unsupported or blank fixture declaration" id) ++
  error_if (negb (bool_decide (su_orientation s =
                    if bool_decide (su_side s = SIDE_B) then SIDE_B_ORIENTATION else SIDE_A_ORIENTATION)))
    (about "setup orientation does not match its side" id) ++
  validate_probe_method s ++
  error_if (bool_decide (su_operator_steps s = []) || existsb operator_step_bad (su_operator_steps s))
    (about "setup operator steps are blank or unsafe" id) ++
  concat (map (fun zone => error_if ((r_width_um zone <=? 0) || (r_height_um zone <=? 0))
                             (about "invalid keep-out zone in setup" id)) (su_keep_out_zones s)) ++
  match machine with None => [] | Some machine => validate_setup_machine s machine end.

(** Setups of one sheet agree on the stock and differ in side. *)
Definition sheet_key : Type := string * Z.
Definition stock_binding : Type := string * string * Z * Z * Z * string * list Rect.

Definition binding_of (s : Setup) : stock_binding :=
  (su_material_id s, su_material_version s, su_stock_width_um s, su_stock_height_um s, su_stock_thickness_um s,
   su_probe_method s, su_keep_out_zones s).

Record bindings_state := mkBindings {
  bs_binding : gmap sheet_key stock_binding;
  bs_sides : gmap sheet_key (list Side);
  bs_errors : list string }.

Definition check_stock_binding (st : bindings_state) (s : Setup) : bindings_state :=
  let key := (su_stock_id s, su_sheet_index s) in
  let previous := match bs_binding st !! key with Some b => b | None => binding_of s end in
  let sides := match bs_sides st !! key with Some l => l | None => [] end in
  mkBindings (<[key := previous]> (bs_binding st)) (<[key := su_side s :: sides]> (bs_sides st))
    (bs_errors st ++
     error_if (negb (bool_decide (previous = binding_of s)))
       (about "setups disagree on stock/material binding"
          (su_stock_id s +:+ ":" +:+ str_of_Z (su_sheet_index s))) ++
     error_if (bool_decide (su_side s ∈ sides)) (about "duplicate side setup for stock sheet" (su_setup_id s))).

Definition validate_setup_stock_bindings (setups : list Setup) : list string :=
  bs_errors (foldl check_stock_binding (mkBindings ∅ ∅ []) setups).

(** ** The versioned dogbone envelope *)

Definition edge_mapping (rotated_90 : bool) (source_edge : string) : option string :=
  if bool_decide (source_edge = "u_min") then Some (if rotated_90 then "y_min" else "x_min")
  else if bool_decide (source_edge = "u_max") then Some (if rotated_90 then "y_max" else "x_max")
  else if bool_decide (source_edge = "v_min") then Some (if rotated_90 then "x_max" else "y_min")
  else if bool_decide (source_edge = "v_max") then Some (if rotated_90 then "x_min" else "y_max")
  else None.

Definition flip_edge (side : Side) (machine_edge : string) : string :=
  if bool_decide (side = SIDE_B) then
    if bool_decide (machine_edge = "y_min") then "y_max"
    else if bool_decide (machine_edge = "y_max") then "y_min" else machine_edge
  else machine_edge.

(** [((left, right), (bottom, top))] *)
Definition box : Type := (Z * Z) * (Z * Z).

Definition open_machine_edge (nominal : Rect) (radius_um : Z) (b : box) (machine_edge : string) : box :=
  let '((x0, x1), (y0, y1)) := b in
  if bool_decide (machine_edge = "x_min") then ((r_x_um nominal - radius_um, x1), (y0, y1))
  else if bool_decide (machine_edge = "x_max") then ((x0, right_um nominal + radius_um), (y0, y1))
  else if bool_decide (machine_edge = "y_min") then ((x0, x1), (r_y_um nominal - radius_um, y1))
  else if bool_decide (machine_edge = "y_max") then ((x0, x1), (y0, top_um nominal + radius_um))
  else b.

Definition source_corner_machine_boundaries (corner : string * string) (rotated_90 : bool) (side : Side)
    : string * string :=
  let '(u_boundary, v_boundary) := corner in
  let '(x_boundary, y_boundary) :=
    if rotated_90
    then (if bool_decide (v_boundary = "v_min") then "x_max" else "x_min",
          if bool_decide (u_boundary = "u_min") then "y_min" else "y_max")
    else (if bool_decide (u_boundary = "u_min") then "x_min" else "x_max",
          if bool_decide (v_boundary = "v_min") then "y_min" else "y_max") in
  (x_boundary,
   if bool_decide (side = SIDE_B)
   then (if bool_decide (y_boundary = "y_min") then "y_max" else "y_min") else y_boundary).

Definition corner_suppressed (strategy : string) (declared : list string) (corner : string * string) : bool :=
  if bool_decide (strategy = "dogbone-v1")
  then bool_decide (fst corner ∈ declared) && bool_decide (snd corner ∈ declared)
  else bool_decide (fst corner ∈ declared) || bool_decide (snd corner ∈ declared).

Definition grow_corner (o : CAMOperation) (nominal : Rect) (radius_um : Z) (strategy : string) (b : box)
    (corner : string * string) : box :=
  if corner_suppressed strategy (op_open_end_reliefs o) corner then b else
  let '((x0, x1), (y0, y1)) := b in
  let '(x_boundary, y_boundary) :=
    source_corner_machine_boundaries corner (op_source_rotation_90 o) (op_side o) in
  let x_um := if bool_decide (x_boundary = "x_min") then r_x_um nominal else right_um nominal in
  let y_um := if bool_decide (y_boundary = "y_min") then r_y_um nominal else top_um nominal in
  ((Z.min x0 (x_um - radius_um), Z.max x1 (x_um + radius_um)),
   (Z.min y0 (y_um - radius_um), Z.max y1 (y_um + radius_um))).

(** The loop over the declared edges visits a set; each edge moves its own side
    of the box, so the order of the visits does not matter. *)
Definition expected_versioned_dogbone_envelope (o : CAMOperation) (nominal : Rect) : Rect :=
  match op_corner_strategy o, op_corner_relief_radius_um o with
  | Some strategy, Some radius_um =>
      if dogbone_strategy (Some strategy) then
        let machine_edges :=
          omap (fun e => flip_edge (op_side o) <$> edge_mapping (op_source_rotation_90 o) e)
            (remove_dups (op_open_end_reliefs o)) in
        let opened := foldl (open_machine_edge nominal radius_um)
                        ((r_x_um nominal, right_um nominal), (r_y_um nominal, top_um nominal)) machine_edges in
        let '((x0, x1), (y0, y1)) :=
          foldl (grow_corner o nominal radius_um strategy) opened
            [("u_min", "v_min"); ("u_max", "v_min"); ("u_min", "v_max"); ("u_max", "v_max")] in
        mkRect x0 y0 (x1 - x0) (y1 - y0)
      else nominal
  | _, _ => nominal
  end.

(** ** Operations *)

Definition is_drilling (k : OperationKind) : bool := bool_decide (k = OP_DRILL \/ k = OP_COUNTERSINK).

Definition positive (o : option Z) : bool := match o with Some v => 0 <? v | None => false end.

(** [op:instance:feature], possibly followed by a point number. *)
Definition operation_identity_ok (o : CAMOperation) : bool :=
  let expected := "op:" +:+ op_instance_id o +:+ ":" +:+ op_feature_id o in
  let suffix := match after_prefix (chars expected) (chars (op_operation_id o)) with
                | Some rest => rest | None => chars (op_operation_id o) end in
  bool_decide (op_operation_id o = expected) ||
  match suffix with
  | [c; d1; d2; d3] => bool_decide (c = ":"%char) && forallb is_digit [d1; d2; d3]
  | _ => false
  end.

Definition identity_errors (o : CAMOperation) : list string :=
  concat (map (fun lv => error_if (negb (is_canonical_id (snd lv)))
                           ("operation has a blank or non-canonical " +:+ fst lv))
    [("operation_id", op_operation_id o); ("setup_id", op_setup_id o); ("part_id", op_part_id o);
     ("instance_id", op_instance_id o); ("feature_id", op_feature_id o); ("tool_id", op_tool_id o)]) ++
  error_if (negb (operation_identity_ok o))
    (about "operation identity is not traceable to instance and feature" (op_operation_id o)).

Definition depth_errors (o : CAMOperation) (s : Setup) : list string :=
  let id := op_operation_id o in
  if op_depth_um o <=? 0 then [about "non-positive operation depth" id]
  else if op_through o then
    error_if (op_depth_um o <? su_stock_thickness_um s)
      (about "through operation does not reach stock depth" id) ++
    error_if (su_stock_thickness_um s + DEFAULT_THROUGH_OVERTRAVEL_UM <? op_depth_um o)
      (about "through operation exceeds spoilboard allowance" id)
  else error_if (su_stock_thickness_um s <=? op_depth_um o)
         (about "non-through operation reaches stock depth" id).

Definition contour_errors (o : CAMOperation) : list string :=
  let id := op_operation_id o in
  error_if (match op_compensation o with
            | Some c => bool_decide (c ∉ ["CENTER"; "INSIDE"; "OUTSIDE"]) | None => false end)
    (about "operation compensation is unsupported" id) ++
  error_if (negb (bool_decide (op_kind o = OP_CONTOUR)) && is_some (op_compensation o))
    (about "non-contour operation declares compensation" id) ++
  if op_through o && bool_decide (op_kind o = OP_CONTOUR) then
    error_if (negb (bool_decide (op_compensation o ∈ [Some "INSIDE"; Some "OUTSIDE"])))
      (about "through contour requires explicit inside/outside compensation" id) ++
    error_if (negb (bool_decide (op_holding_strategy o = Some RELEASE_HOLDING_STRATEGY)))
      (about "through contour requires an explicit release holding strategy" id)
  else error_if (is_some (op_holding_strategy o)) (about "operation holding strategy is unsupported" id).

Definition corner_errors (o : CAMOperation) : list string :=
  let id := op_operation_id o in
  let dogbone := dogbone_strategy (op_corner_strategy o) in
  let has_radius := is_some (op_corner_relief_radius_um o) in
  let open_ends := op_open_end_reliefs o in
  error_if (is_some (op_corner_strategy o) && negb dogbone)
    (about "operation corner strategy is unsupported" id) ++
  error_if (negb (positive_or_none (op_corner_relief_radius_um o)))
    (about "operation corner relief radius is invalid" id) ++
  error_if (dogbone && negb has_radius) (about "operation corner strategy requires a relief radius" id) ++
  error_if (has_radius && negb dogbone)
    (about "operation corner relief radius requires a supported strategy" id) ++
  error_if (negb (distinct open_ends) || negb (py_subset open_ends ALLOWED_OPEN_END_RELIEFS) ||
            negb (bool_decide (open_ends = [])) && negb dogbone)
    (about "operation open-end relief declaration is invalid" id).

Definition tool_errors (o : CAMOperation) (tool : option ToolSpec) : list string :=
  let id := op_operation_id o in
  match tool with
  | None => []
  | Some tool =>
      error_if (bool_decide (op_kind o ∉ tl_supported_operations tool))
        (about "operation is unsupported by selected tool" id) ++
      error_if (tl_cutting_length_um tool <? op_depth_um o)
        (about "operation exceeds selected-tool cutting length" id) ++
      error_if (match op_stepdown_um o with Some d => effective_diameter_um tool <? d | None => false end)
        (about "operation stepdown exceeds cutter diameter" id) ++
      error_if (dogbone_strategy (op_corner_strategy o) &&
                match op_corner_relief_radius_um o with
                | Some r => 2 * r <? effective_diameter_um tool | None => false end)
        (about "operation corner relief is smaller than selected tool" id)
  end.

Definition machine_errors (o : CAMOperation) (s : Setup) (machine : option MachineProfile)
    (machine_tool : option ToolSpec) : list string :=
  let id := op_operation_id o in
  match machine with
  | None => []
  | Some machine =>
      error_if (bool_decide (op_kind o ∉ mp_supported_operations machine))
        (about "operation is unsupported by machine profile" id) ++
      error_if (negb (is_some machine_tool)) (about "operation tool is absent from machine profile" id) ++
      error_if (mp_work_z_um machine <? su_safe_z_um s + op_depth_um o)
        (about "operation exceeds machine Z travel" id)
  end.

(** [x or 0] *)
Definition or_zero (o : option Z) : Z := int_or o 0.

(** The drilled circle's box and its errors. *)
Definition drill_diameter (o : CAMOperation) (tool : option ToolSpec) : Z :=
  Z.max (or_zero (op_diameter_um o)) (match tool with Some t => effective_diameter_um t | None => 0 end).

Definition drill_envelope (o : CAMOperation) (tool : option ToolSpec) : Rect :=
  let diameter := drill_diameter o tool in
  mkRect (op_x_um o - diameter / 2) (op_y_um o - diameter / 2) diameter diameter.

Definition drill_errors (o : CAMOperation) (s : Setup) (tool : option ToolSpec) (machine : option MachineProfile)
    : list string :=
  let id := op_operation_id o in
  (match op_diameter_um o with
   | None => [about "drilling operation missing diameter" id]
   | Some diameter =>
       if diameter <=? 0 then [about "drilling operation missing diameter" id]
       else match tool with
            | None => []
            | Some tool =>
                error_if (match machine with Some m => mp_accuracy_um m | None => 0 end
                            <? Z.abs (effective_diameter_um tool - diameter))
                  (about "drilling diameter differs from selected tool" id)
            end
   end) ++
  error_if ((drill_diameter o tool <=? 0) || negb (contains (stock_bounds s) (drill_envelope o tool)))
    (about "drilling envelope outside stock" id).

(** The cutter envelope of an area operation, when all four values are there. *)
Definition cutter_envelope (o : CAMOperation) : option Rect :=
  match op_cutter_envelope_x_um o, op_cutter_envelope_y_um o, op_cutter_envelope_width_um o,
        op_cutter_envelope_length_um o with
  | Some x, Some y, Some w, Some l => Some (mkRect x y w l)
  | _, _, _, _ => None
  end.

Definition nominal_envelope (o : CAMOperation) : option Rect :=
  match op_width_um o, op_length_um o with
  | Some w, Some l => Some (mkRect (op_x_um o) (op_y_um o) w l)
  | _, _ => None
  end.

Definition envelope_errors (o : CAMOperation) (s : Setup) (tool : option ToolSpec) (envelope : Rect)
    : list string :=
  let id := op_operation_id o in
  error_if ((r_width_um envelope <=? 0) || (r_height_um envelope <=? 0) ||
            negb (contains (stock_bounds s) envelope))
    (about "operation cutter envelope outside stock" id) ++
  error_if (match tool with
            | Some tool => Z.min (r_width_um envelope) (r_height_um envelope) <? effective_diameter_um tool
            | None => false end)
    (about "operation cutter envelope is smaller than its tool" id) ++
  match nominal_envelope o with
  | None => []
  | Some nominal =>
      error_if (negb (contains envelope nominal)) (about "cutter envelope does not contain operation" id) ++
      error_if (dogbone_strategy (op_corner_strategy o) && is_some (op_corner_relief_radius_um o) &&
                negb (bool_decide (envelope = expected_versioned_dogbone_envelope o nominal)))
        (about "operation cutter envelope does not match versioned corner semantics" id)
  end.

Definition area_errors (o : CAMOperation) (s : Setup) (tool : option ToolSpec) : list string :=
  let id := op_operation_id o in
  error_if (negb (positive (op_width_um o)) || negb (positive (op_length_um o)))
    (about "area operation missing extent" id) ++
  match cutter_envelope o with
  | None => [about "area operation missing cutter envelope" id]
  | Some envelope => envelope_errors o s tool envelope
  end.

Definition operation_envelope (o : CAMOperation) (tool : option ToolSpec) : option Rect :=
  if is_drilling (op_kind o)
  then if 0 <? drill_diameter o tool then Some (drill_envelope o tool) else None
  else cutter_envelope o.

Definition validate_operation (o : CAMOperation) (s : Setup) (tool : option ToolSpec)
    (machine : option MachineProfile) (machine_tool : option ToolSpec) : list string :=
  let id := op_operation_id o in
  identity_errors o ++
  error_if (negb (bool_decide (op_side o = su_side s))) (about "operation/setup side mismatch" id) ++
  error_if (bool_decide (op_tool_id o ∉ su_tool_ids s)) (about "operation tool absent from setup" id) ++
  depth_errors o s ++
  error_if ((op_x_um o <? 0) || (op_y_um o <? 0)) (about "negative XY coordinate" id) ++
  (match op_stepdown_um o with
   | None => [about "operation requires a positive stepdown" id]
   | Some d =>
       if d <=? 0 then [about "operation requires a positive stepdown" id]
       else error_if (op_depth_um o <? d) (about "operation stepdown exceeds depth" id)
   end) ++
  error_if (match op_stepover_ppm o with Some p => negb ((0 <? p) && (p <=? 1000000)) | None => false end)
    (about "operation stepover is outside (0, 1]" id) ++
  error_if ((op_tolerance_um o <? 0) || (op_fit_clearance_um o <? 0))
    (about "operation tolerance or clearance is negative" id) ++
  contour_errors o ++ corner_errors o ++ tool_errors o tool ++
  error_if (is_drilling (op_kind o) &&
            (is_some (op_corner_strategy o) || is_some (op_corner_relief_radius_um o) ||
             negb (bool_decide (op_open_end_reliefs o = []))))
    (about "drilling operation declares area-corner relief" id) ++
  machine_errors o s machine machine_tool ++
  (if is_drilling (op_kind o) then drill_errors o s tool machine else area_errors o s tool) ++
  error_if (match operation_envelope o tool with
            | Some envelope => existsb (fun zone => intersects envelope zone 0) (su_keep_out_zones s)
            | None => false end)
    (about "operation intersects setup keep-out zone" id).

(** ** The document *)

Definition tools_by_id (d : OperationsDocument) : gmap string ToolSpec := dict_of tl_tool_id (od_tools d).
Definition setups_by_id (d : OperationsDocument) : gmap string Setup := dict_of su_setup_id (od_setups d).

(** [operations_by_setup[setup_id]]: the tools of the operations of a known
    setup. *)
Definition tools_of_setup (d : OperationsDocument) (setup_id : string) : list string :=
  map op_tool_id (filter (fun o => op_setup_id o = setup_id) (od_operations d)).

Definition header_errors (d : OperationsDocument) (trusted machine : option MachineProfile) : list string :=
  error_if (negb (bool_decide (od_schema_version d = OPERATIONS_SCHEMA_VERSION)))
    "unsupported operations schema_version" ++
  error_if (negb (bool_decide (od_mode d = "VALIDATION")))
    "only VALIDATION operations documents are accepted" ++
  error_if (negb (design_hash_ok (od_design_hash d)))
    "design_hash must be a lowercase SHA-256 hex digest" ++
  error_if (bool_decide (od_machine_profile_id d = "") || bool_decide (od_machine_profile_version d = ""))
    "versioned machine profile identity is required" ++
  error_if (negb (is_some trusted)) "operations document references an unresolved machine profile" ++
  (match machine with
   | None => []
   | Some m =>
       if bool_decide (Some m = trusted) then []
       else "caller-supplied machine profile differs from the trusted canonical profile" ::
            error_if (negb (bool_decide (od_machine_profile_id d = mp_profile_id m)))
              "operations document machine profile ID mismatch"
   end) ++
  error_if (bool_decide (length (od_setups d) = 0%nat)) "operations document requires at least one setup" ++
  error_if (bool_decide (length (od_operations d) = 0%nat)) "operations document requires at least one operation".

Definition snapshot_errors (d : OperationsDocument) : list string :=
  error_if (negb (distinct (map tl_tool_id (od_tools d)))) "duplicate tool_id in selected-tool snapshot" ++
  concat (map validate_tool_snapshot (od_tools d)) ++
  error_if (negb (design_hash_ok (od_tool_catalog_fingerprint d)) ||
            negb (bool_decide (od_tool_catalog_fingerprint d = tool_catalog_fingerprint (od_tools d))))
    "selected-tool snapshot fingerprint mismatch" ++
  error_if (bool_decide (od_tool_catalog_version d = "") || bool_decide (od_tool_catalog_version d = "unversioned"))
    "selected-tool snapshot has no catalogue version".

(** One operation of the loop; the identifiers of the earlier ones are given. *)
Definition document_operation_errors (d : OperationsDocument) (machine : option MachineProfile)
    (earlier : list string) (o : CAMOperation) : list string :=
  let id := op_operation_id o in
  error_if (bool_decide (id ∈ earlier)) (about "duplicate operation_id" id) ++
  match setups_by_id d !! op_setup_id o with
  | None => [about "operation references unknown setup" id]
  | Some s =>
      error_if (negb (is_some (tools_by_id d !! op_tool_id o)))
        (about "operation references tool absent from snapshot" id) ++
      validate_operation o s (tools_by_id d !! op_tool_id o) machine
        (match machine with
         | Some m => dict_of tl_tool_id (mp_tools m) !! op_tool_id o | None => None end)
  end.

Fixpoint operations_errors (d : OperationsDocument) (machine : option MachineProfile) (earlier : list string)
    (l : list CAMOperation) : list string :=
  match l with
  | [] => []
  | o :: l' =>
      document_operation_errors d machine earlier o ++
      operations_errors d machine (op_operation_id o :: earlier) l'
  end.

Definition setup_tool_errors (d : OperationsDocument) (s : Setup) : list string :=
  error_if (existsb (fun tool_id => negb (is_some (tools_by_id d !! tool_id))) (su_tool_ids s))
    (about "setup references tool absent from snapshot" (su_setup_id s)) ++
  error_if (negb (py_set_eq (su_tool_ids s) (tools_of_setup d (su_setup_id s))))
    (about "setup tool list does not exactly match its operations" (su_setup_id s)).

(** The tools of the operations whose setup is known. *)
Definition operation_tool_ids (d : OperationsDocument) : list string :=
  map op_tool_id (filter (fun o => is_Some (setups_by_id d !! op_setup_id o)) (od_operations d)).

Definition all_errors (d : OperationsDocument) (machine : option MachineProfile) : list string :=
  let trusted := resolve_reference_machine (od_machine_profile_id d) in
  header_errors d trusted machine ++
  snapshot_errors d ++
  error_if (negb (distinct (map su_setup_id (od_setups d)))) "duplicate setup_id" ++
  concat (map (validate_setup trusted) (od_setups d)) ++
  validate_setup_stock_bindings (od_setups d) ++
  (match trusted with Some m => validate_machine_binding d m | None => [] end) ++
  operations_errors d trusted [] (od_operations d) ++
  concat (map (setup_tool_errors d) (od_setups d)) ++
  error_if (negb (py_set_eq (map tl_tool_id (od_tools d)) (operation_tool_ids d)))
    "selected-tool snapshot does not exactly match operation tools".

(** Whether the document is valid, and the sorted messages without duplicates. *)
Definition validate_operations_document (d : OperationsDocument) (machine : option MachineProfile)
    : bool * list string :=
  let errors := all_errors d machine in
  (bool_decide (errors = []), sort_strings (remove_dups errors)).

Definition require_valid_operations (d : OperationsDocument) (machine : option MachineProfile) : result unit :=
  let '(valid, errors) := validate_operations_document d machine in
  raise_if (negb valid) (CAMValidationError (str_join "; " errors)).

(** ** Backplot and removal envelopes *)

Inductive MoveKind := RETRACT | RAPID_XY.

Record ValidationMove := mkMove {
  mv_sequence : Z;
  mv_setup_id : string;
  mv_operation_id : string;
  mv_kind : MoveKind;
  mv_x_um : option Z;
  mv_y_um : option Z;
  mv_z_um : Z }.

Record ValidationBackplot := mkBackplot {
  bp_mode : string;
  bp_moves : list ValidationMove;
  bp_omitted_cutting_operation_ids : list string }.

Definition validation_xy_points (o : CAMOperation) : list (Z * Z) :=
  if is_drilling (op_kind o) then [(op_x_um o, op_y_um o)]
  else
    let width := or_zero (op_width_um o) in
    let length := or_zero (op_length_um o) in
    [(op_x_um o, op_y_um o); (op_x_um o + width, op_y_um o); (op_x_um o + width, op_y_um o + length);
     (op_x_um o, op_y_um o + length); (op_x_um o, op_y_um o)].

(** The moves of an operation, the first with the given sequence number. *)
Definition moves_of_operation (o : CAMOperation) (s : Setup) (sequence : Z) : list ValidationMove :=
  mkMove sequence (op_setup_id o) (op_operation_id o) RETRACT None None (su_safe_z_um s) ::
  map (fun nxy => mkMove (fst nxy) (op_setup_id o) (op_operation_id o) RAPID_XY
                    (Some (fst (snd nxy))) (Some (snd (snd nxy))) (su_safe_z_um s))
    (zip (seqZ (sequence + 1) (Z.of_nat (length (validation_xy_points o)))) (validation_xy_points o)).

Definition build_validation_backplot (d : OperationsDocument) (machine : option MachineProfile)
    : result ValidationBackplot :=
  require_valid_operations d machine;;
  moves ← foldM (fun moves o =>
      s ← of_option (setups_by_id d !! op_setup_id o) (KeyError (op_setup_id o));
      Ok (moves ++ moves_of_operation o s (Z.of_nat (length moves) + 1)))
    [] (od_operations d);
  Ok (mkBackplot "VALIDATION_DRY_RUN" moves (map op_operation_id (od_operations d))).

Record RemovalEnvelope := mkRemoval {
  re_operation_id : string;
  re_setup_id : string;
  re_x_min_um : Z;
  re_y_min_um : Z;
  re_x_max_um : Z;
  re_y_max_um : Z;
  re_z_min_um : Z;
  re_z_max_um : Z;
  re_theoretical_only : bool }.

Definition removal_envelope (o : CAMOperation) : RemovalEnvelope :=
  let '((x_min, y_min), (x_max, y_max)) :=
    if is_drilling (op_kind o) then
      let radius := or_zero (op_diameter_um o) / 2 in
      ((op_x_um o - radius, op_y_um o - radius), (op_x_um o + radius, op_y_um o + radius))
    else
      let x_min := md_or (op_cutter_envelope_x_um o) (op_x_um o) in
      let y_min := md_or (op_cutter_envelope_y_um o) (op_y_um o) in
      ((x_min, y_min),
       (x_min + int_or (op_cutter_envelope_width_um o) (or_zero (op_width_um o)),
        y_min + int_or (op_cutter_envelope_length_um o) (or_zero (op_length_um o)))) in
  mkRemoval (op_operation_id o) (op_setup_id o) x_min y_min x_max y_max (- op_depth_um o) 0 true.

Definition theoretical_removal_envelopes (d : OperationsDocument) (machine : option MachineProfile)
    : result (list RemovalEnvelope) :=
  require_valid_operations d machine;;
  Ok (map removal_envelope (od_operations d)).

(** ** What a valid document guarantees *)

Lemma error_if_nil b m : error_if b m = [] <-> b = false.
Proof. by destruct b. Qed.

Lemma concat_map_nil {A B} (f : A -> list B) l : concat (map f l) = [] <-> Forall (fun x => f x = []) l.
Proof.
  induction l as [|x l IH]; cbn; [by split; [constructor|]|]. rewrite Forall_cons, <- IH.
  split; [apply app_eq_nil | by intros [-> ->]].
Qed.

(** Splits the statement that a concatenation of error lists is empty. *)
Ltac no_errors :=
  repeat match goal with
  | H : _ ++ _ = [] |- _ => apply app_eq_nil in H as [? H]
  | H : error_if _ _ = [] |- _ => apply error_if_nil in H
  | H : concat (map _ _) = [] |- _ => apply concat_map_nil in H
  | H : _ :: _ = [] |- _ => discriminate H
  end.

Lemma operations_errors_nil d machine earlier l o :
  operations_errors d machine earlier l = [] -> o ∈ l ->
  exists before, document_operation_errors d machine before o = [].
Proof.
  revert earlier; induction l as [|o' l IH]; intros earlier; [by intros _ ?%not_elem_of_nil|].
  cbn [operations_errors]. intros [H1 H2]%app_eq_nil [->|Ho]%elem_of_cons; [by exists earlier|].
  by apply (IH _ H2).
Qed.

(** The trusted machine of a valid document, which the caller may only repeat. *)
Lemma valid_machine d machine :
  all_errors d machine = [] ->
  exists m, resolve_reference_machine (od_machine_profile_id d) = Some m /\
    (machine = None \/ machine = Some m) /\ all_errors d (Some m) = [].
Proof.
  unfold all_errors. cbv zeta. intros [H1 H2]%app_eq_nil. rewrite H2.
  unfold header_errors in *. no_errors.
  destruct (resolve_reference_machine (od_machine_profile_id d)) as [m|]; [|discriminate].
  exists m. split; [done|]. split.
  - destruct machine as [m'|]; [|by left]. destruct (decide (m' = m)) as [->|N]; [by right|].
    match goal with H : (if bool_decide (Some _ = Some _) then _ else _) = [] |- _ =>
      rewrite bool_decide_false in H by congruence; discriminate H end.
  - rewrite app_nil_r, (bool_decide_true (Some m = Some m)) by done.
    repeat match goal with H : ?b = false |- context [error_if ?b _] => rewrite H end. reflexivity.
Qed.

Lemma valid_iff d machine : fst (validate_operations_document d machine) = true <-> all_errors d machine = [].
Proof. apply bool_decide_eq_true. Qed.

Lemma require_valid d machine : all_errors d machine = [] -> require_valid_operations d machine = Ok ().
Proof. intros H. unfold require_valid_operations, validate_operations_document. by rewrite H. Qed.

(** The operations of a valid document belong to a setup and pass its checks. *)
Lemma valid_operation d m o :
  all_errors d (Some m) = [] -> resolve_reference_machine (od_machine_profile_id d) = Some m ->
  o ∈ od_operations d ->
  exists s, setups_by_id d !! op_setup_id o = Some s /\
    validate_operation o s (tools_by_id d !! op_tool_id o) (Some m)
      (dict_of tl_tool_id (mp_tools m) !! op_tool_id o) = [].
Proof.
  unfold all_errors. intros H E Ho. cbv zeta in H. rewrite E in H.
  do 6 (apply app_eq_nil in H as [_ H]). apply app_eq_nil in H as [H _].
  destruct (operations_errors_nil _ _ _ _ _ H Ho) as [before H']. unfold document_operation_errors in H'.
  apply app_eq_nil in H' as [_ H']. destruct (setups_by_id d !! op_setup_id o) as [s|]; [|discriminate].
  exists s. split; [done|]. by apply app_eq_nil in H' as [_ H'].
Qed.

Lemma valid_setup d m s :
  all_errors d (Some m) = [] -> resolve_reference_machine (od_machine_profile_id d) = Some m ->
  s ∈ od_setups d -> validate_setup (Some m) s = [].
Proof.
  unfold all_errors. intros H E Hs. cbv zeta in H. rewrite E in H.
  do 3 (apply app_eq_nil in H as [_ H]). apply app_eq_nil in H as [H _].
  rewrite concat_map_nil, Forall_forall in H. by apply H.
Qed.

Lemma valid_setup_ids d m : all_errors d (Some m) = [] -> NoDup (map su_setup_id (od_setups d)).
Proof.
  unfold all_errors. cbv zeta. intros H. do 2 (apply app_eq_nil in H as [_ H]).
  apply app_eq_nil in H as [H _]. apply error_if_nil, negb_false_iff in H. by apply distinct_spec.
Qed.

(** The points the backplot visits lie inside the stock of the setup. *)
Lemma valid_points o s tool machine machine_tool :
  validate_operation o s tool machine machine_tool = [] ->
  Forall (fun xy => 0 <= fst xy <= su_stock_width_um s /\ 0 <= snd xy <= su_stock_height_um s)
    (validation_xy_points o).
Proof.
  unfold validate_operation. cbv zeta. intros H. no_errors. unfold validation_xy_points.
  destruct (is_drilling (op_kind o)).
  - match goal with H : drill_errors _ _ _ _ = [] |- _ => unfold drill_errors in H; apply app_eq_nil in H as [_ H];
      apply error_if_nil in H; apply orb_false_iff in H as [Hd Hc] end.
    apply negb_false_iff in Hc. unfold contains, drill_envelope, stock_bounds, right_um, top_um in Hc.
    cbn in Hc. bprop. apply Forall_singleton. cbn [fst snd].
    set (D := drill_diameter o tool) in *.
    assert (0 <= D / 2 <= D) by (split; [apply Z.div_pos; lia | apply Z.div_le_upper_bound; lia]). lia.
  - match goal with H : area_errors _ _ _ = [] |- _ => unfold area_errors in H; apply app_eq_nil in H as [Hp H];
      apply error_if_nil, orb_false_iff in Hp as [Hw Hl]; rename H into Ha end.
    destruct (cutter_envelope o) as [e|]; [|discriminate]. unfold envelope_errors, nominal_envelope in Ha.
    destruct (op_width_um o) as [w|]; [|discriminate]. destruct (op_length_um o) as [l|]; [|discriminate].
    cbn [positive negb] in Hw, Hl. no_errors. bprop.
    unfold contains, stock_bounds, right_um, top_um in *. cbn in *. bprop. unfold or_zero, int_or.
    repeat case_match; bprop; subst; repeat (apply Forall_cons_2; [cbn; lia|]); apply Forall_nil_2.
Qed.
