(* ===== verification/GCodeText.v ===== *)
(** * Lexing what the postprocessor prints

    The lexer of [GCode] on the texts the dry-run postprocessor writes: the
    millimetre numerals of [um_to_mm], comments, and lines of words.  Each lemma
    follows a token with an arbitrary rest, so the lemmas compose. *)

From S2P Require Import Prelude Text ManufacturingModel GCode.

Definition digits (l : list ascii) : Prop := Forall (fun c => is_digit c = true) l.

(** What may follow a numeral. *)
Definition stops (rest : list ascii) : Prop :=
  match rest with c :: _ => is_digit c = false /\ c <> "."%char | [] => True end.

Lemma span_digits_app ds rest :
  digits ds -> match rest with c :: _ => is_digit c = false | [] => True end ->
  span_digits (ds ++ rest) = (ds, rest).
Proof.
  induction 1 as [|c ds Hc _ IH]; intros Hr; cbn.
  - destruct rest as [|c rest]; cbn; [done|]. by rewrite Hr.
  - by rewrite Hc, IH.
Qed.

Lemma digit_not_sign c : is_digit c = true -> c <> "-"%char /\ c <> "+"%char /\ c <> "."%char.
Proof. intros H. by repeat split; intros ->. Qed.

(** A numeral as [um_to_mm] writes it. *)
Definition numeral (whole frac : list ascii) : list ascii :=
  whole ++ match frac with [] => [] | _ => "."%char :: frac end.

Lemma match_number_numeral whole frac rest :
  digits whole -> whole <> [] -> digits frac -> stops rest ->
  match_number (numeral whole frac ++ rest) =
    Some (mkDecimal false (dec_value (whole ++ frac)) (length frac), rest).
Proof.
  intros Hw Hne Hf Hr. unfold match_number.
  destruct whole as [|c whole]; [done|]. pose proof Hw as Hc. apply Forall_cons in Hc as [Hc _].
  destruct (digit_not_sign c Hc) as (N1 & N2 & N3).
  change (numeral (c :: whole) frac ++ rest) with (c :: (numeral whole frac ++ rest)). cbv beta iota zeta.
  rewrite (bool_decide_false (c = "-"%char)), (bool_decide_false (c = "+"%char)) by done.
  destruct frac as [|d frac]; unfold numeral.
  - rewrite app_nil_r, app_comm_cons, span_digits_app; [|done|by destruct rest; [|destruct Hr]].
    rewrite app_nil_r. destruct rest as [|e rest]; cbn [length].
    + by rewrite bool_decide_false.
    + destruct Hr as [_ Hr]. by rewrite !bool_decide_false by done.
  - rewrite <- app_assoc, app_comm_cons, span_digits_app by done. cbn [app].
    rewrite bool_decide_true by done. rewrite app_comm_cons, span_digits_app; [|done|by destruct rest; [|destruct Hr]].
    by rewrite bool_decide_false by done.
Qed.

(** ** Millimetres *)

Lemma str_of_Z_pretty z : 0 <= z -> str_of_Z z = pretty (Z.to_N z).
Proof. destruct z; [done|done|lia]. Qed.

Lemma str_of_Z_digits z : 0 <= z ->
  chars (str_of_Z z) <> [] /\ digits (chars (str_of_Z z)) /\ dec_value (chars (str_of_Z z)) = Z.to_N z.
Proof.
  intros Hz. rewrite str_of_Z_pretty by done. destruct (pretty_N_digits (Z.to_N z)) as [D V].
  split_and!; [|exact D|exact V]. intros E. rewrite E in V.
  destruct (decide (z = 0)) as [->|]; [discriminate E|]. cbn in V. lia.
Qed.

Lemma rstrip_zeros_spec l : exists k, l = rstrip_zeros l ++ replicate k "0"%char.
Proof.
  induction l as [|c l [k IH]]; [by exists 0%nat|]. cbn. destruct (rstrip_zeros l) as [|d l'] eqn:E; cbn.
  - case_bool_decide; subst; [exists (S k) | exists k]; cbn; by f_equal.
  - exists k. cbn. f_equal. exact IH.
Qed.

Lemma rstrip_zeros_app l1 l2 : rstrip_zeros l2 <> [] -> rstrip_zeros (l1 ++ l2) = l1 ++ rstrip_zeros l2.
Proof.
  intros H. induction l1 as [|c l1 IH]; [done|]. cbn. rewrite IH.
  destruct (l1 ++ rstrip_zeros l2) eqn:E; [|done]. apply app_eq_nil in E as [_ E]. done.
Qed.

Lemma rstrip_zeros_nil l : rstrip_zeros l = [] -> dec_value l = 0%N.
Proof.
  intros E. destruct (rstrip_zeros_spec l) as [k Hk]. rewrite E in Hk. rewrite Hk.
  cbn. rewrite <- (app_nil_r (replicate k _)). apply dec_value_zeros.
Qed.

(** [um_to_mm] of a length is a numeral of that many thousandths. *)
Lemma um_to_mm_numeral v : 0 <= v ->
  exists whole frac, chars (um_to_mm v) = numeral whole frac /\ digits whole /\ whole <> [] /\ digits frac /\
    Z.of_N (dec_value (whole ++ frac)) * 1000 = v * 10 ^ Z.of_nat (length frac).
Proof.
  intros Hv. unfold um_to_mm. rewrite Z.abs_eq by done. rewrite (proj2 (Z.ltb_ge v 0)) by done.
  destruct (str_of_Z_digits (v / 1000)) as (Ne & D & V); [apply Z.div_pos; lia|].
  pose proof (Z.div_mod v 1000 ltac:(lia)) as Ediv. pose proof (Z.mod_pos_bound v 1000 ltac:(lia)) as Bm.
  exists (chars (str_of_Z (v / 1000))). destruct (v mod 1000 =? 0) eqn:Ez; bprop.
  - exists []. unfold numeral. rewrite !app_nil_r, V. split_and!; try done; [constructor|].
    cbn [length]. change (10 ^ Z.of_nat 0) with 1. rewrite Z2N.id by (apply Z.div_pos; lia). lia.
  - set (ds := chars (zero_padded 3 (Z.to_N (v mod 1000)))).
    assert (dec_value ds = Z.to_N (v mod 1000)) as Vds.
    { unfold ds, zero_padded. rewrite chars_zeros, dec_value_zeros. apply pretty_N_digits. }
    assert (digits ds) as Dds by apply zero_padded_digits.
    assert (length ds = 3%nat) as Lds.
    { unfold ds. apply zero_padded_length; [lia|]. change (10 ^ N.of_nat 3)%N with 1000%N. lia. }
    assert (rstrip_zeros ds <> []) as Nds.
    { intros E%rstrip_zeros_nil. rewrite E in Vds. lia. }
    exists (rstrip_zeros ds). rewrite chars_of_chars, !chars_app. fold ds.
    change (chars ".") with ["."%char]. rewrite rstrip_zeros_app; rewrite rstrip_zeros_app by done; [|done].
    destruct (rstrip_zeros_spec ds) as [k Hk].
    split_and!; [|done|done| |].
    + unfold numeral. by destruct (rstrip_zeros ds).
    + unfold digits in Dds. rewrite Hk in Dds. by apply Forall_app in Dds as [? _].
    + rewrite Hk in Vds, Lds. rewrite length_app, length_replicate in Lds.
      rewrite dec_value_app, V. rewrite dec_value_app, length_replicate in Vds.
      assert (dec_value (replicate k "0"%char) = 0%N) as Z0
        by (rewrite <- (app_nil_r (replicate k _)); apply dec_value_zeros).
      rewrite Z0 in Vds. set (n := length (rstrip_zeros ds)) in *. set (f := dec_value (rstrip_zeros ds)) in *.
      assert (n <= 3)%nat by lia. assert (k = 3 - n)%nat as -> by lia.
      rewrite N2Z.inj_add, N2Z.inj_mul, N2Z.inj_pow, nat_N_Z, Z2N.id by (apply Z.div_pos; lia).
      assert (Z.of_N f * 10 ^ Z.of_nat (3 - n) = v mod 1000) as Hf.
      { rewrite <- (Z2N.id (v mod 1000)) by lia.
        rewrite <- Vds, N2Z.inj_add, N2Z.inj_mul, N2Z.inj_pow, nat_N_Z.
        change (Z.of_N 10) with 10. by rewrite Z.add_0_r. }
      assert (10 ^ Z.of_nat (3 - n) * 10 ^ Z.of_nat n = 1000) as Hp
        by (rewrite <- Z.pow_add_r by lia; by replace (Z.of_nat (3 - n) + Z.of_nat n) with 3 by lia).
      change (Z.of_N 10) with 10. rewrite Z.mul_add_distr_r.
      replace (Z.of_N f * 1000) with (v mod 1000 * 10 ^ Z.of_nat n)
        by (rewrite <- Hf, <- Z.mul_assoc, Hp; done).
      lia.
Qed.

(** ** The decimal of a length *)

(** [Decimal(um_to_mm(v))] *)
Definition um_decimal (v : Z) : Decimal :=
  match match_number (chars (um_to_mm v)) with Some (d, _) => d | None => dec_int 0 end.

Lemma match_um v rest : 0 <= v -> stops rest ->
  match_number (chars (um_to_mm v) ++ rest) = Some (um_decimal v, rest).
Proof.
  intros Hv Hr. destruct (um_to_mm_numeral v Hv) as (whole & frac & E & Dw & Ne & Df & _).
  unfold um_decimal. rewrite E, match_number_numeral by done.
  rewrite <- (app_nil_r (numeral whole frac)), match_number_numeral by done. done.
Qed.

Lemma um_decimal_value v : 0 <= v ->
  dec_negative (um_decimal v) = false /\ dec_signed (um_decimal v) * 1000 = v * dec_scale (um_decimal v).
Proof.
  intros Hv. destruct (um_to_mm_numeral v Hv) as (whole & frac & E & Dw & Ne & Df & V).
  unfold um_decimal. rewrite E, <- (app_nil_r (numeral whole frac)), match_number_numeral by done.
  split; [done|]. exact V.
Qed.

Lemma dec_ltb_um v w : 0 <= v -> 0 <= w -> dec_ltb (um_decimal v) (um_decimal w) = (v <? w).
Proof.
  intros Hv Hw. destruct (um_decimal_value v Hv) as [_ Ev], (um_decimal_value w Hw) as [_ Ew].
  pose proof (dec_scale_pos (um_decimal v)). pose proof (dec_scale_pos (um_decimal w)).
  unfold dec_ltb. set (a := dec_signed (um_decimal v)) in *. set (b := dec_signed (um_decimal w)) in *.
  set (p := dec_scale (um_decimal v)) in *. set (q := dec_scale (um_decimal w)) in *.
  assert (a * q * 1000 = v * (p * q)) by (transitivity (a * 1000 * q); [ring | rewrite Ev; ring]).
  assert (b * p * 1000 = w * (p * q)) by (transitivity (b * 1000 * p); [ring | rewrite Ew; ring]).
  assert (0 < p * q) as Hpq by nia. apply eq_true_iff_eq. rewrite !Z.ltb_lt.
  rewrite (Z.mul_lt_mono_pos_r (p * q) v w Hpq). lia.
Qed.

Lemma dec_ltb_um_zero v : 0 <= v -> dec_ltb (um_decimal v) (dec_int 0) = false.
Proof.
  intros Hv. destruct (um_decimal_value v Hv) as [_ Ev]. pose proof (dec_scale_pos (um_decimal v)).
  unfold dec_ltb. cbn [dec_signed dec_int]. apply Z.ltb_ge.
  change (dec_signed (dec_int 0)) with 0. change (dec_scale (dec_int 0)) with 1. nia.
Qed.

(** ** Lines *)

(** What a line of text with the given words does to the program read so far;
    a line without words is skipped. *)
Definition read_line (p : ParsedProgram) (n : Z) (ws : list GCodeWord) : ParsedProgram :=
  match ws with [] => p | _ => add_line (foldl note_word p ws) (mkLine n ws) end.

Definition reads (raw : list ascii) (ws : list GCodeWord) : Prop :=
  forall p n, parse_line p (n, raw) = Ok (read_line p n ws).

Definition starts_with_space (l : list ascii) : bool := match l with c :: _ => is_space c | [] => false end.

Lemma strip_chars_id l :
  starts_with_space l = false -> starts_with_space (rev l) = false -> strip_chars l = l.
Proof.
  intros H1 H2. unfold strip_chars.
  assert (forall l, starts_with_space l = false -> drop_spaces l = l) as D
    by (intros [|c l']; cbn; [done|by intros ->]).
  by rewrite (D l H1), (D (rev l) H2), rev_involutive.
Qed.

Lemma strip_open_comment n body :
  "("%char ∉ body -> ")"%char ∉ body -> strip_comments_from n true (body ++ [")"%char]) = Ok [].
Proof.
  induction body as [|c body IH]; intros H1 H2; [done|].
  apply not_elem_of_cons in H1 as [N1 H1], H2 as [N2 H2]. cbn [app strip_comments_from].
  rewrite (bool_decide_false (c = "("%char)), (bool_decide_false (c = ")"%char)) by congruence.
  cbn [negb]. rewrite andb_false_r, IH by done. done.
Qed.

Lemma comment_reads body :
  "("%char ∉ body -> ")"%char ∉ body -> reads ("("%char :: body ++ [")"%char]) [].
Proof.
  intros H1 H2 p n. unfold parse_line, strip_comments. cbn [strip_comments_from].
  rewrite bool_decide_true by done. by rewrite strip_open_comment.
Qed.

Definition plain_char (c : ascii) : bool :=
  negb (bool_decide (c ∈ ["("; ")"; ";"]%char)).

Lemma strip_plain n l : forallb plain_char l = true -> strip_comments_from n false l = Ok l.
Proof.
  induction l as [|c l IH]; [done|]. cbn [forallb strip_comments_from].
  intros [Hc H]%andb_true_iff. unfold plain_char in Hc. bprop.
  rewrite (bool_decide_false (c = "("%char)), (bool_decide_false (c = ")"%char)),
    (bool_decide_false (c = ";"%char)) by set_solver.
  cbn. by rewrite IH.
Qed.

Lemma code_reads code ws :
  forallb plain_char code = true -> starts_with_space code = false -> starts_with_space (rev code) = false ->
  code <> [] -> code <> ["%"%char] -> ws <> [] ->
  (forall n, parse_words_from (S (length code)) n code = Ok ws) -> reads code ws.
Proof.
  intros Hp Hs He Ne Np Nw H p n. unfold parse_line, strip_comments. rewrite strip_plain by done.
  cbn [mbind result_bind]. cbv zeta. rewrite strip_chars_id by done.
  rewrite (bool_decide_false (code = [])), (bool_decide_false (code = ["%"%char])) by done.
  cbn [orb]. unfold parse_words. rewrite H. destruct ws; [done|]. cbn [mbind result_bind].
  by rewrite bool_decide_false by done.
Qed.

Lemma um_chars v : 0 <= v ->
  Forall (fun c => is_digit c = true \/ c = "."%char) (chars (um_to_mm v)) /\
  exists l d, chars (um_to_mm v) = l ++ [d] /\ is_digit d = true.
Proof.
  intros Hv. destruct (um_to_mm_numeral v Hv) as (whole & frac & E & Dw & Ne & Df & _). rewrite E. unfold numeral.
  assert (Forall (fun c => is_digit c = true \/ c = "."%char) whole) as Fw
    by (eapply Forall_impl; [exact Dw | by left]).
  assert (forall l, digits l -> l <> [] -> exists l' d, l = l' ++ [d] /\ is_digit d = true) as Last.
  { intros l D N. destruct l as [|d l _] using rev_ind; [done|]. exists l, d. split; [done|].
    unfold digits in D. by apply Forall_app in D as [_ [? _]%Forall_cons]. }
  destruct frac as [|f frac].
  - rewrite app_nil_r. split; [done|]. by apply Last.
  - split.
    + apply Forall_app. split; [done|]. constructor; [by right|].
      eapply Forall_impl; [exact Df | by left].
    + destruct (Last (f :: frac) Df ltac:(done)) as (l' & d & -> & Hd).
      exists (whole ++ "."%char :: l'), d. split; [|done]. by rewrite <- app_assoc.
Qed.

Lemma um_plain v : 0 <= v -> forallb plain_char (chars (um_to_mm v)) = true.
Proof.
  intros Hv. apply forallb_forall. intros c Hc%list_elem_of_In.
  destruct (um_chars v Hv) as [F _]. rewrite Forall_forall in F. apply F in Hc.
  unfold plain_char. apply negb_true_iff, bool_decide_eq_false. intros Hin.
  repeat (apply elem_of_cons in Hin as [->|Hin]; [by destruct Hc|]). by apply not_elem_of_nil in Hin.
Qed.

Lemma digit_not_space c : is_digit c = true -> is_space c = false.
Proof.
  unfold is_digit, ascii_in, is_space. intros [H1 H2]%andb_true_iff. apply N.leb_le in H1, H2.
  change (N_of_ascii "0") with 48%N in H1. change (N_of_ascii "9") with 57%N in H2.
  apply orb_false_iff. split; apply andb_false_iff.
  - right. apply N.leb_gt. lia.
  - right. apply N.leb_gt. lia.
Qed.

Lemma ends_in_numeral l v : 0 <= v -> starts_with_space (rev (l ++ chars (um_to_mm v))) = false.
Proof.
  intros Hv. destruct (um_chars v Hv) as [_ (l' & d & -> & Hd)]. rewrite app_assoc, rev_app_distr. cbn.
  by apply digit_not_space.
Qed.

Lemma word_um letter v rest :
  is_letter letter = true -> upper_char letter = letter -> 0 <= v -> stops rest ->
  match_word (letter :: chars (um_to_mm v) ++ rest) = Some (mkWord letter (um_decimal v), rest).
Proof. intros L U Hv Hr. unfold match_word. by rewrite L, match_um, U. Qed.

Lemma next_word fuel n code w rest :
  drop_spaces code <> [] -> match_word (drop_spaces code) = Some (w, rest) ->
  parse_words_from (S fuel) n code = (ws ← parse_words_from fuel n rest; Ok (w :: ws)).
Proof. intros Ne E. cbn [parse_words_from]. destruct (drop_spaces code); [done|]. by rewrite E. Qed.

Definition g0 : GCodeWord := mkWord "G" (dec_int 0).
Definition safe_z_words (z : Z) : list GCodeWord := [g0; mkWord "Z" (um_decimal z)].
Definition xy_words (x y : Z) : list GCodeWord := [g0; mkWord "X" (um_decimal x); mkWord "Y" (um_decimal y)].

Lemma safe_z_reads z : 0 <= z -> reads (chars ("G0 Z" +:+ um_to_mm z)) (safe_z_words z).
Proof.
  intros Hz. rewrite chars_app. change (chars "G0 Z") with ["G"; "0"; " "; "Z"]%char.
  apply code_reads; [|done| | | |done|].
  - cbn [forallb app]. rewrite um_plain by done. done.
  - by apply ends_in_numeral.
  - done.
  - done.
  - intros n. cbn [length app]. rewrite (next_word _ _ _ g0 (" " :: "Z" :: chars (um_to_mm z))%char); [|done|done].
    rewrite (next_word _ _ _ (mkWord "Z" (um_decimal z)) []);
      [|done|cbn [drop_spaces is_space]; rewrite <- (app_nil_r (chars _)); by apply word_um].
    done.
Qed.

Lemma xy_reads x y : 0 <= x -> 0 <= y -> reads (chars ("G0 X" +:+ um_to_mm x +:+ " Y" +:+ um_to_mm y)) (xy_words x y).
Proof.
  intros Hx Hy. rewrite !chars_app. change (chars "G0 X") with ["G"; "0"; " "; "X"]%char.
  change (chars " Y") with [" "; "Y"]%char.
  apply code_reads; [|done| | | |done|].
  - rewrite !forallb_app, !um_plain by done. done.
  - rewrite !app_assoc. by apply ends_in_numeral.
  - done.
  - done.
  - intros n. cbn [length app].
    rewrite (next_word _ _ _ g0 (" " :: "X" :: chars (um_to_mm x) ++ " " :: "Y" :: chars (um_to_mm y))%char); [|done|done].
    rewrite (next_word _ _ _ (mkWord "X" (um_decimal x)) (" " :: "Y" :: chars (um_to_mm y))%char);
      [|done|cbn [drop_spaces is_space]; by apply word_um].
    rewrite (next_word _ _ _ (mkWord "Y" (um_decimal y)) []);
      [|done|cbn [drop_spaces is_space]; rewrite <- (app_nil_r (chars _)); by apply word_um].
    done.
Qed.

(** ** Whole programs *)

Definition text_of (raws : list (list ascii)) : list ascii := concat (map (fun l => l ++ [newline]) raws).

(** Printable lines, none of them a line break. *)
Definition printable_lines (raws : list (list ascii)) : Prop :=
  Forall (fun l => Forall (fun c => printable c = true) l) raws.

Lemma printable_not_newline c : printable c = true -> c <> newline.
Proof. by intros H ->. Qed.

Lemma split_lines_cons l rest :
  Forall (fun c => printable c = true) l -> split_lines (l ++ newline :: rest) = l :: split_lines rest.
Proof.
  unfold split_lines. induction 1 as [|c l Hc _ IH]; cbn [app split_char]; [by rewrite bool_decide_true|].
  rewrite bool_decide_false by by apply printable_not_newline. by rewrite IH.
Qed.

Lemma split_lines_text raws : printable_lines raws -> split_lines (text_of raws) = raws ++ [[]].
Proof.
  induction 1 as [|l raws Hl _ IH]; [done|].
  unfold text_of. cbn [map concat]. rewrite <- app_assoc. cbn [app]. rewrite split_lines_cons by done.
  by unfold text_of in IH; rewrite IH.
Qed.

Lemma splitlines_text raws : printable_lines raws -> splitlines (text_of raws) = raws.
Proof.
  intros H. unfold splitlines. rewrite split_lines_text by done. rewrite last_snoc, length_app. cbn [length].
  replace (length raws + 1 - 1)%nat with (length raws) by lia. by rewrite take_app_length.
Qed.

Definition read_all (p : ParsedProgram) (l : list (Z * list GCodeWord)) : ParsedProgram :=
  foldl (fun p nw => read_line p (fst nw) (snd nw)) p l.

Lemma parse_all raws wss ns p :
  Forall2 reads raws wss -> foldM parse_line p (zip ns raws) = Ok (read_all p (zip ns wss)).
Proof.
  intros F. revert ns p; induction F as [|raw ws raws wss H _ IH]; intros [|n ns] p; [done..|].
  cbn [zip_with foldM]. rewrite H. cbn [mbind result_bind]. apply IH.
Qed.

Lemma text_bytes raws :
  printable_lines raws ->
  forallb is_ascii (text_of raws) = true /\
  existsb (fun c => negb (bool_decide (c = newline)) && negb (printable c)) (text_of raws) = false.
Proof.
  intros H. assert (Forall (fun c => c = newline \/ printable c = true) (text_of raws)) as F.
  { apply Forall_concat, Forall_map. eapply Forall_impl; [exact H|]. cbn. intros l Hl.
    apply Forall_app. split; [|by repeat constructor]. eapply Forall_impl; [exact Hl|]. by right. }
  split.
  - apply forallb_forall. intros c Hc%list_elem_of_In. rewrite Forall_forall in F.
    destruct (F c Hc) as [->|Hp]; [done|]. unfold printable, ascii_in in Hp. apply andb_true_iff in Hp as [_ Hp].
    apply N.leb_le in Hp. change (N_of_ascii "~") with 126%N in Hp. apply N.ltb_lt. lia.
  - apply not_true_iff_false. intros (c & Hc%list_elem_of_In & E)%existsb_exists. rewrite Forall_forall in F.
    destruct (F c Hc) as [->|Hp]; [done|]. rewrite Hp in E. by rewrite andb_false_r in E.
Qed.

Lemma zip_snoc {A B} (l1 : list A) (l2 : list B) x y :
  length l1 = length l2 -> zip (l1 ++ [x]) (l2 ++ [y]) = zip l1 l2 ++ [(x, y)].
Proof. intros E. by rewrite zip_with_app. Qed.

Lemma numbered_snoc {A} (l : list A) x : numbered (l ++ [x]) = numbered l ++ [(Z.of_nat (length l) + 1, x)].
Proof.
  unfold numbered. rewrite length_app. cbn [length].
  replace (Z.of_nat (length l + 1)) with (Z.of_nat (length l) + 1) by lia.
  rewrite seqZ_app by lia. rewrite zip_with_app by (rewrite length_seqZ; lia).
  by replace (1 + Z.of_nat (length l)) with (Z.of_nat (length l) + 1) by lia.
Qed.

(** The program a text of readable lines parses to. *)
Lemma parse_text raws wss :
  printable_lines raws -> Forall2 reads raws wss ->
  parse_gcode (of_chars (text_of raws)) = Ok (read_all empty_program (numbered wss)).
Proof.
  intros Hp F. destruct (text_bytes raws Hp) as [Ha Hb].
  unfold parse_gcode, decode. rewrite chars_of_chars, Ha. cbn [negb raise_if mbind result_bind].
  rewrite Hb. cbn [raise_if mbind result_bind]. rewrite split_lines_text by done.
  rewrite numbered_snoc, foldM_app. unfold numbered. rewrite (Forall2_length _ _ _ F).
  rewrite (parse_all _ _ _ _ F). done.
Qed.

Lemma read_all_lines p l :
  pp_lines (read_all p l) =
    pp_lines p ++ map (fun nw => mkLine (fst nw) (snd nw)) (filter (fun nw => snd nw <> []) l).
Proof.
  revert p; induction l as [|[n ws] l IH]; intros p; [by rewrite app_nil_r|].
  unfold read_all in *. cbn [foldl]. rewrite IH, filter_cons. cbn [fst snd].
  assert (forall p, pp_lines (foldl note_word p ws) = pp_lines p) as E.
  { induction ws as [|w ws IHw]; [done|]. intros q. cbn [foldl]. rewrite IHw. destruct q. unfold note_word.
    repeat (case_match; try done). }
  destruct ws as [|w ws]; [by case_decide|]. case_decide; [|done].
  cbn [read_line add_line pp_lines map fst snd]. rewrite E. by rewrite <- app_assoc.
Qed.
