(* ===== verification/DryRun.v ===== *)
(** * The dry-run postprocessor

    [postprocessors/src/custombuild_postprocessors/linuxcnc_validation.py]: the
    LinuxCNC program of each setup of an operations document, tracing the
    operations at safe height with the spindle off.  The generated text is
    validated before it is returned; the file shows that this validation always
    accepts it. *)

From S2P Require Import Prelude Text ManufacturingModel Machining CamValidation GCode GCodeText.

Record MachineProgram := mkMachineProgram {
  pg_filename : string;
  pg_setup_id : string;
  pg_controller : string;
  pg_postprocessor_version : string;
  pg_mode : string;
  pg_content : string;
  pg_production_approved : bool }.

Definition new_MachineProgram (p : MachineProgram) : result MachineProgram :=
  raise_if (negb (bool_decide (pg_mode p = "VALIDATION_DRY_RUN")))
    (ValueError "reference program must remain validation-only");;
  raise_if (pg_production_approved p)
    (ValueError "validation postprocessor cannot approve a production program");;
  Ok p.

(** [value.replace("(", "[").replace(")", "]")] and line breaks to spaces. *)
Definition safe_comment_char (c : ascii) : ascii :=
  if bool_decide (c = "("%char) then "["%char
  else if bool_decide (c = ")"%char) then "]"%char
  else if bool_decide (c = newline) || bool_decide (c = ascii_of_N 13) then " "%char else c.

Definition safe_comment (value : string) : string := of_chars (map safe_comment_char (chars value)).

Definition filename_char (c : ascii) : bool := is_alnum c || bool_decide (c ∈ ["."; "_"; "-"]%char).

(** [re.sub(r"[^A-Za-z0-9._-]+", "_", value)]: [in_run] when the previous
    character was replaced. *)
Fixpoint replace_runs (in_run : bool) (l : list ascii) : list ascii :=
  match l with
  | [] => []
  | c :: l' =>
      if filename_char c then c :: replace_runs false l'
      else if in_run then replace_runs true l' else "_"%char :: replace_runs true l'
  end.

Fixpoint drop_dots (l : list ascii) : list ascii :=
  match l with
  | c :: l' => if bool_decide (c ∈ ["."; "_"]%char) then drop_dots l' else l
  | [] => []
  end.

Definition safe_filename (value : string) : string :=
  match rev (drop_dots (rev (drop_dots (replace_runs false (chars value))))) with
  | [] => "setup"
  | l => of_chars l
  end.

(** [Decimal(text)] for a plain decimal numeral. *)
Definition decimal_of (text : string) : result Decimal :=
  match match_number (chars text) with
  | Some (d, []) => Ok d
  | _ => Err (ValueError "invalid decimal")
  end.

(** ** The lines of a program *)

Definition safe_z_line (s : Setup) : string := "G0 Z" +:+ um_to_mm (su_safe_z_um s).

Definition preamble (d : OperationsDocument) (s : Setup) : list string :=
  ["%";
   "(CUSTOMBUILD LINUXCNC REFERENCE)";
   "(VALIDATION DRY RUN - NOT PRODUCTION APPROVED)";
   "(NO SPINDLE START; NO CUTTING Z MOVES)";
   EXECUTION_POLICY_MARKER;
   "(EXACT WCS XYZ OFFSETS AND WCS ROTATION REQUIRE EXTERNAL VERIFICATION)";
   "(DESIGN HASH " +:+ safe_comment (od_design_hash d) +:+ ")";
   "(SETUP " +:+ safe_comment (su_setup_id s) +:+ ")";
   "(ORIENTATION " +:+ safe_comment (su_orientation s) +:+ ")";
   "G21";
   "G17 G40 G49 G80 G90 G94";
   "M5";
   "M9";
   "G92.2";
   su_wcs s;
   safe_z_line s].

Definition move_line (s : Setup) (m : ValidationMove) : string :=
  match mv_x_um m, mv_y_um m with
  | Some x, Some y => "G0 X" +:+ um_to_mm x +:+ " Y" +:+ um_to_mm y
  | _, _ => safe_z_line s
  end.

(** The lines of the moves; [previous] is the operation of the move before. *)
Fixpoint move_lines (s : Setup) (previous : string) (moves : list ValidationMove) : list string :=
  match moves with
  | [] => []
  | m :: moves' =>
      (if bool_decide (mv_operation_id m = previous) then []
       else ["(OPERATION " +:+ safe_comment (mv_operation_id m) +:+ ")";
             "(CUTTING DEPTH OMITTED - VALIDATION TRACE ONLY)"]) ++
      move_line s m :: move_lines s (mv_operation_id m) moves'
  end.

Definition trailer (s : Setup) : list string := [safe_z_line s; "M5"; "M9"; "G92.3"; "M2"; "%"].

Definition program_lines (d : OperationsDocument) (s : Setup) (moves : list ValidationMove) : list string :=
  preamble d s ++ move_lines s "" moves ++ trailer s.

(** [("\n".join(lines) + "\n").encode("ascii")] *)
Definition encode_lines (lines : list string) : result string :=
  let text := concat (map (fun l => chars l ++ [newline]) lines) in
  raise_if (negb (forallb is_ascii text)) UnicodeEncodeError;;
  Ok (of_chars text).

(** ** Programs *)

Definition controller_name : string := "LinuxCNC".
Definition postprocessor_version : string := "linuxcnc-validation-1.1.0".

Definition setup_program (d : OperationsDocument) (backplot : ValidationBackplot) (s : Setup)
    : result MachineProgram :=
  let setup_moves := filter (fun m => mv_setup_id m = su_setup_id s) (bp_moves backplot) in
  content ← encode_lines (program_lines d s setup_moves);
  safe_z ← decimal_of (um_to_mm (su_safe_z_um s));
  width ← decimal_of (um_to_mm (su_stock_width_um s));
  height ← decimal_of (um_to_mm (su_stock_height_um s));
  validate_validation_program content safe_z safe_z (dec_int 0, width) (dec_int 0, height) (su_wcs s);;
  new_MachineProgram
    (mkMachineProgram (safe_filename (su_setup_id s) +:+ ".validation.ngc") (su_setup_id s) controller_name
       postprocessor_version "VALIDATION_DRY_RUN" content false).

Definition generate (d : OperationsDocument) (machine : option MachineProfile) : result (list MachineProgram) :=
  bound_machine ←
    match machine with
    | Some m => Ok m
    | None =>
        of_option (resolve_reference_machine (od_machine_profile_id d))
          (CAMValidationError "validation postprocessor cannot resolve the document machine profile")
    end;
  require_valid_operations d (Some bound_machine);;
  backplot ← build_validation_backplot d (Some bound_machine);
  traverse (setup_program d backplot) (od_setups d).

(** ** The words of a program *)

Definition gword (n : Z) : GCodeWord := mkWord "G" (dec_int n).
Definition mword (n : Z) : GCodeWord := mkWord "M" (dec_int n).

(** The executable lines before the moves; [wcs] is the number of the work
    coordinate system. *)
Definition opening_words (wcs z : Z) : list (list GCodeWord) :=
  [[gword 21]; [gword 17; gword 40; gword 49; gword 80; gword 90; gword 94]; [mword 5]; [mword 9];
   [mkWord "G" (dec_tenths 922)]; [gword wcs]; safe_z_words z].

Definition closing_words (z : Z) : list (list GCodeWord) :=
  [safe_z_words z; [mword 5]; [mword 9]; [mkWord "G" (dec_tenths 923)]; [mword 2]].

Definition move_words (z : Z) (m : ValidationMove) : list GCodeWord :=
  match mv_x_um m, mv_y_um m with Some x, Some y => xy_words x y | _, _ => safe_z_words z end.

(** The words of every line of [move_lines]; comments have none. *)
Fixpoint move_line_words (z : Z) (previous : string) (moves : list ValidationMove) : list (list GCodeWord) :=
  match moves with
  | [] => []
  | m :: moves' =>
      (if bool_decide (mv_operation_id m = previous) then [] else [[]; []]) ++
      move_words z m :: move_line_words z (mv_operation_id m) moves'
  end.

Definition program_words (wcs z : Z) (moves : list ValidationMove) : list (list GCodeWord) :=
  replicate 9 [] ++ opening_words wcs z ++ move_line_words z "" moves ++ closing_words z ++ [[]].

(** ** Reading the printed lines *)

Definition printable_text (s : string) : Prop := Forall (fun c => printable c = true) (chars s).

Definition wcs_number (s : string) : Z :=
  match parse_required_wcs s with Ok n => n | Err _ => 0 end.

Lemma wcs_cases s : wcs_code_ok s = true -> s ∈ ["G54"; "G55"; "G56"; "G57"; "G58"; "G59"].
Proof.
  unfold wcs_code_ok. rewrite <- (String.string_of_list_ascii_of_string s). fold (chars s).
  fold (of_chars (chars s)). rewrite chars_of_chars.
  destruct (chars s) as [|a [|b [|c [|? ?]]]]; try done. intros H. bprop. subst. unfold ascii_in in *. bprop.
  repeat match goal with H : (_ <=? _)%N = true |- _ => apply N.leb_le in H end.
  change (N_of_ascii "4") with 52%N in *. change (N_of_ascii "9") with 57%N in *.
  rewrite <- (ascii_N_embedding c). set (n := N_of_ascii c) in *.
  assert (n = 52 \/ n = 53 \/ n = 54 \/ n = 55 \/ n = 56 \/ n = 57)%N as C by lia.
  apply list_elem_of_In. cbn [of_chars In].
  destruct C as [->|[->|[->|[->|[->| ->]]]]]; cbn; tauto.
Qed.

Lemma safe_comment_char_ok c :
  safe_comment_char c <> "("%char /\ safe_comment_char c <> ")"%char /\
  (printable c = true -> printable (safe_comment_char c) = true).
Proof.
  unfold safe_comment_char. repeat case_bool_decide; cbn; done.
Qed.

Lemma safe_comment_reads prefix value :
  "("%char ∉ chars prefix -> ")"%char ∉ chars prefix ->
  reads (chars ("(" +:+ prefix +:+ safe_comment value +:+ ")")) [].
Proof.
  intros H1 H2. rewrite !chars_app. unfold safe_comment. rewrite chars_of_chars.
  change (chars "(") with ["("%char]. change (chars ")") with [")"%char]. cbn [app]. rewrite app_assoc.
  apply comment_reads; rewrite elem_of_app; intros [?|(c & E & _)%list_elem_of_fmap]; try done;
    destruct (safe_comment_char_ok c) as (? & ? & _); congruence.
Qed.

Lemma safe_comment_printable prefix value :
  printable_text prefix -> printable_text value -> printable_text (prefix +:+ safe_comment value +:+ ")").
Proof.
  unfold printable_text, safe_comment. intros Hp Hv. rewrite !chars_app, chars_of_chars, !Forall_app.
  split_and!; [done| |by repeat constructor]. apply Forall_map. eapply Forall_impl; [exact Hv|].
  intros c. apply safe_comment_char_ok.
Qed.

Lemma um_printable v : 0 <= v -> printable_text (um_to_mm v).
Proof.
  intros Hv. destruct (um_chars v Hv) as [F _]. eapply Forall_impl; [exact F|].
  intros c [H| ->]; [|done]. unfold is_digit, printable, ascii_in in *. apply andb_true_iff in H as [H1 H2].
  apply N.leb_le in H1, H2. change (N_of_ascii "0") with 48%N in H1. change (N_of_ascii "9") with 57%N in H2.
  apply andb_true_iff. change (N_of_ascii " ") with 32%N. change (N_of_ascii "~") with 126%N.
  split; apply N.leb_le; lia.
Qed.

Lemma printable_app s t : printable_text s -> printable_text t -> printable_text (s +:+ t).
Proof. unfold printable_text. rewrite chars_app, Forall_app. done. Qed.

Lemma plain_reads code ws :
  forallb plain_char (chars code) = true -> starts_with_space (chars code) = false ->
  starts_with_space (rev (chars code)) = false -> chars code <> [] -> chars code <> ["%"%char] -> ws <> [] ->
  (forall n, parse_words_from (S (length (chars code))) n (chars code) = Ok ws) -> reads (chars code) ws.
Proof. apply code_reads. Qed.

Ltac read_plain := apply plain_reads; [reflexivity | reflexivity | reflexivity | done | done | done | reflexivity].

Lemma percent_reads : reads (chars "%") [].
Proof. intros p n. reflexivity. Qed.

Lemma fixed_comment_reads body :
  "("%char ∉ chars body -> ")"%char ∉ chars body -> reads (chars ("(" +:+ body +:+ ")")) [].
Proof.
  intros H1 H2. rewrite !chars_app. change (chars "(") with ["("%char]. change (chars ")") with [")"%char].
  by apply comment_reads.
Qed.

Ltac not_in_literal := by apply (bool_decide_unpack _); vm_compute.

Lemma wcs_reads s : wcs_code_ok s = true -> reads (chars s) [gword (wcs_number s)].
Proof.
  intros H%wcs_cases. repeat (apply elem_of_cons in H as [->|H]; [read_plain|]). by apply not_elem_of_nil in H.
Qed.

(** What a program is made from: a setup with a canonical coordinate system,
    lengths that are not negative and printable names, and moves that stay
    inside the stock. *)
Record printable_setup (d : OperationsDocument) (s : Setup) : Prop := {
  ps_wcs : wcs_code_ok (su_wcs s) = true;
  ps_safe_z : 0 <= su_safe_z_um s;
  ps_width : 0 <= su_stock_width_um s;
  ps_height : 0 <= su_stock_height_um s;
  ps_hash : printable_text (od_design_hash d);
  ps_id : printable_text (su_setup_id s);
  ps_orientation : printable_text (su_orientation s) }.

Definition move_inside (s : Setup) (m : ValidationMove) : Prop :=
  printable_text (mv_operation_id m) /\
  match mv_x_um m, mv_y_um m with
  | Some x, Some y => 0 <= x <= su_stock_width_um s /\ 0 <= y <= su_stock_height_um s
  | _, _ => True
  end.

Section Program.
Context (d : OperationsDocument) (s : Setup) (Hs : printable_setup d s).

Lemma preamble_reads :
  Forall2 reads (map chars (preamble d s))
    (replicate 9 [] ++ opening_words (wcs_number (su_wcs s)) (su_safe_z_um s)).
Proof.
  destruct Hs. cbn [preamble map replicate app opening_words].
  repeat first [apply Forall2_nil_2 | apply Forall2_cons_2]; try read_plain.
  - apply percent_reads.
  - apply (fixed_comment_reads "CUSTOMBUILD LINUXCNC REFERENCE"); not_in_literal.
  - apply (fixed_comment_reads "VALIDATION DRY RUN - NOT PRODUCTION APPROVED"); not_in_literal.
  - apply (fixed_comment_reads "NO SPINDLE START; NO CUTTING Z MOVES"); not_in_literal.
  - apply (fixed_comment_reads
      "CUSTOMBUILD_EXECUTION_POLICY=PROHIBITED_UNTIL_EXACT_WCS_AND_CONTROLLER_STATE_ATTESTED"); not_in_literal.
  - apply (fixed_comment_reads "EXACT WCS XYZ OFFSETS AND WCS ROTATION REQUIRE EXTERNAL VERIFICATION"); not_in_literal.
  - apply (safe_comment_reads "DESIGN HASH "); not_in_literal.
  - apply (safe_comment_reads "SETUP "); not_in_literal.
  - apply (safe_comment_reads "ORIENTATION "); not_in_literal.
  - by apply wcs_reads.
  - by apply safe_z_reads.
Qed.

Lemma move_line_reads m :
  move_inside s m -> reads (chars (move_line s m)) (move_words (su_safe_z_um s) m).
Proof.
  destruct Hs. intros [_ H]. unfold move_line, move_words.
  destruct (mv_x_um m), (mv_y_um m); try by apply safe_z_reads. apply xy_reads; lia.
Qed.

Lemma move_lines_read previous moves :
  Forall (move_inside s) moves ->
  Forall2 reads (map chars (move_lines s previous moves)) (move_line_words (su_safe_z_um s) previous moves).
Proof.
  intros F. revert previous; induction F as [|m moves Hm _ IH]; intros previous; [constructor|].
  cbn [move_lines move_line_words]. rewrite map_app. apply Forall2_app.
  - case_bool_decide; [constructor|]. cbn [map].
    repeat first [apply Forall2_nil_2 | apply Forall2_cons_2].
    + apply (safe_comment_reads "OPERATION "); not_in_literal.
    + apply (fixed_comment_reads "CUTTING DEPTH OMITTED - VALIDATION TRACE ONLY"); not_in_literal.
  - constructor; [by apply move_line_reads | apply IH].
Qed.

Lemma trailer_reads :
  Forall2 reads (map chars (trailer s)) (closing_words (su_safe_z_um s) ++ [[]]).
Proof.
  destruct Hs. cbn [trailer map closing_words app].
  repeat first [apply Forall2_nil_2 | apply Forall2_cons_2]; try read_plain.
  - by apply safe_z_reads.
  - apply percent_reads.
Qed.

Lemma program_reads moves :
  Forall (move_inside s) moves ->
  Forall2 reads (map chars (program_lines d s moves))
    (program_words (wcs_number (su_wcs s)) (su_safe_z_um s) moves).
Proof.
  intros F. unfold program_lines, program_words. rewrite !map_app, (app_assoc (replicate 9 [])).
  repeat apply Forall2_app; [apply preamble_reads | by apply move_lines_read | apply trailer_reads].
Qed.

(** ** The printed lines are printable *)

Lemma literal_printable l : forallb printable (chars l) = true -> printable_text l.
Proof.
  intros H. apply Forall_forall. intros c Hc. rewrite forallb_forall in H. by apply H, list_elem_of_In.
Qed.

Ltac each_line :=
  repeat match goal with
  | |- Forall printable_text [] => apply Forall_nil_2
  | |- Forall printable_text (_ :: _) => apply Forall_cons_2
  | |- Forall printable_text (preamble _ _) => unfold preamble
  | |- Forall printable_text (trailer _) => unfold trailer
  end.

Lemma safe_z_printable : printable_text (safe_z_line s).
Proof. destruct Hs. apply printable_app; [by apply literal_printable | by apply um_printable]. Qed.

Lemma move_line_printable m : move_inside s m -> printable_text (move_line s m).
Proof.
  intros [_ H]. unfold move_line. destruct (mv_x_um m), (mv_y_um m); try apply safe_z_printable.
  apply printable_app; [by apply literal_printable|]. apply printable_app; [apply um_printable; lia|].
  apply printable_app; [by apply literal_printable | apply um_printable; lia].
Qed.

Lemma move_lines_printable previous moves :
  Forall (move_inside s) moves -> Forall printable_text (move_lines s previous moves).
Proof.
  intros F. revert previous; induction F as [|m moves Hm _ IH]; intros previous; [constructor|].
  cbn [move_lines]. apply Forall_app. split; [|constructor; [by apply move_line_printable | apply IH]].
  case_bool_decide; [constructor|]. each_line; [|by apply literal_printable].
  apply (safe_comment_printable "(OPERATION "); [by apply literal_printable | apply Hm].
Qed.

Lemma wcs_printable : printable_text (su_wcs s).
Proof.
  destruct Hs as [H%wcs_cases]. apply literal_printable.
  repeat (apply elem_of_cons in H as [->|H]; [reflexivity|]). by apply not_elem_of_nil in H.
Qed.

Lemma program_printable moves :
  Forall (move_inside s) moves -> Forall printable_text (program_lines d s moves).
Proof.
  intros F. destruct Hs. unfold program_lines. rewrite !Forall_app. split_and!; [|by apply move_lines_printable|].
  - each_line; try by apply literal_printable.
    + by apply (safe_comment_printable "(DESIGN HASH "); [apply literal_printable|].
    + by apply (safe_comment_printable "(SETUP "); [apply literal_printable|].
    + by apply (safe_comment_printable "(ORIENTATION "); [apply literal_printable|].
    + apply wcs_printable.
    + apply safe_z_printable.
  - each_line; try by apply literal_printable. apply safe_z_printable.
Qed.
End Program.

(** ** The parsed program *)

Definition parsed_program (wss : list (list GCodeWord)) : ParsedProgram := read_all empty_program (numbered wss).

Lemma numbered_snd {A} (l : list A) : map snd (numbered l) = l.
Proof. unfold numbered. apply snd_zip. rewrite length_seqZ. lia. Qed.

(** The words of the executable lines. *)
Lemma parsed_words wss : map ln_words (pp_lines (parsed_program wss)) = filter (fun ws => ws <> []) wss.
Proof.
  unfold parsed_program. rewrite read_all_lines. cbn [app pp_lines empty_program]. rewrite map_map. cbn [ln_words].
  rewrite <- (numbered_snd wss) at 2. generalize (numbered wss) as l. induction l as [|[n ws] l IH]; [done|].
  cbn [map snd]. rewrite !filter_cons. cbn [snd]. case_decide; cbn [map]; [by f_equal|done].
Qed.

(** What the words leave in the header of the program, its lines apart. *)
Definition same_header (p q : ParsedProgram) : Prop :=
  pp_units p = pp_units q /\ pp_absolute p = pp_absolute q /\
  pp_spindle_start_seen p = pp_spindle_start_seen q /\ pp_minimum_z p = pp_minimum_z q.

Lemma note_word_header p q w : same_header p q -> same_header (note_word p w) (note_word q w).
Proof.
  destruct p, q. unfold same_header. cbn. intros (-> & -> & -> & ->).
  repeat (case_match; cbn; try done).
Qed.

Lemma note_words_header ws p q : same_header p q -> same_header (foldl note_word p ws) (foldl note_word q ws).
Proof. revert p q; induction ws as [|w ws IH]; intros p q H; [done|]. by apply IH, note_word_header. Qed.

Lemma read_all_header (l : list (Z * list GCodeWord)) p q :
  same_header p q -> same_header (read_all p l) (foldl note_word q (concat (map snd l))).
Proof.
  revert p q; induction l as [|[n ws] l IH]; intros p q H; [done|].
  cbn [map concat snd]. rewrite foldl_app. apply IH. cbn [fst snd].
  unfold read_line. destruct ws as [|w ws]; [done|].
  destruct (note_words_header (w :: ws) p q H) as (? & ? & ? & ?). by split_and!.
Qed.

(** The header after the opening lines: millimetres, absolute, no spindle start
    and the safe height as the lowest Z. *)
Definition safe_header (z : Z) : ParsedProgram := mkProgram [] "MM" true false (Some (um_decimal z)).

Definition quiet (z : Z) (ws : list GCodeWord) : Prop := foldl note_word (safe_header z) ws = safe_header z.

Lemma safe_z_quiet z : quiet z (safe_z_words z).
Proof.
  unfold quiet. set (d := um_decimal z).
  change (foldl note_word (safe_header z) (safe_z_words z))
    with (mkProgram [] "MM" true false (Some (if dec_ltb d d then d else d))).
  by destruct (dec_ltb d d).
Qed.

Lemma move_words_quiet z m : quiet z (move_words z m).
Proof. unfold move_words. destruct (mv_x_um m), (mv_y_um m); [done|apply safe_z_quiet..]. Qed.

Lemma quiet_concat z wss : Forall (quiet z) wss -> quiet z (concat wss).
Proof.
  induction 1 as [|ws wss H _ IH]; [done|]. unfold quiet in *. cbn. by rewrite foldl_app, H.
Qed.

Lemma concat_program_words k z moves :
  concat (program_words k z moves) =
    concat (opening_words k z) ++ concat (map (move_words z) moves) ++ concat (closing_words z).
Proof.
  assert (forall previous, concat (move_line_words z previous moves) = concat (map (move_words z) moves)) as E.
  { induction moves as [|m moves IH]; intros previous; [done|].
    cbn [move_line_words map concat]. rewrite concat_app. cbn [concat]. rewrite IH.
    by case_bool_decide. }
  unfold program_words. rewrite !concat_app, E. change (concat (replicate 9 [])) with (@nil GCodeWord).
  change (concat [[]]) with (@nil GCodeWord). by rewrite app_nil_r.
Qed.

Lemma opening_header k z : 54 <= k <= 59 ->
  foldl note_word empty_program (concat (opening_words k z)) = safe_header z.
Proof.
  intros Hk. assert (k = 54 \/ k = 55 \/ k = 56 \/ k = 57 \/ k = 58 \/ k = 59) as C by lia.
  by repeat destruct C as [->|C]; [..|subst k].
Qed.

Lemma closing_quiet z : quiet z (concat (closing_words z)).
Proof.
  unfold closing_words. apply quiet_concat. repeat constructor. apply safe_z_quiet.
Qed.

Lemma program_header k z moves : 54 <= k <= 59 ->
  same_header (parsed_program (program_words k z moves)) (safe_header z).
Proof.
  intros Hk. unfold parsed_program.
  pose proof (read_all_header (numbered (program_words k z moves)) empty_program empty_program) as H.
  rewrite numbered_snd, concat_program_words, !foldl_app, opening_header in H by done.
  rewrite (quiet_concat z (map (move_words z) moves)) in H.
  - rewrite closing_quiet in H. apply H. by split_and!.
  - apply Forall_map, Forall_true. intros m. apply move_words_quiet.
Qed.

Lemma program_lines_words k z moves :
  map ln_words (pp_lines (parsed_program (program_words k z moves))) =
    opening_words k z ++ map (move_words z) moves ++ closing_words z.
Proof.
  assert (forall previous, filter (fun ws => ws <> []) (move_line_words z previous moves) =
            map (move_words z) moves) as E.
  { induction moves as [|m moves IH]; intros previous; [done|].
    cbn [move_line_words map]. rewrite filter_app, filter_cons, decide_True, IH; [by case_bool_decide|].
    unfold move_words. by destruct (mv_x_um m), (mv_y_um m). }
  rewrite parsed_words. unfold program_words. rewrite !filter_app, E.
  change (filter (fun ws : list GCodeWord => ws <> []) (replicate 9 [])) with (@nil (list GCodeWord)).
  change (filter (fun ws : list GCodeWord => ws <> []) (opening_words k z)) with (opening_words k z).
  change (filter (fun ws : list GCodeWord => ws <> []) (closing_words z)) with (closing_words z).
  change (filter (fun ws : list GCodeWord => ws <> []) [[]]) with (@nil (list GCodeWord)).
  by rewrite app_nil_r.
Qed.

(** ** The safety checks accept the words *)

Section Checks.
Context (z w h : Z) (Hz : 0 <= z) (Hw : 0 <= w) (Hh : 0 <= h) (required_wcs : string) (k : Z) (Hk : 54 <= k <= 59).

Definition checks : vstate -> ParsedLine -> result vstate :=
  check_line (um_decimal z) (um_decimal z) (dec_int 0, um_decimal w) (dec_int 0, um_decimal h) required_wcs k.

(** Whatever their numbers, lines with these words take [s] to [s']. *)
Definition accepts (s : vstate) (wss : list (list GCodeWord)) (s' : vstate) : Prop :=
  forall lines, map ln_words lines = wss -> foldM checks s lines = Ok s'.

Lemma accepts_app s1 s2 s3 wss1 wss2 : accepts s1 wss1 s2 -> accepts s2 wss2 s3 -> accepts s1 (wss1 ++ wss2) s3.
Proof.
  intros H1 H2 lines E. apply map_eq_app in E as (l1 & l2 & -> & E1 & E2).
  rewrite foldM_app, (H1 l1 E1). by apply H2.
Qed.

Lemma accepts_one s ws s' : (forall n, checks s (mkLine n ws) = Ok s') -> accepts s [ws] s'.
Proof.
  intros H [|[n ws'] [|]] E; try done. injection E as ->. cbn [foldM]. by rewrite H.
Qed.

Lemma accepts_all s wss : Forall (fun ws => forall n, checks s (mkLine n ws) = Ok s) wss -> accepts s wss s.
Proof.
  induction 1 as [|ws wss H _ IH]; [by intros [|? ?]|]. change (ws :: wss) with ([ws] ++ wss).
  apply (accepts_app s s s); [by apply accepts_one | done].
Qed.

(** The state before the first motion, and after it. *)
Definition ready (current : option Decimal) : vstate := mkVState current true false true true (Some k) 0 true false.

Lemma opening_modal_accepted : accepts start_vstate
  [[gword 21]; [gword 17; gword 40; gword 49; gword 80; gword 90; gword 94]; [mword 5]; [mword 9];
   [mkWord "G" (dec_tenths 922)]; [gword k]] (ready None).
Proof.
  assert (k = 54 \/ k = 55 \/ k = 56 \/ k = 57 \/ k = 58 \/ k = 59) as C by lia.
  intros [|[? ?] [|[? ?] [|[? ?] [|[? ?] [|[? ?] [|[? ?] [|]]]]]]] E; try done.
  cbn in E. injection E as -> -> -> -> -> ->. unfold checks, ready. clear Hk.
  by repeat destruct C as [->|C]; [..|subst k].
Qed.

(** Words of a motion: a rapid move within the bounds. *)
Lemma motion_accepted (current : option Decimal) (s' : vstate) ws n :
  values_of "G" ws = [dec_int 0] -> values_of "M" ws = [] -> unknown_letters ws = [] -> has_axis ws = true ->
  check_motion (um_decimal z) (um_decimal z) (dec_int 0, um_decimal w) (dec_int 0, um_decimal h) required_wcs k n ws
    (ready current) = Ok s' ->
  checks (ready current) (mkLine n ws) = Ok s'.
Proof.
  intros G M U A H. unfold checks, check_line. cbn [ln_number ln_words]. rewrite G, M, U, A.
  cbn [v_seen_m2 ready raise_if mbind result_bind nonempty foldM].
  replace (check_g k n (ready current) (dec_int 0)) with (Ok (ready current)) by reflexivity.
  cbn [mbind result_bind v_seen_m2 ready raise_if andb]. exact H.
Qed.

Lemma safe_z_accepted current n : checks (ready current) (mkLine n (safe_z_words z)) = Ok (ready (Some (um_decimal z))).
Proof.
  apply motion_accepted; try reflexivity. unfold check_motion.
  change (values_of "X" (safe_z_words z)) with (@nil Decimal).
  change (values_of "Y" (safe_z_words z)) with (@nil Decimal).
  change (values_of "Z" (safe_z_words z)) with [um_decimal z].
  change (values_of "G" (safe_z_words z)) with [dec_int 0].
  cbn [v_seen_g21 v_seen_g90 v_seen_m5 v_active_wcs v_offsets_suspended v_offsets_restored ready negb orb].
  rewrite bool_decide_true by done. cbn [negb raise_if mbind result_bind check_z].
  rewrite dec_ltb_um, Z.ltb_irrefl by done. reflexivity.
Qed.

Lemma xy_accepted x y n : 0 <= x <= w -> 0 <= y <= h ->
  checks (ready (Some (um_decimal z))) (mkLine n (xy_words x y)) = Ok (ready (Some (um_decimal z))).
Proof.
  intros Hx Hy. apply motion_accepted; try reflexivity. unfold check_motion.
  change (values_of "X" (xy_words x y)) with [um_decimal x].
  change (values_of "Y" (xy_words x y)) with [um_decimal y].
  change (values_of "Z" (xy_words x y)) with (@nil Decimal).
  change (values_of "G" (xy_words x y)) with [dec_int 0].
  cbn [v_seen_g21 v_seen_g90 v_seen_m5 v_active_wcs v_offsets_suspended v_offsets_restored ready negb orb].
  rewrite bool_decide_true by done. cbn [negb raise_if mbind result_bind check_z validate_axis_words fst snd].
  rewrite !dec_ltb_um_zero, !dec_ltb_um by lia.
  rewrite (proj2 (Z.ltb_ge w x)), (proj2 (Z.ltb_ge h y)) by lia.
  cbn [v_current_z ready]. rewrite dec_ltb_um, Z.ltb_irrefl by done. reflexivity.
Qed.

(** The state at the end of a program. *)
Definition finished : vstate := mkVState (Some (um_decimal z)) true true true true (Some k) 1 true true.

Lemma closing_accepted : accepts (ready (Some (um_decimal z))) (closing_words z) finished.
Proof.
  change (closing_words z)
    with ([safe_z_words z] ++ [[mword 5]; [mword 9]; [mkWord "G" (dec_tenths 923)]; [mword 2]]).
  eapply accepts_app; [apply accepts_one; intros n; apply safe_z_accepted|].
  intros [|[? ?] [|[? ?] [|[? ?] [|[? ?] [|]]]]] E; try done. cbn in E. injection E as -> -> -> ->.
  unfold checks, ready, finished. reflexivity.
Qed.

Definition inside (m : ValidationMove) : Prop :=
  match mv_x_um m, mv_y_um m with Some x, Some y => 0 <= x <= w /\ 0 <= y <= h | _, _ => True end.

Lemma move_accepted m n : inside m ->
  checks (ready (Some (um_decimal z))) (mkLine n (move_words z m)) = Ok (ready (Some (um_decimal z))).
Proof.
  unfold inside, move_words. destruct (mv_x_um m) as [x|]; [|intros _; apply safe_z_accepted].
  destruct (mv_y_um m) as [y|]; [|intros _; apply safe_z_accepted]. intros [Hx Hy]. exact (xy_accepted x y n Hx Hy).
Qed.

Lemma program_accepted moves : Forall inside moves ->
  accepts start_vstate (opening_words k z ++ map (move_words z) moves ++ closing_words z) finished.
Proof.
  intros F.
  change (opening_words k z) with
    ([[gword 21]; [gword 17; gword 40; gword 49; gword 80; gword 90; gword 94]; [mword 5]; [mword 9];
      [mkWord "G" (dec_tenths 922)]; [gword k]] ++ [safe_z_words z]).
  rewrite <- app_assoc. eapply accepts_app; [apply opening_modal_accepted|].
  eapply accepts_app; [apply accepts_one; intros n; apply safe_z_accepted|].
  eapply accepts_app; [|apply closing_accepted].
  apply accepts_all. induction F as [|m moves Hm _ IH]; [constructor|].
  constructor; [|exact IH]. intros n. exact (move_accepted m n Hm).
Qed.
End Checks.

(** ** The canonical structure *)

Lemma dec_eqb_refl a : dec_eqb a a = true.
Proof. apply Z.eqb_refl. Qed.

Lemma signatures_eqb_refl l : signatures_eqb l l = true.
Proof.
  unfold signatures_eqb. induction l as [|sig l IH]; [done|]. cbn [list_eqb]. rewrite IH, andb_true_r.
  induction sig as [|[c a] sig IHs]; [done|]. cbn [list_eqb]. rewrite IHs. unfold word_eqb. cbn [fst snd].
  by rewrite bool_decide_true, dec_eqb_refl.
Qed.

Definition word_signature (ws : list GCodeWord) : list (ascii * Decimal) := map (fun w => (w_letter w, w_value w)) ws.

Lemma move_signature_ok z m : bad_body_signature (word_signature (move_words z m)) = false.
Proof. unfold move_words. destruct (mv_x_um m), (mv_y_um m); reflexivity. Qed.

Lemma structure_accepted k z moves parsed :
  map ln_words (pp_lines parsed) = opening_words k z ++ map (move_words z) moves ++ closing_words z ->
  require_canonical_safety_structure (um_decimal z) k parsed = Ok ().
Proof.
  intros E. unfold require_canonical_safety_structure.
  assert (map signature (pp_lines parsed) = expected_preamble (um_decimal z) k ++
            map word_signature (map (move_words z) moves) ++ expected_trailer (um_decimal z)) as ->.
  { transitivity (map word_signature (map ln_words (pp_lines parsed))); [by rewrite map_map|].
    by rewrite E, !map_app. }
  set (pre := expected_preamble (um_decimal z) k). set (post := expected_trailer (um_decimal z)).
  set (mid := map word_signature (map (move_words z) moves)).
  assert (length (pre ++ mid ++ post) = length pre + (length mid + length post))%nat as L
    by by rewrite !length_app.
  rewrite L. rewrite bool_decide_false by lia. cbn [raise_if mbind result_bind].
  rewrite take_app_length, signatures_eqb_refl. cbn [negb raise_if mbind result_bind].
  replace (length pre + (length mid + length post) - length post)%nat with (length (pre ++ mid))
    by (rewrite length_app; lia).
  rewrite app_assoc, drop_app_length, signatures_eqb_refl. cbn [negb raise_if mbind result_bind].
  rewrite <- app_assoc, drop_app_length.
  replace (length (pre ++ mid) - length pre)%nat with (length mid) by (rewrite length_app; lia).
  rewrite take_app_length. apply check_all_Ok. unfold mid. rewrite map_map.
  apply Forall_map, Forall_true. intros m. by rewrite move_signature_ok.
Qed.

(** ** The percent envelope *)

(** Text that [strip] leaves alone and that is not blank. *)
Definition solid (l : list ascii) : Prop :=
  l <> [] /\ starts_with_space l = false /\ starts_with_space (rev l) = false.

Lemma nonblank_lines ls :
  Forall solid ls ->
  filter (fun il => snd il <> []) (map (fun il => (fst il, strip_chars (snd il))) (numbered ls)) = numbered ls.
Proof.
  intros F. unfold numbered. generalize (seqZ 1 (Z.of_nat (length ls))) as ns.
  induction F as [|l ls (Ne & H1 & H2) _ IH]; intros [|n ns]; [done..|].
  cbn [zip_with map fst snd]. rewrite strip_chars_id by done. rewrite filter_cons, decide_True by done. by rewrite IH.
Qed.

Lemma Forall_zip {A} (P : A -> Prop) (ns : list Z) l : Forall P l -> Forall (fun il => P (snd il)) (zip ns l).
Proof.
  intros F. revert ns; induction F as [|x l Hx _ IH]; intros [|n ns]; cbn; constructor; [done | apply IH].
Qed.

Lemma numbered_at {A} (l1 : list A) x l2 :
  exists ns1 ns2, numbered (l1 ++ x :: l2) = zip ns1 l1 ++ (Z.of_nat (length l1) + 1, x) :: zip ns2 l2 /\
    length ns1 = length l1 /\ length ns2 = length l2.
Proof.
  exists (seqZ 1 (Z.of_nat (length l1))), (seqZ (Z.of_nat (length l1) + 2) (Z.of_nat (length l2))).
  rewrite !length_seqZ, !Nat2Z.id. split; [|done].
  unfold numbered. rewrite length_app, Nat2Z.inj_add, seqZ_app by lia.
  rewrite zip_with_app by (rewrite length_seqZ; lia). f_equal. cbn [length].
  rewrite seqZ_cons by lia. cbn [zip_with]. f_equal; [f_equal; lia|]. do 2 f_equal; lia.
Qed.

Section Envelope.
Context (pre post : list (list ascii)).

Definition enveloped : list (list ascii) :=
  chars "%" :: (pre ++ chars EXECUTION_POLICY_MARKER :: post) ++ [chars "%"].

Context (Hpre : Forall (fun l => l <> chars "%" /\ l <> chars EXECUTION_POLICY_MARKER) pre)
        (Hpost : Forall (fun l => l <> chars "%" /\ l <> chars EXECUTION_POLICY_MARKER) post)
        (Hprint : printable_lines enveloped) (Hsolid : Forall solid enveloped).

Lemma not_percent : Forall (fun l => ~ l = chars "%") (pre ++ chars EXECUTION_POLICY_MARKER :: post).
Proof.
  apply Forall_app. split; [|constructor; [discriminate|]]; eapply Forall_impl; [exact Hpre| |exact Hpost|];
    by intros l [? _].
Qed.

Lemma envelope_accepted parsed :
  Z.of_nat (length pre) + 2 < match pp_lines parsed with l :: _ => ln_number l | [] => 0 end ->
  require_canonical_program_envelope (of_chars (text_of enveloped)) parsed = Ok ().
Proof.
  intros Hfirst. destruct (text_bytes enveloped Hprint) as [Ha _].
  unfold require_canonical_program_envelope, decode.
  rewrite chars_of_chars, Ha. cbn [negb raise_if mbind result_bind]. cbv zeta.
  rewrite splitlines_text, nonblank_lines by done.
  set (mid := pre ++ chars EXECUTION_POLICY_MARKER :: post) in *.
  destruct (numbered_at [] (chars "%") (mid ++ [chars "%"])) as (ns1 & ns2 & E & L1 & L2).
  destruct ns1; [|done]. cbn [length app zip_with] in E. rewrite length_app in L2.
  destruct ns2 as [|n ns2 _] using rev_ind; [cbn in L2; lia|].
  rewrite length_app in L2. cbn [length] in L2.
  rewrite zip_with_app in E by lia. cbn [zip_with] in E.
  assert (map fst (filter (fun il => snd il = ["%"%char]) (numbered enveloped)) = [1; n]) as Ep.
  { unfold enveloped. fold mid. rewrite E. rewrite filter_cons, decide_True by done. rewrite filter_app.
    rewrite (filter_none _ (zip ns2 mid)) by exact (Forall_zip _ ns2 mid not_percent).
    cbn [app]. rewrite filter_cons, decide_True by done. done. }
  assert (map fst (filter (fun il => snd il = chars EXECUTION_POLICY_MARKER) (numbered enveloped)) =
            [Z.of_nat (length pre) + 2]) as Em.
  { destruct (numbered_at (chars "%" :: pre) (chars EXECUTION_POLICY_MARKER) (post ++ [chars "%"]))
      as (m1 & m2 & E' & _).
    replace enveloped with ((chars "%" :: pre) ++ chars EXECUTION_POLICY_MARKER :: post ++ [chars "%"])
      by (unfold enveloped; cbn [app]; by rewrite <- app_assoc).
    rewrite E', filter_app, filter_cons, decide_True by done.
    rewrite (filter_none _ (zip m1 _)), (filter_none _ (zip m2 _)).
    - cbn [app map fst length]. f_equal. lia.
    - apply (Forall_zip (fun l => ~ l = chars EXECUTION_POLICY_MARKER)), Forall_app.
      split; [|by repeat constructor]. eapply Forall_impl; [exact Hpost|]. by intros l [_ ?].
    - apply (Forall_zip (fun l => ~ l = chars EXECUTION_POLICY_MARKER)).
      constructor; [discriminate|]. eapply Forall_impl; [exact Hpre|]. by intros l [_ ?]. }
  rewrite Ep, Em. unfold enveloped. fold mid. rewrite E.
  assert (last ((Z.of_nat 0 + 1, chars "%") :: zip ns2 mid ++ [(n, chars "%")]) = Some (n, chars "%")) as El
    by exact (last_snoc (n, chars "%") ((Z.of_nat 0 + 1, chars "%") :: zip ns2 mid)).
  destruct (zip ns2 mid ++ [(n, chars "%")]) eqn:Ez; [by apply app_eq_nil in Ez as [_ ?]|].
  rewrite El.
  rewrite (bool_decide_true (chars "%" = ["%"%char])) by done. rewrite bool_decide_true by done.
  cbn [negb orb raise_if mbind result_bind]. by rewrite (proj2 (Z.leb_gt _ _) Hfirst).
Qed.
End Envelope.

(** ** A program is accepted *)

(** A line strictly inside the envelope. *)
Definition inner (l : list ascii) : Prop := solid l /\ l <> chars "%" /\ l <> chars EXECUTION_POLICY_MARKER.

Lemma comment_inner c body : c <> "C"%char -> inner ("("%char :: c :: body ++ [")"%char]).
Proof.
  intros Hc. split_and!; [|done|].
  - split_and!; [done|done|]. rewrite !app_comm_cons, rev_app_distr. reflexivity.
  - intros E. by injection E as -> _.
Qed.

Ltac literal_inner := repeat split; (reflexivity || discriminate).

Lemma numeral_inner c l v : 0 <= v -> is_space c = false -> c <> "%"%char -> c <> "("%char ->
  inner (c :: l ++ chars (um_to_mm v)).
Proof.
  intros Hv Hs H1 H2. split_and!; [split_and!| |]; [done|done| | |].
  - rewrite app_comm_cons. by apply ends_in_numeral.
  - intros E. injection E as E _. done.
  - intros E. injection E as E _. done.
Qed.

Section Accepted.
Context (d : OperationsDocument) (s : Setup) (Hs : printable_setup d s).

Lemma safe_z_inner : inner (chars (safe_z_line s)).
Proof. destruct Hs. unfold safe_z_line. rewrite chars_app. by apply (numeral_inner _ ["0"; " "; "Z"]%char). Qed.

Lemma named_comment_inner c prefix value : c <> "C"%char ->
  inner (chars ("(" +:+ String c prefix +:+ safe_comment value +:+ ")")).
Proof.
  intros Hc. rewrite chars_app. change (chars "(") with ["("%char].
  change (String c prefix +:+ safe_comment value +:+ ")") with (String c (prefix +:+ safe_comment value +:+ ")")).
  change (chars (String c (prefix +:+ safe_comment value +:+ ")")))
    with (c :: chars (prefix +:+ safe_comment value +:+ ")")).
  rewrite !chars_app, app_assoc. by apply comment_inner.
Qed.

Lemma move_line_inner m : move_inside s m -> inner (chars (move_line s m)).
Proof.
  intros [_ H]. unfold move_line. destruct (mv_x_um m) as [x|]; [|apply safe_z_inner].
  destruct (mv_y_um m) as [y|]; [|apply safe_z_inner].
  rewrite !chars_app. change (chars "G0 X") with ["G"; "0"; " "; "X"]%char. rewrite !app_assoc.
  apply (numeral_inner _ ((["0"; " "; "X"]%char ++ chars (um_to_mm x)) ++ chars " Y")); [lia|done..].
Qed.

Lemma move_lines_inner previous moves :
  Forall (move_inside s) moves -> Forall inner (map chars (move_lines s previous moves)).
Proof.
  intros F. revert previous; induction F as [|m moves Hm _ IH]; intros previous; [constructor|].
  cbn [move_lines]. rewrite map_app. apply Forall_app. split.
  - case_bool_decide; [constructor|]. cbn [map].
    apply Forall_cons_2; [by apply named_comment_inner|]. apply Forall_cons_2; [|constructor].
    literal_inner.
  - apply Forall_cons_2; [by apply move_line_inner | apply IH].
Qed.

Definition pre_lines : list (list ascii) :=
  map chars ["(CUSTOMBUILD LINUXCNC REFERENCE)"; "(VALIDATION DRY RUN - NOT PRODUCTION APPROVED)";
             "(NO SPINDLE START; NO CUTTING Z MOVES)"].

Definition post_lines (moves : list ValidationMove) : list (list ascii) :=
  map chars (drop 5 (preamble d s)) ++ map chars (move_lines s "" moves) ++ map chars (take 5 (trailer s)).

Lemma program_enveloped moves : map chars (program_lines d s moves) = enveloped pre_lines (post_lines moves).
Proof.
  unfold program_lines, enveloped, post_lines, pre_lines. rewrite !map_app.
  cbn [preamble trailer drop take map app]. by rewrite <- !app_assoc.
Qed.

Lemma wcs_inner : inner (chars (su_wcs s)).
Proof.
  destruct Hs as [H%wcs_cases].
  repeat (apply elem_of_cons in H as [->|H]; [literal_inner|]). by apply not_elem_of_nil in H.
Qed.

Lemma post_inner moves : Forall (move_inside s) moves -> Forall inner (post_lines moves).
Proof.
  intros F. unfold post_lines. rewrite !Forall_app. split_and!; [|by apply move_lines_inner|].
  - cbn [preamble drop map].
    repeat first [apply Forall_nil_2 | apply Forall_cons_2]; try literal_inner.
    + by apply (named_comment_inner "D" "ESIGN HASH ").
    + by apply (named_comment_inner "S" "ETUP ").
    + by apply (named_comment_inner "O" "RIENTATION ").
    + apply wcs_inner.
    + apply safe_z_inner.
  - cbn [trailer take map]. repeat first [apply Forall_nil_2 | apply Forall_cons_2]; try literal_inner.
    apply safe_z_inner.
Qed.

Lemma first_line_number k z moves :
  match pp_lines (parsed_program (program_words k z moves)) with l :: _ => ln_number l | [] => 0 end = 10.
Proof.
  unfold parsed_program. rewrite read_all_lines. cbn [app pp_lines empty_program].
  unfold program_words. cbn [opening_words app].
  destruct (numbered_at (replicate 9 []) [gword 21]
    ([gword 17; gword 40; gword 49; gword 80; gword 90; gword 94] :: [mword 5] :: [mword 9] ::
     [mkWord "G" (dec_tenths 922)] :: [gword k] :: safe_z_words z ::
     move_line_words z "" moves ++ closing_words z ++ [[]])) as (ns1 & ns2 & E & _).
  rewrite E, filter_app, filter_cons, decide_True by done.
  rewrite (filter_none _ (zip ns1 _)); [done|].
  apply (Forall_zip (fun ws => ~ ws <> [])), Forall_replicate. by intros H.
Qed.

Definition program_text (moves : list ValidationMove) : string :=
  of_chars (text_of (map chars (program_lines d s moves))).

Lemma wcs_parses : parse_required_wcs (su_wcs s) = Ok (wcs_number (su_wcs s)) /\ 54 <= wcs_number (su_wcs s) <= 59.
Proof.
  destruct Hs as [H%wcs_cases].
  repeat (apply elem_of_cons in H as [->|H]; [vm_compute; split; [reflexivity | split; discriminate]|]).
  by apply not_elem_of_nil in H.
Qed.

(** The text of a printable setup is encoded and passes the safety validator,
    which reads back the words of its lines. *)
Lemma program_text_accepted moves : Forall (move_inside s) moves ->
  encode_lines (program_lines d s moves) = Ok (program_text moves) /\
  validate_validation_program (program_text moves) (um_decimal (su_safe_z_um s)) (um_decimal (su_safe_z_um s))
    (dec_int 0, um_decimal (su_stock_width_um s)) (dec_int 0, um_decimal (su_stock_height_um s)) (su_wcs s) =
  Ok (parsed_program (program_words (wcs_number (su_wcs s)) (su_safe_z_um s) moves)).
Proof.
  intros F. pose proof (program_reads d s Hs moves F) as R.
  assert (printable_lines (map chars (program_lines d s moves))) as P
    by (apply Forall_map; exact (program_printable d s Hs moves F)).
  destruct (text_bytes _ P) as [Ha _]. destruct wcs_parses as [Ew Hk]. pose proof Hs as [_ Hz Hwd Hht _ _ _].
  split.
  { unfold encode_lines, program_text, text_of in *. rewrite map_map in Ha |- *.
    rewrite Ha. reflexivity. }
  unfold validate_validation_program, validate_bounds. cbn [fst snd].
  rewrite !dec_ltb_um_zero, dec_ltb_um, Z.ltb_irrefl by done. cbn [raise_if mbind result_bind].
  rewrite Ew. cbn [mbind result_bind]. unfold program_text.
  rewrite (parse_text _ _ P R). cbn [mbind result_bind]. fold (parsed_program
    (program_words (wcs_number (su_wcs s)) (su_safe_z_um s) moves)).
  set (k := wcs_number (su_wcs s)) in *. set (z := su_safe_z_um s) in *.
  pose proof (post_inner moves F) as Pi.
  rewrite program_enveloped in P |- *. rewrite envelope_accepted; [|..].
  - cbn [mbind result_bind].
    destruct (program_header k z moves Hk) as (H1 & H2 & H3 & H4).
    unfold validate_parsed. rewrite H1, H2, H3, H4. cbn [pp_units pp_absolute pp_spindle_start_seen pp_minimum_z safe_header].
    rewrite bool_decide_true, dec_ltb_um_zero by done. cbn [negb raise_if mbind result_bind].
    pose proof (program_accepted z _ _ Hz Hwd Hht (su_wcs s) k Hk moves) as A. unfold accepts, checks in A.
    rewrite A; [|by eapply Forall_impl; [exact F|intros m [_ ?]]|apply program_lines_words].
    cbn [finished v_m2_count v_offsets_suspended v_offsets_restored negb orb Z.eqb Pos.eqb raise_if mbind result_bind].
    by rewrite (structure_accepted k z moves _ (program_lines_words k z moves)).
  - repeat constructor; discriminate.
  - eapply Forall_impl; [exact Pi|]. by intros l (_ & ? & ?).
  - exact P.
  - unfold enveloped. constructor; [literal_inner|]. rewrite !Forall_app. split; [|repeat constructor; discriminate].
    split; [repeat constructor; discriminate|]. constructor; [literal_inner|].
    eapply Forall_impl; [exact Pi|]. by intros l (? & _).
  - rewrite first_line_number. done.
Qed.
End Accepted.

(** ** Programs of a valid document *)

Lemma key_char_printable c : is_key_char c = true -> printable c = true.
Proof.
  unfold is_key_char, is_alnum, printable, ascii_in. intros H.
  change (N_of_ascii " ") with 32%N. change (N_of_ascii "~") with 126%N.
  change (N_of_ascii "a") with 97%N in H. change (N_of_ascii "z") with 122%N in H.
  change (N_of_ascii "A") with 65%N in H. change (N_of_ascii "Z") with 90%N in H.
  change (N_of_ascii "0") with 48%N in H. change (N_of_ascii "9") with 57%N in H.
  rewrite !orb_true_iff, !andb_true_iff, !N.leb_le, bool_decide_eq_true in H.
  rewrite andb_true_iff, !N.leb_le. destruct H as [[[?|?]|?]|H]; [lia..|].
  repeat (apply elem_of_cons in H as [->|H]; [vm_compute; split; discriminate|]). by apply not_elem_of_nil in H.
Qed.

Lemma canonical_id_printable s : is_canonical_id s = true -> printable_text s.
Proof.
  unfold is_canonical_id, identity_up_to, printable_text. destruct (chars s) as [|c l]; [done|].
  intros [[Hc Hl]%andb_true_iff _]%andb_true_iff. constructor.
  - apply key_char_printable. unfold is_key_char. by rewrite Hc.
  - apply Forall_forall. intros c' Hc'%list_elem_of_In. apply key_char_printable.
    rewrite forallb_forall in Hl. by apply Hl.
Qed.

Lemma design_hash_printable s : design_hash_ok s = true -> printable_text s.
Proof.
  unfold design_hash_ok. intros [_ H]%andb_true_iff. apply Forall_forall. intros c Hc%list_elem_of_In.
  rewrite forallb_forall in H. apply H in Hc. apply key_char_printable.
  unfold is_key_char, is_alnum. apply orb_true_iff in Hc as [Hd|Hf].
  - unfold is_digit in Hd. by rewrite Hd, !orb_true_r.
  - assert (ascii_in "a" "z" c = true) as ->; [|done]. unfold ascii_in in *.
    rewrite !andb_true_iff, !N.leb_le in *. change (N_of_ascii "f") with 102%N in Hf.
    change (N_of_ascii "z") with 122%N. lia.
Qed.

Lemma valid_printable d m s :
  all_errors d (Some m) = [] -> resolve_reference_machine (od_machine_profile_id d) = Some m ->
  s ∈ od_setups d -> printable_setup d s.
Proof.
  intros H E Hs. pose proof (valid_setup d m s H E Hs) as V. unfold validate_setup in V. cbv zeta in V.
  unfold all_errors in H. apply app_eq_nil in H as [H _]. unfold header_errors in H. no_errors.
  repeat match goal with
  | H : negb _ = false |- _ => apply negb_false_iff in H
  | H : _ || _ = false |- _ => apply orb_false_iff in H as [? ?]
  | H : bool_decide (su_orientation _ = _) = true |- _ => apply bool_decide_eq_true in H
  | H : (_ <=? _) = false |- _ => apply Z.leb_gt in H
  end.
  split; [done|lia..| | |].
  - by apply design_hash_printable.
  - by apply canonical_id_printable.
  - match goal with H : su_orientation s = _ |- _ => rewrite H end.
    destruct (bool_decide (su_side s = SIDE_B)); by apply literal_printable.
Qed.

(** Every move comes from an operation of the document and its setup. *)
Definition move_of (d : OperationsDocument) (mv : ValidationMove) : Prop :=
  exists o s n, o ∈ od_operations d /\ setups_by_id d !! op_setup_id o = Some s /\ mv ∈ moves_of_operation o s n.

Lemma backplot_moves d m :
  all_errors d (Some m) = [] -> resolve_reference_machine (od_machine_profile_id d) = Some m ->
  exists bp, (forall machine, require_valid_operations d machine = Ok () ->
               build_validation_backplot d machine = Ok bp) /\ Forall (move_of d) (bp_moves bp).
Proof.
  intros H E. unfold build_validation_backplot.
  set (step := fun moves o =>
    s ← of_option (setups_by_id d !! op_setup_id o) (KeyError (op_setup_id o));
    Ok (moves ++ moves_of_operation o s (Z.of_nat (length moves) + 1))).
  destruct (foldM_total step (od_operations d) []) as [moves Hm].
  { intros moves o Ho. destruct (valid_operation d m o H E Ho) as (s & Es & _). unfold step. rewrite Es. cbn. eauto. }
  eexists. split; [intros machine ->; cbn [mbind result_bind]; fold step; rewrite Hm; reflexivity|].
  cbn [bp_moves]. refine (foldM_inv (Forall (move_of d)) step _ _ _ _ _ Hm); [|constructor].
  intros moves1 o moves2 Ho F Hstep. unfold step in Hstep. inv_ok. apply Forall_app. split; [done|].
  apply Forall_forall. intros mv Hmv. by exists o, x, (Z.of_nat (length moves1) + 1).
Qed.

Lemma move_of_inside d m s mv :
  all_errors d (Some m) = [] -> resolve_reference_machine (od_machine_profile_id d) = Some m ->
  s ∈ od_setups d -> move_of d mv -> mv_setup_id mv = su_setup_id s -> move_inside s mv.
Proof.
  intros H E Hs (o & s' & n & Ho & Es & Hmv) Eid.
  assert (mv_setup_id mv = op_setup_id o /\ mv_operation_id mv = op_operation_id o) as [E1 E2].
  { unfold moves_of_operation in Hmv. apply elem_of_cons in Hmv as [->|Hmv]; [done|].
    by apply list_elem_of_fmap in Hmv as (? & -> & _). }
  assert (s' = s) as ->.
  { assert (setups_by_id d !! su_setup_id s = Some s) as Es' by (apply dict_of_elem; [by eapply valid_setup_ids|done]).
    congruence. }
  destruct (valid_operation d m o H E Ho) as (s' & Es' & V). rewrite Es in Es'. injection Es' as <-.
  split.
  - rewrite E2. unfold validate_operation, identity_errors in V. cbv zeta in V. no_errors.
    apply canonical_id_printable.
    match goal with H : Forall _ _ |- _ => apply Forall_cons in H as [Hid _] end.
    by apply error_if_nil, negb_false_iff in Hid.
  - pose proof (valid_points _ _ _ _ _ V) as P. unfold moves_of_operation in Hmv.
    apply elem_of_cons in Hmv as [->|Hmv]; [done|].
    apply list_elem_of_fmap in Hmv as ([k [x y]] & -> & Hin). cbn [mv_x_um mv_y_um fst snd].
    apply elem_of_zip_r in Hin. rewrite Forall_forall in P. by apply (P (x, y)).
Qed.

Lemma decimal_of_um v : 0 <= v -> decimal_of (um_to_mm v) = Ok (um_decimal v).
Proof.
  intros Hv. unfold decimal_of. rewrite <- (app_nil_r (chars (um_to_mm v))), match_um by done. done.
Qed.

(** The moves of a setup. *)
Definition setup_moves (bp : ValidationBackplot) (s : Setup) : list ValidationMove :=
  filter (fun m => mv_setup_id m = su_setup_id s) (bp_moves bp).

Lemma setup_program_ok d m bp s :
  all_errors d (Some m) = [] -> resolve_reference_machine (od_machine_profile_id d) = Some m ->
  s ∈ od_setups d -> Forall (move_of d) (bp_moves bp) ->
  setup_program d bp s = Ok (mkMachineProgram (safe_filename (su_setup_id s) +:+ ".validation.ngc") (su_setup_id s)
    controller_name postprocessor_version "VALIDATION_DRY_RUN" (program_text d s (setup_moves bp s)) false) /\
  validate_validation_program (program_text d s (setup_moves bp s)) (um_decimal (su_safe_z_um s))
    (um_decimal (su_safe_z_um s)) (dec_int 0, um_decimal (su_stock_width_um s))
    (dec_int 0, um_decimal (su_stock_height_um s)) (su_wcs s) =
  Ok (parsed_program (program_words (wcs_number (su_wcs s)) (su_safe_z_um s) (setup_moves bp s))).
Proof.
  intros H E Hs F. pose proof (valid_printable d m s H E Hs) as P.
  assert (Forall (move_inside s) (setup_moves bp s)) as Fi.
  { apply Forall_forall. intros mv [Eid Hin]%list_elem_of_filter. rewrite Forall_forall in F.
    by apply (move_of_inside d m s mv H E Hs); [apply F|]. }
  destruct (program_text_accepted d s P _ Fi) as [Et Ev]. split; [|exact Ev].
  unfold setup_program. fold (setup_moves bp s). rewrite Et. cbn [mbind result_bind].
  pose proof P as [_ Hz Hw Hh _ _ _]. rewrite !decimal_of_um by done. cbn [mbind result_bind].
  rewrite Ev. reflexivity.
Qed.

(** C10: the postprocessor never rejects its own output.  For every operations
    document that passes the CAM validation, [generate] returns one program per
    setup, and the safety validator accepts each program with the safe height,
    stock bounds and coordinate system of its setup.  What it parses is exactly
    the canonical opening, the backplot moves of the setup in order, with each
    coordinate as its millimetre decimal, and the canonical ending. *)
Theorem generate_accepted (d : OperationsDocument) (machine : option MachineProfile) :
  fst (validate_operations_document d machine) = true ->
  exists backplot programs,
    build_validation_backplot d machine = Ok backplot /\ generate d machine = Ok programs /\
    Forall2 (fun s p =>
      pg_setup_id p = su_setup_id s /\
      exists parsed,
        validate_validation_program (pg_content p) (um_decimal (su_safe_z_um s)) (um_decimal (su_safe_z_um s))
          (dec_int 0, um_decimal (su_stock_width_um s)) (dec_int 0, um_decimal (su_stock_height_um s)) (su_wcs s)
          = Ok parsed /\
        map ln_words (pp_lines parsed) =
          opening_words (wcs_number (su_wcs s)) (su_safe_z_um s) ++
          map (move_words (su_safe_z_um s)) (setup_moves backplot s) ++ closing_words (su_safe_z_um s))
      (od_setups d) programs.
Proof.
  intros V%valid_iff. destruct (valid_machine d machine V) as (m & E & Hm & V').
  destruct (backplot_moves d m V' E) as (bp & Hbp & F).
  exists bp. assert (forall s, s ∈ od_setups d -> exists p, setup_program d bp s = Ok p) as T.
  { intros s Hs. eexists. exact (proj1 (setup_program_ok d m bp s V' E Hs F)). }
  destruct (traverse_total _ _ T) as [programs Hp]. exists programs.
  split; [apply Hbp, require_valid; destruct Hm as [->| ->]; done|]. split.
  - unfold generate. assert (match machine with Some m0 => Ok m0
        | None => of_option (resolve_reference_machine (od_machine_profile_id d))
            (CAMValidationError "validation postprocessor cannot resolve the document machine profile") end = Ok m) as ->
      by (destruct Hm as [-> | ->]; [by rewrite E | done]).
    cbn [mbind result_bind]. rewrite (require_valid d (Some m) V'). cbn [mbind result_bind].
    rewrite (Hbp (Some m)) by by apply require_valid. exact Hp.
  - apply traverse_Ok in Hp. revert Hp. apply Forall2_elem. intros s p Hs Hsp.
    destruct (setup_program_ok d m bp s V' E Hs F) as [Ep Ev]. rewrite Ep in Hsp. injection Hsp as <-.
    split; [done|]. eexists. split; [exact Ev | apply program_lines_words].
Qed.
