(* ===== verification/Envelopes.v ===== *)
(** * Cutter envelopes: the lowering against the validator

    [operations.py] transforms the machining bounds of a feature to machine
    coordinates; [validation.py] computes the envelope it expects from the
    transformed nominal rectangle and the source-side dogbone declarations.
    The two computations agree. *)

From S2P Require Import Prelude Text ManufacturingModel Nesting Machining Operations CamValidation.

(** Decides the comparisons of literal names in the goal. *)
Ltac literals :=
  repeat match goal with
  | |- context [bool_decide (?a = ?b)] =>
      first [rewrite (bool_decide_true (a = b)) by reflexivity | rewrite (bool_decide_false (a = b)) by discriminate]
  end; cbn [orb andb negb].

(** ** Edges *)

(** The source edge that becomes a machine edge. *)
Definition source_edge (rotated_90 : bool) (side : Side) (machine_edge : string) : string :=
  let e := flip_edge side machine_edge in
  if rotated_90 then
    if bool_decide (e = "y_min") then "u_min" else if bool_decide (e = "y_max") then "u_max"
    else if bool_decide (e = "x_max") then "v_min" else "v_max"
  else
    if bool_decide (e = "x_min") then "u_min" else if bool_decide (e = "x_max") then "u_max"
    else if bool_decide (e = "y_min") then "v_min" else "v_max".

Definition machine_edges (rotated_90 : bool) (side : Side) (declared : list string) : list string :=
  omap (fun e => flip_edge side <$> edge_mapping rotated_90 e) (remove_dups declared).

Lemma machine_edges_spec rotated side declared e :
  e ∈ ["x_min"; "x_max"; "y_min"; "y_max"] -> declared ⊆ ALLOWED_OPEN_END_RELIEFS ->
  bool_decide (e ∈ machine_edges rotated side declared) = bool_decide (source_edge rotated side e ∈ declared).
Proof.
  intros He Hd. apply bool_decide_ext. unfold machine_edges. rewrite list_elem_of_omap. split.
  - intros (s & Hs & E). rewrite elem_of_remove_dups in Hs. pose proof (Hd s Hs) as Ha. unfold ALLOWED_OPEN_END_RELIEFS in Ha.
    assert (source_edge rotated side e = s) as ->; [|done].
    repeat (apply elem_of_cons in Ha as [->|Ha]; [destruct rotated, side; injection E as <-; reflexivity|]).
    by apply not_elem_of_nil in Ha.
  - intros H. exists (source_edge rotated side e). rewrite elem_of_remove_dups. split; [done|]. clear H.
    repeat (apply elem_of_cons in He as [->|He]; [by destruct rotated, side|]). by apply not_elem_of_nil in He.
Qed.

(** Opening edges moves each side of the box whose edge is listed. *)
Lemma open_edges n r edges x0 x1 y0 y1 :
  foldl (open_machine_edge n r) ((x0, x1), (y0, y1)) edges =
    ((if bool_decide ("x_min" ∈ edges) then r_x_um n - r else x0,
      if bool_decide ("x_max" ∈ edges) then right_um n + r else x1),
     (if bool_decide ("y_min" ∈ edges) then r_y_um n - r else y0,
      if bool_decide ("y_max" ∈ edges) then top_um n + r else y1)).
Proof.
  revert x0 x1 y0 y1; induction edges as [|e edges IH]; intros; [done|].
  assert (forall s, bool_decide (s ∈ e :: edges) = bool_decide (s = e) || bool_decide (s ∈ edges)) as E
    by (intros s; apply eq_true_iff_eq; rewrite orb_true_iff, !bool_decide_eq_true; apply elem_of_cons).
  rewrite !E. cbn [foldl]. unfold open_machine_edge at 2.
  assert (forall s, bool_decide (s = e) = bool_decide (e = s)) as Sym by (intros s; by apply bool_decide_ext).
  rewrite !Sym. destruct (decide (e = "x_min")) as [->|N1]; [literals; rewrite IH; by destruct (bool_decide _)|].
  rewrite (bool_decide_false (e = "x_min")) by done.
  destruct (decide (e = "x_max")) as [->|N2]; [literals; rewrite IH; by destruct (bool_decide ("x_max" ∈ _))|].
  rewrite (bool_decide_false (e = "x_max")) by done.
  destruct (decide (e = "y_min")) as [->|N3]; [literals; rewrite IH; by destruct (bool_decide ("y_min" ∈ _))|].
  rewrite (bool_decide_false (e = "y_min")) by done.
  destruct (decide (e = "y_max")) as [->|N4]; [literals; rewrite IH; by destruct (bool_decide ("y_max" ∈ _))|].
  rewrite (bool_decide_false (e = "y_max")) by done. apply IH.
Qed.

(** ** Boxes on the machine *)

(** The rectangle with the given sides. *)
Definition box_rect (b : box) : Rect :=
  let '((x0, x1), (y0, y1)) := b in mkRect x0 y0 (x1 - x0) (y1 - y0).

Definition proper_box (b : box) : Prop := let '((x0, x1), (y0, y1)) := b in x0 <= x1 /\ y0 <= y1.

Lemma rect_eta r : mkRect (r_x_um r) (r_y_um r) (r_width_um r) (r_height_um r) = r.
Proof. by destruct r. Qed.

(** A box of a part, in machine coordinates. *)
Definition machine_box (p : Placement) (h : Z) (side : Side) (b : box) : box :=
  let '((x0, x1), (y0, y1)) := b in
  let '((u0, u1), (v0, v1)) :=
    if np_rotated_90 p
    then ((np_x_um p + np_width_um p - y1, np_x_um p + np_width_um p - y0), (np_y_um p + x0, np_y_um p + x1))
    else ((np_x_um p + x0, np_x_um p + x1), (np_y_um p + y0, np_y_um p + y1)) in
  ((u0, u1), if bool_decide (side = SIDE_B) then (h - v1, h - v0) else (v0, v1)).

Definition machine_circle (p : Placement) (h : Z) (side : Side) (c : Point2D * Z) : Point2D * Z :=
  let '(x, y) := transform_point_to_machine (p2_x_um (fst c)) (p2_y_um (fst c)) p h side in
  (mkPoint2D x y, snd c).

Lemma machine_box_grow p h side b c :
  machine_box p h side (grow b c) = grow (machine_box p h side b) (machine_circle p h side c).
Proof.
  destruct b as [[x0 x1] [y0 y1]], c as [[cx cy] r].
  unfold machine_box, machine_circle, transform_point_to_machine.
  destruct (np_rotated_90 p), (bool_decide (side = SIDE_B)); cbn; f_equal; f_equal; lia.
Qed.

Lemma machine_box_grow_all p h side circles b :
  machine_box p h side (foldl grow b circles) =
  foldl grow (machine_box p h side b) (map (machine_circle p h side) circles).
Proof. revert b; induction circles as [|c circles IH]; intros b; [done|]. cbn. by rewrite IH, machine_box_grow. Qed.

Lemma proper_box_grow_all circles b : proper_box b -> proper_box (foldl grow b circles).
Proof.
  revert b; induction circles as [|[[cx cy] r] circles IH]; intros [[x0 x1] [y0 y1]] H; [done|].
  apply IH. cbn in *. lia.
Qed.

Lemma transform_box p h side b : proper_box b ->
  transform_rect_to_machine (box_rect b) p h side = box_rect (machine_box p h side b).
Proof.
  destruct b as [[x0 x1] [y0 y1]]. cbn. intros H. rewrite transform_rect_eq by (split; cbn; lia).
  unfold machine_box, top_um, box_rect. destruct (np_rotated_90 p), (bool_decide (side = SIDE_B)); cbn; f_equal; lia.
Qed.

(** ** Valid features *)

Lemma int_or_nonneg s d : positive_or_none s = true -> 0 <= d -> 0 <= int_or s d.
Proof. destruct s as [z|]; [|done]. cbn. intros H Hd. bprop. destruct (z =? 0); lia. Qed.

Section valid_feature.
Context (f : ManufacturingFeature) (Valid : new_ManufacturingFeature f = Ok f).

(** The declared ends of a feature are among the four ends. *)
Lemma declared_ends : mf_open_end_reliefs f ⊆ ALLOWED_OPEN_END_RELIEFS.
Proof.
  unfold new_ManufacturingFeature in Valid. inv_ok. bprop. by apply py_subset_spec.
Qed.

Lemma bounds_box : bounds f = box_rect ((r_x_um (bounds f), right_um (bounds f)), (r_y_um (bounds f), top_um (bounds f))).
Proof. destruct (bounds f). unfold right_um, top_um. cbn. f_equal; lia. Qed.

Lemma cutter_radius_nonneg : 0 <= cutter_radius f.
Proof.
  unfold new_ManufacturingFeature in Valid. inv_ok. bprop. unfold cutter_radius.
  destruct (dogbone_strategy _); [by apply int_or_nonneg | done].
Qed.

Lemma bounds_proper : is_round (mf_kind f) = false -> proper_rect (bounds f).
Proof.
  unfold new_ManufacturingFeature in Valid. inv_ok. bprop. intros Area. unfold bounds. rewrite Area.
  cbn [forallb] in *. bprop. by split; repeat apply int_or_nonneg.
Qed.

End valid_feature.

(** ** The lowering and the validator *)

Section agreement.
Context (layout : NestingLayout) (p : Placement) (i : PartInstance)
  (f : ManufacturingFeature) (tool : ToolSpec).
Context (Valid : new_ManufacturingFeature f = Ok f) (Area : is_round (mf_kind f) = false).

Let h := stock_height_um layout.
Let o := area_operation layout p i f tool.
Let nominal := transform_rect_to_machine (bounds f) p h (mf_side f).

(** The ends that run out, moved with the part. *)
Definition opened_box : box :=
  foldl (open_machine_edge nominal (cutter_radius f))
    ((r_x_um nominal, right_um nominal), (r_y_um nominal, top_um nominal))
    (machine_edges (np_rotated_90 p) (mf_side f) (mf_open_end_reliefs f)).

Lemma opened_box_eq : machine_box p h (mf_side f) (open_box f) = opened_box.
Proof.
  unfold opened_box. rewrite open_edges, !machine_edges_spec by (by apply declared_ends || set_solver).
  unfold nominal. rewrite transform_rect_eq by (by apply bounds_proper).
  unfold machine_box, open_box, overhang, source_edge, flip_edge, right_um, top_um.
  destruct (np_rotated_90 p), (bool_decide (mf_side f = SIDE_B)); literals; cbn;
    repeat match goal with |- context [bool_decide (?s ∈ _)] => destruct (bool_decide (s ∈ _)) end;
    f_equal; f_equal; lia.
Qed.

(** A corner of the source, moved with the part, is the corner the validator
    looks at. *)
Definition corner_circle (radius : Z) (uv : string * string) : Point2D * Z :=
  (mkPoint2D (if bool_decide (fst uv = "u_min") then r_x_um (bounds f) else right_um (bounds f))
             (if bool_decide (snd uv = "v_min") then r_y_um (bounds f) else top_um (bounds f)), radius).

Lemma grow_corner_eq strategy radius b uv : uv ∈ corner_points ->
  grow_corner o nominal radius strategy b uv =
  if corner_suppressed strategy (mf_open_end_reliefs f) uv then b
  else grow b (machine_circle p h (mf_side f) (corner_circle radius uv)).
Proof.
  intros Huv. unfold grow_corner, nominal. rewrite transform_rect_eq by (by apply bounds_proper).
  change (op_open_end_reliefs o) with (mf_open_end_reliefs f). change (op_side o) with (mf_side f).
  change (op_source_rotation_90 o) with (np_rotated_90 p).
  destruct (corner_suppressed _ _ _); [done|]. destruct b as [[x0 x1] [y0 y1]].
  unfold machine_circle, transform_point_to_machine, source_corner_machine_boundaries, corner_circle, right_um, top_um.
  unfold corner_points in Huv.
  repeat (apply elem_of_cons in Huv as [->|Huv];
    [destruct (np_rotated_90 p), (bool_decide (mf_side f = SIDE_B)); cbn; literals; cbn; f_equal; f_equal; lia|]).
  by apply not_elem_of_nil in Huv.
Qed.
(** The envelope the validator expects is the box of the moved circles. *)
Lemma expected_dogbone strategy radius :
  mf_corner_strategy f = Some strategy -> dogbone_strategy (Some strategy) = true ->
  mf_corner_relief_radius_um f = Some radius ->
  expected_versioned_dogbone_envelope o nominal =
  box_rect (foldl grow (machine_box p h (mf_side f) (open_box f))
              (map (machine_circle p h (mf_side f)) (relief_circles f))).
Proof.
  intros Es Ed Er.
  assert (cutter_radius f = radius) as Ec.
  { pose proof Valid as V. unfold new_ManufacturingFeature in V. inv_ok. bprop.
    unfold cutter_radius. rewrite Es, Ed, Er in *. cbn in *. bprop. by rewrite (proj2 (Z.eqb_neq radius 0)) by lia. }
  rewrite opened_box_eq. unfold expected_versioned_dogbone_envelope, opened_box.
  change (op_corner_strategy o) with (mf_corner_strategy f). rewrite Es.
  change (op_corner_relief_radius_um o) with (mf_corner_relief_radius_um f). rewrite Er, Ed, Ec.
  cbv zeta.
  rewrite (foldl_ext_in _ (fun b uv => if corner_suppressed strategy (mf_open_end_reliefs f) uv then b
     else grow b (machine_circle p h (mf_side f) (corner_circle radius uv)))) by (intros; by apply grow_corner_eq).
  rewrite foldl_skip. unfold relief_circles. rewrite Er, Es, Ed, map_map. cbv zeta.
  erewrite list_filter_iff; [reflexivity|]. intros uv. unfold corner_suppressed.
  by rewrite (bool_decide_ext (Some strategy = Some "dogbone-v1") (strategy = "dogbone-v1")) by (split; congruence).
Qed.

Lemma expected_plain :
  (forall strategy radius, mf_corner_strategy f = Some strategy -> mf_corner_relief_radius_um f = Some radius ->
     dogbone_strategy (Some strategy) = false) ->
  expected_versioned_dogbone_envelope o nominal = nominal /\ machining_bounds f = bounds f.
Proof.
  intros H. unfold expected_versioned_dogbone_envelope, machining_bounds, relief_circles, open_box, overhang, cutter_radius.
  change (op_corner_strategy o) with (mf_corner_strategy f).
  change (op_corner_relief_radius_um o) with (mf_corner_relief_radius_um f).
  rewrite bounds_box. destruct (bounds f) as [x y w l]. unfold right_um, top_um.
  destruct (mf_corner_strategy f) as [s|], (mf_corner_relief_radius_um f) as [r|];
    try rewrite (H s r) by done; cbn; repeat case_match; (split; [done|]); f_equal; lia.
Qed.
End agreement.

(** C27: the lowering and the safety validator agree on where a cutter goes.
    The generator transforms the envelope of the cutter, with its dogbone
    circles and its open ends, from the part to the machine; the validator
    starts from the transformed nominal rectangle and rebuilds the envelope from
    the declared strategy, rotating and flipping the ends and corners itself.
    For every valid area feature, placement, side and tool the two envelopes are
    the same rectangle. *)
Theorem dogbone_envelope_agrees (layout : NestingLayout) (p : Placement) (i : PartInstance)
    (f : ManufacturingFeature) (tool : ToolSpec) :
  new_ManufacturingFeature f = Ok f -> is_round (mf_kind f) = false ->
  let o := area_operation layout p i f tool in
  exists nominal, nominal_envelope o = Some nominal /\
    cutter_envelope o = Some (expected_versioned_dogbone_envelope o nominal).
Proof.
  intros Valid Area o. set (h := stock_height_um layout).
  set (nominal := transform_rect_to_machine (bounds f) p h (mf_side f)).
  exists nominal. split; [apply (f_equal Some), rect_eta|].
  transitivity (Some (transform_rect_to_machine (machining_bounds f) p h (mf_side f)));
    [apply (f_equal Some), rect_eta|].
  f_equal.
  destruct (mf_corner_strategy f) as [s|] eqn:Es, (mf_corner_relief_radius_um f) as [r|] eqn:Er;
    [destruct (dogbone_strategy (Some s)) eqn:Ed| | |];
    [|(pose proof (expected_plain layout p i f tool) as [E1 E2]; [congruence|];
       rewrite E2; symmetry; exact E1)..].
  transitivity (box_rect (machine_box p h (mf_side f) (foldl grow (open_box f) (relief_circles f))));
    [|rewrite machine_box_grow_all; symmetry; exact (expected_dogbone layout p i f tool Valid Area s r Es Ed Er)].
  apply transform_box, proper_box_grow_all.
  pose proof (bounds_proper f Valid Area) as [? ?]. pose proof (cutter_radius_nonneg f Valid).
  unfold open_box, overhang, proper_box, right_um, top_um. repeat case_match; lia.
Qed.

(** A groove with a closed end and an open end, on a rotated part, seen from
    the back. *)
Definition dogbone_groove : ManufacturingFeature :=
  mkMFeature "feature-1" "part-1" GROOVE SIDE_B 40000 50000 6000 None (Some 300000) (Some 18500) (Some 3000) 1
    None false (Some "dogbone-v2") (Some 3000) ["u_min"] 50 500 no_metadata.

Definition groove_placement : Placement := mkPlacement "part-1:001" "part-1" "sheet" 0 10000 20000 300000 800000 true.

Definition groove_layout : NestingLayout :=
  mkNestingLayout (mkStockSheet "sheet" "birch" "1" 2500000 1250000 18000 4 10000 6000 "NONE" true [] [] "")
    [groove_placement] [] 1 96000 "".

Definition groove_part : PartInstance :=
  mkPartInstance "part-1:001"
    (mkPartSpec "part-1" "panel" 800000 300000 18000 "birch" "1" [dogbone_groove] "NONE" true 1 0 None None
       default_axis_mapping [] [] None).

Definition groove_cutter : ToolSpec :=
  mkTool "cutter-6" "cutter" 6000 20000 [OP_GROOVE] 18000 3000000 1000000 None 0 "1".

Lemma dogbone_envelope_agrees_witness :
  let o := area_operation groove_layout groove_placement groove_part dogbone_groove groove_cutter in
  new_ManufacturingFeature dogbone_groove = Ok dogbone_groove /\
  nominal_envelope o = Some (mkRect 241500 890000 18500 300000) /\
  exists nominal, nominal_envelope o = Some nominal /\
    cutter_envelope o = Some (expected_versioned_dogbone_envelope o nominal).
Proof.
  intros o. assert (new_ManufacturingFeature dogbone_groove = Ok dogbone_groove) as H by (vm_compute; reflexivity).
  split; [exact H|]. split; [vm_compute; reflexivity|].
  exact (dogbone_envelope_agrees _ _ _ dogbone_groove _ H eq_refl).
Defined.
