(* ===== verification/CamExamples.v ===== *)
(** * From parts to programs, on concrete panels

    Two side panels with shelf-pin holes, a dogboned groove and their outer
    contour are nested, lowered to operations for the reference router,
    validated, and written as programs. *)

From S2P Require Import Prelude Text Identity ManufacturingModel Nesting LayoutCheck Machining Grain Dfm DfmSafety Operations OperationsOrder CamValidation GCode GCodeText DryRun.

Definition side_pins : ManufacturingFeature :=
  mkMFeature "pins" "side" DRILL_PATTERN SIDE_A 50000 60000 12000 (Some 5000) None None None 3 (Some 32000)
    false None None [] 100 0 no_metadata.

Definition side_groove : ManufacturingFeature :=
  mkMFeature "groove" "side" GROOVE SIDE_A 0 150000 6000 None (Some 200000) (Some 18500) None 1 None
    false (Some "dogbone-v2") (Some 3000) ["u_min"] 50 500 no_metadata.

Definition side_contour : ManufacturingFeature :=
  mkMFeature "outer" "side" OUTER_CONTOUR SIDE_A 0 0 18000 None (Some 400000) (Some 250000) None 1 None
    true None None [] 100 0
    (mkMetadata None None None None false [] (Some "OUTSIDE") (Some RELEASE_HOLDING_STRATEGY) true None None false).

Definition side_panel : PartSpec :=
  mkPartSpec "side" "side" 400000 250000 18000 "birch-ply-18" "1.0.0" [side_pins; side_groove; side_contour] "X" true 2
    1000 None None default_axis_mapping [] [] None.

Definition panel_stock : StockSheet :=
  mkStockSheet "sheet-1" "birch-ply-18" "1.0.0" 1200000 600000 18000 2 10000 6000 "X" true [] [] "operator".

Definition panel_layout : NestingLayout := layout_of_state panel_stock (place_all panel_stock (expand_part_instances [side_panel])).

Definition panel_hash : string := "0123456789abcdef0123456789abcdef0123456789abcdef0123456789abcdef".

Definition panel_document : result OperationsDocument :=
  generate_operations_document panel_layout linuxcnc_reference_router_1325 panel_hash [inl side_panel] true ∅.

(** The document the panels are lowered to; without one, an empty document. *)
Definition panel_operations : OperationsDocument :=
  match panel_document with
  | Ok d => d
  | Err _ => mkOperationsDocument "" "" "" "" [] [] "" "" "" []
  end.

Lemma panel_lowered : panel_document = Ok panel_operations.
Proof. vm_compute. reflexivity. Qed.

Lemma panel_valid : fst (validate_operations_document panel_operations None) = true.
Proof. vm_compute. reflexivity. Qed.

Lemma generate_accepted_witness :
  panel_document = Ok panel_operations /\
  length (od_operations panel_operations) = 10%nat /\
  exists backplot programs,
    build_validation_backplot panel_operations None = Ok backplot /\
    generate panel_operations None = Ok programs /\ length programs = 1%nat.
Proof.
  split; [exact panel_lowered|]. split; [vm_compute; reflexivity|].
  destruct (generate_accepted panel_operations None panel_valid) as (backplot & programs & Hb & Hp & F).
  exists backplot, programs. split; [exact Hb|]. split; [exact Hp|].
  rewrite <- (Forall2_length _ _ _ F). vm_compute. reflexivity.
Defined.

(** ** The design-for-manufacturing report of the panels *)

Definition panel_instances : list PartInstance := expand_part_instances [side_panel].

Lemma panel_accepted : dfm_validate linuxcnc_reference_router_1325 [inl side_panel] panel_layout = Ok [].
Proof. vm_compute. reflexivity. Qed.

Lemma panel_places : nl_placements panel_layout =
  [mkPlacement "side:001" "side" "sheet-1" 0 10000 10000 400000 250000 false;
   mkPlacement "side:002" "side" "sheet-1" 0 416000 10000 400000 250000 false].
Proof. vm_compute. reflexivity. Qed.

(** Inside the groove six millimetres are cut, and the groove keeps its wall. *)
Lemma accepted_wall_remains_witness :
  covers side_groove 100000 155000 /\ minimum_wall side_groove = 3000 /\
  exists low high, keeps_wall side_panel low high side_groove /\
    forall f z, f ∈ ps_features side_panel -> low <= z < high -> ~ removes side_panel f 100000 155000 z.
Proof.
  assert (covers side_groove 100000 155000) as Cg by (split; [reflexivity|vm_compute; split; split; discriminate || reflexivity]).
  split; [exact Cg|]. split; [reflexivity|].
  destruct (accepted_wall_remains linuxcnc_reference_router_1325 [inl side_panel] panel_layout panel_instances []
           (mkPartInstance "side:001" side_panel) 100000 155000) as (low & high & _ & _ & W & R).
  - vm_compute. reflexivity.
  - exact panel_accepted.
  - reflexivity.
  - vm_compute. left.
  - intros f Hf [C _]. cbn in Hf.
    repeat (apply elem_of_cons in Hf as [->|Hf]; [first [discriminate C|split; [reflexivity|discriminate]]|]).
    by apply not_elem_of_nil in Hf.
  - exists low, high. split; [apply (W side_groove); [right; left|exact Cg]|exact R].
Defined.

(** ** The order of the operations of the panels *)

Lemma panel_document_lowered :
  lower_document panel_layout linuxcnc_reference_router_1325 panel_hash panel_instances ∅ = Ok panel_operations.
Proof. vm_compute. reflexivity. Qed.

(** The outlines, which free the panels, are cut last. *)
Lemma operations_in_cutting_order_witness :
  map op_feature_id (od_operations panel_operations) =
    ["pins"; "pins"; "pins"; "pins"; "pins"; "pins"; "groove"; "groove"; "outer"; "outer"] /\
  (exists o, last (od_operations panel_operations) = Some o /\ frees_part panel_layout panel_instances o) /\
  exists all sheets, lowering panel_layout linuxcnc_reference_router_1325 panel_hash panel_instances ∅
    panel_operations all sheets /\ od_operations panel_operations ≡ₚ map lo_operation all /\
    Forall (StronglySorted (may_precede (frees_part panel_layout panel_instances))) sheets.
Proof.
  split; [vm_compute; reflexivity|]. split.
  - eexists. split; [vm_compute; reflexivity|].
    exists (mkPlacement "side:002" "side" "sheet-1" 0 416000 10000 400000 250000 false), (mkPartInstance "side:002" side_panel), side_contour.
    split; [rewrite panel_places; right; left|]. split; [vm_compute; reflexivity|].
    split; [right; right; left|]. split; [reflexivity|]. split; [reflexivity|]. vm_compute. reflexivity.
  - destruct (operations_in_cutting_order panel_layout linuxcnc_reference_router_1325 panel_hash panel_instances ∅
      panel_operations panel_document_lowered) as (all & sheets & L & _ & P & F).
    exists all, sheets. split; [exact L|]. split; [exact P|].
    apply Forall_forall. intros ops (s & _ & _ & S)%(Forall2_elem_r _ _ _ _ F). exact S.
Defined.

Lemma operations_cover_features_witness :
  exists i, dict_of pi_instance_id panel_instances !! "side:001" = Some i /\
    exists l, lo_operation l ∈ od_operations panel_operations /\
      operation_of panel_layout linuxcnc_reference_router_1325
        (mkPlacement "side:001" "side" "sheet-1" 0 10000 10000 400000 250000 false) i side_groove l.
Proof.
  destruct (proj2 (proj2 (operations_cover_features panel_layout linuxcnc_reference_router_1325 panel_hash panel_instances ∅
    panel_operations panel_document_lowered))
    (mkPlacement "side:001" "side" "sheet-1" 0 10000 10000 400000 250000 false)) as (i & Hi & H);
    [rewrite panel_places; left|].
  exists i. split; [exact Hi|].
  assert (i = mkPartInstance "side:001" side_panel) as -> by (vm_compute in Hi; injection Hi as <-; reflexivity).
  apply (H side_groove); [right; left|vm_compute; reflexivity].
Defined.
