(* ===== verification/Rules.v ===== *)
(** * The rule engine

    [packages/rule-engine/src/custombuild_rules/engine.py] and [models.py]:
    deterministic structural screening of a compiled bookcase, and the automatic
    correction that adds dividers until the screen passes.  A Python [Fraction]
    is a rational [Q]; a division by zero raises.  The nested models of an
    evaluation check their fields when the evaluation is constructed, in the
    order in which the code constructs them. *)

From Stdlib Require Import QArith Qround.
From S2P Require Import Prelude Text Geometry Enums Models Identity DesignResult BookcaseParts JointGeometry BookcaseJoints AssemblyGraph.

#[local] Open Scope Z_scope.

(** ** [models.py] *)

Inductive RuleStatus := RULE_PASS | RULE_WARNING | RULE_BLOCK.
#[export] Instance RuleStatus_eq_dec : EqDecision RuleStatus.
Proof. solve_decision. Defined.

Inductive ActionType :=
  | ADD_VERTICAL_DIVIDER | ALIGN_BASE_CABINETS | ADD_BACK_PANEL | VERIFY_WALL_ANCHOR
  | USE_STRONGER_MATERIAL | INCREASE_THICKNESS | REDUCE_LOAD | VERIFY_HARDWARE_CAPACITY
  | VERIFY_DRY_JOINING_SYSTEM | REGENERATE_JOINT_GEOMETRY.
#[export] Instance ActionType_eq_dec : EqDecision ActionType.
Proof. solve_decision. Defined.

Definition ActionType_value (a : ActionType) : string :=
  match a with
  | ADD_VERTICAL_DIVIDER => "add_vertical_divider" | ALIGN_BASE_CABINETS => "align_base_cabinets"
  | ADD_BACK_PANEL => "add_back_panel" | VERIFY_WALL_ANCHOR => "verify_wall_anchor"
  | USE_STRONGER_MATERIAL => "use_stronger_material" | INCREASE_THICKNESS => "increase_thickness"
  | REDUCE_LOAD => "reduce_load" | VERIFY_HARDWARE_CAPACITY => "verify_hardware_capacity"
  | VERIFY_DRY_JOINING_SYSTEM => "verify_dry_joining_system"
  | REGENERATE_JOINT_GEOMETRY => "regenerate_joint_geometry"
  end.

(** [Scalar = int | str | bool | None] *)
Inductive Scalar := ScInt (z : Z) | ScStr (s : string) | ScBool (b : bool) | ScNone.

Record RuleDatum := mkRuleDatum { rd_name : string; rd_value : Scalar; rd_unit : option string }.

Definition new_RuleDatum (d : RuleDatum) : result unit :=
  field (str_len 1 100 (rd_name d)) "name";;
  field (optional (str_len 0 32) (rd_unit d)) "unit".

Record CalculationStep := mkCalculationStep {
  cs_expression : string; cs_result : string; cs_unit : option string }.

Definition new_CalculationStep (s : CalculationStep) : result unit :=
  field (str_len 1 500 (cs_expression s)) "expression";;
  field (str_len 1 100 (cs_result s)) "result";;
  field (optional (str_len 0 32) (cs_unit s)) "unit".

Record ParameterChange := mkParameterChange { pc_path : string; pc_before : Scalar; pc_after : Scalar }.

(** [^[a-z][a-z0-9_.]+$] *)
Definition path_pattern (s : string) : bool :=
  match chars s with
  | c :: rest =>
      ascii_in "a" "z" c && negb (bool_decide (rest = [])) &&
      forallb (fun c => ascii_in "a" "z" c || is_digit c || bool_decide (c = "_"%char)
                        || bool_decide (c = "."%char)) rest
  | _ => false
  end.

Definition new_ParameterChange (c : ParameterChange) : result unit := field (path_pattern (pc_path c)) "path".

Record SuggestedAction := mkSuggestedAction {
  sa_action_id : string;
  sa_action_type : ActionType;
  sa_description : string;
  sa_changes : list ParameterChange;
  sa_requires_user_evidence : bool }.

Definition new_SuggestedAction (a : SuggestedAction) : result unit :=
  check_all new_ParameterChange (sa_changes a);;
  field (str_len 8 64 (sa_action_id a)) "action_id";;
  field (str_len 1 500 (sa_description a)) "description".

Record RuleEvaluation := mkRuleEvaluation {
  re_rule_id : string;
  re_rule_version : string;
  re_title : string;
  re_status : RuleStatus;
  re_applies_to_part_ids : list string;
  re_inputs : list RuleDatum;
  re_assumptions : list string;
  re_trace : list CalculationStep;
  re_calculated_value : Z;
  re_allowed_value : Z;
  re_unit : string;
  re_safety_margin_permille : Z;
  re_suggested_actions : list SuggestedAction }.

(** [^CB-[A-Z]+-[0-9]{3}$] *)
Definition rule_id_pattern (s : string) : bool :=
  match split_char "-" (chars s) with
  | [a; b; c] =>
      bool_decide (of_chars a = "CB") && negb (bool_decide (b = [])) && forallb (ascii_in "A" "Z") b &&
      bool_decide (length c = 3%nat) && forallb is_digit c
  | _ => false
  end.

(** [^[0-9]+\.[0-9]+\.[0-9]+$] *)
Definition version_pattern (s : string) : bool :=
  match split_char "." (chars s) with
  | [a; b; c] => forallb (fun l => negb (bool_decide (l = [])) && forallb is_digit l) [a; b; c]
  | _ => false
  end.

Definition new_RuleEvaluation (e : RuleEvaluation) : result RuleEvaluation :=
  check_all new_SuggestedAction (re_suggested_actions e);;
  check_all new_RuleDatum (re_inputs e);;
  check_all new_CalculationStep (re_trace e);;
  field (rule_id_pattern (re_rule_id e)) "rule_id";;
  field (version_pattern (re_rule_version e)) "rule_version";;
  field (str_len 1 160 (re_title e)) "title";;
  Ok e.

Record RuleReport := mkRuleReport {
  rr_design_hash : string;
  rr_rules_version : string;
  rr_overall_status : RuleStatus;
  rr_evaluations : list RuleEvaluation }.

Definition status_rank (s : RuleStatus) : Z :=
  match s with RULE_PASS => 0 | RULE_WARNING => 1 | RULE_BLOCK => 2 end.

(** [max(statuses, key=rank, default=PASS)]: the first of the highest rank. *)
Definition aggregate_status (statuses : list RuleStatus) : RuleStatus :=
  match statuses with
  | [] => RULE_PASS
  | s :: rest => foldl (fun best s => if status_rank best <? status_rank s then s else best) s rest
  end.

Definition overall_matches_evaluations (r : RuleReport) : result unit :=
  raise_if (negb (bool_decide (aggregate_status (map re_status (rr_evaluations r)) = rr_overall_status r)))
    (ValueError "overall rule status does not match the evaluations").

Definition new_RuleReport (r : RuleReport) : result RuleReport :=
  field (Sha256Hex (rr_design_hash r)) "design_hash";;
  field (version_pattern (rr_rules_version r)) "rules_version";;
  overall_matches_evaluations r;;
  Ok r.

Record DesignDiff := mkDesignDiff {
  dd_sequence : Z;
  dd_action_type : ActionType;
  dd_reason_rule_id : string;
  dd_changes : list ParameterChange;
  dd_design_hash_before : string;
  dd_design_hash_after : string;
  dd_explanation : string }.

Definition new_DesignDiff (d : DesignDiff) : result DesignDiff :=
  check_all new_ParameterChange (dd_changes d);;
  field (PositiveUm (dd_sequence d)) "sequence";;
  field (Sha256Hex (dd_design_hash_before d)) "design_hash_before";;
  field (Sha256Hex (dd_design_hash_after d)) "design_hash_after";;
  Ok d.

Record AutoCorrectionResult := mkAutoCorrectionResult {
  ac_original_design : DesignResult;
  ac_corrected_spec : BookcaseDesignSpec;
  ac_corrected_design : DesignResult;
  ac_initial_report : RuleReport;
  ac_final_report : RuleReport;
  ac_diffs : list DesignDiff;
  ac_resolved : bool }.

(** ** Arithmetic helpers of [engine.py] *)

Definition RULES_VERSION : string := "1.5.0".
Definition MAX_AUTO_VERTICAL_DIVIDERS : Z := 16.

(** [Fraction(a, b)] *)
Definition fraction (a b : Z) : result Q :=
  match b with
  | Z0 => Err ZeroDivisionError
  | Zpos d => Ok (a # d)
  | Zneg d => Ok (- a # d)
  end.

(** [x / y] of fractions. *)
Definition fraction_div (x y : Q) : result Q :=
  if Qeq_bool y 0 then Err ZeroDivisionError else Ok (x / y)%Q.

Definition ceil (q : Q) : Z := - (- Qnum q / Zpos (Qden q)).

(** [int(q)] truncates towards zero. *)
Definition trunc (q : Q) : Z := Z.quot (Qnum q) (Zpos (Qden q)).

Definition margin_permille (calculated allowed : Z) : Z :=
  if allowed <=? 0 then -1000000 else (allowed - calculated) * 1000 / allowed.

Definition threshold_status (calculated allowed warning_permille : Z) : RuleStatus :=
  if allowed <? calculated then RULE_BLOCK
  else if allowed * warning_permille <=? calculated * 1000 then RULE_WARNING
  else RULE_PASS.

(** [round(z / 1_000)]: half to even.  The float quotient is exact where the
    remainder is one half, and rounding it elsewhere cannot cross a half for
    coordinates below 2^43 micrometres. *)
Definition round_thousandth (z : Z) : Z :=
  let q := z / 1000 in
  let r := z mod 1000 in
  if r <? 500 then q else if 500 <? r then q + 1 else if Z.even q then q else q + 1.

Definition datum (name : string) (value : Scalar) (unit : string) : RuleDatum :=
  mkRuleDatum name value (Some unit).
Definition datum_plain (name : string) (value : Scalar) : RuleDatum := mkRuleDatum name value None.
Definition step (expression result unit : string) : CalculationStep :=
  mkCalculationStep expression result (Some unit).
Definition step_plain (expression result : string) : CalculationStep := mkCalculationStep expression result None.

(** [a // b] *)
Definition floordiv (a b : Z) : result Z := if b =? 0 then Err ZeroDivisionError else Ok (a / b).

Definition ids_of (parts : list PartInstance) : list string := map part_id parts.

(** ** [RuleEngine]: what the rules measure *)

Section Engine.
Context (design : DesignResult).
Let spec := dr_spec design.
Let p := spec_parameters spec.
Let material := spec_material spec.

Definition rule_action_id (suffix : string) : string :=
  stable_id "rule-action" [dr_design_hash design; suffix].

Definition parts_of_role (role : PartRole) : list PartInstance :=
  filter (fun q => part_role q = role) (dr_parts design).

Definition shelves : list PartInstance := parts_of_role SHELF.

Definition member_of (i : string) (j : Joint) : bool := bool_decide (i ∈ j_part_ids j).

(** [_shelf_clear_span]: between the support faces of the joints. *)
Definition support_x (shelf_part_id : string) : list Z :=
  map (fun j => pt_x_um (j_mating_origin j)) (filter (fun j => member_of shelf_part_id j = true) (dr_joints design)).

Definition shelf_clear_span (shelf_part_id : string) (fallback_width_um : Z) : Z :=
  let xs := support_x shelf_part_id in
  if bool_decide (2 <= length xs)%nat && (minZ 0 xs <? maxZ 0 xs)
  then maxZ 0 xs - minZ 0 xs else fallback_width_um.

Definition clear_span (q : PartInstance) : Z := shelf_clear_span (part_id q) (d_width_um (part_finished_size q)).
Definition width_of (q : PartInstance) : Z := d_width_um (part_finished_size q).
Definition shelf_depth_of (q : PartInstance) : Z := d_depth_um (part_finished_size q).

Definition representative_row : list PartInstance :=
  take (Z.to_nat (p_vertical_divider_count p + 1)) (sort_by (cmp_on part_instance_index Z.compare) shelves).

(** [ceil(weight * 981 / 100_000)] newtons. *)
Definition weight_n (weight_g : Z) : Z := ceil (weight_g * 981 # 100000).

(** [_shelf_load_components]: the widest segment's share of a row's load, and
    the heaviest segment's own weight. *)
Definition shelf_load_components : result (Q * Z) :=
  if bool_decide (shelves = []) then Ok (0%Q, 0)
  else
    let row_width := sumZ (map width_of representative_row) in
    let widest := maxZ 0 (map width_of shelves) in
    let dead_weight_n := weight_n (maxZ 0 (map part_weight_g shelves)) in
    share ← fraction widest row_width;
    Ok (share, dead_weight_n).

Record ShelfGeometry := mkShelfGeometry {
  sg_span : Z; sg_depth : Z; sg_thickness : Z; sg_design_load_n : Z; sg_affected : list string }.

(** [_shelf_geometry].  The dictionary [spans] is keyed by part identifiers,
    which are distinct in a design result. *)
Definition shelf_geometry : result ShelfGeometry :=
  if bool_decide (shelves = []) then Ok (mkShelfGeometry 0 1 (p_actual_thickness_um p) 0 [])
  else
    let worst_span := maxZ 0 (map clear_span shelves) in
    let shelf_depth := minZ 0 (map shelf_depth_of shelves) in
    let affected := ids_of (filter (fun q => clear_span q = worst_span) shelves) in
    '(share, dead_weight_n) ← shelf_load_components;
    Ok (mkShelfGeometry worst_span shelf_depth (p_actual_thickness_um p)
          (ceil (inject_Z (p_shelf_load_n p) * share) + dead_weight_n) affected).

(** ** Suggested actions *)

Definition divider_actions : list SuggestedAction :=
  let current := p_vertical_divider_count p in
  if MAX_AUTO_VERTICAL_DIVIDERS <=? current then []
  else
    [mkSuggestedAction (rule_action_id (ActionType_value ADD_VERTICAL_DIVIDER)) ADD_VERTICAL_DIVIDER
       "Lägg till en genomgående vertikal avdelare för att korta fri spännvidd; räkna därefter om delar, fogar, BOM, nesting och montering."
       [mkParameterChange "parameters.vertical_divider_count" (ScInt current) (ScInt (current + 1))] false].

Definition dry_joining_action : SuggestedAction :=
  mkSuggestedAction (rule_action_id "verify-dry-joining-system") VERIFY_DRY_JOINING_SYSTEM
    "Välj och versionslås ett självlåsande torrförband eller en demonterbar mekanisk säkring som hindrar isärdragning; adhesiver är förbjudna. Beslutet är endast designgranskning och ger inte fysisk frisläppning."
    [] true.

(** ** The rules *)

(** Deflection in micrometres, and its limit. *)
Definition deflection_um (g : ShelfGeometry) : result Z :=
  if bool_decide (sg_affected g = []) then Ok 0
  else
    q ← fraction (5 * sg_design_load_n g * sg_span g ^ 3 * 1000000 * (1000 + mat_creep_factor_permille material))
          (32 * mat_elastic_modulus_mpa material * sg_depth g * sg_thickness g ^ 3
           * (1000 - mat_property_uncertainty_permille material));
    Ok (ceil q).

Definition allowed_deflection_um (g : ShelfGeometry) : Z :=
  if sg_span g =? 0 then p_max_deflection_um p
  else Z.min (p_max_deflection_um p) (sg_span g / p_deflection_span_ratio p).

Definition shelf_deflection : result RuleEvaluation :=
  g ← shelf_geometry;
  calculated ← deflection_um g;
  let allowed := allowed_deflection_um g in
  let status := threshold_status calculated allowed 800 in
  let actions :=
    if bool_decide (status = RULE_PASS) then []
    else divider_actions ++
      [mkSuggestedAction (rule_action_id "stronger-material-deflection") USE_STRONGER_MATERIAL
         "Välj en versionshanterad materialpost med högre verifierad elasticitetsmodul." [] false] in
  '(_, own_weight_n) ← shelf_load_components;
  new_RuleEvaluation (mkRuleEvaluation "CB-DEFLECTION-001" RULES_VERSION "Långtidsnedböjning för hylla" status
    (sg_affected g)
    [ datum "fri_spännvidd" (ScInt (sg_span g)) "µm";
      datum "hylllast_per_rad" (ScInt (p_shelf_load_n p)) "N";
      datum "dimensionerande_facklast" (ScInt (sg_design_load_n g)) "N";
      datum "hyllans_egentyngd" (ScInt own_weight_n) "N";
      datum "elasticitetsmodul" (ScInt (mat_elastic_modulus_mpa material)) "MPa";
      datum "materialosäkerhet" (ScInt (mat_property_uncertainty_permille material)) "‰";
      datum "krypfaktor" (ScInt (mat_creep_factor_permille material)) "‰" ]
    [ "Hyllan screenas som enkelt upplagd balk med jämnt fördelad total last.";
      "Angiven nyttig radlast fördelas efter fackbredd. Hyllsegmentets egenvikt tillkommer, även när den angivna lasten är noll.";
      "Egenvikten beräknas konservativt från den obearbetade rektangulära delen med g = 9,81 m/s² och avrundas uppåt till hela N.";
      "Elasticitetsmodulen reduceras med katalogpostens dokumenterade osäkerhet." ]
    [ step "δ = 5·W·L³/(32·E_eff·b·t³) · (1 + creep)" (str_of_Z calculated) "µm";
      step "δ_allow = min(max_deflection, L/span_ratio)" (str_of_Z allowed) "µm" ]
    calculated allowed "µm" (margin_permille calculated allowed) actions).

Definition bending_kpa (g : ShelfGeometry) : result Z :=
  if bool_decide (sg_affected g = []) then Ok 0
  else
    q ← fraction (3 * sg_design_load_n g * sg_span g * 1000000000) (4 * sg_depth g * sg_thickness g ^ 2);
    Ok (ceil q).

Definition allowed_bending_kpa : Z :=
  mat_bending_strength_mpa material * (1000 - mat_property_uncertainty_permille material) * 1000
  / p_structural_safety_factor_permille p.

Definition shelf_bending : result RuleEvaluation :=
  g ← shelf_geometry;
  calculated_kpa ← bending_kpa g;
  let allowed_kpa := allowed_bending_kpa in
  let status := threshold_status calculated_kpa allowed_kpa 800 in
  let actions :=
    if bool_decide (status = RULE_PASS) then []
    else divider_actions ++
      [mkSuggestedAction (rule_action_id "increase-thickness-bending") INCREASE_THICKNESS
         "Välj ett tjockare kompatibelt material och generera en ny designrevision." [] false] in
  '(_, own_weight_n) ← shelf_load_components;
  new_RuleEvaluation (mkRuleEvaluation "CB-BENDING-001" RULES_VERSION "Böjspänning i hylla" status (sg_affected g)
    [ datum "fri_spännvidd" (ScInt (sg_span g)) "µm";
      datum "hyllbredd_i_böjning" (ScInt (sg_depth g)) "µm";
      datum "uppmätt_tjocklek" (ScInt (sg_thickness g)) "µm";
      datum "dimensionerande_facklast" (ScInt (sg_design_load_n g)) "N";
      datum "hyllans_egentyngd" (ScInt own_weight_n) "N";
      datum "säkerhetsfaktor" (ScInt (p_structural_safety_factor_permille p)) "‰" ]
    [ "Jämnt fördelad nyttig last plus hyllans egenvikt och enkelt upplagd hylla.";
      "Tillåten spänning reduceras för materialosäkerhet och säkerhetsfaktor." ]
    [ step "σ_max = 3·W·L/(4·b·t²)" (str_of_Z calculated_kpa) "kPa";
      step "σ_allow = f_b·(1-uncertainty)/safety_factor" (str_of_Z allowed_kpa) "kPa" ]
    calculated_kpa allowed_kpa "kPa" (margin_permille calculated_kpa allowed_kpa) actions).

(** ** Local bearing in the grooves *)

Record DadoSupportCase := mkDadoSupportCase {
  dc_joint_id : string;
  dc_shelf_part_id : string;
  dc_support_part_id : string;
  dc_engagement_um : Z;
  dc_bearing_length_um : Z;
  dc_bearing_area_um2 : Z;
  dc_allowed_load_n : Z }.

Definition support_area (shelf : PartInstance) (f : ManufacturingFeature) (engagement_um : Z)
    : option (Z * Z) :=
  match omap (M:=list) id [fd_width_um (f_dimensions f); fd_length_um (f_dimensions f)] with
  | [] => None
  | lengths =>
      let bearing_length_um := Z.min (shelf_depth_of shelf) (maxZ 0 lengths) in
      Some (bearing_length_um, engagement_um * bearing_length_um)
  end.

Definition allowed_bearing_n (area_um2 : Z) : Z :=
  mat_shear_strength_mpa material * area_um2 * (1000 - mat_property_uncertainty_permille material)
  / (1000 * (1000 + mat_creep_factor_permille material) * p_structural_safety_factor_permille p).

(** The groove of the member that is cut, if the support is of the design's
    material. *)
Definition support_case (j : Joint) (shelf support : PartInstance) (feature : option ManufacturingFeature)
    : option DadoSupportCase :=
  f ← feature;
  engagement_um ← fd_depth_um (f_dimensions f);
  if bool_decide (f_kind f = GROOVE) &&
     bool_decide (part_material_id support = mat_material_id material) &&
     bool_decide (part_material_version support = mat_version material)
  then
    '(bearing_length_um, bearing_area_um2) ← support_area shelf f engagement_um;
    Some (mkDadoSupportCase (j_joint_id j) (part_id shelf) (part_id support) engagement_um bearing_length_um
            bearing_area_um2 (allowed_bearing_n bearing_area_um2))
  else None.

Definition part_by_id (i : string) : result PartInstance :=
  of_option (dr_part_by_id design !! i) (KeyError i).

(** One pass of the loop: [None] is [continue]. *)
Definition joint_case (j : Joint) : result (option DadoSupportCase) :=
  if negb (bool_decide (j_joint_type j = DADO)) then Ok None
  else
    shelf_members ← filterM (fun m => q ← part_by_id (jm_part_id m); Ok (bool_decide (part_role q = SHELF)))
                      (j_members j);
    match shelf_members, filter (fun m => jm_feature_ids m <> []) (j_members j) with
    | [shelf_member], [cut_member] =>
        match jm_feature_ids cut_member with
        | [feature_id] =>
            shelf ← part_by_id (jm_part_id shelf_member);
            support ← part_by_id (jm_part_id cut_member);
            Ok (support_case j shelf support (dr_feature_by_id design !! feature_id))
        | _ => Ok None
        end
    | _, _ => Ok None
    end.

Definition dado_support_cases : result (list DadoSupportCase) :=
  cases ← traverse joint_case (sort_by (cmp_on j_joint_id String.compare) (dr_joints design));
  Ok (omap (M:=list) id cases).

Definition case_cmp : DadoSupportCase -> DadoSupportCase -> comparison :=
  cmp_then (cmp_on dc_allowed_load_n Z.compare) (cmp_on dc_joint_id String.compare).

(** [min(cases, key=...)]: the first of the least. *)
Definition worst_case (c : DadoSupportCase) (rest : list DadoSupportCase) : DadoSupportCase :=
  foldl (fun best c => if case_cmp c best is Lt then c else best) c rest.

(** [ceil(design_load / 2)] *)
Definition support_demand_n (g : ShelfGeometry) : Z :=
  if bool_decide (shelves = []) then 0 else ceil (sg_design_load_n g # 2).

Definition material_version : string := mat_material_id material +:+ "@" +:+ mat_version material.
Definition material_source : string :=
  src_source_id (mat_source material) +:+ "@" +:+ src_revision (mat_source material).

Definition JOINT_TITLE : string := "Lokalt upplag i hyllspår och hyllbärare".

Definition load_inputs (mount : ShelfMount) (demand_n : Z) : list RuleDatum :=
  [ datum_plain "hylltyp" (ScStr (ShelfMount_value mount));
    datum "hylllast_per_rad" (ScInt (p_shelf_load_n p)) "N";
    datum "antal_fack" (ScInt (p_vertical_divider_count p + 1)) "fack";
    datum "dimensionerande_last_per_stöd" (ScInt demand_n) "N" ].

Definition demand_step (demand_n : Z) : CalculationStep :=
  step "R_stöd = ceil((ceil(W_rad·fackandel) + W_egen)/2)" (str_of_Z demand_n) "N".

Definition shelf_pin_joints : list Joint :=
  filter (fun j => j_joint_type j = SHELF_PIN /\ existsb (fun m => bool_decide (jm_part_id m ∈ ids_of shelves)) (j_members j) = true)
    (dr_joints design).

(** Adjustable shelves: no versioned capacity exists for a shelf pin. *)
Definition adjustable_joint_capacity (demand_n : Z) : result RuleEvaluation :=
  let skus := sorted_set (omap j_hardware_sku shelf_pin_joints) in
  new_RuleEvaluation (mkRuleEvaluation "CB-JOINT-001" RULES_VERSION JOINT_TITLE RULE_BLOCK
    (sorted_set (concat (map j_part_ids shelf_pin_joints)))
    (load_inputs ADJUSTABLE demand_n ++
     [ datum_plain "beslags_sku" (if bool_decide (skus = []) then ScNone else ScStr (str_join "|" skus));
       datum_plain "beslagskapacitetsversion" ScNone ])
    [ "Radlasten fördelas efter respektive facks bredd och reaktionen lika mellan två stöd per hyllsegment. Hyllans egenvikt tillkommer.";
      "Ingen leverantörskapacitet, materialkompatibilitet eller borrbild för hyllbäraren finns i den versionshanterade katalogen.";
      "Systemet antar därför inte ett beslagstal, inte ens vid noll angiven last.";
      "Lim, fogmassa, epoxy och annan adhesiv låsning är förbjuden enligt produktpolicyn." ]
    [ demand_step demand_n;
      step "F_tillåten = versionshanterad leverantörskapacitet" "saknas" "N" ]
    demand_n 0 "N" (-1000000)
    [ mkSuggestedAction (rule_action_id "verify-shelf-pin-capacity") VERIFY_HARDWARE_CAPACITY
        "Registrera versionshanterad tillverkardata för exakt hyllbärare, borrbild, material och uppmätt tjocklek innan designen godkänns."
        [] true;
      dry_joining_action ]).

(** Fixed shelves without a matching groove. *)
Definition missing_joint_capacity (demand_n : Z) : result RuleEvaluation :=
  new_RuleEvaluation (mkRuleEvaluation "CB-JOINT-001" RULES_VERSION JOINT_TITLE RULE_BLOCK
    (sort_strings (ids_of shelves))
    (load_inputs (p_shelf_mount p) demand_n ++
     [ datum "matchande_dado_stödfogar" (ScInt 0) "st";
       datum_plain "materialversion" (ScStr material_version);
       datum_plain "materialkälla" (ScStr material_source) ])
    [ "En fast hylla måste ha en matchande kanonisk DADO-stödfog innan lokal bärförmåga kan beräknas.";
      "Ingen fogarea eller tillåten last antas när den genererade geometrin saknas.";
      "Ett vanligt spår är endast geometriskt upplag och får inte beskrivas som permanent hållning utan verifierad självlåsning eller mekanisk säkring." ]
    [ step "A_bär = verkligt dado-insticksdjup · bärande hyllängd" "saknas" "µm²";
      step "F_tillåten = f_v,eff·A_bär" "ej beräknad" "N" ]
    demand_n 0 "N" (-1000000)
    [ mkSuggestedAction (rule_action_id "regenerate-joint-geometry") REGENERATE_JOINT_GEOMETRY
        "Regenerera designen från den versionsatta bokhyllemallen och utred varför fast hylla saknar en matchande DADO-stödfog."
        [] false;
      dry_joining_action ]).

(** The row load at which the screen would pass. *)
Definition recommended_row_load_n (allowed_n : Z) : result Z :=
  let pass_demand_n := Z.max 0 ((allowed_n * 800 - 1) / 1000) in
  '(share, dead_weight_n) ← shelf_load_components;
  let payload_capacity_n := Z.max 0 (2 * pass_demand_n - dead_weight_n) in
  payload ← (if Qeq_bool share 0 then Ok (p_shelf_load_n p)
             else q ← fraction_div (inject_Z payload_capacity_n) share; Ok (Qfloor q));
  Ok (Z.min (p_shelf_load_n p) payload).

Definition capacity_status (demand_n allowed_n : Z) : RuleStatus :=
  if bool_decide (shelves = []) then RULE_PASS else threshold_status demand_n allowed_n 800.

Definition capacity_actions (demand_n allowed_n : Z) : result (list SuggestedAction) :=
  if bool_decide (capacity_status demand_n allowed_n = RULE_PASS) then Ok [dry_joining_action]
  else
    row_load_n ← recommended_row_load_n allowed_n;
    Ok (divider_actions ++
        [ mkSuggestedAction (rule_action_id "reduce-joint-load") REDUCE_LOAD
            "Sänk angiven radlast till den deterministiskt beräknade nivån och validera en ny designrevision."
            [mkParameterChange "parameters.shelf_load_n" (ScInt (p_shelf_load_n p)) (ScInt row_load_n)] false;
          dry_joining_action ]).

Definition effective_shear_kpa : Z :=
  mat_shear_strength_mpa material * 1000 * (1000 - mat_property_uncertainty_permille material) * 1000
  / ((1000 + mat_creep_factor_permille material) * p_structural_safety_factor_permille p).

(** The bearing of the weakest groove, or the evaluation of no shelf at all. *)
Definition bearing_joint_capacity (demand_n : Z) (worst : option DadoSupportCase) : result RuleEvaluation :=
  let engagement_um := default 0 (dc_engagement_um <$> worst) in
  let bearing_length_um := default 0 (dc_bearing_length_um <$> worst) in
  let bearing_area_um2 := default 0 (dc_bearing_area_um2 <$> worst) in
  let allowed_n := default 0 (dc_allowed_load_n <$> worst) in
  let affected := match worst with Some c => sort_strings [dc_shelf_part_id c; dc_support_part_id c] | None => [] end in
  let status := if bool_decide (capacity_status demand_n allowed_n = RULE_BLOCK) then RULE_BLOCK else RULE_WARNING in
  actions ← capacity_actions demand_n allowed_n;
  new_RuleEvaluation (mkRuleEvaluation "CB-JOINT-001" RULES_VERSION JOINT_TITLE status affected
    (load_inputs (p_shelf_mount p) demand_n ++
     [ datum_plain "dimensionerande_fog_id" (match worst with Some c => ScStr (dc_joint_id c) | None => ScNone end);
       datum_plain "permanent_hållning_verifierad" (ScBool false);
       datum "dado_engagement" (ScInt engagement_um) "µm";
       datum "bärande_längd" (ScInt bearing_length_um) "µm";
       datum "bärande_area" (ScInt bearing_area_um2) "µm²";
       datum "skjuvhållfasthet" (ScInt (mat_shear_strength_mpa material)) "MPa";
       datum "materialosäkerhet" (ScInt (mat_property_uncertainty_permille material)) "‰";
       datum "krypfaktor" (ScInt (mat_creep_factor_permille material)) "‰";
       datum "strukturell_säkerhetsfaktor" (ScInt (p_structural_safety_factor_permille p)) "‰";
       datum_plain "materialversion" (ScStr material_version);
       datum_plain "materialkälla" (ScStr material_source);
       datum_plain "materialkällans_titel" (ScStr (src_title (mat_source material))) ])
    [ "Radlasten fördelas efter fackbredd och ger halva facklasten inklusive hyllans egenvikt som reaktion i vardera stödfogen.";
      "Bärande area härleds från den kanoniska fogens verkliga spårdjup gånger hyllans överlappande djup; nominell materialtjocklek används inte som instick.";
      "Versionspostens skjuvhållfasthet används konservativt som screening för lokal bärning/skjuvning och reduceras för osäkerhet, krypning och strukturell säkerhetsfaktor.";
      "Screeningen verifierar endast lokalt upplag; ett vanligt DADO-spår är inte självlåsande och verifierar inte permanent hållning.";
      "Fysisk montering kräver ett verifierat självlåsande torrförband eller en versionslåst mekanisk säkring som hindrar isärdragning i omvänd monteringsriktning.";
      "Lim, fogmassa, epoxy och annan adhesiv låsning är förbjuden och ingår aldrig som bärande antagande.";
      "Screeningen verifierar inte kantutbrott, slaglast, utmattning eller materialsats och är inte en certifiering av hela förbandet." ]
    [ demand_step demand_n;
      step "A_bär = verkligt dado-insticksdjup · bärande hyllängd" (str_of_Z bearing_area_um2) "µm²";
      step "f_v,eff = f_v·(1-u)/(1+creep)/säkerhetsfaktor" (str_of_Z effective_shear_kpa) "kPa";
      step "F_tillåten = f_v,eff·A_bär" (str_of_Z allowed_n) "N" ]
    demand_n allowed_n "N" (if bool_decide (shelves = []) then 0 else margin_permille demand_n allowed_n) actions).

Definition joint_capacity : result RuleEvaluation :=
  g ← shelf_geometry;
  let demand_n := support_demand_n g in
  if bool_decide (p_shelf_mount p = ADJUSTABLE) && negb (bool_decide (shelves = []))
  then adjustable_joint_capacity demand_n
  else
    cases ← dado_support_cases;
    if bool_decide (shelves = []) then bearing_joint_capacity demand_n None
    else match cases with
         | [] => missing_joint_capacity demand_n
         | c :: rest => bearing_joint_capacity demand_n (Some (worst_case c rest))
         end.

(** ** Stability and tipping *)

Definition lateral_stability : result RuleEvaluation :=
  slenderness ← floordiv (p_height_um p * 1000) (p_width_um p);
  let has_back := negb (bool_decide (p_back_panel p = BACK_NONE)) in
  let allowed := if has_back then 4000 else 1800 in
  let status := threshold_status slenderness allowed 750 in
  let status := if negb has_back && (1200000 <? p_height_um p) then RULE_BLOCK else status in
  let back_ids := ids_of (parts_of_role BACK) in
  let actions :=
    if bool_decide (status = RULE_PASS) then []
    else if negb has_back then
      [mkSuggestedAction (rule_action_id "back-panel") ADD_BACK_PANEL
         "Lägg till ett infällt ryggstycke som genererar fogar mot stommen."
         [mkParameterChange "parameters.back_panel" (ScStr (BackPanelType_value BACK_NONE))
            (ScStr (BackPanelType_value INSET_GROOVE))]
         (bool_decide (spec_back_material spec = None))]
    else divider_actions in
  new_RuleEvaluation (mkRuleEvaluation "CB-STABILITY-001" RULES_VERSION "Sidostabilitet och skevning" status
    (if bool_decide (back_ids = [])
     then ids_of (filter (fun q => part_role q = LEFT_SIDE \/ part_role q = RIGHT_SIDE) (dr_parts design))
     else back_ids)
    [ datum "höjd" (ScInt (p_height_um p)) "µm";
      datum "bredd" (ScInt (p_width_um p)) "µm";
      datum_plain "ryggstycke" (ScBool has_back) ]
    [ "Regeln är en konservativ slankhetskontroll för MVP-stommen.";
      "Ryggstyckets stabiliserande verkan förutsätter att alla genererade ryggfogar utförs." ]
    [ step "slankhetsindex = höjd/bredd · 1000" (str_of_Z slenderness) "‰" ]
    slenderness allowed "‰" (margin_permille slenderness allowed) actions).

Definition half (z : Z) : Q := z # 2.

(** The product's centre of gravity: bottom plus half the height of each part,
    weighted. *)
Definition product_cg_z : result Q :=
  let mass_g := dr_total_weight_g design in
  if mass_g =? 0 then Ok (half (p_height_um p))
  else fraction (sumZ (map (fun q => part_weight_g q * (2 * pl_z_um (part_placement q)
                                                        + d_height_um (part_finished_size q))) (dr_parts design)))
                (2 * mass_g).

(** The distinct heights of the shelves' upper faces, in order. *)
Definition shelf_surfaces_z : list Z :=
  sort_by Z.compare (remove_dups (map (fun q => pl_z_um (part_placement q) + d_height_um (part_finished_size q)) shelves)).

Record TipScreen := mkTipScreen {
  ts_shelf_rows : Z;
  ts_load_force_n : Z;
  ts_load_cg_z : Q;
  ts_combined_cg_z : Q;
  ts_resisting : Q;
  ts_overturning : Q;
  ts_factor_permille : Z }.

Definition tip_screen : result TipScreen :=
  cg ← product_cg_z;
  let shelf_rows := Z.of_nat (length shelf_surfaces_z) in
  raise_if (negb (shelf_rows =? p_shelf_count p))
    (ValueError "resolved shelf rows do not match the declared load rows");;
  let load_force_n := p_shelf_load_n p * shelf_rows in
  load_cg_z ← (if shelf_rows =? 0 then Ok 0%Q else fraction (sumZ shelf_surfaces_z) shelf_rows);
  let product_weight_n := dr_total_weight_g design * 981 # 100000 in
  let total_vertical_n := (product_weight_n + inject_Z load_force_n)%Q in
  combined_cg_z ← (if Qeq_bool total_vertical_n 0 then Ok (half (p_height_um p))
                   else fraction_div (product_weight_n * cg + inject_Z load_force_n * load_cg_z)%Q total_vertical_n);
  let resisting := (total_vertical_n * half (p_depth_um p))%Q in
  let overturning := (inject_Z (p_assumed_horizontal_force_n p) * combined_cg_z)%Q in
  factor_permille ← (if Qeq_bool overturning 0 then Ok 1000000
                     else q ← fraction_div (resisting * inject_Z 1000)%Q overturning; Ok (trunc q));
  Ok (mkTipScreen shelf_rows load_force_n load_cg_z combined_cg_z resisting overturning factor_permille).

Definition anchor_required : bool :=
  wa_required (p_wall_anchor p) || (4 * p_depth_um p <=? p_height_um p).

Definition tip_status (factor_permille : Z) : RuleStatus :=
  if anchor_required && negb (wa_verified (p_wall_anchor p)) then RULE_WARNING
  else if anchor_required && wa_verified (p_wall_anchor p) then RULE_PASS
  else if factor_permille <? 1500 then RULE_BLOCK
  else if factor_permille <? 2000 then RULE_WARNING
  else RULE_PASS.

Definition tip_actions (status : RuleStatus) : list SuggestedAction :=
  if negb (bool_decide (status = RULE_PASS)) && negb (wa_verified (p_wall_anchor p)) then
    [mkSuggestedAction (rule_action_id "verify-wall-anchor") VERIFY_WALL_ANCHOR
       "Välj inte infästning förrän väggunderlag och godkänt förankringssystem är kända; registrera därefter serverbunden verifiering."
       (if wa_required (p_wall_anchor p) then []
        else [mkParameterChange "parameters.wall_anchor.required" (ScBool false) (ScBool true)]) true]
  else [].

Definition tip_margin (factor_permille : Z) : Z :=
  if anchor_required && negb (wa_verified (p_wall_anchor p)) then -1000
  else if anchor_required && wa_verified (p_wall_anchor p) then 1000
  else (factor_permille - 1500) * 1000 / 1500.

Definition tip_risk : result RuleEvaluation :=
  s ← tip_screen;
  let status := tip_status (ts_factor_permille s) in
  new_RuleEvaluation (mkRuleEvaluation "CB-TIP-001" RULES_VERSION "Tipprisk och krav på väggförankring" status
    (ids_of (dr_parts design))
    [ datum "produktvikt" (ScInt (dr_total_weight_g design)) "g";
      datum "belastade_hyllrader" (ScInt (ts_shelf_rows s)) "st";
      datum "total_hyllast" (ScInt (ts_load_force_n s)) "N";
      datum "hyllastens_lasthöjd" (ScInt (ceil (ts_load_cg_z s))) "µm";
      datum "horisontalkraft" (ScInt (p_assumed_horizontal_force_n p)) "N";
      datum "kombinerad_tyngdpunkthöjd" (ScInt (ceil (ts_combined_cg_z s))) "µm";
      datum_plain "väggförankring_krävs" (ScBool anchor_required);
      datum_plain "väggförankring_verifierad" (ScBool (wa_verified (p_wall_anchor p))) ]
    [ "Samma angivna last gäller per hel hyllrad och verkar vid den genererade hyllans övre yta; avdelare multiplicerar inte radlasten.";
      "Förvarade föremåls tyngdpunkt ovanför hyllan, ojämn lastfördelning och dynamiska laster ingår inte i denna screening.";
      "Produktmassan är bruttomassa före spår, hål och annan avverkning; slutlig massa och tyngdpunkt behöver verifieras för den fysiska möbeln.";
      "Tippscreening använder angiven horisontalkraft och halv basdjup som hävarm.";
      "Geometri med höjd minst fyra gånger djup kräver verifierad väggförankring." ]
    [ step "SF_tip = stabiliserande moment / vältande moment" (str_of_Z (ts_factor_permille s)) "‰" ]
    (ts_factor_permille s) 1500 "‰ safety factor" (tip_margin (ts_factor_permille s)) (tip_actions status)).

(** ** Base cabinets *)

(** Parts of a role from left to right. *)
Definition left_to_right (role : PartRole) : list PartInstance :=
  sort_by (cmp_on (fun q => pl_x_um (part_placement q)) Z.compare) (parts_of_role role).

Definition supported_by (base_sides : list PartInstance) (divider : PartInstance) : bool :=
  existsb (fun support => Z.abs (pl_x_um (part_placement support) - pl_x_um (part_placement divider)) <=? 1000)
    base_sides.

Definition unsupported_dividers : list PartInstance :=
  filter (fun q => supported_by (left_to_right BASE_SIDE) q = false) (left_to_right DIVIDER).

Definition position_text : string :=
  str_join ", " (map (fun q => str_of_Z (round_thousandth (pl_x_um (part_placement q))) +:+ " mm") unsupported_dividers).

Definition base_support_alignment : result RuleEvaluation :=
  let dividers := left_to_right DIVIDER in
  let unsupported := unsupported_dividers in
  let none := bool_decide (unsupported = []) in
  let count := Z.of_nat (length unsupported) in
  let target_modules := Z.of_nat (length dividers) + 1 in
  let actions :=
    if none then []
    else
      [mkSuggestedAction (rule_action_id "align-base-cabinets") ALIGN_BASE_CABINETS
         ("Skapa " +:+ str_of_Z target_modules +:+ " lika breda underskåpsmoduler och rikta en fullhöjd underskåpssida under varje övre avdelare. Nödvändiga centrumlinjer från vänster ytterkant: "
          +:+ position_text +:+ ".")
         [mkParameterChange "parameters.base_cabinet_count" (ScInt (p_base_cabinet_count p)) (ScInt target_modules)]
         false] in
  new_RuleEvaluation (mkRuleEvaluation "CB-SUPPORT-001" RULES_VERSION "Lodrät lastväg genom underskåpen"
    (if none then RULE_PASS else RULE_BLOCK)
    (ids_of (parts_of_role BOTTOM) ++ ids_of (if none then dividers else unsupported))
    [ datum "övre_avdelare" (ScInt (Z.of_nat (length dividers))) "st";
      datum "inre_underskåpssidor" (ScInt (Z.of_nat (length (left_to_right BASE_SIDE)))) "st";
      datum_plain "ostödda_centrumlinjer" (ScStr (if none then "inga" else position_text)) ]
    [ "Varje bärande övre avdelare ska ha en genomgående underskåpssida på samma centrumlinje.";
      "Mellanbottnen är inte verifierad som en fritt spännande balk för koncentrerade laster." ]
    [ step "|x_övre avdelare - x_underskåpssida| ≤ 1 mm" (str_of_Z count) "ostödda avdelare" ]
    count 0 "ostödda avdelare" (if none then 1000 else -1000000) actions).

Definition cabinet_parts : list PartInstance :=
  filter (fun q => part_role q ∈ [BASE_SIDE; BASE_BOTTOM; BASE_TOP; CABINET_FRONT]) (dr_parts design).

Definition base_cabinet_hardware : result RuleEvaluation :=
  new_RuleEvaluation (mkRuleEvaluation "CB-HARDWARE-001" RULES_VERSION "Beslag och borrbild för underskåp" RULE_WARNING
    (ids_of cabinet_parts)
    [ datum "frontantal" (ScInt (Z.of_nat (length (filter (fun q => part_role q = CABINET_FRONT) cabinet_parts)))) "st" ]
    [ "Stom- och frontgeometri ingår i dellistan.";
      "Gångjärn, öppningsvinkel, frontspel och infästning är ännu inte valda från ett versionslåst beslagssystem." ]
    [ step_plain "verifierat beslagssystem = valt och versionslåst" "nej" ]
    1 0 "obekräftade system" (-1000)
    [ mkSuggestedAction (stable_id "rule-action" ["base-cabinet-hardware"]) VERIFY_HARDWARE_CAPACITY
        "Välj och verifiera gångjärn, montageplatta, frontspel och borrbild innan produktionsrelease." [] true ]).

(** ** [RuleEngine.evaluate] *)

Definition cabinet_evaluations : result (list RuleEvaluation) :=
  if bool_decide (cabinet_parts = []) then Ok []
  else
    support ← base_support_alignment;
    hardware ← base_cabinet_hardware;
    Ok [support; hardware].

Definition evaluate : result RuleReport :=
  deflection ← shelf_deflection;
  bending ← shelf_bending;
  joint ← joint_capacity;
  stability ← lateral_stability;
  tip ← tip_risk;
  cabinets ← cabinet_evaluations;
  let evaluations := [deflection; bending; joint; stability; tip] ++ cabinets in
  new_RuleReport (mkRuleReport (dr_design_hash design) RULES_VERSION
                    (aggregate_status (map re_status evaluations)) evaluations).
End Engine.

(** ** [RuleEngine.auto_correct] *)

(** [_structural_score]: the ranks, then the shortfalls, of the three
    structural rules. *)
Definition structural_rules : list string := ["CB-DEFLECTION-001"; "CB-BENDING-001"; "CB-JOINT-001"].

Definition structural_score (r : RuleReport) : Z * Z :=
  let selected := filter (fun e => re_rule_id e ∈ structural_rules) (rr_evaluations r) in
  (sumZ (map (fun e => status_rank (re_status e)) selected),
   sumZ (map (fun e => Z.max 0 (- re_safety_margin_permille e)) selected)).

Definition score_ltb (x y : Z * Z) : bool :=
  (fst x <? fst y) || ((fst x =? fst y) && (snd x <? snd y)).

(** [_replace_parameters] and [_replace_spec] revalidate what they build. *)
Definition replace_parameters (p : BookcaseParameters) (divider_count : Z) (bay_ratios : list Z)
    (back : BackPanelType) (anchor : WallAnchorSpec) : result BookcaseParameters :=
  new_BookcaseParameters
    (mkBookcaseParameters (p_width_um p) (p_height_um p) (p_depth_um p) (p_nominal_thickness_um p)
       (p_actual_thickness_um p) (p_shelf_count p) (p_shelf_mount p) (p_shelf_load_n p)
       divider_count bay_ratios (p_shelf_height_ratios_ppm p) (p_base_cabinet_height_um p)
       (p_base_cabinet_depth_um p) (p_base_cabinet_count p) back (p_back_thickness_um p)
       (p_plinth_height_um p) (p_shelf_side_clearance_um p) (p_edge_band_thickness_um p) (p_joint_system p)
       (p_reinforcement_mode p) (p_max_deflection_um p) (p_deflection_span_ratio p)
       (p_structural_safety_factor_permille p) (p_assumed_horizontal_force_n p) anchor).

Definition replace_spec (s : BookcaseDesignSpec) (p : BookcaseParameters) : result BookcaseDesignSpec :=
  new_BookcaseDesignSpec
    (mkBookcaseDesignSpec (spec_design_id s) (spec_revision s) (spec_template_id s) (spec_template_version s)
       (spec_engine_version s) (spec_status s) p (spec_material s) (spec_back_material s) (spec_joint_retention s)).

(** The local variables of the loop. *)
Record Correction := mkCorrection {
  co_spec : BookcaseDesignSpec;
  co_design : DesignResult;
  co_report : RuleReport;
  co_diffs : list DesignDiff }.

(** [by_id[rule_id]] *)
Definition evaluation_at (r : RuleReport) (rule_id : string) : result RuleEvaluation :=
  of_option (dict_of re_rule_id (rr_evaluations r) !! rule_id) (KeyError rule_id).

Definition blocked (e : RuleEvaluation) : bool := bool_decide (re_status e = RULE_BLOCK).

(** What a candidate is built from. *)
Definition candidate (s : BookcaseDesignSpec) (p : result BookcaseParameters)
    : result (BookcaseDesignSpec * DesignResult * RuleReport) :=
  parameters ← p;
  candidate_spec ← replace_spec s parameters;
  candidate_design ← build_bookcase candidate_spec;
  candidate_report ← evaluate candidate_design;
  Ok (candidate_spec, candidate_design, candidate_report).

Definition accept (c : Correction) (found : BookcaseDesignSpec * DesignResult * RuleReport)
    (action : ActionType) (reason : string) (change : ParameterChange) (explanation : string)
    : result Correction :=
  let '(candidate_spec, candidate_design, candidate_report) := found in
  diff ← new_DesignDiff (mkDesignDiff (Z.of_nat (length (co_diffs c)) + 1) action reason [change]
           (dr_design_hash (co_design c)) (dr_design_hash candidate_design) explanation);
  Ok (mkCorrection candidate_spec candidate_design candidate_report (co_diffs c ++ [diff])).

(** One pass: the new state, and whether the loop goes on. *)
Definition add_divider (c : Correction) (deflection bending : RuleEvaluation) : result (Correction * bool) :=
  let p := spec_parameters (co_spec c) in
  let old := p_vertical_divider_count p in
  if MAX_AUTO_VERTICAL_DIVIDERS <=? old then Ok (c, false)
  else
    found ← candidate (co_spec c) (replace_parameters p (old + 1) [] (p_back_panel p) (p_wall_anchor p));
    if negb (score_ltb (structural_score (snd found)) (structural_score (co_report c))) then Ok (c, false)
    else
      c' ← accept c found ADD_VERTICAL_DIVIDER
             (if blocked deflection then "CB-DEFLECTION-001" else if blocked bending then "CB-BENDING-001" else "CB-JOINT-001")
             (mkParameterChange "parameters.vertical_divider_count" (ScInt old) (ScInt (old + 1)))
             "En vertikal avdelare lades till explicit; hyllor delades per fack och assembly, features och vikt räknades om från samma DesignSpec.";
      Ok (c', true).

Definition add_back_panel (c : Correction) (stability : RuleEvaluation) : result (Correction * bool) :=
  let p := spec_parameters (co_spec c) in
  match spec_back_material (co_spec c) with
  | None => Ok (c, false)
  | Some _ =>
      found ← candidate (co_spec c)
                (replace_parameters p (p_vertical_divider_count p) (p_bay_width_ratios_ppm p) INSET_GROOVE (p_wall_anchor p));
      c' ← accept c found ADD_BACK_PANEL (re_rule_id stability)
             (mkParameterChange "parameters.back_panel" (ScStr (BackPanelType_value BACK_NONE))
                (ScStr (BackPanelType_value INSET_GROOVE)))
             "Ett infällt ryggstycke och dess matchande stomfogar lades till.";
      Ok (c', true)
  end.

Definition require_anchor (c : Correction) (tip : RuleEvaluation) : result (Correction * bool) :=
  let p := spec_parameters (co_spec c) in
  let old := p_wall_anchor p in
  if negb (bool_decide (re_status tip = RULE_PASS)) && negb (wa_required old) then
    anchor ← new_WallAnchorSpec (mkWallAnchorSpec true (wa_wall_substrate old) (wa_anchor_system_id old)
                                   (wa_evidence_id old) false);
    found ← candidate (co_spec c)
              (replace_parameters p (p_vertical_divider_count p) (p_bay_width_ratios_ppm p) (p_back_panel p) anchor);
    c' ← accept c found VERIFY_WALL_ANCHOR (re_rule_id tip)
           (mkParameterChange "parameters.wall_anchor.required" (ScBool false) (ScBool true))
           "Krav på väggförankring registrerades, men ingen infästning hittades på. Blockeringen kvarstår tills underlag, system och evidens verifierats.";
    Ok (c', false)
  else Ok (c, false).

Definition correction_pass (c : Correction) : result (Correction * bool) :=
  deflection ← evaluation_at (co_report c) "CB-DEFLECTION-001";
  bending ← evaluation_at (co_report c) "CB-BENDING-001";
  joint ← evaluation_at (co_report c) "CB-JOINT-001";
  let p := spec_parameters (co_spec c) in
  if blocked deflection || blocked bending || (bool_decide (p_shelf_mount p = FIXED) && blocked joint)
  then add_divider c deflection bending
  else
    stability ← evaluation_at (co_report c) "CB-STABILITY-001";
    if blocked stability && bool_decide (p_back_panel p = BACK_NONE) then add_back_panel c stability
    else
      tip ← evaluation_at (co_report c) "CB-TIP-001";
      require_anchor c tip.

(** [for _ in range(n)]: a pass that does not go on breaks. *)
Fixpoint correction_loop (n : nat) (c : Correction) : result Correction :=
  match n with
  | O => Ok c
  | S n' =>
      '(c', continue) ← correction_pass c;
      if (continue : bool) then correction_loop n' c' else Ok c'
  end.

Definition auto_correct (s : BookcaseDesignSpec) (max_iterations : Z) : result AutoCorrectionResult :=
  raise_if ((max_iterations <? 1) || (32 <? max_iterations))
    (ValueError "max_iterations must be between 1 and 32");;
  original ← build_bookcase s;
  initial_report ← evaluate original;
  let resolved r := negb (bool_decide (rr_overall_status r = RULE_BLOCK)) in
  if negb (bool_decide (p_reinforcement_mode (spec_parameters s) = AUTO)) then
    Ok (mkAutoCorrectionResult original s original initial_report initial_report [] (resolved initial_report))
  else
    c ← correction_loop (Z.to_nat max_iterations) (mkCorrection s original initial_report []);
    Ok (mkAutoCorrectionResult original (co_spec c) (co_design c) initial_report (co_report c) (co_diffs c)
          (resolved (co_report c))).

Definition evaluate_design (d : DesignResult) : result RuleReport := evaluate d.
Definition auto_correct_design (s : BookcaseDesignSpec) (max_iterations : Z) : result AutoCorrectionResult :=
  auto_correct s max_iterations.
