(* ===== verification/RulesSafety.v ===== *)
(** * What the rule engine's screen guarantees

    The rules of [Rules] measure the worst shelf and the weakest groove.  A
    report that does not block means that every shelf, with its own span, depth
    and load, stays within the beam formulas, as exact rational inequalities. *)

From Stdlib Require Import QArith Qround Lqa.
From S2P Require Import Prelude Text Geometry Enums Models Identity DesignResult BookcaseParts JointGeometry BookcaseJoints AssemblyGraph Examples Rules.

#[local] Open Scope Z_scope.

(** ** Rational arithmetic *)

Lemma ceil_ge q : (q <= inject_Z (ceil q))%Q.
Proof.
  destruct q as [n d]. unfold ceil, Qle, inject_Z. cbn [Qnum Qden].
  pose proof (Z.div_mod (- n) (Zpos d) ltac:(lia)). pose proof (Z.mod_pos_bound (- n) (Zpos d) ltac:(lia)). nia.
Qed.

Lemma ceil_le n d a : ceil (n # d) <= a -> n <= a * Zpos d.
Proof. intros H. pose proof (ceil_ge (n # d)) as G. unfold Qle, inject_Z in G. cbn [Qnum Qden] in G. nia. Qed.

Lemma fraction_Ok a b q : fraction a b = Ok q -> 0 < b -> exists d, b = Zpos d /\ q = a # d.
Proof. unfold fraction. intros H P. destruct b; [lia| |lia]. injection H as <-. by eexists. Qed.

Lemma inject_pos z : 0 < z -> (0 < inject_Z z)%Q.
Proof. unfold Qlt, inject_Z. cbn. lia. Qed.

Lemma inject_nonneg z : 0 <= z -> (0 <= inject_Z z)%Q.
Proof. unfold Qle, inject_Z. cbn. lia. Qed.

(** A load, times a factor, over a stiffness. *)
Lemma load_le (W : Q) (Ww A B n d : Z) :
  (W <= inject_Z Ww)%Q -> 0 <= A -> 0 < B -> 0 < d -> Ww * A * d <= n * B ->
  (W * inject_Z A / inject_Z B <= inject_Z n / inject_Z d)%Q.
Proof.
  intros HW HA HB Hd H. apply Qle_shift_div_r; [by apply inject_pos|].
  apply (Qle_trans _ (inject_Z Ww * inject_Z A)); [apply Qmult_le_compat_r; [done|by apply inject_nonneg]|].
  assert (inject_Z n / inject_Z d * inject_Z B == inject_Z n * inject_Z B / inject_Z d)%Q as ->.
  { field. intros E. apply (Qlt_not_eq 0 (inject_Z d)); [by apply inject_pos|by rewrite E]. }
  apply Qle_shift_div_l; [by apply inject_pos|].
  rewrite <- !inject_Z_mult, <- Zle_Qle. lia.
Qed.

Lemma load_le1 (W : Q) (Ww A B n : Z) :
  (W <= inject_Z Ww)%Q -> 0 <= A -> 0 < B -> Ww * A <= n * B ->
  (W * inject_Z A / inject_Z B <= inject_Z n)%Q.
Proof.
  intros HW HA HB H. eapply Qle_trans; [apply (load_le W Ww A B n 1); try done; lia|].
  assert (inject_Z n / inject_Z 1 == inject_Z n)%Q as -> by field. apply Qle_refl.
Qed.

(** Shorter, deeper beams under the same load bend less, also in proportion to
    their span. *)
Lemma beam_mono K Ww F L Lw b bw x :
  0 <= K * Ww -> 0 < F -> 0 < L <= Lw -> 0 < bw <= b -> 0 <= x ->
  K * Ww * Lw ^ 3 <= x * (F * bw) -> K * Ww * L ^ 3 <= x * (F * b).
Proof.
  intros HK HF HL Hb Hx H. pose proof (Z.pow_le_mono_l L Lw 3 ltac:(lia)).
  pose proof (Z.mul_le_mono_nonneg_l (L ^ 3) (Lw ^ 3) (K * Ww) HK ltac:(lia)).
  assert (0 <= x * F) by nia. pose proof (Z.mul_le_mono_nonneg_l bw b (x * F) ltac:(lia) ltac:(lia)). lia.
Qed.

Lemma beam_ratio_mono K Ww F L Lw b bw x r :
  0 <= K * Ww -> 0 < F -> 0 < L <= Lw -> 0 < bw <= b -> 0 < r -> x * r <= Lw ->
  K * Ww * Lw ^ 3 <= x * (F * bw) -> K * Ww * L ^ 3 * r <= L * (F * b).
Proof.
  intros HK HF HL Hb Hr Hx H.
  assert (K * Ww * Lw ^ 2 * r <= F * bw).
  { apply (Z.mul_le_mono_pos_l _ _ Lw); [lia|].
    transitivity (K * Ww * Lw ^ 3 * r); [apply Z.eq_le_incl; ring|].
    transitivity (x * r * (F * bw)); [|apply Z.mul_le_mono_nonneg_r; [nia|done]].
    transitivity (x * (F * bw) * r); [apply Z.mul_le_mono_nonneg_r; lia|apply Z.eq_le_incl; ring]. }
  pose proof (Z.pow_le_mono_l L Lw 2 ltac:(lia)).
  assert (K * Ww * L ^ 2 * r <= F * b).
  { transitivity (K * Ww * Lw ^ 2 * r); [|nia].
    apply Z.mul_le_mono_nonneg_r; [lia|]. by apply Z.mul_le_mono_nonneg_l. }
  transitivity (L * (K * Ww * L ^ 2 * r)); [apply Z.eq_le_incl; ring|]. apply Z.mul_le_mono_nonneg_l; lia.
Qed.

Lemma threshold_passes c a w : threshold_status c a w <> RULE_BLOCK -> c <= a.
Proof. unfold threshold_status. destruct (Z.ltb_spec a c); [done|lia]. Qed.

(** ** The parts of a built design *)

Lemma add_part_positive spec rq q : add_part spec rq = Ok q ->
  0 < d_width_um (part_finished_size q) /\ 0 < d_depth_um (part_finished_size q) /\
  0 < d_height_um (part_finished_size q) /\ 0 < part_weight_g q.
Proof.
  unfold add_part. cbv zeta. intros H. apply bind_Ok in H as (size & Hs & H).
  unfold new_Dimensions3D in Hs. inv_ok.
  repeat match goal with H : new_PartInstance _ = _ |- _ => unfold new_PartInstance in H end.
  inv_ok. unfold PositiveUm in *. cbn [part_finished_size part_weight_g] in *. lia.
Qed.

Lemma build_Ok s d : build_bookcase s = Ok d ->
  dr_spec d = s /\ new_DesignResult d = Ok d /\
  forall q, q ∈ dr_parts d ->
    0 < d_width_um (part_finished_size q) /\ 0 < d_depth_um (part_finished_size q) /\
    0 < d_height_um (part_finished_size q) /\ 0 < part_weight_g q.
Proof.
  unfold build_bookcase, build. intros H.
  apply bind_Ok in H as (parts & Hp & H). apply bind_Ok in H as ([parts' js] & Hj & H).
  apply bind_Ok in H as (g & Hg & H).
  assert (E : d = mkDesignResult (content_hash (hash_payload s parts' js g)) (spec_engine_version s)
       (spec_template_version s) s parts' js g (sumZ (map part_weight_g parts'))).
  { unfold new_DesignResult in H. cbv zeta in H. inv_ok. done. }
  split_and!; [by rewrite E|by rewrite E at 1; rewrite H|].
  rewrite E. cbn [dr_parts]. clear H E Hg.
  unfold build_joints in Hj. apply bind_Ok in Hj as (b & _ & Hj). apply bind_Ok in Hj as (? & _ & Hj).
  injection Hj as <- _. unfold updated_parts. intros q (q0 & -> & Hq)%list_elem_of_fmap.
  cbn [with_features part_finished_size part_weight_g].
  unfold build_parts in Hp. apply bind_Ok in Hp as (l & _ & Hp). apply traverse_Ok in Hp.
  apply list_elem_of_lookup in Hq as [i Hi]. destruct (Forall2_lookup_r _ _ _ _ _ Hp Hi) as (rq & _ & Hrq).
  by eapply add_part_positive.
Qed.

(** ** The exact beam formulas *)

Section Beams.
Context (design : DesignResult).
Let p := spec_parameters (dr_spec design).
Let m := spec_material (dr_spec design).

(** A segment carries its share of the row's load, and its own weight. *)
Definition segment_load_n (q : PartInstance) : Q :=
  (inject_Z (p_shelf_load_n p) * (inject_Z (width_of q) / inject_Z (sumZ (map width_of (representative_row design))))
   + (part_weight_g q * 981 # 100000))%Q.

(** Mid-span deflection of a simply supported, uniformly loaded beam with
    creep, for the least plausible stiffness: 5 W L^3 / (384 E I). *)
Definition beam_deflection_um (q : PartInstance) : Q :=
  (segment_load_n q
   * inject_Z (5 * clear_span design q ^ 3 * 1000000 * (1000 + mat_creep_factor_permille m))
   / inject_Z (32 * mat_elastic_modulus_mpa m * shelf_depth_of q * p_actual_thickness_um p ^ 3
               * (1000 - mat_property_uncertainty_permille m)))%Q.

(** Its bending stress: M y / I. *)
Definition beam_stress_kpa (q : PartInstance) : Q :=
  (segment_load_n q * inject_Z (3 * clear_span design q * 1000000000)
   / inject_Z (4 * shelf_depth_of q * p_actual_thickness_um p ^ 2))%Q.

Definition stress_limit_kpa : Q :=
  (inject_Z (mat_bending_strength_mpa m * (1000 - mat_property_uncertainty_permille m) * 1000)
   / inject_Z (p_structural_safety_factor_permille p))%Q.

(** What a groove of some bearing area carries. *)
Definition bearing_limit_n (area_um2 : Z) : Q :=
  (inject_Z (mat_shear_strength_mpa m * area_um2 * (1000 - mat_property_uncertainty_permille m))
   / inject_Z (1000 * (1000 + mat_creep_factor_permille m) * p_structural_safety_factor_permille p))%Q.

(** What validation of the specification and of the parts establishes. *)
Record screenable := mkScreenable {
  sc_thickness : 0 < p_actual_thickness_um p;
  sc_load : 0 <= p_shelf_load_n p;
  sc_depth : 0 < p_depth_um p;
  sc_ratio : 0 < p_deflection_span_ratio p;
  sc_factor : 0 < p_structural_safety_factor_permille p;
  sc_max : 0 < p_max_deflection_um p;
  sc_force : 0 < p_assumed_horizontal_force_n p;
  sc_dividers : 0 <= p_vertical_divider_count p;
  sc_modulus : 0 < mat_elastic_modulus_mpa m;
  sc_bending : 0 < mat_bending_strength_mpa m;
  sc_shear : 0 < mat_shear_strength_mpa m;
  sc_creep : 0 <= mat_creep_factor_permille m;
  sc_uncertainty : 0 <= mat_property_uncertainty_permille m <= 900;
  sc_parts : forall q, q ∈ dr_parts design ->
    0 < width_of q /\ 0 < shelf_depth_of q /\ 0 < d_height_um (part_finished_size q) /\ 0 < part_weight_g q }.

Context (S : screenable).

Lemma shelf_part q : q ∈ shelves design -> q ∈ dr_parts design /\ part_role q = SHELF.
Proof. intros [??]%list_elem_of_filter. done. Qed.

Lemma clear_span_pos q : q ∈ dr_parts design -> 0 < clear_span design q.
Proof.
  intros Hq. unfold clear_span, shelf_clear_span. destruct (_ && _) eqn:E; [bprop; lia|].
  by apply (sc_parts S).
Qed.

Lemma sumZ_pos l : Forall (fun x => 0 < x) l -> l <> [] -> 0 < sumZ l.
Proof. destruct 1 as [|x l Hx Hl]; [done|]. intros _. cbn [sumZ].
  enough (0 <= sumZ l) by lia. apply sumZ_nonneg. eapply Forall_impl; [done|]. cbn. lia. Qed.

Lemma row_width_pos : shelves design <> [] -> 0 < sumZ (map width_of (representative_row design)).
Proof.
  intros N. apply sumZ_pos.
  - apply Forall_forall. intros w (q & -> & Hq)%list_elem_of_fmap. unfold representative_row in Hq.
    apply elem_of_take in Hq as (i & Hi & _). apply list_elem_of_lookup_2 in Hi.
    rewrite elem_of_sort_by in Hi. by apply (sc_parts S), shelf_part.
  - unfold representative_row. intros E. apply map_eq_nil in E.
    pose proof (sc_dividers S).
    assert (sort_by (cmp_on part_instance_index Z.compare) (shelves design) = []) as F.
    { destruct (sort_by _ _) as [|x l]; [done|]. fold p in E.
      destruct (Z.to_nat (p_vertical_divider_count p + 1)) eqn:K; [lia|discriminate E]. }
    apply N. apply Permutation_nil_r. rewrite <- F. symmetry. apply sort_by_perm.
Qed.

Lemma load_components_Ok share dead : shelf_load_components design = Ok (share, dead) -> shelves design <> [] ->
  forall q, q ∈ shelves design ->
    (inject_Z (width_of q) / inject_Z (sumZ (map width_of (representative_row design))) <= share)%Q /\
    (part_weight_g q * 981 # 100000 <= inject_Z dead)%Q /\ (0 <= share)%Q /\ 0 <= dead.
Proof.
  unfold shelf_load_components. intros H N q Hq. rewrite bool_decide_false in H by done. cbv zeta in H.
  apply bind_Ok in H as (sh & Hs & H). injection H as <- <-.
  pose proof (row_width_pos N) as R. apply fraction_Ok in Hs as (d & Hd & ->); [|done].
  assert (B : width_of q <= maxZ 0 (map width_of (shelves design))) by (by apply maxZ_le, list_elem_of_fmap_2).
  assert (Wq : part_weight_g q <= maxZ 0 (map part_weight_g (shelves design))) by (by apply maxZ_le, list_elem_of_fmap_2).
  destruct (sc_parts S q) as (P1 & _ & _ & P4); [by apply shelf_part|].
  split_and!.
  - rewrite Hd. apply Qle_shift_div_r; [by apply inject_pos|]. unfold Qle, Qmult, inject_Z. cbn. nia.
  - eapply Qle_trans; [|apply ceil_ge]. unfold Qle. cbn. nia.
  - unfold Qle. cbn. lia.
  - unfold weight_n. set (w := maxZ 0 (map part_weight_g (shelves design))) in *.
    pose proof (ceil_ge (w * 981 # 100000)) as G. unfold Qle, inject_Z in G. cbn [Qnum Qden] in G. lia.
Qed.

Lemma shelf_geometry_Ok g : shelf_geometry design = Ok g -> shelves design <> [] ->
  sg_thickness g = p_actual_thickness_um p /\ sg_affected g <> [] /\ 0 < sg_depth g /\ 0 < sg_span g /\
  0 <= sg_design_load_n g /\
  forall q, q ∈ shelves design ->
    0 < clear_span design q <= sg_span g /\ sg_depth g <= shelf_depth_of q /\
    (segment_load_n q <= inject_Z (sg_design_load_n g))%Q.
Proof.
  unfold shelf_geometry. intros H N. rewrite bool_decide_false in H by done. cbv zeta in H.
  apply bind_Ok in H as ([share dead] & HL & H). injection H as <-.
  cbn [sg_thickness sg_affected sg_depth sg_span sg_design_load_n].
  pose proof (maxZ_in 0 (map (clear_span design) (shelves design))) as M.
  pose proof (minZ_in 0 (map shelf_depth_of (shelves design))) as D.
  apply list_elem_of_fmap in M as (q1 & E1 & Q1); [|by intros E%map_eq_nil].
  apply list_elem_of_fmap in D as (q2 & E2 & Q2); [|by intros E%map_eq_nil].
  pose proof (load_components_Ok share dead HL N) as C.
  split_and!; [done| | | | |].
  - intros E%map_eq_nil. eapply (filter_nil_not_elem_of _ _ q1); [exact E|done|done].
  - rewrite E2. by apply (sc_parts S), shelf_part.
  - rewrite E1. by apply clear_span_pos, shelf_part.
  - destruct (C q1 Q1) as (_ & _ & C3 & C4).
    pose proof (ceil_ge (inject_Z (p_shelf_load_n p) * share)) as G. pose proof (sc_load S) as L.
    assert (0 <= inject_Z (p_shelf_load_n p) * share)%Q
      by (apply Qmult_le_0_compat; [by apply inject_nonneg|done]).
    change (0 <= ceil (inject_Z (p_shelf_load_n p) * share) + dead).
    enough (0 <= ceil (inject_Z (p_shelf_load_n p) * share)) by lia.
    rewrite Zle_Qle. by eapply Qle_trans.
  - intros q Hq. destruct (C q Hq) as (C1 & C2 & C3 & C4). split_and!.
    + by apply clear_span_pos, shelf_part.
    + by apply maxZ_le, list_elem_of_fmap_2.
    + by apply minZ_le, list_elem_of_fmap_2.
    + unfold segment_load_n. rewrite inject_Z_plus. apply Qplus_le_compat; [|done].
      eapply Qle_trans; [|apply ceil_ge]. rewrite !(Qmult_comm (inject_Z _)).
      apply Qmult_le_compat_r; [done|]. apply inject_nonneg, (sc_load S).
Qed.

Lemma new_RuleEvaluation_Ok e e' : new_RuleEvaluation e = Ok e' -> e' = e.
Proof. unfold new_RuleEvaluation. intros H. inv_ok. done. Qed.

Lemma deflection_sound e : shelf_deflection design = Ok e -> re_status e <> RULE_BLOCK ->
  forall q, q ∈ shelves design ->
    (beam_deflection_um q <= inject_Z (p_max_deflection_um p))%Q /\
    (beam_deflection_um q <= inject_Z (clear_span design q) / inject_Z (p_deflection_span_ratio p))%Q.
Proof.
  unfold shelf_deflection. intros H B q Hq.
  apply bind_Ok in H as (g & Hg & H). apply bind_Ok in H as (calc & Hc & H). cbv zeta in H.
  apply bind_Ok in H as ([share own] & _ & H). apply new_RuleEvaluation_Ok in H as ->.
  cbn [re_status] in B. apply threshold_passes in B.
  assert (N : shelves design <> []) by (intros E; rewrite E in Hq; by apply not_elem_of_nil in Hq).
  destruct (shelf_geometry_Ok g Hg N) as (T & A & D & Sp & W & Q0). destruct (Q0 q Hq) as ([C1 C2] & C3 & C4).
  unfold deflection_um in Hc. rewrite bool_decide_false in Hc by done.
  apply bind_Ok in Hc as (fr & Hf & Hc). injection Hc as <-.
  destruct S. rewrite T in Hf. fold p m in Hf, B. unfold allowed_deflection_um in B.
  destruct (Z.eqb_spec (sg_span g) 0) as [?|_]; [lia|]. fold p in B.
  set (t3 := p_actual_thickness_um p ^ 3) in *.
  assert (0 < t3) by (apply Z.pow_pos_nonneg; lia).
  set (E := mat_elastic_modulus_mpa m) in *. set (u := 1000 - mat_property_uncertainty_permille m) in *.
  set (k := 1000 + mat_creep_factor_permille m) in *.
  assert (0 < u) by lia. assert (0 < k) by lia. assert (F : 0 < 32 * E * t3 * u) by nia.
  apply fraction_Ok in Hf as (d & Hd & ->); [|nia].
  set (x := Z.min (p_max_deflection_um p) (sg_span g / p_deflection_span_ratio p)) in *.
  assert (X0 : 0 <= x) by (pose proof (Z.div_pos (sg_span g) (p_deflection_span_ratio p)); lia).
  assert (X1 : x * p_deflection_span_ratio p <= sg_span g)
    by (pose proof (Z.mul_div_le (sg_span g) (p_deflection_span_ratio p)); nia).
  apply ceil_le in B. rewrite <- Hd in B.
  assert (KW : 0 <= 5 * 1000000 * k * sg_design_load_n g) by nia.
  assert (M : 5 * 1000000 * k * sg_design_load_n g * sg_span g ^ 3 <= x * (32 * E * t3 * u * sg_depth g)) by lia.
  assert (0 <= clear_span design q ^ 3) by (apply Z.pow_nonneg; lia).
  unfold beam_deflection_um. fold t3 E u k. split.
  - apply (load_le1 _ (sg_design_load_n g)); [done|nia|nia|].
    pose proof (beam_mono _ _ _ _ _ (shelf_depth_of q) _ _ KW F (conj C1 C2) (conj D C3) X0 M) as G.
    assert (x * (32 * E * t3 * u * shelf_depth_of q) <= p_max_deflection_um p * (32 * E * t3 * u * shelf_depth_of q))
      by (apply Z.mul_le_mono_nonneg_r; nia). lia.
  - apply (load_le _ (sg_design_load_n g)); [done|nia|nia|lia|].
    pose proof (beam_ratio_mono _ _ _ _ _ (shelf_depth_of q) _ _ _ KW F (conj C1 C2) (conj D C3) sc_ratio0 X1 M) as G.
    lia.
Qed.

Lemma bending_sound e : shelf_bending design = Ok e -> re_status e <> RULE_BLOCK ->
  forall q, q ∈ shelves design -> (beam_stress_kpa q <= stress_limit_kpa)%Q.
Proof.
  unfold shelf_bending. intros H B q Hq.
  apply bind_Ok in H as (g & Hg & H). apply bind_Ok in H as (calc & Hc & H). cbv zeta in H.
  apply bind_Ok in H as ([share own] & _ & H). apply new_RuleEvaluation_Ok in H as ->.
  cbn [re_status] in B. apply threshold_passes in B.
  assert (N : shelves design <> []) by (intros E; rewrite E in Hq; by apply not_elem_of_nil in Hq).
  destruct (shelf_geometry_Ok g Hg N) as (T & A & D & Sp & W & Q0). destruct (Q0 q Hq) as ([C1 C2] & C3 & C4).
  unfold bending_kpa in Hc. rewrite bool_decide_false in Hc by done.
  apply bind_Ok in Hc as (fr & Hf & Hc). injection Hc as <-.
  destruct S. rewrite T in Hf. fold p in Hf. unfold allowed_bending_kpa in B. fold p m in B.
  set (t2 := p_actual_thickness_um p ^ 2) in *.
  assert (0 < t2) by (apply Z.pow_pos_nonneg; lia).
  apply fraction_Ok in Hf as (d & Hd & ->); [|nia]. apply ceil_le in B. rewrite <- Hd in B.
  unfold beam_stress_kpa, stress_limit_kpa. fold t2.
  set (X := mat_bending_strength_mpa m * (1000 - mat_property_uncertainty_permille m) * 1000) in *.
  pose proof (Z.mul_div_le X (p_structural_safety_factor_permille p) sc_factor0) as X1.
  assert (X0 : 0 <= X) by (unfold X; nia).
  set (a := X / p_structural_safety_factor_permille p) in *.
  assert (a0 : 0 <= a) by (apply Z.div_pos; lia).
  apply (load_le _ (sg_design_load_n g)); [done|nia|nia|lia|].
  transitivity (a * (4 * shelf_depth_of q * t2) * p_structural_safety_factor_permille p);
    [|rewrite <- Z.mul_assoc, (Z.mul_comm (4 * _ * _)), Z.mul_assoc, (Z.mul_comm a); apply Z.mul_le_mono_nonneg_r; nia].
  apply Z.mul_le_mono_nonneg_r; [lia|].
  transitivity (a * (4 * sg_depth g * t2)); [|apply Z.mul_le_mono_nonneg_l; nia].
  transitivity (3 * sg_design_load_n g * sg_span g * 1000000000); nia.
Qed.

(** ** Grooves *)

Lemma worst_case_least c rest c' : c' ∈ c :: rest -> dc_allowed_load_n (worst_case c rest) <= dc_allowed_load_n c'.
Proof.
  revert c c'. induction rest as [|d rest IH]; intros c c' Hc.
  { apply list_elem_of_singleton in Hc as ->. cbn. lia. }
  change (worst_case c (d :: rest)) with (worst_case (match case_cmp d c with Lt => d | _ => c end) rest).
  set (b := match case_cmp d c with Lt => d | _ => c end) in *.
  assert (L : dc_allowed_load_n b <= dc_allowed_load_n c /\ dc_allowed_load_n b <= dc_allowed_load_n d).
  { unfold b, case_cmp, cmp_then, cmp_on. cbv beta.
    destruct (Z.compare_spec (dc_allowed_load_n d) (dc_allowed_load_n c)); cbv iota; [|lia..].
    destruct (String.compare _ _); lia. }
  pose proof (IH b b ltac:(by left)) as L0.
  apply elem_of_cons in Hc as [->|[->|Hc]%elem_of_cons]; [lia..|]. apply IH. by right.
Qed.

Lemma case_allowed cases c : dado_support_cases design = Ok cases -> c ∈ cases ->
  dc_allowed_load_n c = allowed_bearing_n design (dc_bearing_area_um2 c) /\
  dc_bearing_area_um2 c = dc_engagement_um c * dc_bearing_length_um c.
Proof.
  unfold dado_support_cases. intros H Hc. apply bind_Ok in H as (l & Hl & H). injection H as <-.
  apply list_elem_of_omap in Hc as (o & Ho & E). destruct o as [c'|]; [|done]. injection E as ->.
  apply traverse_Ok in Hl. apply list_elem_of_lookup in Ho as [i Hi].
  destruct (Forall2_lookup_r _ _ _ _ _ Hl Hi) as (j & _ & Hj). clear Hl Hi.
  unfold joint_case in Hj. case_match; [done|]. apply bind_Ok in Hj as (ms & _ & Hj).
  repeat (case_match; try done).
  apply bind_Ok in Hj as (sh & _ & Hj). apply bind_Ok in Hj as (su & _ & Hj). injection Hj as Hj.
  unfold support_case in Hj. apply bind_Some in Hj as (f & _ & Hj). apply bind_Some in Hj as (en & _ & Hj).
  case_match; [|done]. apply bind_Some in Hj as ([bl ba] & Ha & Hj). injection Hj as <-.
  cbn. split; [done|]. unfold support_area in Ha. case_match; [done|]. by injection Ha as <- <-.
Qed.

Lemma joint_sound e : joint_capacity design = Ok e -> re_status e <> RULE_BLOCK -> shelves design <> [] ->
  p_shelf_mount p = FIXED /\
  exists cases, dado_support_cases design = Ok cases /\ cases <> [] /\
    forall c q, c ∈ cases -> q ∈ shelves design ->
      (segment_load_n q * inject_Z 1 / inject_Z 2 <= bearing_limit_n (dc_bearing_area_um2 c))%Q.
Proof.
  unfold joint_capacity. intros H B N. apply bind_Ok in H as (g & Hg & H). cbv zeta in H.
  rewrite (bool_decide_false (shelves design = [])) in H by done. cbn [negb] in H. rewrite andb_true_r in H.
  destruct (bool_decide (p_shelf_mount (spec_parameters (dr_spec design)) = ADJUSTABLE)) eqn:EM.
  { apply new_RuleEvaluation_Ok in H as ->. done. }
  apply bool_decide_eq_false in EM. split; [fold p in EM; by destruct (p_shelf_mount p)|].
  apply bind_Ok in H as (cases & Hc & H). exists cases. split; [done|].
  destruct cases as [|c0 rest]; [apply new_RuleEvaluation_Ok in H as ->; done|]. split; [done|].
  unfold bearing_joint_capacity in H. cbv zeta in H. apply bind_Ok in H as (acts & _ & H).
  apply new_RuleEvaluation_Ok in H as ->. cbn [re_status fmap option_fmap option_map default] in B.
  unfold capacity_status in B. rewrite (bool_decide_false (shelves design = [])) in B by done.
  assert (B' : support_demand_n design g <= dc_allowed_load_n (worst_case c0 rest)).
  { apply (threshold_passes _ _ 800). intros E. apply B. by rewrite bool_decide_true. }
  clear B. intros c q Hcc Hq. pose proof (worst_case_least _ _ _ Hcc) as L.
  destruct (case_allowed _ _ Hc Hcc) as [A _].
  destruct (shelf_geometry_Ok g Hg N) as (T & _ & D & Sp & W & Q0). destruct (Q0 q Hq) as (_ & _ & C4).
  unfold support_demand_n in B'. rewrite bool_decide_false in B' by done.
  pose proof (ceil_le (sg_design_load_n g) 2 _ (Z.le_refl _)) as K.
  unfold allowed_bearing_n in A. fold p m in A. destruct S. unfold bearing_limit_n.
  set (Y := 1000 * (1000 + mat_creep_factor_permille m) * p_structural_safety_factor_permille p) in *.
  assert (Y0 : 0 < Y) by (unfold Y; nia).
  set (X := mat_shear_strength_mpa m * dc_bearing_area_um2 c * (1000 - mat_property_uncertainty_permille m)) in *.
  pose proof (Z.mul_div_le X Y Y0) as X1. rewrite <- A in X1.
  apply (load_le _ (sg_design_load_n g)); [done|lia|lia|done|]. nia.
Qed.
End Beams.

Lemma spec_screenable s d : new_BookcaseDesignSpec s = Ok s -> build_bookcase s = Ok d -> screenable d.
Proof.
  intros Hs Hb. apply build_Ok in Hb as (E & _ & Q). rewrite <- E in Hs.
  unfold new_BookcaseDesignSpec in Hs. inv_ok.
  repeat match goal with
  | H : new_BookcaseParameters _ = _ |- _ => unfold new_BookcaseParameters in H
  | H : new_MaterialVersion _ = _ |- _ => unfold new_MaterialVersion, validate_thickness_range in H
  end. inv_ok. unfold PositiveUm, NonNegativeUm, in_range, mm_int, UM_PER_MM in *. bprop.
  constructor; try lia. intros q Hq. apply (Q q Hq).
Qed.

(** ** Tipping *)

Fixpoint sumQ (l : list Q) : Q := match l with [] => 0%Q | q :: l' => (q + sumQ l')%Q end.

Lemma sumQ_scale {A} (f : A -> Z) (g : A -> Q) (c : Q) l :
  (forall a, g a == inject_Z (f a) * c)%Q -> (sumQ (map g l) == inject_Z (sumZ (map f l)) * c)%Q.
Proof.
  intros H. induction l as [|a l IH]; cbn [map sumQ sumZ]; [by rewrite Qmult_0_l|].
  rewrite IH, H, inject_Z_plus. ring.
Qed.

Lemma trunc_ge n q : 0 < n -> n <= trunc q -> (inject_Z n <= q)%Q.
Proof.
  destruct q as [a d]. unfold trunc, Qle, inject_Z. cbn [Qnum Qden]. intros Hn H.
  destruct (Z.le_gt_cases 0 a) as [Ha|Ha].
  - rewrite Z.quot_div_nonneg in H by lia. pose proof (Z.mul_div_le a (Zpos d) ltac:(lia)). nia.
  - pose proof (Z.quot_opp_l (- a) (Zpos d) ltac:(lia)) as K. rewrite Z.opp_involutive in K.
    pose proof (Z.quot_pos (- a) (Zpos d) ltac:(lia) ltac:(lia)). lia.
Qed.

Section Tip.
Context (design : DesignResult).
Let p := spec_parameters (dr_spec design).

(** The weight of the parts and the load of every row, and their moment about
    the floor. *)
Definition part_weight_n (q : PartInstance) : Q := part_weight_g q * 981 # 100000.
Definition vertical_load_n : Q :=
  (sumQ (map part_weight_n (dr_parts design))
   + inject_Z (p_shelf_load_n p * Z.of_nat (length (shelf_surfaces_z design))))%Q.
Definition height_moment : Q :=
  (sumQ (map (fun q => part_weight_n q * (inject_Z (pl_z_um (part_placement q)) + half (d_height_um (part_finished_size q))))
           (dr_parts design))
   + inject_Z (p_shelf_load_n p * sumZ (shelf_surfaces_z design)))%Q.
Definition resisting_moment : Q := (vertical_load_n * half (p_depth_um p))%Q.
Definition overturning_moment : Q :=
  (inject_Z (p_assumed_horizontal_force_n p) * (height_moment / vertical_load_n))%Q.

Lemma vertical_load_eq : sumZ (map part_weight_g (dr_parts design)) = dr_total_weight_g design ->
  (vertical_load_n == (dr_total_weight_g design * 981 # 100000)
                      + inject_Z (p_shelf_load_n p * Z.of_nat (length (shelf_surfaces_z design))))%Q.
Proof.
  intros W. unfold vertical_load_n. rewrite (sumQ_scale part_weight_g _ (981 # 100000)).
  - rewrite W. unfold inject_Z, Qeq, Qplus, Qmult. cbn. lia.
  - intros q. unfold part_weight_n, inject_Z, Qeq, Qmult. cbn. lia.
Qed.

Lemma height_moment_eq cg lcg : sumZ (map part_weight_g (dr_parts design)) = dr_total_weight_g design ->
  0 < dr_total_weight_g design ->
  product_cg_z design = Ok cg ->
  (if Z.of_nat (length (shelf_surfaces_z design)) =? 0 then Ok 0%Q
   else fraction (sumZ (shelf_surfaces_z design)) (Z.of_nat (length (shelf_surfaces_z design)))) = Ok lcg ->
  ((dr_total_weight_g design * 981 # 100000) * cg
   + inject_Z (p_shelf_load_n p * Z.of_nat (length (shelf_surfaces_z design))) * lcg == height_moment)%Q.
Proof.
  intros W P Hc Hl. unfold height_moment. apply Qplus_comp.
  - rewrite (sumQ_scale (fun q => part_weight_g q * (2 * pl_z_um (part_placement q) + d_height_um (part_finished_size q)))
               _ (981 # 200000)).
    + unfold product_cg_z in Hc. destruct (Z.eqb_spec (dr_total_weight_g design) 0); [lia|].
      apply fraction_Ok in Hc as (d & Hd & ->); [|lia].
      set (X := sumZ _). unfold inject_Z, Qeq, Qmult. cbn [Qnum Qden]. rewrite !Pos2Z.inj_mul. nia.
    + intros q. unfold part_weight_n, half, inject_Z, Qeq, Qplus, Qmult. cbn [Qnum Qden]. lia.
  - destruct (Z.eqb_spec (Z.of_nat (length (shelf_surfaces_z design))) 0) as [E|N].
    + injection Hl as <-. destruct (shelf_surfaces_z design); [|cbn in E; lia]. cbn [sumZ length].
      change (Z.of_nat 0) with 0. rewrite !Z.mul_0_r, Qmult_0_r. reflexivity.
    + apply fraction_Ok in Hl as (d & Hd & ->); [|lia]. rewrite Hd.
      set (X := sumZ _). unfold inject_Z, Qeq, Qmult. cbn [Qnum Qden]. nia.
Qed.

Lemma weight_total : build_bookcase (dr_spec design) = Ok design ->
  sumZ (map part_weight_g (dr_parts design)) = dr_total_weight_g design /\ 0 < dr_total_weight_g design.
Proof.
  intros H. apply build_Ok in H as (_ & H & _). unfold new_DesignResult, validate_result_integrity in H.
  cbv zeta in H. inv_ok. unfold PositiveUm in *. bprop. done.
Qed.

Lemma Qeq_bool_pos x : (0 < x)%Q -> Qeq_bool x 0 = false.
Proof.
  intros H. destruct (Qeq_bool x 0) eqn:E; [|done]. apply Qeq_bool_eq in E. rewrite E in H. by apply Qlt_irrefl in H.
Qed.

(** A truncated quotient of at least [n] bounds the dividend. *)
Lemma trunc_quotient_ge n R X q : (0 <= R)%Q -> 0 < n -> Qeq_bool X 0 = false ->
  fraction_div R X = Ok q -> n <= trunc q -> (inject_Z n * X <= R)%Q.
Proof.
  intros HR Hn HX Hq Ht. unfold fraction_div in Hq. rewrite HX in Hq. injection Hq as <-.
  apply trunc_ge in Ht; [|done]. apply inject_pos in Hn.
  apply Qeq_bool_neq in HX. assert (E : (R == (R / X) * X)%Q) by (by field).
  set (y := (R / X)%Q) in *. clearbody y. set (k := inject_Z n) in *. clearbody k.
  destruct (Q_dec X 0) as [[L|L]|L]; [nra|nra|done].
Qed.

(** The screened factor bounds the true ratio of the moments. *)
Lemma tip_screen_sound t n : screenable design -> build_bookcase (dr_spec design) = Ok design ->
  tip_screen design = Ok t -> 0 < n -> n <= ts_factor_permille t ->
  (inject_Z n * overturning_moment <= resisting_moment * inject_Z 1000)%Q.
Proof.
  intros S HB H Hn F. destruct (weight_total HB) as [W P].
  unfold tip_screen in H. cbv zeta in H.
  apply bind_Ok in H as (cg & Hcg & H). apply bind_Ok in H as (u & _ & H).
  apply bind_Ok in H as (lcg & Hl & H). apply bind_Ok in H as (z & Hz & H).
  apply bind_Ok in H as (f & Hf & H). injection H as <-. cbn [ts_factor_permille] in F.
  pose proof (height_moment_eq _ _ W P Hcg Hl) as M. pose proof (vertical_load_eq W) as V.
  fold p in Hz, Hf. set (G := (dr_total_weight_g design * 981 # 100000)%Q) in *.
  set (L := inject_Z (p_shelf_load_n p * Z.of_nat (length (shelf_surfaces_z design)))) in *.
  assert (V0 : (0 < G + L)%Q).
  { assert (0 < G)%Q by (unfold Qlt; cbn; lia).
    assert (0 <= L)%Q by (apply inject_nonneg; pose proof (sc_load _ S : 0 <= p_shelf_load_n p); nia). lra. }
  rewrite (Qeq_bool_pos _ V0) in Hz. unfold fraction_div in Hz. rewrite (Qeq_bool_pos _ V0) in Hz. injection Hz as <-.
  set (X := (inject_Z (p_assumed_horizontal_force_n p) * ((G * cg + L * lcg) / (G + L)))%Q) in *.
  set (R := ((G + L) * half (p_depth_um p))%Q) in *.
  assert (O : (overturning_moment == X)%Q) by (unfold overturning_moment, X; by rewrite V, M).
  assert (RR : (resisting_moment == R)%Q) by (unfold resisting_moment; by rewrite V).
  assert (R0 : (0 <= R * inject_Z 1000)%Q).
  { pose proof (sc_depth _ S : 0 < p_depth_um p).
    apply Qmult_le_0_compat; [apply Qmult_le_0_compat; [by apply Qlt_le_weak|unfold half, Qle; cbn; lia]|done]. }
  rewrite O, RR. destruct (Qeq_bool X 0) eqn:E0.
  - apply Qeq_bool_eq in E0. rewrite E0, Qmult_0_r. done.
  - apply bind_Ok in Hf as (q & Hq & Hf). injection Hf as <-.
    by eapply trunc_quotient_ge.
Qed.
End Tip.

(** ** Automatic correction as a sequence of steps *)

Record stage := mkStage { st_spec : BookcaseDesignSpec; st_design : DesignResult; st_report : RuleReport }.

(** A validated specification with its compiled design and its report. *)
Definition stage_ok (x : stage) : Prop :=
  new_BookcaseDesignSpec (st_spec x) = Ok (st_spec x) /\
  build_bookcase (st_spec x) = Ok (st_design x) /\ evaluate (st_design x) = Ok (st_report x).

Definition with_parameters (s : BookcaseDesignSpec) (p : BookcaseParameters) : BookcaseDesignSpec :=
  mkBookcaseDesignSpec (spec_design_id s) (spec_revision s) (spec_template_id s) (spec_template_version s)
    (spec_engine_version s) (spec_status s) p (spec_material s) (spec_back_material s) (spec_joint_retention s).

(** Nothing but the dividers, the bay widths and the anchor changes. *)
Definition adjusted (p : BookcaseParameters) (dividers : Z) (ratios : list Z) (anchor : WallAnchorSpec)
    : BookcaseParameters :=
  mkBookcaseParameters (p_width_um p) (p_height_um p) (p_depth_um p) (p_nominal_thickness_um p)
    (p_actual_thickness_um p) (p_shelf_count p) (p_shelf_mount p) (p_shelf_load_n p) dividers ratios
    (p_shelf_height_ratios_ppm p) (p_base_cabinet_height_um p) (p_base_cabinet_depth_um p)
    (p_base_cabinet_count p) (p_back_panel p) (p_back_thickness_um p) (p_plinth_height_um p)
    (p_shelf_side_clearance_um p) (p_edge_band_thickness_um p) (p_joint_system p) (p_reinforcement_mode p)
    (p_max_deflection_um p) (p_deflection_span_ratio p) (p_structural_safety_factor_permille p)
    (p_assumed_horizontal_force_n p) anchor.

Definition unverified_anchor (w : WallAnchorSpec) : WallAnchorSpec :=
  mkWallAnchorSpec true (wa_wall_substrate w) (wa_anchor_system_id w) (wa_evidence_id w) false.

(** One more divider, because a structural rule blocks and the score improves;
    or the demand for an anchor, never its verification. *)
Inductive correction_step (x : stage) : ActionType -> stage -> Prop :=
  | step_divider y :
      let p := spec_parameters (st_spec x) in
      p_vertical_divider_count p < MAX_AUTO_VERTICAL_DIVIDERS ->
      (exists e, e ∈ rr_evaluations (st_report x) /\ re_rule_id e ∈ structural_rules /\ re_status e = RULE_BLOCK) ->
      st_spec y = with_parameters (st_spec x) (adjusted p (p_vertical_divider_count p + 1) [] (p_wall_anchor p)) ->
      score_ltb (structural_score (st_report y)) (structural_score (st_report x)) = true ->
      correction_step x ADD_VERTICAL_DIVIDER y
  | step_anchor y :
      let p := spec_parameters (st_spec x) in
      wa_required (p_wall_anchor p) = false ->
      st_spec y = with_parameters (st_spec x)
                    (adjusted p (p_vertical_divider_count p) (p_bay_width_ratios_ppm p)
                       (unverified_anchor (p_wall_anchor p))) ->
      correction_step x VERIFY_WALL_ANCHOR y.

(** The recorded differences: numbered from one, each from the hash of a stage
    to the hash of the next. *)
Inductive correction_history (x : stage) : list DesignDiff -> stage -> Prop :=
  | history_start : correction_history x [] x
  | history_step diffs y d z :
      correction_history x diffs y ->
      correction_step y (dd_action_type d) z ->
      stage_ok z ->
      dd_sequence d = Z.of_nat (length diffs) + 1 ->
      dd_design_hash_before d = dr_design_hash (st_design y) ->
      dd_design_hash_after d = dr_design_hash (st_design z) ->
      correction_history x (diffs ++ [d]) z.

Definition stage_of (c : Correction) : stage := mkStage (co_spec c) (co_design c) (co_report c).

Lemma new_BookcaseDesignSpec_Ok s s' : new_BookcaseDesignSpec s = Ok s' -> s' = s.
Proof. unfold new_BookcaseDesignSpec. intros H. inv_ok. done. Qed.

Lemma new_BookcaseParameters_Ok p p' : new_BookcaseParameters p = Ok p' -> p' = p.
Proof. unfold new_BookcaseParameters. intros H. inv_ok. done. Qed.

Lemma candidate_Ok s p found : candidate s p = Ok found ->
  exists q, p = Ok q /\ fst (fst found) = with_parameters s q /\
    stage_ok (mkStage (fst (fst found)) (snd (fst found)) (snd found)).
Proof.
  unfold candidate. intros H. apply bind_Ok in H as (q & -> & H). exists q. split; [done|].
  apply bind_Ok in H as (s' & Hs & H). apply bind_Ok in H as (d & Hd & H). apply bind_Ok in H as (r & Hr & H).
  injection H as <-. cbn [fst snd]. unfold replace_spec in Hs. fold (with_parameters s q) in Hs.
  pose proof (new_BookcaseDesignSpec_Ok _ _ Hs) as ->. done.
Qed.

Lemma accept_Ok c found a reason ch ex c' : accept c found a reason ch ex = Ok c' ->
  stage_of c' = mkStage (fst (fst found)) (snd (fst found)) (snd found) /\
  exists d, co_diffs c' = co_diffs c ++ [d] /\ dd_action_type d = a /\
    dd_sequence d = Z.of_nat (length (co_diffs c)) + 1 /\
    dd_design_hash_before d = dr_design_hash (co_design c) /\
    dd_design_hash_after d = dr_design_hash (snd (fst found)).
Proof.
  destruct found as [[s d] r]. unfold accept. intros H. apply bind_Ok in H as (x & Hx & H). injection H as <-.
  unfold new_DesignDiff in Hx. inv_ok. split; [done|]. eexists. by split_and!.
Qed.

Lemma evaluation_at_Ok r i e : evaluation_at r i = Ok e -> e ∈ rr_evaluations r /\ re_rule_id e = i.
Proof. unfold evaluation_at. intros H. inv_ok. by eapply dict_of_Some. Qed.

(** A pass either keeps the state or takes a step. *)
Lemma correction_pass_Ok c c' b : stage_ok (stage_of c) -> correction_pass c = Ok (c', b) ->
  (c' = c /\ b = false) \/
  (stage_ok (stage_of c') /\ exists d, co_diffs c' = co_diffs c ++ [d] /\
     correction_step (stage_of c) (dd_action_type d) (stage_of c') /\
     dd_sequence d = Z.of_nat (length (co_diffs c)) + 1 /\
     dd_design_hash_before d = dr_design_hash (co_design c) /\
     dd_design_hash_after d = dr_design_hash (co_design c')).
Proof.
  intros OK H. unfold correction_pass in H.
  apply bind_Ok in H as (de & Hde & H). apply bind_Ok in H as (be & Hbe & H). apply bind_Ok in H as (je & Hje & H).
  cbv zeta in H. case_match eqn:EB.
  - unfold add_divider in H. cbv zeta in H. destruct (Z.leb_spec MAX_AUTO_VERTICAL_DIVIDERS
      (p_vertical_divider_count (spec_parameters (co_spec c)))) as [?|EL]; [left; by injection H as <- <-|].
    apply bind_Ok in H as (found & Hf & H). destruct (score_ltb _ _) eqn:ES; [|left; by injection H as <- <-].
    cbn [negb] in H. apply bind_Ok in H as (c1 & Ha & H). injection H as <- <-. right.
    apply candidate_Ok in Hf as (q & Hq & Hs & Hok). apply accept_Ok in Ha as (Est & d & D1 & D2 & D3 & D4 & D5).
    apply new_BookcaseParameters_Ok in Hq as ->.
    rewrite Est. split; [done|]. exists d. rewrite D2.
    assert (co_design c1 = snd (fst found)) as -> by (by apply (f_equal st_design) in Est).
    split_and!; [done| |done..]. constructor; [done| |done|done].
    apply evaluation_at_Ok in Hde as [? R1], Hbe as [? R2], Hje as [? R3]. unfold blocked in EB.
    apply orb_true_iff in EB as [[EB|EB]%orb_true_iff|[_ EB]%andb_true_iff]; apply bool_decide_eq_true in EB.
    + exists de. rewrite R1. split_and!; [done| |done]. by left.
    + exists be. rewrite R2. split_and!; [done| |done]. right. by left.
    + exists je. rewrite R3. split_and!; [done| |done]. right. right. by left.
  - apply bind_Ok in H as (st & Hst & H). case_match eqn:ES.
    + apply andb_true_iff in ES as [_ EB0]. apply bool_decide_eq_true in EB0.
      unfold add_back_panel in H. left. destruct OK as (V & _ & _). cbn [st_spec stage_of] in V.
      assert (spec_back_material (co_spec c) = None) as E.
      { unfold new_BookcaseDesignSpec in V. inv_ok.
        repeat match goal with H : validate_material _ = _ |- _ => unfold validate_material in H; cbv zeta in H end.
        inv_ok. rewrite EB0 in *. cbn in *. destruct (spec_back_material (co_spec c)); [|done].
        by repeat match goal with H : raise_if _ _ = _ |- _ => apply raise_if_Ok in H end. }
      rewrite E in H. by injection H as <- <-.
    + apply bind_Ok in H as (ti & Hti & H). unfold require_anchor in H. cbv zeta in H.
      case_match eqn:ER; [|left; by injection H as <- <-]. right.
      apply andb_true_iff in ER as [_ ER]. apply negb_true_iff in ER.
      apply bind_Ok in H as (w & Hw & H). apply bind_Ok in H as (found & Hf & H).
      apply bind_Ok in H as (c1 & Ha & H). injection H as <- <-.
      assert (w = unverified_anchor (p_wall_anchor (spec_parameters (co_spec c)))) as ->
        by (unfold new_WallAnchorSpec in Hw; inv_ok; done).
      apply candidate_Ok in Hf as (q & Hq & Hs & Hok). apply accept_Ok in Ha as (Est & d & D1 & D2 & D3 & D4 & D5).
      apply new_BookcaseParameters_Ok in Hq as ->.
      rewrite Est. split; [done|]. exists d. rewrite D2.
      assert (co_design c1 = snd (fst found)) as -> by (by apply (f_equal st_design) in Est).
      split_and!; [done| |done..]. by constructor.
Qed.

Lemma correction_loop_Ok x n c c' : stage_ok (stage_of c) -> correction_history x (co_diffs c) (stage_of c) ->
  correction_loop n c = Ok c' ->
  stage_ok (stage_of c') /\ correction_history x (co_diffs c') (stage_of c') /\
  (length (co_diffs c') <= length (co_diffs c) + n)%nat.
Proof.
  revert c. induction n as [|n IH]; intros c OK Hh H; cbn in H.
  { injection H as <-. split_and!; [done..|lia]. }
  apply bind_Ok in H as ([c1 b] & Hp & H).
  apply correction_pass_Ok in Hp as [[-> ->]|(OK1 & d & D1 & D2 & D3 & D4 & D5)]; [| |done].
  { injection H as <-. split_and!; [done..|lia]. }
  assert (Hh1 : correction_history x (co_diffs c1) (stage_of c1)) by (rewrite D1; by eapply history_step).
  assert (L1 : length (co_diffs c1) = S (length (co_diffs c))) by (rewrite D1, length_app; cbn; lia).
  destruct b; [|injection H as <-; split_and!; [done..|lia]].
  destruct (IH c1 OK1 Hh1 H) as (? & ? & ?). split_and!; [done..|lia].
Qed.

Lemma aggregate_not_block l : aggregate_status l <> RULE_BLOCK -> forall x, x ∈ l -> x <> RULE_BLOCK.
Proof.
  destruct l as [|a l]; cbn; [intros _ x ?%not_elem_of_nil; done|].
  set (f := fun best s => if status_rank best <? status_rank s then s else best).
  enough (G : forall b l, foldl f b l <> RULE_BLOCK -> b <> RULE_BLOCK /\ forall x, x ∈ l -> x <> RULE_BLOCK).
  { intros H x. destruct (G a l H) as [? ?]. intros [->|?]%elem_of_cons; auto. }
  clear. intros b l. revert b. induction l as [|y l IH]; intros b H; [split; [done|by intros x ?%not_elem_of_nil]|].
  destruct (IH _ H) as [H1 H2]. assert (b <> RULE_BLOCK /\ y <> RULE_BLOCK) as [Hb Hy]
    by (unfold f in H1; by destruct b, y).
  split; [done|]. intros x [->|?]%elem_of_cons; auto.
Qed.

(** What no step touches. *)
Lemma history_keeps x diffs z : correction_history x diffs z ->
  spec_material (st_spec z) = spec_material (st_spec x) /\
  p_shelf_load_n (spec_parameters (st_spec z)) = p_shelf_load_n (spec_parameters (st_spec x)) /\
  p_back_panel (spec_parameters (st_spec z)) = p_back_panel (spec_parameters (st_spec x)) /\
  p_vertical_divider_count (spec_parameters (st_spec z)) =
    p_vertical_divider_count (spec_parameters (st_spec x))
    + Z.of_nat (length (filter (fun d => dd_action_type d = ADD_VERTICAL_DIVIDER) diffs)) /\
  (wa_verified (p_wall_anchor (spec_parameters (st_spec z))) = true ->
   p_wall_anchor (spec_parameters (st_spec z)) = p_wall_anchor (spec_parameters (st_spec x))).
Proof.
  induction 1 as [|diffs y d z Hh (M & L & B & D & A) St _ _ _ _]; [split_and!; try done; cbn; lia|].
  rewrite filter_app, length_app. remember (dd_action_type d) as a eqn:Ea.
  destruct St as [z p Hlt _ E _|z p Hr E]; rewrite E; cbn [with_parameters adjusted spec_material spec_parameters
    p_shelf_load_n p_back_panel p_vertical_divider_count p_wall_anchor unverified_anchor wa_verified].
  - subst p. rewrite M, L, B, D. rewrite filter_cons. split_and!; [done..| |done].
    rewrite <- Ea, decide_True by done. cbn. lia.
  - subst p. rewrite M, L, B, D. rewrite filter_cons. split_and!; [done..| |done].
    rewrite <- Ea, decide_False by done. cbn. lia.
Qed.

Lemma auto_correct_Ok s n r : new_BookcaseDesignSpec s = Ok s -> auto_correct s n = Ok r ->
  let start := mkStage s (ac_original_design r) (ac_initial_report r) in
  let final := mkStage (ac_corrected_spec r) (ac_corrected_design r) (ac_final_report r) in
  stage_ok start /\ stage_ok final /\ correction_history start (ac_diffs r) final /\
  Z.of_nat (length (ac_diffs r)) <= n /\
  ac_resolved r = negb (bool_decide (rr_overall_status (ac_final_report r) = RULE_BLOCK)) /\
  (p_reinforcement_mode (spec_parameters s) <> AUTO -> ac_diffs r = [] /\ final = start).
Proof.
  intros V H. cbv zeta. unfold auto_correct in H.
  apply bind_Ok in H as ([] & HN & H). apply raise_if_Ok in HN. bprop.
  apply bind_Ok in H as (d & Hd & H). apply bind_Ok in H as (rep & Hr & H). cbv zeta in H.
  assert (OK : stage_ok (mkStage s d rep)) by done.
  destruct (bool_decide (p_reinforcement_mode (spec_parameters s) = AUTO)) eqn:EA; cbn [negb] in H.
  - apply bool_decide_eq_true in EA. apply bind_Ok in H as (c & Hc & H). injection H as <-.
    apply (correction_loop_Ok (mkStage s d rep)) in Hc as (F & Hh & L); [|done|constructor].
    cbn in L. split_and!; try done. cbn. lia.
  - injection H as <-. split_and!; try done; [constructor|cbn; lia].
Qed.

(** C21: automatic correction is a sequence of recorded steps, at most as many as
    allowed, from the compiled design it is given to the compiled and evaluated
    design it returns: each adds one divider because a structural rule blocks
    and the structural score improves, or demands a wall anchor without
    claiming it verified.  Material, load and back panel stay as they were, and
    outside automatic mode nothing changes. *)
Theorem auto_correct_history (s : BookcaseDesignSpec) (n : Z) (r : AutoCorrectionResult) :
  new_BookcaseDesignSpec s = Ok s -> auto_correct s n = Ok r ->
  let start := mkStage s (ac_original_design r) (ac_initial_report r) in
  let final := mkStage (ac_corrected_spec r) (ac_corrected_design r) (ac_final_report r) in
  stage_ok start /\ stage_ok final /\
  correction_history start (ac_diffs r) final /\
  Z.of_nat (length (ac_diffs r)) <= n /\
  (ac_resolved r = true <-> rr_overall_status (ac_final_report r) <> RULE_BLOCK) /\
  (p_reinforcement_mode (spec_parameters s) <> AUTO -> ac_diffs r = [] /\ final = start) /\
  spec_material (ac_corrected_spec r) = spec_material s /\
  p_shelf_load_n (spec_parameters (ac_corrected_spec r)) = p_shelf_load_n (spec_parameters s) /\
  p_back_panel (spec_parameters (ac_corrected_spec r)) = p_back_panel (spec_parameters s) /\
  (wa_verified (p_wall_anchor (spec_parameters (ac_corrected_spec r))) = true ->
   p_wall_anchor (spec_parameters (ac_corrected_spec r)) = p_wall_anchor (spec_parameters s)).
Proof.
  intros V H. cbv zeta. destruct (auto_correct_Ok s n r V H) as (St & F & Hh & L & R & N).
  destruct (history_keeps _ _ _ Hh) as (K1 & K2 & K3 & _ & K5). cbn [st_spec] in *.
  assert (ac_resolved r = true <-> rr_overall_status (ac_final_report r) <> RULE_BLOCK) as [R1 R2]
    by (by rewrite R, negb_true_iff, bool_decide_eq_false).
  by split_and!.
Qed.

(** C20: if the report of a compiled design does not block, every shelf, with its
    own span, depth and share of the load plus its own weight, deflects no more
    than the absolute limit and the limit in proportion to its span, its bending
    stress stays within the reduced strength over the safety factor, and each
    supporting groove bears half of any segment's load. *)
Theorem report_screens_shelves (s : BookcaseDesignSpec) (d : DesignResult) (r : RuleReport) :
  new_BookcaseDesignSpec s = Ok s -> build_bookcase s = Ok d -> evaluate d = Ok r ->
  rr_overall_status r <> RULE_BLOCK ->
  (forall q, q ∈ shelves d ->
    (beam_deflection_um d q <= inject_Z (p_max_deflection_um (spec_parameters s)))%Q /\
    (beam_deflection_um d q <= inject_Z (clear_span d q) / inject_Z (p_deflection_span_ratio (spec_parameters s)))%Q /\
    (beam_stress_kpa d q <= stress_limit_kpa d)%Q) /\
  (shelves d <> [] ->
    p_shelf_mount (spec_parameters s) = FIXED /\
    exists cases, dado_support_cases d = Ok cases /\ cases <> [] /\
      forall c q, c ∈ cases -> q ∈ shelves d ->
        (segment_load_n d q * inject_Z 1 / inject_Z 2 <= bearing_limit_n d (dc_bearing_area_um2 c))%Q).
Proof.
  intros V B H NB. pose proof (spec_screenable s d V B) as S. destruct (build_Ok _ _ B) as (<- & _ & _).
  unfold evaluate in H. apply bind_Ok in H as (e1 & H1 & H). apply bind_Ok in H as (e2 & H2 & H).
  apply bind_Ok in H as (e3 & H3 & H). apply bind_Ok in H as (e4 & H4 & H). apply bind_Ok in H as (e5 & H5 & H).
  apply bind_Ok in H as (es & H6 & H). cbv zeta in H. unfold new_RuleReport in H. inv_ok.
  change (aggregate_status (map re_status ([e1; e2; e3; e4; e5] ++ es)) <> RULE_BLOCK) in NB.
  assert (P : forall e, e ∈ [e1; e2; e3; e4; e5] ++ es -> re_status e <> RULE_BLOCK)
    by (intros e He; apply (aggregate_not_block _ NB); by apply list_elem_of_fmap_2).
  split.
  - intros q Hq. destruct (deflection_sound d S e1 H1 (P e1 ltac:(set_solver)) q Hq) as [D1 D2].
    split_and!; [done|done|]. apply (bending_sound d S e2 H2 (P e2 ltac:(set_solver)) q Hq).
  - apply (joint_sound d S e3 H3 (P e3 ltac:(set_solver))).
Qed.

(** where no wall anchor is needed, a tipping rule that does not block means
    a stabilising moment of at least 1.5 times the overturning moment of the
    declared force at the height of the combined centre of gravity of parts and
    loaded shelves, and a rule that passes means at least twice. *)
Theorem tip_pass_stable (s : BookcaseDesignSpec) (d : DesignResult) (e : RuleEvaluation) :
  new_BookcaseDesignSpec s = Ok s -> build_bookcase s = Ok d -> tip_risk d = Ok e -> anchor_required d = false ->
  (re_status e <> RULE_BLOCK ->
   (inject_Z 3 * overturning_moment d <= inject_Z 2 * resisting_moment d)%Q) /\
  (re_status e = RULE_PASS -> (inject_Z 2 * overturning_moment d <= resisting_moment d)%Q).
Proof.
  intros V B H A. pose proof (spec_screenable s d V B) as S. destruct (build_Ok _ _ B) as (E & _ & _).
  rewrite <- E in B. unfold tip_risk in H. apply bind_Ok in H as (t & Ht & H). cbv zeta in H.
  apply new_RuleEvaluation_Ok in H as ->. cbn [re_status]. unfold tip_status. rewrite A. cbn [andb].
  pose proof (fun n => tip_screen_sound d t n S B Ht) as T.
  destruct (Z.ltb_spec (ts_factor_permille t) 1500); [done|].
  pose proof (T 1500 ltac:(lia) ltac:(lia)) as T1. cbn in T1.
  split; [intros _; unfold inject_Z in *; lra|].
  destruct (Z.ltb_spec (ts_factor_permille t) 2000); [done|]. intros _.
  pose proof (T 2000 ltac:(lia) ltac:(lia)) as T2. unfold inject_Z in *. lra.
Qed.
