(* ===== verification/RulesExamples.v ===== *)
(** * The rule engine on a concrete bookcase

    A shelf that bends too far: the engine blocks the design, adds a divider,
    and the corrected design passes. *)

From Stdlib Require Import QArith.
From S2P Require Import Prelude Text Geometry Enums Models Identity DesignResult BookcaseParts JointGeometry BookcaseJoints AssemblyGraph Examples Rules RulesSafety.

#[local] Open Scope Z_scope.

Definition weak_parameters : BookcaseParameters :=
  mkBookcaseParameters (mm_int 900) (mm_int 400) (mm_int 320) (mm_int 18) (mm_int 18)
    1 FIXED 300 0 [] [] 0 0 0 BACK_NONE (mm_int 6) 0 (mm_int 1) 0 DADO AUTO
    (mm_int 3) 200 1800 50 default_wall_anchor.

Definition weak_spec : BookcaseDesignSpec :=
  mkBookcaseDesignSpec "weak-design" 1 "bookcase" BOOKCASE_TEMPLATE_VERSION BOOKCASE_ENGINE_VERSION DRAFT
    weak_parameters example_material None None.

Lemma weak_spec_valid : new_BookcaseDesignSpec weak_spec = Ok weak_spec.
Proof. vm_compute. reflexivity. Qed.

(** What the engine finds on it. *)
Definition corrected_as_expected (m : result AutoCorrectionResult) : bool :=
  match m with
  | Err _ => false
  | Ok r =>
      bool_decide (rr_overall_status (ac_initial_report r) = RULE_BLOCK) &&
      bool_decide (map dd_action_type (ac_diffs r) = [ADD_VERTICAL_DIVIDER]) &&
      bool_decide (rr_overall_status (ac_final_report r) = RULE_WARNING) &&
      bool_decide (p_vertical_divider_count (spec_parameters (ac_corrected_spec r)) = 1) &&
      bool_decide (p_max_deflection_um (spec_parameters (ac_corrected_spec r)) = 3000) &&
      bool_decide (map part_semantic_key (shelves (ac_corrected_design r)) = ["shelf-r0-b0"; "shelf-r0-b1"]) &&
      negb (anchor_required (ac_corrected_design r)) &&
      match tip_risk (ac_corrected_design r) with
      | Ok e => bool_decide (re_status e = RULE_PASS)
      | Err _ => false
      end
  end.

Lemma weak_corrected : corrected_as_expected (auto_correct weak_spec 8) = true.
Proof. vm_compute. reflexivity. Qed.

Lemma weak_result : exists r, auto_correct weak_spec 8 = Ok r /\ corrected_as_expected (Ok r) = true.
Proof.
  pose proof weak_corrected as E. destruct (auto_correct weak_spec 8) as [r|e]; [by exists r|discriminate E].
Qed.

(** The corrected design is valid, compiled and evaluated. *)
Lemma weak_final : exists s d r e,
  new_BookcaseDesignSpec s = Ok s /\ build_bookcase s = Ok d /\ evaluate d = Ok r /\
  rr_overall_status r = RULE_WARNING /\ map part_semantic_key (shelves d) = ["shelf-r0-b0"; "shelf-r0-b1"] /\
  anchor_required d = false /\ tip_risk d = Ok e /\ re_status e = RULE_PASS /\
  p_max_deflection_um (spec_parameters s) = 3000.
Proof.
  destruct weak_result as (r & Hr & E).
  destruct (auto_correct_Ok _ _ _ weak_spec_valid Hr) as (_ & (V & B & R) & _). clear Hr.
  cbn [st_spec st_design st_report] in *. unfold corrected_as_expected in E.
  repeat (apply andb_true_iff in E as [E ?H]).
  repeat match goal with H : bool_decide _ = true |- _ => apply bool_decide_eq_true in H end.
  destruct (tip_risk (ac_corrected_design r)) as [e|] eqn:T; [|done].
  apply bool_decide_eq_true in H. exists (ac_corrected_spec r), (ac_corrected_design r), (ac_final_report r), e.
  split_and!; try done. by apply negb_true_iff.
Qed.

Lemma auto_correct_history_witness : exists r,
  auto_correct weak_spec 8 = Ok r /\ map dd_action_type (ac_diffs r) = [ADD_VERTICAL_DIVIDER] /\
  ac_resolved r = true.
Proof.
  destruct weak_result as (r & Hr & E). exists r.
  pose proof (auto_correct_history weak_spec 8 r weak_spec_valid Hr) as (_ & _ & _ & _ & [_ R] & _).
  unfold corrected_as_expected in E. repeat (apply andb_true_iff in E as [E ?H]).
  repeat match goal with H : bool_decide _ = true |- _ => apply bool_decide_eq_true in H end.
  split; [exact Hr|]. split; [assumption|]. apply R. intros K. congruence.
Defined.

Lemma report_screens_shelves_witness : exists d q, q ∈ shelves d /\
  (beam_deflection_um d q <= inject_Z 3000)%Q.
Proof.
  destruct weak_final as (s & d & r & e & V & B & R & W & K & _ & _ & _ & M).
  destruct (report_screens_shelves s d r V B R ltac:(by rewrite W)) as [H _].
  destruct (shelves d) as [|q l] eqn:E; [discriminate K|]. exists d, q. rewrite E.
  split; [by left|]. destruct (H q ltac:(by left)) as [D _]. rewrite M in D. exact D.
Defined.

Lemma tip_pass_stable_witness : exists d, shelves d <> [] /\
  (inject_Z 2 * overturning_moment d <= resisting_moment d)%Q.
Proof.
  destruct weak_final as (s & d & r & e & V & B & _ & _ & K & A & T & P & _).
  exists d. split; [intros E; by rewrite E in K|]. exact (proj2 (tip_pass_stable s d e V B T A) P).
Defined.
