(* ===== verification/ProductionModel.v ===== *)
(** * Production toolpaths: the contracts

    [cam/src/custombuild_cam/production_model.py]: what a workshop binds before
    cutting motion may be generated (tools, recipes, setups, the machine), the
    moves, programs and documents that carry the motion, and the checks each
    constructor makes. *)

From S2P Require Import Prelude Text Identity ManufacturingModel Machining CamValidation.

Definition PRODUCTION_TOOLPATH_SCHEMA_VERSION : string := "custombuild.toolpaths.v1".
Definition PRODUCTION_TOOLPATH_ENGINE_VERSION : string := "production-toolpaths-1.1.0".
Definition EXECUTABLE_CAM_CANDIDATE_MODE : string := "EXECUTABLE_CAM_CANDIDATE".
Definition MAX_THROUGH_OVERTRAVEL_UM : Z := 500.
Definition MAX_LINUXCNC_TOOL_OR_OFFSET_NUMBER : Z := 2147483647.
Definition IDENTITY_SOURCE_TO_WCS_XY : string := "IDENTITY_STOCK_XY_TO_WCS_XY".
Definition FIXTURE_KEEPOUT_POLICY : string := "UNINFLATED_XY_FOOTPRINTS_MAX_Z_BOUND".
Definition STOCK_TOP_Z0_REFERENCE : string := "STOCK_TOP_Z0".

Definition PLACEHOLDER_TOKENS : list string :=
  ["EXTERNAL"; "PLACEHOLDER"; "REQUIRED"; "TBD"; "TODO"; "UNKNOWN"; "UNRESOLVED"; "UNVERIFIED"].

Inductive ProductionToolGeometry := FLAT_END_MILL | DRILL_GEOMETRY | COUNTERSINK_GEOMETRY.
Inductive ProductionMoveKind := RAPID | LINEAR.
Inductive ProductionMoveRole := POSITION | APPROACH | CUT | PECK_RETRACT | TAB_RAMP | TAB_BRIDGE | RETRACT.

#[export] Instance ProductionToolGeometry_eq_dec : EqDecision ProductionToolGeometry.
Proof. solve_decision. Defined.
#[export] Instance ProductionMoveKind_eq_dec : EqDecision ProductionMoveKind.
Proof. solve_decision. Defined.
#[export] Instance ProductionMoveRole_eq_dec : EqDecision ProductionMoveRole.
Proof. solve_decision. Defined.

Definition tool_geometry_value (g : ProductionToolGeometry) : string :=
  match g with
  | FLAT_END_MILL => "FLAT_END_MILL" | DRILL_GEOMETRY => "DRILL" | COUNTERSINK_GEOMETRY => "COUNTERSINK"
  end.

(** ** Checks of fields *)

Definition cam_error (message : string) : py_error := ProductionCAMError message.
Definition refuse (cond : bool) (message : string) : result unit := raise_if cond (cam_error message).

Definition require_identity (label value : string) : result unit :=
  refuse (negb (is_canonical_id value)) (label +:+ " must be a canonical non-blank identity").

Definition require_identities (fields : list (string * string)) : result unit :=
  check_all (fun lv => require_identity (fst lv) (snd lv)) fields.

Definition require_hash (label value : string) : result unit :=
  refuse (negb (design_hash_ok value)) (label +:+ " must be a lowercase SHA-256 hex digest").

(** [token in text] *)
Fixpoint occurs_in (token text : list ascii) : bool :=
  match after_prefix token text with
  | Some _ => true
  | None => match text with [] => false | _ :: rest => occurs_in token rest end
  end.

Definition require_exact_setup_fact (label value : string) : result unit :=
  refuse (blank_or_padded value) (label +:+ " must be a canonical non-blank setup fact");;
  refuse (existsb (fun token => occurs_in (chars token) (chars (upper value))) PLACEHOLDER_TOKENS)
    (label +:+ " contains a placeholder instead of an accepted fact").

Definition require_facts (fields : list (string * string)) : result unit :=
  check_all (fun lv => require_exact_setup_fact (fst lv) (snd lv)) fields.

Definition require_min (minimum : Z) (label : string) (value : Z) : result unit :=
  refuse (value <? minimum) (label +:+ " must be at least " +:+ str_of_Z minimum).

Definition require_all_min (minimum : Z) (fields : list (string * Z)) : result unit :=
  check_all (fun lv => require_min minimum (fst lv) (snd lv)) fields.

Definition require_between (minimum maximum : Z) (label : string) (value : Z) : result unit :=
  require_min minimum label value;;
  refuse (maximum <? value) (label +:+ " must be at most " +:+ str_of_Z maximum).

(** ** Tools *)

Record ProductionToolBinding := mkToolBinding {
  tb_tool_id : string;
  tb_tool_version : string;
  tb_source_tool_id : string;
  tb_source_tool_version : string;
  tb_source_tool_sha256 : string;
  tb_controller_tool_number : Z;
  tb_length_offset_number : Z;
  tb_expected_length_offset_x_um : Z;
  tb_expected_length_offset_y_um : Z;
  tb_expected_length_offset_z_um : Z;
  tb_tool_table_evidence_id : string;
  tb_tool_table_evidence_version : string;
  tb_tool_table_evidence_sha256 : string;
  tb_effective_diameter_um : Z;
  tb_cutting_length_um : Z;
  tb_measured_stickout_um : Z;
  tb_minimum_holder_clearance_um : Z;
  tb_assembly_collision_radius_um : Z;
  tb_geometry : ProductionToolGeometry;
  tb_center_cutting : bool;
  tb_drill_point_length_um : Z;
  tb_spindle_direction : string }.

Definition new_ProductionToolBinding (t : ProductionToolBinding) : result ProductionToolBinding :=
  require_identities [("tool_id", tb_tool_id t); ("tool_version", tb_tool_version t);
    ("source_tool_id", tb_source_tool_id t); ("source_tool_version", tb_source_tool_version t)];;
  require_hash "source_tool_sha256" (tb_source_tool_sha256 t);;
  require_between 1 MAX_LINUXCNC_TOOL_OR_OFFSET_NUMBER "controller_tool_number" (tb_controller_tool_number t);;
  require_between 1 MAX_LINUXCNC_TOOL_OR_OFFSET_NUMBER "length_offset_number" (tb_length_offset_number t);;
  refuse (negb (tb_expected_length_offset_x_um t =? 0) || negb (tb_expected_length_offset_y_um t =? 0))
    "production CAM v1 requires zero expected X/Y tool-length offsets";;
  check_all (fun lv => require_identity (fst lv) (snd lv);; require_exact_setup_fact (fst lv) (snd lv))
    [("tool_table_evidence_id", tb_tool_table_evidence_id t);
     ("tool_table_evidence_version", tb_tool_table_evidence_version t)];;
  require_hash "tool_table_evidence_sha256" (tb_tool_table_evidence_sha256 t);;
  require_all_min 1 [("effective_diameter_um", tb_effective_diameter_um t);
    ("cutting_length_um", tb_cutting_length_um t); ("measured_stickout_um", tb_measured_stickout_um t);
    ("minimum_holder_clearance_um", tb_minimum_holder_clearance_um t);
    ("assembly_collision_radius_um", tb_assembly_collision_radius_um t)];;
  refuse (tb_measured_stickout_um t <? tb_cutting_length_um t) "tool cutting length cannot exceed measured stickout";;
  refuse (tb_measured_stickout_um t <=? tb_minimum_holder_clearance_um t)
    "tool holder clearance must be smaller than measured stickout";;
  refuse (2 * tb_assembly_collision_radius_um t <? tb_effective_diameter_um t)
    "tool assembly collision radius cannot be smaller than the cutter radius";;
  require_min 0 "drill_point_length_um" (tb_drill_point_length_um t);;
  refuse (negb (tb_drill_point_length_um t =? 0)) "production CAM v1 requires exactly zero drill point length";;
  refuse (bool_decide (tb_geometry t = DRILL_GEOMETRY) && negb (tb_center_cutting t))
    "production drill must be center-cutting with a flat-bottom point contract";;
  refuse (negb (bool_decide (tb_spindle_direction t = "CW")))
    "production CAM v1 supports clockwise spindle rotation only";;
  Ok t.

(** ** Recipes *)

Record CuttingRecipe := mkRecipe {
  cr_recipe_id : string;
  cr_version : string;
  cr_machine_profile_id : string;
  cr_machine_profile_version : string;
  cr_material_id : string;
  cr_material_version : string;
  cr_tool_id : string;
  cr_tool_version : string;
  cr_operation_kind : OperationKind;
  cr_spindle_rpm : Z;
  cr_feed_um_min : Z;
  cr_plunge_um_min : Z;
  cr_stepdown_um : Z;
  cr_stepover_ppm : Z;
  cr_peck_depth_um : Z;
  cr_approach_clearance_um : Z;
  cr_through_overtravel_um : Z;
  cr_tab_width_um : Z;
  cr_tab_height_um : Z;
  cr_process_accuracy_um : Z;
  cr_accepted_tolerance_um : Z;
  cr_entry_strategy : string;
  cr_diameter_tolerance_um : Z;
  cr_countersink_top_diameter_um : option Z;
  cr_countersink_included_angle_mdeg : option Z }.

Definition check_tabs (r : CuttingRecipe) : result unit :=
  if bool_decide (cr_operation_kind r = OP_CONTOUR) then
    refuse (cr_through_overtravel_um r =? 0) "contour recipe requires positive through overtravel";;
    refuse ((cr_tab_width_um r <=? 0) || (cr_tab_height_um r <=? 0))
      "contour recipe requires explicit tab width and height";;
    refuse (cr_tab_width_um r <=? 2 * cr_process_accuracy_um r)
      "contour tab width must exceed twice the process accuracy"
  else refuse (negb (cr_tab_width_um r =? 0) || negb (cr_tab_height_um r =? 0))
         "tabs are only valid for contour recipes".

Definition check_countersink (r : CuttingRecipe) : result unit :=
  if bool_decide (cr_operation_kind r = OP_COUNTERSINK) then
    match cr_countersink_top_diameter_um r, cr_countersink_included_angle_mdeg r with
    | Some top, Some angle =>
        require_min 1 "countersink_top_diameter_um" top;;
        require_min 60000 "countersink_included_angle_mdeg" angle;;
        refuse (120000 <? angle) "countersink included angle exceeds 120 degrees"
    | _, _ => Err (cam_error "countersink recipe requires top diameter and included angle")
    end
  else refuse (is_some (cr_countersink_top_diameter_um r) || is_some (cr_countersink_included_angle_mdeg r))
         "countersink geometry is only valid for countersink recipes".

Definition new_CuttingRecipe (r : CuttingRecipe) : result CuttingRecipe :=
  require_identities [("recipe_id", cr_recipe_id r); ("recipe version", cr_version r);
    ("machine_profile_id", cr_machine_profile_id r); ("machine_profile_version", cr_machine_profile_version r);
    ("material_id", cr_material_id r); ("material_version", cr_material_version r);
    ("tool_id", cr_tool_id r); ("tool_version", cr_tool_version r)];;
  require_all_min 1 [("spindle_rpm", cr_spindle_rpm r); ("feed_um_min", cr_feed_um_min r);
    ("plunge_um_min", cr_plunge_um_min r); ("stepdown_um", cr_stepdown_um r);
    ("stepover_ppm", cr_stepover_ppm r); ("peck_depth_um", cr_peck_depth_um r);
    ("approach_clearance_um", cr_approach_clearance_um r); ("process_accuracy_um", cr_process_accuracy_um r);
    ("accepted_tolerance_um", cr_accepted_tolerance_um r)];;
  refuse (cr_accepted_tolerance_um r <? cr_process_accuracy_um r)
    "recipe process accuracy cannot exceed its accepted dimensional tolerance";;
  refuse (1000000 <? cr_stepover_ppm r) "stepover_ppm cannot exceed one tool diameter";;
  refuse (negb (bool_decide (cr_entry_strategy r = "PLUNGE"))) "production CAM v1 supports explicit PLUNGE entry only";;
  require_min 0 "diameter_tolerance_um" (cr_diameter_tolerance_um r);;
  refuse (negb (bool_decide (cr_operation_kind r = OP_DRILL)) && negb (cr_diameter_tolerance_um r =? 0))
    "diameter tolerance is only valid for drill recipes";;
  require_min 0 "through_overtravel_um" (cr_through_overtravel_um r);;
  refuse (MAX_THROUGH_OVERTRAVEL_UM <? cr_through_overtravel_um r)
    ("through overtravel cannot exceed " +:+ str_of_Z MAX_THROUGH_OVERTRAVEL_UM +:+ " um");;
  require_min 0 "tab_width_um" (cr_tab_width_um r);;
  require_min 0 "tab_height_um" (cr_tab_height_um r);;
  check_tabs r;;
  check_countersink r;;
  Ok r.

(** ** Setups *)

Record BoundSetup := mkBoundSetup {
  bs_setup_id : string;
  bs_stock_id : string;
  bs_source_material_id : string;
  bs_source_material_version : string;
  bs_material_id : string;
  bs_material_version : string;
  bs_material_evidence_id : string;
  bs_material_evidence_version : string;
  bs_material_evidence_sha256 : string;
  bs_sheet_index : Z;
  bs_side : Side;
  bs_source_setup_sha256 : string;
  bs_source_to_wcs_xy_transform : string;
  bs_wcs : string;
  bs_machine_wcs_origin : Point2D;
  bs_machine_wcs_z0_um : Z;
  bs_machine_wcs_xy_rotation_mdeg : Z;
  bs_stock_width_um : Z;
  bs_stock_height_um : Z;
  bs_stock_thickness_um : Z;
  bs_safe_z_um : Z;
  bs_reference_surface : string;
  bs_orientation : string;
  bs_fixture_id : string;
  bs_fixture_version : string;
  bs_fixture_sha256 : string;
  bs_fixture_clearance_z_um : Z;
  bs_minimum_rapid_clearance_um : Z;
  bs_keep_out_policy : string;
  bs_probe_method : string;
  bs_keep_out_zones : list Rect;
  bs_spoilboard_id : option string;
  bs_spoilboard_version : option string;
  bs_spoilboard_sha256 : option string;
  bs_through_cut_allowance_um : Z;
  bs_raw_allowance_um : Z }.

(** Equal to its sorted self: no element is followed by a smaller one. *)
Fixpoint in_order {A} (cmp : A -> A -> comparison) (l : list A) : bool :=
  match l with
  | x :: (y :: _) as rest => match cmp x y with Gt => false | _ => true end && in_order cmp rest
  | _ => true
  end.

Definition rect_cmp : Rect -> Rect -> comparison :=
  cmp_then (cmp_on r_y_um Z.compare)
    (cmp_then (cmp_on r_x_um Z.compare)
      (cmp_then (cmp_on r_height_um Z.compare) (cmp_on r_width_um Z.compare))).

Definition bound_stock (s : BoundSetup) : Rect := mkRect 0 0 (bs_stock_width_um s) (bs_stock_height_um s).

Definition check_spoilboard (s : BoundSetup) : result unit :=
  if negb (bs_through_cut_allowance_um s =? 0) then
    match bs_spoilboard_id s, bs_spoilboard_version s, bs_spoilboard_sha256 s with
    | Some id, Some version, Some sha256 =>
        require_identity "spoilboard_id" id;;
        require_identity "spoilboard_version" version;;
        require_hash "spoilboard_sha256" sha256
    | _, _, _ => Err (cam_error "positive through-cut allowance requires an exact spoilboard binding")
    end
  else refuse (is_some (bs_spoilboard_id s) || is_some (bs_spoilboard_version s) || is_some (bs_spoilboard_sha256 s))
         "spoilboard binding requires a positive through-cut allowance".

Definition new_BoundSetup (s : BoundSetup) : result BoundSetup :=
  require_identities [("setup_id", bs_setup_id s); ("stock_id", bs_stock_id s);
    ("source_material_id", bs_source_material_id s); ("source_material_version", bs_source_material_version s);
    ("material_id", bs_material_id s); ("material_version", bs_material_version s);
    ("material_evidence_id", bs_material_evidence_id s);
    ("material_evidence_version", bs_material_evidence_version s);
    ("fixture_id", bs_fixture_id s); ("fixture_version", bs_fixture_version s)];;
  require_facts [("material_id", bs_material_id s); ("material_version", bs_material_version s);
    ("material_evidence_id", bs_material_evidence_id s);
    ("material_evidence_version", bs_material_evidence_version s)];;
  require_hash "material_evidence_sha256" (bs_material_evidence_sha256 s);;
  require_hash "fixture_sha256" (bs_fixture_sha256 s);;
  require_hash "source_setup_sha256" (bs_source_setup_sha256 s);;
  require_min 0 "sheet_index" (bs_sheet_index s);;
  refuse (bool_decide (bs_side s = SIDE_EDGE)) "production CAM v1 does not support edge setups";;
  refuse (negb (bool_decide (bs_source_to_wcs_xy_transform s = IDENTITY_SOURCE_TO_WCS_XY)))
    "production CAM v1 requires an explicit identity source-to-WCS XY transform";;
  refuse (negb (wcs_code_ok (bs_wcs s))) "setup WCS must be a canonical G54-G59 value";;
  refuse (negb (bs_machine_wcs_xy_rotation_mdeg s =? 0)) "production CAM v1 requires zero WCS XY rotation";;
  require_all_min 1 [("stock_width_um", bs_stock_width_um s); ("stock_height_um", bs_stock_height_um s);
    ("stock_thickness_um", bs_stock_thickness_um s); ("safe_z_um", bs_safe_z_um s)];;
  require_facts [("orientation", bs_orientation s); ("probe_method", bs_probe_method s)];;
  refuse (negb (bool_decide (bs_reference_surface s = STOCK_TOP_Z0_REFERENCE)))
    "production CAM v1 requires measured stock-top Z0";;
  require_min 0 "fixture_clearance_z_um" (bs_fixture_clearance_z_um s);;
  require_min 1 "minimum_rapid_clearance_um" (bs_minimum_rapid_clearance_um s);;
  refuse (bs_safe_z_um s <? bs_fixture_clearance_z_um s + bs_minimum_rapid_clearance_um s)
    "setup safe Z lacks the accepted minimum rapid clearance above fixtures";;
  refuse (negb (bool_decide (bs_keep_out_policy s = FIXTURE_KEEPOUT_POLICY)))
    "unsupported or ambiguous fixture keep-out policy";;
  require_min 0 "through_cut_allowance_um" (bs_through_cut_allowance_um s);;
  refuse (MAX_THROUGH_OVERTRAVEL_UM <? bs_through_cut_allowance_um s)
    ("setup through-cut allowance cannot exceed " +:+ str_of_Z MAX_THROUGH_OVERTRAVEL_UM +:+ " um");;
  check_spoilboard s;;
  require_min 0 "raw_allowance_um" (bs_raw_allowance_um s);;
  refuse (negb (bs_raw_allowance_um s =? 0))
    "production CAM v1 rejects raw allowance; finished origin must be explicit";;
  refuse (negb (in_order rect_cmp (bs_keep_out_zones s))) "setup keep-out zones must be in canonical order";;
  refuse (negb (distinct (bs_keep_out_zones s))) "setup keep-out zones must be unique";;
  check_all (fun zone =>
    refuse ((Z.min (r_width_um zone) (r_height_um zone) <=? 0) || negb (contains (bound_stock s) zone))
      "setup keep-out zones must be positive and within stock") (bs_keep_out_zones s);;
  Ok s.

(** ** Canonical data

    [asdict] of the records, enumeration members as their values. *)

Definition text_json (o : option string) : json := match o with Some s => JStr s | None => JNull end.
Definition rect_json (r : Rect) : json :=
  JObj [("x_um", JInt (r_x_um r)); ("y_um", JInt (r_y_um r)); ("width_um", JInt (r_width_um r));
        ("height_um", JInt (r_height_um r))].
Definition point_json (p : Point2D) : json := JObj [("x_um", JInt (p2_x_um p)); ("y_um", JInt (p2_y_um p))].

Definition binding_json (t : ProductionToolBinding) : json :=
  JObj [("tool_id", JStr (tb_tool_id t)); ("tool_version", JStr (tb_tool_version t));
        ("source_tool_id", JStr (tb_source_tool_id t)); ("source_tool_version", JStr (tb_source_tool_version t));
        ("source_tool_sha256", JStr (tb_source_tool_sha256 t));
        ("controller_tool_number", JInt (tb_controller_tool_number t));
        ("length_offset_number", JInt (tb_length_offset_number t));
        ("expected_length_offset_x_um", JInt (tb_expected_length_offset_x_um t));
        ("expected_length_offset_y_um", JInt (tb_expected_length_offset_y_um t));
        ("expected_length_offset_z_um", JInt (tb_expected_length_offset_z_um t));
        ("tool_table_evidence_id", JStr (tb_tool_table_evidence_id t));
        ("tool_table_evidence_version", JStr (tb_tool_table_evidence_version t));
        ("tool_table_evidence_sha256", JStr (tb_tool_table_evidence_sha256 t));
        ("effective_diameter_um", JInt (tb_effective_diameter_um t));
        ("cutting_length_um", JInt (tb_cutting_length_um t));
        ("measured_stickout_um", JInt (tb_measured_stickout_um t));
        ("minimum_holder_clearance_um", JInt (tb_minimum_holder_clearance_um t));
        ("assembly_collision_radius_um", JInt (tb_assembly_collision_radius_um t));
        ("geometry", JStr (tool_geometry_value (tb_geometry t))); ("center_cutting", JBool (tb_center_cutting t));
        ("drill_point_length_um", JInt (tb_drill_point_length_um t));
        ("spindle_direction", JStr (tb_spindle_direction t))].

Definition recipe_json (r : CuttingRecipe) : json :=
  JObj [("recipe_id", JStr (cr_recipe_id r)); ("version", JStr (cr_version r));
        ("machine_profile_id", JStr (cr_machine_profile_id r));
        ("machine_profile_version", JStr (cr_machine_profile_version r));
        ("material_id", JStr (cr_material_id r)); ("material_version", JStr (cr_material_version r));
        ("tool_id", JStr (cr_tool_id r)); ("tool_version", JStr (cr_tool_version r));
        ("operation_kind", JStr (operation_kind_value (cr_operation_kind r)));
        ("spindle_rpm", JInt (cr_spindle_rpm r)); ("feed_um_min", JInt (cr_feed_um_min r));
        ("plunge_um_min", JInt (cr_plunge_um_min r)); ("stepdown_um", JInt (cr_stepdown_um r));
        ("stepover_ppm", JInt (cr_stepover_ppm r)); ("peck_depth_um", JInt (cr_peck_depth_um r));
        ("approach_clearance_um", JInt (cr_approach_clearance_um r));
        ("through_overtravel_um", JInt (cr_through_overtravel_um r));
        ("tab_width_um", JInt (cr_tab_width_um r)); ("tab_height_um", JInt (cr_tab_height_um r));
        ("process_accuracy_um", JInt (cr_process_accuracy_um r));
        ("accepted_tolerance_um", JInt (cr_accepted_tolerance_um r));
        ("entry_strategy", JStr (cr_entry_strategy r));
        ("diameter_tolerance_um", JInt (cr_diameter_tolerance_um r));
        ("countersink_top_diameter_um", json_opt (cr_countersink_top_diameter_um r));
        ("countersink_included_angle_mdeg", json_opt (cr_countersink_included_angle_mdeg r))].

(** ** The execution context *)

Record ProductionExecutionContext := mkContext {
  pe_source_machine_profile_id : string;
  pe_source_machine_profile_version : string;
  pe_source_machine_profile_fingerprint : string;
  pe_machine_profile_id : string;
  pe_machine_profile_version : string;
  pe_controller_id : string;
  pe_controller_version : string;
  pe_machine_x_min_um : Z;
  pe_machine_x_max_um : Z;
  pe_machine_y_min_um : Z;
  pe_machine_y_max_um : Z;
  pe_machine_z_min_um : Z;
  pe_machine_z_max_um : Z;
  pe_work_width_um : Z;
  pe_work_height_um : Z;
  pe_work_z_um : Z;
  pe_min_spindle_rpm : Z;
  pe_max_spindle_rpm : Z;
  pe_max_feed_um_min : Z;
  pe_max_plunge_um_min : Z;
  pe_tool_catalog_version : string;
  pe_recipe_catalog_version : string;
  pe_setups : list BoundSetup;
  pe_tool_bindings : list ProductionToolBinding;
  pe_recipes : list CuttingRecipe }.

(** Material, tool and operation kind: what a recipe is for. *)
Definition recipe_key : Type := string * string * string * string * OperationKind.
Definition recipe_key_of (r : CuttingRecipe) : recipe_key :=
  (cr_material_id r, cr_material_version r, cr_tool_id r, cr_tool_version r, cr_operation_kind r).

Definition recipe_cmp : CuttingRecipe -> CuttingRecipe -> comparison :=
  cmp_then (cmp_on cr_material_id String.compare)
    (cmp_then (cmp_on cr_material_version String.compare)
      (cmp_then (cmp_on cr_tool_id String.compare)
        (cmp_then (cmp_on cr_tool_version String.compare)
          (cmp_on (fun r => operation_kind_value (cr_operation_kind r)) String.compare)))).

Definition binding_cmp : ProductionToolBinding -> ProductionToolBinding -> comparison :=
  cmp_then (cmp_on tb_source_tool_id String.compare) (cmp_on tb_tool_id String.compare).

(** [_require_unique] *)
Definition require_unique {A} `{EqDecision A} (label : string) (values : list A) : result unit :=
  refuse (negb (distinct values)) ("duplicate " +:+ label).

Definition check_axis (axis : string) (minimum maximum declared_travel : Z) : result unit :=
  refuse (maximum <=? minimum) ("machine " +:+ axis +:+ " minimum must be below its maximum");;
  refuse (negb (maximum - minimum =? declared_travel))
    ("machine " +:+ axis +:+ " absolute bounds differ from declared travel").

Definition physical_sheet_of (s : BoundSetup) : string * Z := (bs_stock_id s, bs_sheet_index s).

Definition material_binding_of (s : BoundSetup) : list string :=
  [bs_source_material_id s; bs_source_material_version s; bs_material_id s; bs_material_version s;
   bs_material_evidence_id s; bs_material_evidence_version s; bs_material_evidence_sha256 s].

(** [setdefault] and the comparison: a setup agrees with the first of its sheet. *)
Fixpoint check_sheet_materials (first_of : list ((string * Z) * list string)) (setups : list BoundSetup) : result unit :=
  match setups with
  | [] => Ok ()
  | s :: rest =>
      match List.find (fun kb => bool_decide (fst kb = physical_sheet_of s)) first_of with
      | None => check_sheet_materials (first_of ++ [(physical_sheet_of s, material_binding_of s)]) rest
      | Some (_, previous) =>
          refuse (negb (bool_decide (previous = material_binding_of s)))
            ("setups for one physical sheet disagree on source or actual material: "
             +:+ bs_stock_id s +:+ ":" +:+ str_of_Z (bs_sheet_index s));;
          check_sheet_materials first_of rest
      end
  end.

Definition binding_key_of (t : ProductionToolBinding) : string * string := (tb_tool_id t, tb_tool_version t).

Definition stepover_um (t : ProductionToolBinding) (r : CuttingRecipe) : Z :=
  tb_effective_diameter_um t * cr_stepover_ppm r / 1000000.

Definition is_area (k : OperationKind) : bool := bool_decide (k = OP_POCKET \/ k = OP_GROOVE).

Section Context.
Context (c : ProductionExecutionContext).

Definition check_setup_travel (s : BoundSetup) : result unit :=
  refuse ((p2_x_um (bs_machine_wcs_origin s) <? pe_machine_x_min_um c) ||
          (pe_machine_x_max_um c <? p2_x_um (bs_machine_wcs_origin s) + bs_stock_width_um s) ||
          (p2_y_um (bs_machine_wcs_origin s) <? pe_machine_y_min_um c) ||
          (pe_machine_y_max_um c <? p2_y_um (bs_machine_wcs_origin s) + bs_stock_height_um s))
    ("setup WCS placement exceeds machine XY travel: " +:+ bs_setup_id s).

(** [{(tool_id, tool_version): binding}]: the last binding with the key. *)
Definition binding_of_key (key : string * string) : option ProductionToolBinding :=
  last (filter (fun t => binding_key_of t = key) (pe_tool_bindings c)).

Definition check_recipe (r : CuttingRecipe) : result unit :=
  refuse (negb (bool_decide (cr_machine_profile_id r = pe_machine_profile_id c)) ||
          negb (bool_decide (cr_machine_profile_version r = pe_machine_profile_version c)))
    ("recipe machine binding mismatch: " +:+ cr_recipe_id r);;
  t ← of_option (binding_of_key (cr_tool_id r, cr_tool_version r))
        (cam_error ("recipe references an unbound tool: " +:+ cr_recipe_id r));
  refuse (negb ((pe_min_spindle_rpm c <=? cr_spindle_rpm r) && (cr_spindle_rpm r <=? pe_max_spindle_rpm c)))
    ("recipe is outside machine spindle limits: " +:+ cr_recipe_id r);;
  refuse (pe_max_feed_um_min c <? cr_feed_um_min r) ("recipe exceeds machine feed limit: " +:+ cr_recipe_id r);;
  refuse (pe_max_plunge_um_min c <? cr_plunge_um_min r) ("recipe exceeds machine plunge limit: " +:+ cr_recipe_id r);;
  if is_area (cr_operation_kind r) then
    refuse (tb_effective_diameter_um t <? stepover_um t r + 2 * cr_process_accuracy_um r)
      ("recipe stepover exceeds process-accuracy-adjusted cutter coverage: " +:+ cr_recipe_id r)
  else Ok ().

Definition tool_table_evidence (t : ProductionToolBinding) : list string :=
  [tb_tool_table_evidence_id t; tb_tool_table_evidence_version t; tb_tool_table_evidence_sha256 t].

Definition new_ProductionExecutionContext : result ProductionExecutionContext :=
  require_identities [("source_machine_profile_id", pe_source_machine_profile_id c);
    ("source_machine_profile_version", pe_source_machine_profile_version c);
    ("machine_profile_id", pe_machine_profile_id c); ("machine_profile_version", pe_machine_profile_version c);
    ("controller_id", pe_controller_id c); ("controller_version", pe_controller_version c);
    ("tool_catalog_version", pe_tool_catalog_version c); ("recipe_catalog_version", pe_recipe_catalog_version c)];;
  require_hash "source_machine_profile_fingerprint" (pe_source_machine_profile_fingerprint c);;
  require_all_min 1 [("work_width_um", pe_work_width_um c); ("work_height_um", pe_work_height_um c);
    ("work_z_um", pe_work_z_um c); ("min_spindle_rpm", pe_min_spindle_rpm c);
    ("max_spindle_rpm", pe_max_spindle_rpm c); ("max_feed_um_min", pe_max_feed_um_min c);
    ("max_plunge_um_min", pe_max_plunge_um_min c)];;
  refuse (pe_max_spindle_rpm c <? pe_min_spindle_rpm c) "machine minimum spindle speed exceeds its maximum";;
  check_axis "X" (pe_machine_x_min_um c) (pe_machine_x_max_um c) (pe_work_width_um c);;
  check_axis "Y" (pe_machine_y_min_um c) (pe_machine_y_max_um c) (pe_work_height_um c);;
  check_axis "Z" (pe_machine_z_min_um c) (pe_machine_z_max_um c) (pe_work_z_um c);;
  refuse (bool_decide (pe_setups c = []) || bool_decide (pe_tool_bindings c = []) || bool_decide (pe_recipes c = []))
    "execution context requires setups, tool bindings and cutting recipes";;
  require_unique "setup" (map bs_setup_id (pe_setups c));;
  require_unique "tool binding" (map tb_tool_id (pe_tool_bindings c));;
  require_unique "source tool binding" (map tb_source_tool_id (pe_tool_bindings c));;
  require_unique "controller tool number" (map tb_controller_tool_number (pe_tool_bindings c));;
  require_unique "tool length-offset number" (map tb_length_offset_number (pe_tool_bindings c));;
  refuse (negb (bool_decide (length (remove_dups (map tool_table_evidence (pe_tool_bindings c))) = 1%nat)))
    "tool bindings must share one atomic tool-table evidence snapshot";;
  require_unique "recipe identity" (map cr_recipe_id (pe_recipes c));;
  require_unique "recipe binding" (map recipe_key_of (pe_recipes c));;
  refuse (negb (in_order (cmp_on bs_setup_id String.compare) (pe_setups c)))
    "setups must be in canonical setup_id order";;
  refuse (negb (in_order binding_cmp (pe_tool_bindings c))) "tool bindings must be in canonical source-tool order";;
  refuse (negb (in_order recipe_cmp (pe_recipes c))) "cutting recipes must be in canonical binding order";;
  check_all check_setup_travel (pe_setups c);;
  check_sheet_materials [] (pe_setups c);;
  check_all check_recipe (pe_recipes c);;
  Ok c.

Definition machine_profile_fingerprint : string :=
  content_hash (JObj [("controller_id", JStr (pe_controller_id c)); ("controller_version", JStr (pe_controller_version c));
    ("machine_profile_id", JStr (pe_machine_profile_id c)); ("machine_profile_version", JStr (pe_machine_profile_version c));
    ("machine_x_max_um", JInt (pe_machine_x_max_um c)); ("machine_x_min_um", JInt (pe_machine_x_min_um c));
    ("machine_y_max_um", JInt (pe_machine_y_max_um c)); ("machine_y_min_um", JInt (pe_machine_y_min_um c));
    ("machine_z_max_um", JInt (pe_machine_z_max_um c)); ("machine_z_min_um", JInt (pe_machine_z_min_um c));
    ("max_spindle_rpm", JInt (pe_max_spindle_rpm c)); ("min_spindle_rpm", JInt (pe_min_spindle_rpm c));
    ("max_feed_um_min", JInt (pe_max_feed_um_min c)); ("max_plunge_um_min", JInt (pe_max_plunge_um_min c));
    ("work_height_um", JInt (pe_work_height_um c)); ("work_width_um", JInt (pe_work_width_um c));
    ("work_z_um", JInt (pe_work_z_um c))]).

Definition binding_catalog_fingerprint : string :=
  content_hash (JObj [("tool_catalog_version", JStr (pe_tool_catalog_version c));
                      ("tool_bindings", JArr (map binding_json (pe_tool_bindings c)))]).

Definition recipe_catalog_fingerprint : string :=
  content_hash (JObj [("recipe_catalog_version", JStr (pe_recipe_catalog_version c));
                      ("recipes", JArr (map recipe_json (pe_recipes c)))]).
End Context.
#[global] Arguments machine_profile_fingerprint : simpl never.
#[global] Arguments binding_catalog_fingerprint : simpl never.
#[global] Arguments recipe_catalog_fingerprint : simpl never.

(** ** Moves, programs, documents *)

Record ProductionMove := mkMove {
  mv_sequence : Z;
  mv_operation_id : string;
  mv_pass_index : Z;
  mv_kind : ProductionMoveKind;
  mv_role : ProductionMoveRole;
  mv_x_um : Z;
  mv_y_um : Z;
  mv_z_um : Z;
  mv_feed_um_min : option Z }.
#[export] Instance ProductionMove_eq_dec : EqDecision ProductionMove.
Proof. solve_decision. Defined.

Definition new_ProductionMove (m : ProductionMove) : result ProductionMove :=
  require_min 1 "move sequence" (mv_sequence m);;
  require_identity "move operation_id" (mv_operation_id m);;
  require_min 1 "move pass_index" (mv_pass_index m);;
  match mv_kind m with
  | RAPID =>
      refuse (is_some (mv_feed_um_min m)) "rapid moves cannot carry a cutting feed";;
      refuse (negb (bool_decide (mv_role m ∈ [POSITION; APPROACH; PECK_RETRACT; RETRACT])))
        "rapid move has a cutting-only role"
  | LINEAR =>
      feed ← of_option (mv_feed_um_min m) (cam_error "linear moves require an explicit feed");
      require_min 1 "feed_um_min" feed;;
      refuse (bool_decide (mv_role m ∈ [POSITION; RETRACT])) "linear move has a rapid-only role"
  end;;
  Ok m.

Record ProductionProgram := mkProgram {
  pg_program_id : string;
  pg_run_order : Z;
  pg_setup_id : string;
  pg_tool_id : string;
  pg_tool_version : string;
  pg_recipe_ids : list string;
  pg_operation_ids : list string;
  pg_release_operation_ids : list string;
  pg_moves : list ProductionMove }.
#[export] Instance ProductionProgram_eq_dec : EqDecision ProductionProgram.
Proof. solve_decision. Defined.

(** [values[-n:]] *)
Definition last_n {A} (n : nat) (l : list A) : list A := drop (length l - n) l.

Definition new_ProductionProgram (p : ProductionProgram) : result ProductionProgram :=
  require_identities [("program_id", pg_program_id p); ("setup_id", pg_setup_id p); ("tool_id", pg_tool_id p);
    ("tool_version", pg_tool_version p)];;
  require_min 1 "run_order" (pg_run_order p);;
  refuse (bool_decide (pg_recipe_ids p = []) || negb (distinct (pg_recipe_ids p)))
    "program recipe IDs must be non-empty and unique";;
  refuse (bool_decide (pg_operation_ids p = []) || negb (distinct (pg_operation_ids p)))
    "program operation IDs must be non-empty and unique";;
  check_all (require_identity "program recipe_id") (pg_recipe_ids p);;
  check_all (require_identity "program operation_id") (pg_operation_ids p);;
  check_all (require_identity "program release operation_id") (pg_release_operation_ids p);;
  refuse (negb (py_subset (pg_release_operation_ids p) (pg_operation_ids p)))
    "release operation IDs must belong to the program";;
  refuse (negb (bool_decide (pg_release_operation_ids p = [])) &&
          negb (bool_decide (last_n (length (pg_release_operation_ids p)) (pg_operation_ids p)
                             = pg_release_operation_ids p)))
    "release contours must be the final program operations";;
  refuse (bool_decide (length (pg_moves p) = 0%nat)) "production program cannot be empty";;
  refuse (negb (bool_decide (map mv_sequence (pg_moves p) = seqZ 1 (Z.of_nat (length (pg_moves p))))))
    "program move sequences must be dense and start at one";;
  refuse (negb (py_set_eq (map mv_operation_id (pg_moves p)) (pg_operation_ids p)))
    "program moves must exactly cover every declared operation";;
  Ok p.

Record ProductionToolpathDocument := mkToolpaths {
  pt_design_hash : string;
  pt_operations_sha256 : string;
  pt_execution_context : ProductionExecutionContext;
  pt_machine_profile_fingerprint : string;
  pt_tool_catalog_fingerprint : string;
  pt_recipe_catalog_fingerprint : string;
  pt_programs : list ProductionProgram;
  pt_schema_version : string;
  pt_engine_version : string;
  pt_mode : string;
  pt_physical_cutting_authorized : bool;
  pt_workshop_acceptance_required : bool }.

(** One pass of [_validate_program_bindings_and_release_order]. *)
Definition check_program_binding (c : ProductionExecutionContext) (released : list (string * Z))
    (p : ProductionProgram) : result (list (string * Z)) :=
  let unknown := cam_error ("program references an unknown setup or tool: " +:+ pg_program_id p) in
  setup ← of_option (dict_of bs_setup_id (pe_setups c) !! pg_setup_id p) unknown;
  tool ← of_option (dict_of tb_tool_id (pe_tool_bindings c) !! pg_tool_id p) unknown;
  refuse (negb (bool_decide (pg_tool_version p = tb_tool_version tool)))
    ("program tool version differs from its binding: " +:+ pg_program_id p);;
  recipes ← traverse (fun i => of_option (dict_of cr_recipe_id (pe_recipes c) !! i)
                                 (cam_error ("program references an unknown recipe: " +:+ pg_program_id p)))
              (pg_recipe_ids p);
  refuse (existsb (fun r => negb (bool_decide (cr_tool_id r = pg_tool_id p)) ||
                            negb (bool_decide (cr_tool_version r = pg_tool_version p)) ||
                            negb (bool_decide (cr_material_id r = bs_material_id setup)) ||
                            negb (bool_decide (cr_material_version r = bs_material_version setup))) recipes)
    ("program recipe binding differs from setup/tool: " +:+ pg_program_id p);;
  refuse (bool_decide (physical_sheet_of setup ∈ released))
    ("a program follows release contour on physical sheet " +:+ bs_stock_id setup +:+ ":"
     +:+ str_of_Z (bs_sheet_index setup));;
  Ok (if bool_decide (pg_release_operation_ids p = []) then released else physical_sheet_of setup :: released).

Definition new_ProductionToolpathDocument (d : ProductionToolpathDocument) : result ProductionToolpathDocument :=
  check_all (fun lv => require_hash (fst lv) (snd lv))
    [("design_hash", pt_design_hash d); ("operations_sha256", pt_operations_sha256 d);
     ("machine_profile_fingerprint", pt_machine_profile_fingerprint d);
     ("tool_catalog_fingerprint", pt_tool_catalog_fingerprint d);
     ("recipe_catalog_fingerprint", pt_recipe_catalog_fingerprint d)];;
  refuse (negb (bool_decide (pt_schema_version d = PRODUCTION_TOOLPATH_SCHEMA_VERSION)))
    "unsupported production toolpath schema";;
  refuse (negb (bool_decide (pt_engine_version d = PRODUCTION_TOOLPATH_ENGINE_VERSION)))
    "unsupported production toolpath engine";;
  refuse (negb (bool_decide (pt_mode d = EXECUTABLE_CAM_CANDIDATE_MODE)))
    "production toolpaths must remain an executable candidate";;
  refuse (pt_physical_cutting_authorized d) "CAM generation cannot authorize physical cutting";;
  refuse (negb (pt_workshop_acceptance_required d)) "workshop acceptance cannot be bypassed";;
  refuse (bool_decide (length (pt_programs d) = 0%nat)) "production toolpath document requires programs";;
  refuse (negb (bool_decide (map pg_run_order (pt_programs d) = seqZ 1 (Z.of_nat (length (pt_programs d))))))
    "program run order must be dense and start at one";;
  refuse (negb (distinct (map pg_program_id (pt_programs d)))) "duplicate production program ID";;
  refuse (negb (distinct (concat (map pg_operation_ids (pt_programs d)))))
    "an operation cannot belong to multiple programs";;
  foldM (check_program_binding (pt_execution_context d)) [] (pt_programs d);;
  refuse (negb (bool_decide (pt_machine_profile_fingerprint d = machine_profile_fingerprint (pt_execution_context d))))
    "machine-profile fingerprint mismatch";;
  refuse (negb (bool_decide (pt_tool_catalog_fingerprint d = binding_catalog_fingerprint (pt_execution_context d))))
    "tool-catalog fingerprint mismatch";;
  refuse (negb (bool_decide (pt_recipe_catalog_fingerprint d = recipe_catalog_fingerprint (pt_execution_context d))))
    "recipe-catalog fingerprint mismatch";;
  Ok d.

(** ** Canonical data of documents *)

Definition move_kind_value (k : ProductionMoveKind) : string := match k with RAPID => "RAPID" | LINEAR => "LINEAR" end.
Definition move_role_value (r : ProductionMoveRole) : string :=
  match r with
  | POSITION => "POSITION" | APPROACH => "APPROACH" | CUT => "CUT" | PECK_RETRACT => "PECK_RETRACT"
  | TAB_RAMP => "TAB_RAMP" | TAB_BRIDGE => "TAB_BRIDGE" | RETRACT => "RETRACT"
  end.

Definition setup_json (s : BoundSetup) : json :=
  JObj [("setup_id", JStr (bs_setup_id s)); ("stock_id", JStr (bs_stock_id s));
        ("source_material_id", JStr (bs_source_material_id s));
        ("source_material_version", JStr (bs_source_material_version s));
        ("material_id", JStr (bs_material_id s)); ("material_version", JStr (bs_material_version s));
        ("material_evidence_id", JStr (bs_material_evidence_id s));
        ("material_evidence_version", JStr (bs_material_evidence_version s));
        ("material_evidence_sha256", JStr (bs_material_evidence_sha256 s));
        ("sheet_index", JInt (bs_sheet_index s)); ("side", JStr (side_value (bs_side s)));
        ("source_setup_sha256", JStr (bs_source_setup_sha256 s));
        ("source_to_wcs_xy_transform", JStr (bs_source_to_wcs_xy_transform s)); ("wcs", JStr (bs_wcs s));
        ("machine_wcs_origin", point_json (bs_machine_wcs_origin s));
        ("machine_wcs_z0_um", JInt (bs_machine_wcs_z0_um s));
        ("machine_wcs_xy_rotation_mdeg", JInt (bs_machine_wcs_xy_rotation_mdeg s));
        ("stock_width_um", JInt (bs_stock_width_um s)); ("stock_height_um", JInt (bs_stock_height_um s));
        ("stock_thickness_um", JInt (bs_stock_thickness_um s)); ("safe_z_um", JInt (bs_safe_z_um s));
        ("reference_surface", JStr (bs_reference_surface s)); ("orientation", JStr (bs_orientation s));
        ("fixture_id", JStr (bs_fixture_id s)); ("fixture_version", JStr (bs_fixture_version s));
        ("fixture_sha256", JStr (bs_fixture_sha256 s));
        ("fixture_clearance_z_um", JInt (bs_fixture_clearance_z_um s));
        ("minimum_rapid_clearance_um", JInt (bs_minimum_rapid_clearance_um s));
        ("keep_out_policy", JStr (bs_keep_out_policy s)); ("probe_method", JStr (bs_probe_method s));
        ("keep_out_zones", JArr (map rect_json (bs_keep_out_zones s)));
        ("spoilboard_id", text_json (bs_spoilboard_id s));
        ("spoilboard_version", text_json (bs_spoilboard_version s));
        ("spoilboard_sha256", text_json (bs_spoilboard_sha256 s));
        ("through_cut_allowance_um", JInt (bs_through_cut_allowance_um s));
        ("raw_allowance_um", JInt (bs_raw_allowance_um s))].

Definition context_json (c : ProductionExecutionContext) : json :=
  JObj [("source_machine_profile_id", JStr (pe_source_machine_profile_id c));
        ("source_machine_profile_version", JStr (pe_source_machine_profile_version c));
        ("source_machine_profile_fingerprint", JStr (pe_source_machine_profile_fingerprint c));
        ("machine_profile_id", JStr (pe_machine_profile_id c));
        ("machine_profile_version", JStr (pe_machine_profile_version c));
        ("controller_id", JStr (pe_controller_id c)); ("controller_version", JStr (pe_controller_version c));
        ("machine_x_min_um", JInt (pe_machine_x_min_um c)); ("machine_x_max_um", JInt (pe_machine_x_max_um c));
        ("machine_y_min_um", JInt (pe_machine_y_min_um c)); ("machine_y_max_um", JInt (pe_machine_y_max_um c));
        ("machine_z_min_um", JInt (pe_machine_z_min_um c)); ("machine_z_max_um", JInt (pe_machine_z_max_um c));
        ("work_width_um", JInt (pe_work_width_um c)); ("work_height_um", JInt (pe_work_height_um c));
        ("work_z_um", JInt (pe_work_z_um c)); ("min_spindle_rpm", JInt (pe_min_spindle_rpm c));
        ("max_spindle_rpm", JInt (pe_max_spindle_rpm c)); ("max_feed_um_min", JInt (pe_max_feed_um_min c));
        ("max_plunge_um_min", JInt (pe_max_plunge_um_min c));
        ("tool_catalog_version", JStr (pe_tool_catalog_version c));
        ("recipe_catalog_version", JStr (pe_recipe_catalog_version c));
        ("setups", JArr (map setup_json (pe_setups c)));
        ("tool_bindings", JArr (map binding_json (pe_tool_bindings c)));
        ("recipes", JArr (map recipe_json (pe_recipes c)))].

Definition move_json (m : ProductionMove) : json :=
  JObj [("sequence", JInt (mv_sequence m)); ("operation_id", JStr (mv_operation_id m));
        ("pass_index", JInt (mv_pass_index m)); ("kind", JStr (move_kind_value (mv_kind m)));
        ("role", JStr (move_role_value (mv_role m))); ("x_um", JInt (mv_x_um m)); ("y_um", JInt (mv_y_um m));
        ("z_um", JInt (mv_z_um m)); ("feed_um_min", json_opt (mv_feed_um_min m))].

Definition program_json (p : ProductionProgram) : json :=
  JObj [("program_id", JStr (pg_program_id p)); ("run_order", JInt (pg_run_order p));
        ("setup_id", JStr (pg_setup_id p)); ("tool_id", JStr (pg_tool_id p));
        ("tool_version", JStr (pg_tool_version p)); ("recipe_ids", JArr (map JStr (pg_recipe_ids p)));
        ("operation_ids", JArr (map JStr (pg_operation_ids p)));
        ("release_operation_ids", JArr (map JStr (pg_release_operation_ids p)));
        ("moves", JArr (map move_json (pg_moves p)))].

Definition toolpaths_json (d : ProductionToolpathDocument) : json :=
  JObj [("design_hash", JStr (pt_design_hash d)); ("operations_sha256", JStr (pt_operations_sha256 d));
        ("execution_context", context_json (pt_execution_context d));
        ("machine_profile_fingerprint", JStr (pt_machine_profile_fingerprint d));
        ("tool_catalog_fingerprint", JStr (pt_tool_catalog_fingerprint d));
        ("recipe_catalog_fingerprint", JStr (pt_recipe_catalog_fingerprint d));
        ("programs", JArr (map program_json (pt_programs d))); ("schema_version", JStr (pt_schema_version d));
        ("engine_version", JStr (pt_engine_version d)); ("mode", JStr (pt_mode d));
        ("physical_cutting_authorized", JBool (pt_physical_cutting_authorized d));
        ("workshop_acceptance_required", JBool (pt_workshop_acceptance_required d))].

(** [document.fingerprint] *)
Definition toolpaths_fingerprint (d : ProductionToolpathDocument) : string := content_hash (toolpaths_json d).
#[global] Arguments toolpaths_fingerprint : simpl never.
