(* ===== verification/ToolpathGeometry.v ===== *)
(** * Production toolpaths: planar geometry

    The integer geometry of [cam/src/custombuild_cam/toolpaths.py]: depth
    levels, raster lanes, contour paths with holding tabs, arcs as fixed chords,
    and the tests that decide whether a cutter sweep, the capsule of a segment
    and a radius, touches a rectangle. *)

From S2P Require Import Prelude Text ManufacturingModel Machining CamValidation ProductionModel.

Definition point : Type := Z * Z.

(** [range(start, stop, step)] for a positive step. *)
Definition py_range (start stop step : Z) : list Z :=
  map (fun k => start + k * step) (seqZ 0 (Z.max 0 ((stop - start + step - 1) / step))).

(** [enumerate(values, start=1)] *)
Definition enumerate1 {A} (values : list A) : list (Z * A) := zip (seqZ 1 (Z.of_nat (length values))) values.

(** ** Depths *)

Definition depth_levels_um (depth_um stepdown_um : Z) : result (list Z) :=
  refuse (depth_um <=? 0) "depth_um must be a positive integer";;
  refuse (stepdown_um <=? 0) "stepdown_um must be a positive integer";;
  Ok (map (fun level => - Z.min level depth_um) (py_range stepdown_um (depth_um + stepdown_um) stepdown_um)).

(** ** Raster lanes *)

Definition inclusive_lanes (minimum_um maximum_um step_um : Z) : result (list Z) :=
  let values := py_range minimum_um (maximum_um + 1) step_um in
  final ← of_option (last values) (IndexError "list index out of range");
  Ok (if negb (final =? maximum_um) then values ++ [maximum_um] else values).

Definition lane (index : Z) (start stop : point) : point * point :=
  if index mod 2 =? 0 then (start, stop) else (stop, start).

Definition raster_lines (left_um right_um bottom_um top_um stepover_um : Z) : result (list (point * point)) :=
  refuse ((right_um <? left_um) || (top_um <? bottom_um)) "cutter does not fit rectangular area";;
  if top_um - bottom_um <=? right_um - left_um then
    lanes ← inclusive_lanes bottom_um top_um stepover_um;
    Ok (map (fun iy => lane (fst iy) (left_um, snd iy) (right_um, snd iy))
          (zip (seqZ 0 (Z.of_nat (length lanes))) lanes))
  else
    lanes ← inclusive_lanes left_um right_um stepover_um;
    Ok (map (fun ix => lane (fst ix) (snd ix, bottom_um) (snd ix, top_um))
          (zip (seqZ 0 (Z.of_nat (length lanes))) lanes)).

(** ** Contours *)

(** A point of a contour path: x, y, z and the role of the move to it. *)
Definition path_point : Type := Z * Z * Z * ProductionMoveRole.
Definition path_xy (q : path_point) : point := let '(x, y, _, _) := q in (x, y).

Definition QUARTER_CIRCLE_PPM : list (Z * Z) :=
  [(1000000, 0); (980785, 195090); (923880, 382683); (831470, 555570); (707107, 707107); (555570, 831470);
   (382683, 923880); (195090, 980785); (0, 1000000)].

Definition arc_offset_ppm (cosine_ppm sine_ppm quadrant : Z) : Z * Z :=
  if quadrant =? 0 then (sine_ppm, - cosine_ppm)
  else if quadrant =? 1 then (cosine_ppm, sine_ppm)
  else if quadrant =? 2 then (- sine_ppm, cosine_ppm)
  else (- cosine_ppm, - sine_ppm).

Definition append_arc (path : list path_point) (centre_x_um centre_y_um radius_um quadrant depth_z_um : Z)
    : list path_point :=
  foldl (fun path cs =>
    let '(dx_ppm, dy_ppm) := arc_offset_ppm (fst cs) (snd cs) quadrant in
    let q := (centre_x_um + radius_um * dx_ppm / 1000000, centre_y_um + radius_um * dy_ppm / 1000000,
              depth_z_um, CUT) in
    if bool_decide (path_xy <$> last path = Some (path_xy q)) then path else path ++ [q])
    path (tail QUARTER_CIRCLE_PPM).

Definition direction (delta : Z) : Z := if delta =? 0 then 0 else if 0 <? delta then 1 else -1.

(** An edge, interrupted in its middle by a tab when one is wanted. *)
Definition edge_with_optional_tab (start stop : point) (depth_z_um : Z) (tab_z_um : option Z) (tab_width_um : Z)
    : list path_point :=
  match tab_z_um with
  | None => [(fst stop, snd stop, depth_z_um, CUT)]
  | Some tab_z =>
      let dx := fst stop - fst start in
      let dy := snd stop - snd start in
      let before := (Z.abs dx + Z.abs dy - tab_width_um) / 2 in
      let after := before + tab_width_um in
      let tab_start := (fst start + direction dx * before, snd start + direction dy * before) in
      let tab_end := (fst start + direction dx * after, snd start + direction dy * after) in
      [ (fst tab_start, snd tab_start, depth_z_um, CUT);
        (fst tab_start, snd tab_start, tab_z, TAB_RAMP);
        (fst tab_end, snd tab_end, tab_z, TAB_BRIDGE);
        (fst tab_end, snd tab_end, depth_z_um, TAB_RAMP);
        (fst stop, snd stop, depth_z_um, CUT) ]
  end.

Definition outside_contour_path (nominal : Rect) (radius_um depth_z_um : Z) (tab_z_um : option Z) (tab_width_um : Z)
    : list path_point :=
  let left := r_x_um nominal in
  let right := right_um nominal in
  let bottom := r_y_um nominal in
  let top := top_um nominal in
  let r := radius_um in
  let edge start stop := edge_with_optional_tab start stop depth_z_um tab_z_um tab_width_um in
  let path := [(left, bottom - r, depth_z_um, CUT)] in
  let path := path ++ edge (left, bottom - r) (right, bottom - r) in
  let path := append_arc path right bottom r 0 depth_z_um in
  let path := path ++ edge (right + r, bottom) (right + r, top) in
  let path := append_arc path right top r 1 depth_z_um in
  let path := path ++ edge (right, top + r) (left, top + r) in
  let path := append_arc path left top r 2 depth_z_um in
  let path := path ++ edge (left - r, top) (left - r, bottom) in
  append_arc path left bottom r 3 depth_z_um.

Definition inside_contour_path (nominal : Rect) (radius_um depth_z_um : Z) : list path_point :=
  let left := r_x_um nominal + radius_um in
  let right := right_um nominal - radius_um in
  let bottom := r_y_um nominal + radius_um in
  let top := top_um nominal - radius_um in
  [(left, bottom, depth_z_um, CUT); (left, top, depth_z_um, CUT); (right, top, depth_z_um, CUT);
   (right, bottom, depth_z_um, CUT); (left, bottom, depth_z_um, CUT)].

(** ** The interpolation error of an outside contour *)

(** The points of one quarter, without repetitions. *)
Definition quarter_points (radius_um quadrant : Z) (start : point) : list point :=
  foldl (fun points cs =>
    let '(dx_ppm, dy_ppm) := arc_offset_ppm (fst cs) (snd cs) quadrant in
    let q := (radius_um * dx_ppm / 1000000, radius_um * dy_ppm / 1000000) in
    if bool_decide (last points = Some q) then points else points ++ [q])
    [start] (tail QUARTER_CIRCLE_PPM).

Definition norm_squared (q : point) : Z := fst q ^ 2 + snd q ^ 2.

(** How far the chord between two points leaves the circle. *)
Definition chord_error_um (radius_um : Z) (first second : point) : Z :=
  let first_radius_squared := norm_squared first in
  let second_radius_squared := norm_squared second in
  let maximum_radius_squared := Z.max first_radius_squared second_radius_squared in
  let maximum_radius_floor := Z.sqrt maximum_radius_squared in
  let maximum_radius_ceil :=
    maximum_radius_floor + (if maximum_radius_floor ^ 2 =? maximum_radius_squared then 0 else 1) in
  let outward_error := Z.max 0 (maximum_radius_ceil - radius_um) in
  let segment_x := fst second - fst first in
  let segment_y := snd second - snd first in
  let segment_length_squared := segment_x ^ 2 + segment_y ^ 2 in
  let projection_numerator := - (fst first * segment_x + snd first * segment_y) in
  let minimum_radius_floor :=
    if (0 <? projection_numerator) && (projection_numerator <? segment_length_squared)
    then Z.sqrt ((fst first * snd second - snd first * fst second) ^ 2 / segment_length_squared)
    else Z.sqrt (Z.min first_radius_squared second_radius_squared) in
  let inward_error := Z.max 0 (radius_um - minimum_radius_floor) in
  Z.max outward_error inward_error.

Definition outside_contour_interpolation_error_um (radius_um : Z) : result Z :=
  refuse (radius_um <=? 0) "outside-contour radius must be positive";;
  let starts := [(0, - radius_um); (radius_um, 0); (0, radius_um); (- radius_um, 0)] in
  let chords points := zip points (tail points) in
  Ok (foldl (fun maximum qs =>
        foldl (fun maximum c => Z.max maximum (chord_error_um radius_um (fst c) (snd c))) maximum
          (chords (quarter_points radius_um (fst qs) (snd qs))))
        0 (zip (seqZ 0 4) starts)).

(** ** Sweeps and rectangles *)

Definition rects_touch_or_overlap (first second : Rect) : bool :=
  negb ((right_um first <? r_x_um second) || (right_um second <? r_x_um first) ||
        (top_um first <? r_y_um second) || (top_um second <? r_y_um first)).

Definition point_in_rect (q : point) (r : Rect) : bool :=
  (r_x_um r <=? fst q) && (fst q <=? right_um r) && (r_y_um r <=? snd q) && (snd q <=? top_um r).

Definition orientation (start stop q : point) : Z :=
  (fst stop - fst start) * (snd q - snd start) - (snd stop - snd start) * (fst q - fst start).

Definition point_on_segment (q start stop : point) : bool :=
  (Z.min (fst start) (fst stop) <=? fst q) && (fst q <=? Z.max (fst start) (fst stop)) &&
  (Z.min (snd start) (snd stop) <=? snd q) && (snd q <=? Z.max (snd start) (snd stop)).

Definition segments_touch_or_cross (first_start first_end second_start second_end : point) : bool :=
  let o1 := orientation first_start first_end second_start in
  let o2 := orientation first_start first_end second_end in
  let o3 := orientation second_start second_end first_start in
  let o4 := orientation second_start second_end first_end in
  if (o1 =? 0) && point_on_segment second_start first_start first_end then true
  else if (o2 =? 0) && point_on_segment second_end first_start first_end then true
  else if (o3 =? 0) && point_on_segment first_start second_start second_end then true
  else if (o4 =? 0) && point_on_segment first_end second_start second_end then true
  else xorb (0 <? o1) (0 <? o2) && xorb (0 <? o3) (0 <? o4).

Definition rect_corners (r : Rect) : list point :=
  [(r_x_um r, r_y_um r); (right_um r, r_y_um r); (right_um r, top_um r); (r_x_um r, top_um r)].

Definition segment_intersects_rect (start stop : point) (r : Rect) : bool :=
  if point_in_rect start r || point_in_rect stop r then true
  else
    let corners := rect_corners r in
    existsb (fun e => segments_touch_or_cross start stop (fst e) (snd e))
      (zip corners (tail corners ++ take 1 corners)).

Definition point_rect_distance_squared (q : point) (r : Rect) : Z :=
  let dx := Z.max (Z.max (r_x_um r - fst q) 0) (fst q - right_um r) in
  let dy := Z.max (Z.max (r_y_um r - snd q) 0) (snd q - top_um r) in
  dx ^ 2 + dy ^ 2.

Definition point_segment_within_radius (q start stop : point) (radius_um : Z) : bool :=
  let segment_x := fst stop - fst start in
  let segment_y := snd stop - snd start in
  let point_x := fst q - fst start in
  let point_y := snd q - snd start in
  let segment_length_squared := segment_x ^ 2 + segment_y ^ 2 in
  let projection := point_x * segment_x + point_y * segment_y in
  if segment_length_squared =? 0 then point_x ^ 2 + point_y ^ 2 <=? radius_um ^ 2
  else if projection <=? 0 then point_x ^ 2 + point_y ^ 2 <=? radius_um ^ 2
  else if segment_length_squared <=? projection then
    (fst q - fst stop) ^ 2 + (snd q - snd stop) ^ 2 <=? radius_um ^ 2
  else
    let cross := point_x * segment_y - point_y * segment_x in
    cross ^ 2 <=? radius_um ^ 2 * segment_length_squared.

(** Whether the capsule around a segment touches a rectangle. *)
Definition segment_radius_touches_rect (start stop : point) (radius_um : Z) (r : Rect) : bool :=
  if segment_intersects_rect start stop r then true
  else
    let radius_squared := radius_um ^ 2 in
    if (point_rect_distance_squared start r <=? radius_squared) ||
       (point_rect_distance_squared stop r <=? radius_squared) then true
    else existsb (fun corner => point_segment_within_radius corner start stop radius_um) (rect_corners r).
