(* ===== verification/CapsuleGeometry.v ===== *)
(** * The capsule test is exact geometry

    Points are pairs of rationals here, so that the statements are about every
    point of a cutter's sweep and of a rectangle and not about the integer
    points alone. *)

From Stdlib Require Import QArith Lqa.
From S2P Require Import Prelude ManufacturingModel ToolpathGeometry.

Local Open Scope Q_scope.

Definition qpoint : Type := Q * Q.

(** The point of a segment at a fraction of its length. *)
Definition along (start stop : point) (t : Q) : qpoint :=
  (inject_Z (fst start) + t * (inject_Z (fst stop) - inject_Z (fst start)),
   inject_Z (snd start) + t * (inject_Z (snd stop) - inject_Z (snd start))).

Definition in_unit (t : Q) : Prop := 0 <= t /\ t <= 1.

Definition in_rect (q : qpoint) (r : Rect) : Prop :=
  (inject_Z (r_x_um r) <= fst q /\ fst q <= inject_Z (right_um r)) /\
  (inject_Z (r_y_um r) <= snd q /\ snd q <= inject_Z (top_um r)).

Definition distance2 (p q : qpoint) : Q := (fst p - fst q) * (fst p - fst q) + (snd p - snd q) * (snd p - snd q).

(** [q] lies within [radius] of the segment. *)
Definition within_capsule (start stop : point) (radius_um : Z) (q : qpoint) : Prop :=
  exists t, in_unit t /\ distance2 (along start stop t) q <= inject_Z radius_um * inject_Z radius_um.

(** ** Linear functions *)

Lemma linear_cross (a b c s0 s1 : Q) :
  s0 <= s1 -> a + s0 * b <= c -> c <= a + s1 * b ->
  exists s, (s0 <= s /\ s <= s1) /\ a + s * b == c.
Proof.
  intros Hs H0 H1. destruct (Qlt_le_dec (a + s0 * b) (a + s1 * b)) as [Hlt|Hge].
  - assert (0 < b) as Hb by nra. exists ((c - a) / b). split; [split|].
    + apply Qle_shift_div_l; [done|lra].
    + apply Qle_shift_div_r; [done|lra].
    + field. intros E. rewrite E in Hb. by apply Qlt_irrefl in Hb.
  - exists s0. split; [lra|]. lra.
Qed.

Lemma linear_cross_down (a b c s0 s1 : Q) :
  s0 <= s1 -> c <= a + s0 * b -> a + s1 * b <= c ->
  exists s, (s0 <= s /\ s <= s1) /\ a + s * b == c.
Proof.
  intros Hs H0 H1. destruct (linear_cross (- a) (- b) (- c) s0 s1) as (s & Hs' & E); [lra..|].
  exists s. split; [done|]. lra.
Qed.

(** A linear function between two arguments stays between its values. *)
Lemma linear_between (a b lo hi s0 s s1 : Q) :
  s0 <= s -> s <= s1 -> lo <= a + s0 * b -> a + s0 * b <= hi -> lo <= a + s1 * b -> a + s1 * b <= hi ->
  lo <= a + s * b /\ a + s * b <= hi.
Proof. intros. destruct (Qlt_le_dec b 0); split; nra. Qed.

(** ** Sides of a rectangle

    [u] runs along a side, from [lo] to [hi], and [v] across it: the rectangle
    is where [v >= c].  A path that is below the side at [t], within [r2], and
    does not descend towards its end either stays near to its end, or crosses
    the side, or passes near one of its two corners. *)
Section Side.
Context (u0 du v0 dv lo hi c r2 : Q).
Local Notation u s := (u0 + s * du).
Local Notation v s := (v0 + s * dv).
Local Notation near s := (v s <= c /\ (c - v s) * (c - v s) <= r2).
Local Notation along_side s := (lo <= u s /\ u s <= hi).

Definition side_outcome : Prop :=
  (exists s, (s == 0 \/ s == 1) /\ along_side s /\ near s) \/
  (exists s, in_unit s /\ along_side s /\ v s == c) \/
  (exists s, in_unit s /\ (u s == lo \/ u s == hi) /\ near s).

Lemma near_up s s' : near s -> v s <= v s' -> v s' <= c -> near s'.
Proof. intros [H1 H2] H3 H4. split; [done|]. nra. Qed.

(** Towards the end of the segment. *)
Lemma side_forwards t : in_unit t -> along_side t -> near t -> 0 <= dv -> side_outcome.
Proof.
  intros [T0 T1] [U0 U1] N Hdv.
  assert (forall s, t <= s -> v t <= v s) as Hup by (intros s Hs; nra).
  assert (cross : forall e, t <= e -> e <= 1 -> along_side e -> c <= v e -> side_outcome).
  { intros e He1 He2 [A0 A1] Hv. destruct (linear_cross v0 dv c t e) as (s & [S0 S1] & E); [done|apply N|done|].
    right. left. exists s. split; [split; lra|]. split; [|done]. by apply (linear_between u0 du lo hi t s e). }
  assert (corner : forall s, t <= s -> s <= 1 -> (u s == lo \/ u s == hi) -> along_side s -> side_outcome).
  { intros s S0 S1 E A. destruct (Qlt_le_dec c (v s)) as [L|L].
    - apply (cross s); [done..|]. lra.
    - right. right. exists s. split; [split; lra|]. split; [done|]. apply (near_up t); [done|by apply Hup|done]. }
  destruct (Qlt_le_dec hi (u 1)) as [R|R].
  { destruct (linear_cross u0 du hi t 1) as (s & [S0 S1] & E); [lra..|].
    apply (corner s); [done..|by right|]. lra. }
  destruct (Qlt_le_dec (u 1) lo) as [L|L].
  { destruct (linear_cross_down u0 du lo t 1) as (s & [S0 S1] & E); [lra..|].
    apply (corner s); [done..|by left|]. lra. }
  destruct (Qlt_le_dec c (v 1)) as [B|B].
  - apply (cross 1); [lra..|done|lra].
  - left. exists 1. split; [by right|]. split; [done|]. apply (near_up t); [done|by apply Hup|done].
Qed.
End Side.

(** Turned around, the end is the start. *)
Lemma side_near (u0 du v0 dv lo hi c r2 t : Q) :
  in_unit t -> lo <= u0 + t * du /\ u0 + t * du <= hi ->
  v0 + t * dv <= c /\ (c - (v0 + t * dv)) * (c - (v0 + t * dv)) <= r2 ->
  side_outcome u0 du v0 dv lo hi c r2.
Proof.
  intros T A N. destruct (Qlt_le_dec dv 0) as [D|D]; [|by apply (side_forwards _ _ _ _ _ _ _ _ t)].
  assert (side_outcome (u0 + du) (- du) (v0 + dv) (- dv) lo hi c r2) as H.
  { apply (side_forwards _ _ _ _ _ _ _ _ (1 - t)).
    - destruct T. split; lra.
    - split; lra.
    - assert (v0 + dv + (1 - t) * - dv == v0 + t * dv) as -> by ring. done.
    - lra. }
  assert (forall s, u0 + du + s * - du == u0 + (1 - s) * du) as Eu by (intros; ring).
  assert (forall s, v0 + dv + s * - dv == v0 + (1 - s) * dv) as Ev by (intros; ring).
  destruct H as [(s & S & A' & N')|[(s & [S0 S1] & A' & N')|(s & [S0 S1] & A' & N')]];
    [left|right; left|right; right]; exists (1 - s);
    rewrite ?Eu, ?Ev in *; (split; [try split; lra|]); done.
Qed.

(** A path that is inside a box at [t] and outside at its end leaves it through
    one of the four sides. *)
Lemma leaves_box (u0 du v0 dv lo hi c d t : Q) :
  in_unit t -> lo <= u0 + t * du /\ u0 + t * du <= hi -> c <= v0 + t * dv /\ v0 + t * dv <= d ->
  u0 + 1 * du < lo \/ hi < u0 + 1 * du \/ v0 + 1 * dv < c \/ d < v0 + 1 * dv ->
  exists s, in_unit s /\ (lo <= u0 + s * du /\ u0 + s * du <= hi) /\ (c <= v0 + s * dv /\ v0 + s * dv <= d) /\
    ((u0 + s * du == lo \/ u0 + s * du == hi) \/ (v0 + s * dv == c \/ v0 + s * dv == d)).
Proof.
  intros [T0 T1] [U0 U1] [V0 V1] Hout.
  (* where [v] is when [u] has reached a side *)
  assert (through : forall s, t <= s -> s <= 1 -> (lo <= u0 + s * du /\ u0 + s * du <= hi) ->
    (u0 + s * du == lo \/ u0 + s * du == hi) \/ (v0 + s * dv == c \/ v0 + s * dv == d) \/
      v0 + s * dv < c \/ d < v0 + s * dv ->
    exists s, in_unit s /\ (lo <= u0 + s * du /\ u0 + s * du <= hi) /\ (c <= v0 + s * dv /\ v0 + s * dv <= d) /\
      ((u0 + s * du == lo \/ u0 + s * du == hi) \/ (v0 + s * dv == c \/ v0 + s * dv == d))).
  { intros s S0 S1 [A0 A1] E.
    destruct (Qlt_le_dec (v0 + s * dv) c) as [L|L].
    { destruct (linear_cross_down v0 dv c t s) as (s' & [? ?] & E'); [lra..|].
      exists s'. split; [split; lra|]. split; [by apply (linear_between u0 du lo hi t s' s)|]. split; [lra|by right; left]. }
    destruct (Qlt_le_dec d (v0 + s * dv)) as [R|R].
    { destruct (linear_cross v0 dv d t s) as (s' & [? ?] & E'); [lra..|].
      exists s'. split; [split; lra|]. split; [by apply (linear_between u0 du lo hi t s' s)|]. split; [lra|by right; right]. }
    exists s. split; [split; lra|]. split; [done|]. split; [done|].
    destruct E as [E|[E|[E|E]]]; [by left|by right|lra..]. }
  destruct (Qlt_le_dec hi (u0 + 1 * du)) as [R|R].
  { destruct (linear_cross u0 du hi t 1) as (s & [S0 S1] & E); [lra..|].
    apply (through s); [done..|lra|]. left. by right. }
  destruct (Qlt_le_dec (u0 + 1 * du) lo) as [L|L].
  { destruct (linear_cross_down u0 du lo t 1) as (s & [S0 S1] & E); [lra..|].
    apply (through s); [done..|lra|]. left. by left. }
  apply (through 1); [lra..|done|]. right. right. lra.
Qed.

(** ** Sides and segments of integer points *)

Ltac to_Q := repeat (rewrite inject_Z_plus || rewrite inject_Z_mult || rewrite inject_Z_opp).

Lemma square_nonneg (k : Q) : 0 <= k * k.
Proof. nra. Qed.

Lemma square_times (k p : Q) : p <= 0 -> k * k * p <= 0.
Proof. intros P. assert (0 <= k * k) by nra. nra. Qed.

Lemma between_Z a b z s :
  in_unit s -> inject_Z a + s * (inject_Z b - inject_Z a) == inject_Z z ->
  (Z.min a b <= z /\ z <= Z.max a b)%Z.
Proof.
  intros [S0 S1] E. destruct (Z.le_ge_cases a b) as [H|H]; pose proof H as H'; rewrite Zle_Qle in H'.
  - rewrite Z.min_l, Z.max_r by done. rewrite !Zle_Qle. split; nra.
  - rewrite Z.min_r, Z.max_l by done. rewrite !Zle_Qle. split; nra.
Qed.

Lemma between_ends a b lo hi s :
  in_unit s -> (inject_Z lo <= inject_Z a + s * (inject_Z b - inject_Z a) <= inject_Z hi) ->
  (lo <= Z.max a b /\ Z.min a b <= hi)%Z.
Proof.
  intros [S0 S1] [L H]. destruct (Z.le_ge_cases a b) as [O|O]; pose proof O as O'; rewrite Zle_Qle in O'.
  - rewrite Z.min_l, Z.max_r by done. rewrite !Zle_Qle. split; nra.
  - rewrite Z.min_r, Z.max_l by done. rewrite !Zle_Qle. split; nra.
Qed.

Section Touch.
Local Open Scope Z_scope.
Context (A B C D : point).
Local Notation o1 := (orientation A B C).
Local Notation o2 := (orientation A B D).
Local Notation o3 := (orientation C D A).
Local Notation o4 := (orientation C D B).

(** Why two segments are found to touch: an end of one on the other, or ends on
    different sides. *)
Definition end_on_other : Prop :=
  (o1 = 0 /\ point_on_segment C A B = true) \/ (o2 = 0 /\ point_on_segment D A B = true) \/
  (o3 = 0 /\ point_on_segment A C D = true) \/ (o4 = 0 /\ point_on_segment B C D = true).

Definition ends_apart : Prop :=
  ((o1 = 0 -> point_on_segment C A B = true) /\ (o2 = 0 -> point_on_segment D A B = true)) /\
  ((o3 = 0 -> point_on_segment A C D = true) /\ (o4 = 0 -> point_on_segment B C D = true)) /\
  o1 * o2 <= 0 /\ o3 * o4 <= 0.

Lemma touch_intro : end_on_other \/ ends_apart -> segments_touch_or_cross A B C D = true.
Proof.
  unfold segments_touch_or_cross. cbv zeta. intros [E|[[H1 H2] [[H3 H4] [H12 H34]]]].
  - destruct E as [[E ->]|[[E ->]|[[E ->]|[E ->]]]]; rewrite E; cbn [Z.eqb andb]; by repeat case_match.
  - destruct (Z.eqb_spec o1 0) as [E1|E1]; [by rewrite H1|].
    destruct (Z.eqb_spec o2 0) as [E2|E2]; [by rewrite H2|].
    destruct (Z.eqb_spec o3 0) as [E3|E3]; [by rewrite H3|].
    destruct (Z.eqb_spec o4 0) as [E4|E4]; [by rewrite H4|]. cbn [andb].
    destruct (Z.ltb_spec 0 o1), (Z.ltb_spec 0 o2), (Z.ltb_spec 0 o3), (Z.ltb_spec 0 o4); cbn; try done; nia.
Qed.

Lemma point_on_segment_true q s e :
  (Z.min (fst s) (fst e) <= fst q <= Z.max (fst s) (fst e)) ->
  (Z.min (snd s) (snd e) <= snd q <= Z.max (snd s) (snd e)) -> point_on_segment q s e = true.
Proof. intros. unfold point_on_segment. rewrite !andb_true_iff, !Z.leb_le. lia. Qed.
End Touch.

Lemma orientation_at ax ay bx by_ q c s :
  inject_Z ay + s * (inject_Z by_ - inject_Z ay) == inject_Z c ->
  inject_Z (orientation (ax, ay) (bx, by_) (q, c)) ==
    (inject_Z by_ - inject_Z ay) * (inject_Z ax + s * (inject_Z bx - inject_Z ax) - inject_Z q).
Proof.
  intros E. pose proof (Qmult_comp _ _ (Qeq_refl (inject_Z bx - inject_Z ax)) _ _ E) as M.
  unfold orientation, Z.sub. cbn [fst snd]. to_Q. lra.
Qed.

(** A segment that meets a horizontal side touches it. *)
Lemma touches_horizontal A B (xs xe c : Z) s :
  xs <> xe -> in_unit s -> snd (along A B s) == inject_Z c ->
  inject_Z (Z.min xs xe) <= fst (along A B s) <= inject_Z (Z.max xs xe) ->
  end_on_other A B (xs, c) (xe, c) \/ ends_apart A B (xs, c) (xe, c).
Proof.
  destruct A as [ax ay], B as [bx by_]. unfold along. cbn [fst snd]. intros Hne S Ey Ex.
  pose proof (between_Z ay by_ c s S Ey) as Hy. pose proof (between_ends ax bx _ _ s S Ex) as Hx.
  destruct (Z.eq_dec ay by_) as [->|Hay].
  { (* along the side: one end lies on the other segment *)
    assert (c = by_) as -> by lia.
    left. unfold end_on_other, orientation. cbn [fst snd]. rewrite !Z.sub_diag, !Z.mul_0_r, !Z.mul_0_l, !Z.sub_diag.
    assert ((Z.min ax bx <= xs <= Z.max ax bx)%Z \/ (Z.min ax bx <= xe <= Z.max ax bx)%Z \/
            (Z.min xs xe <= ax <= Z.max xs xe)%Z \/ (Z.min xs xe <= bx <= Z.max xs xe)%Z) as [H|[H|[H|H]]] by lia;
      [left|right; left|do 2 right; left|do 3 right]; (split; [done|]); apply point_on_segment_true; cbn; lia. }
  set (x := inject_Z ax + s * (inject_Z bx - inject_Z ax)) in *.
  assert (~ inject_Z by_ - inject_Z ay == 0) as Hq.
  { intros E. apply Hay, inject_Z_injective. lra. }
  pose proof (fun q => orientation_at ax ay bx by_ q c s Ey) as E1. fold x in E1.
  assert (zero : forall q, orientation (ax, ay) (bx, by_) (q, c) = 0%Z -> point_on_segment (q, c) (ax, ay) (bx, by_) = true).
  { intros q O. pose proof (E1 q) as E. rewrite O in E. assert (x == inject_Z q) as Eq.
    { symmetry in E. apply Qmult_integral in E as [E|E]; [done|]. lra. }
    apply point_on_segment_true; [|done]. by apply (between_Z ax bx q s). }
  right. unfold ends_apart. split_and!.
  - by apply zero.
  - by apply zero.
  - intros O. unfold orientation in O. cbn [fst snd] in O. assert (ay = c) as -> by nia.
    assert (s == 0) as Es. { assert (s * (inject_Z by_ - inject_Z c) == 0) as K by lra. apply Qmult_integral in K as [K|K]; done. }
    assert (x == inject_Z ax) as Ea by (unfold x; rewrite Es; ring). rewrite Ea in Ex. rewrite <- !Zle_Qle in Ex.
    apply point_on_segment_true; cbn; lia.
  - intros O. unfold orientation in O. cbn [fst snd] in O. assert (by_ = c) as -> by nia.
    assert (s == 1) as Es. { assert ((s - 1) * (inject_Z c - inject_Z ay) == 0) as K by lra. apply Qmult_integral in K as [K|K]; [lra|done]. }
    assert (x == inject_Z bx) as Ea by (unfold x; rewrite Es; ring). rewrite Ea in Ex. rewrite <- !Zle_Qle in Ex.
    apply point_on_segment_true; cbn; lia.
  - rewrite Zle_Qle. to_Q. rewrite !E1. change (inject_Z 0) with 0.
    assert ((x - inject_Z xs) * (x - inject_Z xe) <= 0) as P.
    { clear - Ex. clearbody x.
      destruct (Z.le_ge_cases xs xe) as [O|O]; rewrite ?Z.min_l, ?Z.max_r, ?Z.min_r, ?Z.max_l in Ex by done; nra. }
    apply (square_times (inject_Z by_ - inject_Z ay)) in P. lra.
  - unfold orientation. cbn [fst snd]. rewrite !Z.sub_diag, !Z.mul_0_l, !Z.sub_0_r.
    assert ((ay - c) * (by_ - c) <= 0)%Z as P.
    { destruct (Z.le_ge_cases ay by_) as [O|O]; rewrite ?Z.min_l, ?Z.max_r, ?Z.min_r, ?Z.max_l in Hy by lia; nia. }
    pose proof (Z.square_nonneg (xe - xs)). nia.
Qed.

Definition swap {A B} (q : A * B) : B * A := (snd q, fst q).

Lemma orientation_swap A B C : orientation (swap A) (swap B) (swap C) = (- orientation A B C)%Z.
Proof. unfold orientation, swap. cbn [fst snd]. ring. Qed.

Lemma point_on_segment_swap q A B : point_on_segment (swap q) (swap A) (swap B) = point_on_segment q A B.
Proof.
  unfold point_on_segment, swap. cbn [fst snd].
  repeat match goal with |- context [Z.leb ?a ?b] => destruct (Z.leb a b) end; reflexivity.
Qed.

Lemma opp_zero a : (- a = 0)%Z <-> (a = 0)%Z.
Proof. lia. Qed.

Lemma touch_swap A B C D :
  end_on_other (swap A) (swap B) (swap C) (swap D) \/ ends_apart (swap A) (swap B) (swap C) (swap D) ->
  segments_touch_or_cross A B C D = true.
Proof.
  unfold end_on_other, ends_apart. rewrite !orientation_swap, !point_on_segment_swap, !Z.mul_opp_opp, !opp_zero.
  apply touch_intro.
Qed.

Lemma touches_vertical A B (ys ye c : Z) s :
  ys <> ye -> in_unit s -> fst (along A B s) == inject_Z c ->
  inject_Z (Z.min ys ye) <= snd (along A B s) <= inject_Z (Z.max ys ye) ->
  segments_touch_or_cross A B (c, ys) (c, ye) = true.
Proof. intros. apply touch_swap. by apply (touches_horizontal (swap A) (swap B) ys ye c s). Qed.

(** ** Corners *)

Lemma corner_within A B (k : point) radius_um s :
  in_unit s -> distance2 (along A B s) (inject_Z (fst k), inject_Z (snd k)) <= inject_Z radius_um * inject_Z radius_um ->
  point_segment_within_radius k A B radius_um = true.
Proof.
  destruct A as [ax ay], B as [bx by_], k as [kx ky]. unfold distance2, along, point_segment_within_radius.
  cbn [fst snd]. intros [S0 S1] H. rewrite !Z.pow_2_r.
  set (sx := (bx - ax)%Z). set (sy := (by_ - ay)%Z). set (px := (kx - ax)%Z). set (py := (ky - ay)%Z).
  set (len2 := (sx * sx + sy * sy)%Z). set (proj := (px * sx + py * sy)%Z).
  assert (E : inject_Z (px * px + py * py) - 2 * s * inject_Z proj + s * s * inject_Z len2
              <= inject_Z radius_um * inject_Z radius_um).
  { unfold proj, len2, px, py, sx, sy, Z.sub. to_Q. lra. }
  destruct (Z.eqb_spec len2 0) as [L|L].
  { rewrite Z.leb_le, Zle_Qle, inject_Z_mult.
    assert (proj = 0)%Z as P. { unfold proj. assert (sx = 0 /\ sy = 0)%Z as [-> ->] by (unfold len2 in L; nia). ring. }
    rewrite P, L in E. change (inject_Z 0) with 0 in E. lra. }
  assert (0 < len2)%Z as L0. { unfold len2 in *. nia. }
  rewrite Zlt_Qlt in L0. change (inject_Z 0) with 0 in L0.
  destruct (Z.leb_spec proj 0) as [P|P].
  { rewrite Z.leb_le, Zle_Qle, inject_Z_mult. rewrite Zle_Qle in P. change (inject_Z 0) with 0 in P. nra. }
  destruct (Z.leb_spec len2 proj) as [Q|Q].
  { rewrite Z.leb_le, Zle_Qle, inject_Z_mult.
    assert (((kx - bx) * (kx - bx) + (ky - by_) * (ky - by_))%Z = px * px + py * py - 2 * proj + len2)%Z as ->.
    { unfold len2, proj, px, py, sx, sy. ring. }
    set (p2 := (px * px + py * py)%Z) in *. rewrite Zle_Qle in Q.
    unfold Z.sub. rewrite !inject_Z_plus, inject_Z_opp, inject_Z_mult. change (inject_Z 2) with 2.
    assert (0 <= (1 - s) * (inject_Z proj - inject_Z len2)) by nra.
    assert (0 <= (1 - s) * (1 - s) * inject_Z len2) by (apply Qmult_le_0_compat; nra).
    lra. }
  rewrite Z.leb_le, Zle_Qle.
  assert ((px * sy - py * sx) * (px * sy - py * sx) = (px * px + py * py) * len2 - proj * proj)%Z as ->.
  { unfold len2, proj. ring. }
  unfold Z.sub. rewrite inject_Z_plus, inject_Z_opp, !inject_Z_mult.
  pose proof (square_nonneg (inject_Z proj - s * inject_Z len2)).
  apply (Qmult_le_compat_r _ _ (inject_Z len2)) in E; [|lra]. lra.
Qed.

(** ** The test of a capsule against a rectangle *)

Lemma axis_distance_le lo hi p x :
  (lo <= hi)%Z -> inject_Z lo <= x -> x <= inject_Z hi ->
  inject_Z (Z.max (Z.max (lo - p) 0) (p - hi) ^ 2) <= (inject_Z p - x) * (inject_Z p - x).
Proof.
  intros O H1 H2. rewrite Z.pow_2_r, inject_Z_mult.
  destruct (Z.le_gt_cases p lo) as [C|C]; [|destruct (Z.le_gt_cases hi p) as [C'|C']].
  - replace (Z.max _ _) with (lo - p)%Z by lia. rewrite Zle_Qle in C. unfold Z.sub. to_Q. nra.
  - replace (Z.max _ _) with (p - hi)%Z by lia. rewrite Zle_Qle in C'. unfold Z.sub. to_Q. nra.
  - replace (Z.max _ _) with 0%Z by lia. change (inject_Z 0) with 0. pose proof (square_nonneg (inject_Z p - x)). lra.
Qed.

Lemma nearer (p c q : Q) : p <= c -> c <= q -> (c - p) * (c - p) <= (p - q) * (p - q).
Proof. nra. Qed.

Lemma nearer_down (p c q : Q) : c <= p -> q <= c -> (- c - - p) * (- c - - p) <= (p - q) * (p - q).
Proof. nra. Qed.

Lemma nearer_corner (p c q : Q) : p <= c /\ c <= q \/ q <= c /\ c <= p -> (p - c) * (p - c) <= (p - q) * (p - q).
Proof. intros [[]|[]]; nra. Qed.

Section CapsuleTest.
Context (A B : point) (radius_um : Z) (r : Rect).
Context (Hw : (0 < r_width_um r)%Z) (Hh : (0 < r_height_um r)%Z).
Local Notation P s := (along A B s).
Local Notation r2 := (inject_Z radius_um * inject_Z radius_um).
Local Notation touches := (segment_radius_touches_rect A B radius_um r = true).
Local Notation L := (r_x_um r).
Local Notation R := (right_um r).
Local Notation D := (r_y_um r).
Local Notation T := (top_um r).

Lemma sides_order : (L < R /\ D < T)%Z.
Proof. unfold right_um, top_um. lia. Qed.

Lemma touches_side s :
  in_unit s -> in_rect (P s) r ->
  (fst (P s) == inject_Z L \/ fst (P s) == inject_Z R) \/ (snd (P s) == inject_Z D \/ snd (P s) == inject_Z T) ->
  touches.
Proof.
  pose proof sides_order as [HL HD].
  intros S [[X0 X1] [Y0 Y1]] E. unfold segment_radius_touches_rect.
  assert (segment_intersects_rect A B r = true) as ->; [|done].
  unfold segment_intersects_rect. case_match; [done|]. apply existsb_exists. unfold rect_corners. cbn [tail take app zip zip_with].
  destruct E as [[E|E]|[E|E]].
  - exists ((L, T), (L, D)). split; [cbn; auto|]. apply (touches_vertical A B T D L s); [lia|done..|].
    by rewrite Z.min_r, Z.max_l by lia.
  - exists ((R, D), (R, T)). split; [cbn; auto|]. apply (touches_vertical A B D T R s); [lia|done..|].
    by rewrite Z.min_l, Z.max_r by lia.
  - exists ((L, D), (R, D)). split; [cbn; auto|]. apply touch_intro, (touches_horizontal A B L R D s); [lia|done..|].
    by rewrite Z.min_l, Z.max_r by lia.
  - exists ((R, T), (L, T)). split; [cbn; auto|]. apply touch_intro, (touches_horizontal A B R L T s); [lia|done..|].
    by rewrite Z.min_r, Z.max_l by lia.
Qed.

Lemma touches_end s q :
  s == 0 \/ s == 1 -> in_rect q r -> distance2 (P s) q <= r2 -> touches.
Proof.
  pose proof sides_order as [HL HD].
  intros S [[X0 X1] [Y0 Y1]] H. unfold segment_radius_touches_rect. case_match; [done|].
  assert (close : forall p, distance2 (inject_Z (fst p), inject_Z (snd p)) q <= r2 ->
    (point_rect_distance_squared p r <=? radius_um ^ 2)%Z = true).
  { intros p Hp. rewrite Z.leb_le, Zle_Qle, Z.pow_2_r, inject_Z_mult. refine (Qle_trans _ _ _ _ Hp).
    unfold point_rect_distance_squared, distance2. cbn [fst snd]. rewrite inject_Z_plus.
    apply Qplus_le_compat; apply axis_distance_le; (done || lia). }
  assert (((point_rect_distance_squared A r <=? radius_um ^ 2) ||
           (point_rect_distance_squared B r <=? radius_um ^ 2))%Z = true) as ->; [|done].
  apply orb_true_iff. destruct S as [E|E]; [left|right]; apply close; refine (Qle_trans _ _ _ _ H);
    unfold distance2, along; cbn [fst snd]; rewrite E; apply Qle_lteq; right; ring.
Qed.

Lemma touches_corner s k :
  in_unit s -> k ∈ rect_corners r -> distance2 (P s) (inject_Z (fst k), inject_Z (snd k)) <= r2 -> touches.
Proof.
  intros S Hk H. unfold segment_radius_touches_rect. case_match; [done|]. cbv zeta. case_match; [done|].
  apply existsb_exists. exists k. split; [by apply list_elem_of_In|]. by apply (corner_within A B k radius_um s).
Qed.

Lemma touches_inside s : in_unit s -> in_rect (P s) r -> touches.
Proof.
  intros S I. destruct (point_in_rect B r) eqn:EB.
  { unfold segment_radius_touches_rect, segment_intersects_rect. by rewrite EB, orb_true_r. }
  destruct I as [I1 I2]. unfold along in *. cbn [fst snd] in *.
  destruct (leaves_box (inject_Z (fst A)) (inject_Z (fst B) - inject_Z (fst A)) (inject_Z (snd A))
    (inject_Z (snd B) - inject_Z (snd A)) (inject_Z L) (inject_Z R) (inject_Z D) (inject_Z T) s) as (s' & S' & U & V & E);
    [done..| |].
  - unfold point_in_rect in EB. rewrite !andb_false_iff, !Z.leb_gt, !Zlt_Qlt in EB.
    destruct EB as [[[E|E]|E]|E]; lra.
  - by apply (touches_side s').
Qed.

(** Near a side, seen along it and across it. *)
Lemma touches_bottom s q :
  in_unit s -> in_rect q r -> distance2 (P s) q <= r2 ->
  inject_Z L <= fst (P s) /\ fst (P s) <= inject_Z R -> snd (P s) <= inject_Z D -> touches.
Proof.
  pose proof sides_order as [HL HD]. rewrite Zlt_Qlt in HL, HD.
  intros S [[X0 X1] [Y0 Y1]] H U V. unfold distance2 in H.
  pose proof (nearer (snd (P s)) (inject_Z D) (snd q)). pose proof (square_nonneg (fst (P s) - fst q)).
  destruct (side_near (inject_Z (fst A)) (inject_Z (fst B) - inject_Z (fst A)) (inject_Z (snd A))
    (inject_Z (snd B) - inject_Z (snd A)) (inject_Z L) (inject_Z R) (inject_Z D) r2 s) as [O|[O|O]];
    [done..|split; [done|cbn [along fst snd] in *; lra]| | |];
    destruct O as (s' & S' & O1 & O2).
  - apply (touches_end s' (fst (P s'), inject_Z D)); [done| |unfold distance2; cbn [along fst snd] in *; lra].
    split; cbn [along fst snd]; lra.
  - apply (touches_side s'); [done| |right; by left]. split; cbn [along fst snd]; lra.
  - destruct O1 as [E|E].
    + apply (touches_corner s' (L, D)); [done|left|]. unfold distance2. cbn [along fst snd] in *. rewrite E. lra.
    + apply (touches_corner s' (R, D)); [done|right; left|]. unfold distance2. cbn [along fst snd] in *. rewrite E. lra.
Qed.

Lemma touches_top s q :
  in_unit s -> in_rect q r -> distance2 (P s) q <= r2 ->
  inject_Z L <= fst (P s) /\ fst (P s) <= inject_Z R -> inject_Z T <= snd (P s) -> touches.
Proof.
  pose proof sides_order as [HL HD]. rewrite Zlt_Qlt in HL, HD.
  intros S [[X0 X1] [Y0 Y1]] H U V. unfold distance2 in H.
  pose proof (nearer_down (snd (P s)) (inject_Z T) (snd q)). pose proof (square_nonneg (fst (P s) - fst q)).
  destruct (side_near (inject_Z (fst A)) (inject_Z (fst B) - inject_Z (fst A)) (- inject_Z (snd A))
    (- (inject_Z (snd B) - inject_Z (snd A))) (inject_Z L) (inject_Z R) (- inject_Z T) r2 s) as [O|[O|O]];
    [done..|cbn [along fst snd] in *; split; [lra|lra]| | |];
    destruct O as (s' & S' & O1 & O2).
  - apply (touches_end s' (fst (P s'), inject_Z T)); [done| |unfold distance2; cbn [along fst snd] in *; lra].
    split; cbn [along fst snd]; lra.
  - apply (touches_side s'); [done| |right; right; cbn [along fst snd]; lra]. split; cbn [along fst snd]; lra.
  - destruct O1 as [E|E].
    + apply (touches_corner s' (L, T)); [done|do 3 right; left|]. unfold distance2. cbn [along fst snd] in *. rewrite E. lra.
    + apply (touches_corner s' (R, T)); [done|do 2 right; left|]. unfold distance2. cbn [along fst snd] in *. rewrite E. lra.
Qed.

Lemma touches_left s q :
  in_unit s -> in_rect q r -> distance2 (P s) q <= r2 ->
  inject_Z D <= snd (P s) /\ snd (P s) <= inject_Z T -> fst (P s) <= inject_Z L -> touches.
Proof.
  pose proof sides_order as [HL HD]. rewrite Zlt_Qlt in HL, HD.
  intros S [[X0 X1] [Y0 Y1]] H U V. unfold distance2 in H.
  pose proof (nearer (fst (P s)) (inject_Z L) (fst q)). pose proof (square_nonneg (snd (P s) - snd q)).
  destruct (side_near (inject_Z (snd A)) (inject_Z (snd B) - inject_Z (snd A)) (inject_Z (fst A))
    (inject_Z (fst B) - inject_Z (fst A)) (inject_Z D) (inject_Z T) (inject_Z L) r2 s) as [O|[O|O]];
    [done..|split; [done|cbn [along fst snd] in *; lra]| | |];
    destruct O as (s' & S' & O1 & O2).
  - apply (touches_end s' (inject_Z L, snd (P s'))); [done| |unfold distance2; cbn [along fst snd] in *; lra].
    split; cbn [along fst snd]; lra.
  - apply (touches_side s'); [done| |left; by left]. split; cbn [along fst snd]; lra.
  - destruct O1 as [E|E].
    + apply (touches_corner s' (L, D)); [done|left|]. unfold distance2. cbn [along fst snd] in *. rewrite E. lra.
    + apply (touches_corner s' (L, T)); [done|do 3 right; left|]. unfold distance2. cbn [along fst snd] in *. rewrite E. lra.
Qed.

Lemma touches_right s q :
  in_unit s -> in_rect q r -> distance2 (P s) q <= r2 ->
  inject_Z D <= snd (P s) /\ snd (P s) <= inject_Z T -> inject_Z R <= fst (P s) -> touches.
Proof.
  pose proof sides_order as [HL HD]. rewrite Zlt_Qlt in HL, HD.
  intros S [[X0 X1] [Y0 Y1]] H U V. unfold distance2 in H.
  pose proof (nearer_down (fst (P s)) (inject_Z R) (fst q)). pose proof (square_nonneg (snd (P s) - snd q)).
  destruct (side_near (inject_Z (snd A)) (inject_Z (snd B) - inject_Z (snd A)) (- inject_Z (fst A))
    (- (inject_Z (fst B) - inject_Z (fst A))) (inject_Z D) (inject_Z T) (- inject_Z R) r2 s) as [O|[O|O]];
    [done..|cbn [along fst snd] in *; split; [lra|lra]| | |];
    destruct O as (s' & S' & O1 & O2).
  - apply (touches_end s' (inject_Z R, snd (P s'))); [done| |unfold distance2; cbn [along fst snd] in *; lra].
    split; cbn [along fst snd]; lra.
  - apply (touches_side s'); [done| |left; right; cbn [along fst snd]; lra]. split; cbn [along fst snd]; lra.
  - destruct O1 as [E|E].
    + apply (touches_corner s' (R, D)); [done|right; left|]. unfold distance2. cbn [along fst snd] in *. rewrite E. lra.
    + apply (touches_corner s' (R, T)); [done|do 2 right; left|]. unfold distance2. cbn [along fst snd] in *. rewrite E. lra.
Qed.

(** A rectangle with a point in the capsule is found to be touched. *)
Lemma capsule_touches q : in_rect q r -> within_capsule A B radius_um q -> touches.
Proof.
  pose proof sides_order as [HL HD]. rewrite Zlt_Qlt in HL, HD.
  intros I (s & S & H). pose proof I as [[X0 X1] [Y0 Y1]].
  assert (corner : forall k, k ∈ rect_corners r ->
    (fst (P s) - inject_Z (fst k)) * (fst (P s) - inject_Z (fst k)) <= (fst (P s) - fst q) * (fst (P s) - fst q) ->
    (snd (P s) - inject_Z (snd k)) * (snd (P s) - inject_Z (snd k)) <= (snd (P s) - snd q) * (snd (P s) - snd q) ->
    touches).
  { intros k Hk Ex Ey. apply (touches_corner s k); [done..|]. unfold distance2 in *. cbn [fst snd] in *. lra. }
  set (p := P s) in *.
  destruct (Qlt_le_dec (fst p) (inject_Z L)) as [XL|XL]; [|destruct (Qlt_le_dec (inject_Z R) (fst p)) as [XR|XR]];
  (destruct (Qlt_le_dec (snd p) (inject_Z D)) as [YD|YD]; [|destruct (Qlt_le_dec (inject_Z T) (snd p)) as [YT|YT]]).
  - apply (corner (L, D)); [left|apply nearer_corner; cbn [fst snd]; lra..].
  - apply (corner (L, T)); [do 3 right; left|apply nearer_corner; cbn [fst snd]; lra..].
  - apply (touches_left s q); [done..|fold p; lra].
  - apply (corner (R, D)); [right; left|apply nearer_corner; cbn [fst snd]; lra..].
  - apply (corner (R, T)); [do 2 right; left|apply nearer_corner; cbn [fst snd]; lra..].
  - apply (touches_right s q); [done..|fold p; lra].
  - apply (touches_bottom s q); [done..|fold p; lra].
  - apply (touches_top s q); [done..|fold p; lra].
  - by apply (touches_inside s).
Qed.
End CapsuleTest.

(** ** Whatever the test finds is there *)

Definition meets_rect (A B : point) (radius_um : Z) (r : Rect) : Prop :=
  exists q, in_rect q r /\ within_capsule A B radius_um q.

Lemma point_in_rect_true k r : point_in_rect k r = true -> in_rect (inject_Z (fst k), inject_Z (snd k)) r.
Proof. unfold point_in_rect. rewrite !andb_true_iff, !Z.leb_le, !Zle_Qle. unfold in_rect. cbn. tauto. Qed.

Lemma corner_in_rect k r : (0 < r_width_um r)%Z -> (0 < r_height_um r)%Z -> k ∈ rect_corners r -> point_in_rect k r = true.
Proof.
  unfold rect_corners, point_in_rect, right_um, top_um. intros Hw Hh Hk.
  repeat (apply elem_of_cons in Hk as [->|Hk]; [cbn; rewrite !andb_true_iff, !Z.leb_le; lia|]). by apply not_elem_of_nil in Hk.
Qed.

(** A point of the segment itself. *)
Lemma meets_at A B radius_um r s : in_unit s -> in_rect (along A B s) r -> meets_rect A B radius_um r.
Proof.
  intros S I. exists (along A B s). split; [done|]. exists s. split; [done|]. unfold distance2.
  pose proof (square_nonneg (inject_Z radius_um)). lra.
Qed.

Lemma meets_start A B radius_um r : point_in_rect A r = true -> meets_rect A B radius_um r.
Proof.
  intros I%point_in_rect_true. apply (meets_at A B radius_um r 0); [split; lra|].
  destruct I as [[? ?] [? ?]]. unfold in_rect, along. cbn [fst snd] in *. split; lra.
Qed.

Lemma meets_stop A B radius_um r : point_in_rect B r = true -> meets_rect A B radius_um r.
Proof.
  intros I%point_in_rect_true. apply (meets_at A B radius_um r 1); [split; lra|].
  destruct I as [[? ?] [? ?]]. unfold in_rect, along. cbn [fst snd] in *. split; lra.
Qed.

(** The fraction at which a segment reaches a value between those of its ends. *)
Lemma fraction_at a b c :
  (a <> b)%Z -> (Z.min a b <= c <= Z.max a b)%Z ->
  exists s, in_unit s /\ inject_Z a + s * (inject_Z b - inject_Z a) == inject_Z c.
Proof.
  intros Hne [H1 H2]. destruct (Z.le_ge_cases a b) as [O|O].
  - rewrite Z.min_l in H1 by done. rewrite Z.max_r in H2 by done. rewrite Zle_Qle in H1, H2.
    destruct (linear_cross (inject_Z a) (inject_Z b - inject_Z a) (inject_Z c) 0 1) as (s & S & E); [lra..|]. by exists s.
  - rewrite Z.min_r in H1 by done. rewrite Z.max_l in H2 by done. rewrite Zle_Qle in H1, H2.
    destruct (linear_cross_down (inject_Z a) (inject_Z b - inject_Z a) (inject_Z c) 0 1) as (s & S & E); [lra..|]. by exists s.
Qed.

Lemma on_segment_at A B C :
  orientation A B C = 0%Z -> point_on_segment C A B = true ->
  exists s, in_unit s /\ fst (along A B s) == inject_Z (fst C) /\ snd (along A B s) == inject_Z (snd C).
Proof.
  destruct A as [ax ay], B as [bx by_], C as [cx cy]. unfold orientation, point_on_segment, along. cbn [fst snd].
  rewrite !andb_true_iff, !Z.leb_le. intros O [[[X0 X1] Y0] Y1].
  destruct (Z.eq_dec ax bx) as [->|Hx]; [destruct (Z.eq_dec ay by_) as [->|Hy]|].
  - exists 0. rewrite Z.min_id in *. rewrite Z.max_id in *. assert (cx = bx) as -> by lia. assert (cy = by_) as -> by lia.
    split; [split; lra|]. split; ring.
  - destruct (fraction_at ay by_ cy) as (s & S & E); [done|lia|]. exists s. split; [done|]. split; [|done].
    assert (cx = bx) as -> by nia. ring.
  - destruct (fraction_at ax bx cx) as (s & S & E); [done|lia|]. exists s. split; [done|]. split; [done|].
    assert (inject_Z ((bx - ax) * (cy - ay) - (by_ - ay) * (cx - ax)) == 0) as O' by by rewrite O.
    unfold Z.sub in O'. repeat (rewrite inject_Z_plus in O' || rewrite inject_Z_mult in O' || rewrite inject_Z_opp in O').
    assert (~ inject_Z bx - inject_Z ax == 0) as Hq by (intros Z0; apply Hx, inject_Z_injective; lra).
    pose proof (Qmult_comp _ _ (Qeq_refl (inject_Z by_ - inject_Z ay)) _ _ E) as M.
    assert ((inject_Z bx - inject_Z ax) * (inject_Z ay + s * (inject_Z by_ - inject_Z ay) - inject_Z cy) == 0) as K by lra.
    apply Qmult_integral in K as [K|K]; [done|lra].
Qed.

Lemma in_rect_Proper q q' r : fst q == fst q' -> snd q == snd q' -> in_rect q' r -> in_rect q r.
Proof. intros E1 E2 [[? ?] [? ?]]. unfold in_rect. split; lra. Qed.

(** What a positive answer says of the orientations. *)
Definition opposite (a b : Z) : Prop := (a * b <= 0 /\ a <> b)%Z.

Lemma touch_elim A B C D :
  segments_touch_or_cross A B C D = true ->
  end_on_other A B C D \/
  opposite (orientation A B C) (orientation A B D) /\ opposite (orientation C D A) (orientation C D B).
Proof.
  unfold segments_touch_or_cross, end_on_other, opposite. cbv zeta.
  repeat match goal with |- (if ?c then _ else _) = true -> _ => destruct c eqn:E; [rewrite andb_true_iff, Z.eqb_eq in E; by auto 6|clear E] end.
  rewrite andb_true_iff. intros [H1 H2]. right.
  repeat match goal with H : context [Z.ltb ?a ?b] |- _ => destruct (Z.ltb_spec a b) end; try done; nia.
Qed.

Definition crossing A B C D : Prop :=
  end_on_other A B C D \/
  opposite (orientation A B C) (orientation A B D) /\ opposite (orientation C D A) (orientation C D B).

Lemma crossing_swap A B C D : crossing A B C D -> crossing (swap A) (swap B) (swap C) (swap D).
Proof.
  unfold crossing, end_on_other, opposite.
  rewrite !orientation_swap, !point_on_segment_swap, !Z.mul_opp_opp, !opp_zero, !Z.opp_inj_wd. done.
Qed.

Lemma crosses_horizontal A B xs xe c :
  crossing A B (xs, c) (xe, c) ->
  exists s, in_unit s /\ snd (along A B s) == inject_Z c /\
    inject_Z (Z.min xs xe) <= fst (along A B s) <= inject_Z (Z.max xs xe).
Proof.
  assert (fin : forall s x, fst (along A B s) == inject_Z x -> (Z.min xs xe <= x <= Z.max xs xe)%Z ->
    inject_Z (Z.min xs xe) <= fst (along A B s) <= inject_Z (Z.max xs xe)).
  { intros s x E [H1 H2]. rewrite E. by rewrite <- !Zle_Qle. }
  assert (ends : forall p s, fst (along A B s) == inject_Z (fst p) -> snd (along A B s) == inject_Z (snd p) ->
    in_unit s -> point_on_segment p (xs, c) (xe, c) = true ->
    exists s, in_unit s /\ snd (along A B s) == inject_Z c /\
      inject_Z (Z.min xs xe) <= fst (along A B s) <= inject_Z (Z.max xs xe)).
  { intros p s E1 E2 S H. unfold point_on_segment in H. cbn [fst snd] in H. rewrite !andb_true_iff, !Z.leb_le, Z.min_id, Z.max_id in H.
    exists s. split; [done|]. split; [|apply (fin s (fst p)); [done|lia]]. assert (snd p = c) as <- by lia. done. }
  intros [[[O H]|[[O H]|[[O H]|[O H]]]]|[[O12 _] [O34 N34]]].
  - destruct (on_segment_at A B _ O H) as (s & S & E1 & E2). exists s. cbn in *. split; [done|]. split; [done|]. apply (fin s xs); [done|lia].
  - destruct (on_segment_at A B _ O H) as (s & S & E1 & E2). exists s. cbn in *. split; [done|]. split; [done|]. apply (fin s xe); [done|lia].
  - apply (ends A 0); [cbn; ring..|split; lra|done].
  - apply (ends B 1); [cbn; ring..|split; lra|done].
  - destruct A as [ax ay], B as [bx by_]. unfold orientation in O34, N34. cbn [fst snd] in O34, N34.
    assert (ay <> by_) as Hne by (intros ->; apply N34; ring).
    assert (Z.min ay by_ <= c <= Z.max ay by_)%Z as Hc.
    { rewrite !Z.sub_diag, !Z.mul_0_l, !Z.sub_0_r in O34, N34.
      assert ((xe - xs) * (xe - xs) * ((ay - c) * (by_ - c)) <= 0)%Z as K.
      { refine (Z.le_trans _ _ _ _ O34). apply Z.eq_le_incl. ring. }
      assert (0 < (xe - xs) * (xe - xs))%Z as K2 by (destruct (Z.eq_dec xe xs) as [->|]; [rewrite Z.sub_diag, !Z.mul_0_l in N34; lia|nia]).
      assert ((ay - c) * (by_ - c) <= 0)%Z as K3 by nia.
      clear - K3. destruct (Z.le_gt_cases ay c), (Z.le_gt_cases by_ c); nia. }
    destruct (fraction_at ay by_ c Hne Hc) as (s & S & E). exists s. split; [done|]. split; [done|].
    rewrite Zle_Qle, inject_Z_mult in O12. cbn [fst snd] in O12.
    rewrite !(orientation_at _ _ _ _ _ _ s E) in O12. change (inject_Z 0) with 0 in O12. unfold along. cbn [fst snd].
    set (x := inject_Z ax + s * (inject_Z bx - inject_Z ax)) in *. clearbody x.
    assert (0 < (inject_Z by_ - inject_Z ay) * (inject_Z by_ - inject_Z ay)).
    { assert (~ inject_Z by_ - inject_Z ay == 0) by (intros Z0; apply Hne, inject_Z_injective; lra).
      destruct (Qlt_le_dec 0 (inject_Z by_ - inject_Z ay)); [nra|].
      assert (inject_Z by_ - inject_Z ay < 0) by (apply Qle_lteq in q as [|]; [done|lra]). nra. }
    assert ((x - inject_Z xs) * (x - inject_Z xe) <= 0) as K.
    { apply Qnot_lt_le. intros K. assert (0 < (inject_Z by_ - inject_Z ay) * (inject_Z by_ - inject_Z ay) * ((x - inject_Z xs) * (x - inject_Z xe))) by (by apply Qmult_lt_0_compat). lra. }
    destruct (Z.le_ge_cases xs xe) as [Q|Q]; rewrite ?Z.min_l, ?Z.max_r, ?Z.min_r, ?Z.max_l by done;
      rewrite Zle_Qle in Q; split; nra.
Qed.

Lemma crosses_vertical A B ys ye c :
  crossing A B (c, ys) (c, ye) ->
  exists s, in_unit s /\ fst (along A B s) == inject_Z c /\
    inject_Z (Z.min ys ye) <= snd (along A B s) <= inject_Z (Z.max ys ye).
Proof. intros H%crossing_swap. apply (crosses_horizontal (swap A) (swap B) ys ye c H). Qed.

(** The nearest point of a rectangle, axis by axis. *)
Lemma axis_nearest lo hi p :
  (lo <= hi)%Z -> exists x, (lo <= x <= hi)%Z /\ ((p - x) * (p - x) = Z.max (Z.max (lo - p) 0) (p - hi) ^ 2)%Z.
Proof.
  intros O. exists (Z.max lo (Z.min p hi)). split; [lia|]. rewrite Z.pow_2_r.
  destruct (Z.le_gt_cases p lo) as [C|C]; [|destruct (Z.le_gt_cases hi p) as [C'|C']].
  - rewrite Z.min_l, Z.max_l by lia. replace (Z.max _ (p - hi)) with (lo - p)%Z by lia. ring.
  - rewrite Z.min_r, Z.max_r by lia. replace (Z.max _ (p - hi)) with (p - hi)%Z by lia. ring.
  - rewrite Z.min_l, Z.max_r by lia. replace (Z.max _ (p - hi)) with 0%Z by lia. ring.
Qed.

Lemma meets_end A B radius_um r s p :
  (0 < r_width_um r)%Z -> (0 < r_height_um r)%Z -> in_unit s ->
  fst (along A B s) == inject_Z (fst p) -> snd (along A B s) == inject_Z (snd p) ->
  (point_rect_distance_squared p r <= radius_um ^ 2)%Z -> meets_rect A B radius_um r.
Proof.
  intros Hw Hh S E1 E2 H. unfold point_rect_distance_squared in H. cbv zeta in H.
  destruct (axis_nearest (r_x_um r) (right_um r) (fst p)) as (x & X & Ex); [unfold right_um; lia|].
  destruct (axis_nearest (r_y_um r) (top_um r) (snd p)) as (y & Y & Ey); [unfold top_um; lia|].
  rewrite <- Ex, <- Ey, Z.pow_2_r, Zle_Qle in H.
  exists (inject_Z x, inject_Z y). split.
  - unfold in_rect. cbn [fst snd]. rewrite <- !Zle_Qle. lia.
  - exists s. split; [done|]. unfold distance2. cbn [fst snd]. rewrite E1, E2.
    unfold Z.sub in H. repeat (rewrite inject_Z_plus in H || rewrite inject_Z_mult in H || rewrite inject_Z_opp in H). lra.
Qed.

Lemma within_corner A B (k : point) radius_um :
  point_segment_within_radius k A B radius_um = true -> within_capsule A B radius_um (inject_Z (fst k), inject_Z (snd k)).
Proof.
  destruct A as [ax ay], B as [bx by_], k as [kx ky]. unfold point_segment_within_radius, within_capsule, distance2, along.
  cbn [fst snd]. rewrite !Z.pow_2_r.
  set (sx := (bx - ax)%Z). set (sy := (by_ - ay)%Z). set (px := (kx - ax)%Z). set (py := (ky - ay)%Z).
  set (len2 := (sx * sx + sy * sy)%Z). set (proj := (px * sx + py * sy)%Z).
  assert (E : forall s, (inject_Z ax + s * (inject_Z bx - inject_Z ax) - inject_Z kx) * (inject_Z ax + s * (inject_Z bx - inject_Z ax) - inject_Z kx) +
      (inject_Z ay + s * (inject_Z by_ - inject_Z ay) - inject_Z ky) * (inject_Z ay + s * (inject_Z by_ - inject_Z ay) - inject_Z ky)
      == inject_Z (px * px + py * py) - 2 * s * inject_Z proj + s * s * inject_Z len2).
  { intros s. unfold proj, len2, px, py, sx, sy, Z.sub. to_Q. ring. }
  assert (start : (px * px + py * py <=? radius_um * radius_um)%Z = true -> exists t, in_unit t /\
    (inject_Z ax + t * (inject_Z bx - inject_Z ax) - inject_Z kx) * (inject_Z ax + t * (inject_Z bx - inject_Z ax) - inject_Z kx) +
    (inject_Z ay + t * (inject_Z by_ - inject_Z ay) - inject_Z ky) * (inject_Z ay + t * (inject_Z by_ - inject_Z ay) - inject_Z ky)
      <= inject_Z radius_um * inject_Z radius_um).
  { intros H. rewrite Z.leb_le, Zle_Qle, inject_Z_mult in H. exists 0. split; [split; lra|]. rewrite (E 0). lra. }
  destruct (Z.eqb_spec len2 0) as [L|L]; [done|]. destruct (Z.leb_spec proj 0) as [P|P]; [done|].
  destruct (Z.leb_spec len2 proj) as [Q|Q]; intros H; rewrite Z.leb_le, Zle_Qle in H.
  - exists 1. split; [split; lra|]. rewrite (E 1). refine (Qle_trans _ _ _ _ _); [|rewrite <- inject_Z_mult; apply H].
    apply Qle_lteq. right. unfold proj, len2, px, py, sx, sy, Z.sub. to_Q. ring.
  - assert (0 < len2)%Z as L0 by lia. rewrite Zlt_Qlt in L0, P, Q. change (inject_Z 0) with 0 in L0, P.
    assert (~ inject_Z len2 == 0) as Hq by lra.
    exists (inject_Z proj / inject_Z len2). split.
    { split; [apply Qle_shift_div_l; lra|apply Qle_shift_div_r; lra]. }
    rewrite (E _).
    assert ((px * sy - py * sx) * (px * sy - py * sx) = (px * px + py * py) * len2 - proj * proj)%Z as X by (unfold len2, proj; ring).
    rewrite X in H. unfold Z.sub in H. rewrite inject_Z_plus, inject_Z_opp, !inject_Z_mult in H.
    assert (inject_Z (px * px + py * py) - 2 * (inject_Z proj / inject_Z len2) * inject_Z proj +
      inject_Z proj / inject_Z len2 * (inject_Z proj / inject_Z len2) * inject_Z len2 ==
      (inject_Z (px * px + py * py) * inject_Z len2 - inject_Z proj * inject_Z proj) / inject_Z len2) as -> by (by field).
    apply Qle_shift_div_r; [done|]. lra.
Qed.

Lemma meets_side A B radius_um r C D :
  (0 < r_width_um r)%Z -> (0 < r_height_um r)%Z ->
  (C, D) ∈ zip (rect_corners r) (tail (rect_corners r) ++ take 1 (rect_corners r)) ->
  segments_touch_or_cross A B C D = true -> meets_rect A B radius_um r.
Proof.
  intros Hw Hh Hk H%touch_elim. assert (r_x_um r < right_um r /\ r_y_um r < top_um r)%Z as [HL HD].
  { unfold right_um, top_um. lia. }
  unfold rect_corners in Hk. cbn [tail take app zip zip_with] in Hk.
  repeat (apply elem_of_cons in Hk as [[= -> ->]|Hk]); [..|by apply not_elem_of_nil in Hk].
  - destruct (crosses_horizontal _ _ _ _ _ H) as (s & S & E & B0 & B1). rewrite ?Z.min_l, ?Z.max_r in * by lia.
    apply (meets_at A B radius_um r s S). rewrite Zlt_Qlt in HL, HD. split; lra.
  - destruct (crosses_vertical _ _ _ _ _ H) as (s & S & E & B0 & B1). rewrite ?Z.min_l, ?Z.max_r in * by lia.
    apply (meets_at A B radius_um r s S). rewrite Zlt_Qlt in HL, HD. split; lra.
  - destruct (crosses_horizontal _ _ _ _ _ H) as (s & S & E & B0 & B1). rewrite ?Z.min_r, ?Z.max_l in * by lia.
    apply (meets_at A B radius_um r s S). rewrite Zlt_Qlt in HL, HD. split; lra.
  - destruct (crosses_vertical _ _ _ _ _ H) as (s & S & E & B0 & B1). rewrite ?Z.min_r, ?Z.max_l in * by lia.
    apply (meets_at A B radius_um r s S). rewrite Zlt_Qlt in HL, HD. split; lra.
Qed.

Lemma touched_meets A B radius_um r :
  (0 < r_width_um r)%Z -> (0 < r_height_um r)%Z ->
  segment_radius_touches_rect A B radius_um r = true -> meets_rect A B radius_um r.
Proof.
  intros Hw Hh. unfold segment_radius_touches_rect.
  destruct (segment_intersects_rect A B r) eqn:I.
  { intros _. unfold segment_intersects_rect in I. destruct (point_in_rect A r || point_in_rect B r) eqn:E.
    - apply orb_true_iff in E as [E|E]; [by apply meets_start|by apply meets_stop].
    - apply existsb_exists in I as ([C D] & Hk%list_elem_of_In & H). by apply (meets_side A B radius_um r C D). }
  cbv zeta. case_match eqn:E.
  { intros _. apply orb_true_iff in E as [E%Z.leb_le|E%Z.leb_le].
    - apply (meets_end A B radius_um r 0 A); [done|done|split; lra|unfold along; cbn [fst snd]; ring|unfold along; cbn [fst snd]; ring|done].
    - apply (meets_end A B radius_um r 1 B); [done|done|split; lra|unfold along; cbn [fst snd]; ring|unfold along; cbn [fst snd]; ring|done]. }
  intros (k & Hk%list_elem_of_In & H)%existsb_exists.
  exists (inject_Z (fst k), inject_Z (snd k)). split; [by apply point_in_rect_true, corner_in_rect|by apply within_corner].
Qed.

(** C18: The capsule test of [_segment_radius_touches_rect] is exact: for a
    rectangle with an inside, the test on integers answers yes exactly when some
    point of the rectangle lies within the radius of some point of the segment.
    So a sweep the generator accepts leaves every point of another part farther
    away than the accuracy-expanded cutter radius, and a sweep it refuses does
    come too close. *)
Theorem segment_radius_touches_rect_exact A B radius_um r :
  (0 < r_width_um r)%Z -> (0 < r_height_um r)%Z ->
  segment_radius_touches_rect A B radius_um r = true <->
  exists q, in_rect q r /\ within_capsule A B radius_um q.
Proof.
  intros Hw Hh. split; [by apply touched_meets|].
  intros (q & I & W). by apply (capsule_touches A B radius_um r Hw Hh q).
Qed.

(** A sweep that ends a little over four micrometres from the corner of a part. *)
Lemma segment_radius_touches_rect_exact_witness :
  (forall q, in_rect q (mkRect 10 0 5 5) -> ~ within_capsule (0, 8)%Z (7, 8)%Z 4 q) /\
  exists q, in_rect q (mkRect 10 0 5 5) /\ within_capsule (0, 8)%Z (7, 8)%Z 5 q.
Proof.
  split.
  - intros q I W.
    assert (segment_radius_touches_rect (0, 8)%Z (7, 8)%Z 4 (mkRect 10 0 5 5) = true) as H.
    { apply segment_radius_touches_rect_exact; [done..|]. by exists q. }
    vm_compute in H. discriminate H.
  - apply segment_radius_touches_rect_exact; reflexivity.
Defined.
