(* ===== verification/ToolpathContracts.v ===== *)
(** * Production toolpaths: what is checked before motion

    From [cam/src/custombuild_cam/toolpaths.py]: the binding of a source
    document to an execution context, the finished outlines of the parts in the
    physical frame of their sheet, the contract of every operation with its
    tool and recipe, and the test every cut segment passes. *)

From S2P Require Import Prelude Text Identity ManufacturingModel Machining CamValidation ProductionModel ToolpathGeometry.

(** The finished outline of a part in the unflipped frame of the physical stock. *)
Record PartOutline := mkOutline {
  po_stock_id : string;
  po_sheet_index : Z;
  po_instance_id : string;
  po_part_id : string;
  po_source_rotation_90 : bool;
  po_rect : Rect }.

Definition SUPPORTED_KINDS : list OperationKind := [OP_DRILL; OP_POCKET; OP_GROOVE; OP_CONTOUR].
Definition DOGBONE_STRATEGIES : list string := ["dogbone-v1"; "dogbone-v2"].

(** [refuse] with the identity of an operation. *)
Definition refuse_op (cond : bool) (message : string) (o : CAMOperation) : result unit :=
  refuse cond (about message (op_operation_id o)).

Definition is_release_contour (o : CAMOperation) : bool :=
  bool_decide (op_kind o = OP_CONTOUR) && op_through o && bool_decide (op_compensation o = Some "OUTSIDE").

Definition has_corner_contract (o : CAMOperation) : bool :=
  is_some (op_corner_strategy o) || is_some (op_corner_relief_radius_um o) ||
  negb (bool_decide (op_open_end_reliefs o = [])).

(** ** Frames *)

(** [_rect_to_physical_stock], of a source setup or of a bound one: the side and
    the height of the stock. *)
Definition rect_to_physical_stock (r : Rect) (side : Side) (stock_height_um : Z) : Rect :=
  if bool_decide (side = SIDE_B)
  then mkRect (r_x_um r) (stock_height_um - top_um r) (r_width_um r) (r_height_um r)
  else r.

Definition point_to_physical_stock (q : point) (s : BoundSetup) : point :=
  if bool_decide (bs_side s = SIDE_B) then (fst q, bs_stock_height_um s - snd q) else q.

Definition operation_nominal_footprint (o : CAMOperation) : result Rect :=
  if is_drilling (op_kind o) then
    match op_diameter_um o with
    | Some diameter =>
        refuse_op (diameter <=? 0) "drilling operation lacks a nominal footprint" o;;
        Ok (mkRect (op_x_um o - diameter / 2) (op_y_um o - diameter / 2) diameter diameter)
    | None => Err (cam_error (about "drilling operation lacks a nominal footprint" (op_operation_id o)))
    end
  else of_option (nominal_envelope o)
         (cam_error (about "area operation lacks a nominal footprint" (op_operation_id o))).

(** ** Edges and corners of the source part *)

Definition source_edge_machine_boundary (source_edge : string) (rotated_90 : bool) (side : Side) : result string :=
  boundary ← (if bool_decide (source_edge = "u_min") then Ok (if rotated_90 then "y_min" else "x_min")
              else if bool_decide (source_edge = "u_max") then Ok (if rotated_90 then "y_max" else "x_max")
              else if bool_decide (source_edge = "v_min") then Ok (if rotated_90 then "x_max" else "y_min")
              else if bool_decide (source_edge = "v_max") then Ok (if rotated_90 then "x_min" else "y_max")
              else Err (cam_error ("unsupported open-end edge: " +:+ source_edge)));
  Ok (if bool_decide (side = SIDE_B) && is_some (after_prefix (chars "y_") (chars boundary))
      then (if bool_decide (boundary = "y_min") then "y_max" else "y_min") else boundary).

Definition source_corner_machine_boundaries (u_boundary v_boundary : string) (rotated_90 : bool) (side : Side)
    : string * string :=
  let x_boundary :=
    if rotated_90 then (if bool_decide (v_boundary = "v_min") then "x_max" else "x_min")
    else (if bool_decide (u_boundary = "u_min") then "x_min" else "x_max") in
  let y_boundary :=
    if rotated_90 then (if bool_decide (u_boundary = "u_min") then "y_min" else "y_max")
    else (if bool_decide (v_boundary = "v_min") then "y_min" else "y_max") in
  (x_boundary,
   if bool_decide (side = SIDE_B)
   then (if bool_decide (y_boundary = "y_min") then "y_max" else "y_min") else y_boundary).

(** The width and length of an area, which the code asserts to be there. *)
Definition asserted_size (o : CAMOperation) : result (Z * Z) :=
  width_um ← of_option (op_width_um o) AssertionError;
  length_um ← of_option (op_length_um o) AssertionError;
  Ok (width_um, length_um).

(** [(left, right, bottom, top)] of the cutter centre. *)
Definition area_raster_bounds (o : CAMOperation) (radius_um : Z) : result (Z * Z * Z * Z) :=
  size ← asserted_size o;
  opened ← traverse (fun edge => source_edge_machine_boundary edge (op_source_rotation_90 o) (op_side o))
             (op_open_end_reliefs o);
  let inset edge := if bool_decide (edge ∈ opened) then 0 else radius_um in
  Ok (op_x_um o + inset "x_min", op_x_um o + fst size - inset "x_max",
      op_y_um o + inset "y_min", op_y_um o + snd size - inset "y_max").

Definition source_corners : list (string * string) :=
  [("u_min", "v_min"); ("u_max", "v_min"); ("u_min", "v_max"); ("u_max", "v_max")].

Definition is_dogbone (strategy : option string) : bool :=
  match strategy with Some s => bool_decide (s ∈ DOGBONE_STRATEGIES) | None => false end.

Definition dogbone_centres (o : CAMOperation) : result (list point) :=
  if negb (is_dogbone (op_corner_strategy o)) then Ok [] else
  size ← asserted_size o;
  let declared edge := bool_decide (edge ∈ op_open_end_reliefs o) in
  let suppressed uv :=
    if bool_decide (op_corner_strategy o = Some "dogbone-v1")
    then declared (fst uv) && declared (snd uv) else declared (fst uv) || declared (snd uv) in
  Ok (map (fun uv =>
             let '(x_boundary, y_boundary) :=
               source_corner_machine_boundaries (fst uv) (snd uv) (op_source_rotation_90 o) (op_side o) in
             (if bool_decide (x_boundary = "x_min") then op_x_um o else op_x_um o + fst size,
              if bool_decide (y_boundary = "y_min") then op_y_um o else op_y_um o + snd size))
        (List.filter (fun uv => negb (suppressed uv)) source_corners)).

Definition dogbone_envelope (o : CAMOperation) (radius_um : Z) : result Rect :=
  centres ← dogbone_centres o;
  bounds ← area_raster_bounds o radius_um;
  let '(raster_left, raster_right, raster_bottom, raster_top) := bounds in
  let left := minZ 0 (raster_left - radius_um :: map (fun q => fst q - radius_um) centres) in
  let right := maxZ 0 (raster_right + radius_um :: map (fun q => fst q + radius_um) centres) in
  let bottom := minZ 0 (raster_bottom - radius_um :: map (fun q => snd q - radius_um) centres) in
  let top := maxZ 0 (raster_top + radius_um :: map (fun q => snd q + radius_um) centres) in
  Ok (mkRect left bottom (right - left) (top - bottom)).

(** The machine edges at which a groove may leave its part. *)
Definition edge_at_boundary (nominal outline : Rect) (machine_edge : string) : bool :=
  if bool_decide (machine_edge = "x_min") then r_x_um nominal =? r_x_um outline
  else if bool_decide (machine_edge = "x_max") then right_um nominal =? right_um outline
  else if bool_decide (machine_edge = "y_min") then r_y_um nominal =? r_y_um outline
  else top_um nominal =? top_um outline.

Definition declared_open_finished_part_edges (o : CAMOperation) (side : Side) (outline : Rect)
    : result (list string) :=
  if negb (bool_decide (op_kind o = OP_GROOVE)) || bool_decide (op_open_end_reliefs o = []) then Ok [] else
  nominal ← operation_nominal_footprint o;
  edges ← traverse (fun e => source_edge_machine_boundary e (op_source_rotation_90 o) side) (op_open_end_reliefs o);
  Ok (remove_dups (List.filter (edge_at_boundary nominal outline) edges)).

(** ** Footprints and segments *)

Definition require_footprint_clear (s : BoundSetup) (footprint : Rect) (operation_id : string) : result unit :=
  refuse ((Z.min (r_width_um footprint) (r_height_um footprint) <=? 0) ||
          negb (contains (bound_stock s) footprint)) (about "cutting sweep leaves stock bounds" operation_id);;
  refuse (existsb (rects_touch_or_overlap footprint) (bs_keep_out_zones s))
    (about "cutting sweep reaches setup keep-out zone" operation_id).

Definition require_point_in_stock (s : BoundSetup) (q : point) (operation_id : string) : result unit :=
  refuse (negb ((0 <=? fst q) && (fst q <=? bs_stock_width_um s) &&
                (0 <=? snd q) && (snd q <=? bs_stock_height_um s)))
    (about "tool centre leaves stock bounds" operation_id).

(** The box of a sweep between two points. *)
Definition swept_rect (start stop : point) (radius_um : Z) : Rect :=
  mkRect (Z.min (fst start) (fst stop) - radius_um) (Z.min (snd start) (snd stop) - radius_um)
    (Z.abs (fst stop - fst start) + 2 * radius_um) (Z.abs (snd stop - snd start) + 2 * radius_um).

Definition require_accuracy_expanded_segment_within_own_part (start stop : point) (effective_radius_um : Z)
    (o : CAMOperation) (s : BoundSetup) (outline : PartOutline) : result unit :=
  let local := rect_to_physical_stock (po_rect outline) (bs_side s) (bs_stock_height_um s) in
  allowed_edges ← declared_open_finished_part_edges o (bs_side s) local;
  let closed edge := bool_decide (edge ∉ allowed_edges) in
  refuse_op
    (closed "x_min" && (Z.min (fst start) (fst stop) - effective_radius_um <? r_x_um local) ||
     closed "x_max" && (right_um local <? Z.max (fst start) (fst stop) + effective_radius_um) ||
     closed "y_min" && (Z.min (snd start) (snd stop) - effective_radius_um <? r_y_um local) ||
     closed "y_max" && (top_um local <? Z.max (snd start) (snd stop) + effective_radius_um))
    "accuracy-expanded cutter sweep leaves its own finished part outline" o.

Definition on_sheet_of (s : BoundSetup) (outline : PartOutline) : bool :=
  bool_decide ((po_stock_id outline, po_sheet_index outline) = physical_sheet_of s).

Definition own_outlines (s : BoundSetup) (o : CAMOperation) (outlines : list PartOutline) : list PartOutline :=
  List.filter (fun outline => bool_decide (po_instance_id outline = op_instance_id o) && on_sheet_of s outline)
    outlines.

Definition is_other_part (s : BoundSetup) (o : CAMOperation) (outline : PartOutline) : bool :=
  negb (bool_decide (po_instance_id outline = op_instance_id o)) && on_sheet_of s outline.

Definition require_cut_segment_clear (s : BoundSetup) (start stop : point)
    (radius_um assembly_collision_radius_um process_accuracy_um : Z) (o : CAMOperation)
    (outlines : list PartOutline) : result unit :=
  let effective_radius_um := radius_um + process_accuracy_um in
  require_footprint_clear s (swept_rect start stop effective_radius_um) (op_operation_id o);;
  let assembly_swept := swept_rect start stop (assembly_collision_radius_um + process_accuracy_um) in
  refuse_op (existsb (rects_touch_or_overlap assembly_swept) (bs_keep_out_zones s))
    "tool assembly sweep reaches setup keep-out zone" o;;
  match own_outlines s o outlines with
  | [own] =>
      if is_release_contour o then Ok ()
      else require_accuracy_expanded_segment_within_own_part start stop effective_radius_um o s own
  | _ => Err (cam_error (about "operation has no unique own part outline" (op_operation_id o)))
  end;;
  check_all (fun outline =>
    if is_other_part s o outline then
      refuse (segment_radius_touches_rect (point_to_physical_stock start s) (point_to_physical_stock stop s)
                effective_radius_um (po_rect outline))
        (about "accuracy-expanded cutter sweep reaches another part instance" (op_operation_id o)
         +:+ " -> " +:+ po_instance_id outline)
    else Ok ()) outlines.

(** ** Canonical data of the source *)

Definition source_setup_json (s : Setup) : json :=
  JObj [("setup_id", JStr (su_setup_id s)); ("stock_id", JStr (su_stock_id s));
        ("material_id", JStr (su_material_id s)); ("material_version", JStr (su_material_version s));
        ("sheet_index", JInt (su_sheet_index s)); ("side", JStr (side_value (su_side s))); ("wcs", JStr (su_wcs s));
        ("origin", point_json (su_origin s)); ("stock_width_um", JInt (su_stock_width_um s));
        ("stock_height_um", JInt (su_stock_height_um s)); ("stock_thickness_um", JInt (su_stock_thickness_um s));
        ("safe_z_um", JInt (su_safe_z_um s)); ("reference_surface", JStr (su_reference_surface s));
        ("orientation", JStr (su_orientation s)); ("fixture", JStr (su_fixture s));
        ("keep_out_zones", JArr (map rect_json (su_keep_out_zones s)));
        ("tool_ids", JArr (map JStr (su_tool_ids s))); ("probe_method", JStr (su_probe_method s));
        ("operator_steps", JArr (map JStr (su_operator_steps s)))].

Definition source_operation_json (o : CAMOperation) : json :=
  JObj [("operation_id", JStr (op_operation_id o)); ("setup_id", JStr (op_setup_id o));
        ("part_id", JStr (op_part_id o)); ("instance_id", JStr (op_instance_id o));
        ("feature_id", JStr (op_feature_id o)); ("kind", JStr (operation_kind_value (op_kind o)));
        ("side", JStr (side_value (op_side o))); ("tool_id", JStr (op_tool_id o)); ("x_um", JInt (op_x_um o));
        ("y_um", JInt (op_y_um o)); ("depth_um", JInt (op_depth_um o)); ("diameter_um", json_opt (op_diameter_um o));
        ("width_um", json_opt (op_width_um o)); ("length_um", json_opt (op_length_um o));
        ("cutter_envelope_x_um", json_opt (op_cutter_envelope_x_um o));
        ("cutter_envelope_y_um", json_opt (op_cutter_envelope_y_um o));
        ("cutter_envelope_width_um", json_opt (op_cutter_envelope_width_um o));
        ("cutter_envelope_length_um", json_opt (op_cutter_envelope_length_um o));
        ("stepdown_um", json_opt (op_stepdown_um o)); ("stepover_ppm", json_opt (op_stepover_ppm o));
        ("through", JBool (op_through o)); ("source_rotation_90", JBool (op_source_rotation_90 o));
        ("compensation", text_json (op_compensation o)); ("holding_strategy", text_json (op_holding_strategy o));
        ("corner_strategy", text_json (op_corner_strategy o));
        ("corner_relief_radius_um", json_opt (op_corner_relief_radius_um o));
        ("open_end_reliefs", JArr (map JStr (op_open_end_reliefs o))); ("tolerance_um", JInt (op_tolerance_um o));
        ("fit_clearance_um", JInt (op_fit_clearance_um o))].

Definition source_document_json (d : OperationsDocument) : json :=
  JObj [("schema_version", JStr (od_schema_version d)); ("design_hash", JStr (od_design_hash d));
        ("machine_profile_id", JStr (od_machine_profile_id d));
        ("machine_profile_version", JStr (od_machine_profile_version d));
        ("setups", JArr (map source_setup_json (od_setups d)));
        ("operations", JArr (map source_operation_json (od_operations d))); ("mode", JStr (od_mode d));
        ("tool_catalog_version", JStr (od_tool_catalog_version d));
        ("tool_catalog_fingerprint", JStr (od_tool_catalog_fingerprint d));
        ("tools", JArr (map tool_json (od_tools d)))].

Definition source_machine_json (p : MachineProfile) : json :=
  JObj [("profile_id", JStr (mp_profile_id p)); ("name", JStr (mp_name p)); ("version", JStr (mp_version p));
        ("controller", JStr (mp_controller p)); ("work_width_um", JInt (mp_work_width_um p));
        ("work_height_um", JInt (mp_work_height_um p)); ("work_z_um", JInt (mp_work_z_um p));
        ("safe_z_um", JInt (mp_safe_z_um p)); ("max_spindle_rpm", JInt (mp_max_spindle_rpm p));
        ("supported_operations", JArr (map (fun k => JStr (operation_kind_value k)) (mp_supported_operations p)));
        ("tools", JArr (map tool_json (mp_tools p))); ("tool_library_version", JStr (mp_tool_library_version p));
        ("supported_sides", JArr (map (fun s => JStr (side_value s)) (mp_supported_sides p)));
        ("can_flip_stock", JBool (mp_can_flip_stock p)); ("edge_aggregate", JBool (mp_edge_aggregate p));
        ("wcs_codes", JArr (map JStr (mp_wcs_codes p)));
        ("keep_out_zones", JArr (map rect_json (mp_keep_out_zones p))); ("accuracy_um", JInt (mp_accuracy_um p))].

(** ** Source binding *)

(** [_unique_map]: the dictionary, or the first identity met twice. *)
Definition unique_map {A} (label : string) (key : A -> string) (values : list A) : result (gmap string A) :=
  foldM (fun m value =>
    refuse (is_some (m !! key value)) ("duplicate " +:+ label +:+ ": " +:+ key value);;
    Ok (<[key value := value]> m)) ∅ values.

Definition source_geometry (s : Setup) : list string * Side * list Z :=
  ([su_stock_id s; su_material_id s; su_material_version s], su_side s,
   [su_sheet_index s; su_stock_width_um s; su_stock_height_um s; su_stock_thickness_um s]).

Definition accepted_geometry (s : BoundSetup) : list string * Side * list Z :=
  ([bs_stock_id s; bs_source_material_id s; bs_source_material_version s], bs_side s,
   [bs_sheet_index s; bs_stock_width_um s; bs_stock_height_um s; bs_stock_thickness_um s]).

Definition setup_operations (d : OperationsDocument) (setup_id : string) : list CAMOperation :=
  List.filter (fun o => bool_decide (op_setup_id o = setup_id)) (od_operations d).

(** One pass of the loop over the source setups. *)
Definition check_bound_setup (d : OperationsDocument) (bound_setup_by_id : gmap string BoundSetup) (s : Setup)
    : result unit :=
  let id := su_setup_id s in
  bound ← of_option (bound_setup_by_id !! id) (KeyError id);
  refuse (negb (bool_decide (source_geometry s = accepted_geometry bound)))
    (about "bound setup differs from source geometry" id);;
  refuse (negb (bool_decide (bs_orientation bound = su_orientation s)))
    (about "production setup orientation differs from source XY transform" id);;
  refuse (negb (bool_decide (bs_source_setup_sha256 bound = content_hash (source_setup_json s))))
    (about "bound setup source fingerprint mismatch" id);;
  refuse (negb (py_subset (su_keep_out_zones s) (bs_keep_out_zones bound)))
    (about "bound setup omits a source keep-out zone" id);;
  let setup_has_through_cut := existsb op_through (setup_operations d id) in
  refuse (setup_has_through_cut && (bs_through_cut_allowance_um bound <=? 0))
    (about "through-cut setup lacks an exact spoilboard allowance" id);;
  refuse (negb setup_has_through_cut && negb (bs_through_cut_allowance_um bound =? 0))
    (about "setup without through cuts declares a spoilboard allowance" id).

Definition check_bound_tool (binding_by_source_id : gmap string ProductionToolBinding) (t : ToolSpec) : result unit :=
  let id := tl_tool_id t in
  binding ← of_option (binding_by_source_id !! id) (KeyError id);
  refuse (negb (bool_decide (tb_source_tool_version binding = tl_version t))) (about "source tool version mismatch" id);;
  refuse (negb (bool_decide (tb_source_tool_sha256 binding = content_hash (tool_json t))))
    (about "production tool source fingerprint mismatch" id);;
  refuse (negb (tb_effective_diameter_um binding mod 2 =? 0))
    (about "production CAM v1 requires an even cutter diameter" id).

Definition check_setup_tools (d : OperationsDocument) (s : Setup) : result unit :=
  refuse (negb (distinct (su_tool_ids s))) (about "source setup has duplicate tools" (su_setup_id s));;
  refuse (negb (py_set_eq (su_tool_ids s) (map op_tool_id (setup_operations d (su_setup_id s)))))
    (about "source setup tool list mismatch" (su_setup_id s)).

(** [except CAMValidationError as exc: raise ProductionCAMError(...)] *)
Definition wrap_cam_error (m : result unit) : result unit :=
  match m with
  | Err (CAMValidationError message) => Err (cam_error ("source operations document is invalid: " +:+ message))
  | _ => m
  end.

(** The dictionaries [_validate_source_binding] returns. *)
Record source_binding := mkBinding {
  setup_by_id : gmap string Setup;
  bound_setup_by_id : gmap string BoundSetup;
  tool_by_id : gmap string ToolSpec;
  binding_by_source_id : gmap string ProductionToolBinding }.

Definition check_source_machine (d : OperationsDocument) (c : ProductionExecutionContext) : result unit :=
  refuse (negb (bool_decide (od_machine_profile_id d = pe_source_machine_profile_id c)) ||
          negb (bool_decide (od_machine_profile_version d = pe_source_machine_profile_version c)))
    "source validation-machine profile binding differs";;
  machine ← of_option (resolve_reference_machine (od_machine_profile_id d))
              (cam_error "source validation-machine profile is not trusted");
  refuse (negb (bool_decide (content_hash (source_machine_json machine) = pe_source_machine_profile_fingerprint c)))
    "source validation-machine profile fingerprint differs";;
  wrap_cam_error (require_valid_operations d (Some machine)).

Definition validate_source_binding (d : OperationsDocument) (c : ProductionExecutionContext)
    : result source_binding :=
  refuse (negb (bool_decide (od_schema_version d = OPERATIONS_SCHEMA_VERSION)))
    "production planning received an unsupported operations schema";;
  refuse (negb (bool_decide (od_mode d = "VALIDATION")))
    "production planning only accepts the validation source contract";;
  refuse (negb (design_hash_ok (od_design_hash d))) "source design_hash must be a lowercase SHA-256 digest";;
  check_source_machine d c;;
  refuse (bool_decide (length (od_setups d) = 0%nat) || bool_decide (length (od_operations d) = 0%nat))
    "source document requires setups and operations";;
  setups ← unique_map "source setup" su_setup_id (od_setups d);
  bound_setups ← unique_map "bound setup" bs_setup_id (pe_setups c);
  refuse (negb (py_set_eq (map su_setup_id (od_setups d)) (map bs_setup_id (pe_setups c))))
    "production setup binding must exactly cover source setups";;
  check_all (check_bound_setup d bound_setups) (od_setups d);;
  tools ← unique_map "source tool" tl_tool_id (od_tools d);
  bindings ← unique_map "production source-tool binding" tb_source_tool_id (pe_tool_bindings c);
  let operation_tool_ids := map op_tool_id (od_operations d) in
  refuse (negb (py_set_eq (map tl_tool_id (od_tools d)) operation_tool_ids))
    "source tool snapshot must exactly match operation tools";;
  refuse (negb (py_set_eq operation_tool_ids (map tb_source_tool_id (pe_tool_bindings c))))
    "production source-tool bindings must exactly cover every operation tool";;
  check_all (check_bound_tool bindings) (od_tools d);;
  refuse (negb (distinct (map op_operation_id (od_operations d)))) "source operation IDs must be unique";;
  check_all (check_setup_tools d) (od_setups d);;
  Ok (mkBinding setups bound_setups tools bindings).

(** ** Finished outlines *)

Definition instance_binding : Type := string * bool * string * Z.

Record outline_state := mkOutlines {
  release_by_instance : gmap string CAMOperation;
  instance_bindings : gmap string instance_binding }.

(** One pass of the loop over the operations. *)
Definition bind_instance (setups : gmap string Setup) (st : outline_state) (o : CAMOperation)
    : result outline_state :=
  let id := op_instance_id o in
  s ← of_option (setups !! op_setup_id o) (KeyError (op_setup_id o));
  let binding := (op_part_id o, op_source_rotation_90 o, su_stock_id s, su_sheet_index s) in
  let previous := match instance_bindings st !! id with Some b => b | None => binding end in
  refuse (negb (bool_decide (previous = binding)))
    (about "source instance changes part, rotation or physical sheet" id);;
  let bindings := <[id := previous]> (instance_bindings st) in
  if negb (is_release_contour o) then Ok (mkOutlines (release_by_instance st) bindings) else
  refuse (is_some (release_by_instance st !! id)) (about "source instance has multiple finished outlines" id);;
  Ok (mkOutlines (<[id := o]> (release_by_instance st)) bindings).

Definition outline_of_release (setups : gmap string Setup) (o : CAMOperation) : result PartOutline :=
  s ← of_option (setups !! op_setup_id o) (KeyError (op_setup_id o));
  local ← of_option (nominal_envelope o) (cam_error (about "finished outline lacks dimensions" (op_operation_id o)));
  Ok (mkOutline (su_stock_id s) (su_sheet_index s) (op_instance_id o) (op_part_id o) (op_source_rotation_90 o)
        (rect_to_physical_stock local (su_side s) (su_stock_height_um s))).

Definition outline_cmp : PartOutline -> PartOutline -> comparison :=
  cmp_then (cmp_on po_stock_id String.compare)
    (cmp_then (cmp_on po_sheet_index Z.compare) (cmp_on po_instance_id String.compare)).

Definition outline_sheet (outline : PartOutline) : string * Z := (po_stock_id outline, po_sheet_index outline).

(** No two outlines of one sheet touch. *)
Fixpoint check_outlines_apart (outlines : list PartOutline) : result unit :=
  match outlines with
  | [] => Ok ()
  | first :: rest =>
      check_all (fun second =>
        refuse (bool_decide (outline_sheet first = outline_sheet second) &&
                rects_touch_or_overlap (po_rect first) (po_rect second))
          ("finished part outlines touch or overlap on physical sheet: " +:+ po_instance_id first +:+ ", "
           +:+ po_instance_id second)) rest;;
      check_outlines_apart rest
  end.

Definition keys_of {A} (m : gmap string A) : list string := map fst (map_to_list m).

Definition bind_part_outlines (d : OperationsDocument) (setups : gmap string Setup)
    : result (list PartOutline * gmap string PartOutline) :=
  st ← foldM (bind_instance setups) (mkOutlines ∅ ∅) (od_operations d);
  let released := keys_of (release_by_instance st) in
  let bound := keys_of (instance_bindings st) in
  refuse (negb (py_set_eq released bound))
    ("every production instance requires exactly one outside/through finished-outline contour; missing: "
     +:+ str_join ", " (sort_strings (List.filter (fun id => bool_decide (id ∉ released)) bound)));;
  outlines ← traverse (fun id =>
               o ← of_option (release_by_instance st !! id) (KeyError id);
               outline_of_release setups o) (sort_strings released);
  let canonical := sort_by outline_cmp outlines in
  check_outlines_apart canonical;;
  Ok (canonical, dict_of po_instance_id canonical).

Definition validate_part_outline_binding (o : CAMOperation) (s : Setup) (outline_by_instance : gmap string PartOutline)
    : result unit :=
  outline ← of_option (outline_by_instance !! op_instance_id o) (KeyError (op_instance_id o));
  refuse_op (negb (bool_decide (op_part_id o = po_part_id outline)) ||
             negb (bool_decide (op_source_rotation_90 o = po_source_rotation_90 outline)) ||
             negb (bool_decide ((su_stock_id s, su_sheet_index s) = outline_sheet outline)))
    "operation differs from its exact part-instance outline" o;;
  nominal ← operation_nominal_footprint o;
  let physical_nominal := rect_to_physical_stock nominal (su_side s) (su_stock_height_um s) in
  refuse_op (negb (contains (po_rect outline) physical_nominal))
    "operation nominal geometry leaves its part-instance outline" o;;
  refuse_op (is_release_contour o && negb (bool_decide (physical_nominal = po_rect outline)))
    "release contour differs from its part-instance outline" o;;
  if bool_decide (op_open_end_reliefs o = []) then Ok () else
  let local_outline := rect_to_physical_stock (po_rect outline) (su_side s) (su_stock_height_um s) in
  allowed_edges ← declared_open_finished_part_edges o (su_side s) local_outline;
  refuse_op (negb (bool_decide (length allowed_edges = length (remove_dups (op_open_end_reliefs o)))))
    "every declared open end must be a groove at its finished part boundary" o.

(** ** The contract of an operation with its setup, tool and recipe *)

Section Contract.
Context (o : CAMOperation) (s : BoundSetup) (binding : ProductionToolBinding) (recipe : CuttingRecipe).

Definition radius_of_binding : Z := tb_effective_diameter_um binding / 2.

Definition target_depth_um : result Z :=
  refuse_op (op_depth_um o <=? 0) "operation depth must be positive" o;;
  if op_through o then
    refuse_op (negb ((bs_stock_thickness_um s <=? op_depth_um o) &&
                     (op_depth_um o <=? bs_stock_thickness_um s + MAX_THROUGH_OVERTRAVEL_UM)))
      "source through depth is unsafe" o;;
    refuse_op (cr_through_overtravel_um recipe <=? 0) "through operation lacks positive recipe overtravel" o;;
    Ok (bs_stock_thickness_um s + cr_through_overtravel_um recipe)
  else
    refuse_op (bs_stock_thickness_um s <=? op_depth_um o) "non-through operation reaches stock bottom" o;;
    Ok (op_depth_um o).

Definition require_declared_cutter_envelope (expected : Rect) : result unit :=
  match cutter_envelope o with
  | None => refuse_op true "operation lacks an exact declared cutter envelope" o
  | Some supplied =>
      refuse_op (negb (bool_decide (supplied = expected)))
        "operation declared cutter envelope differs from exact geometry" o
  end.

Definition validate_corner_contract : result unit :=
  if negb (has_corner_contract o) then Ok () else
  refuse_op (negb (is_dogbone (op_corner_strategy o))) "unsupported corner strategy" o;;
  refuse_op (negb (bool_decide (op_corner_relief_radius_um o = Some radius_of_binding)))
    "dogbone radius/tool mismatch" o;;
  refuse_op (negb (distinct (op_open_end_reliefs o)) ||
             negb (py_subset (op_open_end_reliefs o) ["u_min"; "u_max"; "v_min"; "v_max"]))
    "invalid dogbone open ends" o;;
  expected ← dogbone_envelope o radius_of_binding;
  match cutter_envelope o with
  | None => refuse_op true "dogbone operation lacks an exact cutter envelope" o
  | Some supplied => refuse_op (negb (bool_decide (supplied = expected))) "dogbone cutter envelope mismatch" o
  end.

Definition validate_drill_contract : result unit :=
  refuse_op (op_through o)
    "through drill requires an exact point-geometry and full-diameter breakthrough model" o;;
  diameter ← of_option (op_diameter_um o) (cam_error (about "drill diameter/tool mismatch" (op_operation_id o)));
  let deviation := Z.abs (diameter - tb_effective_diameter_um binding) in
  refuse_op (cr_diameter_tolerance_um recipe <? deviation) "drill diameter/tool mismatch" o;;
  refuse_op (cr_accepted_tolerance_um recipe <? deviation + cr_process_accuracy_um recipe)
    "drill diameter/tool mismatch plus process uncertainty exceeds accepted tolerance" o;;
  refuse_op (is_some (op_width_um o) || is_some (op_length_um o)) "drill operation contains area geometry" o;;
  refuse_op (is_some (op_cutter_envelope_x_um o) || is_some (op_cutter_envelope_y_um o) ||
             is_some (op_cutter_envelope_width_um o) || is_some (op_cutter_envelope_length_um o))
    "drill operation contains an area cutter envelope" o;;
  refuse_op (is_some (op_compensation o) || has_corner_contract o) "drill operation contains unsupported geometry" o;;
  refuse_op (negb (bool_decide (tb_geometry binding = DRILL_GEOMETRY)) || negb (tb_center_cutting binding) ||
             negb (tb_drill_point_length_um binding =? 0))
    "drill operation requires a center-cutting, zero-point-length production drill" o;;
  require_footprint_clear s
    (mkRect (op_x_um o - radius_of_binding) (op_y_um o - radius_of_binding)
       (tb_effective_diameter_um binding) (tb_effective_diameter_um binding)) (op_operation_id o).

Definition end_mill : bool := bool_decide (tb_geometry binding = FLAT_END_MILL) && tb_center_cutting binding.

Definition validate_area_contract : result unit :=
  refuse_op (negb end_mill) "area operation requires a center-cutting end mill" o;;
  nominal ← of_option (nominal_envelope o)
              (cam_error (about "area operation requires rectangular dimensions" (op_operation_id o)));
  refuse_op (is_some (op_diameter_um o)) "diameter-based/circular pocket shape is unsupported" o;;
  refuse_op (Z.min (r_width_um nominal) (r_height_um nominal) <=? tb_effective_diameter_um binding)
    "area rectangle must exceed cutter diameter" o;;
  refuse_op (op_through o || is_some (op_compensation o)) "area operation has unsupported through/compensation" o;;
  refuse_op (tb_effective_diameter_um binding <? stepover_um binding recipe + 2 * cr_process_accuracy_um recipe)
    "recipe stepover exceeds process-accuracy-adjusted cutter coverage" o;;
  require_footprint_clear s nominal (op_operation_id o);;
  validate_corner_contract;;
  expected_envelope ← (if has_corner_contract o then dogbone_envelope o radius_of_binding else Ok nominal);
  require_declared_cutter_envelope expected_envelope.

Definition tab_centreline_width_um : Z := cr_tab_width_um recipe + tb_effective_diameter_um binding.

Definition validate_tabs (nominal : Rect) : result unit :=
  refuse_op (bs_stock_thickness_um s <=? cr_tab_height_um recipe) "tab height reaches stock top" o;;
  refuse_op (cr_tab_height_um recipe <=? cr_process_accuracy_um recipe)
    "recipe uncertainty consumes the holding-tab height" o;;
  refuse_op (cr_tab_width_um recipe <=? 2 * cr_process_accuracy_um recipe)
    "recipe uncertainty consumes the holding-tab width" o;;
  refuse_op (Z.min (r_width_um nominal) (r_height_um nominal)
               <=? tab_centreline_width_um + 2 * tb_effective_diameter_um binding)
    "contour edge is too short for four safe tabs" o.

Definition validate_contour_contract : result unit :=
  refuse_op (negb end_mill) "contour requires a center-cutting end mill" o;;
  nominal ← of_option (nominal_envelope o)
              (cam_error (about "contour requires rectangular dimensions" (op_operation_id o)));
  refuse_op (is_some (op_diameter_um o) || has_corner_contract o) "contour contains unsupported shape metadata" o;;
  refuse_op (negb (bool_decide (op_compensation o ∈ [Some "INSIDE"; Some "OUTSIDE"])))
    "contour requires inside/outside compensation" o;;
  let outside := bool_decide (op_compensation o = Some "OUTSIDE") in
  refuse_op (op_through o && negb outside) "through inner contours lack a slug-holding contract" o;;
  let radius_um := radius_of_binding in
  refuse_op (Z.min (r_width_um nominal) (r_height_um nominal) <=? 2 * radius_um)
    "contour is too small for cutter compensation" o;;
  let actual_sweep :=
    if outside
    then mkRect (r_x_um nominal - 2 * radius_um) (r_y_um nominal - 2 * radius_um)
           (r_width_um nominal + 4 * radius_um) (r_height_um nominal + 4 * radius_um)
    else nominal in
  require_declared_cutter_envelope nominal;;
  require_footprint_clear s actual_sweep (op_operation_id o);;
  (if outside then
     interpolation_error_um ← outside_contour_interpolation_error_um radius_um;
     refuse (cr_process_accuracy_um recipe <? interpolation_error_um)
       (about "recipe process accuracy omits outside-contour interpolation error" (op_operation_id o)
        +:+ " requires at least " +:+ str_of_Z interpolation_error_um +:+ " um")
   else Ok ());;
  if is_release_contour o then validate_tabs nominal else Ok ().

Definition validate_operation_contract (tool : ToolSpec) : result unit :=
  refuse_op (bool_decide (op_kind o ∉ SUPPORTED_KINDS)) "unsupported production operation" o;;
  refuse_op (negb (bool_decide (op_setup_id o = bs_setup_id s)) || negb (bool_decide (op_side o = bs_side s)))
    "operation/setup binding mismatch" o;;
  refuse_op (negb (bool_decide (op_tool_id o = tl_tool_id tool)) ||
             negb (bool_decide (op_tool_id o = tb_source_tool_id binding))) "operation/tool binding mismatch" o;;
  refuse_op (bool_decide (op_kind o ∉ tl_supported_operations tool)) "source tool does not support operation" o;;
  refuse_op (negb (bool_decide (cr_operation_kind recipe = op_kind o))) "recipe operation mismatch" o;;
  refuse_op (negb (bool_decide (cr_tool_id recipe = tb_tool_id binding)) ||
             negb (bool_decide (cr_tool_version recipe = tb_tool_version binding)))
    "recipe production-tool mismatch" o;;
  refuse_op (bs_safe_z_um s <=? cr_approach_clearance_um recipe) "recipe approach clearance reaches safe Z" o;;
  refuse_op (bs_minimum_rapid_clearance_um s <=? cr_process_accuracy_um recipe)
    "recipe uncertainty exhausts minimum rapid clearance" o;;
  refuse_op ((op_tolerance_um o <? 0) || (op_fit_clearance_um o <? 0)) "negative tolerance or fit clearance" o;;
  refuse_op (negb (op_tolerance_um o =? 0) && negb (cr_accepted_tolerance_um recipe =? op_tolerance_um o))
    "recipe does not accept the operation tolerance exactly" o;;
  refuse_op (negb (op_fit_clearance_um o =? 0) &&
             (op_fit_clearance_um o <=? 2 * (cr_accepted_tolerance_um recipe + cr_process_accuracy_um recipe)))
    "production fit-clearance budget is exhausted" o;;
  target_depth ← target_depth_um;
  let uncertainty_depth_um := target_depth + cr_process_accuracy_um recipe in
  refuse_op (tb_cutting_length_um binding <? uncertainty_depth_um) "operation exceeds tool cutting length" o;;
  refuse_op (tb_measured_stickout_um binding <? uncertainty_depth_um + tb_minimum_holder_clearance_um binding)
    "operation violates minimum tool-holder clearance" o;;
  refuse_op (op_through o && (cr_through_overtravel_um recipe <=? cr_process_accuracy_um recipe))
    "through-cut overtravel must exceed worst-case process uncertainty" o;;
  refuse_op (op_through o && (bs_through_cut_allowance_um s
                                <? cr_through_overtravel_um recipe + cr_process_accuracy_um recipe))
    "recipe overtravel and uncertainty exceed verified spoilboard allowance" o;;
  refuse_op (negb (op_through o) && (bs_stock_thickness_um s <=? uncertainty_depth_um))
    "non-through operation uncertainty reaches stock bottom" o;;
  refuse (bool_decide (op_kind o = OP_COUNTERSINK))
    "production countersink requires an exact tip/profile depth model";;
  if bool_decide (op_kind o = OP_DRILL) then validate_drill_contract
  else if is_area (op_kind o) then validate_area_contract
  else validate_contour_contract.
End Contract.
