(* ===== verification/Toolpaths.v ===== *)
(** * Production toolpaths: the moves

    The program builder of [cam/src/custombuild_cam/toolpaths.py], the moves of
    a drill, an area and a contour, and [generate_production_toolpaths]. *)

From S2P Require Import Prelude Text Identity ManufacturingModel Machining CamValidation ProductionModel ToolpathGeometry ToolpathContracts.

Definition moves_so_far : Type := list ProductionMove.

(** Lists of calls on the builder: the moves so far are threaded through them. *)
Definition each {A} (f : A -> moves_so_far -> result moves_so_far) (l : list A) (moves : moves_so_far)
    : result moves_so_far :=
  foldM (fun moves x => f x moves) moves l.

Section Builder.
Context (context : ProductionExecutionContext) (setup : BoundSetup) (tool : ProductionToolBinding).
Context (part_outlines : list PartOutline).

(** The machine position of a move with tool-length compensation, axis by axis. *)
Definition machine_endpoint (m : ProductionMove) : list Z :=
  [p2_x_um (bs_machine_wcs_origin setup) + mv_x_um m + tb_expected_length_offset_x_um tool;
   p2_y_um (bs_machine_wcs_origin setup) + mv_y_um m + tb_expected_length_offset_y_um tool;
   bs_machine_wcs_z0_um setup + mv_z_um m + tb_expected_length_offset_z_um tool].

Definition machine_bounds : list (string * Z * Z) :=
  [("X", pe_machine_x_min_um context, pe_machine_x_max_um context);
   ("Y", pe_machine_y_min_um context, pe_machine_y_max_um context);
   ("Z", pe_machine_z_min_um context, pe_machine_z_max_um context)].

Definition outside_bounds (e : Z * (string * Z * Z)) : bool :=
  let '(endpoint, (_, minimum, maximum)) := e in negb ((minimum <=? endpoint) && (endpoint <=? maximum)).

Definition require_tool_length_compensated_endpoint_within_machine (m : ProductionMove) : result unit :=
  let outside_axes := List.filter outside_bounds (zip (machine_endpoint m) machine_bounds) in
  refuse (negb (bool_decide (length outside_axes = 0%nat)))
    ("tool-length-compensated programmed endpoint exceeds absolute machine "
     +:+ str_join "/" (map (fun e => fst (fst (snd e))) outside_axes) +:+ " bounds: " +:+ mv_operation_id m).

Section Operation.
Context (o : CAMOperation) (recipe : CuttingRecipe).

Definition add (pass_index : Z) (kind : ProductionMoveKind) (role : ProductionMoveRole) (q : point) (z_um : Z)
    (feed : option Z) (moves : moves_so_far) : result moves_so_far :=
  move ← new_ProductionMove
           (mkMove (Z.of_nat (length moves) + 1) (op_operation_id o) pass_index kind role (fst q) (snd q) z_um feed);
  require_tool_length_compensated_endpoint_within_machine move;;
  Ok (moves ++ [move]).

Definition position (pass_index : Z) (q : point) (moves : moves_so_far) : result moves_so_far :=
  require_point_in_stock setup q (op_operation_id o);;
  moves ← add pass_index RAPID POSITION q (bs_safe_z_um setup) None moves;
  add pass_index RAPID APPROACH q (cr_approach_clearance_um recipe) None moves.

Definition move_xy (m : ProductionMove) : point := (mv_x_um m, mv_y_um m).

Definition cut (pass_index : Z) (role : ProductionMoveRole) (q : point) (z_um feed : Z) (moves : moves_so_far)
    : result moves_so_far :=
  previous ← of_option (last moves) (IndexError "list index out of range");
  require_cut_segment_clear setup (move_xy previous) q (radius_of_binding tool) (tb_assembly_collision_radius_um tool)
    (cr_process_accuracy_um recipe) o part_outlines;;
  add pass_index LINEAR role q z_um (Some feed) moves.

Definition retract (pass_index : Z) (q : point) (moves : moves_so_far) : result moves_so_far :=
  add pass_index RAPID RETRACT q (bs_safe_z_um setup) None moves.

Definition plunge (pass_index : Z) (q : point) (z_um : Z) (moves : moves_so_far) : result moves_so_far :=
  cut pass_index CUT q z_um (cr_plunge_um_min recipe) moves.

Definition operation_point : point := (op_x_um o, op_y_um o).

(** ** Drilling in pecks *)

Definition generate_peck_moves (moves : moves_so_far) : result moves_so_far :=
  target_depth ← target_depth_um o setup recipe;
  levels ← depth_levels_um target_depth (cr_peck_depth_um recipe);
  let count := Z.of_nat (length levels) in
  moves ← position 1 operation_point moves;
  moves ← each (fun pl moves =>
            moves ← plunge (fst pl) operation_point (snd pl) moves;
            if fst pl =? count then Ok moves
            else add (fst pl) RAPID PECK_RETRACT operation_point (cr_approach_clearance_um recipe) None moves)
            (enumerate1 levels) moves;
  retract count operation_point moves.

(** ** Areas *)

(** The rest of one raster pass after its first plunge. *)
Definition raster_rest (pass_index z_um : Z) (raster : list (point * point)) (moves : moves_so_far)
    : result moves_so_far :=
  each (fun line moves =>
    moves ← (if fst line =? 0 then Ok moves
             else cut pass_index CUT (fst (snd line)) z_um (cr_feed_um_min recipe) moves);
    cut pass_index CUT (snd (snd line)) z_um (cr_feed_um_min recipe) moves)
    (zip (seqZ 0 (Z.of_nat (length raster))) raster) moves.

(** The boundary of the cutter centre, without moves to where the cutter is. *)
Fixpoint boundary_moves (pass_index z_um : Z) (boundary : list point) (here : point) (moves : moves_so_far)
    : result (moves_so_far * point) :=
  match boundary with
  | [] => Ok (moves, here)
  | q :: rest =>
      if bool_decide (q = here) then boundary_moves pass_index z_um rest here moves
      else
        moves ← cut pass_index CUT q z_um (cr_feed_um_min recipe) moves;
        boundary_moves pass_index z_um rest q moves
  end.

Definition boundary_of (bounds : Z * Z * Z * Z) : list point :=
  let '(left_um, right_um, bottom_um, top_um) := bounds in
  [(left_um, bottom_um); (right_um, bottom_um); (right_um, top_um); (left_um, top_um); (left_um, bottom_um)].

Definition raster_pass (bounds : Z * Z * Z * Z) (raster : list (point * point)) (relief_centres : list point)
    (level : Z * Z) (moves : moves_so_far) : result moves_so_far :=
  let '(pass_index, depth_z_um) := level in
  first ← of_option (head raster) (IndexError "tuple index out of range");
  moves ← position pass_index (fst first) moves;
  moves ← plunge pass_index (fst first) depth_z_um moves;
  moves ← raster_rest pass_index depth_z_um raster moves;
  final ← of_option (last raster) (IndexError "tuple index out of range");
  swept ← boundary_moves pass_index depth_z_um (boundary_of bounds) (snd final) moves;
  moves ← retract pass_index (snd swept) (fst swept);
  each (fun relief moves =>
    moves ← position pass_index relief moves;
    moves ← plunge pass_index relief depth_z_um moves;
    retract pass_index relief moves) relief_centres moves.

Definition generate_raster_moves (moves : moves_so_far) : result moves_so_far :=
  asserted_size o;;
  bounds ← area_raster_bounds o (radius_of_binding tool);
  refuse_op (stepover_um tool recipe <=? 0) "recipe stepover rounds to zero" o;;
  let '(left_um, right_um, bottom_um, top_um) := bounds in
  raster ← raster_lines left_um right_um bottom_um top_um (stepover_um tool recipe);
  relief_centres ← dogbone_centres o;
  target_depth ← target_depth_um o setup recipe;
  levels ← depth_levels_um target_depth (cr_stepdown_um recipe);
  each (raster_pass bounds raster relief_centres) (enumerate1 levels) moves.

(** ** Contours *)

Definition tab_floor_z_um : Z := - (bs_stock_thickness_um setup - cr_tab_height_um recipe).

Definition contour_path (nominal : Rect) (depth_z_um : Z) : list path_point :=
  let tabs_active := is_release_contour o && (depth_z_um <? tab_floor_z_um) in
  if bool_decide (op_compensation o = Some "OUTSIDE")
  then outside_contour_path nominal (radius_of_binding tool) depth_z_um
         (if tabs_active then Some tab_floor_z_um else None) (tab_centreline_width_um tool recipe)
  else inside_contour_path nominal (radius_of_binding tool) depth_z_um.

(** A point of the path: the plunge feed when the depth changes. *)
Definition follow (pass_index : Z) (p : path_point) (moves : moves_so_far) : result moves_so_far :=
  let '(x_um, y_um, z_um, role) := p in
  previous ← of_option (last moves) (IndexError "list index out of range");
  cut pass_index role (x_um, y_um) z_um
    (if negb (z_um =? mv_z_um previous) then cr_plunge_um_min recipe else cr_feed_um_min recipe) moves.

Definition contour_pass (nominal : Rect) (level : Z * Z) (moves : moves_so_far) : result moves_so_far :=
  let '(pass_index, depth_z_um) := level in
  let path := contour_path nominal depth_z_um in
  start ← of_option (head path) (IndexError "tuple index out of range");
  moves ← position pass_index (path_xy start) moves;
  moves ← plunge pass_index (path_xy start) depth_z_um moves;
  moves ← each (follow pass_index) (tail path) moves;
  stop ← of_option (last path) (IndexError "tuple index out of range");
  retract pass_index (path_xy stop) moves.

Definition generate_contour_moves (moves : moves_so_far) : result moves_so_far :=
  size ← asserted_size o;
  let nominal := mkRect (op_x_um o) (op_y_um o) (fst size) (snd size) in
  target_depth ← target_depth_um o setup recipe;
  levels ← depth_levels_um target_depth (cr_stepdown_um recipe);
  each (contour_pass nominal) (enumerate1 levels) moves.

Definition generate_operation_moves (moves : moves_so_far) : result moves_so_far :=
  if is_drilling (op_kind o) then generate_peck_moves moves
  else if is_area (op_kind o) then generate_raster_moves moves
  else generate_contour_moves moves.
End Operation.
End Builder.

(** ** Programs *)

(** An operation with the recipe it is cut by. *)
Definition planned : Type := CAMOperation * CuttingRecipe.
Definition planned_id (p : planned) : string := op_operation_id (fst p).

(** Setup, tool, spindle speed, and whether parts are released. *)
Definition group_key : Type := string * string * Z * bool.

Section Generate.
Context (document : OperationsDocument) (context : ProductionExecutionContext).

(** [recipe_by_key]: the last recipe with the key. *)
Definition recipe_by_key (key : recipe_key) : option CuttingRecipe :=
  last (filter (fun r => recipe_key_of r = key) (pe_recipes context)).

Section Bound.
Context (b : source_binding) (outline_by_instance : gmap string PartOutline).

(** One pass of the loop that finds the recipes. *)
Definition plan_operation (o : CAMOperation) : result planned :=
  refuse_op (bool_decide (op_kind o ∉ SUPPORTED_KINDS)) "unsupported production operation" o;;
  let unbound kind := cam_error (about ("operation references an unbound " +:+ kind) (op_operation_id o)) in
  setup ← of_option (setup_by_id b !! op_setup_id o) (unbound "setup");
  bound_setup ← of_option (bound_setup_by_id b !! op_setup_id o) (unbound "setup");
  tool ← of_option (tool_by_id b !! op_tool_id o) (unbound "tool");
  binding ← of_option (binding_by_source_id b !! op_tool_id o) (unbound "tool");
  validate_part_outline_binding o setup outline_by_instance;;
  recipe ← of_option
    (recipe_by_key (bs_material_id bound_setup, bs_material_version bound_setup, tb_tool_id binding,
                    tb_tool_version binding, op_kind o))
    (cam_error (about "operation has no exact material/tool/kind recipe" (op_operation_id o)));
  validate_operation_contract o bound_setup binding recipe tool;;
  Ok (o, recipe).

Definition group_key_of (p : planned) : group_key :=
  (op_setup_id (fst p), op_tool_id (fst p), cr_spindle_rpm (snd p), is_release_contour (fst p)).

(** [setup_order[setup_id]]: the position among the setups of the document. *)
Definition setup_order (setup_id : string) : nat :=
  match list_find (fun s => su_setup_id s = setup_id) (od_setups document) with Some (i, _) => i | None => 0%nat end.

Definition group_cmp : group_key -> group_key -> comparison :=
  cmp_then (cmp_on (fun k : group_key => setup_order (fst (fst (fst k)))) Nat.compare)
    (cmp_then (cmp_on (fun k : group_key => snd k) cmp_bool)
      (cmp_then (cmp_on (fun k : group_key => snd (fst (fst k))) String.compare)
        (cmp_on (fun k : group_key => snd (fst k)) Z.compare))).

(** The keys of the groups in the order they are met first. *)
Definition first_met (l : list group_key) : list group_key := rev (remove_dups (rev l)).

Definition group_keys (plan : list planned) : list group_key :=
  sort_by group_cmp (first_met (map group_key_of plan)).

(** [_require_safe_physical_sheet_order] *)
Definition check_sheet_order (released_sheets : list (string * Z)) (k : group_key) : result (list (string * Z)) :=
  let '(setup_id, _, _, release_phase) := k in
  setup ← of_option (dict_of su_setup_id (od_setups document) !! setup_id) (KeyError setup_id);
  let physical_sheet := (su_stock_id setup, su_sheet_index setup) in
  refuse (bool_decide (physical_sheet ∈ released_sheets))
    ("a program group follows a release contour on physical sheet " +:+ su_stock_id setup +:+ ":"
     +:+ str_of_Z (su_sheet_index setup));;
  Ok (if (release_phase : bool) then physical_sheet :: released_sheets else released_sheets).

Definition require_safe_physical_sheet_order (keys : list group_key) : result unit :=
  foldM check_sheet_order [] keys;; Ok ().

Definition program_operation_cmp : planned -> planned -> comparison :=
  cmp_then (cmp_on (fun p : planned => bool_decide (op_kind (fst p) = OP_CONTOUR)) cmp_bool)
    (cmp_then (cmp_on (fun p : planned => operation_kind_value (op_kind (fst p))) String.compare)
      (cmp_on planned_id String.compare)).

(** The operations of a program in their order. *)
Definition group_operations (plan : list planned) (k : group_key) : list planned :=
  sort_by program_operation_cmp (filter (fun p => group_key_of p = k) plan).

Definition program_moves (part_outlines : list PartOutline) (setup : BoundSetup) (tool : ProductionToolBinding)
    (operations : list planned) : result (list ProductionMove) :=
  each (fun p => generate_operation_moves context setup tool part_outlines (fst p) (snd p)) operations [].

Definition generate_program (plan : list planned) (part_outlines : list PartOutline) (rk : Z * group_key)
    : result ProductionProgram :=
  let '(run_order, k) := rk in
  let '(setup_id, source_tool_id, spindle_rpm, _) := k in
  let operations := group_operations plan k in
  binding ← of_option (binding_by_source_id b !! source_tool_id) (KeyError source_tool_id);
  setup ← of_option (bound_setup_by_id b !! setup_id) (KeyError setup_id);
  moves ← program_moves part_outlines setup binding operations;
  new_ProductionProgram (mkProgram
    ("program:" +:+ zero_padded_Z 3 run_order +:+ ":" +:+ setup_id +:+ ":" +:+ tb_tool_id binding +:+ ":S"
     +:+ str_of_Z spindle_rpm)
    run_order setup_id (tb_tool_id binding) (tb_tool_version binding)
    (sort_strings (remove_dups (map (fun p => cr_recipe_id (snd p)) operations)))
    (map planned_id operations)
    (map planned_id (List.filter (fun p => is_release_contour (fst p)) operations))
    moves).
End Bound.

(** Everything [generate_production_toolpaths] has before the first move. *)
Record generation_plan := mkPlan {
  gp_binding : source_binding;
  gp_outlines : list PartOutline;
  gp_planned : list planned }.

Definition plan_generation : result generation_plan :=
  b ← validate_source_binding document context;
  match List.find (fun o => bool_decide (op_kind o ∉ SUPPORTED_KINDS)) (od_operations document) with
  | Some o => refuse_op true "unsupported production operation" o
  | None => Ok ()
  end;;
  outlines ← bind_part_outlines document (setup_by_id b);
  plan ← traverse (plan_operation b (snd outlines)) (od_operations document);
  require_safe_physical_sheet_order (group_keys plan);;
  Ok (mkPlan b (fst outlines) plan).

Definition generate_production_toolpaths : result ProductionToolpathDocument :=
  g ← plan_generation;
  programs ← traverse (generate_program (gp_binding g) (gp_planned g) (gp_outlines g))
               (enumerate1 (group_keys (gp_planned g)));
  new_ProductionToolpathDocument (mkToolpaths
    (od_design_hash document) (content_hash (source_document_json document)) context
    (machine_profile_fingerprint context) (binding_catalog_fingerprint context) (recipe_catalog_fingerprint context)
    programs PRODUCTION_TOOLPATH_SCHEMA_VERSION PRODUCTION_TOOLPATH_ENGINE_VERSION EXECUTABLE_CAM_CANDIDATE_MODE
    false true).
End Generate.
