(* ===== verification/ToolpathSafety.v ===== *)
(** * Production toolpaths are safe to follow

    What the checks of [toolpaths.py] promise of every move: the sweep of a cut,
    read as the set of points within the accuracy-expanded radius of the cutter,
    stays inside the stock and its own part and away from clamps and other
    parts; rapid moves change position only at the safe height; depths respect
    the stock and the spoilboard; and no programmed point leaves the machine. *)

From Stdlib Require Import QArith Lqa.
From S2P Require Import Prelude Text ManufacturingModel Machining CamValidation ProductionModel ToolpathGeometry CapsuleGeometry ToolpathContracts Toolpaths.

(** ** Sweeps *)

Lemma along_between A B t :
  in_unit t ->
  (inject_Z (Z.min (fst A) (fst B)) <= fst (along A B t) <= inject_Z (Z.max (fst A) (fst B)))%Q /\
  (inject_Z (Z.min (snd A) (snd B)) <= snd (along A B t) <= inject_Z (Z.max (snd A) (snd B)))%Q.
Proof.
  intros [T0 T1]. unfold along. cbn [fst snd].
  assert (forall a b, inject_Z (Z.min a b) <= inject_Z a + t * (inject_Z b - inject_Z a) <= inject_Z (Z.max a b))%Q as H.
  { intros a b. destruct (Z.le_ge_cases a b) as [O|O]; pose proof O as O'; rewrite Zle_Qle in O'.
    - rewrite Z.min_l, Z.max_r by done. split; nra.
    - rewrite Z.min_r, Z.max_l by done. split; nra. }
  split; apply H.
Qed.

Lemma square_bound (d r : Q) : (0 <= r -> d * d <= r * r -> - r <= d <= r)%Q.
Proof. intros Hr H. split; apply Qnot_lt_le; intros C; nra. Qed.

(** A capsule lies in the box the code sweeps. *)
Lemma capsule_in_swept A B radius_um q :
  0 <= radius_um -> within_capsule A B radius_um q -> in_rect q (swept_rect A B radius_um).
Proof.
  intros Hr (t & T & H). destruct (along_between A B t T) as [[X0 X1] [Y0 Y1]]. unfold distance2 in H.
  rewrite Zle_Qle in Hr. change (inject_Z 0) with 0%Q in Hr.
  destruct (square_bound (fst (along A B t) - fst q) (inject_Z radius_um)) as [X2 X3]; [done| |].
  { pose proof (square_nonneg (snd (along A B t) - snd q)). lra. }
  destruct (square_bound (snd (along A B t) - snd q) (inject_Z radius_um)) as [Y2 Y3]; [done| |].
  { pose proof (square_nonneg (fst (along A B t) - fst q)). lra. }
  unfold in_rect, swept_rect, right_um, top_um. cbn [r_x_um r_y_um r_width_um r_height_um].
  replace (Z.min (fst A) (fst B) - radius_um + (Z.abs (fst B - fst A) + 2 * radius_um))
    with (Z.max (fst A) (fst B) + radius_um) by lia.
  replace (Z.min (snd A) (snd B) - radius_um + (Z.abs (snd B - snd A) + 2 * radius_um))
    with (Z.max (snd A) (snd B) + radius_um) by lia.
  unfold Z.sub. rewrite !inject_Z_plus, !inject_Z_opp. split; lra.
Qed.

Lemma contains_in_rect a b q : contains a b = true -> in_rect q b -> in_rect q a.
Proof.
  unfold contains. rewrite !andb_true_iff, !Z.leb_le, !Zle_Qle. unfold in_rect. intros H [[? ?] [? ?]].
  destruct H as [[[? ?] ?] ?]. split; lra.
Qed.

Lemma apart_no_point a b q : rects_touch_or_overlap a b = false -> in_rect q a -> ~ in_rect q b.
Proof.
  unfold rects_touch_or_overlap. rewrite negb_false_iff, !orb_true_iff, !Z.ltb_lt, !Zlt_Qlt.
  intros H [[? ?] [? ?]] [[? ?] [? ?]]. destruct H as [[[H|H]|H]|H]; lra.
Qed.

Lemma refuse_op_Ok cond message o u : refuse_op cond message o = Ok u <-> cond = false.
Proof. apply raise_if_Ok. Qed.

Lemma refuse_Ok cond message u : refuse cond message = Ok u <-> cond = false.
Proof. apply raise_if_Ok. Qed.

Ltac inv_cam :=
  repeat match goal with
  | H : refuse_op _ _ _ = Ok _ |- _ => apply refuse_op_Ok in H
  | H : refuse _ _ = Ok _ |- _ => apply refuse_Ok in H
  | H : mbind _ _ = Ok _ |- _ => apply bind_Ok in H as (? & ? & H)
  end.

(** Nothing of a set reaches a zone. *)
Definition keeps_off (removed : qpoint -> Prop) (zones : list Rect) : Prop :=
  forall zone q, zone ∈ zones -> removed q -> ~ in_rect q zone.

Lemma footprint_clear s footprint id :
  require_footprint_clear s footprint id = Ok () ->
  contains (bound_stock s) footprint = true /\
  Forall (fun zone => rects_touch_or_overlap footprint zone = false) (bs_keep_out_zones s).
Proof.
  unfold require_footprint_clear. intros H. inv_cam. bprop. split; [done|].
  apply Forall_forall. intros zone Hz. apply not_true_iff_false. intros E. apply not_true_iff_false in H.
  apply H, existsb_exists. exists zone. split; [by apply list_elem_of_In|done].
Qed.

Lemma keeps_off_swept A B radius_um zones :
  0 <= radius_um -> Forall (fun zone => rects_touch_or_overlap (swept_rect A B radius_um) zone = false) zones ->
  keeps_off (within_capsule A B radius_um) zones.
Proof.
  intros Hr F zone q Hz W. rewrite Forall_forall in F. apply (apart_no_point _ _ q (F zone Hz)). by apply capsule_in_swept.
Qed.

(** Inside the closed edges of a part. *)
Definition within_edges (r : Rect) (open_edges : list string) (q : qpoint) : Prop :=
  (("x_min" ∈ open_edges \/ (inject_Z (r_x_um r) <= fst q)%Q) /\ ("x_max" ∈ open_edges \/ (fst q <= inject_Z (right_um r))%Q)) /\
  (("y_min" ∈ open_edges \/ (inject_Z (r_y_um r) <= snd q)%Q) /\ ("y_max" ∈ open_edges \/ (snd q <= inject_Z (top_um r))%Q)).

(** A cut from [start] to [stop] with a cutter and an assembly of these radii. *)
Record sweep_clear (s : BoundSetup) (outlines : list PartOutline) (o : CAMOperation) (start stop : point)
    (cutter_um assembly_um : Z) : Prop := {
  sc_stock q : within_capsule start stop cutter_um q -> in_rect q (bound_stock s);
  sc_cutter_zones : keeps_off (within_capsule start stop cutter_um) (bs_keep_out_zones s);
  sc_assembly_zones : keeps_off (within_capsule start stop assembly_um) (bs_keep_out_zones s);
  sc_own_part own : own ∈ outlines -> po_instance_id own = op_instance_id o -> outline_sheet own = physical_sheet_of s ->
    is_release_contour o = false ->
    exists open_edges,
      declared_open_finished_part_edges o (bs_side s)
        (rect_to_physical_stock (po_rect own) (bs_side s) (bs_stock_height_um s)) = Ok open_edges /\
      forall q, within_capsule start stop cutter_um q ->
        within_edges (rect_to_physical_stock (po_rect own) (bs_side s) (bs_stock_height_um s)) open_edges q;
  sc_other_parts other : other ∈ outlines -> po_instance_id other <> op_instance_id o ->
    outline_sheet other = physical_sheet_of s ->
    forall q, in_rect q (po_rect other) ->
      ~ within_capsule (point_to_physical_stock start s) (point_to_physical_stock stop s) cutter_um q }.

Definition positive_rect (r : Rect) : Prop := 0 < r_width_um r /\ 0 < r_height_um r.

Lemma own_part_within start stop radius_um o s own :
  0 <= radius_um ->
  require_accuracy_expanded_segment_within_own_part start stop radius_um o s own = Ok () ->
  exists open_edges,
    declared_open_finished_part_edges o (bs_side s)
      (rect_to_physical_stock (po_rect own) (bs_side s) (bs_stock_height_um s)) = Ok open_edges /\
    forall q, within_capsule start stop radius_um q ->
      within_edges (rect_to_physical_stock (po_rect own) (bs_side s) (bs_stock_height_um s)) open_edges q.
Proof.
  unfold require_accuracy_expanded_segment_within_own_part.
  set (local := rect_to_physical_stock _ _ _). intros Hr H. inv_cam. exists x. split; [done|].
  intros q W. pose proof (capsule_in_swept _ _ _ _ Hr W) as [[X0 X1] [Y0 Y1]].
  unfold swept_rect, right_um, top_um in X0, X1, Y0, Y1. cbn [r_x_um r_y_um r_width_um r_height_um] in *.
  replace (Z.min (fst start) (fst stop) - radius_um + (Z.abs (fst stop - fst start) + 2 * radius_um))
    with (Z.max (fst start) (fst stop) + radius_um) in X1 by lia.
  replace (Z.min (snd start) (snd stop) - radius_um + (Z.abs (snd stop - snd start) + 2 * radius_um))
    with (Z.max (snd start) (snd stop) + radius_um) in Y1 by lia.
  rewrite !orb_false_iff, !andb_false_iff, !bool_decide_eq_false, !Z.ltb_ge, !Zle_Qle in H.
  destruct H as [[[H1 H2] H3] H4]. unfold within_edges.
  assert (forall e : string, ~ (e ∉ x) -> e ∈ x) as E by (intros e He; by destruct (decide (e ∈ x))).
  split; split; [destruct H1 as [H|H]|destruct H2 as [H|H]|destruct H3 as [H|H]|destruct H4 as [H|H]];
    first [left; by apply E|right; lra].
Qed.

Lemma cut_segment_clear s start stop radius_um assembly_um accuracy_um o outlines :
  0 <= radius_um -> 0 <= assembly_um -> 0 <= accuracy_um -> Forall (fun l => positive_rect (po_rect l)) outlines ->
  require_cut_segment_clear s start stop radius_um assembly_um accuracy_um o outlines = Ok () ->
  sweep_clear s outlines o start stop (radius_um + accuracy_um) (assembly_um + accuracy_um).
Proof.
  intros Hr Ha Hc Hpos H. unfold require_cut_segment_clear in H. inv_cam. apply check_all_Ok in H.
  destruct x. apply footprint_clear in H0 as [Hs Hz].
  match goal with E : existsb _ _ = false |- _ => rename E into Hass end.
  match goal with E : match own_outlines _ _ _ with _ => _ end = _ |- _ => rename E into Hown end.
  split.
  - intros q W. apply (contains_in_rect _ _ _ Hs), capsule_in_swept; [lia|done].
  - apply keeps_off_swept; [lia|done].
  - apply keeps_off_swept; [lia|]. apply Forall_forall. intros zone Hzone. apply not_true_iff_false. intros E.
    apply not_true_iff_false in Hass. apply Hass, existsb_exists. exists zone. split; [by apply list_elem_of_In|done].
  - intros own Hin Hi Hsheet Hrel.
    assert (own ∈ own_outlines s o outlines) as Hm.
    { apply list_elem_of_In, filter_In. split; [by apply list_elem_of_In|]. unfold on_sheet_of.
      rewrite andb_true_iff, !bool_decide_eq_true. done. }
    destruct (own_outlines s o outlines) as [|own' [|]]; [done| |done].
    apply list_elem_of_singleton in Hm as ->. rewrite Hrel in Hown. destruct x1.
    by apply own_part_within; [lia|].
  - intros other Hin Hi Hsheet q Hq W. rewrite Forall_forall in H, Hpos. specialize (H other Hin). specialize (Hpos other Hin) as [Pw Ph].
    assert (is_other_part s o other = true) as E.
    { unfold is_other_part, on_sheet_of. rewrite andb_true_iff, negb_true_iff, bool_decide_eq_false, bool_decide_eq_true. done. }
    rewrite E in H. inv_cam. apply not_true_iff_false in H. apply H. by apply (capsule_touches _ _ _ _ Pw Ph q).
Qed.

(** ** Following the builder

    Every function of the builder appends moves.  [runs P f Q] says so of [f]:
    started after a move that satisfies [P] it ends after one that satisfies
    [Q], and every move it appends is allowed after the one before it. *)

Section Runs.
Context (allowed : option ProductionMove -> ProductionMove -> Prop).

Fixpoint chain (prev : option ProductionMove) (l : list ProductionMove) : Prop :=
  match l with
  | [] => True
  | m :: rest => allowed prev m /\ chain (Some m) rest
  end.

Definition after (prev : option ProductionMove) (l : list ProductionMove) : option ProductionMove :=
  match last l with Some m => Some m | None => prev end.

Lemma chain_app prev l1 l2 : chain prev (l1 ++ l2) <-> chain prev l1 /\ chain (after prev l1) l2.
Proof.
  revert prev; induction l1 as [|m l1 IH]; intros prev; cbn [chain app]; [cbn; tauto|].
  rewrite IH. assert (after (Some m) l1 = after prev (m :: l1)) as ->; [|tauto].
  destruct l1 as [|m' l1]; [done|]. unfold after. rewrite last_cons_cons.
  destruct (last (m' :: l1)) eqn:E; [done|]. by apply last_None in E.
Qed.

Definition runs (P : option ProductionMove -> Prop) (f : moves_so_far -> result moves_so_far)
    (Q : option ProductionMove -> Prop) : Prop :=
  forall ms ms', P (last ms) -> f ms = Ok ms' ->
    Q (last ms') /\ exists added, ms' = ms ++ added /\ chain (last ms) added.

Lemma runs_weaken P P' f Q Q' :
  (forall m, P' m -> P m) -> (forall m, Q m -> Q' m) -> runs P f Q -> runs P' f Q'.
Proof. intros HP HQ H ms ms' Hm E. destruct (H ms ms' (HP _ Hm) E) as [? ?]. split; [by apply HQ|done]. Qed.

Lemma runs_post P f Q Q' : (forall m, Q m -> Q' m) -> runs P f Q -> runs P f Q'.
Proof. intros HQ. by apply runs_weaken. Qed.

Lemma runs_done (P : option ProductionMove -> Prop) : runs P Ok P.
Proof. intros ms ms' HP [= <-]. split; [done|]. exists []. by rewrite app_nil_r. Qed.

Lemma runs_then P f Q g R : runs P f Q -> runs Q g R -> runs P (fun ms => f ms ≫= g) R.
Proof.
  intros Hf Hg ms ms' HP H. apply bind_Ok in H as (ms1 & H1 & H2).
  destruct (Hf ms ms1 HP H1) as [HQ (a1 & E1 & C1)]. destruct (Hg ms1 ms' HQ H2) as [HR (a2 & E2 & C2)].
  split; [done|]. exists (a1 ++ a2). rewrite E2, E1, app_assoc. split; [done|]. apply chain_app. split; [done|].
  unfold after. assert (last ms1 = match last a1 with Some m => Some m | None => last ms end) as <-; [|done].
  rewrite E1. apply last_app.
Qed.

(** Something computed once, before any move. *)
Lemma runs_bind {A} (m : result A) P f Q : (forall a, m = Ok a -> runs P (f a) Q) -> runs P (fun ms => a ← m; f a ms) Q.
Proof. intros H ms ms' HP E. apply bind_Ok in E as (a & Ea & E). by apply (H a Ea ms ms'). Qed.

Lemma runs_each {A} (f : A -> moves_so_far -> result moves_so_far) l P :
  (forall x, x ∈ l -> runs P (f x) P) -> runs P (each f l) P.
Proof.
  intros H. induction l as [|x l IH]; [apply runs_done|].
  apply (runs_then P (f x) P (each f l) P); [apply (H x); by left|]. apply IH. intros y Hy. apply (H y). by right.
Qed.

(** A loop whose passes end where the pass says. *)
Lemma runs_each_to {A} (f : A -> moves_so_far -> result moves_so_far) l P (Q : A -> option ProductionMove -> Prop) x :
  (forall y, y ∈ l -> runs P (f y) (Q y)) -> (forall y m, Q y m -> P m) -> last l = Some x -> runs P (each f l) (Q x).
Proof.
  intros H HQ Hx. apply last_Some in Hx as [l' ->].
  assert (forall ms, each f (l' ++ [x]) ms = each f l' ms ≫= f x) as E.
  { intros ms. unfold each. rewrite foldM_app. destruct (foldM _ ms l') as [ms1|e]; cbn; [|done]. by destruct (f x ms1). }
  intros ms ms' HP Hr. rewrite E in Hr. revert ms ms' HP Hr.
  apply (runs_then P (each f l') P (f x) (Q x)); [|apply (H x); set_solver].
  apply runs_each. intros y Hy. apply (runs_weaken P P (f y) (Q y) P); [done|apply HQ|apply (H y); set_solver].
Qed.
End Runs.

(** ** What is promised of a move *)

(** The machine axes at the end of a move, with the length of the tool. *)
Definition within_machine (c : ProductionExecutionContext) (s : BoundSetup) (t : ProductionToolBinding)
    (m : ProductionMove) : Prop :=
  (pe_machine_x_min_um c <= p2_x_um (bs_machine_wcs_origin s) + mv_x_um m + tb_expected_length_offset_x_um t
     <= pe_machine_x_max_um c) /\
  (pe_machine_y_min_um c <= p2_y_um (bs_machine_wcs_origin s) + mv_y_um m + tb_expected_length_offset_y_um t
     <= pe_machine_y_max_um c) /\
  (pe_machine_z_min_um c <= bs_machine_wcs_z0_um s + mv_z_um m + tb_expected_length_offset_z_um t
     <= pe_machine_z_max_um c).

(** Through cuts stay in the allowance of the spoilboard, others in the stock. *)
Definition depth_safe (s : BoundSetup) (o : CAMOperation) (r : CuttingRecipe) (z_um : Z) : Prop :=
  if op_through o then cr_process_accuracy_um r - z_um <= bs_stock_thickness_um s + bs_through_cut_allowance_um s
  else cr_process_accuracy_um r - z_um < bs_stock_thickness_um s.

Definition in_stock (s : BoundSetup) (q : point) : Prop :=
  0 <= fst q <= bs_stock_width_um s /\ 0 <= snd q <= bs_stock_height_um s.

Lemma point_in_stock s q id : require_point_in_stock s q id = Ok () -> in_stock s q.
Proof. unfold require_point_in_stock, in_stock. intros H%refuse_Ok. bprop. lia. Qed.

(** The feeds a move may have: a rapid none, a cut one of its recipe. *)
Definition feeds_of (r : CuttingRecipe) (kind : ProductionMoveKind) : list (option Z) :=
  match kind with RAPID => [None] | LINEAR => [Some (cr_feed_um_min r); Some (cr_plunge_um_min r)] end.

Record move_safe (c : ProductionExecutionContext) (s : BoundSetup) (t : ProductionToolBinding)
    (outlines : list PartOutline) (o : CAMOperation) (r : CuttingRecipe)
    (prev : option ProductionMove) (m : ProductionMove) : Prop := {
  ms_operation : mv_operation_id m = op_operation_id o;
  ms_machine : within_machine c s t m;
  ms_stock : in_stock s (move_xy m);
  ms_feed : mv_feed_um_min m ∈ feeds_of r (mv_kind m);
  ms_start : prev = None -> mv_kind m = RAPID /\ mv_role m = POSITION /\ mv_z_um m = bs_safe_z_um s;
  ms_cut : mv_kind m = LINEAR ->
    mv_z_um m < 0 /\ depth_safe s o r (mv_z_um m) /\
    exists p, prev = Some p /\
      sweep_clear s outlines o (move_xy p) (move_xy m)
        (radius_of_binding t + cr_process_accuracy_um r) (tb_assembly_collision_radius_um t + cr_process_accuracy_um r);
  ms_rapid : mv_kind m = RAPID ->
    0 < mv_z_um m <= bs_safe_z_um s /\
    (mv_z_um m < bs_safe_z_um s -> mv_role m = APPROACH \/ mv_role m = PECK_RETRACT) /\
    (forall p, prev = Some p -> move_xy p <> move_xy m -> mv_z_um p = bs_safe_z_um s /\ mv_z_um m = bs_safe_z_um s) }.

Lemma endpoint_within c s t m :
  require_tool_length_compensated_endpoint_within_machine c s t m = Ok () -> within_machine c s t m.
Proof.
  unfold require_tool_length_compensated_endpoint_within_machine. intros H. inv_cam. rewrite negb_false_iff, bool_decide_eq_true in H.
  assert (forall e, e ∈ zip (machine_endpoint s t m) (machine_bounds c) -> outside_bounds e = false) as F.
  { intros e He. apply not_true_iff_false. intros E. apply length_zero_iff_nil in H.
    assert (In e []) as []. rewrite <- H. apply filter_In. split; [by apply list_elem_of_In|done]. }
  unfold within_machine. clear H. unfold machine_endpoint, machine_bounds in F. cbn [zip zip_with] in F.
  pose proof (F _ ltac:(left)) as F1. pose proof (F _ ltac:(right; left)) as F2.
  pose proof (F _ ltac:(right; right; left)) as F3. clear F. cbn [outside_bounds] in F1, F2, F3. bprop. lia.
Qed.

Lemma levels_bound target stepdown levels i z :
  depth_levels_um target stepdown = Ok levels -> (i, z) ∈ enumerate1 levels -> - target <= z < 0.
Proof.
  unfold depth_levels_um, enumerate1. intros H Hz. inv_cam. bprop. injection H as <-.
  apply elem_of_zip_r in Hz. apply list_elem_of_fmap in Hz as (level & -> & Hl).
  unfold py_range in Hl. apply list_elem_of_fmap in Hl as (k & -> & Hk%elem_of_seqZ). nia.
Qed.
(** ** The depths of a contour path *)

Definition path_z (p : path_point) : Z := let '(_, _, z, _) := p in z.

Lemma append_arc_depths (P : Z -> Prop) path x y radius quadrant z :
  P z -> Forall (fun p => P (path_z p)) path -> Forall (fun p => P (path_z p)) (append_arc path x y radius quadrant z).
Proof.
  intros Hz. unfold append_arc. generalize (tail QUARTER_CIRCLE_PPM). intros l. revert path.
  induction l as [|cs l IH]; intros path F; cbn [foldl]; [done|]. apply IH.
  destruct (arc_offset_ppm _ _ _) as [dx dy]. case_bool_decide; [done|]. apply Forall_app. split; [done|]. by constructor.
Qed.

Lemma edge_depths (P : Z -> Prop) start stop z tab width :
  P z -> (forall tz, tab = Some tz -> P tz) ->
  Forall (fun p => P (path_z p)) (edge_with_optional_tab start stop z tab width).
Proof. intros Hz Ht. destruct tab as [tz|]; cbn; repeat constructor; cbn; auto. Qed.

Lemma outside_path_depths (P : Z -> Prop) nominal radius z tab width :
  P z -> (forall tz, tab = Some tz -> P tz) ->
  Forall (fun p => P (path_z p)) (outside_contour_path nominal radius z tab width).
Proof.
  intros Hz Ht. unfold outside_contour_path. cbv zeta.
  repeat first [apply append_arc_depths; [done|]
               |apply Forall_app; split; [|by apply edge_depths]].
  by repeat constructor.
Qed.

Section Moves.
Context (c : ProductionExecutionContext) (s : BoundSetup) (t : ProductionToolBinding) (outlines : list PartOutline).
Context (o : CAMOperation) (r : CuttingRecipe) (target : Z).
Context (Hrad : 0 <= radius_of_binding t) (Hass : 0 <= tb_assembly_collision_radius_um t).
Context (Hacc : 0 <= cr_process_accuracy_um r) (Hpos : Forall (fun l => positive_rect (po_rect l)) outlines).
Context (Happ : 0 < cr_approach_clearance_um r < bs_safe_z_um s).
Context (Hdeep : forall z, - target <= z -> depth_safe s o r z).
Context (Htarget : target_depth_um o s r = Ok target).
Context (Hfloor : is_release_contour o = true -> tab_floor_z_um s r < 0).

Local Notation allowed := (move_safe c s t outlines o r).
Local Notation runs := (runs allowed).

(** Above everything, or not yet started. *)
Definition parked (m : option ProductionMove) : Prop := forall p, m = Some p -> mv_z_um p = bs_safe_z_um s.
Definition at_xy (q : point) (m : option ProductionMove) : Prop := exists p, m = Some p /\ move_xy p = q /\ in_stock s q.
Definition cut_feed (feed : Z) : Prop := feed = cr_feed_um_min r \/ feed = cr_plunge_um_min r.

Lemma add_runs pass kind role q z feed (P : option ProductionMove -> Prop) :
  (forall prev m, P prev -> within_machine c s t m -> mv_operation_id m = op_operation_id o -> mv_kind m = kind ->
    mv_role m = role -> mv_feed_um_min m = feed -> move_xy m = q -> mv_z_um m = z -> allowed prev m) ->
  runs P (add c s t o pass kind role q z feed) (fun m => exists p, m = Some p /\ move_xy p = q /\ mv_z_um p = z).
Proof.
  intros H ms ms' HP E. unfold add in E. inv_cam. injection E as <-. destruct x0.
  assert (x = mkMove (Z.of_nat (length ms) + 1) (op_operation_id o) pass kind role (fst q) (snd q) z feed) as ->.
  { unfold new_ProductionMove in H0. inv_cam. destruct kind; cbn in H0; inv_ok; done. }
  rewrite last_snoc. split.
  - eexists. split; [done|]. split; [by destruct q|done].
  - eexists. split; [done|]. cbn. split; [|done]. apply H; try done; [by apply endpoint_within|by destruct q].
Qed.

(** A rapid move: down from the safe height only to approach, across only at it. *)
Lemma rapid_runs pass role q z (P : option ProductionMove -> Prop) :
  in_stock s q -> 0 < z <= bs_safe_z_um s -> (z < bs_safe_z_um s -> role = APPROACH \/ role = PECK_RETRACT) ->
  (P None -> role = POSITION /\ z = bs_safe_z_um s) ->
  (forall p, P (Some p) -> move_xy p = q \/ mv_z_um p = bs_safe_z_um s /\ z = bs_safe_z_um s) ->
  runs P (add c s t o pass RAPID role q z None) (fun m => exists p, m = Some p /\ move_xy p = q /\ mv_z_um p = z).
Proof.
  intros Hq Hz Hrole Hstart HP. apply add_runs. intros prev m Hprev Hm Hid Hk Hr Hf Hxy Hz'.
  split; [done|done|by rewrite Hxy|rewrite Hk, Hf; cbn; set_solver| |congruence|].
  - intros ->. rewrite Hk, Hr, Hz'. by split; [|apply Hstart].
  - intros _. rewrite Hz', Hr. split; [done|]. split; [done|]. intros p -> Hne.
    destruct (HP p Hprev) as [E|E]; [congruence|done].
Qed.

Lemma position_runs pass q : runs parked (position c s t o r pass q) (at_xy q).
Proof.
  unfold position. apply runs_bind. intros [] Hq%point_in_stock.
  apply (runs_then _ _ _ (fun m => exists p, m = Some p /\ move_xy p = q /\ mv_z_um p = bs_safe_z_um s)).
  - apply rapid_runs; [done|lia|lia|done|]. intros p Hp. right. split; [by apply Hp|done].
  - eapply runs_post; [|apply rapid_runs; [done|lia|by left|by intros (? & [=] & _)|]].
    + intros m (p & -> & E & _). by exists p.
    + intros p (p' & [= ->] & E & _). by left.
Qed.

Lemma retract_runs pass q : runs (at_xy q) (retract c s t o pass q) parked.
Proof.
  intros ms ms' Hat. pose proof Hat as (_ & _ & _ & Hq).
  assert (runs (at_xy q) (retract c s t o pass q) parked) as R; [|by apply R].
  eapply runs_post; [|apply rapid_runs; [done|lia|lia|by intros (? & [=] & _)|]].
  - intros m (p & -> & _ & E) p' [= <-]. done.
  - intros p (p' & [= ->] & E & _). by left.
Qed.

(** Where a clear sweep ends is in the stock. *)
Lemma sweep_in_stock outlines' start stop cutter assembly :
  0 <= cutter -> sweep_clear s outlines' o start stop cutter assembly -> in_stock s stop.
Proof.
  intros Hc [Hs _ _ _ _]. destruct (Hs (inject_Z (fst stop), inject_Z (snd stop))) as [[X0 X1] [Y0 Y1]].
  - exists 1%Q. split; [split; lra|]. unfold distance2, along. cbn [fst snd].
    rewrite Zle_Qle in Hc. apply (Qle_trans _ 0); [apply Qle_lteq; right; ring|].
    apply Qmult_le_0_compat; exact Hc.
  - unfold bound_stock, right_um, top_um in *. cbn [r_x_um r_y_um r_width_um r_height_um fst snd] in *.
    rewrite <- Zle_Qle in X0, X1, Y0, Y1. unfold in_stock. lia.
Qed.

Lemma cut_runs pass role q z feed :
  - target <= z < 0 -> cut_feed feed ->
  runs (fun m => is_Some m) (cut c s t outlines o r pass role q z feed) (at_xy q).
Proof.
  intros Hz Hf ms ms' _ H. unfold cut in H. inv_cam. apply of_option_Ok in H0. destruct x0.
  assert (sweep_clear s outlines o (move_xy x) q (radius_of_binding t + cr_process_accuracy_um r)
            (tb_assembly_collision_radius_um t + cr_process_accuracy_um r)) as S by (by apply cut_segment_clear).
  assert (in_stock s q) as Hq by (eapply sweep_in_stock; [|exact S]; lia).
  eapply (runs_weaken allowed (fun m => m = last ms)); [done| |apply add_runs|done|exact H].
  - intros m (p & -> & E & _). by exists p.
  - intros prev m -> Hm Hid Hk Hr Hfeed Hxy Hz'. split; [done|done|by rewrite Hxy| | | |congruence].
    + rewrite Hk, Hfeed. cbn. destruct Hf as [->| ->]; set_solver.
    + intros E. congruence.
    + intros _. split; [rewrite Hz'; lia|]. split; [apply Hdeep; rewrite Hz'; lia|]. exists x. by rewrite Hxy.
Qed.

Lemma at_xy_Some q m : at_xy q m -> is_Some m.
Proof. intros (p & -> & _). by exists p. Qed.

Lemma plunge_feed : cut_feed (cr_plunge_um_min r). Proof. by right. Qed.
Lemma sweep_feed : cut_feed (cr_feed_um_min r). Proof. by left. Qed.

Lemma cut_at pass role q q' z feed :
  - target <= z < 0 -> cut_feed feed -> runs (at_xy q') (cut c s t outlines o r pass role q z feed) (at_xy q).
Proof. intros Hz Hf. eapply runs_weaken; [apply at_xy_Some|done|by apply cut_runs]. Qed.

Lemma peck_retract_runs pass q :
  runs (at_xy q) (add c s t o pass RAPID PECK_RETRACT q (cr_approach_clearance_um r) None) (at_xy q).
Proof.
  intros ms ms' Hat. pose proof Hat as (_ & _ & _ & Hq).
  assert (runs (at_xy q) (add c s t o pass RAPID PECK_RETRACT q (cr_approach_clearance_um r) None) (at_xy q)) as R;
    [|by apply R].
  eapply runs_post; [|apply rapid_runs; [done|lia|by right|by intros (? & [=] & _)|]].
  - intros m (p & -> & E & _). by exists p.
  - intros p (p' & [= ->] & E & _). by left.
Qed.

Lemma generate_peck_runs : runs parked (generate_peck_moves c s t outlines o r) parked.
Proof.
  unfold generate_peck_moves. rewrite Htarget. cbn [mbind result_bind]. apply runs_bind. intros levels Hl.
  apply (runs_then _ _ _ (at_xy (operation_point o))); [apply position_runs|].
  apply (runs_then _ _ _ (at_xy (operation_point o))); [|apply retract_runs].
  apply runs_each. intros [i z] Hz. cbn [fst snd]. apply (runs_then _ _ _ (at_xy (operation_point o))).
  - apply cut_at; [apply (levels_bound target _ _ _ _ Hl Hz)|apply plunge_feed].
  - case_match; [apply runs_done|]. apply peck_retract_runs.
Qed.

Lemma raster_rest_runs pass z raster final q :
  - target <= z < 0 -> last raster = Some final ->
  runs (at_xy q) (raster_rest c s t outlines o r pass z raster) (at_xy (snd final)).
Proof.
  intros Hz Hfinal. unfold raster_rest.
  assert (exists i, last (zip (seqZ 0 (Z.of_nat (length raster))) raster) = Some (i, final)) as [i Hi].
  { assert (last (snd <$> zip (seqZ 0 (Z.of_nat (length raster))) raster) = Some final) as E.
    { rewrite snd_zip; [done|]. rewrite length_seqZ. lia. }
    rewrite fmap_last in E. destruct (last (zip _ _)) as [[i f]|]; cbn in E; [|done]. injection E as ->. by exists i. }
  apply (runs_weaken _ (fun m => is_Some m) _ _ (at_xy (snd (snd (i, final)))) _); [apply at_xy_Some|done|].
  apply (runs_each_to _ _ _ _ (fun line => at_xy (snd (snd line)))); [|intros ? ?; apply at_xy_Some|done].
  intros line _. apply (runs_then _ _ _ (fun m => is_Some m)); [|apply cut_runs; [done|apply sweep_feed]].
  case_match; [apply runs_done|]. eapply runs_post; [apply at_xy_Some|]. apply cut_runs; [done|apply sweep_feed].
Qed.

Lemma boundary_runs pass z boundary here ms swept :
  - target <= z < 0 -> at_xy here (last ms) -> boundary_moves c s t outlines o r pass z boundary here ms = Ok swept ->
  at_xy (snd swept) (last (fst swept)) /\ exists added, fst swept = ms ++ added /\ chain allowed (last ms) added.
Proof.
  intros Hz. revert here ms. induction boundary as [|q rest IH]; intros here ms Hh H; cbn [boundary_moves] in H.
  - injection H as <-. cbn. split; [done|]. exists []. by rewrite app_nil_r.
  - case_bool_decide; [by apply (IH here ms)|]. apply bind_Ok in H as (ms1 & H1 & H2).
    destruct (cut_runs pass CUT q z (cr_feed_um_min r) Hz sweep_feed ms ms1 (at_xy_Some _ _ Hh) H1) as [Hq (a1 & E1 & C1)].
    destruct (IH q ms1 Hq H2) as [Hs (a2 & E2 & C2)]. split; [done|]. exists (a1 ++ a2).
    rewrite E2, E1, app_assoc. split; [done|]. apply chain_app. split; [done|]. unfold after.
    rewrite E1, last_app in C2. done.
Qed.

Lemma raster_pass_runs bounds raster relief i z :
  - target <= z < 0 -> runs parked (raster_pass c s t outlines o r bounds raster relief (i, z)) parked.
Proof.
  intros Hz. unfold raster_pass. apply runs_bind. intros first _.
  apply (runs_then _ _ _ (at_xy (fst first))); [apply position_runs|].
  apply (runs_then _ _ _ (at_xy (fst first))); [apply cut_at; [done|apply plunge_feed]|].
  intros ms ms' Hms H. apply bind_Ok in H as (ms1 & H1 & H). apply bind_Ok in H as (final & Hf & H).
  apply of_option_Ok in Hf. revert ms ms' Hms ms1 H1 H.
  assert (runs (at_xy (fst first)) (fun ms => ms1 ← raster_rest c s t outlines o r i z raster ms;
    swept ← boundary_moves c s t outlines o r i z (boundary_of bounds) (snd final) ms1;
    ms2 ← retract c s t o i (snd swept) (fst swept);
    each (fun relief ms => ms ← position c s t o r i relief ms; ms ← plunge c s t outlines o r i relief z ms;
          retract c s t o i relief ms) relief ms2) parked) as R.
  { apply (runs_then _ _ _ (at_xy (snd final))); [by apply raster_rest_runs|].
    intros ms ms' Hms H. apply bind_Ok in H as ([ms1 here] & H1 & H).
    destruct (boundary_runs _ _ _ _ _ _ Hz Hms H1) as [Hh (a1 & E1 & C1)]. cbn [fst snd] in *.
    assert (runs (at_xy here) (fun ms => ms2 ← retract c s t o i here ms;
      each (fun relief ms => ms ← position c s t o r i relief ms; ms ← plunge c s t outlines o r i relief z ms;
          retract c s t o i relief ms) relief ms2) parked) as R.
    { apply (runs_then _ _ _ parked); [apply retract_runs|]. apply runs_each. intros q _.
      apply (runs_then _ _ _ (at_xy q)); [apply position_runs|].
      apply (runs_then _ _ _ (at_xy q)); [apply cut_at; [done|apply plunge_feed]|apply retract_runs]. }
    destruct (R ms1 ms' Hh H) as [HP (a2 & E2 & C2)]. split; [done|]. exists (a1 ++ a2).
    rewrite E2, E1, app_assoc. split; [done|]. apply chain_app. split; [done|]. unfold after.
    rewrite E1, last_app in C2. done. }
  intros ms ms' Hms ms1 H1 H. apply (R ms ms' Hms). rewrite H1. exact H.
Qed.

Lemma generate_raster_runs : runs parked (generate_raster_moves c s t outlines o r) parked.
Proof.
  unfold generate_raster_moves. apply runs_bind. intros _ _. apply runs_bind. intros [[[l ri] b] tp] _.
  apply runs_bind. intros _ _. apply runs_bind. intros raster _. apply runs_bind. intros relief _.
  rewrite Htarget. cbn [mbind result_bind]. apply runs_bind. intros levels Hl. apply runs_each.
  intros [i z] Hz. apply raster_pass_runs. apply (levels_bound target _ _ _ _ Hl Hz).
Qed.

Lemma contour_path_depths nominal z :
  - target <= z < 0 -> Forall (fun p => - target <= path_z p < 0) (contour_path s t o r nominal z).
Proof.
  intros Hz. unfold contour_path. cbv zeta. case_bool_decide.
  - apply (outside_path_depths (fun z => - target <= z < 0)); [done|]. intros tz E.
    destruct (is_release_contour o && (z <? tab_floor_z_um s r)) eqn:A; [|done].
    injection E as <-. apply andb_true_iff in A as [R A%Z.ltb_lt]. specialize (Hfloor R). lia.
  - unfold inside_contour_path. cbv zeta. repeat (apply Forall_cons_2; [exact Hz|]). apply Forall_nil_2.
Qed.

Lemma follow_runs pass p :
  - target <= path_z p < 0 -> runs (fun m => is_Some m) (follow c s t outlines o r pass p) (at_xy (path_xy p)).
Proof.
  destruct p as [[[x y] z] role]. cbn [path_z path_xy]. intros Hz ms ms' Hs H. unfold follow in H.
  apply bind_Ok in H as (previous & _ & H). refine (cut_runs pass role (x, y) z _ Hz _ ms ms' Hs H).
  case_match; [apply plunge_feed|apply sweep_feed].
Qed.

Lemma contour_pass_runs nominal i z :
  - target <= z < 0 -> runs parked (contour_pass c s t outlines o r nominal (i, z)) parked.
Proof.
  intros Hz. unfold contour_pass. pose proof (contour_path_depths nominal z Hz) as F.
  set (path := contour_path s t o r nominal z) in *. apply runs_bind. intros start Hs%of_option_Ok.
  destruct path as [|p rest]; [done|]. injection Hs as ->. cbn [tail].
  apply (runs_then _ _ _ (at_xy (path_xy start))); [apply position_runs|].
  apply (runs_then _ _ _ (at_xy (path_xy start))); [apply cut_at; [done|apply plunge_feed]|].
  apply Forall_cons in F as [_ F]. rewrite Forall_forall in F.
  destruct (last rest) as [stop|] eqn:L.
  - assert (last (start :: rest) = Some stop) as ->.
    { destruct rest; [done|]. by rewrite last_cons_cons. }
    cbn [of_option mbind result_bind]. apply (runs_then _ _ _ (at_xy (path_xy stop))); [|apply retract_runs].
    apply (runs_weaken _ (fun m => is_Some m) _ _ (at_xy (path_xy stop)) _); [apply at_xy_Some|done|].
    apply (runs_each_to _ _ _ _ (fun p => at_xy (path_xy p))); [|intros ? ?; apply at_xy_Some|done].
    intros p Hp. apply follow_runs. by apply F.
  - apply last_None in L as ->. cbn. apply retract_runs.
Qed.

Lemma generate_contour_runs : runs parked (generate_contour_moves c s t outlines o r) parked.
Proof.
  unfold generate_contour_moves. apply runs_bind. intros size _. cbv zeta.
  rewrite Htarget. cbn [mbind result_bind]. apply runs_bind. intros levels Hl. apply runs_each.
  intros [i z] Hz. apply contour_pass_runs. apply (levels_bound target _ _ _ _ Hl Hz).
Qed.

Lemma generate_operation_runs : runs parked (generate_operation_moves c s t outlines o r) parked.
Proof.
  unfold generate_operation_moves. case_match; [apply generate_peck_runs|].
  case_match; [apply generate_raster_runs|apply generate_contour_runs].
Qed.
End Moves.
