(* ===== verification/ToolpathPrograms.v ===== *)
(** * Production toolpaths: from a document to safe programs

    What [plan_generation] has checked when it returns, and the two theorems it
    gives: every move of every program is safe, and the programs cut every
    operation of the document once, in an order that releases parts last. *)

From S2P Require Import Prelude Text ManufacturingModel Machining CamValidation ProductionModel ToolpathGeometry CapsuleGeometry ToolpathContracts Toolpaths ToolpathSafety.

(** What the constructors guarantee of a context and of its parts. *)
Definition well_formed_context (c : ProductionExecutionContext) : Prop :=
  new_ProductionExecutionContext c = Ok c /\
  Forall (fun s => new_BoundSetup s = Ok s) (pe_setups c) /\
  Forall (fun t => new_ProductionToolBinding t = Ok t) (pe_tool_bindings c) /\
  Forall (fun r => new_CuttingRecipe r = Ok r) (pe_recipes c).

Lemma require_all_min_in minimum fields label value :
  require_all_min minimum fields = Ok () -> (label, value) ∈ fields -> minimum <= value.
Proof.
  unfold require_all_min, require_min. intros H Hin. apply check_all_Ok in H. rewrite Forall_forall in H.
  specialize (H _ Hin). cbn in H. apply refuse_Ok, Z.ltb_ge in H. done.
Qed.

Lemma tool_positive t :
  new_ProductionToolBinding t = Ok t -> 0 <= radius_of_binding t /\ 0 <= tb_assembly_collision_radius_um t.
Proof.
  unfold new_ProductionToolBinding. intros H.
  repeat match type of H with mbind _ ?m = Ok _ =>
    lazymatch m with
    | require_all_min 1 _ => fail
    | _ => apply bind_Ok in H as (? & _ & H)
    end end.
  apply bind_Ok in H as ([] & H & _).
  pose proof (require_all_min_in _ _ "effective_diameter_um" (tb_effective_diameter_um t) H ltac:(left)).
  pose proof (require_all_min_in _ _ "assembly_collision_radius_um" (tb_assembly_collision_radius_um t) H
    ltac:(do 4 right; left)).
  split; [|lia]. unfold radius_of_binding. apply Z.div_pos; lia.
Qed.

Lemma recipe_positive r :
  new_CuttingRecipe r = Ok r -> 0 < cr_process_accuracy_um r /\ 0 < cr_approach_clearance_um r.
Proof.
  unfold new_CuttingRecipe. intros H. apply bind_Ok in H as (? & _ & H). apply bind_Ok in H as ([] & H & _).
  pose proof (require_all_min_in _ _ "process_accuracy_um" (cr_process_accuracy_um r) H ltac:(do 7 right; left)).
  pose proof (require_all_min_in _ _ "approach_clearance_um" (cr_approach_clearance_um r) H ltac:(do 6 right; left)).
  lia.
Qed.

(** ** Lists and dictionaries *)

Section UniqueMap.
Context {A : Type} (label : string) (key : A -> string).

Lemma unique_map_from values (m m' : gmap string A) :
  foldM (fun (m : gmap string A) value =>
    refuse (is_some (m !! key value)) ("duplicate " +:+ label +:+ ": " +:+ key value);;
    Ok (<[key value := value]> m)) m values = Ok m' ->
  forall k v, m' !! k = Some v <-> (m !! k = Some v \/ v ∈ values /\ key v = k).
Proof.
  revert m; induction values as [|x values IH]; intros m H k v; cbn in H.
  - injection H as <-. set_solver.
  - apply bind_Ok in H as (m1 & H1 & H). inv_cam. injection H1 as <-.
    rewrite (IH _ H k v), elem_of_cons. destruct (m !! key x) eqn:E; [done|].
    destruct (decide (key x = k)) as [<-|Hne].
    + rewrite lookup_insert_eq. naive_solver.
    + rewrite lookup_insert_ne by done. naive_solver.
Qed.

Lemma unique_map_Some values m k v :
  unique_map label key values = Ok m -> (m !! k = Some v <-> v ∈ values /\ key v = k).
Proof. intros H. rewrite (unique_map_from _ _ _ H). rewrite lookup_empty. naive_solver. Qed.
End UniqueMap.

(** ** The finished outlines *)

Definition outline_of (o : CAMOperation) (s : Setup) (nominal : Rect) : PartOutline :=
  mkOutline (su_stock_id s) (su_sheet_index s) (op_instance_id o) (op_part_id o) (op_source_rotation_90 o)
    (rect_to_physical_stock nominal (su_side s) (su_stock_height_um s)).

(** The outlines are those of the release contours of the document. *)
Definition outlines_of (d : OperationsDocument) (outlines : list PartOutline) : Prop :=
  forall l, l ∈ outlines <->
    exists o s nominal, o ∈ od_operations d /\ is_release_contour o = true /\
      s ∈ od_setups d /\ su_setup_id s = op_setup_id o /\ nominal_envelope o = Some nominal /\ l = outline_of o s nominal.

Section Outlines.
Context (setups : gmap string Setup).

Record outlines_seen (seen : list CAMOperation) (st : outline_state) : Prop := {
  os_release i o : release_by_instance st !! i = Some o <-> o ∈ seen /\ is_release_contour o = true /\ op_instance_id o = i }.

Lemma bind_instance_seen seen st o st' :
  outlines_seen seen st -> bind_instance setups st o = Ok st' -> outlines_seen (seen ++ [o]) st'.
Proof.
  intros [Hr] H. unfold bind_instance in H. cbv zeta in H. inv_cam.
  destruct (is_release_contour o) eqn:E; cbn [negb] in H.
  - inv_cam. injection H as <-. split. intros i o'. cbn [release_by_instance].
    destruct (release_by_instance st !! op_instance_id o) eqn:N; [done|].
    destruct (decide (op_instance_id o = i)) as [<-|Hne].
    + rewrite lookup_insert_eq. split; [intros [= <-]; set_solver|].
      intros ([Ho|Ho]%elem_of_app & R & I); [|apply list_elem_of_singleton in Ho as ->; done].
      exfalso. assert (release_by_instance st !! op_instance_id o = Some o') as C by (by apply Hr). congruence.
    + rewrite lookup_insert_ne by done. rewrite Hr. set_solver.
  - injection H as <-. split. intros i o'. cbn [release_by_instance]. rewrite Hr.
    split; [set_solver|]. intros ([Ho|Ho]%elem_of_app & R & I); [done|].
    apply list_elem_of_singleton in Ho as ->. congruence.
Qed.

Lemma bind_instances_seen l seen st st' :
  outlines_seen seen st -> foldM (bind_instance setups) st l = Ok st' -> outlines_seen (seen ++ l) st'.
Proof.
  revert seen st; induction l as [|o l IH]; intros seen st S H; cbn in H.
  - injection H as <-. by rewrite app_nil_r.
  - apply bind_Ok in H as (st1 & H1 & H). replace (seen ++ o :: l) with ((seen ++ [o]) ++ l) by (by rewrite <- app_assoc).
    apply (IH _ st1); [by apply (bind_instance_seen _ st)|done].
Qed.
End Outlines.

Lemma keys_of_elem {A} (m : gmap string A) k : k ∈ keys_of m <-> is_Some (m !! k).
Proof.
  unfold keys_of. rewrite list_elem_of_fmap. split.
  - intros ([k' v] & -> & H). apply elem_of_map_to_list in H. by exists v.
  - intros [v H]. exists (k, v). split; [done|]. by apply elem_of_map_to_list.
Qed.

Lemma bind_part_outlines_of d setups outlines by_instance :
  unique_map "source setup" su_setup_id (od_setups d) = Ok setups ->
  bind_part_outlines d setups = Ok (outlines, by_instance) -> outlines_of d outlines.
Proof.
  intros Hs H. unfold bind_part_outlines in H. cbv zeta in H. inv_cam. injection H as <- _.
  match goal with E : foldM _ _ _ = Ok ?st |- _ =>
    apply (bind_instances_seen setups _ [] (mkOutlines ∅ ∅) st) in E as [Hr]; [|split; intros i o; cbn; rewrite lookup_empty; set_solver];
    rename st into state end.
  match goal with E : traverse _ _ = Ok ?ls |- _ => apply traverse_Ok in E as F; rename ls into found end.
  intros l. rewrite (sort_by_perm outline_cmp found). split.
  - intros Hl. apply (Forall2_elem_r _ _ _ _ F) in Hl as (i & Hi & El). inv_cam.
    apply of_option_Ok in H. apply Hr in H as (Ho & R & _). cbn [app] in Ho. unfold outline_of_release in El.
    apply bind_Ok in El as (s & Es & El). apply bind_Ok in El as (nominal & En & El). injection El as <-.
    apply of_option_Ok in Es, En. apply (unique_map_Some _ _ _ _ _ _ Hs) in Es as [Hin Hid].
    by exists x, s, nominal.
  - intros (o & s & nominal & Ho & R & Hin & Hid & Hn & ->).
    assert (release_by_instance state !! op_instance_id o = Some o) as E by (by apply Hr).
    assert (op_instance_id o ∈ sort_strings (keys_of (release_by_instance state))) as Hk.
    { unfold sort_strings. rewrite (sort_by_perm String.compare). apply keys_of_elem. by exists o. }
    apply (Forall2_elem_l _ _ _ _ F) in Hk as (l & Hl & El). rewrite E in El. cbn in El.
    unfold outline_of_release in El. apply bind_Ok in El as (s' & Es' & El). apply of_option_Ok in Es'.
    assert (setups !! op_setup_id o = Some s) as E2 by (by apply (unique_map_Some _ _ _ _ _ _ Hs)).
    rewrite E2 in Es'. injection Es' as <-. rewrite Hn in El. injection El as <-. done.
Qed.

(** ** The contract of a planned operation *)

Record contract_facts (o : CAMOperation) (s : BoundSetup) (t : ProductionToolBinding) (r : CuttingRecipe) (target : Z)
    : Prop := {
  cf_setup : op_setup_id o = bs_setup_id s;
  cf_side : op_side o = bs_side s;
  cf_kind : cr_operation_kind r = op_kind o;
  cf_target : target_depth_um o s r = Ok target;
  cf_approach : cr_approach_clearance_um r < bs_safe_z_um s;
  cf_depth z : - target <= z -> depth_safe s o r z;
  cf_area : is_area (op_kind o) = true ->
    is_drilling (op_kind o) = false /\ validate_area_contract o s t r = Ok () /\
    target_depth_um o s r = Ok (op_depth_um o);
  cf_release nominal : is_release_contour o = true -> nominal_envelope o = Some nominal ->
    2 * radius_of_binding t < r_width_um nominal /\ 2 * radius_of_binding t < r_height_um nominal;
  cf_floor : is_release_contour o = true -> tab_floor_z_um s r < 0 }.

Lemma release_contour_size o s t r nominal :
  validate_contour_contract o s t r = Ok () -> nominal_envelope o = Some nominal ->
  2 * radius_of_binding t < r_width_um nominal /\ 2 * radius_of_binding t < r_height_um nominal.
Proof.
  unfold validate_contour_contract. intros H E. rewrite E in H. cbn [of_option mbind result_bind] in H. cbv zeta in H.
  inv_cam. match goal with E : (Z.min (r_width_um _) _ <=? _) = false |- _ => apply Z.leb_gt in E end. lia.
Qed.

Lemma tab_floor_low o s t r :
  validate_contour_contract o s t r = Ok () -> is_release_contour o = true -> tab_floor_z_um s r < 0.
Proof.
  unfold validate_contour_contract. intros H R. rewrite R in H. apply bind_Ok in H as (? & _ & H).
  apply bind_Ok in H as (nominal & _ & H). cbv zeta in H.
  repeat match type of H with mbind _ _ = Ok _ => apply bind_Ok in H as (? & _ & H) end.
  unfold validate_tabs in H. apply bind_Ok in H as (? & E%refuse_op_Ok%Z.leb_gt & _). unfold tab_floor_z_um. lia.
Qed.

Lemma contract_holds o s t r tool :
  validate_operation_contract o s t r tool = Ok () -> exists target, contract_facts o s t r target.
Proof.
  unfold validate_operation_contract. intros H. cbv zeta in H.
  repeat match type of H with mbind _ (target_depth_um _ _ _) = Ok _ => fail 1 | mbind _ _ = Ok _ =>
    let E := fresh "G" in apply bind_Ok in H as (? & E & H); apply refuse_op_Ok in E end.
  apply bind_Ok in H as (target & T & H). exists target.
  repeat match type of H with mbind _ (refuse_op _ _ _) = Ok _ =>
    let E := fresh "G" in apply bind_Ok in H as (? & E & H); apply refuse_op_Ok in E end.
  apply bind_Ok in H as (? & _ & H).
  apply orb_false_iff in G0 as [G0a%negb_false_iff%bool_decide_eq_true G0b%negb_false_iff%bool_decide_eq_true].
  apply negb_false_iff, bool_decide_eq_true in G3. apply Z.leb_gt in G5.
  split; try done.
  - intros z Hz. unfold depth_safe. unfold target_depth_um in T. apply bind_Ok in T as (? & _ & T).
    destruct (op_through o); cbn [andb negb] in *.
    + inv_cam. injection T as <-. bprop. lia.
    + inv_cam. injection T as <-. bprop. lia.
  - intros A. assert (is_drilling (op_kind o) = false /\ op_kind o <> OP_DRILL) as [Hd Hk].
    { unfold is_area, is_drilling in *. apply bool_decide_eq_true in A. rewrite bool_decide_eq_false.
      split; [intros [E|E]|intros E]; rewrite E in A; destruct A; congruence. }
    rewrite bool_decide_eq_false_2, A in H by done. split; [done|]. split; [done|].
    pose proof H as K. unfold validate_area_contract in K. do 4 apply bind_Ok in K as (? & _ & K).
    apply bind_Ok in K as (? & Hthrough & _). apply refuse_op_Ok, orb_false_iff in Hthrough as [Hthrough _].
    unfold target_depth_um in T |- *. rewrite Hthrough in T |- *. apply bind_Ok in T as ([] & -> & T).
    apply bind_Ok in T as ([] & -> & _). done.
  - intros nominal R E. unfold is_release_contour in R. apply andb_true_iff in R as [[K%bool_decide_eq_true _]%andb_true_iff _].
    rewrite K in H. apply (release_contour_size o s t r nominal); [exact H|done].
  - intros R. pose proof R as R'. unfold is_release_contour in R'.
    apply andb_true_iff in R' as [[K%bool_decide_eq_true _]%andb_true_iff _].
    rewrite K in H. apply (tab_floor_low o s t r H R).
Qed.

(** ** The plan *)

Section Plan.
Context (d : OperationsDocument) (c : ProductionExecutionContext).

Record planned_facts (b : source_binding) (o : CAMOperation) (s : BoundSetup) (t : ProductionToolBinding)
    (r : CuttingRecipe) (target : Z) : Prop := {
  pf_setup : bound_setup_by_id b !! op_setup_id o = Some s;
  pf_tool : binding_by_source_id b !! op_tool_id o = Some t;
  pf_recipe : r ∈ pe_recipes c;
  pf_key : recipe_key_of r = (bs_material_id s, bs_material_version s, tb_tool_id t, tb_tool_version t, op_kind o);
  pf_contract : contract_facts o s t r target }.

Lemma recipe_by_key_Some key r : recipe_by_key c key = Some r -> r ∈ pe_recipes c /\ recipe_key_of r = key.
Proof.
  unfold recipe_by_key. intros H. apply last_Some_elem_of, list_elem_of_filter in H. tauto.
Qed.

Lemma plan_operation_facts b by_instance o p :
  plan_operation c b by_instance o = Ok p ->
  fst p = o /\ exists s t target, planned_facts b o s t (snd p) target.
Proof.
  unfold plan_operation. intros H. cbv zeta in H.
  apply bind_Ok in H as (? & _ & H). apply bind_Ok in H as (s & _ & H). apply bind_Ok in H as (bs & Hbs & H).
  apply bind_Ok in H as (tool & _ & H). apply bind_Ok in H as (t & Ht & H). apply bind_Ok in H as (? & _ & H).
  apply bind_Ok in H as (r & Hr & H). apply bind_Ok in H as ([] & Hc & H). injection H as <-. cbn [fst snd].
  apply of_option_Ok in Hbs, Ht, Hr. apply recipe_by_key_Some in Hr as [Hr Hk].
  apply contract_holds in Hc as [target Hc]. split; [done|]. exists bs, t, target. by split.
Qed.

Record plan_facts (g : generation_plan) : Prop := {
  gf_operations : map fst (gp_planned g) = od_operations d;
  gf_unique : NoDup (map op_operation_id (od_operations d));
  gf_planned p : p ∈ gp_planned g -> exists s t target, planned_facts (gp_binding g) (fst p) s t (snd p) target;
  gf_setups k s : bound_setup_by_id (gp_binding g) !! k = Some s <-> s ∈ pe_setups c /\ bs_setup_id s = k;
  gf_tools k t : binding_by_source_id (gp_binding g) !! k = Some t <-> t ∈ pe_tool_bindings c /\ tb_source_tool_id t = k;
  gf_even o t : o ∈ od_operations d -> binding_by_source_id (gp_binding g) !! op_tool_id o = Some t ->
    tb_effective_diameter_um t mod 2 = 0;
  gf_outlines : outlines_of d (gp_outlines g);
  gf_order : require_safe_physical_sheet_order d (group_keys d (gp_planned g)) = Ok () }.

Lemma source_binding_maps b :
  validate_source_binding d c = Ok b ->
  unique_map "source setup" su_setup_id (od_setups d) = Ok (setup_by_id b) /\
  unique_map "bound setup" bs_setup_id (pe_setups c) = Ok (bound_setup_by_id b) /\
  unique_map "production source-tool binding" tb_source_tool_id (pe_tool_bindings c) = Ok (binding_by_source_id b) /\
  (forall o t, o ∈ od_operations d -> binding_by_source_id b !! op_tool_id o = Some t ->
     tb_effective_diameter_um t mod 2 = 0) /\
  NoDup (map op_operation_id (od_operations d)).
Proof.
  unfold validate_source_binding. intros H. cbv zeta in H.
  do 5 apply bind_Ok in H as (? & _ & H). apply bind_Ok in H as (m1 & H1 & H). apply bind_Ok in H as (m2 & H2 & H).
  do 2 apply bind_Ok in H as (? & _ & H). apply bind_Ok in H as (m3 & _ & H). apply bind_Ok in H as (m4 & H4 & H).
  apply bind_Ok in H as (? & Ht & H). apply bind_Ok in H as (? & _ & H). apply bind_Ok in H as (? & He & H).
  apply bind_Ok in H as (? & Hu & H). apply bind_Ok in H as (? & _ & H).
  injection H as <-. cbn. apply refuse_Ok, negb_false_iff, distinct_spec in Hu.
  split; [done|]. split; [done|]. split; [done|]. split; [|done].
  intros o t Ho Eb. apply refuse_Ok, negb_false_iff in Ht. rewrite py_set_eq_spec in Ht.
  assert (op_tool_id o ∈ map tl_tool_id (od_tools d)) as Hin by (apply Ht; by apply list_elem_of_fmap_2).
  apply list_elem_of_fmap in Hin as (tool & E & Hin). apply check_all_Ok in He. rewrite Forall_forall in He.
  specialize (He tool Hin). unfold check_bound_tool in He. cbv zeta in He. rewrite <- E, Eb in He. cbn in He.
  do 2 apply bind_Ok in He as (? & _ & He). apply refuse_Ok, negb_false_iff, Z.eqb_eq in He. done.
Qed.

Lemma plan_generation_facts g : plan_generation d c = Ok g -> plan_facts g.
Proof.
  unfold plan_generation. intros H. apply bind_Ok in H as (b & Hb & H). apply bind_Ok in H as (? & _ & H).
  apply bind_Ok in H as ([outlines by_instance] & Ho & H). apply bind_Ok in H as (plan & Hp & H).
  apply bind_Ok in H as ([] & Hs & H). injection H as <-. cbn [fst snd] in *.
  apply source_binding_maps in Hb as (M1 & M2 & M3 & Me & Hu). apply traverse_Ok in Hp as F.
  split; cbn [gp_planned gp_binding gp_outlines]; try done.
  - clear - F. induction F as [|o p l1 l2 H _ IH]; cbn; [done|]. rewrite IH.
    by apply plan_operation_facts in H as [-> _].
  - intros p Hin. apply (Forall2_elem_r _ _ _ _ F) in Hin as (o & Hin & H).
    by apply plan_operation_facts in H as [-> ?].
  - intros k s. apply (unique_map_Some _ _ _ _ _ _ M2).
  - intros k t. apply (unique_map_Some _ _ _ _ _ _ M3).
  - by apply (bind_part_outlines_of _ _ _ _ M1 Ho).
Qed.
End Plan.

(** ** Every move is safe *)

Lemma runs_mono (R1 R2 : option ProductionMove -> ProductionMove -> Prop) P f Q :
  (forall prev m, R1 prev m -> R2 prev m) -> runs R1 P f Q -> runs R2 P f Q.
Proof.
  intros HR H ms ms' HP E. destruct (H ms ms' HP E) as [HQ (added & -> & C)]. split; [done|].
  exists added. split; [done|]. clear - HR C. revert C. generalize (last ms) as prev.
  induction added as [|m added IH]; intros prev; cbn; [done|]. intros [A C]. split; [by apply HR|by apply IH].
Qed.

Section Safe.
Context (d : OperationsDocument) (c : ProductionExecutionContext) (g : generation_plan).
Context (Hc : well_formed_context c) (Hg : plan_facts d c g).

Lemma planned_of o : o ∈ od_operations d -> exists p, p ∈ gp_planned g /\ fst p = o.
Proof.
  rewrite <- (gf_operations d c g Hg). intros (p & -> & Hp)%list_elem_of_fmap. by exists p.
Qed.

Lemma outlines_positive : Forall (fun l => positive_rect (po_rect l)) (gp_outlines g).
Proof.
  apply Forall_forall. intros l Hl. apply (gf_outlines d c g Hg) in Hl as (o & s & nominal & Ho & R & _ & _ & En & ->).
  destruct (planned_of o Ho) as ([o' r] & Hp & [= ->]).
  destruct (gf_planned d c g Hg _ Hp) as (bs & t & target & F). cbn [fst snd] in F.
  pose proof (pf_tool _ _ _ _ _ _ _ F) as Ht. apply (gf_tools d c g Hg) in Ht as [Ht _].
  destruct (cf_release _ _ _ _ _ (pf_contract _ _ _ _ _ _ _ F) nominal R En) as [W H].
  destruct Hc as (_ & _ & Htools & _). rewrite Forall_forall in Htools. destruct (tool_positive t (Htools t Ht)) as [Hr _].
  unfold positive_rect, outline_of, rect_to_physical_stock. cbn [po_rect]. case_bool_decide; cbn; lia.
Qed.

(** What is promised of the moves of a program: each belongs to an operation of
    the group and is safe after the move before it. *)
Definition program_move_safe (s : BoundSetup) (t : ProductionToolBinding) (operations : list planned)
    (prev : option ProductionMove) (m : ProductionMove) : Prop :=
  exists p, p ∈ operations /\ move_safe c s t (gp_outlines g) (fst p) (snd p) prev m.

Lemma operation_safe s t operations p :
  p ∈ operations -> p ∈ gp_planned g -> s ∈ pe_setups c -> t ∈ pe_tool_bindings c ->
  bound_setup_by_id (gp_binding g) !! op_setup_id (fst p) = Some s ->
  binding_by_source_id (gp_binding g) !! op_tool_id (fst p) = Some t ->
  runs (program_move_safe s t operations) (parked s)
    (generate_operation_moves c s t (gp_outlines g) (fst p) (snd p)) (parked s).
Proof.
  intros Hin Hp Hs Ht Es Et. destruct (gf_planned d c g Hg _ Hp) as (s' & t' & target & F).
  pose proof (pf_setup _ _ _ _ _ _ _ F) as E1. pose proof (pf_tool _ _ _ _ _ _ _ F) as E2.
  rewrite Es in E1. rewrite Et in E2. injection E1 as <-. injection E2 as <-.
  pose proof (pf_contract _ _ _ _ _ _ _ F) as C. pose proof (pf_recipe _ _ _ _ _ _ _ F) as Hr.
  destruct Hc as (_ & _ & Htools & Hrecipes). rewrite Forall_forall in Htools. rewrite Forall_forall in Hrecipes.
  destruct (tool_positive t (Htools t Ht)) as [T1 T2]. destruct (recipe_positive _ (Hrecipes _ Hr)) as [R1 R2].
  apply (runs_mono (move_safe c s t (gp_outlines g) (fst p) (snd p))); [by intros prev m M; exists p|].
  apply (generate_operation_runs c s t (gp_outlines g) (fst p) (snd p) target); try done; [lia|apply outlines_positive|..].
  - split; [done|]. apply (cf_approach _ _ _ _ _ C).
  - apply (cf_depth _ _ _ _ _ C).
  - apply (cf_target _ _ _ _ _ C).
  - apply (cf_floor _ _ _ _ _ C).
Qed.

Lemma group_operations_elem k p : p ∈ group_operations (gp_planned g) k <-> p ∈ gp_planned g /\ group_key_of p = k.
Proof.
  unfold group_operations. rewrite (sort_by_perm program_operation_cmp), list_elem_of_filter. tauto.
Qed.

Lemma program_moves_safe k s t moves :
  s ∈ pe_setups c -> t ∈ pe_tool_bindings c ->
  bound_setup_by_id (gp_binding g) !! fst (fst (fst k)) = Some s ->
  binding_by_source_id (gp_binding g) !! snd (fst (fst k)) = Some t ->
  program_moves c (gp_outlines g) s t (group_operations (gp_planned g) k) = Ok moves ->
  chain (program_move_safe s t (group_operations (gp_planned g) k)) None moves.
Proof.
  intros Hs Ht Es Et H. unfold program_moves in H.
  assert (runs (program_move_safe s t (group_operations (gp_planned g) k)) (parked s)
    (each (fun p => generate_operation_moves c s t (gp_outlines g) (fst p) (snd p)) (group_operations (gp_planned g) k))
    (parked s)) as R.
  { apply runs_each. intros p Hp. pose proof Hp as [Hin <-]%group_operations_elem.
    by apply (operation_safe s t _ p Hp Hin Hs Ht). }
  destruct (R [] moves) as [_ (added & -> & C)]; [by intros ? [=]|done|]. exact C.
Qed.
End Safe.

(** ** Programs *)

Lemma new_program_id p p' : new_ProductionProgram p = Ok p' -> p' = p.
Proof.
  unfold new_ProductionProgram. intros H.
  repeat match type of H with mbind _ _ = Ok _ => apply bind_Ok in H as (? & _ & H) end. by injection H as <-.
Qed.

Lemma new_toolpaths_id x x' : new_ProductionToolpathDocument x = Ok x' -> x' = x.
Proof.
  unfold new_ProductionToolpathDocument. intros H.
  repeat match type of H with mbind _ _ = Ok _ => apply bind_Ok in H as (? & _ & H) end. by injection H as <-.
Qed.

Record program_of (c : ProductionExecutionContext) (g : generation_plan) (run_order : Z) (k : group_key)
    (s : BoundSetup) (t : ProductionToolBinding) (p : ProductionProgram) : Prop := {
  po_setup : bound_setup_by_id (gp_binding g) !! fst (fst (fst k)) = Some s;
  po_tool : binding_by_source_id (gp_binding g) !! snd (fst (fst k)) = Some t;
  po_moves : program_moves c (gp_outlines g) s t (group_operations (gp_planned g) k) = Ok (pg_moves p);
  po_checked : new_ProductionProgram p = Ok p;
  po_run_order : pg_run_order p = run_order;
  po_setup_id : pg_setup_id p = fst (fst (fst k));
  po_program_id : pg_program_id p = "program:" +:+ zero_padded_Z 3 run_order +:+ ":" +:+ fst (fst (fst k)) +:+ ":"
                    +:+ tb_tool_id t +:+ ":S" +:+ str_of_Z (snd (fst k));
  po_tool_id : pg_tool_id p = tb_tool_id t;
  po_tool_version : pg_tool_version p = tb_tool_version t;
  po_recipe_ids : pg_recipe_ids p =
    sort_strings (remove_dups (map (fun q => cr_recipe_id (snd q)) (group_operations (gp_planned g) k)));
  po_operations : pg_operation_ids p = map planned_id (group_operations (gp_planned g) k);
  po_releases : pg_release_operation_ids p =
    map planned_id (List.filter (fun q => is_release_contour (fst q)) (group_operations (gp_planned g) k)) }.

Lemma generate_program_of c g run_order k p :
  generate_program c (gp_binding g) (gp_planned g) (gp_outlines g) (run_order, k) = Ok p ->
  exists s t, program_of c g run_order k s t p.
Proof.
  destruct k as [[[setup_id tool_id] rpm] release]. unfold generate_program. intros H. cbv zeta in H.
  apply bind_Ok in H as (t & Ht & H). apply bind_Ok in H as (s & Hs & H). apply bind_Ok in H as (moves & Hm & H).
  apply of_option_Ok in Ht, Hs. pose proof (new_program_id _ _ H) as E. exists s, t. subst p. by split.
Qed.

(** The programs, one for every group of the plan. *)
Lemma generated_programs d c result :
  generate_production_toolpaths d c = Ok result ->
  exists g, plan_facts d c g /\ new_ProductionToolpathDocument result = Ok result /\ pt_execution_context result = c /\
    Forall2 (fun rk p => exists s t, program_of c g (fst rk) (snd rk) s t p)
      (enumerate1 (group_keys d (gp_planned g))) (pt_programs result).
Proof.
  unfold generate_production_toolpaths. intros H. apply bind_Ok in H as (g & Hg & H).
  apply bind_Ok in H as (programs & Hp & H). pose proof (new_toolpaths_id _ _ H) as E. subst result.
  exists g. split; [by apply plan_generation_facts|]. split; [done|]. split; [done|]. cbn [pt_programs].
  apply traverse_Ok in Hp. apply (Forall2_impl _ _ _ _ Hp). intros [i k] p. apply generate_program_of.
Qed.

(** C1: Safe toolpaths: when the generator returns, every move of every program
    is safe, in the geometric sense.  With [s] and [t] the bound setup and tool
    of the program, each move belongs to an operation [o] of the document, cut
    by a recipe [r] for its material and kind, and: the compensated end point is
    within the travel of the machine and, in X and Y, on the stock; a program
    starts with a rapid move at the safe height; a cut has one of the two feeds
    of its recipe and is deep enough at most for the stock
    (or for the spoilboard allowance, when it goes through), process accuracy
    included; every point within the accuracy-expanded cutter radius of a cut
    lies in the stock, off the keep-out zones, inside the finished outline of
    its own part except at declared open edges (a release contour is outside by
    contract), and no point of any other part of the sheet is that near; the
    tool assembly keeps off the zones as well; and a rapid move changes X or Y
    only at the safe height. *)
Theorem production_toolpaths_safe d c result :
  well_formed_context c -> generate_production_toolpaths d c = Ok result ->
  exists outlines, outlines_of d outlines /\
  forall p, p ∈ pt_programs result ->
  exists s t,
    s ∈ pe_setups c /\ bs_setup_id s = pg_setup_id p /\ t ∈ pe_tool_bindings c /\ tb_tool_id t = pg_tool_id p /\
    chain (fun prev m => exists o r,
      o ∈ od_operations d /\ op_operation_id o ∈ pg_operation_ids p /\ op_setup_id o = bs_setup_id s /\
      r ∈ pe_recipes c /\
      recipe_key_of r = (bs_material_id s, bs_material_version s, tb_tool_id t, tb_tool_version t, op_kind o) /\
      move_safe c s t outlines o r prev m) None (pg_moves p).
Proof.
  intros Hc H. apply generated_programs in H as (g & Hg & _ & _ & F). exists (gp_outlines g).
  split; [apply (gf_outlines d c g Hg)|]. intros p Hp. apply (Forall2_elem_r _ _ _ _ F) in Hp as ([i k] & _ & s & t & P).
  cbn [fst snd] in P. pose proof (po_setup _ _ _ _ _ _ _ P) as Es. pose proof (po_tool _ _ _ _ _ _ _ P) as Et.
  pose proof Es as Es'. pose proof Et as Et'. apply (gf_setups d c g Hg) in Es' as [Hs Eid]. apply (gf_tools d c g Hg) in Et' as [Ht _].
  exists s, t. split; [done|]. split; [by rewrite (po_setup_id _ _ _ _ _ _ _ P)|]. split; [done|].
  split; [by rewrite (po_tool_id _ _ _ _ _ _ _ P)|].
  pose proof (program_moves_safe d c g Hc Hg k s t _ Hs Ht Es Et (po_moves _ _ _ _ _ _ _ P)) as C.
  revert C. generalize (pg_moves p) as moves. intros moves. generalize (@None ProductionMove) as prev.
  induction moves as [|m moves IH]; intros prev; cbn [chain]; [done|]. intros [(q & Hq & M) C]. split; [|by apply IH].
  pose proof Hq as [Hin Hk]%group_operations_elem. destruct (gf_planned d c g Hg q Hin) as (s' & t' & target & Q).
  pose proof (pf_setup _ _ _ _ _ _ _ Q) as E1. pose proof (pf_tool _ _ _ _ _ _ _ Q) as E2. subst k. cbn [fst snd group_key_of] in Es, Et, Eid.
  rewrite Es in E1. rewrite Et in E2. injection E1 as <-. injection E2 as <-.
  exists (fst q), (snd q). split; [rewrite <- (gf_operations d c g Hg); by apply list_elem_of_fmap_2|].
  split; [rewrite (po_operations _ _ _ _ _ _ _ P); by apply (list_elem_of_fmap_2 planned_id)|].
  split; [done|]. split; [apply (pf_recipe _ _ _ _ _ _ _ Q)|]. split; [apply (pf_key _ _ _ _ _ _ _ Q)|done].
Qed.

(** ** Every operation once, releases last *)

Lemma inj_on_NoDup {A B} (f : A -> B) l x y : NoDup (map f l) -> x ∈ l -> y ∈ l -> f x = f y -> x = y.
Proof.
  induction l as [|z l IH]; cbn; [by intros _ ?%not_elem_of_nil|]. intros [Hz Hnd]%NoDup_cons Hx Hy E.
  apply elem_of_cons in Hx as [->|Hx], Hy as [->|Hy]; auto; exfalso; apply Hz;
    [rewrite E|rewrite <- E]; by apply list_elem_of_fmap_2.
Qed.

Section Groups.
Context {A K : Type} `{EqDecision K} (key : A -> K).

Lemma filter_one_more k ks (l : list A) :
  k ∉ ks -> filter (fun x => key x ∈ k :: ks) l ≡ₚ filter (fun x => key x = k) l ++ filter (fun x => key x ∈ ks) l.
Proof.
  intros Hk. induction l as [|x l IH]; [done|]. rewrite !filter_cons.
  destruct (decide (key x ∈ k :: ks)) as [I|I]; destruct (decide (key x = k)) as [E|E];
    destruct (decide (key x ∈ ks)) as [J|J]; try (exfalso; set_solver).
  - cbn. by rewrite IH.
  - rewrite IH. by rewrite Permutation_middle.
  - done.
Qed.

(** Groups by key partition a list. *)
Lemma groups_partition ks (l : list A) :
  NoDup ks -> (forall x, x ∈ l -> key x ∈ ks) -> concat (map (fun k => filter (fun x => key x = k) l) ks) ≡ₚ l.
Proof.
  intros Hnd Hall. transitivity (filter (fun x => key x ∈ ks) l).
  - clear Hall. induction ks as [|k ks IH]; cbn.
    + symmetry. apply Permutation_nil_r. induction l as [|x l IH]; [done|]. rewrite filter_cons.
      rewrite decide_False by apply not_elem_of_nil. done.
    + apply NoDup_cons in Hnd as [Hk Hnd]. by rewrite filter_one_more, IH.
  - clear Hnd. induction l as [|x l IH]; [done|]. rewrite filter_cons, decide_True by (apply Hall; left).
    rewrite IH; [done|]. intros y Hy. apply Hall. by right.
Qed.
End Groups.

Lemma first_met_elem l k : k ∈ first_met l <-> k ∈ l.
Proof.
  unfold first_met. by rewrite list_elem_of_In, <- in_rev, <- list_elem_of_In, elem_of_remove_dups, list_elem_of_In,
    <- in_rev, <- list_elem_of_In.
Qed.

Lemma first_met_NoDup l : NoDup (first_met l).
Proof. unfold first_met. rewrite <- Permutation_rev. apply NoDup_remove_dups. Qed.

Lemma group_keys_partition d plan :
  concat (map (fun k => group_operations plan k) (group_keys d plan)) ≡ₚ plan.
Proof.
  transitivity (concat (map (fun k => filter (fun p => group_key_of p = k) plan) (group_keys d plan))).
  - induction (group_keys d plan) as [|k ks IH]; cbn; [done|]. unfold group_operations at 1.
    by rewrite (sort_by_perm program_operation_cmp), IH.
  - apply groups_partition.
    + unfold group_keys. rewrite (sort_by_perm (group_cmp d)). apply first_met_NoDup.
    + intros p Hp. unfold group_keys. rewrite (sort_by_perm (group_cmp d)). apply first_met_elem.
      by apply (list_elem_of_fmap_2 group_key_of).
Qed.

(** A program after the ones that released parts on the sheets [released]. *)
Lemma program_binding_released c released p released' :
  check_program_binding c released p = Ok released' ->
  exists s, s ∈ pe_setups c /\ bs_setup_id s = pg_setup_id p /\ physical_sheet_of s ∉ released /\
    released' = (if bool_decide (pg_release_operation_ids p = []) then released else physical_sheet_of s :: released).
Proof.
  unfold check_program_binding. intros H. cbv zeta in H. apply bind_Ok in H as (s & Hs & H).
  apply bind_Ok in H as (? & _ & H). apply bind_Ok in H as (? & _ & H). apply bind_Ok in H as (? & _ & H).
  apply bind_Ok in H as (? & _ & H). apply bind_Ok in H as (? & Hr & H). apply refuse_Ok, bool_decide_eq_false in Hr.
  injection H as <-. apply of_option_Ok, dict_of_Some in Hs as [Hs Hid]. by exists s.
Qed.

(** [p] frees no part of the sheet [q] works on. *)
Definition keeps_parts (c : ProductionExecutionContext) (p q : ProductionProgram) : Prop :=
  exists s s', s ∈ pe_setups c /\ bs_setup_id s = pg_setup_id p /\ s' ∈ pe_setups c /\ bs_setup_id s' = pg_setup_id q /\
    (pg_release_operation_ids p = [] \/ physical_sheet_of s <> physical_sheet_of s').

Lemma releases_come_last c released programs released' :
  foldM (check_program_binding c) released programs = Ok released' ->
  (forall q, q ∈ programs -> exists s, s ∈ pe_setups c /\ bs_setup_id s = pg_setup_id q /\ physical_sheet_of s ∉ released) /\
  pairwise (keeps_parts c) programs.
Proof.
  revert released; induction programs as [|p programs IH]; intros released H; cbn in H |- *.
  { split; [by intros q ?%not_elem_of_nil|done]. }
  apply bind_Ok in H as (released1 & H1 & H). apply program_binding_released in H1 as (s & Hs & Hid & Hn & ->).
  apply IH in H as [Hall Hpair]. split.
  - intros q [->|Hq]%elem_of_cons; [by exists s|]. destruct (Hall q Hq) as (s' & Hs' & Hid' & Hn').
    exists s'. split; [done|]. split; [done|]. case_bool_decide; [done|]. set_solver.
  - split; [|done]. apply Forall_forall. intros q Hq. destruct (Hall q Hq) as (s' & Hs' & Hid' & Hn').
    exists s, s'. repeat split; try done. case_bool_decide; [by left|]. right. intros E. rewrite E in Hn'. set_solver.
Qed.

(** A program and what it checked of its operation lists. *)
Lemma program_lists p :
  new_ProductionProgram p = Ok p ->
  (forall id, id ∈ map mv_operation_id (pg_moves p) <-> id ∈ pg_operation_ids p) /\
  exists before, pg_operation_ids p = before ++ pg_release_operation_ids p.
Proof.
  unfold new_ProductionProgram. intros H.
  do 8 apply bind_Ok in H as (? & _ & H). apply bind_Ok in H as (? & Hl & H). do 2 apply bind_Ok in H as (? & _ & H).
  apply bind_Ok in H as (? & Hm & _). apply refuse_Ok in Hl, Hm. apply negb_false_iff in Hm.
  split; [by apply py_set_eq_spec|]. apply andb_false_iff in Hl as [Hl|Hl].
  - apply negb_false_iff, bool_decide_eq_true in Hl. rewrite Hl. exists (pg_operation_ids p). by rewrite app_nil_r.
  - apply negb_false_iff, bool_decide_eq_true in Hl. unfold last_n in Hl.
    set (n := (length (pg_operation_ids p) - length (pg_release_operation_ids p))%nat) in *.
    exists (take n (pg_operation_ids p)). rewrite <- (take_drop n (pg_operation_ids p)) at 1. by rewrite Hl.
Qed.

Lemma Forall2_zip_snd {A B C} (R : A * B -> C -> Prop) l1 l2 l3 :
  length l1 = length l2 -> Forall2 R (zip l1 l2) l3 -> Forall2 (fun b x => exists a, R (a, b) x) l2 l3.
Proof.
  revert l2 l3; induction l1 as [|a l1 IH]; intros [|b l2] l3; cbn; try done.
  - intros _ F. inversion F. constructor.
  - intros [= E] F. inversion F; subst. constructor; [by exists a|by apply IH].
Qed.

Section Partition.
Context (d : OperationsDocument) (c : ProductionExecutionContext) (g : generation_plan) (Hg : plan_facts d c g).

Lemma programs_of_groups programs :
  Forall2 (fun rk p => exists s t, program_of c g (fst rk) (snd rk) s t p)
    (enumerate1 (group_keys d (gp_planned g))) programs ->
  concat (map pg_operation_ids programs) =
    map planned_id (concat (map (group_operations (gp_planned g)) (group_keys d (gp_planned g)))).
Proof.
  unfold enumerate1. intros F%Forall2_zip_snd; [|rewrite length_seqZ; lia].
  induction F as [|k p ks ps (i & s & t & P) _ IH]; cbn; [done|]. cbn [fst snd] in P.
  by rewrite IH, map_app, (po_operations _ _ _ _ _ _ _ P).
Qed.

(** The release operations of a program are its release contours. *)
Lemma program_releases i k s t p o :
  program_of c g i k s t p -> o ∈ od_operations d -> op_operation_id o ∈ pg_operation_ids p ->
  op_operation_id o ∈ pg_release_operation_ids p <-> is_release_contour o = true.
Proof.
  intros P Ho Hin. rewrite (po_releases _ _ _ _ _ _ _ P). rewrite (po_operations _ _ _ _ _ _ _ P) in Hin.
  assert (same : forall q, q ∈ group_operations (gp_planned g) k -> planned_id q = op_operation_id o -> fst q = o).
  { intros q Hq E. apply (group_operations_elem g) in Hq as [Hq _].
    assert (fst q ∈ od_operations d) as Hq' by (rewrite <- (gf_operations d c g Hg); by apply list_elem_of_fmap_2).
    apply (inj_on_NoDup op_operation_id (od_operations d)); [apply (gf_unique d c g Hg)|done..]. }
  split.
  - intros (q & E & Hq)%list_elem_of_fmap. apply list_elem_of_In, filter_In in Hq as [Hq R].
    apply list_elem_of_In in Hq. by rewrite <- (same q Hq (eq_sym E)).
  - intros R. apply list_elem_of_fmap in Hin as (q & E & Hq). apply list_elem_of_fmap. exists q. split; [done|].
    apply list_elem_of_In, filter_In. split; [by apply list_elem_of_In|]. by rewrite (same q Hq (eq_sym E)).
Qed.
End Partition.

(** C19: Every operation of the document is cut by exactly one program: the
    operations of the programs are those of the document, each once; the moves
    of a program are moves of its operations and of all of them; the operations
    a program is said to release are the through outside contours among its
    operations, and they are its last ones; and a program that releases parts is
    not followed by one on the same physical sheet. *)
Theorem programs_cut_every_operation_once d c result :
  generate_production_toolpaths d c = Ok result ->
  concat (map pg_operation_ids (pt_programs result)) ≡ₚ map op_operation_id (od_operations d) /\
  NoDup (map op_operation_id (od_operations d)) /\
  (forall p, p ∈ pt_programs result ->
    (forall id, id ∈ map mv_operation_id (pg_moves p) <-> id ∈ pg_operation_ids p) /\
    (forall o, o ∈ od_operations d -> op_operation_id o ∈ pg_operation_ids p ->
       (op_operation_id o ∈ pg_release_operation_ids p <-> is_release_contour o = true)) /\
    exists before, pg_operation_ids p = before ++ pg_release_operation_ids p) /\
  pairwise (keeps_parts c) (pt_programs result).
Proof.
  intros H. apply generated_programs in H as (g & Hg & Hd & Hctx & F).
  pose proof (gf_operations d c g Hg) as Hops. pose proof (gf_unique d c g Hg) as Hnd. split; [|split; [done|split]].
  - rewrite (programs_of_groups d c g _ F), group_keys_partition, <- Hops, map_map. done.
  - intros p Hp. apply (Forall2_elem_r _ _ _ _ F) in Hp as ([i k] & _ & s & t & P). cbn [fst snd] in P.
    destruct (program_lists p (po_checked _ _ _ _ _ _ _ P)) as [Hm Hb]. split; [done|]. split; [|done].
    intros o. apply (program_releases d c g Hg i k s t p o P).
  - unfold new_ProductionToolpathDocument in Hd. rewrite Hctx in Hd.
    repeat match type of Hd with mbind _ (foldM _ _ _) = Ok _ => fail 1 | mbind _ _ = Ok _ => apply bind_Ok in Hd as (? & _ & Hd) end.
    apply bind_Ok in Hd as (released & Hr & _). by apply releases_come_last in Hr as [_ ?].
Qed.
