(* ===== verification/PocketCoverage.v ===== *)
(** * A pocket is cleared

    The raster lanes, the boundary pass and the relief plunges of
    [_generate_raster_moves] leave nothing standing: every point of the area,
    up to the process accuracy at its closed edges, lies under the cutter of
    some cut at the full depth. *)

From Stdlib Require Import QArith Qround Lqa.
From S2P Require Import Prelude Text ManufacturingModel Machining CamValidation ProductionModel ToolpathGeometry CapsuleGeometry ToolpathContracts Toolpaths ToolpathSafety ToolpathPrograms.

(** ** Lanes *)

Lemma py_range_elem start stop step v :
  0 < step -> v ∈ py_range start stop step <-> exists k, 0 <= k /\ v = start + k * step /\ v < stop.
Proof.
  intros Hs. unfold py_range. rewrite list_elem_of_fmap. split.
  - intros (k & -> & Hk%elem_of_seqZ). exists k. split; [lia|]. split; [done|].
    assert (0 < (stop - start + step - 1) / step) by lia.
    pose proof (Z.mul_div_le (stop - start + step - 1) step Hs). nia.
  - intros (k & Hk & -> & Hv). exists k. split; [done|]. apply elem_of_seqZ. split; [done|].
    assert (k + 1 <= (stop - start + step - 1) / step) by (apply Z.div_le_lower_bound; [done|nia]). lia.
Qed.

Lemma inclusive_lanes_elem minimum maximum step lanes :
  0 < step -> inclusive_lanes minimum maximum step = Ok lanes ->
  maximum ∈ lanes /\ forall k, 0 <= k -> minimum + k * step <= maximum -> minimum + k * step ∈ lanes.
Proof.
  unfold inclusive_lanes. intros Hs H. cbv zeta in H. apply bind_Ok in H as (final & Hf%of_option_Ok & H). injection H as <-.
  assert (forall k, 0 <= k -> minimum + k * step <= maximum ->
    minimum + k * step ∈ py_range minimum (maximum + 1) step) as Hin.
  { intros k Hk Hle. apply py_range_elem; [done|]. exists k. lia. }
  destruct (Z.eqb_spec final maximum) as [->|]; cbn [negb].
  - split; [|done]. by apply last_Some_elem_of.
  - split; [set_solver|]. intros k Hk Hle. apply elem_of_app. left. by apply Hin.
Qed.

(** No point between the extreme lanes is farther than half a step from a lane. *)
Lemma lane_near minimum maximum step lanes (y : Q) :
  0 < step -> inclusive_lanes minimum maximum step = Ok lanes ->
  (inject_Z minimum <= y)%Q -> (y <= inject_Z maximum)%Q ->
  exists v, v ∈ lanes /\ (2 * (y - inject_Z v) <= inject_Z step)%Q /\ (- inject_Z step <= 2 * (y - inject_Z v))%Q.
Proof.
  intros Hs H Y0 Y1. destruct (inclusive_lanes_elem _ _ _ _ Hs H) as [Hmax Hin].
  assert (0 < inject_Z step)%Q as Hq by (rewrite Zlt_Qlt in Hs; exact Hs).
  set (k := Qfloor ((y - inject_Z minimum) / inject_Z step)).
  pose proof (Qfloor_le ((y - inject_Z minimum) / inject_Z step)) as F0.
  pose proof (Qlt_floor ((y - inject_Z minimum) / inject_Z step)) as F1. fold k in F0, F1.
  assert (inject_Z k * inject_Z step <= y - inject_Z minimum)%Q as K0.
  { apply (Qmult_le_compat_r _ _ (inject_Z step)) in F0; [|lra].
    assert ((y - inject_Z minimum) / inject_Z step * inject_Z step == y - inject_Z minimum)%Q as E by (field; lra). lra. }
  assert (y - inject_Z minimum < (inject_Z k + 1) * inject_Z step)%Q as K1.
  { rewrite inject_Z_plus in F1. apply (Qmult_lt_compat_r _ _ (inject_Z step)) in F1; [|done].
    assert ((y - inject_Z minimum) / inject_Z step * inject_Z step == y - inject_Z minimum)%Q as E by (field; lra).
    change (inject_Z 1) with 1%Q in F1. lra. }
  assert (0 <= k) as Hk.
  { assert (0 < inject_Z k + 1)%Q as P.
    { apply Qnot_le_lt. intros C. assert ((inject_Z k + 1) * inject_Z step <= 0)%Q by nra. lra. }
    change 1%Q with (inject_Z 1) in P. rewrite <- inject_Z_plus in P. change 0%Q with (inject_Z 0) in P.
    rewrite <- Zlt_Qlt in P. lia. }
  set (v := minimum + k * step). assert (inject_Z v == inject_Z minimum + inject_Z k * inject_Z step)%Q as Ev.
  { unfold v. by rewrite inject_Z_plus, inject_Z_mult. }
  assert (v <= maximum) as Hv by (rewrite Zle_Qle; lra).
  destruct (Qlt_le_dec (inject_Z step) (2 * (y - inject_Z v))) as [Far|Near].
  - destruct (Z.le_gt_cases (v + step) maximum) as [Hn|Hn].
    + exists (v + step). split; [replace (v + step) with (minimum + (k + 1) * step) by (unfold v; ring); apply Hin; unfold v in *; nia|].
      rewrite inject_Z_plus. split; lra.
    + exists maximum. split; [done|]. rewrite Zlt_Qlt, inject_Z_plus in Hn. split; lra.
  - exists v. split; [by apply Hin|]. split; [done|]. lra.
Qed.

(** ** Straight sweeps *)

Definition between (a b : Z) (x : Q) : Prop := (inject_Z (Z.min a b) <= x <= inject_Z (Z.max a b))%Q.

Lemma between_fraction a b (x : Q) :
  between a b x -> exists t, in_unit t /\ (inject_Z a + t * (inject_Z b - inject_Z a) == x)%Q.
Proof.
  intros [H0 H1]. destruct (Z.le_ge_cases a b) as [O|O].
  - rewrite Z.min_l in H0 by done. rewrite Z.max_r in H1 by done.
    destruct (linear_cross (inject_Z a) (inject_Z b - inject_Z a) x 0 1) as (t & T & E); [lra..|]. by exists t.
  - rewrite Z.min_r in H0 by done. rewrite Z.max_l in H1 by done.
    destruct (linear_cross_down (inject_Z a) (inject_Z b - inject_Z a) x 0 1) as (t & T & E); [lra..|]. by exists t.
Qed.

Lemma square_le (d r : Q) : (- r <= d <= r -> d * d <= r * r)%Q.
Proof. intros [? ?]. nra. Qed.

Lemma under_horizontal x0 x1 y0 radius_um (q : qpoint) :
  between x0 x1 (fst q) -> (- inject_Z radius_um <= inject_Z y0 - snd q <= inject_Z radius_um)%Q ->
  within_capsule (x0, y0) (x1, y0) radius_um q.
Proof.
  intros (t & T & E)%between_fraction H. exists t. split; [done|]. unfold distance2, along. cbn [fst snd].
  apply square_le in H. assert (fst q == inject_Z x0 + t * (inject_Z x1 - inject_Z x0))%Q as -> by (by symmetry). lra.
Qed.

Lemma under_vertical x0 y0 y1 radius_um (q : qpoint) :
  between y0 y1 (snd q) -> (- inject_Z radius_um <= inject_Z x0 - fst q <= inject_Z radius_um)%Q ->
  within_capsule (x0, y0) (x0, y1) radius_um q.
Proof.
  intros (t & T & E)%between_fraction H. exists t. split; [done|]. unfold distance2, along. cbn [fst snd].
  apply square_le in H. assert (snd q == inject_Z y0 + t * (inject_Z y1 - inject_Z y0))%Q as -> by (by symmetry). lra.
Qed.

(** The points a rectangle of cutter centres is to clear with radius [rho]: at
    most [rho] beyond one pair of its sides. *)
Definition to_clear (bounds : Z * Z * Z * Z) (rho : Z) (q : qpoint) : Prop :=
  let '(l, r, b, t) := bounds in
  (inject_Z l <= fst q <= inject_Z r)%Q /\ (inject_Z (b - rho) <= snd q <= inject_Z (t + rho))%Q \/
  (inject_Z (l - rho) <= fst q <= inject_Z (r + rho))%Q /\ (inject_Z b <= snd q <= inject_Z t)%Q.

Lemma zip_seqZ_elem {A} (l : list A) (x : A) start :
  x ∈ l -> exists i, (i, x) ∈ zip (seqZ start (Z.of_nat (length l))) l.
Proof.
  intros Hx. assert (x ∈ snd <$> zip (seqZ start (Z.of_nat (length l))) l) as H.
  { rewrite snd_zip; [done|]. rewrite length_seqZ. lia. }
  apply list_elem_of_fmap in H as ([i y] & -> & H). by exists i.
Qed.

(** The lanes and the boundary clear everything. *)
Lemma lanes_clear l r b t step rho raster q :
  0 < step -> step <= 2 * rho -> l < r -> b < t ->
  raster_lines l r b t step = Ok raster -> to_clear (l, r, b, t) rho q ->
  exists A B, within_capsule A B rho q /\
    ((A, B) ∈ raster \/ A <> B /\ (A, B) ∈ zip (boundary_of (l, r, b, t)) (tail (boundary_of (l, r, b, t)))).
Proof.
  intros Hs Hrho Hlr Hbt H Hq. unfold raster_lines in H. apply bind_Ok in H as (? & _ & H).
  unfold boundary_of. cbn [tail zip zip_with].
  assert (0 <= rho) as Hr0 by lia.
  pose proof Hlr as Hlr'. pose proof Hbt as Hbt'. pose proof Hs as Hs'. pose proof Hrho as Hrho'. pose proof Hr0 as Hr0'.
  rewrite Zlt_Qlt in Hlr', Hbt', Hs'. rewrite Zle_Qle, inject_Z_mult in Hrho'. rewrite Zle_Qle in Hr0'.
  change (inject_Z 2) with 2%Q in Hrho'. change (inject_Z 0) with 0%Q in Hs', Hr0'.
  unfold to_clear, Z.sub in Hq. rewrite !inject_Z_plus, inject_Z_opp in Hq.
  (* beyond a side: the boundary; between the sides: a lane *)
  destruct (Qlt_le_dec (snd q) (inject_Z b)) as [B|B].
  { exists (l, b), (r, b). split; [|right; split; [intros [= ->]; lia|left]].
    apply under_horizontal; unfold between; rewrite ?Z.min_l, ?Z.max_r by lia; lra. }
  destruct (Qlt_le_dec (inject_Z t) (snd q)) as [T|T].
  { exists (r, t), (l, t). split; [|right; split; [intros [= ->]; lia|right; right; left]].
    apply under_horizontal; unfold between; rewrite ?Z.min_r, ?Z.max_l by lia; lra. }
  destruct (Qlt_le_dec (fst q) (inject_Z l)) as [L|L].
  { exists (l, t), (l, b). split; [|right; split; [intros [= ->]; lia|right; right; right; left]].
    apply under_vertical; unfold between; rewrite ?Z.min_r, ?Z.max_l by lia; lra. }
  destruct (Qlt_le_dec (inject_Z r) (fst q)) as [R|R].
  { exists (r, b), (r, t). split; [|right; split; [intros [= ->]; lia|right; left]].
    apply under_vertical; unfold between; rewrite ?Z.min_l, ?Z.max_r by lia; lra. }
  clear Hq. destruct (t - b <=? r - l).
  - apply bind_Ok in H as (lanes & Hl & H). injection H as <-.
    destruct (lane_near _ _ _ _ (snd q) Hs Hl B T) as (v & Hv & V1 & V0).
    destruct (zip_seqZ_elem lanes v 0 Hv) as [i Hi].
    assert (within_capsule (l, v) (r, v) rho q /\ within_capsule (r, v) (l, v) rho q) as [W1 W2].
    { split; apply under_horizontal; unfold between; rewrite ?Z.min_l, ?Z.max_r, ?Z.min_r, ?Z.max_l by lia; lra. }
    exists (fst (lane i (l, v) (r, v))), (snd (lane i (l, v) (r, v))). split.
    + unfold lane. by destruct (i mod 2 =? 0).
    + left. rewrite <- surjective_pairing. apply list_elem_of_fmap. by exists (i, v).
  - apply bind_Ok in H as (lanes & Hl & H). injection H as <-.
    destruct (lane_near _ _ _ _ (fst q) Hs Hl L R) as (v & Hv & V1 & V0).
    destruct (zip_seqZ_elem lanes v 0 Hv) as [i Hi].
    assert (within_capsule (v, b) (v, t) rho q /\ within_capsule (v, t) (v, b) rho q) as [W1 W2].
    { split; apply under_vertical; unfold between; rewrite ?Z.min_l, ?Z.max_r, ?Z.min_r, ?Z.max_l by lia; lra. }
    exists (fst (lane i (v, b) (v, t))), (snd (lane i (v, b) (v, t))). split.
    + unfold lane. by destruct (i mod 2 =? 0).
    + left. rewrite <- surjective_pairing. apply list_elem_of_fmap. by exists (i, v).
Qed.

(** ** The cuts of a list of moves *)

(** A cut from [A] to [B] at height [z]. *)
Definition has_cut (o : CAMOperation) (z : Z) (ms : list ProductionMove) (A B : point) : Prop :=
  exists pre m1 m2 post, ms = pre ++ m1 :: m2 :: post /\ move_xy m1 = A /\ move_xy m2 = B /\
    mv_kind m2 = LINEAR /\ mv_operation_id m2 = op_operation_id o /\ mv_z_um m1 = z /\ mv_z_um m2 = z.

(** A plunge at [A] to height [z]. *)
Definition has_plunge (o : CAMOperation) (z : Z) (ms : list ProductionMove) (A : point) : Prop :=
  exists m, m ∈ ms /\ move_xy m = A /\ mv_kind m = LINEAR /\ mv_operation_id m = op_operation_id o /\ mv_z_um m = z.

Definition extends (ms ms' : list ProductionMove) : Prop := exists added, ms' = ms ++ added.

#[export] Instance extends_preorder : PreOrder extends.
Proof.
  split.
  - intros ms. exists []. by rewrite app_nil_r.
  - intros l1 l2 l3 [a1 ->] [a2 ->]. exists (a1 ++ a2). by rewrite app_assoc.
Qed.

Lemma has_cut_extends o z ms ms' A B : extends ms ms' -> has_cut o z ms A B -> has_cut o z ms' A B.
Proof.
  intros [added ->] (pre & m1 & m2 & post & -> & H). exists pre, m1, m2, (post ++ added). split; [|done].
  by rewrite <- app_assoc.
Qed.

Lemma has_plunge_extends o z ms ms' A : extends ms ms' -> has_plunge o z ms A -> has_plunge o z ms' A.
Proof. intros [added ->] (m & Hm & H). exists m. split; [set_solver|done]. Qed.

Section Cuts.
Context (c : ProductionExecutionContext) (s : BoundSetup) (t : ProductionToolBinding) (outlines : list PartOutline).
Context (o : CAMOperation) (r : CuttingRecipe).

(** The last move ended at [q], at height [z]. *)
Definition ends_at (q : point) (z : Z) (ms : list ProductionMove) : Prop :=
  exists m, last ms = Some m /\ move_xy m = q /\ mv_z_um m = z.

Lemma add_appends pass kind role q z feed ms ms' :
  add c s t o pass kind role q z feed ms = Ok ms' ->
  exists m, ms' = ms ++ [m] /\ move_xy m = q /\ mv_z_um m = z /\ mv_kind m = kind /\ mv_operation_id m = op_operation_id o.
Proof.
  unfold add. intros H. apply bind_Ok in H as (m & Hm & H). apply bind_Ok in H as (? & _ & H). injection H as <-.
  exists m. split; [done|].
  assert (m = mkMove (Z.of_nat (length ms) + 1) (op_operation_id o) pass kind role (fst q) (snd q) z feed) as ->.
  { unfold new_ProductionMove in Hm. inv_cam. destruct kind; cbn in Hm; inv_ok; done. }
  by destruct q.
Qed.

Lemma add_extends pass kind role q z feed ms ms' :
  add c s t o pass kind role q z feed ms = Ok ms' -> extends ms ms' /\ ends_at q z ms'.
Proof.
  intros (m & -> & H1 & H2 & _)%add_appends. split; [by exists [m]|]. exists m. by rewrite last_snoc.
Qed.

Lemma cut_makes pass role q z feed ms ms' A :
  ends_at A z ms -> cut c s t outlines o r pass role q z feed ms = Ok ms' ->
  extends ms ms' /\ ends_at q z ms' /\ has_cut o z ms' A q.
Proof.
  intros (m1 & Hl & E1 & Z1) H. unfold cut in H. apply bind_Ok in H as (? & _ & H). apply bind_Ok in H as (? & _ & H).
  apply add_appends in H as (m2 & -> & E2 & Z2 & K & I). split; [by exists [m2]|].
  split; [exists m2; by rewrite last_snoc|]. apply last_Some in Hl as [pre ->]. exists pre, m1, m2, [].
  by rewrite <- app_assoc.
Qed.

Lemma plunge_makes pass q z ms ms' :
  plunge c s t outlines o r pass q z ms = Ok ms' -> extends ms ms' /\ ends_at q z ms' /\ has_plunge o z ms' q.
Proof.
  intros H. unfold plunge, cut in H. apply bind_Ok in H as (? & _ & H). apply bind_Ok in H as (? & _ & H).
  apply add_appends in H as (m & -> & E & Hz & K & I). split; [by exists [m]|].
  split; [exists m; by rewrite last_snoc|]. exists m. split; [set_solver|done].
Qed.

Lemma position_extends pass q ms ms' : position c s t o r pass q ms = Ok ms' -> extends ms ms'.
Proof.
  unfold position. intros H. apply bind_Ok in H as (? & _ & H). apply bind_Ok in H as (ms1 & H1 & H).
  apply add_extends in H1 as [E1 _]. apply add_extends in H as [E2 _]. by etransitivity.
Qed.

(** A loop whose passes append and establish something that lasts. *)
Lemma each_makes {A} (f : A -> moves_so_far -> result moves_so_far) (Q : A -> list ProductionMove -> Prop) l ms ms' :
  (forall x ms ms', x ∈ l -> f x ms = Ok ms' -> extends ms ms' /\ Q x ms') ->
  (forall x ms ms', extends ms ms' -> Q x ms -> Q x ms') ->
  each f l ms = Ok ms' -> extends ms ms' /\ forall x, x ∈ l -> Q x ms'.
Proof.
  intros Hf HQ. revert ms. induction l as [|x l IH]; intros ms H.
  - injection H as <-. split; [done|]. by intros x ?%not_elem_of_nil.
  - unfold each in H. cbn in H. apply bind_Ok in H as (ms1 & H1 & H). apply Hf in H1 as [E1 Q1]; [|left].
    apply IH in H as [E2 Q2]; [|intros y ? ? Hy; apply Hf; by right]. split; [by etransitivity|].
    intros y [->|Hy]%elem_of_cons; [by apply (HQ x ms1)|by apply Q2].
Qed.

(** All lanes after the first. *)
Lemma lanes_cut pass z lines here ms ms' :
  ends_at here z ms -> Forall (fun line : Z * (point * point) => (fst line =? 0) = false) lines ->
  each (fun line ms =>
    ms ← (if fst line =? 0 then Ok ms
          else cut c s t outlines o r pass CUT (fst (snd line)) z (cr_feed_um_min r) ms);
    cut c s t outlines o r pass CUT (snd (snd line)) z (cr_feed_um_min r) ms) lines ms = Ok ms' ->
  extends ms ms' /\ (exists there, ends_at there z ms' /\ there = match last lines with Some l => snd (snd l) | None => here end) /\
  forall line, line ∈ lines -> has_cut o z ms' (fst (snd line)) (snd (snd line)).
Proof.
  revert here ms. induction lines as [|line lines IH]; intros here ms He F H.
  - injection H as <-. split; [done|]. split; [by exists here|]. by intros line ?%not_elem_of_nil.
  - unfold each in H. cbn in H. apply Forall_cons in F as [F1 F]. rewrite F1 in H.
    apply bind_Ok in H as (ms2 & H12 & H). apply bind_Ok in H12 as (ms1 & H1 & H2).
    apply (cut_makes _ _ _ _ _ _ _ _ He) in H1 as (X1 & E1 & _). apply (cut_makes _ _ _ _ _ _ _ _ E1) in H2 as (X2 & E2 & C).
    destruct (IH _ _ E2 F H) as (X & (there & T & ET) & Call). split; [by rewrite X1, X2|]. split.
    + exists there. split; [done|]. destruct lines as [|l' lines]; [exact ET|]. rewrite last_cons_cons.
      destruct (last (l' :: lines)) eqn:L; [done|]. by apply last_None in L.
    + intros l [->|Hl]%elem_of_cons; [by apply (has_cut_extends _ _ ms2)|by apply Call].
Qed.

Lemma seqZ_above start n : 0 < start -> Forall (fun i => (i =? 0) = false) (seqZ start n).
Proof. intros H. apply Forall_forall. intros i Hi%elem_of_seqZ. apply Z.eqb_neq. lia. Qed.

Lemma raster_cut pass z raster first ms ms' :
  head raster = Some first -> ends_at (fst first) z ms ->
  raster_rest c s t outlines o r pass z raster ms = Ok ms' ->
  extends ms ms' /\ (forall final, last raster = Some final -> ends_at (snd final) z ms') /\
  forall line, line ∈ raster -> has_cut o z ms' (fst line) (snd line).
Proof.
  intros Hf He H. destruct raster as [|first' rest]; [done|]. injection Hf as ->.
  unfold raster_rest in H. change (length (first :: rest)) with (S (length rest)) in H.
  rewrite Nat2Z.inj_succ, <- Z.add_1_l, seqZ_app in H by lia. change (seqZ 0 1) with [0] in H.
  unfold each in H. cbn [app zip zip_with foldM fst snd] in H.
  apply bind_Ok in H as (ms1 & H1 & H). cbn [Z.eqb mbind result_bind] in H1.
  apply (cut_makes _ _ _ _ _ _ _ _ He) in H1 as (X1 & E1 & C1).
  assert (Forall (fun line : Z * (point * point) => (fst line =? 0) = false) (zip (seqZ (0 + 1) (Z.of_nat (length rest))) rest)) as F.
  { pose proof (seqZ_above (0 + 1) (Z.of_nat (length rest)) ltac:(lia)) as F. rewrite Forall_forall in F.
    apply Forall_forall. intros [i x] Hi. cbn. apply F. by apply elem_of_zip_l in Hi. }
  destruct (lanes_cut pass z _ _ _ _ E1 F H) as (X & (there & T & ET) & C). split; [by etransitivity|].
  assert (snd <$> zip (seqZ (0 + 1) (Z.of_nat (length rest))) rest = rest) as Hsnd by (apply snd_zip; rewrite length_seqZ; lia).
  split.
  - intros final Hl. assert (there = snd final) as <-; [|done]. rewrite ET.
    assert (last (snd <$> zip (seqZ (0 + 1) (Z.of_nat (length rest))) rest) = last rest) as L by by rewrite Hsnd.
    rewrite fmap_last in L. destruct rest as [|x rest].
    + injection Hl as <-. by destruct (last (zip _ _)).
    + rewrite last_cons_cons in Hl. rewrite Hl in L. destruct (last (zip _ _)) as [l|]; [|done].
      cbn in L. injection L as <-. done.
  - intros line [->|Hl]%elem_of_cons; [by apply (has_cut_extends _ _ ms1)|].
    destruct (zip_seqZ_elem rest line (0 + 1) Hl) as [i Hi]. apply (C _ Hi).
Qed.

(** The boundary is cut side by side. *)
Lemma boundary_cut pass z boundary here ms swept :
  ends_at here z ms -> boundary_moves c s t outlines o r pass z boundary here ms = Ok swept ->
  extends ms (fst swept) /\ ends_at (snd swept) z (fst swept) /\
  forall A B, (A, B) ∈ zip (here :: boundary) boundary -> A <> B -> has_cut o z (fst swept) A B.
Proof.
  revert here ms. induction boundary as [|q rest IH]; intros here ms He H; cbn [boundary_moves] in H.
  - injection H as <-. split; [done|]. split; [done|]. by intros A B ?%not_elem_of_nil.
  - case_bool_decide as E.
    + subst q. destruct (IH _ _ He H) as (X & E' & C). split; [done|]. split; [done|].
      intros A B [[= -> ->]|Hin]%elem_of_cons Hne; [done|by apply C].
    + apply bind_Ok in H as (ms1 & H1 & H). apply (cut_makes _ _ _ _ _ _ _ _ He) in H1 as (X1 & E1 & C1).
      destruct (IH _ _ E1 H) as (X & E' & C). split; [by etransitivity|]. split; [done|].
      intros A B [[= -> ->]|Hin]%elem_of_cons Hne; [by apply (has_cut_extends _ _ ms1)|by apply C].
Qed.

(** One pass sweeps every lane, every side and every relief. *)
Lemma raster_pass_cuts bounds raster relief i z ms ms' :
  raster_pass c s t outlines o r bounds raster relief (i, z) ms = Ok ms' ->
  extends ms ms' /\
  (forall A B, (A, B) ∈ raster \/ A <> B /\ (A, B) ∈ zip (boundary_of bounds) (tail (boundary_of bounds)) ->
     has_cut o z ms' A B) /\
  forall q, q ∈ relief -> has_plunge o z ms' q.
Proof.
  unfold raster_pass. intros H. apply bind_Ok in H as (first & Hf%of_option_Ok & H).
  apply bind_Ok in H as (ms1 & H1 & H). apply bind_Ok in H as (ms2 & H2 & H). apply bind_Ok in H as (ms3 & H3 & H).
  apply bind_Ok in H as (final & Hl%of_option_Ok & H). apply bind_Ok in H as ([ms4 there] & H4 & H).
  apply bind_Ok in H as (ms5 & H5 & H). cbn [fst snd] in H5.
  apply position_extends in H1. apply plunge_makes in H2 as (X2 & E2 & _).
  apply (raster_cut _ _ _ _ _ _ Hf E2) in H3 as (X3 & E3 & C3).
  apply (boundary_cut _ _ _ _ _ _ (E3 _ Hl)) in H4 as (X4 & _ & C4). cbn [fst snd] in *.
  apply add_extends in H5 as [X5 _].
  apply (each_makes _ (fun q ms => has_plunge o z ms q)) in H as [X6 C6].
  - assert (extends ms3 ms') as X36 by (by rewrite X4, X5, X6).
    assert (extends ms4 ms') as X46 by (by rewrite X5, X6).
    split; [by rewrite H1, X2, X3|]. split; [|done]. intros A B [Hin|[Hne Hin]].
    + apply (has_cut_extends _ _ ms3 ms' _ _ X36). by apply (C3 (A, B)).
    + apply (has_cut_extends _ _ ms4 ms' _ _ X46). apply C4; [|done].
      destruct bounds as [[[l ri] b] tp]. cbn [boundary_of tail zip zip_with] in *. by right.
  - intros q ma mb _ Hm. apply bind_Ok in Hm as (m1 & K1 & Hm). apply bind_Ok in Hm as (m2 & K2 & Hm).
    apply position_extends in K1. apply plunge_makes in K2 as (Y2 & _ & P). apply add_extends in Hm as [Y3 _].
    split; [by rewrite K1, Y2|by apply (has_plunge_extends _ _ m2)].
  - intros q ma mb. apply has_plunge_extends.
Qed.
End Cuts.

(** ** The last pass reaches the depth *)

Lemma levels_reach target stepdown levels :
  depth_levels_um target stepdown = Ok levels -> exists i, (i, - target) ∈ enumerate1 levels.
Proof.
  unfold depth_levels_um. intros H. inv_cam.
  match goal with E : (target <=? 0) = false |- _ => apply Z.leb_gt in E; rename E into Ht end.
  match goal with E : (stepdown <=? 0) = false |- _ => apply Z.leb_gt in E; rename E into Hs end.
  injection H as <-. apply zip_seqZ_elem, list_elem_of_fmap.
  set (k := (target - 1) / stepdown). exists (stepdown + k * stepdown).
  pose proof (Z.mul_div_le (target - 1) stepdown Hs). pose proof (Z.mul_succ_div_gt (target - 1) stepdown Hs). fold k in H, H0.
  assert (0 <= k) by (apply Z.div_pos; lia).
  split; [rewrite Z.min_r by nia; done|]. apply py_range_elem; [done|]. exists k. split; [done|]. split; [done|]. nia.
Qed.

(** ** What the contract of an area gives *)

Record area_facts (o : CAMOperation) (t : ProductionToolBinding) (r : CuttingRecipe) (bounds : Z * Z * Z * Z) : Prop := {
  af_nonempty : let '(l, ri, b, tp) := bounds in l < ri /\ b < tp;
  af_step : stepover_um t r + 2 * cr_process_accuracy_um r <= tb_effective_diameter_um t }.

Lemma area_bounds_wide o radius_um nominal bounds :
  0 <= radius_um -> nominal_envelope o = Some nominal ->
  2 * radius_um < r_width_um nominal -> 2 * radius_um < r_height_um nominal ->
  area_raster_bounds o radius_um = Ok bounds -> let '(l, ri, b, tp) := bounds in l < ri /\ b < tp.
Proof.
  intros Hr En Hw Hh H. unfold area_raster_bounds in H. apply bind_Ok in H as ([w len] & Hsize & H).
  apply bind_Ok in H as (opened & _ & H). injection H as <-. cbn [fst snd].
  assert (r_width_um nominal = w /\ r_height_um nominal = len) as [<- <-].
  { unfold asserted_size in Hsize. apply bind_Ok in Hsize as (w' & E1%of_option_Ok & Hsize).
    apply bind_Ok in Hsize as (l' & E2%of_option_Ok & Hsize). injection Hsize as <- <-.
    unfold nominal_envelope in En. rewrite E1, E2 in En. by injection En as <-. }
  assert (forall e, 0 <= (if bool_decide (e ∈ opened) then 0 else radius_um) <= radius_um) as I by (intros e; case_bool_decide; lia).
  pose proof (I "x_min"). pose proof (I "x_max"). pose proof (I "y_min"). pose proof (I "y_max"). lia.
Qed.

Lemma area_contract_facts o s t r bounds :
  0 <= radius_of_binding t -> validate_area_contract o s t r = Ok () ->
  area_raster_bounds o (radius_of_binding t) = Ok bounds -> area_facts o t r bounds.
Proof.
  intros Hr H Hb. unfold validate_area_contract in H. apply bind_Ok in H as (? & _ & H).
  apply bind_Ok in H as (nominal & En%of_option_Ok & H). apply bind_Ok in H as (? & _ & H).
  apply bind_Ok in H as (? & Hsize & H). apply bind_Ok in H as (? & _ & H). apply bind_Ok in H as (? & Hstep & H).
  apply refuse_op_Ok, Z.leb_gt in Hsize. apply refuse_op_Ok, Z.ltb_ge in Hstep.
  assert (2 * radius_of_binding t <= tb_effective_diameter_um t) by (unfold radius_of_binding; apply Z.mul_div_le; lia).
  split; [|done]. apply (area_bounds_wide o (radius_of_binding t) nominal); (done || lia).
Qed.

(** The moves of an area clear it, at the depth of the operation. *)
Definition area_cleared (o : CAMOperation) (t : ProductionToolBinding) (r : CuttingRecipe) (moves : list ProductionMove)
    : Prop :=
  exists bounds centres,
    area_raster_bounds o (radius_of_binding t) = Ok bounds /\ dogbone_centres o = Ok centres /\
    (forall q, to_clear bounds (radius_of_binding t - cr_process_accuracy_um r) q ->
       exists A B, has_cut o (- op_depth_um o) moves A B /\
         within_capsule A B (radius_of_binding t - cr_process_accuracy_um r) q) /\
    forall centre, centre ∈ centres -> has_plunge o (- op_depth_um o) moves centre.

Lemma area_cleared_extends o t r ms ms' : extends ms ms' -> area_cleared o t r ms -> area_cleared o t r ms'.
Proof.
  intros X (bounds & centres & Hb & Hc & H1 & H2). exists bounds, centres. split; [done|]. split; [done|]. split.
  - intros q Hq. destruct (H1 q Hq) as (A & B & C & W). exists A, B. split; [by apply (has_cut_extends _ _ ms)|done].
  - intros centre Hin. apply (has_plunge_extends _ _ ms); [done|by apply H2].
Qed.

Section Area.
Context (c : ProductionExecutionContext) (s : BoundSetup) (t : ProductionToolBinding) (outlines : list PartOutline).
Context (o : CAMOperation) (r : CuttingRecipe).
Context (Hrad : 0 <= radius_of_binding t) (Heven : tb_effective_diameter_um t mod 2 = 0).

Lemma raster_clears ms ms' :
  validate_area_contract o s t r = Ok () -> target_depth_um o s r = Ok (op_depth_um o) ->
  generate_raster_moves c s t outlines o r ms = Ok ms' -> area_cleared o t r ms'.
Proof.
  intros Hcontract Htarget H. unfold generate_raster_moves in H. rewrite Htarget in H.
  apply bind_Ok in H as (? & _ & H). apply bind_Ok in H as ([[[l ri] b] tp] & Hb & H).
  apply bind_Ok in H as (? & Hstep & H). apply bind_Ok in H as (raster & Hraster & H).
  apply bind_Ok in H as (centres & Hc & H). cbn [mbind result_bind] in H. apply bind_Ok in H as (levels & Hl & H).
  apply refuse_op_Ok, Z.leb_gt in Hstep. destruct (area_contract_facts _ _ _ _ _ Hrad Hcontract Hb) as [[Hx Hy] Hs].
  destruct (levels_reach _ _ _ Hl) as [i Hi].
  apply (each_makes _ (fun level ms => forall A B, (A, B) ∈ raster \/ A <> B /\
      (A, B) ∈ zip (boundary_of (l, ri, b, tp)) (tail (boundary_of (l, ri, b, tp))) -> has_cut o (snd level) ms A B)) in H as H1;
    [|intros [j z] ma mb _ Hm; apply raster_pass_cuts in Hm as (X & C & _); by split
     |intros level ma mb X C A B HAB; apply (has_cut_extends _ _ ma); [done|by apply C]].
  apply (each_makes _ (fun level ms => forall q, q ∈ centres -> has_plunge o (snd level) ms q)) in H as H2;
    [|intros [j z] ma mb _ Hm; apply raster_pass_cuts in Hm as (X & _ & C); by split
     |intros level ma mb X C q Hq; apply (has_plunge_extends _ _ ma); [done|by apply C]].
  exists (l, ri, b, tp), centres. split; [done|]. split; [done|]. split.
  - intros q Hq. assert (tb_effective_diameter_um t = 2 * radius_of_binding t) as E.
    { unfold radius_of_binding. pose proof (Z.div_mod (tb_effective_diameter_um t) 2). lia. }
    destruct (lanes_clear l ri b tp (stepover_um t r) (radius_of_binding t - cr_process_accuracy_um r) raster q)
      as (A & B & W & HAB); [done|lia|done..|]. exists A, B. split; [|done]. apply (proj2 H1 (i, - op_depth_um o) Hi A B HAB).
  - apply (proj2 H2 (i, - op_depth_um o) Hi).
Qed.
End Area.

(** ** Every area of the document is cleared *)

(** An operation of a program is generated between parked positions. *)
Lemma runs_each_makes {A} allowed (P : option ProductionMove -> Prop) (f : A -> moves_so_far -> result moves_so_far)
    (Q : list ProductionMove -> Prop) l x ms ms' :
  (forall y, y ∈ l -> runs allowed P (f y) P) -> (forall ms ms', f x ms = Ok ms' -> Q ms') ->
  (forall ms ms', extends ms ms' -> Q ms -> Q ms') -> x ∈ l -> P (last ms) -> each f l ms = Ok ms' -> Q ms'.
Proof.
  intros Hf Hx HQ. revert ms. induction l as [|y l IH]; intros ms Hin HP H; [by apply not_elem_of_nil in Hin|].
  unfold each in H. cbn in H. apply bind_Ok in H as (ms1 & H1 & H).
  destruct (Hf y ltac:(left) _ _ HP H1) as [HP1 _].
  assert (forall y, y ∈ l -> runs allowed P (f y) P) as Hf' by (intros z Hz; apply (Hf z); by right).
  apply elem_of_cons in Hin as [->|Hin].
  - destruct (runs_each allowed f l P Hf' ms1 ms' HP1 H) as [_ (added & -> & _)].
    apply (HQ ms1); [by exists added|]. by apply (Hx ms).
  - by apply (IH Hf' ms1).
Qed.

(** C9: Pockets and grooves are cleared: for every area operation of the
    document, one of the generated programs, with the setup and the tool of the
    operation and a recipe of its kind, has, for every point of the area (the
    rectangle of cutter centres, widened by the cutter radius less the process
    accuracy across either pair of sides), a cut of this operation at its full
    depth that passes within that radius of the point; and a plunge to the full
    depth at every declared corner relief. *)
Theorem areas_are_cleared d c result o :
  well_formed_context c -> generate_production_toolpaths d c = Ok result ->
  o ∈ od_operations d -> is_area (op_kind o) = true ->
  exists p s t r,
    p ∈ pt_programs result /\ op_operation_id o ∈ pg_operation_ids p /\
    s ∈ pe_setups c /\ bs_setup_id s = pg_setup_id p /\ bs_setup_id s = op_setup_id o /\
    t ∈ pe_tool_bindings c /\ tb_tool_id t = pg_tool_id p /\ tb_source_tool_id t = op_tool_id o /\
    r ∈ pe_recipes c /\ cr_operation_kind r = op_kind o /\
    area_cleared o t r (pg_moves p).
Proof.
  intros Hc H Ho Harea. apply generated_programs in H as (g & Hg & _ & _ & F).
  destruct (planned_of d c g Hg o Ho) as ([o' r] & Hp & [= ->]).
  assert (group_key_of (o, r) ∈ group_keys d (gp_planned g)) as Hk.
  { unfold group_keys. rewrite (sort_by_perm (group_cmp d)). apply first_met_elem. by apply list_elem_of_fmap_2. }
  destruct (zip_seqZ_elem _ _ 1 Hk) as [i Hi]. apply (Forall2_elem_l _ _ _ _ F) in Hi as (p & Hin & s & t & P).
  cbn [fst snd] in P. pose proof (po_setup _ _ _ _ _ _ _ P) as Es. pose proof (po_tool _ _ _ _ _ _ _ P) as Et.
  cbn [group_key_of fst snd] in Es, Et.
  pose proof Es as [Hs Eid]%(gf_setups d c g Hg). pose proof Et as [Ht Etid]%(gf_tools d c g Hg).
  assert ((o, r) ∈ group_operations (gp_planned g) (group_key_of (o, r))) as Hgroup by (by apply group_operations_elem).
  exists p, s, t, r. split; [done|].
  split; [rewrite (po_operations _ _ _ _ _ _ _ P); by apply (list_elem_of_fmap_2 planned_id _ (o, r))|].
  split; [done|]. split; [by rewrite (po_setup_id _ _ _ _ _ _ _ P)|]. split; [done|]. split; [done|].
  split; [by rewrite (po_tool_id _ _ _ _ _ _ _ P)|]. split; [done|].
  destruct (gf_planned d c g Hg _ Hp) as (s' & t' & target & Q). cbn [fst snd] in Q.
  pose proof (pf_setup _ _ _ _ _ _ _ Q) as E1. pose proof (pf_tool _ _ _ _ _ _ _ Q) as E2.
  rewrite Es in E1. rewrite Et in E2. injection E1 as <-. injection E2 as <-.
  pose proof (pf_contract _ _ _ _ _ _ _ Q) as C.
  split; [apply (pf_recipe _ _ _ _ _ _ _ Q)|]. split; [apply (cf_kind _ _ _ _ _ C)|].
  pose proof Hc as (_ & _ & Htools & _). rewrite Forall_forall in Htools. destruct (tool_positive t (Htools t Ht)) as [Hrad _].
  pose proof (po_moves _ _ _ _ _ _ _ P) as Hm. unfold program_moves in Hm.
  apply (runs_each_makes (program_move_safe c g s t (group_operations (gp_planned g) (group_key_of (o, r)))) (parked s) _
    (area_cleared o t r) _ (o, r)) in Hm; [done| | | |done|by intros ? [=]].
  - intros q Hq. pose proof Hq as [Hq1 Hq2]%group_operations_elem. apply (operation_safe d c g Hc Hg s t _ q Hq Hq1 Hs Ht).
    + injection Hq2 as E _ _ _. by rewrite E.
    + injection Hq2 as _ E _ _. by rewrite E.
  - intros ms ms' Hgen. cbn [fst snd] in Hgen. unfold generate_operation_moves in Hgen.
    destruct (cf_area _ _ _ _ _ C Harea) as (Hnot & Hcontract & Hdepth). rewrite Hnot, Harea in Hgen.
    apply (raster_clears c s t (gp_outlines g) o r Hrad) in Hgen; [done| |done|done].
    by apply (gf_even d c g Hg o).
  - intros ms ms'. apply area_cleared_extends.
Qed.
