(* ===== verification/ToolpathExamples.v ===== *)
(** * Production toolpaths, on two trays

    Two trays with a hole, a groove open at one end and their contour, nested on
    a sheet, are lowered to operations and bound to a shop: its router, its
    tools, its fixture and its recipes.  The generator returns three programs
    for them. *)

From S2P Require Import Prelude Text Identity ManufacturingModel Nesting Machining Operations CamValidation ProductionModel ToolpathGeometry CapsuleGeometry ToolpathContracts Toolpaths ToolpathSafety ToolpathPrograms PocketCoverage.

Definition tray_pin : ManufacturingFeature :=
  mkMFeature "pin" "tray" DRILL SIDE_A 100000 60000 12000 (Some 5000) None None None 1 None
    false None None [] 100 0 no_metadata.

Definition tray_groove : ManufacturingFeature :=
  mkMFeature "groove" "tray" GROOVE SIDE_A 0 30000 6000 None (Some 40000) (Some 10000) None 1 None
    false (Some "dogbone-v2") (Some 3000) ["u_min"] 50 500 no_metadata.

Definition tray_contour : ManufacturingFeature :=
  mkMFeature "outer" "tray" OUTER_CONTOUR SIDE_A 0 0 18000 None (Some 120000) (Some 80000) None 1 None
    true None None [] 100 0
    (mkMetadata None None None None false [] (Some "OUTSIDE") (Some RELEASE_HOLDING_STRATEGY) true None None false).

Definition tray : PartSpec :=
  mkPartSpec "tray" "tray" 120000 80000 18000 "birch-ply-18" "1.0.0" [tray_pin; tray_groove; tray_contour] "X" true 2
    1000 None None default_axis_mapping [] [] None.

Definition tray_stock : StockSheet :=
  mkStockSheet "sheet-1" "birch-ply-18" "1.0.0" 320000 120000 18000 1 10000 20000 "X" true [] [] "operator".

Definition tray_layout : NestingLayout := layout_of_state tray_stock (place_all tray_stock (expand_part_instances [tray])).

Definition tray_hash : string := "0123456789abcdef0123456789abcdef0123456789abcdef0123456789abcdef".

Definition tray_document : result OperationsDocument :=
  generate_operations_document tray_layout linuxcnc_reference_router_1325 tray_hash [inl tray] true ∅.


(** The document the trays are lowered to. *)
Definition tray_operations : OperationsDocument :=
  match tray_document with Ok d => d | Err _ => mkOperationsDocument "" "" "" "" [] [] "" "" "" [] end.

(** ** The shop *)

Definition evidence : string := tray_hash.

Definition bound_setup : BoundSetup :=
  mkBoundSetup "setup:sheet-1:001:A" "sheet-1" "birch-ply-18" "1.0.0" "birch-18-lot-7" "2024-05" "mill-cert" "1" evidence
    0 SIDE_A "9e10f1c5fd8644d8a9a87a7c9cd714fc4addf3df7709174fb0fff0afcf4ee6b3" IDENTITY_SOURCE_TO_WCS_XY "G54"
    (mkPoint2D 100000 100000) 30000 0 320000 120000 18000 15000 STOCK_TOP_Z0_REFERENCE SIDE_A_ORIENTATION
    "vacuum-bed" "3" evidence 5000 5000 FIXTURE_KEEPOUT_POLICY "touch-plate at lower left" []
    (Some "spoilboard-2") (Some "1") (Some evidence) 500 0.

Definition drill_binding : ProductionToolBinding :=
  mkToolBinding "drill-5" "1" "T05" "1.0.0-validation" "44f2f57200225457ec183653058ec48850d636c0718853d70f5fcb779822c814"
    5 5 0 0 40000 "tool-table" "9" evidence 5000 30000 45000 5000 20000 DRILL_GEOMETRY true 0 "CW".

Definition router_binding : ProductionToolBinding :=
  mkToolBinding "router-6" "1" "T06R" "1.0.0-validation" "98cae1de9cd088926ed873b0397cd4da02db14f85edd1c9fe2310798e8a460ec"
    6 6 0 0 45000 "tool-table" "9" evidence 6000 30000 45000 5000 20000 FLAT_END_MILL true 0 "CW".

Definition drill_recipe : CuttingRecipe :=
  mkRecipe "drill-birch" "1" "shop-router" "2" "birch-18-lot-7" "2024-05" "drill-5" "1" OP_DRILL 12000 600000 300000 4000
    500000 4000 2000 0 0 0 20 100 "PLUNGE" 0 None None.

Definition groove_recipe : CuttingRecipe :=
  mkRecipe "groove-birch" "1" "shop-router" "2" "birch-18-lot-7" "2024-05" "router-6" "1" OP_GROOVE 18000 3000000 800000
    3000 500000 3000 2000 0 0 0 20 50 "PLUNGE" 0 None None.

Definition contour_recipe : CuttingRecipe :=
  mkRecipe "contour-birch" "1" "shop-router" "2" "birch-18-lot-7" "2024-05" "router-6" "1" OP_CONTOUR 18000 3000000 800000
    6000 500000 6000 2000 300 8000 3000 20 100 "PLUNGE" 0 None None.

Definition shop : ProductionExecutionContext :=
  mkContext REFERENCE_MACHINE_PROFILE_ID "1.0.0-validation" "c0ecd63ec626e644b32f24159578b72089fe86ef9e1e21e63911621a16b949b4"
    "shop-router" "2" "linuxcnc" "2.9.4" 0 1300000 0 2500000 (-100000) 150000 1300000 2500000 250000 6000 24000 5000000 2000000
    "tools-7" "recipes-4" [bound_setup] [drill_binding; router_binding] [drill_recipe; contour_recipe; groove_recipe].

Lemma shop_well_formed : well_formed_context shop.
Proof.
  unfold well_formed_context. split; [vm_compute; reflexivity|].
  split; [|split]; repeat constructor; vm_compute; reflexivity.
Qed.

Lemma generated_if d c check :
  match generate_production_toolpaths d c with Ok result => check result | Err _ => false end = true ->
  exists result, generate_production_toolpaths d c = Ok result /\ check result = true.
Proof. destruct (generate_production_toolpaths d c) as [result|e]; [|done]. intros H. by exists result. Qed.

(** The number of moves of each program. *)
Definition move_counts (result : ProductionToolpathDocument) : list nat :=
  map (fun p => length (pg_moves p)) (pt_programs result).

Lemma tray_generated :
  exists result, generate_production_toolpaths tray_operations shop = Ok result /\
    bool_decide (move_counts result = [16; 88; 384]%nat) = true.
Proof. apply generated_if. vm_compute. reflexivity. Qed.

Lemma production_toolpaths_safe_witness :
  exists result outlines,
    generate_production_toolpaths tray_operations shop = Ok result /\ outlines_of tray_operations outlines /\
    move_counts result = [16; 88; 384]%nat /\
    forall p, p ∈ pt_programs result -> exists s t, s ∈ pe_setups shop /\ t ∈ pe_tool_bindings shop /\
      chain (fun prev m => exists o r, o ∈ od_operations tray_operations /\ r ∈ pe_recipes shop /\
        move_safe shop s t outlines o r prev m) None (pg_moves p).
Proof.
  destruct tray_generated as (result & H & Hn).
  destruct (production_toolpaths_safe tray_operations shop result shop_well_formed H) as (outlines & Ho & Hp).
  exists result, outlines. split; [exact H|]. split; [exact Ho|]. split; [exact (proj1 (bool_decide_eq_true _) Hn)|]. intros p Hin.
  destruct (Hp p Hin) as (s & t & Hs & _ & Ht & _ & C). exists s, t. split; [exact Hs|]. split; [exact Ht|].
  revert C. generalize (pg_moves p) (@None ProductionMove). intros moves. clear.
  induction moves as [|m moves IH]; intros prev; [exact (fun _ => I)|]. intros [(o & r & Hin' & _ & _ & Hr & _ & M) C].
  split; [exists o, r; split; [exact Hin'|split; [exact Hr|exact M]]|exact (IH _ C)].
Defined.

Lemma programs_cut_every_operation_once_witness :
  exists result, generate_production_toolpaths tray_operations shop = Ok result /\
    length (concat (map pg_operation_ids (pt_programs result))) = 6%nat.
Proof.
  destruct tray_generated as (result & H & _). exists result. split; [exact H|].
  destruct (programs_cut_every_operation_once tray_operations shop result H) as [P _].
  rewrite P. vm_compute. reflexivity.
Defined.

(** The groove of the first tray. *)
Definition first_groove : CAMOperation :=
  match list_find (fun o => op_operation_id o = "op:tray:001:groove") (od_operations tray_operations) with
  | Some (_, o) => o
  | None => mkCAMOperation "" "" "" "" "" OP_DRILL SIDE_A "" 0 0 0 None None None None None None None None None false false
              None None None None [] 0 0
  end.

Lemma areas_are_cleared_witness :
  exists result p t r, generate_production_toolpaths tray_operations shop = Ok result /\ p ∈ pt_programs result /\
    op_depth_um first_groove = 6000 /\ area_cleared first_groove t r (pg_moves p).
Proof.
  destruct tray_generated as (result & H & _).
  destruct (areas_are_cleared tray_operations shop result first_groove shop_well_formed H)
    as (p & s & t & r & Hp & _ & _ & _ & _ & _ & _ & _ & _ & _ & C).
  - vm_compute. right. right. left.
  - vm_compute. reflexivity.
  - exists result, p, t, r. split; [exact H|]. split; [exact Hp|]. split; [vm_compute; reflexivity|exact C].
Defined.
