(* ===== verification/VerificationModel.v ===== *)
(** * The cutting program verifier: its data

    [cam/src/custombuild_cam/production_verification.py] checks a toolpath
    document against its source operations without any code of the generator.
    This file has its issues, swept envelopes and report, with their canonical
    JSON, and the helpers its parts share.

    The source collects issues in a set that it sorts at the end; here each check
    returns the list of the issues it adds, and [sorted_issues] is the set. *)

From S2P Require Import Prelude Text GCode Identity Models ManufacturingModel Machining CamValidation ProductionModel ToolpathGeometry ToolpathContracts.

Definition CUTTING_PROGRAM_REPORT_SCHEMA_VERSION : string := "custombuild.cutting-program-report.v1".
Definition CUTTING_PROGRAM_VERIFIER_VERSION : string := "cutting-program-verifier-1.1.0".
Definition ARC_RADIAL_TOLERANCE_UM : Z := 4.
Definition MAX_CORNER_CHORD_PPM : Z := 196000.
Definition CANONICAL_QUARTER_ARC_PPM : list (Z * Z) :=
  [(1000000, 0); (980785, 195090); (923880, 382683); (831470, 555570); (707107, 707107); (555570, 831470);
   (382683, 923880); (195090, 980785); (0, 1000000)].
Definition UNRESOLVED_EVIDENCE_TOKENS : list string :=
  ["DEMO"; "EXAMPLE"; "EXTERNAL"; "FAKE"; "GENERIC"; "MOCK"; "PLACEHOLDER"; "REFERENCE"; "REQUIRED"; "SCREENING"; "TBD";
   "TEST"; "TODO"; "UNKNOWN"; "UNRESOLVED"; "UNVERIFIED"; "VALIDATION"].
Definition SUPPORTED_OPERATION_KINDS : list OperationKind := [OP_DRILL; OP_POCKET; OP_GROOVE; OP_CONTOUR].

(** ** Issues *)

Inductive CuttingProgramStatus := STATUS_PASS | STATUS_BLOCK.
#[export] Instance CuttingProgramStatus_eq_dec : EqDecision CuttingProgramStatus.
Proof. solve_decision. Defined.
Definition cutting_status_value (s : CuttingProgramStatus) : string :=
  match s with STATUS_PASS => "PASS" | STATUS_BLOCK => "BLOCK" end.

Record CuttingProgramIssue := mkIssue {
  ci_code : string;
  ci_message : string;
  ci_program_id : option string;
  ci_operation_id : option string;
  ci_move_sequence : option Z }.
#[export] Instance CuttingProgramIssue_eq_dec : EqDecision CuttingProgramIssue.
Proof. solve_decision. Defined.

(** [a or b] for texts that may be absent *)
Definition text_or (a b : option string) : option string :=
  match a with Some s => if bool_decide (s = "") then b else a | None => b end.

(** [_Issues.add] *)
Definition new_issue (code message : string) (program : option ProductionProgram) (operation_id : option string)
    (move : option ProductionMove) : CuttingProgramIssue :=
  mkIssue code message (pg_program_id <$> program) (text_or operation_id (mv_operation_id <$> move))
    (mv_sequence <$> move).

Definition issues : Type := list CuttingProgramIssue.
Definition add_if (cond : bool) (i : CuttingProgramIssue) : issues := if cond then [i] else [].

(** The forms of an issue: of the document, an operation, a program, an operation
    of a program, a move. *)
Definition document_issue (code message : string) : CuttingProgramIssue := new_issue code message None None None.
Definition operation_issue (code message operation_id : string) : CuttingProgramIssue :=
  new_issue code message None (Some operation_id) None.
Definition program_issue (code message : string) (p : ProductionProgram) : CuttingProgramIssue :=
  new_issue code message (Some p) None None.
Definition contract_issue (code message : string) (p : ProductionProgram) (o : CAMOperation) : CuttingProgramIssue :=
  new_issue code message (Some p) (Some (op_operation_id o)) None.
Definition move_issue (code message : string) (p : ProductionProgram) (m : ProductionMove) : CuttingProgramIssue :=
  new_issue code message (Some p) None (Some m).

Definition issue_sort_cmp : CuttingProgramIssue -> CuttingProgramIssue -> comparison :=
  cmp_then (cmp_on ci_code String.compare)
    (cmp_then (cmp_on (fun i => default "" (ci_program_id i)) String.compare)
      (cmp_then (cmp_on (fun i => default "" (ci_operation_id i)) String.compare)
        (cmp_then (cmp_on (fun i => default 0 (ci_move_sequence i)) Z.compare)
          (cmp_on ci_message String.compare)))).

(** [_Issues.sorted] *)
Definition sorted_issues (values : issues) : issues := sort_by issue_sort_cmp (remove_dups values).

(** ** Swept envelopes *)

Record SweptEnvelope := mkEnvelope {
  en_program_id : string;
  en_setup_id : string;
  en_tool_id : string;
  en_operation_id : string;
  en_move_sequence : Z;
  en_motion_kind : ProductionMoveKind;
  en_cutter_radius_um : Z;
  en_process_accuracy_um : Z;
  en_assembly_collision_radius_um : Z;
  en_x_min_um : Z;
  en_y_min_um : Z;
  en_z_min_um : Z;
  en_x_max_um : Z;
  en_y_max_um : Z;
  en_z_max_um : Z;
  en_machine_x_min_um : Z;
  en_machine_y_min_um : Z;
  en_machine_z_min_um : Z;
  en_machine_x_max_um : Z;
  en_machine_y_max_um : Z;
  en_machine_z_max_um : Z;
  en_assembly_x_min_um : Z;
  en_assembly_y_min_um : Z;
  en_assembly_x_max_um : Z;
  en_assembly_y_max_um : Z;
  en_material_removal : bool;
  en_material_z_min_um : option Z;
  en_material_z_max_um : option Z }.

Definition envelope_json (e : SweptEnvelope) : json :=
  JObj [("program_id", JStr (en_program_id e)); ("setup_id", JStr (en_setup_id e)); ("tool_id", JStr (en_tool_id e));
        ("operation_id", JStr (en_operation_id e)); ("move_sequence", JInt (en_move_sequence e));
        ("motion_kind", JStr (move_kind_value (en_motion_kind e))); ("cutter_radius_um", JInt (en_cutter_radius_um e));
        ("process_accuracy_um", JInt (en_process_accuracy_um e));
        ("assembly_collision_radius_um", JInt (en_assembly_collision_radius_um e));
        ("x_min_um", JInt (en_x_min_um e)); ("y_min_um", JInt (en_y_min_um e)); ("z_min_um", JInt (en_z_min_um e));
        ("x_max_um", JInt (en_x_max_um e)); ("y_max_um", JInt (en_y_max_um e)); ("z_max_um", JInt (en_z_max_um e));
        ("machine_x_min_um", JInt (en_machine_x_min_um e)); ("machine_y_min_um", JInt (en_machine_y_min_um e));
        ("machine_z_min_um", JInt (en_machine_z_min_um e)); ("machine_x_max_um", JInt (en_machine_x_max_um e));
        ("machine_y_max_um", JInt (en_machine_y_max_um e)); ("machine_z_max_um", JInt (en_machine_z_max_um e));
        ("assembly_x_min_um", JInt (en_assembly_x_min_um e)); ("assembly_y_min_um", JInt (en_assembly_y_min_um e));
        ("assembly_x_max_um", JInt (en_assembly_x_max_um e)); ("assembly_y_max_um", JInt (en_assembly_y_max_um e));
        ("material_removal", JBool (en_material_removal e)); ("material_z_min_um", json_opt (en_material_z_min_um e));
        ("material_z_max_um", json_opt (en_material_z_max_um e))].

Definition envelope_cmp : SweptEnvelope -> SweptEnvelope -> comparison :=
  cmp_then (cmp_on en_program_id String.compare) (cmp_on en_move_sequence Z.compare).

(** ** The report *)

Record CuttingProgramReport := mkReport {
  cp_schema_version : string;
  cp_verifier_version : string;
  cp_status : CuttingProgramStatus;
  cp_toolpath_sha256 : string;
  cp_operations_sha256 : string;
  cp_swept_envelopes_sha256 : string;
  cp_program_count : Z;
  cp_operation_count : Z;
  cp_move_count : Z;
  cp_material_removal_move_count : Z;
  cp_issue_count : Z;
  cp_issues : issues;
  cp_physical_cutting_authorized : bool;
  cp_workshop_acceptance_required : bool }.

Definition cutting_issue_json (i : CuttingProgramIssue) : json :=
  JObj [("code", JStr (ci_code i)); ("message", JStr (ci_message i)); ("program_id", text_json (ci_program_id i));
        ("operation_id", text_json (ci_operation_id i)); ("move_sequence", json_opt (ci_move_sequence i))].

(** [CuttingProgramReport.to_json] *)
Definition report_json (r : CuttingProgramReport) : json :=
  JObj [("schema_version", JStr (cp_schema_version r)); ("verifier_version", JStr (cp_verifier_version r));
        ("status", JStr (cutting_status_value (cp_status r))); ("toolpath_sha256", JStr (cp_toolpath_sha256 r));
        ("operations_sha256", JStr (cp_operations_sha256 r));
        ("swept_envelopes_sha256", JStr (cp_swept_envelopes_sha256 r)); ("program_count", JInt (cp_program_count r));
        ("operation_count", JInt (cp_operation_count r)); ("move_count", JInt (cp_move_count r));
        ("material_removal_move_count", JInt (cp_material_removal_move_count r));
        ("issue_count", JInt (cp_issue_count r)); ("issues", JArr (map cutting_issue_json (cp_issues r)));
        ("physical_cutting_authorized", JBool (cp_physical_cutting_authorized r));
        ("workshop_acceptance_required", JBool (cp_workshop_acceptance_required r))].

Record CuttingProgramVerification := mkVerification {
  vr_report : CuttingProgramReport;
  vr_swept_envelopes : list SweptEnvelope }.

(** ** Dictionaries and identities *)

(** A dictionary by identity is the list of its values in the order of insertion. *)
Definition lookup_by {A} (identity : A -> string) (values : list A) (key : string) : option A :=
  snd <$> list_find (fun v => identity v = key) values.

(** [_unique_by_id] *)
Definition unique_by_id {A} (identity : A -> string) (code : string) (values : list A) : list A * issues :=
  foldl (fun st value =>
    if is_some (lookup_by identity (fst st) (identity value))
    then (fst st, snd st ++ [document_issue code ("duplicate identity: " +:+ identity value)])
    else (fst st ++ [value], snd st)) ([], []) values.

Definition identity_character (c : ascii) : bool := is_alnum c || bool_decide (c ∈ ["."; "_"; ":"; "-"]%char).

(** [_is_canonical_identity] *)
Definition is_canonical_identity (value : string) : bool :=
  match chars value with
  | [] => false
  | first :: _ => bool_decide (length (chars value) <= 256)%nat && is_alnum first &&
                  forallb identity_character (chars value)
  end.

(** [_is_sha256] *)
Definition is_sha256 (value : string) : bool :=
  bool_decide (String.length value = 64%nat) &&
  forallb (fun c => bool_decide (c ∈ chars "0123456789abcdef")) (chars value).

(** [_is_resolved_evidence_identity] *)
Definition is_resolved_evidence_identity (value : string) : bool :=
  is_canonical_identity value &&
  negb (existsb (fun token => occurs_in (chars token) (chars (upper value))) UNRESOLVED_EVIDENCE_TOKENS).
