(* ===== verification/VerificationGeometry.v ===== *)
(** * The cutting program verifier: geometry

    The frames, sweeps, rasters, reliefs and contour chords of
    [production_verification.py].  None of it is shared with the generator's
    [toolpaths.py]. *)

From S2P Require Import Prelude Text GCode Identity Models ManufacturingModel Machining CamValidation ProductionModel ToolpathGeometry ToolpathContracts VerificationModel.

(** ** Frames *)

Definition rect_to_physical_a_frame (r : Rect) (side : Side) (stock_height_um : Z) : Rect :=
  if bool_decide (side = SIDE_B) then mkRect (r_x_um r) (stock_height_um - top_um r) (r_width_um r) (r_height_um r) else r.

Definition rect_from_physical_a_frame (r : Rect) (side : Side) (stock_height_um : Z) : Rect :=
  if bool_decide (side = SIDE_B) then mkRect (r_x_um r) (stock_height_um - top_um r) (r_width_um r) (r_height_um r) else r.

Definition point_to_physical_a_frame (q : point) (s : BoundSetup) : point :=
  if bool_decide (bs_side s = SIDE_B) then (fst q, bs_stock_height_um s - snd q) else q.

(** ** Operations *)

(** [_is_release_contour] *)
Definition releases_part (o : CAMOperation) : bool :=
  bool_decide (op_kind o = OP_CONTOUR) && op_through o && bool_decide (op_compensation o = Some "OUTSIDE").

(** The rectangle of an operation with both sizes. *)
Definition sized_rect (o : CAMOperation) : option Rect :=
  match op_width_um o, op_length_um o with
  | Some width_um, Some length_um => Some (mkRect (op_x_um o) (op_y_um o) width_um length_um)
  | _, _ => None
  end.

Definition is_hole_kind (k : OperationKind) : bool := bool_decide (k ∈ [OP_DRILL; OP_COUNTERSINK]).
Definition is_area_kind (k : OperationKind) : bool := bool_decide (k ∈ [OP_POCKET; OP_GROOVE]).

(** [_operation_nominal_rect] *)
Definition operation_nominal_rect (o : CAMOperation) : option Rect :=
  if is_hole_kind (op_kind o) then
    match op_diameter_um o with
    | Some diameter_um =>
        if diameter_um <=? 0 then None
        else Some (mkRect (op_x_um o - diameter_um / 2) (op_y_um o - diameter_um / 2) diameter_um diameter_um)
    | None => None
    end
  else sized_rect o.

(** [_declared_cutter_envelope] *)
Definition declared_cutter_envelope (o : CAMOperation) : option Rect :=
  match op_cutter_envelope_x_um o, op_cutter_envelope_y_um o, op_cutter_envelope_width_um o, op_cutter_envelope_length_um o with
  | Some x_um, Some y_um, Some width_um, Some height_um => Some (mkRect x_um y_um width_um height_um)
  | _, _, _, _ => None
  end.

(** [_physical_open_end_boundaries]: the physical edge of a source edge. *)
Definition physical_edge (rotated_90 : bool) (edge : string) : option string :=
  match list_find (fun em : string * string => fst em = edge)
    (if rotated_90 then [("u_min", "y_min"); ("u_max", "y_max"); ("v_min", "x_max"); ("v_max", "x_min")]
     else [("u_min", "x_min"); ("u_max", "x_max"); ("v_min", "y_min"); ("v_max", "y_max")]) with
  | Some (_, (_, physical)) => Some physical
  | None => None
  end.

Definition physical_open_end_boundaries (o : CAMOperation) : list string :=
  remove_dups (omap (physical_edge (op_source_rotation_90 o)) (op_open_end_reliefs o)).

(** The coordinates of an edge in two rectangles. *)
Definition edge_of (r : Rect) (edge : string) : Z :=
  if bool_decide (edge = "x_min") then r_x_um r
  else if bool_decide (edge = "x_max") then right_um r
  else if bool_decide (edge = "y_min") then r_y_um r
  else top_um r.
Definition edges_meet (first second : Rect) (edge : string) : bool := edge_of first edge =? edge_of second edge.

(** ** Sweeps *)

Definition rectangles_touch_or_overlap (first second : Rect) : bool :=
  negb ((right_um first <? r_x_um second) || (right_um second <? r_x_um first) ||
        (top_um first <? r_y_um second) || (top_um second <? r_y_um first)).

Definition in_rectangle (q : point) (r : Rect) : bool :=
  (r_x_um r <=? fst q) && (fst q <=? right_um r) && ((r_y_um r <=? snd q) && (snd q <=? top_um r)).

Definition distance_to_rectangle_squared (q : point) (r : Rect) : Z :=
  let dx := Z.max (Z.max (r_x_um r - fst q) 0) (fst q - right_um r) in
  let dy := Z.max (Z.max (r_y_um r - snd q) 0) (snd q - top_um r) in
  dx * dx + dy * dy.

Definition turn (start stop q : point) : Z :=
  (fst stop - fst start) * (snd q - snd start) - (snd stop - snd start) * (fst q - fst start).

Definition on_segment (q start stop : point) : bool :=
  (Z.min (fst start) (fst stop) <=? fst q) && (fst q <=? Z.max (fst start) (fst stop)) &&
  ((Z.min (snd start) (snd stop) <=? snd q) && (snd q <=? Z.max (snd start) (snd stop))).

(** [_segments_touch] *)
Definition segments_touch (first_start first_end second_start second_end : point) : bool :=
  let first_a := turn first_start first_end second_start in
  let first_b := turn first_start first_end second_end in
  let second_a := turn second_start second_end first_start in
  let second_b := turn second_start second_end first_end in
  if (first_a =? 0) && on_segment second_start first_start first_end then true
  else if (first_b =? 0) && on_segment second_end first_start first_end then true
  else if (second_a =? 0) && on_segment first_start second_start second_end then true
  else if (second_b =? 0) && on_segment first_end second_start second_end then true
  else xorb (0 <? first_a) (0 <? first_b) && xorb (0 <? second_a) (0 <? second_b).

Definition corners_of (r : Rect) : list point :=
  [(r_x_um r, r_y_um r); (right_um r, r_y_um r); (right_um r, top_um r); (r_x_um r, top_um r)].

(** The sides, each from its corner to the next. *)
Definition sides_of {A} (corners : list A) : list (A * A) := zip corners (drop 1 corners ++ take 1 corners).

(** [_segment_touches_rect] *)
Definition segment_touches_rect (start stop : point) (r : Rect) : bool :=
  if in_rectangle start r || in_rectangle stop r then true
  else existsb (fun edge => segments_touch start stop (fst edge) (snd edge)) (sides_of (corners_of r)).

(** [_point_within_segment_radius] *)
Definition point_within_segment_radius (q start stop : point) (radius_um : Z) : bool :=
  let dx := fst stop - fst start in
  let dy := snd stop - snd start in
  let length_squared := dx * dx + dy * dy in
  if length_squared =? 0 then (fst q - fst start) ^ 2 + (snd q - snd start) ^ 2 <=? radius_um ^ 2
  else
    let projection := (fst q - fst start) * dx + (snd q - snd start) * dy in
    if projection <=? 0 then (fst q - fst start) ^ 2 + (snd q - snd start) ^ 2 <=? radius_um ^ 2
    else if length_squared <=? projection then (fst q - fst stop) ^ 2 + (snd q - snd stop) ^ 2 <=? radius_um ^ 2
    else
      let cross := dx * (snd q - snd start) - dy * (fst q - fst start) in
      cross * cross <=? radius_um ^ 2 * length_squared.

(** [_segment_capsule_touches_rect] *)
Definition segment_capsule_touches_rect (start stop : point) (radius_um : Z) (r : Rect) : bool :=
  if segment_touches_rect start stop r then true
  else
    let radius_squared := radius_um ^ 2 in
    if (distance_to_rectangle_squared start r <=? radius_squared) || (distance_to_rectangle_squared stop r <=? radius_squared)
    then true
    else existsb (fun corner => point_within_segment_radius corner start stop radius_um) (corners_of r).

(** ** Areas and their reliefs *)

(** Sets of points and of edges are lists without repetitions. *)
Definition relief_corners : list (string * string) :=
  [("u_min", "v_min"); ("u_max", "v_min"); ("u_min", "v_max"); ("u_max", "v_max")].

(** [_independent_dogbone_centres] *)
Definition independent_dogbone_centres (o : CAMOperation) : list point :=
  if bool_decide (op_corner_strategy o ∉ [Some "dogbone-v1"; Some "dogbone-v2"]) then []
  else
    match op_width_um o, op_length_um o with
    | Some width_um, Some length_um =>
        let declared := op_open_end_reliefs o in
        remove_dups (omap (fun uv : string * string =>
          let '(u, v) := uv in
          let u_open := bool_decide (u ∈ declared) in
          let v_open := bool_decide (v ∈ declared) in
          let suppressed := if bool_decide (op_corner_strategy o = Some "dogbone-v1") then u_open && v_open else u_open || v_open in
          if suppressed then None
          else
            let x_max := if op_source_rotation_90 o then bool_decide (v = "v_min") else bool_decide (u = "u_max") in
            let y_max := if op_source_rotation_90 o then bool_decide (u = "u_max") else bool_decide (v = "v_max") in
            let y_max := if bool_decide (op_side o = SIDE_B) then negb y_max else y_max in
            Some (op_x_um o + (if x_max then width_um else 0), op_y_um o + (if y_max then length_um else 0))) relief_corners)
    | _, _ => []
    end.

(** [_independent_area_raster_bounds]: left, right, bottom and top of the cutter
    centres; asserts both sizes. *)
Definition independent_area_raster_bounds (o : CAMOperation) (radius_um : Z) : result (Z * Z * Z * Z) :=
  width_um ← of_option (op_width_um o) AssertionError;
  length_um ← of_option (op_length_um o) AssertionError;
  let physical := physical_open_end_boundaries o in
  let opened := if bool_decide (op_side o = SIDE_B)
                then map (fun edge => if bool_decide (edge = "y_min") then "y_max"
                                      else if bool_decide (edge = "y_max") then "y_min" else edge) physical
                else physical in
  let is_open edge := bool_decide (edge ∈ opened) in
  Ok (if is_open "x_min" then op_x_um o else op_x_um o + radius_um,
      op_x_um o + width_um - (if is_open "x_max" then 0 else radius_um),
      if is_open "y_min" then op_y_um o else op_y_um o + radius_um,
      op_y_um o + length_um - (if is_open "y_max" then 0 else radius_um)).

(** [_independent_area_cutter_envelope] *)
Definition independent_area_cutter_envelope (o : CAMOperation) (radius_um : Z) : result Rect :=
  let centres := independent_dogbone_centres o in
  bounds ← independent_area_raster_bounds o radius_um;
  let '(x_min, x_max, y_min, y_max) := bounds in
  let left := minZ 0 ((x_min - radius_um) :: map (fun q => fst q - radius_um) centres) in
  let right := maxZ 0 ((x_max + radius_um) :: map (fun q => fst q + radius_um) centres) in
  let bottom := minZ 0 ((y_min - radius_um) :: map (fun q => snd q - radius_um) centres) in
  let top := maxZ 0 ((y_max + radius_um) :: map (fun q => snd q + radius_um) centres) in
  Ok (mkRect left bottom (right - left) (top - bottom)).

(** ** Contours *)

(** [_inside_contour_segment_allowed] *)
Definition inside_contour_segment_allowed (start stop : point) (left right bottom top : Z) : bool :=
  let within lo v hi := (lo <=? v) && (v <=? hi) in
  let vertical x := (fst start =? x) && (fst stop =? x) && within bottom (snd start) top && within bottom (snd stop) top in
  let horizontal y := (snd start =? y) && (snd stop =? y) && within left (fst start) right && within left (fst stop) right in
  vertical left || vertical right || horizontal bottom || horizontal top.

(** How far from the radius a point of an arc may lie, squared. *)
Definition radial_tolerance (radius_um : Z) : Z :=
  2 * radius_um * ARC_RADIAL_TOLERANCE_UM + ARC_RADIAL_TOLERANCE_UM ^ 2.

(** [_corner_chord_is_valid] *)
Definition corner_chord_is_valid (first second centre : point)
    (radius_um x_sign y_sign x_direction y_direction process_accuracy_um : Z) : bool :=
  let first_dx := fst first - fst centre in
  let first_dy := snd first - snd centre in
  let second_dx := fst second - fst centre in
  let second_dy := snd second - snd centre in
  if (first_dx * x_sign <? 0) || (second_dx * x_sign <? 0) || (first_dy * y_sign <? 0) || (second_dy * y_sign <? 0) ||
     ((fst second - fst first) * x_direction <? 0) || ((snd second - snd first) * y_direction <? 0)
  then false
  else if existsb (fun d : Z * Z => radial_tolerance radius_um
                                      <? Z.abs (fst d * fst d + snd d * snd d - radius_um * radius_um))
            [(first_dx, first_dy); (second_dx, second_dy)]
  then false
  else
    let chord_dx := fst second - fst first in
    let chord_dy := snd second - snd first in
    let maximum_axis_delta := (radius_um * MAX_CORNER_CHORD_PPM + 999999) / 1000000 + 2 * ARC_RADIAL_TOLERANCE_UM in
    if maximum_axis_delta <? Z.max (Z.abs chord_dx) (Z.abs chord_dy) then false
    else
      let midpoint_radius_twice := Z.sqrt ((first_dx + second_dx) ^ 2 + (first_dy + second_dy) ^ 2) in
      let radial_inset_um := Z.max 0 (2 * radius_um - midpoint_radius_twice + 1) / 2 in
      radial_inset_um <=? process_accuracy_um.

(** [_outside_segment_phases]: the phases of a lap around the rectangle, from its
    bottom edge counterclockwise, that a segment may belong to. *)
Definition outside_segment_phases (first second : point) (left right bottom top radius_um process_accuracy_um : Z) : list Z :=
  let '(first_x, first_y) := first in
  let '(second_x, second_y) := second in
  let ascending lo a b hi := (lo <=? a) && (a <=? b) && (b <=? hi) in
  let chord centre x_sign y_sign x_direction y_direction :=
    corner_chord_is_valid first second centre radius_um x_sign y_sign x_direction y_direction process_accuracy_um in
  let phase (n : Z) (holds : bool) : list Z := if holds then [n] else [] in
  phase 0 ((first_y =? second_y) && (second_y =? bottom - radius_um) && ascending left first_x second_x right) ++
  phase 1 (chord (right, bottom) 1 (-1) 1 1) ++
  phase 2 ((first_x =? second_x) && (second_x =? right + radius_um) && ascending bottom first_y second_y top) ++
  phase 3 (chord (right, top) 1 1 (-1) 1) ++
  phase 4 ((first_y =? second_y) && (second_y =? top + radius_um) && ascending left second_x first_x right) ++
  phase 5 (chord (left, top) (-1) 1 (-1) (-1)) ++
  phase 6 ((first_x =? second_x) && (second_x =? left - radius_um) && ascending bottom second_y first_y top) ++
  phase 7 (chord (left, bottom) (-1) (-1) 1 (-1)).

(** [quarter_point] *)
Definition quarter_point (radius_um : Z) (arc : Z * Z) (quadrant : Z) : point :=
  let '(cosine_ppm, sine_ppm) := arc in
  let '(x_ppm, y_ppm) :=
    if quadrant =? 0 then (sine_ppm, - cosine_ppm)
    else if quadrant =? 1 then (cosine_ppm, sine_ppm)
    else if quadrant =? 2 then (- sine_ppm, cosine_ppm)
    else (- cosine_ppm, - sine_ppm) in
  (radius_um * x_ppm / 1000000, radius_um * y_ppm / 1000000).

(** Points without repeats of the one before. *)
Definition append_new (points : list point) (q : point) : list point :=
  if bool_decide (last points = Some q) then points else points ++ [q].

Definition consecutive {A} (values : list A) : list (A * A) := zip values (drop 1 values).

(** The errors of one chord against the circle: outward and inward. *)
Definition chord_errors (radius_um : Z) (chord : point * point) : list Z :=
  let '(first, second) := chord in
  let first_radius_squared := fst first ^ 2 + snd first ^ 2 in
  let second_radius_squared := fst second ^ 2 + snd second ^ 2 in
  let maximum_radius_squared := Z.max first_radius_squared second_radius_squared in
  let maximum_radius_floor := Z.sqrt maximum_radius_squared in
  let maximum_radius_ceil := maximum_radius_floor + (if maximum_radius_floor ^ 2 =? maximum_radius_squared then 0 else 1) in
  let outward_error_um := Z.max 0 (maximum_radius_ceil - radius_um) in
  let segment_x := fst second - fst first in
  let segment_y := snd second - snd first in
  let segment_length_squared := segment_x ^ 2 + segment_y ^ 2 in
  let projection_numerator := - (fst first * segment_x + snd first * segment_y) in
  let minimum_radius_floor :=
    if (0 <? projection_numerator) && (projection_numerator <? segment_length_squared) then
      let cross := fst first * snd second - snd first * fst second in
      Z.sqrt (cross ^ 2 / segment_length_squared)
    else Z.sqrt (Z.min first_radius_squared second_radius_squared) in
  let inward_error_um := Z.max 0 (radius_um - minimum_radius_floor) in
  [outward_error_um; inward_error_um].

(** [_canonical_contour_interpolation_error_um] *)
Definition canonical_contour_interpolation_error_um (radius_um : Z) : Z :=
  if radius_um <=? 0 then radius_um
  else
    maxZ 0 (0 :: concat (map (fun quadrant =>
      let points := foldl append_new [] (map (fun arc => quarter_point radius_um arc quadrant) CANONICAL_QUARTER_ARC_PPM) in
      concat (map (chord_errors radius_um) (consecutive points))) [0; 1; 2; 3])).

(** [_outside_contour_is_one_safe_lap]: the loop over the segments; the phases so
    far, newest last, or none once a segment fits no next phase. *)
Definition lap_step (phase_of : point -> point -> list Z) (st : option (Z * list Z)) (segment : point * point)
    : option (Z * list Z) :=
  '(current_phase, phases) ← st;
  if bool_decide (fst segment = snd segment) then Some (current_phase, phases)
  else
    selected ← head (filter (fun phase => current_phase <= phase) (phase_of (fst segment) (snd segment)));
    if current_phase + 1 <? selected then None else Some (selected, phases ++ [selected]).

Definition lap_phases (phase_of : point -> point -> list Z) (points : list point) : option (list Z) :=
  snd <$> foldl (lap_step phase_of) (Some (0, [])) (consecutive points).

Definition outside_contour_is_one_safe_lap (points : list point) (nominal : Rect) (radius_um process_accuracy_um : Z) : bool :=
  let left := r_x_um nominal in
  let right := right_um nominal in
  let bottom := r_y_um nominal in
  let top := top_um nominal in
  let start := (left, bottom - radius_um) in
  if bool_decide (length points < 13)%nat || negb (bool_decide (head points = Some start)) ||
     negb (bool_decide (last points = Some start))
  then false
  else if negb (minZ 0 (map fst points) =? left - radius_um) || negb (maxZ 0 (map fst points) =? right + radius_um) ||
          negb (minZ 0 (map snd points) =? bottom - radius_um) || negb (maxZ 0 (map snd points) =? top + radius_um)
  then false
  else
    match lap_phases (fun first second => outside_segment_phases first second left right bottom top radius_um process_accuracy_um)
            points with
    | Some phases => bool_decide (head phases = Some 0) && bool_decide (last phases = Some 7) &&
                     py_set_eq phases [0; 1; 2; 3; 4; 5; 6; 7]
    | None => false
    end.
