(* ===== verification/VerificationBindings.v ===== *)
(** * The cutting program verifier: what a document is bound to

    The checks of [production_verification.py] on machines, catalogues, setups and
    tools, and the finished outlines it rebuilds from the source operations. *)

From S2P Require Import Prelude Text GCode Identity Models ManufacturingModel Machining CamValidation ProductionModel ToolpathGeometry ToolpathContracts VerificationModel VerificationGeometry.

(** ** Machines and catalogues *)

(** [_validate_source_machine_binding] *)
Definition trusted_machine (profile_id : string) : option MachineProfile :=
  if bool_decide (profile_id = REFERENCE_MACHINE_PROFILE_ID) then Some linuxcnc_reference_router_1325
  else if bool_decide (profile_id = LARGE_FORMAT_MACHINE_PROFILE_ID) then Some linuxcnc_reference_router_5125
  else None.

Definition validate_source_machine_binding (source : OperationsDocument) (c : ProductionExecutionContext) : issues :=
  match trusted_machine (od_machine_profile_id source) with
  | None => [document_issue "SOURCE_MACHINE_BINDING_INVALID" "source validation-machine profile is not trusted"]
  | Some machine =>
      add_if (negb (bool_decide (od_machine_profile_version source = mp_version machine)) ||
              negb (bool_decide (pe_source_machine_profile_id c = mp_profile_id machine)) ||
              negb (bool_decide (pe_source_machine_profile_version c = mp_version machine)) ||
              negb (bool_decide (pe_source_machine_profile_fingerprint c = content_hash (source_machine_json machine))))
        (document_issue "SOURCE_MACHINE_BINDING_INVALID" "source validation-machine profile identity or fingerprint differs")
  end.

Definition tool_table_of (t : ProductionToolBinding) : string * string * string :=
  (tb_tool_table_evidence_id t, tb_tool_table_evidence_version t, tb_tool_table_evidence_sha256 t).

Definition tool_binding_issues (t : ProductionToolBinding) : issues :=
  add_if ((tb_controller_tool_number t <=? 0) || (MAX_LINUXCNC_TOOL_OR_OFFSET_NUMBER <? tb_controller_tool_number t) ||
          (tb_length_offset_number t <=? 0) || (MAX_LINUXCNC_TOOL_OR_OFFSET_NUMBER <? tb_length_offset_number t) ||
          negb (tb_expected_length_offset_x_um t =? 0) || negb (tb_expected_length_offset_y_um t =? 0) ||
          negb (is_resolved_evidence_identity (tb_tool_table_evidence_id t)) ||
          negb (is_resolved_evidence_identity (tb_tool_table_evidence_version t)) ||
          negb (is_sha256 (tb_tool_table_evidence_sha256 t)))
    (document_issue "TOOL_TABLE_BINDING_INVALID" ("tool-table offset/evidence binding is invalid: " +:+ tb_tool_id t)) ++
  add_if ((tb_effective_diameter_um t <=? 0) || negb (tb_effective_diameter_um t mod 2 =? 0) ||
          (tb_cutting_length_um t <=? 0) || (tb_measured_stickout_um t <=? 0) ||
          (tb_minimum_holder_clearance_um t <=? 0) || (tb_measured_stickout_um t <? tb_cutting_length_um t) ||
          (tb_measured_stickout_um t <=? tb_minimum_holder_clearance_um t) ||
          (2 * tb_assembly_collision_radius_um t <? tb_effective_diameter_um t))
    (document_issue "TOOL_BINDING_INVALID" ("production tool dimensions/clearances are invalid: " +:+ tb_tool_id t)) ++
  add_if (negb (tb_drill_point_length_um t =? 0) ||
          (bool_decide (tb_geometry t = DRILL_GEOMETRY) && negb (tb_center_cutting t)))
    (document_issue "DRILL_POINT_GEOMETRY_INVALID"
       ("production CAM v1 requires zero drill point length and a center-cutting production drill: " +:+ tb_tool_id t)).

Definition recipe_issues (c : ProductionExecutionContext) (r : CuttingRecipe) : issues :=
  add_if (negb (bool_decide (cr_machine_profile_id r = pe_machine_profile_id c)) ||
          negb (bool_decide (cr_machine_profile_version r = pe_machine_profile_version c)) ||
          negb ((pe_min_spindle_rpm c <=? cr_spindle_rpm r) && (cr_spindle_rpm r <=? pe_max_spindle_rpm c)) ||
          (pe_max_feed_um_min c <? cr_feed_um_min r) || (pe_max_plunge_um_min c <? cr_plunge_um_min r) ||
          (cr_process_accuracy_um r <=? 0) || (cr_accepted_tolerance_um r <? cr_process_accuracy_um r))
    (document_issue "RECIPE_MACHINE_LIMIT_INVALID"
       ("recipe identity or parameters exceed the machine contract: " +:+ cr_recipe_id r)).

(** [_validate_execution_catalogs]; one duplicate recipe or several give the same
    issue. *)
Definition validate_execution_catalogs (c : ProductionExecutionContext) : issues :=
  let tools := pe_tool_bindings c in
  add_if (negb (distinct (map tb_controller_tool_number tools)))
    (document_issue "TOOL_BINDING_DUPLICATE" "controller tool numbers are not unique") ++
  add_if (negb (distinct (map tb_length_offset_number tools)))
    (document_issue "TOOL_BINDING_DUPLICATE" "controller length-offset numbers are not unique") ++
  add_if (match map tool_table_of tools with
          | [] => true
          | first :: rest => existsb (fun evidence => negb (bool_decide (evidence = first))) rest
          end)
    (document_issue "TOOL_TABLE_BINDING_INVALID"
       "tool bindings do not share one atomic controller tool-table snapshot") ++
  concat (map tool_binding_issues tools) ++
  add_if (negb (distinct (map recipe_key_of (pe_recipes c))))
    (document_issue "RECIPE_DUPLICATE" "multiple recipes claim one material/tool/operation binding") ++
  concat (map (recipe_issues c) (pe_recipes c)).

(** ** Setups *)

Section Setups.
Context (source_setups : list Setup) (bound_setups : list BoundSetup) (tools : list ProductionToolBinding).
Context (c : ProductionExecutionContext) (operations : list CAMOperation).

Definition axis_issues (axis : string) (minimum maximum declared_travel : Z) : issues :=
  add_if ((maximum <=? minimum) || negb (maximum - minimum =? declared_travel))
    (document_issue "MACHINE_ABSOLUTE_BOUNDS_INVALID"
       ("machine " +:+ axis +:+ " bounds do not exactly bind the declared travel")).

Definition setup_facts_of (s : Setup) : string * string * string * Z * Side * list Z :=
  (su_stock_id s, su_material_id s, su_material_version s, su_sheet_index s, su_side s,
   [su_stock_width_um s; su_stock_height_um s; su_stock_thickness_um s]).
Definition bound_facts_of (b : BoundSetup) : string * string * string * Z * Side * list Z :=
  (bs_stock_id b, bs_source_material_id b, bs_source_material_version b, bs_sheet_index b, bs_side b,
   [bs_stock_width_um b; bs_stock_height_um b; bs_stock_thickness_um b]).

Definition physical_sheet (b : BoundSetup) : string * Z := (bs_stock_id b, bs_sheet_index b).
Definition bound_material (b : BoundSetup) : list string :=
  [bs_source_material_id b; bs_source_material_version b; bs_material_id b; bs_material_version b;
   bs_material_evidence_id b; bs_material_evidence_version b; bs_material_evidence_sha256 b].

Definition spoilboard_present (b : BoundSetup) : bool :=
  match bs_spoilboard_id b, bs_spoilboard_version b, bs_spoilboard_sha256 b with
  | Some id, Some version, Some digest => is_canonical_identity id && is_canonical_identity version && is_sha256 digest
  | _, _, _ => false
  end.

(** The tools of the operations of a setup: a dictionary by source tool. *)
Definition setup_tool_ids (setup_id : string) : list string :=
  remove_dups (map op_tool_id (filter (fun o => op_setup_id o = setup_id) operations)).

(** The travel a setup needs with one of its tools. *)
Definition setup_travel_issues (setup_id : string) (b : BoundSetup) (source_tool_id : string) : issues :=
  match lookup_by tb_source_tool_id tools source_tool_id with
  | None => []
  | Some t =>
      let x_min := p2_x_um (bs_machine_wcs_origin b) + tb_expected_length_offset_x_um t in
      let x_max := x_min + bs_stock_width_um b in
      let y_min := p2_y_um (bs_machine_wcs_origin b) + tb_expected_length_offset_y_um t in
      let y_max := y_min + bs_stock_height_um b in
      let safe_z := bs_machine_wcs_z0_um b + bs_safe_z_um b + tb_expected_length_offset_z_um t in
      let bottom_z := bs_machine_wcs_z0_um b - bs_stock_thickness_um b - bs_through_cut_allowance_um b
                      + tb_expected_length_offset_z_um t in
      add_if ((x_min <? pe_machine_x_min_um c) || (pe_machine_x_max_um c <? x_max) ||
              (y_min <? pe_machine_y_min_um c) || (pe_machine_y_max_um c <? y_max))
        (document_issue "SETUP_XY_LIMIT"
           ("G43-transformed setup stock envelope exceeds absolute machine travel for " +:+ setup_id +:+ "/" +:+ source_tool_id)) ++
      add_if ((pe_machine_z_max_um c <? safe_z) || (bottom_z <? pe_machine_z_min_um c))
        (document_issue "SETUP_Z_LIMIT"
           ("G43-transformed setup stock/safe envelope exceeds absolute machine Z travel for " +:+ setup_id +:+ "/"
            +:+ source_tool_id))
  end.

(** The checks of one bound setup that read no other. *)
Definition setup_binding_issues (s : Setup) (b : BoundSetup) : issues :=
  let id := su_setup_id s in
  let has_through_cut := existsb (fun o => op_through o && bool_decide (op_setup_id o = id)) operations in
  add_if (negb (bool_decide (setup_facts_of s = bound_facts_of b)))
    (document_issue "SETUP_BINDING_INVALID" ("bound setup geometry differs from source: " +:+ id)) ++
  add_if (negb (is_resolved_evidence_identity (bs_material_id b)) ||
          negb (is_resolved_evidence_identity (bs_material_version b)) ||
          negb (is_resolved_evidence_identity (bs_material_evidence_id b)) ||
          negb (is_resolved_evidence_identity (bs_material_evidence_version b)) ||
          negb (is_sha256 (bs_material_evidence_sha256 b)))
    (document_issue "MATERIAL_BINDING_INVALID" ("actual material identity or evidence is invalid: " +:+ id)) ++
  add_if (negb (bool_decide (bs_source_setup_sha256 b = content_hash (source_setup_json s))))
    (document_issue "SETUP_BINDING_INVALID" ("bound setup source fingerprint differs: " +:+ id)) ++
  add_if (negb (bool_decide (bs_orientation b = su_orientation s)))
    (document_issue "SETUP_BINDING_INVALID" ("bound setup orientation differs from source: " +:+ id)) ++
  add_if (negb (bool_decide (bs_source_to_wcs_xy_transform b = IDENTITY_SOURCE_TO_WCS_XY)) ||
          negb (bool_decide (bs_reference_surface b = STOCK_TOP_Z0_REFERENCE)) ||
          negb (bool_decide (bs_keep_out_policy b = FIXTURE_KEEPOUT_POLICY)) ||
          negb (bool_decide (bs_wcs b ∈ ["G54"; "G55"; "G56"; "G57"; "G58"; "G59"])) ||
          negb (bs_raw_allowance_um b =? 0))
    (document_issue "SETUP_BINDING_INVALID" ("bound setup transform/WCS/reference policy is not exact: " +:+ id)) ++
  add_if (negb (bs_machine_wcs_xy_rotation_mdeg b =? 0))
    (document_issue "WCS_ROTATION_INVALID" ("production WCS has a nonzero or unbound XY rotation: " +:+ id)) ++
  add_if (negb (is_canonical_identity (bs_fixture_id b)) || negb (is_canonical_identity (bs_fixture_version b)) ||
          negb (is_sha256 (bs_fixture_sha256 b)))
    (document_issue "FIXTURE_BINDING_INVALID" ("setup fixture identity or checksum is invalid: " +:+ id)) ++
  add_if (negb (py_subset (su_keep_out_zones s) (bs_keep_out_zones b)))
    (document_issue "SETUP_BINDING_INVALID" ("bound setup omits keep-out zones: " +:+ id)) ++
  add_if (negb (bool_decide (bs_reference_surface b = STOCK_TOP_Z0_REFERENCE)))
    (document_issue "SETUP_Z_REFERENCE_INVALID" ("bound setup does not define stock top as Z0: " +:+ id)) ++
  add_if (bs_safe_z_um b <? bs_fixture_clearance_z_um b + bs_minimum_rapid_clearance_um b)
    (document_issue "SETUP_Z_LIMIT" ("setup safe Z lacks its exact fixture/rapid-clearance margin: " +:+ id)) ++
  add_if (has_through_cut &&
          (negb ((1 <=? bs_through_cut_allowance_um b) && (bs_through_cut_allowance_um b <=? MAX_THROUGH_OVERTRAVEL_UM)) ||
           negb (spoilboard_present b)))
    (document_issue "SPOILBOARD_BINDING_INVALID"
       ("through-cut setup lacks an exact allowance/spoilboard binding: " +:+ id)) ++
  add_if (negb has_through_cut &&
          (negb (bs_through_cut_allowance_um b =? 0) || is_some (bs_spoilboard_id b) || is_some (bs_spoilboard_version b) ||
           is_some (bs_spoilboard_sha256 b)))
    (document_issue "SPOILBOARD_BINDING_INVALID"
       ("non-through setup declares a spoilboard allowance/binding: " +:+ id)) ++
  concat (map (setup_travel_issues id b) (setup_tool_ids id)).

(** The setups of the source with their bindings, in the order of the source. *)
Definition bound_pairs : list (Setup * BoundSetup) :=
  omap (fun s => pair s <$> lookup_by bs_setup_id bound_setups (su_setup_id s)) source_setups.

(** Setups after the first one of their sheet that name another material. *)
Fixpoint sheet_material_issues (seen : list BoundSetup) (pairs : list (Setup * BoundSetup)) : issues :=
  match pairs with
  | [] => []
  | (_, b) :: rest =>
      match head (filter (fun first => physical_sheet first = physical_sheet b) seen) with
      | Some first =>
          add_if (negb (bool_decide (bound_material first = bound_material b)))
            (document_issue "MATERIAL_BINDING_INVALID"
               ("setups for one physical sheet disagree on source or actual material: " +:+ bs_stock_id b +:+ ":"
                +:+ str_of_Z (bs_sheet_index b)))
      | None => []
      end ++ sheet_material_issues (seen ++ [b]) rest
  end.

(** [_validate_setup_bindings] *)
Definition validate_setup_bindings : issues :=
  axis_issues "X" (pe_machine_x_min_um c) (pe_machine_x_max_um c) (pe_work_width_um c) ++
  axis_issues "Y" (pe_machine_y_min_um c) (pe_machine_y_max_um c) (pe_work_height_um c) ++
  axis_issues "Z" (pe_machine_z_min_um c) (pe_machine_z_max_um c) (pe_work_z_um c) ++
  add_if (negb (py_set_eq (map su_setup_id source_setups) (map bs_setup_id bound_setups)))
    (document_issue "SETUP_BINDING_INVALID" "bound setups do not exactly cover source setups") ++
  concat (map (fun sb => setup_binding_issues (fst sb) (snd sb)) bound_pairs) ++
  sheet_material_issues [] bound_pairs.
End Setups.

(** ** Tools *)

(** [_validate_source_tool_bindings] *)
Definition validate_source_tool_bindings (source_tools : list ToolSpec) (tools : list ProductionToolBinding)
    (operations : list CAMOperation) : issues :=
  let operation_tool_ids := map op_tool_id operations in
  add_if (negb (py_set_eq (map tl_tool_id source_tools) operation_tool_ids))
    (document_issue "SOURCE_TOOL_COVERAGE_INVALID" "source tool snapshot does not exactly cover operation tools") ++
  add_if (negb (py_set_eq (map tb_source_tool_id tools) operation_tool_ids))
    (document_issue "SOURCE_TOOL_BINDING_INVALID" "production source-tool bindings do not exactly cover operation tools") ++
  concat (map (fun tool =>
    match lookup_by tb_source_tool_id tools (tl_tool_id tool) with
    | Some t =>
        add_if (negb (bool_decide (tb_source_tool_version t = tl_version tool)) ||
                negb (bool_decide (tb_source_tool_sha256 t = content_hash (tool_json tool))))
          (document_issue "SOURCE_TOOL_BINDING_INVALID"
             ("production tool provenance differs from source tool: " +:+ tl_tool_id tool))
    | None => []
    end) source_tools).

(** ** Finished outlines *)

(** [_PartOutline] *)
Record FinishedOutline := mkFinished {
  fo_stock_id : string;
  fo_sheet_index : Z;
  fo_instance_id : string;
  fo_part_id : string;
  fo_source_rotation_90 : bool;
  fo_operation_id : string;
  fo_rect : Rect }.

Definition provenance : Type := string * Z * string * bool.

(** What the first loop collects: the provenance of each instance, and the
    release contours with their setups and physical rectangles. *)
Record instance_facts := mkInstances {
  if_bindings : list (string * provenance);
  if_releases : list (CAMOperation * Setup * Rect);
  if_issues : issues }.

Definition entry_of {A} (entries : list (string * A)) (key : string) : option A :=
  snd <$> head (filter (fun e => fst e = key) entries).

Section Outlines.
Context (source_setups : list Setup).

Definition provenance_of (o : CAMOperation) (s : Setup) : provenance :=
  (su_stock_id s, su_sheet_index s, op_part_id o, op_source_rotation_90 o).

(** One pass of the loop over the operations. *)
Definition note_instance (st : instance_facts) (o : CAMOperation) : instance_facts :=
  match lookup_by su_setup_id source_setups (op_setup_id o) with
  | None => st
  | Some s =>
      let binding := provenance_of o s in
      let known := entry_of (if_bindings st) (op_instance_id o) in
      let bindings := match known with Some _ => if_bindings st | None => if_bindings st ++ [(op_instance_id o, binding)] end in
      let found := if_issues st ++
        add_if (negb (bool_decide (default binding known = binding)))
          (operation_issue "PART_INSTANCE_BINDING_INVALID"
             "one instance maps to inconsistent part, sheet or nesting rotation facts" (op_operation_id o)) in
      if negb (releases_part o) then mkInstances bindings (if_releases st) found
      else
        match sized_rect o with
        | Some r =>
            if Z.min (r_width_um r) (r_height_um r) <=? 0
            then mkInstances bindings (if_releases st) (found ++
                   [operation_issue "PART_OUTLINE_BINDING_INVALID"
                      "release contour cannot define a positive finished-part outline" (op_operation_id o)])
            else mkInstances bindings
                   (if_releases st ++ [(o, s, rect_to_physical_a_frame r (su_side s) (su_stock_height_um s))]) found
        | None => mkInstances bindings (if_releases st) (found ++
                   [operation_issue "PART_OUTLINE_BINDING_INVALID"
                      "release contour cannot define a positive finished-part outline" (op_operation_id o)])
        end
  end.

Definition note_instances (operations : list CAMOperation) : instance_facts :=
  foldl note_instance (mkInstances [] [] []) operations.

(** The outline of an instance: the first of its release contours. *)
Definition outline_of_instance (st : instance_facts) (entry : string * provenance) : option FinishedOutline * issues :=
  let '(instance_id, binding) := entry in
  let candidates := filter (fun release => op_instance_id (fst (fst release)) = instance_id) (if_releases st) in
  let first := (fun release => fst (fst release)) <$> head candidates in
  let found := add_if (negb (bool_decide (length candidates = 1%nat)))
    (new_issue "PART_OUTLINE_BINDING_INVALID" "each instance must have exactly one outside-through finished outline"
       None (op_operation_id <$> first) None) in
  match candidates with
  | [] => (None, found)
  | (o, s, physical_rect) :: _ =>
      let '(stock_id, sheet_index, part_id, source_rotation_90) := binding in
      (Some (mkFinished stock_id sheet_index instance_id part_id source_rotation_90 (op_operation_id o) physical_rect),
       found ++ add_if (negb (bool_decide (provenance_of o s = binding)))
         (operation_issue "PART_OUTLINE_BINDING_INVALID" "finished outline differs from its instance provenance"
            (op_operation_id o)))
  end.

Definition outline_on (outlines : list FinishedOutline) (s : Setup) (instance_id : string) : option FinishedOutline :=
  head (filter (fun l => (fo_stock_id l, fo_sheet_index l, fo_instance_id l) = (su_stock_id s, su_sheet_index s, instance_id)) outlines).

(** An operation against the outline of its instance. *)
Definition outline_operation_issues (outlines : list FinishedOutline) (o : CAMOperation) : issues :=
  match lookup_by su_setup_id source_setups (op_setup_id o) ≫= fun s => pair s <$> outline_on outlines s (op_instance_id o) with
  | None => []
  | Some (s, outline) =>
      let id := op_operation_id o in
      add_if (negb (bool_decide (op_part_id o = fo_part_id outline)) ||
              negb (bool_decide (op_source_rotation_90 o = fo_source_rotation_90 outline)))
        (operation_issue "PART_INSTANCE_BINDING_INVALID"
           "operation part/rotation provenance differs from its finished outline" id) ++
      match operation_nominal_rect o with
      | None => []
      | Some nominal =>
          let active_outline := rect_from_physical_a_frame (fo_rect outline) (su_side s) (su_stock_height_um s) in
          (if bool_decide (id = fo_operation_id outline) then
             add_if (negb (bool_decide (nominal = active_outline)))
               (operation_issue "PART_OUTLINE_BINDING_INVALID"
                  "release contour differs from the reconstructed finished outline" id)
           else
             add_if (negb (contains active_outline nominal))
               (operation_issue "PART_OPERATION_OUTSIDE_OUTLINE"
                  "operation nominal geometry leaves its bound finished-part outline" id)) ++
          (if bool_decide (op_open_end_reliefs o = []) then []
           else
             let physical_nominal := rect_to_physical_a_frame nominal (su_side s) (su_stock_height_um s) in
             let opened := physical_open_end_boundaries o in
             add_if (negb (bool_decide (op_kind o = OP_GROOVE)) ||
                     negb (bool_decide (length opened = length (remove_dups (op_open_end_reliefs o)))) ||
                     existsb (fun edge => negb (edges_meet physical_nominal (fo_rect outline) edge)) opened)
               (operation_issue "OPEN_END_BINDING_INVALID"
                  "each declared open end must be a groove at its exact finished-part boundary" id))
      end
  end.

Definition finished_cmp : FinishedOutline -> FinishedOutline -> comparison :=
  cmp_then (cmp_on fo_stock_id String.compare)
    (cmp_then (cmp_on fo_sheet_index Z.compare) (cmp_on fo_instance_id String.compare)).

Definition sheet_of_outline (l : FinishedOutline) : string * Z := (fo_stock_id l, fo_sheet_index l).

Fixpoint outline_collisions (outlines : list FinishedOutline) : issues :=
  match outlines with
  | [] => []
  | first :: rest =>
      concat (map (fun second =>
        if bool_decide (sheet_of_outline first = sheet_of_outline second)
        then add_if (rectangles_touch_or_overlap (fo_rect first) (fo_rect second))
               (document_issue "PART_OUTLINE_COLLISION"
                  "finished part-instance outlines touch or overlap on a physical sheet")
        else []) rest) ++ outline_collisions rest
  end.

(** [_reconstruct_part_outlines] *)
Definition reconstruct_part_outlines (operations : list CAMOperation) : list FinishedOutline * issues :=
  let st := note_instances operations in
  let found := map (outline_of_instance st) (if_bindings st) in
  let outlines := omap fst found in
  (outlines,
   if_issues st ++ concat (map snd found) ++ concat (map (outline_operation_issues outlines) operations) ++
   outline_collisions (sort_by finished_cmp outlines)).
End Outlines.
