(* ===== verification/VerificationPrograms.v ===== *)
(** * The cutting program verifier: programs and contracts

    The checks of [production_verification.py] on the order, entry and partition
    of programs, on their recipes, and on the contracts of their operations. *)

From S2P Require Import Prelude Text GCode Identity Models ManufacturingModel Machining CamValidation ProductionModel ToolpathGeometry ToolpathContracts VerificationModel VerificationGeometry.

(** ** The order of programs *)

(** [_validate_program_order] *)
Definition validate_program_order (programs : list ProductionProgram) : issues :=
  add_if (negb (bool_decide (map pg_run_order programs = seqZ 1 (Z.of_nat (length programs)))))
    (document_issue "PROGRAM_ORDER_INVALID" "program run order is not dense from one") ++
  add_if (negb (distinct (map pg_program_id programs)))
    (document_issue "PROGRAM_ORDER_INVALID" "program IDs are not unique").

(** [_validate_program_entry] *)
Definition validate_program_entry (p : ProductionProgram) (s : BoundSetup) (t : ProductionToolBinding)
    (c : ProductionExecutionContext) : issues :=
  match pg_moves p with
  | [] => [program_issue "PROGRAM_ENTRY_INVALID" "program has no setup-safe entry target" p]
  | entry :: _ =>
      let machine_x_um := p2_x_um (bs_machine_wcs_origin s) + mv_x_um entry + tb_expected_length_offset_x_um t in
      let machine_y_um := p2_y_um (bs_machine_wcs_origin s) + mv_y_um entry + tb_expected_length_offset_y_um t in
      let machine_z_um := bs_machine_wcs_z0_um s + mv_z_um entry + tb_expected_length_offset_z_um t in
      add_if (negb (bool_decide (mv_kind entry = RAPID)) || negb (bool_decide (mv_role entry = POSITION)) ||
              negb (mv_pass_index entry =? 1) || negb (mv_z_um entry =? bs_safe_z_um s) ||
              negb (bool_decide (Some (mv_operation_id entry) = head (pg_operation_ids p))))
        (move_issue "PROGRAM_ENTRY_INVALID" "first move is not the exact setup-safe position hand-off" p entry) ++
      add_if (negb ((pe_machine_x_min_um c <=? machine_x_um) && (machine_x_um <=? pe_machine_x_max_um c) &&
                    ((pe_machine_y_min_um c <=? machine_y_um) && (machine_y_um <=? pe_machine_y_max_um c)) &&
                    ((pe_machine_z_min_um c <=? machine_z_um) && (machine_z_um <=? pe_machine_z_max_um c))))
        (move_issue "PROGRAM_ENTRY_INVALID" "setup-safe entry target leaves absolute machine bounds" p entry)
  end.

(** ** Recipes *)

(** The recipes of an operation kind with a material and a tool. *)
Definition matching_recipes (recipes : list CuttingRecipe) (machine_profile_id machine_profile_version : string)
    (s : BoundSetup) (t : ProductionToolBinding) (kind : OperationKind) : list CuttingRecipe :=
  filter (fun r => cr_machine_profile_id r = machine_profile_id /\
                   cr_machine_profile_version r = machine_profile_version /\
                   cr_material_id r = bs_material_id s /\ cr_material_version r = bs_material_version s /\
                   cr_tool_id r = tb_tool_id t /\ cr_tool_version r = tb_tool_version t /\
                   cr_operation_kind r = kind) recipes.

(** Exactly one. *)
Definition sole {A} (values : list A) : option A :=
  match values with [value] => Some value | _ => None end.

(** [_recipes_for_operations]: the recipes by operation, with the issues. *)
Definition recipes_for_operations (p : ProductionProgram) (operations : list CAMOperation) (s : BoundSetup)
    (t : ProductionToolBinding) (recipes : list CuttingRecipe) (machine_profile_id machine_profile_version : string)
    : gmap string CuttingRecipe * issues :=
  foldl (fun st o =>
    match sole (matching_recipes recipes machine_profile_id machine_profile_version s t (op_kind o)) with
    | Some r => (<[op_operation_id o := r]> (fst st), snd st)
    | None => (fst st, snd st ++ [contract_issue "PROGRAM_RECIPE_BINDING_INVALID"
                                    "operation does not resolve exactly one cutting recipe" p o])
    end) (∅, []) operations.

(** ** The partition into programs *)

(** The key of a program: setup, source tool, spindle speed, release. *)
Definition partition_key : Type := string * string * Z * bool.
#[export] Instance partition_key_eq_dec : EqDecision partition_key.
Proof. unfold partition_key. solve_decision. Defined.

(** A dictionary of lists in the order its keys are met. *)
Definition append_group (groups : list (partition_key * list CAMOperation)) (key : partition_key) (o : CAMOperation)
    : list (partition_key * list CAMOperation) :=
  if bool_decide (key ∈ map fst groups)
  then map (fun g => if bool_decide (fst g = key) then (fst g, snd g ++ [o]) else g) groups
  else groups ++ [(key, [o])].

Section Partition.
Context (source_setups : list Setup) (bound_setups : list BoundSetup) (tools : list ProductionToolBinding).
Context (recipes : list CuttingRecipe) (c : ProductionExecutionContext).

Definition partition_key_of (o : CAMOperation) : option partition_key :=
  s ← lookup_by bs_setup_id bound_setups (op_setup_id o);
  t ← lookup_by tb_source_tool_id tools (op_tool_id o);
  r ← sole (matching_recipes recipes (pe_machine_profile_id c) (pe_machine_profile_version c) s t (op_kind o));
  Some (op_setup_id o, op_tool_id o, cr_spindle_rpm r, releases_part o).

Definition operation_groups (operations : list CAMOperation) : list (partition_key * list CAMOperation) :=
  foldl (fun groups o => match partition_key_of o with Some key => append_group groups key o | None => groups end)
    [] operations.

Definition source_setup_order (setup_id : string) : nat :=
  match list_find (fun s => su_setup_id s = setup_id) source_setups with
  | Some (i, _) => i
  | None => length source_setups
  end.

Definition partition_cmp : partition_key * list CAMOperation -> partition_key * list CAMOperation -> comparison :=
  cmp_then (cmp_on (fun g : partition_key * list CAMOperation => source_setup_order (fst (fst (fst (fst g))))) Nat.compare)
    (cmp_then (cmp_on (fun g : partition_key * list CAMOperation => snd (fst g)) cmp_bool)
      (cmp_then (cmp_on (fun g : partition_key * list CAMOperation => snd (fst (fst (fst g)))) String.compare)
        (cmp_on (fun g : partition_key * list CAMOperation => snd (fst (fst g))) Z.compare))).

Definition partition_operation_cmp : CAMOperation -> CAMOperation -> comparison :=
  cmp_then (cmp_on (fun o => bool_decide (op_kind o = OP_CONTOUR)) cmp_bool)
    (cmp_then (cmp_on (fun o => operation_kind_value (op_kind o)) String.compare)
      (cmp_on op_operation_id String.compare)).

(** A program against the group of its position. *)
Definition partition_issues (entry : Z * (ProductionProgram * (partition_key * list CAMOperation))) : result issues :=
  let '(run_order, (p, (key, members))) := entry in
  let '(setup_id, source_tool_id, spindle_rpm, release_phase) := key in
  t ← of_option (lookup_by tb_source_tool_id tools source_tool_id) (KeyError source_tool_id);
  let expected_program_id := "program:" +:+ zero_padded_Z 3 run_order +:+ ":" +:+ setup_id +:+ ":" +:+ tb_tool_id t
                             +:+ ":S" +:+ str_of_Z spindle_rpm in
  Ok (add_if (negb (pg_run_order p =? run_order) || negb (bool_decide (pg_program_id p = expected_program_id)) ||
              negb (bool_decide (pg_setup_id p = setup_id)) || negb (bool_decide (pg_tool_id p = tb_tool_id t)) ||
              negb (bool_decide (pg_tool_version p = tb_tool_version t)) ||
              negb (bool_decide (pg_operation_ids p = map op_operation_id (sort_by partition_operation_cmp members))) ||
              negb (eqb (negb (bool_decide (pg_release_operation_ids p = []))) release_phase))
        (program_issue "PROGRAM_PARTITION_INVALID"
           "program identity/order/content differs from its deterministic source group" p)).

(** [_validate_program_partition] *)
Definition validate_program_partition (programs : list ProductionProgram) (operations : list CAMOperation)
    : result issues :=
  let groups := sort_by partition_cmp (operation_groups operations) in
  found ← traverse partition_issues (enumerate1 (zip programs groups));
  Ok (add_if (negb (bool_decide (length programs = length groups)))
        (document_issue "PROGRAM_PARTITION_INVALID"
           "program inventory differs from deterministic source setup/tool/RPM groups") ++ concat found).
End Partition.

(** ** The contract of an operation *)

Section Contract.
Context (p : ProductionProgram) (o : CAMOperation) (s : BoundSetup).

Definition corner_contract_declared : bool :=
  is_some (op_corner_strategy o) || is_some (op_corner_relief_radius_um o) ||
  negb (bool_decide (op_open_end_reliefs o = [])).

(** [value is not None and value <= bound] *)
Definition at_most (value : option Z) (bound : Z) : bool :=
  match value with Some v => v <=? bound | None => false end.

Definition flat_end_mill (t : ProductionToolBinding) : bool :=
  bool_decide (tb_geometry t = FLAT_END_MILL) && tb_center_cutting t.

Definition no_cutter_envelope : bool :=
  negb (is_some (op_cutter_envelope_x_um o) || is_some (op_cutter_envelope_y_um o) ||
        is_some (op_cutter_envelope_width_um o) || is_some (op_cutter_envelope_length_um o)).

Definition drill_contract_issues (t : ProductionToolBinding) : issues :=
  add_if (op_through o)
    (contract_issue "THROUGH_DRILL_UNSUPPORTED"
       "through drilling lacks a bound tip/full-diameter breakthrough model" p o) ++
  add_if (negb (bool_decide (tb_geometry t = DRILL_GEOMETRY)) || negb (tb_center_cutting t) ||
          negb (tb_drill_point_length_um t =? 0) || negb (is_some (op_diameter_um o)) || is_some (op_width_um o) ||
          is_some (op_length_um o) || negb no_cutter_envelope || is_some (op_compensation o) ||
          corner_contract_declared)
    (contract_issue "OPERATION_CONTRACT_INVALID" "drill geometry is not exactly bound to the production drill" p o).

Definition area_contract_issues (t : ProductionToolBinding) : result issues :=
  envelope ←
    match sized_rect o with
    | Some _ =>
        expected_envelope ← independent_area_cutter_envelope o (tb_effective_diameter_um t / 2);
        Ok (add_if (negb (bool_decide (declared_cutter_envelope o = Some expected_envelope)))
              (contract_issue "OPERATION_CONTRACT_INVALID"
                 "area cutter envelope differs from independently reconstructed geometry" p o))
    | None => Ok []
    end;
  Ok (add_if (negb (flat_end_mill t) || negb (is_some (op_width_um o)) || negb (is_some (op_length_um o)) ||
              is_some (op_diameter_um o) || op_through o || is_some (op_compensation o) ||
              at_most (op_width_um o) (tb_effective_diameter_um t) ||
              at_most (op_length_um o) (tb_effective_diameter_um t))
        (contract_issue "OPERATION_CONTRACT_INVALID" "area geometry is not machinable by the bound production tool" p o) ++
      add_if (corner_contract_declared &&
              (bool_decide (op_corner_strategy o ∉ [Some "dogbone-v1"; Some "dogbone-v2"]) ||
               negb (bool_decide (op_corner_relief_radius_um o = Some (tb_effective_diameter_um t / 2)))))
        (contract_issue "OPERATION_CONTRACT_INVALID"
           "dogbone geometry is not exactly bound to the production cutter radius" p o) ++
      envelope).

Definition contour_contract_issues (t : ProductionToolBinding) : issues :=
  if bool_decide (op_kind o = OP_CONTOUR) &&
     (negb (flat_end_mill t) || negb (is_some (op_width_um o)) || negb (is_some (op_length_um o)) ||
      is_some (op_diameter_um o) || corner_contract_declared ||
      bool_decide (op_compensation o ∉ [Some "INSIDE"; Some "OUTSIDE"]) ||
      (op_through o && negb (bool_decide (op_compensation o = Some "OUTSIDE"))) ||
      at_most (op_width_um o) (tb_effective_diameter_um t) || at_most (op_length_um o) (tb_effective_diameter_um t))
  then [contract_issue "OPERATION_CONTRACT_INVALID" "contour geometry is not machinable by the bound production tool" p o]
  else
    match sized_rect o with
    | Some nominal =>
        add_if (negb (bool_decide (declared_cutter_envelope o = Some nominal)))
          (contract_issue "OPERATION_CONTRACT_INVALID"
             "contour cutter envelope differs from its exact nominal geometry" p o)
    | None => []
    end.

(** [_validate_operation_contract] *)
Definition verify_operation_contract (source_tool : ToolSpec) (t : ProductionToolBinding) : result issues :=
  shape ← (if bool_decide (op_kind o = OP_DRILL) then Ok (drill_contract_issues t)
           else if is_area_kind (op_kind o) then area_contract_issues t
           else Ok (contour_contract_issues t));
  Ok (add_if (bool_decide (op_kind o ∉ tl_supported_operations source_tool))
        (contract_issue "SOURCE_TOOL_OPERATION_INVALID" "source tool snapshot does not support the operation kind" p o) ++
      add_if (negb (bool_decide (tb_source_tool_id t = tl_tool_id source_tool)) ||
              negb (bool_decide (tb_source_tool_version t = tl_version source_tool)))
        (contract_issue "SOURCE_TOOL_BINDING_INVALID"
           "operation source tool does not match the production tool provenance" p o) ++
      shape).

(** ** Depths *)

(** [_target_depth] *)
Definition target_depth (r : CuttingRecipe) : Z * issues :=
  if op_depth_um o <=? 0
  then (1, [contract_issue "SOURCE_DEPTH_INVALID" "source operation depth is not positive" p o])
  else if op_through o
  then
    (bs_stock_thickness_um s + cr_through_overtravel_um r,
     add_if (negb ((bs_stock_thickness_um s <=? op_depth_um o) &&
                   (op_depth_um o <=? bs_stock_thickness_um s + MAX_THROUGH_OVERTRAVEL_UM)))
       (contract_issue "SOURCE_DEPTH_INVALID" "source through depth is outside the stock/overtravel envelope" p o) ++
     add_if (negb ((1 <=? cr_through_overtravel_um r) && (cr_through_overtravel_um r <=? MAX_THROUGH_OVERTRAVEL_UM)))
       (contract_issue "SOURCE_DEPTH_INVALID" "through recipe overtravel is outside the supported envelope" p o))
  else
    (op_depth_um o,
     add_if (bs_stock_thickness_um s <=? op_depth_um o)
       (contract_issue "SOURCE_DEPTH_INVALID" "non-through source operation reaches stock bottom" p o)).

(** [_depth_levels] *)
Definition depth_levels (depth_um step_um : Z) : list Z :=
  if (depth_um <=? 0) || (step_um <=? 0) then []
  else map (fun value => - Z.min value depth_um) (py_range step_um (depth_um + step_um) step_um).

(** ** The contract of a recipe *)

Definition nonzero (z : Z) : bool := negb (z =? 0).

(** [_validate_recipe_operation_contract] *)
Definition validate_recipe_operation_contract (t : ProductionToolBinding) (r : CuttingRecipe) : issues :=
  let invalid code message := contract_issue code message p o in
  let '(target, depth_issues) := target_depth r in
  let uncertainty_depth := target + cr_process_accuracy_um r in
  add_if (negb (bool_decide (cr_operation_kind r = op_kind o)) || negb (bool_decide (cr_tool_id r = tb_tool_id t)) ||
          negb (bool_decide (cr_tool_version r = tb_tool_version t)))
    (invalid "PROGRAM_RECIPE_BINDING_INVALID" "cutting recipe differs from the operation or production tool") ++
  add_if (bs_safe_z_um s <=? cr_approach_clearance_um r)
    (invalid "RECIPE_CLEARANCE_INVALID" "recipe approach clearance reaches or exceeds setup safe Z") ++
  add_if (bs_minimum_rapid_clearance_um s <=? cr_process_accuracy_um r)
    (invalid "RECIPE_CLEARANCE_INVALID" "recipe uncertainty exhausts the setup minimum rapid clearance") ++
  add_if (nonzero (op_tolerance_um o) && negb (cr_accepted_tolerance_um r =? op_tolerance_um o))
    (invalid "RECIPE_TOLERANCE_INVALID" "recipe does not accept the operation tolerance exactly") ++
  add_if (nonzero (op_fit_clearance_um o) &&
          (op_fit_clearance_um o <=? 2 * (cr_accepted_tolerance_um r + cr_process_accuracy_um r)))
    (invalid "RECIPE_TOLERANCE_INVALID" "recipe uncertainty exhausts the operation fit-clearance budget") ++
  add_if (bool_decide (op_kind o = OP_CONTOUR) && bool_decide (op_compensation o = Some "OUTSIDE") &&
          (cr_process_accuracy_um r <? canonical_contour_interpolation_error_um (tb_effective_diameter_um t / 2)))
    (invalid "CONTOUR_INTERPOLATION_ACCURACY_INVALID"
       "recipe accuracy omits canonical rounded-corner chord/rounding error") ++
  depth_issues ++
  add_if (tb_cutting_length_um t <? uncertainty_depth)
    (invalid "TOOL_CUTTING_LENGTH_EXCEEDED" "operation target depth exceeds the verified cutting length") ++
  add_if (tb_measured_stickout_um t <? uncertainty_depth + tb_minimum_holder_clearance_um t)
    (invalid "TOOL_HOLDER_CLEARANCE_EXCEEDED" "operation depth leaves less than the bound minimum holder clearance") ++
  add_if (bool_decide (op_kind o = OP_DRILL) &&
          match op_diameter_um o with
          | Some diameter_um => cr_diameter_tolerance_um r <? Z.abs (diameter_um - tb_effective_diameter_um t)
          | None => true
          end)
    (invalid "OPERATION_CONTRACT_INVALID" "drill diameter exceeds the recipe's production-tool tolerance") ++
  add_if (bool_decide (op_kind o = OP_DRILL) &&
          match op_diameter_um o with
          | Some diameter_um =>
              cr_accepted_tolerance_um r <? Z.abs (diameter_um - tb_effective_diameter_um t) + cr_process_accuracy_um r
          | None => false
          end)
    (invalid "DRILL_DIAMETER_BUDGET_INVALID" "drill/tool diameter mismatch plus process uncertainty exceeds tolerance") ++
  add_if (op_through o && (cr_through_overtravel_um r <=? cr_process_accuracy_um r))
    (invalid "THROUGH_CUT_UNCERTAINTY_INVALID" "through overtravel does not exceed worst-case process uncertainty") ++
  add_if (op_through o &&
          ((cr_through_overtravel_um r <=? 0) ||
           (bs_through_cut_allowance_um s <? cr_through_overtravel_um r + cr_process_accuracy_um r)))
    (invalid "THROUGH_CUT_ALLOWANCE_EXCEEDED" "recipe through overtravel exceeds the setup's bound spoilboard allowance") ++
  add_if (negb (op_through o) && (bs_stock_thickness_um s <=? uncertainty_depth))
    (invalid "NONTHROUGH_DEPTH_UNCERTAINTY_INVALID" "non-through operation uncertainty reaches the stock bottom") ++
  add_if (releases_part o && (cr_tab_height_um r <=? cr_process_accuracy_um r))
    (invalid "TAB_CONTRACT_INVALID" "recipe uncertainty consumes the holding-tab height") ++
  add_if (releases_part o && (cr_tab_width_um r <=? 2 * cr_process_accuracy_um r))
    (invalid "TAB_CONTRACT_INVALID" "recipe uncertainty consumes the holding-tab width") ++
  add_if (is_area_kind (op_kind o) &&
          (tb_effective_diameter_um t <?
           tb_effective_diameter_um t * cr_stepover_ppm r / 1000000 + 2 * cr_process_accuracy_um r))
    (invalid "STEPOVER_COVERAGE_INVALID" "recipe stepover exceeds process-accuracy-adjusted cutter coverage").
End Contract.

(** ** The order of moves *)

(** The operations the moves meet, without the repeats of the one before. *)
Definition observed_operations (moves : list ProductionMove) : list string :=
  foldl (fun observed m => if bool_decide (last observed = Some (mv_operation_id m)) then observed
                           else observed ++ [mv_operation_id m]) [] moves.

(** [_validate_move_order] *)
Definition validate_move_order (p : ProductionProgram) : issues :=
  add_if (negb (bool_decide (map mv_sequence (pg_moves p) = seqZ 1 (Z.of_nat (length (pg_moves p))))))
    (program_issue "MOVE_SEQUENCE_INVALID" "move sequence is not dense from one" p) ++
  add_if (negb (bool_decide (observed_operations (pg_moves p) = pg_operation_ids p)))
    (program_issue "MOVE_OPERATION_ORDER_INVALID" "move operation blocks differ from declared program order" p).
