(* ===== verification/VerificationMotion.v ===== *)
(** * The cutting program verifier: motion

    The swept envelopes of a program, and the checks of
    [production_verification.py] on their safety, on the parts around a cut, and
    on the segments of an operation. *)

From S2P Require Import Prelude Text GCode Identity Models ManufacturingModel Machining CamValidation ProductionModel ToolpathGeometry ToolpathContracts VerificationModel VerificationGeometry VerificationBindings.

(** ** Steps and their envelopes *)

(** Where a move is from: [_Point3D]. *)
Definition location : Type := point * Z.
Definition mv_xy (m : ProductionMove) : point := (mv_x_um m, mv_y_um m).
Definition place_of (m : ProductionMove) : location := (mv_xy m, mv_z_um m).

(** Each move with the place before it; the first move is from safe Z above its own
    end. *)
Definition program_steps (moves : list ProductionMove) (safe_z_um : Z) : list (location * ProductionMove) :=
  match moves with
  | [] => []
  | first :: _ => zip ((mv_xy first, safe_z_um) :: map place_of moves) moves
  end.

Definition low (f : location -> Z) (step : location * ProductionMove) : Z := Z.min (f (fst step)) (f (place_of (snd step))).
Definition high (f : location -> Z) (step : location * ProductionMove) : Z := Z.max (f (fst step)) (f (place_of (snd step))).
Definition x_of (q : location) : Z := fst (fst q).
Definition y_of (q : location) : Z := snd (fst q).
Definition z_of (q : location) : Z := snd q.

(** Linear motion that is below the top of the stock. *)
Definition removes_material (step : location * ProductionMove) : bool :=
  bool_decide (mv_kind (snd step) = LINEAR) && (low z_of step <? 0).

(** The accuracy of the recipe that cuts an operation. *)
Definition process_accuracy_of (recipes : gmap string CuttingRecipe) (operation_id : string) : Z :=
  match recipes !! operation_id with Some r => cr_process_accuracy_um r | None => 0 end.

Section Envelopes.
Context (p : ProductionProgram) (s : BoundSetup) (t : ProductionToolBinding) (recipes : gmap string CuttingRecipe).

(** One pass of the loop of [_build_program_envelopes]. *)
Definition step_envelope (step : location * ProductionMove) : SweptEnvelope :=
  let m := snd step in
  let sweep_radius := (tb_effective_diameter_um t + 1) / 2 in
  let process_accuracy := process_accuracy_of recipes (mv_operation_id m) in
  let swept_radius := sweep_radius + process_accuracy in
  let assembly_radius := tb_assembly_collision_radius_um t + process_accuracy in
  let material_removal := removes_material step in
  let endpoint_uncertainty := if material_removal then process_accuracy else 0 in
  let wcs_x := p2_x_um (bs_machine_wcs_origin s) in
  let wcs_y := p2_y_um (bs_machine_wcs_origin s) in
  let wcs_z := bs_machine_wcs_z0_um s in
  let offset_x := tb_expected_length_offset_x_um t in
  let offset_y := tb_expected_length_offset_y_um t in
  let offset_z := tb_expected_length_offset_z_um t in
  {| en_program_id := pg_program_id p;
     en_setup_id := pg_setup_id p;
     en_tool_id := pg_tool_id p;
     en_operation_id := mv_operation_id m;
     en_move_sequence := mv_sequence m;
     en_motion_kind := mv_kind m;
     en_cutter_radius_um := sweep_radius;
     en_process_accuracy_um := process_accuracy;
     en_assembly_collision_radius_um := assembly_radius;
     en_x_min_um := low x_of step - swept_radius;
     en_y_min_um := low y_of step - swept_radius;
     en_z_min_um := low z_of step;
     en_x_max_um := high x_of step + swept_radius;
     en_y_max_um := high y_of step + swept_radius;
     en_z_max_um := high z_of step;
     en_machine_x_min_um := wcs_x + low x_of step + offset_x - endpoint_uncertainty;
     en_machine_y_min_um := wcs_y + low y_of step + offset_y - endpoint_uncertainty;
     en_machine_z_min_um := wcs_z + low z_of step + offset_z - endpoint_uncertainty;
     en_machine_x_max_um := wcs_x + high x_of step + offset_x + endpoint_uncertainty;
     en_machine_y_max_um := wcs_y + high y_of step + offset_y + endpoint_uncertainty;
     en_machine_z_max_um := wcs_z + high z_of step + offset_z + endpoint_uncertainty;
     en_assembly_x_min_um := low x_of step - assembly_radius;
     en_assembly_y_min_um := low y_of step - assembly_radius;
     en_assembly_x_max_um := high x_of step + assembly_radius;
     en_assembly_y_max_um := high y_of step + assembly_radius;
     en_material_removal := material_removal;
     en_material_z_min_um := if material_removal then Some (low z_of step) else None;
     en_material_z_max_um := if material_removal then Some (Z.min 0 (high z_of step)) else None |}.

(** [_build_program_envelopes] *)
Definition build_program_envelopes : list SweptEnvelope := map step_envelope (program_steps (pg_moves p) (bs_safe_z_um s)).
End Envelopes.

Definition envelope_footprint (e : SweptEnvelope) : Rect :=
  mkRect (en_x_min_um e) (en_y_min_um e) (en_x_max_um e - en_x_min_um e) (en_y_max_um e - en_y_min_um e).
Definition assembly_footprint (e : SweptEnvelope) : Rect :=
  mkRect (en_assembly_x_min_um e) (en_assembly_y_min_um e) (en_assembly_x_max_um e - en_assembly_x_min_um e)
    (en_assembly_y_max_um e - en_assembly_y_min_um e).

(** ** Motion safety *)

Definition CUTTING_ROLES : list ProductionMoveRole := [CUT; TAB_RAMP; TAB_BRIDGE].

Section Safety.
Context (p : ProductionProgram) (s : BoundSetup) (t : ProductionToolBinding) (c : ProductionExecutionContext).

Definition reaches_keep_out (footprint : Rect) : bool :=
  existsb (rectangles_touch_or_overlap footprint) (bs_keep_out_zones s).

(** [first <= second <= third <= fourth] *)
Definition ordered_in (first second third fourth : Z) : bool :=
  (first <=? second) && (second <=? third) && (third <=? fourth).

(** One pass of the loop of [_validate_motion_safety]. *)
Definition step_safety_issues (step : location * ProductionMove) (e : SweptEnvelope) : issues :=
  let m := snd step in
  let previous := fst step in
  let found code message := move_issue code message p m in
  let z_uncertainty := if en_material_removal e then en_process_accuracy_um e else 0 in
  let xy_changed := negb (bool_decide (fst previous = mv_xy m)) in
  add_if (negb ((0 <=? mv_x_um m) && (mv_x_um m <=? bs_stock_width_um s) &&
                ((0 <=? mv_y_um m) && (mv_y_um m <=? bs_stock_height_um s))))
    (found "MOVE_OUTSIDE_STOCK" "tool centre leaves stock bounds") ++
  add_if (negb (ordered_in (pe_machine_x_min_um c) (en_machine_x_min_um e) (en_machine_x_max_um e) (pe_machine_x_max_um c) &&
                ordered_in (pe_machine_y_min_um c) (en_machine_y_min_um e) (en_machine_y_max_um e) (pe_machine_y_max_um c)))
    (found "MOVE_OUTSIDE_MACHINE" "G43-transformed controlled-point path leaves absolute machine XY travel") ++
  add_if ((en_machine_z_min_um e <? pe_machine_z_min_um c) || (pe_machine_z_max_um c <? en_machine_z_max_um e) ||
          (en_z_min_um e - z_uncertainty <? - (bs_stock_thickness_um s + bs_through_cut_allowance_um s)))
    (found "MOVE_Z_LIMIT" "move exceeds the G43-transformed machine or programmed stock Z limit") ++
  add_if (tb_cutting_length_um t <? - Z.min (en_z_min_um e) 0 + z_uncertainty)
    (found "TOOL_CUTTING_LENGTH_EXCEEDED" "move depth exceeds the verified cutting length") ++
  add_if (tb_measured_stickout_um t <? - Z.min (en_z_min_um e) 0 + z_uncertainty + tb_minimum_holder_clearance_um t)
    (found "TOOL_HOLDER_CLEARANCE_EXCEEDED" "move depth leaves less than the bound minimum holder clearance") ++
  (if bool_decide (mv_kind m = RAPID) then
     add_if (mv_z_um m <? 0) (found "RAPID_BELOW_STOCK_TOP" "rapid motion enters material") ++
     add_if (xy_changed && (negb (z_of previous =? bs_safe_z_um s) || negb (mv_z_um m =? bs_safe_z_um s)))
       (found "RAPID_XY_BELOW_SAFE_Z" "XY rapid does not remain at exact safe Z")
   else
     add_if (bool_decide (mv_role m ∉ CUTTING_ROLES))
       (found "MOVE_ROLE_INVALID" "linear motion uses a non-cutting role")) ++
  (if en_material_removal e then
     add_if (negb (contains (mkRect 0 0 (bs_stock_width_um s) (bs_stock_height_um s)) (envelope_footprint e)))
       (found "CUTTER_SWEEP_OUTSIDE_STOCK" "tool-radius-expanded cutting sweep leaves stock") ++
     add_if (reaches_keep_out (envelope_footprint e))
       (found "KEEP_OUT_COLLISION" "tool-radius-expanded cutting sweep reaches keep-out zone")
   else []) ++
  (if bool_decide (mv_kind m = LINEAR) && reaches_keep_out (assembly_footprint e) then
     [found "TOOL_ASSEMBLY_KEEP_OUT_COLLISION" "tool-assembly-expanded linear sweep reaches a keep-out zone"]
   else if bool_decide (mv_kind m = RAPID) && ((z_of previous <? bs_safe_z_um s) || (mv_z_um m <? bs_safe_z_um s)) then
     add_if (reaches_keep_out (assembly_footprint e))
       (found "TOOL_ASSEMBLY_KEEP_OUT_COLLISION" "tool-assembly-expanded rapid below safe Z reaches a keep-out zone")
   else []).

(** [_validate_motion_safety] *)
Definition validate_motion_safety (envelopes : list SweptEnvelope) : issues :=
  match pg_moves p with
  | [] => [program_issue "PROGRAM_EMPTY" "program contains no moves" p]
  | _ =>
      add_if (negb (tb_effective_diameter_um t mod 2 =? 0))
        (program_issue "TOOL_RADIUS_INVALID" "production CAM v1 requires an even effective tool diameter" p) ++
      concat (zip_with step_safety_issues (program_steps (pg_moves p) (bs_safe_z_um s)) envelopes)
  end.
End Safety.

(** ** The parts around a cut *)

(** The bounds of the cutter around a segment. *)
Definition sweep_rect (start stop : point) (radius_um : Z) : Rect :=
  let x_min := Z.min (fst start) (fst stop) - radius_um in
  let y_min := Z.min (snd start) (snd stop) - radius_um in
  mkRect x_min y_min (Z.max (fst start) (fst stop) + radius_um - x_min) (Z.max (snd start) (snd stop) + radius_um - y_min).

Definition boundaries : list string := ["x_min"; "x_max"; "y_min"; "y_max"].

(** Whether one rectangle is beyond an edge of another. *)
Definition crosses (sweep outline : Rect) (edge : string) : bool :=
  if bool_decide (edge = "x_min") || bool_decide (edge = "y_min")
  then edge_of sweep edge <? edge_of outline edge
  else edge_of outline edge <? edge_of sweep edge.

Definition grown (r : Rect) (margin_um : Z) : Rect :=
  mkRect (r_x_um r - margin_um) (r_y_um r - margin_um) (r_width_um r + 2 * margin_um) (r_height_um r + 2 * margin_um).

(** [_own_part_cutter_sweep_allowed] *)
Definition own_part_cutter_sweep_allowed (o : CAMOperation) (s : BoundSetup) (outline : Rect) (start stop : point)
    (effective_radius_um process_accuracy_um : Z) : bool :=
  let sweep := sweep_rect start stop effective_radius_um in
  if contains outline sweep then true
  else if negb (bool_decide (op_kind o = OP_GROOVE)) || bool_decide (op_open_end_reliefs o = []) then false
  else
    match sized_rect o, declared_cutter_envelope o with
    | Some nominal, Some declared =>
        let physical r := rect_to_physical_a_frame r (bs_side s) (bs_stock_height_um s) in
        let crossed := filter (fun edge => crosses sweep outline edge) boundaries in
        contains (grown (physical declared) process_accuracy_um) sweep &&
        forallb (fun edge => bool_decide (edge ∈ physical_open_end_boundaries o)) crossed &&
        forallb (edges_meet (physical nominal) outline) crossed
    | _, _ => false
    end.

(** The last entry of a dictionary by move sequence. *)
Definition by_sequence {A} (sequence : A -> Z) (entries : list A) (key : Z) : option A :=
  last (filter (fun entry => sequence entry = key) entries).

Section Collisions.
Context (p : ProductionProgram) (s : BoundSetup) (operations : list CAMOperation) (outlines : list FinishedOutline).

(** A cut against one outline of its sheet. *)
Definition outline_collision_issues (e : SweptEnvelope) (o : CAMOperation) (step : location * ProductionMove)
    (other : FinishedOutline) : issues :=
  let start := point_to_physical_a_frame (fst (fst step)) s in
  let stop := point_to_physical_a_frame (mv_xy (snd step)) s in
  let effective_radius := en_cutter_radius_um e + en_process_accuracy_um e in
  let found code message := new_issue code message (Some p) (Some (op_operation_id o)) (Some (snd step)) in
  if bool_decide (fo_instance_id other = op_instance_id o) then
    if bool_decide (op_operation_id o = fo_operation_id other) && releases_part o then []
    else
      add_if (negb (own_part_cutter_sweep_allowed o s (fo_rect other) start stop effective_radius (en_process_accuracy_um e)))
        (found "OWN_PART_CUTTER_BREAKOUT"
           "accuracy-expanded cutter sweep leaves its own finished-part outline without an exactly bound open-end relief")
  else
    add_if (segment_capsule_touches_rect start stop effective_radius (fo_rect other))
      (found "INTER_PART_CUTTER_COLLISION" "accuracy-expanded cutter sweep touches another finished-part outline").

Definition outlines_of_sheet : list FinishedOutline :=
  filter (fun l => fo_stock_id l = bs_stock_id s /\ fo_sheet_index l = bs_sheet_index s) outlines.

Definition envelope_collision_issues (steps : list (location * ProductionMove)) (e : SweptEnvelope) : issues :=
  if negb (en_material_removal e) then []
  else
    match lookup_by op_operation_id operations (en_operation_id e),
          by_sequence (fun step : location * ProductionMove => mv_sequence (snd step)) steps (en_move_sequence e) with
    | Some o, Some step => concat (map (outline_collision_issues e o step) outlines_of_sheet)
    | _, _ => []
    end.

(** [_validate_inter_part_collisions]; only the XY of the places is read. *)
Definition validate_inter_part_collisions (envelopes : list SweptEnvelope) : issues :=
  concat (map (envelope_collision_issues (program_steps (pg_moves p) (bs_safe_z_um s))) envelopes).
End Collisions.

(** ** The segments of an operation *)

Section Segments.
Context (o : CAMOperation) (t : ProductionToolBinding).

Definition half_diameter : Z := tb_effective_diameter_um t / 2.

(** [_operation_point_allowed] *)
Definition operation_point_allowed (q : point) : result bool :=
  let '(x_um, y_um) := q in
  let radius := half_diameter in
  if is_hole_kind (op_kind o) then Ok (bool_decide (q = (op_x_um o, op_y_um o)))
  else
    match sized_rect o with
    | None => Ok false
    | Some nominal =>
        let left := r_x_um nominal in
        let right := right_um nominal in
        let bottom := r_y_um nominal in
        let top := top_um nominal in
        if is_area_kind (op_kind o) then
          bounds ← independent_area_raster_bounds o radius;
          let '(x_min, x_max, y_min, y_max) := bounds in
          let within_raster := (x_min <=? x_um) && (x_um <=? x_max) && ((y_min <=? y_um) && (y_um <=? y_max)) in
          Ok (within_raster || bool_decide (q ∈ independent_dogbone_centres o))
        else if negb (bool_decide (op_kind o = OP_CONTOUR)) then Ok false
        else if bool_decide (op_compensation o = Some "INSIDE") then
          let inset_left := left + radius in
          let inset_right := right - radius in
          let inset_bottom := bottom + radius in
          let inset_top := top - radius in
          Ok ((inset_left <=? x_um) && (x_um <=? inset_right) && ((inset_bottom <=? y_um) && (y_um <=? inset_top)) &&
              (bool_decide (x_um ∈ [inset_left; inset_right]) || bool_decide (y_um ∈ [inset_bottom; inset_top])))
        else if negb (bool_decide (op_compensation o = Some "OUTSIDE")) then Ok false
        else if (((left <=? x_um) && (x_um <=? right)) && bool_decide (y_um ∈ [bottom - radius; top + radius])) ||
                (((bottom <=? y_um) && (y_um <=? top)) && bool_decide (x_um ∈ [left - radius; right + radius]))
        then Ok true
        else
          let corner_x := if x_um <? left then Some left else if right <? x_um then Some right else None in
          let corner_y := if y_um <? bottom then Some bottom else if top <? y_um then Some top else None in
          match corner_x, corner_y with
          | Some cx, Some cy =>
              Ok (Z.abs ((x_um - cx) ^ 2 + (y_um - cy) ^ 2 - radius ^ 2) <=? radial_tolerance radius)
          | _, _ => Ok false
          end
    end.

(** [_material_removal_segment_allowed] *)
Definition material_removal_segment_allowed (r : CuttingRecipe) (previous m : ProductionMove) : result bool :=
  let start := mv_xy previous in
  let stop := mv_xy m in
  let radius_um := half_diameter in
  if negb (bool_decide (start = stop)) && negb (mv_z_um previous =? mv_z_um m) then Ok false
  else if bool_decide (start = stop) then operation_point_allowed start
  else if is_hole_kind (op_kind o) then Ok false
  else
    match sized_rect o with
    | None => Ok false
    | Some nominal =>
        let left := r_x_um nominal in
        let right := right_um nominal in
        let bottom := r_y_um nominal in
        let top := top_um nominal in
        if is_area_kind (op_kind o) then
          bounds ← independent_area_raster_bounds o radius_um;
          let '(raster_left, raster_right, raster_bottom, raster_top) := bounds in
          let in_raster (q : point) := (raster_left <=? fst q) && (fst q <=? raster_right) &&
                                       ((raster_bottom <=? snd q) && (snd q <=? raster_top)) in
          Ok (in_raster start && in_raster stop)
        else if negb (bool_decide (op_kind o = OP_CONTOUR)) then Ok false
        else if bool_decide (op_compensation o = Some "INSIDE") then
          Ok (inside_contour_segment_allowed start stop (left + radius_um) (right - radius_um) (bottom + radius_um)
                (top - radius_um))
        else if negb (bool_decide (op_compensation o = Some "OUTSIDE")) then Ok false
        else
          Ok (negb (bool_decide (outside_segment_phases start stop left right bottom top radius_um
                                   (cr_process_accuracy_um r) = [])))
    end.
End Segments.
