(* ===== verification/VerificationCoverage.v ===== *)
(** * The cutting program verifier: the motion of an operation

    The checks of [production_verification.py] on the passes, tabs and coverage of
    an operation, from the moves a program has for it. *)

From S2P Require Import Prelude Text GCode Identity Models ManufacturingModel Machining CamValidation ProductionModel ToolpathGeometry ToolpathContracts VerificationModel VerificationGeometry VerificationBindings VerificationPrograms VerificationMotion.

Definition is_linear (m : ProductionMove) : bool := bool_decide (mv_kind m = LINEAR).
Definition is_rapid (m : ProductionMove) : bool := bool_decide (mv_kind m = RAPID).
Definition has_role (role : ProductionMoveRole) (m : ProductionMove) : bool := bool_decide (mv_role m = role).
Definition is_tab_move (m : ProductionMove) : bool := has_role TAB_RAMP m || has_role TAB_BRIDGE m.

(** A move that an option holds and a test accepts. *)
Definition holds_move (test : ProductionMove -> bool) (m : option ProductionMove) : bool :=
  match m with Some m => test m | None => false end.

(** [moves[index - n]] where [index >= n], and nothing otherwise. *)
Definition move_before (moves : list ProductionMove) (index n : nat) : option ProductionMove :=
  if bool_decide (n <= index)%nat then moves !! (index - n)%nat else None.

Definition moves_of_pass (moves : list ProductionMove) (pass_index : Z) : list ProductionMove :=
  List.filter (fun m => mv_pass_index m =? pass_index) moves.
Definition cutting_of_pass (moves : list ProductionMove) (pass_index : Z) : list ProductionMove :=
  List.filter is_linear (moves_of_pass moves pass_index).

(** The values in the order they are met first. *)
Definition first_occurrences (values : list Z) : list Z := rev (remove_dups (rev values)).

Section Operation.
Context (p : ProductionProgram) (o : CAMOperation) (s : BoundSetup) (t : ProductionToolBinding) (r : CuttingRecipe).
Context (moves : list ProductionMove).

Definition sequence_issue (message : string) : CuttingProgramIssue := contract_issue "OPERATION_SEQUENCE_INVALID" message p o.
Definition tab_issue (message : string) : CuttingProgramIssue := contract_issue "TAB_CONTRACT_INVALID" message p o.
Definition coverage_issue (message : string) : CuttingProgramIssue :=
  contract_issue "MATERIAL_REMOVAL_COVERAGE_INVALID" message p o.
Definition tab_floor_z : Z := - (bs_stock_thickness_um s - cr_tab_height_um r).

(** ** Drill cycles *)

Definition is_position (m : ProductionMove) : bool :=
  is_rapid m && has_role POSITION m && (mv_z_um m =? bs_safe_z_um s).
Definition is_approach (m : ProductionMove) : bool :=
  is_rapid m && has_role APPROACH m && (mv_z_um m =? cr_approach_clearance_um r).
Definition is_retract (m : ProductionMove) : bool :=
  is_rapid m && has_role RETRACT m && (mv_z_um m =? bs_safe_z_um s).

(** One peck: its index among the moves, its pass and its level. *)
Definition peck_issues (levels : nat) (peck : Z * (nat * Z)) : issues :=
  let '(pass_index, (index, level)) := peck in
  match moves !! index with
  | None => []
  | Some m =>
      add_if (negb (mv_pass_index m =? pass_index) || negb (has_role CUT m) || negb (mv_z_um m =? level) ||
              negb (bool_decide (mv_xy m = (op_x_um o, op_y_um o))))
        (move_issue "OPERATION_SEQUENCE_INVALID" "drill peck does not match its exact point, role, pass and depth" p m) ++
      (if pass_index <? Z.of_nat levels then
         match moves !! S index with
         | None => [move_issue "OPERATION_SEQUENCE_INVALID" "drill peck lacks its contracted retract" p m]
         | Some back =>
             add_if (negb (is_rapid back) || negb (has_role PECK_RETRACT back) ||
                     negb (mv_pass_index back =? pass_index) || negb (mv_z_um back =? cr_approach_clearance_um r) ||
                     negb (bool_decide (mv_xy back = (op_x_um o, op_y_um o))))
               (move_issue "OPERATION_SEQUENCE_INVALID" "drill peck retract differs from the exact recipe cycle" p back)
         end
       else [])
  end.

Definition indexes_of (test : ProductionMove -> bool) : list nat :=
  List.filter (fun index => holds_move test (moves !! index)) (seq 0 (length moves)).

Definition drill_sequence_issues (levels : list Z) : issues :=
  if bool_decide (length moves < 4)%nat then [sequence_issue "drill cycle is incomplete"]
  else
    add_if (negb (holds_move is_position (moves !! 0%nat) && holds_move is_approach (moves !! 1%nat)))
      (sequence_issue "drill cycle lacks its exact position and approach prefix") ++
    let linear_indexes := indexes_of is_linear in
    if negb (bool_decide (length linear_indexes = length levels))
    then [sequence_issue "drill cycle does not contain one plunge per peck depth"]
    else concat (map (peck_issues (length levels)) (enumerate1 (zip linear_indexes levels))).

(** ** Holding tabs *)

(** [_expected_tab_bridge_endpoints]; asserts both sizes. *)
Definition expected_tab_bridge_endpoints (radius_um centreline_width_um : Z) : result (list (point * point)) :=
  width_um ← of_option (op_width_um o) AssertionError;
  length_um ← of_option (op_length_um o) AssertionError;
  let left := op_x_um o in
  let right := op_x_um o + width_um in
  let bottom := op_y_um o in
  let top := op_y_um o + length_um in
  let horizontal_before := (width_um - centreline_width_um) / 2 in
  let vertical_before := (length_um - centreline_width_um) / 2 in
  Ok [((left + horizontal_before, bottom - radius_um), (left + horizontal_before + centreline_width_um, bottom - radius_um));
      ((right + radius_um, bottom + vertical_before), (right + radius_um, bottom + vertical_before + centreline_width_um));
      ((right - horizontal_before, top + radius_um), (right - horizontal_before - centreline_width_um, top + radius_um));
      ((left - radius_um, top - vertical_before), (left - radius_um, top - vertical_before - centreline_width_um))].

(** The last index of a move with a sequence. *)
Definition index_by_sequence (sequence : Z) : option nat := last (indexes_of (fun m => mv_sequence m =? sequence)).

(** A cutting move of a pass, by role and depth. *)
Definition cuts_at (pass_index : Z) (role : ProductionMoveRole) (z_um : Z) (m : ProductionMove) : bool :=
  is_linear m && has_role role m && (mv_pass_index m =? pass_index) && (mv_z_um m =? z_um).

(** One bridge: its ends, when a move comes before it, and whether its ramps and
    its neighbours are as contracted. *)
Definition bridge_facts (pass_index level : Z) (bridge : ProductionMove) : option (point * point) * bool :=
  match index_by_sequence (mv_sequence bridge) with
  | None => (None, false)
  | Some index =>
      let before := move_before moves index 2 in
      let ramp_up := move_before moves index 1 in
      let ramp_down := moves !! S index in
      let after := moves !! S (S index) in
      ((fun up => (mv_xy up, mv_xy bridge)) <$> ramp_up,
       holds_move (cuts_at pass_index CUT level) before &&
       holds_move (cuts_at pass_index TAB_RAMP tab_floor_z) ramp_up &&
       bool_decide ((mv_xy <$> before) = (mv_xy <$> ramp_up)) &&
       cuts_at pass_index TAB_BRIDGE tab_floor_z bridge &&
       holds_move (cuts_at pass_index TAB_RAMP level) ramp_down &&
       bool_decide ((mv_xy <$> ramp_down) = Some (mv_xy bridge)) &&
       holds_move (cuts_at pass_index CUT level) after)
  end.

Definition pass_tab_issues (expected_bridges : list (point * point)) (pass : Z * Z) : issues :=
  let '(pass_index, level) := pass in
  let pass_tab_moves := List.filter is_tab_move (moves_of_pass moves pass_index) in
  if tab_floor_z <=? level then
    add_if (negb (bool_decide (pass_tab_moves = [])))
      (tab_issue "release contour contains tab motion above the contracted tab floor")
  else
    let bridges := List.filter (has_role TAB_BRIDGE) pass_tab_moves in
    let ramps := List.filter (has_role TAB_RAMP) pass_tab_moves in
    let facts := map (bridge_facts pass_index level) bridges in
    add_if (negb (bool_decide (length bridges = 4%nat)) || negb (bool_decide (length ramps = 8%nat)))
      (tab_issue "release contour must retain four exact tab bridges per active pass") ++
    add_if (negb (bool_decide (omap fst facts = expected_bridges)) || negb (forallb snd facts))
      (tab_issue "tabs must be one exact centred physical-width bridge on each straight edge").

(** ** Passes *)

Definition pass_frame_issues (pass_index : Z) : issues :=
  let pass_moves := moves_of_pass moves pass_index in
  add_if (bool_decide (length pass_moves < 4)%nat || negb (holds_move is_position (pass_moves !! 0%nat)) ||
          negb (holds_move is_approach (pass_moves !! 1%nat)) || negb (holds_move is_retract (last pass_moves)))
    (sequence_issue "area/contour pass lacks its exact position, approach or retract sequence").

(** [_validate_pass_sequences] *)
Definition validate_pass_sequences (levels : list Z) : result issues :=
  if bool_decide (op_kind o = OP_DRILL) then Ok (drill_sequence_issues levels)
  else
    tabs ←
      (if negb (releases_part o) then
         Ok (add_if (existsb is_tab_move moves) (tab_issue "non-release operation contains tab motion"))
       else if (cr_tab_height_um r <=? 0) || (0 <=? tab_floor_z) then
         Ok [tab_issue "release contour tab height does not leave positive holding material"]
       else
         expected_bridges ← expected_tab_bridge_endpoints (tb_effective_diameter_um t / 2)
                              (cr_tab_width_um r + tb_effective_diameter_um t);
         Ok (concat (map (pass_tab_issues expected_bridges) (enumerate1 levels))));
    Ok (concat (map pass_frame_issues (seqZ 1 (Z.of_nat (length levels)))) ++ tabs).

(** ** The coverage of areas *)

(** A move with the move whose sequence comes just before. *)
Definition previous_by_sequence (m : ProductionMove) : option ProductionMove :=
  by_sequence (fun previous => mv_sequence previous + 1) moves (mv_sequence m).

(** The cutting segments at the level of a pass. *)
Definition level_segments (pass : Z * Z) : list (point * point) :=
  let '(pass_index, level) := pass in
  let at_level m := is_linear m && (mv_pass_index m =? pass_index) && (mv_z_um m =? level) in
  omap (fun m =>
    previous ← previous_by_sequence m;
    if at_level m && at_level previous then Some (mv_xy previous, mv_xy m) else None) moves.

(** [frozenset((start, end))]: a segment and its reverse are the same. *)
Definition cut_either_way (segments : list (point * point)) (start stop : point) : bool :=
  bool_decide ((start, stop) ∈ segments) || bool_decide ((stop, start) ∈ segments).

Definition joins_ends (lo hi first second : Z) : bool :=
  ((first =? lo) && (second =? hi)) || ((first =? hi) && (second =? lo)).

(** The lanes that go from side to side: a set. *)
Definition level_lanes (horizontal : bool) (bounds : Z * Z * Z * Z) (segments : list (point * point)) : list Z :=
  let '(x_min, x_max, y_min, y_max) := bounds in
  remove_dups (omap (fun segment : point * point =>
    let '((previous_x, previous_y), (x, y)) := segment in
    if horizontal then if (y =? previous_y) && joins_ends x_min x_max previous_x x then Some y else None
    else if (x =? previous_x) && joins_ends y_min y_max previous_y y then Some x else None) segments).

(** One relief: exactly one cut at its centre, between an approach and a retract. *)
Definition relief_cycle_valid (pass : Z * Z) (centre : point) : bool :=
  let '(pass_index, level) := pass in
  match indexes_of (fun m => (mv_pass_index m =? pass_index) && is_linear m && bool_decide (mv_xy m = centre)) with
  | [index] =>
      holds_move (fun m => is_rapid m && has_role APPROACH m && bool_decide (mv_xy m = centre)) (move_before moves index 1) &&
      holds_move (fun m => has_role CUT m && (mv_z_um m =? level)) (moves !! index) &&
      holds_move (fun m => is_rapid m && has_role RETRACT m && bool_decide (mv_xy m = centre)) (moves !! S index)
  | _ => false
  end.

Definition lanes_cover (lanes : list Z) (expected_min expected_max spacing : Z) : bool :=
  let ordered := sort_by Z.compare lanes in
  bool_decide (head ordered = Some expected_min) && bool_decide (last ordered = Some expected_max) &&
  forallb (fun pair : Z * Z => snd pair - fst pair <=? spacing) (consecutive ordered).

Definition pass_area_issues (bounds : Z * Z * Z * Z) (pass : Z * Z) : issues :=
  let '(x_min, x_max, y_min, y_max) := bounds in
  let stepover := tb_effective_diameter_um t * cr_stepover_ppm r / 1000000 in
  let guaranteed_cut_width := tb_effective_diameter_um t - 2 * cr_process_accuracy_um r in
  let horizontal := y_max - y_min <=? x_max - x_min in
  let segments := level_segments pass in
  let required_boundary := List.filter (fun side : point * point => negb (bool_decide (fst side = snd side)))
    (sides_of [(x_min, y_min); (x_max, y_min); (x_max, y_max); (x_min, y_max)]) in
  let '(expected_min, expected_max) := if horizontal then (y_min, y_max) else (x_min, x_max) in
  add_if (negb (forallb (fun side : point * point => cut_either_way segments (fst side) (snd side)) required_boundary))
    (coverage_issue "area boundary is not fully cut at every required depth") ++
  add_if (negb (lanes_cover (level_lanes horizontal bounds segments) expected_min expected_max
                  (Z.min stepover guaranteed_cut_width)))
    (coverage_issue "raster lanes do not conservatively cover the operation rectangle") ++
  add_if (negb (forallb (relief_cycle_valid pass) (independent_dogbone_centres o)))
    (coverage_issue "dogbone relief centres do not each have one exact axial cycle per pass").

(** [_validate_area_coverage] *)
Definition validate_area_coverage (levels : list Z) : result issues :=
  bounds ← independent_area_raster_bounds o (tb_effective_diameter_um t / 2);
  Ok (concat (map (pass_area_issues bounds) (enumerate1 levels))).

(** ** The coverage of contours *)

Definition inside_lap (nominal : Rect) (radius : Z) : list point :=
  let left := r_x_um nominal + radius in
  let right := right_um nominal - radius in
  let bottom := r_y_um nominal + radius in
  let top := top_um nominal - radius in
  [(left, bottom); (left, top); (right, top); (right, bottom); (left, bottom)].

Definition pass_contour_issues (nominal : Rect) (pass : Z * Z) : issues :=
  let '(pass_index, level) := pass in
  let radius := tb_effective_diameter_um t / 2 in
  let pass_moves := moves_of_pass moves pass_index in
  let cutting := List.filter (fun m => is_linear m && (mv_z_um m <=? 0)) pass_moves in
  let points := map mv_xy cutting in
  let inner := removelast (drop 2 pass_moves) in
  let continuous_cutting_block :=
    bool_decide (4 <= length pass_moves)%nat && forallb is_linear inner && bool_decide (inner = cutting) in
  let valid :=
    if bool_decide (op_compensation o = Some "INSIDE")
    then continuous_cutting_block && bool_decide (points = inside_lap nominal radius)
    else
      let repeats_are_ramps := forallb (fun pair : ProductionMove * ProductionMove =>
        negb (bool_decide (mv_xy (fst pair) = mv_xy (snd pair))) ||
        (has_role TAB_RAMP (snd pair) && negb (mv_z_um (fst pair) =? mv_z_um (snd pair)))) (consecutive cutting) in
      continuous_cutting_block && repeats_are_ramps &&
      outside_contour_is_one_safe_lap points nominal radius (cr_process_accuracy_um r) in
  add_if (negb valid || match cutting with [] => true | _ => negb (minZ 0 (map mv_z_um cutting) =? level) end)
    (coverage_issue "contour pass is not one continuous independently reconstructed lap").

(** [_validate_contour_coverage]; asserts both sizes. *)
Definition validate_contour_coverage (levels : list Z) : result issues :=
  nominal ← of_option (sized_rect o) AssertionError;
  Ok (concat (map (pass_contour_issues nominal) (enumerate1 levels))).

Definition drill_coverage_issues (levels : list Z) : issues :=
  concat (map (fun pass_index =>
    let cutting := cutting_of_pass moves pass_index in
    add_if (negb (bool_decide (length cutting = 1%nat)) ||
            existsb (fun m => negb (bool_decide (mv_xy m = (op_x_um o, op_y_um o)))) cutting)
      (coverage_issue "drilling pass is not one exact axial cutting move")) (seqZ 1 (Z.of_nat (length levels)))).

(** ** The motion of an operation *)

Definition pass_depth_issues (pass : Z * Z) : issues :=
  let '(pass_index, expected_z) := pass in
  let cutting := cutting_of_pass moves pass_index in
  let tabs_active := releases_part o && (expected_z <? tab_floor_z) in
  let depth_issue message := contract_issue "CUT_DEPTH_INVALID" message p o in
  add_if (match cutting with [] => true | _ => negb (minZ 0 (map mv_z_um cutting) =? expected_z) end)
    (depth_issue "pass does not reach its exact independently calculated depth") ++
  add_if (existsb (fun m => (mv_z_um m <? expected_z) || (0 <=? mv_z_um m)) cutting)
    (depth_issue "cutting move exceeds its pass depth or safe envelope") ++
  concat (map (fun m =>
    add_if (negb ((mv_z_um m =? expected_z) || (tabs_active && is_tab_move m && (mv_z_um m =? tab_floor_z))))
      (move_issue "CUT_DEPTH_INVALID" "cutting move does not use its pass or contracted tab depth" p m)) cutting).

Definition rapid_issues (m : ProductionMove) : issues :=
  let expected_z := if has_role POSITION m || has_role RETRACT m then bs_safe_z_um s else cr_approach_clearance_um r in
  add_if (negb (mv_z_um m =? expected_z))
    (move_issue "RAPID_Z_INVALID" "rapid role does not use its exact contracted Z" p m).

Definition linear_issues (previous : option ProductionMove) (m : ProductionMove) : result issues :=
  let plunge := holds_move (fun q => bool_decide (mv_xy q = mv_xy m) && negb (mv_z_um m =? mv_z_um q)) previous in
  let expected_feed := if plunge then cr_plunge_um_min r else cr_feed_um_min r in
  point_allowed ← operation_point_allowed o t (mv_xy m);
  segment_allowed ←
    match previous with
    | Some q => if Z.min (mv_z_um q) (mv_z_um m) <? 0 then material_removal_segment_allowed o t r q m else Ok true
    | None => Ok true
    end;
  Ok (add_if (negb (bool_decide (mv_feed_um_min m = Some expected_feed)))
        (move_issue "CUT_FEED_INVALID" "linear feed differs from the exact cutting recipe" p m) ++
      add_if (negb point_allowed)
        (move_issue "OPERATION_GEOMETRY_MISMATCH" "cutting endpoint lies outside reconstructed operation geometry" p m) ++
      add_if (negb segment_allowed)
        (move_issue "MATERIAL_REMOVAL_SEGMENT_INVALID"
           "material-removing 3D segment leaves the independently reconstructed operation geometry or violates axial plunge semantics"
           p m)).

Definition segment_issues (step : option ProductionMove * ProductionMove) : result issues :=
  let '(previous, m) := step in
  if is_rapid m then Ok (rapid_issues m) else linear_issues previous m.

(** Each move of the operation with the one before. *)
Definition operation_steps : list (option ProductionMove * ProductionMove) := zip (None :: map Some moves) moves.

Definition coverage_issues (levels : list Z) : result issues :=
  if is_area_kind (op_kind o) then validate_area_coverage levels
  else if bool_decide (op_kind o = OP_CONTOUR) then validate_contour_coverage levels
  else Ok (drill_coverage_issues levels).

Definition operation_levels : list Z :=
  depth_levels (fst (target_depth p o s r)) (if is_hole_kind (op_kind o) then cr_peck_depth_um r else cr_stepdown_um r).

Definition operation_motion_issues : result issues :=
  let levels := operation_levels in
  segments ← traverse segment_issues operation_steps;
  sequences ← validate_pass_sequences levels;
  coverage ← coverage_issues levels;
  Ok (add_if (negb (holds_move (fun m => is_rapid m && has_role POSITION m) (head moves)))
        (sequence_issue "operation does not begin with a rapid position") ++
      add_if (negb (holds_move is_retract (last moves)))
        (sequence_issue "operation does not finish with an exact safe-Z retract") ++
      snd (target_depth p o s r) ++
      add_if (negb (bool_decide (first_occurrences (map mv_pass_index moves) = seqZ 1 (Z.of_nat (length levels)))))
        (contract_issue "PASS_ORDER_INVALID" "operation pass indexes are not dense and canonical" p o) ++
      concat (map pass_depth_issues (enumerate1 levels)) ++
      concat segments ++ sequences ++ coverage).
End Operation.

Definition operation_moves (p : ProductionProgram) (o : CAMOperation) : list ProductionMove :=
  filter (fun m => mv_operation_id m = op_operation_id o) (pg_moves p).

(** [_validate_operation_motion] *)
Definition validate_operation_motion (p : ProductionProgram) (o : CAMOperation) (s : BoundSetup)
    (t : ProductionToolBinding) (r : CuttingRecipe) : result issues :=
  match operation_moves p o with
  | [] => Ok [contract_issue "OPERATION_MOVE_COVERAGE_INVALID" "operation has no moves" p o]
  | moves => operation_motion_issues p o s t r moves
  end.
