(* ===== verification/Verification.v ===== *)
(** * The cutting program verifier

    [verify_production_toolpaths]: every check of
    [cam/src/custombuild_cam/production_verification.py] in its order, and the
    report.  The assertions and look-ups of the source that can fail are errors. *)

From S2P Require Import Prelude Text GCode Identity Models ManufacturingModel Machining CamValidation ProductionModel ToolpathGeometry ToolpathContracts VerificationModel VerificationGeometry VerificationBindings VerificationPrograms VerificationMotion VerificationCoverage.

Section Verify.
Context (document : ProductionToolpathDocument) (source : OperationsDocument).

Let context : ProductionExecutionContext := pt_execution_context document.

(** ** The document and its catalogues *)

Definition source_errors : issues :=
  map (document_issue "SOURCE_CONTRACT_INVALID") (snd (validate_operations_document source None)).

Definition document_issues : issues :=
  let mismatch message := document_issue "DOCUMENT_BINDING_MISMATCH" message in
  add_if (negb (bool_decide (od_design_hash source = pt_design_hash document)))
    (mismatch "source and toolpath design hashes differ") ++
  add_if (negb (bool_decide (pt_operations_sha256 document = content_hash (source_document_json source))))
    (mismatch "source operations checksum differs") ++
  add_if (negb (bool_decide (pt_mode document = EXECUTABLE_CAM_CANDIDATE_MODE)))
    (document_issue "CANDIDATE_MODE_INVALID" "toolpath mode is not executable CAM candidate") ++
  add_if (pt_physical_cutting_authorized document)
    (document_issue "PHYSICAL_AUTHORITY_INVALID" "CAM candidate claims physical authority") ++
  add_if (negb (pt_workshop_acceptance_required document))
    (document_issue "WORKSHOP_ACCEPTANCE_BYPASSED" "workshop acceptance is not required") ++
  add_if (negb (bool_decide (od_machine_profile_id source = pe_source_machine_profile_id context)) ||
          negb (bool_decide (od_machine_profile_version source = pe_source_machine_profile_version context)))
    (mismatch "source validation-machine profile identity differs") ++
  add_if (negb (bool_decide (pt_machine_profile_fingerprint document = machine_profile_fingerprint context)))
    (mismatch "machine profile fingerprint differs") ++
  add_if (negb (bool_decide (pt_tool_catalog_fingerprint document = binding_catalog_fingerprint context)))
    (mismatch "tool catalogue fingerprint differs") ++
  add_if (negb (bool_decide (pt_recipe_catalog_fingerprint document = recipe_catalog_fingerprint context)))
    (mismatch "recipe catalogue fingerprint differs").

(** The dictionaries, each with the issues of its duplicates. *)
Definition source_setups_found := unique_by_id su_setup_id "SOURCE_SETUP_DUPLICATE" (od_setups source).
Definition bound_setups_found := unique_by_id bs_setup_id "BOUND_SETUP_DUPLICATE" (pe_setups context).
Definition bindings_found := unique_by_id tb_tool_id "TOOL_BINDING_DUPLICATE" (pe_tool_bindings context).
Definition bindings_by_source_tool_found :=
  unique_by_id tb_source_tool_id "SOURCE_TOOL_BINDING_DUPLICATE" (pe_tool_bindings context).
Definition source_tools_found := unique_by_id tl_tool_id "SOURCE_TOOL_DUPLICATE" (od_tools source).
Definition source_operations_found := unique_by_id op_operation_id "SOURCE_OPERATION_DUPLICATE" (od_operations source).
Definition recipes_found := unique_by_id cr_recipe_id "RECIPE_DUPLICATE" (pe_recipes context).

Definition duplicate_issues : issues :=
  snd source_setups_found ++ snd bound_setups_found ++ snd bindings_found ++ snd bindings_by_source_tool_found ++
  snd source_tools_found ++ snd source_operations_found ++ snd recipes_found.

Definition part_outlines_found : list FinishedOutline * issues :=
  reconstruct_part_outlines (fst source_setups_found) (od_operations source).

Definition unsupported_issues : issues :=
  concat (map (fun o => add_if (bool_decide (op_kind o ∉ SUPPORTED_OPERATION_KINDS))
    (operation_issue "SOURCE_OPERATION_UNSUPPORTED" "source operation kind is unsupported by production CAM v1"
       (op_operation_id o))) (od_operations source)).

(** ** One program *)

(** What the loop over the programs carries. *)
Record verification_state := mkState {
  vs_issues : issues;
  vs_envelopes : list SweptEnvelope;
  vs_covered_operations : list string;
  vs_released_sheets : list (string * Z) }.

Definition program_operations_of (p : ProductionProgram) : list CAMOperation :=
  omap (lookup_by op_operation_id (fst source_operations_found)) (pg_operation_ids p).

(** An operation against the binding of its program. *)
Definition program_operation_issues (p : ProductionProgram) (s : BoundSetup) (t : ProductionToolBinding) (o : CAMOperation)
    : result issues :=
  contract ←
    match lookup_by tl_tool_id (fst source_tools_found) (op_tool_id o) with
    | Some source_tool => verify_operation_contract p o source_tool t
    | None => Ok []
    end;
  Ok (add_if (negb (bool_decide (op_setup_id o = pg_setup_id p)) || negb (bool_decide (op_side o = bs_side s)) ||
              negb (bool_decide (op_tool_id o = tb_source_tool_id t)))
        (contract_issue "PROGRAM_OPERATION_BINDING_INVALID"
           "operation does not match its program setup/source-tool binding" p o) ++ contract).

Definition releasing_ids (operations : list CAMOperation) : list string :=
  map op_operation_id (List.filter releases_part operations).

Definition release_order_issues (p : ProductionProgram) (operations : list CAMOperation) (physical_sheet : string * Z)
    (released_sheets : list (string * Z)) : issues :=
  let expected_release_ids := releasing_ids operations in
  let releases := negb (bool_decide (expected_release_ids = [])) in
  let found message := program_issue "RELEASE_ORDER_INVALID" message p in
  add_if (negb (bool_decide (pg_release_operation_ids p = expected_release_ids)))
    (found "release-operation inventory differs from source contour semantics") ++
  add_if (releases && negb (bool_decide (last_n (length expected_release_ids) (pg_operation_ids p) = expected_release_ids)))
    (found "release contours are not the final program operations") ++
  add_if (releases && negb (bool_decide (pg_operation_ids p = expected_release_ids)))
    (found "terminal release operations must be isolated in their own program") ++
  add_if (bool_decide (physical_sheet ∈ released_sheets))
    (found "a program follows a terminal release contour on the physical sheet").

(** The contract and the motion of an operation with its recipe. *)
Definition operation_cut_issues (p : ProductionProgram) (s : BoundSetup) (t : ProductionToolBinding)
    (recipes : gmap string CuttingRecipe) (o : CAMOperation) : result issues :=
  match recipes !! op_operation_id o with
  | Some r =>
      if bool_decide (op_kind o ∈ SUPPORTED_OPERATION_KINDS) then
        motion ← validate_operation_motion p o s t r;
        Ok (validate_recipe_operation_contract p o s t r ++ motion)
      else Ok []
  | None => Ok []
  end.

(** The part of the loop after the setup and the tool are found. *)
Definition verify_bound_program (p : ProductionProgram) (s : BoundSetup) (t : ProductionToolBinding)
    (st : verification_state) : result verification_state :=
  let operations := program_operations_of p in
  bindings ← traverse (program_operation_issues p s t) operations;
  let '(recipes, recipe_found) := recipes_for_operations p operations s t (fst recipes_found)
    (pe_machine_profile_id context) (pe_machine_profile_version context) in
  let physical_sheet := (bs_stock_id s, bs_sheet_index s) in
  let envelopes := build_program_envelopes p s t recipes in
  cuts ← traverse (operation_cut_issues p s t recipes) operations;
  Ok {| vs_issues := vs_issues st ++
          add_if (negb (bool_decide (length operations = length (pg_operation_ids p))))
            (program_issue "PROGRAM_OPERATION_UNKNOWN" "program contains an operation absent from the source document" p) ++
          concat bindings ++ recipe_found ++
          add_if (negb (bool_decide (pg_recipe_ids p = sort_strings (remove_dups (map (fun kv => cr_recipe_id (snd kv)) (map_to_list recipes))))))
            (program_issue "PROGRAM_RECIPE_BINDING_INVALID" "program recipe inventory differs from its operations" p) ++
          release_order_issues p operations physical_sheet (vs_released_sheets st) ++
          validate_program_entry p s t context ++ validate_move_order p ++
          validate_motion_safety p s t context envelopes ++
          validate_inter_part_collisions p s (fst source_operations_found) (fst part_outlines_found) envelopes ++
          concat cuts;
        vs_envelopes := vs_envelopes st ++ envelopes;
        vs_covered_operations := vs_covered_operations st ++ map op_operation_id operations;
        vs_released_sheets := if bool_decide (releasing_ids operations = []) then vs_released_sheets st
                              else physical_sheet :: vs_released_sheets st |}.

Definition with_issues (found : issues) (st : verification_state) : verification_state :=
  mkState (vs_issues st ++ found) (vs_envelopes st) (vs_covered_operations st) (vs_released_sheets st).

(** One pass of the loop over the programs. *)
Definition verify_program (st : verification_state) (rp : Z * ProductionProgram) : result verification_state :=
  let '(expected_run_order, p) := rp in
  let st := with_issues (add_if (negb (pg_run_order p =? expected_run_order))
                           (program_issue "PROGRAM_ORDER_INVALID" "program run order must be dense and canonical" p)) st in
  match lookup_by bs_setup_id (fst bound_setups_found) (pg_setup_id p) with
  | None => Ok (with_issues [program_issue "PROGRAM_SETUP_UNKNOWN" "program references an unknown bound setup" p] st)
  | Some s =>
      let unknown := program_issue "PROGRAM_TOOL_UNKNOWN" "program tool identity/version is not bound" p in
      match lookup_by tb_tool_id (fst bindings_found) (pg_tool_id p) with
      | None => Ok (with_issues [unknown] st)
      | Some t =>
          if bool_decide (tb_tool_version t = pg_tool_version p) then verify_bound_program p s t st
          else Ok (with_issues [unknown] st)
      end
  end.

Definition verify_programs : result verification_state :=
  foldM verify_program (mkState [] [] [] []) (enumerate1 (pt_programs document)).

(** Every issue, before the set is made. *)
Definition found_issues (partition : issues) (st : verification_state) : issues :=
  let covered := vs_covered_operations st in
  source_errors ++ validate_source_machine_binding source context ++ validate_execution_catalogs context ++
  document_issues ++ duplicate_issues ++
  validate_setup_bindings (fst source_setups_found) (fst bound_setups_found) (fst bindings_by_source_tool_found) context
    (od_operations source) ++
  validate_source_tool_bindings (fst source_tools_found) (fst bindings_by_source_tool_found) (fst source_operations_found) ++
  snd part_outlines_found ++ validate_program_order (pt_programs document) ++ partition ++ unsupported_issues ++
  vs_issues st ++
  add_if (negb (distinct covered) || negb (py_set_eq covered (map op_operation_id (fst source_operations_found))))
    (document_issue "PROGRAM_OPERATION_COVERAGE_INVALID" "programs do not cover every source operation exactly once").

Definition count_where {A} (test : A -> bool) (values : list A) : Z := Z.of_nat (length (List.filter test values)).

Definition new_report (values : issues) (envelopes : list SweptEnvelope) : CuttingProgramReport :=
  {| cp_schema_version := CUTTING_PROGRAM_REPORT_SCHEMA_VERSION;
     cp_verifier_version := CUTTING_PROGRAM_VERIFIER_VERSION;
     cp_status := match values with [] => STATUS_PASS | _ => STATUS_BLOCK end;
     cp_toolpath_sha256 := toolpaths_fingerprint document;
     cp_operations_sha256 := content_hash (source_document_json source);
     cp_swept_envelopes_sha256 := content_hash (JArr (map envelope_json envelopes));
     cp_program_count := Z.of_nat (length (pt_programs document));
     cp_operation_count := Z.of_nat (length (od_operations source));
     cp_move_count := sumZ (map (fun p => Z.of_nat (length (pg_moves p))) (pt_programs document));
     cp_material_removal_move_count := count_where en_material_removal envelopes;
     cp_issue_count := Z.of_nat (length values);
     cp_issues := values;
     cp_physical_cutting_authorized := false;
     cp_workshop_acceptance_required := true |}.

(** [verify_production_toolpaths] *)
Definition verify_production_toolpaths : result CuttingProgramVerification :=
  partition ← validate_program_partition (fst source_setups_found) (fst bound_setups_found)
                (fst bindings_by_source_tool_found) (fst recipes_found) context (pt_programs document) (od_operations source);
  st ← verify_programs;
  let envelopes := sort_by envelope_cmp (vs_envelopes st) in
  Ok (mkVerification (new_report (sorted_issues (found_issues partition st)) envelopes) envelopes).

(** [cutting_program_report_json] *)
Definition cutting_program_report_json : result string :=
  verification ← verify_production_toolpaths;
  Ok (canonical_json (report_json (vr_report verification))).
End Verify.
