(* ===== verification/VerificationFacts.v ===== *)
(** * The cutting program verifier: what no issue means

    A report passes when every list of issues is empty.  Here the lists are taken
    apart: the programs of a passing document with their setups and tools, and the
    finished outline of every release contour. *)

From S2P Require Import Prelude Text GCode Identity Models ManufacturingModel Machining CamValidation ProductionModel ToolpathGeometry ToolpathContracts Toolpaths ToolpathSafety VerificationModel VerificationGeometry VerificationBindings VerificationPrograms VerificationMotion VerificationCoverage Verification.

Lemma add_if_nil cond i : add_if cond i = [] <-> cond = false.
Proof. unfold add_if. destruct cond; split; done. Qed.

Lemma concat_nil {A} (ls : list (list A)) : concat ls = [] <-> forall l, l ∈ ls -> l = [].
Proof.
  induction ls as [|l ls IH]; cbn.
  - split; [|done]. intros _ l Hl. by apply not_elem_of_nil in Hl.
  - split.
    + intros [E1 E2]%app_eq_nil l' Hl. apply elem_of_cons in Hl as [->|Hl]; [done|]. by apply IH.
    + intros H. rewrite (H l) by left. apply IH. intros l' Hl. apply H. by right.
Qed.

Lemma no_issue_of {A B} (f : A -> list B) l : concat (map f l) = [] -> forall x, x ∈ l -> f x = [].
Proof. intros H x Hx. apply (proj1 (concat_nil _) H). by apply list_elem_of_fmap_2. Qed.

(** Splits lists of issues that are empty. *)
Ltac no_issue :=
  repeat match goal with
  | H : _ ++ _ = [] |- _ => let E := fresh H in apply app_eq_nil in H as [E H]
  | H : add_if _ _ = [] |- _ => apply add_if_nil in H
  end.

Lemma sorted_issues_nil values : sorted_issues values = [] -> values = [].
Proof.
  unfold sorted_issues. intros H. pose proof (sort_by_perm issue_sort_cmp (remove_dups values)) as P.
  rewrite H in P. apply Permutation_nil in P.
  destruct values as [|v values]; [done|]. exfalso. apply (not_elem_of_nil (A := CuttingProgramIssue) v).
  rewrite <- P. apply elem_of_remove_dups. left.
Qed.

(** ** A passing report *)

Section Passing.
Context (document : ProductionToolpathDocument) (source : OperationsDocument).

(** The issues are all empty, and the look-ups found what they look for. *)
Definition passes : Prop :=
  exists partition st,
    validate_program_partition (fst (source_setups_found source)) (fst (bound_setups_found document))
      (fst (bindings_by_source_tool_found document)) (fst (recipes_found document)) (pt_execution_context document)
      (pt_programs document) (od_operations source) = Ok partition /\
    verify_programs document source = Ok st /\ found_issues document source partition st = [].

Lemma passes_intro v :
  verify_production_toolpaths document source = Ok v -> cp_status (vr_report v) = STATUS_PASS -> passes.
Proof.
  unfold verify_production_toolpaths, passes. intros H HS.
  destruct (validate_program_partition _ _ _ _ _ _ _) as [partition|e]; [|done].
  destruct (verify_programs document source) as [st|e] eqn:E; [|done]. injection H as <-.
  exists partition, st. split; [done|]. split; [done|].
  apply sorted_issues_nil. cbn [vr_report new_report cp_status] in HS. revert HS. by destruct (sorted_issues _).
Qed.

Lemma passes_verifies :
  passes -> exists v, verify_production_toolpaths document source = Ok v /\ cp_status (vr_report v) = STATUS_PASS.
Proof.
  intros (partition & st & HP & HV & HF). unfold verify_production_toolpaths. rewrite HP, HV. cbn [mbind result_bind].
  eexists. split; [reflexivity|]. cbn [vr_report new_report cp_status]. by rewrite HF.
Qed.

(** *** The loop over the programs *)

(** The parts of the loop for a program that found no issue. *)
Record program_passes (p : ProductionProgram) (s : BoundSetup) (t : ProductionToolBinding)
    (recipes : gmap string CuttingRecipe) : Prop := {
  pp_setup : lookup_by bs_setup_id (fst (bound_setups_found document)) (pg_setup_id p) = Some s;
  pp_tool : lookup_by tb_tool_id (fst (bindings_found document)) (pg_tool_id p) = Some t;
  pp_recipes : recipes_for_operations p (program_operations_of source p) s t (fst (recipes_found document))
    (pe_machine_profile_id (pt_execution_context document)) (pe_machine_profile_version (pt_execution_context document))
    = (recipes, []);
  pp_operations : length (program_operations_of source p) = length (pg_operation_ids p);
  pp_bindings : forall o, o ∈ program_operations_of source p -> program_operation_issues source p s t o = Ok [];
  pp_order : validate_move_order p = [];
  pp_motion : validate_motion_safety p s t (pt_execution_context document) (build_program_envelopes p s t recipes) = [];
  pp_collisions : validate_inter_part_collisions p s (fst (source_operations_found source))
    (fst (part_outlines_found source)) (build_program_envelopes p s t recipes) = [];
  pp_cuts : forall o, o ∈ program_operations_of source p -> operation_cut_issues p s t recipes o = Ok [] }.

Lemma traverse_nil {A} (f : A -> result issues) l found :
  traverse f l = Ok found -> concat found = [] -> forall x, x ∈ l -> f x = Ok [].
Proof.
  intros H%traverse_Ok HC x [i Hi]%list_elem_of_lookup. destruct (Forall2_lookup_l _ _ _ _ _ H Hi) as (y & Hy & E).
  rewrite E. f_equal. apply (proj1 (concat_nil _) HC). by eapply list_elem_of_lookup_2.
Qed.

Lemma verify_bound_program_passes p s t st st' :
  verify_bound_program document source p s t st = Ok st' -> vs_issues st' = [] ->
  lookup_by bs_setup_id (fst (bound_setups_found document)) (pg_setup_id p) = Some s ->
  lookup_by tb_tool_id (fst (bindings_found document)) (pg_tool_id p) = Some t ->
  exists recipes, program_passes p s t recipes.
Proof.
  unfold verify_bound_program. intros H HI Hs Ht.
  destruct (traverse (program_operation_issues source p s t) _) as [bindings|e] eqn:EB; [|done]. cbn [mbind result_bind] in H.
  destruct (recipes_for_operations _ _ _ _ _ _ _) as [recipes found] eqn:ER. cbv zeta in H.
  destruct (traverse (operation_cut_issues p s t recipes) _) as [cuts|e] eqn:EC; [|done]. cbn [mbind result_bind] in H.
  injection H as <-. cbn [vs_issues] in HI. no_issue. exists recipes. subst found.
  constructor; try done.
  - by apply negb_false_iff, bool_decide_eq_true in HI1.
  - by apply (traverse_nil _ _ _ EB).
  - by apply (traverse_nil _ _ _ EC).
Qed.

Lemma verify_program_issues st rp st' :
  verify_program document source st rp = Ok st' -> vs_issues st' = [] -> vs_issues st = [].
Proof.
  destruct rp as [run_order p]. unfold verify_program. cbv zeta. intros H HI.
  assert (forall found, vs_issues (with_issues found st) = [] -> vs_issues st = []) as W.
  { intros found E. by apply app_eq_nil in E as [E _]. }
  repeat case_match; try (injection H as <-; cbn [with_issues vs_issues] in HI; by no_issue).
  unfold verify_bound_program in H.
  destruct (traverse _ _) as [bindings|e]; [|done]. cbn [mbind result_bind] in H.
  destruct (recipes_for_operations _ _ _ _ _ _ _) as [recipes found]. cbv zeta in H.
  destruct (traverse _ _) as [cuts|e]; [|done]. cbn [mbind result_bind] in H.
  injection H as <-. cbn [vs_issues with_issues] in HI. by no_issue.
Qed.

Lemma verify_program_passes st run_order p st' :
  verify_program document source st (run_order, p) = Ok st' -> vs_issues st' = [] ->
  exists s t recipes, program_passes p s t recipes.
Proof.
  unfold verify_program. cbv zeta. intros H HI.
  destruct (lookup_by bs_setup_id _ _) as [s|] eqn:Es;
    [|injection H as <-; cbn [with_issues vs_issues] in HI; no_issue; done].
  destruct (lookup_by tb_tool_id _ _) as [t|] eqn:Et;
    [|injection H as <-; cbn [with_issues vs_issues] in HI; no_issue; done].
  case_bool_decide; [|injection H as <-; cbn [with_issues vs_issues] in HI; no_issue; done].
  exists s, t. by eapply verify_bound_program_passes.
Qed.

Lemma verify_programs_pass programs st st' :
  foldM (verify_program document source) st programs = Ok st' -> vs_issues st' = [] ->
  vs_issues st = [] /\ forall rp, rp ∈ programs -> exists s t recipes, program_passes (snd rp) s t recipes.
Proof.
  revert st. induction programs as [|[run_order p] programs IH]; intros st; cbn [foldM].
  - intros [= ->] HI. split; [done|]. intros rp Hrp. by apply not_elem_of_nil in Hrp.
  - destruct (verify_program document source st (run_order, p)) as [st1|e] eqn:E; [|done]. cbn [mbind result_bind]. intros H HI.
    destruct (IH st1 H HI) as [HI1 Hp]. split; [by eapply verify_program_issues|].
    intros rp Hrp. apply elem_of_cons in Hrp as [->|Hrp]; [|by apply Hp]. by eapply verify_program_passes.
Qed.

Lemma elem_of_enumerate1 {A} (x : A) l : x ∈ l -> exists i, (i, x) ∈ enumerate1 l.
Proof.
  intros [k Hk]%list_elem_of_lookup. unfold enumerate1. exists (1 + Z.of_nat k).
  apply list_elem_of_lookup. exists k. apply lookup_zip_with_Some. exists (1 + Z.of_nat k), x. split; [done|]. split; [|done].
  apply lookup_seqZ. apply lookup_lt_Some in Hk. lia.
Qed.

Lemma passing_program p : passes -> p ∈ pt_programs document -> exists s t recipes, program_passes p s t recipes.
Proof.
  intros (partition & st & _ & HV & HF) Hp. unfold found_issues in HF. no_issue.
  destruct (verify_programs_pass _ _ _ HV ltac:(assumption)) as [_ H].
  destruct (elem_of_enumerate1 p _ Hp) as [i Hi]. by apply (H (i, p)).
Qed.
End Passing.

(** ** The finished outlines *)

(** The rectangle a release contour finishes, in the frame of the sheet. *)
Definition finished_rect (o : CAMOperation) (s : Setup) : option Rect :=
  (fun r => rect_to_physical_a_frame r (su_side s) (su_stock_height_um s)) <$> sized_rect o.

Section Outlines.
Context (setups : list Setup).
Local Notation setup_of o := (lookup_by su_setup_id setups (op_setup_id o)).

(** What the first loop has found, of the operations so far. *)
Record instances_found (st : instance_facts) (seen : list CAMOperation) : Prop := {
  in_bound : forall o s, o ∈ seen -> setup_of o = Some s -> op_instance_id o ∈ map fst (if_bindings st);
  in_release : forall o s, o ∈ seen -> setup_of o = Some s -> releases_part o = true ->
    exists r, finished_rect o s = Some r /\ positive_rect r /\ (o, s, r) ∈ if_releases st;
  in_known : forall o s r, (o, s, r) ∈ if_releases st -> finished_rect o s = Some r /\ positive_rect r }.

Lemma note_instance_issues st o : if_issues (note_instance setups st o) = [] -> if_issues st = [].
Proof.
  unfold note_instance. repeat case_match; cbn [if_issues]; intros HI; no_issue; done.
Qed.

Lemma physical_positive r side h : positive_rect r -> positive_rect (rect_to_physical_a_frame r side h).
Proof. unfold rect_to_physical_a_frame. by case_bool_decide. Qed.

Lemma note_instance_found st seen o :
  instances_found st seen -> if_issues (note_instance setups st o) = [] ->
  instances_found (note_instance setups st o) (seen ++ [o]).
Proof.
  intros [Hb Hr Hk] HI. unfold note_instance in *.
  destruct (lookup_by su_setup_id setups (op_setup_id o)) as [s|] eqn:Es.
  2: { assert (forall o' s', o' ∈ seen ++ [o] -> setup_of o' = Some s' -> o' ∈ seen) as Hold.
       { intros o' s' [Ho'| ->%list_elem_of_singleton]%elem_of_app Hs'; [done|]. congruence. }
       constructor; [intros o' s' Ho' Hs'; eapply Hb; eauto|intros o' s' Ho' Hs'; eapply Hr; eauto|apply Hk]. }
  set (bindings := match entry_of (if_bindings st) (op_instance_id o) with Some _ => _ | None => _ end) in *.
  assert (forall i, i ∈ map fst (if_bindings st) -> i ∈ map fst bindings) as Hmore.
  { intros i Hi. unfold bindings. destruct (entry_of _ _); [done|]. rewrite map_app. apply elem_of_app. by left. }
  assert (op_instance_id o ∈ map fst bindings) as Hnew.
  { unfold bindings. destruct (entry_of _ _) eqn:E.
    - unfold entry_of in E. destruct (head _) as [e|] eqn:Eh; [|done].
      apply head_Some_elem_of in Eh. apply list_elem_of_filter in Eh as [<- Eh]. by apply list_elem_of_fmap_2.
    - rewrite map_app. apply elem_of_app. right. left. }
  assert (HB : forall o' s', o' ∈ seen ++ [o] -> setup_of o' = Some s' -> op_instance_id o' ∈ map fst bindings).
  { intros o' s' [Ho'| ->%list_elem_of_singleton]%elem_of_app Hs'; [|done]. apply Hmore. by eapply Hb. }
  destruct (releases_part o) eqn:ER; cbn [negb] in *.
  - unfold finished_rect in *. destruct (sized_rect o) as [r|] eqn:Er; [|cbn [if_issues] in HI; no_issue; done].
    destruct (Z.leb_spec (Z.min (r_width_um r) (r_height_um r)) 0) as [L|L]; [cbn [if_issues] in HI; no_issue; done|].
    assert (positive_rect (rect_to_physical_a_frame r (su_side s) (su_stock_height_um s))) as P.
    { apply physical_positive. unfold positive_rect. lia. }
    constructor; cbn [if_bindings if_releases]; [done| |].
    + intros o' s' [Ho'| ->%list_elem_of_singleton]%elem_of_app Hs' R'.
      * destruct (Hr o' s' Ho' Hs' R') as (r' & E & P' & Hin). exists r'. split_and!; try done. apply elem_of_app. by left.
      * assert (s' = s) as -> by congruence. unfold finished_rect. rewrite Er. eexists. split; [reflexivity|]. split; [done|].
        apply elem_of_app. right. left.
    + intros o' s' r' [Hin|E%list_elem_of_singleton]%elem_of_app; [by apply Hk|]. injection E as -> -> ->. unfold finished_rect. by rewrite Er.
  - constructor; cbn [if_bindings if_releases]; [done| |done].
    intros o' s' [Ho'| ->%list_elem_of_singleton]%elem_of_app Hs' R'; [by apply (Hr o' s')|congruence].
Qed.

Lemma note_instances_found operations :
  if_issues (note_instances setups operations) = [] -> instances_found (note_instances setups operations) operations.
Proof.
  unfold note_instances. induction operations as [|o operations IH] using rev_ind; cbn [foldl].
  - intros _. constructor; [intros o s Ho|intros o s Ho|intros o s r Ho]; by apply not_elem_of_nil in Ho.
  - rewrite foldl_app. cbn [foldl]. intros H. apply note_instance_found; [|done]. apply IH.
    by apply note_instance_issues in H.
Qed.

(** Every release contour has its finished outline, with its sheet and its
    instance. *)
Lemma release_outline operations o s :
  snd (reconstruct_part_outlines setups operations) = [] -> o ∈ operations -> releases_part o = true ->
  setup_of o = Some s ->
  exists l, l ∈ fst (reconstruct_part_outlines setups operations) /\ finished_rect o s = Some (fo_rect l) /\
    positive_rect (fo_rect l) /\ fo_instance_id l = op_instance_id o /\ fo_operation_id l = op_operation_id o /\
    fo_stock_id l = su_stock_id s /\ fo_sheet_index l = su_sheet_index s.
Proof.
  unfold reconstruct_part_outlines. cbv zeta. cbn [fst snd]. intros H Ho R Hs. no_issue.
  match goal with E : if_issues _ = [] |- _ => destruct (note_instances_found operations E) as [Hb Hr Hk] end.
  set (st := note_instances setups operations) in *.
  destruct (Hr o s Ho Hs R) as (r & Er & P & Hin).
  pose proof (Hb o s Ho Hs) as Hi. apply list_elem_of_fmap in Hi as ([i binding] & Ei & He). cbn in Ei. subst i.
  assert (snd (outline_of_instance st (op_instance_id o, binding)) = []) as HN.
  { match goal with E : concat (map snd _) = [] |- _ => apply (no_issue_of snd _ E) end. by apply list_elem_of_fmap_2. }
  assert (exists l, fst (outline_of_instance st (op_instance_id o, binding)) = Some l /\ fo_rect l = r /\
    fo_instance_id l = op_instance_id o /\ fo_operation_id l = op_operation_id o /\
    fo_stock_id l = su_stock_id s /\ fo_sheet_index l = su_sheet_index s) as (l & El & Hl).
  { clear - HN Hin. unfold outline_of_instance in *. cbv zeta in *.
    assert ((o, s, r) ∈ filter (fun release => op_instance_id (fst (fst release)) = op_instance_id o) (if_releases st)) as Hc.
    { by apply list_elem_of_filter. }
    destruct (filter _ (if_releases st)) as [|[[o' s'] r'] rest]; [by apply not_elem_of_nil in Hc|].
    destruct binding as [[[stock sheet] part] rotation]. cbn [snd] in HN. no_issue.
    apply negb_false_iff, bool_decide_eq_true in HN0, HN. destruct rest; [|done].
    apply list_elem_of_singleton in Hc. injection Hc as -> -> ->. eexists. split; [reflexivity|].
    cbn. unfold provenance_of in HN. injection HN as -> -> _ _. done. }
  destruct Hl as (<- & Hl). exists l. split; [|done].
  apply list_elem_of_omap. eexists. split; [|exact El]. by apply list_elem_of_fmap_2.
Qed.
End Outlines.

(** ** Dictionaries *)

Section Dictionaries.
Context {A : Type} (identity : A -> string).

Lemma lookup_by_found values key v : lookup_by identity values key = Some v -> v ∈ values /\ identity v = key.
Proof.
  unfold lookup_by. destruct (list_find _ values) as [[i v']|] eqn:E; [|done]. intros [= ->].
  apply list_find_Some in E as (Hi & Hv & _). split; [by eapply list_elem_of_lookup_2|done].
Qed.

Lemma lookup_by_none values key v : lookup_by identity values key = None -> v ∈ values -> identity v <> key.
Proof.
  unfold lookup_by. destruct (list_find _ values) as [[i v']|] eqn:E; [done|]. intros _ Hv.
  by apply list_find_None in E as E'; rewrite Forall_forall in E'; apply E'.
Qed.

Lemma unique_by_id_incl code values v : v ∈ fst (unique_by_id identity code values) -> v ∈ values.
Proof.
  unfold unique_by_id. induction values as [|w values IH] using rev_ind; cbn [foldl]; [done|].
  rewrite foldl_app. cbn [foldl]. case_match; cbn [fst]; rewrite !elem_of_app; tauto.
Qed.

(** No duplicate: the dictionary has every value, each under its identity. *)
Lemma unique_by_id_all code values :
  snd (unique_by_id identity code values) = [] ->
  fst (unique_by_id identity code values) = values /\ NoDup (map identity values).
Proof.
  unfold unique_by_id. induction values as [|v values IH] using rev_ind; cbn [foldl].
  - intros _. split; [done|constructor].
  - rewrite foldl_app. cbn [foldl]. set (st := foldl _ _ values) in *. intros H.
    assert (snd st = []) as E. { case_match; cbn [snd] in H; by no_issue. }
    destruct (IH E) as [Ev N]. clearbody st. destruct st as [known found]. cbn [fst snd] in *. subst known. revert H.
    destruct (is_some (lookup_by identity values (identity v))) eqn:L; cbn [fst snd]; [intros H; by no_issue|]. intros _.
    split; [done|]. rewrite map_app. apply NoDup_app. split; [done|]. split; [|cbn; apply NoDup_singleton].
    intros i Hi ->%list_elem_of_singleton. apply list_elem_of_fmap in Hi as (w & E' & Hw).
    destruct (lookup_by identity values (identity v)) eqn:L'; [done|]. by apply (lookup_by_none _ _ w L').
Qed.

Lemma NoDup_map_inj values v w : NoDup (map identity values) -> v ∈ values -> w ∈ values -> identity v = identity w -> v = w.
Proof.
  intros N [i Hi]%list_elem_of_lookup [j Hj]%list_elem_of_lookup E.
  assert (i = j) as ->; [|congruence]. apply (NoDup_lookup _ i j (identity v) N); rewrite list_lookup_fmap; [by rewrite Hi|].
  rewrite Hj. cbn. by rewrite E.
Qed.

Lemma lookup_by_unique values v : NoDup (map identity values) -> v ∈ values -> lookup_by identity values (identity v) = Some v.
Proof.
  intros N Hv. destruct (lookup_by identity values (identity v)) as [w|] eqn:E.
  - apply lookup_by_found in E as [Hw E]. f_equal. eapply NoDup_map_inj; eauto.
  - exfalso. by apply (lookup_by_none _ _ v E).
Qed.
End Dictionaries.

(** ** A passing document *)

Record passing_document (document : ProductionToolpathDocument) (source : OperationsDocument) : Prop := {
  df_setups : fst (source_setups_found source) = od_setups source /\ NoDup (map su_setup_id (od_setups source));
  df_bound : fst (bound_setups_found document) = pe_setups (pt_execution_context document);
  df_tools : fst (bindings_found document) = pe_tool_bindings (pt_execution_context document);
  df_recipes : fst (recipes_found document) = pe_recipes (pt_execution_context document);
  df_operations : fst (source_operations_found source) = od_operations source /\
                  NoDup (map op_operation_id (od_operations source));
  df_outlines : snd (part_outlines_found source) = [];
  df_tool_issues t : t ∈ pe_tool_bindings (pt_execution_context document) -> tool_binding_issues t = [];
  df_recipe_issues r : r ∈ pe_recipes (pt_execution_context document) -> recipe_issues (pt_execution_context document) r = [];
  df_source_tools id : id ∈ map tl_tool_id (fst (source_tools_found source)) <-> id ∈ map op_tool_id (od_operations source) }.

Lemma passing_facts document source : passes document source -> passing_document document source.
Proof.
  intros (partition & st & _ & _ & HF). unfold found_issues in HF. no_issue.
  match goal with H : duplicate_issues _ _ = [] |- _ => unfold duplicate_issues in H end.
  match goal with H : validate_execution_catalogs _ = [] |- _ => unfold validate_execution_catalogs in H; cbv zeta in H end.
  match goal with H : validate_source_tool_bindings _ _ _ = [] |- _ => unfold validate_source_tool_bindings in H; cbv zeta in H end.
  no_issue.
  match goal with H : snd (source_operations_found _) = [] |- _ =>
    assert (fst (source_operations_found source) = od_operations source) as Eo by apply (unique_by_id_all _ _ _ H);
    assert (NoDup (map op_operation_id (od_operations source))) as No by apply (unique_by_id_all _ _ _ H) end.
  constructor.
  - match goal with H : snd (source_setups_found _) = [] |- _ => exact (unique_by_id_all _ _ _ H) end.
  - match goal with H : snd (bound_setups_found _) = [] |- _ => apply (unique_by_id_all _ _ _ H) end.
  - match goal with H : snd (bindings_found _) = [] |- _ => apply (unique_by_id_all _ _ _ H) end.
  - match goal with H : snd (recipes_found _) = [] |- _ => apply (unique_by_id_all _ _ _ H) end.
  - split; [exact Eo|exact No].
  - assumption.
  - by apply no_issue_of.
  - by apply no_issue_of.
  - match goal with H : negb (py_set_eq (map tl_tool_id _) _) = false |- _ => apply negb_false_iff in H; rename H into HE end.
    rewrite py_set_eq_spec in HE. rewrite Eo in HE. exact HE.
Qed.
