(* ===== verification/VerificationSafety.v ===== *)
(** * Verified toolpaths are safe to follow

    What a passing report of [production_verification.py] promises of every move
    of a document, whoever made the document: no code of the generator is used.
    The cutter is the set of points within its accuracy-expanded radius. *)

From Stdlib Require Import QArith Lqa.
From S2P Require Import Prelude Text GCode Identity Models ManufacturingModel Machining CamValidation ProductionModel ToolpathGeometry CapsuleGeometry ToolpathContracts Toolpaths ToolpathSafety VerificationModel VerificationGeometry VerificationBindings VerificationPrograms VerificationMotion VerificationCoverage Verification VerificationFacts.

(** ** What is promised of a step *)

(** A point of a setup in the frame of its sheet. *)
Definition sheet_point (s : BoundSetup) (q : qpoint) : qpoint :=
  if bool_decide (bs_side s = SIDE_B) then (fst q, inject_Z (bs_stock_height_um s) - snd q)%Q else q.

(** The edges of its part that an operation may cut through. *)
Definition open_edges_of (o : CAMOperation) : list string :=
  if bool_decide (op_kind o = OP_GROOVE) then physical_open_end_boundaries o else [].

(** A cut from [start] to [stop] with a cutter of this radius. *)
Record cut_verified (source : OperationsDocument) (s : BoundSetup) (o : CAMOperation) (start stop : point)
    (cutter_um : Z) : Prop := {
  cv_stock q : within_capsule start stop cutter_um q -> in_rect q (mkRect 0 0 (bs_stock_width_um s) (bs_stock_height_um s));
  cv_zones : keeps_off (within_capsule start stop cutter_um) (bs_keep_out_zones s);
  cv_parts release s' r : release ∈ od_operations source -> releases_part release = true ->
    s' ∈ od_setups source -> su_setup_id s' = op_setup_id release ->
    (su_stock_id s', su_sheet_index s') = physical_sheet_of s -> finished_rect release s' = Some r ->
    (op_instance_id release <> op_instance_id o ->
       forall q, within_capsule start stop cutter_um q -> ~ in_rect (sheet_point s q) r) /\
    (op_instance_id release = op_instance_id o -> op_operation_id release <> op_operation_id o ->
       forall q, within_capsule start stop cutter_um q -> within_edges r (open_edges_of o) (sheet_point s q)) }.

(** How far from its place the machine may be: only while it cuts. *)
Definition margin_of (r : CuttingRecipe) (step : location * ProductionMove) : Z :=
  if removes_material step then cr_process_accuracy_um r else 0.

Definition in_machine (c : ProductionExecutionContext) (s : BoundSetup) (t : ProductionToolBinding) (margin_um : Z)
    (q : location) : Prop :=
  (pe_machine_x_min_um c + margin_um <= p2_x_um (bs_machine_wcs_origin s) + x_of q + tb_expected_length_offset_x_um t
     <= pe_machine_x_max_um c - margin_um) /\
  (pe_machine_y_min_um c + margin_um <= p2_y_um (bs_machine_wcs_origin s) + y_of q + tb_expected_length_offset_y_um t
     <= pe_machine_y_max_um c - margin_um) /\
  (pe_machine_z_min_um c + margin_um <= bs_machine_wcs_z0_um s + z_of q + tb_expected_length_offset_z_um t
     <= pe_machine_z_max_um c - margin_um).

(** Not through the spoilboard, and no deeper than the tool and its holder reach. *)
Definition depth_verified (s : BoundSetup) (t : ProductionToolBinding) (margin_um : Z) (q : location) : Prop :=
  margin_um - z_of q <= bs_stock_thickness_um s + bs_through_cut_allowance_um s /\
  margin_um - Z.min (z_of q) 0 <= tb_cutting_length_um t /\
  margin_um - Z.min (z_of q) 0 + tb_minimum_holder_clearance_um t <= tb_measured_stickout_um t.

Definition end_of (step : location * ProductionMove) (q : location) : Prop := q = fst step \/ q = place_of (snd step).

Definition sweep_radius (t : ProductionToolBinding) : Z := (tb_effective_diameter_um t + 1) / 2.

Record step_verified (c : ProductionExecutionContext) (source : OperationsDocument) (s : BoundSetup)
    (t : ProductionToolBinding) (o : CAMOperation) (r : CuttingRecipe) (step : location * ProductionMove) : Prop := {
  sv_operation : mv_operation_id (snd step) = op_operation_id o;
  sv_stock : in_stock s (mv_xy (snd step));
  sv_machine q : end_of step q -> in_machine c s t (margin_of r step) q;
  sv_depth q : end_of step q -> depth_verified s t (margin_of r step) q;
  sv_rapid : mv_kind (snd step) = RAPID ->
    0 <= mv_z_um (snd step) /\
    (fst (fst step) <> mv_xy (snd step) -> z_of (fst step) = bs_safe_z_um s /\ mv_z_um (snd step) = bs_safe_z_um s);
  sv_cut : removes_material step = true ->
    cut_verified source s o (fst (fst step)) (mv_xy (snd step)) (sweep_radius t + cr_process_accuracy_um r);
  sv_assembly : mv_kind (snd step) = LINEAR \/ z_of (fst step) < bs_safe_z_um s \/ mv_z_um (snd step) < bs_safe_z_um s ->
    keeps_off (within_capsule (fst (fst step)) (mv_xy (snd step)) (tb_assembly_collision_radius_um t + cr_process_accuracy_um r))
      (bs_keep_out_zones s) }.

(** ** The operation and the recipe of a move *)

Lemma observed_snoc moves m :
  observed_operations (moves ++ [m]) =
    if bool_decide (last (observed_operations moves) = Some (mv_operation_id m)) then observed_operations moves
    else observed_operations moves ++ [mv_operation_id m].
Proof. unfold observed_operations. by rewrite foldl_app. Qed.

Lemma observed_all moves m : m ∈ moves -> mv_operation_id m ∈ observed_operations moves.
Proof.
  induction moves as [|m' moves IH] using rev_ind; [by intros ?%not_elem_of_nil|]. rewrite observed_snoc.
  intros [Hm| ->%list_elem_of_singleton]%elem_of_app.
  - case_bool_decide; [by apply IH|]. apply elem_of_app. left. by apply IH.
  - case_bool_decide as E; [|apply elem_of_app; right; left]. by apply last_Some_elem_of.
Qed.

Lemma recipe_of_operation p operations s t recipes id version found :
  recipes_for_operations p operations s t recipes id version = (found, []) ->
  forall o, o ∈ operations -> exists r o', o' ∈ operations /\ op_operation_id o' = op_operation_id o /\
    found !! op_operation_id o = Some r /\ r ∈ matching_recipes recipes id version s t (op_kind o').
Proof.
  unfold recipes_for_operations. revert found. induction operations as [|o' operations IH] using rev_ind; cbn [foldl].
  - intros found _ o Ho. by apply not_elem_of_nil in Ho.
  - intros found. rewrite foldl_app. cbn [foldl]. destruct (foldl _ _ operations) as [found1 issues1].
    destruct (sole _) as [r|] eqn:ER; cbn [fst snd]; [|by intros [= _ E]; no_issue].
    assert (r ∈ matching_recipes recipes id version s t (op_kind o')) as Hr.
    { unfold sole in ER. destruct (matching_recipes _ _ _ _ _ _) as [|r' [|]]; [done| |done]. injection ER as ->. left. }
    intros [= <- E] o Ho. subst issues1. specialize (IH found1 eq_refl o).
    destruct (decide (op_operation_id o' = op_operation_id o)) as [E|E].
    + exists r, o'. rewrite E, lookup_insert_eq. split_and!; try done. apply elem_of_app. right. left.
    + rewrite lookup_insert_ne by done. apply elem_of_app in Ho as [Ho| ->%list_elem_of_singleton]; [|done].
      destruct (IH Ho) as (r1 & o1 & Ho1 & Hr1). exists r1, o1. split; [|done]. apply elem_of_app. by left.
Qed.

(** ** Sweeps and frames *)

Lemma sweep_rect_swept A B radius_um : sweep_rect A B radius_um = swept_rect A B radius_um.
Proof. unfold sweep_rect, swept_rect. f_equal; lia. Qed.

Lemma footprint_swept p s t recipes step :
  envelope_footprint (step_envelope p s t recipes step) =
    swept_rect (fst (fst step)) (mv_xy (snd step)) (sweep_radius t + process_accuracy_of recipes (mv_operation_id (snd step))).
Proof. rewrite <- sweep_rect_swept. reflexivity. Qed.

Lemma assembly_swept p s t recipes step :
  assembly_footprint (step_envelope p s t recipes step) =
    swept_rect (fst (fst step)) (mv_xy (snd step))
      (tb_assembly_collision_radius_um t + process_accuracy_of recipes (mv_operation_id (snd step))).
Proof. rewrite <- sweep_rect_swept. reflexivity. Qed.

Lemma keep_out_clear s A B radius_um :
  0 <= radius_um -> reaches_keep_out s (swept_rect A B radius_um) = false ->
  keeps_off (within_capsule A B radius_um) (bs_keep_out_zones s).
Proof.
  intros Hr H. apply keeps_off_swept; [done|]. apply Forall_forall. intros zone Hz. apply not_true_iff_false. intros E.
  apply not_true_iff_false in H. apply H. unfold reaches_keep_out. apply existsb_exists. exists zone.
  split; [by apply list_elem_of_In|exact E].
Qed.

(** The frame of the sheet keeps distances. *)
Lemma sheet_within s A B radius_um q :
  within_capsule A B radius_um q ->
  within_capsule (point_to_physical_a_frame A s) (point_to_physical_a_frame B s) radius_um (sheet_point s q).
Proof.
  unfold point_to_physical_a_frame, sheet_point. case_bool_decide; [|done]. intros (t & T & W). exists t. split; [done|].
  refine (Qle_trans _ _ _ _ W). apply Qle_lteq. right. unfold distance2, along, Z.sub. cbn [fst snd].
  rewrite !inject_Z_plus, !inject_Z_opp. ring.
Qed.

(** The two implementations of the capsule test are one. *)
Lemma capsule_tests_agree A B radius_um r :
  segment_capsule_touches_rect A B radius_um r = segment_radius_touches_rect A B radius_um r.
Proof.
  assert (forall q, in_rectangle q r = point_in_rect q r) as E1.
  { intros q. unfold in_rectangle, point_in_rect. by rewrite !andb_assoc. }
  assert (forall q A B, on_segment q A B = point_on_segment q A B) as E2.
  { intros q C D. unfold on_segment, point_on_segment. by rewrite !andb_assoc. }
  assert (forall A B C D, segments_touch A B C D = segments_touch_or_cross A B C D) as E3.
  { intros C D E F. unfold segments_touch, segments_touch_or_cross. cbv zeta. rewrite !E2. reflexivity. }
  assert (segment_touches_rect A B r = segment_intersects_rect A B r) as E4.
  { unfold segment_touches_rect, segment_intersects_rect. rewrite !E1. case_match; [done|]. cbv zeta.
    unfold sides_of. cbn [corners_of rect_corners drop tail take app zip zip_with existsb fst snd]. by rewrite !E3. }
  assert (forall q, distance_to_rectangle_squared q r = point_rect_distance_squared q r) as E5.
  { intros q. unfold distance_to_rectangle_squared, point_rect_distance_squared. cbv zeta. ring. }
  assert (forall q, point_within_segment_radius q A B radius_um = point_segment_within_radius q A B radius_um) as E6.
  { intros q. unfold point_within_segment_radius, point_segment_within_radius. cbv zeta.
    replace ((fst B - fst A) * (fst B - fst A) + (snd B - snd A) * (snd B - snd A))
      with ((fst B - fst A) ^ 2 + (snd B - snd A) ^ 2) by ring.
    repeat (case_match; [done|]). f_equal. ring. }
  unfold segment_capsule_touches_rect, segment_radius_touches_rect. rewrite E4, !E5. repeat (case_match; [done|]).
  change (corners_of r) with (rect_corners r). induction (rect_corners r) as [|k l IH]; cbn; [done|]. by rewrite E6, IH.
Qed.

(** ** A cut and the parts around it *)

Lemma in_rect_edges r edges q : in_rect q r -> within_edges r edges q.
Proof. unfold in_rect, within_edges. tauto. Qed.

Lemma own_part_allowed o s outline A B radius_um accuracy_um q :
  0 <= radius_um -> own_part_cutter_sweep_allowed o s outline A B radius_um accuracy_um = true ->
  within_capsule A B radius_um q -> within_edges outline (open_edges_of o) q.
Proof.
  unfold own_part_cutter_sweep_allowed. cbv zeta. intros Hr H W.
  pose proof (capsule_in_swept A B radius_um q Hr W) as S. rewrite <- sweep_rect_swept in S.
  destruct (contains outline _) eqn:C; [apply in_rect_edges; by apply (contains_in_rect _ _ _ C)|].
  destruct (_ || _) eqn:G in H; [done|]. apply orb_false_iff in G as [G%negb_false_iff%bool_decide_eq_true _].
  destruct (sized_rect o), (declared_cutter_envelope o); try done.
  apply andb_true_iff in H as [[_ H]%andb_true_iff _]. unfold open_edges_of. rewrite bool_decide_eq_true_2 by done.
  assert (forall edge, edge ∈ boundaries -> crosses (sweep_rect A B radius_um) outline edge = true ->
            edge ∈ physical_open_end_boundaries o) as open.
  { intros edge He HX. rewrite forallb_forall in H. apply (bool_decide_eq_true_1 (_ ∈ _)), H.
    apply list_elem_of_In, list_elem_of_filter. split; [by apply Is_true_true|done]. }
  assert (forall edge, edge ∈ boundaries ->
            edge ∈ physical_open_end_boundaries o \/ crosses (sweep_rect A B radius_um) outline edge = false) as cases.
  { intros edge He. destruct (crosses _ _ edge) eqn:HX; [left; by apply open|by right]. }
  destruct S as [[X0 X1] [Y0 Y1]]. unfold within_edges.
  pose proof (cases "x_min" ltac:(left)) as C1. pose proof (cases "x_max" ltac:(right; left)) as C2.
  pose proof (cases "y_min" ltac:(do 2 right; left)) as C3. pose proof (cases "y_max" ltac:(do 3 right; left)) as C4.
  assert (edge_of (sweep_rect A B radius_um) "x_min" = r_x_um (sweep_rect A B radius_um)) as E1 by reflexivity.
  assert (forall a b, (a <? b) = false -> inject_Z b <= inject_Z a)%Q as le by (intros a b L%Z.ltb_ge; by rewrite <- Zle_Qle).
  split; split.
  - destruct C1 as [C1|C1]; [by left|right]. exact (Qle_trans _ _ _ (le _ _ C1) X0).
  - destruct C2 as [C2|C2]; [by left|right]. exact (Qle_trans _ _ _ X1 (le _ _ C2)).
  - destruct C3 as [C3|C3]; [by left|right]. exact (Qle_trans _ _ _ (le _ _ C3) Y0).
  - destruct C4 as [C4|C4]; [by left|right]. exact (Qle_trans _ _ _ Y1 (le _ _ C4)).
Qed.

(** The check of a cut against an outline of its sheet. *)
Lemma outline_collision_clear p s e o step l q :
  positive_rect (fo_rect l) -> 0 <= en_cutter_radius_um e + en_process_accuracy_um e ->
  outline_collision_issues p s e o step l = [] ->
  within_capsule (fst (fst step)) (mv_xy (snd step)) (en_cutter_radius_um e + en_process_accuracy_um e) q ->
  (fo_instance_id l <> op_instance_id o -> ~ in_rect (sheet_point s q) (fo_rect l)) /\
  (fo_instance_id l = op_instance_id o -> fo_operation_id l <> op_operation_id o ->
     within_edges (fo_rect l) (open_edges_of o) (sheet_point s q)).
Proof.
  intros [Hw Hh] Hr H W%(sheet_within s). unfold outline_collision_issues in H. cbv zeta in H. split.
  - intros Hi. rewrite bool_decide_eq_false_2 in H by done. apply add_if_nil in H. rewrite capsule_tests_agree in H.
    intros I. apply not_true_iff_false in H. apply H. by eapply capsule_touches.
  - intros Hi Ho. rewrite bool_decide_eq_true_2 in H by done.
    rewrite (bool_decide_eq_false_2 (op_operation_id o = fo_operation_id l)) in H by done. cbn [andb] in H.
    apply add_if_nil, negb_false_iff in H. by eapply own_part_allowed.
Qed.

(** ** Finding a step again *)

Lemma by_sequence_found {A} (sequence : A -> Z) entries x :
  NoDup (map sequence entries) -> x ∈ entries -> by_sequence sequence entries (sequence x) = Some x.
Proof.
  intros N Hx. unfold by_sequence. apply list_elem_of_split in Hx as (l1 & l2 & ->).
  rewrite map_app in N. cbn [map] in N. apply NoDup_app in N as (_ & N1 & [N2 _]%NoDup_cons).
  rewrite filter_app, filter_cons_True by done.
  assert (filter (fun y => sequence y = sequence x) l2 = []) as ->.
  { destruct (filter _ l2) as [|y rest] eqn:E; [done|]. assert (y ∈ y :: rest) as Hy by left. rewrite <- E in Hy.
    apply list_elem_of_filter in Hy as [Ey Hy]. exfalso. apply N2. rewrite <- Ey. by apply list_elem_of_fmap_2. }
  by rewrite last_snoc.
Qed.

Lemma steps_moves moves z : map snd (program_steps moves z) = moves.
Proof.
  destruct moves as [|m moves]; [done|]. unfold program_steps. apply snd_zip. cbn [length]. rewrite length_map. cbn [length]. lia.
Qed.

(** ** A step of a passing program *)

Section Step.
Context (document : ProductionToolpathDocument) (source : OperationsDocument).
Local Notation context := (pt_execution_context document).
Context (DF : passing_document document source).
Context (p : ProductionProgram) (s : BoundSetup) (t : ProductionToolBinding) (recipes : gmap string CuttingRecipe).
Context (PP : program_passes document source p s t recipes).
Context (Ht : tool_binding_issues t = []).
Context (Hrecipes : forall r, r ∈ fst (recipes_found document) -> recipe_issues context r = []).
Context (step : location * ProductionMove) (Hstep : step ∈ program_steps (pg_moves p) (bs_safe_z_um s)).

Lemma all_setups : fst (source_setups_found source) = od_setups source /\ NoDup (map su_setup_id (od_setups source)).
Proof. exact (df_setups _ _ DF). Qed.

Lemma all_operations :
  fst (source_operations_found source) = od_operations source /\ NoDup (map op_operation_id (od_operations source)).
Proof. exact (df_operations _ _ DF). Qed.

Lemma operation_of_program o :
  o ∈ program_operations_of source p -> o ∈ od_operations source /\ op_operation_id o ∈ pg_operation_ids p.
Proof.
  unfold program_operations_of. rewrite (proj1 all_operations). intros (id & Hid & E)%list_elem_of_omap.
  apply lookup_by_found in E as [Ho <-]. done.
Qed.

Lemma operation_found id : id ∈ pg_operation_ids p -> exists o, o ∈ program_operations_of source p /\ op_operation_id o = id.
Proof.
  pose proof (pp_operations _ _ _ _ _ _ PP) as HL. unfold program_operations_of in *.
  generalize dependent (pg_operation_ids p). generalize (fst (source_operations_found source)). clear.
  intros operations ids. induction ids as [|i ids IH]; cbn; [by intros _ ?%not_elem_of_nil|].
  assert (forall ids, length (omap (lookup_by op_operation_id operations) ids) <= length ids)%nat as Hle.
  { clear. intros ids. induction ids as [|i ids IH]; cbn; [lia|]. destruct (lookup_by _ _ i); cbn; lia. }
  destruct (lookup_by op_operation_id operations i) as [o|] eqn:E; cbn.
  - intros [= HL] [->|Hid]%elem_of_cons.
    + exists o. split; [left|]. by apply lookup_by_found in E as [_ E].
    + destruct (IH HL Hid) as (o' & Ho' & E'). exists o'. split; [by right|done].
  - intros HL. specialize (Hle ids). lia.
Qed.

Lemma step_move : snd step ∈ pg_moves p.
Proof. rewrite <- (steps_moves (pg_moves p) (bs_safe_z_um s)). by apply list_elem_of_fmap_2. Qed.

(** The operation and the recipe of the step. *)
Lemma step_cut_by : exists o r,
  o ∈ program_operations_of source p /\ mv_operation_id (snd step) = op_operation_id o /\
  recipes !! mv_operation_id (snd step) = Some r /\
  r ∈ matching_recipes (fst (recipes_found document)) (pe_machine_profile_id context) (pe_machine_profile_version context)
    s t (op_kind o).
Proof.
  pose proof (pp_order _ _ _ _ _ _ PP) as HO. unfold validate_move_order in HO. no_issue.
  apply negb_false_iff, bool_decide_eq_true in HO. pose proof (observed_all _ _ step_move) as Hid. rewrite HO in Hid.
  destruct (operation_found _ Hid) as (o & Ho & E).
  destruct (recipe_of_operation _ _ _ _ _ _ _ _ (pp_recipes _ _ _ _ _ _ PP) o Ho) as (r & o' & Ho' & E' & Er & Hr).
  exists o', r. rewrite <- E. split_and!; done.
Qed.

Lemma accuracy_positive r kind :
  r ∈ matching_recipes (fst (recipes_found document)) (pe_machine_profile_id context) (pe_machine_profile_version context)
    s t kind ->
  0 < cr_process_accuracy_um r.
Proof.
  intros [_ Hr]%list_elem_of_filter. apply Hrecipes in Hr. unfold recipe_issues in Hr. no_issue. bprop. lia.
Qed.

Lemma tool_radii_positive : 0 <= sweep_radius t /\ 0 <= tb_assembly_collision_radius_um t.
Proof.
  pose proof Ht as H. unfold tool_binding_issues in H. no_issue. bprop. unfold sweep_radius.
  split; [apply Z.div_pos; lia|lia].
Qed.

(** The issues of the step are none. *)
Lemma step_clean : step_safety_issues p s t context step (step_envelope p s t recipes step) = [].
Proof.
  pose proof (pp_motion _ _ _ _ _ _ PP) as H. unfold validate_motion_safety in H.
  assert (concat (zip_with (step_safety_issues p s t context) (program_steps (pg_moves p) (bs_safe_z_um s))
            (build_program_envelopes p s t recipes)) = []) as HC.
  { destruct (pg_moves p); no_issue; done. }
  unfold build_program_envelopes in HC. apply (proj1 (concat_nil _) HC).
  apply list_elem_of_lookup in Hstep as [i Hi]. apply list_elem_of_lookup. exists i.
  rewrite lookup_zip_with, Hi. cbn. change (map ?f ?l !! i) with ((f <$> l) !! i). by rewrite list_lookup_fmap, Hi.
Qed.

(** The step against every outline of its sheet. *)
Lemma step_collisions o l :
  lookup_by op_operation_id (od_operations source) (mv_operation_id (snd step)) = Some o ->
  removes_material step = true -> l ∈ fst (part_outlines_found source) ->
  (fo_stock_id l, fo_sheet_index l) = physical_sheet_of s ->
  outline_collision_issues p s (step_envelope p s t recipes step) o step l = [].
Proof.
  intros Ho HR Hl Hs. pose proof (pp_collisions _ _ _ _ _ _ PP) as H. unfold validate_inter_part_collisions in H.
  pose proof (no_issue_of _ _ H (step_envelope p s t recipes step)) as HE. clear H.
  unfold envelope_collision_issues in HE. cbn [en_material_removal step_envelope en_operation_id en_move_sequence] in HE.
  rewrite HR, (proj1 all_operations), Ho in HE. cbn [negb] in HE.
  rewrite (by_sequence_found (fun step : location * ProductionMove => mv_sequence (snd step))) in HE; [|idtac|exact Hstep].
  - apply (no_issue_of _ _ (HE ltac:(by apply list_elem_of_fmap_2)) l). unfold outlines_of_sheet.
    apply list_elem_of_filter. split; [|done]. unfold physical_sheet_of in Hs. by injection Hs as -> ->.
  - pose proof (pp_order _ _ _ _ _ _ PP) as HO. unfold validate_move_order in HO. no_issue.
    apply negb_false_iff, bool_decide_eq_true in HO0.
    replace (map (fun step => mv_sequence (snd step)) _) with (map mv_sequence (map snd (program_steps (pg_moves p) (bs_safe_z_um s))))
      by by rewrite map_map.
    rewrite steps_moves, HO0. apply NoDup_seqZ.
Qed.

Section Facts.
Context (o : CAMOperation) (r : CuttingRecipe).
Context (Ho : o ∈ program_operations_of source p) (Em : mv_operation_id (snd step) = op_operation_id o).
Context (Er : recipes !! mv_operation_id (snd step) = Some r).
Context (Hr : 0 < cr_process_accuracy_um r).

Lemma accuracy_is : process_accuracy_of recipes (mv_operation_id (snd step)) = cr_process_accuracy_um r.
Proof. unfold process_accuracy_of. by rewrite Er. Qed.

(** What the checks of the step say, as numbers. *)
Lemma step_numbers :
  in_stock s (mv_xy (snd step)) /\ (forall q, end_of step q -> in_machine context s t (margin_of r step) q) /\
  (forall q, end_of step q -> depth_verified s t (margin_of r step) q) /\
  (mv_kind (snd step) = RAPID ->
    0 <= mv_z_um (snd step) /\
    (fst (fst step) <> mv_xy (snd step) -> z_of (fst step) = bs_safe_z_um s /\ mv_z_um (snd step) = bs_safe_z_um s)).
Proof.
  pose proof step_clean as H. unfold step_safety_issues in H. cbv zeta in H. no_issue.
  cbn [step_envelope en_material_removal en_process_accuracy_um en_machine_x_min_um en_machine_x_max_um en_machine_y_min_um
       en_machine_y_max_um en_machine_z_min_um en_machine_z_max_um en_z_min_um] in *.
  rewrite accuracy_is in *. unfold ordered_in in *.
  assert (margin_of r step = if removes_material step then cr_process_accuracy_um r else 0) as EM by reflexivity.
  rewrite <- EM in *. clear EM.
  assert (forall q, end_of step q -> low x_of step <= x_of q <= high x_of step /\ low y_of step <= y_of q <= high y_of step /\
            low z_of step <= z_of q <= high z_of step) as ends.
  { unfold end_of, low, high. intros q [-> | ->]; lia. }
  unfold mv_xy in *. split; [|split; [|split]].
  - clear - H0. bprop. unfold in_stock. cbn [fst snd]. lia.
  - intros q Hq. specialize (ends q Hq). clear - ends H1 H2. bprop. unfold in_machine. lia.
  - intros q Hq. specialize (ends q Hq). clear - ends H2 H3 H4. bprop. unfold depth_verified. lia.
  - intros HK. clear - H5 HK. rewrite bool_decide_eq_true_2 in H5 by done. no_issue. split; [bprop; lia|]. intros Hne.
    unfold mv_xy in H5. rewrite (bool_decide_eq_false_2 _ Hne) in H5. cbn [negb andb] in H5. bprop. lia.
Qed.

(** The radius of the cutter and of the assembly around a cut. *)
Lemma step_sweeps :
  (removes_material step = true ->
    cut_verified source s o (fst (fst step)) (mv_xy (snd step)) (sweep_radius t + cr_process_accuracy_um r)) /\
  (mv_kind (snd step) = LINEAR \/ z_of (fst step) < bs_safe_z_um s \/ mv_z_um (snd step) < bs_safe_z_um s ->
    keeps_off (within_capsule (fst (fst step)) (mv_xy (snd step)) (tb_assembly_collision_radius_um t + cr_process_accuracy_um r))
      (bs_keep_out_zones s)).
Proof.
  pose proof step_clean as H. unfold step_safety_issues in H. cbv zeta in H. no_issue. clear H0 H1 H2 H3 H4 H5.
  rewrite footprint_swept, assembly_swept, accuracy_is in *. destruct tool_radii_positive as [R1 R2]. split.
  - intros HR. cbn [en_material_removal step_envelope] in *. rewrite HR in *. no_issue.
    apply negb_false_iff in H0. constructor.
    + intros q W. apply (contains_in_rect _ _ _ H0). apply capsule_in_swept; [lia|done].
    + apply keep_out_clear; [lia|done].
    + intros release s' rect Hrel R Hs' E Es Er'.
      destruct (release_outline (fst (source_setups_found source)) (od_operations source) release s' (df_outlines _ _ DF) Hrel R)
        as (l & Hl & El & P & Ei & Eo & Est & Esh).
      { rewrite (proj1 all_setups), <- E. by apply lookup_by_unique; [apply all_setups|]. }
      rewrite Er' in El. injection El as ->. rewrite <- Ei, <- Eo.
      assert (forall q, within_capsule (fst (fst step)) (mv_xy (snd step)) (sweep_radius t + cr_process_accuracy_um r) q ->
        (fo_instance_id l <> op_instance_id o -> ~ in_rect (sheet_point s q) (fo_rect l)) /\
        (fo_instance_id l = op_instance_id o -> fo_operation_id l <> op_operation_id o ->
           within_edges (fo_rect l) (open_edges_of o) (sheet_point s q))) as F.
      { intros q W. eapply (outline_collision_clear p s (step_envelope p s t recipes step)); [done| | |].
        - cbn [step_envelope en_cutter_radius_um en_process_accuracy_um]. rewrite accuracy_is. fold (sweep_radius t). lia.
        - apply step_collisions; [|done|done|]. rewrite Em. apply lookup_by_unique; [apply all_operations|].
          + by apply operation_of_program.
          + rewrite Est, Esh. done.
        - cbn [step_envelope en_cutter_radius_um en_process_accuracy_um]. by rewrite accuracy_is. }
      split; intros ?; intros; by apply F.
  - intros HA. apply keep_out_clear; [lia|]. destruct (mv_kind (snd step)) eqn:HK.
    + rewrite bool_decide_eq_false_2, bool_decide_eq_true_2 in H by done. cbn [andb] in H.
      destruct HA as [?|HA]; [done|].
      assert ((z_of (fst step) <? bs_safe_z_um s) || (mv_z_um (snd step) <? bs_safe_z_um s) = true) as E.
      { apply orb_true_iff. rewrite !Z.ltb_lt. done. }
      rewrite E in H. by apply add_if_nil in H.
    + rewrite bool_decide_eq_true_2 in H by done. cbn [andb] in H. match type of H with (if ?b then _ else _) = _ => destruct b; [discriminate H|reflexivity] end.
Qed.

Lemma step_is_verified : step_verified context source s t o r step.
Proof.
  destruct step_numbers as (N1 & N2 & N3 & N4). destruct step_sweeps as [S1 S2]. by constructor.
Qed.
End Facts.
End Step.

(** C2: For any document and any source operations, however they were made: when
    [verify_production_toolpaths] reports PASS, every program has its setup and its
    tool, and every one of its moves is the move of one of its operations, with the
    one recipe of its machine, material, tool and kind.  The tool stays in the
    stock and in the machine, with the process accuracy to spare while it cuts; no
    deeper than the spoilboard, the flutes and the holder allow.  Rapid moves stay
    out of the stock and change position only at the safe height.  No point within
    the accuracy-expanded radius of a cut is outside the stock, in a keep-out zone
    or in the finished outline of another part, and the outline of its own part is
    crossed only through a declared open end of a groove.  The tool assembly is off
    the keep-out zones whenever it is below the safe height. *)
Theorem verified_toolpaths_safe document source v :
  verify_production_toolpaths document source = Ok v -> cp_status (vr_report v) = STATUS_PASS ->
  forall p, p ∈ pt_programs document ->
  exists s t,
    s ∈ pe_setups (pt_execution_context document) /\ bs_setup_id s = pg_setup_id p /\
    t ∈ pe_tool_bindings (pt_execution_context document) /\ tb_tool_id t = pg_tool_id p /\
    forall step, step ∈ program_steps (pg_moves p) (bs_safe_z_um s) ->
    exists o r,
      o ∈ od_operations source /\ op_operation_id o ∈ pg_operation_ids p /\
      r ∈ matching_recipes (pe_recipes (pt_execution_context document))
        (pe_machine_profile_id (pt_execution_context document))
        (pe_machine_profile_version (pt_execution_context document)) s t (op_kind o) /\
      step_verified (pt_execution_context document) source s t o r step.
Proof.
  intros HV HS p Hp. pose proof (passes_intro _ _ _ HV HS) as P. pose proof (passing_facts _ _ P) as DF.
  pose proof DF as [_ Fbound Ftools Frecipes [Fops _] _ Ftool Frecipe _].
  destruct (passing_program _ _ p P Hp) as (s & t & recipes & PP).
  pose proof (pp_setup _ _ _ _ _ _ PP) as [Hs Es]%lookup_by_found.
  pose proof (pp_tool _ _ _ _ _ _ PP) as [Ht Et]%lookup_by_found.
  rewrite Fbound in Hs. rewrite Ftools in Ht. pose proof (Ftool t Ht) as HT. rewrite <- Frecipes in *.
  exists s, t. split_and!; try done. intros step Hstep.
  destruct (step_cut_by document source p s t recipes PP step Hstep) as (o & r & Ho & Em & Er & Hr).
  exists o, r. split; [|split; [|split; [done|]]].
  - unfold program_operations_of in Ho. rewrite Fops in Ho. apply list_elem_of_omap in Ho as (id & _ & E).
    by apply lookup_by_found in E as [? _].
  - unfold program_operations_of in Ho. apply list_elem_of_omap in Ho as (id & ? & E). by apply lookup_by_found in E as [_ ->].
  - eapply step_is_verified; try eassumption. by eapply accuracy_positive.
Qed.
