(* ===== verification/VerificationCleared.v ===== *)
(** * Verified toolpaths clear every area

    A passing report covers every operation once, and the lanes, boundary and
    relief cycles it finds for a pocket or a groove leave nothing standing at any
    of its levels. *)

From Stdlib Require Import QArith Lqa.
From S2P Require Import Prelude Text GCode Identity Models ManufacturingModel Machining CamValidation ProductionModel ToolpathGeometry CapsuleGeometry ToolpathContracts Toolpaths ToolpathSafety ToolpathPrograms PocketCoverage VerificationModel VerificationGeometry VerificationBindings VerificationPrograms VerificationMotion VerificationCoverage Verification VerificationFacts VerificationSafety.

(** ** Every operation is covered *)

Section Covered.
Context (document : ProductionToolpathDocument) (source : OperationsDocument).

Lemma verify_program_covered st rp st' :
  verify_program document source st rp = Ok st' -> vs_issues st' = [] ->
  vs_covered_operations st' = vs_covered_operations st ++ map op_operation_id (program_operations_of source (snd rp)).
Proof.
  destruct rp as [run_order p]. unfold verify_program. cbv zeta. intros H HI.
  destruct (lookup_by bs_setup_id _ _) as [s|]; [|injection H as <-; cbn [with_issues vs_issues] in HI; by no_issue].
  destruct (lookup_by tb_tool_id _ _) as [t|]; [|injection H as <-; cbn [with_issues vs_issues] in HI; by no_issue].
  case_bool_decide; [|injection H as <-; cbn [with_issues vs_issues] in HI; by no_issue].
  unfold verify_bound_program in H. destruct (traverse _ _) as [bindings|e]; [|done]. cbn [mbind result_bind] in H.
  destruct (recipes_for_operations _ _ _ _ _ _ _) as [recipes found]. cbv zeta in H.
  destruct (traverse _ _) as [cuts|e]; [|done]. cbn [mbind result_bind] in H. by injection H as <-.
Qed.

Lemma verify_programs_covered programs st st' :
  foldM (verify_program document source) st programs = Ok st' -> vs_issues st' = [] ->
  vs_covered_operations st' =
    vs_covered_operations st ++ concat (map (fun rp => map op_operation_id (program_operations_of source (snd rp))) programs).
Proof.
  revert st. induction programs as [|rp programs IH]; intros st; cbn [foldM map concat].
  - intros [= ->] _. by rewrite app_nil_r.
  - intros (st1 & E & H)%bind_Ok HI. rewrite (IH st1 H HI).
    assert (vs_issues st1 = []) as HI1 by apply (verify_programs_pass _ _ _ _ _ H HI).
    by rewrite (verify_program_covered _ _ _ E HI1), <- app_assoc.
Qed.

(** Each operation of the source is an operation of a passing program. *)
Lemma covering_program o :
  passes document source -> o ∈ od_operations source ->
  exists p s t recipes, p ∈ pt_programs document /\ program_passes document source p s t recipes /\
    o ∈ program_operations_of source p.
Proof.
  intros HP Ho. pose proof HP as (partition & st & _ & HV & HF). unfold found_issues in HF. no_issue.
  pose proof (df_operations _ _ (passing_facts _ _ HP)) as [Eo No].
  apply orb_false_iff in HF as [_ HC%negb_false_iff]. rewrite py_set_eq_spec in HC.
  assert (op_operation_id o ∈ vs_covered_operations st) as Hin.
  { apply HC. rewrite Eo. by apply list_elem_of_fmap_2. }
  rewrite (verify_programs_covered _ _ _ HV ltac:(assumption)) in Hin. cbn [vs_covered_operations app] in Hin.
  apply list_elem_of_In, in_concat in Hin as (ids & Hids%list_elem_of_In & Hid%list_elem_of_In).
  apply list_elem_of_fmap in Hids as ([i p] & -> & Hp). cbn [snd] in Hid.
  apply list_elem_of_fmap in Hid as (o' & E & Ho').
  assert (p ∈ pt_programs document) as Hp' by (unfold enumerate1 in Hp; by apply elem_of_zip_r in Hp).
  destruct (passing_program _ _ p HP Hp') as (s & t & recipes & PP). exists p, s, t, recipes. split; [done|]. split; [done|].
  assert (o' = o) as ->; [|done]. apply (NoDup_map_inj op_operation_id (od_operations source)); [done| |done|done].
  by apply (operation_of_program document source (passing_facts _ _ HP) p o').
Qed.

(** An operation with its program, setup, tool and recipe, and its checks. *)
Record operation_passes (o : CAMOperation) (p : ProductionProgram) (s : BoundSetup) (t : ProductionToolBinding)
    (r : CuttingRecipe) (source_tool : ToolSpec) : Prop := {
  ok_program : p ∈ pt_programs document /\ op_operation_id o ∈ pg_operation_ids p;
  ok_setup : s ∈ pe_setups (pt_execution_context document) /\ bs_setup_id s = op_setup_id o;
  ok_tool : t ∈ pe_tool_bindings (pt_execution_context document) /\ tb_source_tool_id t = op_tool_id o;
  ok_diameter : 0 < tb_effective_diameter_um t /\ tb_effective_diameter_um t mod 2 = 0;
  ok_recipe : r ∈ pe_recipes (pt_execution_context document) /\ cr_operation_kind r = op_kind o;
  ok_order : validate_move_order p = [];
  ok_contract : verify_operation_contract p o source_tool t = Ok [];
  ok_recipe_contract : op_kind o ∈ SUPPORTED_OPERATION_KINDS -> validate_recipe_operation_contract p o s t r = [];
  ok_motion : op_kind o ∈ SUPPORTED_OPERATION_KINDS -> validate_operation_motion p o s t r = Ok [] }.

Lemma passing_operation o :
  passes document source -> o ∈ od_operations source -> exists p s t r source_tool, operation_passes o p s t r source_tool.
Proof.
  intros P Ho. destruct (covering_program o P Ho) as (p & s & t & recipes & Hp & PP & Hop).
  pose proof (passing_facts _ _ P) as DF. pose proof DF as [_ Fbound Ftools Frecipes [Fops No] _ Ftool _ Fsource].
  pose proof (pp_setup _ _ _ _ _ _ PP) as [Hs Es]%lookup_by_found. rewrite Fbound in Hs.
  pose proof (pp_tool _ _ _ _ _ _ PP) as [Ht Et]%lookup_by_found. rewrite Ftools in Ht. pose proof (Ftool t Ht) as HT.
  destruct (recipe_of_operation _ _ _ _ _ _ _ _ (pp_recipes _ _ _ _ _ _ PP) o Hop) as (r & o' & Ho' & E' & Er & Hr).
  assert (o' = o) as ->.
  { apply (NoDup_map_inj op_operation_id (od_operations source)); [done| |done|done].
    by apply (operation_of_program document source DF p o'). }
  unfold matching_recipes in Hr. rewrite Frecipes in Hr.
  apply list_elem_of_filter in Hr as [(_ & _ & _ & _ & _ & _ & Hkind) Hr].
  pose proof (pp_bindings _ _ _ _ _ _ PP o Hop) as HB. unfold program_operation_issues in HB.
  apply bind_Ok in HB as (contract & HC & HB). injection HB as HB. no_issue. subst contract. bprop.
  assert (exists source_tool, verify_operation_contract p o source_tool t = Ok []) as (source_tool & HC').
  { destruct (lookup_by tl_tool_id (fst (source_tools_found source)) (op_tool_id o)) as [source_tool|] eqn:E; [by exists source_tool|].
    exfalso. pose proof (proj2 (Fsource (op_tool_id o)) (list_elem_of_fmap_2 op_tool_id _ _ Ho)) as X.
    apply list_elem_of_fmap in X as (tool & Etool & Htool). by apply (lookup_by_none _ _ _ tool E). }
  pose proof (pp_cuts _ _ _ _ _ _ PP o Hop) as HM. unfold operation_cut_issues in HM. rewrite Er in HM.
  assert (op_kind o ∈ SUPPORTED_OPERATION_KINDS ->
    validate_recipe_operation_contract p o s t r = [] /\ validate_operation_motion p o s t r = Ok []) as HK.
  { intros HK. rewrite bool_decide_eq_true_2 in HM by done. apply bind_Ok in HM as (motion & HM & E).
    injection E as E. no_issue. by subst motion. }
  exists p, s, t, r, source_tool. constructor; [|split; [done|congruence]|split; [done|congruence]| |done| |done| |].
  - split; [done|]. by apply (operation_of_program document source DF p o).
  - unfold tool_binding_issues in HT. no_issue. bprop. lia.
  - apply (pp_order _ _ _ _ _ _ PP).
  - intros K. by apply HK.
  - intros K. by apply HK.
Qed.
End Covered.

(** ** Lanes near every point *)

Lemma lanes_near lanes lo hi spacing (y : Q) :
  Forall (fun pair : Z * Z => snd pair - fst pair <= spacing) (consecutive lanes) ->
  head lanes = Some lo -> last lanes = Some hi -> (inject_Z lo <= y)%Q -> (y <= inject_Z hi)%Q -> lo < hi ->
  exists v, v ∈ lanes /\ (2 * (y - inject_Z v) <= inject_Z spacing)%Q /\ (- inject_Z spacing <= 2 * (y - inject_Z v))%Q.
Proof.
  destruct lanes as [|a lanes]; [done|]. cbn [head]. intros F [= ->] L Y0 Y1 Hlt. revert lo F L Y0 Hlt.
  induction lanes as [|b lanes IH]; intros a F L Y0 Hlt.
  { cbn in L. injection L as ->. lia. }
  unfold consecutive in F. cbn [drop zip zip_with] in F. apply Forall_cons in F as [G F]. cbn [fst snd] in G.
  rewrite Zle_Qle in G. unfold Z.sub in G. rewrite inject_Z_plus, inject_Z_opp in G.
  destruct (Qlt_le_dec y (inject_Z b)) as [B|B].
  - destruct (Qlt_le_dec (y - inject_Z a) (inject_Z b - y)) as [C|C].
    + exists a. split; [left|]. split; lra.
    + exists b. split; [right; left|]. split; lra.
  - destruct (Z.lt_ge_cases b hi) as [Hb|Hb].
    + destruct (IH b F L B Hb) as (v & Hv & W). exists v. split; [by right|done].
    + rewrite Zle_Qle in Hb. assert (y == inject_Z b)%Q as Ey by lra.
      destruct lanes as [|c lanes].
      * cbn in L. injection L as ->. exists hi. split; [right; left|].
        rewrite Zlt_Qlt in Hlt. split; lra.
      * exists b. split; [right; left|]. rewrite Ey. apply Forall_cons in F as [G' _]. cbn [fst snd] in G'.
        rewrite Zle_Qle in G'. split; lra.
Qed.

(** ** Segments of an operation are cuts of its program *)

Lemma sequences_adjacent moves m1 m2 :
  map mv_sequence moves = seqZ 1 (Z.of_nat (length moves)) -> m1 ∈ moves -> m2 ∈ moves ->
  mv_sequence m1 + 1 = mv_sequence m2 -> exists pre post, moves = pre ++ m1 :: m2 :: post.
Proof.
  intros HS [i Hi]%list_elem_of_lookup [j Hj]%list_elem_of_lookup E.
  assert (forall k m, moves !! k = Some m -> mv_sequence m = 1 + Z.of_nat k) as at_index.
  { intros k m Hk. assert (map mv_sequence moves !! k = Some (mv_sequence m)) as Hk'.
    { change (map mv_sequence moves) with (mv_sequence <$> moves). by rewrite list_lookup_fmap, Hk. }
    rewrite HS in Hk'. apply lookup_seqZ in Hk' as [-> _]. done. }
  pose proof (at_index _ _ Hi). pose proof (at_index _ _ Hj). assert (j = S i) as -> by lia.
  exists (take i moves), (drop (S (S i)) moves). rewrite <- (take_drop i moves) at 1. f_equal.
  rewrite (drop_S moves m1 i Hi). f_equal. by rewrite (drop_S moves m2 (S i) Hj).
Qed.

Lemma operation_moves_in p o m : m ∈ operation_moves p o -> m ∈ pg_moves p /\ mv_operation_id m = op_operation_id o.
Proof. unfold operation_moves. intros [E Hm]%list_elem_of_filter. done. Qed.

Lemma level_segment_cut p o i z A B :
  validate_move_order p = [] -> (A, B) ∈ level_segments (operation_moves p o) (i, z) -> has_cut o z (pg_moves p) A B.
Proof.
  unfold validate_move_order. intros HO H. no_issue. apply negb_false_iff, bool_decide_eq_true in HO0.
  unfold level_segments in H. apply list_elem_of_omap in H as (m & Hm & H).
  destruct (previous_by_sequence _ m) as [previous|] eqn:E; [|done]. cbn [mbind option_bind] in H.
  assert (previous ∈ operation_moves p o /\ mv_sequence previous + 1 = mv_sequence m) as [Hp Es].
  { unfold previous_by_sequence, by_sequence in E. apply last_Some_elem_of, list_elem_of_filter in E as [? ?]. done. }
  destruct (_ && _) eqn:L in H; [|done]. injection H as <- <-.
  apply operation_moves_in in Hm as [Hm Eo]. apply operation_moves_in in Hp as [Hp _].
  destruct (sequences_adjacent _ _ _ HO0 Hp Hm Es) as (pre & post & Epre). exists pre, previous, m, post.
  unfold is_linear in L. bprop. split_and!; done.
Qed.

Lemma plunge_of_relief p o i z centre :
  relief_cycle_valid (operation_moves p o) (i, z) centre = true -> has_plunge o z (pg_moves p) centre.
Proof.
  unfold relief_cycle_valid, indexes_of. intros H. destruct (List.filter _ _) as [|index [|]] eqn:E; [done| |done].
  apply andb_true_iff in H as [[_ H]%andb_true_iff _].
  assert (In index [index]) as HI by (by left). rewrite <- E in HI. apply filter_In in HI as [_ HI].
  destruct (operation_moves p o !! index) as [m|] eqn:Em; [|done]. cbn [holds_move] in *.
  apply list_elem_of_lookup_2, operation_moves_in in Em as [Hm Eo]. exists m. unfold is_linear in HI. bprop. split_and!; done.
Qed.

(** ** One pass leaves nothing standing *)

Lemma capsule_swap A B radius_um q : within_capsule A B radius_um q -> within_capsule B A radius_um q.
Proof.
  intros (t & [T0 T1] & W). exists (1 - t)%Q. split; [split; lra|]. refine (Qle_trans _ _ _ _ W).
  apply Qle_lteq. right. unfold distance2, along. cbn [fst snd]. ring.
Qed.

Section Pass.
Context (p : ProductionProgram) (o : CAMOperation) (t : ProductionToolBinding) (r : CuttingRecipe).
Context (HO : validate_move_order p = []) (Heven : tb_effective_diameter_um t mod 2 = 0).
Context (i z left_um right_um bottom_um top_um : Z) (Hlr : left_um < right_um) (Hbt : bottom_um < top_um).
Local Notation bounds := (left_um, right_um, bottom_um, top_um).
Local Notation moves := (operation_moves p o).
Local Notation segments := (level_segments moves (i, z)).
Local Notation rho := (tb_effective_diameter_um t / 2 - cr_process_accuracy_um r).
Context (HI : pass_area_issues p o t r moves bounds (i, z) = []).

(** Some cut of the pass, either way, with the point in its capsule. *)
Definition swept_at (q : qpoint) : Prop := exists A B, has_cut o z (pg_moves p) A B /\ within_capsule A B rho q.

Lemma either_way start stop q : cut_either_way segments start stop = true -> within_capsule start stop rho q -> swept_at q.
Proof.
  unfold cut_either_way. intros [H|H]%orb_true_iff W; apply bool_decide_eq_true in H.
  - exists start, stop. split; [by apply (level_segment_cut p o i)|done].
  - exists stop, start. split; [by apply (level_segment_cut p o i)|by apply capsule_swap].
Qed.

Lemma side_cut start stop :
  (start, stop) ∈ sides_of [(left_um, bottom_um); (right_um, bottom_um); (right_um, top_um); (left_um, top_um)] ->
  cut_either_way segments start stop = true.
Proof.
  intros Hs. pose proof HI as H. unfold pass_area_issues in H. cbv zeta in H.
  destruct (if top_um - bottom_um <=? right_um - left_um then (bottom_um, top_um) else (left_um, right_um)) as [lo hi].
  no_issue. apply negb_false_iff in H0.
  rewrite forallb_forall in H0. apply (H0 (start, stop)), filter_In. split; [by apply list_elem_of_In|].
  apply negb_true_iff, bool_decide_eq_false. cbn [fst snd]. unfold sides_of in Hs. cbn [drop take app zip zip_with] in Hs.
  repeat (apply elem_of_cons in Hs as [Hs|Hs]; [injection Hs as -> ->; intros [=]; lia|]). by apply not_elem_of_nil in Hs.
Qed.

Lemma ends_joined lo hi first second : joins_ends lo hi first second = true -> (first = lo /\ second = hi) \/ (first = hi /\ second = lo).
Proof. unfold joins_ends. intros H. bprop. lia. Qed.

Lemma lane_cut horizontal v q : v ∈ level_lanes horizontal bounds segments ->
  (if horizontal then within_capsule (left_um, v) (right_um, v) rho q else within_capsule (v, bottom_um) (v, top_um) rho q) ->
  swept_at q.
Proof.
  unfold level_lanes. intros Hv W. rewrite elem_of_remove_dups in Hv. apply list_elem_of_omap in Hv as ([[px py] [x y]] & Hseg & E).
  apply (level_segment_cut p o i) in Hseg; [|done]. destruct horizontal; destruct (_ && _) eqn:C in E; try done;
    injection E as ->; apply andb_true_iff in C as [<-%Z.eqb_eq [[-> ->]|[-> ->]]%ends_joined];
    eexists _, _; (split; [exact Hseg|]); (done || by apply capsule_swap).
Qed.

Lemma double_rho : tb_effective_diameter_um t - 2 * cr_process_accuracy_um r = 2 * rho.
Proof. pose proof (Z.div_mod (tb_effective_diameter_um t) 2). lia. Qed.

Lemma lanes_found :
  let horizontal := top_um - bottom_um <=? right_um - left_um in
  let '(lo, hi) := if horizontal then (bottom_um, top_um) else (left_um, right_um) in
  forall y, (inject_Z lo <= y)%Q -> (y <= inject_Z hi)%Q ->
  exists v, v ∈ level_lanes horizontal bounds segments /\
    (- inject_Z rho <= inject_Z v - y <= inject_Z rho)%Q.
Proof.
  cbv zeta. pose proof HI as H. unfold pass_area_issues in H. cbv zeta in H. rewrite double_rho in H.
  destruct (if top_um - bottom_um <=? right_um - left_um then (bottom_um, top_um) else (left_um, right_um)) as [lo hi] eqn:E.
  no_issue. clear H H0.
  apply negb_false_iff in H1. unfold lanes_cover in H1. cbv zeta in H1.
  apply andb_true_iff in H1 as [[Hh%bool_decide_eq_true Hl%bool_decide_eq_true]%andb_true_iff HF].
  intros y Y0 Y1. assert (lo < hi) as Hlt by (destruct (_ <=? _) in E; injection E as <- <-; lia).
  set (ordered := sort_by Z.compare _) in *.
  destruct (lanes_near ordered lo hi (2 * rho) y) as (v & Hv & V1 & V0); try done.
  { apply Forall_forall. intros pair Hp. rewrite forallb_forall in HF.
    apply list_elem_of_In, HF, Z.leb_le in Hp. lia. }
  exists v. split; [unfold ordered in Hv; by rewrite (sort_by_perm _ _) in Hv|].
  rewrite inject_Z_mult in V0, V1. change (inject_Z 2) with 2%Q in *. split; lra.
Qed.

Lemma pass_clears q : to_clear bounds rho q -> swept_at q.
Proof.
  intros Hq. unfold to_clear in Hq.
  assert (forall a, inject_Z (a - rho) == inject_Z a - inject_Z rho)%Q as Es.
  { intros a. unfold Z.sub. rewrite !inject_Z_plus, !inject_Z_opp, !inject_Z_plus, !inject_Z_opp. ring. }
  assert (forall a, inject_Z (a + rho) == inject_Z a + inject_Z rho)%Q as Ea by (intros a; by rewrite inject_Z_plus).
  rewrite !Es, !Ea in Hq. clear Es Ea.
  pose proof Hlr as Hlr'. pose proof Hbt as Hbt'. rewrite Zlt_Qlt in Hlr', Hbt'.
  pose proof (fun start stop => side_cut start stop) as side. unfold sides_of in side.
  cbn [drop take app zip zip_with] in side.
  destruct (Qlt_le_dec (snd q) (inject_Z bottom_um)) as [B|B].
  { apply (either_way (left_um, bottom_um) (right_um, bottom_um)); [apply side; left|].
    apply under_horizontal; unfold between; rewrite ?Z.min_l, ?Z.max_r by lia; lra. }
  destruct (Qlt_le_dec (inject_Z top_um) (snd q)) as [T|T].
  { apply (either_way (right_um, top_um) (left_um, top_um)); [apply side; right; right; left|].
    apply under_horizontal; unfold between; rewrite ?Z.min_r, ?Z.max_l by lia; lra. }
  destruct (Qlt_le_dec (fst q) (inject_Z left_um)) as [L|L].
  { apply (either_way (left_um, top_um) (left_um, bottom_um)); [apply side; do 3 right; left|].
    apply under_vertical; unfold between; rewrite ?Z.min_r, ?Z.max_l by lia; lra. }
  destruct (Qlt_le_dec (inject_Z right_um) (fst q)) as [R|R].
  { apply (either_way (right_um, bottom_um) (right_um, top_um)); [apply side; right; left|].
    apply under_vertical; unfold between; rewrite ?Z.min_l, ?Z.max_r by lia; lra. }
  clear Hq. pose proof lanes_found as F. cbv zeta in F. destruct (top_um - bottom_um <=? right_um - left_um).
  - destruct (F (snd q) B T) as (v & Hv & V). apply (lane_cut true v); [done|].
    apply under_horizontal; [unfold between; rewrite ?Z.min_l, ?Z.max_r by lia; lra|done].
  - destruct (F (fst q) L R) as (v & Hv & V). apply (lane_cut false v); [done|].
    apply under_vertical; [unfold between; rewrite ?Z.min_l, ?Z.max_r by lia; lra|done].
Qed.

Lemma pass_reliefs centre : centre ∈ independent_dogbone_centres o -> has_plunge o z (pg_moves p) centre.
Proof.
  intros Hc. pose proof HI as H. unfold pass_area_issues in H. cbv zeta in H.
  destruct (if top_um - bottom_um <=? right_um - left_um then (bottom_um, top_um) else (left_um, right_um)) as [lo hi].
  no_issue. apply negb_false_iff in H.
  rewrite forallb_forall in H. apply (plunge_of_relief p o i). apply H. by apply list_elem_of_In.
Qed.
End Pass.

(** ** The contract and the levels of an area *)

Lemma contract_sizes p o t source_tool :
  0 < tb_effective_diameter_um t -> is_area_kind (op_kind o) = true -> verify_operation_contract p o source_tool t = Ok [] ->
  op_through o = false /\
  exists l r b tp, independent_area_raster_bounds o (tb_effective_diameter_um t / 2) = Ok (l, r, b, tp) /\ l < r /\ b < tp.
Proof.
  intros Hd HA H. unfold verify_operation_contract in H.
  assert (op_kind o <> OP_DRILL) as HK by (intros E; by rewrite E in HA).
  rewrite (bool_decide_eq_false_2 _ HK), HA in H. apply bind_Ok in H as (shape & Hshape & H). injection H as H. no_issue.
  unfold area_contract_issues in Hshape. apply bind_Ok in Hshape as (envelope & He & E). injection E as <-. no_issue.
  destruct (op_width_um o) as [w|] eqn:Ew; [|by bprop]. destruct (op_length_um o) as [len|] eqn:El; [|by bprop].
  unfold at_most in *. bprop. split; [done|]. unfold independent_area_raster_bounds. rewrite Ew, El. cbn [of_option mbind result_bind].
  do 4 eexists. split; [reflexivity|].
  assert (0 <= tb_effective_diameter_um t / 2) as R by (apply Z.div_pos; lia).
  pose proof (Z.mul_div_le (tb_effective_diameter_um t) 2 ltac:(lia)) as R2.
  split; repeat case_match; lia.
Qed.

Lemma depth_levels_reach depth step : depth_levels depth step <> [] -> - depth ∈ depth_levels depth step.
Proof.
  unfold depth_levels. destruct (_ || _) eqn:E; [done|]. intros _. apply orb_false_iff in E as [Hd%Z.leb_gt Hs%Z.leb_gt].
  apply list_elem_of_fmap. exists (step + (depth - 1) / step * step).
  pose proof (Z.mul_div_le (depth - 1) step Hs). pose proof (Z.mul_succ_div_gt (depth - 1) step Hs).
  split; [f_equal; lia|]. apply py_range_elem; [done|]. exists ((depth - 1) / step).
  split; [apply Z.div_pos; lia|]. lia.
Qed.

Lemma first_occurrences_cons values : values <> [] -> first_occurrences values <> [].
Proof.
  intros Hne E. unfold first_occurrences in E. destruct values as [|x values]; [done|].
  assert (x ∈ rev (remove_dups (rev (x :: values)))) as Hx.
  { rewrite list_elem_of_In, <- in_rev, <- list_elem_of_In, elem_of_remove_dups, list_elem_of_In, <- in_rev. by left. }
  rewrite E in Hx. by apply not_elem_of_nil in Hx.
Qed.

(** What the motion of an area has been found to be. *)
Lemma area_motion p o s t r :
  is_area_kind (op_kind o) = true -> op_through o = false -> validate_operation_motion p o s t r = Ok [] ->
  - op_depth_um o ∈ operation_levels p o s r /\
  exists bounds, independent_area_raster_bounds o (tb_effective_diameter_um t / 2) = Ok bounds /\
    forall z, z ∈ operation_levels p o s r -> exists i, pass_area_issues p o t r (operation_moves p o) bounds (i, z) = [].
Proof.
  intros HA HT H. unfold validate_operation_motion in H. destruct (operation_moves p o) as [|m moves] eqn:Em; [done|].
  unfold operation_motion_issues in H. cbv zeta in H. apply bind_Ok in H as (segments & _ & H).
  apply bind_Ok in H as (sequences & _ & H). apply bind_Ok in H as (coverage & HC & H). injection H as H. no_issue. subst coverage.
  assert (op_kind o <> OP_DRILL) as HK by (intros E; by rewrite E in HA).
  assert (operation_levels p o s r <> []) as Hne.
  { apply negb_false_iff, bool_decide_eq_true in H3. intros E. rewrite E in H3. cbn [length seqZ] in H3.
    by apply (first_occurrences_cons (map mv_pass_index (m :: moves))). }
  split.
  - unfold operation_levels in *. apply depth_levels_reach in Hne. revert Hne. unfold target_depth in *. rewrite HT in *.
    destruct (op_depth_um o <=? 0); [done|]. done.
  - unfold coverage_issues in HC. rewrite HA in HC. unfold validate_area_coverage in HC.
    apply bind_Ok in HC as (bounds & Hb & E). injection E as E. exists bounds. split; [done|]. intros z Hz.
    destruct (elem_of_enumerate1 z _ Hz) as [i Hi]. exists i. by apply (no_issue_of _ _ E (i, z)).
Qed.

(** C8: A passing report means that pockets and grooves are cleared, whoever made the
    programs: for every area operation of the source, a program of the document
    names it, with the setup and the tool of the operation and a recipe of its
    kind; the levels of its passes reach its depth; and at every level, for every
    point of the area (the rectangle of cutter centres, widened by the cutter
    radius less the process accuracy across either pair of sides), two consecutive
    moves of the program cut at that level within that radius of the point, and
    every corner relief is plunged to it. *)
Theorem verified_areas_cleared document source v o :
  verify_production_toolpaths document source = Ok v -> cp_status (vr_report v) = STATUS_PASS ->
  o ∈ od_operations source -> is_area_kind (op_kind o) = true ->
  exists p s t r bounds,
    p ∈ pt_programs document /\ op_operation_id o ∈ pg_operation_ids p /\
    s ∈ pe_setups (pt_execution_context document) /\ bs_setup_id s = op_setup_id o /\
    t ∈ pe_tool_bindings (pt_execution_context document) /\ tb_source_tool_id t = op_tool_id o /\
    r ∈ pe_recipes (pt_execution_context document) /\ cr_operation_kind r = op_kind o /\
    independent_area_raster_bounds o (tb_effective_diameter_um t / 2) = Ok bounds /\
    - op_depth_um o ∈ operation_levels p o s r /\
    forall z, z ∈ operation_levels p o s r ->
      (forall q, to_clear bounds (tb_effective_diameter_um t / 2 - cr_process_accuracy_um r) q ->
         exists A B, has_cut o z (pg_moves p) A B /\
           within_capsule A B (tb_effective_diameter_um t / 2 - cr_process_accuracy_um r) q) /\
      forall centre, centre ∈ independent_dogbone_centres o -> has_plunge o z (pg_moves p) centre.
Proof.
  intros HV HS Ho HA. pose proof (passes_intro _ _ _ HV HS) as P.
  destruct (passing_operation _ _ o P Ho) as (p & s & t & r & source_tool & K).
  destruct (ok_diameter _ _ _ _ _ _ _ K) as [Hd Heven].
  destruct (contract_sizes p o t source_tool Hd HA (ok_contract _ _ _ _ _ _ _ K)) as (Hthrough & l & ri & b & tp & Hb & Hlr & Hbt).
  assert (op_kind o ∈ SUPPORTED_OPERATION_KINDS) as HK.
  { unfold is_area_kind in HA. apply bool_decide_eq_true in HA. unfold SUPPORTED_OPERATION_KINDS. set_solver. }
  destruct (area_motion p o s t r HA Hthrough (ok_motion _ _ _ _ _ _ _ K HK)) as (Hdepth & bounds & Hb' & Hpass).
  assert (bounds = (l, ri, b, tp)) as -> by congruence.
  pose proof K as [[Hp Hid] [Hs Es] [Ht Et] _ [Hr Er] HO _ _ _].
  exists p, s, t, r, (l, ri, b, tp). split_and!; try done.
  intros z Hz. destruct (Hpass z Hz) as [i HI]. split.
  - intros q Hq. by apply (pass_clears p o t r HO Heven i z l ri b tp Hlr Hbt HI q).
  - intros centre Hc. by apply (pass_reliefs p o t r i z l ri b tp HI).
Qed.
