(* ===== verification/VerificationTotal.v ===== *)
(** * When the verifier returns

    The assertions of [production_verification.py] are on the sizes of areas and
    contours: with them the verifier always reports, and without them it raises. *)

From S2P Require Import Prelude Text GCode Identity Models ManufacturingModel Machining CamValidation ProductionModel ToolpathGeometry ToolpathContracts Toolpaths VerificationModel VerificationGeometry VerificationBindings VerificationPrograms VerificationMotion VerificationCoverage Verification VerificationFacts.

Definition returns {A} (m : result A) : Prop := exists a, m = Ok a.

Lemma returns_bind {A B} (m : result A) (f : A -> result B) : returns m -> (forall a, returns (f a)) -> returns (m ≫= f).
Proof. intros [a ->] H. apply H. Qed.

Lemma returns_Ok {A} (a : A) : returns (Ok a).
Proof. by exists a. Qed.

Create HintDb returns.
#[export] Hint Resolve returns_Ok : returns.
#[export] Hint Extern 2 (returns (_ ≫= _)) => apply returns_bind; [|intros ?] : returns.
#[export] Hint Extern 3 (returns (if ?b then _ else _)) => destruct b : returns.

(** ** Partitions *)

Lemma append_group_keys groups key o g :
  g ∈ append_group groups key o -> fst g = key \/ exists g', g' ∈ groups /\ fst g = fst g'.
Proof.
  unfold append_group. case_bool_decide.
  - intros (g' & -> & Hg)%list_elem_of_fmap. right. exists g'. split; [done|]. by case_bool_decide.
  - intros [Hg| ->%list_elem_of_singleton]%elem_of_app; [right; by exists g|by left].
Qed.

Section Partition.
Context (setups : list Setup) (bound : list BoundSetup) (tools : list ProductionToolBinding).
Context (recipes : list CuttingRecipe) (c : ProductionExecutionContext).

Lemma group_tool operations g :
  g ∈ operation_groups bound tools recipes c operations -> exists t, lookup_by tb_source_tool_id tools (snd (fst (fst (fst g)))) = Some t.
Proof.
  unfold operation_groups. revert g. induction operations as [|o operations IH] using rev_ind; cbn [foldl]; intros g.
  - by intros ?%not_elem_of_nil.
  - rewrite foldl_app. cbn [foldl]. destruct (partition_key_of bound tools recipes c o) as [key|] eqn:E; [|apply IH].
    intros [Eg|(g' & Hg & Eg)]%append_group_keys; [|destruct g as [key' members]; cbn [fst] in *; subst key'; by apply IH].
    unfold partition_key_of in E.
    destruct (lookup_by bs_setup_id _ _); [|done]. destruct (lookup_by tb_source_tool_id tools (op_tool_id o)) as [t|] eqn:Et; [|done].
    cbn in E. destruct (sole _); [|done]. injection E as <-. exists t. destruct g as [key' members]. cbn [fst] in *. by subst key'.
Qed.

Lemma partition_returns programs operations : returns (validate_program_partition setups bound tools recipes c programs operations).
Proof.
  unfold validate_program_partition. apply returns_bind; [|auto with returns]. apply traverse_total.
  intros [i [p [[[[setup_id tool_id] rpm] release] members]]] Hin. unfold enumerate1 in Hin. apply elem_of_zip_r in Hin.
  apply elem_of_zip_r in Hin. rewrite (sort_by_perm _ _) in Hin. apply group_tool in Hin as [t Et]. cbn [fst snd] in Et.
  unfold partition_issues. rewrite Et. apply returns_Ok.
Qed.
End Partition.

(** ** Operations *)

(** Areas and contours have their sizes. *)
Definition sized (o : CAMOperation) : Prop :=
  is_area_kind (op_kind o) = true \/ op_kind o = OP_CONTOUR -> sized_rect o <> None.

Lemma sized_sizes o r : sized_rect o = Some r -> exists w l, op_width_um o = Some w /\ op_length_um o = Some l.
Proof. unfold sized_rect. destruct (op_width_um o) as [w|], (op_length_um o) as [l|]; try done. intros _. by exists w, l. Qed.

Lemma raster_returns o r radius_um : sized_rect o = Some r -> returns (independent_area_raster_bounds o radius_um).
Proof.
  intros (w & l & Ew & El)%sized_sizes. unfold independent_area_raster_bounds. rewrite Ew, El. apply returns_Ok.
Qed.

Lemma contract_returns p o tool t : returns (verify_operation_contract p o tool t).
Proof.
  unfold verify_operation_contract. apply returns_bind; [|auto with returns].
  case_bool_decide; [auto with returns|]. destruct (is_area_kind _); [|auto with returns]. unfold area_contract_issues.
  apply returns_bind; [|auto with returns]. destruct (sized_rect o) eqn:E; [|auto with returns].
  apply returns_bind; [|auto with returns]. unfold independent_area_cutter_envelope.
  apply returns_bind; [by eapply raster_returns|]. intros [[[l r'] b] tp]. apply returns_Ok.
Qed.

Lemma point_returns o t q : returns (operation_point_allowed o t q).
Proof.
  unfold operation_point_allowed. destruct q as [x y]. destruct (is_hole_kind _); [auto with returns|].
  destruct (sized_rect o) eqn:E; [|auto with returns]. cbv zeta. destruct (is_area_kind _).
  - apply returns_bind; [by eapply raster_returns|]. intros [[[l r'] b] tp]. apply returns_Ok.
  - repeat case_match; apply returns_Ok.
Qed.

Lemma segment_returns o t r m1 m2 : returns (material_removal_segment_allowed o t r m1 m2).
Proof.
  unfold material_removal_segment_allowed. cbv zeta. destruct (_ && _); [auto with returns|].
  case_bool_decide; [apply point_returns|]. destruct (is_hole_kind _); [auto with returns|].
  destruct (sized_rect o) eqn:E; [|auto with returns]. destruct (is_area_kind _).
  - apply returns_bind; [by eapply raster_returns|]. intros [[[l r'] b] tp]. apply returns_Ok.
  - repeat case_match; apply returns_Ok.
Qed.

Lemma segments_return p o s t r moves : returns (traverse (segment_issues p o s t r) (operation_steps moves)).
Proof.
  apply traverse_total. intros [previous m] _. unfold segment_issues. destruct (is_rapid m); [apply returns_Ok|].
  unfold linear_issues. cbv zeta. apply returns_bind; [apply point_returns|]. intros point. apply returns_bind; [|auto with returns].
  destruct previous; [|apply returns_Ok]. destruct (_ <? 0); [apply segment_returns|apply returns_Ok].
Qed.

Lemma motion_returns p o s t r : sized o -> returns (validate_operation_motion p o s t r).
Proof.
  intros Hs. unfold validate_operation_motion. destruct (operation_moves p o) as [|m moves]; [apply returns_Ok|].
  unfold operation_motion_issues. cbv zeta. apply returns_bind; [apply segments_return|]. intros segments.
  apply returns_bind; [|intros sequences; apply returns_bind; [|auto with returns]].
  - unfold validate_pass_sequences. case_bool_decide; [apply returns_Ok|]. apply returns_bind; [|auto with returns].
    destruct (releases_part o) eqn:R; cbn [negb]; [|apply returns_Ok]. destruct (_ || _); [apply returns_Ok|].
    apply returns_bind; [|auto with returns]. unfold releases_part in R. bprop.
    destruct (sized_rect o) eqn:E; [|by exfalso; apply Hs; [right|]]. apply sized_sizes in E as (w & l & Ew & El).
    unfold expected_tab_bridge_endpoints. rewrite Ew, El. apply returns_Ok.
  - unfold coverage_issues. destruct (is_area_kind (op_kind o)) eqn:A.
    + destruct (sized_rect o) eqn:E; [|by exfalso; apply Hs; [left|]]. unfold validate_area_coverage.
      apply returns_bind; [by eapply raster_returns|auto with returns].
    + case_bool_decide; [|apply returns_Ok]. destruct (sized_rect o) eqn:E; [|by exfalso; apply Hs; [right|]].
      unfold validate_contour_coverage. rewrite E. apply returns_Ok.
Qed.

(** Without its sizes an area that has moves makes the verifier raise. *)
Lemma unsized_area_raises p o s t r :
  is_area_kind (op_kind o) = true -> op_width_um o = None -> operation_moves p o <> [] ->
  validate_operation_motion p o s t r = Err AssertionError.
Proof.
  intros HA HW Hm. unfold validate_operation_motion. destruct (operation_moves p o) as [|m moves]; [done|].
  unfold operation_motion_issues. cbv zeta. destruct (segments_return p o s t r (m :: moves)) as [segments ->].
  cbn [mbind result_bind].
  assert (op_kind o <> OP_DRILL /\ op_kind o <> OP_CONTOUR) as [HD HC] by (split; intros E; by rewrite E in HA).
  unfold validate_pass_sequences, releases_part. rewrite (bool_decide_eq_false_2 _ HD), (bool_decide_eq_false_2 _ HC).
  cbn [andb negb mbind result_bind]. unfold coverage_issues. rewrite HA. unfold validate_area_coverage, independent_area_raster_bounds.
  by rewrite HW.
Qed.

(** ** The verifier *)

(** C17: When the areas and the contours of the source have their sizes, the verifier
    returns a report for any document: no look-up and no assertion of it fails.
    The report passes exactly when it has no issue, it lists no
    issue twice, and it never authorizes cutting or waives the workshop's
    acceptance. *)
Theorem verification_returns document source :
  (forall o, o ∈ od_operations source -> sized o) ->
  exists v, verify_production_toolpaths document source = Ok v /\
    (cp_status (vr_report v) = STATUS_PASS <-> cp_issues (vr_report v) = []) /\
    NoDup (cp_issues (vr_report v)) /\ cp_issue_count (vr_report v) = Z.of_nat (length (cp_issues (vr_report v))) /\
    cp_physical_cutting_authorized (vr_report v) = false /\ cp_workshop_acceptance_required (vr_report v) = true.
Proof.
  intros Hs. assert (returns (verify_programs document source)) as [st HV].
  { unfold verify_programs. apply foldM_total. intros st [i p] _. unfold verify_program. cbv zeta.
    destruct (lookup_by bs_setup_id _ _) as [s|]; [|apply returns_Ok]. destruct (lookup_by tb_tool_id _ _) as [t|]; [|apply returns_Ok].
    case_bool_decide; [|apply returns_Ok]. unfold verify_bound_program. cbv zeta. apply returns_bind.
    - apply traverse_total. intros o _. unfold program_operation_issues. apply returns_bind; [|auto with returns].
      destruct (lookup_by tl_tool_id _ _); [apply contract_returns|apply returns_Ok].
    - intros bindings. destruct (recipes_for_operations _ _ _ _ _ _ _) as [recipes found]. apply returns_bind; [|auto with returns].
      apply traverse_total. intros o Ho. unfold operation_cut_issues. destruct (recipes !! _); [|apply returns_Ok].
      case_bool_decide; [|apply returns_Ok]. apply returns_bind; [|auto with returns]. apply motion_returns, Hs.
      unfold program_operations_of in Ho. apply list_elem_of_omap in Ho as (id & _ & E). apply lookup_by_found in E as [Ho _].
      by apply (unique_by_id_incl op_operation_id "SOURCE_OPERATION_DUPLICATE"). }
  destruct (partition_returns (fst (source_setups_found source)) (fst (bound_setups_found document))
    (fst (bindings_by_source_tool_found document)) (fst (recipes_found document)) (pt_execution_context document)
    (pt_programs document) (od_operations source)) as [partition HP].
  unfold verify_production_toolpaths. rewrite HP, HV. cbn [mbind result_bind]. eexists. split; [reflexivity|].
  cbn [vr_report new_report cp_status cp_issues cp_issue_count cp_physical_cutting_authorized cp_workshop_acceptance_required].
  split; [by destruct (sorted_issues _)|]. split; [|done]. unfold sorted_issues. rewrite (sort_by_perm _ _). apply NoDup_remove_dups.
Qed.
