(* ===== verification/VerificationAgreement.v ===== *)
(** * The verifier and the generator agree

    [production_verification.py] reconstructs the geometry of [toolpaths.py]
    without its code.  Here the two reconstructions are proved to be one, wherever
    the generator's returns. *)

From S2P Require Import Prelude Text GCode Identity Models ManufacturingModel Machining CamValidation ProductionModel ToolpathGeometry ToolpathContracts Toolpaths ToolpathSafety VerificationModel VerificationGeometry VerificationBindings VerificationPrograms VerificationMotion VerificationCoverage Verification VerificationFacts VerificationSafety.

(** ** Raster bounds *)

Definition across (side : Side) (edge : string) : string :=
  if bool_decide (side = SIDE_B)
  then (if bool_decide (edge = "y_min") then "y_max" else if bool_decide (edge = "y_max") then "y_min" else edge)
  else edge.

Lemma boundary_physical edge rotated side e :
  source_edge_machine_boundary edge rotated side = Ok e -> exists ph, physical_edge rotated edge = Some ph /\ e = across side ph.
Proof.
  unfold source_edge_machine_boundary, physical_edge.
  destruct (decide (edge = "u_min")) as [->|?]; [destruct rotated, side; intros [= <-]; eexists; (split; [reflexivity|reflexivity])|].
  destruct (decide (edge = "u_max")) as [->|?]; [destruct rotated, side; intros [= <-]; eexists; (split; [reflexivity|reflexivity])|].
  destruct (decide (edge = "v_min")) as [->|?]; [destruct rotated, side; intros [= <-]; eexists; (split; [reflexivity|reflexivity])|].
  destruct (decide (edge = "v_max")) as [->|?]; [destruct rotated, side; intros [= <-]; eexists; (split; [reflexivity|reflexivity])|].
  rewrite (bool_decide_eq_false_2 (edge = "u_min")), (bool_decide_eq_false_2 (edge = "u_max")),
    (bool_decide_eq_false_2 (edge = "v_min")), (bool_decide_eq_false_2 (edge = "v_max")) by done. done.
Qed.

Lemma opened_agree o opened :
  traverse (fun edge => source_edge_machine_boundary edge (op_source_rotation_90 o) (op_side o)) (op_open_end_reliefs o) = Ok opened ->
  forall e, e ∈ opened <-> e ∈ map (across (op_side o)) (physical_open_end_boundaries o).
Proof.
  intros H%traverse_Ok e. unfold physical_open_end_boundaries. rewrite list_elem_of_fmap. setoid_rewrite elem_of_remove_dups.
  setoid_rewrite list_elem_of_omap. induction H as [|edge e' edges opened H _ IH].
  - split; [by intros ?%not_elem_of_nil|]. intros (? & _ & ? & ?%not_elem_of_nil & _). done.
  - apply boundary_physical in H as (ph & Hph & ->). rewrite elem_of_cons, IH. split.
    + intros [->|(ph' & -> & edge' & Hin & E)].
      * exists ph. split; [done|]. exists edge. split; [left|done].
      * exists ph'. split; [done|]. exists edge'. split; [by right|done].
    + intros (ph' & -> & edge' & [->|Hin]%elem_of_cons & E).
      * left. congruence.
      * right. exists ph'. split; [done|]. by exists edge'.
Qed.

Lemma raster_bounds_agree o radius_um bounds :
  area_raster_bounds o radius_um = Ok bounds -> independent_area_raster_bounds o radius_um = Ok bounds.
Proof.
  unfold area_raster_bounds, independent_area_raster_bounds, asserted_size. intros (size & Hsize & H)%bind_Ok.
  apply bind_Ok in Hsize as (w & Ew%of_option_Ok & Hsize). apply bind_Ok in Hsize as (l & El%of_option_Ok & Hsize).
  injection Hsize as <-. apply bind_Ok in H as (opened & Ho & H). injection H as <-. cbn [fst snd].
  rewrite Ew, El. cbn [of_option mbind result_bind]. pose proof (opened_agree o opened Ho) as A.
  set (ver := if bool_decide (op_side o = SIDE_B) then _ else _).
  assert (forall e, bool_decide (e ∈ ver) = bool_decide (e ∈ opened)) as E.
  { intros e. apply bool_decide_ext. rewrite A. unfold ver, across. case_bool_decide; [done|]. by rewrite map_id. }
  rewrite !E. repeat case_bool_decide; f_equal; repeat (apply pair_equal_spec; split); lia.
Qed.

(** ** Corner reliefs *)

(** Decides equalities of constants. *)
Ltac decided :=
  repeat (match goal with
  | |- context [bool_decide (?a = ?b)] =>
      let v := eval vm_compute in (bool_decide (a = b)) in
      match v with true => idtac | false => idtac end;
      change (bool_decide (a = b)) with v
  end; cbn beta iota delta [negb]).

Lemma corner_agree o uv :
  uv ∈ source_corners -> forall w l,
  (op_x_um o + (if (if op_source_rotation_90 o then bool_decide (snd uv = "v_min") else bool_decide (fst uv = "u_max")) then w else 0),
   op_y_um o + (if (if bool_decide (op_side o = SIDE_B)
                    then negb (if op_source_rotation_90 o then bool_decide (fst uv = "u_max") else bool_decide (snd uv = "v_max"))
                    else if op_source_rotation_90 o then bool_decide (fst uv = "u_max") else bool_decide (snd uv = "v_max"))
                then l else 0)) =
  (if bool_decide (fst (source_corner_machine_boundaries (fst uv) (snd uv) (op_source_rotation_90 o) (op_side o)) = "x_min")
   then op_x_um o else op_x_um o + w,
   if bool_decide (snd (source_corner_machine_boundaries (fst uv) (snd uv) (op_source_rotation_90 o) (op_side o)) = "y_min")
   then op_y_um o else op_y_um o + l).
Proof.
  intros Hin w l. unfold source_corners in Hin. unfold source_corner_machine_boundaries.
  repeat (apply elem_of_cons in Hin as [-> |Hin];
    [cbn [fst snd]; destruct (op_source_rotation_90 o), (op_side o); decided; apply pair_equal_spec; split; lia|]).
  by apply not_elem_of_nil in Hin.
Qed.

Lemma Ok_inj {A} (a b : A) : Ok a = Ok b -> a = b.
Proof. by intros [= ->]. Qed.

Lemma dogbones_agree o centres q :
  dogbone_centres o = Ok centres -> q ∈ independent_dogbone_centres o <-> q ∈ centres.
Proof.
  unfold dogbone_centres, independent_dogbone_centres. intros H.
  assert (bool_decide (op_corner_strategy o ∉ [Some "dogbone-v1"; Some "dogbone-v2"]) = negb (is_dogbone (op_corner_strategy o))) as E.
  { unfold is_dogbone, DOGBONE_STRATEGIES. destruct (op_corner_strategy o) as [st|]; [|reflexivity].
    destruct (decide (st = "dogbone-v1")) as [->|?]; [reflexivity|]. destruct (decide (st = "dogbone-v2")) as [->|?]; [reflexivity|].
    rewrite bool_decide_eq_true_2, bool_decide_eq_false_2 by set_solver. done. }
  rewrite E. destruct (negb (is_dogbone (op_corner_strategy o))); [by injection H as <-|].
  apply bind_Ok in H as (size & Hsize & H). unfold asserted_size in Hsize.
  apply bind_Ok in Hsize as (w & Ew%of_option_Ok & Hsize). apply bind_Ok in Hsize as (l & El%of_option_Ok & Hsize).
  injection Hsize as <-. rewrite Ew, El. cbn [fst snd] in H. apply Ok_inj in H as <-.
  rewrite elem_of_remove_dups, list_elem_of_omap, list_elem_of_fmap. change relief_corners with source_corners.
  split.
  - intros ([u v] & Hin & Hq). exists (u, v). pose proof (corner_agree o (u, v) Hin w l) as C. cbn [fst snd] in C.
    destruct (if bool_decide (_ = Some "dogbone-v1") then _ else _) eqn:S in Hq; [done|].
    injection Hq as <-. rewrite C. split; [reflexivity|].
    apply list_elem_of_In; apply filter_In. split; [by apply list_elem_of_In|]. cbn [fst snd]. by rewrite S.
  - intros ([u v] & -> & Hin). apply list_elem_of_In, filter_In in Hin as [Hin S]. cbn [fst snd] in S.
    apply list_elem_of_In in Hin. exists (u, v). split; [done|]. apply negb_true_iff in S. rewrite S. f_equal.
    pose proof (corner_agree o (u, v) Hin w l) as C. cbn [fst snd] in C. rewrite C. reflexivity.
Qed.

(** ** Cutter envelopes *)

Lemma minZ_same d (l l' : list Z) : l <> [] -> (forall x, x ∈ l <-> x ∈ l') -> minZ d l = minZ d l'.
Proof.
  intros Hne H. assert (l' <> []) as Hne'.
  { intros ->. destruct l as [|x l]; [done|]. apply (not_elem_of_nil x), H. left. }
  apply Z.le_antisymm; apply minZ_le, H, minZ_in; done.
Qed.

Lemma maxZ_same d (l l' : list Z) : l <> [] -> (forall x, x ∈ l <-> x ∈ l') -> maxZ d l = maxZ d l'.
Proof.
  intros Hne H. assert (l' <> []) as Hne'.
  { intros ->. destruct l as [|x l]; [done|]. apply (not_elem_of_nil x), H. left. }
  apply Z.le_antisymm; apply maxZ_le, H, maxZ_in; done.
Qed.

Lemma envelopes_agree o radius_um envelope :
  dogbone_envelope o radius_um = Ok envelope -> independent_area_cutter_envelope o radius_um = Ok envelope.
Proof.
  unfold dogbone_envelope, independent_area_cutter_envelope. intros (centres & Hc & H)%bind_Ok.
  apply bind_Ok in H as ([[[l r] b] tp] & Hb & H). rewrite (raster_bounds_agree _ _ _ Hb). cbn [mbind result_bind].
  assert (forall (f : point -> Z) a x, x ∈ a :: map f (independent_dogbone_centres o) <-> x ∈ a :: map f centres) as E.
  { intros f a x. rewrite !elem_of_cons, !list_elem_of_fmap. setoid_rewrite (dogbones_agree o centres _ Hc). done. }
  rewrite (minZ_same 0 (l - radius_um :: map (fun q => fst q - radius_um) (independent_dogbone_centres o))
    (l - radius_um :: map (fun q => fst q - radius_um) centres)) by (done || apply E).
  rewrite (maxZ_same 0 (r + radius_um :: map (fun q => fst q + radius_um) (independent_dogbone_centres o))
    (r + radius_um :: map (fun q => fst q + radius_um) centres)) by (done || apply E).
  rewrite (minZ_same 0 (b - radius_um :: map (fun q => snd q - radius_um) (independent_dogbone_centres o))
    (b - radius_um :: map (fun q => snd q - radius_um) centres)) by (done || apply E).
  rewrite (maxZ_same 0 (tp + radius_um :: map (fun q => snd q + radius_um) (independent_dogbone_centres o))
    (tp + radius_um :: map (fun q => snd q + radius_um) centres)) by (done || apply E).
  exact H.
Qed.

(** ** The interpolation error *)

Lemma foldl_concat {A B C} (f : C -> B -> C) (g : A -> list B) (m : C) l :
  foldl f m (concat (map g l)) = foldl (fun m x => foldl f m (g x)) m l.
Proof. revert m. induction l as [|x l IH]; intros m; cbn; [done|]. by rewrite foldl_app, IH. Qed.

Lemma chord_errors_max m radius_um chord :
  foldl Z.max m (chord_errors radius_um chord) = Z.max m (chord_error_um radius_um (fst chord) (snd chord)).
Proof. destruct chord as [first second]. unfold chord_errors, chord_error_um, norm_squared. cbv zeta. cbn [foldl fst snd]. symmetry. apply Z.max_assoc. Qed.

Lemma quarter_agree radius_um start quadrant :
  (quadrant, start) ∈ zip (seqZ 0 4) [(0, - radius_um); (radius_um, 0); (0, radius_um); (- radius_um, 0)] ->
  foldl append_new [] (map (fun arc => quarter_point radius_um arc quadrant) CANONICAL_QUARTER_ARC_PPM) =
    quarter_points radius_um quadrant start.
Proof.
  intros Hin. unfold quarter_points.
  assert (quarter_point radius_um (1000000, 0) quadrant = start) as E.
  { change (zip _ _) with [(0, (0, - radius_um)); (1, (radius_um, 0)); (2, (0, radius_um)); (3, (- radius_um, 0))] in Hin.
    repeat (apply elem_of_cons in Hin as [Hin|Hin]; [injection Hin as -> ->; unfold quarter_point; cbn [Z.eqb Pos.eqb];
      f_equal; change (- 0) with 0; rewrite ?Z.mul_0_r; (reflexivity || (symmetry; apply (Z.div_unique_exact _ _ _); lia))|]).
    by apply not_elem_of_nil in Hin. }
  change CANONICAL_QUARTER_ARC_PPM with ((1000000, 0) :: tail QUARTER_CIRCLE_PPM). cbn [map foldl]. rewrite E.
  change (append_new [] start) with [start]. generalize [start] as points, (tail QUARTER_CIRCLE_PPM) as arcs.
  intros points arcs. revert points. induction arcs as [|[c s] arcs IH]; intros points; [reflexivity|]. cbn [map foldl].
  rewrite IH. f_equal. unfold append_new, quarter_point, arc_offset_ppm. cbn [fst snd].
  by destruct (quadrant =? 0), (quadrant =? 1), (quadrant =? 2).
Qed.

Lemma interpolation_errors_agree radius_um error :
  outside_contour_interpolation_error_um radius_um = Ok error -> canonical_contour_interpolation_error_um radius_um = error.
Proof.
  unfold outside_contour_interpolation_error_um, canonical_contour_interpolation_error_um.
  intros ([] & HR%refuse_Ok & H)%bind_Ok. rewrite HR. apply Ok_inj in H as <-. cbn [maxZ].
  rewrite foldl_concat.
  set (starts := [(0, - radius_um); (radius_um, 0); (0, radius_um); (- radius_um, 0)]).
  assert ([0; 1; 2; 3] = map fst (zip (seqZ 0 4) starts)) as -> by reflexivity.
  assert (forall quadrant start, (quadrant, start) ∈ zip (seqZ 0 4) starts ->
    foldl append_new [] (map (fun arc => quarter_point radius_um arc quadrant) CANONICAL_QUARTER_ARC_PPM) =
      quarter_points radius_um quadrant start) as Q by (intros; by apply quarter_agree).
  revert Q. generalize (zip (seqZ 0 4) starts) as quarters. intros quarters Q. generalize 0 as m. revert Q.
  induction quarters as [|[quadrant start] quarters IH]; intros Q m; [reflexivity|]. cbn [map foldl fst snd].
  rewrite IH by (intros; apply Q; by right). f_equal. rewrite (Q quadrant start) by left.
  rewrite foldl_concat. apply foldl_ext_in. intros m' chord _. apply chord_errors_max.
Qed.

Lemma levels_agree depth_um stepdown_um levels :
  depth_levels_um depth_um stepdown_um = Ok levels -> depth_levels depth_um stepdown_um = levels.
Proof.
  unfold depth_levels_um, depth_levels. intros ([] & H1%refuse_Ok & H)%bind_Ok. apply bind_Ok in H as ([] & H2%refuse_Ok & H).
  rewrite H1, H2. by apply Ok_inj in H.
Qed.

(** C16: The geometry the verifier reconstructs is the generator's, wherever the generator's
    code returns: the raster of an area, its relief centres (as a set), its cutter
    envelope, the depth levels, the interpolation error of rounded corners, which
    operations release a part, and the test of a cutter's capsule against an
    outline, for every segment, radius and rectangle. *)
Theorem reconstructed_geometry_agrees :
  (forall o radius_um bounds, area_raster_bounds o radius_um = Ok bounds ->
     independent_area_raster_bounds o radius_um = Ok bounds) /\
  (forall o centres, dogbone_centres o = Ok centres -> forall q, q ∈ independent_dogbone_centres o <-> q ∈ centres) /\
  (forall o radius_um envelope, dogbone_envelope o radius_um = Ok envelope ->
     independent_area_cutter_envelope o radius_um = Ok envelope) /\
  (forall depth_um stepdown_um levels, depth_levels_um depth_um stepdown_um = Ok levels ->
     depth_levels depth_um stepdown_um = levels) /\
  (forall radius_um error, outside_contour_interpolation_error_um radius_um = Ok error ->
     canonical_contour_interpolation_error_um radius_um = error) /\
  (forall o, releases_part o = is_release_contour o) /\
  (forall start stop radius_um r,
     segment_capsule_touches_rect start stop radius_um r = segment_radius_touches_rect start stop radius_um r).
Proof.
  split; [exact raster_bounds_agree|]. split; [intros o centres H q; by apply dogbones_agree|].
  split; [exact envelopes_agree|]. split; [exact levels_agree|]. split; [exact interpolation_errors_agree|].
  split; [|exact capsule_tests_agree]. intros o. unfold releases_part, is_release_contour.
  by repeat (case_bool_decide || case_match).
Qed.
