(* ===== verification/VerificationBackplot.v ===== *)
(** * The backplot of a verified document

    [cutting_backplot_svg] of [production_verification.py]: an SVG of every setup and
    every move, with the verification it was drawn from.  Texts are their UTF-8
    bytes, as the function encodes them. *)

From S2P Require Import Prelude Text GCode Identity Models ManufacturingModel Machining CamValidation ProductionModel ToolpathGeometry ToolpathContracts Toolpaths VerificationModel VerificationGeometry VerificationBindings VerificationPrograms VerificationMotion VerificationCoverage Verification.

Definition CUTTING_BACKPLOT_VERSION : string := "cutting-backplot-1.1.0".
Definition SVG_SETUP_GAP_UM : Z := 30000.

(** ** Metadata *)

Definition byte_char (n : nat) : ascii := ascii_of_nat n.
Definition REPLACEMENT_CHARACTER : list ascii := [byte_char 239; byte_char 191; byte_char 189].

(** Control characters that XML forbids. *)
Definition forbidden_control (c : ascii) : bool :=
  bool_decide (nat_of_ascii c < 32)%nat && bool_decide (c ∉ [byte_char 9; byte_char 10; byte_char 13]).

(** The code points XML 1.0 forbids replaced: the controls, and U+FFFE and U+FFFF. *)
Fixpoint xml_safe (text : list ascii) : list ascii :=
  match text with
  | [] => []
  | c :: rest =>
      if forbidden_control c then REPLACEMENT_CHARACTER ++ xml_safe rest
      else
        match rest with
        | c1 :: c2 :: rest' =>
            if bool_decide (c = byte_char 239) && bool_decide (c1 = byte_char 191) &&
               bool_decide (c2 ∈ [byte_char 190; byte_char 191])
            then REPLACEMENT_CHARACTER ++ xml_safe rest' else c :: xml_safe rest
        | _ => c :: xml_safe rest
        end
  end.

(** [html.escape(_, quote=True)] of a character. *)
Definition entity_of (c : ascii) : option string :=
  if bool_decide (c = "&"%char) then Some "&amp;"
  else if bool_decide (c = "<"%char) then Some "&lt;"
  else if bool_decide (c = ">"%char) then Some "&gt;"
  else if bool_decide (c = byte_char 34) then Some "&quot;"
  else if bool_decide (c = "'"%char) then Some "&#x27;"
  else None.

Definition escape_char (c : ascii) : list ascii :=
  match entity_of c with Some entity => chars entity | None => [c] end.
Definition html_escape (text : list ascii) : list ascii := concat (map escape_char text).

(** [_escape_svg_metadata] *)
Definition escape_svg_metadata (value : string) : string := of_chars (html_escape (xml_safe (chars value))).

(** ** Elements *)

Definition attributes (values : list (string * string)) : string :=
  String.concat "" (map (fun nv => " " +:+ fst nv +:+ "=" +:+ quote +:+ snd nv +:+ quote) values).
Definition open_tag (name : string) (values : list (string * string)) : string := "<" +:+ name +:+ attributes values +:+ ">".
Definition empty_tag (name : string) (values : list (string * string)) : string := "<" +:+ name +:+ attributes values +:+ "/>".

(** [_cutting_stroke] *)
Definition CUTTING_PALETTE : list string := ["#0369a1"; "#047857"; "#7c3aed"; "#b45309"; "#be123c"; "#0f766e"].
Definition cutting_stroke (run_order pass_index : Z) : string :=
  default "" (CUTTING_PALETTE !! Z.to_nat ((run_order + pass_index - 2) mod 6)).

Definition BACKPLOT_STYLE : string :=
  "<style>" +:+ ".stock{fill:#f8fafc;stroke:#0f172a;stroke-width:1000}" +:+
  ".keepout{fill:#ef444433;stroke:#b91c1c;stroke-width:900}" +:+
  ".rapid{fill:none;stroke:#64748b;stroke-width:600;stroke-dasharray:4000 2500}" +:+
  ".cut{fill:none;stroke-width:1000}" +:+ ".plunge{fill-opacity:.12}" +:+ ".blocked{stroke:#dc2626!important}" +:+
  ".label{font:10000px sans-serif;fill:#0f172a}" +:+ "</style>".

Section Backplot.
Context (document : ProductionToolpathDocument) (report : CuttingProgramReport).

Let context : ProductionExecutionContext := pt_execution_context document.

(** The setups of the dictionary, in the order their identities are met. *)
Definition drawn_setup_ids : list string := rev (remove_dups (rev (map bs_setup_id (pe_setups context)))).
Definition ordered_setups : list BoundSetup := omap (fun id => dict_of bs_setup_id (pe_setups context) !! id) drawn_setup_ids.

(** Each setup with its offset, the offset after the last, and the width. *)
Definition stacked_setups : list (Z * BoundSetup) * Z * Z :=
  foldl (fun st s =>
    let '(placed, current_y, canvas_width) := st in
    (placed ++ [(current_y, s)], current_y + (bs_stock_height_um s + SVG_SETUP_GAP_UM),
     Z.max canvas_width (bs_stock_width_um s)))
    ([], 0, 100000) ordered_setups.

Definition backplot_header : string :=
  let '(_, current_y, canvas_width) := stacked_setups in
  let canvas_height := Z.max 100000 (current_y - SVG_SETUP_GAP_UM) in
  open_tag "svg"
    [("xmlns", "http://www.w3.org/2000/svg"); ("viewBox", "0 0 " +:+ str_of_Z canvas_width +:+ " " +:+ str_of_Z canvas_height);
     ("data-backplot-version", CUTTING_BACKPLOT_VERSION); ("data-verification-status", cutting_status_value (cp_status report));
     ("data-toolpath-sha256", cp_toolpath_sha256 report); ("data-operations-sha256", cp_operations_sha256 report);
     ("data-swept-envelopes-sha256", cp_swept_envelopes_sha256 report);
     ("data-report-sha256", content_hash (report_json report)); ("data-mode", "EXECUTABLE_CAM_CANDIDATE");
     ("data-physical-cutting-authorized", "false"); ("data-workshop-acceptance-required", "true")].

(** The place of the controlled point on the machine. *)
Definition machine_place (s : BoundSetup) (t : ProductionToolBinding) (q : location) : Z * Z * Z :=
  (p2_x_um (bs_machine_wcs_origin s) + x_of q + tb_expected_length_offset_x_um t,
   p2_y_um (bs_machine_wcs_origin s) + y_of q + tb_expected_length_offset_y_um t,
   bs_machine_wcs_z0_um s + z_of q + tb_expected_length_offset_z_um t).

Definition move_metadata (s : BoundSetup) (t : option ProductionToolBinding) (step : location * ProductionMove)
    : list (string * string) :=
  let m := snd step in
  [("data-sequence", str_of_Z (mv_sequence m)); ("data-operation-id", escape_svg_metadata (mv_operation_id m));
   ("data-motion-kind", move_kind_value (mv_kind m)); ("data-role", move_role_value (mv_role m));
   ("data-pass-index", str_of_Z (mv_pass_index m)); ("data-start-depth-um", str_of_Z (z_of (fst step)));
   ("data-depth-um", str_of_Z (mv_z_um m))] ++
  match t with
  | Some t =>
      let '(start_x, start_y, start_z) := machine_place s t (fst step) in
      let '(end_x, end_y, end_z) := machine_place s t (place_of m) in
      [("data-machine-start-x-um", str_of_Z start_x); ("data-machine-start-y-um", str_of_Z start_y);
       ("data-machine-start-z-um", str_of_Z start_z); ("data-machine-x-um", str_of_Z end_x);
       ("data-machine-y-um", str_of_Z end_y); ("data-machine-z-um", str_of_Z end_z)]
  | None => []
  end.

Definition draw_line (css_class stroke : string) (metadata : list (string * string)) (step : location * ProductionMove) : string :=
  empty_tag "line" (("class", css_class) :: metadata ++
    [("stroke", stroke); ("x1", str_of_Z (x_of (fst step))); ("y1", str_of_Z (y_of (fst step)));
     ("x2", str_of_Z (mv_x_um (snd step))); ("y2", str_of_Z (mv_y_um (snd step)))]).

Definition draw_move (p : ProductionProgram) (s : BoundSetup) (t : option ProductionToolBinding)
    (step : location * ProductionMove) : string :=
  let m := snd step in
  let css_class := (if bool_decide (mv_kind m = RAPID) then "rapid" else "cut") +:+
                   (if bool_decide (cp_status report = STATUS_BLOCK) then " blocked" else "") in
  let stroke := if bool_decide (mv_kind m = RAPID) then "#64748b" else cutting_stroke (pg_run_order p) (mv_pass_index m) in
  let metadata := move_metadata s t step in
  match t with
  | Some t =>
      if bool_decide (mv_kind m = LINEAR) && bool_decide (fst (fst step) = mv_xy m) then
        empty_tag "circle" (("class", css_class +:+ " plunge") :: metadata ++
          [("stroke", stroke); ("cx", str_of_Z (mv_x_um m)); ("cy", str_of_Z (mv_y_um m));
           ("r", str_of_Z ((tb_effective_diameter_um t + 1) / 2))])
      else draw_line css_class stroke metadata step
  | None => draw_line css_class stroke metadata step
  end.

Definition draw_program (s : BoundSetup) (p : ProductionProgram) : string :=
  let t := dict_of tb_tool_id (pe_tool_bindings context) !! pg_tool_id p in
  open_tag "g"
    ([("data-program-id", escape_svg_metadata (pg_program_id p)); ("data-run-order", str_of_Z (pg_run_order p));
      ("data-tool-id", escape_svg_metadata (pg_tool_id p))] ++
     match t with
     | Some t =>
         [("data-h-offset-x-um", str_of_Z (tb_expected_length_offset_x_um t));
          ("data-h-offset-y-um", str_of_Z (tb_expected_length_offset_y_um t));
          ("data-h-offset-z-um", str_of_Z (tb_expected_length_offset_z_um t));
          ("data-coordinate-frame", "PROGRAMMED_WCS_TOOL_TIP_AND_G43_MACHINE_CONTROLLED_POINT");
          ("data-tool-table-evidence-sha256", tb_tool_table_evidence_sha256 t)]
     | None => []
     end) +:+
  String.concat "" (map (draw_move p s t) (program_steps (pg_moves p) (bs_safe_z_um s))) +:+ "</g>".

Definition draw_zone (iz : Z * Rect) : string :=
  let '(zone_index, zone) := iz in
  empty_tag "rect"
    [("class", "keepout"); ("data-zone-index", str_of_Z zone_index); ("x", str_of_Z (r_x_um zone));
     ("y", str_of_Z (r_y_um zone)); ("width", str_of_Z (r_width_um zone)); ("height", str_of_Z (r_height_um zone))].

Definition draw_setup (ys : Z * BoundSetup) : string :=
  let '(y_offset, s) := ys in
  open_tag "g"
    [("data-setup-id", escape_svg_metadata (bs_setup_id s));
     ("data-machine-wcs-x0-um", str_of_Z (p2_x_um (bs_machine_wcs_origin s)));
     ("data-machine-wcs-y0-um", str_of_Z (p2_y_um (bs_machine_wcs_origin s)));
     ("data-machine-wcs-z0-um", str_of_Z (bs_machine_wcs_z0_um s));
     ("data-machine-wcs-xy-rotation-mdeg", str_of_Z (bs_machine_wcs_xy_rotation_mdeg s));
     ("transform", "translate(0 " +:+ str_of_Z y_offset +:+ ")")] +:+
  empty_tag "rect" [("class", "stock"); ("x", "0"); ("y", "0"); ("width", str_of_Z (bs_stock_width_um s));
                    ("height", str_of_Z (bs_stock_height_um s))] +:+
  String.concat "" (map draw_zone (enumerate1 (bs_keep_out_zones s))) +:+
  open_tag "text" [("class", "label"); ("x", "5000"); ("y", "15000")] +:+ escape_svg_metadata (bs_setup_id s) +:+ "</text>" +:+
  String.concat "" (map (draw_program s) (filter (fun p => pg_setup_id p = bs_setup_id s) (pt_programs document))) +:+ "</g>".

Definition backplot : string :=
  "<?xml" +:+ attributes [("version", "1.0"); ("encoding", "UTF-8")] +:+ "?>" +:+ backplot_header +:+
  "<title>Custombuild executable CAM candidate cutting backplot</title>" +:+ BACKPLOT_STYLE +:+
  String.concat "" (map draw_setup (fst (fst stacked_setups))) +:+ "</svg>".
End Backplot.

(** [cutting_backplot_svg] *)
Definition cutting_backplot_svg (document : ProductionToolpathDocument) (source : OperationsDocument) : result string :=
  verification ← verify_production_toolpaths document source;
  Ok (backplot document (vr_report verification)).

(** ** Metadata is inert *)







(** Either rewriting keeps the legal bytes a text starts with. *)
Section Starts.
Context (f : list ascii -> list ascii) (keeps : ascii -> Prop).
Context (Keep : forall c text tail, keeps c -> f text = c :: tail -> exists text', text = c :: text' /\ tail = f text').
Context (High : forall n, n ∈ [190; 191]%nat -> keeps (byte_char n)).

End Starts.












