(* ===== verification/VerificationExamples.v ===== *)
(** * The cutting program verifier, on two trays

    The programs generated for the two trays pass, and a passing report is put to
    use on them. *)

From Stdlib Require Import QArith.
From S2P Require Import Prelude Text GCode Identity Models ManufacturingModel Machining CamValidation ProductionModel ToolpathGeometry CapsuleGeometry ToolpathContracts Toolpaths ToolpathSafety VerificationModel VerificationGeometry VerificationBindings VerificationPrograms VerificationMotion VerificationCoverage Verification VerificationFacts VerificationSafety VerificationCleared VerificationTotal PocketCoverage ToolpathExamples.

(** Whether the checks find no issue. *)
Definition finds_no_issue (document : ProductionToolpathDocument) (source : OperationsDocument) : bool :=
  match validate_program_partition (fst (source_setups_found source)) (fst (bound_setups_found document))
          (fst (bindings_by_source_tool_found document)) (fst (recipes_found document)) (pt_execution_context document)
          (pt_programs document) (od_operations source),
        verify_programs document source with
  | Ok partition, Ok st => bool_decide (found_issues document source partition st = [])
  | _, _ => false
  end.

Lemma clean_passes document source : finds_no_issue document source = true -> passes document source.
Proof.
  unfold finds_no_issue, passes. destruct (validate_program_partition _ _ _ _ _ _ _) as [partition|]; [|done].
  destruct (verify_programs _ _) as [st|]; [|done]. intros H%bool_decide_eq_true. by exists partition, st.
Qed.

Lemma tray_clean :
  exists document, generate_production_toolpaths tray_operations shop = Ok document /\
    finds_no_issue document tray_operations && bool_decide (move_counts document = [16; 88; 384]%nat) = true.
Proof. apply generated_if. vm_compute. reflexivity. Qed.

(** The report on the trays. *)
Lemma tray_verified :
  exists document v, generate_production_toolpaths tray_operations shop = Ok document /\
    verify_production_toolpaths document tray_operations = Ok v /\ cp_status (vr_report v) = STATUS_PASS /\
    move_counts document = [16; 88; 384]%nat.
Proof.
  destruct tray_clean as (document & HG & [HC HM]%andb_true_iff).
  destruct (passes_verifies document tray_operations (clean_passes _ _ HC)) as (v & HV & HS).
  exists document, v. split; [exact HG|]. split; [exact HV|]. split; [exact HS|]. exact (proj1 (bool_decide_eq_true _) HM).
Qed.

Lemma verified_toolpaths_safe_witness :
  exists document v,
    verify_production_toolpaths document tray_operations = Ok v /\ cp_status (vr_report v) = STATUS_PASS /\
    move_counts document = [16; 88; 384]%nat /\
    forall p, p ∈ pt_programs document -> exists s t,
      forall step, step ∈ program_steps (pg_moves p) (bs_safe_z_um s) -> exists o r,
        o ∈ od_operations tray_operations /\
        step_verified (pt_execution_context document) tray_operations s t o r step.
Proof.
  destruct tray_verified as (document & v & _ & HV & HS & HM). exists document, v.
  split; [exact HV|]. split; [exact HS|]. split; [exact HM|]. intros p Hp.
  destruct (verified_toolpaths_safe document tray_operations v HV HS p Hp) as (s & t & _ & _ & _ & _ & H).
  exists s, t. intros step Hstep. destruct (H step Hstep) as (o & r & Ho & _ & _ & HV'). exists o, r. split; [exact Ho|exact HV'].
Defined.

Lemma verified_areas_cleared_witness :
  exists document v p t r bounds,
    verify_production_toolpaths document tray_operations = Ok v /\ cp_status (vr_report v) = STATUS_PASS /\
    p ∈ pt_programs document /\ op_depth_um first_groove = 6000 /\
    independent_area_raster_bounds first_groove (tb_effective_diameter_um t / 2) = Ok bounds /\
    forall q, to_clear bounds (tb_effective_diameter_um t / 2 - cr_process_accuracy_um r) q ->
      exists A B, has_cut first_groove (-6000) (pg_moves p) A B /\
        within_capsule A B (tb_effective_diameter_um t / 2 - cr_process_accuracy_um r) q.
Proof.
  destruct tray_verified as (document & v & _ & HV & HS & _).
  destruct (verified_areas_cleared document tray_operations v first_groove HV HS)
    as (p & s & t & r & bounds & Hp & _ & _ & _ & _ & _ & _ & _ & Hb & Hz & H).
  - vm_compute. right. right. left.
  - vm_compute. reflexivity.
  - exists document, v, p, t, r, bounds. split; [exact HV|]. split; [exact HS|]. split; [exact Hp|].
    assert (op_depth_um first_groove = 6000) as Hd by (vm_compute; reflexivity). split; [exact Hd|]. split; [exact Hb|].
    rewrite Hd in Hz. exact (proj1 (H (-6000) Hz)).
Defined.

(** The areas and contours of the trays have their sizes. *)
Definition has_sizes (o : CAMOperation) : bool :=
  negb (is_area_kind (op_kind o) || bool_decide (op_kind o = OP_CONTOUR)) || is_some (sized_rect o).

Lemma has_sizes_sized o : has_sizes o = true -> sized o.
Proof.
  unfold has_sizes, sized. intros H K E. rewrite E in H. destruct K as [K|K].
  - by rewrite K in H.
  - rewrite (bool_decide_eq_true_2 _ K), orb_true_r in H. done.
Qed.

Lemma verification_returns_witness :
  (forall o, o ∈ od_operations tray_operations -> sized o) /\ length (od_operations tray_operations) = 6%nat /\
  forall document, exists v, verify_production_toolpaths document tray_operations = Ok v /\
    (cp_status (vr_report v) = STATUS_PASS <-> cp_issues (vr_report v) = []).
Proof.
  assert (forall o, o ∈ od_operations tray_operations -> sized o) as H.
  { assert (forallb has_sizes (od_operations tray_operations) = true) as F by (vm_compute; reflexivity).
    intros o Ho. apply has_sizes_sized. apply (proj1 (forallb_forall _ _) F o). exact (proj1 (list_elem_of_In _ _) Ho). }
  split; [exact H|]. split; [vm_compute; reflexivity|]. intros document.
  destruct (verification_returns document tray_operations H) as (v & HV & HS & _). exists v. split; [exact HV|exact HS].
Defined.
