(* ===== verification/ProductionProfile.v ===== *)
(** * Production machines: the LinuxCNC profile

    [postprocessors/src/custombuild_postprocessors/runtime_contract.py] and
    [production_model.py] beside it: what a workshop must have observed of a
    LinuxCNC installation before executable programs are written for it, and the
    record of such a program.  [ProductionReader] reads
    profiles back from JSON. *)

From S2P Require Import Prelude Text Identity ManufacturingModel Machining CamValidation ProductionModel.

(** [s.casefold()] on ASCII text *)
Definition casefold (s : string) : string := of_chars (map lower_char (chars s)).

(** ** The runtime contract *)

Definition LINUXCNC_ORACLE_CONTROLLER_VERSION : string := "2.9.4".
Definition LINUXCNC_ORACLE_PACKAGE_VERSION : string := "1:2.9.4-2+deb13u1".
Definition LINUXCNC_ORACLE_CONTAINER_IMAGE : string :=
  "debian:trixie-slim@sha256:abc9cb88a5587630d7f915f47b23b0668fe250fbfc6457aa4d52b534c1bbf73f".
Definition LINUXCNC_ORACLE_DEBIAN_SNAPSHOT : string := "20260824T000000Z".
Definition LINUXCNC_ORACLE_BUILD : json :=
  JObj [("container_image", JStr LINUXCNC_ORACLE_CONTAINER_IMAGE);
        ("debian_snapshot", JStr LINUXCNC_ORACLE_DEBIAN_SNAPSHOT);
        ("linuxcnc_package", JStr "linuxcnc-uspace");
        ("linuxcnc_package_version", JStr LINUXCNC_ORACLE_PACKAGE_VERSION);
        ("schema_version", JStr "custombuild.linuxcnc-oracle-build.v1")].
Definition LINUXCNC_ORACLE_BUILD_SHA256 : string := content_hash LINUXCNC_ORACLE_BUILD.
#[global] Arguments LINUXCNC_ORACLE_BUILD_SHA256 : simpl never.
Definition RUNTIME_CONTRACT_SCHEMA_VERSION : string := "custombuild.linuxcnc-runtime-contract.v1".

(** [str | int | bool], told apart by their types. *)
Inductive RuntimeValue := RV_str (s : string) | RV_int (z : Z) | RV_bool (b : bool).
#[export] Instance RuntimeValue_eq_dec : EqDecision RuntimeValue.
Proof. solve_decision. Defined.

Definition REQUIRED_RUNTIME_SETTINGS : list (string * RuntimeValue) :=
  [("TRAJ.SPINDLES", RV_int 1);
   ("MOTION.num_spindles", RV_int 1);
   ("COMMAND.spindle_index", RV_int 0);
   ("SPINDLE_0.commands_feedback_interlocks_bound", RV_bool true);
   ("SPINDLE_0.interlocks_compare_exact_programmed_S", RV_bool true);
   ("RS274NGC.REMAP_T", RV_bool false);
   ("RS274NGC.REMAP_S", RV_bool false);
   ("RS274NGC.REMAP_F", RV_bool false);
   ("RS274NGC.ON_ABORT_COMMAND", RV_bool false);
   ("FILTER.ngc", RV_bool false);
   ("INPUT.exact_verified_bytes_to_interpreter", RV_bool true);
   ("TASK.TASK", RV_str "milltask");
   ("TRAJ.TPMOD", RV_str "tpmod");
   ("EMCMOT.EMCMOT", RV_str "motmod");
   ("EMCMOT.HOMEMOD", RV_str "homemod");
   ("EMCIO.EMCIO", RV_str "io");
   ("STARTUP.alternate_components_or_search_path_overrides", RV_bool false);
   ("M6.axis_motion", RV_bool false);
   ("EMCIO.TOOL_CHANGE_POSITION", RV_bool false);
   ("EMCIO.TOOL_CHANGE_QUILL_UP", RV_bool false);
   ("EMCIO.TOOL_CHANGE_AT_G30", RV_bool false);
   ("EMCIO.DB_PROGRAM", RV_bool false);
   ("EMCIO.file_tool_table_backend", RV_bool true)] ++
  map (fun i => ("JOINT_" +:+ str_of_Z i +:+ ".TYPE", RV_str "LINEAR")) [0; 1; 2] ++
  map (fun i => ("JOINT_" +:+ str_of_Z i +:+ ".effective_UNITS", RV_str "mm")) [0; 1; 2].

Definition RUNTIME_COMPONENTS : list string := ["rs274"; "milltask"; "tpmod"; "motmod"; "homemod"; "io"].
Definition RUNTIME_INPUTS : list string := ["expanded_ini"; "expanded_hal"; "hal_topology"; "tool_table"].

Record RuntimeSetting := mkSetting { rs_name : string; rs_value : RuntimeValue }.
Record RuntimeInventoryEntry := mkEntry { ri_name : string; ri_sha256 : string }.

Record LinuxCNCRuntimeContract := mkContract {
  rt_schema_version : string;
  rt_oracle_build_sha256 : string;
  rt_installed_package_version : string;
  rt_effective_settings : list RuntimeSetting;
  rt_components : list RuntimeInventoryEntry;
  rt_configuration_inputs : list RuntimeInventoryEntry;
  rt_min_forward_velocity_rpm : Z;
  rt_max_forward_velocity_rpm : Z;
  rt_evidence_id : string;
  rt_evidence_version : string;
  rt_evidence_sha256 : string;
  rt_workshop_runtime_verified : bool }.

Definition value_error_if (cond : bool) (message : string) : result unit := raise_if cond (ValueError message).

(** [REQUIRED_RUNTIME_SETTINGS[name]] and the comparison of type and value. *)
Definition check_setting (item : RuntimeSetting) : result unit :=
  expected ← of_option (snd <$> (dict_of fst REQUIRED_RUNTIME_SETTINGS !! rs_name item)) (KeyError (rs_name item));
  value_error_if (negb (bool_decide (rs_value item = expected)))
    ("unsupported effective LinuxCNC setting: " +:+ rs_name item).

Definition check_inventory (label : string) (entries : list RuntimeInventoryEntry) (required : list string)
    : result unit :=
  value_error_if (negb (bool_decide (map ri_name entries = sort_strings required)))
    ("runtime " +:+ label +:+ " inventory is incomplete or non-canonical");;
  check_all (fun e => value_error_if (negb (design_hash_ok (ri_sha256 e)))
                        ("runtime " +:+ label +:+ " requires SHA-256 byte digests")) entries.

Definition new_LinuxCNCRuntimeContract (r : LinuxCNCRuntimeContract) : result LinuxCNCRuntimeContract :=
  value_error_if (negb (bool_decide (rt_schema_version r = RUNTIME_CONTRACT_SCHEMA_VERSION)))
    "unsupported LinuxCNC runtime contract schema";;
  value_error_if (negb (bool_decide (rt_oracle_build_sha256 r = LINUXCNC_ORACLE_BUILD_SHA256)))
    "LinuxCNC oracle build digest mismatch";;
  value_error_if (negb (bool_decide (rt_installed_package_version r = LINUXCNC_ORACLE_PACKAGE_VERSION)))
    "LinuxCNC package is outside the oracle-qualified build";;
  value_error_if (negb (bool_decide (map rs_name (rt_effective_settings r)
                                     = sort_strings (map fst REQUIRED_RUNTIME_SETTINGS))))
    "runtime settings must exactly cover the supported configuration";;
  check_all check_setting (rt_effective_settings r);;
  check_inventory "components" (rt_components r) RUNTIME_COMPONENTS;;
  check_inventory "configuration_inputs" (rt_configuration_inputs r) RUNTIME_INPUTS;;
  value_error_if (negb ((0 <? rt_min_forward_velocity_rpm r) &&
                        (rt_min_forward_velocity_rpm r <? rt_max_forward_velocity_rpm r)))
    "runtime spindle limits must be positive increasing integer RPM";;
  check_all (fun v => value_error_if (negb (is_canonical_id v)) "runtime evidence requires canonical identities")
    [rt_evidence_id r; rt_evidence_version r];;
  value_error_if (negb (design_hash_ok (rt_evidence_sha256 r))) "runtime evidence requires a SHA-256 byte digest";;
  value_error_if (negb (rt_workshop_runtime_verified r)) "the workshop must explicitly verify the effective runtime";;
  Ok r.

Definition runtime_value_json (v : RuntimeValue) : json :=
  match v with RV_str s => JStr s | RV_int z => JInt z | RV_bool b => JBool b end.
Definition setting_json (s : RuntimeSetting) : json :=
  JObj [("name", JStr (rs_name s)); ("value", runtime_value_json (rs_value s))].
Definition entry_json (e : RuntimeInventoryEntry) : json :=
  JObj [("name", JStr (ri_name e)); ("sha256", JStr (ri_sha256 e))].

(** [canonical_data(contract)] *)
Definition contract_json (r : LinuxCNCRuntimeContract) : json :=
  JObj [("schema_version", JStr (rt_schema_version r)); ("oracle_build_sha256", JStr (rt_oracle_build_sha256 r));
        ("installed_package_version", JStr (rt_installed_package_version r));
        ("effective_settings", JArr (map setting_json (rt_effective_settings r)));
        ("components", JArr (map entry_json (rt_components r)));
        ("configuration_inputs", JArr (map entry_json (rt_configuration_inputs r)));
        ("min_forward_velocity_rpm", JInt (rt_min_forward_velocity_rpm r));
        ("max_forward_velocity_rpm", JInt (rt_max_forward_velocity_rpm r));
        ("evidence_id", JStr (rt_evidence_id r)); ("evidence_version", JStr (rt_evidence_version r));
        ("evidence_sha256", JStr (rt_evidence_sha256 r));
        ("workshop_runtime_verified", JBool (rt_workshop_runtime_verified r))].

Definition runtime_contract_sha256 (r : LinuxCNCRuntimeContract) : string := content_hash (contract_json r).
#[global] Arguments runtime_contract_sha256 : simpl never.

(** ** The profile *)

Definition LINUXCNC_PRODUCTION_MACHINE_PROFILE_SCHEMA_VERSION : string :=
  "custombuild.linuxcnc-production-machine-profile.v1".
Definition LINUXCNC_PRODUCTION_POSTPROCESSOR_ID : string := "linuxcnc-3axis-production".
Definition LINUXCNC_PRODUCTION_POSTPROCESSOR_VERSION : string := "1.2.0".
Definition G53_TOOL_CHANGE_PATH_COMPLETE : string :=
  "G53_Z_TOOLCHANGE_XY_M6_G53_Z_THEN_ENTRY_XY_AT_GLOBAL_CLEARANCE".
Definition G52_G92_OFFSET_RESET_POLICY : string := "G92.1_CLEAR_AND_DO_NOT_RESTORE".
Definition FEED_SPINDLE_OVERRIDE_POLICY : string := "PROGRAM_DISABLES_FEED_AND_SPINDLE_OVERRIDES_WITH_M49".
Definition EXTERNAL_AXIS_OFFSET_POLICY : string := "XYZ_OFFSET_AV_RATIO_ZERO_EOFFSETS_DISABLED".
Definition HOMING_PREFLIGHT_POLICY : string := "NO_FORCE_HOMING_0_ALL_XYZ_HOMED_BEFORE_AUTO".
Definition SPINDLE_AT_SPEED_POLICY : string := "ACTUAL_RPM_GT_0_WITHIN_TOLERANCE_BEFORE_FEED".
Definition CONTINUOUS_SPINDLE_SPEED_INTERLOCK_POLICY : string :=
  "ACTUAL_RPM_OUT_OF_TOLERANCE_INHIBITS_CUTTING_FEED_CONTINUOUSLY".
Definition SPINDLE_DWELL_ROLE : string := "MINIMUM_DWELL_NOT_SPEED_PROOF".
Definition PROGRAM_RESTART_POLICY : string :=
  "PROGRAM_START_ONLY_RUN_FROM_LINE_DISABLED_FULL_RESTART_AFTER_ABORT".
Definition M6_TOOL_TABLE_POLICY : string := "M6_PRESERVES_EXACT_BOUND_TOOL_TABLE".
Definition M6_WCS_TABLE_POLICY : string := "M6_PRESERVES_EXACT_BOUND_WCS_TABLE".
Definition METRIC_XYZ_IDENTITY_KINEMATICS_POLICY : string :=
  "LINEAR_UNITS_MM_COORDINATES_XYZ_IDENTITY_TRIVKINS_JOINTS_3_JOINT_0_X_JOINT_1_Y_JOINT_2_Z_NO_EXTRA_AXES".

Record LinuxCNCWCSOffset := mkOffset {
  wo_wcs : string;
  wo_machine_x0_um : Z;
  wo_machine_y0_um : Z;
  wo_machine_z0_um : Z;
  wo_machine_xy_rotation_mdeg : Z }.
#[export] Instance LinuxCNCWCSOffset_eq_dec : EqDecision LinuxCNCWCSOffset.
Proof. solve_decision. Defined.

Definition new_LinuxCNCWCSOffset (o : LinuxCNCWCSOffset) : result LinuxCNCWCSOffset :=
  value_error_if (negb (wcs_code_ok (wo_wcs o))) "WCS offset must use a canonical G54-G59 code";;
  value_error_if (negb (wo_machine_xy_rotation_mdeg o =? 0)) "LinuxCNC production WCS XY rotation must be exactly zero";;
  Ok o.

Record LinuxCNCProductionMachineProfile := mkProfile {
  lp_profile_id : string;
  lp_version : string;
  lp_machine_profile_id : string;
  lp_machine_profile_version : string;
  lp_controller_id : string;
  lp_controller_version : string;
  lp_runtime_contract : LinuxCNCRuntimeContract;
  lp_supported_wcs : list string;
  lp_wcs_offsets : list LinuxCNCWCSOffset;
  lp_machine_x_min_um : Z;
  lp_machine_x_max_um : Z;
  lp_machine_y_min_um : Z;
  lp_machine_y_max_um : Z;
  lp_machine_z_min_um : Z;
  lp_machine_z_max_um : Z;
  lp_tool_change_x_um : Z;
  lp_tool_change_y_um : Z;
  lp_tool_change_z_um : Z;
  lp_spindle_spinup_ms : Z;
  lp_g53_tool_change_path : string;
  lp_g53_tool_change_path_clearance_evidence_id : string;
  lp_g53_tool_change_path_clearance_evidence_version : string;
  lp_g53_tool_change_path_clearance_evidence_sha256 : string;
  lp_wcs_offsets_evidence_id : string;
  lp_wcs_offsets_evidence_version : string;
  lp_wcs_offsets_evidence_sha256 : string;
  lp_g52_g92_offset_reset_policy : string;
  lp_g52_g92_offset_reset_evidence_id : string;
  lp_g52_g92_offset_reset_evidence_version : string;
  lp_g52_g92_offset_reset_evidence_sha256 : string;
  lp_feed_spindle_override_policy : string;
  lp_feed_spindle_override_evidence_id : string;
  lp_feed_spindle_override_evidence_version : string;
  lp_feed_spindle_override_evidence_sha256 : string;
  lp_external_axis_offset_policy : string;
  lp_external_axis_offset_evidence_id : string;
  lp_external_axis_offset_evidence_version : string;
  lp_external_axis_offset_evidence_sha256 : string;
  lp_homing_preflight_policy : string;
  lp_homing_preflight_evidence_id : string;
  lp_homing_preflight_evidence_version : string;
  lp_homing_preflight_evidence_sha256 : string;
  lp_program_restart_policy : string;
  lp_program_restart_evidence_id : string;
  lp_program_restart_evidence_version : string;
  lp_program_restart_evidence_sha256 : string;
  lp_m6_tool_table_policy : string;
  lp_m6_tool_table_evidence_id : string;
  lp_m6_tool_table_evidence_version : string;
  lp_m6_tool_table_evidence_sha256 : string;
  lp_m6_wcs_table_policy : string;
  lp_m6_wcs_table_evidence_id : string;
  lp_m6_wcs_table_evidence_version : string;
  lp_m6_wcs_table_evidence_sha256 : string;
  lp_metric_xyz_identity_kinematics_policy : string;
  lp_metric_xyz_identity_kinematics_evidence_id : string;
  lp_metric_xyz_identity_kinematics_evidence_version : string;
  lp_metric_xyz_identity_kinematics_evidence_sha256 : string;
  lp_spindle_at_speed_policy : string;
  lp_spindle_feedback_source : string;
  lp_spindle_at_speed_evidence_id : string;
  lp_spindle_at_speed_evidence_version : string;
  lp_spindle_at_speed_evidence_sha256 : string;
  lp_spindle_at_speed_tolerance_ppm : Z;
  lp_continuous_spindle_speed_interlock_policy : string;
  lp_continuous_spindle_speed_interlock_evidence_id : string;
  lp_continuous_spindle_speed_interlock_evidence_version : string;
  lp_continuous_spindle_speed_interlock_evidence_sha256 : string;
  lp_g53_machine_coordinates_verified : bool;
  lp_g53_tool_change_path_clearance_verified : bool;
  lp_wcs_offsets_verified : bool;
  lp_g92_1_clears_g52_g92_offsets_verified : bool;
  lp_m6_tool_change_verified : bool;
  lp_m6_preserves_axis_position : bool;
  lp_m6_preserves_bound_tool_table_verified : bool;
  lp_m6_preserves_bound_wcs_table_verified : bool;
  lp_linear_units_mm_verified : bool;
  lp_coordinates_xyz_verified : bool;
  lp_identity_trivkins_verified : bool;
  lp_exactly_three_joints_verified : bool;
  lp_joint_0_x_1_y_2_z_verified : bool;
  lp_no_extra_controlled_axes_verified : bool;
  lp_g43_h_length_offset_verified : bool;
  lp_g8_radius_mode_verified : bool;
  lp_g97_rpm_mode_verified : bool;
  lp_m9_coolant_off_verified : bool;
  lp_m49_feed_and_spindle_overrides_disabled_verified : bool;
  lp_m52_p0_adaptive_feed_disabled_verified : bool;
  lp_m53_p1_feed_hold_enabled_verified : bool;
  lp_external_xyz_offsets_disabled_verified : bool;
  lp_all_xyz_homed_before_auto_verified : bool;
  lp_no_force_homing_disabled_verified : bool;
  lp_run_from_line_disabled_verified : bool;
  lp_full_restart_after_abort_required : bool;
  lp_real_spindle_feedback_verified : bool;
  lp_spindle_at_speed_motion_interlock_verified : bool;
  lp_continuous_spindle_speed_feed_inhibit_verified : bool;
  lp_vfd_fault_motion_inhibit_verified : bool;
  lp_vfd_fault_spindle_stop_verified : bool;
  lp_m3_clockwise_spindle_verified : bool;
  lp_g4_p_seconds_dwell_verified : bool;
  lp_schema_version : string }.

Section Profile.
Context (p : LinuxCNCProductionMachineProfile).

Definition profile_identities : list (string * string) :=
  [
   ("profile_id", lp_profile_id p); ("version", lp_version p); ("machine_profile_id", lp_machine_profile_id p);
   ("machine_profile_version", lp_machine_profile_version p); ("controller_id", lp_controller_id p);
   ("controller_version", lp_controller_version p);
   ("g53_tool_change_path_clearance_evidence_id", lp_g53_tool_change_path_clearance_evidence_id p);
   ("g53_tool_change_path_clearance_evidence_version", lp_g53_tool_change_path_clearance_evidence_version p);
   ("wcs_offsets_evidence_id", lp_wcs_offsets_evidence_id p);
   ("wcs_offsets_evidence_version", lp_wcs_offsets_evidence_version p);
   ("g52_g92_offset_reset_evidence_id", lp_g52_g92_offset_reset_evidence_id p);
   ("g52_g92_offset_reset_evidence_version", lp_g52_g92_offset_reset_evidence_version p);
   ("feed_spindle_override_evidence_id", lp_feed_spindle_override_evidence_id p);
   ("feed_spindle_override_evidence_version", lp_feed_spindle_override_evidence_version p);
   ("external_axis_offset_evidence_id", lp_external_axis_offset_evidence_id p);
   ("external_axis_offset_evidence_version", lp_external_axis_offset_evidence_version p);
   ("homing_preflight_evidence_id", lp_homing_preflight_evidence_id p);
   ("homing_preflight_evidence_version", lp_homing_preflight_evidence_version p);
   ("program_restart_evidence_id", lp_program_restart_evidence_id p);
   ("program_restart_evidence_version", lp_program_restart_evidence_version p);
   ("m6_tool_table_evidence_id", lp_m6_tool_table_evidence_id p);
   ("m6_tool_table_evidence_version", lp_m6_tool_table_evidence_version p);
   ("m6_wcs_table_evidence_id", lp_m6_wcs_table_evidence_id p);
   ("m6_wcs_table_evidence_version", lp_m6_wcs_table_evidence_version p);
   ("metric_xyz_identity_kinematics_evidence_id", lp_metric_xyz_identity_kinematics_evidence_id p);
   ("metric_xyz_identity_kinematics_evidence_version", lp_metric_xyz_identity_kinematics_evidence_version p);
   ("spindle_feedback_source", lp_spindle_feedback_source p);
   ("spindle_at_speed_evidence_id", lp_spindle_at_speed_evidence_id p);
   ("spindle_at_speed_evidence_version", lp_spindle_at_speed_evidence_version p);
   ("continuous_spindle_speed_interlock_evidence_id", lp_continuous_spindle_speed_interlock_evidence_id p);
   ("continuous_spindle_speed_interlock_evidence_version", lp_continuous_spindle_speed_interlock_evidence_version p)].

Definition profile_axes : list (string * Z * Z * Z) :=
  [("X", lp_machine_x_min_um p, lp_machine_x_max_um p, lp_tool_change_x_um p);
   ("Y", lp_machine_y_min_um p, lp_machine_y_max_um p, lp_tool_change_y_um p);
   ("Z", lp_machine_z_min_um p, lp_machine_z_max_um p, lp_tool_change_z_um p)].

Definition check_profile_axis (a : string * Z * Z * Z) : result unit :=
  let '(axis, minimum, maximum, tool_change) := a in
  value_error_if (maximum <=? minimum) ("machine " +:+ axis +:+ " minimum must be below its maximum");;
  value_error_if (negb ((minimum <=? tool_change) && (tool_change <=? maximum)))
    ("tool-change " +:+ axis +:+ " is outside the declared machine bounds").

Definition check_offset_bounds (o : LinuxCNCWCSOffset) : result unit :=
  value_error_if (negb ((lp_machine_x_min_um p <=? wo_machine_x0_um o) && (wo_machine_x0_um o <=? lp_machine_x_max_um p) &&
                        (lp_machine_y_min_um p <=? wo_machine_y0_um o) && (wo_machine_y0_um o <=? lp_machine_y_max_um p) &&
                        (lp_machine_z_min_um p <=? wo_machine_z0_um o) && (wo_machine_z0_um o <=? lp_machine_z_max_um p)))
    (wo_wcs o +:+ " origin is outside the declared machine bounds").

(** The policies with the only value each may have. *)
Definition profile_policies : list (string * string * string) :=
  [
   (lp_g53_tool_change_path p, G53_TOOL_CHANGE_PATH_COMPLETE, "unsupported G53 tool-change path");
   (lp_g52_g92_offset_reset_policy p, G52_G92_OFFSET_RESET_POLICY, "unsupported G52/G92 offset-reset policy");
   (lp_feed_spindle_override_policy p, FEED_SPINDLE_OVERRIDE_POLICY, "unsupported feed/spindle-override policy");
   (lp_external_axis_offset_policy p, EXTERNAL_AXIS_OFFSET_POLICY, "unsupported external-axis-offset policy");
   (lp_homing_preflight_policy p, HOMING_PREFLIGHT_POLICY, "unsupported homing-preflight policy");
   (lp_program_restart_policy p, PROGRAM_RESTART_POLICY, "unsupported program-restart policy");
   (lp_m6_tool_table_policy p, M6_TOOL_TABLE_POLICY, "unsupported M6 tool-table policy");
   (lp_m6_wcs_table_policy p, M6_WCS_TABLE_POLICY, "unsupported M6 WCS-table policy");
   (lp_metric_xyz_identity_kinematics_policy p, METRIC_XYZ_IDENTITY_KINEMATICS_POLICY,
    "unsupported native-unit/axis/kinematics policy");
   (lp_spindle_at_speed_policy p, SPINDLE_AT_SPEED_POLICY, "unsupported spindle-at-speed policy");
   (lp_continuous_spindle_speed_interlock_policy p, CONTINUOUS_SPINDLE_SPEED_INTERLOCK_POLICY,
    "unsupported continuous spindle-speed-interlock policy")].

Definition profile_hashes : list (string * string) :=
  [
   ("g53_tool_change_path_clearance_evidence_sha256", lp_g53_tool_change_path_clearance_evidence_sha256 p);
   ("wcs_offsets_evidence_sha256", lp_wcs_offsets_evidence_sha256 p);
   ("g52_g92_offset_reset_evidence_sha256", lp_g52_g92_offset_reset_evidence_sha256 p);
   ("feed_spindle_override_evidence_sha256", lp_feed_spindle_override_evidence_sha256 p);
   ("external_axis_offset_evidence_sha256", lp_external_axis_offset_evidence_sha256 p);
   ("homing_preflight_evidence_sha256", lp_homing_preflight_evidence_sha256 p);
   ("program_restart_evidence_sha256", lp_program_restart_evidence_sha256 p);
   ("m6_tool_table_evidence_sha256", lp_m6_tool_table_evidence_sha256 p);
   ("m6_wcs_table_evidence_sha256", lp_m6_wcs_table_evidence_sha256 p);
   ("metric_xyz_identity_kinematics_evidence_sha256", lp_metric_xyz_identity_kinematics_evidence_sha256 p);
   ("spindle_at_speed_evidence_sha256", lp_spindle_at_speed_evidence_sha256 p);
   ("continuous_spindle_speed_interlock_evidence_sha256", lp_continuous_spindle_speed_interlock_evidence_sha256 p)].

Definition attestations : list bool :=
  [
   lp_g53_machine_coordinates_verified p; lp_g53_tool_change_path_clearance_verified p;
   lp_wcs_offsets_verified p; lp_g92_1_clears_g52_g92_offsets_verified p; lp_m6_tool_change_verified p;
   lp_m6_preserves_axis_position p; lp_m6_preserves_bound_tool_table_verified p;
   lp_m6_preserves_bound_wcs_table_verified p; lp_linear_units_mm_verified p; lp_coordinates_xyz_verified p;
   lp_identity_trivkins_verified p; lp_exactly_three_joints_verified p; lp_joint_0_x_1_y_2_z_verified p;
   lp_no_extra_controlled_axes_verified p; lp_g43_h_length_offset_verified p; lp_g8_radius_mode_verified p;
   lp_g97_rpm_mode_verified p; lp_m9_coolant_off_verified p;
   lp_m49_feed_and_spindle_overrides_disabled_verified p; lp_m52_p0_adaptive_feed_disabled_verified p;
   lp_m53_p1_feed_hold_enabled_verified p; lp_external_xyz_offsets_disabled_verified p;
   lp_all_xyz_homed_before_auto_verified p; lp_no_force_homing_disabled_verified p;
   lp_run_from_line_disabled_verified p; lp_full_restart_after_abort_required p;
   lp_real_spindle_feedback_verified p; lp_spindle_at_speed_motion_interlock_verified p;
   lp_continuous_spindle_speed_feed_inhibit_verified p; lp_vfd_fault_motion_inhibit_verified p;
   lp_vfd_fault_spindle_stop_verified p; lp_m3_clockwise_spindle_verified p; lp_g4_p_seconds_dwell_verified p].

Definition new_LinuxCNCProductionMachineProfile : result LinuxCNCProductionMachineProfile :=
  check_all (fun lv => value_error_if (negb (is_canonical_id (snd lv))) (fst lv +:+ " must be a canonical identity"))
    profile_identities;;
  value_error_if (negb (bool_decide (lp_schema_version p = LINUXCNC_PRODUCTION_MACHINE_PROFILE_SCHEMA_VERSION)))
    "unsupported LinuxCNC production machine-profile schema";;
  value_error_if (negb (bool_decide (casefold (lp_controller_id p) = "linuxcnc")))
    "production machine profile must bind LinuxCNC";;
  value_error_if (negb (bool_decide (lp_controller_version p = LINUXCNC_ORACLE_CONTROLLER_VERSION)))
    "production profile requires the oracle-qualified LinuxCNC version";;
  value_error_if (bool_decide (lp_supported_wcs p = []) || negb (distinct (lp_supported_wcs p)) ||
                  negb (bool_decide (sort_strings (lp_supported_wcs p) = lp_supported_wcs p)) ||
                  negb (forallb wcs_code_ok (lp_supported_wcs p)))
    "supported_wcs must be a canonical sorted subset of G54-G59";;
  value_error_if (bool_decide (lp_wcs_offsets p = []) ||
                  negb (bool_decide (sort_by (cmp_on wo_wcs String.compare) (lp_wcs_offsets p) = lp_wcs_offsets p)) ||
                  negb (distinct (map wo_wcs (lp_wcs_offsets p))) ||
                  negb (bool_decide (map wo_wcs (lp_wcs_offsets p) = lp_supported_wcs p)))
    "wcs_offsets must exactly and canonically bind every supported WCS";;
  check_all check_profile_axis profile_axes;;
  check_all check_offset_bounds (lp_wcs_offsets p);;
  value_error_if (negb ((1 <=? lp_spindle_spinup_ms p) && (lp_spindle_spinup_ms p <=? 120000)))
    "spindle_spinup_ms must be an integer from 1 to 120000";;
  check_all (fun pcm => let '(policy, required, message) := pcm in
               value_error_if (negb (bool_decide (policy = required))) message) profile_policies;;
  value_error_if (negb ((1 <=? lp_spindle_at_speed_tolerance_ppm p) && (lp_spindle_at_speed_tolerance_ppm p <=? 100000)))
    "spindle_at_speed_tolerance_ppm must be an integer from 1 to 100000";;
  check_all (fun lv => value_error_if (negb (design_hash_ok (snd lv))) (fst lv +:+ " must be a lowercase SHA-256 digest"))
    profile_hashes;;
  value_error_if (existsb negb attestations) "all LinuxCNC production capabilities must be explicitly verified";;
  Ok p.

Definition offset_json (o : LinuxCNCWCSOffset) : json :=
  JObj [("wcs", JStr (wo_wcs o)); ("machine_x0_um", JInt (wo_machine_x0_um o));
        ("machine_y0_um", JInt (wo_machine_y0_um o)); ("machine_z0_um", JInt (wo_machine_z0_um o));
        ("machine_xy_rotation_mdeg", JInt (wo_machine_xy_rotation_mdeg o))].

(** [canonical_data(profile)] *)
Definition profile_json : json :=
  JObj [
    ("profile_id", JStr (lp_profile_id p)); ("version", JStr (lp_version p));
    ("machine_profile_id", JStr (lp_machine_profile_id p));
    ("machine_profile_version", JStr (lp_machine_profile_version p));
    ("controller_id", JStr (lp_controller_id p)); ("controller_version", JStr (lp_controller_version p));
    ("runtime_contract", contract_json (lp_runtime_contract p));
    ("supported_wcs", JArr (map JStr (lp_supported_wcs p)));
    ("wcs_offsets", JArr (map offset_json (lp_wcs_offsets p)));
    ("machine_x_min_um", JInt (lp_machine_x_min_um p)); ("machine_x_max_um", JInt (lp_machine_x_max_um p));
    ("machine_y_min_um", JInt (lp_machine_y_min_um p)); ("machine_y_max_um", JInt (lp_machine_y_max_um p));
    ("machine_z_min_um", JInt (lp_machine_z_min_um p)); ("machine_z_max_um", JInt (lp_machine_z_max_um p));
    ("tool_change_x_um", JInt (lp_tool_change_x_um p)); ("tool_change_y_um", JInt (lp_tool_change_y_um p));
    ("tool_change_z_um", JInt (lp_tool_change_z_um p)); ("spindle_spinup_ms", JInt (lp_spindle_spinup_ms p));
    ("g53_tool_change_path", JStr (lp_g53_tool_change_path p));
    ("g53_tool_change_path_clearance_evidence_id", JStr (lp_g53_tool_change_path_clearance_evidence_id p));
    ("g53_tool_change_path_clearance_evidence_version", JStr (lp_g53_tool_change_path_clearance_evidence_version p));
    ("g53_tool_change_path_clearance_evidence_sha256", JStr (lp_g53_tool_change_path_clearance_evidence_sha256 p));
    ("wcs_offsets_evidence_id", JStr (lp_wcs_offsets_evidence_id p));
    ("wcs_offsets_evidence_version", JStr (lp_wcs_offsets_evidence_version p));
    ("wcs_offsets_evidence_sha256", JStr (lp_wcs_offsets_evidence_sha256 p));
    ("g52_g92_offset_reset_policy", JStr (lp_g52_g92_offset_reset_policy p));
    ("g52_g92_offset_reset_evidence_id", JStr (lp_g52_g92_offset_reset_evidence_id p));
    ("g52_g92_offset_reset_evidence_version", JStr (lp_g52_g92_offset_reset_evidence_version p));
    ("g52_g92_offset_reset_evidence_sha256", JStr (lp_g52_g92_offset_reset_evidence_sha256 p));
    ("feed_spindle_override_policy", JStr (lp_feed_spindle_override_policy p));
    ("feed_spindle_override_evidence_id", JStr (lp_feed_spindle_override_evidence_id p));
    ("feed_spindle_override_evidence_version", JStr (lp_feed_spindle_override_evidence_version p));
    ("feed_spindle_override_evidence_sha256", JStr (lp_feed_spindle_override_evidence_sha256 p));
    ("external_axis_offset_policy", JStr (lp_external_axis_offset_policy p));
    ("external_axis_offset_evidence_id", JStr (lp_external_axis_offset_evidence_id p));
    ("external_axis_offset_evidence_version", JStr (lp_external_axis_offset_evidence_version p));
    ("external_axis_offset_evidence_sha256", JStr (lp_external_axis_offset_evidence_sha256 p));
    ("homing_preflight_policy", JStr (lp_homing_preflight_policy p));
    ("homing_preflight_evidence_id", JStr (lp_homing_preflight_evidence_id p));
    ("homing_preflight_evidence_version", JStr (lp_homing_preflight_evidence_version p));
    ("homing_preflight_evidence_sha256", JStr (lp_homing_preflight_evidence_sha256 p));
    ("program_restart_policy", JStr (lp_program_restart_policy p));
    ("program_restart_evidence_id", JStr (lp_program_restart_evidence_id p));
    ("program_restart_evidence_version", JStr (lp_program_restart_evidence_version p));
    ("program_restart_evidence_sha256", JStr (lp_program_restart_evidence_sha256 p));
    ("m6_tool_table_policy", JStr (lp_m6_tool_table_policy p));
    ("m6_tool_table_evidence_id", JStr (lp_m6_tool_table_evidence_id p));
    ("m6_tool_table_evidence_version", JStr (lp_m6_tool_table_evidence_version p));
    ("m6_tool_table_evidence_sha256", JStr (lp_m6_tool_table_evidence_sha256 p));
    ("m6_wcs_table_policy", JStr (lp_m6_wcs_table_policy p));
    ("m6_wcs_table_evidence_id", JStr (lp_m6_wcs_table_evidence_id p));
    ("m6_wcs_table_evidence_version", JStr (lp_m6_wcs_table_evidence_version p));
    ("m6_wcs_table_evidence_sha256", JStr (lp_m6_wcs_table_evidence_sha256 p));
    ("metric_xyz_identity_kinematics_policy", JStr (lp_metric_xyz_identity_kinematics_policy p));
    ("metric_xyz_identity_kinematics_evidence_id", JStr (lp_metric_xyz_identity_kinematics_evidence_id p));
    ("metric_xyz_identity_kinematics_evidence_version", JStr (lp_metric_xyz_identity_kinematics_evidence_version p));
    ("metric_xyz_identity_kinematics_evidence_sha256", JStr (lp_metric_xyz_identity_kinematics_evidence_sha256 p));
    ("spindle_at_speed_policy", JStr (lp_spindle_at_speed_policy p));
    ("spindle_feedback_source", JStr (lp_spindle_feedback_source p));
    ("spindle_at_speed_evidence_id", JStr (lp_spindle_at_speed_evidence_id p));
    ("spindle_at_speed_evidence_version", JStr (lp_spindle_at_speed_evidence_version p));
    ("spindle_at_speed_evidence_sha256", JStr (lp_spindle_at_speed_evidence_sha256 p));
    ("spindle_at_speed_tolerance_ppm", JInt (lp_spindle_at_speed_tolerance_ppm p));
    ("continuous_spindle_speed_interlock_policy", JStr (lp_continuous_spindle_speed_interlock_policy p));
    ("continuous_spindle_speed_interlock_evidence_id", JStr (lp_continuous_spindle_speed_interlock_evidence_id p));
    ("continuous_spindle_speed_interlock_evidence_version", JStr (lp_continuous_spindle_speed_interlock_evidence_version p));
    ("continuous_spindle_speed_interlock_evidence_sha256", JStr (lp_continuous_spindle_speed_interlock_evidence_sha256 p));
    ("g53_machine_coordinates_verified", JBool (lp_g53_machine_coordinates_verified p));
    ("g53_tool_change_path_clearance_verified", JBool (lp_g53_tool_change_path_clearance_verified p));
    ("wcs_offsets_verified", JBool (lp_wcs_offsets_verified p));
    ("g92_1_clears_g52_g92_offsets_verified", JBool (lp_g92_1_clears_g52_g92_offsets_verified p));
    ("m6_tool_change_verified", JBool (lp_m6_tool_change_verified p));
    ("m6_preserves_axis_position", JBool (lp_m6_preserves_axis_position p));
    ("m6_preserves_bound_tool_table_verified", JBool (lp_m6_preserves_bound_tool_table_verified p));
    ("m6_preserves_bound_wcs_table_verified", JBool (lp_m6_preserves_bound_wcs_table_verified p));
    ("linear_units_mm_verified", JBool (lp_linear_units_mm_verified p));
    ("coordinates_xyz_verified", JBool (lp_coordinates_xyz_verified p));
    ("identity_trivkins_verified", JBool (lp_identity_trivkins_verified p));
    ("exactly_three_joints_verified", JBool (lp_exactly_three_joints_verified p));
    ("joint_0_x_1_y_2_z_verified", JBool (lp_joint_0_x_1_y_2_z_verified p));
    ("no_extra_controlled_axes_verified", JBool (lp_no_extra_controlled_axes_verified p));
    ("g43_h_length_offset_verified", JBool (lp_g43_h_length_offset_verified p));
    ("g8_radius_mode_verified", JBool (lp_g8_radius_mode_verified p));
    ("g97_rpm_mode_verified", JBool (lp_g97_rpm_mode_verified p));
    ("m9_coolant_off_verified", JBool (lp_m9_coolant_off_verified p));
    ("m49_feed_and_spindle_overrides_disabled_verified", JBool (lp_m49_feed_and_spindle_overrides_disabled_verified p));
    ("m52_p0_adaptive_feed_disabled_verified", JBool (lp_m52_p0_adaptive_feed_disabled_verified p));
    ("m53_p1_feed_hold_enabled_verified", JBool (lp_m53_p1_feed_hold_enabled_verified p));
    ("external_xyz_offsets_disabled_verified", JBool (lp_external_xyz_offsets_disabled_verified p));
    ("all_xyz_homed_before_auto_verified", JBool (lp_all_xyz_homed_before_auto_verified p));
    ("no_force_homing_disabled_verified", JBool (lp_no_force_homing_disabled_verified p));
    ("run_from_line_disabled_verified", JBool (lp_run_from_line_disabled_verified p));
    ("full_restart_after_abort_required", JBool (lp_full_restart_after_abort_required p));
    ("real_spindle_feedback_verified", JBool (lp_real_spindle_feedback_verified p));
    ("spindle_at_speed_motion_interlock_verified", JBool (lp_spindle_at_speed_motion_interlock_verified p));
    ("continuous_spindle_speed_feed_inhibit_verified", JBool (lp_continuous_spindle_speed_feed_inhibit_verified p));
    ("vfd_fault_motion_inhibit_verified", JBool (lp_vfd_fault_motion_inhibit_verified p));
    ("vfd_fault_spindle_stop_verified", JBool (lp_vfd_fault_spindle_stop_verified p));
    ("m3_clockwise_spindle_verified", JBool (lp_m3_clockwise_spindle_verified p));
    ("g4_p_seconds_dwell_verified", JBool (lp_g4_p_seconds_dwell_verified p));
    ("schema_version", JStr (lp_schema_version p))].

Definition config_sha256 : string := content_hash profile_json.

Definition profile_work_width_um : Z := lp_machine_x_max_um p - lp_machine_x_min_um p.
Definition profile_work_height_um : Z := lp_machine_y_max_um p - lp_machine_y_min_um p.
Definition profile_work_z_um : Z := lp_machine_z_max_um p - lp_machine_z_min_um p.
End Profile.
#[global] Arguments config_sha256 : simpl never.

(** ** Programs *)

Record ProductionMachineProgram := mkMachineProgram {
  pm_filename : string;
  pm_program_id : string;
  pm_run_order : Z;
  pm_setup_id : string;
  pm_tool_id : string;
  pm_controller : string;
  pm_controller_version : string;
  pm_postprocessor_id : string;
  pm_postprocessor_version : string;
  pm_source_toolpaths_sha256 : string;
  pm_production_machine_profile_sha256 : string;
  pm_content : string;
  pm_mode : string;
  pm_machine_executable : bool;
  pm_physical_cutting_authorized : bool;
  pm_workshop_acceptance_required : bool }.

(** [text.endswith(suffix)] *)
Definition ends_with (suffix text : string) : bool := is_some (after_prefix (rev (chars suffix)) (rev (chars text))).
Definition starts_with (prefix text : string) : bool := is_some (after_prefix (chars prefix) (chars text)).

Definition new_ProductionMachineProgram (g : ProductionMachineProgram) : result ProductionMachineProgram :=
  check_all (fun lv => value_error_if (negb (is_canonical_id (snd lv))) (fst lv +:+ " must be a canonical identity"))
    [("program_id", pm_program_id g); ("setup_id", pm_setup_id g); ("tool_id", pm_tool_id g);
     ("controller", pm_controller g); ("controller_version", pm_controller_version g);
     ("postprocessor_id", pm_postprocessor_id g); ("postprocessor_version", pm_postprocessor_version g)];;
  value_error_if (bool_decide (pm_filename g = "") || bool_decide ("/"%char ∈ chars (pm_filename g)) ||
                  bool_decide ("\"%char ∈ chars (pm_filename g)) || bool_decide (pm_filename g ∈ ["."; ".."]) ||
                  negb (ends_with ".production.ngc" (pm_filename g)))
    "production program filename is not canonical";;
  value_error_if (pm_run_order g <? 1) "production program run_order must be a positive integer";;
  value_error_if (negb (starts_with (zero_padded_Z 3 (pm_run_order g) +:+ ".") (pm_filename g)))
    "production program filename must bind its run_order ordinal";;
  value_error_if (negb (design_hash_ok (pm_source_toolpaths_sha256 g)))
    "production program requires the exact toolpath-document hash";;
  value_error_if (negb (design_hash_ok (pm_production_machine_profile_sha256 g)))
    "production program requires the exact machine-profile config hash";;
  value_error_if (bool_decide (pm_content g = "")) "production program content must be non-empty bytes";;
  value_error_if (negb (bool_decide (pm_mode g = EXECUTABLE_CAM_CANDIDATE_MODE)))
    "production program must remain an executable CAM candidate";;
  value_error_if (negb (pm_machine_executable g)) "production candidate must truthfully identify executable motion";;
  value_error_if (pm_physical_cutting_authorized g) "a postprocessor cannot authorize physical cutting";;
  value_error_if (negb (pm_workshop_acceptance_required g)) "workshop acceptance cannot be bypassed";;
  Ok g.
