(* ===== verification/ProductionParser.v ===== *)
(** * Production programs: parser and safety validator

    [postprocessors/src/custombuild_postprocessors/production_parser.py]: the
    lexical form, the comments, the executable structure, the motion and the
    modal state of an executable program, each compared with the immutable plan
    it was written from.  Numbers are read as Python's [Decimal], with the
    precision of its default context where the code computes with them. *)

From S2P Require Import Prelude Text GCode Identity ManufacturingModel Machining CamValidation ProductionModel ProductionProfile.

(** ** Decimal arithmetic in the default context

    A result of more than 28 digits is rounded, half to even. *)

Definition CONTEXT_LIMIT : N := 10 ^ 28.

Definition round_coefficient (c : N) : N :=
  if (c <? CONTEXT_LIMIT)%N then c
  else
    let unit := (10 ^ N.of_nat (String.length (pretty c) - 28))%N in
    let q := (c / unit)%N in
    let r := (c mod unit)%N in
    ((if (unit <? 2 * r) || ((unit =? 2 * r) && N.odd q) then q + 1 else q) * unit)%N.

Definition dec_round (d : Decimal) : Decimal :=
  mkDecimal (dec_negative d) (round_coefficient (dec_coefficient d)) (dec_places d).

(** [value * 1_000] *)
Definition dec_thousand (d : Decimal) : Decimal :=
  dec_round (mkDecimal (dec_negative d) (1000 * dec_coefficient d) (dec_places d)).

(** [Decimal(value) / Decimal(1_000)] *)
Definition thousandth (value : Z) : Decimal := dec_round (mkDecimal (value <? 0) (Z.to_N (Z.abs value)) 3).

Definition um_as_mm (value_um : Z) : Decimal := thousandth value_um.
Definition ms_as_seconds (value_ms : Z) : Decimal := thousandth value_ms.

(** ** Constants *)

Definition PRODUCTION_GCODE_PARSER_VERSION : string := "linuxcnc-production-parser-1.3.1".
Definition PRODUCTION_GCODE_SAFETY_VALIDATOR_VERSION : string := "linuxcnc-production-safety-1.3.1".
Definition LINUXCNC_FILE_MAX_LINE_BYTES : nat := 252.
Definition PRODUCTION_CANDIDATE_POLICY_MARKER : string :=
  "(CUSTOMBUILD_MACHINE_PROGRAM_MODE=EXECUTABLE_CAM_CANDIDATE)".
Definition PHYSICAL_AUTHORIZATION_MARKER : string := "(PHYSICAL_CUTTING_AUTHORIZED=FALSE)".
Definition WORKSHOP_ACCEPTANCE_MARKER : string := "(WORKSHOP_ACCEPTANCE_REQUIRED=TRUE)".
Definition PRODUCTION_TITLE : string := "(CUSTOMBUILD LINUXCNC 3-AXIS PRODUCTION CANDIDATE)".

(** 92.1 *)
Definition g921 : Decimal := dec_tenths 921.

Definition ALLOWED_G : list Decimal :=
  map dec_int [0; 1; 4; 8; 17; 21; 40; 43; 49; 53; 54; 55; 56; 57; 58; 59; 61; 80; 90] ++
  [g921; dec_int 94; dec_int 97].
Definition ALLOWED_M : list Decimal := map dec_int [2; 3; 5; 6; 9; 49; 52; 53].
Definition ALLOWED_LETTERS : list ascii := ["F"; "G"; "H"; "M"; "P"; "S"; "T"; "X"; "Y"; "Z"]%char.

Definition word_signature : Type := list (ascii * Decimal).
Definition p_word (n : Z) : ascii * Decimal := ("P"%char, dec_int n).

Definition MODAL_PREAMBLE : list word_signature :=
  [[g 21]; [g 8]; [g 17; g 40; g 49; g 80; g 90; g 94; g 97]; [g 61]; [m 5]; [m 9]; [m 49];
   [m 52; p_word 0]; [m 53; p_word 1]; [("G"%char, g921)]].

Definition STATIC_COMMENTS : list string :=
  [PRODUCTION_TITLE; PRODUCTION_CANDIDATE_POLICY_MARKER; PHYSICAL_AUTHORIZATION_MARKER; WORKSHOP_ACCEPTANCE_MARKER].

(** The alternatives of [_DYNAMIC_COMMENT]. *)
Definition COMMENT_KEYS : list string :=
  ["DESIGN_HASH"; "TOOLPATH_DOCUMENT_SHA256"; "MACHINE_PROFILE"; "MACHINE_PROFILE_SHA256";
   "LINUXCNC_PRODUCTION_PROFILE"; "LINUXCNC_RUNTIME_CONTRACT_SHA256"; "LINUXCNC_PRODUCTION_PROFILE_SHA256";
   "POSTPROCESSOR"; "PRODUCTION_PARSER"; "PRODUCTION_SAFETY_VALIDATOR"; "PROGRAM_ID"; "RUN_ORDER"; "SETUP_ID";
   "STOCK_ID"; "SHEET_INDEX"; "SETUP_SIDE"; "SOURCE_MATERIAL_ID"; "SOURCE_MATERIAL_VERSION"; "ACTUAL_MATERIAL_ID";
   "ACTUAL_MATERIAL_VERSION"; "MATERIAL_EVIDENCE_ID"; "MATERIAL_EVIDENCE_VERSION"; "MATERIAL_EVIDENCE_SHA256";
   "STOCK_THICKNESS_UM"; "SETUP_WCS"; "WCS_MACHINE_ORIGIN_X_UM"; "WCS_MACHINE_ORIGIN_Y_UM";
   "WCS_MACHINE_ORIGIN_Z_UM"; "WCS_MACHINE_XY_ROTATION_MDEG"; "REFERENCE_SURFACE"; "SAFE_Z_UM";
   "PROGRAM_ENTRY_MACHINE_X_UM"; "PROGRAM_ENTRY_MACHINE_Y_UM"; "G53_TOOL_CHANGE_PATH";
   "G53_TOOL_CHANGE_CLEARANCE_EVIDENCE_SHA256"; "WCS_OFFSETS_EVIDENCE_SHA256"; "G52_G92_OFFSET_RESET_POLICY";
   "G52_G92_OFFSET_RESET_EVIDENCE_SHA256"; "FEED_SPINDLE_OVERRIDE_POLICY";
   "FEED_SPINDLE_OVERRIDE_EVIDENCE_SHA256"; "EXTERNAL_AXIS_OFFSET_POLICY";
   "EXTERNAL_AXIS_OFFSET_EVIDENCE_SHA256"; "HOMING_PREFLIGHT_POLICY"; "HOMING_PREFLIGHT_EVIDENCE_SHA256";
   "PROGRAM_RESTART_POLICY"; "PROGRAM_RESTART_EVIDENCE_SHA256"; "M6_TOOL_TABLE_POLICY";
   "M6_TOOL_TABLE_EVIDENCE_SHA256"; "M6_WCS_TABLE_POLICY"; "M6_WCS_TABLE_EVIDENCE_SHA256";
   "METRIC_XYZ_IDENTITY_KINEMATICS_POLICY"; "METRIC_XYZ_IDENTITY_KINEMATICS_EVIDENCE_SHA256";
   "EXACTLY_THREE_JOINTS_VERIFIED"; "SPINDLE_AT_SPEED_POLICY"; "SPINDLE_FEEDBACK_SOURCE";
   "SPINDLE_AT_SPEED_TOLERANCE_PPM"; "SPINDLE_AT_SPEED_EVIDENCE_SHA256";
   "CONTINUOUS_SPINDLE_SPEED_INTERLOCK_POLICY"; "CONTINUOUS_SPINDLE_SPEED_INTERLOCK_EVIDENCE_SHA256";
   "SPINDLE_DWELL_ROLE"; "FIXTURE"; "FIXTURE_SHA256"; "TOOL_ID"; "CONTROLLER_TOOL_NUMBER";
   "LENGTH_OFFSET_NUMBER"; "EXPECTED_LENGTH_OFFSET_X_UM"; "EXPECTED_LENGTH_OFFSET_Y_UM";
   "EXPECTED_LENGTH_OFFSET_Z_UM"; "TOOL_TABLE_EVIDENCE_SHA256"; "OPERATION_ID"].

Definition comment_value_char (c : ascii) : bool :=
  is_alnum c || bool_decide (c ∈ ["."; "_"; ":"; "@"; "+"; "-"]%char).

Definition matches_comment_of (rest : list ascii) (key : string) : bool :=
  match after_prefix (chars (key +:+ "=")) rest with
  | Some value_close =>
      match rev value_close with
      | close :: value => bool_decide (close = ")"%char) && nonempty value && forallb comment_value_char value
      | [] => false
      end
  | None => false
  end.

(** [_DYNAMIC_COMMENT.fullmatch(line)] *)
Definition dynamic_comment (line : list ascii) : bool :=
  match line with
  | c :: rest => bool_decide (c = "("%char) && existsb (matches_comment_of rest) COMMENT_KEYS
  | [] => false
  end.

Record ParsedProductionMove := mkParsedMove {
  pv_line_number : Z;
  pv_kind : ProductionMoveKind;
  pv_x_um : Z;
  pv_y_um : Z;
  pv_z_um : Z;
  pv_feed_um_min : option Z }.

Record ParsedProductionProgram := mkParsedProgram {
  pr_lines : list ParsedLine;
  pr_moves : list ParsedProductionMove;
  pr_wcs : string;
  pr_controller_tool_number : Z;
  pr_length_offset_number : Z;
  pr_spindle_rpm : Z;
  pr_spindle_spinup_ms : Z;
  pr_production_machine_profile_sha256 : string;
  pr_physical_cutting_authorized : bool }.

Definition unsafe_if (cond : bool) (message : string) : result unit := raise_if cond (GCodeSafetyError message).

(** ** Text *)

Definition ascii_text (payload : string) : result (list ascii) :=
  let text := chars payload in
  raise_if (negb (forallb is_ascii text)) (GCodeParseError "production machine program must be ASCII");;
  Ok text.

(** The checks of one line. *)
Definition require_canonical_line (numbered_line : Z * list ascii) : result unit :=
  let '(line_number, line) := numbered_line in
  unsafe_if (bool_decide (LINUXCNC_FILE_MAX_LINE_BYTES < length line)%nat)
    (at_line "production program command exceeds LinuxCNC file line limit at line " line_number);;
  unsafe_if (bool_decide (";"%char ∈ line)) "semicolon comments are forbidden in production output";;
  if bool_decide ("("%char ∈ line) || bool_decide (")"%char ∈ line) then
    unsafe_if (bool_decide (line ∉ map chars STATIC_COMMENTS) && negb (dynamic_comment line))
      "production program contains a non-canonical comment"
  else unsafe_if (negb (bool_decide (line = map upper_char line)))
         "production executable words must use canonical uppercase".

Definition require_canonical_lexical_form (text : list ascii) : result unit :=
  unsafe_if (bool_decide (ascii_of_N 13 ∈ text) || negb (bool_decide (last text = Some newline)))
    "production program must use LF lines and one terminal newline";;
  unsafe_if (existsb (fun c => negb (bool_decide (c = newline)) && negb (printable c)) text)
    "production program requires printable ASCII and LF separators";;
  let lines := split_lines (take (length text - 1) text) in
  unsafe_if (existsb (fun line => bool_decide (line = []) || negb (bool_decide (line = strip_chars line))) lines)
    "production program contains blank or padded lines";;
  check_all require_canonical_line (numbered lines).

(** [line.strip() for line in text.splitlines() if line.strip()] *)
Definition nonblank_lines (text : list ascii) : list (list ascii) :=
  filter (fun line => line <> []) (map strip_chars (splitlines text)).

Definition require_percent_envelope (text : list ascii) : result unit :=
  let nonblank := nonblank_lines text in
  let percent_indices :=
    map fst (filter (fun il : Z * list ascii => snd il = ["%"%char]) (zip (seqZ 0 (Z.of_nat (length nonblank))) nonblank)) in
  unsafe_if (bool_decide (length nonblank < 2)%nat ||
             negb (bool_decide (head nonblank = Some ["%"%char])) ||
             negb (bool_decide (last nonblank = Some ["%"%char])) ||
             negb (bool_decide (percent_indices = [0; Z.of_nat (length nonblank) - 1])))
    "production program requires one canonical percent envelope".

Definition require_marker (text : list ascii) (marker : string) : result unit :=
  unsafe_if (negb (bool_decide
      (length (filter (fun line => strip_chars line = chars marker) (splitlines text)) = 1%nat)))
    ("production program requires exactly one " +:+ marker).

Definition forbidden (word : GCodeWord) (line_number : Z) : py_error :=
  GCodeSafetyError (of_chars [w_letter word] +:+ dec_str (w_value word)
                    +:+ at_line " is forbidden in production output at line " line_number).

Definition require_whitelisted_line (line : ParsedLine) : result unit :=
  let words := ln_words line in
  let letters := remove_dups (map w_letter words) in
  let unknown := filter (fun c => c ∉ ALLOWED_LETTERS) letters in
  unsafe_if (nonempty unknown)
    ("word(s) " +:+ str_join ", " (map (fun c => of_chars [c]) (sort_by char_cmp unknown))
     +:+ at_line " are forbidden in production output at line " (ln_number line));;
  check_all (fun w =>
    raise_if (bool_decide (w_letter w = "G"%char) && negb (dec_in (w_value w) ALLOWED_G)) (forbidden w (ln_number line));;
    raise_if (bool_decide (w_letter w = "M"%char) && negb (dec_in (w_value w) ALLOWED_M)) (forbidden w (ln_number line)))
    words;;
  unsafe_if (existsb (fun c => negb (bool_decide (c = "G"%char)) &&
                               negb (bool_decide (length (values_of c words) = 1%nat))) letters)
    (at_line "duplicate word at line " (ln_number line)).

Definition require_whitelisted_words (lines : list ParsedLine) : result unit := check_all require_whitelisted_line lines.

Definition parse_production_program (payload : string) : result (list ParsedLine) :=
  text ← ascii_text payload;
  require_canonical_lexical_form text;;
  require_percent_envelope text;;
  check_all (require_marker text)
    [PRODUCTION_CANDIDATE_POLICY_MARKER; PHYSICAL_AUTHORIZATION_MARKER; WORKSHOP_ACCEPTANCE_MARKER];;
  parsed ← parse_gcode payload;
  unsafe_if (negb (nonempty (pp_lines parsed))) "production program contains no executable lines";;
  require_whitelisted_words (pp_lines parsed);;
  Ok (pp_lines parsed).

Definition word_um (words : list GCodeWord) (letter : ascii) (line_number : Z) : result Z :=
  match values_of letter words with
  | [value] =>
      let scaled := dec_thousand value in
      unsafe_if (negb (dec_signed scaled mod dec_scale scaled =? 0))
        (of_chars [letter] +:+ at_line " cannot be represented as integer micrometres at line " line_number);;
      Ok (dec_trunc scaled)
  | _ => Err (GCodeSafetyError ("motion requires one " +:+ of_chars [letter] +:+ at_line " word at line " line_number))
  end.
Arguments word_um words (letter)%_char_scope line_number.

(** ** The identity header *)

Section Header.
Context (d : ProductionToolpathDocument) (p : ProductionProgram) (mp : LinuxCNCProductionMachineProfile).
Context (s : BoundSetup) (t : ProductionToolBinding).

Definition comment (key value : string) : string := "(" +:+ key +:+ "=" +:+ value +:+ ")".
Definition comment_um (key : string) (value : Z) : string := comment key (str_of_Z value).

Definition entry_machine_x_um (first : ProductionMove) : Z :=
  p2_x_um (bs_machine_wcs_origin s) + mv_x_um first + tb_expected_length_offset_x_um t.
Definition entry_machine_y_um (first : ProductionMove) : Z :=
  p2_y_um (bs_machine_wcs_origin s) + mv_y_um first + tb_expected_length_offset_y_um t.

Definition expected_header (first : ProductionMove) : list string :=
  let c := pt_execution_context d in
  ["%";
   PRODUCTION_TITLE;
   PRODUCTION_CANDIDATE_POLICY_MARKER;
   PHYSICAL_AUTHORIZATION_MARKER;
   WORKSHOP_ACCEPTANCE_MARKER;
   comment "DESIGN_HASH" (pt_design_hash d);
   comment "TOOLPATH_DOCUMENT_SHA256" (toolpaths_fingerprint d);
   comment "MACHINE_PROFILE" (pe_machine_profile_id c +:+ "@" +:+ pe_machine_profile_version c);
   comment "MACHINE_PROFILE_SHA256" (pt_machine_profile_fingerprint d);
   comment "LINUXCNC_PRODUCTION_PROFILE" (lp_profile_id mp +:+ "@" +:+ lp_version mp);
   comment "LINUXCNC_PRODUCTION_PROFILE_SHA256" (config_sha256 mp);
   comment "LINUXCNC_RUNTIME_CONTRACT_SHA256" (runtime_contract_sha256 (lp_runtime_contract mp));
   comment "POSTPROCESSOR" (LINUXCNC_PRODUCTION_POSTPROCESSOR_ID +:+ "@" +:+ LINUXCNC_PRODUCTION_POSTPROCESSOR_VERSION);
   comment "PRODUCTION_PARSER" PRODUCTION_GCODE_PARSER_VERSION;
   comment "PRODUCTION_SAFETY_VALIDATOR" PRODUCTION_GCODE_SAFETY_VALIDATOR_VERSION;
   comment "PROGRAM_ID" (pg_program_id p);
   comment_um "RUN_ORDER" (pg_run_order p);
   comment "SETUP_ID" (pg_setup_id p);
   comment "STOCK_ID" (bs_stock_id s);
   comment_um "SHEET_INDEX" (bs_sheet_index s);
   comment "SETUP_SIDE" (side_value (bs_side s));
   comment "SOURCE_MATERIAL_ID" (bs_source_material_id s);
   comment "SOURCE_MATERIAL_VERSION" (bs_source_material_version s);
   comment "ACTUAL_MATERIAL_ID" (bs_material_id s);
   comment "ACTUAL_MATERIAL_VERSION" (bs_material_version s);
   comment "MATERIAL_EVIDENCE_ID" (bs_material_evidence_id s);
   comment "MATERIAL_EVIDENCE_VERSION" (bs_material_evidence_version s);
   comment "MATERIAL_EVIDENCE_SHA256" (bs_material_evidence_sha256 s);
   comment_um "STOCK_THICKNESS_UM" (bs_stock_thickness_um s);
   comment "SETUP_WCS" (bs_wcs s);
   comment_um "WCS_MACHINE_ORIGIN_X_UM" (p2_x_um (bs_machine_wcs_origin s));
   comment_um "WCS_MACHINE_ORIGIN_Y_UM" (p2_y_um (bs_machine_wcs_origin s));
   comment_um "WCS_MACHINE_ORIGIN_Z_UM" (bs_machine_wcs_z0_um s);
   comment_um "WCS_MACHINE_XY_ROTATION_MDEG" (bs_machine_wcs_xy_rotation_mdeg s);
   comment "REFERENCE_SURFACE" (bs_reference_surface s);
   comment_um "SAFE_Z_UM" (bs_safe_z_um s);
   comment_um "PROGRAM_ENTRY_MACHINE_X_UM" (entry_machine_x_um first);
   comment_um "PROGRAM_ENTRY_MACHINE_Y_UM" (entry_machine_y_um first);
   comment "G53_TOOL_CHANGE_PATH" (lp_g53_tool_change_path mp);
   comment "G53_TOOL_CHANGE_CLEARANCE_EVIDENCE_SHA256" (lp_g53_tool_change_path_clearance_evidence_sha256 mp);
   comment "WCS_OFFSETS_EVIDENCE_SHA256" (lp_wcs_offsets_evidence_sha256 mp);
   comment "G52_G92_OFFSET_RESET_POLICY" (lp_g52_g92_offset_reset_policy mp);
   comment "G52_G92_OFFSET_RESET_EVIDENCE_SHA256" (lp_g52_g92_offset_reset_evidence_sha256 mp);
   comment "FEED_SPINDLE_OVERRIDE_POLICY" (lp_feed_spindle_override_policy mp);
   comment "FEED_SPINDLE_OVERRIDE_EVIDENCE_SHA256" (lp_feed_spindle_override_evidence_sha256 mp);
   comment "EXTERNAL_AXIS_OFFSET_POLICY" (lp_external_axis_offset_policy mp);
   comment "EXTERNAL_AXIS_OFFSET_EVIDENCE_SHA256" (lp_external_axis_offset_evidence_sha256 mp);
   comment "HOMING_PREFLIGHT_POLICY" (lp_homing_preflight_policy mp);
   comment "HOMING_PREFLIGHT_EVIDENCE_SHA256" (lp_homing_preflight_evidence_sha256 mp);
   comment "PROGRAM_RESTART_POLICY" (lp_program_restart_policy mp);
   comment "PROGRAM_RESTART_EVIDENCE_SHA256" (lp_program_restart_evidence_sha256 mp);
   comment "M6_TOOL_TABLE_POLICY" (lp_m6_tool_table_policy mp);
   comment "M6_TOOL_TABLE_EVIDENCE_SHA256" (lp_m6_tool_table_evidence_sha256 mp);
   comment "M6_WCS_TABLE_POLICY" (lp_m6_wcs_table_policy mp);
   comment "M6_WCS_TABLE_EVIDENCE_SHA256" (lp_m6_wcs_table_evidence_sha256 mp);
   comment "METRIC_XYZ_IDENTITY_KINEMATICS_POLICY" (lp_metric_xyz_identity_kinematics_policy mp);
   comment "METRIC_XYZ_IDENTITY_KINEMATICS_EVIDENCE_SHA256" (lp_metric_xyz_identity_kinematics_evidence_sha256 mp);
   comment "EXACTLY_THREE_JOINTS_VERIFIED" "TRUE";
   comment "SPINDLE_AT_SPEED_POLICY" (lp_spindle_at_speed_policy mp);
   comment "SPINDLE_FEEDBACK_SOURCE" (lp_spindle_feedback_source mp);
   comment_um "SPINDLE_AT_SPEED_TOLERANCE_PPM" (lp_spindle_at_speed_tolerance_ppm mp);
   comment "SPINDLE_AT_SPEED_EVIDENCE_SHA256" (lp_spindle_at_speed_evidence_sha256 mp);
   comment "CONTINUOUS_SPINDLE_SPEED_INTERLOCK_POLICY" (lp_continuous_spindle_speed_interlock_policy mp);
   comment "CONTINUOUS_SPINDLE_SPEED_INTERLOCK_EVIDENCE_SHA256"
     (lp_continuous_spindle_speed_interlock_evidence_sha256 mp);
   comment "SPINDLE_DWELL_ROLE" SPINDLE_DWELL_ROLE;
   comment "FIXTURE" (bs_fixture_id s +:+ "@" +:+ bs_fixture_version s);
   comment "FIXTURE_SHA256" (bs_fixture_sha256 s);
   comment "TOOL_ID" (pg_tool_id p +:+ "@" +:+ pg_tool_version p);
   comment_um "CONTROLLER_TOOL_NUMBER" (tb_controller_tool_number t);
   comment_um "LENGTH_OFFSET_NUMBER" (tb_length_offset_number t);
   comment_um "EXPECTED_LENGTH_OFFSET_X_UM" (tb_expected_length_offset_x_um t);
   comment_um "EXPECTED_LENGTH_OFFSET_Y_UM" (tb_expected_length_offset_y_um t);
   comment_um "EXPECTED_LENGTH_OFFSET_Z_UM" (tb_expected_length_offset_z_um t);
   comment "TOOL_TABLE_EVIDENCE_SHA256" (tb_tool_table_evidence_sha256 t)].

(** The operations in the order their moves begin; [previous] is the operation
    of the move before. *)
Fixpoint operation_sequence (previous : string) (moves : list ProductionMove) : list string :=
  match moves with
  | [] => []
  | mv :: rest =>
      if negb (bool_decide (mv_operation_id mv = previous))
      then mv_operation_id mv :: operation_sequence (mv_operation_id mv) rest
      else operation_sequence previous rest
  end.

Definition is_comment_line (line : list ascii) : bool := is_some (after_prefix (chars "(") line).

Definition require_identity_header (text : list ascii) (first : ProductionMove) : result unit :=
  let expected := map chars (expected_header first) in
  let nonblank := nonblank_lines text in
  unsafe_if (negb (bool_decide (take (length expected) nonblank = expected)))
    "production program identity header does not match its toolpath plan";;
  let expected_operation_comments :=
    map (fun id => chars (comment "OPERATION_ID" id)) (operation_sequence "" (pg_moves p)) in
  unsafe_if (negb (bool_decide (List.filter is_comment_line nonblank = tail expected ++ expected_operation_comments)))
    "production program comments do not exactly match its immutable plan".

(** [line.removeprefix("(OPERATION_ID=").removesuffix(")")] of a line with the prefix. *)
Definition operation_of_comment (line : list ascii) : option (list ascii) :=
  match after_prefix (chars "(OPERATION_ID=") line with
  | Some rest => Some (match rev rest with c :: r => if bool_decide (c = ")"%char) then rev r else rest | [] => rest end)
  | None => None
  end.

Definition require_operation_comment_sequence (text : list ascii) : result unit :=
  unsafe_if (negb (bool_decide (omap operation_of_comment (splitlines text)
                                = map chars (operation_sequence "" (pg_moves p)))))
    "operation comments do not match immutable move order".
End Header.

(** ** The executable structure *)

Section Structure.
Context (p : ProductionProgram) (mp : LinuxCNCProductionMachineProfile) (s : BoundSetup) (t : ProductionToolBinding).
Context (spindle_rpm : Z).

(** [Decimal(setup.wcs.removeprefix("G"))] *)
Definition setup_wcs_number : result Z :=
  match parse_required_wcs (bs_wcs s) with Ok n => Ok n | Err _ => Err (ValueError "invalid decimal") end.

Definition g53_z (z_um : Z) : word_signature := [g 53; g 0; ("Z"%char, um_as_mm z_um)].
Definition g53_xy (x_um y_um : Z) : word_signature :=
  [g 53; g 0; ("X"%char, um_as_mm x_um); ("Y"%char, um_as_mm y_um)].
Definition g0_safe_z : word_signature := [g 0; ("Z"%char, um_as_mm (bs_safe_z_um s))].

Definition expected_preamble (wcs_number : Z) (first : ProductionMove) : list word_signature :=
  MODAL_PREAMBLE ++
  [g53_z (lp_tool_change_z_um mp);
   g53_xy (lp_tool_change_x_um mp) (lp_tool_change_y_um mp);
   [("T"%char, dec_int (tb_controller_tool_number t)); m 6]] ++
  MODAL_PREAMBLE ++
  [g53_z (lp_tool_change_z_um mp);
   g53_xy (entry_machine_x_um s t first) (entry_machine_y_um s t first);
   [g 43; ("H"%char, dec_int (tb_length_offset_number t))];
   [g wcs_number];
   g0_safe_z;
   [("S"%char, dec_int spindle_rpm); m 3];
   [g 4; ("P"%char, ms_as_seconds (lp_spindle_spinup_ms mp))]].

Definition expected_trailer : list word_signature :=
  [g0_safe_z; [m 5]; [m 9]; [g 49]; g53_z (lp_tool_change_z_um mp); [m 2]].

(** [_require_bound_preamble]: the messages of the single lines. *)
Definition preamble_messages : list (nat * string) :=
  [(10%nat, "wrong outbound G53 tool-change Z position");
   (11%nat, "wrong G53 tool-change XY position");
   (12%nat, "wrong T/M6 tool selection; required T" +:+ str_of_Z (tb_controller_tool_number t));
   (23%nat, "wrong post-M6 G53 return Z position");
   (24%nat, "wrong post-M6 G53 program-entry XY position");
   (25%nat, "wrong G43 H length offset; required H" +:+ str_of_Z (tb_length_offset_number t));
   (26%nat, "unexpected WCS; required " +:+ bs_wcs s);
   (27%nat, "setup safe Z must be established after G43");
   (28%nat, "wrong spindle command; required S" +:+ str_of_Z spindle_rpm +:+ " M3");
   (29%nat, "wrong spindle spin-up dwell; required " +:+ str_of_Z (lp_spindle_spinup_ms mp) +:+ " ms")].

Definition signature_at (i : nat) (l : list word_signature) : word_signature := default [] (l !! i).

Definition require_bound_preamble (actual expected : list word_signature) : result unit :=
  unsafe_if (negb (bool_decide (length actual = length expected))) "production program safety preamble is incomplete";;
  unsafe_if (negb (signatures_eqb (take 10 actual) MODAL_PREAMBLE))
    "production program modal safety preamble is not canonical";;
  unsafe_if (negb (signatures_eqb (take 10 (drop 13 actual)) MODAL_PREAMBLE))
    "post-M6 canonical state reassertion is incomplete";;
  check_all (fun im => unsafe_if (negb (list_eqb word_eqb (signature_at (fst im) actual) (signature_at (fst im) expected)))
                         (snd im)) preamble_messages.
End Structure.

(** ** Motion *)

Definition letters_of (kind : ProductionMoveKind) : list ascii :=
  ["G"; "X"; "Y"; "Z"]%char ++ match kind with LINEAR => ["F"%char] | RAPID => [] end.

Definition motion_number (kind : ProductionMoveKind) : Z := match kind with RAPID => 0 | LINEAR => 1 end.

Section Motion.
Context (c : ProductionExecutionContext) (mp : LinuxCNCProductionMachineProfile) (s : BoundSetup) (t : ProductionToolBinding).

(** What the line says, against the shape the planned move requires. *)
Definition read_motion (line : ParsedLine) (expected : ProductionMove) : result ParsedProductionMove :=
  let n := ln_number line in
  let words := ln_words line in
  unsafe_if (negb (py_set_eq (map w_letter words) (letters_of (mv_kind expected))))
    (at_line "motion has non-canonical words at line " n);;
  unsafe_if (negb (list_eqb dec_eqb (values_of "G" words) [dec_int (motion_number (mv_kind expected))]))
    (at_line "motion mode differs from plan at line " n);;
  x_um ← word_um words "X" n;
  y_um ← word_um words "Y" n;
  z_um ← word_um words "Z" n;
  feed_um_min ← (match mv_kind expected with
                 | LINEAR => feed ← word_um words "F" n; Ok (Some feed)
                 | RAPID => Ok None
                 end);
  Ok (mkParsedMove n (mv_kind expected) x_um y_um z_um feed_um_min).

Definition check_setup_bounds (v : ParsedProductionMove) : result unit :=
  let n := pv_line_number v in
  unsafe_if (negb ((0 <=? pv_x_um v) && (pv_x_um v <=? bs_stock_width_um s)) ||
             negb ((0 <=? pv_y_um v) && (pv_y_um v <=? bs_stock_height_um s)))
    (at_line "motion leaves setup XY bounds at line " n);;
  unsafe_if ((bs_safe_z_um s <? pv_z_um v) || (pv_z_um v <? - (bs_stock_thickness_um s + bs_through_cut_allowance_um s)))
    (at_line "motion leaves setup Z bounds at line " n);;
  unsafe_if (pe_work_z_um c <? bs_safe_z_um s + Z.max 0 (- pv_z_um v))
    (at_line "motion exceeds machine Z travel at line " n).

Definition check_machine_bounds (v : ParsedProductionMove) : result unit :=
  let n := pv_line_number v in
  let machine_x_um := p2_x_um (bs_machine_wcs_origin s) + pv_x_um v + tb_expected_length_offset_x_um t in
  let machine_y_um := p2_y_um (bs_machine_wcs_origin s) + pv_y_um v + tb_expected_length_offset_y_um t in
  let machine_z_um := bs_machine_wcs_z0_um s + pv_z_um v + tb_expected_length_offset_z_um t in
  unsafe_if (negb ((lp_machine_x_min_um mp <=? machine_x_um) && (machine_x_um <=? lp_machine_x_max_um mp) &&
                   (lp_machine_y_min_um mp <=? machine_y_um) && (machine_y_um <=? lp_machine_y_max_um mp)))
    (at_line "motion leaves G43-transformed machine XY bounds at line " n);;
  unsafe_if (negb ((lp_machine_z_min_um mp <=? machine_z_um) && (machine_z_um <=? lp_machine_z_max_um mp)))
    (at_line "motion leaves G43-transformed machine Z bounds at line " n).

(** [previous] is the end of the move before. *)
Definition check_travel (previous : Z * Z * Z) (v : ParsedProductionMove) (role : ProductionMoveRole) : result unit :=
  let n := pv_line_number v in
  let '(previous_x_um, previous_y_um, previous_z_um) := previous in
  let xy_changes := negb (pv_x_um v =? previous_x_um) || negb (pv_y_um v =? previous_y_um) in
  match pv_kind v with
  | RAPID =>
      unsafe_if (pv_z_um v <? 0) (at_line "rapid motion below stock top at line " n);;
      unsafe_if (xy_changes && ((previous_z_um <? bs_safe_z_um s) || (pv_z_um v <? bs_safe_z_um s)))
        (at_line "rapid XY motion below safe Z at line " n);;
      unsafe_if ((pv_z_um v <? bs_safe_z_um s) && negb (bool_decide (role ∈ [APPROACH; PECK_RETRACT])))
        (at_line "rapid below safe Z is not an explicit approach at line " n);;
      unsafe_if (bool_decide (role = RETRACT) && negb (pv_z_um v =? bs_safe_z_um s))
        (at_line "rapid retract must reach safe Z at line " n)
  | LINEAR =>
      unsafe_if (match pv_feed_um_min v with Some feed => feed <=? 0 | None => true end)
        (at_line "feed motion lacks a positive feed at line " n)
  end.

Definition check_motion_line (previous : Z * Z * Z) (line : ParsedLine) (expected : ProductionMove)
    : result ParsedProductionMove :=
  v ← read_motion line expected;
  check_setup_bounds v;;
  check_machine_bounds v;;
  check_travel previous v (mv_role expected);;
  unsafe_if (negb (bool_decide ((pv_x_um v, pv_y_um v, pv_z_um v, pv_feed_um_min v)
                                = (mv_x_um expected, mv_y_um expected, mv_z_um expected, mv_feed_um_min expected))))
    (at_line "motion differs from immutable plan at line " (ln_number line));;
  Ok v.

(** The loop over [zip(body_lines, program.moves, strict=True)]. *)
Fixpoint round_trip_moves (previous : Z * Z * Z) (lines : list ParsedLine) (moves : list ProductionMove)
    : result (list ParsedProductionMove) :=
  match lines, moves with
  | [], [] => Ok []
  | line :: lines', expected :: moves' =>
      v ← check_motion_line previous line expected;
      output ← round_trip_moves (pv_x_um v, pv_y_um v, pv_z_um v) lines' moves';
      Ok (v :: output)
  | _, _ => Err (ValueError "zip() arguments differ in length")
  end.

Definition starts_at_safe_z (first : ProductionMove) : bool :=
  bool_decide (mv_kind first = RAPID) && bool_decide (mv_role first = POSITION) && (mv_z_um first =? bs_safe_z_um s).

Definition validate_and_round_trip_moves (body_lines : list ParsedLine) (p : ProductionProgram)
    : result (list ParsedProductionMove) :=
  first ← of_option (head (pg_moves p)) (IndexError "tuple index out of range");
  unsafe_if (negb (starts_at_safe_z first)) "the first planned move must position at the established setup safe Z";;
  round_trip_moves (0, 0, bs_safe_z_um s) body_lines (pg_moves p).
End Motion.

(** ** Modal state *)

(** The variables of [_validate_modal_execution]. *)
Record modal_state := mkModal {
  spindle_on : bool;
  tool_loaded : bool;
  length_compensation : bool;
  spindle_spinup_complete : bool;
  g52_g92_offsets_cleared : bool;
  coolant_off : bool;
  feed_and_spindle_overrides_disabled : bool;
  adaptive_feed_disabled : bool;
  feed_hold_enabled : bool;
  rpm_mode : bool;
  radius_mode : bool;
  post_m6_clearance_z_reasserted : bool;
  program_entry_reached_at_clearance : bool;
  current_wcs_z_um : option Z;
  current_machine_x_um : option Z;
  current_machine_y_um : option Z;
  current_machine_z_um : option Z }.

Definition start_modal : modal_state :=
  mkModal false false false false false false false false false false false false false None None None None.

(** [words.get(letter) == [Decimal(value)]] and [Decimal(value) in words.get(letter, [])] *)
Definition only (letter : ascii) (value : Z) (words : list GCodeWord) : bool :=
  list_eqb dec_eqb (values_of letter words) [dec_int value].
Definition among (letter : ascii) (value : Decimal) (words : list GCodeWord) : bool :=
  dec_in value (values_of letter words).
Arguments only (letter)%_char_scope value words.
Arguments among (letter)%_char_scope value words.

Definition has_letter (letter : ascii) (words : list GCodeWord) : bool := nonempty (values_of letter words).
Arguments has_letter (letter)%_char_scope words.

Section Modal.
Context (mp : LinuxCNCProductionMachineProfile) (safe_z_um entry_x_um entry_y_um : Z).

Definition runtime_modes_ready (st : modal_state) : bool :=
  g52_g92_offsets_cleared st && coolant_off st && feed_and_spindle_overrides_disabled st &&
  adaptive_feed_disabled st && feed_hold_enabled st && rpm_mode st && radius_mode st.

(** The preflight commands of a line and the check of motion before them. *)
Definition modal_preflight (line : ParsedLine) (st : modal_state) : result modal_state :=
  let words := ln_words line in
  let clears := among "G" g921 words in
  unsafe_if (clears && has_axis words) "G92.1 offset reset cannot contain axis words";;
  let st := mkModal (spindle_on st) (tool_loaded st) (length_compensation st) (spindle_spinup_complete st)
              (g52_g92_offsets_cleared st || clears) (coolant_off st) (feed_and_spindle_overrides_disabled st)
              (adaptive_feed_disabled st) (feed_hold_enabled st) (rpm_mode st || among "G" (dec_int 97) words)
              (radius_mode st || among "G" (dec_int 8) words) (post_m6_clearance_z_reasserted st)
              (program_entry_reached_at_clearance st) (current_wcs_z_um st) (current_machine_x_um st)
              (current_machine_y_um st) (current_machine_z_um st) in
  unsafe_if (has_axis words && negb (runtime_modes_ready st))
    (at_line "motion precedes the canonical live-state preflight at line " (ln_number line));;
  Ok st.

Definition with_positions (st : modal_state) (reasserted reached : bool) (wcs_z x y z : option Z) : modal_state :=
  mkModal (spindle_on st) (tool_loaded st) (length_compensation st) (spindle_spinup_complete st)
    (g52_g92_offsets_cleared st) (coolant_off st) (feed_and_spindle_overrides_disabled st)
    (adaptive_feed_disabled st) (feed_hold_enabled st) (rpm_mode st) (radius_mode st) reasserted reached wcs_z x y z.

(** [word_um] of a letter if the line has it, else what was known before. *)
Definition updated_um (words : list GCodeWord) (letter : ascii) (n : Z) (before : option Z) : result (option Z) :=
  if has_letter letter words then v ← word_um words letter n; Ok (Some v) else Ok before.

(** The positions after a line, in machine coordinates (G53) or in the setup's. *)
Definition modal_positions (line : ParsedLine) (st : modal_state) : result modal_state :=
  let words := ln_words line in
  let n := ln_number line in
  if among "G" (dec_int 53) words then
    x ← updated_um words "X" n (current_machine_x_um st);
    y ← updated_um words "Y" n (current_machine_y_um st);
    z ← updated_um words "Z" n (current_machine_z_um st);
    let reasserted := post_m6_clearance_z_reasserted st ||
                      (has_letter "Z" words && tool_loaded st && bool_decide (z = Some (lp_tool_change_z_um mp))) in
    reached ←
      (if tool_loaded st && (has_letter "X" words || has_letter "Y" words) then
         unsafe_if (negb reasserted || negb (bool_decide (z = Some (lp_tool_change_z_um mp))))
           "post-M6 G53 XY return requires reasserted global clearance Z";;
         Ok (bool_decide (x = Some entry_x_um) && bool_decide (y = Some entry_y_um))
       else Ok (program_entry_reached_at_clearance st));
    Ok (with_positions st reasserted reached (current_wcs_z_um st) x y z)
  else
    z ← updated_um words "Z" n (current_wcs_z_um st);
    Ok (with_positions st (post_m6_clearance_z_reasserted st) (program_entry_reached_at_clearance st) z
          (current_machine_x_um st) (current_machine_y_um st) (current_machine_z_um st)).

(** M5, M9, M49, M52 P0 and M53 P1. *)
Definition modal_switches (words : list GCodeWord) (st : modal_state) : modal_state :=
  mkModal (spindle_on st && negb (only "M" 5 words)) (tool_loaded st) (length_compensation st)
    (spindle_spinup_complete st) (g52_g92_offsets_cleared st) (coolant_off st || only "M" 9 words)
    (feed_and_spindle_overrides_disabled st || only "M" 49 words)
    (adaptive_feed_disabled st || only "M" 52 words && only "P" 0 words)
    (feed_hold_enabled st || only "M" 53 words && only "P" 1 words) (rpm_mode st) (radius_mode st)
    (post_m6_clearance_z_reasserted st) (program_entry_reached_at_clearance st) (current_wcs_z_um st)
    (current_machine_x_um st) (current_machine_y_um st) (current_machine_z_um st).

Definition at_tool_change_position (st : modal_state) : bool :=
  bool_decide (current_machine_x_um st = Some (lp_tool_change_x_um mp)) &&
  bool_decide (current_machine_y_um st = Some (lp_tool_change_y_um mp)) &&
  bool_decide (current_machine_z_um st = Some (lp_tool_change_z_um mp)).

(** M6: everything but the position must be established again. *)
Definition modal_tool_change (words : list GCodeWord) (st : modal_state) : result modal_state :=
  if among "M" (dec_int 6) words then
    unsafe_if (spindle_on st || negb (coolant_off st) || length_compensation st || negb (at_tool_change_position st))
      "M6 requires spindle/coolant off, G49 and the exact G53 tool-change position";;
    Ok (mkModal false true false false false false false false false false false
          (post_m6_clearance_z_reasserted st) (program_entry_reached_at_clearance st) None
          (current_machine_x_um st) (current_machine_y_um st) (current_machine_z_um st))
  else Ok st.

(** G43 and G49 *)
Definition modal_length (words : list GCodeWord) (st : modal_state) : result modal_state :=
  let set compensated := mkModal (spindle_on st) (tool_loaded st) compensated (spindle_spinup_complete st)
    (g52_g92_offsets_cleared st) (coolant_off st) (feed_and_spindle_overrides_disabled st)
    (adaptive_feed_disabled st) (feed_hold_enabled st) (rpm_mode st) (radius_mode st)
    (post_m6_clearance_z_reasserted st) (program_entry_reached_at_clearance st) (current_wcs_z_um st)
    (current_machine_x_um st) (current_machine_y_um st) (current_machine_z_um st) in
  let engages := among "G" (dec_int 43) words in
  unsafe_if (engages && (negb (tool_loaded st) || negb (program_entry_reached_at_clearance st) ||
                         negb (bool_decide (current_machine_z_um st = Some (lp_tool_change_z_um mp)))))
    "G43 requires the exact tool at the G53 program entry and clearance Z";;
  Ok (set ((length_compensation st || engages) && negb (among "G" (dec_int 49) words))).

Definition with_spindle (st : modal_state) (on spun_up : bool) : modal_state :=
  mkModal on (tool_loaded st) (length_compensation st) spun_up (g52_g92_offsets_cleared st) (coolant_off st)
    (feed_and_spindle_overrides_disabled st) (adaptive_feed_disabled st) (feed_hold_enabled st) (rpm_mode st)
    (radius_mode st) (post_m6_clearance_z_reasserted st) (program_entry_reached_at_clearance st)
    (current_wcs_z_um st) (current_machine_x_um st) (current_machine_y_um st) (current_machine_z_um st).

(** M3 *)
Definition modal_spindle (words : list GCodeWord) (st : modal_state) : result modal_state :=
  if among "M" (dec_int 3) words then
    unsafe_if (negb (tool_loaded st) || negb (length_compensation st) ||
               negb (match values_of "S" words with [speed] => dec_ltb (dec_int 0) speed | _ => false end) ||
               negb (bool_decide (current_wcs_z_um st = Some safe_z_um)) ||
               negb (feed_and_spindle_overrides_disabled st) || negb (adaptive_feed_disabled st) ||
               negb (feed_hold_enabled st) || negb (rpm_mode st))
      "M3 requires loaded tool, G43 H, setup safe Z and positive S";;
    Ok (with_spindle st true false)
  else Ok st.

(** G4 *)
Definition modal_dwell (words : list GCodeWord) (st : modal_state) : result modal_state :=
  if among "G" (dec_int 4) words then
    unsafe_if (negb (spindle_on st)) "G4 spindle dwell requires spindle on";;
    Ok (with_spindle st (spindle_on st) true)
  else Ok st.

Definition modal_line (body_numbers : list Z) (st : modal_state) (line : ParsedLine) : result modal_state :=
  let words := ln_words line in
  let n := ln_number line in
  st ← modal_preflight line st;
  st ← modal_positions line st;
  st ← modal_tool_change words (modal_switches words st);
  st ← modal_length words st;
  st ← modal_spindle words st;
  st ← modal_dwell words st;
  (if bool_decide (n ∈ body_numbers) then
     unsafe_if (negb (spindle_on st) || negb (spindle_spinup_complete st))
       (at_line "planned motion requires completed spindle spin-up at line " n);;
     unsafe_if (match current_wcs_z_um st with Some z => z <? 0 | None => false end && negb (spindle_on st))
       (at_line "negative Z requires spindle on at line " n)
   else Ok ());;
  Ok st.

Definition validate_modal_execution (lines body_lines : list ParsedLine) : result unit :=
  st ← foldM (modal_line (map ln_number body_lines)) start_modal lines;
  unsafe_if (negb (g52_g92_offsets_cleared st)) "production program did not clear live G52/G92 offsets".
End Modal.

(** ** The validator *)

Definition binding_error : py_error :=
  GCodeSafetyError "LinuxCNC production machine profile does not exactly match the toolpath context".

Definition require_machine_profile_binding (mp : LinuxCNCProductionMachineProfile) (c : ProductionExecutionContext)
    : result unit :=
  raise_if (negb (bool_decide
      ((lp_machine_profile_id mp, lp_machine_profile_version mp, lp_controller_id mp, lp_controller_version mp)
       = (pe_machine_profile_id c, pe_machine_profile_version c, pe_controller_id c, pe_controller_version c))))
    binding_error;;
  unsafe_if (negb (bool_decide
      ((profile_work_width_um mp, profile_work_height_um mp, profile_work_z_um mp)
       = (pe_work_width_um c, pe_work_height_um c, pe_work_z_um c))))
    "LinuxCNC machine-axis bounds do not match the toolpath work envelope";;
  unsafe_if (negb (bool_decide
      ((lp_machine_x_min_um mp, lp_machine_x_max_um mp, lp_machine_y_min_um mp, lp_machine_y_max_um mp,
        lp_machine_z_min_um mp, lp_machine_z_max_um mp)
       = (pe_machine_x_min_um c, pe_machine_x_max_um c, pe_machine_y_min_um c, pe_machine_y_max_um c,
          pe_machine_z_min_um c, pe_machine_z_max_um c))))
    "LinuxCNC absolute machine-axis bounds do not match the toolpath context".

(** The raw offset row of a setup's coordinate system. *)
Definition offset_row (o : LinuxCNCWCSOffset) : Z * Z * Z * Z :=
  (wo_machine_x0_um o, wo_machine_y0_um o, wo_machine_z0_um o, wo_machine_xy_rotation_mdeg o).
Definition setup_row (s : BoundSetup) : Z * Z * Z * Z :=
  (p2_x_um (bs_machine_wcs_origin s), p2_y_um (bs_machine_wcs_origin s), bs_machine_wcs_z0_um s,
   bs_machine_wcs_xy_rotation_mdeg s).

Definition safe_machine_z_um (s : BoundSetup) (t : ProductionToolBinding) : Z :=
  bs_machine_wcs_z0_um s + bs_safe_z_um s + tb_expected_length_offset_z_um t.

Definition check_footprint (mp : LinuxCNCProductionMachineProfile) (s : BoundSetup) (t : ProductionToolBinding) : bool :=
  let x0 := p2_x_um (bs_machine_wcs_origin s) in
  let y0 := p2_y_um (bs_machine_wcs_origin s) in
  let dx := tb_expected_length_offset_x_um t in
  let dy := tb_expected_length_offset_y_um t in
  (lp_machine_x_min_um mp <=? x0 + dx) && (x0 + dx <=? x0 + bs_stock_width_um s + dx) &&
  (x0 + bs_stock_width_um s + dx <=? lp_machine_x_max_um mp) &&
  ((lp_machine_y_min_um mp <=? y0 + dy) && (y0 + dy <=? y0 + bs_stock_height_um s + dy) &&
   (y0 + bs_stock_height_um s + dy <=? lp_machine_y_max_um mp)).

(** [(value,) = values] or the error *)
Definition the_only {A} (values : list A) (message : string) : result A :=
  match values with [x] => Ok x | _ => Err (GCodeSafetyError message) end.

Section Validator.
Context (payload : string) (d : ProductionToolpathDocument) (p : ProductionProgram) (mp : LinuxCNCProductionMachineProfile).
Local Notation c := (pt_execution_context d).

(** The setup, the tool and the offset row of the program. *)
Definition require_setup_binding : result (BoundSetup * ProductionToolBinding) :=
  let setups := filter (fun s => bs_setup_id s = pg_setup_id p) (pe_setups c) in
  let tools := filter (fun t => tb_tool_id t = pg_tool_id p) (pe_tool_bindings c) in
  s ← the_only setups "production program setup or tool binding is not unique";
  t ← the_only tools "production program setup or tool binding is not unique";
  unsafe_if (bool_decide (bs_wcs s ∉ lp_supported_wcs mp))
    ("setup WCS " +:+ bs_wcs s +:+ " is not attested by the production machine profile");;
  offset ← the_only (filter (fun o => wo_wcs o = bs_wcs s) (lp_wcs_offsets mp))
             "setup WCS has no unique attested machine-coordinate offset";
  unsafe_if (negb (bool_decide (offset_row offset = setup_row s)))
    "setup WCS differs from its attested machine-coordinate offset";;
  unsafe_if (negb (check_footprint mp s t))
    "G43-transformed setup WCS stock footprint leaves machine-coordinate bounds";;
  unsafe_if (negb ((lp_machine_z_min_um mp <=? safe_machine_z_um s t) && (safe_machine_z_um s t <=? lp_machine_z_max_um mp)))
    "G43-transformed setup safe Z leaves machine-coordinate bounds";;
  unsafe_if (lp_tool_change_z_um mp <? safe_machine_z_um s t) "G53 tool-change traverse is below the setup safe plane";;
  unsafe_if (negb (bool_decide (tb_tool_version t = pg_tool_version p)))
    "production program tool version differs from its binding";;
  Ok (s, t).

Definition recipe_agrees (s : BoundSetup) (r : CuttingRecipe) : bool :=
  bool_decide ((cr_tool_id r, cr_tool_version r, cr_material_id r, cr_material_version r)
               = (pg_tool_id p, pg_tool_version p, bs_material_id s, bs_material_version s)).

Definition one_speed (recipes : list CuttingRecipe) : result Z :=
  the_only (remove_dups (map cr_spindle_rpm recipes))
    "one setup/tool program requires one exact spindle speed across its recipes".

(** The spindle speed the recipes of the program agree on. *)
Definition require_recipes (s : BoundSetup) : result Z :=
  recipes ← traverse (fun i => of_option (dict_of cr_recipe_id (pe_recipes c) !! i)
                        (GCodeSafetyError "production program references an unknown cutting recipe")) (pg_recipe_ids p);
  unsafe_if (negb (forallb (recipe_agrees s) recipes)) "production program recipe binding is inconsistent";;
  spindle_rpm ← one_speed recipes;
  let allowed_feeds := concat (map (fun r => [cr_feed_um_min r; cr_plunge_um_min r]) recipes) in
  check_all (fun mv =>
    unsafe_if (bool_decide (mv_kind mv = LINEAR) && negb (bool_decide (mv_feed_um_min mv ∈ map Some allowed_feeds)))
      "planned feed is absent from the bound cutting recipes") (pg_moves p);;
  Ok spindle_rpm.

Definition validate_production_program : result ParsedProductionProgram :=
  unsafe_if (bool_decide (p ∉ pt_programs d)) "planned program is absent from the toolpath document";;
  require_machine_profile_binding mp c;;
  unsafe_if (negb (rt_min_forward_velocity_rpm (lp_runtime_contract mp) =? pe_min_spindle_rpm c) ||
             negb (rt_max_forward_velocity_rpm (lp_runtime_contract mp) =? pe_max_spindle_rpm c))
    "runtime spindle clamps differ from bound machine limits";;
  st ← require_setup_binding;
  let '(s, t) := st in
  spindle_rpm ← require_recipes s;
  text ← ascii_text payload;
  lines ← parse_production_program payload;
  first ← of_option (head (pg_moves p)) (IndexError "tuple index out of range");
  require_identity_header d p mp s t text first;;
  require_operation_comment_sequence p text;;
  wcs_number ← setup_wcs_number s;
  unsafe_if (negb ((lp_machine_x_min_um mp <=? entry_machine_x_um s t first) &&
                   (entry_machine_x_um s t first <=? lp_machine_x_max_um mp) &&
                   (lp_machine_y_min_um mp <=? entry_machine_y_um s t first) &&
                   (entry_machine_y_um s t first <=? lp_machine_y_max_um mp)))
    "program-entry G53 XY leaves absolute machine bounds";;
  let signatures := map signature lines in
  let preamble := expected_preamble mp s t spindle_rpm wcs_number first in
  let trailer := expected_trailer mp s in
  unsafe_if (negb (bool_decide (length signatures = length preamble + length (pg_moves p) + length trailer)%nat))
    "production program executable structure has unexpected lines";;
  require_bound_preamble mp s t spindle_rpm (take (length preamble) signatures) preamble;;
  unsafe_if (negb (signatures_eqb (drop (length signatures - length trailer) signatures) trailer))
    "production program safety trailer is not canonical";;
  let body_lines := take (length lines - length trailer - length preamble) (drop (length preamble) lines) in
  moves ← validate_and_round_trip_moves c mp s t body_lines p;
  validate_modal_execution mp (bs_safe_z_um s) (entry_machine_x_um s t first) (entry_machine_y_um s t first)
    lines body_lines;;
  Ok (mkParsedProgram lines moves (bs_wcs s) (tb_controller_tool_number t) (tb_length_offset_number t) spindle_rpm
        (lp_spindle_spinup_ms mp) (config_sha256 mp) false).
End Validator.
