(* ===== verification/ProductionPost.v ===== *)
(** * The production postprocessor

    [postprocessors/src/custombuild_postprocessors/linuxcnc_production.py]: an
    executable LinuxCNC program for every program of a toolpath document, bound
    to an attested machine.  Each text is validated before it is returned. *)

From S2P Require Import Prelude Text GCode GCodeText DryRun Identity ManufacturingModel Machining CamValidation ProductionModel ProductionProfile ProductionParser.

Definition CANONICAL_STATE_LINES : list string :=
  ["G21"; "G8"; "G17 G40 G49 G80 G90 G94 G97"; "G61"; "M5"; "M9"; "M49"; "M52 P0"; "M53 P1"; "G92.1"].

Definition controller : string := "LinuxCNC".
Definition postprocessor_id : string := LINUXCNC_PRODUCTION_POSTPROCESSOR_ID.
Definition version : string := LINUXCNC_PRODUCTION_POSTPROCESSOR_VERSION.

(** ** Numbers and names *)

(** [f"{value:.3f}"] of a number of thousandths, in the precision of the context. *)
Definition three_decimals (value : Z) : string :=
  let rounded := round_coefficient (Z.to_N (Z.abs value)) in
  (if value <? 0 then "-" else "") +:+ pretty (rounded / 1000)%N +:+ "." +:+ zero_padded 3 (rounded mod 1000)%N.

Definition format_mm (value_um : Z) : string := three_decimals value_um.

Definition format_seconds (value_ms : Z) : result string :=
  unsafe_if (value_ms <=? 0) "LinuxCNC dwell must be positive integer milliseconds";;
  Ok (three_decimals value_ms).

Definition sha256_text (value : string) : string := hex_bytes (Sha256.digest (byte_list value)).
#[global] Arguments sha256_text : simpl never.

Definition cleaned_component (value : string) : list ascii :=
  match rev (drop_dots (rev (drop_dots (replace_runs false (chars value))))) with
  | [] => chars "program"
  | l => l
  end.

Definition safe_filename_component (value : string) : string :=
  let cleaned := cleaned_component value in
  if bool_decide (cleaned = chars value) && bool_decide (length cleaned <= 64)%nat then of_chars cleaned
  else of_chars (take 48 cleaned) +:+ "-" +:+ of_chars (take 8 (chars (sha256_text value))).

Definition program_filename (p : ProductionProgram) : string :=
  zero_padded_Z 3 (pg_run_order p) +:+ "." +:+ safe_filename_component (pg_setup_id p) +:+ "."
  +:+ safe_filename_component (pg_tool_id p) +:+ ".production.ngc".

(** ** Lines *)

Definition move_line (mv : ProductionMove) : result string :=
  let prefix := match mv_kind mv with RAPID => "G0" | LINEAR => "G1" end in
  let line := prefix +:+ " X" +:+ format_mm (mv_x_um mv) +:+ " Y" +:+ format_mm (mv_y_um mv)
              +:+ " Z" +:+ format_mm (mv_z_um mv) in
  match mv_kind mv with
  | RAPID => Ok line
  | LINEAR =>
      feed_um_min ← of_option (mv_feed_um_min mv) (GCodeSafetyError "linear production move has no integer feed");
      Ok (line +:+ " F" +:+ format_mm feed_um_min)
  end.

(** The lines of the moves; [previous] is the operation of the move before. *)
Fixpoint move_lines (previous : string) (moves : list ProductionMove) : result (list string) :=
  match moves with
  | [] => Ok []
  | mv :: rest =>
      line ← move_line mv;
      lines ← move_lines (mv_operation_id mv) rest;
      Ok ((if bool_decide (mv_operation_id mv = previous) then []
           else [comment "OPERATION_ID" (safe_comment (mv_operation_id mv))]) ++ line :: lines)
  end.

Section Program.
Context (mp : LinuxCNCProductionMachineProfile) (d : ProductionToolpathDocument).
Context (p : ProductionProgram) (s : BoundSetup) (t : ProductionToolBinding).

Definition header (entry_x_um entry_y_um : Z) : list string :=
  let c := pt_execution_context d in
  ["%";
   PRODUCTION_TITLE;
   PRODUCTION_CANDIDATE_POLICY_MARKER;
   PHYSICAL_AUTHORIZATION_MARKER;
   WORKSHOP_ACCEPTANCE_MARKER;
   comment "DESIGN_HASH" (pt_design_hash d);
   comment "TOOLPATH_DOCUMENT_SHA256" (toolpaths_fingerprint d);
   comment "MACHINE_PROFILE" (pe_machine_profile_id c +:+ "@" +:+ pe_machine_profile_version c);
   comment "MACHINE_PROFILE_SHA256" (pt_machine_profile_fingerprint d);
   comment "LINUXCNC_PRODUCTION_PROFILE" (lp_profile_id mp +:+ "@" +:+ lp_version mp);
   comment "LINUXCNC_PRODUCTION_PROFILE_SHA256" (config_sha256 mp);
   comment "LINUXCNC_RUNTIME_CONTRACT_SHA256" (runtime_contract_sha256 (lp_runtime_contract mp));
   comment "POSTPROCESSOR" (postprocessor_id +:+ "@" +:+ version);
   comment "PRODUCTION_PARSER" PRODUCTION_GCODE_PARSER_VERSION;
   comment "PRODUCTION_SAFETY_VALIDATOR" PRODUCTION_GCODE_SAFETY_VALIDATOR_VERSION;
   comment "PROGRAM_ID" (safe_comment (pg_program_id p));
   comment_um "RUN_ORDER" (pg_run_order p);
   comment "SETUP_ID" (safe_comment (pg_setup_id p));
   comment "STOCK_ID" (safe_comment (bs_stock_id s));
   comment_um "SHEET_INDEX" (bs_sheet_index s);
   comment "SETUP_SIDE" (side_value (bs_side s));
   comment "SOURCE_MATERIAL_ID" (safe_comment (bs_source_material_id s));
   comment "SOURCE_MATERIAL_VERSION" (safe_comment (bs_source_material_version s));
   comment "ACTUAL_MATERIAL_ID" (safe_comment (bs_material_id s));
   comment "ACTUAL_MATERIAL_VERSION" (safe_comment (bs_material_version s));
   comment "MATERIAL_EVIDENCE_ID" (safe_comment (bs_material_evidence_id s));
   comment "MATERIAL_EVIDENCE_VERSION" (safe_comment (bs_material_evidence_version s));
   comment "MATERIAL_EVIDENCE_SHA256" (bs_material_evidence_sha256 s);
   comment_um "STOCK_THICKNESS_UM" (bs_stock_thickness_um s);
   comment "SETUP_WCS" (bs_wcs s);
   comment_um "WCS_MACHINE_ORIGIN_X_UM" (p2_x_um (bs_machine_wcs_origin s));
   comment_um "WCS_MACHINE_ORIGIN_Y_UM" (p2_y_um (bs_machine_wcs_origin s));
   comment_um "WCS_MACHINE_ORIGIN_Z_UM" (bs_machine_wcs_z0_um s);
   comment_um "WCS_MACHINE_XY_ROTATION_MDEG" (bs_machine_wcs_xy_rotation_mdeg s);
   comment "REFERENCE_SURFACE" (bs_reference_surface s);
   comment_um "SAFE_Z_UM" (bs_safe_z_um s);
   comment_um "PROGRAM_ENTRY_MACHINE_X_UM" entry_x_um;
   comment_um "PROGRAM_ENTRY_MACHINE_Y_UM" entry_y_um;
   comment "G53_TOOL_CHANGE_PATH" (lp_g53_tool_change_path mp);
   comment "G53_TOOL_CHANGE_CLEARANCE_EVIDENCE_SHA256" (lp_g53_tool_change_path_clearance_evidence_sha256 mp);
   comment "WCS_OFFSETS_EVIDENCE_SHA256" (lp_wcs_offsets_evidence_sha256 mp);
   comment "G52_G92_OFFSET_RESET_POLICY" (lp_g52_g92_offset_reset_policy mp);
   comment "G52_G92_OFFSET_RESET_EVIDENCE_SHA256" (lp_g52_g92_offset_reset_evidence_sha256 mp);
   comment "FEED_SPINDLE_OVERRIDE_POLICY" (lp_feed_spindle_override_policy mp);
   comment "FEED_SPINDLE_OVERRIDE_EVIDENCE_SHA256" (lp_feed_spindle_override_evidence_sha256 mp);
   comment "EXTERNAL_AXIS_OFFSET_POLICY" (lp_external_axis_offset_policy mp);
   comment "EXTERNAL_AXIS_OFFSET_EVIDENCE_SHA256" (lp_external_axis_offset_evidence_sha256 mp);
   comment "HOMING_PREFLIGHT_POLICY" (lp_homing_preflight_policy mp);
   comment "HOMING_PREFLIGHT_EVIDENCE_SHA256" (lp_homing_preflight_evidence_sha256 mp);
   comment "PROGRAM_RESTART_POLICY" (lp_program_restart_policy mp);
   comment "PROGRAM_RESTART_EVIDENCE_SHA256" (lp_program_restart_evidence_sha256 mp);
   comment "M6_TOOL_TABLE_POLICY" (lp_m6_tool_table_policy mp);
   comment "M6_TOOL_TABLE_EVIDENCE_SHA256" (lp_m6_tool_table_evidence_sha256 mp);
   comment "M6_WCS_TABLE_POLICY" (lp_m6_wcs_table_policy mp);
   comment "M6_WCS_TABLE_EVIDENCE_SHA256" (lp_m6_wcs_table_evidence_sha256 mp);
   comment "METRIC_XYZ_IDENTITY_KINEMATICS_POLICY" (lp_metric_xyz_identity_kinematics_policy mp);
   comment "METRIC_XYZ_IDENTITY_KINEMATICS_EVIDENCE_SHA256" (lp_metric_xyz_identity_kinematics_evidence_sha256 mp);
   comment "EXACTLY_THREE_JOINTS_VERIFIED" "TRUE";
   comment "SPINDLE_AT_SPEED_POLICY" (lp_spindle_at_speed_policy mp);
   comment "SPINDLE_FEEDBACK_SOURCE" (lp_spindle_feedback_source mp);
   comment_um "SPINDLE_AT_SPEED_TOLERANCE_PPM" (lp_spindle_at_speed_tolerance_ppm mp);
   comment "SPINDLE_AT_SPEED_EVIDENCE_SHA256" (lp_spindle_at_speed_evidence_sha256 mp);
   comment "CONTINUOUS_SPINDLE_SPEED_INTERLOCK_POLICY" (lp_continuous_spindle_speed_interlock_policy mp);
   comment "CONTINUOUS_SPINDLE_SPEED_INTERLOCK_EVIDENCE_SHA256"
     (lp_continuous_spindle_speed_interlock_evidence_sha256 mp);
   comment "SPINDLE_DWELL_ROLE" SPINDLE_DWELL_ROLE;
   comment "FIXTURE" (bs_fixture_id s +:+ "@" +:+ bs_fixture_version s);
   comment "FIXTURE_SHA256" (bs_fixture_sha256 s);
   comment "TOOL_ID" (safe_comment (pg_tool_id p) +:+ "@" +:+ safe_comment (pg_tool_version p));
   comment_um "CONTROLLER_TOOL_NUMBER" (tb_controller_tool_number t);
   comment_um "LENGTH_OFFSET_NUMBER" (tb_length_offset_number t);
   comment_um "EXPECTED_LENGTH_OFFSET_X_UM" (tb_expected_length_offset_x_um t);
   comment_um "EXPECTED_LENGTH_OFFSET_Y_UM" (tb_expected_length_offset_y_um t);
   comment_um "EXPECTED_LENGTH_OFFSET_Z_UM" (tb_expected_length_offset_z_um t);
   comment "TOOL_TABLE_EVIDENCE_SHA256" (tb_tool_table_evidence_sha256 t)].

Definition g53_z_line : string := "G53 G0 Z" +:+ format_mm (lp_tool_change_z_um mp).
Definition safe_z_line : string := "G0 Z" +:+ format_mm (bs_safe_z_um s).
Definition g53_xy_line (x_um y_um : Z) : string := "G53 G0 X" +:+ format_mm x_um +:+ " Y" +:+ format_mm y_um.

(** The executable lines before the moves. *)
Definition opening (entry_x_um entry_y_um spindle_rpm : Z) (dwell : string) : list string :=
  CANONICAL_STATE_LINES ++
  [g53_z_line;
   g53_xy_line (lp_tool_change_x_um mp) (lp_tool_change_y_um mp);
   "T" +:+ str_of_Z (tb_controller_tool_number t) +:+ " M6"] ++
  CANONICAL_STATE_LINES ++
  [g53_z_line;
   g53_xy_line entry_x_um entry_y_um;
   "G43 H" +:+ str_of_Z (tb_length_offset_number t);
   bs_wcs s;
   safe_z_line;
   "S" +:+ str_of_Z spindle_rpm +:+ " M3";
   "G4 P" +:+ dwell].

Definition closing : list string := [safe_z_line; "M5"; "M9"; "G49"; g53_z_line; "M2"; "%"].

Definition program_lines (entry_x_um entry_y_um spindle_rpm : Z) : result (list string) :=
  dwell ← format_seconds (lp_spindle_spinup_ms mp);
  body ← move_lines "" (pg_moves p);
  Ok (header entry_x_um entry_y_um ++ opening entry_x_um entry_y_um spindle_rpm dwell ++ body ++ closing).
End Program.

(** ** The machine and the setup *)

Definition require_exact_setup_offset_and_clearance (mp : LinuxCNCProductionMachineProfile) (s : BoundSetup)
    (t : ProductionToolBinding) : result unit :=
  offset ← the_only (filter (fun o => wo_wcs o = bs_wcs s) (lp_wcs_offsets mp))
             ("setup WCS " +:+ bs_wcs s +:+ " has no unique attested machine-coordinate offset");
  unsafe_if (negb (bool_decide (offset_row offset = setup_row s)))
    ("setup WCS " +:+ bs_wcs s +:+ " differs from its attested machine-coordinate offset");;
  unsafe_if (negb ((lp_machine_z_min_um mp <=? safe_machine_z_um s t) && (safe_machine_z_um s t <=? lp_machine_z_max_um mp)))
    "G43-transformed setup safe Z leaves machine bounds";;
  unsafe_if (lp_tool_change_z_um mp <? safe_machine_z_um s t)
    "attested G53 tool-change traverse is below the setup safe plane".

Definition require_program_entry (mp : LinuxCNCProductionMachineProfile) (s : BoundSetup) (p : ProductionProgram)
    (t : ProductionToolBinding) : result (Z * Z) :=
  first ← of_option (head (pg_moves p)) (GCodeSafetyError "production program has no bound entry move");
  unsafe_if (negb (starts_at_safe_z s first)) "the first planned move must position at the established setup safe Z";;
  unsafe_if (negb ((lp_machine_x_min_um mp <=? entry_machine_x_um s t first) &&
                   (entry_machine_x_um s t first <=? lp_machine_x_max_um mp) &&
                   (lp_machine_y_min_um mp <=? entry_machine_y_um s t first) &&
                   (entry_machine_y_um s t first <=? lp_machine_y_max_um mp)))
    "program-entry G53 XY leaves absolute machine bounds";;
  Ok (entry_machine_x_um s t first, entry_machine_y_um s t first).

Definition profile_binding (mp : LinuxCNCProductionMachineProfile) : list string * list Z :=
  ([lp_machine_profile_id mp; lp_machine_profile_version mp; lp_controller_id mp; lp_controller_version mp],
   [rt_min_forward_velocity_rpm (lp_runtime_contract mp); rt_max_forward_velocity_rpm (lp_runtime_contract mp)]).
Definition context_binding (c : ProductionExecutionContext) : list string * list Z :=
  ([pe_machine_profile_id c; pe_machine_profile_version c; pe_controller_id c; pe_controller_version c],
   [pe_min_spindle_rpm c; pe_max_spindle_rpm c]).
Definition profile_bounds (mp : LinuxCNCProductionMachineProfile) : list Z :=
  [lp_machine_x_min_um mp; lp_machine_x_max_um mp; lp_machine_y_min_um mp; lp_machine_y_max_um mp;
   lp_machine_z_min_um mp; lp_machine_z_max_um mp].
Definition context_bounds (c : ProductionExecutionContext) : list Z :=
  [pe_machine_x_min_um c; pe_machine_x_max_um c; pe_machine_y_min_um c; pe_machine_y_max_um c;
   pe_machine_z_min_um c; pe_machine_z_max_um c].

(** ** [LinuxCNCProductionPostprocessor.generate] *)

Section Generate.
Context (mp : LinuxCNCProductionMachineProfile) (d : ProductionToolpathDocument).
Local Notation c := (pt_execution_context d).

Definition unresolved : py_error :=
  GCodeSafetyError "production program references an unresolved setup, tool or recipe".

(** The text of a program, before it is validated. *)
Definition program_text (p : ProductionProgram) : result string :=
  s ← of_option (dict_of bs_setup_id (pe_setups c) !! pg_setup_id p) unresolved;
  t ← of_option (dict_of tb_tool_id (pe_tool_bindings c) !! pg_tool_id p) unresolved;
  recipes ← traverse (fun i => of_option (dict_of cr_recipe_id (pe_recipes c) !! i) unresolved) (pg_recipe_ids p);
  spindle_rpm ← one_speed recipes;
  unsafe_if (bool_decide (bs_wcs s ∉ lp_supported_wcs mp))
    ("setup WCS " +:+ bs_wcs s +:+ " is not attested by the production machine profile");;
  require_exact_setup_offset_and_clearance mp s t;;
  entry ← require_program_entry mp s p t;
  lines ← program_lines mp d p s t (fst entry) (snd entry) spindle_rpm;
  encode_lines lines.

Definition machine_program (p : ProductionProgram) (content : string) : ProductionMachineProgram :=
  mkMachineProgram (program_filename p) (pg_program_id p) (pg_run_order p) (pg_setup_id p) (pg_tool_id p)
    (pe_controller_id c) (pe_controller_version c) postprocessor_id version (toolpaths_fingerprint d)
    (config_sha256 mp) content EXECUTABLE_CAM_CANDIDATE_MODE true false true.

(** One pass of the loop; the file names so far are those of the programs. *)
Definition generate_one (output : list ProductionMachineProgram) (p : ProductionProgram)
    : result (list ProductionMachineProgram) :=
  content ← program_text p;
  unsafe_if (bool_decide (program_filename p ∈ map pm_filename output)) "production program filenames are not unique";;
  validate_production_program content d p mp;;
  program ← new_ProductionMachineProgram (machine_program p content);
  Ok (output ++ [program]).

Definition generate_production : result (list ProductionMachineProgram) :=
  unsafe_if (negb (bool_decide (casefold (pe_controller_id c) = casefold controller)))
    "LinuxCNC production postprocessor requires an exact LinuxCNC controller binding";;
  raise_if (negb (bool_decide (profile_binding mp = context_binding c)) ||
            negb (bool_decide (profile_bounds mp = context_bounds c))) binding_error;;
  unsafe_if (negb (distinct (map bs_setup_id (pe_setups c))) || negb (distinct (map tb_tool_id (pe_tool_bindings c))))
    "production context contains duplicate setup or tool bindings";;
  output ← foldM generate_one [] (pt_programs d);
  unsafe_if (negb (bool_decide (map pm_run_order output = seqZ 1 (Z.of_nat (length output)))))
    "production programs are not in canonical run order";;
  Ok output.
End Generate.
