(* ===== verification/ProductionMachine.v ===== *)
(** * What a LinuxCNC controller does with a program

    An abstract controller for executable programs, from which their safety is
    stated.  It starts in any state.  A line is executed in the controller's
    order: the registers, a tool change, the modal codes, a dwell, the motion.
    The implementation of M6 may be remapped: after it every register but the
    tool is arbitrary.  Numbers are exact, in millimetres; [event]s are what
    happens on the machine, each with the registers at that moment. *)

From Stdlib Require Import QArith.
From S2P Require Import Prelude GCode.

#[local] Open Scope Z_scope.

(** ** Codes *)

(** The value of a decimal, in lowest terms. *)
Definition dec_q (d : Decimal) : Q := Qred (Qmake (dec_signed d) (Z.to_pos (dec_scale d))).

Definition code : Type := ascii * Q.
Definition codes (words : list GCodeWord) : list code := map (fun w => (w_letter w, dec_q (w_value w))) words.

Definition is_code (letter : ascii) (n : Q) (c : code) : bool := bool_decide (fst c = letter) && Qeq_bool (snd c) n.
Arguments is_code (letter)%_char_scope n%_Q_scope c.

Definition has_code (letter : ascii) (n : Q) (cs : list code) : bool := existsb (is_code letter n) cs.
Arguments has_code (letter)%_char_scope n%_Q_scope cs.

(** The value after a letter: the last one on the line. *)
Definition code_value (letter : ascii) (cs : list code) : option Q :=
  last (map snd (filter (fun c => fst c = letter) cs)).
Arguments code_value (letter)%_char_scope cs.

Definition p_is (n : Q) (cs : list code) : bool :=
  match code_value "P" cs with Some v => Qeq_bool v n | None => false end.
Arguments p_is n%_Q_scope cs.

(** ** Registers *)

Record machine := mkMachine {
  mc_spindle : option Q;          (** the speed while it turns, clockwise *)
  mc_speed : Q;                   (** S *)
  mc_feed : Q;                    (** F *)
  mc_selected : Q;                (** T *)
  mc_tool : option Q;             (** the tool in the spindle, when known *)
  mc_coolant : bool;
  mc_length : option Q;           (** the H of G43, none under G49 *)
  mc_wcs : Q;
  mc_millimetres : bool;
  mc_absolute : bool;
  mc_xy_plane : bool;
  mc_cutter_compensation_off : bool;
  mc_cycles_off : bool;
  mc_feed_per_minute : bool;
  mc_rpm_mode : bool;
  mc_radius_mode : bool;
  mc_exact_path : bool;
  mc_offsets_cleared : bool;      (** no G52 or G92 offset is in force *)
  mc_overrides_off : bool;
  mc_adaptive_feed_off : bool;
  mc_feed_hold_on : bool;
  mc_fast : bool;                 (** motion mode: G0, else a feed *)
  mc_ended : bool }.

(** A register that some codes set and others clear. *)
Definition switch (sets clears : bool) (before : bool) : bool := if sets then true else if clears then false else before.

(** F, S and T *)
Definition load_code (m : machine) (c : code) : machine :=
  let at_letter l := bool_decide (fst c = l) in
  mkMachine (mc_spindle m) (if at_letter "S"%char then snd c else mc_speed m)
    (if at_letter "F"%char then snd c else mc_feed m) (if at_letter "T"%char then snd c else mc_selected m)
    (mc_tool m) (mc_coolant m) (mc_length m) (mc_wcs m) (mc_millimetres m) (mc_absolute m) (mc_xy_plane m)
    (mc_cutter_compensation_off m) (mc_cycles_off m) (mc_feed_per_minute m) (mc_rpm_mode m) (mc_radius_mode m)
    (mc_exact_path m) (mc_offsets_cleared m) (mc_overrides_off m) (mc_adaptive_feed_off m) (mc_feed_hold_on m)
    (mc_fast m) (mc_ended m).

(** The modal effect of one code on a line whose words are [cs]. *)
Definition apply_code (cs : list code) (m : machine) (c : code) : machine :=
  let says l n := is_code l n c in
  mkMachine
    (if says "M"%char 3%Q then Some (mc_speed m) else if says "M"%char 5%Q then None else mc_spindle m)
    (mc_speed m) (mc_feed m) (mc_selected m) (mc_tool m)
    (switch (says "M"%char 7%Q || says "M"%char 8%Q) (says "M"%char 9%Q) (mc_coolant m))
    (if says "G"%char 43%Q then code_value "H" cs else if says "G"%char 49%Q then None else mc_length m)
    (if existsb (fun n => says "G"%char n) [54; 55; 56; 57; 58; 59]%Q then snd c else mc_wcs m)
    (switch (says "G"%char 21%Q) (says "G"%char 20%Q) (mc_millimetres m))
    (switch (says "G"%char 90%Q) (says "G"%char 91%Q) (mc_absolute m))
    (switch (says "G"%char 17%Q) (says "G"%char 18%Q || says "G"%char 19%Q) (mc_xy_plane m))
    (switch (says "G"%char 40%Q) (says "G"%char 41%Q || says "G"%char 42%Q) (mc_cutter_compensation_off m))
    (switch (says "G"%char 80%Q) (says "G"%char 81%Q || says "G"%char 83%Q) (mc_cycles_off m))
    (switch (says "G"%char 94%Q) (says "G"%char 93%Q || says "G"%char 95%Q) (mc_feed_per_minute m))
    (switch (says "G"%char 97%Q) (says "G"%char 96%Q) (mc_rpm_mode m))
    (switch (says "G"%char 8%Q) (says "G"%char 7%Q) (mc_radius_mode m))
    (switch (says "G"%char 61%Q) (says "G"%char 64%Q) (mc_exact_path m))
    (switch (says "G"%char (921 # 10)) (says "G"%char 92%Q || says "G"%char 52%Q) (mc_offsets_cleared m))
    (switch (says "M"%char 49%Q) (says "M"%char 48%Q) (mc_overrides_off m))
    (if says "M"%char 52%Q then p_is 0 cs else mc_adaptive_feed_off m)
    (if says "M"%char 53%Q then p_is 1 cs else mc_feed_hold_on m)
    (switch (says "G"%char 0%Q) (says "G"%char 1%Q || says "G"%char 2%Q || says "G"%char 3%Q) (mc_fast m))
    (mc_ended m || says "M"%char 2%Q || says "M"%char 30%Q).

(** ** Events and lines *)

Inductive event :=
  | Travel (m : machine) (machine_frame : bool) (x y z : option Q)
  | Dwell (m : machine) (seconds : Q)
  | ChangeTool (m : machine) (tool : Q).

Definition travels (cs : list code) : bool := existsb (fun c => bool_decide (fst c ∈ ["X"; "Y"; "Z"]%char)) cs.

Definition events_of (m : machine) (cs : list code) : list event :=
  match code_value "P" cs with
  | Some seconds => if has_code "G" 4 cs then [Dwell m seconds] else []
  | None => []
  end ++
  (if travels cs then [Travel m (has_code "G" 53 cs) (code_value "X" cs) (code_value "Y" cs) (code_value "Z" cs)]
   else []).

Definition loaded (m : machine) (cs : list code) : machine := foldl load_code m cs.

(** A line without a tool change. *)
Definition exec_codes (m : machine) (cs : list code) : machine := foldl (apply_code cs) (loaded m cs) cs.

Inductive executes (m : machine) (cs : list code) : list event -> machine -> Prop :=
  | executes_ended : mc_ended m = true -> executes m cs [] m
  | executes_line :
      mc_ended m = false -> has_code "M" 6 cs = false ->
      executes m cs (events_of (exec_codes m cs) cs) (exec_codes m cs)
  | executes_tool_change m' :
      mc_ended m = false -> has_code "M" 6 cs = true ->
      mc_tool m' = Some (mc_selected (loaded m cs)) -> mc_ended m' = false ->
      executes m cs [ChangeTool (loaded m cs) (mc_selected (loaded m cs))] m'.

(** Executing the lines of a program. *)
Inductive runs : machine -> list (list code) -> list event -> machine -> Prop :=
  | runs_nil m : runs m [] [] m
  | runs_cons m cs rest es m' es' m'' :
      executes m cs es m' -> runs m' rest es' m'' -> runs m (cs :: rest) (es ++ es') m''.

Lemma runs_app m l1 l2 es m'' :
  runs m (l1 ++ l2) es m'' -> exists es1 m' es2, es = es1 ++ es2 /\ runs m l1 es1 m' /\ runs m' l2 es2 m''.
Proof.
  revert m es; induction l1 as [|cs l1 IH]; intros m es; cbn [app].
  - intros H. exists [], m, es. by repeat constructor.
  - inversion_clear 1 as [|? ? ? e1 m1 e2 ? H1 H2]. destruct (IH _ _ H2) as (es1 & m' & es2 & -> & R1 & R2).
    exists (e1 ++ es1), m', es2. rewrite <- app_assoc. split; [done|]. split; [by econstructor|done].
Qed.

(** Lines without a tool change run in one way. *)
Fixpoint run_plain (m : machine) (l : list (list code)) : list event * machine :=
  match l with
  | [] => ([], m)
  | cs :: rest =>
      let '(es, m') := run_plain (exec_codes m cs) rest in (events_of (exec_codes m cs) cs ++ es, m')
  end.

(** No line but the last ends the program. *)
Definition plain_lines (l : list (list code)) : bool := forallb (fun cs => negb (has_code "M" 6 cs)) l.
Definition keeps_running (l : list (list code)) : bool :=
  forallb (fun cs => negb (has_code "M" 2 cs || has_code "M" 30 cs)) l.

Lemma apply_codes_ended all m cs :
  mc_ended (foldl (apply_code all) m cs) = mc_ended m || has_code "M" 2 cs || has_code "M" 30 cs.
Proof.
  revert m; induction cs as [|c cs IH]; intros m; cbn [foldl has_code existsb]; [by rewrite !orb_false_r|].
  rewrite IH. cbn [apply_code mc_ended]. unfold has_code. destruct (mc_ended m), (is_code "M" 2 c), (is_code "M" 30 c); cbn; try done;
  by rewrite ?orb_true_r.
Qed.

Lemma loaded_ended m cs : mc_ended (loaded m cs) = mc_ended m.
Proof. unfold loaded. revert m; induction cs as [|c cs IH]; intros m; [done|]. cbn [foldl]. by rewrite IH. Qed.

Lemma exec_codes_ended m cs : mc_ended (exec_codes m cs) = mc_ended m || has_code "M" 2 cs || has_code "M" 30 cs.
Proof. unfold exec_codes. by rewrite apply_codes_ended, loaded_ended. Qed.

Lemma runs_plain m l es m' :
  plain_lines l = true -> keeps_running (removelast l) = true -> mc_ended m = false -> runs m l es m' ->
  run_plain m l = (es, m').
Proof.
  revert m es; induction l as [|cs l IH]; intros m es Hp Hk He R; inversion R as [|? ? ? e1 m1 e2 ? H1 H2]; subst; [done|].
  cbn [plain_lines forallb] in Hp. apply andb_true_iff in Hp as [Hcs%negb_true_iff Hp].
  assert (e1 = events_of (exec_codes m cs) cs /\ m1 = exec_codes m cs) as [-> ->].
  { inversion H1; subst; [congruence|done|congruence]. }
  cbn [run_plain]. destruct l as [|cs' l].
  - inversion H2; subst. done.
  - cbn [removelast keeps_running forallb] in Hk. apply andb_true_iff in Hk as [Hk1%negb_true_iff Hk].
    rewrite (IH (exec_codes m cs) e2 Hp Hk); [done| |done].
    rewrite exec_codes_ended, He. apply orb_false_iff in Hk1 as [-> ->]. done.
Qed.
