(* ===== verification/ProductionSafety.v ===== *)
(** * An accepted production program executes its plan

    What the validator of [ProductionParser] guarantees of the controller of
    [ProductionMachine], whatever state the controller starts in and whatever
    its tool change does to the registers. *)

From Stdlib Require Import QArith Qabs Lqa.
From Stdlib Require Qcanon.
From S2P Require Import Prelude Text GCode Identity ManufacturingModel Machining CamValidation ProductionModel ProductionProfile ProductionParser ProductionMachine.

#[local] Open Scope Z_scope.

(** ** Numbers

    A word is read with the precision of Python's decimals; what it commands
    agrees with what was read to one part in 10^27. *)

Definition near (q : Q) (value_um : Z) : Prop :=
  (Qabs (q * 1000 - inject_Z value_um) * inject_Z (10 ^ 27) <= Qabs (inject_Z value_um))%Q.

Lemma pretty_length_bound c : (0 < c)%N -> (10 ^ N.of_nat (String.length (pretty c) - 1) <= c)%N.
Proof.
  intros Hc. apply N.nlt_ge. intros H. unfold pretty, pretty_N in H. destruct (decide (c = 0%N)); [lia|].
  pose proof (pretty_N_go_length c "" _ H) as L. cbn [String.length] in L.
  destruct (String.length (pretty_N_go c "")) as [|k] eqn:E; [|lia].
  cbn in H. change (10 ^ 0)%N with 1%N in H. lia.
Qed.

Lemma digits_value_bound ds : Forall (fun c => is_digit c = true) ds -> (dec_value ds < 10 ^ N.of_nat (length ds))%N.
Proof.
  induction ds as [|c ds IH] using rev_ind; [done|]. intros [F [Hc _]%Forall_cons]%Forall_app. specialize (IH F).
  rewrite dec_value_app, length_app. cbn [length]. unfold dec_value at 2. cbn [foldl].
  unfold is_digit, ascii_in in Hc. apply andb_true_iff in Hc as [_ Hc%N.leb_le].
  change (N_of_ascii "9") with 57%N in Hc. unfold digit_value. rewrite Nat2N.inj_add, N.pow_add_r.
  change (10 ^ N.of_nat 1)%N with 10%N. lia.
Qed.

Lemma round_coefficient_near c :
  Z.abs (Z.of_N (round_coefficient c) - Z.of_N c) * (2 * 10 ^ 27) <= Z.of_N c.
Proof.
  unfold round_coefficient. destruct (c <? CONTEXT_LIMIT)%N eqn:Hc; [rewrite Z.sub_diag; lia|].
  apply N.ltb_ge in Hc. unfold CONTEXT_LIMIT in Hc. pose proof (pretty_length_bound c ltac:(lia)) as L.
  set (n := String.length (pretty c)) in *. assert (28 < n)%nat as Hn.
  { apply Nat.nle_gt. intros H. unfold n, pretty, pretty_N in H. destruct (decide (c = 0%N)); [lia|].
    destruct (pretty_N_go_digits c "") as (ds & E & D & V).
    assert (length ds <= 28)%nat as Hd by (rewrite <- length_chars, E, length_app in H; cbn in H; lia).
    pose proof (digits_value_bound ds D) as B. rewrite V in B.
    assert (10 ^ N.of_nat (length ds) <= 10 ^ 28)%N by (apply N.pow_le_mono_r; lia). lia. }
  set (unit := (10 ^ N.of_nat (n - 28))%N). assert (0 < unit)%N as Hu by (apply N.neq_0_lt_0, N.pow_nonzero; lia).
  assert (unit * 10 ^ 27 <= c)%N as Hb.
  { unfold unit. rewrite <- N.pow_add_r. replace (N.of_nat (n - 28) + 27)%N with (N.of_nat (n - 1)) by lia. exact L. }
  cbv zeta. pose proof (N.div_mod c unit ltac:(lia)) as E. pose proof (N.mod_lt c unit ltac:(lia)) as M.
  set (q := (c / unit)%N) in *. set (r := (c mod unit)%N) in *.
  destruct ((unit <? 2 * r)%N || (unit =? 2 * r)%N && N.odd q) eqn:R.
  - assert (unit <= 2 * r)%N as H2 by (apply orb_true_iff in R as [R%N.ltb_lt|[R%N.eqb_eq _]%andb_true_iff]; lia).
    replace (Z.of_N ((q + 1) * unit) - Z.of_N c) with (Z.of_N unit - Z.of_N r) by lia. lia.
  - assert (2 * r <= unit)%N as H2 by (apply orb_false_iff in R as [R%N.ltb_ge _]; lia).
    replace (Z.of_N (q * unit) - Z.of_N c) with (- Z.of_N r) by lia. lia.
Qed.

Lemma dec_scale_1000 d : dec_places d = 3%nat -> dec_scale d = 1000.
Proof. unfold dec_scale. by intros ->. Qed.

(** A decimal against a number of micrometres. *)
Lemma near_dec d v :
  Z.abs (1000 * dec_signed d - v * dec_scale d) * 10 ^ 27 <= Z.abs v * dec_scale d -> near (dec_q d) v.
Proof.
  intros H. pose proof (dec_scale_pos d) as P. unfold near, dec_q.
  rewrite (Qred_correct (dec_signed d # Z.to_pos (dec_scale d))). unfold Qle, Qabs, Qminus, Qplus, Qmult, Qopp, inject_Z.
  cbn [Qnum Qden]. rewrite !Pos.mul_1_r, !Z.mul_1_r, ?Pos2Z.inj_mul, !Z2Pos.id by done.
  replace (dec_signed d * 1000 + - v * dec_scale d) with (1000 * dec_signed d - v * dec_scale d) by lia. lia.
Qed.

Lemma near_thousandth v : near (dec_q (thousandth v)) v.
Proof.
  apply near_dec. unfold thousandth, dec_round. set (c := Z.to_N (Z.abs v)).
  pose proof (round_coefficient_near c) as H. unfold dec_signed, dec_scale. cbn [dec_negative dec_coefficient dec_places].
  change (10 ^ Z.of_nat 3) with 1000. assert (Z.of_N c = Z.abs v) as Hc by (unfold c; lia). rewrite Hc in H.
  destruct (v <? 0) eqn:E; bprop; nia.
Qed.

Lemma word_um_near words letter n v :
  word_um words letter n = Ok v -> exists d, values_of letter words = [d] /\ near (dec_q d) v.
Proof.
  unfold word_um. destruct (values_of letter words) as [|d [|? ?]]; try done. cbv zeta. intros H.
  apply bind_Ok in H as (? & Hm & H). injection H as <-. exists d. split; [done|]. apply near_dec.
  apply raise_if_Ok, negb_false_iff, Z.eqb_eq in Hm.
  unfold dec_trunc. set (s := dec_thousand d) in *.
  assert (dec_scale s = dec_scale d) as Es by done. rewrite Es in *. pose proof (dec_scale_pos d) as P.
  assert (dec_signed s = dec_scale d * (dec_signed s ÷ dec_scale d)) as Ev.
  { apply Z.quot_exact; [lia|]. apply Z.rem_divide; [lia|]. by apply Z.mod_divide; [lia|]. }
  set (v := dec_signed s ÷ dec_scale d) in *.
  pose proof (round_coefficient_near (1000 * dec_coefficient d)) as R.
  set (r := round_coefficient (1000 * dec_coefficient d)) in *.
  assert (dec_signed s = if dec_negative d then - Z.of_N r else Z.of_N r) as Er by done.
  assert (dec_signed d = if dec_negative d then - Z.of_N (dec_coefficient d) else Z.of_N (dec_coefficient d)) as Ed by done.
  rewrite N2Z.inj_mul in R. change (Z.of_N 1000) with 1000 in R.
  assert (Z.abs (1000 * dec_signed d - v * dec_scale d) = Z.abs (Z.of_N r - 1000 * Z.of_N (dec_coefficient d))) as E1
    by (destruct (dec_negative d); lia).
  assert (Z.abs v * dec_scale d = Z.of_N r) as E2.
  { rewrite <- (Z.abs_eq (dec_scale d)) at 1 by lia. rewrite <- Z.abs_mul, (Z.mul_comm v), <- Ev, Er.
    destruct (dec_negative d); lia. }
  rewrite E1, E2. lia.
Qed.

(** ** Signatures and codes *)

Lemma dec_q_eqb a b : dec_eqb a b = true -> dec_q a = dec_q b.
Proof.
  unfold dec_eqb, dec_q. intros H%Z.eqb_eq. apply Qred_complete. unfold Qeq. cbn [Qnum Qden].
  by rewrite !Z2Pos.id by apply dec_scale_pos.
Qed.

Definition codes_of (sig : word_signature) : list code := map (fun lv => (fst lv, dec_q (snd lv))) sig.

Lemma codes_signature line sig :
  list_eqb word_eqb (signature line) sig = true -> codes (ln_words line) = codes_of sig.
Proof.
  unfold signature, codes. generalize (ln_words line) as ws. intros ws. revert sig.
  induction ws as [|w ws IH]; intros [|[l v] sig]; cbn; try done. intros [H1 H2]%andb_true_iff.
  unfold word_eqb in H1. cbn in H1. apply andb_true_iff in H1 as [E1%bool_decide_eq_true E2%dec_q_eqb].
  rewrite (IH sig H2). by rewrite E1, E2.
Qed.

Lemma codes_signatures lines sigs :
  signatures_eqb (map signature lines) sigs = true -> map (fun l => codes (ln_words l)) lines = map codes_of sigs.
Proof.
  revert sigs; induction lines as [|line lines IH]; intros [|sig sigs]; cbn; try done.
  intros [H1 H2]%andb_true_iff. by rewrite (codes_signature _ _ H1), (IH sigs H2).
Qed.

(** The checks of the preamble are a comparison of the whole. *)
Lemma preamble_checked mp s t rpm wcs first actual :
  require_bound_preamble mp s t rpm actual (expected_preamble mp s t rpm wcs first) = Ok () ->
  signatures_eqb actual (expected_preamble mp s t rpm wcs first) = true.
Proof.
  unfold require_bound_preamble. intros H. apply bind_Ok in H as (? & Hl%raise_if_Ok & H).
  apply bind_Ok in H as (? & H1%raise_if_Ok & H). apply bind_Ok in H as (? & H2%raise_if_Ok & H).
  apply check_all_Ok in H. apply negb_false_iff in H1, H2. apply negb_false_iff, bool_decide_eq_true in Hl.
  cbn [length app expected_preamble MODAL_PREAMBLE] in Hl.
  do 30 (destruct actual as [|? actual]; [discriminate Hl|]). destruct actual; [|discriminate Hl].
  unfold preamble_messages in H.
  repeat match goal with H : Forall _ (_ :: _) |- _ => apply Forall_cons in H as [?%raise_if_Ok%negb_false_iff H] end.
  cbn [fst] in *. unfold signatures_eqb in *.
  cbn [take drop list_eqb MODAL_PREAMBLE app expected_preamble] in *.
  unfold signature_at in *. cbn [lookup list_lookup default id] in *.
  repeat match goal with H : _ && _ = true |- _ => apply andb_true_iff in H as [? H] end.
  repeat (apply andb_true_iff; split); assumption || reflexivity.
Qed.

(** ** Lines of codes *)

Lemma code_value_words letter ws : code_value letter (codes ws) = dec_q <$> last (values_of letter ws).
Proof.
  unfold code_value, values_of. rewrite <- fmap_last. f_equal.
  induction ws as [|w ws IH]; [done|]. cbn [codes map]. rewrite !filter_cons. cbn [fst].
  case_decide; cbn [map snd fmap list_fmap]; [by f_equal|exact IH].
Qed.

Lemma loaded_registers m cs :
  mc_speed (loaded m cs) = default (mc_speed m) (code_value "S" cs) /\
  mc_feed (loaded m cs) = default (mc_feed m) (code_value "F" cs) /\
  mc_selected (loaded m cs) = default (mc_selected m) (code_value "T" cs).
Proof.
  unfold loaded, code_value. induction cs as [|c cs IH] using rev_ind; [done|].
  rewrite foldl_app, !filter_app, !map_app. cbn [foldl]. destruct IH as (IH1 & IH2 & IH3).
  rewrite !filter_cons, !filter_nil. unfold load_code. cbn [mc_speed mc_feed mc_selected].
  split_and!; case_decide; case_bool_decide; try done; cbn [map]; rewrite ?last_snoc, ?app_nil_r; done.
Qed.

(** Codes that are not modal leave the registers alone. *)
Definition is_modal (c : code) : bool := bool_decide (fst c ∈ ["G"; "M"]%char).

Lemma apply_other all m c : is_modal c = false -> apply_code all m c = m.
Proof.
  unfold is_modal. rewrite bool_decide_eq_false. intros H. destruct c as [l q]. cbn [fst] in H.
  assert (forall n, is_code "G" n (l, q) = false) as HG
    by (intros n; unfold is_code; rewrite bool_decide_false; [done|cbn; set_solver]).
  assert (forall n, is_code "M" n (l, q) = false) as HM
    by (intros n; unfold is_code; rewrite bool_decide_false; [done|cbn; set_solver]).
  destruct m. unfold apply_code. cbn [existsb]. by rewrite !HG, !HM, !orb_false_r.
Qed.

Lemma apply_modal_only all m cs : foldl (apply_code all) m cs = foldl (apply_code all) m (List.filter is_modal cs).
Proof.
  revert m; induction cs as [|c cs IH]; intros m; [done|]. cbn [foldl List.filter]. destruct (is_modal c) eqn:E; cbn [foldl].
  - apply IH.
  - rewrite apply_other by done. apply IH.
Qed.

(** The registers after a plain motion: only the mode and the feed differ. *)
Definition with_motion (m : machine) (fast : bool) (feed : Q) : machine :=
  mkMachine (mc_spindle m) (mc_speed m) feed (mc_selected m) (mc_tool m) (mc_coolant m) (mc_length m) (mc_wcs m)
    (mc_millimetres m) (mc_absolute m) (mc_xy_plane m) (mc_cutter_compensation_off m) (mc_cycles_off m)
    (mc_feed_per_minute m) (mc_rpm_mode m) (mc_radius_mode m) (mc_exact_path m) (mc_offsets_cleared m)
    (mc_overrides_off m) (mc_adaptive_feed_off m) (mc_feed_hold_on m) fast (mc_ended m).

Lemma code_value_None letter cs : code_value letter cs = None -> Forall (fun c => fst c <> letter) cs.
Proof.
  intros H%last_None. apply Forall_forall. intros c Hc E. apply (not_elem_of_nil (snd c)). rewrite <- H.
  by apply list_elem_of_fmap_2, list_elem_of_filter.
Qed.

Lemma loaded_plain m cs :
  code_value "S" cs = None -> code_value "T" cs = None ->
  loaded m cs = with_motion m (mc_fast m) (default (mc_feed m) (code_value "F" cs)).
Proof.
  intros HS%code_value_None HT%code_value_None.
  assert (Forall (fun c : code => fst c <> "S"%char /\ fst c <> "T"%char) cs) as F by (by apply Forall_and).
  clear HS HT. unfold loaded, code_value. induction cs as [|c cs IH] using rev_ind; [by destruct m|].
  apply Forall_app in F as [F [[F1 F2] _]%Forall_cons]. rewrite foldl_app, IH by done. cbn [foldl].
  rewrite filter_app, map_app, filter_cons, filter_nil. unfold load_code. cbv zeta.
  repeat case_bool_decide; try done; case_decide; try done; cbn [map]; rewrite ?last_snoc, ?app_nil_r; done.
Qed.

Lemma exec_motion m cs (fast : bool) :
  code_value "S" cs = None -> code_value "T" cs = None ->
  List.filter is_modal cs = [("G"%char, if fast then 0%Q else 1%Q)] ->
  exec_codes m cs = with_motion m fast (default (mc_feed m) (code_value "F" cs)).
Proof.
  intros HS HT HG. unfold exec_codes. rewrite apply_modal_only, HG, loaded_plain by done.
  destruct m as [? ? ? ? ? ? ? ? ? ? ? ? ? ? ? ? ? ? ? ? ? ? ended]; destruct fast, ended; reflexivity.
Qed.

(** ** A line of motion *)

Definition motion_code (kind : ProductionMoveKind) : Q := inject_Z (motion_number kind).

(** The codes of a line that was read as the move [v]. *)
Record commands (v : ParsedProductionMove) (cs : list code) : Prop := mkCommands {
  cd_modal : List.filter is_modal cs = [("G"%char, motion_code (pv_kind v))];
  cd_absent : Forall (fun l => code_value l cs = None) ["S"; "T"; "P"]%char;
  cd_x : exists q, code_value "X" cs = Some q /\ near q (pv_x_um v);
  cd_y : exists q, code_value "Y" cs = Some q /\ near q (pv_y_um v);
  cd_z : exists q, code_value "Z" cs = Some q /\ near q (pv_z_um v);
  cd_feed : match pv_feed_um_min v with
            | Some feed => exists q, code_value "F" cs = Some q /\ near q feed
            | None => code_value "F" cs = None
            end }.

Lemma values_of_absent letter ws : letter ∉ map w_letter ws -> values_of letter ws = [].
Proof.
  unfold values_of. induction ws as [|w ws IH]; [done|]. cbn [map]. intros [N H]%not_elem_of_cons.
  rewrite filter_cons, decide_False by congruence. by apply IH.
Qed.

Lemma modal_codes_of ws :
  Forall (fun c => c ∈ ["G"; "X"; "Y"; "Z"; "F"]%char) (map w_letter ws) ->
  List.filter is_modal (codes ws) = map (fun d => ("G"%char, dec_q d)) (values_of "G" ws).
Proof.
  unfold values_of. induction ws as [|w ws IH]; [done|]. cbn [map]. intros [Hw H]%Forall_cons.
  cbn [codes map List.filter]. rewrite filter_cons. fold (codes ws).
  assert (is_modal (w_letter w, dec_q (w_value w)) = bool_decide (w_letter w = "G"%char)) as ->.
  { unfold is_modal. cbn [fst]. repeat (apply elem_of_cons in Hw as [->|Hw]; [done|]). by apply elem_of_nil in Hw. }
  case_bool_decide as E; [rewrite decide_True by done|rewrite decide_False by done]; cbn [map]; rewrite IH by done; [|done].
  by rewrite E.
Qed.

Lemma word_read ws letter n v :
  word_um ws letter n = Ok v -> exists q, code_value letter (codes ws) = Some q /\ near q v.
Proof.
  intros (d & E & H)%word_um_near. exists (dec_q d). by rewrite code_value_words, E.
Qed.

Lemma one_value a n : list_eqb dec_eqb a [dec_int n] = true -> map dec_q a = [dec_q (dec_int n)].
Proof. destruct a as [|d [|? ?]]; cbn; try done; [|by rewrite andb_false_r]. rewrite andb_true_r. by intros ->%dec_q_eqb. Qed.

Lemma read_motion_commands line mv v : read_motion line mv = Ok v -> commands v (codes (ln_words line)).
Proof.
  unfold read_motion. cbv zeta. intros H. set (ws := ln_words line) in *.
  apply bind_Ok in H as (? & HL%raise_if_Ok%negb_false_iff & H).
  apply bind_Ok in H as (? & HG%raise_if_Ok%negb_false_iff%one_value & H).
  apply bind_Ok in H as (vx & Hx & H). apply bind_Ok in H as (vy & Hy & H). apply bind_Ok in H as (vz & Hz & H).
  apply bind_Ok in H as (feed & Hf & [= <-]). rewrite py_set_eq_spec in HL.
  assert (forall l, l ∉ letters_of (mv_kind mv) -> code_value l (codes ws) = None) as HN
    by (intros l Hl; rewrite code_value_words, values_of_absent; [done|by rewrite HL]).
  constructor; cbn [pv_kind pv_x_um pv_y_um pv_z_um pv_feed_um_min]; eauto using word_read.
  - rewrite modal_codes_of.
    + rewrite <- (map_map dec_q (fun q => ("G"%char, q))), HG. by destruct (mv_kind mv).
    + apply Forall_forall. intros l Hl%HL. destruct (mv_kind mv); set_solver.
  - repeat constructor; apply HN; destruct (mv_kind mv); set_solver.
  - destruct (mv_kind mv).
    + injection Hf as <-. apply HN. set_solver.
    + apply bind_Ok in Hf as (f & Hf & [= <-]). eauto using word_read.
Qed.

(** The codes of a modal letter are those of the modal words. *)
Lemma has_code_modal letter n cs :
  letter ∈ ["G"; "M"]%char -> has_code letter n cs = has_code letter n (List.filter is_modal cs).
Proof.
  intros HL. unfold has_code. induction cs as [|c cs IH]; [done|]. cbn [existsb List.filter].
  destruct (is_modal c) eqn:E; cbn [existsb]; rewrite IH; [done|].
  unfold is_code. rewrite bool_decide_false; [done|]. intros <-.
  unfold is_modal in E. by apply bool_decide_eq_false in E.
Qed.

Lemma commands_modal v cs letter n :
  commands v cs -> letter ∈ ["G"; "M"]%char ->
  has_code letter n cs = has_code letter n [("G"%char, motion_code (pv_kind v))].
Proof. intros C HL. by rewrite has_code_modal, (cd_modal _ _ C) by done. Qed.

Lemma value_travels letter cs q : letter ∈ ["X"; "Y"; "Z"]%char -> code_value letter cs = Some q -> travels cs = true.
Proof.
  intros HL H. unfold code_value in H. apply last_Some_elem_of, list_elem_of_fmap in H as (c & _ & [<- Hc]%list_elem_of_filter).
  unfold travels. apply existsb_exists. exists c. split; [by apply list_elem_of_In|by apply bool_decide_true].
Qed.

(** ** The state of the controller while a program runs *)

(** Every mode the program relies on. *)
Definition settled (m : machine) : bool :=
  mc_millimetres m && mc_absolute m && mc_xy_plane m && mc_cutter_compensation_off m && mc_cycles_off m &&
  mc_feed_per_minute m && mc_rpm_mode m && mc_radius_mode m && mc_exact_path m && mc_offsets_cleared m &&
  mc_overrides_off m && mc_adaptive_feed_off m && mc_feed_hold_on m && negb (mc_coolant m).

(** What turns and which length is compensated. *)
Definition set_up (spindle length : option Q) (m : machine) : Prop :=
  settled m = true /\ mc_spindle m = spindle /\ mc_length m = length.

(** What an event must be.  A length, a spindle speed or a tool of [None] is
    off, off, and left open; a frame of [None] is the machine's. *)
Inductive order :=
  | Go (tool spindle length wcs : option Q) (fast : bool) (x_um y_um z_um feed_um_min : option Z)
  | Load (tool : Q)
  | SpinUp (tool speed length : Q) (milliseconds : Z).

Definition near_option (q : option Q) (v : option Z) : Prop :=
  match v with Some v => exists r, q = Some r /\ near r v | None => q = None end.

Definition holds_tool (tool : option Q) (m : machine) : Prop := is_Some tool -> mc_tool m = tool.

Definition obeys (o : order) (e : event) : Prop :=
  match o, e with
  | Go tool spindle length wcs fast x y z feed, Travel m machine_frame qx qy qz =>
      set_up spindle length m /\ holds_tool tool m /\ machine_frame = negb (is_some wcs) /\
      (is_Some wcs -> Some (mc_wcs m) = wcs) /\ mc_fast m = fast /\
      near_option qx x /\ near_option qy y /\ near_option qz z /\
      match feed with Some f => near (mc_feed m) f | None => True end
  | Load t, ChangeTool m t' => t' = t /\ set_up None None m
  | SpinUp tool speed length ms, Dwell m seconds =>
      set_up (Some speed) (Some length) m /\ mc_tool m = Some tool /\ near seconds ms
  | _, _ => False
  end.

(** ** The fixed parts of a program *)

Definition modal_codes : list (list code) := map codes_of MODAL_PREAMBLE.
Definition machine_z (z : Q) : list code := [("G"%char, 53%Q); ("G"%char, 0%Q); ("Z"%char, z)].
Definition machine_xy (x y : Q) : list code := [("G"%char, 53%Q); ("G"%char, 0%Q); ("X"%char, x); ("Y"%char, y)].

Definition outbound_codes (z x y : Q) : list (list code) := modal_codes ++ [machine_z z; machine_xy x y].
Definition inbound_codes (z x y length wcs safe speed seconds : Q) : list (list code) :=
  modal_codes ++
  [machine_z z; machine_xy x y; [("G"%char, 43%Q); ("H"%char, length)]; [("G"%char, wcs)];
   [("G"%char, 0%Q); ("Z"%char, safe)]; [("S"%char, speed); ("M"%char, 3%Q)]; [("G"%char, 4%Q); ("P"%char, seconds)]].
Definition closing_codes (safe z : Q) : list (list code) :=
  [[("G"%char, 0%Q); ("Z"%char, safe)]; [("M"%char, 5%Q)]; [("M"%char, 9%Q)]; [("G"%char, 49%Q)]; machine_z z; [("M"%char, 2%Q)]].

Lemma outbound_run m z x y : mc_ended m = false ->
  exists m1 m2, run_plain m (outbound_codes z x y)
                = ([Travel m1 true None None (Some z); Travel m2 true (Some x) (Some y) None], m2) /\
    set_up None None m1 /\ set_up None None m2 /\ mc_fast m1 = true /\ mc_fast m2 = true /\ mc_ended m2 = false.
Proof.
  destruct m as [? ? ? ? ? ? ? ? ? ? ? ? ? ? ? ? ? ? ? ? ? ? ended]. cbn [mc_ended]. intros ->.
  eexists _, _. split; [vm_compute; reflexivity|]. done.
Qed.

(** The settled state in which the planned moves are made. *)
Definition cutting (wcs tool speed length : Q) (m : machine) : Prop :=
  set_up (Some speed) (Some length) m /\ mc_tool m = Some tool /\ mc_wcs m = wcs /\ mc_ended m = false.

Definition is_wcs_code (q : Q) : Prop := Exists (eq q) [54; 55; 56; 57; 58; 59]%Q.

Lemma inbound_run m tool z x y length wcs safe speed seconds :
  is_wcs_code wcs -> mc_ended m = false -> mc_tool m = Some tool ->
  exists m1 m2 m3 m4, run_plain m (inbound_codes z x y length wcs safe speed seconds)
    = ([Travel m1 true None None (Some z); Travel m2 true (Some x) (Some y) None; Travel m3 false None None (Some safe);
        Dwell m4 seconds], m4) /\
    set_up None None m2 /\ set_up None None m1 /\ set_up None (Some length) m3 /\ mc_wcs m3 = wcs /\
    (mc_tool m1 = Some tool /\ mc_tool m2 = Some tool /\ mc_tool m3 = Some tool) /\
    (mc_fast m1 = true /\ mc_fast m2 = true /\ mc_fast m3 = true) /\ cutting wcs tool speed length m4.
Proof.
  destruct m as [f0 f1 f2 f3 f4 f5 f6 f7 f8 f9 f10 f11 f12 f13 f14 f15 f16 f17 f18 f19 f20 f21 ended]. cbn [mc_ended mc_tool]. intros W -> ->.
  unfold is_wcs_code in W. rewrite !Exists_cons, Exists_nil in W.
  destruct W as [->|[->|[->|[->|[->|[->|[]]]]]]]; eexists _, _, _, _;
    (split; [vm_compute; reflexivity|repeat split]).
Qed.

Lemma closing_run m wcs tool speed length safe z : cutting wcs tool speed length m ->
  exists m1 m2 m3, run_plain m (closing_codes safe z)
    = ([Travel m1 false None None (Some safe); Travel m2 true None None (Some z)], m3) /\
    set_up (Some speed) (Some length) m1 /\ set_up None None m2 /\ set_up None None m3 /\
    (mc_tool m1 = Some tool /\ mc_tool m2 = Some tool) /\ mc_wcs m1 = wcs /\ mc_fast m1 = true /\ mc_fast m2 = true /\
    mc_ended m3 = true.
Proof.
  intros ((S & E1 & E2) & E3 & E4 & E5). unfold settled in S. repeat (apply andb_true_iff in S as [S ?]).
  destruct m as [f0 f1 f2 f3 f4 f5 f6 f7 f8 f9 f10 f11 f12 f13 f14 f15 f16 f17 f18 f19 f20 f21 ended]. cbn in * |-. subst. rewrite negb_true_iff in *. subst.
  eexists _, _, _. split; [vm_compute; reflexivity|]. repeat split.
Qed.


(** ** The planned moves *)

Lemma cutting_motion wcs tool speed length m fast feed :
  cutting wcs tool speed length m -> cutting wcs tool speed length (with_motion m fast feed).
Proof. by destruct m. Qed.

Definition rapid_move (kind : ProductionMoveKind) : bool := bool_decide (kind = RAPID).

Lemma commands_exec v cs m : commands v cs ->
  exec_codes m cs = with_motion m (rapid_move (pv_kind v)) (default (mc_feed m) (code_value "F" cs)).
Proof.
  intros C. pose proof (cd_absent _ _ C) as [HS [HT _]%Forall_cons]%Forall_cons.
  apply exec_motion; [done|done|]. rewrite (cd_modal _ _ C). by destruct (pv_kind v).
Qed.

Lemma commands_events v cs m : commands v cs ->
  events_of m cs = [Travel m false (code_value "X" cs) (code_value "Y" cs) (code_value "Z" cs)].
Proof.
  intros C. pose proof (cd_absent _ _ C) as [_ [_ [HP _]%Forall_cons]%Forall_cons]%Forall_cons.
  destruct (cd_x _ _ C) as (q & Hq & _). unfold events_of.
  rewrite HP, (value_travels "X" cs q), (commands_modal v) by (done || set_solver). by destruct (pv_kind v).
Qed.

Section Moves.
Context (wcs tool speed length : Q).

Definition cut_order (v : ParsedProductionMove) : order :=
  Go (Some tool) (Some speed) (Some length) (Some wcs) (rapid_move (pv_kind v))
    (Some (pv_x_um v)) (Some (pv_y_um v)) (Some (pv_z_um v)) (pv_feed_um_min v).

Lemma commands_obey v cs m : cutting wcs tool speed length m -> commands v cs ->
  Forall2 obeys [cut_order v] (events_of (exec_codes m cs) cs) /\ cutting wcs tool speed length (exec_codes m cs).
Proof.
  intros HC C. rewrite (commands_events v), (commands_exec v) by done. split; [|by apply cutting_motion].
  destruct (cutting_motion _ _ _ _ m (rapid_move (pv_kind v)) (default (mc_feed m) (code_value "F" cs)) HC)
    as (HS & HT & HW & _).
  apply Forall2_cons_2; [|done]. cbn [cut_order obeys is_some negb near_option].
  destruct (cd_x _ _ C), (cd_y _ _ C), (cd_z _ _ C). pose proof (cd_feed _ _ C) as HF.
  split_and!; eauto; try (intros _; congruence). destruct (pv_feed_um_min v); [|done]. by destruct HF as (q & -> & ?).
Qed.

Lemma body_run vs css m : cutting wcs tool speed length m -> Forall2 commands vs css ->
  exists es m', run_plain m css = (es, m') /\ Forall2 obeys (map cut_order vs) es /\ cutting wcs tool speed length m'.
Proof.
  intros HC F. revert m HC; induction F as [|v cs vs css C F IH]; intros m HC; [by eexists [], m|].
  destruct (commands_obey v cs m HC C) as [O HC']. destruct (IH _ HC') as (es & m' & E & O' & HC'').
  exists (events_of (exec_codes m cs) cs ++ es), m'. cbn [run_plain]. rewrite E. split_and!; [done| |done].
  change (map cut_order (v :: vs)) with ([cut_order v] ++ map cut_order vs). by apply Forall2_app.
Qed.

Lemma body_plain vs css : Forall2 commands vs css -> plain_lines css = true /\ keeps_running css = true.
Proof.
  induction 1 as [|v cs vs css C F [IH1 IH2]]; [done|]. unfold plain_lines, keeps_running in *. cbn [forallb].
  rewrite IH1, IH2, !(commands_modal v cs) by (done || set_solver). by destruct (pv_kind v).
Qed.
End Moves.

(** The line of a planned move says what the plan says, within the limits. *)
Definition agrees (v : ParsedProductionMove) (mv : ProductionMove) : Prop :=
  pv_kind v = mv_kind mv /\ pv_x_um v = mv_x_um mv /\ pv_y_um v = mv_y_um mv /\ pv_z_um v = mv_z_um mv /\
  pv_feed_um_min v = mv_feed_um_min mv.

Section Limits.
Context (c : ProductionExecutionContext) (mp : LinuxCNCProductionMachineProfile) (s : BoundSetup) (t : ProductionToolBinding).

(** Inside the stock's safe box, the travel of the machine and, with the tool's
    offset, its axes. *)
Definition within_limits (mv : ProductionMove) : Prop :=
  0 <= mv_x_um mv <= bs_stock_width_um s /\ 0 <= mv_y_um mv <= bs_stock_height_um s /\
  - (bs_stock_thickness_um s + bs_through_cut_allowance_um s) <= mv_z_um mv <= bs_safe_z_um s /\
  bs_safe_z_um s + Z.max 0 (- mv_z_um mv) <= pe_work_z_um c /\
  lp_machine_x_min_um mp <= p2_x_um (bs_machine_wcs_origin s) + mv_x_um mv + tb_expected_length_offset_x_um t
    <= lp_machine_x_max_um mp /\
  lp_machine_y_min_um mp <= p2_y_um (bs_machine_wcs_origin s) + mv_y_um mv + tb_expected_length_offset_y_um t
    <= lp_machine_y_max_um mp /\
  lp_machine_z_min_um mp <= bs_machine_wcs_z0_um s + mv_z_um mv + tb_expected_length_offset_z_um t
    <= lp_machine_z_max_um mp.

(** What a move may do, from the end of the move before. *)
Definition clear_of_stock (previous : Z * Z * Z) (mv : ProductionMove) : Prop :=
  let '(px, py, pz) := previous in
  match mv_kind mv with
  | RAPID =>
      0 <= mv_z_um mv /\
      (mv_x_um mv <> px \/ mv_y_um mv <> py -> bs_safe_z_um s <= pz /\ bs_safe_z_um s <= mv_z_um mv) /\
      (mv_z_um mv < bs_safe_z_um s -> mv_role mv ∈ [APPROACH; PECK_RETRACT]) /\
      (mv_role mv = RETRACT -> mv_z_um mv = bs_safe_z_um s)
  | LINEAR => exists feed, mv_feed_um_min mv = Some feed /\ 0 < feed
  end.

Inductive safe_path : Z * Z * Z -> list ProductionMove -> Prop :=
  | safe_path_nil previous : safe_path previous []
  | safe_path_cons previous mv rest :
      within_limits mv -> clear_of_stock previous mv ->
      safe_path (mv_x_um mv, mv_y_um mv, mv_z_um mv) rest -> safe_path previous (mv :: rest).

Lemma check_motion_line_spec previous line mv v :
  check_motion_line c mp s t previous line mv = Ok v ->
  commands v (codes (ln_words line)) /\ agrees v mv /\ within_limits mv /\ clear_of_stock previous mv.
Proof.
  unfold check_motion_line. intros H. apply bind_Ok in H as (v' & HR & H).
  apply bind_Ok in H as (? & HS & H). apply bind_Ok in H as (? & HM & H). apply bind_Ok in H as (? & HT & H).
  apply bind_Ok in H as (? & HE%raise_if_Ok%negb_false_iff%bool_decide_eq_true & [= <-]). injection HE as Ex Ey Ez Ef.
  assert (pv_kind v' = mv_kind mv) as Ek.
  { unfold read_motion in HR. repeat (apply bind_Ok in HR as (? & _ & HR)). by injection HR as <-. }
  split; [by eapply read_motion_commands|]. split; [by repeat split|].
  unfold check_setup_bounds, check_machine_bounds, check_travel, unsafe_if, within_limits, clear_of_stock in *.
  destruct previous as [[px py] pz]. rewrite Ex, Ey, Ez, Ek in *. clear HR. inv_ok. bprop.
  split; [lia|]. destruct (mv_kind mv); inv_ok.
  - repeat match goal with H : (_ && _) = false |- _ => apply andb_false_iff in H end. bprop.
    repeat match goal with H : _ = false \/ _ = false |- _ => destruct H end; bprop;
      (split; [lia|]; split; [lia|]; split; [intros ?|intros ?]; first [done|lia]).
  - rewrite Ef in *. destruct (mv_feed_um_min mv) as [f|]; [|done]. exists f. bprop. split; [done|lia].
Qed.
End Limits.

(** What the moves of the program must do, in order. *)
Definition move_order (wcs tool speed length : Q) (mv : ProductionMove) : order :=
  Go (Some tool) (Some speed) (Some length) (Some wcs) (rapid_move (mv_kind mv))
    (Some (mv_x_um mv)) (Some (mv_y_um mv)) (Some (mv_z_um mv)) (mv_feed_um_min mv).

Lemma agrees_order wcs tool speed length v mv :
  agrees v mv -> cut_order wcs tool speed length v = move_order wcs tool speed length mv.
Proof. intros (E1 & E2 & E3 & E4 & E5). unfold cut_order, move_order. by rewrite E1, E2, E3, E4, E5. Qed.

Lemma round_trip_moves_spec c mp s t previous lines moves vs :
  round_trip_moves c mp s t previous lines moves = Ok vs ->
  Forall2 commands vs (map (fun l => codes (ln_words l)) lines) /\ Forall2 agrees vs moves /\
  safe_path c mp s t previous moves.
Proof.
  revert previous moves vs; induction lines as [|line lines IH]; intros previous [|mv moves] vs H; try done.
  - injection H as <-. repeat constructor.
  - cbn [round_trip_moves] in H. apply bind_Ok in H as (v & Hv & H). apply bind_Ok in H as (vs' & Hvs & [= <-]).
    destruct (check_motion_line_spec _ _ _ _ _ _ _ _ Hv) as (C & A & W & S). destruct (IH _ _ _ Hvs) as (IC & IA & IS).
    destruct (A) as (_ & Ex & Ey & Ez & _). rewrite Ex, Ey, Ez in IS.
    split_and!; [by constructor|by constructor|by constructor].
Qed.

(** ** The whole program *)

Lemma dec_q_int n : dec_q (dec_int n) = inject_Z n.
Proof.
  rewrite <- (Qcanon.Qred_identity (inject_Z n)) by apply Z.gcd_1_r. apply Qred_complete.
  unfold Qeq, inject_Z, dec_int, dec_signed, dec_scale. cbn. destruct (n <? 0) eqn:E; bprop; lia.
Qed.

Lemma wcs_code s n : setup_wcs_number s = Ok n -> is_wcs_code (inject_Z n).
Proof.
  unfold setup_wcs_number. destruct (parse_required_wcs (bs_wcs s)) as [k|] eqn:E; [|done]. intros [= ->].
  unfold parse_required_wcs in E. destruct (chars (bs_wcs s)) as [|? [|? [|d [|? ?]]]]; try done.
  destruct (_ && _) eqn:H; [|done]. injection E as <-. apply andb_true_iff in H as [_ H].
  unfold ascii_in in H. apply andb_true_iff in H as [H1%N.leb_le H2%N.leb_le].
  change (N_of_ascii "4") with 52%N in H1. change (N_of_ascii "9") with 57%N in H2. unfold digit_value, is_wcs_code.
  assert (N_of_ascii d = 52 \/ N_of_ascii d = 53 \/ N_of_ascii d = 54 \/ N_of_ascii d = 55 \/ N_of_ascii d = 56 \/ N_of_ascii d = 57)%N
    as Hd by lia.
  rewrite !Exists_cons. by destruct Hd as [->|[->|[->|[->|[->| ->]]]]]; auto 10.
Qed.

Section Plan.
Context (mp : LinuxCNCProductionMachineProfile) (s : BoundSetup) (t : ProductionToolBinding) (rpm wcs : Z).

Definition tool_q : Q := inject_Z (tb_controller_tool_number t).
Definition length_q : Q := inject_Z (tb_length_offset_number t).
Definition speed_q : Q := inject_Z rpm.

(** To the tool change position, and the change. *)
Definition change_orders : list order :=
  [Go None None None None true None None (Some (lp_tool_change_z_um mp)) None;
   Go None None None None true (Some (lp_tool_change_x_um mp)) (Some (lp_tool_change_y_um mp)) None None;
   Load tool_q].

(** Back at clearance height, over the entry, down to the safe plane under length
    compensation, and the spindle up to speed. *)
Definition entry_orders (first : ProductionMove) : list order :=
  [Go (Some tool_q) None None None true None None (Some (lp_tool_change_z_um mp)) None;
   Go (Some tool_q) None None None true (Some (entry_machine_x_um s t first)) (Some (entry_machine_y_um s t first)) None None;
   Go (Some tool_q) None (Some length_q) (Some (inject_Z wcs)) true None None (Some (bs_safe_z_um s)) None;
   SpinUp tool_q speed_q length_q (lp_spindle_spinup_ms mp)].

(** Up to the safe plane, spindle off, and up to clearance height. *)
Definition leave_orders : list order :=
  [Go (Some tool_q) (Some speed_q) (Some length_q) (Some (inject_Z wcs)) true None None (Some (bs_safe_z_um s)) None;
   Go (Some tool_q) None None None true None None (Some (lp_tool_change_z_um mp)) None].

Definition program_orders (first : ProductionMove) (moves : list ProductionMove) : list order :=
  change_orders ++ entry_orders first ++ map (move_order (inject_Z wcs) tool_q speed_q length_q) moves ++ leave_orders.

Definition um_q (v : Z) : Q := dec_q (um_as_mm v).

Lemma preamble_codes first :
  map codes_of (expected_preamble mp s t rpm wcs first) =
  outbound_codes (um_q (lp_tool_change_z_um mp)) (um_q (lp_tool_change_x_um mp)) (um_q (lp_tool_change_y_um mp)) ++
  [[("T"%char, tool_q); ("M"%char, 6%Q)]] ++
  inbound_codes (um_q (lp_tool_change_z_um mp)) (um_q (entry_machine_x_um s t first)) (um_q (entry_machine_y_um s t first))
    length_q (inject_Z wcs) (um_q (bs_safe_z_um s)) speed_q (dec_q (ms_as_seconds (lp_spindle_spinup_ms mp))).
Proof.
  unfold expected_preamble, outbound_codes, inbound_codes. rewrite !map_app, <- !app_assoc. fold modal_codes. f_equal.
  cbn [map app]. unfold g53_z, g53_xy, g0_safe_z, codes_of, machine_z, machine_xy. cbn [map fst snd g m].
  by rewrite !dec_q_int.
Qed.

Lemma trailer_codes : map codes_of (expected_trailer mp s) = closing_codes (um_q (bs_safe_z_um s)) (um_q (lp_tool_change_z_um mp)).
Proof. unfold expected_trailer, g53_z, g0_safe_z, codes_of, closing_codes, machine_z. cbn [map fst snd g m]. by rewrite !dec_q_int. Qed.
End Plan.

Definition line_codes (lines : list ParsedLine) : list (list code) := map (fun l => codes (ln_words l)) lines.

Lemma line_codes_signatures lines sigs :
  signatures_eqb (map signature lines) sigs = true -> line_codes lines = map codes_of sigs.
Proof. apply codes_signatures. Qed.

(** What the validator has checked of an accepted program. *)
Record accepted (c : ProductionExecutionContext) (p : ProductionProgram) (mp : LinuxCNCProductionMachineProfile) (s : BoundSetup) (t : ProductionToolBinding)
    (rpm wcs : Z) (first : ProductionMove) (lines : list ParsedLine) : Prop := mkAccepted {
  ac_wcs : is_wcs_code (inject_Z wcs);
  ac_path : safe_path c mp s t (0, 0, bs_safe_z_um s) (pg_moves p);
  ac_start : mv_kind first = RAPID /\ mv_role first = POSITION /\ mv_z_um first = bs_safe_z_um s;
  ac_body : exists vs body, Forall2 agrees vs (pg_moves p) /\ Forall2 commands vs body /\
    line_codes lines = map codes_of (expected_preamble mp s t rpm wcs first) ++ body ++ map codes_of (expected_trailer mp s) }.

Lemma split_lines_of (lines : list ParsedLine) np nm nt pre trail :
  length lines = (np + nm + nt)%nat ->
  signatures_eqb (take np (map signature lines)) pre = true ->
  signatures_eqb (drop (length (map signature lines) - nt) (map signature lines)) trail = true ->
  line_codes lines = map codes_of pre ++ line_codes (take (length lines - nt - np) (drop np lines)) ++ map codes_of trail.
Proof.
  intros HL HP HT. rewrite firstn_map in HP. rewrite length_map, skipn_map in HT.
  rewrite <- (line_codes_signatures _ _ HP), <- (line_codes_signatures _ _ HT). unfold line_codes. rewrite <- !map_app. f_equal.
  rewrite <- (take_drop np lines) at 1. f_equal. rewrite <- (take_drop (length lines - nt - np) (drop np lines)) at 1. f_equal.
  rewrite drop_drop. f_equal. lia.
Qed.

(** What the validator establishes of a program it accepts. *)
Lemma validated_program payload d p mp parsed :
  validate_production_program payload d p mp = Ok parsed ->
  exists s t rpm wcs first program,
    s ∈ pe_setups (pt_execution_context d) /\ bs_setup_id s = pg_setup_id p /\
    t ∈ pe_tool_bindings (pt_execution_context d) /\ tb_tool_id t = pg_tool_id p /\
    setup_wcs_number s = Ok wcs /\ require_recipes d p s = Ok rpm /\ head (pg_moves p) = Some first /\
    parse_gcode payload = Ok program /\ pp_lines program = pr_lines parsed /\
    pr_spindle_rpm parsed = rpm /\ pr_controller_tool_number parsed = tb_controller_tool_number t /\
    accepted (pt_execution_context d) p mp s t rpm wcs first (pr_lines parsed).
Proof.
  unfold validate_production_program. intros H. do 3 (apply bind_Ok in H as (? & _ & H)).
  apply bind_Ok in H as ([s t] & HB & H). apply bind_Ok in H as (rpm & HR & H).
  apply bind_Ok in H as (text & _ & H). apply bind_Ok in H as (lines & HP & H).
  apply bind_Ok in H as (first & HF%of_option_Ok & H). do 2 (apply bind_Ok in H as (? & _ & H)).
  apply bind_Ok in H as (wcs & HW & H). apply bind_Ok in H as (? & _ & H). cbv zeta in H.
  apply bind_Ok in H as (? & HL%raise_if_Ok%negb_false_iff%bool_decide_eq_true & H).
  apply bind_Ok in H as ([] & HPre & H). apply bind_Ok in H as (? & HTr%raise_if_Ok%negb_false_iff & H).
  apply bind_Ok in H as (vs & HM & H). apply bind_Ok in H as (? & _ & [= <-]).
  exists s, t, rpm, wcs, first.
  assert (exists program, parse_gcode payload = Ok program /\ pp_lines program = lines) as (program & HG & HE).
  { unfold parse_production_program in HP. do 4 (apply bind_Ok in HP as (? & _ & HP)).
    apply bind_Ok in HP as (program & HG & HP). do 2 (apply bind_Ok in HP as (? & _ & HP)). injection HP as <-. eauto. }
  exists program. cbn [pr_lines pr_spindle_rpm pr_controller_tool_number].
  assert (s ∈ pe_setups (pt_execution_context d) /\ bs_setup_id s = pg_setup_id p /\
          t ∈ pe_tool_bindings (pt_execution_context d) /\ tb_tool_id t = pg_tool_id p) as (? & ? & ? & ?).
  { unfold require_setup_binding, the_only in HB.
    destruct (filter _ (pe_setups _)) as [|s' [|? ?]] eqn:Es in HB; try done. cbn in HB.
    destruct (filter _ (pe_tool_bindings _)) as [|t' [|? ?]] eqn:Et in HB; try done. cbn in HB.
    assert (s' = s /\ t' = t) as [-> ->] by (repeat (apply bind_Ok in HB as (? & _ & HB)); by injection HB as -> ->).
    assert (s ∈ [s]) as Hs by set_solver. assert (t ∈ [t]) as Ht by set_solver. rewrite <- Es in Hs. rewrite <- Et in Ht.
    apply list_elem_of_filter in Hs as [? ?], Ht as [? ?]. done. }
  split_and!; try done.
  unfold validate_and_round_trip_moves in HM. apply bind_Ok in HM as (first' & HF'%of_option_Ok & HM).
  rewrite HF in HF'. injection HF' as <-. apply bind_Ok in HM as (? & HS%raise_if_Ok%negb_false_iff & HM).
  apply round_trip_moves_spec in HM as (HC & HA & HPath). unfold starts_at_safe_z in HS. bprop.
  constructor; [by eapply wcs_code|done|done|]. exists vs. eexists. split; [done|]. split; [exact HC|].
  apply preamble_checked in HPre. rewrite length_map in HL. fold (line_codes (take (length lines - length (expected_trailer mp s)
    - length (expected_preamble mp s t rpm wcs first)) (drop (length (expected_preamble mp s t rpm wcs first)) lines))).
  by apply split_lines_of with (nm := length (pg_moves p)).
Qed.

(** ** Execution *)

Lemma runs_as m l es m' es' m'' :
  runs m l es m' -> plain_lines l = true -> keeps_running (removelast l) = true -> mc_ended m = false ->
  run_plain m l = (es', m'') -> es = es' /\ m' = m''.
Proof. intros R P K Hm E. rewrite (runs_plain _ _ _ _ P K Hm R) in E. by injection E. Qed.

Lemma agrees_orders wcs tool speed length vs moves :
  Forall2 agrees vs moves -> map (cut_order wcs tool speed length) vs = map (move_order wcs tool speed length) moves.
Proof. induction 1 as [|v mv vs moves A _ IH]; [done|]. cbn [map]. by rewrite IH, (agrees_order _ _ _ _ _ _ A). Qed.

Lemma near_um v : near (um_q v) v.
Proof. apply near_thousandth. Qed.

(** Every event against its order, from facts about the registers. *)
Ltac each_order :=
  repeat apply Forall2_cons_2; try apply Forall2_nil_2; cbn [obeys near_option is_some negb]; split_and!;
  try done; try (by intros [? ?]); try (intros _; congruence); try apply near_thousandth;
  try (eexists; split; [done|apply near_um]).

Section Execution.
Context (mp : LinuxCNCProductionMachineProfile) (s : BoundSetup) (t : ProductionToolBinding) (rpm wcs : Z).
Context (first : ProductionMove) (HW : is_wcs_code (inject_Z wcs)).

Lemma outbound_obeys m es m' : mc_ended m = false ->
  runs m (outbound_codes (um_q (lp_tool_change_z_um mp)) (um_q (lp_tool_change_x_um mp)) (um_q (lp_tool_change_y_um mp))) es m' ->
  Forall2 obeys (take 2 (change_orders mp t)) es /\ set_up None None m' /\ mc_ended m' = false.
Proof.
  intros Hm R. destruct (outbound_run m (um_q (lp_tool_change_z_um mp)) (um_q (lp_tool_change_x_um mp))
    (um_q (lp_tool_change_y_um mp)) Hm) as (m1 & m2 & E & S1 & S2 & F1 & F2 & E2).
  destruct (runs_as _ _ _ _ _ _ R eq_refl eq_refl Hm E) as [-> ->].
  split; [|done]. each_order.
Qed.

Lemma change_obeys m es m' : set_up None None m -> mc_ended m = false ->
  runs m [[("T"%char, tool_q t); ("M"%char, 6%Q)]] es m' ->
  Forall2 obeys [Load (tool_q t)] es /\ mc_tool m' = Some (tool_q t) /\ mc_ended m' = false.
Proof.
  intros S Hm R. inversion R as [|? ? ? e1 m1 e2 ? R1 R2]; subst. inversion R2; subst. rewrite app_nil_r.
  inversion R1; subst; [congruence|done|]. split; [|done]. constructor; [|constructor]. by destruct m.
Qed.

Lemma inbound_obeys m es m' : mc_ended m = false -> mc_tool m = Some (tool_q t) ->
  runs m (inbound_codes (um_q (lp_tool_change_z_um mp)) (um_q (entry_machine_x_um s t first))
    (um_q (entry_machine_y_um s t first)) (length_q t) (inject_Z wcs) (um_q (bs_safe_z_um s)) (speed_q rpm)
    (dec_q (ms_as_seconds (lp_spindle_spinup_ms mp)))) es m' ->
  Forall2 obeys (entry_orders mp s t rpm wcs first) es /\
  cutting (inject_Z wcs) (tool_q t) (speed_q rpm) (length_q t) m'.
Proof.
  intros Hm Ht R.
  destruct (inbound_run m (tool_q t) (um_q (lp_tool_change_z_um mp)) (um_q (entry_machine_x_um s t first))
    (um_q (entry_machine_y_um s t first)) (length_q t) (inject_Z wcs) (um_q (bs_safe_z_um s)) (speed_q rpm)
    (dec_q (ms_as_seconds (lp_spindle_spinup_ms mp))) HW Hm Ht)
    as (m1 & m2 & m3 & m4 & E & S2 & S1 & S3 & W & (T1 & T2 & T3) & (F1 & F2 & F3) & C).
  destruct (runs_as _ _ _ _ _ _ R eq_refl eq_refl Hm E) as [-> ->].
  split; [|done]. destruct C as (S4 & T4 & _).
  each_order.
Qed.

Lemma closing_obeys m es m' : cutting (inject_Z wcs) (tool_q t) (speed_q rpm) (length_q t) m ->
  runs m (closing_codes (um_q (bs_safe_z_um s)) (um_q (lp_tool_change_z_um mp))) es m' ->
  Forall2 obeys (leave_orders mp s t rpm wcs) es /\ set_up None None m' /\ mc_ended m' = true.
Proof.
  intros C R. destruct (closing_run m _ _ _ _ (um_q (bs_safe_z_um s)) (um_q (lp_tool_change_z_um mp)) C)
    as (m1 & m2 & m3 & E & S1 & S2 & S3 & (T1 & T2) & W & F1 & F2 & E3).
  assert (mc_ended m = false) as Hm by apply C.
  destruct (runs_as _ _ _ _ _ _ R eq_refl eq_refl Hm E) as [-> ->].
  split; [|done].
  each_order.
Qed.
End Execution.

Lemma accepted_executes c p mp s t rpm wcs first lines m0 es m1 :
  accepted c p mp s t rpm wcs first lines -> mc_ended m0 = false -> runs m0 (line_codes lines) es m1 ->
  Forall2 obeys (program_orders mp s t rpm wcs first (pg_moves p)) es /\ mc_ended m1 = true /\ set_up None None m1.
Proof.
  intros [HW _ _ (vs & body & HA & HC & ->)] Hm R. rewrite preamble_codes, trailer_codes, <- !app_assoc in R.
  apply runs_app in R as (e1 & ma & e' & -> & R1 & R). apply runs_app in R as (e2 & mb & e'' & -> & R2 & R).
  apply runs_app in R as (e3 & mc & e''' & -> & R3 & R). apply runs_app in R as (e4 & md & e5 & -> & R4 & R5).
  destruct (outbound_obeys mp t _ _ _ Hm R1) as (O1 & Sa & Ea). destruct (change_obeys t _ _ _ Sa Ea R2) as (O2 & Tb & Eb).
  destruct (inbound_obeys mp s t rpm wcs first HW _ _ _ Eb Tb R3) as (O3 & Cc).
  destruct (body_run _ _ _ _ vs body mc Cc HC) as (e4' & md' & E4 & O4 & Cd). destruct (body_plain vs body HC) as [P4 K4].
  assert (keeps_running (removelast body) = true) as K4'.
  { destruct body as [|b body] using rev_ind; [done|]. rewrite removelast_last. unfold keeps_running in *.
    rewrite forallb_app in K4. by apply andb_true_iff in K4 as [K4 _]. }
  assert (mc_ended mc = false) as Ec by apply Cc.
  destruct (runs_as _ _ _ _ _ _ R4 P4 K4' Ec E4) as [-> ->].
  destruct (closing_obeys mp s t rpm wcs _ _ _ Cd R5) as (O5 & S1 & E1).
  split; [|done]. unfold program_orders. replace (change_orders mp t) with (take 2 (change_orders mp t) ++ [Load (tool_q t)]) by done.
  rewrite <- app_assoc. repeat apply Forall2_app; try done.
  clear -O4 HA. by rewrite (agrees_orders _ _ _ _ _ _ HA) in O4.
Qed.

(** Every program can be run. *)
Lemma executes_total m cs : exists es m', executes m cs es m'.
Proof.
  destruct (mc_ended m) eqn:Hm; [by exists [], m; apply executes_ended|].
  destruct (has_code "M" 6 cs) eqn:H6; [|by eexists _, _; apply executes_line].
  exists [ChangeTool (loaded m cs) (mc_selected (loaded m cs))].
  destruct (loaded m cs) as [f0 f1 f2 f3 f4 f5 f6 f7 f8 f9 f10 f11 f12 f13 f14 f15 f16 f17 f18 f19 f20 f21 f22] eqn:E.
  rewrite <- E. exists (mkMachine f0 f1 f2 f3 (Some (mc_selected (loaded m cs))) f5 f6 f7 f8 f9 f10 f11 f12 f13 f14 f15 f16
    f17 f18 f19 f20 f21 false).
  by apply executes_tool_change.
Qed.

Lemma runs_total m l : exists es m', runs m l es m'.
Proof.
  revert m; induction l as [|cs l IH]; intros m; [by eexists [], m; constructor|].
  destruct (executes_total m cs) as (es & m' & H). destruct (IH m') as (es' & m'' & H').
  exists (es ++ es'), m''. by econstructor.
Qed.

(** C3: What a program does on the machine once the validator has accepted its
    text against the plan.  Whatever state the controller starts in, and
    whatever state the tool change leaves it in: the machine goes to the attested
    tool change position with the spindle off and no length compensation; changes
    to the bound tool; goes to the clearance height, over the entry point, and
    down to the safe plane under the bound length offset; brings the spindle to
    the one speed of the recipes and dwells; makes exactly the planned moves, in
    order, with the planned mode, end point and feed (to one part in 10^27), in
    the coordinate system of the setup, every modal group in its required state
    and the overrides disabled; goes up to the safe plane and, with the spindle
    off, to the clearance height; and ends.  Every planned move is inside the
    stock's safe box and, with the tool's offset, inside the machine; no rapid
    move enters the stock or crosses it below the safe plane. *)
Theorem accepted_program_executes_plan payload d p mp parsed m0 events m1 :
  validate_production_program payload d p mp = Ok parsed -> mc_ended m0 = false ->
  runs m0 (line_codes (pr_lines parsed)) events m1 ->
  exists s t rpm wcs first program,
    s ∈ pe_setups (pt_execution_context d) /\ bs_setup_id s = pg_setup_id p /\
    t ∈ pe_tool_bindings (pt_execution_context d) /\ tb_tool_id t = pg_tool_id p /\
    setup_wcs_number s = Ok wcs /\ require_recipes d p s = Ok rpm /\ head (pg_moves p) = Some first /\
    parse_gcode payload = Ok program /\ pp_lines program = pr_lines parsed /\
    Forall2 obeys (program_orders mp s t rpm wcs first (pg_moves p)) events /\
    mc_ended m1 = true /\ set_up None None m1 /\
    safe_path (pt_execution_context d) mp s t (0, 0, bs_safe_z_um s) (pg_moves p).
Proof.
  intros H Hm R. apply validated_program in H as (s & t & rpm & wcs & first & program & Hs & Es & Ht & Et & HW & HR & HF & HG & HL & _ & _ & A).
  destruct (accepted_executes _ _ _ _ _ _ _ _ _ _ _ _ A Hm R) as (O & E1 & S1).
  exists s, t, rpm, wcs, first, program. split_and!; try done. apply (ac_path _ _ _ _ _ _ _ _ _ A).
Qed.
