(* ===== verification/ProductionText.v ===== *)
(** * Reading what the production postprocessor prints

    The numerals, the words and the comments of an executable program, read back
    by the lexer of [GCode] and accepted line by line by the checks of
    [ProductionParser]. *)

From S2P Require Import Prelude Text GCode GCodeText DryRun ManufacturingModel Machining CamValidation ProductionModel ProductionProfile ProductionParser ProductionPost.

#[local] Open Scope Z_scope.

(** A property of characters, checked for all 256 of them. *)
Lemma for_all_chars (P : ascii -> bool) :
  forallb (fun n => P (ascii_of_N (N.of_nat n))) (seq 0 256) = true -> forall c, P c = true.
Proof.
  intros H c. rewrite forallb_forall in H. rewrite <- (ascii_N_embedding c), <- (N2Nat.id (N_of_ascii c)).
  apply H, in_seq. pose proof (N_ascii_bounded c). lia.
Qed.

Lemma chars_imply (P Q : ascii -> bool) :
  forallb (fun n => let c := ascii_of_N (N.of_nat n) in implb (P c) (Q c)) (seq 0 256) = true ->
  forall c, P c = true -> Q c = true.
Proof.
  intros H c HP. pose proof (for_all_chars (fun c => implb (P c) (Q c)) H c) as E. cbn in E. by rewrite HP in E.
Qed.

(** ** Numerals *)

Definition number_char (c : ascii) : bool := is_digit c || bool_decide (c ∈ ["."; "-"]%char).

(** The characters of [l] are the numeral of [d], whatever follows. *)
Record numeral_of (l : list ascii) (d : Decimal) : Prop := mkNumeral {
  nu_reads : forall rest, stops rest -> match_number (l ++ rest) = Some (d, rest);
  nu_chars : Forall (fun c => number_char c = true) l;
  nu_nonempty : l <> [] }.

Definition negated (d : Decimal) : Decimal := mkDecimal true (dec_coefficient d) (dec_places d).

Lemma digits_numeral whole frac :
  digits whole -> whole <> [] -> digits frac ->
  numeral_of (numeral whole frac) (mkDecimal false (dec_value (whole ++ frac)) (length frac)).
Proof.
  intros Hw Hn Hf. assert (forall l, digits l -> Forall (fun c => number_char c = true) l) as D.
  { intros l Hl. eapply Forall_impl; [exact Hl|]. intros c Hc. unfold number_char. by rewrite Hc. }
  constructor.
  - intros rest Hr. by apply match_number_numeral.
  - unfold numeral. apply Forall_app. split; [by apply D|]. destruct frac; [constructor|]. constructor; [done|by apply D].
  - unfold numeral. by destruct whole.
Qed.

Lemma match_negative l d rest :
  match l with c :: _ => is_digit c = true | [] => False end ->
  match_number (l ++ rest) = Some (d, rest) -> match_number ("-"%char :: l ++ rest) = Some (negated d, rest).
Proof.
  destruct l as [|c l]; [done|]. intros Hc. destruct (digit_not_sign c Hc) as (N1 & N2 & _). cbn [app].
  unfold match_number. rewrite (bool_decide_true ("-"%char = "-"%char)) by done.
  rewrite (bool_decide_false (c = "-"%char)), (bool_decide_false (c = "+"%char)) by done.
  destruct (span_digits (c :: l ++ rest)) as [whole [|e rest']].
  - case_bool_decide; [done|]. by intros [= <- <-].
  - case_bool_decide.
    + destruct (span_digits rest') as [fraction rest'']. destruct (_ && _); [done|]. by intros [= <- <-].
    + case_bool_decide; [done|]. by intros [= <- <-].
Qed.

Lemma negative_numeral whole frac :
  digits whole -> whole <> [] -> digits frac ->
  numeral_of ("-"%char :: numeral whole frac) (mkDecimal true (dec_value (whole ++ frac)) (length frac)).
Proof.
  intros Hw Hn Hf. destruct (digits_numeral whole frac Hw Hn Hf) as [R C _]. constructor; [|by constructor|done].
  intros rest Hr. cbn [app]. specialize (R rest Hr). apply match_negative in R; [exact R|].
  unfold numeral. destruct whole as [|c whole]; [done|]. by apply Forall_cons in Hw as [Hc _].
Qed.

(** [f"{value:.3f}"] reads as the quotient the plan's number is compared with. *)
Lemma three_decimals_numeral v : numeral_of (chars (three_decimals v)) (thousandth v).
Proof.
  unfold three_decimals, thousandth, dec_round. cbn [dec_negative dec_coefficient dec_places]. cbv zeta.
  set (c := round_coefficient (Z.to_N (Z.abs v))).
  pose proof (N.div_mod c 1000 ltac:(lia)) as E. pose proof (N.mod_lt c 1000 ltac:(lia)) as B.
  destruct (pretty_N_digits (c / 1000)%N) as [D V].
  set (whole := chars (pretty (c / 1000)%N)) in *. set (frac := chars (zero_padded 3 (c mod 1000)%N)).
  assert (dec_value frac = (c mod 1000)%N) as VF
    by (unfold frac, zero_padded; rewrite chars_zeros, dec_value_zeros; apply pretty_N_digits).
  assert (digits frac) as DF by apply zero_padded_digits.
  assert (length frac = 3%nat) as LF by (unfold frac; apply zero_padded_length; [lia|exact B]).
  assert (whole <> []) as NE.
  { intros H. rewrite H in V. unfold whole in H. rewrite <- V in H. done. }
  assert (dec_value (whole ++ frac) = c) as VC by (rewrite dec_value_app, V, VF, LF; change (10 ^ N.of_nat 3)%N with 1000%N; lia).
  assert (numeral whole frac = whole ++ "."%char :: frac) as NW by (unfold numeral; by destruct frac).
  rewrite !chars_app. fold whole frac. change (chars "." ++ frac) with ("."%char :: frac). rewrite <- NW.
  pose proof (negative_numeral whole frac D NE DF) as P1. pose proof (digits_numeral whole frac D NE DF) as P2.
  rewrite VC, LF in P1, P2. by destruct (v <? 0).
Qed.

Lemma integer_numeral n : 0 <= n -> numeral_of (chars (str_of_Z n)) (dec_int n).
Proof.
  intros Hn. destruct (str_of_Z_digits n Hn) as (N & D & V).
  pose proof (digits_numeral _ [] D N (Forall_nil_2 _)) as H. unfold numeral in H. rewrite !app_nil_r, V in H.
  unfold dec_int. rewrite (proj2 (Z.ltb_ge n 0)), Z.abs_eq by done. exact H.
Qed.

(** ** Lines of words *)

Definition capital (c : ascii) : bool := ascii_in "A" "Z" c.
Definition code_char (c : ascii) : bool := number_char c || capital c || bool_decide (c = " "%char).

Definition word_text : Type := ascii * list ascii * Decimal.
Definition good_word (w : word_text) : Prop := let '(letter, text, d) := w in capital letter = true /\ numeral_of text d.

(** Words with a space between them. *)
Fixpoint line_of (ws : list word_text) : list ascii :=
  match ws with
  | [] => []
  | [(letter, text, _)] => letter :: text
  | (letter, text, _) :: rest => letter :: text ++ " "%char :: line_of rest
  end.

Definition words_of (ws : list word_text) : list GCodeWord := map (fun '(letter, _, d) => mkWord letter d) ws.

Lemma capital_letter c : capital c = true -> is_letter c = true /\ upper_char c = c /\ is_space c = false.
Proof.
  intros H. split_and!.
  - revert c H. by apply chars_imply.
  - apply (bool_decide_unpack _), Is_true_true. revert c H.
    by apply (chars_imply capital (fun c => bool_decide (upper_char c = c))).
  - apply negb_true_iff. revert c H. by apply (chars_imply capital (fun c => negb (is_space c))).
Qed.

Lemma line_of_chars ws : Forall good_word ws -> Forall (fun c => code_char c = true) (line_of ws).
Proof.
  assert (forall letter text d, good_word (letter, text, d) -> Forall (fun c => code_char c = true) (letter :: text)) as W.
  { intros letter text d [HL [_ HC _]]. constructor; [unfold code_char; by rewrite HL, orb_true_r|].
    eapply Forall_impl; [exact HC|]. intros c Hc. unfold code_char. by rewrite Hc. }
  induction 1 as [|[[letter text] d] ws Hw Hws IH]; [constructor|]. apply W in Hw. destruct ws as [|w ws]; [done|].
  cbn [line_of]. rewrite app_comm_cons. apply Forall_app. split; [done|]. constructor; [done|exact IH].
Qed.

Lemma line_of_cons letter text d ws : ws <> [] ->
  line_of ((letter, text, d) :: ws) = letter :: text ++ " "%char :: line_of ws.
Proof. by destruct ws. Qed.

Lemma drop_spaces_line ws : Forall good_word ws -> drop_spaces (line_of ws) = line_of ws.
Proof.
  destruct 1 as [|[[letter text] d] ws [HL _] _]; [done|]. destruct (capital_letter letter HL) as (_ & _ & L).
  by destruct ws; cbn [line_of drop_spaces]; rewrite L.
Qed.

Lemma parse_line_of ws rest fuel n :
  Forall good_word ws -> (length (line_of ws) <= fuel)%nat -> drop_spaces rest = line_of ws ->
  parse_words_from (S fuel) n rest = Ok (words_of ws).
Proof.
  intros F. revert rest fuel; induction F as [|[[letter text] d] ws Hw Hws IH]; intros rest fuel Hl E.
  { cbn [parse_words_from]. by rewrite E. }
  destruct Hw as [HL [R HC HN]]. destruct (capital_letter letter HL) as (L1 & L2 & _).
  destruct (decide (ws = [])) as [->|Hne].
  - cbn [line_of] in E, Hl. rewrite (next_word _ _ _ (mkWord letter d) []); rewrite ?E; [|done|].
    + cbn [length] in Hl. destruct fuel; [lia|]. done.
    + unfold match_word. rewrite L1, <- (app_nil_r text), R by done. by rewrite L2.
  - rewrite line_of_cons in E, Hl by done. cbn [length] in Hl. rewrite length_app in Hl. cbn [length] in Hl.
    rewrite (next_word _ _ _ (mkWord letter d) (" "%char :: line_of ws)); rewrite ?E; [|done|].
    + destruct fuel as [|fuel]; [lia|]. rewrite (IH (" "%char :: line_of ws) fuel); [done|lia|].
      cbn [drop_spaces]. change (is_space " ") with true. by apply drop_spaces_line.
    + unfold match_word. by rewrite L1, R, L2 by done.
Qed.

(** ** Lines the validator accepts *)

Lemma code_char_facts c : code_char c = true ->
  plain_char c = true /\ printable c = true /\ upper_char c = c.
Proof.
  intros H. split_and!; [| |apply (bool_decide_unpack _), Is_true_true]; revert c H.
  - by apply chars_imply.
  - by apply chars_imply.
  - by apply (chars_imply code_char (fun c => bool_decide (upper_char c = c))).
Qed.

Lemma plain_not_in l c : forallb plain_char l = true -> c ∈ ["("; ")"; ";"]%char -> c ∉ l.
Proof.
  intros H Hc Hl. rewrite forallb_forall in H. apply list_elem_of_In, H in Hl. unfold plain_char in Hl.
  by apply negb_true_iff, bool_decide_eq_false in Hl.
Qed.

(** A line of text, the words it reads as, and the checks it passes. *)
Record good_line (raw : list ascii) (ws : list GCodeWord) : Prop := mkGoodLine {
  gl_reads : reads raw ws;
  gl_printable : Forall (fun c => printable c = true) raw;
  gl_strip : strip_chars raw = raw;
  gl_nonempty : raw <> [];
  gl_canonical : forall n, require_canonical_line (n, raw) = Ok () }.

Lemma map_upper_id l : Forall (fun c => upper_char c = c) l -> map upper_char l = l.
Proof. induction 1 as [|c l Hc _ IH]; [done|]. cbn [map]. by rewrite Hc, IH. Qed.

Lemma canonical_code n line :
  (length line <= LINUXCNC_FILE_MAX_LINE_BYTES)%nat -> forallb plain_char line = true -> map upper_char line = line ->
  require_canonical_line (n, line) = Ok ().
Proof.
  intros HL HP HU. unfold require_canonical_line, unsafe_if.
  rewrite (bool_decide_false (LINUXCNC_FILE_MAX_LINE_BYTES < length line)%nat) by (apply Nat.le_ngt, HL).
  rewrite (bool_decide_false (";"%char ∈ line)), (bool_decide_false ("("%char ∈ line)), (bool_decide_false (")"%char ∈ line))
    by (apply plain_not_in; [done|set_solver]).
  rewrite HU. cbn [raise_if mbind result_bind orb]. rewrite (bool_decide_true (line = line)) by done. done.
Qed.

Lemma ends_in_number ws : Forall good_word ws -> ws <> [] ->
  exists l c, line_of ws = l ++ [c] /\ number_char c = true.
Proof.
  induction 1 as [|[[letter text] d] ws [HL [R HC HN]] Hws IH]; intros Hne; [done|].
  destruct (decide (ws = [])) as [->|Hn].
  - cbn [line_of]. destruct text as [|c text _] using rev_ind; [done|]. apply Forall_app in HC as [_ [HC _]%Forall_cons].
    by exists (letter :: text), c.
  - rewrite line_of_cons by done. destruct (IH Hn) as (l & c & -> & Hc). exists (letter :: text ++ " "%char :: l), c.
    split; [|done]. cbn [app]. by rewrite <- app_assoc.
Qed.

Lemma code_line ws :
  Forall good_word ws -> ws <> [] -> (length (line_of ws) <= LINUXCNC_FILE_MAX_LINE_BYTES)%nat ->
  good_line (line_of ws) (words_of ws).
Proof.
  intros F Hne HL. pose proof (line_of_chars ws F) as C.
  assert (forallb plain_char (line_of ws) = true) as HP.
  { apply forallb_forall. intros c Hc%list_elem_of_In. rewrite Forall_forall in C. by apply code_char_facts, C. }
  assert (starts_with_space (line_of ws) = false) as HS.
  { destruct F as [|[[letter text] d] ws' [HC _] _]; [done|]. destruct (capital_letter letter HC) as (_ & _ & L).
    by destruct ws'. }
  assert (starts_with_space (rev (line_of ws)) = false) as HR.
  { destruct (ends_in_number ws F Hne) as (l & c & -> & Hc). rewrite rev_app_distr. cbn.
    apply negb_true_iff. revert c Hc. by apply (chars_imply number_char (fun c => negb (is_space c))). }
  assert (line_of ws <> []) as HN by (destruct F as [|[[letter text] d] ws' _ _]; [done|by destruct ws']).
  assert (line_of ws <> ["%"%char]) as HQ by (intros E; rewrite E in C; by apply Forall_cons in C as [? _]).
  constructor; [|by eapply Forall_impl; [exact C|]; intros c Hc; apply code_char_facts|by apply strip_chars_id|done|].
  - apply code_reads; try done.
    + by destruct ws.
    + intros n. apply parse_line_of; [done|lia|by apply drop_spaces_line].
  - intros n. apply canonical_code; [done|done|]. apply map_upper_id. eapply Forall_impl; [exact C|].
    intros c Hc. by apply code_char_facts.
Qed.

(** ** Comments *)

(** A value the comments of a program may have. *)
Definition clean (value : string) : bool := forallb comment_value_char (chars value) && nonempty (chars value).

Lemma comment_value_facts c : comment_value_char c = true ->
  c <> "("%char /\ c <> ")"%char /\ c <> ";"%char /\ printable c = true /\ safe_comment_char c = c.
Proof.
  intros H. split_and!; [apply (bool_decide_unpack _), Is_true_true..| |apply (bool_decide_unpack _), Is_true_true]; revert c H.
  - by apply (chars_imply comment_value_char (fun c => bool_decide (c <> "("%char))).
  - by apply (chars_imply comment_value_char (fun c => bool_decide (c <> ")"%char))).
  - by apply (chars_imply comment_value_char (fun c => bool_decide (c <> ";"%char))).
  - by apply chars_imply.
  - by apply (chars_imply comment_value_char (fun c => bool_decide (safe_comment_char c = c))).
Qed.

Lemma clean_chars value : forallb comment_value_char (chars value) = true -> safe_comment value = value.
Proof.
  unfold safe_comment. intros H. rewrite forallb_forall in H.
  rewrite <- (String.string_of_list_ascii_of_string value) at 2. fold (of_chars (String.list_ascii_of_string value)).
  f_equal. rewrite <- (map_id (String.list_ascii_of_string value)). apply map_ext_in. intros c Hc. by apply comment_value_facts, H.
Qed.

Lemma clean_comment value : clean value = true -> safe_comment value = value.
Proof. intros [H _]%andb_true_iff. by apply clean_chars. Qed.

Lemma comment_chars key value : chars (comment key value) = "("%char :: (chars key ++ "="%char :: chars value) ++ [")"%char].
Proof. unfold comment. rewrite !chars_app. cbn [app]. by rewrite <- app_assoc. Qed.

Lemma after_prefix_app p rest : after_prefix p (p ++ rest) = Some rest.
Proof. induction p as [|c p IH]; [done|]. cbn. by rewrite bool_decide_true. Qed.

Lemma comment_keys_clean key : key ∈ COMMENT_KEYS -> forallb comment_value_char (chars key) = true.
Proof.
  intros H. assert (forallb (fun k => forallb comment_value_char (chars k)) COMMENT_KEYS = true) as A by (vm_compute; reflexivity).
  rewrite forallb_forall in A. by apply A, list_elem_of_In.
Qed.

Lemma dynamic_comment_of key value :
  key ∈ COMMENT_KEYS -> clean value = true -> dynamic_comment (chars (comment key value)) = true.
Proof.
  intros HK HV. rewrite comment_chars. cbn [dynamic_comment]. rewrite bool_decide_true by done. cbn [andb].
  apply existsb_exists. exists key. split; [by apply list_elem_of_In|]. unfold matches_comment_of.
  rewrite chars_app. change (chars "=") with ["="%char].
  replace ((chars key ++ "="%char :: chars value) ++ [")"%char]) with ((chars key ++ ["="%char]) ++ (chars value ++ [")"%char]))
    by by rewrite <- !app_assoc.
  rewrite after_prefix_app, rev_app_distr. cbn [rev app]. rewrite bool_decide_true by done. cbn [andb].
  unfold clean in HV. apply andb_true_iff in HV as [HC HN]. rewrite forallb_forall in HC. apply andb_true_iff. split.
  - destruct (chars value) as [|c l _] using rev_ind; [done|]. by rewrite rev_app_distr.
  - apply forallb_forall. intros c Hc%in_rev. by apply HC.
Qed.

(** What is between the parentheses. *)
Definition comment_body (l : list ascii) : Prop :=
  Forall (fun c => c <> "("%char /\ c <> ")"%char /\ c <> ";"%char /\ printable c = true) l.

Lemma clean_body key value : key ∈ COMMENT_KEYS -> clean value = true -> comment_body (chars key ++ "="%char :: chars value).
Proof.
  intros HK%comment_keys_clean HV. unfold clean in HV. apply andb_true_iff in HV as [HV _].
  assert (forall l, forallb comment_value_char l = true -> comment_body l) as B.
  { intros l Hl. apply Forall_forall. intros c Hc. rewrite forallb_forall in Hl. apply list_elem_of_In, Hl in Hc.
    apply comment_value_facts in Hc. tauto. }
  apply Forall_app. split; [by apply B|]. constructor; [done|by apply B].
Qed.

Lemma body_line body :
  comment_body body -> (length body + 2 <= LINUXCNC_FILE_MAX_LINE_BYTES)%nat ->
  ("("%char :: body ++ [")"%char] ∈ map chars STATIC_COMMENTS \/ dynamic_comment ("("%char :: body ++ [")"%char]) = true) ->
  good_line ("("%char :: body ++ [")"%char]) [].
Proof.
  intros B HL HC. unfold comment_body in B. rewrite Forall_forall in B.
  assert (forall c, c ∈ "("%char :: body ++ [")"%char] -> c <> ";"%char /\ printable c = true) as A.
  { intros c [->|[Hc|Hc]%elem_of_app]%elem_of_cons; [done| |].
    - destruct (B c Hc) as (_ & _ & ? & ?). done.
    - by apply list_elem_of_singleton in Hc as ->. }
  constructor.
  - apply comment_reads; intros Hc; by destruct (B _ Hc) as (? & ? & _).
  - apply Forall_forall. intros c Hc. by apply A.
  - apply strip_chars_id; [done|]. by rewrite app_comm_cons, rev_app_distr.
  - done.
  - intros n. unfold require_canonical_line, unsafe_if. set (line := "("%char :: body ++ [")"%char]) in *.
    assert (length line = (length body + 2)%nat) as E by (unfold line; cbn [length]; rewrite length_app; cbn; lia).
    rewrite (bool_decide_false (LINUXCNC_FILE_MAX_LINE_BYTES < length line)%nat) by (rewrite E; apply Nat.le_ngt, HL).
    rewrite (bool_decide_false (";"%char ∈ line)) by (intros Hc; by destruct (A _ Hc)).
    rewrite (bool_decide_true ("("%char ∈ line)) by (unfold line; set_solver). cbn [raise_if mbind result_bind orb].
    destruct HC as [HC|HC].
    + by rewrite bool_decide_false by (intros N; by apply N).
    + rewrite HC. by rewrite andb_false_r.
Qed.

Lemma comment_line key value :
  key ∈ COMMENT_KEYS -> clean value = true -> (String.length (comment key value) <= LINUXCNC_FILE_MAX_LINE_BYTES)%nat ->
  good_line (chars (comment key value)) [].
Proof.
  intros HK HV HL. pose proof (dynamic_comment_of key value HK HV) as D. rewrite <- length_chars in HL.
  rewrite comment_chars in *. apply body_line; [by apply clean_body| |by right].
  cbn [length] in HL. rewrite length_app in HL. cbn [length] in HL. etransitivity; [|exact HL]. lia.
Qed.

Lemma percent_line : good_line ["%"%char] [].
Proof. constructor; [apply percent_reads|by repeat constructor|done|done|]. intros n. reflexivity. Qed.

Lemma static_line text : text ∈ STATIC_COMMENTS -> good_line (chars text) [].
Proof.
  intros H. assert (exists body, chars text = "("%char :: body ++ [")"%char] /\ comment_body body /\
    (length body + 2 <= LINUXCNC_FILE_MAX_LINE_BYTES)%nat) as (body & E & B & L).
  { unfold STATIC_COMMENTS in H.
    repeat (apply elem_of_cons in H as [->|H];
      [match goal with |- context [chars ?t] => exists (removelast (tail (chars t))) end;
       split; [reflexivity|]; split; [apply (bool_decide_unpack _); vm_compute; reflexivity|apply Nat.leb_le; vm_compute; reflexivity]|]).
    by apply elem_of_nil in H. }
  rewrite E. apply body_line; [done|done|]. left. rewrite <- E. by apply list_elem_of_fmap_2.
Qed.

(** ** Whole texts *)

Lemma text_of_app l1 l2 : text_of (l1 ++ l2) = text_of l1 ++ text_of l2.
Proof. unfold text_of. by rewrite map_app, concat_app. Qed.

Lemma text_of_snoc raws l : take (length (text_of (raws ++ [l])) - 1) (text_of (raws ++ [l])) = text_of raws ++ l.
Proof.
  rewrite text_of_app. unfold text_of at 2 4. cbn [map concat]. rewrite app_nil_r, app_assoc, length_app. cbn [length].
  replace (length (text_of raws ++ l) + 1 - 1)%nat with (length (text_of raws ++ l)) by lia. by rewrite take_app_length.
Qed.

Lemma split_lines_last raws l :
  printable_lines raws -> Forall (fun c => printable c = true) l -> split_lines (text_of raws ++ l) = raws ++ [l].
Proof.
  intros H Hl. induction H as [|r raws Hr _ IH].
  - cbn. unfold split_lines. induction Hl as [|c l Hc _ IHl]; [done|]. cbn [split_char].
    rewrite bool_decide_false by by apply printable_not_newline. by rewrite IHl.
  - unfold text_of. cbn [map concat]. rewrite <- !app_assoc. cbn [app]. rewrite split_lines_cons by done.
    unfold text_of in IH. by rewrite IH.
Qed.

Section Text.
Context (raws : list (list ascii)) (wss : list (list GCodeWord)) (F : Forall2 good_line raws wss) (Hne : raws <> []).
Local Notation text := (text_of raws).

Lemma raws_good : Forall (fun raw => exists ws, good_line raw ws) raws.
Proof. clear Hne. induction F; constructor; eauto. Qed.

Lemma raws_printable : printable_lines raws.
Proof. eapply Forall_impl; [apply raws_good|]. intros raw (ws & G). apply (gl_printable _ _ G). Qed.

Lemma good_ascii : ascii_text (of_chars text) = Ok text.
Proof. unfold ascii_text. rewrite chars_of_chars. destruct (text_bytes raws raws_printable) as [-> _]. done. Qed.

Lemma good_lexical : require_canonical_lexical_form text = Ok ().
Proof.
  unfold require_canonical_lexical_form, unsafe_if. destruct (text_bytes raws raws_printable) as [_ HB].
  destruct (exists_last Hne) as (raws' & l & ER). rewrite HB. cbn [raise_if mbind result_bind].
  assert (last text = Some newline) as HL.
  { rewrite ER, text_of_app. unfold text_of at 2. cbn [map concat]. by rewrite app_nil_r, app_assoc, last_snoc. }
  rewrite HL, (bool_decide_true (Some newline = Some newline)) by done.
  rewrite bool_decide_false.
  2:{ intros Hc. apply not_true_iff_false in HB. apply HB, existsb_exists. exists (ascii_of_N 13).
      split; [by apply list_elem_of_In|done]. }
  pose proof raws_printable as HP. rewrite ER in HP. apply Forall_app in HP as [HP1 [HP2 _]%Forall_cons].
  pose proof raws_good as HG. rewrite ER in HG.
  cbn [orb negb mbind result_bind raise_if]. cbv zeta. rewrite ER, text_of_snoc, split_lines_last by done.
  assert (existsb (fun line => bool_decide (line = []) || negb (bool_decide (line = strip_chars line))) (raws' ++ [l]) = false) as ->.
  { apply not_true_iff_false. intros (r & Hr%list_elem_of_In & E)%existsb_exists. rewrite Forall_forall in HG.
    destruct (HG r Hr) as (ws & G). rewrite (gl_strip _ _ G), bool_decide_false in E by apply (gl_nonempty _ _ G).
    by rewrite bool_decide_true in E. }
  cbn [mbind result_bind raise_if]. apply check_all_Ok, Forall_forall. intros [n r] Hr.
  rewrite Forall_forall in HG. assert (r ∈ raws' ++ [l]) as Hin.
  { rewrite <- (numbered_snd (raws' ++ [l])). by apply (list_elem_of_fmap_2 snd _ (n, r)). }
  destruct (HG r Hin) as (ws & G). apply (gl_canonical _ _ G).
Qed.

Lemma good_splitlines : splitlines text = raws.
Proof. apply splitlines_text, raws_printable. Qed.

Lemma good_nonblank : nonblank_lines text = raws.
Proof.
  unfold nonblank_lines. rewrite good_splitlines. pose proof raws_good as HG. clear -HG.
  induction HG as [|r raws (ws & G) _ IH]; [done|]. cbn [map]. rewrite (gl_strip _ _ G), filter_cons.
  rewrite decide_True by apply (gl_nonempty _ _ G). by rewrite IH.
Qed.

Lemma good_parse : exists program, parse_gcode (of_chars text) = Ok program /\
  map ln_words (pp_lines program) = filter (fun ws => ws <> []) wss /\ NoDup (map ln_number (pp_lines program)).
Proof.
  exists (parsed_program wss). split_and!.
  - apply parse_text; [apply raws_printable|]. eapply Forall2_impl; [exact F|]. intros r w G. apply (gl_reads _ _ G).
  - apply parsed_words.
  - unfold parsed_program. rewrite read_all_lines. cbn [app pp_lines empty_program]. rewrite map_map. cbn [ln_number].
    assert (NoDup (map fst (numbered wss))) as N.
    { unfold numbered. rewrite fst_zip; [apply NoDup_seqZ|]. rewrite length_seqZ. lia. }
    revert N. generalize (numbered wss) as l. clear. induction l as [|[n ws] l IH]; [done|]. cbn [map fst].
    intros [H1 H2]%NoDup_cons. rewrite filter_cons. case_decide; [|by apply IH]. cbn [map fst]. constructor; [|by apply IH].
    intros (x & E & [_ Hx]%list_elem_of_filter)%list_elem_of_fmap. apply H1. rewrite E. by apply list_elem_of_fmap_2.
Qed.
End Text.

(** ** The length of numerals *)

Definition small (v : Z) : Prop := Z.abs v < 10 ^ 24.

Lemma pretty_length w n : (0 < w)%nat -> (n < 10 ^ N.of_nat w)%N -> (length (chars (pretty n)) <= w)%nat.
Proof.
  intros Hw Hn. pose proof (zero_padded_length w n Hw Hn) as E. unfold zero_padded in E.
  rewrite chars_zeros, length_app, length_replicate in E. lia.
Qed.

Lemma integer_length n : 0 <= n -> small n -> (length (chars (str_of_Z n)) <= 24)%nat.
Proof.
  intros Hn Hs. rewrite str_of_Z_pretty by done. apply pretty_length; [lia|]. unfold small in Hs.
  rewrite Z.abs_eq in Hs by done. change (10 ^ N.of_nat 24)%N with (Z.to_N (10 ^ 24)). lia.
Qed.

Lemma round_small c : (c < CONTEXT_LIMIT)%N -> round_coefficient c = c.
Proof. intros H. unfold round_coefficient. by apply N.ltb_lt in H as ->. Qed.

Lemma small_coefficient v : small v -> (Z.to_N (Z.abs v) < CONTEXT_LIMIT)%N.
Proof. unfold small, CONTEXT_LIMIT. intros H. change (10 ^ 28)%N with (Z.to_N (10 ^ 28)). lia. Qed.

Lemma decimals_length v : small v -> (length (chars (three_decimals v)) <= 29)%nat.
Proof.
  intros Hs. unfold three_decimals. rewrite round_small by by apply small_coefficient. cbv zeta. rewrite !chars_app, !length_app.
  set (c := Z.to_N (Z.abs v)). assert (c < 10 ^ N.of_nat 24)%N as Hc
    by (unfold c, small in *; change (10 ^ N.of_nat 24)%N with (Z.to_N (10 ^ 24)); lia).
  assert (c / 1000 <= c)%N as Hd by (apply N.Div0.div_le_upper_bound; lia).
  pose proof (pretty_length 24 (c / 1000) ltac:(lia) ltac:(lia)) as L1.
  pose proof (N.mod_lt c 1000 ltac:(lia)) as Hm.
  pose proof (zero_padded_length 3 (c mod 1000) ltac:(lia) Hm) as L2.
  assert (length (chars (if (v <? 0)%Z then "-" else "")) <= 1)%nat as L3 by (destruct (v <? 0); cbn; lia).
  change (length (chars ".")) with 1%nat. lia.
Qed.

(** A word of which a line can have eight. *)
Definition fit_word (w : word_text) : Prop := good_word w /\ (length (snd (fst w)) <= 29)%nat.

Definition lit (letter : ascii) (n : Z) : word_text := (letter, chars (str_of_Z n), dec_int n).
Definition in_mm (letter : ascii) (v : Z) : word_text := (letter, chars (three_decimals v), thousandth v).
Arguments lit (letter)%_char_scope n.
Arguments in_mm (letter)%_char_scope v.

Lemma lit_fits letter n : capital letter = true -> 0 <= n -> small n -> fit_word (lit letter n).
Proof.
  intros HL Hn Hs. split; [split; [done|by apply integer_numeral]|]. cbn [lit fst snd].
  pose proof (integer_length n Hn Hs). lia.
Qed.

Lemma mm_fits letter v : capital letter = true -> small v -> fit_word (in_mm letter v).
Proof. intros HL Hs. split; [split; [done|apply three_decimals_numeral]|by apply decimals_length]. Qed.

Lemma line_length ws : Forall fit_word ws -> (length (line_of ws) <= 31 * length ws)%nat.
Proof.
  induction 1 as [|[[letter text] d] ws [_ HL] _ IH]; [done|]. cbn [fst snd] in HL.
  destruct (decide (ws = [])) as [->|Hne]; [cbn [line_of length]; lia|].
  rewrite line_of_cons by done. cbn [length]. rewrite length_app. cbn [length]. lia.
Qed.

Lemma fit_line ws : Forall fit_word ws -> (0 < length ws <= 8)%nat -> good_line (line_of ws) (words_of ws).
Proof.
  intros F HL. apply code_line; [eapply Forall_impl; [exact F|]; by intros w []|by destruct ws; [cbn in HL; lia|]|].
  pose proof (line_length ws F). unfold LINUXCNC_FILE_MAX_LINE_BYTES. lia.
Qed.
