(* ===== verification/ProductionLines.v ===== *)
(** * The lines of a printed program

    The header, the executable lines and the lines of the moves that
    [ProductionPost] prints, each with the words it reads as. *)

From S2P Require Import Prelude Text GCode GCodeText DryRun Identity ManufacturingModel Machining CamValidation ProductionModel ProductionProfile ProductionParser ProductionPost ProductionText.

#[local] Open Scope Z_scope.

(** ** The header *)

Section Header.
Context (d : ProductionToolpathDocument) (p : ProductionProgram) (mp : LinuxCNCProductionMachineProfile).
Context (s : BoundSetup) (t : ProductionToolBinding) (first : ProductionMove).

(** The keys and values of the comments after the four fixed ones. *)
Definition header_entries : list (string * string) :=
  let c := pt_execution_context d in
  let um := str_of_Z in
  [("DESIGN_HASH", pt_design_hash d);
   ("TOOLPATH_DOCUMENT_SHA256", toolpaths_fingerprint d);
   ("MACHINE_PROFILE", pe_machine_profile_id c +:+ "@" +:+ pe_machine_profile_version c);
   ("MACHINE_PROFILE_SHA256", pt_machine_profile_fingerprint d);
   ("LINUXCNC_PRODUCTION_PROFILE", lp_profile_id mp +:+ "@" +:+ lp_version mp);
   ("LINUXCNC_PRODUCTION_PROFILE_SHA256", config_sha256 mp);
   ("LINUXCNC_RUNTIME_CONTRACT_SHA256", runtime_contract_sha256 (lp_runtime_contract mp));
   ("POSTPROCESSOR", LINUXCNC_PRODUCTION_POSTPROCESSOR_ID +:+ "@" +:+ LINUXCNC_PRODUCTION_POSTPROCESSOR_VERSION);
   ("PRODUCTION_PARSER", PRODUCTION_GCODE_PARSER_VERSION);
   ("PRODUCTION_SAFETY_VALIDATOR", PRODUCTION_GCODE_SAFETY_VALIDATOR_VERSION);
   ("PROGRAM_ID", pg_program_id p);
   ("RUN_ORDER", um (pg_run_order p));
   ("SETUP_ID", pg_setup_id p);
   ("STOCK_ID", bs_stock_id s);
   ("SHEET_INDEX", um (bs_sheet_index s));
   ("SETUP_SIDE", side_value (bs_side s));
   ("SOURCE_MATERIAL_ID", bs_source_material_id s);
   ("SOURCE_MATERIAL_VERSION", bs_source_material_version s);
   ("ACTUAL_MATERIAL_ID", bs_material_id s);
   ("ACTUAL_MATERIAL_VERSION", bs_material_version s);
   ("MATERIAL_EVIDENCE_ID", bs_material_evidence_id s);
   ("MATERIAL_EVIDENCE_VERSION", bs_material_evidence_version s);
   ("MATERIAL_EVIDENCE_SHA256", bs_material_evidence_sha256 s);
   ("STOCK_THICKNESS_UM", um (bs_stock_thickness_um s));
   ("SETUP_WCS", bs_wcs s);
   ("WCS_MACHINE_ORIGIN_X_UM", um (p2_x_um (bs_machine_wcs_origin s)));
   ("WCS_MACHINE_ORIGIN_Y_UM", um (p2_y_um (bs_machine_wcs_origin s)));
   ("WCS_MACHINE_ORIGIN_Z_UM", um (bs_machine_wcs_z0_um s));
   ("WCS_MACHINE_XY_ROTATION_MDEG", um (bs_machine_wcs_xy_rotation_mdeg s));
   ("REFERENCE_SURFACE", bs_reference_surface s);
   ("SAFE_Z_UM", um (bs_safe_z_um s));
   ("PROGRAM_ENTRY_MACHINE_X_UM", um (entry_machine_x_um s t first));
   ("PROGRAM_ENTRY_MACHINE_Y_UM", um (entry_machine_y_um s t first));
   ("G53_TOOL_CHANGE_PATH", lp_g53_tool_change_path mp);
   ("G53_TOOL_CHANGE_CLEARANCE_EVIDENCE_SHA256", lp_g53_tool_change_path_clearance_evidence_sha256 mp);
   ("WCS_OFFSETS_EVIDENCE_SHA256", lp_wcs_offsets_evidence_sha256 mp);
   ("G52_G92_OFFSET_RESET_POLICY", lp_g52_g92_offset_reset_policy mp);
   ("G52_G92_OFFSET_RESET_EVIDENCE_SHA256", lp_g52_g92_offset_reset_evidence_sha256 mp);
   ("FEED_SPINDLE_OVERRIDE_POLICY", lp_feed_spindle_override_policy mp);
   ("FEED_SPINDLE_OVERRIDE_EVIDENCE_SHA256", lp_feed_spindle_override_evidence_sha256 mp);
   ("EXTERNAL_AXIS_OFFSET_POLICY", lp_external_axis_offset_policy mp);
   ("EXTERNAL_AXIS_OFFSET_EVIDENCE_SHA256", lp_external_axis_offset_evidence_sha256 mp);
   ("HOMING_PREFLIGHT_POLICY", lp_homing_preflight_policy mp);
   ("HOMING_PREFLIGHT_EVIDENCE_SHA256", lp_homing_preflight_evidence_sha256 mp);
   ("PROGRAM_RESTART_POLICY", lp_program_restart_policy mp);
   ("PROGRAM_RESTART_EVIDENCE_SHA256", lp_program_restart_evidence_sha256 mp);
   ("M6_TOOL_TABLE_POLICY", lp_m6_tool_table_policy mp);
   ("M6_TOOL_TABLE_EVIDENCE_SHA256", lp_m6_tool_table_evidence_sha256 mp);
   ("M6_WCS_TABLE_POLICY", lp_m6_wcs_table_policy mp);
   ("M6_WCS_TABLE_EVIDENCE_SHA256", lp_m6_wcs_table_evidence_sha256 mp);
   ("METRIC_XYZ_IDENTITY_KINEMATICS_POLICY", lp_metric_xyz_identity_kinematics_policy mp);
   ("METRIC_XYZ_IDENTITY_KINEMATICS_EVIDENCE_SHA256", lp_metric_xyz_identity_kinematics_evidence_sha256 mp);
   ("EXACTLY_THREE_JOINTS_VERIFIED", "TRUE");
   ("SPINDLE_AT_SPEED_POLICY", lp_spindle_at_speed_policy mp);
   ("SPINDLE_FEEDBACK_SOURCE", lp_spindle_feedback_source mp);
   ("SPINDLE_AT_SPEED_TOLERANCE_PPM", um (lp_spindle_at_speed_tolerance_ppm mp));
   ("SPINDLE_AT_SPEED_EVIDENCE_SHA256", lp_spindle_at_speed_evidence_sha256 mp);
   ("CONTINUOUS_SPINDLE_SPEED_INTERLOCK_POLICY", lp_continuous_spindle_speed_interlock_policy mp);
   ("CONTINUOUS_SPINDLE_SPEED_INTERLOCK_EVIDENCE_SHA256",
    lp_continuous_spindle_speed_interlock_evidence_sha256 mp);
   ("SPINDLE_DWELL_ROLE", SPINDLE_DWELL_ROLE);
   ("FIXTURE", bs_fixture_id s +:+ "@" +:+ bs_fixture_version s);
   ("FIXTURE_SHA256", bs_fixture_sha256 s);
   ("TOOL_ID", pg_tool_id p +:+ "@" +:+ pg_tool_version p);
   ("CONTROLLER_TOOL_NUMBER", um (tb_controller_tool_number t));
   ("LENGTH_OFFSET_NUMBER", um (tb_length_offset_number t));
   ("EXPECTED_LENGTH_OFFSET_X_UM", um (tb_expected_length_offset_x_um t));
   ("EXPECTED_LENGTH_OFFSET_Y_UM", um (tb_expected_length_offset_y_um t));
   ("EXPECTED_LENGTH_OFFSET_Z_UM", um (tb_expected_length_offset_z_um t));
   ("TOOL_TABLE_EVIDENCE_SHA256", tb_tool_table_evidence_sha256 t)].

Lemma header_is_entries :
  expected_header d p mp s t first = "%" :: STATIC_COMMENTS ++ map (fun kv => comment (fst kv) (snd kv)) header_entries.
Proof. reflexivity. Qed.

Lemma header_keys : Forall (fun kv => fst kv ∈ COMMENT_KEYS) header_entries.
Proof.
  unfold header_entries.
  repeat (apply Forall_cons; split; [cbn [fst]; apply (bool_decide_unpack _); vm_compute; reflexivity|]). constructor.
Qed.

(** An entry that fits a line. *)
Definition clean_entry (kv : string * string) : bool :=
  clean (snd kv) && (String.length (comment (fst kv) (snd kv)) <=? LINUXCNC_FILE_MAX_LINE_BYTES)%nat.

Context (HC : Forall (fun kv => clean_entry kv = true) header_entries).

Lemma clean_at (i : nat) key value : header_entries !! i = Some (key, value) -> clean value = true.
Proof. intros E. pose proof (Forall_lookup_1 _ _ _ _ HC E) as H. by apply andb_true_iff in H as [H _]. Qed.

(** The parts of [a@b] *)
Lemma clean_parts a b : clean (a +:+ "@" +:+ b) = true -> safe_comment a = a /\ safe_comment b = b.
Proof.
  unfold clean. rewrite !chars_app, !forallb_app. intros [[H1 [_ H2]%andb_true_iff]%andb_true_iff _]%andb_true_iff.
  by split; apply clean_chars.
Qed.

Lemma printed_header : header mp d p s t (entry_machine_x_um s t first) (entry_machine_y_um s t first)
                       = expected_header d p mp s t first.
Proof.
  destruct (clean_parts _ _ (clean_at 62 _ _ eq_refl)) as [E1 E2].
  unfold header, expected_header. rewrite E1, E2. unfold postprocessor_id, version.
  rewrite (clean_comment _ (clean_at 10 _ _ eq_refl)), (clean_comment _ (clean_at 12 _ _ eq_refl)),
    (clean_comment _ (clean_at 13 _ _ eq_refl)), (clean_comment _ (clean_at 16 _ _ eq_refl)),
    (clean_comment _ (clean_at 17 _ _ eq_refl)), (clean_comment _ (clean_at 18 _ _ eq_refl)),
    (clean_comment _ (clean_at 19 _ _ eq_refl)), (clean_comment _ (clean_at 20 _ _ eq_refl)),
    (clean_comment _ (clean_at 21 _ _ eq_refl)).
  reflexivity.
Qed.

Lemma header_lines : Forall2 good_line (map chars (expected_header d p mp s t first)) (replicate 74 []).
Proof.
  rewrite header_is_entries, map_cons, map_app. change (replicate 74 []) with ([] :: replicate 4 [] ++ replicate 69 (@nil GCodeWord)).
  apply Forall2_cons_2; [apply percent_line|]. apply Forall2_app.
  - unfold STATIC_COMMENTS. cbn [map replicate]. repeat (apply Forall2_cons; split; [apply static_line; set_solver|]). constructor.
  - rewrite map_map. change 69%nat with (length header_entries). generalize header_keys, HC. generalize header_entries as l. clear.
    induction l as [|[k v] l IH]; intros HK HC; [constructor|]. apply Forall_cons in HK as [K HK], HC as [C HC].
    cbn [map length replicate]. constructor; [|by apply IH]. cbn [fst snd] in *. apply andb_true_iff in C as [C L%Nat.leb_le].
    by apply comment_line.
Qed.
End Header.

(** ** The executable lines *)

(** The elements of a list one by one, and the words of a line. *)
Ltac each_element := repeat first [apply Forall_nil_2 | apply Forall_cons_2].
Ltac fits := first [done | by apply mm_fits | apply lit_fits; [done|lia|try done; unfold small; lia]].

Definition g921_word : word_text := ("G"%char, chars "92.1", g921).
Definition modal_texts : list (list word_text) :=
  [[lit "G" 21]; [lit "G" 8]; [lit "G" 17; lit "G" 40; lit "G" 49; lit "G" 80; lit "G" 90; lit "G" 94; lit "G" 97];
   [lit "G" 61]; [lit "M" 5]; [lit "M" 9]; [lit "M" 49]; [lit "M" 52; lit "P" 0]; [lit "M" 53; lit "P" 1]; [g921_word]].

Definition signature_words (sig : word_signature) : list GCodeWord := map (fun lv => mkWord (fst lv) (snd lv)) sig.

Section Lines.
Context (mp : LinuxCNCProductionMachineProfile) (s : BoundSetup) (t : ProductionToolBinding) (rpm wcs : Z).
Context (first : ProductionMove).

Definition z_text : list word_text := [lit "G" 53; lit "G" 0; in_mm "Z" (lp_tool_change_z_um mp)].
Definition xy_text (x y : Z) : list word_text := [lit "G" 53; lit "G" 0; in_mm "X" x; in_mm "Y" y].
Definition safe_z_text : list word_text := [lit "G" 0; in_mm "Z" (bs_safe_z_um s)].

Definition opening_texts : list (list word_text) :=
  modal_texts ++
  [z_text; xy_text (lp_tool_change_x_um mp) (lp_tool_change_y_um mp);
   [lit "T" (tb_controller_tool_number t); lit "M" 6]] ++
  modal_texts ++
  [z_text; xy_text (entry_machine_x_um s t first) (entry_machine_y_um s t first);
   [lit "G" 43; lit "H" (tb_length_offset_number t)]; [lit "G" wcs]; safe_z_text; [lit "S" rpm; lit "M" 3];
   [lit "G" 4; in_mm "P" (lp_spindle_spinup_ms mp)]].

Definition closing_texts : list (list word_text) :=
  [safe_z_text; [lit "M" 5]; [lit "M" 9]; [lit "G" 49]; z_text; [lit "M" 2]].

Definition move_texts (mv : ProductionMove) : list word_text :=
  [lit "G" (motion_number (mv_kind mv)); in_mm "X" (mv_x_um mv); in_mm "Y" (mv_y_um mv); in_mm "Z" (mv_z_um mv)] ++
  match mv_kind mv, mv_feed_um_min mv with LINEAR, Some feed => [in_mm "F" feed] | _, _ => [] end.

Lemma opening_signatures :
  map words_of opening_texts = map signature_words (expected_preamble mp s t rpm wcs first).
Proof. reflexivity. Qed.

Lemma closing_signatures : map words_of closing_texts = map signature_words (expected_trailer mp s).
Proof. reflexivity. Qed.

(** The numbers of the fixed lines fit. *)
Record small_numbers : Prop := mkSmall {
  sn_tool_change : small (lp_tool_change_x_um mp) /\ small (lp_tool_change_y_um mp) /\ small (lp_tool_change_z_um mp);
  sn_entry : small (entry_machine_x_um s t first) /\ small (entry_machine_y_um s t first);
  sn_safe_z : small (bs_safe_z_um s);
  sn_dwell : small (lp_spindle_spinup_ms mp);
  sn_tool : 0 <= tb_controller_tool_number t /\ small (tb_controller_tool_number t);
  sn_length : 0 <= tb_length_offset_number t /\ small (tb_length_offset_number t);
  sn_speed : 0 <= rpm /\ small rpm }.

Lemma modal_lines : Forall (fun ws => Forall fit_word ws /\ (0 < length ws <= 8)%nat) modal_texts.
Proof.
  assert (fit_word g921_word) as G.
  { split; [split; [done|]|cbn; lia]. apply (digits_numeral ["9"; "2"]%char ["1"%char]); [by repeat constructor|done|by repeat constructor]. }
  unfold modal_texts. each_element. all: split; [each_element; fits|cbn; lia].
Qed.

Context (HW : setup_wcs_number s = Ok wcs) (HS : small_numbers).

Lemma wcs_text : chars (bs_wcs s) = line_of [lit "G" wcs] /\ 54 <= wcs <= 59.
Proof.
  unfold setup_wcs_number in HW. destruct (parse_required_wcs (bs_wcs s)) as [k|] eqn:E; [|done]. injection HW as ->.
  unfold parse_required_wcs in E. destruct (chars (bs_wcs s)) as [|a [|b [|e [|? ?]]]]; try done.
  destruct (_ && _) eqn:H; [|done]. injection E as <-. apply andb_true_iff in H as [[->%bool_decide_eq_true ->%bool_decide_eq_true]%andb_true_iff H].
  unfold ascii_in in H. apply andb_true_iff in H as [H1%N.leb_le H2%N.leb_le].
  change (N_of_ascii "4") with 52%N in H1. change (N_of_ascii "9") with 57%N in H2.
  rewrite <- (ascii_N_embedding e) at 1. unfold digit_value.
  assert (N_of_ascii e = 52 \/ N_of_ascii e = 53 \/ N_of_ascii e = 54 \/ N_of_ascii e = 55 \/ N_of_ascii e = 56 \/ N_of_ascii e = 57)%N
    as Hd by lia.
  by destruct Hd as [->|[->|[->|[->|[->| ->]]]]].
Qed.

Lemma opening_lines : Forall (fun ws => Forall fit_word ws /\ (0 < length ws <= 8)%nat) opening_texts.
Proof.
  destruct HS as [(T1 & T2 & T3) (E1 & E2) Z1 D1 [N1 N1'] [N2 N2'] [N3 N3']]. destruct wcs_text as [_ W].
  unfold opening_texts. rewrite !Forall_app. split_and!; try apply modal_lines.
  all: each_element. all: split; [unfold z_text, xy_text, safe_z_text; each_element; fits|cbn; lia].
Qed.

Lemma closing_lines : Forall (fun ws => Forall fit_word ws /\ (0 < length ws <= 8)%nat) closing_texts.
Proof.
  destruct HS as [(T1 & T2 & T3) _ Z1 _ _ _ _].
  unfold closing_texts. each_element. all: split; [unfold z_text, safe_z_text; each_element; fits|cbn; lia].
Qed.

Lemma opening_printed :
  map chars (opening mp s t (entry_machine_x_um s t first) (entry_machine_y_um s t first) rpm
               (three_decimals (lp_spindle_spinup_ms mp))) = map line_of opening_texts.
Proof.
  destruct wcs_text as [E _]. unfold opening, opening_texts. rewrite !map_app. apply (f_equal2 app); [reflexivity|]. apply (f_equal2 app).
  - unfold g53_z_line, g53_xy_line, format_mm. cbn [map]. rewrite !chars_app. reflexivity.
  - apply (f_equal2 app); [reflexivity|]. unfold g53_z_line, g53_xy_line, ProductionPost.safe_z_line, format_mm. cbn [map]. rewrite E, !chars_app. reflexivity.
Qed.

Lemma closing_printed : map chars (closing mp s) = map line_of closing_texts ++ [["%"%char]].
Proof.
  unfold closing, closing_texts, g53_z_line, ProductionPost.safe_z_line, format_mm. cbn [map app]. rewrite !chars_app. reflexivity.
Qed.
End Lines.

(** ** The lines of the moves *)

(** A move that can be written on a line. *)
Record printable_move (mv : ProductionMove) : Prop := mkPrintable {
  pm_operation : clean_entry ("OPERATION_ID", mv_operation_id mv) = true;
  pm_numbers : small (mv_x_um mv) /\ small (mv_y_um mv) /\ small (mv_z_um mv);
  pm_feed : match mv_kind mv, mv_feed_um_min mv with
            | RAPID, None => True | LINEAR, Some feed => small feed | _, _ => False
            end }.

Lemma move_texts_fit mv : printable_move mv -> Forall fit_word (move_texts mv) /\ (0 < length (move_texts mv) <= 8)%nat.
Proof.
  intros [_ (N1 & N2 & N3) HF]. unfold move_texts. destruct (mv_kind mv), (mv_feed_um_min mv) as [feed|]; try done.
  all: cbn [app motion_number]; split; [|cbn; lia]; each_element; fits.
Qed.

Lemma move_line_printed mv : printable_move mv -> exists line, move_line mv = Ok line /\ chars line = line_of (move_texts mv).
Proof.
  intros [_ _ HF]. unfold move_line, move_texts, format_mm.
  destruct (mv_kind mv), (mv_feed_um_min mv) as [feed|]; try done; eexists; (split; [reflexivity|]);
    rewrite !chars_app; cbn [app line_of in_mm lit]; rewrite <- ?app_assoc; reflexivity.
Qed.

(** Code and comments, by their first character. *)
Definition code_raw (raw : list ascii) : Prop := exists c l, raw = c :: l /\ capital c = true.

Lemma line_of_code ws : Forall fit_word ws -> (0 < length ws)%nat -> code_raw (line_of ws).
Proof.
  intros F HL. destruct F as [|[[letter text] d] ws [[HC _] _] _]; [cbn in HL; lia|].
  destruct ws as [|w ws]; by eexists _, _.
Qed.

Lemma code_raw_facts raw : code_raw raw ->
  is_comment_line raw = false /\ operation_of_comment raw = None /\ raw <> ["%"%char] /\
  forall marker, marker ∈ STATIC_COMMENTS -> raw <> chars marker.
Proof.
  intros (c & l & -> & Hc). assert (c <> "("%char /\ c <> "%"%char) as [N1 N2] by (by split; intros ->).
  split_and!; [| |congruence|].
  - unfold is_comment_line. change (chars "(") with ["("%char]. cbn [after_prefix]. by rewrite bool_decide_false by congruence.
  - unfold operation_of_comment. change (chars "(OPERATION_ID=") with ("("%char :: chars "OPERATION_ID="). cbn [after_prefix].
    by rewrite bool_decide_false by congruence.
  - intros marker HM E. unfold STATIC_COMMENTS in HM.
    repeat (apply elem_of_cons in HM as [->|HM]; [injection E as -> _; done|]). by apply elem_of_nil in HM.
Qed.

Lemma dynamic_facts key value : key ∈ COMMENT_KEYS -> clean value = true ->
  is_comment_line (chars (comment key value)) = true /\ chars (comment key value) <> ["%"%char] /\
  forall marker, marker ∈ STATIC_COMMENTS -> chars (comment key value) <> chars marker.
Proof.
  intros HK HV. pose proof (dynamic_comment_of key value HK HV) as D. split_and!.
  - by rewrite comment_chars.
  - intros E. by rewrite E in D.
  - intros marker HM E. rewrite E in D. unfold STATIC_COMMENTS in HM.
    repeat (apply elem_of_cons in HM as [->|HM]; [vm_compute in D; discriminate D|]). by apply elem_of_nil in HM.
Qed.

Lemma operation_comment id : operation_of_comment (chars (comment "OPERATION_ID" id)) = Some (chars id).
Proof.
  rewrite comment_chars. unfold operation_of_comment.
  replace ("("%char :: (chars "OPERATION_ID" ++ "="%char :: chars id) ++ [")"%char])
    with (chars "(OPERATION_ID=" ++ (chars id ++ [")"%char])) by by rewrite <- app_assoc.
  rewrite after_prefix_app, rev_app_distr. cbn [rev app]. rewrite bool_decide_true by done. by rewrite rev_involutive.
Qed.

Fixpoint body_words (previous : string) (moves : list ProductionMove) : list (list GCodeWord) :=
  match moves with
  | [] => []
  | mv :: rest =>
      (if bool_decide (mv_operation_id mv = previous) then [] else [[]]) ++
      words_of (move_texts mv) :: body_words (mv_operation_id mv) rest
  end.

(** What the checks of the whole text need of the body. *)
Definition plain_raw (raw : list ascii) : Prop :=
  raw <> ["%"%char] /\ forall marker, marker ∈ STATIC_COMMENTS -> raw <> chars marker.

Lemma code_plain raw : code_raw raw -> plain_raw raw.
Proof. intros H. by apply code_raw_facts in H as (_ & _ & ? & ?). Qed.

Lemma omap_app_raw {A B} (f : A -> option B) l1 l2 : omap f (l1 ++ l2) = omap f l1 ++ omap f l2.
Proof. induction l1 as [|x l1 IH]; [done|]. cbn. rewrite IH. by destruct (f x). Qed.

Lemma move_lines_good previous moves : Forall printable_move moves ->
  exists body, move_lines previous moves = Ok body /\
    Forall2 good_line (map chars body) (body_words previous moves) /\
    List.filter is_comment_line (map chars body)
      = map (fun id => chars (comment "OPERATION_ID" id)) (operation_sequence previous moves) /\
    omap operation_of_comment (map chars body) = map chars (operation_sequence previous moves) /\
    Forall plain_raw (map chars body).
Proof.
  intros F. revert previous; induction F as [|mv moves P _ IH]; intros previous; [by exists []|].
  destruct (move_line_printed mv P) as (line & HL & EL). destruct (IH (mv_operation_id mv)) as (body & HB & G & C & O & R).
  pose proof (move_texts_fit mv P) as [HF HN]. pose proof (line_of_code _ HF ltac:(lia)) as HC. rewrite <- EL in HC.
  destruct (code_raw_facts _ HC) as (K1 & K2 & _). pose proof (fit_line _ HF HN) as HG. rewrite <- EL in HG.
  destruct P as [PO _ _]. pose proof PO as PO'. unfold clean_entry in PO. cbn [fst snd] in PO. apply andb_true_iff in PO as [PC PL%Nat.leb_le].
  assert ("OPERATION_ID" ∈ COMMENT_KEYS) as HK by (apply (bool_decide_unpack _); vm_compute; reflexivity).
  cbn [move_lines]. rewrite HL, HB. cbn [mbind result_bind]. eexists. split; [reflexivity|].
  cbn [body_words operation_sequence]. rewrite (clean_comment _ PC).
  destruct (decide (mv_operation_id mv = previous)) as [E|E].
  - rewrite bool_decide_true by done. cbn [app map negb List.filter omap list_omap]. rewrite K1, K2. subst previous. split_and!.
    + by constructor.
    + done.
    + done.
    + constructor; [by apply code_plain|done].
  - rewrite bool_decide_false by done. cbn [app map negb List.filter omap list_omap].
    destruct (dynamic_facts "OPERATION_ID" (mv_operation_id mv) HK PC) as (D1 & D2 & D3).
    rewrite K1, K2, D1, operation_comment. split_and!.
    + constructor; [by apply comment_line|]. by constructor.
    + by rewrite C.
    + f_equal. exact O.
    + constructor; [done|]. constructor; [by apply code_plain|done].
Qed.
