(* ===== verification/ProductionAccepted.v ===== *)
(** * A printed program is accepted

    The validator of [ProductionParser] accepts the text [ProductionPost] prints
    for a plan that fits the machine, and reads the planned moves back from it. *)

From S2P Require Import Prelude Text GCode GCodeText DryRun Identity ManufacturingModel Machining CamValidation ProductionModel ProductionProfile ProductionParser ProductionPost ProductionMachine ProductionSafety ProductionText ProductionLines.

#[local] Open Scope Z_scope.

(** ** Reading a number back *)

Lemma word_um_small words letter n v :
  values_of letter words = [thousandth v] -> small v -> word_um words letter n = Ok v.
Proof.
  intros E Hs. unfold word_um. rewrite E. cbv zeta. unfold thousandth, dec_round, dec_thousand. cbn [dec_negative dec_coefficient dec_places].
  rewrite (round_small (Z.to_N (Z.abs v))) by by apply small_coefficient. unfold dec_round. cbn [dec_negative dec_coefficient dec_places].
  rewrite round_small by (unfold small, CONTEXT_LIMIT in *; change (10 ^ 28)%N with (Z.to_N (10 ^ 28)); lia).
  set (d := mkDecimal (v <? 0) (1000 * Z.to_N (Z.abs v)) 3).
  assert (dec_scale d = 1000) as S by done.
  assert (dec_signed d = v * 1000) as V by (unfold d, dec_signed; cbn; destruct (v <? 0) eqn:Es; bprop; lia).
  unfold dec_trunc. rewrite S, V, Z.mod_mul, Z.quot_mul by lia. done.
Qed.

Lemma move_values mv : printable_move mv ->
  values_of "G" (words_of (move_texts mv)) = [dec_int (motion_number (mv_kind mv))] /\
  values_of "X" (words_of (move_texts mv)) = [thousandth (mv_x_um mv)] /\
  values_of "Y" (words_of (move_texts mv)) = [thousandth (mv_y_um mv)] /\
  values_of "Z" (words_of (move_texts mv)) = [thousandth (mv_z_um mv)] /\
  values_of "F" (words_of (move_texts mv)) = match mv_feed_um_min mv with Some f => [thousandth f] | None => [] end.
Proof. intros [_ _ HF]. unfold move_texts. by destruct (mv_kind mv), (mv_feed_um_min mv). Qed.

Definition parsed_move (n : Z) (mv : ProductionMove) : ParsedProductionMove :=
  mkParsedMove n (mv_kind mv) (mv_x_um mv) (mv_y_um mv) (mv_z_um mv) (mv_feed_um_min mv).

Lemma read_printed_move n mv : printable_move mv ->
  read_motion (mkLine n (words_of (move_texts mv))) mv = Ok (parsed_move n mv).
Proof.
  intros P. destruct (move_values mv P) as (VG & VX & VY & VZ & VF). destruct P as [_ (N1 & N2 & N3) HF].
  unfold read_motion. cbn [ln_number ln_words]. cbv zeta.
  assert (py_set_eq (map w_letter (words_of (move_texts mv))) (letters_of (mv_kind mv)) = true) as ->.
  { unfold move_texts. by destruct (mv_kind mv), (mv_feed_um_min mv). }
  rewrite VG. assert (list_eqb dec_eqb [dec_int (motion_number (mv_kind mv))] [dec_int (motion_number (mv_kind mv))] = true) as ->
    by by destruct (mv_kind mv).
  cbn [negb unsafe_if raise_if mbind result_bind]. rewrite !(word_um_small _ _ _ _ VX), !(word_um_small _ _ _ _ VY), !(word_um_small _ _ _ _ VZ) by done.
  cbn [mbind result_bind]. unfold parsed_move. destruct (mv_kind mv), (mv_feed_um_min mv) as [feed|]; try done.
  by rewrite (word_um_small _ _ _ _ VF).
Qed.

Lemma check_printed_move c mp s t previous n mv :
  printable_move mv -> within_limits c mp s t mv -> clear_of_stock s previous mv ->
  check_motion_line c mp s t previous (mkLine n (words_of (move_texts mv))) mv = Ok (parsed_move n mv).
Proof.
  intros P W C. unfold check_motion_line. rewrite read_printed_move by done. cbn [mbind result_bind].
  unfold within_limits in W. destruct previous as [[px py] pz].
  assert (check_setup_bounds c s (parsed_move n mv) = Ok ()) as ->.
  { unfold check_setup_bounds, unsafe_if, parsed_move. cbn [pv_x_um pv_y_um pv_z_um pv_line_number].
    repeat (rewrite (proj2 (Z.leb_le _ _)) by lia). repeat (rewrite (proj2 (Z.ltb_ge _ _)) by lia). done. }
  assert (check_machine_bounds mp s t (parsed_move n mv) = Ok ()) as ->.
  { unfold check_machine_bounds, unsafe_if, parsed_move. cbn [pv_x_um pv_y_um pv_z_um pv_line_number].
    repeat (rewrite (proj2 (Z.leb_le _ _)) by lia). done. }
  assert (check_travel s (px, py, pz) (parsed_move n mv) (mv_role mv) = Ok ()) as ->.
  { unfold clear_of_stock in C. unfold check_travel, unsafe_if, parsed_move. cbn [pv_x_um pv_y_um pv_z_um pv_line_number pv_kind pv_feed_um_min].
    destruct (mv_kind mv).
    - destruct C as (C1 & C2 & C3 & C4). rewrite (proj2 (Z.ltb_ge _ 0)) by lia. cbn [raise_if mbind result_bind].
      assert ((negb (mv_x_um mv =? px) || negb (mv_y_um mv =? py)) &&
              ((pz <? bs_safe_z_um s) || (mv_z_um mv <? bs_safe_z_um s)) = false) as ->
        by (apply andb_false_iff; destruct (mv_x_um mv =? px) eqn:E1, (mv_y_um mv =? py) eqn:E2; bprop; [by left|right..]; apply orb_false_iff; lia).
      assert ((mv_z_um mv <? bs_safe_z_um s) && negb (bool_decide (mv_role mv ∈ [APPROACH; PECK_RETRACT])) = false) as ->.
      { destruct (mv_z_um mv <? bs_safe_z_um s) eqn:E; [|done]. bprop. by rewrite bool_decide_true by by apply C3. }
      assert (bool_decide (mv_role mv = RETRACT) && negb (mv_z_um mv =? bs_safe_z_um s) = false) as ->.
      { case_bool_decide as E; [|done]. rewrite (C4 E), Z.eqb_refl. done. }
      done.
    - destruct C as (feed & -> & Hf). by rewrite (proj2 (Z.leb_gt _ _)) by lia. }
  cbn [mbind result_bind]. unfold parsed_move. cbn [pv_x_um pv_y_um pv_z_um pv_feed_um_min].
  by rewrite bool_decide_true.
Qed.

Lemma list_cons_inj {A} (x y : A) l k : x :: l = y :: k -> x = y /\ l = k.
Proof. by intros [= -> ->]. Qed.

Lemma round_trip_printed c mp s t previous lines moves :
  Forall printable_move moves -> safe_path c mp s t previous moves ->
  map ln_words lines = map (fun mv => words_of (move_texts mv)) moves ->
  round_trip_moves c mp s t previous lines moves
    = Ok (zip_with (fun line mv => parsed_move (ln_number line) mv) lines moves).
Proof.
  intros F. revert previous lines; induction F as [|mv moves P _ IH]; intros previous lines S E.
  - by destruct lines.
  - destruct lines as [|[n ws] lines]; [done|]. cbn [map ln_words] in E. apply list_cons_inj in E as [-> E].
    inversion S; subst.
    cbn [round_trip_moves]. rewrite check_printed_move by done. cbn [mbind result_bind]. rewrite IH by done. done.
Qed.

(** ** The modal state along the program *)

Section Walk.
Context (mp : LinuxCNCProductionMachineProfile) (safe_z_um entry_x_um entry_y_um : Z).

(** A line's effect on the modal state, before the check of planned motion. *)
Definition modal_effect (line : ParsedLine) (st : modal_state) : result modal_state :=
  st ← modal_preflight line st;
  st ← modal_positions mp entry_x_um entry_y_um line st;
  st ← modal_tool_change mp (ln_words line) (modal_switches (ln_words line) st);
  st ← modal_length mp (ln_words line) st;
  st ← modal_spindle safe_z_um (ln_words line) st;
  modal_dwell (ln_words line) st.

Local Notation modal_line := (modal_line mp safe_z_um entry_x_um entry_y_um).

Lemma modal_line_outside bn line st st' :
  modal_effect line st = Ok st' -> ln_number line ∉ bn -> modal_line bn st line = Ok st'.
Proof.
  unfold modal_effect, ProductionParser.modal_line. intros H Hn. repeat (apply bind_Ok in H as (? & -> & H); cbn [mbind result_bind]).
  rewrite H. cbn [mbind result_bind]. by rewrite bool_decide_false.
Qed.

Lemma modal_line_inside bn line st st' :
  modal_effect line st = Ok st' -> spindle_on st' = true -> spindle_spinup_complete st' = true ->
  modal_line bn st line = Ok st'.
Proof.
  unfold modal_effect, ProductionParser.modal_line. intros H H1 H2. repeat (apply bind_Ok in H as (? & -> & H); cbn [mbind result_bind]).
  rewrite H. cbn [mbind result_bind]. rewrite H1, H2. cbn [negb orb]. rewrite andb_false_r. by case_bool_decide.
Qed.

(** Lines that are not planned motion. *)
Inductive walk : modal_state -> list (list GCodeWord) -> modal_state -> Prop :=
  | walk_nil st : walk st [] st
  | walk_cons st ws st' wss st'' :
      (forall n, modal_effect (mkLine n ws) st = Ok st') -> walk st' wss st'' -> walk st (ws :: wss) st''.

Lemma walk_app st wss1 st' wss2 st'' : walk st wss1 st' -> walk st' wss2 st'' -> walk st (wss1 ++ wss2) st''.
Proof. induction 1 as [|? ? ? ? ? H _ IH]; [done|]. intros W. econstructor; [exact H|by apply IH]. Qed.

Lemma walk_fold bn st wss st' lines :
  walk st wss st' -> map ln_words lines = wss -> Forall (fun l => ln_number l ∉ bn) lines ->
  foldM (modal_line bn) st lines = Ok st'.
Proof.
  intros W. revert lines; induction W as [|st ws st' wss st'' H _ IH]; intros lines E F; [by destruct lines|].
  destruct lines as [|[n ws'] lines]; [done|]. cbn [map ln_words] in E. apply list_cons_inj in E as [-> E].
  apply Forall_cons in F as [Hn F]. cbn [foldM]. rewrite (modal_line_outside bn _ _ _ (H n) Hn). by apply IH.
Qed.

Lemma updated_small words letter n before v :
  values_of letter words = [thousandth v] -> small v -> updated_um words letter n before = Ok (Some v).
Proof.
  intros E Hs. unfold updated_um, has_letter. rewrite E. cbn [nonempty]. by rewrite (word_um_small _ _ _ _ E Hs).
Qed.

(** The state with every mode settled. *)
Definition ready_state (on loaded compensated spun reasserted reached : bool) (wz x y z : option Z) : modal_state :=
  mkModal on loaded compensated spun true true true true true true true reasserted reached wz x y z.

(** The state before the modes are settled. *)
Definition raw_state (loaded reasserted reached : bool) (wz x y z : option Z) : modal_state :=
  mkModal false loaded false false false false false false false false false reasserted reached wz x y z.

Ltac one_line := intros n; lazy; reflexivity.

Lemma modal_walk loaded reasserted reached wz x y z :
  walk (raw_state loaded reasserted reached wz x y z) (map words_of modal_texts)
    (ready_state false loaded false false reasserted reached wz x y z).
Proof. unfold modal_texts. cbn [map]. do 9 (eapply walk_cons; [one_line|]). eapply walk_cons; [|apply walk_nil]. one_line. Qed.

Definition machine_z_words (v : Z) : list GCodeWord := words_of [lit "G" 53; lit "G" 0; in_mm "Z" v].
Definition machine_xy_words (x y : Z) : list GCodeWord := words_of [lit "G" 53; lit "G" 0; in_mm "X" x; in_mm "Y" y].
Definition safe_words (v : Z) : list GCodeWord := words_of [lit "G" 0; in_mm "Z" v].

Lemma machine_z_line loaded compensated spun reasserted reached wz x y z v n :
  small v ->
  modal_effect (mkLine n (machine_z_words v)) (ready_state false loaded compensated spun reasserted reached wz x y z)
  = Ok (ready_state false loaded compensated spun
          (reasserted || true && loaded && bool_decide (Some v = Some (lp_tool_change_z_um mp))) reached wz x y (Some v)).
Proof.
  intros Hs. unfold modal_effect, modal_positions. cbn [ln_words ln_number].
  pose proof (updated_small (machine_z_words v) "Z" n z v eq_refl Hs) as E.
  change (modal_preflight _ _) with (Ok (ready_state false loaded compensated spun reasserted reached wz x y z)).
  cbn [mbind result_bind current_machine_x_um current_machine_y_um current_machine_z_um ready_state].
  change (among "G" (dec_int 53) (machine_z_words v)) with true. cbv iota.
  change (updated_um (machine_z_words v) "X" n x) with (Ok x). change (updated_um (machine_z_words v) "Y" n y) with (Ok y).
  cbn [mbind result_bind]. rewrite E. cbn [mbind result_bind]. by destruct loaded, compensated, spun.
Qed.

Lemma machine_xy_line loaded reasserted reached wz x y z vx vy n :
  small vx -> small vy ->
  (loaded = true -> reasserted = true /\ z = Some (lp_tool_change_z_um mp)) ->
  modal_effect (mkLine n (machine_xy_words vx vy)) (ready_state false loaded false false reasserted reached wz x y z)
  = Ok (ready_state false loaded false false reasserted
          (if loaded then bool_decide (Some vx = Some entry_x_um) && bool_decide (Some vy = Some entry_y_um) else reached)
          wz (Some vx) (Some vy) z).
Proof.
  intros Hx Hy HL. unfold modal_effect, modal_positions. cbn [ln_words ln_number].
  pose proof (updated_small (machine_xy_words vx vy) "X" n x vx eq_refl Hx) as EX.
  pose proof (updated_small (machine_xy_words vx vy) "Y" n y vy eq_refl Hy) as EY.
  change (modal_preflight _ _) with (Ok (ready_state false loaded false false reasserted reached wz x y z)).
  cbn [mbind result_bind current_machine_x_um current_machine_y_um current_machine_z_um ready_state].
  change (among "G" (dec_int 53) (machine_xy_words vx vy)) with true. cbv iota. rewrite EX, EY. cbn [mbind result_bind].
  change (updated_um (machine_xy_words vx vy) "Z" n z) with (Ok z). cbn [mbind result_bind].
  destruct loaded; [|by destruct reasserted]. destruct HL as [-> ->]; [done|].
  change (has_letter "X" (machine_xy_words vx vy)) with true. cbn [andb orb tool_loaded post_m6_clearance_z_reasserted].
  rewrite (bool_decide_true (Some (lp_tool_change_z_um mp) = Some (lp_tool_change_z_um mp))) by done. done.
Qed.

(** Down to or up to a height of the setup. *)
Lemma safe_z_line on compensated spun reasserted reached wz x y z v n :
  small v ->
  modal_effect (mkLine n (safe_words v)) (ready_state on true compensated spun reasserted reached wz x y z)
  = Ok (ready_state on true compensated spun reasserted reached (Some v) x y z).
Proof.
  intros Hs. unfold modal_effect, modal_positions. cbn [ln_words ln_number].
  pose proof (updated_small (safe_words v) "Z" n wz v eq_refl Hs) as E.
  change (modal_preflight _ _) with (Ok (ready_state on true compensated spun reasserted reached wz x y z)).
  cbn [mbind result_bind]. change (among "G" (dec_int 53) (safe_words v)) with false. cbv iota.
  cbn [current_wcs_z_um ready_state]. rewrite E. by destruct on, compensated, spun.
Qed.

Lemma tool_change_line number reasserted reached wz n :
  modal_effect (mkLine n (words_of [lit "T" number; lit "M" 6]))
    (ready_state false false false false reasserted reached wz (Some (lp_tool_change_x_um mp))
       (Some (lp_tool_change_y_um mp)) (Some (lp_tool_change_z_um mp)))
  = Ok (raw_state true reasserted reached None (Some (lp_tool_change_x_um mp)) (Some (lp_tool_change_y_um mp))
          (Some (lp_tool_change_z_um mp))).
Proof.
  set (st := ready_state false false false false reasserted reached wz (Some (lp_tool_change_x_um mp))
               (Some (lp_tool_change_y_um mp)) (Some (lp_tool_change_z_um mp))).
  assert (at_tool_change_position mp st = true) as A.
  { unfold at_tool_change_position, st, ready_state. cbn [current_machine_x_um current_machine_y_um current_machine_z_um].
    rewrite (bool_decide_true (Some (lp_tool_change_x_um mp) = _)), (bool_decide_true (Some (lp_tool_change_y_um mp) = _)),
      (bool_decide_true (Some (lp_tool_change_z_um mp) = _)) by done. done. }
  unfold modal_effect. cbn [ln_words]. change (modal_preflight _ _) with (Ok st). cbn [mbind result_bind].
  change (modal_positions mp entry_x_um entry_y_um _ _) with (Ok st). cbn [mbind result_bind].
  change (modal_switches _ st) with st. unfold modal_tool_change.
  change (among "M" (dec_int 6) _) with true. cbv iota. rewrite A. reflexivity.
Qed.

Lemma length_line number wz x y n :
  modal_effect (mkLine n (words_of [lit "G" 43; lit "H" number]))
    (ready_state false true false false true true wz x y (Some (lp_tool_change_z_um mp)))
  = Ok (ready_state false true true false true true wz x y (Some (lp_tool_change_z_um mp))).
Proof.
  unfold modal_effect, modal_length. cbn [ln_words].
  change (modal_preflight _ _) with (Ok (ready_state false true false false true true wz x y (Some (lp_tool_change_z_um mp)))).
  cbn [mbind result_bind].
  change (modal_positions mp entry_x_um entry_y_um _ _) with
    (Ok (ready_state false true false false true true wz x y (Some (lp_tool_change_z_um mp)))).
  cbn [mbind result_bind].
  change (modal_tool_change mp _ _) with (Ok (ready_state false true false false true true wz x y (Some (lp_tool_change_z_um mp)))).
  cbn [mbind result_bind ready_state current_machine_z_um].
  rewrite (bool_decide_true (Some (lp_tool_change_z_um mp) = Some (lp_tool_change_z_um mp))) by done. reflexivity.
Qed.

Lemma wcs_line wcs on compensated spun reasserted reached wz x y z n :
  54 <= wcs <= 59 ->
  modal_effect (mkLine n (words_of [lit "G" wcs])) (ready_state on true compensated spun reasserted reached wz x y z)
  = Ok (ready_state on true compensated spun reasserted reached wz x y z).
Proof.
  intros H. assert (wcs = 54 \/ wcs = 55 \/ wcs = 56 \/ wcs = 57 \/ wcs = 58 \/ wcs = 59) as C by lia.
  by destruct C as [->|[->|[->|[->|[->| ->]]]]]; destruct on, compensated, spun.
Qed.

Lemma spindle_line rpm spun reasserted reached x y z n :
  0 < rpm ->
  modal_effect (mkLine n (words_of [lit "S" rpm; lit "M" 3]))
    (ready_state false true true spun reasserted reached (Some safe_z_um) x y z)
  = Ok (ready_state true true true false reasserted reached (Some safe_z_um) x y z).
Proof.
  intros Hr. assert (dec_ltb (dec_int 0) (dec_int rpm) = true) as HP.
  { unfold dec_ltb, dec_int, dec_signed, dec_scale. cbn. destruct (rpm <? 0) eqn:E; bprop; apply Z.ltb_lt; lia. }
  unfold modal_effect, modal_spindle. cbn [ln_words].
  change (modal_preflight _ _) with (Ok (ready_state false true true spun reasserted reached (Some safe_z_um) x y z)).
  cbn [mbind result_bind].
  change (modal_positions mp entry_x_um entry_y_um _ _) with
    (Ok (ready_state false true true spun reasserted reached (Some safe_z_um) x y z)).
  cbn [mbind result_bind].
  change (modal_tool_change mp _ _) with (Ok (ready_state false true true spun reasserted reached (Some safe_z_um) x y z)).
  cbn [mbind result_bind].
  change (modal_length mp _ _) with (Ok (ready_state false true true spun reasserted reached (Some safe_z_um) x y z)).
  cbn [mbind result_bind ready_state current_wcs_z_um].
  change (values_of "S" (words_of [lit "S" rpm; lit "M" 3])) with [dec_int rpm]. cbv iota. rewrite HP.
  rewrite (bool_decide_true (Some safe_z_um = Some safe_z_um)) by done. reflexivity.
Qed.

Lemma dwell_line v wz x y z reasserted reached n :
  modal_effect (mkLine n (words_of [lit "G" 4; in_mm "P" v])) (ready_state true true true false reasserted reached wz x y z)
  = Ok (ready_state true true true true reasserted reached wz x y z).
Proof. reflexivity. Qed.

(** The planned moves. *)
Lemma move_effect mv wz x y z n : printable_move mv ->
  modal_effect (mkLine n (words_of (move_texts mv))) (ready_state true true true true true true wz x y z)
  = Ok (ready_state true true true true true true (Some (mv_z_um mv)) x y z).
Proof.
  intros P. destruct (move_values mv P) as (VG & VX & VY & VZ & VF). pose proof P as [_ (_ & _ & HZ) HF].
  unfold modal_effect, modal_positions. cbn [ln_words ln_number].
  pose proof (updated_small _ "Z" n wz _ VZ HZ) as E. unfold move_texts in *.
  destruct (mv_kind mv), (mv_feed_um_min mv) as [feed|]; try done; cbn [app motion_number] in *.
  all: change (modal_preflight _ _) with (Ok (ready_state true true true true true true wz x y z)); cbn [mbind result_bind].
  all: match goal with |- context [among "G" (dec_int 53) ?w] => change (among "G" (dec_int 53) w) with false end; cbv iota.
  all: cbn [current_wcs_z_um ready_state]; rewrite E; reflexivity.
Qed.

Lemma moves_fold bn lines moves wz x y z :
  Forall printable_move moves -> map ln_words lines = map (fun mv => words_of (move_texts mv)) moves ->
  exists wz', foldM (modal_line bn) (ready_state true true true true true true wz x y z) lines
              = Ok (ready_state true true true true true true wz' x y z).
Proof.
  intros F. revert lines wz; induction F as [|mv moves P _ IH]; intros lines wz E; [by exists wz; destruct lines|].
  destruct lines as [|[n ws] lines]; [done|]. cbn [map ln_words] in E. apply list_cons_inj in E as [-> E].
  cbn [foldM]. rewrite (modal_line_inside bn _ _ _ (move_effect mv wz x y z n P)) by done. cbn [mbind result_bind].
  by apply IH.
Qed.
End Walk.

Section Structure.
Context (mp : LinuxCNCProductionMachineProfile) (s : BoundSetup) (t : ProductionToolBinding) (rpm wcs : Z).
Context (first : ProductionMove).
Context (HN : small_numbers mp s t rpm first) (HW : 54 <= wcs <= 59) (HR : 0 < rpm).
Local Notation ex := (entry_machine_x_um s t first).
Local Notation ey := (entry_machine_y_um s t first).
Local Notation walk := (walk mp (bs_safe_z_um s) ex ey).
Local Notation at_work wz x y z := (ready_state true true true true true true wz x y z).

Lemma opening_walk :
  walk start_modal (map words_of (opening_texts mp s t rpm wcs first))
    (at_work (Some (bs_safe_z_um s)) (Some ex) (Some ey) (Some (lp_tool_change_z_um mp))).
Proof.
  destruct HN as [(T1 & T2 & T3) (E1 & E2) Z1 _ _ _ _]. unfold opening_texts. rewrite !map_app.
  eapply walk_app; [apply (modal_walk mp (bs_safe_z_um s) ex ey false false false None None None None)|].
  eapply walk_app.
  { eapply walk_cons; [intros n; by apply (machine_z_line mp (bs_safe_z_um s) ex ey)|].
    eapply walk_cons; [intros n; by apply (machine_xy_line mp (bs_safe_z_um s) ex ey)|].
    eapply walk_cons; [intros n; apply (tool_change_line mp (bs_safe_z_um s) ex ey)|]. apply walk_nil. }
  eapply walk_app; [apply modal_walk|].
  eapply walk_cons; [intros n; by apply machine_z_line|]. cbn [orb andb].
  rewrite (bool_decide_true (Some (lp_tool_change_z_um mp) = _)) by done.
  eapply walk_cons; [intros n; by apply machine_xy_line|].
  rewrite (bool_decide_true (Some ex = _)), (bool_decide_true (Some ey = _)) by done. cbn [andb].
  eapply walk_cons; [intros n; apply length_line|].
  eapply walk_cons; [intros n; by apply wcs_line|].
  eapply walk_cons; [intros n; by apply safe_z_line|].
  eapply walk_cons; [intros n; by apply spindle_line|].
  eapply walk_cons; [intros n; apply dwell_line|]. apply walk_nil.
Qed.

Lemma closing_walk wz x y z : exists st, g52_g92_offsets_cleared st = true /\
  walk (at_work wz x y z) (map words_of (closing_texts mp s)) st.
Proof.
  destruct HN as [(T1 & T2 & T3) _ Z1 _ _ _ _]. eexists. split; [|
    unfold closing_texts; cbn [map];
    eapply walk_cons; [intros n; by apply safe_z_line|];
    eapply walk_cons; [intros n; lazy; reflexivity|];
    eapply walk_cons; [intros n; lazy; reflexivity|];
    eapply walk_cons; [intros n; lazy; reflexivity|];
    eapply walk_cons; [intros n; by apply (machine_z_line mp (bs_safe_z_um s) ex ey true false true)|];
    eapply walk_cons; [intros n; lazy; reflexivity|]; apply walk_nil]. reflexivity.
Qed.

Lemma modal_accepted lines1 lines2 lines3 moves :
  map ln_words lines1 = map words_of (opening_texts mp s t rpm wcs first) ->
  map ln_words lines2 = map (fun mv => words_of (move_texts mv)) moves -> Forall printable_move moves ->
  map ln_words lines3 = map words_of (closing_texts mp s) ->
  NoDup (map ln_number (lines1 ++ lines2 ++ lines3)) ->
  validate_modal_execution mp (bs_safe_z_um s) ex ey (lines1 ++ lines2 ++ lines3) lines2 = Ok ().
Proof.
  intros E1 E2 P E3 N. rewrite !map_app in N. apply NoDup_app in N as (_ & N1 & N). apply NoDup_app in N as (_ & N2 & _).
  unfold validate_modal_execution. rewrite foldM_app.
  rewrite (walk_fold _ _ _ _ (map ln_number lines2) _ _ _ lines1 opening_walk E1).
  2:{ apply Forall_forall. intros l Hl Hin. apply (N1 (ln_number l)); [by apply list_elem_of_fmap_2|].
      apply elem_of_app. by left. }
  cbn [mbind result_bind]. rewrite foldM_app.
  destruct (moves_fold mp (bs_safe_z_um s) ex ey (map ln_number lines2) lines2 moves
    (Some (bs_safe_z_um s)) (Some ex) (Some ey) (Some (lp_tool_change_z_um mp)) P E2) as (wz & ->).
  cbn [mbind result_bind].
  destruct (closing_walk wz (Some ex) (Some ey) (Some (lp_tool_change_z_um mp))) as (st & HC & W).
  rewrite (walk_fold _ _ _ _ (map ln_number lines2) _ _ _ lines3 W E3).
  - cbn [mbind result_bind]. by rewrite HC.
  - apply Forall_forall. intros l Hl Hin. apply (N2 (ln_number l)); [done|]. by apply list_elem_of_fmap_2.
Qed.

(** ** The words of the whole program *)

Definition whitelisted (ws : list GCodeWord) : Prop := forall n, require_whitelisted_line (mkLine n ws) = Ok ().

Lemma modal_whitelisted : Forall whitelisted (map words_of modal_texts).
Proof. unfold modal_texts. cbn [map]. each_element; intros n; reflexivity. Qed.

Lemma wcs_whitelisted : whitelisted (words_of [lit "G" wcs]).
Proof.
  assert (wcs = 54 \/ wcs = 55 \/ wcs = 56 \/ wcs = 57 \/ wcs = 58 \/ wcs = 59) as C by lia.
  by destruct C as [->|[->|[->|[->|[->| ->]]]]]; intros n.
Qed.

Lemma opening_whitelisted : Forall whitelisted (map words_of (opening_texts mp s t rpm wcs first)).
Proof.
  unfold opening_texts. rewrite !map_app, !Forall_app. split_and!; try apply modal_whitelisted.
  all: cbn [map]; each_element; try apply wcs_whitelisted; intros n; reflexivity.
Qed.

Lemma closing_whitelisted : Forall whitelisted (map words_of (closing_texts mp s)).
Proof. unfold closing_texts. cbn [map]. each_element; intros n; reflexivity. Qed.

Lemma move_whitelisted mv : whitelisted (words_of (move_texts mv)).
Proof. unfold move_texts. destruct (mv_kind mv), (mv_feed_um_min mv); intros n; reflexivity. Qed.
End Structure.

(** ** Acceptance *)

(** A program whose text is accepted: the checks that are not of the text, and
    numbers and names that fit the lines. *)
Record postable (d : ProductionToolpathDocument) (p : ProductionProgram) (mp : LinuxCNCProductionMachineProfile)
    (s : BoundSetup) (t : ProductionToolBinding) (rpm wcs : Z) (first : ProductionMove) : Prop := mkPostable {
  pb_member : p ∈ pt_programs d;
  pb_binding : require_machine_profile_binding mp (pt_execution_context d) = Ok ();
  pb_clamps : rt_min_forward_velocity_rpm (lp_runtime_contract mp) = pe_min_spindle_rpm (pt_execution_context d) /\
              rt_max_forward_velocity_rpm (lp_runtime_contract mp) = pe_max_spindle_rpm (pt_execution_context d);
  pb_setup : require_setup_binding d p mp = Ok (s, t);
  pb_recipes : require_recipes d p s = Ok rpm;
  pb_header : Forall (fun kv => clean_entry kv = true) (header_entries d p mp s t first);
  pb_first : head (pg_moves p) = Some first;
  pb_start : starts_at_safe_z s first = true;
  pb_entry : lp_machine_x_min_um mp <= entry_machine_x_um s t first <= lp_machine_x_max_um mp /\
             lp_machine_y_min_um mp <= entry_machine_y_um s t first <= lp_machine_y_max_um mp;
  pb_wcs : setup_wcs_number s = Ok wcs;
  pb_moves : Forall printable_move (pg_moves p);
  pb_path : safe_path (pt_execution_context d) mp s t (0, 0, bs_safe_z_um s) (pg_moves p);
  pb_numbers : small_numbers mp s t rpm first;
  pb_speed : 0 < rpm;
  pb_dwell : 0 < lp_spindle_spinup_ms mp }.

Lemma dict_of_only {A} (key : A -> string) l k x : filter (fun x => key x = k) l = [x] -> dict_of key l !! k = Some x.
Proof.
  intros E. assert (x ∈ [x]) as Hx by set_solver. rewrite <- E in Hx. apply list_elem_of_filter in Hx as [Hk Hx].
  assert (is_Some (dict_of key l !! k)) as [y Hy] by (apply dict_of_is_Some; rewrite <- Hk; by apply list_elem_of_fmap_2).
  rewrite Hy. destruct (dict_of_Some _ _ _ _ Hy) as [Hl Hk']. assert (y ∈ [x]) as H by (rewrite <- E; by apply list_elem_of_filter).
  by apply list_elem_of_singleton in H as ->.
Qed.

Section Envelope.
Context (mid : list (list ascii)) (HM : Forall (fun raw => raw <> ["%"%char]) mid).
Local Notation raws := (["%"%char] :: mid ++ [["%"%char]]).

Lemma percent_positions :
  map fst (filter (fun il : Z * list ascii => snd il = ["%"%char]) (zip (seqZ 0 (Z.of_nat (length raws))) raws))
  = [0; Z.of_nat (length raws) - 1].
Proof.
  assert (Z.of_nat (length raws) = Z.of_nat (length mid) + 2) as -> by (cbn [length]; rewrite length_app; cbn [length]; lia).
  set (k := Z.of_nat (length mid)). rewrite seqZ_cons by lia. change (Z.succ 0) with 1.
  replace (Z.pred (k + 2)) with (k + 1) by lia. rewrite seqZ_app by lia. rewrite (seqZ_cons (1 + k)) by lia.
  change (Z.pred 1) with 0. rewrite (seqZ_nil _ 0) by lia. cbn [zip_with].
  rewrite zip_with_app by (rewrite length_seqZ; lia). rewrite filter_cons, decide_True by done.
  rewrite filter_app. rewrite (filter_none _ (zip (seqZ 1 k) mid)).
  - cbn [app zip_with]. rewrite filter_cons, decide_True by done. cbn. f_equal. f_equal. lia.
  - apply Forall_forall. intros [i l] Hl%elem_of_zip_r. rewrite Forall_forall in HM. by apply HM.
Qed.

Lemma good_envelope text : nonblank_lines text = raws -> require_percent_envelope text = Ok ().
Proof.
  intros E. unfold require_percent_envelope, unsafe_if. rewrite E. cbv zeta. rewrite percent_positions.
  assert (last raws = Some ["%"%char]) as L by (by rewrite app_comm_cons, last_snoc). rewrite L.
  rewrite (bool_decide_false (length raws < 2)%nat) by (cbn [length]; rewrite length_app; cbn [length]; lia).
  cbn [head]. by rewrite !(bool_decide_true (Some ["%"%char] = Some ["%"%char])),
    (bool_decide_true ([0; Z.of_nat (length raws) - 1] = [0; Z.of_nat (length raws) - 1])) by done.
Qed.
End Envelope.

Lemma good_marker text (rest : list (list ascii)) marker :
  splitlines text = ["%"%char] :: map chars STATIC_COMMENTS ++ rest ->
  Forall (fun raw => strip_chars raw = raw) rest -> Forall (fun raw => raw <> chars marker) rest ->
  marker ∈ [PRODUCTION_CANDIDATE_POLICY_MARKER; PHYSICAL_AUTHORIZATION_MARKER; WORKSHOP_ACCEPTANCE_MARKER] ->
  require_marker text marker = Ok ().
Proof.
  intros E HS HN HM. unfold require_marker, unsafe_if. rewrite E, app_comm_cons, filter_app.
  rewrite (filter_none _ rest).
  2:{ apply Forall_forall. intros raw Hr H. rewrite Forall_forall in HS, HN. apply (HN raw Hr). by rewrite <- (HS raw Hr). }
  rewrite app_nil_r. repeat (apply elem_of_cons in HM as [->|HM]; [reflexivity|]). by apply elem_of_nil in HM.
Qed.

Section Accepted.
Context (d : ProductionToolpathDocument) (p : ProductionProgram) (mp : LinuxCNCProductionMachineProfile).
Context (s : BoundSetup) (t : ProductionToolBinding) (rpm wcs : Z) (first : ProductionMove).
Context (HP : postable d p mp s t rpm wcs first).
Local Notation ex := (entry_machine_x_um s t first).
Local Notation ey := (entry_machine_y_um s t first).
Local Notation headers := (map chars (expected_header d p mp s t first)).
Local Notation opening_raws := (map line_of (opening_texts mp s t rpm wcs first)).
Local Notation closing_raws := (map line_of (closing_texts mp s)).

(** The lines and words of the whole text. *)
Definition whole_raws (body : list string) : list (list ascii) :=
  headers ++ opening_raws ++ map chars body ++ closing_raws ++ [["%"%char]].
Definition whole_words : list (list GCodeWord) :=
  replicate 74 [] ++ map words_of (opening_texts mp s t rpm wcs first) ++ body_words "" (pg_moves p)
  ++ map words_of (closing_texts mp s) ++ [[]].

Lemma code_texts_good (texts : list (list word_text)) :
  Forall (fun ws => Forall fit_word ws /\ (0 < length ws <= 8)%nat) texts ->
  Forall2 good_line (map line_of texts) (map words_of texts) /\ Forall code_raw (map line_of texts).
Proof.
  induction 1 as [|ws texts [F L] _ [IH1 IH2]]; [done|]. cbn [map].
  split; constructor; [by apply fit_line|done|apply line_of_code; [done|lia]|done].
Qed.

Lemma code_raws_quiet raws : Forall code_raw raws ->
  List.filter is_comment_line raws = [] /\ omap operation_of_comment raws = [] /\ Forall plain_raw raws.
Proof.
  induction 1 as [|raw raws H _ (IH1 & IH2 & IH3)]; [done|]. destruct (code_raw_facts raw H) as (E1 & E2 & _).
  cbn [List.filter omap list_omap]. rewrite E1, E2. split_and!; [done|done|]. constructor; [by apply code_plain|done].
Qed.

Lemma header_operations :
  Forall (fun kv => operation_of_comment (chars (comment (fst kv) (snd kv))) = None) (header_entries d p mp s t first).
Proof.
  unfold header_entries. each_element; reflexivity.
Qed.

Definition header_rest : list (list ascii) := map (fun kv => chars (comment (fst kv) (snd kv))) (header_entries d p mp s t first).

Lemma header_split : headers = ["%"%char] :: map chars STATIC_COMMENTS ++ header_rest.
Proof. rewrite header_is_entries, map_cons, map_app, map_map. reflexivity. Qed.

Lemma header_rest_quiet : List.filter is_comment_line header_rest = header_rest /\ Forall plain_raw header_rest.
Proof.
  unfold header_rest. generalize (header_keys d p mp s t first), (pb_header _ _ _ _ _ _ _ _ HP).
  generalize (header_entries d p mp s t first) as l. clear. induction l as [|[k v] l IH]; [done|].
  intros [K HK]%Forall_cons [C HC]%Forall_cons. destruct (IH HK HC) as [IH1 IH2].
  unfold clean_entry in C. cbn [fst snd] in *. apply andb_true_iff in C as [C _].
  destruct (dynamic_facts k v K C) as (D1 & D2 & D3). cbn [map List.filter fst snd]. rewrite D1, IH1. split; [done|].
  by constructor.
Qed.

Lemma omap_none {A B} (f : A -> option B) l : Forall (fun x => f x = None) l -> omap f l = [].
Proof. induction 1 as [|x l Hx _ IH]; [done|]. cbn. by rewrite Hx. Qed.

Lemma header_rest_operations : omap operation_of_comment header_rest = [].
Proof. apply omap_none, Forall_map, header_operations. Qed.

Lemma header_quiet : List.filter is_comment_line headers = tail headers /\ omap operation_of_comment headers = [].
Proof.
  rewrite header_split. pose proof header_rest_quiet as [E1 _]. pose proof header_rest_operations as E3.
  revert E1 E3. generalize header_rest as rest. intros rest E1 E3. split.
  - cbn [List.filter tail]. change (is_comment_line ["%"%char]) with false. cbv iota. rewrite List.filter_app, E1. reflexivity.
  - cbn [omap list_omap]. rewrite omap_app_raw, E3. reflexivity.
Qed.

Lemma whole_good body :
  Forall2 good_line (map chars body) (body_words "" (pg_moves p)) -> Forall2 good_line (whole_raws body) whole_words.
Proof.
  intros HB. destruct HP. unfold whole_raws, whole_words. destruct (wcs_text s wcs pb_wcs0) as [_ HW].
  repeat apply Forall2_app; [by apply header_lines| |done| |].
  - by apply code_texts_good, opening_lines.
  - by eapply code_texts_good, closing_lines.
  - constructor; [apply percent_line|constructor].
Qed.

Lemma whole_executable :
  filter (fun ws => ws <> []) whole_words
  = map words_of (opening_texts mp s t rpm wcs first) ++ map (fun mv => words_of (move_texts mv)) (pg_moves p)
    ++ map words_of (closing_texts mp s).
Proof.
  unfold whole_words. rewrite !filter_app.
  assert (forall texts, Forall (fun ws => Forall fit_word ws /\ (0 < length ws <= 8)%nat) texts ->
    filter (fun ws => ws <> []) (map words_of texts) = map words_of texts) as FT.
  { induction 1 as [|ws texts [_ L] _ IH]; [done|]. cbn [map]. rewrite filter_cons, decide_True, IH; [done|].
    destruct ws; [cbn in L; lia|done]. }
  assert (forall previous moves, Forall printable_move moves ->
    filter (fun ws => ws <> []) (body_words previous moves) = map (fun mv => words_of (move_texts mv)) moves) as FB.
  { intros previous moves F. revert previous; induction F as [|mv moves P _ IH]; intros previous; [done|].
    cbn [body_words map]. rewrite filter_app. destruct (move_texts_fit mv P) as [_ L].
    rewrite (filter_cons _ (words_of (move_texts mv))), decide_True, IH by (unfold move_texts; done).
    by case_bool_decide. }
  destruct HP. destruct (wcs_text s wcs pb_wcs0) as [_ HW].
  rewrite (FT _ (opening_lines _ _ _ _ _ _ pb_wcs0 pb_numbers0)), (FT _ (closing_lines _ _ _ _ _ pb_numbers0)), (FB _ _ pb_moves0).
  rewrite (filter_cons _ []). rewrite decide_False by (intros H; by apply H). rewrite filter_nil, app_nil_r.
  reflexivity.
Qed.

(** The text, and what the checks of the whole text find. *)
Lemma whole_quiet body :
  List.filter is_comment_line (map chars body)
    = map (fun id => chars (comment "OPERATION_ID" id)) (operation_sequence "" (pg_moves p)) ->
  omap operation_of_comment (map chars body) = map chars (operation_sequence "" (pg_moves p)) ->
  Forall plain_raw (map chars body) ->
  List.filter is_comment_line (whole_raws body)
    = tail headers ++ map (fun id => chars (comment "OPERATION_ID" id)) (operation_sequence "" (pg_moves p)) /\
  omap operation_of_comment (whole_raws body) = map chars (operation_sequence "" (pg_moves p)) /\
  exists mid, whole_raws body = ["%"%char] :: (map chars STATIC_COMMENTS ++ mid) ++ [["%"%char]] /\ Forall plain_raw mid.
Proof.
  intros HC HO HM. destruct HP. destruct (wcs_text s wcs pb_wcs0) as [_ HW].
  destruct (code_texts_good _ (opening_lines _ _ _ _ _ _ pb_wcs0 pb_numbers0)) as [_ C1].
  destruct (code_texts_good _ (closing_lines _ _ _ _ _ pb_numbers0)) as [_ C2].
  apply code_raws_quiet in C1 as (F1 & O1 & M1), C2 as (F2 & O2 & M2). destruct header_quiet as [F0 O0].
  unfold whole_raws. rewrite !List.filter_app, !omap_app_raw, F0, F1, HC, F2, O0, O1, HO, O2.
  split_and!.
  - cbn [List.filter]. change (is_comment_line ["%"%char]) with false. cbv iota. by rewrite !app_nil_r.
  - change (omap operation_of_comment [["%"%char]]) with (@nil (list ascii)). by rewrite !app_nil_r.
  - exists (header_rest ++ opening_raws ++ map chars body ++ closing_raws). rewrite header_split. split.
    + by rewrite <- !app_assoc.
    + apply Forall_app. split; [apply header_rest_quiet|]. by repeat (apply Forall_app; split).
Qed.

Lemma printed_text body :
  move_lines "" (pg_moves p) = Ok body -> Forall2 good_line (map chars body) (body_words "" (pg_moves p)) ->
  program_text mp d p = Ok (of_chars (text_of (whole_raws body))).
Proof.
  intros HB HG. pose proof (raws_printable _ _ (whole_good body HG)) as HPr. destruct HP.
  pose proof pb_setup0 as HS. unfold require_setup_binding, the_only in HS.
  destruct (filter _ (pe_setups _)) as [|s' [|? ?]] eqn:Es in HS; try done. cbn [mbind result_bind] in HS.
  destruct (filter _ (pe_tool_bindings _)) as [|t' [|? ?]] eqn:Et in HS; try done. cbn [mbind result_bind] in HS.
  apply bind_Ok in HS as ([] & HW%raise_if_Ok & HS). apply bind_Ok in HS as (offset & Ho & HS).
  apply bind_Ok in HS as ([] & H1%raise_if_Ok & HS). apply bind_Ok in HS as ([] & _ & HS).
  apply bind_Ok in HS as ([] & H2%raise_if_Ok & HS). apply bind_Ok in HS as ([] & H3%raise_if_Ok & HS). apply bind_Ok in HS as ([] & _ & HS). injection HS as -> ->.
  unfold program_text. rewrite (dict_of_only _ _ _ _ Es), (dict_of_only _ _ _ _ Et). cbn [of_option mbind result_bind].
  unfold require_recipes in pb_recipes0. apply bind_Ok in pb_recipes0 as (recipes & HR & H).
  apply bind_Ok in H as ([] & _ & H). apply bind_Ok in H as (rpm' & HS1 & H). apply bind_Ok in H as ([] & _ & [= ->]).
  assert (traverse (fun i => of_option (dict_of cr_recipe_id (pe_recipes (pt_execution_context d)) !! i) unresolved) (pg_recipe_ids p)
          = Ok recipes) as ->.
  { apply traverse_Ok. apply traverse_Ok in HR. eapply Forall2_impl; [exact HR|]. intros i r Hr.
    apply of_option_Ok in Hr. by apply of_option_Ok. }
  cbn [mbind result_bind]. rewrite HS1. cbn [mbind result_bind]. rewrite HW. cbn [unsafe_if raise_if mbind result_bind].
  unfold require_exact_setup_offset_and_clearance, the_only.
  destruct (filter _ (lp_wcs_offsets mp)) as [|o [|? ?]]; try done. injection Ho as ->. cbn [mbind result_bind].
  rewrite H1, H2, H3. cbn [unsafe_if raise_if mbind result_bind].
  unfold require_program_entry. rewrite pb_first0. cbn [of_option mbind result_bind]. rewrite pb_start0.
  cbn [negb unsafe_if raise_if mbind result_bind].
  repeat (rewrite (proj2 (Z.leb_le _ _)) by lia). cbn [andb negb raise_if mbind result_bind fst snd].
  unfold program_lines, format_seconds. rewrite (proj2 (Z.leb_gt _ _)) by lia. cbn [unsafe_if raise_if mbind result_bind].
  rewrite HB. cbn [mbind result_bind fst snd]. rewrite printed_header by done.
  unfold encode_lines. cbv zeta.
  match goal with |- context [concat (map _ ?l)] =>
    replace (concat (map (fun l0 => chars l0 ++ [newline]) l)) with (text_of (map chars l)) by (unfold text_of; by rewrite map_map)
  end.
  assert (forall lines, map chars (expected_header d p mp s t first ++
     opening mp s t ex ey rpm (three_decimals (lp_spindle_spinup_ms mp)) ++ lines ++ closing mp s)
     = headers ++ opening_raws ++ map chars lines ++ closing_raws ++ [["%"%char]]) as E.
  { intros lines. rewrite !map_app, (opening_printed mp s t rpm wcs first pb_wcs0), closing_printed. done. }
  rewrite E. fold (whole_raws body). destruct (text_bytes _ HPr) as [-> _]. done.
Qed.

Lemma parsed_text body :
  Forall2 good_line (map chars body) (body_words "" (pg_moves p)) -> Forall plain_raw (map chars body) ->
  (exists mid, whole_raws body = ["%"%char] :: (map chars STATIC_COMMENTS ++ mid) ++ [["%"%char]] /\ Forall plain_raw mid) ->
  exists lines, parse_production_program (of_chars (text_of (whole_raws body))) = Ok lines /\
    map ln_words lines = filter (fun ws => ws <> []) whole_words /\ NoDup (map ln_number lines).
Proof.
  intros HB HM (mid & EM & Hmid). pose proof (whole_good body HB) as G.
  assert (whole_raws body <> []) as HNe by (by rewrite EM).
  destruct (good_parse _ _ G) as (program & HG & HL & HN).
  exists (pp_lines program). split; [|done]. unfold parse_production_program.
  rewrite (good_ascii _ _ G). cbn [mbind result_bind]. rewrite (good_lexical _ _ G HNe). cbn [mbind result_bind].
  pose proof (good_nonblank _ _ G) as HNb. pose proof (good_splitlines _ _ G) as HSp.
  assert (require_percent_envelope (text_of (whole_raws body)) = Ok ()) as ->.
  { eapply (good_envelope (map chars STATIC_COMMENTS ++ mid)); [|by rewrite HNb].
    apply Forall_app. split; [|eapply Forall_impl; [exact Hmid|]; by intros raw []].
    unfold STATIC_COMMENTS. cbn [map]. each_element; discriminate. }
  cbn [mbind result_bind].
  assert (check_all (require_marker (text_of (whole_raws body)))
    [PRODUCTION_CANDIDATE_POLICY_MARKER; PHYSICAL_AUTHORIZATION_MARKER; WORKSHOP_ACCEPTANCE_MARKER] = Ok ()) as ->.
  { apply check_all_Ok, Forall_forall. intros marker Hm. apply (good_marker _ (mid ++ [["%"%char]])); [|..|done].
    - rewrite HSp, EM. by rewrite <- app_assoc.
    - apply Forall_forall. intros raw Hr. pose proof (raws_good _ _ G) as HGd. rewrite Forall_forall in HGd.
      destruct (HGd raw) as (ws & GL); [|apply (gl_strip _ _ GL)]. rewrite EM. clear -Hr. set_solver.
    - apply Forall_app. split.
      + eapply Forall_impl; [exact Hmid|]. intros raw [_ H]. apply H. clear -Hm. set_solver.
      + constructor; [|constructor]. intros E. clear -E Hm.
        repeat (apply elem_of_cons in Hm as [->|Hm]; [discriminate E|]). by apply elem_of_nil in Hm. }
  cbn [mbind result_bind]. rewrite HG. cbn [mbind result_bind].
  assert (nonempty (pp_lines program) = true) as ->.
  { apply (f_equal length) in HL. rewrite length_map, whole_executable in HL. by destruct (pp_lines program). }
  cbn [negb unsafe_if raise_if mbind result_bind].
  assert (require_whitelisted_words (pp_lines program) = Ok ()) as ->.
  { apply check_all_Ok, Forall_forall. intros [n ws] Hl.
    assert (whitelisted ws) as W; [|apply W].
    assert (ws ∈ map ln_words (pp_lines program)) as Hws by (by apply (list_elem_of_fmap_2 ln_words _ (mkLine n ws))).
    rewrite HL, whole_executable in Hws. destruct HP. destruct (wcs_text s wcs pb_wcs0) as [_ HW].
    apply elem_of_app in Hws as [Hws|[Hws|Hws]%elem_of_app].
    - pose proof (opening_whitelisted mp s t rpm wcs first HW) as A. rewrite Forall_forall in A. by apply A.
    - apply list_elem_of_fmap in Hws as (mv & -> & _). apply move_whitelisted.
    - pose proof (closing_whitelisted mp s) as A. rewrite Forall_forall in A. by apply A. }
  done.
Qed.

Lemma signature_of_words sig line : ln_words line = signature_words sig -> signature line = sig.
Proof.
  intros E. unfold signature. rewrite E. unfold signature_words. rewrite map_map. cbn [w_letter w_value].
  rewrite <- (map_id sig) at 2. apply map_ext. by intros [].
Qed.

Lemma signatures_of_words lines sigs : map ln_words lines = map signature_words sigs -> map signature lines = sigs.
Proof.
  revert sigs; induction lines as [|line lines IH]; intros [|sig sigs] E; try done.
  cbn [map] in *. apply list_cons_inj in E as [E1 E2]. by rewrite (signature_of_words sig line E1), (IH sigs E2).
Qed.

Lemma signature_eqb_refl sig : list_eqb word_eqb sig sig = true.
Proof. pose proof (signatures_eqb_refl [sig]) as H. by apply andb_true_iff in H as [H _]. Qed.

Lemma bound_preamble_refl :
  require_bound_preamble mp s t rpm (expected_preamble mp s t rpm wcs first) (expected_preamble mp s t rpm wcs first) = Ok ().
Proof.
  unfold require_bound_preamble, unsafe_if. rewrite bool_decide_true by done.
  change (take 10 (expected_preamble mp s t rpm wcs first)) with MODAL_PREAMBLE.
  change (take 10 (drop 13 (expected_preamble mp s t rpm wcs first))) with MODAL_PREAMBLE.
  rewrite !signatures_eqb_refl. cbn [negb raise_if mbind result_bind]. apply check_all_Ok, Forall_forall. intros [i m] _.
  cbn [fst snd]. by rewrite signature_eqb_refl.
Qed.

(** The program printed for a plan that fits is accepted, and the moves read
    from its text are the planned ones. *)
Lemma printed_program_accepted :
  exists content parsed, program_text mp d p = Ok content /\ validate_production_program content d p mp = Ok parsed /\
    Forall2 agrees (pr_moves parsed) (pg_moves p) /\ pr_wcs parsed = bs_wcs s /\ pr_spindle_rpm parsed = rpm /\
    pr_controller_tool_number parsed = tb_controller_tool_number t /\
    pr_length_offset_number parsed = tb_length_offset_number t /\
    pr_production_machine_profile_sha256 parsed = config_sha256 mp /\ pr_physical_cutting_authorized parsed = false.
Proof.
  pose proof HP as [H1 H2 [H3 H3'] H4 H5 H6 H7 H8 H9 H10 H11 H12 H13 H14 H15].
  destruct (move_lines_good "" (pg_moves p) H11) as (body & HB & HG & HC & HO & HM).
  destruct (whole_quiet body HC HO HM) as (QC & QO & QM).
  destruct (parsed_text body HG HM QM) as (lines & HL & EL & HN). rewrite whole_executable in EL.
  exists (of_chars (text_of (whole_raws body))).
  pose proof (whole_good body HG) as G.
  apply map_eq_app in EL as (l1 & l23 & -> & E1 & EL). apply map_eq_app in EL as (l2 & l3 & -> & E2 & E3).
  assert (map signature l1 = expected_preamble mp s t rpm wcs first) as S1
    by (apply signatures_of_words; by rewrite E1, opening_signatures).
  assert (map signature l3 = expected_trailer mp s) as S3
    by (apply signatures_of_words; by rewrite E3, closing_signatures).
  pose proof (f_equal length S1) as L1. pose proof (f_equal length S3) as L3.
  rewrite length_map in L1, L3.
  assert (length l2 = length (pg_moves p)) as L2 by (rewrite <- (length_map ln_words), E2; apply length_map).
  destruct (wcs_text s wcs H10) as [_ HW].
  eexists. split; [by apply printed_text|]. split_and!.
  - unfold validate_production_program. rewrite (bool_decide_false (p ∉ _)) by (intros N; by apply N).
    cbn [unsafe_if raise_if mbind result_bind]. rewrite H2, H3, H3', !Z.eqb_refl. cbn [negb orb raise_if mbind result_bind].
    rewrite H4. cbn [mbind result_bind]. rewrite H5. cbn [mbind result_bind].
    rewrite (good_ascii _ _ G). cbn [mbind result_bind]. rewrite HL. cbn [mbind result_bind].
    rewrite H7. cbn [of_option mbind result_bind].
    unfold require_identity_header, require_operation_comment_sequence. cbv zeta.
    rewrite (good_nonblank _ _ G), (good_splitlines _ _ G), QC, QO.
    assert (take (length headers) (whole_raws body) = headers) as -> by apply take_app_length.
    rewrite !bool_decide_true by done. cbn [negb unsafe_if raise_if mbind result_bind].
    rewrite H10. cbn [mbind result_bind]. repeat (rewrite (proj2 (Z.leb_le _ _)) by lia).
    cbn [andb negb raise_if mbind result_bind].
    set (pre := expected_preamble mp s t rpm wcs first) in *. set (trail := expected_trailer mp s) in *.
    rewrite !map_app, S1, S3. cbv zeta. unfold word_signature in *.
    assert (length (pre ++ map signature l2 ++ trail) = length pre + length (pg_moves p) + length trail)%nat as LT
      by (rewrite !length_app, length_map, L2; unfold word_signature; lia).
    rewrite (bool_decide_true (length (pre ++ map signature l2 ++ trail) = _)) by done. cbn [negb raise_if mbind result_bind].
    rewrite take_app_length. pose proof bound_preamble_refl as HBR. fold pre in HBR. rewrite HBR. cbn [mbind result_bind].
    replace (length (pre ++ map signature l2 ++ trail) - length trail)%nat with (length (pre ++ map signature l2))
      by (rewrite !length_app; unfold word_signature; lia).
    rewrite (app_assoc pre), drop_app_length, signatures_eqb_refl. cbn [negb raise_if mbind result_bind].
    replace (take (length (l1 ++ l2 ++ l3) - length trail - length pre) (drop (length pre) (l1 ++ l2 ++ l3))) with l2.
    2:{ rewrite <- L1, drop_app_length. replace (length (l1 ++ l2 ++ l3) - length trail - length l1)%nat with (length l2)
          by (rewrite !length_app; lia). by rewrite take_app_length. }
    unfold validate_and_round_trip_moves. rewrite H7. cbn [of_option mbind result_bind]. rewrite H8.
    cbn [negb unsafe_if raise_if mbind result_bind].
    rewrite (round_trip_printed _ mp s t _ l2 (pg_moves p) H11 H12 E2). cbn [mbind result_bind].
    rewrite (modal_accepted mp s t rpm wcs first H13 HW H14 l1 l2 l3 (pg_moves p) E1 E2 H11 E3 HN). cbn [mbind result_bind].
    reflexivity.
  - cbn [pr_moves]. clear -E2. revert E2. generalize (pg_moves p) as moves. induction l2 as [|[n ws] l2 IH]; intros [|mv moves] E; try done.
    cbn [map] in E. apply list_cons_inj in E as [_ E]. cbn [zip_with]. constructor; [done|by apply IH].
  - done.
  - done.
  - done.
  - done.
  - done.
  - done.
Qed.
End Accepted.
