(* ===== verification/ProductionShop.v ===== *)
(** * What a shop guarantees

    What the constructors of a machine profile, a context and its setups, tools
    and recipes have checked; an installation that fits a context; and, from
    them, that every entry of a program's header fits its line. *)

From S2P Require Import Prelude Text GCode GCodeText DryRun Identity IdentityTypes Models ManufacturingModel Machining CamValidation ProductionModel ToolpathGeometry CapsuleGeometry ToolpathContracts Toolpaths ToolpathSafety ToolpathPrograms ProductionProfile ProductionParser ProductionPost ProductionMachine ProductionSafety ProductionText ProductionLines ProductionAccepted.

#[local] Open Scope Z_scope.

(** ** Values of the header *)

Lemma clean_entry_of key value n :
  clean value = true -> (String.length value <= n)%nat -> (String.length key + n + 3 <= LINUXCNC_FILE_MAX_LINE_BYTES)%nat ->
  clean_entry (key, value) = true.
Proof.
  intros HC HL HN. unfold clean_entry. cbn [fst snd]. rewrite HC. apply Nat.leb_le.
  rewrite <- length_chars, comment_chars. cbn [length]. rewrite !length_app. cbn [length].
  rewrite !length_chars. lia.
Qed.

Lemma clean_all value : Forall (fun c => comment_value_char c = true) (chars value) -> chars value <> [] -> clean value = true.
Proof.
  intros F N. unfold clean. apply andb_true_iff. split; [|by destruct (chars value)].
  apply forallb_forall. intros c Hc%list_elem_of_In. rewrite Forall_forall in F. by apply F.
Qed.

Lemma canonical_clean value : is_canonical_id value = true -> clean value = true.
Proof.
  unfold is_canonical_id, identity_up_to, clean. destruct (chars value) as [|c rest]; [done|].
  intros [[H1 H2]%andb_true_iff _]%andb_true_iff. cbn [forallb nonempty]. rewrite andb_true_r. apply andb_true_iff. split.
  - revert c H1. by apply chars_imply.
  - rewrite forallb_forall in H2. apply forallb_forall. intros d Hd. specialize (H2 d Hd). clear Hd. revert d H2. by apply chars_imply.
Qed.

Lemma hash_clean value : design_hash_ok value = true -> clean value = true /\ String.length value = 64%nat.
Proof.
  unfold design_hash_ok. intros [HL%bool_decide_eq_true H]%andb_true_iff. split; [|done].
  rewrite forallb_forall in H. apply clean_all.
  - apply Forall_forall. intros c Hc%list_elem_of_In%H. revert c Hc. by apply chars_imply.
  - intros E. rewrite <- length_chars, E in HL. done.
Qed.

Lemma content_hash_ok v : design_hash_ok (content_hash v) = true.
Proof.
  pose proof (content_hash_hex v) as H. unfold Sha256Hex in H. apply andb_true_iff in H as [H1 H2].
  unfold design_hash_ok. rewrite H2. cbn [andb]. fold (chars (content_hash v)) in H1. rewrite forallb_forall in H1.
  apply forallb_forall. intros c Hc. specialize (H1 c Hc). unfold is_digit. by rewrite orb_comm.
Qed.

Lemma pair_clean a b : is_canonical_id a = true -> is_canonical_id b = true -> clean (a +:+ "@" +:+ b) = true.
Proof.
  intros Ha%canonical_clean Hb%canonical_clean. unfold clean in *. apply andb_true_iff in Ha as [Ha Na], Hb as [Hb _].
  rewrite !chars_app, !forallb_app, Ha, Hb. by destruct (chars a).
Qed.

Lemma number_clean v : clean (str_of_Z v) = true.
Proof.
  apply clean_all.
  - destruct (Z.le_ge_cases 0 v) as [H|H].
    + destruct (str_of_Z_digits v H) as (_ & D & _). eapply Forall_impl; [exact D|]. by apply chars_imply.
    + destruct v as [|q|q]; [by repeat constructor|lia|]. change (chars (str_of_Z (Zneg q))) with ("-"%char :: chars (pretty (Npos q))).
      constructor; [done|]. destruct (pretty_N_digits (Npos q)) as [D _]. eapply Forall_impl; [exact D|]. by apply chars_imply.
  - destruct (Z.le_ge_cases 0 v) as [H|H]; [by destruct (str_of_Z_digits v H)|].
    destruct v as [|q|q]; [done|lia|done].
Qed.

Lemma number_length v : small v -> (String.length (str_of_Z v) <= 25)%nat.
Proof.
  intros Hs. rewrite <- length_chars. destruct (Z.le_ge_cases 0 v) as [H|H]; [pose proof (integer_length v H Hs); lia|].
  destruct v as [|q|q]; [cbn; lia|lia|]. change (chars (str_of_Z (Zneg q))) with ("-"%char :: chars (pretty (Npos q))).
  cbn [length]. apply le_n_S. apply pretty_length; [lia|]. unfold small in Hs. change (10 ^ N.of_nat 24)%N with (Z.to_N (10 ^ 24)). lia.
Qed.

(** ** What the constructors guarantee *)

Record profile_facts (mp : LinuxCNCProductionMachineProfile) : Prop := mkProfileFacts {
  fp_names : Forall (fun lv => is_canonical_id (snd lv) = true) (profile_identities mp);
  fp_controller : casefold (lp_controller_id mp) = "linuxcnc";
  fp_wcs : NoDup (map wo_wcs (lp_wcs_offsets mp)) /\ map wo_wcs (lp_wcs_offsets mp) = lp_supported_wcs mp;
  fp_axes : (lp_machine_x_min_um mp <= lp_tool_change_x_um mp <= lp_machine_x_max_um mp) /\
            (lp_machine_y_min_um mp <= lp_tool_change_y_um mp <= lp_machine_y_max_um mp) /\
            (lp_machine_z_min_um mp <= lp_tool_change_z_um mp <= lp_machine_z_max_um mp);
  fp_spinup : 1 <= lp_spindle_spinup_ms mp <= 120000;
  fp_policies : Forall (fun pcm => fst (fst pcm) = snd (fst pcm)) (profile_policies mp);
  fp_tolerance : 1 <= lp_spindle_at_speed_tolerance_ppm mp <= 100000;
  fp_hashes : Forall (fun lv => design_hash_ok (snd lv) = true) (profile_hashes mp) }.

Lemma check_refusals {A} (f : A -> bool) (e : A -> string) l u :
  check_all (fun x => value_error_if (negb (f x)) (e x)) l = Ok u -> Forall (fun x => f x = true) l.
Proof. intros H%check_all_Ok. eapply Forall_impl; [exact H|]. intros x Hx%raise_if_Ok. by apply negb_false_iff. Qed.

Lemma profile_constructed mp : new_LinuxCNCProductionMachineProfile mp = Ok mp -> profile_facts mp.
Proof.
  unfold new_LinuxCNCProductionMachineProfile. intros H.
  apply bind_Ok in H as (? & H1%check_refusals & H). apply bind_Ok in H as (? & _ & H).
  apply bind_Ok in H as (? & H2%raise_if_Ok & H). apply bind_Ok in H as (? & _ & H). apply bind_Ok in H as (? & _ & H).
  apply bind_Ok in H as (? & H3%raise_if_Ok & H). apply bind_Ok in H as (? & H4%check_all_Ok & H).
  apply bind_Ok in H as (? & _ & H). apply bind_Ok in H as (? & H5%raise_if_Ok & H).
  apply bind_Ok in H as (? & H6%check_all_Ok & H). apply bind_Ok in H as (? & H7%raise_if_Ok & H).
  apply bind_Ok in H as (? & H8%check_refusals & _). bprop.
  unfold profile_axes in H4. apply Forall_cons in H4 as [A1 [A2 [A3 _]%Forall_cons]%Forall_cons].
  unfold check_profile_axis, value_error_if in A1, A2, A3. inv_ok. bprop.
  constructor; try done; try lia.
  - split; [by apply distinct_spec|done].
  - eapply Forall_impl; [exact H6|]. intros [[a b] m] Hx%raise_if_Ok. bprop. done.
Qed.

Lemma profile_name mp (HF : profile_facts mp) i label value :
  profile_identities mp !! i = Some (label, value) -> is_canonical_id value = true.
Proof. intros E. apply (Forall_lookup_1 _ _ _ _ (fp_names _ HF) E). Qed.

Lemma profile_policy mp (HF : profile_facts mp) i value required message :
  profile_policies mp !! i = Some (value, required, message) -> value = required.
Proof. intros E. apply (Forall_lookup_1 _ _ _ _ (fp_policies _ HF) E). Qed.

Lemma profile_hash mp (HF : profile_facts mp) i label value :
  profile_hashes mp !! i = Some (label, value) -> design_hash_ok value = true.
Proof. intros E. apply (Forall_lookup_1 _ _ _ _ (fp_hashes _ HF) E). Qed.

Record setup_facts (s : BoundSetup) : Prop := mkSetupFacts {
  fs_names : Forall (fun v => is_canonical_id v = true)
    [bs_setup_id s; bs_stock_id s; bs_source_material_id s; bs_source_material_version s; bs_material_id s;
     bs_material_version s; bs_material_evidence_id s; bs_material_evidence_version s; bs_fixture_id s; bs_fixture_version s];
  fs_hashes : design_hash_ok (bs_material_evidence_sha256 s) = true /\ design_hash_ok (bs_fixture_sha256 s) = true;
  fs_wcs : wcs_code_ok (bs_wcs s) = true;
  fs_rotation : bs_machine_wcs_xy_rotation_mdeg s = 0;
  fs_sizes : 1 <= bs_stock_width_um s /\ 1 <= bs_stock_height_um s /\ 1 <= bs_safe_z_um s;
  fs_surface : bs_reference_surface s = STOCK_TOP_Z0_REFERENCE }.

Lemma require_identities_all fields : require_identities fields = Ok () -> Forall (fun lv => is_canonical_id (snd lv) = true) fields.
Proof.
  intros H%check_all_Ok. eapply Forall_impl; [exact H|]. intros [l v] Hx. unfold require_identity in Hx.
  apply refuse_Ok, negb_false_iff in Hx. exact Hx.
Qed.

Lemma setup_constructed s : new_BoundSetup s = Ok s -> setup_facts s.
Proof.
  unfold new_BoundSetup. intros H.
  apply bind_Ok in H as ([] & H1%require_identities_all & H). apply bind_Ok in H as (? & _ & H).
  apply bind_Ok in H as (? & H2%refuse_Ok & H). apply bind_Ok in H as (? & H3%refuse_Ok & H).
  do 4 (apply bind_Ok in H as (? & _ & H)). apply bind_Ok in H as (? & H4%refuse_Ok & H).
  apply bind_Ok in H as (? & H5%refuse_Ok & H). apply bind_Ok in H as ([] & H6 & H). apply bind_Ok in H as (? & _ & H).
  apply bind_Ok in H as (? & H7%refuse_Ok & _). bprop.
  pose proof (require_all_min_in _ _ "stock_width_um" (bs_stock_width_um s) H6 ltac:(left)).
  pose proof (require_all_min_in _ _ "stock_height_um" (bs_stock_height_um s) H6 ltac:(right; left)).
  pose proof (require_all_min_in _ _ "safe_z_um" (bs_safe_z_um s) H6 ltac:(do 3 right; left)).
  constructor; try done.
  - apply (Forall_map snd (fun v => is_canonical_id v = true)) in H1. exact H1.
Qed.

Record tool_facts (t : ProductionToolBinding) : Prop := mkToolFacts {
  ft_names : is_canonical_id (tb_tool_id t) = true /\ is_canonical_id (tb_tool_version t) = true;
  ft_numbers : 1 <= tb_controller_tool_number t <= MAX_LINUXCNC_TOOL_OR_OFFSET_NUMBER /\
               1 <= tb_length_offset_number t <= MAX_LINUXCNC_TOOL_OR_OFFSET_NUMBER;
  ft_offsets : tb_expected_length_offset_x_um t = 0 /\ tb_expected_length_offset_y_um t = 0;
  ft_hash : design_hash_ok (tb_tool_table_evidence_sha256 t) = true }.

Lemma between_Ok lo hi label v u : require_between lo hi label v = Ok u -> lo <= v <= hi.
Proof. unfold require_between, require_min. intros H. apply bind_Ok in H as (? & H1%refuse_Ok & H2%refuse_Ok). bprop. lia. Qed.

Lemma tool_constructed t : new_ProductionToolBinding t = Ok t -> tool_facts t.
Proof.
  unfold new_ProductionToolBinding. intros H.
  apply bind_Ok in H as ([] & H1%require_identities_all & H). apply bind_Ok in H as (? & _ & H).
  apply bind_Ok in H as (? & H2%between_Ok & H). apply bind_Ok in H as (? & H3%between_Ok & H).
  apply bind_Ok in H as (? & H4%refuse_Ok & H). apply bind_Ok in H as (? & _ & H).
  apply bind_Ok in H as (? & H5%refuse_Ok & _). bprop.
  apply Forall_cons in H1 as [N1 [N2 _]%Forall_cons]. by constructor.
Qed.

(** ** The shop

    What makes an installation fit a context, and numbers and names that fit the
    lines of a program. *)

Definition short (value : string) : bool := (String.length value <=? 80)%nat.
Definition modest (v : Z) : bool := Z.abs v <=? 10 ^ 22.

Lemma modest_small v : modest v = true -> small v.
Proof. unfold modest, small. intros H. bprop. lia. Qed.

Definition setup_names (s : BoundSetup) : list string :=
  [bs_setup_id s; bs_stock_id s; bs_source_material_id s; bs_source_material_version s; bs_material_id s;
   bs_material_version s; bs_material_evidence_id s; bs_material_evidence_version s; bs_fixture_id s; bs_fixture_version s].
Definition setup_numbers (s : BoundSetup) : list Z :=
  [bs_sheet_index s; bs_stock_thickness_um s; p2_x_um (bs_machine_wcs_origin s); p2_y_um (bs_machine_wcs_origin s);
   bs_machine_wcs_z0_um s; bs_safe_z_um s].
Definition tool_names (t : ProductionToolBinding) : list string := [tb_tool_id t; tb_tool_version t].
Definition machine_names (mp : LinuxCNCProductionMachineProfile) : list string :=
  [lp_profile_id mp; lp_version mp; lp_machine_profile_id mp; lp_machine_profile_version mp; lp_spindle_feedback_source mp].
Definition machine_numbers (mp : LinuxCNCProductionMachineProfile) (c : ProductionExecutionContext) : list Z :=
  [lp_machine_x_min_um mp; lp_machine_x_max_um mp; lp_machine_y_min_um mp; lp_machine_y_max_um mp;
   lp_machine_z_min_um mp; lp_machine_z_max_um mp; pe_max_feed_um_min c; pe_max_plunge_um_min c; pe_max_spindle_rpm c].

(** Names and numbers that fit a line of 252 bytes. *)
Definition writable (mp : LinuxCNCProductionMachineProfile) (c : ProductionExecutionContext) : bool :=
  forallb short (machine_names mp ++ concat (map setup_names (pe_setups c)) ++ concat (map tool_names (pe_tool_bindings c))) &&
  forallb modest (machine_numbers mp c ++ concat (map setup_numbers (pe_setups c)) ++
                  map tb_expected_length_offset_z_um (pe_tool_bindings c)).

Definition offset_agrees (s : BoundSetup) (o : LinuxCNCWCSOffset) : bool :=
  bool_decide (wo_wcs o = bs_wcs s) && bool_decide (offset_row o = setup_row s).

(** The installation the context was bound to. *)
Definition installation_fits (mp : LinuxCNCProductionMachineProfile) (c : ProductionExecutionContext) : bool :=
  bool_decide (profile_binding mp = context_binding c) && bool_decide (profile_bounds mp = context_bounds c) &&
  forallb (fun s => existsb (offset_agrees s) (lp_wcs_offsets mp) && (bs_safe_z_um s <=? pe_work_z_um c) &&
                    forallb (fun t => safe_machine_z_um s t <=? lp_tool_change_z_um mp) (pe_tool_bindings c))
    (pe_setups c).

Lemma zero_padded_length_le w n : (0 < w)%nat -> (n < 10 ^ 24)%N -> (length (chars (zero_padded w n)) <= Nat.max w 24)%nat.
Proof.
  intros Hw Hn. unfold zero_padded. rewrite chars_zeros, length_app, length_replicate, length_chars.
  pose proof (pretty_length 24 n ltac:(lia) Hn) as L. rewrite length_chars in L. lia.
Qed.

Section Writing.
Context (mp : LinuxCNCProductionMachineProfile) (c : ProductionExecutionContext).
Context (HF : profile_facts mp) (HW : writable mp c = true).

Lemma short_machine v : v ∈ machine_names mp -> (String.length v <= 80)%nat.
Proof.
  intros H. unfold writable in HW. apply andb_true_iff in HW as [HN _]. rewrite forallb_app in HN. apply andb_true_iff in HN as [HN _].
  rewrite forallb_forall in HN. by apply Nat.leb_le, HN, list_elem_of_In.
Qed.

Lemma short_setup s v : s ∈ pe_setups c -> v ∈ setup_names s -> (String.length v <= 80)%nat.
Proof.
  intros Hs H. unfold writable in HW. apply andb_true_iff in HW as [HN _]. rewrite !forallb_app in HN.
  apply andb_true_iff in HN as [_ [HN _]%andb_true_iff]. rewrite forallb_forall in HN.
  apply Nat.leb_le, HN, in_concat. exists (setup_names s). split; [by apply in_map, list_elem_of_In|by apply list_elem_of_In].
Qed.

Lemma short_tool t v : t ∈ pe_tool_bindings c -> v ∈ tool_names t -> (String.length v <= 80)%nat.
Proof.
  intros Hs H. unfold writable in HW. apply andb_true_iff in HW as [HN _]. rewrite !forallb_app in HN.
  apply andb_true_iff in HN as [_ [_ HN]%andb_true_iff]. rewrite forallb_forall in HN.
  apply Nat.leb_le, HN, in_concat. exists (tool_names t). split; [by apply in_map, list_elem_of_In|by apply list_elem_of_In].
Qed.

Lemma modest_machine v : v ∈ machine_numbers mp c -> modest v = true.
Proof.
  intros H. unfold writable in HW. apply andb_true_iff in HW as [_ HN]. rewrite forallb_app in HN. apply andb_true_iff in HN as [HN _].
  rewrite forallb_forall in HN. by apply HN, list_elem_of_In.
Qed.

Lemma modest_setup s v : s ∈ pe_setups c -> v ∈ setup_numbers s -> modest v = true.
Proof.
  intros Hs H. unfold writable in HW. apply andb_true_iff in HW as [_ HN]. rewrite !forallb_app in HN.
  apply andb_true_iff in HN as [_ [HN _]%andb_true_iff]. rewrite forallb_forall in HN.
  apply HN, in_concat. exists (setup_numbers s). split; [by apply in_map, list_elem_of_In|by apply list_elem_of_In].
Qed.

Lemma modest_tool t : t ∈ pe_tool_bindings c -> modest (tb_expected_length_offset_z_um t) = true.
Proof.
  intros Ht. unfold writable in HW. apply andb_true_iff in HW as [_ HN]. rewrite !forallb_app in HN.
  apply andb_true_iff in HN as [_ [_ HN]%andb_true_iff]. rewrite forallb_forall in HN. by apply HN, in_map, list_elem_of_In.
Qed.
End Writing.

(** ** The header of a program *)

(** What a program of a document is, for its header. *)
Record header_facts (d : ProductionToolpathDocument) (c : ProductionExecutionContext) (mp : LinuxCNCProductionMachineProfile)
    (p : ProductionProgram) (s : BoundSetup) (t : ProductionToolBinding) (first : ProductionMove) (rpm : Z) : Prop := mkHeaderFacts {
  hf_context : pt_execution_context d = c;
  hf_hashes : design_hash_ok (pt_design_hash d) = true /\ design_hash_ok (pt_machine_profile_fingerprint d) = true;
  hf_machine : lp_machine_profile_id mp = pe_machine_profile_id c /\ lp_machine_profile_version mp = pe_machine_profile_version c;
  hf_setup : s ∈ pe_setups c /\ pg_setup_id p = bs_setup_id s;
  hf_tool : t ∈ pe_tool_bindings c /\ pg_tool_id p = tb_tool_id t /\ pg_tool_version p = tb_tool_version t;
  hf_order : 1 <= pg_run_order p /\ small (pg_run_order p);
  hf_speed : 0 <= rpm /\ small rpm;
  hf_id : is_canonical_id (pg_program_id p) = true /\
    pg_program_id p = "program:" +:+ zero_padded_Z 3 (pg_run_order p) +:+ ":" +:+ bs_setup_id s +:+ ":" +:+ tb_tool_id t
                      +:+ ":S" +:+ str_of_Z rpm;
  hf_entry : small (entry_machine_x_um s t first) /\ small (entry_machine_y_um s t first) }.

Lemma id_entry key value : is_canonical_id value = true -> (String.length value <= 80)%nat -> (String.length key <= 60)%nat ->
  clean_entry (key, value) = true.
Proof. intros H1%canonical_clean H2 H3. apply (clean_entry_of _ _ 80); [done|done|]. unfold LINUXCNC_FILE_MAX_LINE_BYTES. lia. Qed.

Lemma pair_entry key a b : is_canonical_id a = true -> is_canonical_id b = true ->
  (String.length a <= 80)%nat -> (String.length b <= 80)%nat -> (String.length key <= 60)%nat ->
  clean_entry (key, a +:+ "@" +:+ b) = true.
Proof.
  intros H1 H2 L1 L2 H3. apply (clean_entry_of _ _ 161); [by apply pair_clean| |unfold LINUXCNC_FILE_MAX_LINE_BYTES; lia].
  rewrite <- length_chars, !chars_app, !length_app, !length_chars. cbn [String.length]. lia.
Qed.

Lemma hash_entry key value : design_hash_ok value = true -> (String.length key <= 80)%nat -> clean_entry (key, value) = true.
Proof.
  intros [H1 H2]%hash_clean H3. apply (clean_entry_of _ _ 64); [done|lia|]. unfold LINUXCNC_FILE_MAX_LINE_BYTES. lia.
Qed.

Lemma number_entry key v : small v -> (String.length key <= 60)%nat -> clean_entry (key, str_of_Z v) = true.
Proof.
  intros Hs H3. apply (clean_entry_of _ _ 25); [apply number_clean|by apply number_length|]. unfold LINUXCNC_FILE_MAX_LINE_BYTES. lia.
Qed.

(** Entries with a fixed value. *)
Ltac fixed_entry := vm_compute; reflexivity.
Ltac short_key := cbn; lia.

(** A member of a list written out. *)
Ltac listed := first [left | right; listed].

(** An entry by the form of its value, from the facts in the context. *)
Ltac header_entry mp :=
  match goal with
  | |- clean_entry (_, pg_program_id _) = true => eassumption
  | |- clean_entry (_, bs_wcs _) = true => eassumption
  | |- clean_entry (_, side_value _) = true => eassumption
  | |- clean_entry (_, toolpaths_fingerprint _) = true => apply hash_entry; [apply content_hash_ok|short_key]
  | |- clean_entry (_, config_sha256 _) = true => apply hash_entry; [apply content_hash_ok|short_key]
  | |- clean_entry (_, runtime_contract_sha256 _) = true => apply hash_entry; [apply content_hash_ok|short_key]
  | H : design_hash_ok ?v = true |- clean_entry (_, ?v) = true => apply hash_entry; [exact H|short_key]
  | H : small ?v |- clean_entry (_, str_of_Z ?v) = true => apply number_entry; [exact H|short_key]
  | H : forall v, v ∈ setup_numbers ?s -> small v |- clean_entry (_, str_of_Z (_ ?s)) = true =>
      apply number_entry; [apply H; listed|short_key]
  | H : forall v, v ∈ setup_numbers ?s -> small v |- clean_entry (_, str_of_Z (_ (bs_machine_wcs_origin ?s))) = true =>
      apply number_entry; [apply H; listed|short_key]
  | HN : forall v, v ∈ setup_names ?s -> is_canonical_id v = true, HL : forall v, v ∈ setup_names ?s -> _
    |- clean_entry (_, _ ?s) = true => apply id_entry; [apply HN; listed|apply HL; listed|short_key]
  | HN : forall v, v ∈ setup_names ?s -> is_canonical_id v = true, HL : forall v, v ∈ setup_names ?s -> (_ <= _)%nat
    |- clean_entry (_, (_ ?s) +:+ "@" +:+ (_ ?s)) = true =>
      apply pair_entry; [apply HN; listed|apply HN; listed|apply HL; listed|apply HL; listed|short_key]
  | HN : forall v, v ∈ machine_names mp -> is_canonical_id v = true, HL : forall v, v ∈ machine_names mp -> (_ <= _)%nat
    |- clean_entry (_, (_ mp) +:+ "@" +:+ (_ mp)) = true =>
      apply pair_entry; [apply HN; listed|apply HN; listed|apply HL; listed|apply HL; listed|short_key]
  | HN : forall v, v ∈ tool_names ?t -> is_canonical_id v = true, HL : forall v, v ∈ tool_names ?t -> (_ <= _)%nat
    |- clean_entry (_, (_ ?t) +:+ "@" +:+ (_ ?t)) = true =>
      apply pair_entry; [apply HN; listed|apply HN; listed|apply HL; listed|apply HL; listed|short_key]
  | HN : forall v, v ∈ machine_names mp -> is_canonical_id v = true, HL : forall v, v ∈ machine_names mp -> (_ <= _)%nat
    |- clean_entry (_, lp_spindle_feedback_source mp) = true => apply id_entry; [apply HN; listed|apply HL; listed|short_key]
  | H : forall v, v ∈ map snd (profile_hashes mp) -> _ |- clean_entry (_, _ mp) = true =>
      apply hash_entry; [apply H; listed|short_key]
  | |- _ => fixed_entry
  end.

Section HeaderClean.
Context (d : ProductionToolpathDocument) (c : ProductionExecutionContext) (mp : LinuxCNCProductionMachineProfile).
Context (p : ProductionProgram) (s : BoundSetup) (t : ProductionToolBinding) (first : ProductionMove) (rpm : Z).
Context (HF : profile_facts mp) (HW : writable mp c = true) (HH : header_facts d c mp p s t first rpm).
Context (HS : setup_facts s) (HT : tool_facts t).

Lemma program_id_entry : clean_entry ("PROGRAM_ID", pg_program_id p) = true.
Proof.
  destruct HH as [_ _ _ [Hs _] [Ht _] [R1 R2] [S1 S2] [I1 I2] _].
  apply (clean_entry_of _ _ 230); [by apply canonical_clean| |by apply Nat.leb_le]. rewrite I2.
  pose proof (short_setup mp c HW s (bs_setup_id s) Hs ltac:(left)). pose proof (short_tool mp c HW t (tb_tool_id t) Ht ltac:(left)).
  pose proof (integer_length rpm S1 S2) as L3. rewrite length_chars in L3.
  assert (String.length (zero_padded_Z 3 (pg_run_order p)) <= 24)%nat as L4.
  { unfold zero_padded_Z. rewrite (proj2 (Z.ltb_ge _ 0)) by lia. rewrite <- length_chars.
    assert (Z.to_N (pg_run_order p) < 10 ^ 24)%N as B by (unfold small in R2; change (10 ^ 24)%N with (Z.to_N (10 ^ 24)); lia).
    pose proof (zero_padded_length_le 3 _ ltac:(lia) B). lia. }
  rewrite <- length_chars, !chars_app, !length_app, !length_chars. cbn [String.length]. lia.
Qed.

Lemma wcs_entry : clean_entry ("SETUP_WCS", bs_wcs s) = true.
Proof.
  pose proof (fs_wcs _ HS) as H%wcs_cases. repeat (apply elem_of_cons in H as [->|H]; [fixed_entry|]). by apply elem_of_nil in H.
Qed.

Lemma side_entry : clean_entry ("SETUP_SIDE", side_value (bs_side s)) = true.
Proof. destruct (bs_side s); fixed_entry. Qed.

Lemma header_clean : Forall (fun kv => clean_entry kv = true) (header_entries d p mp s t first).
Proof.
  destruct HH as [Ec [Hd Hm] [Em1 Em2] [Hs Es] [Ht [Et Ev]] [R1 R2] _ _ [X1 X2]]. destruct HS as [NS [HS1 HS2] _ _ _ SF].
  destruct HT as [[NT1 NT2] [TN1 TN2] [TO1 TO2] TH].
  assert (forall v, v ∈ setup_names s -> is_canonical_id v = true) as NS' by (rewrite <- Forall_forall; exact NS).
  pose proof (fun v => short_setup mp c HW s v Hs) as SS. pose proof (fun v => short_tool mp c HW t v Ht) as ST.
  pose proof (short_machine mp c HW) as SM. pose proof (fun v H => modest_small v (modest_setup mp c HW s v Hs H)) as MS.
  pose proof (modest_small _ (modest_tool mp c HW t Ht)) as MT.
  pose proof (fp_tolerance _ HF) as TOL.
  assert (small (tb_controller_tool_number t) /\ small (tb_length_offset_number t)) as [SN1 SN2]
    by (unfold small, MAX_LINUXCNC_TOOL_OR_OFFSET_NUMBER in *; lia).
  assert (forall v, v ∈ tool_names t -> is_canonical_id v = true) as NT
    by (intros v [->|[->|[]%elem_of_nil]%elem_of_cons]%elem_of_cons; done).
  assert (forall v, v ∈ machine_names mp -> is_canonical_id v = true) as NM.
  { intros v Hv. apply (list_elem_of_fmap_2 id) in Hv. pose proof (fp_names _ HF) as FN. rewrite Forall_forall in FN.
    assert (exists label, (label, v) ∈ profile_identities mp) as (label & Hl); [|by apply (FN (label, v))].
    unfold machine_names in Hv. cbn in Hv.
    repeat (apply elem_of_cons in Hv as [->|Hv]; [eexists; listed|]). by apply elem_of_nil in Hv. }
  assert (forall v, v ∈ map snd (profile_hashes mp) -> design_hash_ok v = true) as PH
    by (rewrite <- Forall_forall; apply Forall_map, (fp_hashes _ HF)).
  assert (small (lp_spindle_at_speed_tolerance_ppm mp)) as STOL by (unfold small; lia).
  pose proof program_id_entry as EP. pose proof wcs_entry as EW. pose proof side_entry as ES.
  unfold header_entries. cbv zeta. rewrite Ec, <- Em1, <- Em2, Es, Et, Ev.
  rewrite (profile_policy _ HF 0 _ _ _ eq_refl), (profile_policy _ HF 1 _ _ _ eq_refl), (profile_policy _ HF 2 _ _ _ eq_refl),
    (profile_policy _ HF 3 _ _ _ eq_refl), (profile_policy _ HF 4 _ _ _ eq_refl), (profile_policy _ HF 5 _ _ _ eq_refl),
    (profile_policy _ HF 6 _ _ _ eq_refl), (profile_policy _ HF 7 _ _ _ eq_refl), (profile_policy _ HF 8 _ _ _ eq_refl),
    (profile_policy _ HF 9 _ _ _ eq_refl), (profile_policy _ HF 10 _ _ _ eq_refl), SF, (fs_rotation _ HS), TO1, TO2.
  each_element; header_entry mp.
Qed.
End HeaderClean.

(** ** The context and its documents *)

Record context_facts (c : ProductionExecutionContext) : Prop := mkContextFacts {
  fc_limits : 1 <= pe_min_spindle_rpm c;
  fc_axes : pe_machine_x_max_um c - pe_machine_x_min_um c = pe_work_width_um c /\
            pe_machine_y_max_um c - pe_machine_y_min_um c = pe_work_height_um c /\
            pe_machine_z_max_um c - pe_machine_z_min_um c = pe_work_z_um c;
  fc_setups : NoDup (map bs_setup_id (pe_setups c));
  fc_tools : NoDup (map tb_tool_id (pe_tool_bindings c));
  fc_recipes : NoDup (map cr_recipe_id (pe_recipes c));
  fc_travel s : s ∈ pe_setups c ->
    pe_machine_x_min_um c <= p2_x_um (bs_machine_wcs_origin s) /\
    p2_x_um (bs_machine_wcs_origin s) + bs_stock_width_um s <= pe_machine_x_max_um c /\
    pe_machine_y_min_um c <= p2_y_um (bs_machine_wcs_origin s) /\
    p2_y_um (bs_machine_wcs_origin s) + bs_stock_height_um s <= pe_machine_y_max_um c;
  fc_recipe r : r ∈ pe_recipes c ->
    pe_min_spindle_rpm c <= cr_spindle_rpm r <= pe_max_spindle_rpm c /\
    cr_feed_um_min r <= pe_max_feed_um_min c /\ cr_plunge_um_min r <= pe_max_plunge_um_min c }.

Lemma require_unique_NoDup {A} `{EqDecision A} label (l : list A) u : require_unique label l = Ok u -> NoDup l.
Proof. intros H%refuse_Ok%negb_false_iff. by apply distinct_spec. Qed.

Lemma context_constructed c : new_ProductionExecutionContext c = Ok c -> context_facts c.
Proof.
  unfold new_ProductionExecutionContext. intros H.
  apply bind_Ok in H as (? & _ & H). apply bind_Ok in H as (? & _ & H). apply bind_Ok in H as ([] & H1 & H).
  apply bind_Ok in H as (? & _ & H). apply bind_Ok in H as (? & A1 & H). apply bind_Ok in H as (? & A2 & H).
  apply bind_Ok in H as (? & A3 & H). apply bind_Ok in H as (? & _ & H).
  apply bind_Ok in H as (? & U1%require_unique_NoDup & H). apply bind_Ok in H as (? & U2%require_unique_NoDup & H).
  do 4 (apply bind_Ok in H as (? & _ & H)). apply bind_Ok in H as (? & U3%require_unique_NoDup & H).
  do 4 (apply bind_Ok in H as (? & _ & H)). apply bind_Ok in H as (? & HT%check_all_Ok & H).
  apply bind_Ok in H as (? & _ & H). apply bind_Ok in H as (? & HR%check_all_Ok & _).
  unfold check_axis in A1, A2, A3. apply bind_Ok in A1 as (? & _ & A1%refuse_Ok), A2 as (? & _ & A2%refuse_Ok), A3 as (? & _ & A3%refuse_Ok).
  pose proof (require_all_min_in _ _ "min_spindle_rpm" (pe_min_spindle_rpm c) H1 ltac:(do 3 right; left)). bprop.
  rewrite Forall_forall in HT. rewrite Forall_forall in HR.
  constructor; try done.
  - intros s Hs. specialize (HT s Hs). unfold check_setup_travel in HT. apply refuse_Ok in HT. bprop. lia.
  - intros r Hr. specialize (HR r Hr). unfold check_recipe in HR. apply bind_Ok in HR as (? & _ & HR).
    apply bind_Ok in HR as (? & _ & HR). apply bind_Ok in HR as (? & R1%refuse_Ok & HR).
    apply bind_Ok in HR as (? & R2%refuse_Ok & HR). apply bind_Ok in HR as (? & R3%refuse_Ok & _). bprop. lia.
Qed.

(** What the constructor of a document checked of each program. *)
Lemma foldM_each {A S} (f : S -> A -> result S) s l s' x : foldM f s l = Ok s' -> x ∈ l -> exists s1 s2, f s1 x = Ok s2.
Proof.
  revert s; induction l as [|y l IH]; intros s H Hx; [by apply elem_of_nil in Hx|]. cbn in H.
  destruct (f s y) as [s2|] eqn:E; [|done]. apply elem_of_cons in Hx as [->|Hx]; [by exists s, s2|]. by apply (IH s2).
Qed.

Record document_facts (d : ProductionToolpathDocument) : Prop := mkDocumentFacts {
  fd_hashes : design_hash_ok (pt_design_hash d) = true /\ design_hash_ok (pt_machine_profile_fingerprint d) = true;
  fd_order : map pg_run_order (pt_programs d) = seqZ 1 (Z.of_nat (length (pt_programs d)));
  fd_binding p : p ∈ pt_programs d -> exists released released', check_program_binding (pt_execution_context d) released p = Ok released' }.

Lemma document_constructed d : new_ProductionToolpathDocument d = Ok d -> document_facts d.
Proof.
  unfold new_ProductionToolpathDocument. intros H. apply bind_Ok in H as (? & H1%check_all_Ok & H).
  do 6 (apply bind_Ok in H as (? & _ & H)). apply bind_Ok in H as (? & H2%refuse_Ok & H).
  do 2 (apply bind_Ok in H as (? & _ & H)). apply bind_Ok in H as (released & H3 & _). bprop.
  apply Forall_cons in H1 as [A1 [_ [A2 _]%Forall_cons]%Forall_cons]. unfold require_hash in A1, A2.
  apply refuse_Ok, negb_false_iff in A1, A2. cbn [snd] in *.
  constructor; [done|done|]. intros p Hp. by apply (foldM_each _ _ _ _ _ H3).
Qed.
