(* ===== verification/ProductionPosted.v ===== *)
(** * Every toolpath document has its programs

    What the toolpath generator returns for a shop can be posted to the machine
    of the shop: the postprocessor refuses none of its programs, and every text
    it writes is accepted by the validator as the plan it was written from. *)

From S2P Require Import Prelude Text GCode GCodeText DryRun Identity IdentityTypes JsonText Models ManufacturingModel Machining CamValidation ProductionModel ToolpathGeometry CapsuleGeometry ToolpathContracts Toolpaths ToolpathSafety ToolpathPrograms ProductionProfile ProductionParser ProductionPost ProductionMachine ProductionSafety ProductionText ProductionLines ProductionAccepted ProductionShop.

#[local] Open Scope Z_scope.

(** ** Lists *)

Lemma filter_only {A B} `{EqDecision B} (key : A -> B) l x :
  NoDup (map key l) -> x ∈ l -> filter (fun y => key y = key x) l = [x].
Proof.
  induction l as [|y l IH]; intros HN Hx; [by apply elem_of_nil in Hx|].
  apply NoDup_cons in HN as [Hy HN]. rewrite filter_cons. apply elem_of_cons in Hx as [->|Hx].
  - rewrite decide_True by done. f_equal. apply filter_none, Forall_forall. intros z Hz E. apply Hy. rewrite <- E.
    by apply list_elem_of_fmap_2.
  - rewrite decide_False; [by apply IH|]. intros E. apply Hy. rewrite E. by apply list_elem_of_fmap_2.
Qed.

Lemma remove_dups_same {A} `{EqDecision A} (l : list A) x : l <> [] -> (forall y, y ∈ l -> y = x) -> remove_dups l = [x].
Proof.
  intros HN HA. assert (NoDup (remove_dups l)) as D by apply NoDup_remove_dups.
  assert (forall y, y ∈ remove_dups l <-> y ∈ l) as E by (intros y; apply elem_of_remove_dups).
  destruct (remove_dups l) as [|a [|b rest]] eqn:R.
  - destruct l as [|a l]; [done|]. exfalso. apply (not_elem_of_nil a), E. by left.
  - f_equal. apply HA, E. by left.
  - exfalso. assert (a = x) as -> by (apply HA, E; by left). assert (b = x) as -> by (apply HA, E; right; by left).
    apply NoDup_cons in D as [D _]. apply D. by left.
Qed.

Lemma Forall2_choice {A B} (R : A -> B -> Prop) l : (forall x, x ∈ l -> exists y, R x y) -> exists ys, Forall2 R l ys.
Proof.
  induction l as [|x l IH]; intros H; [by exists []|]. destruct (H x) as [y Hy]; [by left|].
  destruct IH as [ys Hys]; [intros z Hz; apply H; by right|]. exists (y :: ys). by constructor.
Qed.

Lemma NoDup_map_by {A B C} (f : A -> B) (g : A -> C) l :
  (forall x y, x ∈ l -> y ∈ l -> g x = g y -> f x = f y) -> NoDup (map f l) -> NoDup (map g l).
Proof.
  induction l as [|x l IH]; cbn; intros H HN; [constructor|]. apply NoDup_cons in HN as [HX HN]. constructor.
  - intros (y & E & Hy)%list_elem_of_fmap. apply HX. rewrite (H x y); [by apply list_elem_of_fmap_2|by left|by right|done].
  - apply IH; [|done]. intros y z Hy Hz. by apply H; right.
Qed.

(** ** The numbers of a shop *)

Lemma setup_measures s : new_BoundSetup s = Ok s -> 1 <= bs_stock_thickness_um s /\ 0 <= bs_through_cut_allowance_um s.
Proof.
  unfold new_BoundSetup. intros H. do 10 (apply bind_Ok in H as (? & _ & H)). apply bind_Ok in H as ([] & H1 & H).
  do 6 (apply bind_Ok in H as (? & _ & H)). apply bind_Ok in H as (? & H2%refuse_Ok%Z.ltb_ge & _). split; [|done].
  by apply (require_all_min_in _ _ "stock_thickness_um" _ H1); do 2 right; left.
Qed.

Lemma feeds_constructed r : new_CuttingRecipe r = Ok r -> 1 <= cr_feed_um_min r /\ 1 <= cr_plunge_um_min r.
Proof.
  unfold new_CuttingRecipe. intros H. apply bind_Ok in H as (? & _ & H). apply bind_Ok in H as ([] & H & _).
  pose proof (require_all_min_in _ _ "feed_um_min" (cr_feed_um_min r) H ltac:(right; left)).
  pose proof (require_all_min_in _ _ "plunge_um_min" (cr_plunge_um_min r) H ltac:(do 2 right; left)). lia.
Qed.

(** ** One program of the document *)

Section Program.
Context (doc : OperationsDocument) (c : ProductionExecutionContext) (g : generation_plan).
Context (mp : LinuxCNCProductionMachineProfile) (result : ProductionToolpathDocument).
Context (Hc : well_formed_context c) (Hg : plan_facts doc c g) (HF : profile_facts mp).
Context (HI : installation_fits mp c = true) (HW : writable mp c = true).
Context (HD : document_facts result) (HX : pt_execution_context result = c).
Context (i : Z) (k : group_key) (s : BoundSetup) (t : ProductionToolBinding) (p : ProductionProgram).
Context (Hp : p ∈ pt_programs result) (P : program_of c g i k s t p).

Local Notation rpm := (snd (fst k)).

Lemma program_setup : s ∈ pe_setups c /\ bs_setup_id s = pg_setup_id p /\ setup_facts s.
Proof.
  pose proof (po_setup _ _ _ _ _ _ _ P) as E. apply (gf_setups doc c g Hg) in E as [Hs E].
  split; [done|]. split; [by rewrite (po_setup_id _ _ _ _ _ _ _ P)|]. destruct Hc as (_ & HS & _).
  rewrite Forall_forall in HS. by apply setup_constructed, HS.
Qed.

Lemma program_tool : t ∈ pe_tool_bindings c /\ tb_tool_id t = pg_tool_id p /\ tool_facts t.
Proof.
  pose proof (po_tool _ _ _ _ _ _ _ P) as E. apply (gf_tools doc c g Hg) in E as [Ht E].
  split; [done|]. split; [by rewrite (po_tool_id _ _ _ _ _ _ _ P)|]. destruct Hc as (_ & _ & HT & _).
  rewrite Forall_forall in HT. by apply tool_constructed, HT.
Qed.

Lemma context_ok : context_facts c.
Proof. apply context_constructed. by destruct Hc. Qed.

Lemma fits_binding : profile_binding mp = context_binding c /\ profile_bounds mp = context_bounds c.
Proof.
  unfold installation_fits in HI. apply andb_true_iff in HI as [[H1%bool_decide_eq_true H2%bool_decide_eq_true]%andb_true_iff _].
  done.
Qed.

Lemma fits_setup : exists o, o ∈ lp_wcs_offsets mp /\ wo_wcs o = bs_wcs s /\ offset_row o = setup_row s /\
  bs_safe_z_um s <= pe_work_z_um c /\ safe_machine_z_um s t <= lp_tool_change_z_um mp.
Proof.
  destruct program_setup as (Hs & _). destruct program_tool as (Ht & _). unfold installation_fits in HI.
  apply andb_true_iff in HI as [_ H]. rewrite forallb_forall in H. specialize (H s (proj1 (list_elem_of_In _ _) Hs)).
  apply andb_true_iff in H as [[H1 H2]%andb_true_iff H3]. rewrite forallb_forall in H3.
  specialize (H3 t (proj1 (list_elem_of_In _ _) Ht)). apply existsb_exists in H1 as (o & Ho%list_elem_of_In & Hw).
  unfold offset_agrees in Hw. bprop. exists o. split_and!; done || lia.
Qed.

Lemma machine_bounds_of :
  lp_machine_x_min_um mp = pe_machine_x_min_um c /\ lp_machine_x_max_um mp = pe_machine_x_max_um c /\
  lp_machine_y_min_um mp = pe_machine_y_min_um c /\ lp_machine_y_max_um mp = pe_machine_y_max_um c /\
  lp_machine_z_min_um mp = pe_machine_z_min_um c /\ lp_machine_z_max_um mp = pe_machine_z_max_um c.
Proof. destruct fits_binding as [_ E]. unfold profile_bounds, context_bounds in E. by injection E. Qed.

Lemma machine_names_of :
  lp_machine_profile_id mp = pe_machine_profile_id c /\ lp_machine_profile_version mp = pe_machine_profile_version c /\
  lp_controller_id mp = pe_controller_id c /\ lp_controller_version mp = pe_controller_version c /\
  rt_min_forward_velocity_rpm (lp_runtime_contract mp) = pe_min_spindle_rpm c /\
  rt_max_forward_velocity_rpm (lp_runtime_contract mp) = pe_max_spindle_rpm c.
Proof. destruct fits_binding as [E _]. unfold profile_binding, context_binding in E. by injection E. Qed.

(** *** Its moves *)

Local Notation operations := (group_operations (gp_planned g) k).

Lemma program_chain : chain (program_move_safe c g s t operations) None (pg_moves p).
Proof.
  destruct program_setup as (Hs & _). destruct program_tool as (Ht & _).
  apply (program_moves_safe doc c g Hc Hg k s t _ Hs Ht (po_setup _ _ _ _ _ _ _ P) (po_tool _ _ _ _ _ _ _ P)
    (po_moves _ _ _ _ _ _ _ P)).
Qed.

Lemma program_first : exists first, head (pg_moves p) = Some first /\ mv_kind first = RAPID /\ mv_role first = POSITION /\
  mv_z_um first = bs_safe_z_um s /\ within_machine c s t first.
Proof.
  pose proof program_chain as C. pose proof (po_checked _ _ _ _ _ _ _ P) as N.
  destruct (pg_moves p) as [|first rest] eqn:E.
  - exfalso. unfold new_ProductionProgram in N. do 8 (apply bind_Ok in N as (? & _ & N)).
    apply bind_Ok in N as (? & _ & N). apply bind_Ok in N as (? & N%refuse_Ok & _). rewrite E in N. done.
  - destruct C as [(q & _ & M) _]. exists first. destruct (ms_start _ _ _ _ _ _ _ _ M eq_refl) as (K & R & Z).
    split_and!; try done. apply (ms_machine _ _ _ _ _ _ _ _ M).
Qed.

Lemma operation_recipe q : q ∈ operations ->
  snd q ∈ pe_recipes c /\ cr_spindle_rpm (snd q) = rpm /\
  recipe_key_of (snd q) = (bs_material_id s, bs_material_version s, tb_tool_id t, tb_tool_version t, op_kind (fst q)).
Proof.
  intros [Hq Ek]%(group_operations_elem g). destruct (gf_planned doc c g Hg q Hq) as (s' & t' & target & F).
  pose proof (pf_setup _ _ _ _ _ _ _ F) as E1. pose proof (pf_tool _ _ _ _ _ _ _ F) as E2.
  pose proof (po_setup _ _ _ _ _ _ _ P) as Es. pose proof (po_tool _ _ _ _ _ _ _ P) as Et.
  rewrite <- Ek in Es, Et |- *. cbn [fst snd group_key_of] in *. rewrite Es in E1. rewrite Et in E2.
  injection E1 as <-. injection E2 as <-. split; [apply (pf_recipe _ _ _ _ _ _ _ F)|]. split; [done|].
  apply (pf_key _ _ _ _ _ _ _ F).
Qed.

Lemma recipe_made r : r ∈ pe_recipes c -> new_CuttingRecipe r = Ok r.
Proof. destruct Hc as (_ & _ & _ & HR). rewrite Forall_forall in HR. by apply HR. Qed.

Lemma operation_move_limits q prev mv :
  q ∈ operations -> move_safe c s t (gp_outlines g) (fst q) (snd q) prev mv -> within_limits c mp s t mv.
Proof.
  intros Hq M. destruct (operation_recipe q Hq) as (Hr & _ & _). destruct program_setup as (Hs & _ & SF).
  destruct (recipe_positive _ (recipe_made _ Hr)) as [A _]. destruct Hc as (_ & HS & _). rewrite Forall_forall in HS.
  destruct (setup_measures s (HS s Hs)) as [TH W]. destruct machine_bounds_of as (B1 & B2 & B3 & B4 & B5 & B6).
  destruct (ms_machine _ _ _ _ _ _ _ _ M) as (MX & MY & MZ). pose proof (ms_stock _ _ _ _ _ _ _ _ M) as [SX SY].
  destruct program_first as (first & _ & _ & _ & EZ & _ & _ & FZ). rewrite EZ in FZ. destruct fits_setup as (_ & _ & _ & _ & WZ & _).
  destruct (fc_axes _ context_ok) as (_ & _ & AZ). unfold move_xy in SX, SY. cbn [fst snd] in SX, SY.
  destruct (fs_sizes _ SF) as (_ & _ & SZ).
  assert (- (bs_stock_thickness_um s + bs_through_cut_allowance_um s) <= mv_z_um mv <= bs_safe_z_um s) as D.
  { destruct (mv_kind mv) eqn:K.
    - pose proof (ms_rapid _ _ _ _ _ _ _ _ M K) as (R & _). lia.
    - pose proof (ms_cut _ _ _ _ _ _ _ _ M K) as (R & D & _). unfold depth_safe in D. destruct (op_through (fst q)); lia. }
  unfold within_limits. rewrite B1, B2, B3, B4, B5, B6. split_and!; lia.
Qed.

Lemma operation_feed q prev mv :
  q ∈ operations -> move_safe c s t (gp_outlines g) (fst q) (snd q) prev mv -> mv_kind mv = LINEAR ->
  exists feed, mv_feed_um_min mv = Some feed /\ 0 < feed /\ modest feed = true /\
    feed ∈ [cr_feed_um_min (snd q); cr_plunge_um_min (snd q)].
Proof.
  intros Hq M K. destruct (operation_recipe q Hq) as (Hr & _ & _). destruct (feeds_constructed _ (recipe_made _ Hr)) as [F1 F2].
  destruct (fc_recipe _ context_ok _ Hr) as (_ & L1 & L2). pose proof (ms_feed _ _ _ _ _ _ _ _ M) as E. rewrite K in E.
  pose proof (modest_machine mp c HW (pe_max_feed_um_min c) ltac:(listed)) as B1.
  pose proof (modest_machine mp c HW (pe_max_plunge_um_min c) ltac:(listed)) as B2. unfold modest in *. bprop.
  cbn [feeds_of] in E.
  apply elem_of_cons in E as [E|[E|[]%elem_of_nil]%elem_of_cons]; eexists; (split; [exact E|]); split_and!;
    try apply Z.leb_le; try lia; listed.
Qed.

(** A move after one that ended at [previous]. *)
Lemma operation_move_clear q (prev : option ProductionMove) previous mv :
  q ∈ operations -> move_safe c s t (gp_outlines g) (fst q) (snd q) prev mv ->
  match prev with
  | Some m => previous = (mv_x_um m, mv_y_um m, mv_z_um m)
  | None => snd previous = bs_safe_z_um s
  end -> clear_of_stock s previous mv.
Proof.
  intros Hq M E. destruct previous as [[px py] pz]. unfold clear_of_stock. destruct (mv_kind mv) eqn:K.
  - destruct (ms_rapid _ _ _ _ _ _ _ _ M K) as (R1 & R2 & R3). split; [lia|].
    assert (mv_z_um mv < bs_safe_z_um s -> mv_role mv ∈ [APPROACH; PECK_RETRACT]) as R by (intros [->| ->]%R2; listed).
    split; [|split; [done|]].
    + intros C. destruct prev as [m|].
      * injection E as -> -> ->. destruct (R3 m eq_refl) as [-> ->]; [|lia]. unfold move_xy. intros [= E1 E2]. destruct C; congruence.
      * cbn in E. subst pz. destruct (ms_start _ _ _ _ _ _ _ _ M eq_refl) as (_ & _ & ->). lia.
    + intros Q. destruct (decide (mv_z_um mv < bs_safe_z_um s)) as [L|L]; [|lia]. apply R in L. rewrite Q in L.
      apply elem_of_cons in L as [L|[L|[]%elem_of_nil]%elem_of_cons]; discriminate L.
  - destruct (operation_feed q prev mv Hq M K) as (feed & F & L & _). by exists feed.
Qed.

Lemma program_path_from prev previous moves :
  chain (program_move_safe c g s t operations) prev moves ->
  match prev with
  | Some m => previous = (mv_x_um m, mv_y_um m, mv_z_um m)
  | None => snd previous = bs_safe_z_um s
  end -> safe_path c mp s t previous moves.
Proof.
  revert prev previous; induction moves as [|mv moves IH]; intros prev previous C E; [constructor|].
  destruct C as [(q & Hq & M) C]. constructor.
  - by apply (operation_move_limits q prev).
  - by apply (operation_move_clear q prev).
  - by apply (IH (Some mv)).
Qed.

Lemma program_path : safe_path c mp s t (0, 0, bs_safe_z_um s) (pg_moves p).
Proof. by apply (program_path_from None); [apply program_chain|]. Qed.

Lemma chain_elem R prev moves mv : chain R prev moves -> mv ∈ moves -> exists before, R before mv.
Proof.
  revert prev; induction moves as [|m moves IH]; intros prev C Hm; [by apply elem_of_nil in Hm|].
  destruct C as [A C]. apply elem_of_cons in Hm as [->|Hm]; [by exists prev|]. by apply (IH (Some m)).
Qed.

Lemma program_move mv : mv ∈ pg_moves p ->
  exists q prev, q ∈ operations /\ move_safe c s t (gp_outlines g) (fst q) (snd q) prev mv.
Proof. intros Hm. destruct (chain_elem _ _ _ _ program_chain Hm) as (prev & q & Hq & M). by exists q, prev. Qed.

(** *** Its numbers *)

Lemma small_place v lo hi place offset :
  lo <= place + v + offset <= hi -> modest lo = true -> modest hi = true -> modest place = true -> modest offset = true ->
  small v /\ small (place + v + offset).
Proof. unfold modest, small. intros. bprop. lia. Qed.

Lemma small_between v lo hi : lo <= v <= hi -> modest lo = true -> modest hi = true -> small v.
Proof. unfold modest, small. intros. bprop. lia. Qed.

Lemma modest_bound v : v ∈ context_bounds c -> modest v = true.
Proof.
  intros H. destruct fits_binding as [_ E]. rewrite <- E in H. apply (modest_machine mp c HW). unfold machine_numbers, profile_bounds in *.
  change [lp_machine_x_min_um mp; lp_machine_x_max_um mp; lp_machine_y_min_um mp; lp_machine_y_max_um mp;
   lp_machine_z_min_um mp; lp_machine_z_max_um mp; pe_max_feed_um_min c; pe_max_plunge_um_min c; pe_max_spindle_rpm c]
    with (profile_bounds mp ++ [pe_max_feed_um_min c; pe_max_plunge_um_min c; pe_max_spindle_rpm c]).
  apply elem_of_app. by left.
Qed.

Lemma within_small mv : within_machine c s t mv ->
  (small (mv_x_um mv) /\ small (mv_y_um mv) /\ small (mv_z_um mv)) /\
  small (entry_machine_x_um s t mv) /\ small (entry_machine_y_um s t mv).
Proof.
  destruct program_setup as (Hs & _). destruct program_tool as (Ht & _ & TF). destruct (ft_offsets _ TF) as [OX OY].
  intros (WX & WY & WZ). unfold entry_machine_x_um, entry_machine_y_um.
  destruct (small_place _ _ _ _ _ WX) as [X1 X2]; [apply modest_bound; listed..|apply (modest_setup mp c HW s); [done|listed]|by rewrite OX|].
  destruct (small_place _ _ _ _ _ WY) as [Y1 Y2]; [apply modest_bound; listed..|apply (modest_setup mp c HW s); [done|listed]|by rewrite OY|].
  destruct (small_place _ _ _ _ _ WZ) as [Z1 _]; [apply modest_bound; listed..|apply (modest_setup mp c HW s); [done|listed]|by apply (modest_tool mp c HW)|].
  done.
Qed.

Context (HO : Forall (fun o => (String.length (op_operation_id o) <= 200)%nat) (od_operations doc)).

Lemma program_moves_printable : Forall printable_move (pg_moves p).
Proof.
  apply Forall_forall. intros mv Hm. destruct (program_move mv Hm) as (q & prev & Hq & M).
  pose proof Hq as [Hin _]%(group_operations_elem g). pose proof (po_checked _ _ _ _ _ _ _ P) as N.
  assert (is_canonical_id (mv_operation_id mv) = true) as I.
  { apply program_lists in N as [H _]. assert (mv_operation_id mv ∈ pg_operation_ids p) as HI' by (by apply H, list_elem_of_fmap_2).
    pose proof (po_checked _ _ _ _ _ _ _ P) as N. unfold new_ProductionProgram in N. do 5 (apply bind_Ok in N as (? & _ & N)).
    apply bind_Ok in N as (? & N%check_all_Ok & _). rewrite Forall_forall in N. specialize (N _ HI').
    by apply refuse_Ok, negb_false_iff in N. }
  constructor.
  - apply (clean_entry_of _ _ 200); [by apply canonical_clean| |by apply Nat.leb_le].
    rewrite (ms_operation _ _ _ _ _ _ _ _ M). rewrite Forall_forall in HO. apply HO.
    rewrite <- (gf_operations doc c g Hg). by apply list_elem_of_fmap_2.
  - apply (within_small _ (ms_machine _ _ _ _ _ _ _ _ M)).
  - destruct (mv_kind mv) eqn:K.
    + pose proof (ms_feed _ _ _ _ _ _ _ _ M) as F. rewrite K in F. apply list_elem_of_singleton in F. by rewrite F.
    + destruct (operation_feed q prev mv Hq M K) as (feed & -> & _ & F & _). by apply modest_small.
Qed.

(** *** Its recipes *)

Lemma recipe_id_elem id : id ∈ pg_recipe_ids p <-> exists q, q ∈ operations /\ id = cr_recipe_id (snd q).
Proof.
  rewrite (po_recipe_ids _ _ _ _ _ _ _ P). unfold sort_strings. rewrite (sort_by_perm String.compare), elem_of_remove_dups, list_elem_of_fmap.
  split; intros (q & H1 & H2); by exists q.
Qed.

Lemma program_operation : exists q, q ∈ operations.
Proof.
  destruct program_first as (first & E & _). destruct (program_move first) as (q & _ & Hq & _); [|by exists q].
  destruct (pg_moves p); [done|]. injection E as ->. by left.
Qed.

Lemma recipes_resolved err :
  exists recipes, traverse (fun i => of_option (dict_of cr_recipe_id (pe_recipes c) !! i) err) (pg_recipe_ids p) = Ok recipes /\
    forall r, r ∈ recipes <-> exists q, q ∈ operations /\ snd q = r.
Proof.
  pose proof (fc_recipes _ context_ok) as U.
  destruct (traverse_total (fun i => of_option (dict_of cr_recipe_id (pe_recipes c) !! i) err) (pg_recipe_ids p)) as (recipes & E).
  { intros id (q & Hq & ->)%recipe_id_elem. destruct (operation_recipe q Hq) as (Hr & _).
    exists (snd q). by rewrite (dict_of_elem cr_recipe_id _ _ U Hr). }
  exists recipes. split; [done|]. apply traverse_Ok in E. intros r. split.
  - intros Hr. apply (Forall2_elem_r _ _ _ _ E) in Hr as (id & (q & Hq & ->)%recipe_id_elem & L). exists q. split; [done|].
    destruct (operation_recipe q Hq) as (Hr & _). rewrite (dict_of_elem cr_recipe_id _ _ U Hr) in L. by injection L.
  - intros (q & Hq & <-). assert (cr_recipe_id (snd q) ∈ pg_recipe_ids p) as Hid by (apply recipe_id_elem; by exists q).
    apply (Forall2_elem_l _ _ _ _ E) in Hid as (r & Hr & L). destruct (operation_recipe q Hq) as (Hq' & _).
    rewrite (dict_of_elem cr_recipe_id _ _ U Hq') in L. by injection L as <-.
Qed.

Lemma recipes_speed recipes : (forall r, r ∈ recipes <-> exists q, q ∈ operations /\ snd q = r) -> one_speed recipes = Ok rpm.
Proof.
  intros HR. unfold one_speed. rewrite (remove_dups_same _ rpm); [done|..].
  - destruct program_operation as (q & Hq). assert (snd q ∈ recipes) as H by (apply HR; by exists q). by destruct recipes; [apply elem_of_nil in H|].
  - intros v (r & -> & (q & Hq & <-)%HR)%list_elem_of_fmap. by destruct (operation_recipe q Hq) as (_ & -> & _).
Qed.

Lemma program_recipes : require_recipes result p s = Ok rpm.
Proof.
  unfold require_recipes. rewrite HX. destruct (recipes_resolved (GCodeSafetyError "production program references an unknown cutting recipe")) as (recipes & -> & HR).
  cbn [mbind result_bind]. rewrite (proj2 (forallb_forall _ _)).
  - cbn [negb unsafe_if raise_if mbind result_bind]. rewrite (recipes_speed _ HR). cbn [mbind result_bind]. cbv zeta.
    rewrite (proj2 (check_all_Ok _ _ ())); [done|]. apply Forall_forall. intros mv Hm. destruct (program_move mv Hm) as (q & prev & Hq & M).
    destruct (mv_kind mv) eqn:K; [done|]. rewrite bool_decide_eq_true_2 by done. cbn [andb].
    rewrite bool_decide_eq_true_2; [done|]. destruct (operation_feed q prev mv Hq M K) as (feed & -> & _ & _ & F).
    apply list_elem_of_fmap_2, list_elem_of_In, in_concat. exists [cr_feed_um_min (snd q); cr_plunge_um_min (snd q)].
    split; [|by apply list_elem_of_In]. apply (in_map (fun r => [cr_feed_um_min r; cr_plunge_um_min r])), list_elem_of_In, HR.
    by exists q.
  - intros r Hr%list_elem_of_In. apply HR in Hr as (q & Hq & <-). destruct (operation_recipe q Hq) as (_ & _ & Ek).
    unfold recipe_agrees. apply bool_decide_eq_true. unfold recipe_key_of in Ek. injection Ek as -> -> -> -> _.
    by rewrite (po_tool_id _ _ _ _ _ _ _ P), (po_tool_version _ _ _ _ _ _ _ P).
Qed.

(** *** Its machine *)

Lemma program_wcs :
  bs_wcs s ∈ lp_supported_wcs mp /\
  exists o, filter (fun o => wo_wcs o = bs_wcs s) (lp_wcs_offsets mp) = [o] /\ offset_row o = setup_row s.
Proof.
  destruct fits_setup as (o & Ho & Ew & Er & _). destruct (fp_wcs _ HF) as [N W]. split.
  - rewrite <- W, <- Ew. by apply list_elem_of_fmap_2.
  - exists o. split; [|done]. rewrite <- Ew. by apply (filter_only wo_wcs).
Qed.

Lemma program_setup_binding : require_setup_binding result p mp = Ok (s, t).
Proof.
  destruct program_setup as (Hs & Es & SF). destruct program_tool as (Ht & Et & TF). pose proof context_ok as CF.
  destruct program_wcs as [W (o & EO & ER)]. unfold require_setup_binding. cbv zeta. rewrite HX, <- Es, <- Et.
  rewrite (filter_only bs_setup_id _ _ (fc_setups _ CF) Hs), (filter_only tb_tool_id _ _ (fc_tools _ CF) Ht).
  cbn [the_only mbind result_bind]. rewrite EO. cbn [the_only mbind result_bind]. rewrite (bool_decide_eq_false_2 (bs_wcs s ∉ lp_supported_wcs mp)) by (intros N; by apply N). cbn [unsafe_if raise_if mbind result_bind].
  rewrite (bool_decide_eq_true_2 (offset_row o = setup_row s)) by done. cbn [negb unsafe_if raise_if mbind result_bind].
  destruct machine_bounds_of as (B1 & B2 & B3 & B4 & B5 & B6). destruct (fc_travel _ CF s Hs) as (X1 & X2 & Y1 & Y2).
  destruct (ft_offsets _ TF) as [OX OY]. destruct (fs_sizes _ SF) as (SX & SY & _).
  assert (check_footprint mp s t = true) as ->.
  { unfold check_footprint. cbv zeta. rewrite OX, OY, B1, B2, B3, B4.
    repeat (apply andb_true_iff; split); apply Z.leb_le; lia. }
  destruct program_first as (first & _ & _ & _ & EZ & _ & _ & WZ). rewrite EZ in WZ.
  destruct fits_setup as (_ & _ & _ & _ & _ & TC).
  rewrite (proj2 (Z.leb_le _ _)) by (unfold safe_machine_z_um; lia).
  rewrite (proj2 (Z.leb_le _ _)) by (unfold safe_machine_z_um; lia). rewrite (proj2 (Z.ltb_ge _ _)) by lia.
  cbn [andb negb unsafe_if raise_if mbind result_bind].
  rewrite bool_decide_eq_true_2 by (symmetry; apply (po_tool_version _ _ _ _ _ _ _ P)). done.
Qed.

Lemma program_profile_binding : require_machine_profile_binding mp c = Ok ().
Proof.
  destruct machine_bounds_of as (B1 & B2 & B3 & B4 & B5 & B6). destruct machine_names_of as (N1 & N2 & N3 & N4 & _).
  destruct (fc_axes _ context_ok) as (AX & AY & AZ).
  unfold require_machine_profile_binding, profile_work_width_um, profile_work_height_um, profile_work_z_um.
  rewrite N1, N2, N3, N4, B1, B2, B3, B4, B5, B6, AX, AY, AZ.
  rewrite bool_decide_eq_true_2 by done. rewrite bool_decide_eq_true_2 by done. by rewrite bool_decide_eq_true_2 by done.
Qed.

Lemma program_speed : 1 <= rpm /\ small rpm.
Proof.
  destruct program_operation as (q & Hq). destruct (operation_recipe q Hq) as (Hr & E & _).
  destruct (fc_recipe _ context_ok _ Hr) as (L & _). pose proof (fc_limits _ context_ok). rewrite E in L. split; [lia|].
  apply (small_between rpm (pe_min_spindle_rpm c) (pe_max_spindle_rpm c)); [done| |apply (modest_machine mp c HW); listed].
  pose proof (modest_machine mp c HW (pe_max_spindle_rpm c) ltac:(listed)) as M. unfold modest in *. bprop. apply Z.leb_le. lia.
Qed.

Context (HN : small (Z.of_nat (length (pt_programs result)))).

Lemma program_order : 1 <= pg_run_order p /\ small (pg_run_order p).
Proof.
  assert (pg_run_order p ∈ map pg_run_order (pt_programs result)) as H by (by apply list_elem_of_fmap_2).
  rewrite (fd_order _ HD) in H. apply elem_of_seqZ in H. unfold small in *. lia.
Qed.

Lemma program_names : is_canonical_id (pg_program_id p) = true /\ is_canonical_id (pg_setup_id p) = true /\
  is_canonical_id (pg_tool_id p) = true.
Proof.
  pose proof (po_checked _ _ _ _ _ _ _ P) as N. unfold new_ProductionProgram in N. apply bind_Ok in N as ([] & N%require_identities_all & _).
  apply Forall_cons in N as [N1 [N2 [N3 _]%Forall_cons]%Forall_cons]. done.
Qed.

Lemma program_header_facts first : head (pg_moves p) = Some first -> within_machine c s t first ->
  header_facts result c mp p s t first rpm.
Proof.
  intros Ef Wf. destruct program_setup as (Hs & Es & _). destruct program_tool as (Ht & Et & _).
  destruct machine_names_of as (N1 & N2 & _). constructor; try done.
  - apply (fd_hashes _ HD).
  - split; [done|]. split; [apply (po_tool_id _ _ _ _ _ _ _ P)|apply (po_tool_version _ _ _ _ _ _ _ P)].
  - apply program_order.
  - destruct program_speed. split; [lia|done].
  - split; [apply program_names|]. rewrite (po_program_id _ _ _ _ _ _ _ P), (po_run_order _ _ _ _ _ _ _ P), Es.
    by rewrite (po_setup_id _ _ _ _ _ _ _ P).
  - apply (within_small first Wf).
Qed.

(** The program can be posted. *)
Lemma program_postable : exists wcs first, postable result p mp s t rpm wcs first.
Proof.
  destruct program_setup as (Hs & Es & SF). destruct program_tool as (Ht & Et & TF).
  destruct program_first as (first & Ef & K & R & EZ & W). destruct machine_names_of as (_ & _ & _ & _ & S1 & S2).
  destruct machine_bounds_of as (B1 & B2 & B3 & B4 & B5 & B6). destruct program_speed as [V1 V2].
  destruct (within_small first W) as [_ [E1 E2]].
  assert (exists wcs, setup_wcs_number s = Ok wcs) as (wcs & EW).
  { unfold setup_wcs_number. pose proof (fs_wcs _ SF) as H%wcs_cases.
    repeat (apply elem_of_cons in H as [->|H]; [eexists; vm_compute; reflexivity|]). by apply elem_of_nil in H. }
  destruct (fp_axes _ HF) as (TX & TY & TZ). pose proof (fp_spinup _ HF) as SP.
  exists wcs, first. constructor; rewrite ?HX; try done.
  - apply program_profile_binding.
  - apply program_setup_binding.
  - apply program_recipes.
  - by apply (header_clean result c mp p s t first rpm HF HW (program_header_facts first Ef W) SF TF).
  - unfold starts_at_safe_z. rewrite K, R, EZ, Z.eqb_refl. done.
  - rewrite B1, B2, B3, B4. destruct W as (WX & WY & _). done.
  - apply program_moves_printable.
  - apply program_path.
  - destruct (ft_numbers _ TF) as [T1 T2]. unfold MAX_LINUXCNC_TOOL_OR_OFFSET_NUMBER in *.
    constructor; try done; try (unfold small; lia).
    + split_and!; eapply small_between; try done; apply (modest_machine mp c HW); listed.
    + by apply modest_small, (modest_setup mp c HW s); [|listed].
    + split; [lia|done].
  - lia.
  - lia.
Qed.
End Program.

(** ** The record of a program *)

Lemma replace_runs_chars b l : Forall (fun c => filename_char c = true) (replace_runs b l).
Proof.
  revert b; induction l as [|c l IH]; intros b; cbn [replace_runs]; [constructor|].
  destruct (filename_char c) eqn:E; [by constructor|]. destruct b; [done|]. by constructor.
Qed.

Lemma drop_dots_suffix l : exists before, l = before ++ drop_dots l.
Proof.
  induction l as [|c l IH]; cbn [drop_dots]; [by exists []|]. case_bool_decide; [|by exists []].
  destruct IH as [before IH]. exists (c :: before). cbn. by f_equal.
Qed.

Lemma drop_dots_chars (P : ascii -> Prop) l : Forall P l -> Forall P (drop_dots l).
Proof. destruct (drop_dots_suffix l) as [before E]. rewrite E at 1. by intros [_ ?]%Forall_app. Qed.

Lemma component_chars value : Forall (fun c => filename_char c = true) (chars (safe_filename_component value)).
Proof.
  assert (Forall (fun c => filename_char c = true) (cleaned_component value)) as F.
  { unfold cleaned_component. pose proof (replace_runs_chars false (chars value)) as H.
    apply drop_dots_chars, Forall_rev, drop_dots_chars, Forall_rev in H.
    destruct (rev (drop_dots (rev (drop_dots (replace_runs false (chars value)))))) as [|c l]; [|exact H].
    repeat (constructor; [vm_compute; reflexivity|]). constructor. }
  unfold safe_filename_component. cbv zeta. destruct (bool_decide _ && bool_decide _); [by rewrite chars_of_chars|].
  rewrite !chars_app, !chars_of_chars. apply Forall_app. split; [by apply Forall_take|]. constructor; [done|]. apply Forall_take.
  eapply Forall_impl; [apply hex_bytes_chars|]. by apply chars_imply.
Qed.

(** The number of a program in its file name. *)
Lemma filename_number p : 0 <= pg_run_order p ->
  exists rest, chars (program_filename p) = chars (zero_padded 3 (Z.to_N (pg_run_order p))) ++ "."%char :: rest.
Proof.
  intros H. unfold program_filename, zero_padded_Z. rewrite (proj2 (Z.ltb_ge _ _)) by done. rewrite chars_app. by eexists.
Qed.

Lemma digits_then_dot l1 l2 r1 r2 :
  Forall (fun c => is_digit c = true) l1 -> Forall (fun c => is_digit c = true) l2 ->
  l1 ++ "."%char :: r1 = l2 ++ "."%char :: r2 -> l1 = l2.
Proof.
  revert l2; induction l1 as [|c l1 IH]; intros [|d l2] F1 F2 E; try done.
  - injection E as <- _. by apply Forall_cons in F2 as [? _].
  - injection E as -> _. by apply Forall_cons in F1 as [? _].
  - injection E as -> E. f_equal. apply Forall_cons in F1 as [_ F1], F2 as [_ F2]. by apply (IH l2).
Qed.

Lemma filename_binds_order p p' : 0 <= pg_run_order p -> 0 <= pg_run_order p' ->
  program_filename p = program_filename p' -> pg_run_order p = pg_run_order p'.
Proof.
  intros H H' E. destruct (filename_number p H) as [r1 E1], (filename_number p' H') as [r2 E2]. rewrite E, E2 in E1.
  apply digits_then_dot in E1; [|apply zero_padded_digits..]. apply chars_inj, zero_padded_inj in E1. lia.
Qed.

Lemma empty_rejected d p mp parsed : validate_production_program "" d p mp = Ok parsed -> False.
Proof.
  unfold validate_production_program. intros H. do 3 (apply bind_Ok in H as (? & _ & H)). apply bind_Ok in H as ([s t] & _ & H).
  apply bind_Ok in H as (? & _ & H). apply bind_Ok in H as (? & _ & H). apply bind_Ok in H as (? & H & _). discriminate H.
Qed.

(** What the record of a program requires of its name. *)
Lemma filename_canonical p : 0 <= pg_run_order p ->
  let name := program_filename p in
  name <> "" /\ "/"%char ∉ chars name /\ "\"%char ∉ chars name /\ name ∉ ["."; ".."] /\
  ends_with ".production.ngc" name = true /\ starts_with (zero_padded_Z 3 (pg_run_order p) +:+ ".") name = true.
Proof.
  intros H name. assert (Forall (fun c => filename_char c = true) (chars name)) as F.
  { unfold name, program_filename, zero_padded_Z. rewrite (proj2 (Z.ltb_ge _ _)) by done. rewrite !chars_app, !Forall_app. split_and!.
    - eapply Forall_impl; [apply zero_padded_digits|]. by apply chars_imply.
    - by repeat constructor.
    - apply component_chars.
    - by repeat constructor.
    - apply component_chars.
    - by repeat (constructor; [vm_compute; reflexivity|]). }
  assert (15 <= length (chars name))%nat as N.
  { unfold name, program_filename. rewrite !chars_app, !length_app. cbn [length chars String.list_ascii_of_string]. lia. }
  split_and!.
  - intros E. rewrite E in N. cbn in N. lia.
  - intros E. rewrite Forall_forall in F. by apply F in E.
  - intros E. rewrite Forall_forall in F. by apply F in E.
  - intros E. repeat (apply elem_of_cons in E as [E|E]; [rewrite E in N; cbn in N; lia|]). by apply elem_of_nil in E.
  - unfold ends_with, name, program_filename. rewrite !chars_app, !app_assoc, rev_app_distr. by rewrite after_prefix_app.
  - unfold starts_with, name, program_filename. rewrite !chars_app, app_assoc. by rewrite after_prefix_app.
Qed.

(** ** The loop over the programs *)

Section Loop.
Context (mp : LinuxCNCProductionMachineProfile) (d : ProductionToolpathDocument).

(** What the postprocessor gives for one program. *)
Definition posted (p : ProductionProgram) (content : string) : Prop :=
  program_text mp d p = Ok content /\ (exists parsed, validate_production_program content d p mp = Ok parsed) /\
  new_ProductionMachineProgram (machine_program mp d p content) = Ok (machine_program mp d p content).

Lemma generate_loop programs contents output :
  Forall2 posted programs contents -> NoDup (map program_filename programs) ->
  (forall p, p ∈ programs -> program_filename p ∉ map pm_filename output) ->
  foldM (generate_one mp d) output programs = Ok (output ++ zip_with (machine_program mp d) programs contents).
Proof.
  intros F. revert output; induction F as [|p content programs contents (H1 & (parsed & H2) & H3) _ IH]; intros output HN HO.
  - cbn. by rewrite app_nil_r.
  - apply NoDup_cons in HN as [HP HN].
    assert (generate_one mp d output p = Ok (output ++ [machine_program mp d p content])) as E.
    { unfold generate_one. rewrite H1. cbn [mbind result_bind]. rewrite bool_decide_eq_false_2 by (apply HO; left).
      cbn [unsafe_if raise_if mbind result_bind]. rewrite H2. cbn [mbind result_bind]. by rewrite H3. }
    cbn [foldM]. rewrite E. cbn [mbind result_bind]. rewrite IH; [by rewrite <- app_assoc|done|].
    intros q Hq. rewrite map_app, not_elem_of_app. split; [apply HO; by right|]. cbn [map]. intros E'%list_elem_of_singleton.
    apply HP. cbn [pm_filename machine_program] in E'. rewrite <- E'. by apply list_elem_of_fmap_2.
Qed.
End Loop.

Lemma machine_programs_map {B} (f : ProductionMachineProgram -> B) (h : ProductionProgram -> B) mp d programs contents :
  length programs = length contents -> (forall p content, f (machine_program mp d p content) = h p) ->
  map f (zip_with (machine_program mp d) programs contents) = map h programs.
Proof.
  revert contents; induction programs as [|p programs IH]; intros [|content contents] E H; [done..|].
  cbn. rewrite H. f_equal. apply IH; [by injection E|done].
Qed.

Lemma casefold_linuxcnc : casefold controller = "linuxcnc".
Proof. by vm_compute. Qed.

(** The records of the programs of a shop are as the constructor wants them. *)
Lemma machine_program_made mp d p content parsed :
  profile_facts mp -> profile_binding mp = context_binding (pt_execution_context d) ->
  is_canonical_id (pg_program_id p) = true -> is_canonical_id (pg_setup_id p) = true -> is_canonical_id (pg_tool_id p) = true ->
  1 <= pg_run_order p -> validate_production_program content d p mp = Ok parsed ->
  new_ProductionMachineProgram (machine_program mp d p content) = Ok (machine_program mp d p content).
Proof.
  intros HF HB I1 I2 I3 HO HV. unfold profile_binding, context_binding in HB. injection HB as _ _ C1 C2 _ _.
  assert (is_canonical_id (lp_controller_id mp) = true /\ is_canonical_id (lp_controller_version mp) = true) as [I4 I5]
    by (split; [apply (profile_name _ HF 4 _ _ eq_refl)|apply (profile_name _ HF 5 _ _ eq_refl)]).
  rewrite C1 in I4. rewrite C2 in I5.
  destruct (filename_canonical p ltac:(lia)) as (N1 & N2 & N3 & N4 & N5 & N6).
  unfold new_ProductionMachineProgram. cbn [machine_program pm_filename pm_program_id pm_run_order pm_setup_id pm_tool_id pm_controller
    pm_controller_version pm_postprocessor_id pm_postprocessor_version pm_source_toolpaths_sha256
    pm_production_machine_profile_sha256 pm_content pm_mode pm_machine_executable pm_physical_cutting_authorized
    pm_workshop_acceptance_required].
  rewrite (proj2 (check_all_Ok _ _ ())).
  - cbn [mbind result_bind]. rewrite (bool_decide_eq_false_2 _ N1), (bool_decide_eq_false_2 _ N2), (bool_decide_eq_false_2 _ N3),
      (bool_decide_eq_false_2 _ N4), N5, N6. cbn [orb negb value_error_if raise_if mbind result_bind].
    rewrite (proj2 (Z.ltb_ge _ _)) by lia. cbn [value_error_if raise_if mbind result_bind].
    unfold toolpaths_fingerprint, config_sha256. rewrite !content_hash_ok. cbn [negb value_error_if raise_if mbind result_bind].
    rewrite (bool_decide_eq_false_2 (content = "")); [reflexivity|]. intros ->. by apply empty_rejected in HV.
  - repeat constructor; cbn [fst snd]; rewrite ?I1, ?I2, ?I3, ?I4, ?I5; reflexivity.
Qed.

(** What the generator returns for a shop is posted. *)
Lemma documents_posted doc c mp result :
  well_formed_context c -> new_LinuxCNCProductionMachineProfile mp = Ok mp -> installation_fits mp c = true ->
  writable mp c = true -> Forall (fun o => (String.length (op_operation_id o) <= 200)%nat) (od_operations doc) ->
  modest (Z.of_nat (length (pt_programs result))) = true -> generate_production_toolpaths doc c = Ok result ->
  exists outputs, generate_production mp result = Ok outputs /\ NoDup (map pm_filename outputs) /\
    Forall2 (fun p output =>
      pm_program_id output = pg_program_id p /\ pm_run_order output = pg_run_order p /\
      pm_setup_id output = pg_setup_id p /\ pm_tool_id output = pg_tool_id p /\
      pm_source_toolpaths_sha256 output = toolpaths_fingerprint result /\
      exists parsed, validate_production_program (pm_content output) result p mp = Ok parsed /\
        Forall2 agrees (pr_moves parsed) (pg_moves p)) (pt_programs result) outputs.
Proof.
  intros Hc Hmp HI HW HO HN H. pose proof (profile_constructed _ Hmp) as HF. pose proof (context_ok c Hc) as CF.
  apply generated_programs in H as (g & Hg & Hd & HX & F). pose proof (document_constructed _ Hd) as HD.
  assert (forall p, p ∈ pt_programs result -> 1 <= pg_run_order p /\ exists content, posted mp result p content /\
    exists parsed, validate_production_program content result p mp = Ok parsed /\ Forall2 agrees (pr_moves parsed) (pg_moves p)) as A.
  { intros p Hp. apply (Forall2_elem_r _ _ _ _ F) in Hp as HK. destruct HK as ([i k] & _ & s & t & P). cbn [fst snd] in P.
    pose proof (program_order result HD p Hp (modest_small _ HN)) as [O _]. split; [done|].
    destruct (program_postable doc c g mp result Hc Hg HF HI HW HD HX i k s t p Hp P HO (modest_small _ HN)) as (wcs & first & HP).
    destruct (printed_program_accepted _ _ _ _ _ _ _ _ HP) as (content & parsed & T & V & M & _).
    destruct (program_names c g i k s t p P) as (I1 & I2 & I3).
    exists content. split; [|by exists parsed]. split; [done|]. split; [by exists parsed|].
    apply (machine_program_made mp result p content parsed HF); try done. rewrite HX. by destruct (fits_binding c mp HI). }
  assert (exists contents, Forall2 (fun p content => posted mp result p content /\
    exists parsed, validate_production_program content result p mp = Ok parsed /\ Forall2 agrees (pr_moves parsed) (pg_moves p))
    (pt_programs result) contents) as (contents & FC).
  { apply Forall2_choice. intros p Hp. by apply A. }
  assert (NoDup (map program_filename (pt_programs result))) as ND.
  { apply (NoDup_map_by pg_run_order); [|rewrite (fd_order _ HD); apply NoDup_seqZ].
    intros p q Hp Hq E. apply filename_binds_order; [apply A in Hp; lia|apply A in Hq; lia|done]. }
  exists (zip_with (machine_program mp result) (pt_programs result) contents). split_and!.
  - unfold generate_production. rewrite HX. destruct (fits_binding c mp HI) as [B1 B2].
    assert (casefold (pe_controller_id c) = casefold controller) as -> by
      (unfold profile_binding, context_binding in B1; injection B1 as _ _ <- _ _ _; rewrite casefold_linuxcnc; apply (fp_controller _ HF)).
    rewrite (bool_decide_eq_true_2 _ eq_refl), (bool_decide_eq_true_2 _ B1), (bool_decide_eq_true_2 _ B2).
    rewrite (proj2 (distinct_spec _) (fc_setups _ CF)), (proj2 (distinct_spec _) (fc_tools _ CF)).
    cbn [negb orb unsafe_if raise_if mbind result_bind].
    rewrite (generate_loop mp result (pt_programs result) contents []); [|..|done|by intros p _ []%elem_of_nil].
    + cbn [app mbind result_bind]. rewrite (machine_programs_map pm_run_order pg_run_order) by (done || by apply (Forall2_length _ _ _ FC)).
      rewrite (fd_order _ HD), length_zip_with, <- (Forall2_length _ _ _ FC), Nat.min_id.
      by rewrite (bool_decide_eq_true_2 _ eq_refl).
    + apply (Forall2_impl _ _ _ _ FC). by intros p content [? _].
  - by rewrite (machine_programs_map pm_filename program_filename) by (done || by apply (Forall2_length _ _ _ FC)).
  - clear - FC. induction FC as [|p content programs contents [_ M] _ IH]; [constructor|]. constructor; [|done].
    by split_and!.
Qed.

(** C4: Every toolpath document has its programs.  For a context and a machine
    profile that their constructors accept, an installation that fits the
    context (the same machine, axes and work offsets, a tool change above every
    clearance plane) and names and numbers that fit the lines of a program: what
    the toolpath generator returns, the postprocessor accepts.  It writes one
    program for each planned program, in order, under distinct file names, and
    each text is accepted by the validator as a text of exactly the planned
    moves, in kind, end point and feed. *)
Theorem every_document_is_posted doc c mp result :
  well_formed_context c -> new_LinuxCNCProductionMachineProfile mp = Ok mp -> installation_fits mp c = true ->
  writable mp c = true -> Forall (fun o => (String.length (op_operation_id o) <= 200)%nat) (od_operations doc) ->
  modest (Z.of_nat (length (pt_programs result))) = true -> generate_production_toolpaths doc c = Ok result ->
  exists outputs, generate_production mp result = Ok outputs /\ NoDup (map pm_filename outputs) /\
    Forall2 (fun p output =>
      pm_program_id output = pg_program_id p /\ pm_run_order output = pg_run_order p /\
      pm_setup_id output = pg_setup_id p /\ pm_tool_id output = pg_tool_id p /\
      pm_source_toolpaths_sha256 output = toolpaths_fingerprint result /\
      exists parsed, validate_production_program (pm_content output) result p mp = Ok parsed /\
        Forall2 agrees (pr_moves parsed) (pg_moves p)) (pt_programs result) outputs.
Proof. apply documents_posted. Qed.
