(* ===== verification/ProductionReader.v ===== *)
(** * Reading a machine profile

    [from_mapping] of [runtime_contract.py] and [from_json] of
    [production_model.py]: a closed, canonical document becomes a profile, through
    the same constructors.  [from_json_exact]: exactly the canonical texts of
    valid profiles are read, each as the profile it was written from. *)

From S2P Require Import Prelude Text Identity JsonText JsonRead JsonFields IdentityTypes ManufacturingModel Machining GCode GCodeText DryRun CamValidation ProductionModel ProductionProfile ProductionParser ProductionPost ProductionText ProductionLines ProductionAccepted ProductionShop.

#[local] Open Scope Z_scope.

(** ** Typed members *)

(** [_json_string], [_json_int], [_json_bool] *)
Definition field_string (fields : list (string * json)) (key : string) : result string :=
  value ← at_key fields key;
  match value with JStr s => Ok s | _ => Err (ValueError (key +:+ " must be a JSON string")) end.
Definition field_int (fields : list (string * json)) (key : string) : result Z :=
  value ← at_key fields key;
  match value with JInt z => Ok z | _ => Err (ValueError (key +:+ " must be a JSON integer")) end.
Definition field_bool (fields : list (string * json)) (key : string) : result bool :=
  value ← at_key fields key;
  match value with JBool b => Ok b | _ => Err (ValueError (key +:+ " must be a JSON boolean")) end.

(** [set(value) == expected] *)
Definition closed_object (value : json) (expected : list string) : option (list (string * json)) :=
  match value with
  | JObj fields => if py_set_eq (map fst fields) expected then Some fields else None
  | _ => None
  end.

Definition text_of (value : json) : option string := match value with JStr s => Some s | _ => None end.

(** ** The runtime contract *)

Definition CONTRACT_TEXTS : list string :=
  ["schema_version"; "oracle_build_sha256"; "installed_package_version"; "evidence_id"; "evidence_version"; "evidence_sha256"].
Definition CONTRACT_FIELDS : list string :=
  ["schema_version"; "oracle_build_sha256"; "installed_package_version"; "effective_settings"; "components";
   "configuration_inputs"; "min_forward_velocity_rpm"; "max_forward_velocity_rpm"; "evidence_id"; "evidence_version";
   "evidence_sha256"; "workshop_runtime_verified"].

(** The texts are checked in the order of a set, which only the message shows. *)
Definition contract_text (fields : list (string * json)) (key : string) : result string :=
  value ← at_key fields key;
  of_option (text_of value) (ValueError ("runtime " +:+ key +:+ " must be a string")).

(** What the constructor is given for a value of another type is one it refuses
    at the same place: no setting is the empty text, no speed limit is zero. *)
Definition setting_value (value : json) : RuntimeValue :=
  match value with JStr s => RV_str s | JInt z => RV_int z | JBool b => RV_bool b | _ => RV_str "" end.
Definition speed_limit (value : json) : Z := match value with JInt z => z | _ => 0 end.
Definition is_true (value : json) : bool := match value with JBool b => b | _ => false end.

Definition setting_of (value : json) : option RuntimeSetting :=
  item ← closed_object value ["name"; "value"];
  name ← (dict_get item "name" ≫= text_of);
  value ← dict_get item "value";
  Some (mkSetting name (setting_value value)).
Definition entry_of (value : json) : option RuntimeInventoryEntry :=
  item ← closed_object value ["name"; "sha256"];
  name ← (dict_get item "name" ≫= text_of);
  sha256 ← (dict_get item "sha256" ≫= text_of);
  Some (mkEntry name sha256).

Definition inventory {A} (item : json -> option A) (fields : list (string * json)) (key : string) : result (list A) :=
  value ← at_key fields key;
  of_option (match value with JArr entries => mapM item entries | _ => None end)
    (ValueError ("runtime " +:+ key +:+ " must be a closed inventory array")).

Definition from_mapping (value : json) : result LinuxCNCRuntimeContract :=
  fields ← of_option (closed_object value CONTRACT_FIELDS) (ValueError "runtime contract has missing or unknown fields");
  schema_version ← contract_text fields "schema_version";
  oracle_build_sha256 ← contract_text fields "oracle_build_sha256";
  installed_package_version ← contract_text fields "installed_package_version";
  evidence_id ← contract_text fields "evidence_id";
  evidence_version ← contract_text fields "evidence_version";
  evidence_sha256 ← contract_text fields "evidence_sha256";
  effective_settings ← inventory setting_of fields "effective_settings";
  components ← inventory entry_of fields "components";
  configuration_inputs ← inventory entry_of fields "configuration_inputs";
  minimum ← at_key fields "min_forward_velocity_rpm";
  maximum ← at_key fields "max_forward_velocity_rpm";
  verified ← at_key fields "workshop_runtime_verified";
  new_LinuxCNCRuntimeContract
    (mkContract schema_version oracle_build_sha256 installed_package_version effective_settings components
       configuration_inputs (speed_limit minimum) (speed_limit maximum) evidence_id evidence_version evidence_sha256
       (is_true verified)).

(** ** The profile *)

Definition WCS_OFFSET_FIELDS : list string :=
  ["wcs"; "machine_x0_um"; "machine_y0_um"; "machine_z0_um"; "machine_xy_rotation_mdeg"].

(** [_parse_wcs_offset] *)
Definition parse_wcs_offset (index : nat) (value : json) : result LinuxCNCWCSOffset :=
  let about text := ValueError ("wcs_offsets[" +:+ str_of_Z (Z.of_nat index) +:+ "]" +:+ text) in
  fields ← match value with JObj fields => Ok fields | _ => Err (about " must be a JSON object") end;
  raise_if (negb (py_set_eq (map fst fields) WCS_OFFSET_FIELDS)) (about " has missing or unknown fields");;
  wcs ← field_string fields "wcs";
  machine_x0_um ← field_int fields "machine_x0_um";
  machine_y0_um ← field_int fields "machine_y0_um";
  machine_z0_um ← field_int fields "machine_z0_um";
  machine_xy_rotation_mdeg ← field_int fields "machine_xy_rotation_mdeg";
  new_LinuxCNCWCSOffset (mkOffset wcs machine_x0_um machine_y0_um machine_z0_um machine_xy_rotation_mdeg).

Definition PROFILE_FIELDS : list string :=
  [
   "profile_id"; "version"; "machine_profile_id"; "machine_profile_version"; "controller_id";
   "controller_version"; "runtime_contract"; "supported_wcs"; "wcs_offsets"; "machine_x_min_um";
   "machine_x_max_um"; "machine_y_min_um"; "machine_y_max_um"; "machine_z_min_um"; "machine_z_max_um";
   "tool_change_x_um"; "tool_change_y_um"; "tool_change_z_um"; "spindle_spinup_ms"; "g53_tool_change_path";
   "g53_tool_change_path_clearance_evidence_id"; "g53_tool_change_path_clearance_evidence_version";
   "g53_tool_change_path_clearance_evidence_sha256"; "wcs_offsets_evidence_id"; "wcs_offsets_evidence_version";
   "wcs_offsets_evidence_sha256"; "g52_g92_offset_reset_policy"; "g52_g92_offset_reset_evidence_id";
   "g52_g92_offset_reset_evidence_version"; "g52_g92_offset_reset_evidence_sha256";
   "feed_spindle_override_policy"; "feed_spindle_override_evidence_id";
   "feed_spindle_override_evidence_version"; "feed_spindle_override_evidence_sha256";
   "external_axis_offset_policy"; "external_axis_offset_evidence_id"; "external_axis_offset_evidence_version";
   "external_axis_offset_evidence_sha256"; "homing_preflight_policy"; "homing_preflight_evidence_id";
   "homing_preflight_evidence_version"; "homing_preflight_evidence_sha256"; "program_restart_policy";
   "program_restart_evidence_id"; "program_restart_evidence_version"; "program_restart_evidence_sha256";
   "m6_tool_table_policy"; "m6_tool_table_evidence_id"; "m6_tool_table_evidence_version";
   "m6_tool_table_evidence_sha256"; "m6_wcs_table_policy"; "m6_wcs_table_evidence_id";
   "m6_wcs_table_evidence_version"; "m6_wcs_table_evidence_sha256"; "metric_xyz_identity_kinematics_policy";
   "metric_xyz_identity_kinematics_evidence_id"; "metric_xyz_identity_kinematics_evidence_version";
   "metric_xyz_identity_kinematics_evidence_sha256"; "spindle_at_speed_policy"; "spindle_feedback_source";
   "spindle_at_speed_evidence_id"; "spindle_at_speed_evidence_version"; "spindle_at_speed_evidence_sha256";
   "spindle_at_speed_tolerance_ppm"; "continuous_spindle_speed_interlock_policy";
   "continuous_spindle_speed_interlock_evidence_id"; "continuous_spindle_speed_interlock_evidence_version";
   "continuous_spindle_speed_interlock_evidence_sha256"; "g53_machine_coordinates_verified";
   "g53_tool_change_path_clearance_verified"; "wcs_offsets_verified"; "g92_1_clears_g52_g92_offsets_verified";
   "m6_tool_change_verified"; "m6_preserves_axis_position"; "m6_preserves_bound_tool_table_verified";
   "m6_preserves_bound_wcs_table_verified"; "linear_units_mm_verified"; "coordinates_xyz_verified";
   "identity_trivkins_verified"; "exactly_three_joints_verified"; "joint_0_x_1_y_2_z_verified";
   "no_extra_controlled_axes_verified"; "g43_h_length_offset_verified"; "g8_radius_mode_verified";
   "g97_rpm_mode_verified"; "m9_coolant_off_verified"; "m49_feed_and_spindle_overrides_disabled_verified";
   "m52_p0_adaptive_feed_disabled_verified"; "m53_p1_feed_hold_enabled_verified";
   "external_xyz_offsets_disabled_verified"; "all_xyz_homed_before_auto_verified";
   "no_force_homing_disabled_verified"; "run_from_line_disabled_verified"; "full_restart_after_abort_required";
   "real_spindle_feedback_verified"; "spindle_at_speed_motion_interlock_verified";
   "continuous_spindle_speed_feed_inhibit_verified"; "vfd_fault_motion_inhibit_verified";
   "vfd_fault_spindle_stop_verified"; "m3_clockwise_spindle_verified"; "g4_p_seconds_dwell_verified";
   "schema_version"].

(** The members of the document, in the order the constructor is given them. *)
Definition read_profile (parsed : list (string * json)) (supported_wcs : list string) (wcs_offsets : list LinuxCNCWCSOffset)
    : result LinuxCNCProductionMachineProfile :=
  profile_id ← field_string parsed "profile_id";
  version ← field_string parsed "version";
  machine_profile_id ← field_string parsed "machine_profile_id";
  machine_profile_version ← field_string parsed "machine_profile_version";
  controller_id ← field_string parsed "controller_id";
  controller_version ← field_string parsed "controller_version";
  runtime_contract ← (value ← at_key parsed "runtime_contract"; from_mapping value);
  machine_x_min_um ← field_int parsed "machine_x_min_um";
  machine_x_max_um ← field_int parsed "machine_x_max_um";
  machine_y_min_um ← field_int parsed "machine_y_min_um";
  machine_y_max_um ← field_int parsed "machine_y_max_um";
  machine_z_min_um ← field_int parsed "machine_z_min_um";
  machine_z_max_um ← field_int parsed "machine_z_max_um";
  tool_change_x_um ← field_int parsed "tool_change_x_um";
  tool_change_y_um ← field_int parsed "tool_change_y_um";
  tool_change_z_um ← field_int parsed "tool_change_z_um";
  spindle_spinup_ms ← field_int parsed "spindle_spinup_ms";
  g53_tool_change_path ← field_string parsed "g53_tool_change_path";
  g53_tool_change_path_clearance_evidence_id ← field_string parsed "g53_tool_change_path_clearance_evidence_id";
  g53_tool_change_path_clearance_evidence_version ← field_string parsed "g53_tool_change_path_clearance_evidence_version";
  g53_tool_change_path_clearance_evidence_sha256 ← field_string parsed "g53_tool_change_path_clearance_evidence_sha256";
  wcs_offsets_evidence_id ← field_string parsed "wcs_offsets_evidence_id";
  wcs_offsets_evidence_version ← field_string parsed "wcs_offsets_evidence_version";
  wcs_offsets_evidence_sha256 ← field_string parsed "wcs_offsets_evidence_sha256";
  g52_g92_offset_reset_policy ← field_string parsed "g52_g92_offset_reset_policy";
  g52_g92_offset_reset_evidence_id ← field_string parsed "g52_g92_offset_reset_evidence_id";
  g52_g92_offset_reset_evidence_version ← field_string parsed "g52_g92_offset_reset_evidence_version";
  g52_g92_offset_reset_evidence_sha256 ← field_string parsed "g52_g92_offset_reset_evidence_sha256";
  feed_spindle_override_policy ← field_string parsed "feed_spindle_override_policy";
  feed_spindle_override_evidence_id ← field_string parsed "feed_spindle_override_evidence_id";
  feed_spindle_override_evidence_version ← field_string parsed "feed_spindle_override_evidence_version";
  feed_spindle_override_evidence_sha256 ← field_string parsed "feed_spindle_override_evidence_sha256";
  external_axis_offset_policy ← field_string parsed "external_axis_offset_policy";
  external_axis_offset_evidence_id ← field_string parsed "external_axis_offset_evidence_id";
  external_axis_offset_evidence_version ← field_string parsed "external_axis_offset_evidence_version";
  external_axis_offset_evidence_sha256 ← field_string parsed "external_axis_offset_evidence_sha256";
  homing_preflight_policy ← field_string parsed "homing_preflight_policy";
  homing_preflight_evidence_id ← field_string parsed "homing_preflight_evidence_id";
  homing_preflight_evidence_version ← field_string parsed "homing_preflight_evidence_version";
  homing_preflight_evidence_sha256 ← field_string parsed "homing_preflight_evidence_sha256";
  program_restart_policy ← field_string parsed "program_restart_policy";
  program_restart_evidence_id ← field_string parsed "program_restart_evidence_id";
  program_restart_evidence_version ← field_string parsed "program_restart_evidence_version";
  program_restart_evidence_sha256 ← field_string parsed "program_restart_evidence_sha256";
  m6_tool_table_policy ← field_string parsed "m6_tool_table_policy";
  m6_tool_table_evidence_id ← field_string parsed "m6_tool_table_evidence_id";
  m6_tool_table_evidence_version ← field_string parsed "m6_tool_table_evidence_version";
  m6_tool_table_evidence_sha256 ← field_string parsed "m6_tool_table_evidence_sha256";
  m6_wcs_table_policy ← field_string parsed "m6_wcs_table_policy";
  m6_wcs_table_evidence_id ← field_string parsed "m6_wcs_table_evidence_id";
  m6_wcs_table_evidence_version ← field_string parsed "m6_wcs_table_evidence_version";
  m6_wcs_table_evidence_sha256 ← field_string parsed "m6_wcs_table_evidence_sha256";
  metric_xyz_identity_kinematics_policy ← field_string parsed "metric_xyz_identity_kinematics_policy";
  metric_xyz_identity_kinematics_evidence_id ← field_string parsed "metric_xyz_identity_kinematics_evidence_id";
  metric_xyz_identity_kinematics_evidence_version ← field_string parsed "metric_xyz_identity_kinematics_evidence_version";
  metric_xyz_identity_kinematics_evidence_sha256 ← field_string parsed "metric_xyz_identity_kinematics_evidence_sha256";
  spindle_at_speed_policy ← field_string parsed "spindle_at_speed_policy";
  spindle_feedback_source ← field_string parsed "spindle_feedback_source";
  spindle_at_speed_evidence_id ← field_string parsed "spindle_at_speed_evidence_id";
  spindle_at_speed_evidence_version ← field_string parsed "spindle_at_speed_evidence_version";
  spindle_at_speed_evidence_sha256 ← field_string parsed "spindle_at_speed_evidence_sha256";
  spindle_at_speed_tolerance_ppm ← field_int parsed "spindle_at_speed_tolerance_ppm";
  continuous_spindle_speed_interlock_policy ← field_string parsed "continuous_spindle_speed_interlock_policy";
  continuous_spindle_speed_interlock_evidence_id ← field_string parsed "continuous_spindle_speed_interlock_evidence_id";
  continuous_spindle_speed_interlock_evidence_version ← field_string parsed "continuous_spindle_speed_interlock_evidence_version";
  continuous_spindle_speed_interlock_evidence_sha256 ← field_string parsed "continuous_spindle_speed_interlock_evidence_sha256";
  g53_machine_coordinates_verified ← field_bool parsed "g53_machine_coordinates_verified";
  g53_tool_change_path_clearance_verified ← field_bool parsed "g53_tool_change_path_clearance_verified";
  wcs_offsets_verified ← field_bool parsed "wcs_offsets_verified";
  g92_1_clears_g52_g92_offsets_verified ← field_bool parsed "g92_1_clears_g52_g92_offsets_verified";
  m6_tool_change_verified ← field_bool parsed "m6_tool_change_verified";
  m6_preserves_axis_position ← field_bool parsed "m6_preserves_axis_position";
  m6_preserves_bound_tool_table_verified ← field_bool parsed "m6_preserves_bound_tool_table_verified";
  m6_preserves_bound_wcs_table_verified ← field_bool parsed "m6_preserves_bound_wcs_table_verified";
  linear_units_mm_verified ← field_bool parsed "linear_units_mm_verified";
  coordinates_xyz_verified ← field_bool parsed "coordinates_xyz_verified";
  identity_trivkins_verified ← field_bool parsed "identity_trivkins_verified";
  exactly_three_joints_verified ← field_bool parsed "exactly_three_joints_verified";
  joint_0_x_1_y_2_z_verified ← field_bool parsed "joint_0_x_1_y_2_z_verified";
  no_extra_controlled_axes_verified ← field_bool parsed "no_extra_controlled_axes_verified";
  g43_h_length_offset_verified ← field_bool parsed "g43_h_length_offset_verified";
  g8_radius_mode_verified ← field_bool parsed "g8_radius_mode_verified";
  g97_rpm_mode_verified ← field_bool parsed "g97_rpm_mode_verified";
  m9_coolant_off_verified ← field_bool parsed "m9_coolant_off_verified";
  m49_feed_and_spindle_overrides_disabled_verified ← field_bool parsed "m49_feed_and_spindle_overrides_disabled_verified";
  m52_p0_adaptive_feed_disabled_verified ← field_bool parsed "m52_p0_adaptive_feed_disabled_verified";
  m53_p1_feed_hold_enabled_verified ← field_bool parsed "m53_p1_feed_hold_enabled_verified";
  external_xyz_offsets_disabled_verified ← field_bool parsed "external_xyz_offsets_disabled_verified";
  all_xyz_homed_before_auto_verified ← field_bool parsed "all_xyz_homed_before_auto_verified";
  no_force_homing_disabled_verified ← field_bool parsed "no_force_homing_disabled_verified";
  run_from_line_disabled_verified ← field_bool parsed "run_from_line_disabled_verified";
  full_restart_after_abort_required ← field_bool parsed "full_restart_after_abort_required";
  real_spindle_feedback_verified ← field_bool parsed "real_spindle_feedback_verified";
  spindle_at_speed_motion_interlock_verified ← field_bool parsed "spindle_at_speed_motion_interlock_verified";
  continuous_spindle_speed_feed_inhibit_verified ← field_bool parsed "continuous_spindle_speed_feed_inhibit_verified";
  vfd_fault_motion_inhibit_verified ← field_bool parsed "vfd_fault_motion_inhibit_verified";
  vfd_fault_spindle_stop_verified ← field_bool parsed "vfd_fault_spindle_stop_verified";
  m3_clockwise_spindle_verified ← field_bool parsed "m3_clockwise_spindle_verified";
  g4_p_seconds_dwell_verified ← field_bool parsed "g4_p_seconds_dwell_verified";
  schema_version ← field_string parsed "schema_version";
  new_LinuxCNCProductionMachineProfile (mkProfile
    profile_id version machine_profile_id machine_profile_version controller_id controller_version
    runtime_contract supported_wcs wcs_offsets machine_x_min_um machine_x_max_um machine_y_min_um
    machine_y_max_um machine_z_min_um machine_z_max_um tool_change_x_um tool_change_y_um tool_change_z_um
    spindle_spinup_ms g53_tool_change_path g53_tool_change_path_clearance_evidence_id
    g53_tool_change_path_clearance_evidence_version g53_tool_change_path_clearance_evidence_sha256
    wcs_offsets_evidence_id wcs_offsets_evidence_version wcs_offsets_evidence_sha256
    g52_g92_offset_reset_policy g52_g92_offset_reset_evidence_id g52_g92_offset_reset_evidence_version
    g52_g92_offset_reset_evidence_sha256 feed_spindle_override_policy feed_spindle_override_evidence_id
    feed_spindle_override_evidence_version feed_spindle_override_evidence_sha256 external_axis_offset_policy
    external_axis_offset_evidence_id external_axis_offset_evidence_version
    external_axis_offset_evidence_sha256 homing_preflight_policy homing_preflight_evidence_id
    homing_preflight_evidence_version homing_preflight_evidence_sha256 program_restart_policy
    program_restart_evidence_id program_restart_evidence_version program_restart_evidence_sha256
    m6_tool_table_policy m6_tool_table_evidence_id m6_tool_table_evidence_version
    m6_tool_table_evidence_sha256 m6_wcs_table_policy m6_wcs_table_evidence_id
    m6_wcs_table_evidence_version m6_wcs_table_evidence_sha256 metric_xyz_identity_kinematics_policy
    metric_xyz_identity_kinematics_evidence_id metric_xyz_identity_kinematics_evidence_version
    metric_xyz_identity_kinematics_evidence_sha256 spindle_at_speed_policy spindle_feedback_source
    spindle_at_speed_evidence_id spindle_at_speed_evidence_version spindle_at_speed_evidence_sha256
    spindle_at_speed_tolerance_ppm continuous_spindle_speed_interlock_policy
    continuous_spindle_speed_interlock_evidence_id continuous_spindle_speed_interlock_evidence_version
    continuous_spindle_speed_interlock_evidence_sha256 g53_machine_coordinates_verified
    g53_tool_change_path_clearance_verified wcs_offsets_verified g92_1_clears_g52_g92_offsets_verified
    m6_tool_change_verified m6_preserves_axis_position m6_preserves_bound_tool_table_verified
    m6_preserves_bound_wcs_table_verified linear_units_mm_verified coordinates_xyz_verified
    identity_trivkins_verified exactly_three_joints_verified joint_0_x_1_y_2_z_verified
    no_extra_controlled_axes_verified g43_h_length_offset_verified g8_radius_mode_verified
    g97_rpm_mode_verified m9_coolant_off_verified m49_feed_and_spindle_overrides_disabled_verified
    m52_p0_adaptive_feed_disabled_verified m53_p1_feed_hold_enabled_verified
    external_xyz_offsets_disabled_verified all_xyz_homed_before_auto_verified
    no_force_homing_disabled_verified run_from_line_disabled_verified full_restart_after_abort_required
    real_spindle_feedback_verified spindle_at_speed_motion_interlock_verified
    continuous_spindle_speed_feed_inhibit_verified vfd_fault_motion_inhibit_verified
    vfd_fault_spindle_stop_verified m3_clockwise_spindle_verified g4_p_seconds_dwell_verified schema_version).

Definition profile_decoder : JSONDecoder json :=
  strict_decoder (fun key => ValueError ("duplicate JSON key in LinuxCNC production profile: " +:+ key))
    (fun text => ValueError ("LinuxCNC production profile requires exact JSON integers: " +:+ text)).

(** [except (UnicodeDecodeError, json.JSONDecodeError) as exc: raise error] *)
Definition unless_json {A} (read : result A) (error : py_error) : result A :=
  match read with
  | Err UnicodeDecodeError | Err JSONDecodeError => Err error
  | _ => read
  end.

(** [to_json] *)
Definition to_json (p : LinuxCNCProductionMachineProfile) : result string := canonical_json_bytes (profile_json p).

(** [LinuxCNCProductionMachineProfile.from_json], where the interpreter lets
    [limit] containers nest. *)
Definition from_json (limit : nat) (raw : string) : result LinuxCNCProductionMachineProfile :=
  raise_if (bool_decide (raw = "") || (64000 <? Z.of_nat (String.length raw)))
    (ValueError "LinuxCNC production machine profile has invalid byte size");;
  parsed ← unless_json (text ← decode_utf8 raw; loads profile_decoder limit text)
    (ValueError "LinuxCNC production machine profile is not valid UTF-8 JSON");
  parsed ← match parsed with
           | JObj fields => Ok fields
           | _ => Err (ValueError "LinuxCNC production machine profile must be a JSON object")
           end;
  raise_if (negb (py_set_eq (map fst parsed) PROFILE_FIELDS))
    (ValueError "LinuxCNC production machine profile has missing or unknown fields");;
  supported ← at_key parsed "supported_wcs";
  supported_wcs ← of_option (match supported with JArr l => mapM text_of l | _ => None end)
    (ValueError "supported_wcs must be a JSON string array");
  offsets ← at_key parsed "wcs_offsets";
  offsets ← match offsets with JArr l => Ok l | _ => Err (ValueError "wcs_offsets must be a JSON object array") end;
  wcs_offsets ← traverse (fun iv => parse_wcs_offset (fst iv) (snd iv)) (imap pair offsets);
  profile ← read_profile parsed supported_wcs wcs_offsets;
  text ← to_json profile;
  raise_if (negb (bool_decide (text = raw))) (ValueError "LinuxCNC production machine profile must use canonical JSON bytes");;
  Ok profile.

(** ** Only what the constructors accept *)

Lemma new_contract_id r r' : new_LinuxCNCRuntimeContract r = Ok r' -> r' = r.
Proof. unfold new_LinuxCNCRuntimeContract. intros H. repeat apply bind_Ok in H as (? & _ & H). by injection H. Qed.

Lemma new_offset_id o o' : new_LinuxCNCWCSOffset o = Ok o' -> o' = o.
Proof. unfold new_LinuxCNCWCSOffset. intros H. repeat apply bind_Ok in H as (? & _ & H). by injection H. Qed.

Lemma new_profile_id p p' : new_LinuxCNCProductionMachineProfile p = Ok p' -> p' = p.
Proof. unfold new_LinuxCNCProductionMachineProfile. intros H. repeat apply bind_Ok in H as (? & _ & H). by injection H. Qed.

(** A profile that went through its constructors, down to its parts. *)
Record valid_profile (p : LinuxCNCProductionMachineProfile) : Prop := {
  vp_profile : new_LinuxCNCProductionMachineProfile p = Ok p;
  vp_contract : new_LinuxCNCRuntimeContract (lp_runtime_contract p) = Ok (lp_runtime_contract p);
  vp_offsets : Forall (fun o => new_LinuxCNCWCSOffset o = Ok o) (lp_wcs_offsets p) }.

Lemma from_mapping_valid value r : from_mapping value = Ok r -> new_LinuxCNCRuntimeContract r = Ok r.
Proof.
  unfold from_mapping. intros H. do 13 apply bind_Ok in H as (? & _ & H). pose proof (new_contract_id _ _ H) as ->. exact H.
Qed.

Lemma parse_offset_valid index value o : parse_wcs_offset index value = Ok o -> new_LinuxCNCWCSOffset o = Ok o.
Proof.
  unfold parse_wcs_offset. intros H. do 7 apply bind_Ok in H as (? & _ & H). pose proof (new_offset_id _ _ H) as ->. exact H.
Qed.

Lemma read_profile_valid parsed wcs offsets p : Forall (fun o => new_LinuxCNCWCSOffset o = Ok o) offsets ->
  read_profile parsed wcs offsets = Ok p -> valid_profile p.
Proof.
  unfold read_profile. intros F H. do 6 apply bind_Ok in H as (? & _ & H). apply bind_Ok in H as (rc & Hrc & H).
  apply bind_Ok in Hrc as (value & _ & Hrc%from_mapping_valid). do 93 apply bind_Ok in H as (? & _ & H).
  pose proof (new_profile_id _ _ H) as ->. by constructor.
Qed.

Lemma from_json_valid limit raw p : from_json limit raw = Ok p ->
  valid_profile p /\ to_json p = Ok raw /\ Z.of_nat (String.length raw) <= 64000.
Proof.
  unfold from_json. intros H. apply bind_Ok in H as (? & H0%raise_if_Ok & H). do 5 apply bind_Ok in H as (? & _ & H).
  apply bind_Ok in H as (? & _ & H). apply bind_Ok in H as (? & _ & H). apply bind_Ok in H as (os & Ho%traverse_Ok & H).
  apply bind_Ok in H as (q & Hq & H). apply bind_Ok in H as (text & Ht & H). apply bind_Ok in H as (? & E & [= <-]).
  apply raise_if_Ok, negb_false_iff, bool_decide_eq_true in E as ->. split_and!; [|done|bprop; lia].
  eapply read_profile_valid; [|exact Hq]. apply Forall_forall. intros o [i Hi]%list_elem_of_lookup.
  destruct (Forall2_lookup_r _ _ _ _ _ Ho Hi) as (iv & _ & E). by eapply parse_offset_valid.
Qed.

(** ** What was written is read *)

Section Members.
Context (l fields : list (string * json)).
Context (N : NoDup (map fst l)) (P : fields ≡ₚ map canonical_member l).

Lemma field_string_at key s : dict_get l key = Some (JStr s) -> field_string fields key = Ok s.
Proof. intros H. unfold field_string. by rewrite (canonical_member_at fields l key _ N P H). Qed.

Lemma field_int_at key z : dict_get l key = Some (JInt z) -> field_int fields key = Ok z.
Proof. intros H. unfold field_int. by rewrite (canonical_member_at fields l key _ N P H). Qed.

Lemma field_bool_at key b : dict_get l key = Some (JBool b) -> field_bool fields key = Ok b.
Proof. intros H. unfold field_bool. by rewrite (canonical_member_at fields l key _ N P H). Qed.

Lemma contract_text_at key s : dict_get l key = Some (JStr s) -> contract_text fields key = Ok s.
Proof. intros H. unfold contract_text. by rewrite (canonical_member_at fields l key _ N P H). Qed.

Lemma inventory_at {A} (item : json -> option A) (write : A -> json) key xs :
  (forall x, item (canonical (write x)) = Some x) -> dict_get l key = Some (JArr (map write xs)) ->
  inventory item fields key = Ok xs.
Proof.
  intros W H. unfold inventory. rewrite (canonical_member_at fields l key _ N P H). cbn [mbind result_bind canonical].
  assert (mapM item (map canonical (map write xs)) = Some xs) as ->; [|done].
  clear -W. induction xs as [|x xs IH]; [done|]. cbn. by rewrite W, IH.
Qed.
End Members.

(** Binds a member that is known to be there. *)
Lemma bind_known {A B} (m : result A) a (f : A -> result B) r : m = Ok a -> f a = r -> m ≫= f = r.
Proof. by intros ->. Qed.

Ltac read_member N P :=
  first [ eapply bind_known; [first [ eapply (field_string_at _ _ N P); reflexivity | eapply (field_int_at _ _ N P); reflexivity
                                    | eapply (field_bool_at _ _ N P); reflexivity | eapply (contract_text_at _ _ N P); reflexivity
                                    | eapply (canonical_member_at _ _ _ _ N P); reflexivity ]|] ].

Lemma setting_read s : setting_of (canonical (setting_json s)) = Some s.
Proof. by destruct s as [name []]. Qed.
Lemma entry_read e : entry_of (canonical (entry_json e)) = Some e.
Proof. by destruct e. Qed.

Lemma contract_read r : new_LinuxCNCRuntimeContract r = Ok r -> from_mapping (canonical (contract_json r)) = Ok r.
Proof.
  intros V. unfold contract_json. set (l := [_; _; _; _; _; _; _; _; _; _; _; _]).
  assert (NoDup (map fst l)) as N by (apply distinct_spec; reflexivity).
  destruct (canonical_fields l) as (fields & -> & P). unfold from_mapping, closed_object.
  rewrite (canonical_keys _ _ _ P). change (py_set_eq (map fst l) CONTRACT_FIELDS) with true. cbn [of_option mbind result_bind].
  do 6 read_member N P.
  eapply bind_known; [eapply (inventory_at _ _ N P _ setting_json); [apply setting_read|reflexivity]|].
  eapply bind_known; [eapply (inventory_at _ _ N P _ entry_json); [apply entry_read|reflexivity]|].
  eapply bind_known; [eapply (inventory_at _ _ N P _ entry_json); [apply entry_read|reflexivity]|].
  do 3 read_member N P. cbn [speed_limit is_true canonical]. by destruct r.
Qed.

Lemma offset_read index o : new_LinuxCNCWCSOffset o = Ok o -> parse_wcs_offset index (canonical (offset_json o)) = Ok o.
Proof.
  intros V. unfold offset_json. set (l := [_; _; _; _; _]). assert (NoDup (map fst l)) as N by (apply distinct_spec; reflexivity).
  destruct (canonical_fields l) as (fields & -> & P). unfold parse_wcs_offset. cbn [mbind result_bind].
  rewrite (canonical_keys _ _ _ P). change (py_set_eq (map fst l) WCS_OFFSET_FIELDS) with true. cbn [negb raise_if mbind result_bind].
  do 5 read_member N P. by destruct o.
Qed.

(** *** Every text of a valid profile is plain *)

Lemma clean_plain s : clean s = true -> plain s = true.
Proof.
  unfold clean, plain. intros [H _]%andb_true_iff. rewrite forallb_forall in H. apply forallb_forall. intros c Hc.
  specialize (H c Hc). clear Hc. revert c H. by apply chars_imply.
Qed.

Lemma canonical_id_plain s : is_canonical_id s = true -> plain s = true.
Proof. intros H. by apply clean_plain, canonical_clean. Qed.
Lemma hash_plain s : design_hash_ok s = true -> plain s = true.
Proof. intros H. apply clean_plain. by apply hash_clean. Qed.
Lemma wcs_plain s : wcs_code_ok s = true -> plain s = true.
Proof. intros H%wcs_cases. by repeat (apply elem_of_cons in H as [->|H]; [done|]); apply not_elem_of_nil in H. Qed.

Definition plain_value (v : RuntimeValue) : bool := match v with RV_str s => plain s | _ => true end.

Lemma required_plain : Forall (fun nv => plain (fst nv) && plain_value (snd nv) = true) REQUIRED_RUNTIME_SETTINGS.
Proof. apply Forall_forall. intros nv H%list_elem_of_In. revert nv H. apply forallb_forall. vm_compute. reflexivity. Qed.

Lemma forallb_Forall {A} (f : A -> bool) l : forallb f l = true <-> Forall (fun x => f x = true) l.
Proof. rewrite forallb_forall, Forall_forall. by setoid_rewrite list_elem_of_In. Qed.

Lemma setting_plain s : check_setting s = Ok () -> plain_json (setting_json s) = true.
Proof.
  unfold check_setting. intros H. apply bind_Ok in H as (e & He%of_option_Ok & H).
  apply raise_if_Ok, negb_false_iff, bool_decide_eq_true in H. destruct (_ !! _) as [nv|] eqn:E in He; [|done].
  injection He as <-. apply dict_of_Some in E as [E K]. pose proof required_plain as F. rewrite Forall_forall in F.
  specialize (F nv E). apply andb_true_iff in F as [F1 F2]. rewrite K in F1. rewrite <- H in F2.
  destruct s as [name v]. cbn in *. rewrite F1. cbn. by destruct v; cbn in *; rewrite ?F2.
Qed.

Lemma inventory_plain label entries required u : forallb plain required = true ->
  check_inventory label entries required = Ok u -> forallb plain_json (map entry_json entries) = true.
Proof.
  intros R H. unfold check_inventory in H. apply bind_Ok in H as (? & N & H). apply check_refusals in H.
  apply raise_if_Ok, negb_false_iff, bool_decide_eq_true in N. apply forallb_Forall, Forall_fmap.
  assert (Forall (fun e => plain (ri_name e) = true) entries) as F.
  { assert (Forall (fun s => plain s = true) (map ri_name entries)) as F.
    - rewrite N. apply forallb_Forall. unfold sort_strings. by rewrite (forallb_perm _ _ _ (sort_by_perm _ _)).
    - by apply Forall_fmap in F. }
  eapply Forall_impl; [apply Forall_and; split; [exact F|exact H]|]. intros e [En Eh]. cbn in *. by rewrite En, (hash_plain _ Eh).
Qed.

Lemma contract_plain r : new_LinuxCNCRuntimeContract r = Ok r -> plain_json (contract_json r) = true.
Proof.
  unfold new_LinuxCNCRuntimeContract. intros H.
  apply bind_Ok in H as (? & H1 & H). apply bind_Ok in H as (? & H2 & H). apply bind_Ok in H as (? & H3 & H).
  apply bind_Ok in H as (? & _ & H). apply bind_Ok in H as (? & H4%check_all_Ok & H).
  apply bind_Ok in H as (? & H5%inventory_plain & H); [|reflexivity]. apply bind_Ok in H as (? & H6%inventory_plain & H); [|reflexivity].
  apply bind_Ok in H as (? & _ & H). apply bind_Ok in H as (? & H7%check_refusals & H). apply bind_Ok in H as (? & H8 & _).
  apply raise_if_Ok, negb_false_iff, bool_decide_eq_true in H1, H2, H3. apply raise_if_Ok, negb_false_iff in H8.
  apply Forall_cons in H7 as [I1 [I2 _]%Forall_cons].
  assert (forallb plain_json (map setting_json (rt_effective_settings r)) = true) as S.
  { apply forallb_Forall, Forall_fmap. eapply Forall_impl; [exact H4|]. intros s. apply setting_plain. }
  unfold contract_json. cbn [plain_json forallb fst snd]. rewrite S, H5, H6, H1, H3, (canonical_id_plain _ I1), (canonical_id_plain _ I2), (hash_plain _ H8).
  assert (plain (rt_oracle_build_sha256 r) = true) as ->; [|reflexivity]. rewrite H2. apply hash_plain. apply content_hash_ok.
Qed.

Section Profile.
Context (p : LinuxCNCProductionMachineProfile).

Definition profile_members : list (string * json) := match profile_json p with JObj members => members | _ => [] end.

Lemma profile_keys : NoDup (map fst profile_members).
Proof. apply distinct_spec. reflexivity. Qed.

Lemma profile_read fields : valid_profile p -> fields ≡ₚ map canonical_member profile_members ->
  read_profile fields (lp_supported_wcs p) (lp_wcs_offsets p) = Ok p.
Proof.
  intros V P. pose proof profile_keys as N. unfold read_profile. do 6 read_member N P.
  eapply bind_known.
  { rewrite (canonical_member_at _ _ "runtime_contract" (contract_json (lp_runtime_contract p)) N P eq_refl). cbn [mbind result_bind]. apply contract_read, V. }
  do 93 read_member N P. etrans; [|apply V]. f_equal. by destruct p.
Qed.

Lemma offsets_plain : valid_profile p -> forallb plain_json (map offset_json (lp_wcs_offsets p)) = true.
Proof.
  intros V. apply forallb_Forall, Forall_fmap. eapply Forall_impl; [apply V|]. intros o H. unfold new_LinuxCNCWCSOffset in H.
  apply bind_Ok in H as (? & W%raise_if_Ok%negb_false_iff & _). cbn. by rewrite (wcs_plain _ W).
Qed.

Lemma profile_facts_plain : valid_profile p ->
  Forall (fun lv => plain (snd lv) = true) (profile_identities p) /\
  Forall (fun pcm => plain (fst (fst pcm)) = true) (profile_policies p) /\
  Forall (fun lv => plain (snd lv) = true) (profile_hashes p) /\
  plain (lp_schema_version p) = true /\ forallb plain (lp_supported_wcs p) = true.
Proof.
  intros [V _ O]. pose proof (profile_constructed p V) as F. unfold new_LinuxCNCProductionMachineProfile in V.
  apply bind_Ok in V as (? & _ & V). apply bind_Ok in V as (? & S & V). apply raise_if_Ok, negb_false_iff, bool_decide_eq_true in S.
  split_and!.
  - eapply Forall_impl; [apply (fp_names _ F)|]. intros lv. apply canonical_id_plain.
  - assert (Forall (fun pcm : string * string * string => plain (snd (fst pcm)) = true) (profile_policies p)) as R by (repeat constructor).
    eapply Forall_impl; [apply Forall_and; split; [exact R|apply (fp_policies _ F)]|]. intros pcm [E ->]. exact E.
  - eapply Forall_impl; [apply (fp_hashes _ F)|]. intros lv. apply hash_plain.
  - by rewrite S.
  - destruct (fp_wcs _ F) as [_ <-]. apply forallb_Forall, Forall_fmap. eapply Forall_impl; [exact O|]. intros o H.
    unfold new_LinuxCNCWCSOffset in H. apply bind_Ok in H as (? & W%raise_if_Ok%negb_false_iff & _). by apply wcs_plain.
Qed.

Lemma profile_plain : valid_profile p -> plain_json (profile_json p) = true.
Proof.
  intros V. destruct (profile_facts_plain V) as (I & Po & H & S & W). pose proof (offsets_plain V) as O.
  pose proof (contract_plain _ (vp_contract p V)) as C.
  unfold profile_identities in I. unfold profile_policies in Po. unfold profile_hashes in H.
  repeat (apply Forall_cons in I as [? I]). repeat (apply Forall_cons in Po as [? Po]). repeat (apply Forall_cons in H as [? H]).
  assert (forallb plain_json (map JStr (lp_supported_wcs p)) = true) as W' by (by rewrite forallb_map).
  unfold profile_json. cbn [plain_json]. apply forallb_Forall.
  repeat (apply Forall_cons; split; [cbn [fst snd] in *; apply andb_true_iff; split; [reflexivity|first [reflexivity|assumption]]|]). constructor.
Qed.
(** Its objects have distinct keys and are at most four deep. *)
Lemma profile_shape : distinct_keys (profile_json p) = true /\ (nesting (profile_json p) <= 4)%nat.
Proof.
  assert (forall {A} (write : A -> json) xs, (forall x, distinct_keys (write x) = true /\ nesting (write x) = 1%nat) ->
    distinct_keys (JArr (map write xs)) = true /\ (nesting (JArr (map write xs)) <= 2)%nat) as L.
  { intros A write xs H. cbn [distinct_keys nesting]. rewrite forallb_map, map_map. split.
    - apply forallb_Forall, Forall_forall. intros x _. apply H.
    - apply le_n_S, max_list_le, Forall_fmap, Forall_forall. intros x _. destruct (H x) as [_ Hx]. cbn. by rewrite Hx. }
  destruct (L _ setting_json (rt_effective_settings (lp_runtime_contract p))) as [S1 S2]; [by intros [? []]|].
  destruct (L _ entry_json (rt_components (lp_runtime_contract p))) as [C1 C2]; [by intros []|].
  destruct (L _ entry_json (rt_configuration_inputs (lp_runtime_contract p))) as [D1 D2]; [by intros []|].
  destruct (L _ offset_json (lp_wcs_offsets p)) as [O1 O2]; [by intros []|].
  assert (distinct_keys (JArr (map JStr (lp_supported_wcs p))) = true /\ (nesting (JArr (map JStr (lp_supported_wcs p))) <= 1)%nat) as [W1 W2].
  { cbn [distinct_keys nesting]. rewrite forallb_map, map_map. split; [apply forallb_Forall, Forall_forall; done|].
    apply le_n_S, max_list_le, Forall_fmap, Forall_forall. intros s _. cbn. lia. }
  assert (distinct_keys (contract_json (lp_runtime_contract p)) = true /\ (nesting (contract_json (lp_runtime_contract p)) <= 3)%nat) as [R1 R2].
  { split; [unfold contract_json; cbn [distinct_keys map fst snd forallb] in *; rewrite S1, C1, D1; reflexivity|].
    unfold contract_json. cbn [nesting]. apply le_n_S, max_list_le. cbn [map fst snd].
    repeat (apply Forall_cons; split; [first [exact S2|exact C2|exact D2|cbn; lia]|]). constructor. }
  split.
  - change (distinct (map fst profile_members) && forallb (fun kv => distinct_keys (snd kv)) profile_members = true).
    apply andb_true_iff. split; [reflexivity|]. apply forallb_Forall. unfold profile_members, profile_json.
    repeat (apply Forall_cons; split; [cbn [snd]; first [reflexivity|assumption]|]). constructor.
  - unfold profile_json. cbn [nesting]. apply le_n_S, max_list_le. cbn [map fst snd].
    repeat (apply Forall_cons; split; [first [exact R2|etrans; [exact O2|lia]|etrans; [exact W2|lia]|cbn; lia]|]). constructor.
Qed.

Lemma offsets_read : valid_profile p ->
  traverse (fun iv => parse_wcs_offset (fst iv) (snd iv)) (imap pair (map canonical (map offset_json (lp_wcs_offsets p)))) = Ok (lp_wcs_offsets p).
Proof.
  intros V. apply traverse_Ok, Forall2_same_length_lookup. rewrite length_imap, !length_map. split; [done|].
  intros i iv o. rewrite list_lookup_imap. change (map canonical (map offset_json (lp_wcs_offsets p)) !! i) with
    ((canonical <$> (offset_json <$> lp_wcs_offsets p)) !! i). rewrite !list_lookup_fmap. intros H E. rewrite E in H. injection H as <-.
  apply offset_read. by apply (Forall_lookup_1 _ _ _ _ (vp_offsets p V) E).
Qed.
End Profile.

(** What is written is read back. *)
Lemma written_profile_read limit raw p : (4 <= limit)%nat -> valid_profile p -> to_json p = Ok raw ->
  Z.of_nat (String.length raw) <= 64000 -> from_json limit raw = Ok p.
Proof.
  intros HL V T B. unfold from_json.
  pose proof T as T'. unfold to_json, canonical_json_bytes in T'. apply bind_Ok in T' as (? & I%raise_if_Ok%negb_false_iff & [= E]).
  destruct (profile_shape p) as [D S]. pose proof (profile_plain p V) as PL. pose proof (profile_keys p) as N.
  destruct (canonical_fields (profile_members p)) as (fields & EF & P).
  change (JObj (profile_members p)) with (profile_json p) in EF.
  rewrite bool_decide_false, (proj2 (Z.ltb_ge _ _)) by (try lia; rewrite <- E; unfold canonical_json; rewrite EF; done).
  cbn [orb raise_if mbind result_bind]. rewrite <- E, (plain_decodes _ PL). cbn [mbind result_bind]. unfold profile_decoder.
  rewrite (proj2 (loads_canonical _ _ (profile_json p) (canonical (profile_json p)) limit ltac:(lia)));
    [|split; [reflexivity|split; [exact D|exact I]]].
  rewrite EF. cbn [unless_json mbind result_bind]. rewrite (canonical_keys _ _ _ P).
  change (py_set_eq (map fst (profile_members p)) PROFILE_FIELDS) with true. cbn [negb raise_if mbind result_bind].
  rewrite (canonical_member_at _ _ "supported_wcs" (JArr (map JStr (lp_supported_wcs p))) N P eq_refl). cbn [mbind result_bind canonical].
  assert (mapM text_of (map canonical (map JStr (lp_supported_wcs p))) = Some (lp_supported_wcs p)) as ->.
  { induction (lp_supported_wcs p) as [|w ws IH]; [done|]. cbn. by rewrite IH. }
  cbn [of_option mbind result_bind].
  rewrite (canonical_member_at _ _ "wcs_offsets" (JArr (map offset_json (lp_wcs_offsets p))) N P eq_refl). cbn [mbind result_bind canonical].
  rewrite (offsets_read p V). cbn [mbind result_bind]. rewrite (profile_read p fields V P). cbn [mbind result_bind].
  rewrite T. cbn [mbind result_bind]. rewrite E, bool_decide_true by done. reflexivity.
Qed.

(** C6: Reading a machine profile is exact.  Whatever bytes it is given, the reader
    returns a profile exactly if the profile, its runtime contract and its work
    offsets pass their constructors and the bytes are the canonical text of that very
    profile, of at most 64,000 bytes: every text that is written is read back, and
    no other text, by any order, spacing, escape, repetition or addition of members,
    is read as a profile.  (The interpreter must let four containers nest.) *)
Theorem from_json_exact limit raw p : (4 <= limit)%nat ->
  from_json limit raw = Ok p <-> valid_profile p /\ to_json p = Ok raw /\ Z.of_nat (String.length raw) <= 64000.
Proof. intros HL. split; [apply from_json_valid|]. intros (V & T & B). by apply written_profile_read. Qed.
