(* ===== verification/ProductionExamples.v ===== *)
(** * Production programs, at concrete inputs

    The shop of [ToolpathExamples] with an attested LinuxCNC installation, a
    bench job of one drilled hole, and the programs the trays are cut with. *)

From Stdlib Require Import QArith.
From S2P Require Import Prelude Text GCode Identity JsonText JsonRead JsonFields ManufacturingModel Machining CamValidation ProductionModel ToolpathGeometry ToolpathContracts Toolpaths ToolpathSafety ToolpathPrograms ToolpathExamples ProductionProfile ProductionParser ProductionPost ProductionMachine ProductionSafety ProductionText ProductionLines ProductionAccepted ProductionShop ProductionPosted ProductionReader.

#[local] Open Scope Z_scope.

Definition shop_contract : LinuxCNCRuntimeContract :=
  mkContract RUNTIME_CONTRACT_SCHEMA_VERSION LINUXCNC_ORACLE_BUILD_SHA256 LINUXCNC_ORACLE_PACKAGE_VERSION
    (map (fun name => mkSetting name (default (RV_bool false) (snd <$> (dict_of fst REQUIRED_RUNTIME_SETTINGS !! name))))
       (sort_strings (map fst REQUIRED_RUNTIME_SETTINGS)))
    (map (fun name => mkEntry name evidence) (sort_strings RUNTIME_COMPONENTS))
    (map (fun name => mkEntry name evidence) (sort_strings RUNTIME_INPUTS))
    6000 24000 "survey" "1" evidence true.

Definition shop_profile : LinuxCNCProductionMachineProfile :=
  mkProfile
    "shop-linuxcnc" "5" "shop-router" "2" "linuxcnc" LINUXCNC_ORACLE_CONTROLLER_VERSION shop_contract ["G54"]
    [mkOffset "G54" 100000 100000 30000 0] 0 1300000 0 2500000 (-100000) 150000 50000 50000 140000 8000
    G53_TOOL_CHANGE_PATH_COMPLETE "survey" "1" evidence "survey" "1" evidence G52_G92_OFFSET_RESET_POLICY "survey"
    "1" evidence FEED_SPINDLE_OVERRIDE_POLICY "survey" "1" evidence EXTERNAL_AXIS_OFFSET_POLICY "survey" "1"
    evidence HOMING_PREFLIGHT_POLICY "survey" "1" evidence PROGRAM_RESTART_POLICY "survey" "1" evidence
    M6_TOOL_TABLE_POLICY "survey" "1" evidence M6_WCS_TABLE_POLICY "survey" "1" evidence
    METRIC_XYZ_IDENTITY_KINEMATICS_POLICY "survey" "1" evidence SPINDLE_AT_SPEED_POLICY "encoder" "survey" "1"
    evidence 20000 CONTINUOUS_SPINDLE_SPEED_INTERLOCK_POLICY "survey" "1" evidence true true true true true true
    true true true true true true true true true true true true true true true true true true true true true true
    true true true true true LINUXCNC_PRODUCTION_MACHINE_PROFILE_SCHEMA_VERSION.

(** ** A bench job: one hole *)

Definition bench_context : ProductionExecutionContext :=
  mkContext REFERENCE_MACHINE_PROFILE_ID "1.0.0-validation" "c0ecd63ec626e644b32f24159578b72089fe86ef9e1e21e63911621a16b949b4"
    "shop-router" "2" "linuxcnc" "2.9.4" 0 1300000 0 2500000 (-100000) 150000 1300000 2500000 250000 6000 24000 5000000 2000000
    "tools-7" "recipes-4" [bound_setup] [drill_binding] [drill_recipe].

Definition bench_first : ProductionMove := mkMove 1 "hole" 0 RAPID POSITION 110000 70000 15000 None.
Definition bench_moves : list ProductionMove :=
  [bench_first;
   mkMove 2 "hole" 0 RAPID APPROACH 110000 70000 2000 None;
   mkMove 3 "hole" 0 LINEAR CUT 110000 70000 (-4000) (Some 300000);
   mkMove 4 "hole" 0 RAPID RETRACT 110000 70000 15000 None].
Definition bench_program : ProductionProgram :=
  mkProgram "bench" 1 "setup:sheet-1:001:A" "drill-5" "1" ["drill-birch"] ["hole"] [] bench_moves.
Definition bench_document : ProductionToolpathDocument :=
  mkToolpaths evidence evidence bench_context evidence evidence evidence [bench_program] "v" "e" "m" false true.

Lemma bench_path : safe_path bench_context shop_profile bound_setup drill_binding (0, 0, 15000) bench_moves.
Proof.
  repeat (apply safe_path_cons; [by vm_compute|cbn|]); [..|apply safe_path_nil].
  - split_and!; [lia|lia|lia|done].
  - split_and!; [lia|lia|intros _; set_solver|done].
  - exists 300000. by split.
  - split_and!; [lia|lia|lia|done].
Qed.

Lemma bench_header :
  Forall (fun kv => clean_entry kv = true) (header_entries bench_document bench_program shop_profile bound_setup drill_binding bench_first).
Proof.
  unfold header_entries. cbv zeta. each_element;
  match goal with
  | |- clean_entry (_, toolpaths_fingerprint _) = true => apply hash_entry; [apply content_hash_ok|cbn; lia]
  | |- clean_entry (_, config_sha256 _) = true => apply hash_entry; [apply content_hash_ok|cbn; lia]
  | |- clean_entry (_, runtime_contract_sha256 _) = true => apply hash_entry; [apply content_hash_ok|cbn; lia]
  | |- _ => vm_compute; reflexivity
  end.
Qed.

Lemma bench_postable : postable bench_document bench_program shop_profile bound_setup drill_binding 12000 54 bench_first.
Proof.
  constructor; [by left|by vm_compute..|apply bench_header|by vm_compute|by vm_compute|by vm_compute|by vm_compute| | | |done|done].
  - repeat constructor.
  - apply bench_path.
  - by constructor; vm_compute.
Qed.

(** A controller left in inches, incremental, with an offset in force and its
    spindle turning. *)
Definition left_over : machine :=
  mkMachine (Some 500%Q) 500 10 3 (Some 3%Q) true (Some 9%Q) 55 false false false false false false false false false false
    false false false true false.

(** The bench job is posted, its text accepted, and the accepted text run. *)
Lemma accepted_program_executes_plan_witness :
  exists payload parsed m0 events m1,
    validate_production_program payload bench_document bench_program shop_profile = Ok parsed /\ mc_ended m0 = false /\
    runs m0 (line_codes (pr_lines parsed)) events m1 /\
    exists s t rpm wcs first program,
      s ∈ pe_setups (pt_execution_context bench_document) /\ bs_setup_id s = pg_setup_id bench_program /\
      t ∈ pe_tool_bindings (pt_execution_context bench_document) /\ tb_tool_id t = pg_tool_id bench_program /\
      setup_wcs_number s = Ok wcs /\ require_recipes bench_document bench_program s = Ok rpm /\
      head (pg_moves bench_program) = Some first /\ parse_gcode payload = Ok program /\ pp_lines program = pr_lines parsed /\
      Forall2 obeys (program_orders shop_profile s t rpm wcs first (pg_moves bench_program)) events /\
      mc_ended m1 = true /\ set_up None None m1 /\
      safe_path (pt_execution_context bench_document) shop_profile s t (0, 0, bs_safe_z_um s) (pg_moves bench_program).
Proof.
  destruct (printed_program_accepted _ _ _ _ _ _ _ _ bench_postable) as (payload & parsed & _ & V & _).
  destruct (runs_total left_over (line_codes (pr_lines parsed))) as (events & m1 & R).
  exists payload, parsed, left_over, events, m1. split; [exact V|]. split; [reflexivity|]. split; [exact R|].
  exact (accepted_program_executes_plan payload bench_document bench_program shop_profile parsed left_over events m1 V eq_refl R).
Defined.

(** ** The trays *)

Lemma shop_profile_made : new_LinuxCNCProductionMachineProfile shop_profile = Ok shop_profile.
Proof. vm_compute. reflexivity. Qed.

Lemma shop_installation : installation_fits shop_profile shop = true /\ writable shop_profile shop = true.
Proof. vm_compute. done. Qed.

Lemma tray_names : Forall (fun o => (String.length (op_operation_id o) <= 200)%nat) (od_operations tray_operations).
Proof.
  apply Forall_forall. intros o Ho%list_elem_of_In. revert o Ho.
  assert (forallb (fun o => String.length (op_operation_id o) <=? 200)%nat (od_operations tray_operations) = true) as A
    by (vm_compute; reflexivity).
  intros o Ho. rewrite forallb_forall in A. by apply Nat.leb_le, A.
Qed.

(** Three programs for the trays. *)
Lemma every_document_is_posted_witness :
  exists result outputs, generate_production_toolpaths tray_operations shop = Ok result /\
    generate_production shop_profile result = Ok outputs /\ length outputs = 3%nat /\ NoDup (map pm_filename outputs) /\
    map pm_run_order outputs = map pg_run_order (pt_programs result).
Proof.
  destruct tray_generated as (result & H & Hn). pose proof (f_equal length (proj1 (bool_decide_eq_true _) Hn)) as L.
  unfold move_counts in L. rewrite length_map in L. cbn [length] in L.
  assert (modest (Z.of_nat (length (pt_programs result))) = true) as M by (rewrite L; vm_compute; reflexivity).
  destruct (every_document_is_posted tray_operations shop shop_profile result shop_well_formed shop_profile_made
    (proj1 shop_installation) (proj2 shop_installation) tray_names M H) as (outputs & G & N & F).
  exists result, outputs. split; [exact H|]. split; [exact G|]. split; [rewrite <- (Forall2_length _ _ _ F); exact L|].
  split; [exact N|]. clear - F. induction F as [|p o ps os (_ & E & _) _ IH]; [reflexivity|]. cbn. rewrite E, IH. reflexivity.
Defined.

(** ** The profile of the shop on file *)

Lemma shop_contract_made : new_LinuxCNCRuntimeContract shop_contract = Ok shop_contract.
Proof.
  unfold new_LinuxCNCRuntimeContract.
  rewrite (bool_decide_true (rt_oracle_build_sha256 shop_contract = LINUXCNC_ORACLE_BUILD_SHA256)) by reflexivity.
  assert (bool_decide (map rs_name (rt_effective_settings shop_contract) = sort_strings (map fst REQUIRED_RUNTIME_SETTINGS)) = true)
    as -> by (vm_compute; reflexivity).
  assert (check_all check_setting (rt_effective_settings shop_contract) = Ok ()) as -> by (vm_compute; reflexivity).
  assert (check_inventory "components" (rt_components shop_contract) RUNTIME_COMPONENTS = Ok ()) as -> by (vm_compute; reflexivity).
  assert (check_inventory "configuration_inputs" (rt_configuration_inputs shop_contract) RUNTIME_INPUTS = Ok ()) as ->
    by (vm_compute; reflexivity).
  reflexivity.
Qed.

Lemma shop_profile_valid : valid_profile shop_profile.
Proof.
  constructor; [apply shop_profile_made|apply shop_contract_made|]. repeat constructor.
Qed.

Lemma shop_profile_bound : text_bound (profile_json shop_profile) <= 64000.
Proof.
  assert (text_bound (contract_json shop_contract) <= 20000) as C.
  { unfold contract_json. cbn [text_bound sum_of fst snd].
    assert (text_size (rt_oracle_build_sha256 shop_contract) = 386) as ->.
    { unfold text_size. change (rt_oracle_build_sha256 shop_contract) with (content_hash LINUXCNC_ORACLE_BUILD).
      by rewrite (proj2 (hash_clean _ (content_hash_ok _))). }
    apply Z.leb_le. vm_compute. reflexivity. }
  change (2 + sum_of (fun kv => text_size (fst kv) + text_bound (snd kv) + 2) (profile_members shop_profile) <= 64000).
  rewrite (sum_of_split _ _ 6 ("runtime_contract", contract_json shop_contract)) by reflexivity. cbn [fst snd].
  assert (sum_of (fun kv => text_size (fst kv) + text_bound (snd kv) + 2) (take 6 (profile_members shop_profile)) <= 3000) by
    (apply Z.leb_le; vm_compute; reflexivity).
  assert (sum_of (fun kv => text_size (fst kv) + text_bound (snd kv) + 2) (drop 7 (profile_members shop_profile)) <= 40000) by
    (apply Z.leb_le; vm_compute; reflexivity).
  assert (text_size "runtime_contract" <= 200) by (apply Z.leb_le; vm_compute; reflexivity). lia.
Qed.

Definition shop_text : string := canonical_json (profile_json shop_profile).

Lemma from_json_exact_witness : (4 <= 1000)%nat /\ from_json 1000 shop_text = Ok shop_profile.
Proof.
  assert (4 <= 1000)%nat as HL by (apply Nat.leb_le; reflexivity). split; [exact HL|].
  apply (from_json_exact 1000 shop_text shop_profile HL). split; [exact shop_profile_valid|]. split.
  - unfold to_json, canonical_json_bytes. assert (ints_fit (profile_json shop_profile) = true) as -> by (vm_compute; reflexivity). reflexivity.
  - exact (Z.le_trans _ _ _ (canonical_length (profile_json shop_profile)) shop_profile_bound).
Defined.
