(* ===== verification/MachineProfile.v ===== *)
(** * The machine profile of a deployment

    [packages/manufacturing/src/custombuild_manufacturing/production_machine_profile.py]:
    a server-owned document, canonical JSON with a digest, becomes the execution
    context of toolpath generation and the profile of the postprocessor.  Every
    object of it is closed, every value typed, production documents are scanned
    for placeholders, and the two halves are checked against each other. *)

From S2P Require Import Prelude Text Identity JsonRead JsonFields ManufacturingModel Machining CamValidation ProductionModel ProductionProfile ProductionParser ProductionPost ProductionReader.

#[local] Open Scope Z_scope.

Definition PRODUCTION_MACHINE_PROFILE_SCHEMA_VERSION : string := "custombuild.production-machine-profile.v1".
Definition SERVER_OWNED_PRODUCTION_PROFILE : string := "SERVER_OWNED_PRODUCTION".
Definition WORKSHOP_ACCEPTED_STATUS : string := "WORKSHOP_ACCEPTED".
Definition TEST_ONLY_PROFILE : string := "TEST_ONLY".
Definition TEST_ONLY_STATUS : string := "TEST_ONLY".
Definition MAX_PRODUCTION_MACHINE_PROFILE_BYTES : Z := 1000000.
Definition PRODUCTION_PLACEHOLDER_WORDS : list string :=
  ["DEMO"; "EXAMPLE"; "EXTERNAL"; "FAKE"; "GENERIC"; "MOCK"; "PLACEHOLDER"; "REFERENCE"; "REQUIRED";
   "SCREENING"; "TBD"; "TEST"; "TODO"; "UNKNOWN"; "UNRESOLVED"; "UNVERIFIED"; "VALIDATION"].
Definition SUPPORTED_CONTROLLER_ID : string := "linuxcnc".
Definition SUPPORTED_ENTRY_STRATEGY : string := "PLUNGE".
Definition SOURCE_PROVENANCE_TEXT_FIELDS : list string :=
  ["source_machine_profile_id"; "source_machine_profile_version"; "source_material_id";
   "source_material_version"; "source_tool_id"; "source_tool_version"].
Definition PROFILE_OPERATION_KINDS : list OperationKind := [OP_DRILL; OP_COUNTERSINK; OP_POCKET; OP_GROOVE; OP_CONTOUR].

Definition profile_error (message : string) : py_error := ProductionMachineProfileError message.
Definition refuse_profile (cond : bool) (message : string) : result unit := raise_if cond (profile_error message).

(** ** Typed values *)

(** The characters [str.strip] removes, as their UTF-8 bytes. *)
Definition SPACES : list string :=
  map (fun code => of_chars (utf8_bytes code))
    [9; 10; 11; 12; 13; 28; 29; 30; 31; 32; 133; 160; 5760; 8192; 8193; 8194; 8195; 8196; 8197; 8198; 8199; 8200; 8201;
     8202; 8232; 8233; 8239; 8287; 12288]%N.

(** [not value or value != value.strip()] *)
Definition not_stripped (value : string) : bool :=
  bool_decide (value = "") || existsb (fun space => starts_with space value || ends_with space value) SPACES.

Definition require_object (value : json) (label : string) : result (list (string * json)) :=
  match value with JObj fields => Ok fields | _ => Err (profile_error (label +:+ " must be an object")) end.
Definition require_array (value : json) (label : string) : result (list json) :=
  match value with JArr l => Ok l | _ => Err (profile_error (label +:+ " must be an array")) end.

(** [_require_exact_keys] *)
Definition require_exact_keys (fields : list (string * json)) (expected : list string) (label : string) : result unit :=
  let missing := sort_strings (filter (fun key => key ∉ map fst fields) expected) in
  let unknown := sort_strings (filter (fun key => key ∉ expected) (map fst fields)) in
  let details :=
    (if bool_decide (missing = []) then [] else ["missing fields: " +:+ str_join ", " missing]) ++
    (if bool_decide (unknown = []) then [] else ["unknown fields: " +:+ str_join ", " unknown]) in
  refuse_profile (negb (bool_decide (details = []))) (label +:+ " has " +:+ str_join "; " details).

Definition require_string (value : json) (label : string) : result string :=
  match value with
  | JStr s => refuse_profile (not_stripped s) (label +:+ " must be a canonical non-blank string");; Ok s
  | _ => Err (profile_error (label +:+ " must be a canonical non-blank string"))
  end.

Definition require_sha256 (value : json) (label : string) : result string :=
  digest ← require_string value label;
  refuse_profile (negb (design_hash_ok digest)) (label +:+ " must be a lowercase SHA-256 digest");;
  Ok digest.

Definition unless_null {A} (require : json -> string -> result A) (value : json) (label : string) : result (option A) :=
  match value with JNull => Ok None | _ => x ← require value label; Ok (Some x) end.
Definition require_optional_string : json -> string -> result (option string) := unless_null require_string.
Definition require_optional_sha256 : json -> string -> result (option string) := unless_null require_sha256.

Definition require_integer (minimum maximum : option Z) (value : json) (label : string) : result Z :=
  match value with
  | JInt z =>
      refuse_profile (match minimum with Some m => z <? m | None => false end)
        (label +:+ " must be an integer greater than or equal to " +:+ str_of_Z (default 0 minimum));;
      refuse_profile (match maximum with Some m => m <? z | None => false end)
        (label +:+ " must be an integer less than or equal to " +:+ str_of_Z (default 0 maximum));;
      Ok z
  | _ => Err (profile_error (label +:+ " must be an integer"))
  end.
Definition require_optional_integer (minimum : Z) : json -> string -> result (option Z) :=
  unless_null (require_integer (Some minimum) None).

Definition require_boolean (value : json) (label : string) : result bool :=
  match value with JBool b => Ok b | _ => Err (profile_error (label +:+ " must be a boolean")) end.

(** [_require_canonical_order] *)
Definition require_canonical_order {A} (cmp : A -> A -> comparison) (label : string) (values : list A) : result unit :=
  refuse_profile (negb (in_order cmp values)) (label +:+ " must use canonical order").

(** [require(fields[key], f"{label}.{key}")] *)
Definition member_at {A} (require : json -> string -> result A) (fields : list (string * json)) (label key : string) : result A :=
  value ← at_key fields key; require value (label +:+ "." +:+ key).

Definition string_at := member_at require_string.
Definition sha256_at := member_at require_sha256.
Definition optional_string_at := member_at require_optional_string.
Definition optional_sha256_at := member_at require_optional_sha256.
Definition integer_at (minimum maximum : option Z) := member_at (require_integer minimum maximum).
Definition optional_integer_at (minimum : Z) := member_at (require_optional_integer minimum).
Definition boolean_at := member_at require_boolean.
Definition object_at := member_at require_object.
Definition array_at := member_at require_array.

Definition indexed (label : string) (index : nat) : string := label +:+ "[" +:+ str_of_Z (Z.of_nat index) +:+ "]".

(** [tuple(parse(value, index=index) for index, value in enumerate(values))] *)
Definition parse_all {A} (parse : string -> json -> result A) (label : string) (values : list json) : result (list A) :=
  traverse (fun iv => parse (indexed label (fst iv)) (snd iv)) (imap pair values).

(** ** Acceptance *)

Record WorkshopAcceptanceEvidence := mkEvidence {
  ev_evidence_id : string;
  ev_evidence_version : string;
  ev_evidence_sha256 : string }.

Definition new_WorkshopAcceptanceEvidence (e : WorkshopAcceptanceEvidence) : result WorkshopAcceptanceEvidence :=
  require_string (JStr (ev_evidence_id e)) "acceptance.evidence_id";;
  require_string (JStr (ev_evidence_version e)) "acceptance.evidence_version";;
  require_sha256 (JStr (ev_evidence_sha256 e)) "acceptance.evidence_sha256";;
  Ok e.

(** [_parse_acceptance] *)
Definition parse_acceptance (value : json) : result (string * WorkshopAcceptanceEvidence) :=
  fields ← require_object value "acceptance";
  require_exact_keys fields ["status"; "evidence_id"; "evidence_version"; "evidence_sha256"] "acceptance";;
  status ← string_at fields "acceptance" "status";
  evidence_id ← string_at fields "acceptance" "evidence_id";
  evidence_version ← string_at fields "acceptance" "evidence_version";
  evidence_sha256 ← sha256_at fields "acceptance" "evidence_sha256";
  evidence ← new_WorkshopAcceptanceEvidence (mkEvidence evidence_id evidence_version evidence_sha256);
  Ok (status, evidence).

(** ** The machine *)

Record machine_section := mkMachineSection {
  ms_source_machine_profile_id : string;
  ms_source_machine_profile_version : string;
  ms_source_machine_profile_fingerprint : string;
  ms_machine_profile_id : string;
  ms_machine_profile_version : string;
  ms_controller_id : string;
  ms_controller_version : string;
  ms_work_width_um : Z;
  ms_work_height_um : Z;
  ms_work_z_um : Z;
  ms_machine_x_min_um : Z;
  ms_machine_x_max_um : Z;
  ms_machine_y_min_um : Z;
  ms_machine_y_max_um : Z;
  ms_machine_z_min_um : Z;
  ms_machine_z_max_um : Z;
  ms_min_spindle_rpm : Z;
  ms_max_spindle_rpm : Z;
  ms_max_feed_um_min : Z;
  ms_max_plunge_um_min : Z;
  ms_tool_catalog_version : string;
  ms_recipe_catalog_version : string;
  ms_postprocessor_profile_id : string;
  ms_postprocessor_profile_version : string;
  ms_postprocessor_profile_sha256 : string }.

Definition MACHINE_FIELDS : list string :=
  ["source_machine_profile_id"; "source_machine_profile_version"; "source_machine_profile_fingerprint";
   "machine_profile_id"; "machine_profile_version"; "controller_id"; "controller_version"; "work_width_um";
   "work_height_um"; "work_z_um"; "machine_x_min_um"; "machine_x_max_um"; "machine_y_min_um";
   "machine_y_max_um"; "machine_z_min_um"; "machine_z_max_um"; "min_spindle_rpm"; "max_spindle_rpm";
   "max_feed_um_min"; "max_plunge_um_min"; "tool_catalog_version"; "recipe_catalog_version";
   "postprocessor_profile_id"; "postprocessor_profile_version"; "postprocessor_profile_sha256"].

(** [_parse_machine] *)
Definition parse_machine (value : json) : result machine_section :=
  fields ← require_object value "machine";
  require_exact_keys fields MACHINE_FIELDS "machine";;
  controller_id ← string_at fields "machine" "controller_id";
  refuse_profile (negb (bool_decide (controller_id = SUPPORTED_CONTROLLER_ID)))
    ("unsupported production controller: " +:+ controller_id);;
  source_machine_profile_id ← string_at fields "machine" "source_machine_profile_id";
  source_machine_profile_version ← string_at fields "machine" "source_machine_profile_version";
  source_machine_profile_fingerprint ← sha256_at fields "machine" "source_machine_profile_fingerprint";
  machine_profile_id ← string_at fields "machine" "machine_profile_id";
  machine_profile_version ← string_at fields "machine" "machine_profile_version";
  controller_version ← string_at fields "machine" "controller_version";
  work_width_um ← integer_at (Some 1) None fields "machine" "work_width_um";
  work_height_um ← integer_at (Some 1) None fields "machine" "work_height_um";
  work_z_um ← integer_at (Some 1) None fields "machine" "work_z_um";
  machine_x_min_um ← integer_at None None fields "machine" "machine_x_min_um";
  machine_x_max_um ← integer_at None None fields "machine" "machine_x_max_um";
  machine_y_min_um ← integer_at None None fields "machine" "machine_y_min_um";
  machine_y_max_um ← integer_at None None fields "machine" "machine_y_max_um";
  machine_z_min_um ← integer_at None None fields "machine" "machine_z_min_um";
  machine_z_max_um ← integer_at None None fields "machine" "machine_z_max_um";
  min_spindle_rpm ← integer_at (Some 1) None fields "machine" "min_spindle_rpm";
  max_spindle_rpm ← integer_at (Some 1) None fields "machine" "max_spindle_rpm";
  max_feed_um_min ← integer_at (Some 1) None fields "machine" "max_feed_um_min";
  max_plunge_um_min ← integer_at (Some 1) None fields "machine" "max_plunge_um_min";
  tool_catalog_version ← string_at fields "machine" "tool_catalog_version";
  recipe_catalog_version ← string_at fields "machine" "recipe_catalog_version";
  postprocessor_profile_id ← string_at fields "machine" "postprocessor_profile_id";
  postprocessor_profile_version ← string_at fields "machine" "postprocessor_profile_version";
  postprocessor_profile_sha256 ← sha256_at fields "machine" "postprocessor_profile_sha256";
  Ok (mkMachineSection
    source_machine_profile_id source_machine_profile_version source_machine_profile_fingerprint
    machine_profile_id machine_profile_version controller_id controller_version work_width_um work_height_um
    work_z_um machine_x_min_um machine_x_max_um machine_y_min_um machine_y_max_um machine_z_min_um
    machine_z_max_um min_spindle_rpm max_spindle_rpm max_feed_um_min max_plunge_um_min tool_catalog_version
    recipe_catalog_version postprocessor_profile_id postprocessor_profile_version postprocessor_profile_sha256).

(** ** Setups *)

Definition require_point (value : json) (label : string) : result Point2D :=
  fields ← require_object value label;
  require_exact_keys fields ["x_um"; "y_um"] label;;
  x_um ← integer_at None None fields label "x_um";
  y_um ← integer_at None None fields label "y_um";
  Ok (mkPoint2D x_um y_um).

(** [_parse_rect] *)
Definition parse_rect (label : string) (value : json) : result Rect :=
  fields ← require_object value label;
  require_exact_keys fields ["x_um"; "y_um"; "width_um"; "height_um"] label;;
  x_um ← integer_at (Some 0) None fields label "x_um";
  y_um ← integer_at (Some 0) None fields label "y_um";
  width_um ← integer_at (Some 1) None fields label "width_um";
  height_um ← integer_at (Some 1) None fields label "height_um";
  Ok (mkRect x_um y_um width_um height_um).

Definition side_of_value (value : string) : option Side :=
  List.find (fun side => bool_decide (side_value side = value)) [SIDE_A; SIDE_B; SIDE_EDGE].

(** [_parse_side] *)
Definition parse_side (value : json) (label : string) : result Side :=
  side_value ← require_string value label;
  side ← of_option (side_of_value side_value) (profile_error (label +:+ " is unsupported: " +:+ side_value));
  refuse_profile (bool_decide (side = SIDE_EDGE)) (label +:+ " cannot be EDGE for production CAM v1");;
  Ok side.

Definition SETUP_FIELDS : list string :=
  ["setup_id"; "stock_id"; "source_material_id"; "source_material_version"; "material_id"; "material_version";
   "material_evidence_id"; "material_evidence_version"; "material_evidence_sha256"; "sheet_index"; "side";
   "source_setup_sha256"; "source_to_wcs_xy_transform"; "wcs"; "machine_wcs_origin"; "machine_wcs_z0_um";
   "machine_wcs_xy_rotation_mdeg"; "stock_width_um"; "stock_height_um"; "stock_thickness_um"; "safe_z_um";
   "minimum_rapid_clearance_um"; "reference_surface"; "orientation"; "fixture"; "probe_method";
   "keep_out_zones"; "raw_allowance_um"; "spoilboard_id"; "spoilboard_version"; "spoilboard_sha256";
   "through_cut_allowance_um"].
Definition FIXTURE_FIELDS : list string :=
  ["fixture_id"; "fixture_version"; "fixture_sha256"; "clearance_z_um"; "keep_out_policy"].

(** [_parse_setup] *)
Definition parse_setup (label : string) (value : json) : result BoundSetup :=
  fields ← require_object value label;
  require_exact_keys fields SETUP_FIELDS label;;
  machine_wcs_origin ← member_at require_point fields label "machine_wcs_origin";
  fixture ← object_at fields label "fixture";
  require_exact_keys fixture FIXTURE_FIELDS (label +:+ ".fixture");;
  zones ← array_at fields label "keep_out_zones";
  keep_out_zones ← parse_all parse_rect (label +:+ ".keep_out_zones") zones;
  require_canonical_order rect_cmp (label +:+ ".keep_out_zones") keep_out_zones;;
  refuse_profile (negb (distinct keep_out_zones)) (label +:+ ".keep_out_zones contains duplicates");;
  setup_id ← string_at fields label "setup_id";
  stock_id ← string_at fields label "stock_id";
  sheet_index ← integer_at (Some 0) None fields label "sheet_index";
  side ← member_at parse_side fields label "side";
  refuse_profile (negb (bool_decide (setup_id =
      "setup:" +:+ stock_id +:+ ":" +:+ zero_padded_Z 3 (sheet_index + 1) +:+ ":" +:+ side_value side)))
    (label +:+ ".setup_id is not bound to stock, sheet index and side");;
  source_material_id ← string_at fields label "source_material_id";
  source_material_version ← string_at fields label "source_material_version";
  material_id ← string_at fields label "material_id";
  material_version ← string_at fields label "material_version";
  material_evidence_id ← string_at fields label "material_evidence_id";
  material_evidence_version ← string_at fields label "material_evidence_version";
  material_evidence_sha256 ← sha256_at fields label "material_evidence_sha256";
  source_setup_sha256 ← sha256_at fields label "source_setup_sha256";
  source_to_wcs_xy_transform ← string_at fields label "source_to_wcs_xy_transform";
  wcs ← string_at fields label "wcs";
  machine_wcs_z0_um ← integer_at None None fields label "machine_wcs_z0_um";
  machine_wcs_xy_rotation_mdeg ← integer_at None None fields label "machine_wcs_xy_rotation_mdeg";
  stock_width_um ← integer_at (Some 1) None fields label "stock_width_um";
  stock_height_um ← integer_at (Some 1) None fields label "stock_height_um";
  stock_thickness_um ← integer_at (Some 1) None fields label "stock_thickness_um";
  safe_z_um ← integer_at (Some 1) None fields label "safe_z_um";
  minimum_rapid_clearance_um ← integer_at (Some 1) None fields label "minimum_rapid_clearance_um";
  reference_surface ← string_at fields label "reference_surface";
  orientation ← string_at fields label "orientation";
  fixture_id ← string_at fixture (label +:+ ".fixture") "fixture_id";
  fixture_version ← string_at fixture (label +:+ ".fixture") "fixture_version";
  fixture_sha256 ← sha256_at fixture (label +:+ ".fixture") "fixture_sha256";
  fixture_clearance_z_um ← integer_at (Some 0) None fixture (label +:+ ".fixture") "clearance_z_um";
  keep_out_policy ← string_at fixture (label +:+ ".fixture") "keep_out_policy";
  probe_method ← string_at fields label "probe_method";
  raw_allowance_um ← integer_at (Some 0) None fields label "raw_allowance_um";
  spoilboard_id ← optional_string_at fields label "spoilboard_id";
  spoilboard_version ← optional_string_at fields label "spoilboard_version";
  spoilboard_sha256 ← optional_sha256_at fields label "spoilboard_sha256";
  through_cut_allowance_um ← integer_at (Some 0) None fields label "through_cut_allowance_um";
  new_BoundSetup (mkBoundSetup
    setup_id stock_id source_material_id source_material_version material_id material_version
    material_evidence_id material_evidence_version material_evidence_sha256 sheet_index side
    source_setup_sha256 source_to_wcs_xy_transform wcs machine_wcs_origin machine_wcs_z0_um
    machine_wcs_xy_rotation_mdeg stock_width_um stock_height_um stock_thickness_um safe_z_um reference_surface
    orientation fixture_id fixture_version fixture_sha256 fixture_clearance_z_um minimum_rapid_clearance_um
    keep_out_policy probe_method keep_out_zones spoilboard_id spoilboard_version spoilboard_sha256
    through_cut_allowance_um raw_allowance_um).

(** ** Tools *)

Definition tool_geometry_of_value (value : string) : option ProductionToolGeometry :=
  List.find (fun g => bool_decide (tool_geometry_value g = value)) [FLAT_END_MILL; DRILL_GEOMETRY; COUNTERSINK_GEOMETRY].

Definition TOOL_FIELDS : list string :=
  ["tool_id"; "tool_version"; "source_tool_id"; "source_tool_version"; "source_tool_sha256";
   "controller_tool_number"; "length_offset_number"; "expected_length_offset_x_um";
   "expected_length_offset_y_um"; "expected_length_offset_z_um"; "tool_table_evidence_id";
   "tool_table_evidence_version"; "tool_table_evidence_sha256"; "effective_diameter_um"; "cutting_length_um";
   "measured_stickout_um"; "assembly_collision_radius_um"; "minimum_holder_clearance_um"; "geometry";
   "center_cutting"; "drill_point_length_um"; "spindle_direction"].

(** [_parse_tool] *)
Definition parse_tool (label : string) (value : json) : result ProductionToolBinding :=
  fields ← require_object value label;
  require_exact_keys fields TOOL_FIELDS label;;
  geometry_value ← string_at fields label "geometry";
  geometry ← of_option (tool_geometry_of_value geometry_value)
    (profile_error (label +:+ ".geometry is unsupported: " +:+ geometry_value));
  tool_id ← string_at fields label "tool_id";
  tool_version ← string_at fields label "tool_version";
  source_tool_id ← string_at fields label "source_tool_id";
  source_tool_version ← string_at fields label "source_tool_version";
  source_tool_sha256 ← sha256_at fields label "source_tool_sha256";
  controller_tool_number ← integer_at (Some 1) (Some MAX_LINUXCNC_TOOL_OR_OFFSET_NUMBER) fields label "controller_tool_number";
  length_offset_number ← integer_at (Some 1) (Some MAX_LINUXCNC_TOOL_OR_OFFSET_NUMBER) fields label "length_offset_number";
  expected_length_offset_x_um ← integer_at None None fields label "expected_length_offset_x_um";
  expected_length_offset_y_um ← integer_at None None fields label "expected_length_offset_y_um";
  expected_length_offset_z_um ← integer_at None None fields label "expected_length_offset_z_um";
  tool_table_evidence_id ← string_at fields label "tool_table_evidence_id";
  tool_table_evidence_version ← string_at fields label "tool_table_evidence_version";
  tool_table_evidence_sha256 ← sha256_at fields label "tool_table_evidence_sha256";
  effective_diameter_um ← integer_at (Some 1) None fields label "effective_diameter_um";
  cutting_length_um ← integer_at (Some 1) None fields label "cutting_length_um";
  measured_stickout_um ← integer_at (Some 1) None fields label "measured_stickout_um";
  assembly_collision_radius_um ← integer_at (Some 1) None fields label "assembly_collision_radius_um";
  minimum_holder_clearance_um ← integer_at (Some 1) None fields label "minimum_holder_clearance_um";
  center_cutting ← boolean_at fields label "center_cutting";
  drill_point_length_um ← integer_at (Some 0) None fields label "drill_point_length_um";
  spindle_direction ← string_at fields label "spindle_direction";
  new_ProductionToolBinding (mkToolBinding
    tool_id tool_version source_tool_id source_tool_version source_tool_sha256 controller_tool_number
    length_offset_number expected_length_offset_x_um expected_length_offset_y_um expected_length_offset_z_um
    tool_table_evidence_id tool_table_evidence_version tool_table_evidence_sha256 effective_diameter_um
    cutting_length_um measured_stickout_um minimum_holder_clearance_um assembly_collision_radius_um geometry
    center_cutting drill_point_length_um spindle_direction).

(** ** Recipes *)

Definition operation_kind_of_value (value : string) : option OperationKind :=
  List.find (fun k => bool_decide (operation_kind_value k = value))
    [OP_DRILL; OP_COUNTERSINK; OP_POCKET; OP_GROOVE; OP_CONTOUR; OP_ENGRAVE].

Definition RECIPE_FIELDS : list string :=
  ["recipe_id"; "version"; "machine_profile_id"; "machine_profile_version"; "material_id"; "material_version";
   "tool_id"; "tool_version"; "operation_kind"; "spindle_rpm"; "feed_um_min"; "plunge_um_min"; "stepdown_um";
   "stepover_ppm"; "peck_depth_um"; "approach_clearance_um"; "entry_strategy"; "diameter_tolerance_um";
   "through_overtravel_um"; "tab_width_um"; "tab_height_um"; "process_accuracy_um"; "accepted_tolerance_um";
   "countersink_top_diameter_um"; "countersink_included_angle_mdeg"].

(** [_parse_recipe] *)
Definition parse_recipe (label : string) (value : json) : result CuttingRecipe :=
  fields ← require_object value label;
  require_exact_keys fields RECIPE_FIELDS label;;
  entry_strategy ← string_at fields label "entry_strategy";
  refuse_profile (negb (bool_decide (entry_strategy = SUPPORTED_ENTRY_STRATEGY)))
    (label +:+ ".entry_strategy must be " +:+ SUPPORTED_ENTRY_STRATEGY +:+ " for CAM v1");;
  operation_kind_value ← string_at fields label "operation_kind";
  operation_kind ← of_option (operation_kind_of_value operation_kind_value)
    (profile_error (label +:+ ".operation_kind is unsupported: " +:+ operation_kind_value));
  refuse_profile (negb (bool_decide (operation_kind ∈ PROFILE_OPERATION_KINDS)))
    (label +:+ ".operation_kind is outside production CAM v1");;
  recipe_id ← string_at fields label "recipe_id";
  version ← string_at fields label "version";
  machine_profile_id ← string_at fields label "machine_profile_id";
  machine_profile_version ← string_at fields label "machine_profile_version";
  material_id ← string_at fields label "material_id";
  material_version ← string_at fields label "material_version";
  tool_id ← string_at fields label "tool_id";
  tool_version ← string_at fields label "tool_version";
  spindle_rpm ← integer_at (Some 1) None fields label "spindle_rpm";
  feed_um_min ← integer_at (Some 1) None fields label "feed_um_min";
  plunge_um_min ← integer_at (Some 1) None fields label "plunge_um_min";
  stepdown_um ← integer_at (Some 1) None fields label "stepdown_um";
  stepover_ppm ← integer_at (Some 1) None fields label "stepover_ppm";
  peck_depth_um ← integer_at (Some 1) None fields label "peck_depth_um";
  approach_clearance_um ← integer_at (Some 1) None fields label "approach_clearance_um";
  diameter_tolerance_um ← integer_at (Some 0) None fields label "diameter_tolerance_um";
  through_overtravel_um ← integer_at (Some 0) None fields label "through_overtravel_um";
  tab_width_um ← integer_at (Some 0) None fields label "tab_width_um";
  tab_height_um ← integer_at (Some 0) None fields label "tab_height_um";
  process_accuracy_um ← integer_at (Some 1) None fields label "process_accuracy_um";
  accepted_tolerance_um ← integer_at (Some 1) None fields label "accepted_tolerance_um";
  countersink_top_diameter_um ← optional_integer_at 1 fields label "countersink_top_diameter_um";
  countersink_included_angle_mdeg ← optional_integer_at 1 fields label "countersink_included_angle_mdeg";
  new_CuttingRecipe (mkRecipe
    recipe_id version machine_profile_id machine_profile_version material_id material_version tool_id
    tool_version operation_kind spindle_rpm feed_um_min plunge_um_min stepdown_um stepover_ppm peck_depth_um
    approach_clearance_um through_overtravel_um tab_width_um tab_height_um process_accuracy_um
    accepted_tolerance_um entry_strategy diameter_tolerance_um countersink_top_diameter_um
    countersink_included_angle_mdeg).

(** ** Placeholders *)

(** Letters outside ASCII whose upper case has ASCII letters, with that upper
    case; what stands beside the letters separates words. *)
Definition SPECIAL_UPPER : list (N * string) :=
  [(223, "SS"); (305, "I"); (329, " N"); (383, "S"); (496, "J "); (7830, "H "); (7831, "T "); (7832, "W "); (7833, "Y ");
   (7834, "A "); (64256, "FF"); (64257, "FI"); (64258, "FL"); (64259, "FFI"); (64260, "FFL"); (64261, "ST"); (64262, "ST")]%N.

Definition special_at (l : list ascii) : option (nat * string) :=
  match List.find (fun entry => is_some (after_prefix (utf8_bytes (fst entry)) l)) SPECIAL_UPPER with
  | Some (code, upper) => Some (length (utf8_bytes code), upper)
  | None => None
  end.

(** [value.upper()], as far as ASCII letters go.  [skip] bytes of a letter that
    was replaced are still to be left out. *)
Fixpoint upper_text (skip : nat) (l : list ascii) : list ascii :=
  match l with
  | [] => []
  | c :: rest =>
      match skip with
      | S skip => upper_text skip rest
      | O => match special_at l with
             | Some (bytes, upper) => chars upper ++ upper_text (bytes - 1) rest
             | None => upper_char c :: upper_text 0 rest
             end
      end
  end.

Definition word_char (c : ascii) : bool := ascii_in "A" "Z" c || is_digit c.

(** The runs of [[A-Z0-9]]: [filter(None, re.split(r"[^A-Z0-9]+", ...))]. *)
Fixpoint words_from (run : list ascii) (l : list ascii) : list string :=
  match l with
  | [] => if bool_decide (run = []) then [] else [of_chars (rev run)]
  | c :: rest => if word_char c then words_from (c :: run) rest
                 else (if bool_decide (run = []) then [] else [of_chars (rev run)]) ++ words_from [] rest
  end.

Definition placeholders (value : string) : list string :=
  sort_strings (filter (fun word => word ∈ PRODUCTION_PLACEHOLDER_WORDS)
    (remove_dups (words_from [] (upper_text 0 (chars value))))).

(** [_reject_production_placeholders] *)
Fixpoint reject_production_placeholders (path : string) (value : json) : result unit :=
  match value with
  | JObj members =>
      check_all (fun kv => if bool_decide (fst kv ∈ SOURCE_PROVENANCE_TEXT_FIELDS) then Ok ()
                           else reject_production_placeholders (path +:+ "." +:+ fst kv) (snd kv)) members
  | JArr l =>
      (fix items (index : nat) (l : list json) : result unit :=
         match l with
         | [] => Ok ()
         | item :: rest => reject_production_placeholders (indexed path index) item;; items (S index) rest
         end) 0%nat l
  | JStr s =>
      match placeholders s with
      | [] => Ok ()
      | word :: _ => Err (profile_error (path +:+ " contains forbidden production placeholder token: " +:+ word))
      end
  | _ => Ok ()
  end.

(** ** The execution context *)

Definition tool_of_recipe (tools : list ProductionToolBinding) (r : CuttingRecipe) : result ProductionToolBinding :=
  of_option (last (filter (fun t => binding_key_of t = (cr_tool_id r, cr_tool_version r)) tools))
    (KeyError (cr_tool_id r +:+ ", " +:+ cr_tool_version r)).

(** What a recipe needs of its tool. *)
Definition check_recipe_tool (tools : list ProductionToolBinding) (r : CuttingRecipe) : result unit :=
  t ← tool_of_recipe tools r;
  let geometry := tool_geometry_value (tb_geometry t) in
  refuse_profile (tb_cutting_length_um t <? cr_stepdown_um r)
    ("recipe stepdown exceeds tool cutting length: " +:+ cr_recipe_id r);;
  refuse_profile (tb_effective_diameter_um t * cr_stepover_ppm r / 1000000 <=? 0)
    ("recipe stepover rounds to zero: " +:+ cr_recipe_id r);;
  match cr_operation_kind r with
  | OP_POCKET | OP_GROOVE | OP_CONTOUR =>
      refuse_profile (negb (bool_decide (geometry = "FLAT_END_MILL")) || negb (tb_center_cutting t))
        ("area/contour recipe requires a center-cutting end mill: " +:+ cr_recipe_id r)
  | OP_DRILL =>
      refuse_profile (negb (bool_decide (geometry = "DRILL"))) ("drill recipe requires drill geometry: " +:+ cr_recipe_id r)
  | OP_COUNTERSINK =>
      refuse_profile (negb (bool_decide (geometry = "COUNTERSINK")))
        ("countersink recipe requires countersink geometry: " +:+ cr_recipe_id r);;
      refuse_profile (negb (bool_decide (cr_countersink_top_diameter_um r = Some (tb_effective_diameter_um t))))
        ("countersink recipe/tool diameter mismatch: " +:+ cr_recipe_id r)
  | OP_ENGRAVE => Ok ()
  end.

Definition required_allowance_um (recipes : list CuttingRecipe) (s : BoundSetup) : Z :=
  maxZ 0 (map (fun r => cr_through_overtravel_um r + cr_process_accuracy_um r)
    (filter (fun r => cr_operation_kind r = OP_CONTOUR /\ cr_material_id r = bs_material_id s /\
                      cr_material_version r = bs_material_version s) recipes)).

Definition check_allowance (recipes : list CuttingRecipe) (s : BoundSetup) : result unit :=
  refuse_profile (negb (bs_through_cut_allowance_um s =? 0) &&
                  (bs_through_cut_allowance_um s <? required_allowance_um recipes s))
    ("setup through-cut allowance does not cover contour overtravel and process accuracy: " +:+ bs_setup_id s).

Definition context_of (m : machine_section) (setups : list BoundSetup) (tools : list ProductionToolBinding)
    (recipes : list CuttingRecipe) : ProductionExecutionContext :=
  mkContext (ms_source_machine_profile_id m) (ms_source_machine_profile_version m) (ms_source_machine_profile_fingerprint m)
    (ms_machine_profile_id m) (ms_machine_profile_version m) (ms_controller_id m) (ms_controller_version m)
    (ms_machine_x_min_um m) (ms_machine_x_max_um m) (ms_machine_y_min_um m) (ms_machine_y_max_um m)
    (ms_machine_z_min_um m) (ms_machine_z_max_um m) (ms_work_width_um m) (ms_work_height_um m) (ms_work_z_um m)
    (ms_min_spindle_rpm m) (ms_max_spindle_rpm m) (ms_max_feed_um_min m) (ms_max_plunge_um_min m)
    (ms_tool_catalog_version m) (ms_recipe_catalog_version m) setups tools recipes.

(** ** The postprocessor profile *)

Section Limit.
Context (limit : nat).

(** [_parse_postprocessor_profile] *)
Definition parse_postprocessor_profile (value : json) : result LinuxCNCProductionMachineProfile :=
  fields ← require_object value "postprocessor_profile";
  match (text ← canonical_json_bytes (JObj fields); from_json limit text) with
  | Err (ValueError message) => Err (profile_error ("postprocessor_profile is invalid: " +:+ message))
  | read => read
  end.

Definition offset_of_wcs (p : LinuxCNCProductionMachineProfile) (wcs : string) : option LinuxCNCWCSOffset :=
  last (filter (fun o => wo_wcs o = wcs) (lp_wcs_offsets p)).

Definition check_setup_offset (p : LinuxCNCProductionMachineProfile) (s : BoundSetup) : result unit :=
  offset ← of_option (offset_of_wcs p (bs_wcs s))
    (profile_error ("postprocessor profile has no attested offset for setup WCS " +:+ bs_wcs s));
  refuse_profile (negb (bool_decide (
      (wo_machine_x0_um offset, wo_machine_y0_um offset, wo_machine_z0_um offset, wo_machine_xy_rotation_mdeg offset) =
      (p2_x_um (bs_machine_wcs_origin s), p2_y_um (bs_machine_wcs_origin s), bs_machine_wcs_z0_um s,
       bs_machine_wcs_xy_rotation_mdeg s))))
    ("postprocessor WCS offset differs from setup origin: " +:+ bs_setup_id s).

Definition exact_bounds (p : LinuxCNCProductionMachineProfile) (c : ProductionExecutionContext) : list (string * Z * Z) :=
  [("X minimum", lp_machine_x_min_um p, pe_machine_x_min_um c); ("X maximum", lp_machine_x_max_um p, pe_machine_x_max_um c);
   ("Y minimum", lp_machine_y_min_um p, pe_machine_y_min_um c); ("Y maximum", lp_machine_y_max_um p, pe_machine_y_max_um c);
   ("Z minimum", lp_machine_z_min_um p, pe_machine_z_min_um c); ("Z maximum", lp_machine_z_max_um p, pe_machine_z_max_um c)].

(** [_cross_check_postprocessor_profile] *)
Definition cross_check_postprocessor_profile (m : machine_section) (c : ProductionExecutionContext)
    (p : LinuxCNCProductionMachineProfile) : result unit :=
  refuse_profile (negb (bool_decide (
      (ms_postprocessor_profile_id m, ms_postprocessor_profile_version m, ms_postprocessor_profile_sha256 m) =
      (lp_profile_id p, lp_version p, config_sha256 p))))
    "postprocessor profile identity or config_sha256 binding mismatch";;
  refuse_profile (negb (bool_decide (lp_machine_profile_id p = pe_machine_profile_id c)) ||
                  negb (bool_decide (lp_machine_profile_version p = pe_machine_profile_version c)))
    "postprocessor profile is bound to another production machine";;
  refuse_profile (negb (bool_decide (lp_controller_id p = pe_controller_id c)) ||
                  negb (bool_decide (lp_controller_version p = pe_controller_version c)))
    "postprocessor profile is bound to another controller";;
  refuse_profile (negb (rt_min_forward_velocity_rpm (lp_runtime_contract p) =? pe_min_spindle_rpm c) ||
                  negb (rt_max_forward_velocity_rpm (lp_runtime_contract p) =? pe_max_spindle_rpm c))
    "runtime spindle clamps differ from machine RPM limits";;
  let unsupported_wcs := sort_strings (filter (fun wcs => wcs ∉ lp_supported_wcs p) (remove_dups (map bs_wcs (pe_setups c)))) in
  refuse_profile (negb (bool_decide (unsupported_wcs = [])))
    ("postprocessor profile does not support every configured setup WCS: " +:+ str_join ", " unsupported_wcs);;
  check_all (fun b => let '(bound, postprocessor_value, execution_value) := b in
               refuse_profile (negb (postprocessor_value =? execution_value))
                 ("postprocessor machine " +:+ bound +:+ " differs from execution context")) (exact_bounds p c);;
  check_all (check_setup_offset p) (pe_setups c).

(** [_build_execution_context] *)
Definition build_execution_context (payload : list (string * json))
    : result (ProductionExecutionContext * LinuxCNCProductionMachineProfile) :=
  machine ← (value ← at_key payload "machine"; parse_machine value);
  postprocessor_profile ← (value ← at_key payload "postprocessor_profile"; parse_postprocessor_profile value);
  setups ← (value ← at_key payload "setups"; values ← require_array value "setups"; parse_all parse_setup "setups" values);
  tools ← (value ← at_key payload "tools"; values ← require_array value "tools"; parse_all parse_tool "tools" values);
  recipes ← (value ← at_key payload "recipes"; values ← require_array value "recipes"; parse_all parse_recipe "recipes" values);
  require_canonical_order (cmp_on bs_setup_id String.compare) "setups" setups;;
  require_canonical_order binding_cmp "tools" tools;;
  require_canonical_order recipe_cmp "recipes" recipes;;
  refuse_profile (negb (distinct (map tb_controller_tool_number tools))) "duplicate controller tool number";;
  refuse_profile (negb (distinct (map tb_length_offset_number tools))) "duplicate tool length-offset number";;
  refuse_profile (negb (distinct (map cr_recipe_id recipes))) "duplicate cutting recipe identity";;
  refuse_profile (negb (py_set_eq (map (fun s => (bs_material_id s, bs_material_version s)) setups)
                                  (map (fun r => (cr_material_id r, cr_material_version r)) recipes)))
    "recipe material bindings must exactly cover setup materials";;
  refuse_profile (negb (py_set_eq (map binding_key_of tools) (map (fun r => (cr_tool_id r, cr_tool_version r)) recipes)))
    "recipe tool bindings must exactly cover the tool catalogue";;
  check_all (check_recipe_tool tools) recipes;;
  check_all (check_allowance recipes) setups;;
  context ← new_ProductionExecutionContext (context_of machine setups tools recipes);
  cross_check_postprocessor_profile machine context postprocessor_profile;;
  Ok (context, postprocessor_profile).

(** ** The document *)

Definition machine_profile_decoder : JSONDecoder json :=
  strict_decoder (fun key => profile_error ("production profile contains duplicate JSON key: " +:+ key))
    (fun text => profile_error ("production profile numbers must be exact JSON integers: " +:+ text)).

(** Bytes, or text by its UTF-8 bytes; or a mapping, as the value it holds. *)
Inductive profile_source := SourceBytes (raw : string) | SourceMapping (document : json).

(** [canonical_json_bytes], where it may raise [ValueError]; more containers than
    the interpreter lets nest raise [RecursionError]. *)
Definition canonical_or (document : json) (error : py_error) : result string :=
  raise_if (Nat.ltb limit (nesting document)) RecursionError;;
  match canonical_json_bytes document with
  | Err (ValueError _) => Err error
  | text => text
  end.

(** [_parse_document] *)
Definition parse_document (source : profile_source) : result (list (string * json)) :=
  match source with
  | SourceMapping value =>
      document ← require_object value "profile document";
      canonical ← canonical_or (JObj document) (profile_error "production profile mapping is not canonical JSON data");
      refuse_profile (MAX_PRODUCTION_MACHINE_PROFILE_BYTES <? Z.of_nat (String.length canonical))
        "production profile size is outside the accepted range";;
      Ok document
  | SourceBytes raw =>
      refuse_profile (bool_decide (raw = "") || (MAX_PRODUCTION_MACHINE_PROFILE_BYTES <? Z.of_nat (String.length raw)))
        "production profile size is outside the accepted range";;
      parsed ← unless_json (text ← decode_utf8 raw; loads machine_profile_decoder limit text)
        (profile_error "production profile is not valid UTF-8 JSON");
      document ← require_object parsed "profile document";
      canonical ← canonical_or (JObj document) (profile_error "production profile is not canonical JSON data");
      refuse_profile (negb (bool_decide (raw = canonical))) "production profile bytes must use canonical JSON encoding";;
      Ok document
  end.

Record LoadedProductionMachineProfile := mkLoaded {
  ld_schema_version : string;
  ld_profile_class : string;
  ld_acceptance_status : string;
  ld_acceptance_evidence : WorkshopAcceptanceEvidence;
  ld_payload_sha256 : string;
  ld_document_sha256 : string;
  ld_canonical_payload_json : string;
  ld_canonical_document_json : string;
  ld_execution_context : ProductionExecutionContext;
  ld_postprocessor_profile : LinuxCNCProductionMachineProfile }.

Definition PAYLOAD_FIELDS : list string :=
  ["profile_class"; "acceptance"; "machine"; "postprocessor_profile"; "setups"; "tools"; "recipes"].

(** Who answers for the profile. *)
Definition check_profile_class (profile_class acceptance_status : string) (allow_test_only : bool) (payload : json)
    : result unit :=
  if bool_decide (profile_class = TEST_ONLY_PROFILE) then
    refuse_profile (negb (bool_decide (acceptance_status = TEST_ONLY_STATUS)))
      "TEST_ONLY profile must have TEST_ONLY acceptance status";;
    refuse_profile (negb allow_test_only) "TEST_ONLY production profile requires explicit test-harness opt-in"
  else if bool_decide (profile_class = SERVER_OWNED_PRODUCTION_PROFILE) then
    refuse_profile (negb (bool_decide (acceptance_status = WORKSHOP_ACCEPTED_STATUS)))
      "server-owned production profile is not workshop accepted";;
    reject_production_placeholders "payload" payload
  else Err (profile_error "unsupported production profile class").

(** [except ValueError as exc]: the constructors of the context raise [ProductionCAMError]. *)
Definition as_contract_error {A} (read : result A) : result A :=
  match read with
  | Err (ValueError message) | Err (ProductionCAMError message) =>
      Err (profile_error ("production profile execution contract is invalid: " +:+ message))
  | _ => read
  end.

(** [load_production_machine_profile] *)
Definition load_production_machine_profile (source : profile_source) (allow_test_only : bool)
    : result LoadedProductionMachineProfile :=
  document ← parse_document source;
  require_exact_keys document ["schema_version"; "payload"; "payload_sha256"] "profile document";;
  schema_version ← (value ← at_key document "schema_version"; require_string value "schema_version");
  refuse_profile (negb (bool_decide (schema_version = PRODUCTION_MACHINE_PROFILE_SCHEMA_VERSION)))
    "unsupported production machine profile schema";;
  payload ← (value ← at_key document "payload"; require_object value "payload");
  declared_payload_sha256 ← (value ← at_key document "payload_sha256"; require_sha256 value "payload_sha256");
  refuse_profile (negb (bool_decide (declared_payload_sha256 = content_hash (JObj payload))))
    "production profile payload_sha256 mismatch";;
  require_exact_keys payload PAYLOAD_FIELDS "profile payload";;
  profile_class ← (value ← at_key payload "profile_class"; require_string value "profile_class");
  '(acceptance_status, acceptance_evidence) ← (value ← at_key payload "acceptance"; parse_acceptance value);
  check_profile_class profile_class acceptance_status allow_test_only (JObj payload);;
  '(context, postprocessor_profile) ← as_contract_error (build_execution_context payload);
  Ok (mkLoaded schema_version profile_class acceptance_status acceptance_evidence declared_payload_sha256
        (content_hash (JObj document)) (canonical_json (JObj payload)) (canonical_json (JObj document)) context
        postprocessor_profile).

(** [load_production_execution_context] *)
Definition load_production_execution_context (source : profile_source) (allow_test_only : bool)
    : result ProductionExecutionContext :=
  loaded ← load_production_machine_profile source allow_test_only; Ok (ld_execution_context loaded).
End Limit.

(** [production_machine_profile_job_binding] *)
Definition production_machine_profile_job_binding (loaded : LoadedProductionMachineProfile) : json :=
  let evidence := ld_acceptance_evidence loaded in
  let profile := ld_postprocessor_profile loaded in
  JObj [("acceptance",
          JObj [("evidence_id", JStr (ev_evidence_id evidence)); ("evidence_sha256", JStr (ev_evidence_sha256 evidence));
                ("evidence_version", JStr (ev_evidence_version evidence)); ("status", JStr (ld_acceptance_status loaded))]);
        ("execution_context_sha256", JStr (content_hash (context_json (ld_execution_context loaded))));
        ("document_sha256", JStr (ld_document_sha256 loaded)); ("payload_sha256", JStr (ld_payload_sha256 loaded));
        ("postprocessor_profile",
          JObj [("config_sha256", JStr (config_sha256 profile)); ("profile_id", JStr (lp_profile_id profile));
                ("version", JStr (lp_version profile))]);
        ("profile_class", JStr (ld_profile_class loaded)); ("schema_version", JStr (ld_schema_version loaded))].

(** [production_machine_profile_job_binding_json] *)
Definition production_machine_profile_job_binding_json (loaded : LoadedProductionMachineProfile) : result string :=
  canonical_json_bytes (production_machine_profile_job_binding loaded).
