(* ===== verification/MachineProfileText.v ===== *)
(** * What a machine profile document says

    The records that are loaded determine the document: re-encoding them gives
    its canonical text, so no member of a profile is ignored and no two documents
    load alike ([loaded_document_exact]). *)

From S2P Require Import Prelude Text Identity JsonText JsonRead JsonFields ManufacturingModel Machining CamValidation ProductionModel ProductionProfile ProductionParser ProductionPost ProductionReader MachineProfile.

#[local] Open Scope Z_scope.

(** ** Members that were read *)

Lemma refuse_profile_Ok cond message u : refuse_profile cond message = Ok u -> cond = false.
Proof. apply raise_if_Ok. Qed.

Lemma require_string_Ok value label s : require_string value label = Ok s -> value = JStr s.
Proof. destruct value; try done. intros H. by apply bind_Ok in H as (? & _ & [= ->]). Qed.

Lemma require_sha256_Ok value label s : require_sha256 value label = Ok s -> value = JStr s /\ design_hash_ok s = true.
Proof.
  intros H. apply bind_Ok in H as (d & ->%require_string_Ok & H). apply bind_Ok in H as (? & E%refuse_profile_Ok & [= ->]).
  split; [done|]. by apply negb_false_iff.
Qed.

Lemma require_integer_Ok minimum maximum value label z : require_integer minimum maximum value label = Ok z ->
  value = JInt z /\ match minimum with Some m => m <= z | None => True end.
Proof.
  destruct value; try done. intros H. apply bind_Ok in H as (? & E%refuse_profile_Ok & H). apply bind_Ok in H as (? & _ & [= ->]).
  split; [done|]. destruct minimum; [lia|done].
Qed.

Lemma require_boolean_Ok value label b : require_boolean value label = Ok b -> value = JBool b.
Proof. destruct value; try done. by intros [= ->]. Qed.

Lemma require_object_Ok value label fields : require_object value label = Ok fields -> value = JObj fields.
Proof. destruct value; try done. by intros [= ->]. Qed.

Lemma require_array_Ok value label l : require_array value label = Ok l -> value = JArr l.
Proof. destruct value; try done. by intros [= ->]. Qed.

Lemma unless_null_Ok {A} (require : json -> string -> result A) (write : A -> json) value label o :
  (forall v l x, require v l = Ok x -> v = write x) -> unless_null require value label = Ok o ->
  value = match o with Some x => write x | None => JNull end.
Proof.
  intros W. destruct value; cbn [unless_null]; [by intros [= <-]|..];
    intros H; apply bind_Ok in H as (x & Hx%W & [= <-]); exact Hx.
Qed.

Lemma member_at_Ok {A} (require : json -> string -> result A) fields label key x : member_at require fields label key = Ok x ->
  exists v, dict_get fields key = Some v /\ require v (label +:+ "." +:+ key) = Ok x.
Proof. intros H. apply bind_Ok in H as (v & Hv%at_key_Ok & H). by exists v. Qed.

Section Fields.
Context (fields : list (string * json)) (label key : string).

Lemma string_at_Ok s : string_at fields label key = Ok s -> dict_get fields key = Some (JStr s).
Proof. intros (v & Hv & ->%require_string_Ok)%member_at_Ok. exact Hv. Qed.

Lemma sha256_at_Ok s : sha256_at fields label key = Ok s -> dict_get fields key = Some (JStr s).
Proof. intros (v & Hv & [-> _]%require_sha256_Ok)%member_at_Ok. exact Hv. Qed.

Lemma integer_at_Ok minimum maximum z : integer_at minimum maximum fields label key = Ok z -> dict_get fields key = Some (JInt z).
Proof. intros (v & Hv & [-> _]%require_integer_Ok)%member_at_Ok. exact Hv. Qed.

Lemma boolean_at_Ok b : boolean_at fields label key = Ok b -> dict_get fields key = Some (JBool b).
Proof. intros (v & Hv & ->%require_boolean_Ok)%member_at_Ok. exact Hv. Qed.

Lemma optional_string_at_Ok o : optional_string_at fields label key = Ok o -> dict_get fields key = Some (text_json o).
Proof.
  intros (v & Hv & H)%member_at_Ok. apply (unless_null_Ok _ JStr) in H; [by rewrite Hv, H|]. intros ? ? ?. apply require_string_Ok.
Qed.

Lemma optional_sha256_at_Ok o : optional_sha256_at fields label key = Ok o -> dict_get fields key = Some (text_json o).
Proof.
  intros (v & Hv & H)%member_at_Ok. apply (unless_null_Ok _ JStr) in H; [by rewrite Hv, H|].
  intros ? ? ? E. by apply require_sha256_Ok in E as [-> _].
Qed.

Lemma optional_integer_at_Ok minimum o : optional_integer_at minimum fields label key = Ok o -> dict_get fields key = Some (json_opt o).
Proof.
  intros (v & Hv & H)%member_at_Ok. apply (unless_null_Ok _ JInt) in H; [by rewrite Hv, H|].
  intros ? ? ? E. by apply require_integer_Ok in E as [-> _].
Qed.

Lemma object_at_Ok o : object_at fields label key = Ok o -> dict_get fields key = Some (JObj o).
Proof. intros (v & Hv & ->%require_object_Ok)%member_at_Ok. exact Hv. Qed.

Lemma array_at_Ok l : array_at fields label key = Ok l -> dict_get fields key = Some (JArr l).
Proof. intros (v & Hv & ->%require_array_Ok)%member_at_Ok. exact Hv. Qed.
End Fields.

Lemma exact_keys_Ok fields expected label u : require_exact_keys fields expected label = Ok u ->
  py_set_eq (map fst fields) expected = true.
Proof.
  unfold require_exact_keys. cbv zeta. intros H%refuse_profile_Ok%negb_false_iff%bool_decide_eq_true. apply py_set_eq_spec. intros k.
  apply app_eq_nil in H as [H1 H2]. case_bool_decide as M; [|done]. case_bool_decide as U; [|done].
  assert (forall l : list string, sort_strings l = [] -> l = []) as N.
  { intros l E. apply Permutation_nil. rewrite <- E. apply sort_by_perm. }
  apply N in M, U. split; intros Hk.
  - destruct (decide (k ∈ expected)) as [?|Nk]; [done|]. assert (k ∈ filter (fun key => key ∉ expected) (map fst fields)) as E
      by (by apply list_elem_of_filter). first [rewrite U in E|rewrite M in E]. by apply not_elem_of_nil in E.
  - destruct (decide (k ∈ map fst fields)) as [?|Nk]; [done|]. assert (k ∈ filter (fun key => key ∉ map fst fields) expected) as E
      by (by apply list_elem_of_filter). first [rewrite M in E|rewrite U in E]. by apply not_elem_of_nil in E.
Qed.

(** ** Objects that say the same *)

Definition says (v w : json) : Prop := canonical v = canonical w.

Lemma canonical_cong l m : Forall2 (fun kv kw => fst kv = fst kw /\ says (snd kv) (snd kw)) l m -> says (JObj l) (JObj m).
Proof.
  intros F. unfold says. cbn [canonical]. do 2 f_equal. induction F as [|[k v] [j w] l m [E S] _ IH]; [done|].
  cbn in *. by rewrite E, S, IH.
Qed.

(** A closed object is known by its members. *)
Lemma object_says fields members : NoDup (map fst fields) -> (forall k, k ∈ map fst fields <-> k ∈ map fst members) ->
  distinct (map fst members) = true ->
  Forall (fun kv => exists v, dict_get fields (fst kv) = Some v /\ says v (snd kv)) members -> says (JObj fields) (JObj members).
Proof.
  intros N K D%distinct_spec F.
  set (read := map (fun kv : string * json => (fst kv, default JNull (dict_get fields (fst kv)))) members).
  assert (map fst read = map fst members) as E by (unfold read; by rewrite map_map).
  assert (fields ≡ₚ read) as P.
  { apply NoDup_Permutation; [by apply NoDup_fmap_1 in N|apply (NoDup_fmap_1 fst); change (NoDup (map fst read)); by rewrite E|].
    intros [k v]. split; intros H.
    - assert (k ∈ map fst members) as Hk by (apply K; by apply (list_elem_of_fmap_2 fst _ (k, v))).
      apply list_elem_of_fmap in Hk as (kw & -> & Hkw). unfold read. apply list_elem_of_fmap. exists kw. split; [|done].
      apply (dict_get_Some fields _ v N) in H. cbn [fst] in H. by rewrite H.
    - unfold read in H. apply list_elem_of_fmap in H as (kw & [= -> ->] & Hkw). rewrite Forall_forall in F.
      destruct (F kw Hkw) as (v & Hv & _). rewrite Hv. cbn. by apply dict_get_Some in Hv. }
  unfold says. rewrite (canonical_permuted _ _ N P). apply canonical_cong. unfold read. clear -F.
  induction F as [|[k w] members (v & Hv & S) _ IH]; cbn; constructor; [|exact IH]. cbn in *. by rewrite Hv.
Qed.

Lemma array_says l m : Forall2 says l m -> says (JArr l) (JArr m).
Proof. intros F. unfold says. cbn. f_equal. induction F as [|v w l m S _ IH]; cbn; [done|]. by rewrite S, IH. Qed.

Lemma distinct_member fields k v : distinct_keys (JObj fields) = true -> dict_get fields k = Some v -> distinct_keys v = true.
Proof.
  cbn. intros [N F]%andb_true_iff H. rewrite forallb_forall in F. apply distinct_spec in N. apply dict_get_Some in H; [|done].
  by apply list_elem_of_In, F in H.
Qed.

Lemma distinct_nodup fields : distinct_keys (JObj fields) = true -> NoDup (map fst fields).
Proof. cbn. intros [N _]%andb_true_iff. by apply distinct_spec. Qed.

Lemma distinct_elements l : distinct_keys (JArr l) = true -> Forall (fun v => distinct_keys v = true) l.
Proof. cbn. intros H. apply Forall_forall. intros v Hv%list_elem_of_In. rewrite forallb_forall in H. by apply H. Qed.

(** Lists of sections. *)
Lemma parse_all_says {A} (parse : string -> json -> result A) (write : A -> json) label values xs :
  (forall l v x, distinct_keys v = true -> parse l v = Ok x -> says v (write x)) ->
  distinct_keys (JArr values) = true -> parse_all parse label values = Ok xs -> says (JArr values) (JArr (map write xs)).
Proof.
  intros W D%distinct_elements H. apply traverse_Ok in H. apply array_says.
  apply Forall2_same_length_lookup. pose proof (Forall2_length _ _ _ H) as L. rewrite length_imap in L. split; [by rewrite length_map|].
  intros i v w Hv Hw. change (map write xs) with (write <$> xs) in Hw. rewrite list_lookup_fmap in Hw. destruct (xs !! i) as [x|] eqn:Hx; [|done]. injection Hw as <-.
  destruct (Forall2_lookup_r _ _ _ _ _ H Hx) as ([j u] & Hu & E). rewrite list_lookup_imap, Hv in Hu. injection Hu as <- <-.
  eapply W; [|exact E]. by apply (Forall_lookup_1 _ _ _ _ D Hv).
Qed.

Lemma object_read fields expected members : distinct_keys (JObj fields) = true ->
  py_set_eq (map fst fields) expected = true -> py_set_eq expected (map fst members) = true -> distinct (map fst members) = true ->
  Forall (fun kv => exists v, dict_get fields (fst kv) = Some v /\ says v (snd kv)) members -> says (JObj fields) (JObj members).
Proof.
  intros D K S DM F. apply object_says; [by apply distinct_nodup| |done|done]. intros k.
  rewrite (proj1 (py_set_eq_spec _ _) K). by apply py_set_eq_spec.
Qed.

(** Takes a reader apart, member by member. *)
Ltac read_step H :=
  first [ apply bind_Ok in H as (? & ?%string_at_Ok & H) | apply bind_Ok in H as (? & ?%sha256_at_Ok & H)
        | apply bind_Ok in H as (? & ?%integer_at_Ok & H) | apply bind_Ok in H as (? & ?%boolean_at_Ok & H)
        | apply bind_Ok in H as (? & ?%optional_string_at_Ok & H) | apply bind_Ok in H as (? & ?%optional_sha256_at_Ok & H)
        | apply bind_Ok in H as (? & ?%optional_integer_at_Ok & H) | apply bind_Ok in H as (? & ?%object_at_Ok & H)
        | apply bind_Ok in H as (? & ?%array_at_Ok & H) | apply bind_Ok in H as (? & ?%exact_keys_Ok & H)
        | apply bind_Ok in H as (? & ?%refuse_profile_Ok & H) ].
Ltac known_members :=
  repeat (apply Forall_cons; split; [eexists; split; [eassumption|first [reflexivity|eassumption]]|]); apply Forall_nil; exact I.

(** ** The sections of a document, written from the records *)

Definition machine_section_json (c : ProductionExecutionContext) (p : LinuxCNCProductionMachineProfile) : json :=
  JObj [
    ("source_machine_profile_id", JStr (pe_source_machine_profile_id c));
    ("source_machine_profile_version", JStr (pe_source_machine_profile_version c));
    ("source_machine_profile_fingerprint", JStr (pe_source_machine_profile_fingerprint c));
    ("machine_profile_id", JStr (pe_machine_profile_id c));
    ("machine_profile_version", JStr (pe_machine_profile_version c));
    ("controller_id", JStr (pe_controller_id c)); ("controller_version", JStr (pe_controller_version c));
    ("work_width_um", JInt (pe_work_width_um c)); ("work_height_um", JInt (pe_work_height_um c));
    ("work_z_um", JInt (pe_work_z_um c)); ("machine_x_min_um", JInt (pe_machine_x_min_um c));
    ("machine_x_max_um", JInt (pe_machine_x_max_um c)); ("machine_y_min_um", JInt (pe_machine_y_min_um c));
    ("machine_y_max_um", JInt (pe_machine_y_max_um c)); ("machine_z_min_um", JInt (pe_machine_z_min_um c));
    ("machine_z_max_um", JInt (pe_machine_z_max_um c)); ("min_spindle_rpm", JInt (pe_min_spindle_rpm c));
    ("max_spindle_rpm", JInt (pe_max_spindle_rpm c)); ("max_feed_um_min", JInt (pe_max_feed_um_min c));
    ("max_plunge_um_min", JInt (pe_max_plunge_um_min c));
    ("tool_catalog_version", JStr (pe_tool_catalog_version c));
    ("recipe_catalog_version", JStr (pe_recipe_catalog_version c));
    ("postprocessor_profile_id", JStr (lp_profile_id p));
    ("postprocessor_profile_version", JStr (lp_version p));
    ("postprocessor_profile_sha256", JStr (config_sha256 p))].

Definition fixture_section (s : BoundSetup) : json :=
  JObj [("fixture_id", JStr (bs_fixture_id s)); ("fixture_version", JStr (bs_fixture_version s));
        ("fixture_sha256", JStr (bs_fixture_sha256 s)); ("clearance_z_um", JInt (bs_fixture_clearance_z_um s));
        ("keep_out_policy", JStr (bs_keep_out_policy s))].

Definition setup_section (s : BoundSetup) : json :=
  JObj [
    ("setup_id", JStr (bs_setup_id s)); ("stock_id", JStr (bs_stock_id s));
    ("source_material_id", JStr (bs_source_material_id s));
    ("source_material_version", JStr (bs_source_material_version s)); ("material_id", JStr (bs_material_id s));
    ("material_version", JStr (bs_material_version s));
    ("material_evidence_id", JStr (bs_material_evidence_id s));
    ("material_evidence_version", JStr (bs_material_evidence_version s));
    ("material_evidence_sha256", JStr (bs_material_evidence_sha256 s));
    ("sheet_index", JInt (bs_sheet_index s)); ("side", JStr (side_value (bs_side s)));
    ("source_setup_sha256", JStr (bs_source_setup_sha256 s));
    ("source_to_wcs_xy_transform", JStr (bs_source_to_wcs_xy_transform s)); ("wcs", JStr (bs_wcs s));
    ("machine_wcs_origin", point_json (bs_machine_wcs_origin s));
    ("machine_wcs_z0_um", JInt (bs_machine_wcs_z0_um s));
    ("machine_wcs_xy_rotation_mdeg", JInt (bs_machine_wcs_xy_rotation_mdeg s));
    ("stock_width_um", JInt (bs_stock_width_um s)); ("stock_height_um", JInt (bs_stock_height_um s));
    ("stock_thickness_um", JInt (bs_stock_thickness_um s)); ("safe_z_um", JInt (bs_safe_z_um s));
    ("minimum_rapid_clearance_um", JInt (bs_minimum_rapid_clearance_um s));
    ("reference_surface", JStr (bs_reference_surface s)); ("orientation", JStr (bs_orientation s));
    ("fixture", fixture_section s); ("probe_method", JStr (bs_probe_method s));
    ("keep_out_zones", JArr (map rect_json (bs_keep_out_zones s)));
    ("raw_allowance_um", JInt (bs_raw_allowance_um s)); ("spoilboard_id", text_json (bs_spoilboard_id s));
    ("spoilboard_version", text_json (bs_spoilboard_version s));
    ("spoilboard_sha256", text_json (bs_spoilboard_sha256 s));
    ("through_cut_allowance_um", JInt (bs_through_cut_allowance_um s))].

Definition acceptance_section (status : string) (e : WorkshopAcceptanceEvidence) : json :=
  JObj [("status", JStr status); ("evidence_id", JStr (ev_evidence_id e)); ("evidence_version", JStr (ev_evidence_version e));
        ("evidence_sha256", JStr (ev_evidence_sha256 e))].

Definition payload_section (d : LoadedProductionMachineProfile) : json :=
  let c := ld_execution_context d in
  JObj [("profile_class", JStr (ld_profile_class d));
        ("acceptance", acceptance_section (ld_acceptance_status d) (ld_acceptance_evidence d));
        ("machine", machine_section_json c (ld_postprocessor_profile d));
        ("postprocessor_profile", profile_json (ld_postprocessor_profile d));
        ("setups", JArr (map setup_section (pe_setups c))); ("tools", JArr (map binding_json (pe_tool_bindings c)));
        ("recipes", JArr (map recipe_json (pe_recipes c)))].

(** The document that a loaded profile stands for. *)
Definition document_section (d : LoadedProductionMachineProfile) : json :=
  JObj [("schema_version", JStr (ld_schema_version d)); ("payload", payload_section d);
        ("payload_sha256", JStr (ld_payload_sha256 d))].

(** ** Each section was read in full *)

Lemma new_binding_id t t' : new_ProductionToolBinding t = Ok t' -> t' = t.
Proof. unfold new_ProductionToolBinding. intros H. repeat apply bind_Ok in H as (? & _ & H). by injection H. Qed.
Lemma new_recipe_id r r' : new_CuttingRecipe r = Ok r' -> r' = r.
Proof. unfold new_CuttingRecipe. intros H. repeat apply bind_Ok in H as (? & _ & H). by injection H. Qed.
Lemma new_setup_id s s' : new_BoundSetup s = Ok s' -> s' = s.
Proof. unfold new_BoundSetup. intros H. repeat apply bind_Ok in H as (? & _ & H). by injection H. Qed.
Lemma new_context_id c c' : new_ProductionExecutionContext c = Ok c' -> c' = c.
Proof. unfold new_ProductionExecutionContext. intros H. repeat apply bind_Ok in H as (? & _ & H). by injection H. Qed.

Lemma point_read value label p : distinct_keys value = true -> require_point value label = Ok p -> says value (point_json p).
Proof.
  unfold require_point. intros D H. apply bind_Ok in H as (fields & ->%require_object_Ok & H).
  do 3 read_step H. injection H as <-. eapply object_read; [done|eassumption|reflexivity|reflexivity|]. known_members.
Qed.

Lemma rect_read label value r : distinct_keys value = true -> parse_rect label value = Ok r -> says value (rect_json r).
Proof.
  unfold parse_rect. intros D H. apply bind_Ok in H as (fields & ->%require_object_Ok & H).
  do 5 read_step H. injection H as <-. eapply object_read; [done|eassumption|reflexivity|reflexivity|]. known_members.
Qed.

Lemma side_read value label s : parse_side value label = Ok s -> value = JStr (side_value s).
Proof.
  unfold parse_side. intros H. apply bind_Ok in H as (text & ->%require_string_Ok & H).
  apply bind_Ok in H as (side & E%of_option_Ok & H). apply bind_Ok in H as (? & _ & [= <-]).
  unfold side_of_value in E. apply List.find_some in E as [_ E%bool_decide_eq_true]. by rewrite E.
Qed.

Lemma tool_read label value t : distinct_keys value = true -> parse_tool label value = Ok t ->
  says value (binding_json t) /\ new_ProductionToolBinding t = Ok t.
Proof.
  unfold parse_tool. intros D H. apply bind_Ok in H as (fields & ->%require_object_Ok & H).
  do 2 read_step H. apply bind_Ok in H as (g & E%of_option_Ok & H). apply List.find_some in E as [_ E%bool_decide_eq_true].
  do 21 read_step H. pose proof (new_binding_id _ _ H) as ->. split; [|exact H]. subst.
  eapply object_read; [done|eassumption|reflexivity|reflexivity|]. known_members.
Qed.

Lemma recipe_read label value r : distinct_keys value = true -> parse_recipe label value = Ok r ->
  says value (recipe_json r) /\ new_CuttingRecipe r = Ok r.
Proof.
  unfold parse_recipe. intros D H. apply bind_Ok in H as (fields & ->%require_object_Ok & H). do 4 read_step H.
  apply bind_Ok in H as (k & E%of_option_Ok & H). apply List.find_some in E as [_ E%bool_decide_eq_true].
  do 24 read_step H. pose proof (new_recipe_id _ _ H) as ->. split; [|exact H]. subst.
  eapply object_read; [done|eassumption|reflexivity|reflexivity|]. known_members.
Qed.

Lemma setup_read label value s : distinct_keys value = true -> parse_setup label value = Ok s ->
  says value (setup_section s) /\ new_BoundSetup s = Ok s.
Proof.
  unfold parse_setup. intros D H. apply bind_Ok in H as (fields & ->%require_object_Ok & H). read_step H.
  apply bind_Ok in H as (origin & (vo & Do & Ho)%member_at_Ok & H). apply point_read in Ho; [|by eapply distinct_member].
  do 3 read_step H. apply bind_Ok in H as (zones & Hz & H).
  apply (parse_all_says _ rect_json) in Hz; [|apply rect_read|by eapply distinct_member].
  apply bind_Ok in H as (? & _ & H). do 4 read_step H.
  apply bind_Ok in H as (side & (vs & Ds & ->%side_read)%member_at_Ok & H).
  do 31 read_step H. pose proof (new_setup_id _ _ H) as ->. split; [|exact H].
  match goal with F : dict_get fields "fixture" = Some (JObj ?o) |- _ =>
    assert (distinct_keys (JObj o) = true) as DF by (by eapply distinct_member);
    assert (forall s, says (JObj o) (fixture_section s) -> exists v, dict_get fields "fixture" = Some v /\ says v (fixture_section s))
      as Fixture by (intros q Hq; exists (JObj o); split; [exact F|exact Hq]) end.
  eapply object_read; [done|eassumption|reflexivity|reflexivity|].
  repeat (apply Forall_cons; split; [first [eexists; split; [eassumption|first [reflexivity|eassumption]]|idtac]|]); [|by apply Forall_nil].
  apply Fixture. eapply object_read; [done|eassumption|reflexivity|reflexivity|]. known_members.
Qed.

Lemma acceptance_read value status e : distinct_keys value = true -> parse_acceptance value = Ok (status, e) ->
  says value (acceptance_section status e).
Proof.
  unfold parse_acceptance. intros D H. apply bind_Ok in H as (fields & ->%require_object_Ok & H). do 5 read_step H.
  apply bind_Ok in H as (e' & He & [= <- <-]). unfold new_WorkshopAcceptanceEvidence in He. do 3 apply bind_Ok in He as (? & _ & He).
  injection He as <-. eapply object_read; [done|eassumption|reflexivity|reflexivity|]. known_members.
Qed.

(** The machine section, with the binding of the postprocessor that the section
    itself declares. *)
Definition declared_machine (m : machine_section) (c : ProductionExecutionContext) (p : LinuxCNCProductionMachineProfile) : Prop :=
  (ms_postprocessor_profile_id m, ms_postprocessor_profile_version m, ms_postprocessor_profile_sha256 m) =
  (lp_profile_id p, lp_version p, config_sha256 p) /\
  exists setups tools recipes, c = context_of m setups tools recipes.

Lemma machine_read value m c p : distinct_keys value = true -> parse_machine value = Ok m -> declared_machine m c p ->
  says value (machine_section_json c p).
Proof.
  unfold parse_machine. intros D H [B (setups & tools & recipes & ->)].
  apply bind_Ok in H as (fields & ->%require_object_Ok & H). do 27 read_step H. injection H as <-.
  cbn [ms_postprocessor_profile_id ms_postprocessor_profile_version ms_postprocessor_profile_sha256] in B. injection B as E1 E2 E3.
  unfold machine_section_json. rewrite <- E1, <- E2, <- E3.
  eapply object_read; [done|eassumption|reflexivity|reflexivity|]. known_members.
Qed.

Section Loaded.
Context (limit : nat).

Lemma profile_section_read value p : distinct_keys value = true -> parse_postprocessor_profile limit value = Ok p ->
  says value (profile_json p) /\ valid_profile p.
Proof.
  unfold parse_postprocessor_profile. intros D H. apply bind_Ok in H as (fields & ->%require_object_Ok & H).
  destruct (text ← canonical_json_bytes (JObj fields); from_json limit text) as [q|[]] eqn:E; try done. injection H as ->.
  apply bind_Ok in E as (text & T & R). apply from_json_valid in R as (V & W & _). split; [|exact V].
  apply canonical_json_bytes_Ok in T as [_ ->], W as [_ W]. exact (json_dumps_inj _ _ W).
Qed.

(** What a loaded profile is made of. *)
Record loaded_parts (payload : list (string * json)) (c : ProductionExecutionContext) (p : LinuxCNCProductionMachineProfile) : Prop := {
  lp_machine : exists v m, dict_get payload "machine" = Some v /\ parse_machine v = Ok m /\ declared_machine m c p;
  lp_profile : exists v, dict_get payload "postprocessor_profile" = Some v /\ says v (profile_json p);
  lp_setups : exists v, dict_get payload "setups" = Some v /\ says v (JArr (map setup_section (pe_setups c)));
  lp_tools : exists v, dict_get payload "tools" = Some v /\ says v (JArr (map binding_json (pe_tool_bindings c)));
  lp_recipes : exists v, dict_get payload "recipes" = Some v /\ says v (JArr (map recipe_json (pe_recipes c)));
  lp_context : new_ProductionExecutionContext c = Ok c;
  lp_setups_ok : Forall (fun s => new_BoundSetup s = Ok s) (pe_setups c);
  lp_tools_ok : Forall (fun t => new_ProductionToolBinding t = Ok t) (pe_tool_bindings c);
  lp_recipes_ok : Forall (fun r => new_CuttingRecipe r = Ok r) (pe_recipes c);
  lp_valid : valid_profile p;
  lp_recipe_tools : check_all (check_recipe_tool (pe_tool_bindings c)) (pe_recipes c) = Ok ();
  lp_allowances : check_all (check_allowance (pe_recipes c)) (pe_setups c) = Ok ();
  lp_checked : exists m, cross_check_postprocessor_profile m c p = Ok () }.

Lemma parse_all_Forall {A} (parse : string -> json -> result A) (P : A -> Prop) label values xs :
  (forall l v x, distinct_keys v = true -> parse l v = Ok x -> P x) -> distinct_keys (JArr values) = true ->
  parse_all parse label values = Ok xs -> Forall P xs.
Proof.
  intros W D%distinct_elements H%traverse_Ok. apply Forall_forall. intros x [i Hx]%list_elem_of_lookup.
  destruct (Forall2_lookup_r _ _ _ _ _ H Hx) as ([j u] & Hu & E). rewrite list_lookup_imap in Hu.
  destruct (values !! i) as [v|] eqn:Hv; [|done]. injection Hu as <- <-. eapply W; [|exact E]. by apply (Forall_lookup_1 _ _ _ _ D Hv).
Qed.

(** A list of sections that a member holds. *)
Lemma section_list {A} (parse : string -> json -> result A) (write : A -> json) (make : A -> result A) payload key label xs :
  (forall l v x, distinct_keys v = true -> parse l v = Ok x -> says v (write x) /\ make x = Ok x) ->
  distinct_keys (JObj payload) = true ->
  (value ← at_key payload key; values ← require_array value label; parse_all parse label values) = Ok xs ->
  (exists v, dict_get payload key = Some v /\ says v (JArr (map write xs))) /\ Forall (fun x => make x = Ok x) xs.
Proof.
  intros W D H. apply bind_Ok in H as (v & Hv%at_key_Ok & H). apply bind_Ok in H as (values & ->%require_array_Ok & H).
  pose proof (distinct_member _ _ _ D Hv) as DV. split.
  - eexists. split; [exact Hv|]. eapply parse_all_says; [|exact DV|exact H]. intros l v x Dv E. by apply (W l v x).
  - eapply parse_all_Forall; [|exact DV|exact H]. intros l v x Dv E. by apply (W l v x).
Qed.

Lemma built_parts payload c p : distinct_keys (JObj payload) = true -> build_execution_context limit payload = Ok (c, p) ->
  loaded_parts payload c p.
Proof.
  unfold build_execution_context. intros D H.
  apply bind_Ok in H as (m & Hm & H). apply bind_Ok in Hm as (vm & Vm%at_key_Ok & Hm).
  apply bind_Ok in H as (q & Hq & H). apply bind_Ok in Hq as (vq & Vq%at_key_Ok & Hq).
  apply profile_section_read in Hq as [Sq Q]; [|by eapply distinct_member].
  apply bind_Ok in H as (setups & Hs & H). apply (section_list _ _ new_BoundSetup _ _ _ _ setup_read D) in Hs as [Ss Fs].
  apply bind_Ok in H as (tools & Ht & H). apply (section_list _ _ new_ProductionToolBinding _ _ _ _ tool_read D) in Ht as [St Ft].
  apply bind_Ok in H as (recipes & Hr & H). apply (section_list _ _ new_CuttingRecipe _ _ _ _ recipe_read D) in Hr as [Sr Fr].
  do 8 apply bind_Ok in H as (? & _ & H). apply bind_Ok in H as ([] & RT & H). apply bind_Ok in H as ([] & AL & H).
  apply bind_Ok in H as (c' & Hc & H). apply bind_Ok in H as ([] & X & [= <- <-]). pose proof (new_context_id _ _ Hc) as ->.
  constructor; try done; [|by exists vq|by exists m].
  exists vm, m. split_and!; [done|done|]. split; [|by exists setups, tools, recipes].
  unfold cross_check_postprocessor_profile in X. apply bind_Ok in X as (? & B%refuse_profile_Ok%negb_false_iff%bool_decide_eq_true & _). exact B.
Qed.
End Loaded.
