(* ===== verification/MachineProfileSound.v ===== *)
(** * What a loaded machine profile is good for

    A profile that loads is accepted by all its constructors, its two halves
    agree, and no production fact in an accepted document holds a placeholder
    word ([loaded_profile_trusted]); and what the toolpath generator returns for its
    context is written for its controller ([loaded_profile_posts]). *)

From S2P Require Import Prelude Text Identity JsonText JsonRead JsonFields ManufacturingModel Machining CamValidation ProductionModel ToolpathGeometry CapsuleGeometry ToolpathContracts Toolpaths ToolpathSafety ToolpathPrograms ProductionProfile ProductionParser ProductionPost ProductionMachine ProductionSafety ProductionText ProductionLines ProductionAccepted ProductionShop ProductionPosted ProductionReader MachineProfile MachineProfileText.

#[local] Open Scope Z_scope.

(** ** Documents *)

(** A mapping has every key once; bytes are checked when they are read. *)
Definition keyed_once (source : profile_source) : Prop :=
  match source with SourceMapping value => distinct_keys value = true | SourceBytes _ => True end.

Lemma parse_document_Ok limit source document : keyed_once source -> parse_document limit source = Ok document ->
  distinct_keys (JObj document) = true /\
  match source with SourceBytes raw => raw = canonical_json (JObj document) | SourceMapping _ => True end.
Proof.
  destruct source as [raw|value]; cbn [keyed_once parse_document]; intros K H.
  - apply bind_Ok in H as (? & _ & H). apply bind_Ok in H as (parsed & P & H).
    apply bind_Ok in H as (fields & ->%require_object_Ok & H). apply bind_Ok in H as (text & T & H).
    apply bind_Ok in H as (? & E%refuse_profile_Ok%negb_false_iff%bool_decide_eq_true & [= <-]). subst text.
    unfold canonical_or in T. apply bind_Ok in T as (? & L%raise_if_Ok%Nat.ltb_ge & T).
    destruct (canonical_json_bytes (JObj fields)) as [text|e] eqn:C; [|by destruct e]. injection T as ->.
    apply canonical_json_bytes_Ok in C as [_ ->]. split; [|done].
    destruct (text ← decode_utf8 (canonical_json (JObj fields)); loads machine_profile_decoder limit text) as [v|e] eqn:R; [|by destruct e].
    injection P as ->. apply bind_Ok in R as (text & D & R). apply bind_Ok in D as (? & _ & D). injection D as <-.
    unfold machine_profile_decoder in R. apply (proj1 (loads_canonical _ _ (JObj fields) _ limit L)) in R. by destruct R as (_ & R & _).
  - apply bind_Ok in H as (fields & ->%require_object_Ok & H). apply bind_Ok in H as (? & _ & H).
    by apply bind_Ok in H as (? & _ & [= <-]).
Qed.

(** ** Placeholders *)

(** The texts of a document that state production facts: all of them, except
    what the fields of [SOURCE_PROVENANCE_TEXT_FIELDS] hold, the names and versions
    of the catalogues the profile was drawn from, which may be those of reference
    data and are bound by their digests instead. *)
Fixpoint production_texts (v : json) : list string :=
  match v with
  | JStr s => [s]
  | JArr l => concat (map production_texts l)
  | JObj members =>
      concat (map (fun kv => if bool_decide (fst kv ∈ SOURCE_PROVENANCE_TEXT_FIELDS) then [] else production_texts (snd kv)) members)
  | _ => []
  end.

(** The words of a text in capitals, its runs of letters and digits. *)
Definition text_words (text : string) : list string := words_from [] (upper_text 0 (chars text)).

(** No production fact has a placeholder for a word. *)
Definition no_placeholder (v : json) : Prop :=
  forall text word, text ∈ production_texts v -> word ∈ text_words text -> word ∉ PRODUCTION_PLACEHOLDER_WORDS.

Lemma placeholders_none text word : placeholders text = [] -> word ∈ text_words text -> word ∉ PRODUCTION_PLACEHOLDER_WORDS.
Proof.
  intros E W N. assert (word ∈ placeholders text) as H; [|rewrite E in H; by apply not_elem_of_nil in H].
  unfold placeholders, sort_strings. rewrite elem_of_sort_by, list_elem_of_filter, elem_of_remove_dups. done.
Qed.

Lemma elem_of_concat_map {A B} (f : A -> list B) l y : y ∈ concat (map f l) <-> exists x, x ∈ l /\ y ∈ f x.
Proof. rewrite list_elem_of_In, <- flat_map_concat_map, in_flat_map. by setoid_rewrite list_elem_of_In. Qed.

Lemma rejected_placeholders v path u : reject_production_placeholders path v = Ok u -> no_placeholder v.
Proof.
  unfold no_placeholder. revert path u. induction v as [|b|z|s|l IH|l IH] using json_nested_ind; intros path u H text word Ht Hw.
  1-3: by apply not_elem_of_nil in Ht.
  - apply list_elem_of_singleton in Ht as ->. cbn [reject_production_placeholders] in H.
    apply (placeholders_none s); [by destruct (placeholders s)|done].
  - cbn [production_texts] in Ht. apply elem_of_concat_map in Ht as (v & Hv & Ht).
    cbn [reject_production_placeholders] in H. rewrite Forall_forall in IH. revert u H IH Hv. generalize 0%nat.
    induction l as [|v' l IHl]; intros i u H IH Hv; [by apply not_elem_of_nil in Hv|].
    apply bind_Ok in H as (? & H1 & H). apply elem_of_cons in Hv as [->|Hv].
    + eapply (IH v' ltac:(left)); eassumption.
    + eapply IHl; [exact H| |exact Hv]. intros y Hy. apply IH. by right.
  - cbn [production_texts] in Ht. apply elem_of_concat_map in Ht as (kv & Hkv & Ht).
    cbn [reject_production_placeholders] in H. apply check_all_Ok in H. rewrite Forall_forall in IH, H.
    specialize (H kv Hkv). specialize (IH kv Hkv). cbn beta in H.
    destruct (bool_decide (fst kv ∈ _)); [by apply not_elem_of_nil in Ht|]. by eapply IH.
Qed.

Lemma canonical_texts v : production_texts (canonical v) ≡ₚ production_texts v.
Proof.
  induction v as [|b|z|s|l IH|l IH] using json_nested_ind; try done.
  - cbn [canonical production_texts]. induction IH as [|v l Hv _ IHl]; [done|]. cbn [map concat]. by rewrite Hv, IHl.
  - destruct (canonical_fields l) as (fields & -> & P). cbn [production_texts]. rewrite P. clear P.
    induction IH as [|[k v] l Hv _ IHl]; [done|]. cbn [map concat fst snd] in *. rewrite IHl.
    destruct (bool_decide _); [done|]. by rewrite Hv.
Qed.

Lemma canonical_placeholder v : no_placeholder (canonical v) <-> no_placeholder v.
Proof. unfold no_placeholder. by setoid_rewrite canonical_texts. Qed.

(** ** Loading *)

Record loaded_facts (source : profile_source) (allow : bool) (d : LoadedProductionMachineProfile) : Prop := {
  lf_payload : exists payload, ld_canonical_payload_json d = canonical_json (JObj payload) /\
    says (JObj payload) (payload_section d) /\ loaded_parts payload (ld_execution_context d) (ld_postprocessor_profile d) /\
    ld_payload_sha256 d = content_hash (JObj payload) /\
    check_profile_class (ld_profile_class d) (ld_acceptance_status d) allow (JObj payload) = Ok ();
  lf_document : exists document, ld_canonical_document_json d = canonical_json (JObj document) /\
    says (JObj document) (document_section d) /\ ld_document_sha256 d = content_hash (JObj document) /\
    match source with SourceBytes raw => raw = canonical_json (JObj document) | SourceMapping _ => True end }.

Lemma loaded limit source allow d : keyed_once source -> load_production_machine_profile limit source allow = Ok d ->
  loaded_facts source allow d.
Proof.
  intros K H. unfold load_production_machine_profile in H. apply bind_Ok in H as (document & P & H).
  apply (parse_document_Ok _ _ _ K) in P as [D R]. read_step H.
  apply bind_Ok in H as (schema & Hs & H). apply bind_Ok in Hs as (vs & Vs%at_key_Ok & ->%require_string_Ok).
  apply bind_Ok in H as (? & _ & H).
  apply bind_Ok in H as (payload & Hp & H). apply bind_Ok in Hp as (vp & Vp%at_key_Ok & ->%require_object_Ok).
  apply bind_Ok in H as (digest & Hd & H). apply bind_Ok in Hd as (vd & Vd%at_key_Ok & [-> _]%require_sha256_Ok).
  apply bind_Ok in H as (? & Ed%refuse_profile_Ok%negb_false_iff%bool_decide_eq_true & H). read_step H.
  apply bind_Ok in H as (class & Hc & H). apply bind_Ok in Hc as (vc & Vc%at_key_Ok & ->%require_string_Ok).
  apply bind_Ok in H as ([status evidence] & Ha & H). apply bind_Ok in Ha as (va & Va%at_key_Ok & Ha).
  pose proof (distinct_member _ _ _ D Vp) as DP. apply acceptance_read in Ha; [|by eapply distinct_member].
  apply bind_Ok in H as ([] & Cl & H). apply bind_Ok in H as ([c p] & Hb & H).
  assert (build_execution_context limit payload = Ok (c, p)) as Hb'.
  { unfold as_contract_error in Hb. destruct (build_execution_context _ _) as [q|e]; [done|by destruct e]. }
  apply (built_parts _ _ _ _ DP) in Hb'. injection H as <-.
  assert (says (JObj payload) (payload_section (mkLoaded schema class status evidence digest (content_hash (JObj document))
    (canonical_json (JObj payload)) (canonical_json (JObj document)) c p))) as SP.
  { destruct Hb' as [(vm & m & Vm & Pm & Bm) Sp Ss St Sr _ _ _ _ _ _ _ _]. apply (machine_read _ m c p) in Pm; [|by eapply distinct_member|done].
    eapply object_read; [done|eassumption|reflexivity|reflexivity|].
    repeat (apply Forall_cons; split; [first [exact Sp|exact Ss|exact St|exact Sr|eexists; split; [eassumption|first [reflexivity|eassumption]]]|]).
    by apply Forall_nil. }
  constructor; [by exists payload|]. exists document. split_and!; [done| |done|done].
  eapply object_read; [done|eassumption|reflexivity|reflexivity|]. known_members.
Qed.

Lemma says_text v w : says v w -> canonical_json v = canonical_json w.
Proof. intros S. unfold canonical_json. by rewrite S. Qed.
Lemma says_hash v w : says v w -> content_hash v = content_hash w.
Proof. intros S. unfold content_hash. by rewrite (says_text _ _ S). Qed.

(** C7: Nothing in a machine profile is ignored.  Whatever document loads, the records
    it became determine it: writing them out again, section by section, gives its
    canonical text and its two digests, and a document that came as bytes is exactly
    that text.  So two files that load as the same profile are the same file. *)
Theorem loaded_document_exact limit source allow d :
  keyed_once source -> load_production_machine_profile limit source allow = Ok d ->
  ld_canonical_document_json d = canonical_json (document_section d) /\
  ld_canonical_payload_json d = canonical_json (payload_section d) /\
  ld_document_sha256 d = content_hash (document_section d) /\ ld_payload_sha256 d = content_hash (payload_section d) /\
  forall raw, source = SourceBytes raw -> raw = canonical_json (document_section d).
Proof.
  intros K H. destruct (loaded _ _ _ _ K H) as [(payload & E1 & S1 & _ & H1 & _) (document & E2 & S2 & H2 & R)].
  rewrite E1, E2, H1, H2, (says_text _ _ S1), (says_text _ _ S2), (says_hash _ _ S1), (says_hash _ _ S2).
  split_and!; [done..|]. intros raw ->. by rewrite R, (says_text _ _ S2).
Qed.

(** ** Trust *)

(** Who may answer for a profile, and what is then known of its texts. *)
Definition answered_for (allow : bool) (d : LoadedProductionMachineProfile) : Prop :=
  (ld_profile_class d = SERVER_OWNED_PRODUCTION_PROFILE /\ ld_acceptance_status d = WORKSHOP_ACCEPTED_STATUS /\
   no_placeholder (payload_section d)) \/
  (ld_profile_class d = TEST_ONLY_PROFILE /\ ld_acceptance_status d = TEST_ONLY_STATUS /\ allow = true).

Lemma class_checked allow d payload : says (JObj payload) (payload_section d) ->
  check_profile_class (ld_profile_class d) (ld_acceptance_status d) allow (JObj payload) = Ok () -> answered_for allow d.
Proof.
  intros S. unfold check_profile_class. case_bool_decide as T; [|case_bool_decide as P; [|done]]; intros H;
    apply bind_Ok in H as (? & A%refuse_profile_Ok%negb_false_iff%bool_decide_eq_true & H).
  - apply refuse_profile_Ok, negb_false_iff in H. by right.
  - left. split_and!; [done..|]. apply canonical_placeholder. rewrite <- S. apply canonical_placeholder. by eapply rejected_placeholders.
Qed.

(** The offset the profile has for the work offset of a setup is the setup's. *)
Lemma offset_checked p s : check_setup_offset p s = Ok () -> existsb (offset_agrees s) (lp_wcs_offsets p) = true.
Proof.
  unfold check_setup_offset. intros H. apply bind_Ok in H as (o & Ho%of_option_Ok & H).
  apply refuse_profile_Ok, negb_false_iff, bool_decide_eq_true in H. unfold offset_of_wcs in Ho.
  apply last_Some_elem_of, list_elem_of_filter in Ho as [W Ho]. apply existsb_exists. exists o. split; [by apply list_elem_of_In|].
  unfold offset_agrees, offset_row, setup_row. injection H as E1 E2 E3 E4. rewrite E1, E2, E3, E4.
  by rewrite !bool_decide_true.
Qed.

Lemma halves_agree m c p : cross_check_postprocessor_profile m c p = Ok () ->
  profile_binding p = context_binding c /\ profile_bounds p = context_bounds c /\
  Forall (fun s => existsb (offset_agrees s) (lp_wcs_offsets p) = true) (pe_setups c).
Proof.
  unfold cross_check_postprocessor_profile. intros H.
  apply bind_Ok in H as (? & _ & H). apply bind_Ok in H as (? & B1%refuse_profile_Ok & H). apply bind_Ok in H as (? & B2%refuse_profile_Ok & H).
  apply bind_Ok in H as (? & B3%refuse_profile_Ok & H). apply bind_Ok in H as (? & _ & H). apply bind_Ok in H as (? & E%check_all_Ok & O%check_all_Ok).
  bprop. unfold profile_binding, context_binding, profile_bounds, context_bounds.
  repeat (apply Forall_cons in E as [?%refuse_profile_Ok E]). bprop. split_and!; [by repeat f_equal|by repeat f_equal|].
  eapply Forall_impl; [exact O|]. intros s. apply offset_checked.
Qed.

(** A recipe and the tool it is for. *)
Definition recipe_suits (tools : list ProductionToolBinding) (r : CuttingRecipe) : Prop :=
  exists t, t ∈ tools /\ binding_key_of t = (cr_tool_id r, cr_tool_version r) /\
    cr_stepdown_um r <= tb_cutting_length_um t /\ 0 < stepover_um t r /\
    match cr_operation_kind r with
    | OP_POCKET | OP_GROOVE | OP_CONTOUR => tb_geometry t = FLAT_END_MILL /\ tb_center_cutting t = true
    | OP_DRILL => tb_geometry t = DRILL_GEOMETRY
    | OP_COUNTERSINK => tb_geometry t = COUNTERSINK_GEOMETRY /\ cr_countersink_top_diameter_um r = Some (tb_effective_diameter_um t)
    | OP_ENGRAVE => True
    end.

Lemma recipe_checked tools r : check_recipe_tool tools r = Ok () -> recipe_suits tools r.
Proof.
  unfold check_recipe_tool. intros H. apply bind_Ok in H as (t & Ht%of_option_Ok & H).
  apply last_Some_elem_of, list_elem_of_filter in Ht as [K Ht].
  apply bind_Ok in H as (? & S%refuse_profile_Ok & H). apply bind_Ok in H as (? & O%refuse_profile_Ok & H).
  exists t. split_and!; [done|done|lia|unfold stepover_um; lia|].
  destruct (cr_operation_kind r); try done.
  2: apply bind_Ok in H as (? & G%refuse_profile_Ok & H).
  all: apply refuse_profile_Ok in H; bprop; destruct (tb_geometry t); done.
Qed.

(** C5: A machine profile that loads can be trusted as far as it goes.  Its context,
    setups, tools and recipes and its postprocessor profile are accepted by their
    constructors; the two halves name the same machine, controller, spindle limits,
    axes and work offsets; every recipe has a tool that can cut it; and either the
    workshop accepted it and no word of its texts is a placeholder, outside the six
    fields that name where validation data came from, or it is a test profile and a
    test asked for it. *)
Theorem loaded_profile_trusted limit source allow d :
  keyed_once source -> load_production_machine_profile limit source allow = Ok d ->
  let c := ld_execution_context d in let p := ld_postprocessor_profile d in
  well_formed_context c /\ valid_profile p /\
  profile_binding p = context_binding c /\ profile_bounds p = context_bounds c /\
  Forall (fun s => existsb (offset_agrees s) (lp_wcs_offsets p) = true) (pe_setups c) /\
  Forall (recipe_suits (pe_tool_bindings c)) (pe_recipes c) /\ answered_for allow d.
Proof.
  intros K H. destruct (loaded _ _ _ _ K H) as [(payload & _ & S & [_ _ _ _ _ Hc Hs Ht Hr V RT _ (m & X)] & _ & C) _].
  destruct (halves_agree _ _ _ X) as (B & Bo & O). cbv zeta. split_and!; try done.
  - apply check_all_Ok in RT. eapply Forall_impl; [exact RT|]. intros r. apply recipe_checked.
  - by eapply class_checked.
Qed.

(** C39: From the profile on file to the programs.  For a profile that loads, whose
    tool change is above every clearance plane and whose names and numbers fit the
    lines of a program: whatever the toolpath generator returns for its context is
    written for its controller, one program for each planned one under names of
    their own, and the validator reads each back as the planned moves. *)
Theorem loaded_profile_posts limit source allow d doc result :
  keyed_once source -> load_production_machine_profile limit source allow = Ok d ->
  let c := ld_execution_context d in let p := ld_postprocessor_profile d in
  Forall (fun s => bs_safe_z_um s <= pe_work_z_um c /\
                   Forall (fun t => safe_machine_z_um s t <= lp_tool_change_z_um p) (pe_tool_bindings c)) (pe_setups c) ->
  writable p c = true -> Forall (fun o => (String.length (op_operation_id o) <= 200)%nat) (od_operations doc) ->
  modest (Z.of_nat (length (pt_programs result))) = true -> generate_production_toolpaths doc c = Ok result ->
  exists outputs, generate_production p result = Ok outputs /\ NoDup (map pm_filename outputs) /\
    Forall2 (fun planned output => pm_program_id output = pg_program_id planned /\
      exists parsed, validate_production_program (pm_content output) result planned p = Ok parsed /\
        Forall2 agrees (pr_moves parsed) (pg_moves planned)) (pt_programs result) outputs.
Proof.
  intros K H c p Z W N M G. destruct (loaded _ _ _ _ K H) as [(payload & _ & _ & [_ _ _ _ _ Hc Hs Ht Hr V _ _ (m & X)] & _ & _) _].
  destruct (halves_agree _ _ _ X) as (B & Bo & O).
  destruct (documents_posted doc c p result) as (outputs & E & D & F); try done.
  - apply V.
  - unfold installation_fits. fold c p in B, Bo. rewrite !bool_decide_true by done. cbn [andb]. apply forallb_Forall.
    fold c p in O. rewrite Forall_forall in O, Z |- *. intros s Hs'. destruct (Z s Hs') as [Z1 Z2]. rewrite (O s Hs'). cbn [andb].
    apply andb_true_iff. split; [lia|]. apply forallb_Forall. eapply Forall_impl; [exact Z2|]. intros t. cbn. lia.
  - exists outputs. split_and!; [done..|]. eapply Forall2_impl; [exact F|]. intros planned output (? & _ & _ & _ & _ & ?). done.
Qed.
