(* ===== verification/MachineProfileExamples.v ===== *)
(** * The machine profile of a deployment, at a concrete input

    The shop of [ToolpathExamples] and its installation as one document, loaded by
    a test harness.  The digests stay symbolic: they are only ever compared with
    themselves. *)

From S2P Require Import Prelude Text GCode Identity JsonText JsonRead JsonFields ManufacturingModel Machining CamValidation ProductionModel ToolpathGeometry CapsuleGeometry ToolpathContracts Toolpaths ToolpathSafety ToolpathPrograms ToolpathExamples ProductionProfile ProductionParser ProductionPost ProductionMachine ProductionSafety ProductionText ProductionLines ProductionAccepted ProductionShop ProductionPosted ProductionReader ProductionExamples MachineProfile MachineProfileText MachineProfileSound.

#[local] Open Scope Z_scope.

(** ** Digests are canonical strings *)

Definition hash_char (c : ascii) : bool := is_digit c || ascii_in "a" "f" c.

Lemma prefix_of_hash p l : is_some (after_prefix p l) = true -> forallb hash_char l = true -> forallb hash_char p = true.
Proof.
  revert l. induction p as [|c p IH]; intros [|d l]; cbn; try done. case_bool_decide as E; [subst d|done].
  intros H [-> F]%andb_true_iff. by apply (IH l).
Qed.

Lemma hash_read h label : design_hash_ok h = true -> require_sha256 (JStr h) label = Ok h.
Proof.
  intros H. unfold require_sha256. assert (not_stripped h = false) as E.
  { unfold design_hash_ok in H. apply andb_true_iff in H as [L%bool_decide_eq_true F].
    unfold not_stripped. rewrite bool_decide_false by (by intros ->). cbn [orb]. apply not_true_iff_false.
    rewrite existsb_exists. intros (space & Hs & P).
    assert (forallb (fun s => negb (forallb hash_char (chars s)) && negb (forallb hash_char (rev (chars s)))) SPACES = true) as A
      by (vm_compute; reflexivity).
    rewrite forallb_forall in A. specialize (A space Hs). apply andb_true_iff in A as [A1%negb_true_iff A2%negb_true_iff].
    apply orb_true_iff in P as [P|P]; unfold starts_with, ends_with in P.
    - apply prefix_of_hash in P; [|exact F]. by rewrite P in A1.
    - apply prefix_of_hash in P; [by rewrite P in A2|]. apply forallb_forall. intros c Hc. rewrite forallb_forall in F. by apply F, in_rev. }
  cbn [require_string]. rewrite E. unfold refuse_profile. cbn [raise_if mbind result_bind]. by rewrite H.
Qed.

Lemma hash_at h fields label key : design_hash_ok h = true -> dict_get fields key = Some (JStr h) -> sha256_at fields label key = Ok h.
Proof. intros H E. unfold sha256_at, member_at, at_key. rewrite E. by apply hash_read. Qed.

Lemma hash_size h : design_hash_ok h = true -> text_size h = 386.
Proof. intros H. unfold text_size. by rewrite (proj2 (hash_clean _ H)). Qed.

(** A profile as a section of the document. *)
Lemma profile_section_written limit p : (4 <= limit)%nat -> valid_profile p -> ints_fit (profile_json p) = true ->
  text_bound (profile_json p) <= 64000 -> parse_postprocessor_profile limit (profile_json p) = Ok p.
Proof.
  intros HL V I B. unfold parse_postprocessor_profile.
  change (profile_json p) with (JObj (profile_members p)) at 1. cbn [require_object mbind result_bind].
  change (JObj (profile_members p)) with (profile_json p).
  assert (to_json p = Ok (canonical_json (profile_json p))) as T by (unfold to_json, canonical_json_bytes; by rewrite I).
  unfold to_json in T. rewrite T. cbn [mbind result_bind].
  rewrite (written_profile_read limit _ p HL V T); [done|]. exact (Z.le_trans _ _ _ (canonical_length (profile_json p)) B).
Qed.

(** ** The document of the shop *)

Definition shop_acceptance : WorkshopAcceptanceEvidence := mkEvidence "bench-run" "1" evidence.
Definition shop_loaded (payload_sha256 document_sha256 payload document : string) : LoadedProductionMachineProfile :=
  mkLoaded PRODUCTION_MACHINE_PROFILE_SCHEMA_VERSION TEST_ONLY_PROFILE TEST_ONLY_STATUS shop_acceptance payload_sha256 document_sha256
    payload document shop shop_profile.

Definition shop_payload : json := payload_section (shop_loaded "" "" "" "").
Definition shop_document : json :=
  JObj [("schema_version", JStr PRODUCTION_MACHINE_PROFILE_SCHEMA_VERSION); ("payload", shop_payload);
        ("payload_sha256", JStr (content_hash shop_payload))].
Definition shop_record : LoadedProductionMachineProfile :=
  shop_loaded (content_hash shop_payload) (content_hash shop_document) (canonical_json shop_payload) (canonical_json shop_document).

Definition shop_machine (config : string) : machine_section :=
  mkMachineSection REFERENCE_MACHINE_PROFILE_ID "1.0.0-validation" "c0ecd63ec626e644b32f24159578b72089fe86ef9e1e21e63911621a16b949b4"
    "shop-router" "2" "linuxcnc" "2.9.4" 1300000 2500000 250000 0 1300000 0 2500000 (-100000) 150000 6000 24000 5000000 2000000
    "tools-7" "recipes-4" "shop-linuxcnc" "5" config.

Definition machine_members (config : string) : json :=
  match machine_section_json shop shop_profile with
  | JObj members => JObj (take 24 members ++ [("postprocessor_profile_sha256", JStr config)])
  | v => v
  end.

Lemma shop_machine_read config : design_hash_ok config = true -> parse_machine (machine_members config) = Ok (shop_machine config).
Proof.
  intros H. unfold parse_machine, machine_members, machine_section_json. cbn [take app require_object mbind result_bind].
  repeat (eapply bind_known; [first [apply (hash_at config _ _ _ H); reflexivity|vm_compute; reflexivity]|]). reflexivity.
Qed.

Definition payload_members : list (string * json) := match shop_payload with JObj members => members | _ => [] end.

Lemma shop_context_read : build_execution_context 1000 payload_members = Ok (shop, shop_profile).
Proof.
  unfold build_execution_context.
  eapply (bind_known _ (shop_machine (config_sha256 shop_profile))).
  { change (parse_machine (machine_members (config_sha256 shop_profile)) = Ok (shop_machine (config_sha256 shop_profile))).
    apply shop_machine_read, content_hash_ok. }
  eapply (bind_known _ shop_profile).
  { change (parse_postprocessor_profile 1000 (profile_json shop_profile) = Ok shop_profile).
    apply profile_section_written; [apply Nat.leb_le; reflexivity|exact shop_profile_valid|reflexivity|exact shop_profile_bound]. }
  do 3 (eapply bind_known; [vm_compute; reflexivity|]).
  change [bound_setup] with (pe_setups shop).
  do 8 (eapply bind_known; [vm_compute; reflexivity|]).
  do 2 (eapply bind_known; [vm_compute; reflexivity|]).
  eapply (bind_known _ shop).
  { generalize (config_sha256 shop_profile). intros config. vm_compute. reflexivity. }
  eapply (bind_known _ ()).
  { unfold cross_check_postprocessor_profile. eapply (bind_known _ ()).
    - assert (forall h : string, (ms_postprocessor_profile_id (shop_machine h), ms_postprocessor_profile_version (shop_machine h),
        ms_postprocessor_profile_sha256 (shop_machine h)) = (lp_profile_id shop_profile, lp_version shop_profile, h)) as E by reflexivity.
      by rewrite E, bool_decide_true.
    - vm_compute. reflexivity. }
  reflexivity.
Qed.

Definition payload_with (machine profile : json) : list (string * json) :=
  take 2 payload_members ++ ("machine", machine) :: ("postprocessor_profile", profile) :: drop 4 payload_members.

Lemma payload_bound machine profile : text_bound machine <= 7000 -> text_bound profile <= 64000 ->
  text_bound (JObj (payload_with machine profile)) <= 110000.
Proof.
  intros M P. unfold payload_with.
  change (text_bound (JObj ?l)) with (2 + sum_of (fun kv => text_size (fst kv) + text_bound (snd kv) + 2) l).
  rewrite (sum_of_split _ _ 2 ("machine", machine)) by reflexivity.
  change (take 2 (take 2 payload_members ++ ?l)) with (take 2 payload_members).
  change (drop 3 (take 2 payload_members ++ _ :: ?l)) with l. cbn [sum_of fst snd].
  assert (sum_of (fun kv => text_size (fst kv) + text_bound (snd kv) + 2) (take 2 payload_members) <= 2000) by
    (apply Z.leb_le; vm_compute; reflexivity).
  assert (sum_of (fun kv => text_size (fst kv) + text_bound (snd kv) + 2) (drop 4 payload_members) <= 35000) by
    (apply Z.leb_le; vm_compute; reflexivity).
  assert (text_size "machine" + text_size "postprocessor_profile" <= 300) by (apply Z.leb_le; vm_compute; reflexivity). lia.
Qed.

Lemma machine_bound config : text_size config = 386 -> text_bound (machine_members config) <= 7000.
Proof.
  intros L. unfold machine_members, machine_section_json. cbn [take app text_bound sum_of fst snd]. rewrite L.
  apply Z.leb_le. vm_compute. reflexivity.
Qed.

Lemma shop_payload_bound : text_bound shop_payload <= 110000.
Proof.
  exact (payload_bound (machine_members (config_sha256 shop_profile)) (profile_json shop_profile)
    (machine_bound _ (hash_size _ (content_hash_ok _))) shop_profile_bound).
Qed.

Lemma shop_document_bound : text_bound shop_document <= 120000.
Proof.
  assert (forall payload h, text_bound payload <= 110000 -> text_size h = 386 ->
    text_bound (JObj [("schema_version", JStr PRODUCTION_MACHINE_PROFILE_SCHEMA_VERSION); ("payload", payload); ("payload_sha256", JStr h)])
      <= 120000) as H.
  { intros payload h B L. cbn [text_bound sum_of fst snd]. rewrite L.
    assert (text_size "schema_version" + text_size PRODUCTION_MACHINE_PROFILE_SCHEMA_VERSION + text_size "payload" +
            text_size "payload_sha256" <= 1000) by (apply Z.leb_le; vm_compute; reflexivity). lia. }
  exact (H _ _ shop_payload_bound (hash_size _ (content_hash_ok shop_payload))).
Qed.

(** ** It loads *)

Lemma canonical_or_read limit document error : (nesting document <= limit)%nat -> ints_fit document = true ->
  canonical_or limit document error = Ok (canonical_json document).
Proof.
  intros L I. unfold canonical_or. rewrite (proj2 (Nat.ltb_ge _ _) L). cbn [raise_if mbind result_bind].
  unfold canonical_json_bytes. by rewrite I.
Qed.

Definition document_members : list (string * json) := match shop_document with JObj members => members | _ => [] end.

Lemma shop_document_parsed : parse_document 1000 (SourceMapping shop_document) = Ok document_members.
Proof.
  cbn [parse_document]. eapply (bind_known _ document_members); [reflexivity|].
  change (JObj document_members) with shop_document.
  eapply (bind_known _ (canonical_json shop_document)).
  { apply canonical_or_read; [apply Nat.leb_le; reflexivity|reflexivity]. }
  unfold refuse_profile. pose proof (Z.le_trans _ _ _ (canonical_length shop_document) shop_document_bound) as B.
  assert (MAX_PRODUCTION_MACHINE_PROFILE_BYTES <? Z.of_nat (String.length (canonical_json shop_document)) = false) as ->
    by (apply Z.ltb_ge; unfold MAX_PRODUCTION_MACHINE_PROFILE_BYTES; lia). reflexivity.
Qed.

Lemma shop_loads : load_production_machine_profile 1000 (SourceMapping shop_document) true = Ok shop_record.
Proof.
  unfold load_production_machine_profile. eapply bind_known; [exact shop_document_parsed|].
  eapply (bind_known _ ()); [reflexivity|].
  eapply (bind_known _ PRODUCTION_MACHINE_PROFILE_SCHEMA_VERSION); [vm_compute; reflexivity|].
  eapply (bind_known _ ()); [reflexivity|].
  eapply (bind_known _ payload_members); [reflexivity|].
  change (JObj payload_members) with shop_payload. change (JObj document_members) with shop_document.
  eapply (bind_known _ (content_hash shop_payload)); [exact (hash_read _ "payload_sha256" (content_hash_ok shop_payload))|].
  eapply (bind_known _ ()); [by rewrite bool_decide_true|].
  eapply (bind_known _ ()); [reflexivity|].
  eapply (bind_known _ TEST_ONLY_PROFILE); [reflexivity|].
  eapply (bind_known _ (TEST_ONLY_STATUS, shop_acceptance)); [vm_compute; reflexivity|].
  eapply (bind_known _ ()); [reflexivity|].
  eapply (bind_known _ (shop, shop_profile)); [by rewrite shop_context_read|]. reflexivity.
Qed.

Lemma shop_keyed : keyed_once (SourceMapping shop_document).
Proof. reflexivity. Qed.

Lemma loaded_document_exact_witness :
  load_production_machine_profile 1000 (SourceMapping shop_document) true = Ok shop_record /\
  ld_document_sha256 shop_record = content_hash (document_section shop_record).
Proof.
  split; [exact shop_loads|]. exact (proj1 (proj2 (proj2 (loaded_document_exact 1000 _ true shop_record shop_keyed shop_loads)))).
Defined.

Lemma loaded_profile_trusted_witness :
  load_production_machine_profile 1000 (SourceMapping shop_document) true = Ok shop_record /\
  profile_binding shop_profile = context_binding shop /\ Forall (recipe_suits (pe_tool_bindings shop)) (pe_recipes shop).
Proof.
  split; [exact shop_loads|]. destruct (loaded_profile_trusted 1000 _ true shop_record shop_keyed shop_loads) as (_ & _ & B & _ & _ & R & _).
  split; [exact B|exact R].
Defined.

(** The version of a reference catalogue may be named as the source of validation
    data, and nowhere else. *)
Example provenance_exempt :
  reject_production_placeholders "payload" (JObj [("source_machine_profile_version", JStr "screening-2026.1")]) = Ok () /\
  reject_production_placeholders "payload" (JObj [("machine_id", JStr "screening-2026.1")]) =
    Err (profile_error "payload.machine_id contains forbidden production placeholder token: SCREENING").
Proof. split; vm_compute; reflexivity. Qed.

(** The trays are cut with the profile on file. *)
Lemma loaded_profile_posts_witness :
  exists result outputs,
    load_production_machine_profile 1000 (SourceMapping shop_document) true = Ok shop_record /\
    generate_production_toolpaths tray_operations (ld_execution_context shop_record) = Ok result /\
    generate_production (ld_postprocessor_profile shop_record) result = Ok outputs /\ NoDup (map pm_filename outputs).
Proof.
  destruct tray_generated as (result & H & Hn). pose proof (f_equal length (proj1 (bool_decide_eq_true _) Hn)) as L.
  unfold move_counts in L. rewrite length_map in L. cbn [length] in L.
  assert (modest (Z.of_nat (length (pt_programs result))) = true) as M by (rewrite L; vm_compute; reflexivity).
  assert (Forall (fun s => bs_safe_z_um s <= pe_work_z_um shop /\
            Forall (fun t => safe_machine_z_um s t <= lp_tool_change_z_um shop_profile) (pe_tool_bindings shop)) (pe_setups shop)) as Z
    by (repeat constructor; apply Z.leb_le; vm_compute; reflexivity).
  destruct (loaded_profile_posts 1000 _ true shop_record tray_operations result shop_keyed shop_loads Z (proj2 shop_installation)
    tray_names M H) as (outputs & G & N & _).
  exists result, outputs. split; [exact shop_loads|]. split; [exact H|]. split; [exact G|exact N].
Defined.
